(* ===== verification/_CoqProject ===== *)
-Q . S2P
Prelude.v
Errors.v
KeyInfo.v
Interfaces.v
DelaySuspendInfo.v
PkgDelaySuspendInfo.v
DeviceInfo.v
DecisionMaker.v
DecisionMakerSpec.v
DecisionMakerProps.v
DecisionMakerWitness.v
TransientTaskMgr.v
TransientTaskMgrSpec.v
TransientTaskMgrProps.v
TransientTaskMgrWitness.v
ResourceTypes.v
EfficiencyResources.v
EfficiencyResourcesSpec.v
Json.v
ResourceStorage.v
EfficiencyRestart.v
EfficiencyResourcesProps.v
EfficiencyResourcesEntry.v
EfficiencyResourcesWitness.v
BgtaskConfig.v
ConfigWitness.v
BackgroundModes.v
ContinuousTaskRecord.v
ContinuousTypes.v
NotificationTools.v
ContinuousTaskMgr.v
ContinuousTaskStart.v
ContinuousTaskStop.v
ContinuousAuth.v
ContinuousQueries.v
ContinuousRestart.v
ContinuousSystem.v
ContinuousTaskMgrSpec.v
ContinuousInvariant.v
ContinuousStorageProps.v
ContinuousWellFormed.v
ContinuousTaskMgrProps.v
ContinuousStartProps.v
ContinuousActivation.v
ContinuousStopProps.v
ContinuousAbilityStop.v
ContinuousLabels.v
ContinuousAuthProps.v
ContinuousRestartProps.v
ContinuousAppStop.v
ContinuousWitness.v
RecordFiles.v
BackgroundTaskMgrService.v
BackgroundTaskMgrSystem.v
BackgroundTaskMgrRun.v
BackgroundTaskMgrProps.v
BackgroundTaskMgrReady.v
Parcel.v
Parcelables.v
ParcelableProps.v
RequestArrival.v
BackgroundTaskObserver.v
Observers.v
PluginAdapters.v
ObserverProps.v
BackgroundTaskManager.v
ClientProps.v
ServiceWitness.v
NapiCommon.v
NapiContinuousTask.v
NapiProps.v
JsBackgroundTaskSubscriber.v
NapiTransientTask.v
NapiAuth.v
NapiExports.v
EtsBinding.v
NativeApi.v
BindingsWitness.v
