(* ===== verification/Prelude.v ===== *)
(** * OpenHarmony background task manager: a verification library

    The program (C++, under src/) is a system service.  Applications ask it for time to
    run in the background: a _transient_ task is a request for a few minutes, an
    _efficiency resource_ is an exemption of an application or a process from being
    frozen, per kind of resource, and a _continuous_ task keeps an application running
    with a notification.  This library models the three managers, the configuration and
    storage they rest on, the service in front of them, the objects that cross process
    borders, the library clients call, the bindings through which scripts and C programs
    reach it, and the observers and plugins events come through.

    ** The parts and how they interact

    Transient tasks (src/services/transient_task): [BgTransientTaskMgr] checks the
    caller, asks the [DecisionMaker] to grant a request, and keeps the callback and the
    key of each.  The decision maker holds a [PkgDelaySuspendInfo] per application, with
    its quota and its requests ([DelaySuspendInfoEx]), and starts and stops their
    accounting as applications move between foreground and background and the screen
    goes on and off ([DeviceInfoManager], fed by [EventHub] and [InputManager]).  A
    running request has an event queued in [TimerManager]; when it fires, the
    application is called back and the [Watchdog] is armed, which cancels the request.

    Efficiency resources (src/services/efficiency_resources):
    [BgEfficiencyResourcesMgr] admits a request and posts a task to its handler; the
    task updates the records of the application and of the process, reports to the
    subscribers ([ResourcesSubscriberMgr]) and writes the records to storage
    ([DataStorageHelper]).  [BgtaskConfig] tells both managers what is exempted.

    Continuous tasks (src/services/continuous_task): [BgContinuousTaskMgr] keeps a record
    per task in one map.  A start checks the modes asked for against those of the bundle,
    publishes a notification, writes the map to storage and tells subscribers; updates,
    suspensions, activations and stops change the record and tell them of it.  Modes that
    need the user's consent go through a banner notification or a dialog, whose answer is
    kept in a second map.  [NotificationTools] publishes and cancels,
    [TaskNotificationSubscriber] hears of notifications the user removes.

    The service (src/services/core): [BackgroundTaskMgrService] checks who calls, hands a
    request to its manager, and publishes itself when the three managers are ready.
    Requests arrive from the client library (src/frameworks) as parcels of the objects of
    src/interfaces/innerkits.  Events arrive from the observers of src/services/common and
    from the plugins of src/services/plugin; both change a manager or post closures to the
    handler of the continuous task manager.  What the managers tell their observer is
    reported to the resource scheduler.

    Applications do not call the library themselves.  A script calls the functions of
    src/interfaces/kits/napi: they read and check its arguments, throw or queue work that
    calls the library, and settle a promise or call back; they keep the callbacks of requests
    and of events.  src/interfaces/kits/ets does the same for ArkTS with calls that run to
    their end, src/interfaces/kits/c and cj for C and Cangjie with transient tasks.

    ** The files

    Shared:
    - Prelude.v: machine integers, [return_if], tactics, lists and sorted maps, [atoi];
    - Errors.v: frameworks/common, bgtaskmgr_inner_errors.h and .cpp, and the error
      reports of interfaces/kits/napi/src/common.cpp;
    - KeyInfo.v: key_info.h, the order of the maps keyed by application;
    - Interfaces.v: what one part promises to another, as classes: [EventHandler] (a
      queue of events, with the implementation [ListQueue]), [SystemParams],
      [TransientConfig]; remote objects.

    Transient tasks:
    - DelaySuspendInfo.v, PkgDelaySuspendInfo.v, DeviceInfo.v: the parts of the decision
      maker, each with its invariant;
    - DecisionMaker.v (decision_maker.cpp), DecisionMakerSpec.v (invariant, behaviour of
      each operation), DecisionMakerProps.v (reachable states and the theorems),
      DecisionMakerWitness.v (concrete runs);
    - TransientTaskMgr.v (bg_transient_task_mgr.cpp, watchdog.cpp, timer_manager.cpp),
      TransientTaskMgrSpec.v, TransientTaskMgrProps.v, TransientTaskMgrWitness.v: the
      same for the manager.

    Efficiency resources, configuration and storage:
    - ResourceTypes.v (requests and records of efficiency resources, and
      report_hisysevent_data.cpp);
    - EfficiencyResources.v (bg_efficiency_resources_mgr.cpp and
      resources_subscriber_mgr.cpp), EfficiencyResourcesSpec.v, EfficiencyResourcesProps.v
      (the records, reachable states), EfficiencyResourcesEntry.v (admission and
      readiness), EfficiencyResourcesWitness.v;
    - Json.v (the interface to [nlohmann::json]), BgtaskConfig.v (bgtask_config.cpp,
      bg_task_config_file_info.cpp);
    - ResourceStorage.v (the JSON of the records and data_storage_helper.cpp),
      EfficiencyRestart.v (the manager started again on top of the storage),
      ConfigWitness.v;
    - RecordFiles.v (the files data_storage_helper.cpp writes and reads, over a file system
      with links and calls that fail).

    Continuous tasks:
    - BackgroundModes.v (modes, sub modes and reasons, common_utils.cpp),
      ContinuousTaskRecord.v (continuous_task_record.cpp, banner_notification_record.cpp
      and their JSON), ContinuousTypes.v (requests, effects, the answers of other services
      [ContEnv], the state [ContinuousMgr] and the monad [CM]);
    - NotificationTools.v (notification_tools.cpp and the choice of texts and labels);
    - bg_continuous_task_mgr.cpp by themes: ContinuousTaskMgr.v (reports, checks),
      ContinuousTaskStart.v (start, update, activation), ContinuousTaskStop.v (stops,
      suspensions, events), ContinuousAuth.v (consent of the user), ContinuousQueries.v
      (queries and the shell), ContinuousRestart.v (start of the service, files);
      ContinuousSystem.v: all operations as [exec], and the states they reach;
    - the invariant: ContinuousTaskMgrSpec.v (triples over what is observed of a state),
      ContinuousInvariant.v (what an observer knows, in every reachable state),
      ContinuousStorageProps.v, ContinuousWellFormed.v;
    - the theorems: ContinuousTaskMgrProps.v, ContinuousStartProps.v,
      ContinuousActivation.v, ContinuousStopProps.v, ContinuousAbilityStop.v,
      ContinuousLabels.v, ContinuousAuthProps.v, ContinuousRestartProps.v,
      ContinuousAppStop.v, ContinuousWitness.v.

    The service and what is around it:
    - BackgroundTaskMgrService.v (background_task_mgr_service.cpp),
      BackgroundTaskMgrSystem.v (the requests of IBackgroundTaskMgr.idl, [serve], the access
      policy), BackgroundTaskMgrRun.v (equations to run operations),
      BackgroundTaskMgrProps.v, BackgroundTaskMgrReady.v;
    - Parcel.v (a parcel as a class with laws, and a list as an implementation),
      Parcelables.v (Marshalling and ReadFromParcel of innerkits), ParcelableProps.v,
      RequestArrival.v (the service decides what arrives as what was sent);
    - BackgroundTaskObserver.v (background_task_observer.cpp);
    - Observers.v (bundle_manager_helper.cpp, app_mgr_helper.cpp, app_state_observer.cpp,
      system_event_observer.cpp, dialog_event_observer.cpp,
      banner_notification_event_observer.cpp),
      PluginAdapters.v (services/plugin), ObserverProps.v (the service among its sources of
      events);
    - BackgroundTaskManager.v (frameworks/src/background_task_manager.cpp,
      background_task_mgr_helper.cpp, background_task_subscriber.cpp), ClientProps.v (a
      request from the library to the service and back), ServiceWitness.v (concrete runs).

    The bindings:
    - NapiCommon.v: the engine of scripts as a class, values and contexts, and
      napi/src/common.cpp;
    - NapiContinuousTask.v (bg_continuous_task_napi_module.cpp: a call up to the work it
      queues, the work, its completion), NapiProps.v (what calls answer; a start, at the
      service);
    - NapiTransientTask.v (request_suspend_delay.cpp, cancel_suspend_delay.cpp,
      get_remaining_delay_time.cpp, get_all_transient_tasks.cpp,
      efficiency_resources_operation.cpp), NapiAuth.v (request_auth_from_user.cpp and
      kits/common/src/ui_extension_helper.cpp), JsBackgroundTaskSubscriber.v
      (js_backgroundtask_subscriber.cpp), NapiExports.v (init_bgtaskmgr.cpp: the table of
      exports, a call by its name, the states scripts bring the module to), each with its
      theorems;
    - EtsBinding.v (kits/ets/taihe/src, and the two script bindings compared);
    - NativeApi.v (kits/c, kits/cj); BindingsWitness.v (a small engine, and scripts on it).

    ** How the model reads

    An object is a record, with the names of its members ([dm_], [tm_], [em_], [cm_],
    [ct_], [sv_] and so on for the class); an operation is a function from the state to its
    result and the new state, guard by guard as in the code ([return_if c, v ;; rest]).
    The continuous task manager and the service thread their state through many calls and
    use a monad for it, [CM] and [SV]; the latter fails where the code throws or reads
    outside a vector.  Clocks, the caller's identity and the answers of other services are
    arguments ([Env], [CallCtx], [EffEnv], [ContEnv], [ServiceEnv]); calls to callbacks,
    subscribers, notifications and the event log are appended to a list of effects.  An
    [int32_t] is a [Z] with its truncation written out; a set of kinds is a [uint32_t] with
    its bit operations.  Shared objects are one value in the state; [Decide] returns the
    request object that is in the list.  Locks are not modelled: each operation, and each
    task a handler runs, is one step, and the events of a queue may be taken at any time,
    so the theorems hold for every interleaving of steps ([dm_step], [tm_step], [em_step],
    [reachable], [sys_step]).  In [tm_step] an event taken off its queue is handled by a
    later step, so other operations may come between; [sys_step] puts requests, events,
    closures and plugins of the whole service side by side.

    The loops of the code walk a list, a map or the nine kinds, but for one: the activation
    of an application starts over at the first task whenever it has changed one
    ([active_loop]); its fuel is twice the number of tasks and one more ([active_fuel]),
    and [activation_terminates] shows that it is enough.  A [std::unordered_map] is walked
    in the order of [map_to_list].

    ** What the theorems show

    - Decision maker: admission is exactly the code's checks and a grant changes only
      what it should; ids are unique, quotas stay in range, at most three requests; the
      quota is charged exactly for running time; an application in the foreground is not
      accounted; the daily reset; the callback comes 6 s before the watchdog.
    - Transient task manager: the two maps and the decision maker agree in every
      reachable state; every running request is watched; notifications alternate; the
      manager refines a map from ids to tasks; each entry point does exactly its part; a
      running request is called back and ended by the events of the queues alone.
    - Efficiency resources: records are well formed and their number is the set of their
      units in every reachable state; temporary units have a task due at their end and
      are gone after it; applying and removing change and announce exactly the kinds
      concerned; admission, and the split between application and process; readiness;
      restoration after a restart.
    - Configuration and storage: which applications are exempted, which CPU levels pass,
      when reading the configuration throws; the round trip of the records, and of the three
      files they are kept in; what a save that fails leaves.
    - Continuous tasks: the map is well formed in every state that can be reached, across
      restarts, and its ids are unique where each restart is told which processes run;
      observers that follow the calls know the running tasks; how a start ends and that it
      leaves what was asked for; which tasks each stop ends, in any state; the end of the
      last task is reported; grants come from decisions of the user, or from a backup or the
      file; activation ends and resumes the application; notification labels name their task;
      what a restart keeps, told of the processes or not.
    - The service: who is refused leaves everything as it was; a request starts tasks in
      the caller's name only; when the service is published, and that it never is again;
      exactly which requests leave what is defined.
    - Across the borders: requests and objects survive their parcels; what goes through the
      client library is decided by the service for this caller, and its results come back;
      whatever events, closures and plugins do, and over restarts from files of different
      moments, the records stay consistent; events end the
      tasks they are about; subscriptions match callbacks; the resource scheduler knows the
      running tasks from the reports.
    - The bindings: a call of a script has an answer and its work runs to an end, save in the
      cases named; an object is let through exactly where its modes go together, in the two
      script bindings alike, and the library is then asked for the same; how a script's start
      ends at the service; callbacks hear the events of their types, once, and none after they
      are removed; the end of a request calls its callback; the flags cover the types listened
      to, also when the service comes back; the array of a C program is not overrun.
    - Behaviour the code hardly means is stated exactly: [background_time_truncated],
      [paused_quota_still_charged], [em_kinds_misreported], [em_restored_kind_resurrected],
      [cloud_quota_ignored], [restart_reuses_ids], [stop_by_id_ends_anyones_task],
      [silent_standby_suspension_untold], [atomic_service_starts_any_mode],
      [stopped_service_never_runs_again], [undefined_requests], [stop_gives_up],
      [half_connected_is_used], [app_manager_is_not_found_again], [callback_never_called],
      [combined_special], [first_type_stays_subscribed], [update_by_modes_faults],
      [auth_callback_faults] and [lost_write_is_reported_done].

    ** Where the theorems stop

    Three invariants do not hold without end, and the theorems say how far they reach.
    Request ids of transient tasks start again at 1 after [INT_MAX], when 1 may be in use:
    [dm_reachable] and [tm_reachable] go on while the counter is below it, and [admissible]
    asks the same of the ids of continuous tasks.  A continuous task manager that is not told
    the running processes at its start goes on with an index of ids that may be in use:
    [reachable_any] has every start, [reachable] those that are told ([reach] has what is
    known of them as a parameter).  The records of the efficiency manager are followed
    across restarts more than four minutes after boot ([restartable]); after an earlier one
    their invariant does not hold, as [em_restored_kind_resurrected] shows.

    ** What is not modelled

    The text form of JSON, of which only that it is read as what was written is asked (class
    [JsonText]); the generated proxy and stub (the class [IBackgroundTaskMgr]); the loading of
    the optional quota library (its functions are arguments); subscribing to the event,
    notification and application services; the layout of a notification; the reclaim of
    process memory and the loading of resources of bundles; the statistics on storage that
    [DataStorageHelper] reports.  Of the bindings: references to values of scripts and the
    freeing of the structures of a call, the threads work runs on (each piece of work is one
    step), the macros and generated code that export ArkTS functions, and init.cpp, the older
    module that exports five of the functions under another name.  [SuspendController] logs
    and keeps nothing.  The application that shows the dialog of an authorisation is written
    in ArkTS (resources/). *)

From stdpp Require Export base numbers list gmap strings sorting pretty.
From Stdlib Require Export ZArith Lia.

(** ** Machine integers

    [int32_t] and [uint32_t] values are [Z]; every arithmetic operation of the
    code on them is followed by [int32] or [uint32].  [int32] is the two's
    complement truncation (the value of a [static_cast<int32_t>], and of the
    signed operations on the compilers the service is built with).  [int64_t]
    values are milliseconds of the monotonic clock and sums of them; they are
    plain [Z], as they stay below 2^63 for 292 million years. *)

Local Open Scope Z_scope.

Definition int32_max : Z := 2147483647.
Definition int32_min : Z := -2147483648.
Definition uint32_max : Z := 4294967295.

Definition int32 (z : Z) : Z := (z + 2147483648) mod 4294967296 - 2147483648.
Definition uint32 (z : Z) : Z := z mod 4294967296.

Definition in_int32 (z : Z) : Prop := int32_min <= z <= int32_max.
Definition in_uint32 (z : Z) : Prop := 0 <= z <= uint32_max.

Lemma int32_id z : in_int32 z -> int32 z = z.
Proof. unfold in_int32, int32_min, int32_max, int32. intros H. rewrite Z.mod_small; lia. Qed.

Lemma int32_range z : in_int32 (int32 z).
Proof.
  unfold in_int32, int32_min, int32_max, int32.
  pose proof (Z.mod_pos_bound (z + 2147483648) 4294967296 ltac:(lia)). lia.
Qed.

Lemma uint32_id z : in_uint32 z -> uint32 z = z.
Proof. unfold in_uint32, uint32_max, uint32. intros H. apply Z.mod_small; lia. Qed.

Lemma uint32_range z : in_uint32 (uint32 z).
Proof.
  unfold in_uint32, uint32_max, uint32.
  pose proof (Z.mod_pos_bound z 4294967296 ltac:(lia)). lia.
Qed.

Lemma int32_idemp z : int32 (int32 z) = int32 z.
Proof. apply int32_id, int32_range. Qed.

(** Truncating both operands of a subtraction does not change its truncation:
    elapsed times computed on truncated clock values are right as long as the
    elapsed time itself fits. *)
Lemma int32_sub_trunc x y : int32 (int32 x - int32 y) = int32 (x - y).
Proof.
  unfold int32. f_equal.
  set (a := x + 2147483648). set (b := y + 2147483648).
  replace (a mod 4294967296 - 2147483648 - (b mod 4294967296 - 2147483648) + 2147483648)
    with ((a mod 4294967296 - b mod 4294967296) + 2147483648) by lia.
  rewrite <- Z.add_mod_idemp_l by lia. rewrite <- Zminus_mod.
  rewrite Z.add_mod_idemp_l by lia. f_equal. subst a b. lia.
Qed.

Create HintDb bgtask.
#[export] Hint Resolve int32_range uint32_range : bgtask.
#[export] Hint Unfold in_int32 in_uint32 int32_min int32_max uint32_max : bgtask.

(** [int32_simpl] removes the truncations that [lia] can show to be identities. *)
Ltac in_range := unfold in_int32, in_uint32, int32_min, int32_max, uint32_max in *; lia.

Ltac int32_simpl :=
  repeat match goal with
  | |- context [int32 ?z] => rewrite (int32_id z) by in_range
  | H : context [int32 ?z] |- _ => rewrite (int32_id z) in H by in_range
  end.

(** Equations of the interfaces, used by [autorewrite]. *)
Create Rewrite HintDb bgtask_rw.

(** ** Early returns

    The handlers of the code are sequences of guards, each of which returns;
    [return_if c , r ;; k] is [if (c) { return r; } k]. *)
Declare Scope cpp_scope.
Delimit Scope cpp_scope with cpp.
Notation "'return_if' c , r ;; k" := (if c then r else k)
  (at level 199, c at level 99, r at level 99, k at level 200, only parsing) : cpp_scope.
Open Scope cpp_scope.

(** Case analysis of guards: one goal per early return. *)
Ltac case_test :=
  match goal with
  | |- context [if ?c then _ else _] => let E := fresh "Hc" in destruct c eqn:E
  | H : context [if ?c then _ else _] |- _ => let E := fresh "Hc" in destruct c eqn:E
  end.
Ltac case_tests := repeat (case_test; simplify_eq/=).

(** Turns boolean tests in the context into propositions. *)
Ltac bool_prop :=
  repeat match goal with
  | H : (_ && _)%bool = true |- _ => apply andb_prop in H as [? ?]
  | H : (_ || _)%bool = false |- _ => apply orb_false_elim in H as [? ?]
  | H : negb _ = true |- _ => apply negb_true_iff in H
  | H : negb _ = false |- _ => apply negb_false_iff in H
  | H : (_ <? _) = true |- _ => apply Z.ltb_lt in H
  | H : (_ <? _) = false |- _ => apply Z.ltb_ge in H
  | H : (_ <=? _) = true |- _ => apply Z.leb_le in H
  | H : (_ <=? _) = false |- _ => apply Z.leb_gt in H
  | H : (_ >? _) = true |- _ => rewrite Z.gtb_ltb in H; apply Z.ltb_lt in H
  | H : (_ >? _) = false |- _ => rewrite Z.gtb_ltb in H; apply Z.ltb_ge in H
  | H : (_ >=? _) = true |- _ => rewrite Z.geb_leb in H; apply Z.leb_le in H
  | H : (_ >=? _) = false |- _ => rewrite Z.geb_leb in H; apply Z.leb_gt in H
  | H : (_ =? _) = true |- _ => apply Z.eqb_eq in H
  | H : (_ =? _) = false |- _ => apply Z.eqb_neq in H
  | H : bool_decide _ = true |- _ => apply bool_decide_eq_true in H
  | H : bool_decide _ = false |- _ => apply bool_decide_eq_false in H
  end.

(** ** Containers of the C++ standard library

    [std::map] is [gmap]; where the code iterates over a map and the order is
    visible (a list built from it, a dump), the iteration is over
    [sorted_entries], ascending by key. *)
Definition entry_le {V} (a b : Z * V) : Prop := a.1 <= b.1.
#[export] Instance entry_le_dec {V} : RelDecision (@entry_le V).
Proof. intros a b. unfold entry_le. apply _. Defined.

Definition sorted_entries {V} (m : gmap Z V) : list (Z * V) :=
  merge_sort entry_le (map_to_list m).

Lemma sorted_entries_perm {V} (m : gmap Z V) : sorted_entries m ≡ₚ map_to_list m.
Proof. apply merge_sort_Permutation. Qed.

Lemma elem_of_sorted_entries {V} (m : gmap Z V) k v :
  (k, v) ∈ sorted_entries m <-> m !! k = Some v.
Proof. rewrite sorted_entries_perm. apply elem_of_map_to_list. Qed.

(** [std::find_if] followed by [erase(iter)]: the first match goes. *)
Fixpoint erase_first {A} (p : A -> bool) (l : list A) : list A :=
  match l with
  | [] => []
  | x :: l' => if p x then l' else x :: erase_first p l'
  end.

Lemma erase_first_sublist {A} (p : A -> bool) l : erase_first p l `sublist_of` l.
Proof.
  induction l as [|x l IH]; simpl; [constructor|].
  case_test; [by apply sublist_cons | by apply sublist_skip].
Qed.

Lemma erase_first_none {A} (p : A -> bool) l :
  Forall (fun x => p x = false) l -> erase_first p l = l.
Proof. induction 1 as [|x l Hx _ IH]; simpl; [done|]. by rewrite Hx, IH. Qed.

(** Erasing by a key that occurs at most once removes exactly that key. *)
Lemma erase_first_key {A} (key : A -> Z) k l :
  NoDup (key <$> l) ->
  erase_first (fun x => key x =? k) l = filter (fun x => key x <> k) l.
Proof.
  induction l as [|x l IH]; simpl; [done|].
  intros [Hx Hl]%NoDup_cons. rewrite filter_cons. case_test; bool_prop.
  - rewrite decide_False by (intros ?; congruence). subst k.
    clear IH Hl. induction l as [|y l IH]; simpl; [done|].
    rewrite filter_cons, decide_True by (intros E; apply Hx; simpl; rewrite E; left).
    rewrite <- IH; [done|]. intros ?; apply Hx; by right.
  - rewrite decide_True by done. by rewrite IH.
Qed.

Lemma filter_all {A} (P : A -> Prop) `{forall x, Decision (P x)} (l : list A) :
  (forall x, x ∈ l -> P x) -> filter P l = l.
Proof.
  induction l as [|x l IH]; intros Hl; [done|].
  rewrite filter_cons, decide_True by (apply Hl; left).
  rewrite IH; [done|]. intros y Hy. apply Hl. by right.
Qed.

Lemma filter_none {A} (P : A -> Prop) `{forall x, Decision (P x)} (l : list A) :
  (forall x, x ∈ l -> ~ P x) -> filter P l = [].
Proof.
  induction l as [|x l IH]; intros Hl; [done|].
  rewrite filter_cons, decide_False by (apply Hl; left).
  apply IH. intros y Hy. apply Hl. by right.
Qed.

(** [std::atoi]: optional white space and sign, then digits. *)
Fixpoint atoi_digits (acc : Z) (str : string) : Z :=
  match str with
  | String c r =>
      let d := Z.of_nat (Ascii.nat_of_ascii c) - 48 in
      if (0 <=? d) && (d <=? 9) then atoi_digits (acc * 10 + d) r else acc
  | EmptyString => acc
  end.
Fixpoint atoi (str : string) : Z :=
  match str with
  | String c r =>
      let n := Z.of_nat (Ascii.nat_of_ascii c) in
      if (n =? 32) || ((9 <=? n) && (n <=? 13)) then atoi r
      else if n =? 45 then int32 (- atoi_digits 0 r)
      else if n =? 43 then int32 (atoi_digits 0 r)
      else int32 (atoi_digits 0 str)
  | EmptyString => 0
  end.
