(* ===== verification/Errors.v ===== *)
(** * Error codes and their messages

    [bgtaskmgr_inner_errors.h] and [bgtaskmgr_inner_errors.cpp] of
    src/frameworks/common: the [ErrCode] values every component returns, and
    [BusinessErrorMap], which turns a code into the message an application
    sees. *)

From S2P Require Import Prelude.
Local Open Scope Z_scope.

Definition ERR_OK : Z := 0.

Definition ERR_BGTASK_PERMISSION_DENIED : Z := 201.
Definition ERR_BGTASK_NOT_SYSTEM_APP : Z := 202.
Definition ERR_BGTASK_INVALID_PARAM : Z := 401.
Definition ERR_BGTASK_NO_MEMORY : Z := 980000101.
Definition ERR_BGTASK_PARCELABLE_FAILED : Z := 980000201.
Definition ERR_BGTASK_TRANSACT_FAILED : Z := 980000301.
Definition ERR_BGTASK_SYS_NOT_READY : Z := 980000401.
Definition ERR_BGTASK_SERVICE_NOT_CONNECTED : Z := 980000402.
Definition ERR_BGTASK_OBJECT_EXISTS : Z := 980000501.
Definition ERR_BGTASK_OBJECT_NOT_EXIST : Z := 980000502.
Definition ERR_BGTASK_KEEPING_TASK_VERIFY_ERR : Z := 980000503.
Definition ERR_BGTASK_INVALID_BGMODE : Z := 980000504.
Definition ERR_BGTASK_INVALID_UID : Z := 980000505.
Definition ERR_BGTASK_CONTINUOUS_REQUEST_NULL_OR_TYPE : Z := 980000506.
Definition ERR_BGTASK_CONTINUOUS_MODE_OR_SUBMODE_IS_EMPTY : Z := 980000507.
Definition ERR_BGTASK_CONTINUOUS_MODE_OR_SUBMODE_LENGTH_MISMATCH : Z := 980000508.
Definition ERR_BGTASK_CONTINUOUS_MODE_OR_SUBMODE_CROSS_BORDER : Z := 980000509.
Definition ERR_BGTASK_CONTINUOUS_MODE_OR_SUBMODE_TYPE_MISMATCH : Z := 980000510.
Definition ERR_BGTASK_CONTINUOUS_NOT_UPDATE_BY_OLD_INTERFACE : Z := 980000511.
Definition ERR_BGTASK_CONTINUOUS_TASKID_INVALID : Z := 980000512.
Definition ERR_BGTASK_CONTINUOUS_DATA_TRANSFER_NOT_MERGE_NOTIFICATION : Z := 980000513.
Definition ERR_BGTASK_CONTINUOUS_SPECIAL_SCENARIO_PROCESSING_NOT_MERGE_NOTIFICATION : Z := 980000514.
Definition ERR_BGTASK_CONTINUOUS_NOT_MERGE_NOTIFICATION_NOT_EXIST : Z := 980000515.
Definition ERR_BGTASK_CONTINUOUS_NOT_MERGE_COMBINED_FALSE : Z := 980000516.
Definition ERR_BGTASK_CONTINUOUS_NOT_UPDATE_BECAUSE_MERGE : Z := 980000517.
Definition ERR_BGTASK_CONTINUOUS_NOT_MERGE_CURRENTTASK_COMBINED_FALSE : Z := 980000518.
Definition ERR_BGTASK_CONTINUOUS_UPDATE_FAIL_SAME_MODE_AND_MERGED : Z := 980000519.
Definition ERR_BGTASK_CONTINUOUS_SYSTEM_APP_NOT_SUPPORT_ACL : Z := 980000520.
Definition ERR_BGTASK_CONTINUOUS_APP_NOT_HAVE_BGMODE_PERMISSION_SYSTEM : Z := 980000521.
Definition ERR_BGTASK_CONTINUOUS_NOT_APPLY_MAX_TASK : Z := 980000522.
Definition ERR_BGTASK_CONTINUOUS_DATA_TRANSFER_NOT_UPDATE : Z := 980000523.
Definition ERR_BGTASK_CONTINUOUS_NOT_APPLY_ONBACKGROUND : Z := 980000524.
Definition ERR_BGTASK_SPECIAL_SCENARIO_PROCESSING_ONLY_ALLOW_ONE_APPLICATION : Z := 980000525.
Definition ERR_BGTASK_SPECIAL_SCENARIO_PROCESSING_CONFLICTS_WITH_OTHER_TASK : Z := 980000526.
Definition ERR_BGTASK_GET_APP_INDEX_FAIL : Z := 980000527.
Definition ERR_BGTASK_APP_DETECTED_MALICIOUS_BEHAVIOR : Z := 980000528.
Definition ERR_BGTASK_SPECIAL_SCENARIO_PROCESSING_EMPTY : Z := 980000529.
Definition ERR_BGTASK_CONTINUOUS_CALLBACK_NULL_OR_TYPE_ERR : Z := 980000530.
Definition ERR_BGTASK_CONTINUOUS_CALLBACK_EXISTS : Z := 980000531.
Definition ERR_BGTASK_MALICIOUS_CONTINUOUSTASK : Z := 980000532.
Definition ERR_BGTASK_SPECIAL_SCENARIO_PROCESSING_NOTSUPPORT_DEVICE : Z := 980000533.
Definition ERR_BGTASK_CONTINUOUS_BANNER_NOTIFICATION_EXIST_OR_AUTHORIZED : Z := 980000534.
Definition ERR_BGTASK_CONTINUOUS_NOT_APPLY_AUTH_RECORD : Z := 980000535.
Definition ERR_BGTASK_CONTINUOUS_AUTH_NOT_PERMITTED : Z := 980000536.
Definition ERR_BGTASK_CONTINUOUS_NOT_DEPLOY_SPECIAL_SCENARIO_PROCESSING : Z := 980000537.
Definition ERR_BGTASK_CONTINUOUS_BACKGROUND_TASK_PARAM_INVALID : Z := 980000538.
Definition ERR_BGTASK_CONTINUOUS_BANNER_NOTIFICATION_FAIL : Z := 980000539.
Definition ERR_BGTASK_CONTINUOUS_API_VERSION_FAIL : Z := 980000540.
Definition ERR_BGTASK_CONTINUOUS_TRIGGER_CALLBACK : Z := 980000541.
Definition ERR_BGTASK_CONTINUOUS_NOT_APPLY_PRELOAD_STATE : Z := 980000542.
Definition ERR_BGTASK_NOTIFICATION_VERIFY_FAILED : Z := 980000601.
Definition ERR_BGTASK_NOTIFICATION_ERR : Z := 980000602.
Definition ERR_BGTASK_CHECK_TASK_PARAM : Z := 980000603.
Definition ERR_BGTASK_CONTINUOUS_UPDATE_NOTIFICATION_FAIL : Z := 980000604.
Definition ERR_BGTASK_CONTINUOUS_NOT_DATA_TRANSFER : Z := 980000605.
Definition ERR_BGTASK_CONTINUOUS_PROGRESS_INFO_INVALID : Z := 980000606.
Definition ERR_BGTASK_CREATE_FILE_ERR : Z := 980000701.
Definition ERR_BGTASK_GET_ACTUAL_FILE_ERR : Z := 980000702.
Definition ERR_BGTASK_OPEN_FILE_ERR : Z := 980000703.
Definition ERR_BGTASK_INVALID_PID_OR_UID : Z := 990000101.
Definition ERR_BGTASK_INVALID_BUNDLE_NAME : Z := 990000102.
Definition ERR_BGTASK_INVALID_REQUEST_ID : Z := 990000103.
Definition ERR_BGTASK_INVALID_CALLBACK : Z := 990000201.
Definition ERR_BGTASK_CALLBACK_EXISTS : Z := 990000202.
Definition ERR_BGTASK_CALLBACK_NOT_EXIST : Z := 990000203.
Definition ERR_BGTASK_NOT_IN_PRESET_TIME : Z := 990000204.
Definition ERR_BGTASK_EXCEEDS_THRESHOLD : Z := 990000205.
Definition ERR_BGTASK_TIME_INSUFFICIENT : Z := 990000206.
Definition ERR_BGTASK_NOREQUEST_TASK : Z := 990000207.
Definition ERR_BGTASK_FOREGROUND : Z := 990000208.
Definition ERR_BGTASK_TRANSIENT_PARCELABLE_FAILED : Z := 990000301.
Definition ERR_BGTASK_TRANSIENT_SYS_NOT_READY : Z := 990000401.
Definition ERR_BGTASK_TRANSIENT_SERVICE_NOT_CONNECTED : Z := 990000402.
Definition ERR_BGTASK_RESOURCES_EXCEEDS_MAX : Z := 1870000101.
Definition ERR_BGTASK_RESOURCES_INVALID_PID_OR_UID : Z := 1870000102.
Definition ERR_BGTASK_METHOD_CALLED_FAILED : Z := 1870000103.
Definition ERR_BGTASK_DATA_STORAGE_ERR : Z := 1870000104.
Definition ERR_BGTASK_SERVICE_INNER_ERROR : Z := 1870000105.
Definition ERR_BGTASK_INVALID_PROCESS_NAME : Z := 1870000106.
Definition ERR_BGTASK_EFFICIENCY_RESOURCES_CPU_LEVEL_INVALID : Z := 1870000107.
Definition ERR_BGTASK_EFFICIENCY_RESOURCES_CPU_LEVEL_NOT_ALLOW_APPLY : Z := 1870000108.
Definition ERR_BGTASK_EFFICIENCY_RESOURCES_INVALID_BUNDLE_INFO : Z := 1870000109.
Definition ERR_BGTASK_EFFICIENCY_RESOURCES_CPU_LEVEL_APP_SIGNATURES_INVALID : Z := 1870000110.
Definition ERR_BGTASK_EFFICIENCY_RESOURCES_CPU_LEVEL_TOO_LARGE : Z := 1870000111.
Definition ERR_BGTASK_RESOURCES_PARCELABLE_FAILED : Z := 1870000201.
Definition ERR_BGTASK_RESOURCES_SYS_NOT_READY : Z := 1870000401.
Definition ERR_BGTASK_RESOURCES_SERVICE_NOT_CONNECTED : Z := 1870000402.
Definition ERR_PARAM_NUMBER_ERR : Z := 9800401.
Definition ERR_REASON_NULL_OR_TYPE_ERR : Z := 9800402.
Definition ERR_CALLBACK_NULL_OR_TYPE_ERR : Z := 9800403.
Definition ERR_REQUESTID_NULL_OR_ID_TYPE_ERR : Z := 9800404.
Definition ERR_REQUESTID_ILLEGAL : Z := 9800405.
Definition ERR_CONTEXT_NULL_OR_TYPE_ERR : Z := 9800406.
Definition ERR_BGMODE_NULL_OR_TYPE_ERR : Z := 9800407.
Definition ERR_WANTAGENT_NULL_OR_TYPE_ERR : Z := 9800408.
Definition ERR_ABILITY_INFO_EMPTY : Z := 9800409.
Definition ERR_GET_TOKEN_ERR : Z := 9800410.
Definition ERR_BGMODE_RANGE_ERR : Z := 9800411.
Definition ERR_APP_NAME_EMPTY : Z := 9800412.
Definition ERR_RESOURCE_TYPES_INVALID : Z := 9800413.
Definition ERR_ISAPPLY_NULL_OR_TYPE_ERR : Z := 9800414.
Definition ERR_TIMEOUT_INVALID : Z := 9800415.
Definition ERR_ISPERSIST_NULL_OR_TYPE_ERR : Z := 9800416.
Definition ERR_ISPROCESS_NULL_OR_TYPE_ERR : Z := 9800417.

(** The anonymous enumeration and [ParamErr], in declaration order. *)
Definition bgtask_err_codes : list Z :=
  [ ERR_BGTASK_PERMISSION_DENIED;
    ERR_BGTASK_NOT_SYSTEM_APP;
    ERR_BGTASK_INVALID_PARAM;
    ERR_BGTASK_NO_MEMORY;
    ERR_BGTASK_PARCELABLE_FAILED;
    ERR_BGTASK_TRANSACT_FAILED;
    ERR_BGTASK_SYS_NOT_READY;
    ERR_BGTASK_SERVICE_NOT_CONNECTED;
    ERR_BGTASK_OBJECT_EXISTS;
    ERR_BGTASK_OBJECT_NOT_EXIST;
    ERR_BGTASK_KEEPING_TASK_VERIFY_ERR;
    ERR_BGTASK_INVALID_BGMODE;
    ERR_BGTASK_INVALID_UID;
    ERR_BGTASK_CONTINUOUS_REQUEST_NULL_OR_TYPE;
    ERR_BGTASK_CONTINUOUS_MODE_OR_SUBMODE_IS_EMPTY;
    ERR_BGTASK_CONTINUOUS_MODE_OR_SUBMODE_LENGTH_MISMATCH;
    ERR_BGTASK_CONTINUOUS_MODE_OR_SUBMODE_CROSS_BORDER;
    ERR_BGTASK_CONTINUOUS_MODE_OR_SUBMODE_TYPE_MISMATCH;
    ERR_BGTASK_CONTINUOUS_NOT_UPDATE_BY_OLD_INTERFACE;
    ERR_BGTASK_CONTINUOUS_TASKID_INVALID;
    ERR_BGTASK_CONTINUOUS_DATA_TRANSFER_NOT_MERGE_NOTIFICATION;
    ERR_BGTASK_CONTINUOUS_SPECIAL_SCENARIO_PROCESSING_NOT_MERGE_NOTIFICATION;
    ERR_BGTASK_CONTINUOUS_NOT_MERGE_NOTIFICATION_NOT_EXIST;
    ERR_BGTASK_CONTINUOUS_NOT_MERGE_COMBINED_FALSE;
    ERR_BGTASK_CONTINUOUS_NOT_UPDATE_BECAUSE_MERGE;
    ERR_BGTASK_CONTINUOUS_NOT_MERGE_CURRENTTASK_COMBINED_FALSE;
    ERR_BGTASK_CONTINUOUS_UPDATE_FAIL_SAME_MODE_AND_MERGED;
    ERR_BGTASK_CONTINUOUS_SYSTEM_APP_NOT_SUPPORT_ACL;
    ERR_BGTASK_CONTINUOUS_APP_NOT_HAVE_BGMODE_PERMISSION_SYSTEM;
    ERR_BGTASK_CONTINUOUS_NOT_APPLY_MAX_TASK;
    ERR_BGTASK_CONTINUOUS_DATA_TRANSFER_NOT_UPDATE;
    ERR_BGTASK_CONTINUOUS_NOT_APPLY_ONBACKGROUND;
    ERR_BGTASK_SPECIAL_SCENARIO_PROCESSING_ONLY_ALLOW_ONE_APPLICATION;
    ERR_BGTASK_SPECIAL_SCENARIO_PROCESSING_CONFLICTS_WITH_OTHER_TASK;
    ERR_BGTASK_GET_APP_INDEX_FAIL;
    ERR_BGTASK_APP_DETECTED_MALICIOUS_BEHAVIOR;
    ERR_BGTASK_SPECIAL_SCENARIO_PROCESSING_EMPTY;
    ERR_BGTASK_CONTINUOUS_CALLBACK_NULL_OR_TYPE_ERR;
    ERR_BGTASK_CONTINUOUS_CALLBACK_EXISTS;
    ERR_BGTASK_MALICIOUS_CONTINUOUSTASK;
    ERR_BGTASK_SPECIAL_SCENARIO_PROCESSING_NOTSUPPORT_DEVICE;
    ERR_BGTASK_CONTINUOUS_BANNER_NOTIFICATION_EXIST_OR_AUTHORIZED;
    ERR_BGTASK_CONTINUOUS_NOT_APPLY_AUTH_RECORD;
    ERR_BGTASK_CONTINUOUS_AUTH_NOT_PERMITTED;
    ERR_BGTASK_CONTINUOUS_NOT_DEPLOY_SPECIAL_SCENARIO_PROCESSING;
    ERR_BGTASK_CONTINUOUS_BACKGROUND_TASK_PARAM_INVALID;
    ERR_BGTASK_CONTINUOUS_BANNER_NOTIFICATION_FAIL;
    ERR_BGTASK_CONTINUOUS_API_VERSION_FAIL;
    ERR_BGTASK_CONTINUOUS_TRIGGER_CALLBACK;
    ERR_BGTASK_CONTINUOUS_NOT_APPLY_PRELOAD_STATE;
    ERR_BGTASK_NOTIFICATION_VERIFY_FAILED;
    ERR_BGTASK_NOTIFICATION_ERR;
    ERR_BGTASK_CHECK_TASK_PARAM;
    ERR_BGTASK_CONTINUOUS_UPDATE_NOTIFICATION_FAIL;
    ERR_BGTASK_CONTINUOUS_NOT_DATA_TRANSFER;
    ERR_BGTASK_CONTINUOUS_PROGRESS_INFO_INVALID;
    ERR_BGTASK_CREATE_FILE_ERR;
    ERR_BGTASK_GET_ACTUAL_FILE_ERR;
    ERR_BGTASK_OPEN_FILE_ERR;
    ERR_BGTASK_INVALID_PID_OR_UID;
    ERR_BGTASK_INVALID_BUNDLE_NAME;
    ERR_BGTASK_INVALID_REQUEST_ID;
    ERR_BGTASK_INVALID_CALLBACK;
    ERR_BGTASK_CALLBACK_EXISTS;
    ERR_BGTASK_CALLBACK_NOT_EXIST;
    ERR_BGTASK_NOT_IN_PRESET_TIME;
    ERR_BGTASK_EXCEEDS_THRESHOLD;
    ERR_BGTASK_TIME_INSUFFICIENT;
    ERR_BGTASK_NOREQUEST_TASK;
    ERR_BGTASK_FOREGROUND;
    ERR_BGTASK_TRANSIENT_PARCELABLE_FAILED;
    ERR_BGTASK_TRANSIENT_SYS_NOT_READY;
    ERR_BGTASK_TRANSIENT_SERVICE_NOT_CONNECTED;
    ERR_BGTASK_RESOURCES_EXCEEDS_MAX;
    ERR_BGTASK_RESOURCES_INVALID_PID_OR_UID;
    ERR_BGTASK_METHOD_CALLED_FAILED;
    ERR_BGTASK_DATA_STORAGE_ERR;
    ERR_BGTASK_SERVICE_INNER_ERROR;
    ERR_BGTASK_INVALID_PROCESS_NAME;
    ERR_BGTASK_EFFICIENCY_RESOURCES_CPU_LEVEL_INVALID;
    ERR_BGTASK_EFFICIENCY_RESOURCES_CPU_LEVEL_NOT_ALLOW_APPLY;
    ERR_BGTASK_EFFICIENCY_RESOURCES_INVALID_BUNDLE_INFO;
    ERR_BGTASK_EFFICIENCY_RESOURCES_CPU_LEVEL_APP_SIGNATURES_INVALID;
    ERR_BGTASK_EFFICIENCY_RESOURCES_CPU_LEVEL_TOO_LARGE;
    ERR_BGTASK_RESOURCES_PARCELABLE_FAILED;
    ERR_BGTASK_RESOURCES_SYS_NOT_READY;
    ERR_BGTASK_RESOURCES_SERVICE_NOT_CONNECTED ].

Definition ParamErr : list Z :=
  [ ERR_PARAM_NUMBER_ERR;
    ERR_REASON_NULL_OR_TYPE_ERR;
    ERR_CALLBACK_NULL_OR_TYPE_ERR;
    ERR_REQUESTID_NULL_OR_ID_TYPE_ERR;
    ERR_REQUESTID_ILLEGAL;
    ERR_CONTEXT_NULL_OR_TYPE_ERR;
    ERR_BGMODE_NULL_OR_TYPE_ERR;
    ERR_WANTAGENT_NULL_OR_TYPE_ERR;
    ERR_ABILITY_INFO_EMPTY;
    ERR_GET_TOKEN_ERR;
    ERR_BGMODE_RANGE_ERR;
    ERR_APP_NAME_EMPTY;
    ERR_RESOURCE_TYPES_INVALID;
    ERR_ISAPPLY_NULL_OR_TYPE_ERR;
    ERR_TIMEOUT_INVALID;
    ERR_ISPERSIST_NULL_OR_TYPE_ERR;
    ERR_ISPROCESS_NULL_OR_TYPE_ERR ].

Definition SA_ERRCODE_MSG_MAP : list (Z * string) :=
  [ (ERR_BGTASK_PERMISSION_DENIED, "Permission denied."%string);
    (ERR_BGTASK_NOT_SYSTEM_APP, "System API verification failed. Only system application can apply."%string);
    (ERR_BGTASK_NO_MEMORY, "Memory operation failed. Failed to allocate the memory."%string);
    (ERR_BGTASK_SYS_NOT_READY, "System service operation failed. The system service is not ready."%string);
    (ERR_BGTASK_SERVICE_NOT_CONNECTED, "System service operation failed. The system service is not connected."%string);
    (ERR_BGTASK_PARCELABLE_FAILED, "Failed to write data into parcel. Possible reasons: 1. Invalid parameters; 2. Failed to apply for memory."%string);
    (ERR_BGTASK_TRANSACT_FAILED, "Internal transaction failed."%string);
    (ERR_BGTASK_OBJECT_EXISTS, "Continuous Task verification failed. The application has applied for a continuous task."%string);
    (ERR_BGTASK_OBJECT_NOT_EXIST, "Continuous Task verification failed. The application has not applied for a continuous task."%string);
    (ERR_BGTASK_KEEPING_TASK_VERIFY_ERR, "Continuous Task verification failed. Current device can not request continuous tasks of the TASK_KEEPING type."%string);
    (ERR_BGTASK_INVALID_BGMODE, "Continuous Task verification failed. The bgMode is invalid."%string);
    (ERR_BGTASK_INVALID_UID, "Continuous Task verification failed. The uid is invalid."%string);
    (ERR_BGTASK_NOTIFICATION_VERIFY_FAILED, "Notification verification failed for a continuous task. The title or text of the notification cannot be empty."%string);
    (ERR_BGTASK_NOTIFICATION_ERR, "Notification verification failed. Failed to send or cancel the notification."%string);
    (ERR_BGTASK_CREATE_FILE_ERR, "Continuous task storage failed. Failed to create the storage task file."%string);
    (ERR_BGTASK_GET_ACTUAL_FILE_ERR, "Task storage failed. Failed to get the actual storage task file."%string);
    (ERR_BGTASK_OPEN_FILE_ERR, "Task storage failed. Failed to open the file."%string);
    (ERR_BGTASK_INVALID_PID_OR_UID, "Caller information verification failed for a transient task. Invalid pid or uid."%string);
    (ERR_BGTASK_INVALID_BUNDLE_NAME, "Caller information verification failed for a transient task. The bundleName cannot be found."%string);
    (ERR_BGTASK_INVALID_REQUEST_ID, "Caller information verification failed for a transient task. Invalid requestId."%string);
    (ERR_BGTASK_INVALID_CALLBACK, "Transient task verification failed. The callback cannot be empty."%string);
    (ERR_BGTASK_CALLBACK_EXISTS, "Transient task verification failed. The callback already exists."%string);
    (ERR_BGTASK_CALLBACK_NOT_EXIST, "Transient task verification failed. The callback does not exist."%string);
    (ERR_BGTASK_NOT_IN_PRESET_TIME, "Transient task verification failed. Request is not allow after the preset time of entering background."%string);
    (ERR_BGTASK_EXCEEDS_THRESHOLD, "Transient task verification failed. The number of request exceeds the threshold."%string);
    (ERR_BGTASK_TIME_INSUFFICIENT, "Transient task verification failed. The remaining time to run transient task is insufficient."%string);
    (ERR_BGTASK_RESOURCES_EXCEEDS_MAX, "Caller information verification failed for an energy resource request. The number of resources applied exceeds maximun."%string);
    (ERR_BGTASK_RESOURCES_INVALID_PID_OR_UID, "Caller information verification failed for an energy resource. Invalid pid or uid."%string);
    (ERR_BGTASK_RESOURCES_PARCELABLE_FAILED, "Failed to write data into parcel. Possible reasons: 1. Invalid parameters; 2. Failed to apply for memory."%string);
    (ERR_BGTASK_RESOURCES_SYS_NOT_READY, "System service operation failed. The system service is not ready."%string);
    (ERR_BGTASK_RESOURCES_SERVICE_NOT_CONNECTED, "System service operation failed. The system service is not connected."%string);
    (ERR_BGTASK_SERVICE_INNER_ERROR, "Service inner error."%string);
    (ERR_BGTASK_NOREQUEST_TASK, "Transient task verification failed. application no request transient task."%string);
    (ERR_BGTASK_FOREGROUND, "Transient task verification failed. application is foreground."%string);
    (ERR_BGTASK_TRANSIENT_PARCELABLE_FAILED, "Failed to write data into parcel. Possible reasons: 1. Invalid parameters; 2. Failed to apply for memory."%string);
    (ERR_BGTASK_TRANSIENT_SYS_NOT_READY, "System service operation failed. The system service is not ready."%string);
    (ERR_BGTASK_TRANSIENT_SERVICE_NOT_CONNECTED, "System service operation failed. The system service is not connected."%string);
    (ERR_BGTASK_INVALID_PROCESS_NAME, "Transient task verification failed. caller process name invalid."%string);
    (ERR_BGTASK_CONTINUOUS_REQUEST_NULL_OR_TYPE, "Continuous Task verification failed. The continuousRequestInfo cannot be null and its type must be continuousRequestInfo object."%string);
    (ERR_BGTASK_CONTINUOUS_MODE_OR_SUBMODE_IS_EMPTY, "Continuous Task verification failed. The backgroundTaskModes or backgroundTaskSubmodes cannot be empty."%string);
    (ERR_BGTASK_CONTINUOUS_MODE_OR_SUBMODE_LENGTH_MISMATCH, "Continuous Task verification failed. The length of the backgroundTaskModes does not match the length of the backgroundTaskSubmodes."%string);
    (ERR_BGTASK_CONTINUOUS_MODE_OR_SUBMODE_CROSS_BORDER, "Continuous Task verification failed. The backgroundTaskModes or backgroundTaskSubmodes are out of scope."%string);
    (ERR_BGTASK_CONTINUOUS_MODE_OR_SUBMODE_TYPE_MISMATCH, "Continuous Task verification failed. The sequence of backgroundTaskModes does not match the backgroundTaskSubmodes."%string);
    (ERR_BGTASK_CONTINUOUS_NOT_UPDATE_BY_OLD_INTERFACE, "Continuous Task verification failed. This task is requested through a new interface, and update operations are not permitted via this interface."%string);
    (ERR_BGTASK_CONTINUOUS_TASKID_INVALID, "Continuous Task verification failed. The continuous task Id is invalid."%string);
    (ERR_BGTASK_CONTINUOUS_DATA_TRANSFER_NOT_MERGE_NOTIFICATION, "Continuous Task verification failed. This background task mode: DATA_TRANSFER type do not support merged notification."%string);
    (ERR_BGTASK_CONTINUOUS_NOT_MERGE_NOTIFICATION_NOT_EXIST, "Continuous Task verification failed. This continuous task notification does not exist and cannot be merged."%string);
    (ERR_BGTASK_CONTINUOUS_NOT_MERGE_COMBINED_FALSE, "Continuous Task verification failed. Target continuous task do not support merged."%string);
    (ERR_BGTASK_CONTINUOUS_NOT_UPDATE_BECAUSE_MERGE, "Continuous Task verification failed. The continuous task not update because of merged."%string);
    (ERR_BGTASK_CONTINUOUS_NOT_MERGE_CURRENTTASK_COMBINED_FALSE, "Continuous Task verification failed. Current continuous task do not support merged."%string);
    (ERR_BGTASK_CONTINUOUS_UPDATE_FAIL_SAME_MODE_AND_MERGED, "Continuous Task verification failed. Current continuous task support merged but the modes are inconsistent."%string);
    (ERR_BGTASK_CONTINUOUS_UPDATE_NOTIFICATION_FAIL, "Notification verification failed. Current continuous task refresh notification fail."%string);
    (ERR_BGTASK_CONTINUOUS_SYSTEM_APP_NOT_SUPPORT_ACL, "Continuous Task verification failed. System app not support ACL permission."%string);
    (ERR_BGTASK_CONTINUOUS_APP_NOT_HAVE_BGMODE_PERMISSION_SYSTEM, "Continuous Task verification failed. App has no ACL permission."%string);
    (ERR_BGTASK_CONTINUOUS_NOT_APPLY_MAX_TASK, "Continuous Task verification failed. The current ability to apply for continuous tasks has exceeded the maximum limit."%string);
    (ERR_BGTASK_CONTINUOUS_DATA_TRANSFER_NOT_UPDATE, "Continuous Task verification failed. The background task mode: DATA_TRANSFER type do not support update."%string);
    (ERR_BGTASK_CONTINUOUS_NOT_APPLY_ONBACKGROUND, "Continuous Task verification failed. The continuous task are not allowed to be applied on background."%string);
    (ERR_BGTASK_SPECIAL_SCENARIO_PROCESSING_ONLY_ALLOW_ONE_APPLICATION, "Continuous Task verification failed. Special scenario processing only allowed one application."%string);
    (ERR_BGTASK_SPECIAL_SCENARIO_PROCESSING_CONFLICTS_WITH_OTHER_TASK, "Continuous Task verification failed. Special scenario processing cannot coexist with other continuous task."%string);
    (ERR_BGTASK_GET_APP_INDEX_FAIL, "Continuous Task verification failed. Unable to obtain the app index."%string);
    (ERR_BGTASK_APP_DETECTED_MALICIOUS_BEHAVIOR, "Continuous Task verification failed. The current app has detected malicious behavior and is prohibited from applying."%string);
    (ERR_BGTASK_SPECIAL_SCENARIO_PROCESSING_EMPTY, "Continuous Task verification failed. The background task mode: MODE_SPECIAL_SCENARIO_PROCESSING type is empty."%string);
    (ERR_BGTASK_CONTINUOUS_CALLBACK_NULL_OR_TYPE_ERR, "Continuous Task verification failed. The callback cannot be null and its type must be function."%string);
    (ERR_BGTASK_CONTINUOUS_CALLBACK_EXISTS, "Continuous Task verification failed. The callback already exists."%string);
    (ERR_BGTASK_CONTINUOUS_SPECIAL_SCENARIO_PROCESSING_NOT_MERGE_NOTIFICATION, "Continuous Task verification failed. This background task mode: MODE_SPECIAL_SCENARIO_PROCESSING type do not support merged notification."%string);
    (ERR_BGTASK_MALICIOUS_CONTINUOUSTASK, "Malicious long-running tasks are not allowed to continue applying."%string);
    (ERR_BGTASK_SPECIAL_SCENARIO_PROCESSING_NOTSUPPORT_DEVICE, "Continuous Task verification failed. The background task mode: MODE_SPECIAL_SCENARIO_PROCESSING type do not support current device."%string);
    (ERR_BGTASK_CONTINUOUS_BANNER_NOTIFICATION_EXIST_OR_AUTHORIZED, "Continuous Task verification failed. Current application has banner notification or authorized."%string);
    (ERR_BGTASK_CONTINUOUS_NOT_APPLY_AUTH_RECORD, "Continuous Task verification failed. Current application not apply auth record."%string);
    (ERR_BGTASK_CONTINUOUS_AUTH_NOT_PERMITTED, "Continuous Task verification failed. Current authorization is not permitted."%string);
    (ERR_BGTASK_CONTINUOUS_NOT_DEPLOY_SPECIAL_SCENARIO_PROCESSING, "Continuous Task verification failed. The application not deploy backgroundMode: MODE_SPECIAL_SCENARIO_PROCESSING."%string);
    (ERR_BGTASK_CONTINUOUS_BACKGROUND_TASK_PARAM_INVALID, "Continuous Task verification failed. The background task state param is invalid."%string);
    (ERR_BGTASK_EFFICIENCY_RESOURCES_CPU_LEVEL_INVALID, "Caller information verification failed for an energy resource request. The cpuLevel cannot be null and must be a valid value."%string);
    (ERR_BGTASK_EFFICIENCY_RESOURCES_CPU_LEVEL_NOT_ALLOW_APPLY, "Apply cpu efficiency resources failed. Not allow apply cpuLevel."%string);
    (ERR_BGTASK_EFFICIENCY_RESOURCES_INVALID_BUNDLE_INFO, "Apply cpu efficiency resources failed. Cannot get application info."%string);
    (ERR_BGTASK_EFFICIENCY_RESOURCES_CPU_LEVEL_APP_SIGNATURES_INVALID, "Apply cpu efficiency resources failed. Application signatures invalid."%string);
    (ERR_BGTASK_EFFICIENCY_RESOURCES_CPU_LEVEL_TOO_LARGE, "Apply cpu efficiency resources failed. The cpuLevel value exceeds the max allowed by current application."%string);
    (ERR_BGTASK_CONTINUOUS_BANNER_NOTIFICATION_FAIL, "Continuous Task verification failed. Failed to send the banner notification."%string);
    (ERR_BGTASK_CONTINUOUS_API_VERSION_FAIL, "Continuous Task verification failed. The requested or checked API version for user authorization is incorrect."%string);
    (ERR_BGTASK_CONTINUOUS_NOT_APPLY_PRELOAD_STATE, "Continuous Task verification failed. The application is in pre-launch state and cannot apply for continuous task."%string);
    (ERR_BGTASK_CONTINUOUS_NOT_DATA_TRANSFER, "Notification verification failed for a continuous task. updateDataTransferProgress only supports DATA_TRANSFER mode."%string);
    (ERR_BGTASK_CONTINUOUS_PROGRESS_INFO_INVALID, "Notification verification failed for a continuous task. The progress info is invalid."%string) ].

Definition PARAM_ERRCODE_MSG_MAP : list (Z * string) :=
  [ (ERR_PARAM_NUMBER_ERR, "The number of arguments is wrong."%string);
    (ERR_REASON_NULL_OR_TYPE_ERR, "The reason cannot be null and its type must be string."%string);
    (ERR_CALLBACK_NULL_OR_TYPE_ERR, "The callback cannot be null and its type must be function."%string);
    (ERR_REQUESTID_NULL_OR_ID_TYPE_ERR, "The requestId cannot be null and its type must be integer."%string);
    (ERR_REQUESTID_ILLEGAL, "The requestId must be greater than 0."%string);
    (ERR_CONTEXT_NULL_OR_TYPE_ERR, "The context cannot be null and its type must be Context."%string);
    (ERR_BGMODE_NULL_OR_TYPE_ERR, "The bgMode cannot be null and its type must be BackgroundMode object."%string);
    (ERR_WANTAGENT_NULL_OR_TYPE_ERR, "The wantAgent cannot be null and its type must be WantAgent object."%string);
    (ERR_ABILITY_INFO_EMPTY, "The abilityInfo of context cannot be null."%string);
    (ERR_GET_TOKEN_ERR, "The token of context cannot be null."%string);
    (ERR_BGMODE_RANGE_ERR, "The value of bgMode ranges from BG_MODE_ID_BEGIN to BG_MODE_ID_END."%string);
    (ERR_APP_NAME_EMPTY, "The app name of abilityInfo in context cannot be null."%string);
    (ERR_RESOURCE_TYPES_INVALID, "The resourcesType cannot be null and must be integer greater than 0."%string);
    (ERR_ISAPPLY_NULL_OR_TYPE_ERR, "The isApply cannot be null and its type must be boolean."%string);
    (ERR_TIMEOUT_INVALID, "The timeOut cannot be null and must be integer greater than 0."%string);
    (ERR_ISPERSIST_NULL_OR_TYPE_ERR, "The isPersist cannot be null and must be boolean."%string);
    (ERR_ISPROCESS_NULL_OR_TYPE_ERR, "The isProcess cannot be null and must be boolean."%string);
    (ERR_BGTASK_INVALID_PARAM, "The input param is invalid."%string) ].

Module BusinessErrorMap.

(** [std::unordered_map::find] on a map built from an initialiser list: the
    first entry of a key is the one that stays. *)
Fixpoint msg_find (errCode : Z) (m : list (Z * string)) : option string :=
  match m with
  | [] => None
  | (c, msg) :: m' => if c =? errCode then Some msg else msg_find errCode m'
  end.

Definition GetSaErrMsg (errCode : Z) : string :=
  default ""%string (msg_find errCode SA_ERRCODE_MSG_MAP).

Definition GetParamErrMsg (errCode : Z) : string :=
  default ""%string (msg_find errCode PARAM_ERRCODE_MSG_MAP).

End BusinessErrorMap.

(** The kits' view of an error ([interfaces/kits/napi/src/common.cpp]): the
    numeric code an application catches and the text of the exception. *)
Module ErrorReport.
Import BusinessErrorMap.

Definition OFFSET : Z := 100.
Definition THRESHOLD : Z := 1000.

Definition FindErrCode (errCodeIn : Z) : Z :=
  return_if bool_decide (GetParamErrMsg errCodeIn <> ""%string), ERR_BGTASK_INVALID_PARAM ;;
  if errCodeIn >? THRESHOLD then Z.quot errCodeIn OFFSET else errCodeIn.

Definition FindErrMsg (errCode : Z) : string :=
  return_if errCode =? ERR_OK, ""%string ;;
  let errMsg := GetSaErrMsg errCode in
  return_if bool_decide (errMsg <> ""%string),
    ("BussinessError " +:+ pretty (FindErrCode errCode) +:+ ": " +:+ errMsg)%string ;;
  let errMsg := GetParamErrMsg errCode in
  return_if bool_decide (errMsg <> ""%string),
    ("BussinessError 401: Parameter error. " +:+ errMsg)%string ;;
  "Inner error."%string.

(** The public error codes of the three services. *)
Definition public_codes : list Z :=
  [201; 202; 401; 9800001; 9800002; 9800003; 9800004; 9800005; 9800006; 9800007;
   9900001; 9900002; 9900003; 9900004; 18700001; 18700002; 18700004].

(** Codes of the enumeration that have no text. *)
Definition codes_without_message : list Z :=
  filter (fun c => GetSaErrMsg c = ""%string /\ GetParamErrMsg c = ""%string)
    bgtask_err_codes.

End ErrorReport.

(** The error codes of the services are distinct; each is reported to
    applications under one of the public codes of its service, and with the text
    of the table, except for four codes that have no text and are reported as
    [Inner error.]. *)
Theorem error_codes_reported :
  NoDup bgtask_err_codes /\
  Forall (fun c => ErrorReport.FindErrCode c ∈ ErrorReport.public_codes) bgtask_err_codes /\
  ErrorReport.codes_without_message =
    [ERR_BGTASK_CONTINUOUS_TRIGGER_CALLBACK; ERR_BGTASK_CHECK_TASK_PARAM;
     ERR_BGTASK_METHOD_CALLED_FAILED; ERR_BGTASK_DATA_STORAGE_ERR] /\
  Forall (fun c => ErrorReport.FindErrMsg c = "Inner error."%string <->
                   c ∈ ErrorReport.codes_without_message) bgtask_err_codes.
Proof.
  split; [|split; [|split; [vm_compute; reflexivity|]]];
    apply (bool_decide_unpack _); vm_compute; exact I.
Qed.
