(* ===== verification/KeyInfo.v ===== *)
(** * Task keys

    [KeyInfo] and [KeyInfoComp] of
    src/services/transient_task/include/key_info.h.  The maps of the decision
    maker are ordered by [KeyInfoComp]; this file shows that two keys are
    equivalent for it exactly when package and uid agree, which is why the
    model uses maps indexed by the pair [key_of]. *)

From Stdlib Require OrdersEx.
From S2P Require Import Prelude.
Local Open Scope Z_scope.

Record KeyInfo := mkKeyInfo { ki_pkg_ : string; ki_uid_ : Z; ki_pid_ : Z }.

#[export] Instance KeyInfo_eq_dec : EqDecision KeyInfo.
Proof. solve_decision. Defined.

(** The pid of [KeyInfo(pkg, uid)], its default argument. *)
Definition KEY_DEFAULT_PID : Z := -1.

Definition KeyInfo_GetPkg (k : KeyInfo) : string := ki_pkg_ k.
Definition KeyInfo_GetUid (k : KeyInfo) : Z := ki_uid_ k.
Definition KeyInfo_GetPid (k : KeyInfo) : Z := ki_pid_ k.

(** [std::string::operator<]: lexicographic on unsigned bytes. *)
Definition str_lt (a b : string) : bool :=
  match OrdersEx.String_as_OT.compare a b with Lt => true | _ => false end.

Definition KeyInfo_lt (x o : KeyInfo) : bool :=
  str_lt (ki_pkg_ x) (ki_pkg_ o)
  || (bool_decide (ki_pkg_ x = ki_pkg_ o) && (ki_uid_ x <? ki_uid_ o)).

Definition KeyInfo_IsEqual (x : KeyInfo) (pkg : string) (uid : Z) : bool :=
  bool_decide (pkg = ki_pkg_ x) && (uid =? ki_uid_ x).

Definition KeyInfo_ToString (k : KeyInfo) : string :=
  ("pkg: " +:+ ki_pkg_ k +:+ " uid: " +:+ pretty (ki_uid_ k) +:+ " pid: " +:+ pretty (ki_pid_ k))%string.

(** [KeyInfoComp::operator()] on possibly null pointers. *)
Definition KeyInfoComp (x y : option KeyInfo) : bool :=
  match x, y with
  | Some x, Some y =>
      str_lt (ki_pkg_ x) (ki_pkg_ y)
      || (bool_decide (ki_pkg_ x = ki_pkg_ y) && (ki_uid_ x <? ki_uid_ y))
  | _, _ => false
  end.

(** The index of a key in the maps ordered by [KeyInfoComp]. *)
Abbreviation PkgKey := (string * Z)%type.
Definition key_of (k : KeyInfo) : PkgKey := (ki_pkg_ k, ki_uid_ k).

(** Equivalence of [std::map] keys: neither is less. *)
Definition key_equiv (x y : KeyInfo) : Prop :=
  KeyInfoComp (Some x) (Some y) = false /\ KeyInfoComp (Some y) (Some x) = false.

Lemma str_lt_spec a b : str_lt a b = true <-> OrdersEx.String_as_OT.lt a b.
Proof. unfold str_lt, OrdersEx.String_as_OT.lt. destruct (OrdersEx.String_as_OT.compare a b); done. Qed.

Lemma str_lt_irrefl a : str_lt a a = false.
Proof.
  apply not_true_iff_false. rewrite str_lt_spec.
  apply (StrictOrder_Irreflexive (R := OrdersEx.String_as_OT.lt)).
Qed.

Lemma str_lt_trans a b c : str_lt a b = true -> str_lt b c = true -> str_lt a c = true.
Proof.
  rewrite !str_lt_spec. apply (StrictOrder_Transitive (R := OrdersEx.String_as_OT.lt)).
Qed.

Lemma str_lt_total a b : str_lt a b = false -> str_lt b a = false -> a = b.
Proof.
  intros H1%not_true_iff_false H2%not_true_iff_false. rewrite str_lt_spec in H1, H2.
  destruct (OrdersEx.String_as_OT.compare_spec a b); done.
Qed.

Lemma KeyInfoComp_spec x y :
  KeyInfoComp (Some x) (Some y) = true <->
  str_lt (ki_pkg_ x) (ki_pkg_ y) = true \/ (ki_pkg_ x = ki_pkg_ y /\ ki_uid_ x < ki_uid_ y).
Proof.
  simpl. rewrite orb_true_iff, andb_true_iff, bool_decide_eq_true, Z.ltb_lt. done.
Qed.

Lemma KeyInfoComp_irrefl x : KeyInfoComp x x = false.
Proof.
  destruct x as [x|]; [|done]. simpl.
  rewrite str_lt_irrefl, Z.ltb_irrefl, andb_false_r. done.
Qed.

Lemma KeyInfoComp_trans x y z :
  KeyInfoComp x y = true -> KeyInfoComp y z = true -> KeyInfoComp x z = true.
Proof.
  destruct x as [x|], y as [y|], z as [z|]; try done. rewrite !KeyInfoComp_spec.
  intros [H1|[E1 H1]] [H2|[E2 H2]].
  - left. by eapply str_lt_trans.
  - left. by rewrite <- E2.
  - left. by rewrite E1.
  - right. split; [congruence|lia].
Qed.

(** The order of the decision maker's maps identifies keys by package and
    uid only: two keys are equivalent for [KeyInfoComp] exactly when their
    packages and uids agree, whatever their pids, and [KeyInfoComp] is a strict
    order, as [std::map] requires. *)
Theorem KeyInfoComp_equiv_key_of x y :
  (key_equiv x y <-> key_of x = key_of y) /\
  (KeyInfoComp (Some x) (Some y) = KeyInfo_lt x y) /\
  KeyInfoComp (Some x) (Some x) = false.
Proof.
  split; [|split; [done | apply KeyInfoComp_irrefl]]. unfold key_equiv, key_of. split.
  - simpl. intros [[H1 H2]%orb_false_elim [H3 H4]%orb_false_elim].
    pose proof (str_lt_total _ _ H1 H3) as E. rewrite E in *.
    rewrite bool_decide_true in H2, H4 by done. simpl in *. bool_prop. f_equal; lia.
  - intros [= E1 E2]. simpl. rewrite E1, E2, str_lt_irrefl, Z.ltb_irrefl, andb_false_r. done.
Qed.

Lemma KeyInfo_IsEqual_spec k pkg uid :
  KeyInfo_IsEqual k pkg uid = true <-> key_of k = (pkg, uid).
Proof.
  unfold KeyInfo_IsEqual, key_of. rewrite andb_true_iff, bool_decide_eq_true, Z.eqb_eq.
  split; [intros [-> ->] | intros [= -> ->]]; done.
Qed.
