(* ===== verification/Interfaces.v ===== *)
(** * Interfaces

    What the components rely on outside themselves, as type classes: the event
    handlers of the application framework, the system parameters, and what the
    transient-task component asks of the configuration.  Client theorems are
    proved against these interfaces; instances that satisfy the laws are given
    here ([ListQueue]) and in BgtaskConfig.v. *)

From S2P Require Import Prelude.
Local Open Scope Z_scope.

(** ** AppExecFwk::EventHandler

    [TimerManager] and [Watchdog] are event handlers: [SendEvent id _ delay]
    queues an event, [RemoveEvent id] drops the queued events with that inner
    id, and the event runner takes an event off the queue to call
    [ProcessEvent].  The laws say which ids are queued. *)
Class EventHandler (Q : Type) := {
  eh_empty : Q;
  SendEvent : Q -> Z -> Z -> Q;
  RemoveEvent : Q -> Z -> Q;
  TakeEvent : Q -> Z -> Q;
  pending : Q -> gset Z;
  pending_empty : pending eh_empty = ∅;
  pending_send q id delay : pending (SendEvent q id delay) = {[id]} ∪ pending q;
  pending_remove q id : pending (RemoveEvent q id) = pending q ∖ {[id]};
  pending_take q id : pending q ∖ {[id]} ⊆ pending (TakeEvent q id) ⊆ pending q;
}.

#[export] Hint Rewrite @pending_empty @pending_send @pending_remove : bgtask_rw.

(** A queue as the list of its events, with their delays. *)
Module ListQueue.
Definition queue := list (Z * Z).
Definition ids (q : list (Z * Z)) : gset Z := list_to_set q.*1.

Lemma ids_filter (q : list (Z * Z)) id : ids (filter (fun e => e.1 <> id) q) = ids q ∖ {[id]}.
Proof.
  unfold ids. induction q as [|[i d] q IH]; [simpl; set_solver|].
  rewrite filter_cons. case_decide as Hi; simpl in Hi;
    rewrite ?fmap_cons, ?list_to_set_cons, IH; simpl; set_solver.
Qed.

Lemma ids_erase_first (q : list (Z * Z)) id :
  ids q ∖ {[id]} ⊆ ids (erase_first (fun e => e.1 =? id) q) ⊆ ids q.
Proof.
  unfold ids. induction q as [|[i d] q IH]; simpl; [set_solver|].
  case_test; bool_prop; simpl in *; set_solver.
Qed.

#[export] Program Instance list_queue : EventHandler queue := {|
  eh_empty := [];
  SendEvent q id delay := q ++ [(id, delay)];
  RemoveEvent q id := filter (fun e => e.1 <> id) q;
  TakeEvent q id := erase_first (fun e => e.1 =? id) q;
  pending := ids;
|}.
Next Obligation. done. Qed.
Next Obligation. intros q id delay. unfold ids. rewrite fmap_app. set_solver. Qed.
Next Obligation. intros q id. apply ids_filter. Qed.
Next Obligation. intros q id. apply ids_erase_first. Qed.
End ListQueue.

(** ** Remote objects (IPC)

    A remote object is a number; a proxy is compared by it. *)
Abbreviation Remote := Z (only parsing).
(** [IExpiredCallback] or [IBackgroundTaskSubscriber]: what [AsObject()] gives. *)
Record RemoteProxy := mkProxy { AsObject : option Remote }.
#[export] Instance RemoteProxy_eq_dec : EqDecision RemoteProxy.
Proof. solve_decision. Defined.

Definition same_remote (r : option Remote) (sub : RemoteProxy) : bool :=
  bool_decide (r = AsObject sub).

(** ** System parameters (the init parameter service) *)
Class SystemParams := { GetIntParameter : string -> Z -> Z }.

(** Every parameter at its default. *)
Definition default_params : SystemParams := {| GetIntParameter _ d := d |}.

(** ** What the transient-task component asks of [BgtaskConfig] *)
Class TransientConfig := {
  IsTransientTaskExemptedQuatoApp : string -> bool;
  GetTransientTaskExemptedQuato : Z;
}.

(** No application exempted, the quota of a fresh [BgtaskConfig]. *)
Definition plain_config : TransientConfig :=
  {| IsTransientTaskExemptedQuatoApp _ := false; GetTransientTaskExemptedQuato := 10000 |}.
