(* ===== verification/DelaySuspendInfo.v ===== *)
(** * One transient-task request

    [DelaySuspendInfoEx] of src/services/transient_task (delay_suspend_info_ex.h
    and .cpp) with its base class [DelaySuspendInfo] of interfaces/innerkits:
    the granted delay of one request and the time it has used, accounted only
    while the request is running.  [now] is the value of
    [TimeProvider::GetCurrentTime()], milliseconds of the monotonic clock. *)

From S2P Require Import Prelude.
Local Open Scope Z_scope.

(** ** Time constants ([TimeConstant] of time_provider.h) *)
Definition MSEC_PER_SEC : Z := 1000.
Definition MSEC_PER_MIN : Z := 60000.
Definition MSEC_PER_DAY : Z := 86400000.

(** [advanceTime_]: how long before the end the application is called back. *)
Definition ADVANCE_TIME : Z := 6 * MSEC_PER_SEC.
(** [WATCHDOG_DELAY_TIME]: how long after the callback the task is cancelled. *)
Definition WATCHDOG_DELAY_TIME : Z := 6 * MSEC_PER_SEC.

Record DelaySuspendInfoEx := mkEx {
  ex_requestId_ : Z;        (* int32_t *)
  ex_actualDelayTime_ : Z;  (* int32_t *)
  ex_pid_ : Z;              (* int32_t *)
  ex_baseTime_ : Z;         (* int64_t, 0 while not accounting *)
  ex_spendTime_ : Z;        (* int64_t *)
}.

#[export] Instance DelaySuspendInfoEx_eq_dec : EqDecision DelaySuspendInfoEx.
Proof. solve_decision. Defined.

(** [DelaySuspendInfoEx(pid)], with the default arguments of the constructor. *)
Definition new_DelaySuspendInfoEx (pid : Z) : DelaySuspendInfoEx := mkEx (-1) 0 pid 0 0.

Definition ex_SetRequestId (id : Z) (i : DelaySuspendInfoEx) : DelaySuspendInfoEx :=
  mkEx id (ex_actualDelayTime_ i) (ex_pid_ i) (ex_baseTime_ i) (ex_spendTime_ i).
Definition ex_SetActualDelayTime (t : Z) (i : DelaySuspendInfoEx) : DelaySuspendInfoEx :=
  mkEx (ex_requestId_ i) t (ex_pid_ i) (ex_baseTime_ i) (ex_spendTime_ i).
Definition ex_IsSameRequestId (i : DelaySuspendInfoEx) (id : Z) : bool := ex_requestId_ i =? id.

Definition ex_GetRemainDelayTime (now : Z) (i : DelaySuspendInfoEx) : Z :=
  let spendTime :=
    if ex_baseTime_ i >? 0 then ex_spendTime_ i + (now - ex_baseTime_ i)
    else ex_spendTime_ i in
  let remainTime := int32 (ex_actualDelayTime_ i - int32 spendTime) in
  if remainTime <? 0 then 0 else remainTime.

Definition ex_GetAdvanceCallbackTime (now : Z) (i : DelaySuspendInfoEx) : Z :=
  let advanceCallbackTime := int32 (ex_GetRemainDelayTime now i - ADVANCE_TIME) in
  if advanceCallbackTime >? 0 then advanceCallbackTime else 0.

Definition ex_StartAccounting (now : Z) (i : DelaySuspendInfoEx) : DelaySuspendInfoEx :=
  if ex_baseTime_ i =? 0
  then mkEx (ex_requestId_ i) (ex_actualDelayTime_ i) (ex_pid_ i) now (ex_spendTime_ i)
  else i.

Definition ex_StopAccounting (now : Z) (i : DelaySuspendInfoEx) : DelaySuspendInfoEx :=
  if negb (ex_baseTime_ i =? 0)
  then mkEx (ex_requestId_ i) (ex_actualDelayTime_ i) (ex_pid_ i) 0
         (ex_spendTime_ i + (now - ex_baseTime_ i))
  else i.

Definition ex_Dump (now : Z) (i : DelaySuspendInfoEx) : string :=
  ("{ requestId: " +:+ pretty (ex_requestId_ i)
   +:+ ", reaminTime: " +:+ pretty (ex_GetRemainDelayTime now i)
   +:+ ", advanceCallbackTime: " +:+ pretty (ex_GetAdvanceCallbackTime now i) +:+ "}")%string.

(** ** Facts *)

Definition accounting (i : DelaySuspendInfoEx) : Prop := ex_baseTime_ i <> 0.
#[export] Instance accounting_dec i : Decision (accounting i).
Proof. unfold accounting. apply _. Defined.

(** Well-formed at time [now]: 32-bit granted delay, base time in the past. *)
Record ex_wf (now : Z) (i : DelaySuspendInfoEx) : Prop := {
  ex_wf_delay : 0 <= ex_actualDelayTime_ i <= int32_max;
  ex_wf_base : 0 <= ex_baseTime_ i <= now;
  ex_wf_spend : 0 <= ex_spendTime_ i;
}.

(** The time the request has run, by [now]. *)
Definition ex_used (now : Z) (i : DelaySuspendInfoEx) : Z :=
  if decide (accounting i) then ex_spendTime_ i + (now - ex_baseTime_ i) else ex_spendTime_ i.

Lemma ex_GetRemainDelayTime_nonneg now i : 0 <= ex_GetRemainDelayTime now i.
Proof. unfold ex_GetRemainDelayTime. case_test; bool_prop; lia. Qed.

(** The remaining time is the granted delay minus the time used, not below
    zero, as long as the used time fits in 32 bits. *)
Lemma ex_GetRemainDelayTime_spec now i :
  ex_wf now i -> ex_used now i <= int32_max ->
  ex_GetRemainDelayTime now i = Z.max 0 (ex_actualDelayTime_ i - ex_used now i).
Proof.
  intros [Hd Hb Hs] Hu. unfold ex_GetRemainDelayTime, ex_used in *. unfold accounting in *.
  assert ((if ex_baseTime_ i >? 0 then ex_spendTime_ i + (now - ex_baseTime_ i)
    else ex_spendTime_ i) = (if decide (ex_baseTime_ i <> 0)
    then ex_spendTime_ i + (now - ex_baseTime_ i) else ex_spendTime_ i)) as ->.
  { case_test; bool_prop; case_decide; lia. }
  case_decide; int32_simpl; case_test; bool_prop; in_range.
Qed.

Lemma ex_used_start now t i :
  0 < now -> now <= t -> ex_baseTime_ i = 0 ->
  ex_used t (ex_StartAccounting now i) = ex_spendTime_ i + (t - now).
Proof.
  intros Hn Ht Hb. unfold ex_used, ex_StartAccounting, accounting.
  rewrite Hb. simpl. rewrite decide_True by (simpl; lia). done.
Qed.

Lemma ex_used_stop now t i :
  ex_used t (ex_StopAccounting now i) = ex_used now i.
Proof.
  unfold ex_used, ex_StopAccounting, accounting.
  destruct (ex_baseTime_ i =? 0) eqn:E; bool_prop; simpl; repeat case_decide; lia.
Qed.

Lemma ex_wf_start now i : ex_wf now i -> ex_wf now (ex_StartAccounting now i).
Proof.
  intros [Hd Hb Hs]. unfold ex_StartAccounting. case_test; [|done].
  bool_prop; constructor; simpl; lia.
Qed.

Lemma ex_wf_stop now i : ex_wf now i -> ex_wf now (ex_StopAccounting now i).
Proof.
  intros [Hd Hb Hs]. unfold ex_StopAccounting. case_test; [|done].
  bool_prop; constructor; simpl; lia.
Qed.

Lemma ex_wf_mono now t i : now <= t -> ex_wf now i -> ex_wf t i.
Proof. intros Ht [Hd Hb Hs]. constructor; lia. Qed.

#[export] Hint Resolve ex_wf_start ex_wf_stop : bgtask.

Lemma ex_StartAccounting_id now i : ex_requestId_ (ex_StartAccounting now i) = ex_requestId_ i.
Proof. unfold ex_StartAccounting. by case_test. Qed.
Lemma ex_StopAccounting_id now i : ex_requestId_ (ex_StopAccounting now i) = ex_requestId_ i.
Proof. unfold ex_StopAccounting. by case_test. Qed.

Lemma ex_StopAccounting_stopped now i : ~ accounting (ex_StopAccounting now i).
Proof. unfold accounting, ex_StopAccounting. case_test; bool_prop; simpl; lia. Qed.

Lemma ex_StartAccounting_started now i : 0 < now -> accounting (ex_StartAccounting now i).
Proof. intros Hn. unfold accounting, ex_StartAccounting. case_test; bool_prop; simpl; lia. Qed.

Lemma ex_start_idle now i : accounting i -> ex_StartAccounting now i = i.
Proof.
  unfold accounting, ex_StartAccounting. intros H. case_test; bool_prop; [done|done].
Qed.
Lemma ex_stop_idle now i : ~ accounting i -> ex_StopAccounting now i = i.
Proof.
  unfold accounting, ex_StopAccounting. intros H. case_test; bool_prop; [lia|done].
Qed.
