(* ===== verification/PkgDelaySuspendInfo.v ===== *)
(** * The requests and the quota of one application

    [PkgDelaySuspendInfo] of src/services/transient_task
    (pkg_delay_suspend_info.h and .cpp) and the parameters of
    bgtask_common.cpp.  The operations thread the queue of [TimerManager]
    (an [EventHandler]): starting the accounting of a request arms its timer,
    stopping it removes the timer. *)

From S2P Require Import Prelude.
From S2P Require Import Errors.
From S2P Require Import Interfaces.
From S2P Require Import DelaySuspendInfo.
Local Open Scope Z_scope.

(** ** Parameters (bgtask_common.cpp) *)
Section Params.
Context `{SystemParams}.

Definition DELAY_TIME_NORMAL : Z :=
  GetIntParameter "persist.sys.bgtask_delaytime_normal" (3 * MSEC_PER_MIN).
Definition DELAY_TIME_LOW_POWER : Z := 1 * MSEC_PER_MIN.
Definition ALLOW_REQUEST_TIME_BG : Z := 5 * MSEC_PER_SEC.
Definition INIT_QUOTA : Z :=
  GetIntParameter "persist.sys.bgtask_init_quota" (10 * MSEC_PER_MIN).
Definition QUOTA_UPDATE : Z :=
  GetIntParameter "persist.sys.bgtask_quota_update" (1 * MSEC_PER_DAY).
End Params.

Definition MAX_REQUEST_ID : Z := 3.
Definition MIN_ALLOW_QUOTA_TIME : Z := 16 * MSEC_PER_SEC.

Record PkgDelaySuspendInfo := mkPkg {
  pi_pkg_ : string;
  pi_uid_ : Z;
  pi_quota_ : Z;       (* int32_t *)
  pi_spendTime_ : Z;   (* int32_t *)
  pi_baseTime_ : Z;    (* int32_t *)
  pi_isCounting_ : bool;
  pi_requestList_ : list DelaySuspendInfoEx;
}.

Definition pi_set_quota (quota spend base : Z) (p : PkgDelaySuspendInfo) : PkgDelaySuspendInfo :=
  mkPkg (pi_pkg_ p) (pi_uid_ p) quota spend base (pi_isCounting_ p) (pi_requestList_ p).
Definition pi_set_isCounting (b : bool) (p : PkgDelaySuspendInfo) : PkgDelaySuspendInfo :=
  mkPkg (pi_pkg_ p) (pi_uid_ p) (pi_quota_ p) (pi_spendTime_ p) (pi_baseTime_ p) b
    (pi_requestList_ p).
Definition pi_set_requestList (l : list DelaySuspendInfoEx) (p : PkgDelaySuspendInfo) :
  PkgDelaySuspendInfo :=
  mkPkg (pi_pkg_ p) (pi_uid_ p) (pi_quota_ p) (pi_spendTime_ p) (pi_baseTime_ p)
    (pi_isCounting_ p) l.

Section Pkg.
Context `{SystemParams} {cfg : TransientConfig} `{EventHandler Q}.
Implicit Types p : PkgDelaySuspendInfo.

(** The constructor, with the member initialisers of the header. *)
Definition new_PkgDelaySuspendInfo (pkg : string) (uid : Z) : PkgDelaySuspendInfo :=
  mkPkg pkg uid INIT_QUOTA 0 0 false [].

Definition pi_IsRequestEmpty p : bool := bool_decide (pi_requestList_ p = []).
Definition pi_GetRequestSize p : Z := Z.of_nat (length (pi_requestList_ p)).

Definition pi_GetModifiedTime (now : Z) p : Z :=
  let isExemptedApp := IsTransientTaskExemptedQuatoApp (pi_pkg_ p) in
  let exempted_quota := if isExemptedApp then GetTransientTaskExemptedQuato else 0 in
  let time := int32 (int32 (int32 now - pi_baseTime_ p) - exempted_quota) in
  if time <? 0 then 0 else time.

Definition pi_UpdateQuota (now : Z) (reset : bool) p : PkgDelaySuspendInfo :=
  let spend := if pi_isCounting_ p then pi_GetModifiedTime now p else 0 in
  let quota := int32 (pi_quota_ p - spend) in
  let quota := if quota <? 0 then 0 else quota in
  let base := int32 now in
  let quota := if reset then INIT_QUOTA else quota in
  pi_set_quota quota spend base p.

Definition pi_IsAllowRequest (now : Z) p : Z * PkgDelaySuspendInfo :=
  return_if MAX_REQUEST_ID <=? pi_GetRequestSize p, (ERR_BGTASK_EXCEEDS_THRESHOLD, p) ;;
  let p := pi_UpdateQuota now false p in
  return_if pi_quota_ p >=? MIN_ALLOW_QUOTA_TIME, (ERR_OK, p) ;;
  (ERR_BGTASK_TIME_INSUFFICIENT, p).

(** The delay [AddRequest] grants. *)
Definition pi_grantedDelay (delayTime : Z) (needSetTime : bool) p : Z :=
  if needSetTime then int32 (GetTransientTaskExemptedQuato + WATCHDOG_DELAY_TIME)
  else if pi_quota_ p <? delayTime then pi_quota_ p else delayTime.

Definition pi_AddRequest (delayInfo : DelaySuspendInfoEx) (delayTime : Z) (needSetTime : bool)
    p : PkgDelaySuspendInfo :=
  let delayInfo := ex_SetActualDelayTime (pi_grantedDelay delayTime needSetTime p) delayInfo in
  pi_set_requestList (pi_requestList_ p ++ [delayInfo]) p.

Definition pi_GetRemainDelayTime (now requestId : Z) p : Z :=
  match list_find (fun i => ex_IsSameRequestId i requestId = true) (pi_requestList_ p) with
  | Some (_, info) => ex_GetRemainDelayTime now info
  | None => 0
  end.

(** The body of the loop of [StartAccounting], on one request; the request
    list itself is rebuilt by [pi_StartAccounting_loop]. *)
Definition pi_StartAccounting_body (now requestId : Z) (info : DelaySuspendInfoEx)
    (pq : PkgDelaySuspendInfo * Q) : (PkgDelaySuspendInfo * Q) * DelaySuspendInfoEx :=
  let '(p, q) := pq in
  return_if negb (requestId =? -1) && negb (ex_IsSameRequestId info requestId), ((p, q), info) ;;
  let p :=
    if negb (pi_isCounting_ p) then pi_set_isCounting true (pi_UpdateQuota now false p)
    else p in
  if ex_baseTime_ info =? 0 then
    let info := ex_StartAccounting now info in
    ((p, SendEvent q (ex_requestId_ info) (ex_GetAdvanceCallbackTime now info)), info)
  else ((p, q), info).

Fixpoint pi_StartAccounting_loop (now requestId : Z) (l : list DelaySuspendInfoEx)
    (pq : PkgDelaySuspendInfo * Q) : (PkgDelaySuspendInfo * Q) * list DelaySuspendInfoEx :=
  match l with
  | [] => (pq, [])
  | info :: l =>
      let '(pq, info) := pi_StartAccounting_body now requestId info pq in
      let '(pq, l) := pi_StartAccounting_loop now requestId l pq in
      (pq, info :: l)
  end.

Definition pi_StartAccounting (now requestId : Z) p (q : Q) : PkgDelaySuspendInfo * Q :=
  let '((p', q'), l) := pi_StartAccounting_loop now requestId (pi_requestList_ p) (p, q) in
  (pi_set_requestList l p', q').

(** [StopAccounting(requestId)] and the loop of [StopAccountingAll] stop the
    requests that satisfy [stop] and are accounting. *)
Fixpoint pi_StopAccounting_loop (now : Z) (stop : DelaySuspendInfoEx -> bool)
    (l : list DelaySuspendInfoEx) (q : Q) : list DelaySuspendInfoEx * Q :=
  match l with
  | [] => ([], q)
  | info :: l =>
      if negb (stop info) || (ex_baseTime_ info =? 0) then
        let '(l, q) := pi_StopAccounting_loop now stop l q in (info :: l, q)
      else
        let info' := ex_StopAccounting now info in
        let '(l, q) := pi_StopAccounting_loop now stop l (RemoveEvent q (ex_requestId_ info')) in
        (info' :: l, q)
  end.

Definition pi_StopAccounting (now requestId : Z) p (q : Q) : PkgDelaySuspendInfo * Q :=
  let '(l, q) :=
    pi_StopAccounting_loop now (fun i => ex_IsSameRequestId i requestId) (pi_requestList_ p) q in
  (pi_set_requestList l p, q).

Definition pi_StopAccountingAll (now : Z) p (q : Q) : PkgDelaySuspendInfo * Q :=
  let '(l, q) := pi_StopAccounting_loop now (fun _ => true) (pi_requestList_ p) q in
  let p := pi_set_requestList l p in
  (pi_set_isCounting false (pi_UpdateQuota now false p), q).

(** Only the first request with the id is erased, after all of them stop. *)
Definition pi_RemoveRequest (now requestId : Z) p (q : Q) : PkgDelaySuspendInfo * Q :=
  return_if negb (existsb (fun i => ex_IsSameRequestId i requestId) (pi_requestList_ p)), (p, q) ;;
  let '(p, q) := pi_StopAccounting now requestId p q in
  let p := pi_set_requestList
    (erase_first (fun i => ex_IsSameRequestId i requestId) (pi_requestList_ p)) p in
  if pi_IsRequestEmpty p then (pi_set_isCounting false (pi_UpdateQuota now false p), q)
  else (p, q).
End Pkg.

(** ** What the loops compute *)
Section PkgLoops.
Context `{SystemParams} {cfg : TransientConfig} `{EventHandler Q}.
Implicit Types p : PkgDelaySuspendInfo.
Implicit Types l : list DelaySuspendInfoEx.

(** The requests a call of [StartAccounting(requestId)] is about. *)
Definition selected (requestId : Z) (i : DelaySuspendInfoEx) : bool :=
  (requestId =? -1) || ex_IsSameRequestId i requestId.

Definition ids_of l : gset Z := list_to_set (ex_requestId_ <$> l).
Definition acct_ids l : gset Z := ids_of (filter accounting l).

Lemma elem_of_ids_of l id : id ∈ ids_of l <-> exists i, i ∈ l /\ ex_requestId_ i = id.
Proof.
  unfold ids_of. rewrite elem_of_list_to_set, list_elem_of_fmap.
  split; intros (i & ? & ?); exists i; split; congruence.
Qed.

Lemma elem_of_acct_ids l id :
  id ∈ acct_ids l <-> exists i, i ∈ l /\ accounting i /\ ex_requestId_ i = id.
Proof.
  unfold acct_ids. rewrite elem_of_ids_of.
  split; intros (i & Hi & ?); exists i; rewrite list_elem_of_filter in *; naive_solver.
Qed.

Lemma acct_ids_cons i l :
  acct_ids (i :: l) =
  (if decide (accounting i) then {[ex_requestId_ i]} else ∅) ∪ acct_ids l.
Proof.
  unfold acct_ids, ids_of. rewrite filter_cons. case_decide; simpl; [done|].
  by rewrite union_empty_l_L.
Qed.

Definition startCounting (now : Z) p : PkgDelaySuspendInfo :=
  if pi_isCounting_ p then p else pi_set_isCounting true (pi_UpdateQuota now false p).

Lemma startCounting_idemp now p : startCounting now (startCounting now p) = startCounting now p.
Proof. unfold startCounting. destruct (pi_isCounting_ p) eqn:E; [by rewrite E|done]. Qed.

Lemma startCounting_requestList now p :
  pi_requestList_ (startCounting now p) = pi_requestList_ p.
Proof. unfold startCounting. by case_test. Qed.

Lemma pi_StartAccounting_body_spec now requestId info p (q : Q) :
  pi_StartAccounting_body now requestId info (p, q) =
  if selected requestId info then
    ((startCounting now p,
      if ex_baseTime_ info =? 0
      then SendEvent q (ex_requestId_ info)
             (ex_GetAdvanceCallbackTime now (ex_StartAccounting now info))
      else q),
     ex_StartAccounting now info)
  else ((p, q), info).
Proof.
  unfold pi_StartAccounting_body, selected.
  destruct (requestId =? -1), (ex_IsSameRequestId info requestId); simpl;
    unfold startCounting; destruct (pi_isCounting_ p); simpl;
    rewrite ?ex_StartAccounting_id; destruct (ex_baseTime_ info =? 0) eqn:E; try done;
    unfold ex_StartAccounting; by rewrite E.
Qed.

(** The body never changes which package it works on, so the loop is a map
    over the requests, a quota update at the first selected one, and one
    armed timer per selected request that was not accounting. *)
Lemma pi_StartAccounting_loop_spec now requestId l p (q : Q) :
  0 < now ->
  exists q',
    pi_StartAccounting_loop now requestId l (p, q) =
      ((if existsb (selected requestId) l then startCounting now p else p, q'),
       (fun i => if selected requestId i then ex_StartAccounting now i else i) <$> l) /\
    pending q' = ids_of (filter (fun i => selected requestId i = true /\ ~ accounting i) l)
                   ∪ pending q.
Proof.
  intros Hn. revert p q. induction l as [|i l IH]; intros p q.
  - exists q. split; [done|]. unfold ids_of. set_solver.
  - cbn [pi_StartAccounting_loop]. rewrite pi_StartAccounting_body_spec.
    cbn [existsb]. rewrite fmap_cons, filter_cons.
    destruct (selected requestId i) eqn:Hs; simpl.
    + destruct (IH (startCounting now p)
        (if ex_baseTime_ i =? 0 then SendEvent q (ex_requestId_ i)
           (ex_GetAdvanceCallbackTime now (ex_StartAccounting now i)) else q))
        as (q' & -> & Hq').
      exists q'. rewrite startCounting_idemp. split; [by destruct (existsb _ _)|].
      rewrite Hq'. unfold accounting.
      destruct (ex_baseTime_ i =? 0) eqn:E; bool_prop.
      * rewrite decide_True by (split; [done|lia]). rewrite pending_send.
        unfold ids_of. simpl. set_solver.
      * rewrite decide_False by (intros [_ ?]; lia). done.
    + destruct (IH p q) as (q' & -> & Hq'). exists q'. done.
Qed.

Lemma pi_StopAccounting_loop_spec now stop l (q : Q) :
  exists q',
    pi_StopAccounting_loop now stop l q =
      ((fun i => if stop i then ex_StopAccounting now i else i) <$> l, q') /\
    pending q' = pending q ∖ acct_ids (filter (fun i => stop i = true) l).
Proof.
  revert q. induction l as [|i l IH]; intros q.
  - exists q. split; [done|]. unfold acct_ids, ids_of. set_solver.
  - cbn [pi_StopAccounting_loop]. rewrite fmap_cons, filter_cons.
    destruct (stop i) eqn:Hs; cbn [negb orb].
    + rewrite decide_True by done. rewrite acct_ids_cons. unfold accounting.
      destruct (ex_baseTime_ i =? 0) eqn:E; bool_prop.
      * destruct (IH q) as (q' & -> & Hq'). exists q'.
        rewrite ex_stop_idle by (unfold accounting; lia). split; [done|].
        rewrite decide_False by lia. rewrite Hq'. set_solver.
      * destruct (IH (RemoveEvent q (ex_requestId_ (ex_StopAccounting now i))))
          as (q' & -> & Hq').
        exists q'. split; [done|]. rewrite decide_True by done.
        rewrite Hq', pending_remove, ex_StopAccounting_id. set_solver.
    + destruct (IH q) as (q' & -> & Hq'). exists q'. done.
Qed.
End PkgLoops.

(** ** Invariant *)

(** Sane parameters: what the defaults satisfy, and what the operators'
    overrides are meant to satisfy. *)
Class TransientParamsOk (sp : SystemParams) (cfg : TransientConfig) : Prop := {
  init_quota_ok : 0 <= INIT_QUOTA <= int32_max;
  delay_normal_ok : 0 <= DELAY_TIME_NORMAL <= int32_max;
  exempted_quota_ok : 0 <= GetTransientTaskExemptedQuato <= int32_max - WATCHDOG_DELAY_TIME;
}.

Lemma default_params_ok : TransientParamsOk default_params plain_config.
Proof. split; vm_compute; split; congruence. Qed.

Section PkgInv.
Context {sp : SystemParams} {cfg : TransientConfig} {ok : TransientParamsOk sp cfg}.
Context `{EventHandler Q}.
Implicit Types p : PkgDelaySuspendInfo.

Record pkg_inv (now : Z) (p : PkgDelaySuspendInfo) : Prop := {
  pkg_quota : 0 <= pi_quota_ p <= INIT_QUOTA;
  pkg_len : pi_GetRequestSize p <= MAX_REQUEST_ID;
  pkg_nodup : NoDup (ex_requestId_ <$> pi_requestList_ p);
  pkg_counting : Exists accounting (pi_requestList_ p) -> pi_isCounting_ p = true;
  pkg_wf : Forall (ex_wf now) (pi_requestList_ p);
}.

Lemma pkg_inv_mono now t p : now <= t -> pkg_inv now p -> pkg_inv t p.
Proof.
  intros Ht []. split; try done. eapply Forall_impl; [done|].
  intros i. by apply ex_wf_mono.
Qed.

Lemma pkg_inv_new now pkg uid : pkg_inv now (new_PkgDelaySuspendInfo pkg uid).
Proof.
  pose proof init_quota_ok. split; simpl; try lia; try constructor.
  - by cbv.
  - by intros ?%Exists_nil.
Qed.

Lemma pi_GetModifiedTime_range now p : 0 <= pi_GetModifiedTime now p <= int32_max.
Proof.
  unfold pi_GetModifiedTime.
  set (t := int32 _). pose proof (int32_range
    (int32 (int32 now - pi_baseTime_ p) -
      (if IsTransientTaskExemptedQuatoApp (pi_pkg_ p) then GetTransientTaskExemptedQuato else 0)))
    as Hr.
  fold t in Hr. case_test; bool_prop; in_range.
Qed.

(** The elapsed time charged to the quota is exact although the base time is
    truncated to 32 bits. *)
Lemma pi_GetModifiedTime_spec now t p :
  pi_baseTime_ p = int32 t -> 0 <= now - t <= int32_max ->
  pi_GetModifiedTime now p =
    Z.max 0 (now - t - (if IsTransientTaskExemptedQuatoApp (pi_pkg_ p)
                        then GetTransientTaskExemptedQuato else 0)).
Proof.
  intros Hb Ht. pose proof exempted_quota_ok as He. unfold WATCHDOG_DELAY_TIME, MSEC_PER_SEC in He.
  unfold pi_GetModifiedTime. rewrite Hb, int32_sub_trunc.
  rewrite (int32_id (now - t)) by in_range.
  destruct (IsTransientTaskExemptedQuatoApp (pi_pkg_ p));
    int32_simpl; case_test; bool_prop; in_range.
Qed.

Lemma pi_UpdateQuota_quota now p :
  0 <= pi_quota_ p <= INIT_QUOTA ->
  pi_quota_ (pi_UpdateQuota now false p) =
    Z.max 0 (pi_quota_ p - (if pi_isCounting_ p then pi_GetModifiedTime now p else 0)).
Proof.
  intros Hq. pose proof init_quota_ok. pose proof (pi_GetModifiedTime_range now p).
  unfold pi_UpdateQuota. simpl. destruct (pi_isCounting_ p);
    int32_simpl; case_test; bool_prop; in_range.
Qed.

Lemma pkg_inv_UpdateQuota now reset p :
  pkg_inv now p -> pkg_inv now (pi_UpdateQuota now reset p).
Proof.
  intros Hp. pose proof init_quota_ok. pose proof (pi_GetModifiedTime_range now p).
  destruct reset; [destruct Hp; split; simpl; first [done | lia]|].
  split; try apply Hp. rewrite pi_UpdateQuota_quota by apply Hp.
  pose proof (pkg_quota _ _ Hp). case_test; lia.
Qed.

Lemma pi_UpdateQuota_requestList now reset p :
  pi_requestList_ (pi_UpdateQuota now reset p) = pi_requestList_ p.
Proof. done. Qed.

Lemma pkg_inv_startCounting now p : pkg_inv now p -> pkg_inv now (startCounting now p).
Proof.
  intros Hp. unfold startCounting. case_test; [done|].
  apply (pkg_inv_UpdateQuota now false) in Hp. destruct Hp. by split.
Qed.

(** Replacing the requests one by one by requests with the same ids. *)
Lemma pkg_inv_map now (f : DelaySuspendInfoEx -> DelaySuspendInfoEx) p :
  (forall i, ex_requestId_ (f i) = ex_requestId_ i) ->
  (forall i, ex_wf now i -> ex_wf now (f i)) ->
  (Exists accounting (f <$> pi_requestList_ p) -> pi_isCounting_ p = true) ->
  pkg_inv now p -> pkg_inv now (pi_set_requestList (f <$> pi_requestList_ p) p).
Proof.
  intros Hid Hwf Hc Hp. split; simpl; try apply Hp; try done.
  - pose proof (pkg_len _ _ Hp) as Hl. unfold pi_GetRequestSize in *. simpl.
    by rewrite length_fmap.
  - rewrite <- list_fmap_compose.
    rewrite (list_fmap_ext _ ex_requestId_) by (intros; apply Hid). apply Hp.
  - rewrite Forall_fmap. eapply Forall_impl; [apply Hp|]. intros; by apply Hwf.
Qed.

Lemma ids_of_map (f : DelaySuspendInfoEx -> DelaySuspendInfoEx) l :
  (forall i, ex_requestId_ (f i) = ex_requestId_ i) -> ids_of (f <$> l) = ids_of l.
Proof.
  intros Hid. unfold ids_of. rewrite <- list_fmap_compose.
  by rewrite (list_fmap_ext _ ex_requestId_) by (intros; apply Hid).
Qed.

Lemma existsb_selected_accounting now requestId l :
  Exists accounting
    ((fun i => if selected requestId i then ex_StartAccounting now i else i) <$> l) ->
  existsb (selected requestId) l = true \/ Exists accounting l.
Proof.
  induction l as [|i l IH]; [by intros ?%Exists_nil|].
  rewrite fmap_cons, Exists_cons. cbn [existsb]. rewrite Exists_cons.
  destruct (selected requestId i); simpl; [tauto|].
  intros [?|?%IH]; tauto.
Qed.
End PkgInv.
#[export] Hint Resolve pkg_inv_new pkg_inv_UpdateQuota pkg_inv_startCounting : bgtask.

(** ** The operations against the invariant and the timer queue *)
Section PkgSpecs.
Context {sp : SystemParams} {cfg : TransientConfig} {ok : TransientParamsOk sp cfg}.
Context `{EventHandler Q}.
Implicit Types p : PkgDelaySuspendInfo.

(** What does not change under any operation: whose record it is. *)
Definition same_owner p p' : Prop := pi_pkg_ p' = pi_pkg_ p /\ pi_uid_ p' = pi_uid_ p.

(** The ids of the requests, and of those that are accounting. *)
Abbreviation ids p := (ids_of (pi_requestList_ p)).
Abbreviation acct p := (acct_ids (pi_requestList_ p)).

Lemma acct_subseteq_ids p : acct p ⊆ ids p.
Proof. intros id. rewrite elem_of_acct_ids, elem_of_ids_of. naive_solver. Qed.

Lemma acct_started now requestId (l : list DelaySuspendInfoEx) :
  0 < now ->
  acct_ids ((fun i => if selected requestId i then ex_StartAccounting now i else i) <$> l) =
  acct_ids l ∪ ids_of (filter (fun i => selected requestId i = true) l).
Proof.
  intros Hn. apply set_eq. intros id.
  rewrite elem_of_union, !elem_of_acct_ids, elem_of_ids_of.
  setoid_rewrite list_elem_of_fmap. setoid_rewrite list_elem_of_filter. split.
  - intros (i & (j & -> & Hj) & Ha & <-).
    destruct (selected requestId j) eqn:E.
    + right. exists j. by rewrite ex_StartAccounting_id.
    + left. by exists j.
  - intros [(i & Hi & Ha & <-)|(i & [Hs Hi] & <-)].
    + exists (if selected requestId i then ex_StartAccounting now i else i).
      split; [by exists i|]. case_test; [|done].
      by rewrite ex_start_idle.
    + exists (ex_StartAccounting now i). split; [exists i; by rewrite Hs|].
      split; [by apply ex_StartAccounting_started | apply ex_StartAccounting_id].
Qed.

Lemma pi_StartAccounting_spec now requestId p (q : Q) p' q' :
  0 < now -> pkg_inv now p ->
  pi_StartAccounting now requestId p q = (p', q') ->
  pkg_inv now p' /\ same_owner p p' /\ ids p' = ids p /\
  acct p' = acct p ∪ ids_of (filter (fun i => selected requestId i = true) (pi_requestList_ p)) /\
  pending q ⊆ pending q' ⊆ pending q ∪ acct p' /\
  acct p' ⊆ acct p ∪ pending q'.
Proof.
  intros Hn Hp. unfold pi_StartAccounting.
  destruct (pi_StartAccounting_loop_spec now requestId (pi_requestList_ p) p q Hn)
    as (q1 & -> & Hq1). intros [= <- <-]. simpl.
  set (p1 := if existsb (selected requestId) (pi_requestList_ p) then startCounting now p else p).
  assert (Hp1 : pkg_inv now p1) by (subst p1; case_test; auto with bgtask).
  assert (Hl1 : pi_requestList_ p1 = pi_requestList_ p)
    by (subst p1; case_test; [apply startCounting_requestList|done]).
  rewrite acct_started by done. split; [|split; [|split; [|split; [done|]]]].
  - rewrite <- Hl1. apply pkg_inv_map; [| | |done].
    + intros i. case_test; [apply ex_StartAccounting_id|done].
    + intros i ?. case_test; auto with bgtask.
    + rewrite Hl1. intros [Hs|Ha]%existsb_selected_accounting; subst p1.
      * rewrite Hs. unfold startCounting. by destruct (pi_isCounting_ p) eqn:?.
      * pose proof (pkg_counting _ _ Hp Ha) as Hc. unfold startCounting. rewrite Hc.
        by case_test.
  - subst p1. unfold same_owner, startCounting. simpl. by repeat case_test.
  - apply ids_of_map. intros i. case_test; [apply ex_StartAccounting_id|done].
  - rewrite Hq1. split; [split; [set_solver|]|].
    + intros id. rewrite !elem_of_union, !elem_of_ids_of.
      setoid_rewrite list_elem_of_filter. naive_solver.
    + intros id. rewrite !elem_of_union, !elem_of_ids_of, elem_of_acct_ids.
      setoid_rewrite list_elem_of_filter.
      intros [?|(i & [Hs Hi] & <-)]; [tauto|].
      destruct (decide (accounting i)); [left; exists i; done|].
      right; left. exists i. done.
Qed.

Lemma acct_stopped now (stop : DelaySuspendInfoEx -> bool) (l : list DelaySuspendInfoEx) :
  acct_ids ((fun i => if stop i then ex_StopAccounting now i else i) <$> l) =
  acct_ids (filter (fun i => stop i = false) l).
Proof.
  induction l as [|i l IH]; [done|].
  rewrite fmap_cons, filter_cons, acct_ids_cons, IH.
  destruct (stop i); cbn [decide].
  - rewrite decide_False by apply ex_StopAccounting_stopped.
    rewrite decide_False by done. set_solver.
  - rewrite (decide_True (P := false = false)) by done. by rewrite acct_ids_cons.
Qed.

Lemma pi_StopAccountingAll_spec now p (q : Q) p' q' :
  pkg_inv now p -> pi_StopAccountingAll now p q = (p', q') ->
  pkg_inv now p' /\ same_owner p p' /\ ids p' = ids p /\
  acct p' = ∅ /\ pi_isCounting_ p' = false /\ pending q' = pending q ∖ acct p.
Proof.
  intros Hp. unfold pi_StopAccountingAll.
  destruct (pi_StopAccounting_loop_spec now (fun _ => true) (pi_requestList_ p) q)
    as (q1 & -> & Hq1). intros [= <- <-].
  assert (Hacct : acct_ids ((fun i => ex_StopAccounting now i) <$> pi_requestList_ p) = ∅).
  { rewrite (acct_stopped now (fun _ => true)).
    by rewrite filter_none. }
  split; [|split; [done|split; [|split; [done|split; [done|]]]]].
  - set (p1 := pi_set_requestList _ p).
    assert (pkg_inv now p1) as Hp1.
    { apply (pkg_inv_map now (ex_StopAccounting now)); auto with bgtask.
      - apply ex_StopAccounting_id.
      - intros Ha%Exists_exists. destruct Ha as (i & (j & -> & _)%list_elem_of_fmap & Hi).
        by apply ex_StopAccounting_stopped in Hi. }
    apply (pkg_inv_UpdateQuota now false) in Hp1.
    destruct Hp1 as [? ? ? _ ?]. split; try done. simpl.
    intros Ha%Exists_exists. destruct Ha as (i & (j & -> & _)%list_elem_of_fmap & Hi).
    by apply ex_StopAccounting_stopped in Hi.
  - apply ids_of_map, ex_StopAccounting_id.
  - rewrite Hq1. f_equal.
    by rewrite filter_all.
Qed.
End PkgSpecs.

Section PkgRequests.
Context {sp : SystemParams} {cfg : TransientConfig} {ok : TransientParamsOk sp cfg}.
Context `{EventHandler Q}.
Implicit Types p : PkgDelaySuspendInfo.
Abbreviation ids p := (ids_of (pi_requestList_ p)).
Abbreviation acct p := (acct_ids (pi_requestList_ p)).

Lemma existsb_same_id requestId (l : list DelaySuspendInfoEx) :
  existsb (fun i => ex_IsSameRequestId i requestId) l = true <-> requestId ∈ ids_of l.
Proof.
  rewrite existsb_exists, elem_of_ids_of. unfold ex_IsSameRequestId.
  setoid_rewrite Z.eqb_eq. by setoid_rewrite list_elem_of_In.
Qed.

Lemma erase_stopped now requestId (l : list DelaySuspendInfoEx) :
  NoDup (ex_requestId_ <$> l) ->
  erase_first (fun i => ex_IsSameRequestId i requestId)
    ((fun i => if ex_IsSameRequestId i requestId then ex_StopAccounting now i else i) <$> l) =
  filter (fun i => ex_requestId_ i <> requestId) l.
Proof.
  intros Hnd. unfold ex_IsSameRequestId.
  rewrite (erase_first_key ex_requestId_).
  - clear Hnd. induction l as [|i l IH]; [done|]. rewrite fmap_cons, !filter_cons, IH.
    destruct (ex_requestId_ i =? requestId) eqn:E; bool_prop.
    + rewrite decide_False by (rewrite ex_StopAccounting_id; lia).
      by rewrite decide_False by lia.
    + by rewrite !decide_True by lia.
  - rewrite <- list_fmap_compose.
    rewrite (list_fmap_ext _ ex_requestId_); [done|].
    intros _ i _. simpl. case_test; [apply ex_StopAccounting_id|done].
Qed.

Lemma ids_filter_ne requestId (l : list DelaySuspendInfoEx) :
  ids_of (filter (fun i => ex_requestId_ i <> requestId) l) = ids_of l ∖ {[requestId]}.
Proof.
  apply set_eq. intros id. rewrite elem_of_difference, elem_of_singleton, !elem_of_ids_of.
  setoid_rewrite list_elem_of_filter. naive_solver.
Qed.

Lemma acct_filter_ne requestId (l : list DelaySuspendInfoEx) :
  acct_ids (filter (fun i => ex_requestId_ i <> requestId) l) = acct_ids l ∖ {[requestId]}.
Proof.
  apply set_eq. intros id. rewrite elem_of_difference, elem_of_singleton, !elem_of_acct_ids.
  setoid_rewrite list_elem_of_filter. naive_solver.
Qed.

Lemma acct_filter_eq requestId (l : list DelaySuspendInfoEx) :
  acct_ids (filter (fun i => ex_IsSameRequestId i requestId = true) l) =
  acct_ids l ∩ {[requestId]}.
Proof.
  apply set_eq. intros id. rewrite elem_of_intersection, elem_of_singleton, !elem_of_acct_ids.
  setoid_rewrite list_elem_of_filter. unfold ex_IsSameRequestId. setoid_rewrite Z.eqb_eq.
  naive_solver.
Qed.

Lemma pkg_inv_filter now (P : DelaySuspendInfoEx -> Prop) `{forall i, Decision (P i)} p :
  pkg_inv now p -> pkg_inv now (pi_set_requestList (filter P (pi_requestList_ p)) p).
Proof.
  intros Hp. split; simpl; try apply Hp.
  - pose proof (pkg_len _ _ Hp). unfold pi_GetRequestSize in *. simpl.
    pose proof (length_filter P (pi_requestList_ p)). lia.
  - eapply sublist_NoDup; [apply Hp|]. apply fmap_sublist, sublist_filter.
  - intros Ha. apply (pkg_counting _ _ Hp). apply Exists_exists in Ha as (i & Hi & Ha).
    apply Exists_exists. exists i. apply list_elem_of_filter in Hi. tauto.
  - apply Forall_forall. intros i Hi%list_elem_of_filter.
    apply (proj1 (Forall_forall _ _) (pkg_wf _ _ Hp)), Hi.
Qed.

Lemma pi_RemoveRequest_spec now requestId p (q : Q) p' q' :
  pkg_inv now p -> pi_RemoveRequest now requestId p q = (p', q') ->
  pkg_inv now p' /\ same_owner p p' /\
  pi_requestList_ p' = filter (fun i => ex_requestId_ i <> requestId) (pi_requestList_ p) /\
  ids p' = ids p ∖ {[requestId]} /\ acct p' = acct p ∖ {[requestId]} /\
  pending q' = pending q ∖ (acct p ∩ {[requestId]}) /\
  (pi_isCounting_ p' = true -> pi_requestList_ p' <> [] \/ p' = p).
Proof.
  intros Hp. unfold pi_RemoveRequest.
  destruct (existsb _ _) eqn:Hex; cbn [negb].
  - unfold pi_StopAccounting.
    destruct (pi_StopAccounting_loop_spec now (fun i => ex_IsSameRequestId i requestId)
      (pi_requestList_ p) q) as (q1 & -> & Hq1).
    cbn [pi_set_requestList pi_requestList_]. rewrite (erase_stopped _ _ _ (pkg_nodup _ _ Hp)).
    rewrite acct_filter_eq in Hq1.
    set (l' := filter (fun i => ex_requestId_ i <> requestId) (pi_requestList_ p)).
    assert (Hp1 : pkg_inv now (pi_set_requestList l' p)) by (by apply pkg_inv_filter).
    unfold pi_IsRequestEmpty. destruct (bool_decide_reflect
      (pi_requestList_ (pi_set_requestList l' (pi_set_requestList
         ((fun i => if ex_IsSameRequestId i requestId then ex_StopAccounting now i else i)
            <$> pi_requestList_ p) p)) = [])) as [He|He]; intros [= <- <-];
      (split; [|split; [done|split; [done|split; [apply ids_filter_ne|
         split; [apply acct_filter_ne|split; [done|]]]]]]).
    + apply (pkg_inv_UpdateQuota now false) in Hp1. destruct Hp1 as [? ? ? _ ?].
      split; try done. simpl in *. rewrite He. by intros ?%Exists_nil.
    + done.
    + destruct Hp1. by split.
    + by left.
  - intros [= <- <-]. apply not_true_iff_false in Hex. rewrite existsb_same_id in Hex.
    assert (requestId ∉ acct p) by (intros ?%acct_subseteq_ids; done).
    split; [done|split; [done|split; [|split; [set_solver|split; [set_solver|split]]]]].
    + symmetry. apply filter_all. intros i Hi Hid. apply Hex, elem_of_ids_of. by exists i.
    + set_solver.
    + by right.
Qed.

Lemma pi_IsAllowRequest_spec now p ret p' :
  pkg_inv now p -> pi_IsAllowRequest now p = (ret, p') ->
  pkg_inv now p' /\ same_owner p p' /\ pi_requestList_ p' = pi_requestList_ p /\
  (ret = ERR_BGTASK_EXCEEDS_THRESHOLD /\ pi_GetRequestSize p = MAX_REQUEST_ID /\ p' = p \/
   pi_GetRequestSize p < MAX_REQUEST_ID /\ p' = pi_UpdateQuota now false p /\
   (ret = ERR_OK /\ MIN_ALLOW_QUOTA_TIME <= pi_quota_ p' \/
    ret = ERR_BGTASK_TIME_INSUFFICIENT /\ pi_quota_ p' < MIN_ALLOW_QUOTA_TIME)).
Proof.
  intros Hp. pose proof (pkg_len _ _ Hp). unfold pi_IsAllowRequest.
  case_test; bool_prop; [|case_test; bool_prop]; intros [= <- <-];
    (split; [auto with bgtask|split; [done|split; [done|]]]).
  - left. split; [done|]. split; [lia|done].
  - right. split; [done|]. split; [done|]. by left.
  - right. split; [done|]. split; [done|]. by right.
Qed.

Lemma pi_grantedDelay_range delayTime needSetTime p :
  0 <= pi_quota_ p <= INIT_QUOTA -> 0 <= delayTime <= int32_max ->
  0 <= pi_grantedDelay delayTime needSetTime p <= int32_max.
Proof.
  intros Hq Hd. pose proof exempted_quota_ok. pose proof init_quota_ok.
  unfold WATCHDOG_DELAY_TIME, MSEC_PER_SEC in *. unfold pi_grantedDelay, WATCHDOG_DELAY_TIME, MSEC_PER_SEC.
  case_test; [int32_simpl; in_range|]. case_test; bool_prop; lia.
Qed.

Lemma pkg_inv_AddRequest now info delayTime needSetTime p :
  pkg_inv now p -> 0 <= now -> 0 <= delayTime <= int32_max ->
  pi_GetRequestSize p < MAX_REQUEST_ID ->
  ex_requestId_ info ∉ ids p -> ex_baseTime_ info = 0 -> ex_spendTime_ info = 0 ->
  pkg_inv now (pi_AddRequest info delayTime needSetTime p).
Proof.
  intros Hp Hn Hd Hl Hid Hb Hs.
  pose proof (pi_grantedDelay_range delayTime needSetTime p (pkg_quota _ _ Hp) Hd) as Hg.
  unfold pi_AddRequest. split; simpl; try apply Hp.
  - unfold pi_GetRequestSize in *. simpl. rewrite length_app. simpl. lia.
  - rewrite fmap_app. apply NoDup_app. split; [apply Hp|]. split; [|apply NoDup_singleton].
    intros id Hin ->%list_elem_of_singleton. apply Hid. unfold ids_of.
    by apply elem_of_list_to_set.
  - intros [Ha|Ha]%Exists_app; [by apply (pkg_counting _ _ Hp)|].
    apply Exists_cons in Ha as [Ha|Ha]; [|by apply Exists_nil in Ha].
    by unfold accounting in Ha.
  - apply Forall_app. split; [apply Hp|]. constructor; [|done]. split; simpl; lia.
Qed.

Lemma ids_AddRequest info delayTime needSetTime p :
  ids (pi_AddRequest info delayTime needSetTime p) = {[ex_requestId_ info]} ∪ ids p.
Proof. unfold pi_AddRequest, ids_of. simpl. rewrite fmap_app. set_solver. Qed.

Lemma acct_AddRequest info delayTime needSetTime p :
  ex_baseTime_ info = 0 -> acct (pi_AddRequest info delayTime needSetTime p) = acct p.
Proof.
  intros Hb. unfold pi_AddRequest, acct_ids. simpl. rewrite filter_app, filter_cons.
  rewrite decide_False by (unfold accounting; simpl; lia). by rewrite app_nil_r.
Qed.
End PkgRequests.
