(* ===== verification/DeviceInfo.v ===== *)
(** * Device events

    src/services/transient_task: [EventInfo] (event_info.h), the translation of
    common events in [EventHub] (event_hub.cpp), the dispatch to listeners in
    [InputManager] (input_manager.cpp) and the device state kept by
    [DeviceInfoManager] (device_info_manager.h and .cpp). *)

From S2P Require Import Prelude.
Local Open Scope Z_scope.

(** [enum EventId]; 0 is the id of an event info that was not set. *)
Definition EVENT_APP_RUN_FRONT : Z := 1.
Definition EVENT_SCREEN_ON : Z := 2.
Definition EVENT_SCREEN_OFF : Z := 3.
Definition EVENT_SCREEN_UNLOCK : Z := 4.
Definition EVENT_BATTERY_LOW : Z := 5.
Definition EVENT_BATTERY_OKAY : Z := 6.

Record EventInfo := mkEventInfo {
  ei_eventId_ : Z;
  ei_intArgs_ : list Z;
  ei_stringArgs_ : list string;
}.

Definition EventInfo_ToString (e : EventInfo) : string :=
  ("eventId : " +:+ pretty (ei_eventId_ e) +:+ " intArgs_ : ["
   +:+ foldr (fun v s => pretty v +:+ s) "" (ei_intArgs_ e) +:+ "], stringArgs_ : ["
   +:+ foldr (fun v s => v +:+ s) "" (ei_stringArgs_ e) +:+ "]")%string.

(** ** The common events subscribed to

    The names of the actions belong to the common event service. *)
Class CommonEventActions := {
  COMMON_EVENT_SCREEN_ON : string;
  COMMON_EVENT_SCREEN_OFF : string;
  COMMON_EVENT_SCREEN_UNLOCKED : string;
  COMMON_EVENT_BATTERY_LOW : string;
  COMMON_EVENT_BATTERY_OKAY : string;
  actions_distinct : NoDup [COMMON_EVENT_SCREEN_ON; COMMON_EVENT_SCREEN_OFF;
    COMMON_EVENT_SCREEN_UNLOCKED; COMMON_EVENT_BATTERY_LOW; COMMON_EVENT_BATTERY_OKAY];
}.

Section EventHub.
Context {actions : CommonEventActions}.

Definition g_actionMap : gmap string Z := list_to_map
  [ (COMMON_EVENT_SCREEN_ON, EVENT_SCREEN_ON);
    (COMMON_EVENT_SCREEN_OFF, EVENT_SCREEN_OFF);
    (COMMON_EVENT_SCREEN_UNLOCKED, EVENT_SCREEN_UNLOCK);
    (COMMON_EVENT_BATTERY_LOW, EVENT_BATTERY_LOW);
    (COMMON_EVENT_BATTERY_OKAY, EVENT_BATTERY_OKAY) ].

(** [OnReceiveEvent] up to [SendEventInfo]; [g_actionMap[action]] is 0 for an
    unknown action. *)
Definition EventHub_OnReceiveEvent (action : string) (code : Z) (data : string) : EventInfo :=
  mkEventInfo (default 0 (g_actionMap !! action)) [code] [data].
End EventHub.

(** ** DeviceInfoManager *)
Record DeviceInfoManager := mkDevice {
  dev_isDump_ : bool;
  dev_isScreenOn_ : bool;
  dev_isScreenUnlock_ : bool;
  dev_isLowPowerMode_ : bool;
}.

Definition new_DeviceInfoManager : DeviceInfoManager := mkDevice false true false false.

Definition dev_SetDump (isDump : bool) (d : DeviceInfoManager) : DeviceInfoManager :=
  mkDevice isDump (dev_isScreenOn_ d) (dev_isScreenUnlock_ d) (dev_isLowPowerMode_ d).

(** While dumping, only events whose first string argument is "dump" count.
    The code indexes [strArg[0]] without a check: [None] is that access out of
    range. *)
Definition dev_OnInputEvent (e : EventInfo) (d : DeviceInfoManager) : option DeviceInfoManager :=
  match (if dev_isDump_ d then ei_stringArgs_ e !! 0%nat else Some "dump"%string) with
  | None => None
  | Some arg0 =>
      return_if negb (bool_decide (arg0 = "dump"%string)), Some d ;;
      let id := ei_eventId_ e in
      Some (
        if id =? EVENT_SCREEN_ON then
          mkDevice (dev_isDump_ d) true (dev_isScreenUnlock_ d) (dev_isLowPowerMode_ d)
        else if id =? EVENT_SCREEN_OFF then
          mkDevice (dev_isDump_ d) false false (dev_isLowPowerMode_ d)
        else if id =? EVENT_SCREEN_UNLOCK then
          mkDevice (dev_isDump_ d) (dev_isScreenOn_ d) true (dev_isLowPowerMode_ d)
        else if id =? EVENT_BATTERY_LOW then
          mkDevice (dev_isDump_ d) (dev_isScreenOn_ d) (dev_isScreenUnlock_ d) true
        else if id =? EVENT_BATTERY_OKAY then
          mkDevice (dev_isDump_ d) (dev_isScreenOn_ d) (dev_isScreenUnlock_ d) false
        else d)
  end.

(** ** InputManager

    The listeners, called in registration order on a state [S] they share. *)
Section InputManager.
Context {S : Type}.
Definition Listener := (EventInfo -> S -> option S)%type.

Definition RegisterEventListener (l : list Listener) (listener : option Listener) : list Listener :=
  match listener with None => l | Some x => l ++ [x] end.

(** [ProcessEvent] on a queued event whose info may be null. *)
Fixpoint InputManager_ProcessEvent (ls : list Listener) (eventInfo : option EventInfo) (s : S) :
    option S :=
  match eventInfo, ls with
  | None, _ => Some s
  | Some e, [] => Some s
  | Some e, l :: ls =>
      match l e s with
      | None => None
      | Some s => InputManager_ProcessEvent ls (Some e) s
      end
  end.
End InputManager.

(** ** Facts *)

(** An event made by [EventHub] always carries a string argument, so the
    unchecked access of [DeviceInfoManager] is in range. *)
Lemma dev_OnInputEvent_hub `{CommonEventActions} action code data d :
  is_Some (dev_OnInputEvent (EventHub_OnReceiveEvent action code data) d).
Proof.
  unfold dev_OnInputEvent, EventHub_OnReceiveEvent. simpl.
  destruct (dev_isDump_ d); simpl; repeat case_test; eauto.
Qed.

Lemma g_actionMap_lookup `{CommonEventActions} :
  g_actionMap !! COMMON_EVENT_SCREEN_ON = Some EVENT_SCREEN_ON /\
  g_actionMap !! COMMON_EVENT_SCREEN_OFF = Some EVENT_SCREEN_OFF /\
  g_actionMap !! COMMON_EVENT_SCREEN_UNLOCKED = Some EVENT_SCREEN_UNLOCK /\
  g_actionMap !! COMMON_EVENT_BATTERY_LOW = Some EVENT_BATTERY_LOW /\
  g_actionMap !! COMMON_EVENT_BATTERY_OKAY = Some EVENT_BATTERY_OKAY.
Proof.
  pose proof actions_distinct as Hd.
  repeat split; apply elem_of_list_to_map_1; try done; repeat (constructor; fail) || set_solver.
Qed.
