(* ===== verification/DecisionMaker.v ===== *)
(** * The decision maker of transient tasks

    [DecisionMaker] of src/services/transient_task (decision_maker.h and .cpp):
    it owns the quotas and requests of all applications, decides whether a
    request is granted, and starts and stops accounting as applications move
    between foreground and background, processes die and the screen goes on
    and off.  [timerManager_] is the queue [dm_timers]; the tasks posted to the
    manager's handler for the subscribers are appended to [dm_posted].  The
    system clock is read once per operation ([now]); the files and services the
    code asks are the fields of [Env]. *)

From S2P Require Import Prelude.
From S2P Require Import Errors.
From S2P Require Import KeyInfo.
From S2P Require Import Interfaces.
From S2P Require Import DelaySuspendInfo.
From S2P Require Import PkgDelaySuspendInfo.
From S2P Require Import DeviceInfo.
Local Open Scope Z_scope.

(** [TransientTaskAppInfo] of interfaces/innerkits. *)
Record TransientTaskAppInfo := mkAppInfo { ai_packageName_ : string; ai_uid_ : Z; ai_pid_ : Z }.
#[export] Instance TransientTaskAppInfo_eq_dec : EqDecision TransientTaskAppInfo.
Proof. solve_decision. Defined.

(** The pid of the two-argument constructor. *)
Definition AI_DEFAULT_PID : Z := -1.

Inductive TransientTaskEventType :=
  TASK_START | TASK_END | TASK_ERR | APP_TASK_START | APP_TASK_END.
#[export] Instance TransientTaskEventType_eq_dec : EqDecision TransientTaskEventType.
Proof. solve_decision. Defined.

(** What one operation reads from outside. *)
Record Env := mkEnv {
  env_now : Z;                                 (* TimeProvider::GetCurrentTime() *)
  env_dozeTime : option Z;                     (* ParseFastSuspendDozeTime(...) *)
  env_foregroundApps : option (list PkgKey);   (* AppMgrHelper::GetForegroundApplications *)
}.

Record DecisionMaker (Q : Type) := mkDM {
  dm_requestId_ : Z;                                           (* int32_t *)
  dm_lastRequestTime_ : Z;                                     (* int64_t *)
  dm_pkgDelaySuspendInfoMap_ : gmap PkgKey PkgDelaySuspendInfo;
  dm_pkgBgDurationMap_ : gmap PkgKey Z;                        (* to int32_t *)
  dm_foregroundUidPidMap_ : gmap Z (gset Z);
  dm_allowRequestTime : Z;            (* the static local of GetAllowRequestTime *)
  dm_timers : Q;                      (* timerManager_ *)
  dm_posted : list (TransientTaskAppInfo * TransientTaskEventType);
}.
Arguments mkDM {Q}. Arguments dm_requestId_ {Q}. Arguments dm_lastRequestTime_ {Q}.
Arguments dm_pkgDelaySuspendInfoMap_ {Q}. Arguments dm_pkgBgDurationMap_ {Q}.
Arguments dm_foregroundUidPidMap_ {Q}. Arguments dm_allowRequestTime {Q}.
Arguments dm_timers {Q}. Arguments dm_posted {Q}.

Definition initRequestId_ : Z := 1.

Section DM.
Context {sp : SystemParams} {cfg : TransientConfig} `{EventHandler Q}.
Implicit Types s : DecisionMaker Q.

Definition new_DecisionMaker : DecisionMaker Q :=
  mkDM initRequestId_ 0 ∅ ∅ ∅ 0 eh_empty [].

(** Field updates. *)
Definition dm_set_pkgs (m : gmap PkgKey PkgDelaySuspendInfo) (q : Q) s : DecisionMaker Q :=
  mkDM (dm_requestId_ s) (dm_lastRequestTime_ s) m (dm_pkgBgDurationMap_ s)
    (dm_foregroundUidPidMap_ s) (dm_allowRequestTime s) q (dm_posted s).
Definition dm_set_bg (m : gmap PkgKey Z) s : DecisionMaker Q :=
  mkDM (dm_requestId_ s) (dm_lastRequestTime_ s) (dm_pkgDelaySuspendInfoMap_ s) m
    (dm_foregroundUidPidMap_ s) (dm_allowRequestTime s) (dm_timers s) (dm_posted s).
Definition dm_set_foreground (m : gmap Z (gset Z)) s : DecisionMaker Q :=
  mkDM (dm_requestId_ s) (dm_lastRequestTime_ s) (dm_pkgDelaySuspendInfoMap_ s)
    (dm_pkgBgDurationMap_ s) m (dm_allowRequestTime s) (dm_timers s) (dm_posted s).
Definition dm_set_requestId (id : Z) s : DecisionMaker Q :=
  mkDM id (dm_lastRequestTime_ s) (dm_pkgDelaySuspendInfoMap_ s)
    (dm_pkgBgDurationMap_ s) (dm_foregroundUidPidMap_ s) (dm_allowRequestTime s)
    (dm_timers s) (dm_posted s).
Definition dm_set_lastRequestTime (t : Z) s : DecisionMaker Q :=
  mkDM (dm_requestId_ s) t (dm_pkgDelaySuspendInfoMap_ s)
    (dm_pkgBgDurationMap_ s) (dm_foregroundUidPidMap_ s) (dm_allowRequestTime s)
    (dm_timers s) (dm_posted s).
Definition dm_set_allow (t : Z) s : DecisionMaker Q :=
  mkDM (dm_requestId_ s) (dm_lastRequestTime_ s) (dm_pkgDelaySuspendInfoMap_ s)
    (dm_pkgBgDurationMap_ s) (dm_foregroundUidPidMap_ s) t (dm_timers s) (dm_posted s).

(** Writing back the record of an application, and the queue, after an
    operation on it. *)
Definition dm_update (key : PkgKey) (pq : PkgDelaySuspendInfo * Q) s : DecisionMaker Q :=
  dm_set_pkgs (<[key := pq.1]> (dm_pkgDelaySuspendInfoMap_ s)) pq.2 s.

(** [HandleTransientTaskSuscriberTask(appInfo, type)]. *)
Definition dm_post (a : TransientTaskAppInfo) (t : TransientTaskEventType) s : DecisionMaker Q :=
  mkDM (dm_requestId_ s) (dm_lastRequestTime_ s) (dm_pkgDelaySuspendInfoMap_ s)
    (dm_pkgBgDurationMap_ s) (dm_foregroundUidPidMap_ s) (dm_allowRequestTime s)
    (dm_timers s) (dm_posted s ++ [(a, t)]).

Definition UpdateForegroundUidPidMap (uid pid : Z) (isForeground : bool) s : DecisionMaker Q :=
  let m := dm_foregroundUidPidMap_ s in
  let pids := default ∅ (m !! uid) in
  dm_set_foreground
    (if isForeground then <[uid := {[pid]} ∪ pids]> m
     else let pids := pids ∖ {[pid]} in
          if bool_decide (pids = ∅) then delete uid m else <[uid := pids]> m) s.

Definition IsUidForeground (uid : Z) s : bool :=
  bool_decide (is_Some (dm_foregroundUidPidMap_ s !! uid)).

(** [dev] is the shared [deviceInfoManager_]. *)
Definition CanStartAccountingLocked (dev : DeviceInfoManager) (p : PkgDelaySuspendInfo) s : bool :=
  return_if negb (dev_isScreenOn_ dev), true ;;
  negb (IsUidForeground (pi_uid_ p) s).

Definition TryStartAccounting (dev : DeviceInfoManager) (now uid : Z) (bundleName : string) s :
    Z * DecisionMaker Q :=
  let key := (bundleName, uid) in
  match dm_pkgDelaySuspendInfoMap_ s !! key with
  | None => (ERR_BGTASK_NOREQUEST_TASK, s)
  | Some p =>
      if CanStartAccountingLocked dev p s
      then (ERR_OK, dm_update key (pi_StartAccounting now (-1) p (dm_timers s)) s)
      else (ERR_BGTASK_FOREGROUND, s)
  end.

Definition HandleStateChange (dev : DeviceInfoManager) (now : Z) (bundleName : string) (uid : Z)
    (isForeground isBackground : bool) s : DecisionMaker Q :=
  let key := (bundleName, uid) in
  if isForeground then
    let s :=
      match dm_pkgDelaySuspendInfoMap_ s !! key with
      | Some p => dm_update key (pi_StopAccountingAll now p (dm_timers s)) s
      | None => s
      end in
    dm_set_bg (delete key (dm_pkgBgDurationMap_ s)) s
  else if isBackground then
    match dm_pkgDelaySuspendInfoMap_ s !! key with
    | None => s
    | Some p =>
        if CanStartAccountingLocked dev p s then
          let s := dm_update key (pi_StartAccounting now (-1) p (dm_timers s)) s in
          dm_set_bg (<[key := int32 now]> (dm_pkgBgDurationMap_ s)) s
        else s
    end
  else s.

(** The process states of the application framework that matter here. *)
Inductive AppProcessState := APP_STATE_FOREGROUND | APP_STATE_FOCUS | APP_STATE_BACKGROUND
  | APP_STATE_OTHER.

Definition OnProcessStateChanged (dev : DeviceInfoManager) (now : Z) (bundleName : string)
    (uid pid : Z) (state : AppProcessState) s : DecisionMaker Q :=
  let isForeground := match state with APP_STATE_FOREGROUND | APP_STATE_FOCUS => true | _ => false end in
  let isBackground := match state with APP_STATE_BACKGROUND => true | _ => false end in
  let s := UpdateForegroundUidPidMap uid pid isForeground s in
  if isForeground || isBackground
  then HandleStateChange dev now bundleName uid isForeground isBackground s
  else s.

Definition OnProcessDied (dev : DeviceInfoManager) (now : Z) (bundleName : string)
    (uid pid : Z) s : DecisionMaker Q :=
  let s := UpdateForegroundUidPidMap uid pid false s in
  (TryStartAccounting dev now uid bundleName s).2.

Definition GetAllowRequestTime (dozeTime : option Z) s : Z * DecisionMaker Q :=
  return_if negb (dm_allowRequestTime s =? 0), (dm_allowRequestTime s, s) ;;
  let time := default ALLOW_REQUEST_TIME_BG dozeTime in
  (time, dm_set_allow time s).

(** [CheckQuotaTime] on the record of the application; the third component
    is [needSetTime]. *)
Definition CheckQuotaTime (now : Z) (name : string) (p : PkgDelaySuspendInfo) :
    Z * PkgDelaySuspendInfo * bool :=
  let '(ret, p) := pi_IsAllowRequest now p in
  if ret =? ERR_BGTASK_TIME_INSUFFICIENT then
    if IsTransientTaskExemptedQuatoApp name then (ERR_OK, p, true)
    else (ERR_BGTASK_TIME_INSUFFICIENT, p, false)
  else if negb (ret =? ERR_OK) then (ret, p, false)
  else (ERR_OK, p, false).

Definition GetDelayTime (dev : DeviceInfoManager) : Z :=
  if dev_isLowPowerMode_ dev then DELAY_TIME_LOW_POWER else DELAY_TIME_NORMAL.

Definition NewDelaySuspendRequestId s : Z * DecisionMaker Q :=
  let id := if dm_requestId_ s =? int32_max then initRequestId_ else dm_requestId_ s in
  (id, dm_set_requestId (int32 (id + 1)) s).

Definition IsAfterOneDay (lastRequestTime currentTime : Z) : bool :=
  currentTime - lastRequestTime >? QUOTA_UPDATE.

(** The loop over [pkgDelaySuspendInfoMap_]: erase the applications without
    requests, reset the quota of the others. *)
Definition ResetDayQuotaLocked (now : Z) s : DecisionMaker Q :=
  return_if negb (IsAfterOneDay (dm_lastRequestTime_ s) now), s ;;
  dm_set_lastRequestTime now
    (dm_set_pkgs
      (omap (fun p => if pi_IsRequestEmpty p then None else Some (pi_UpdateQuota now true p))
         (dm_pkgDelaySuspendInfoMap_ s)) (dm_timers s) s).
End DM.

(** ** Requests *)
Section DMRequests.
Context {sp : SystemParams} {cfg : TransientConfig} `{EventHandler Q}.
Implicit Types s : DecisionMaker Q.

(** The guard of [Decide] on the time since the application went to the
    background. *)
Definition notInPresetTime (env : Env) (key : PkgKey) s : bool * DecisionMaker Q :=
  match dm_pkgBgDurationMap_ s !! key with
  | None => (false, s)
  | Some t =>
      let '(allow, s) := GetAllowRequestTime (env_dozeTime env) s in
      (env_now env - t >? allow, s)
  end.

(** What [Decide] does once the quota check passed: a new id, the request in
    the list, the notifications, and accounting unless in the foreground.  The
    [delayInfo] returned is the object that is now in the list. *)
Definition Decide_grant (env : Env) (dev : DeviceInfoManager) (key : KeyInfo)
    (delayInfo : DelaySuspendInfoEx) (p : PkgDelaySuspendInfo) (needSetTime : bool) s :
    DelaySuspendInfoEx * DecisionMaker Q :=
  let name := KeyInfo_GetPkg key in
  let uid := KeyInfo_GetUid key in
  let '(id, s) := NewDelaySuspendRequestId s in
  let delayInfo := ex_SetRequestId id delayInfo in
  let p' := pi_AddRequest delayInfo (GetDelayTime dev) needSetTime p in
  let delayInfo :=
    ex_SetActualDelayTime (pi_grantedDelay (GetDelayTime dev) needSetTime p) delayInfo in
  let s := dm_update (key_of key) (p', dm_timers s) s in
  let s := dm_post (mkAppInfo name uid (KeyInfo_GetPid key)) TASK_START s in
  let s := if pi_GetRequestSize p' =? 1
           then dm_post (mkAppInfo name uid AI_DEFAULT_PID) APP_TASK_START s else s in
  if CanStartAccountingLocked dev p' s
  then (ex_StartAccounting (env_now env) delayInfo,
        dm_update (key_of key)
          (pi_StartAccounting (env_now env) (ex_requestId_ delayInfo) p' (dm_timers s)) s)
  else (delayInfo, s).

(** The error code, and the values of [*delayInfo] and of the component on
    return.  A null [delayInfo] or [key] is refused. *)
Definition Decide (env : Env) (dev : DeviceInfoManager) (key : option KeyInfo)
    (delayInfo : option DelaySuspendInfoEx) s :
    Z * option DelaySuspendInfoEx * DecisionMaker Q :=
  match key, delayInfo with
  | Some key, Some delayInfo =>
      let s := ResetDayQuotaLocked (env_now env) s in
      let '(late, s) := notInPresetTime env (key_of key) s in
      return_if late, (ERR_BGTASK_NOT_IN_PRESET_TIME, Some delayInfo, s) ;;
      let name := KeyInfo_GetPkg key in
      let p := default (new_PkgDelaySuspendInfo name (KeyInfo_GetUid key))
                 (dm_pkgDelaySuspendInfoMap_ s !! key_of key) in
      let '(ret, p, needSetTime) := CheckQuotaTime (env_now env) name p in
      let s := dm_update (key_of key) (p, dm_timers s) s in
      return_if negb (ret =? ERR_OK), (ret, Some delayInfo, s) ;;
      let '(delayInfo, s) := Decide_grant env dev key delayInfo p needSetTime s in
      (ERR_OK, Some delayInfo, s)
  | _, _ => (ERR_BGTASK_NO_MEMORY, delayInfo, s)
  end.

Definition dm_PauseTransientTaskTimeForInner (now uid : Z) (name : string) s :
    Z * DecisionMaker Q :=
  return_if IsUidForeground uid s, (ERR_BGTASK_FOREGROUND, s) ;;
  let key := (name, uid) in
  match dm_pkgDelaySuspendInfoMap_ s !! key with
  | None => (ERR_BGTASK_NOREQUEST_TASK, s)
  | Some p => (ERR_OK, dm_update key (pi_StopAccountingAll now p (dm_timers s)) s)
  end.

Definition dm_StartTransientTaskTimeForInner (dev : DeviceInfoManager) (now uid : Z)
    (name : string) s : Z * DecisionMaker Q :=
  return_if IsUidForeground uid s, (ERR_BGTASK_FOREGROUND, s) ;;
  TryStartAccounting dev now uid name s.

Definition dm_RemoveRequest (now : Z) (key : option KeyInfo) (requestId : Z) s : DecisionMaker Q :=
  match key with
  | None => s
  | Some key =>
      match dm_pkgDelaySuspendInfoMap_ s !! key_of key with
      | None => s
      | Some p =>
          let '(p, q) := pi_RemoveRequest now requestId p (dm_timers s) in
          let s := dm_update (key_of key) (p, q) s in
          let s := dm_post (mkAppInfo (KeyInfo_GetPkg key) (KeyInfo_GetUid key)
                              (KeyInfo_GetPid key)) TASK_END s in
          if pi_IsRequestEmpty p then
            dm_post (mkAppInfo (KeyInfo_GetPkg key) (KeyInfo_GetUid key) AI_DEFAULT_PID)
              APP_TASK_END s
          else s
      end
  end.

Definition dm_GetRemainingDelayTime (now : Z) (key : option KeyInfo) (requestId : Z) s : Z :=
  match key with
  | None => -1
  | Some key =>
      match dm_pkgDelaySuspendInfoMap_ s !! key_of key with
      | Some p => pi_GetRemainDelayTime now requestId p
      | None => -1
      end
  end.

Definition GetRequestIdListByKey (key : option KeyInfo) s : list Z :=
  match key with
  | None => []
  | Some key =>
      match dm_pkgDelaySuspendInfoMap_ s !! key_of key with
      | Some p => ex_requestId_ <$> pi_requestList_ p
      | None => []
      end
  end.

Definition dm_GetQuota (now : Z) (key : option KeyInfo) s : Z * DecisionMaker Q :=
  match key with
  | None => (-1, s)
  | Some key =>
      match dm_pkgDelaySuspendInfoMap_ s !! key_of key with
      | Some p =>
          let p := pi_UpdateQuota now false p in
          (pi_quota_ p, dm_update (key_of key) (p, dm_timers s) s)
      | None => (INIT_QUOTA, s)
      end
  end.

Definition IsFrontApp (env : Env) (pkgName : string) (uid : Z) : bool :=
  match env_foregroundApps env with
  | None => false
  | Some apps => existsb (fun a => bool_decide (a = (pkgName, uid))) apps
  end.

Definition HandleScreenOn (env : Env) s : DecisionMaker Q :=
  match env_foregroundApps env with
  | None => s
  | Some apps =>
      fold_left (fun s key =>
        match dm_pkgDelaySuspendInfoMap_ s !! key with
        | Some p => dm_update key (pi_StopAccountingAll (env_now env) p (dm_timers s)) s
        | None => s
        end) apps s
  end.

(** The keys of [pkgDelaySuspendInfoMap_] in the order of [KeyInfoComp]. *)
Definition key_le (a b : PkgKey) : Prop :=
  KeyInfoComp (Some (mkKeyInfo b.1 b.2 0)) (Some (mkKeyInfo a.1 a.2 0)) = false.
#[export] Instance key_le_dec : RelDecision key_le.
Proof. intros a b. unfold key_le. apply _. Defined.
Definition pkg_keys (m : gmap PkgKey PkgDelaySuspendInfo) : list PkgKey :=
  merge_sort key_le (map_to_list m).*1.

Definition HandleScreenOff (env : Env) (dev : DeviceInfoManager) (transientPauseUid : gset Z) s :
    DecisionMaker Q :=
  fold_left (fun s key =>
    match dm_pkgDelaySuspendInfoMap_ s !! key with
    | Some p =>
        if bool_decide (pi_uid_ p ∈ transientPauseUid) then s
        else if CanStartAccountingLocked dev p s
        then dm_update key (pi_StartAccounting (env_now env) (-1) p (dm_timers s)) s
        else s
    | None => s
    end) (pkg_keys (dm_pkgDelaySuspendInfoMap_ s)) s.

Definition dm_OnInputEvent (env : Env) (dev : DeviceInfoManager) (transientPauseUid : gset Z)
    (e : EventInfo) s : DecisionMaker Q :=
  let id := ei_eventId_ e in
  return_if id =? 0, s ;;
  if id =? EVENT_SCREEN_ON then HandleScreenOn env s
  else if id =? EVENT_SCREEN_OFF then HandleScreenOff env dev transientPauseUid s
  else s.
End DMRequests.
