(* ===== verification/DecisionMakerSpec.v ===== *)
(** * The decision maker: invariant and behaviour

    The invariant of [DecisionMaker] and that every operation keeps it, which
    requests each operation adds and removes, which of them it leaves running
    and watched by a timer, and the functional behaviour of the operations. *)

From S2P Require Import Prelude.
From S2P Require Import Errors.
From S2P Require Import KeyInfo.
From S2P Require Import Interfaces.
From S2P Require Import DelaySuspendInfo.
From S2P Require Import PkgDelaySuspendInfo.
From S2P Require Import DeviceInfo.
From S2P Require Import DecisionMaker.
Local Open Scope Z_scope.

Section DMInv.
Context {sp : SystemParams} {cfg : TransientConfig} {ok : TransientParamsOk sp cfg}.
Context `{EventHandler Q}.
Implicit Types s : DecisionMaker Q.
Implicit Types p : PkgDelaySuspendInfo.
Abbreviation ids p := (ids_of (pi_requestList_ p)).
Abbreviation acct p := (acct_ids (pi_requestList_ p)).
Abbreviation pkgs := dm_pkgDelaySuspendInfoMap_.

(** Request [id] of application [key] exists; some request [id] is running. *)
Definition live s (key : PkgKey) (id : Z) : Prop :=
  exists p, pkgs s !! key = Some p /\ id ∈ ids p.
Definition running s (id : Z) : Prop :=
  exists key p, pkgs s !! key = Some p /\ id ∈ acct p.

(** The record of an application, as [Decide] finds or creates it. *)
Definition pkg_at s (key : PkgKey) : PkgDelaySuspendInfo :=
  default (new_PkgDelaySuspendInfo key.1 key.2) (pkgs s !! key).

Definition owner_ok (key : PkgKey) p : Prop := (pi_pkg_ p, pi_uid_ p) = key.

Record dm_inv (now : Z) s : Prop := {
  dm_inv_pkg : forall key p, pkgs s !! key = Some p -> pkg_inv now p /\ owner_ok key p;
  dm_inv_ids : forall key id, live s key id -> 1 <= id < dm_requestId_ s;
  dm_inv_unique : forall k1 k2 id, live s k1 id -> live s k2 id -> k1 = k2;
  dm_inv_reqid : 1 <= dm_requestId_ s <= int32_max;
  dm_inv_timers : forall id, id ∈ pending (dm_timers s) -> running s id;
  dm_inv_foreground : forall uid pids, dm_foregroundUidPidMap_ s !! uid = Some pids -> pids <> ∅;
}.

(** An operation that keeps the requests may start and stop them, but does
    not lose the timer of a request it leaves running, and does not start one
    without arming its timer. *)
Record evolves s s' : Prop := {
  ev_live : forall key id, live s' key id <-> live s key id;
  ev_start : forall id, running s' id -> running s id \/ id ∈ pending (dm_timers s');
  ev_keep : forall id, running s' id -> id ∈ pending (dm_timers s) -> id ∈ pending (dm_timers s');
  ev_reqid : dm_requestId_ s' = dm_requestId_ s;
  ev_posted : dm_posted s' = dm_posted s;
}.

Lemma evolves_refl s : evolves s s.
Proof. split; try tauto. Qed.

Lemma evolves_trans s1 s2 s3 : evolves s1 s2 -> evolves s2 s3 -> evolves s1 s3.
Proof.
  intros [L1 S1 K1 R1 P1] [L2 S2 K2 R2 P2]. split; [| | |congruence|congruence].
  - intros. by rewrite L2, L1.
  - intros id Hr. destruct (S2 _ Hr) as [Hr2|]; [|tauto].
    destruct (S1 _ Hr2); [tauto|]. right. by apply K2.
  - intros id Hr Hp. destruct (S2 _ Hr) as [Hr2|]; [|tauto]. apply K2; auto.
Qed.

Lemma running_live s id : running s id -> exists key, live s key id.
Proof. intros (key & p & Hp & Hid). exists key, p. split; [done|]. by apply acct_subseteq_ids. Qed.

Lemma pkg_at_inv now s key :
  dm_inv now s -> pkg_inv now (pkg_at s key) /\ owner_ok key (pkg_at s key).
Proof.
  intros Hs. unfold pkg_at. destruct (pkgs s !! key) as [p|] eqn:E; simpl.
  - by apply (dm_inv_pkg _ _ Hs).
  - split; [apply pkg_inv_new|]. unfold owner_ok. simpl. by destruct key.
Qed.

Lemma live_pkg_at s key id : live s key id <-> id ∈ ids (pkg_at s key).
Proof.
  unfold live, pkg_at. destruct (pkgs s !! key) as [p|]; simpl.
  - split; [intros (? & [= ->] & ?); done | by exists p].
  - split; [by intros (? & ? & ?) | unfold ids_of; simpl; set_solver].
Qed.

Lemma pkg_at_update s key pq key' :
  pkg_at (dm_update key pq s) key' = if decide (key' = key) then pq.1 else pkg_at s key'.
Proof.
  unfold pkg_at, dm_update. simpl. case_decide as Hk.
  - subst. by rewrite lookup_insert_eq.
  - by rewrite lookup_insert_ne by done.
Qed.

Lemma live_update s key pq key' id :
  live (dm_update key pq s) key' id <->
  if decide (key' = key) then id ∈ ids pq.1 else live s key' id.
Proof. rewrite live_pkg_at, pkg_at_update. case_decide; [done | by rewrite live_pkg_at]. Qed.

Lemma running_pkg_at s id : running s id <-> exists key, id ∈ acct (pkg_at s key).
Proof.
  unfold running, pkg_at. split.
  - intros (key & p & Hp & Hid). exists key. by rewrite Hp.
  - intros (key & Hid). destruct (pkgs s !! key) as [p|] eqn:E; simpl in Hid.
    + by exists key, p.
    + unfold acct_ids, ids_of in Hid. simpl in Hid. set_solver.
Qed.

Lemma running_update s key pq id :
  running (dm_update key pq s) id <->
  id ∈ acct pq.1 \/ exists key', key' <> key /\ id ∈ acct (pkg_at s key').
Proof.
  rewrite running_pkg_at. setoid_rewrite pkg_at_update. split.
  - intros (key' & Hid). case_decide; [by left|]. right. eauto.
  - intros [Hid|(key' & Hk & Hid)]; [exists key; by rewrite decide_True|].
    exists key'. by rewrite decide_False.
Qed.

(** Replacing the record of an application: the common case. *)
Lemma dm_inv_update now s key (p' : PkgDelaySuspendInfo) (q' : Q) :
  let p := pkg_at s key in
  dm_inv now s -> pkg_inv now p' -> same_owner p p' -> ids p' ⊆ ids p ->
  pending q' ⊆ pending (dm_timers s) ∪ acct p' ->
  (forall id, id ∈ pending q' -> id ∈ acct p -> id ∈ acct p') ->
  dm_inv now (dm_update key (p', q') s).
Proof.
  intros p Hs Hp' [Ho1 Ho2] Hids Hq Hk.
  assert (Hl : forall key' id, live (dm_update key (p', q') s) key' id -> live s key' id).
  { intros key' id. rewrite live_update. case_decide; [subst|done].
    rewrite live_pkg_at. set_solver. }
  destruct (pkg_at_inv now s key Hs) as [_ Ho]. fold p in Ho.
  split; simpl; try apply Hs.
  - intros key' p0. destruct (decide (key' = key)) as [->|Hne].
    + rewrite lookup_insert_eq. intros [= <-]. split; [done|]. unfold owner_ok in *. congruence.
    + rewrite lookup_insert_ne by done. apply Hs.
  - intros key' id Hli. by apply (dm_inv_ids _ _ Hs key'), Hl.
  - intros k1 k2 id H1 H2. apply (dm_inv_unique _ _ Hs k1 k2 id); by apply Hl.
  - intros id Hid. apply running_update. simpl.
    destruct (decide (id ∈ acct p')) as [|Hn]; [by left|].
    assert (id ∈ pending (dm_timers s)) as Hpq by set_solver.
    apply (dm_inv_timers _ _ Hs), running_pkg_at in Hpq as (key' & Hid').
    right. exists key'. split; [|done]. intros ->. apply Hn, Hk; done.
Qed.

Lemma evolves_update now s key p' (q' : Q) :
  let p := pkg_at s key in
  dm_inv now s -> ids p' = ids p ->
  acct p' ⊆ acct p ∪ pending q' ->
  pending (dm_timers s) ∖ pending q' ⊆ ids p ∖ acct p' ->
  evolves s (dm_update key (p', q') s).
Proof.
  intros p Hs Hids Ha Hq. split; simpl.
  - intros key' id. rewrite live_update. case_decide; [subst; by rewrite live_pkg_at; simpl; rewrite Hids|done].
  - intros id. rewrite running_update, running_pkg_at. simpl. intros [Hid|(key' & _ & Hid)]; [|eauto].
    apply Ha in Hid as [Hid|Hid]%elem_of_union; [|by right]. left. by exists key.
  - intros id Hr Hp. destruct (decide (id ∈ pending q')) as [|Hn]; [done|].
    assert (id ∈ ids p /\ id ∉ acct p') as [Hi Hna] by set_solver.
    apply running_update in Hr as [Hr|(key' & Hne & Hr)]; [done|].
    exfalso. apply Hne. apply (dm_inv_unique _ _ Hs key' key id).
    + apply live_pkg_at. by apply acct_subseteq_ids.
    + by apply live_pkg_at.
  - done.
  - done.
Qed.

(** ** Operations that keep the requests *)
Definition keeps (now : Z) s s' : Prop := dm_inv now s -> dm_inv now s' /\ evolves s s'.

Lemma keeps_refl now s : keeps now s s.
Proof. intros ?. split; [done|apply evolves_refl]. Qed.

Lemma keeps_trans now s1 s2 s3 : keeps now s1 s2 -> keeps now s2 s3 -> keeps now s1 s3.
Proof.
  intros H1 H2 Hi. destruct (H1 Hi) as [Hi2 He1]. destruct (H2 Hi2) as [Hi3 He2].
  split; [done|]. by eapply evolves_trans.
Qed.

Lemma keeps_stop now s key :
  keeps now s (dm_update key (pi_StopAccountingAll now (pkg_at s key) (dm_timers s)) s).
Proof.
  intros Hs. destruct (pkg_at_inv now s key Hs) as [Hp _].
  destruct (pi_StopAccountingAll _ _ _) as [p' q'] eqn:E.
  destruct (pi_StopAccountingAll_spec _ _ _ _ _ Hp E) as (Hp' & Ho & Hi & Ha & _ & Hq).
  split.
  - apply dm_inv_update; try done; [by rewrite Hi | rewrite Hq; set_solver | ].
    intros id. rewrite Hq. set_solver.
  - eapply evolves_update; try done; [rewrite Ha; set_solver|].
    rewrite Hq, Ha. pose proof (acct_subseteq_ids (pkg_at s key)).
    intros id. rewrite !elem_of_difference. intros [Hin Hn].
    destruct (decide (id ∈ acct (pkg_at s key))); set_solver.
Qed.

Lemma keeps_start now requestId s key :
  0 < now ->
  keeps now s (dm_update key (pi_StartAccounting now requestId (pkg_at s key) (dm_timers s)) s).
Proof.
  intros Hn Hs. destruct (pkg_at_inv now s key Hs) as [Hp _].
  destruct (pi_StartAccounting _ _ _ _) as [p' q'] eqn:E.
  destruct (pi_StartAccounting_spec _ _ _ _ _ _ Hn Hp E) as (Hp' & Ho & Hi & Ha & Hq & Hk).
  split.
  - apply dm_inv_update; try done; [by rewrite Hi | set_solver | ].
    intros id _. rewrite Ha. set_solver.
  - eapply evolves_update; try done. set_solver.
Qed.

Lemma keeps_quota now reset s key :
  keeps now s (dm_update key (pi_UpdateQuota now reset (pkg_at s key), dm_timers s) s).
Proof.
  intros Hs. destruct (pkg_at_inv now s key Hs) as [Hp _]. split.
  - apply dm_inv_update; try done; [by apply pkg_inv_UpdateQuota | set_solver].
  - eapply evolves_update; try done; set_solver.
Qed.

(** Updates of the other fields. *)
Lemma keeps_fields now s s' :
  pkgs s' = pkgs s -> dm_timers s' = dm_timers s -> dm_requestId_ s' = dm_requestId_ s ->
  dm_posted s' = dm_posted s ->
  (dm_inv now s -> forall uid pids, dm_foregroundUidPidMap_ s' !! uid = Some pids -> pids <> ∅) ->
  keeps now s s'.
Proof.
  intros Hp Ht Hr Hpo Hf Hs. unfold live, running in *. split.
  - split; unfold live, running; rewrite ?Hp, ?Ht, ?Hr; try apply Hs. by apply Hf.
  - split; unfold live, running; rewrite ?Hp, ?Ht; tauto.
Qed.

Lemma keeps_bg now m s : keeps now s (dm_set_bg m s).
Proof. apply keeps_fields; try done. intros Hs. apply (dm_inv_foreground _ _ Hs). Qed.

Lemma keeps_allow now t s : keeps now s (dm_set_allow t s).
Proof. apply keeps_fields; try done. intros Hs. apply (dm_inv_foreground _ _ Hs). Qed.

Lemma keeps_UpdateForegroundUidPidMap now uid pid b s :
  keeps now s (UpdateForegroundUidPidMap uid pid b s).
Proof.
  apply keeps_fields; try done. intros Hs uid' pids'. unfold UpdateForegroundUidPidMap. simpl.
  pose proof (dm_inv_foreground _ _ Hs uid') as Hf.
  destruct b; [|case_bool_decide].
  - destruct (decide (uid' = uid)) as [->|];
      [rewrite lookup_insert_eq; intros [= <-]; set_solver
      | rewrite lookup_insert_ne by done; apply Hf].
  - destruct (decide (uid' = uid)) as [->|];
      [by rewrite lookup_delete_eq | rewrite lookup_delete_ne by done; apply Hf].
  - destruct (decide (uid' = uid)) as [->|];
      [rewrite lookup_insert_eq; by intros [= <-] | rewrite lookup_insert_ne by done; apply Hf].
Qed.

Lemma pkg_at_Some s key p : pkgs s !! key = Some p -> pkg_at s key = p.
Proof. unfold pkg_at. by intros ->. Qed.

Lemma keeps_TryStartAccounting dev now uid name s :
  0 < now -> keeps now s (TryStartAccounting dev now uid name s).2.
Proof.
  intros Hn. unfold TryStartAccounting. destruct (pkgs s !! (name, uid)) as [p|] eqn:E;
    [|apply keeps_refl]. case_test; [|apply keeps_refl].
  apply pkg_at_Some in E as <-. by apply keeps_start.
Qed.

Lemma keeps_HandleStateChange dev now name uid fg bg s :
  0 < now -> keeps now s (HandleStateChange dev now name uid fg bg s).
Proof.
  intros Hn. unfold HandleStateChange. destruct fg; [|destruct bg; [|apply keeps_refl]].
  - eapply keeps_trans; [|apply keeps_bg].
    destruct (pkgs s !! (name, uid)) as [p|] eqn:E; [|apply keeps_refl].
    apply pkg_at_Some in E as <-. apply keeps_stop.
  - destruct (pkgs s !! (name, uid)) as [p|] eqn:E; [|apply keeps_refl].
    case_test; [|apply keeps_refl]. eapply keeps_trans; [|apply keeps_bg].
    apply pkg_at_Some in E as <-. by apply keeps_start.
Qed.

Lemma keeps_OnProcessStateChanged dev now name uid pid st s :
  0 < now -> keeps now s (OnProcessStateChanged dev now name uid pid st s).
Proof.
  intros Hn. unfold OnProcessStateChanged.
  destruct st; cbn [orb]; (eapply keeps_trans; [apply keeps_UpdateForegroundUidPidMap|]);
    first [by apply keeps_HandleStateChange | apply keeps_refl].
Qed.

Lemma keeps_OnProcessDied dev now name uid pid s :
  0 < now -> keeps now s (OnProcessDied dev now name uid pid s).
Proof.
  intros Hn. eapply keeps_trans; [apply (keeps_UpdateForegroundUidPidMap _ uid pid false)|].
  by apply keeps_TryStartAccounting.
Qed.

Lemma keeps_Pause now uid name s :
  keeps now s (dm_PauseTransientTaskTimeForInner now uid name s).2.
Proof.
  unfold dm_PauseTransientTaskTimeForInner. case_test; [apply keeps_refl|].
  destruct (pkgs s !! (name, uid)) as [p|] eqn:E; [|apply keeps_refl].
  apply pkg_at_Some in E as <-. apply keeps_stop.
Qed.

Lemma keeps_Start dev now uid name s :
  0 < now -> keeps now s (dm_StartTransientTaskTimeForInner dev now uid name s).2.
Proof.
  intros Hn. unfold dm_StartTransientTaskTimeForInner. case_test; [apply keeps_refl|].
  by apply keeps_TryStartAccounting.
Qed.

Lemma keeps_GetQuota now key s : keeps now s (dm_GetQuota now key s).2.
Proof.
  unfold dm_GetQuota. destruct key as [key|]; [|apply keeps_refl].
  destruct (pkgs s !! key_of key) as [p|] eqn:E; [|apply keeps_refl].
  apply pkg_at_Some in E as <-. apply keeps_quota.
Qed.

Lemma keeps_fold now {A} (f : DecisionMaker Q -> A -> DecisionMaker Q) l s :
  (forall s a, keeps now s (f s a)) -> keeps now s (fold_left f l s).
Proof.
  intros Hf. revert s. induction l as [|a l IH]; intros s; [apply keeps_refl|].
  simpl. eapply keeps_trans; [apply Hf|apply IH].
Qed.

Lemma keeps_dm_OnInputEvent env dev paused e s :
  0 < env_now env -> keeps (env_now env) s (dm_OnInputEvent env dev paused e s).
Proof.
  intros Hn. unfold dm_OnInputEvent, HandleScreenOn, HandleScreenOff.
  repeat case_test; try apply keeps_refl.
  - destruct (env_foregroundApps env); [|apply keeps_refl]. apply keeps_fold. intros s' key.
    destruct (pkgs s' !! key) eqn:E; [|apply keeps_refl].
    apply pkg_at_Some in E as <-. apply keeps_stop.
  - apply keeps_fold. intros s' key.
    destruct (pkgs s' !! key) eqn:E; [|apply keeps_refl].
    repeat case_test; try apply keeps_refl.
    apply pkg_at_Some in E as <-. by apply keeps_start.
Qed.

Lemma ResetDayQuotaLocked_lookup now s key :
  IsAfterOneDay (dm_lastRequestTime_ s) now = true ->
  pkgs (ResetDayQuotaLocked now s) !! key =
  p ← pkgs s !! key; if pi_IsRequestEmpty p then None else Some (pi_UpdateQuota now true p).
Proof. intros Hd. unfold ResetDayQuotaLocked. rewrite Hd. simpl. apply lookup_omap. Qed.

Lemma keeps_ResetDayQuotaLocked now s : keeps now s (ResetDayQuotaLocked now s).
Proof.
  intros Hs. destruct (IsAfterOneDay (dm_lastRequestTime_ s) now) eqn:Hd.
  2:{ unfold ResetDayQuotaLocked. rewrite Hd. simpl. by apply keeps_refl. }
  pose proof (fun key => ResetDayQuotaLocked_lookup now s key Hd) as Hl.
  assert (Hq : dm_timers (ResetDayQuotaLocked now s) = dm_timers s /\
               dm_requestId_ (ResetDayQuotaLocked now s) = dm_requestId_ s /\
               dm_posted (ResetDayQuotaLocked now s) = dm_posted s /\
               dm_foregroundUidPidMap_ (ResetDayQuotaLocked now s) = dm_foregroundUidPidMap_ s)
    by (unfold ResetDayQuotaLocked; rewrite Hd; done).
  destruct Hq as (Ht & Hr & Hpo & Hf).
  assert (Hx : forall key id, live (ResetDayQuotaLocked now s) key id <-> live s key id).
  { intros key id. unfold live. rewrite Hl. destruct (pkgs s !! key) as [p|]; simpl; [|done].
    unfold pi_IsRequestEmpty. case_bool_decide as He; simpl.
    - split; [naive_solver|]. intros (? & [= <-] & Hin). rewrite He in Hin.
      unfold ids_of in Hin. simpl in Hin. set_solver.
    - split; intros (? & [= <-] & Hin); eauto. }
  assert (Hy : forall id, running (ResetDayQuotaLocked now s) id <-> running s id).
  { intros id. unfold running. setoid_rewrite Hl. split.
    - intros (key & p & Hp & Hid). exists key. destruct (pkgs s !! key) as [p0|]; simpl in Hp; [|done].
      destruct (pi_IsRequestEmpty p0); simplify_eq/=. eauto.
    - intros (key & p & Hp & Hid). exists key. rewrite Hp. simpl. unfold pi_IsRequestEmpty.
      case_bool_decide as He; [|eauto]. rewrite He in Hid. unfold acct_ids, ids_of in Hid.
      simpl in Hid. set_solver. }
  split.
  - split; rewrite ?Hr, ?Ht, ?Hf; try setoid_rewrite Hx; try setoid_rewrite Hy; try apply Hs.
    intros key p. rewrite Hl. destruct (pkgs s !! key) as [p0|] eqn:E; simpl; [|done].
    destruct (dm_inv_pkg _ _ Hs _ _ E). case_test; [done|]. intros [= <-].
    split; [by apply pkg_inv_UpdateQuota|done].
  - split; rewrite ?Ht; try setoid_rewrite Hy; auto.
Qed.
End DMInv.

(** ** Granting and removing requests *)
Section DMRequestSpecs.
Context {sp : SystemParams} {cfg : TransientConfig} {ok : TransientParamsOk sp cfg}.
Context `{EventHandler Q}.
Implicit Types s : DecisionMaker Q.
Implicit Types p : PkgDelaySuspendInfo.
Abbreviation ids p := (ids_of (pi_requestList_ p)).
Abbreviation acct p := (acct_ids (pi_requestList_ p)).
Abbreviation pkgs := dm_pkgDelaySuspendInfoMap_.

(** The part of [evolves] about timers. *)
Definition watch_step s s' : Prop :=
  (forall id, running s' id -> running s id \/ id ∈ pending (dm_timers s')) /\
  (forall id, running s' id -> id ∈ pending (dm_timers s) -> id ∈ pending (dm_timers s')).

Lemma evolves_watch s s' : evolves s s' -> watch_step s s'.
Proof. intros []. by split. Qed.

Lemma watch_step_trans s1 s2 s3 : watch_step s1 s2 -> watch_step s2 s3 -> watch_step s1 s3.
Proof.
  intros [S1 K1] [S2 K2]. split; intros id Hr.
  - destruct (S2 _ Hr) as [Hr2|]; [|tauto]. destruct (S1 _ Hr2); [tauto|]. right. by apply K2.
  - intros Hp. destruct (S2 _ Hr) as [Hr2|]; [|tauto]. apply K2; auto.
Qed.

Lemma GetDelayTime_range dev : 0 <= GetDelayTime dev <= int32_max.
Proof.
  pose proof delay_normal_ok. unfold GetDelayTime. case_test; [|done].
  unfold DELAY_TIME_LOW_POWER, MSEC_PER_MIN. in_range.
Qed.

Lemma dm_inv_post now a t s : dm_inv now s -> dm_inv now (dm_post a t s).
Proof. intros Hs. split; apply Hs. Qed.

(** Notifications do not change the rest of the state. *)
Lemma live_post a t s key id : live (dm_post a t s) key id <-> live s key id.
Proof. done. Qed.
Lemma running_post a t s id : running (dm_post a t s) id <-> running s id.
Proof. done. Qed.
Lemma pkg_at_post a t s key : pkg_at (dm_post a t s) key = pkg_at s key.
Proof. done. Qed.

(** Storing a new request under the next id. *)
Lemma dm_add_request now s key info delayTime needSetTime :
  let s' := dm_update key (pi_AddRequest info delayTime needSetTime (pkg_at s key), dm_timers s)
              (dm_set_requestId (dm_requestId_ s + 1) s) in
  dm_inv now s -> 0 <= now -> 0 <= delayTime <= int32_max -> dm_requestId_ s < int32_max ->
  pi_GetRequestSize (pkg_at s key) < MAX_REQUEST_ID ->
  ex_requestId_ info = dm_requestId_ s -> ex_baseTime_ info = 0 -> ex_spendTime_ info = 0 ->
  dm_inv now s' /\ watch_step s s' /\
  (forall k id, live s' k id <-> live s k id \/ (k = key /\ id = dm_requestId_ s)).
Proof.
  intros s' Hs Hn Hd Hr Hl Hid Hb Hsp.
  destruct (pkg_at_inv now s key Hs) as [Hp Ho].
  assert (Hfresh : forall k, ~ live s k (dm_requestId_ s)).
  { intros k Hk%(dm_inv_ids _ _ Hs). lia. }
  assert (Hlive : forall k id, live s' k id <-> live s k id \/ (k = key /\ id = dm_requestId_ s)).
  { intros k id. unfold s'. rewrite live_update. cbn [fst]. rewrite ids_AddRequest, Hid.
    change (live (dm_set_requestId (dm_requestId_ s + 1) s) k id) with (live s k id).
    case_decide; [subst; rewrite live_pkg_at; set_solver | naive_solver]. }
  assert (Hrun : forall id, running s' id <-> running s id).
  { intros id. unfold s'. rewrite running_update, running_pkg_at. cbn [fst].
    rewrite acct_AddRequest by done.
    split; [intros [Hi|(k & Hk & Hi)]; eauto|]. intros (k & Hk).
    destruct (decide (k = key)) as [->|]; [by left|]. right. by exists k. }
  split; [|split; [split; intros id; rewrite Hrun; simpl; auto|done]].
  split.
  - intros k p0. unfold s', dm_update. cbn [dm_set_pkgs pkgs dm_set_requestId fst].
    destruct (decide (k = key)) as [->|Hne].
    + rewrite lookup_insert_eq. intros [= <-]. split; [|done].
      apply pkg_inv_AddRequest; try done. rewrite Hid, <- live_pkg_at. apply Hfresh.
    + rewrite lookup_insert_ne by done. apply Hs.
  - intros k id. rewrite Hlive. cbn. pose proof (dm_inv_reqid _ _ Hs).
    intros [Hk%(dm_inv_ids _ _ Hs)|[_ ->]]; lia.
  - intros k1 k2 id. rewrite !Hlive. intros [H1|[-> ->]] [H2|[-> H2]]; subst.
    + by apply (dm_inv_unique _ _ Hs k1 k2 id).
    + by apply Hfresh in H1.
    + by apply Hfresh in H2.
    + done.
  - cbn. pose proof (dm_inv_reqid _ _ Hs). lia.
  - intros id Hi. apply Hrun, (dm_inv_timers _ _ Hs), Hi.
  - apply (dm_inv_foreground _ _ Hs).
Qed.

Lemma NewDelaySuspendRequestId_next s :
  1 <= dm_requestId_ s < int32_max ->
  NewDelaySuspendRequestId s = (dm_requestId_ s, dm_set_requestId (dm_requestId_ s + 1) s).
Proof.
  intros Hr. unfold NewDelaySuspendRequestId.
  rewrite (proj2 (Z.eqb_neq _ _)) by lia. by int32_simpl.
Qed.

Lemma AddRequest_first info delayTime needSetTime p :
  (pi_GetRequestSize (pi_AddRequest info delayTime needSetTime p) =? 1) = pi_IsRequestEmpty p.
Proof.
  unfold pi_GetRequestSize, pi_IsRequestEmpty, pi_AddRequest. simpl pi_requestList_.
  rewrite length_app. cbn [length]. case_bool_decide as He; [by rewrite He|].
  apply Z.eqb_neq. destruct (pi_requestList_ p); [done|]. cbn [length]. lia.
Qed.

(** The notifications of a granted request. *)
Definition grant_events (key : KeyInfo) (first : bool) :
    list (TransientTaskAppInfo * TransientTaskEventType) :=
  (mkAppInfo (ki_pkg_ key) (ki_uid_ key) (ki_pid_ key), TASK_START) ::
  if first then [(mkAppInfo (ki_pkg_ key) (ki_uid_ key) AI_DEFAULT_PID, APP_TASK_START)] else [].

(** What granting a request does. *)
Record granted (now : Z) (dev : DeviceInfoManager) (key : KeyInfo) (needSetTime : bool)
    s s' (d' : DelaySuspendInfoEx) : Prop := {
  gr_inv : dm_inv now s';
  gr_watch : watch_step s s';
  gr_id : ex_requestId_ d' = dm_requestId_ s;
  gr_fresh : forall k, ~ live s k (dm_requestId_ s);
  gr_live : forall k id, live s' k id <-> live s k id \/ (k = key_of key /\ id = dm_requestId_ s);
  gr_next : dm_requestId_ s' = dm_requestId_ s + 1;
  gr_delay : ex_actualDelayTime_ d' =
    pi_grantedDelay (GetDelayTime dev) needSetTime (pkg_at s (key_of key));
  gr_stored : d' ∈ pi_requestList_ (pkg_at s' (key_of key));
  gr_running : accounting d' <-> CanStartAccountingLocked dev (pkg_at s (key_of key)) s = true;
  gr_armed : accounting d' -> dm_requestId_ s ∈ pending (dm_timers s');
  gr_posted : dm_posted s' =
    dm_posted s ++ grant_events key (pi_IsRequestEmpty (pkg_at s (key_of key)));
}.

(** Starting one request of the list arms its timer. *)
Lemma start_one now s key d :
  let id := ex_requestId_ d in
  let s' := dm_update key (pi_StartAccounting now id (pkg_at s key) (dm_timers s)) s in
  0 < now -> dm_inv now s -> d ∈ pi_requestList_ (pkg_at s key) ->
  dm_inv now s' /\ evolves s s' /\
  ex_StartAccounting now d ∈ pi_requestList_ (pkg_at s' key) /\
  (id ∉ acct (pkg_at s key) -> id ∈ pending (dm_timers s')).
Proof.
  intros id s' Hn Hs Hd. destruct (keeps_start now id s key Hn Hs) as [Hi He].
  split; [done|]. split; [done|].
  destruct (pkg_at_inv now s key Hs) as [Hp _].
  assert (Hsel : selected id d = true).
  { unfold selected, ex_IsSameRequestId, id. by rewrite Z.eqb_refl, orb_true_r. }
  unfold s'. destruct (pi_StartAccounting _ _ _ _) as [p3 q3] eqn:E. split.
  - rewrite pkg_at_update, decide_True by done. cbn [fst]. unfold pi_StartAccounting in E.
    destruct (pi_StartAccounting_loop_spec now id (pi_requestList_ (pkg_at s key))
      (pkg_at s key) (dm_timers s) Hn) as (q4 & E4 & _).
    rewrite E4 in E. injection E as <- <-. simpl.
    apply list_elem_of_fmap. exists d. by rewrite Hsel.
  - destruct (pi_StartAccounting_spec _ _ _ _ _ _ Hn Hp E) as (_ & _ & _ & Ha & _ & Hk).
    intros Hna. assert (id ∈ acct p3) as Hin.
    { rewrite Ha. apply elem_of_union_r, elem_of_ids_of. exists d. by rewrite list_elem_of_filter. }
    simpl. set_solver.
Qed.

(** The notifications leave the rest of the state alone. *)
Definition posts_grant (key : KeyInfo) (first : bool) s : DecisionMaker Q :=
  let s := dm_post (mkAppInfo (ki_pkg_ key) (ki_uid_ key) (ki_pid_ key)) TASK_START s in
  if first then dm_post (mkAppInfo (ki_pkg_ key) (ki_uid_ key) AI_DEFAULT_PID) APP_TASK_START s
  else s.

Lemma posts_grant_same key b s :
  dm_pkgDelaySuspendInfoMap_ (posts_grant key b s) = dm_pkgDelaySuspendInfoMap_ s /\
  dm_timers (posts_grant key b s) = dm_timers s /\
  dm_requestId_ (posts_grant key b s) = dm_requestId_ s /\
  dm_foregroundUidPidMap_ (posts_grant key b s) = dm_foregroundUidPidMap_ s /\
  dm_posted (posts_grant key b s) = dm_posted s ++ grant_events key b.
Proof. unfold posts_grant, grant_events. destruct b; simpl; by rewrite <- ?app_assoc. Qed.

Lemma same_live s s' key id :
  dm_pkgDelaySuspendInfoMap_ s' = dm_pkgDelaySuspendInfoMap_ s -> live s' key id <-> live s key id.
Proof. unfold live. by intros ->. Qed.
Lemma same_running s s' id :
  dm_pkgDelaySuspendInfoMap_ s' = dm_pkgDelaySuspendInfoMap_ s -> running s' id <-> running s id.
Proof. unfold running. by intros ->. Qed.

Lemma posts_grant_inv now key b s : dm_inv now s -> dm_inv now (posts_grant key b s).
Proof. intros Hs. unfold posts_grant. destruct b; by repeat apply dm_inv_post. Qed.

Lemma posts_grant_watch key b s : watch_step s (posts_grant key b s).
Proof.
  destruct (posts_grant_same key b s) as (Hp & Ht & _).
  split; intros id; rewrite (same_running _ _ _ Hp), Ht; auto.
Qed.

Lemma Decide_grant_spec env dev key d needSetTime s :
  let now := env_now env in
  0 < now -> dm_inv now s -> dm_requestId_ s < int32_max ->
  pi_GetRequestSize (pkg_at s (key_of key)) < MAX_REQUEST_ID ->
  ex_baseTime_ d = 0 -> ex_spendTime_ d = 0 ->
  let r := Decide_grant env dev key d (pkg_at s (key_of key)) needSetTime s in
  granted now dev key needSetTime s r.2 r.1.
Proof.
  intros now Hn Hs Hr Hl Hb Hsp. unfold Decide_grant. fold now.
  pose proof (dm_inv_reqid _ _ Hs) as Hr1.
  rewrite NewDelaySuspendRequestId_next by lia. cbv zeta. rewrite AddRequest_first.
  set (d1 := ex_SetRequestId (dm_requestId_ s) d).
  set (p := pkg_at s (key_of key)) in *.
  set (p' := pi_AddRequest d1 (GetDelayTime dev) needSetTime p).
  set (d2 := ex_SetActualDelayTime _ d1).
  destruct (dm_add_request now s (key_of key) d1 (GetDelayTime dev) needSetTime)
    as (Hi1 & Hw1 & Hl1); try done; [lia|apply GetDelayTime_range|].
  fold p p' in Hi1, Hw1, Hl1. cbn [dm_timers dm_set_requestId].
  set (s1 := dm_update (key_of key) (p', dm_timers s) _) in *.
  change (if pi_IsRequestEmpty p then _ else _) with (posts_grant key (pi_IsRequestEmpty p) s1).
  destruct (posts_grant_same key (pi_IsRequestEmpty p) s1) as (Hp2 & Ht2 & Hr2 & Hf2 & Ho2).
  pose proof (posts_grant_inv now key (pi_IsRequestEmpty p) s1 Hi1) as Hi2.
  pose proof (watch_step_trans _ _ _ Hw1 (posts_grant_watch key (pi_IsRequestEmpty p) s1)) as Hw2.
  set (s2 := posts_grant key (pi_IsRequestEmpty p) s1) in *. clearbody s2.
  assert (Hp2' : pkg_at s2 (key_of key) = p')
    by (unfold pkg_at; rewrite Hp2; simpl; by rewrite lookup_insert_eq).
  assert (Hfr : forall k, ~ live s k (dm_requestId_ s)) by (intros k Hk%(dm_inv_ids _ _ Hs); lia).
  assert (Hd2 : d2 ∈ pi_requestList_ (pkg_at s2 (key_of key)))
    by (rewrite Hp2'; unfold p', pi_AddRequest; simpl; set_solver).
  assert (Hcan : CanStartAccountingLocked dev p' s2 = CanStartAccountingLocked dev p s).
  { unfold CanStartAccountingLocked, IsUidForeground. by rewrite Hf2. }
  rewrite Hcan, <- Hp2'. destruct (CanStartAccountingLocked dev p s) eqn:Hc; cbn [fst snd].
  - destruct (start_one now s2 (key_of key) d2 Hn Hi2 Hd2) as (Hi3 & He3 & Hin3 & Ha3).
    split; try done.
    + by eapply watch_step_trans, evolves_watch.
    + by rewrite ex_StartAccounting_id.
    + intros k id. rewrite (ev_live _ _ He3), (same_live _ _ _ _ Hp2). apply Hl1.
    + unfold ex_StartAccounting. by case_test.
    + split; [done|]. intros _. by apply ex_StartAccounting_started.
    + intros _. apply Ha3. rewrite Hp2'. unfold p'. rewrite acct_AddRequest by done.
      intros Hin%acct_subseteq_ids. by apply (Hfr (key_of key)), live_pkg_at.
  - split; try done.
    + intros k id. rewrite (same_live _ _ _ _ Hp2). apply Hl1.
    + unfold accounting, d2. simpl. fold p. rewrite Hb, Hc. done.
Qed.

(** ** Admission *)

(** The quota an application has left at [now]: what it had, minus the time it
    has been counting since (its exemption is not charged). *)
Definition quota_left (now : Z) p : Z := pi_quota_ (pi_UpdateQuota now false p).

(** What [Decide] checks before granting. *)
Definition quota_error (now : Z) (name : string) p : option Z :=
  if bool_decide (MAX_REQUEST_ID <= pi_GetRequestSize p) then Some ERR_BGTASK_EXCEEDS_THRESHOLD
  else if (quota_left now p <? MIN_ALLOW_QUOTA_TIME) && negb (IsTransientTaskExemptedQuatoApp name)
  then Some ERR_BGTASK_TIME_INSUFFICIENT
  else None.

Lemma CheckQuotaTime_spec now name p ret p' ns :
  pkg_inv now p -> CheckQuotaTime now name p = (ret, p', ns) ->
  ret = default ERR_OK (quota_error now name p) /\
  pkg_inv now p' /\ same_owner p p' /\ pi_requestList_ p' = pi_requestList_ p /\
  (ret = ERR_OK -> p' = pi_UpdateQuota now false p /\ pi_GetRequestSize p < MAX_REQUEST_ID /\
     ns = (quota_left now p <? MIN_ALLOW_QUOTA_TIME)).
Proof.
  intros Hp. unfold CheckQuotaTime, quota_error, quota_left.
  destruct (pi_IsAllowRequest now p) as [r p1] eqn:E.
  destruct (pi_IsAllowRequest_spec _ _ _ _ Hp E) as (Hp1 & Ho & Hl & Hcases).
  destruct Hcases as [(-> & Hsz & ->)|(Hsz & -> & [[-> Hq]|[-> Hq]])].
  - rewrite bool_decide_true by (unfold MAX_REQUEST_ID in *; lia).
    intros [= <- <- <-]. done.
  - rewrite bool_decide_false by lia. rewrite (proj2 (Z.ltb_ge _ _)) by done.
    intros [= <- <- <-]. done.
  - rewrite bool_decide_false by lia. rewrite (proj2 (Z.ltb_lt _ _)) by done.
    rewrite Z.eqb_refl. destruct (IsTransientTaskExemptedQuatoApp name);
      intros [= <- <- <-]; done.
Qed.

(** The state in which the quota is checked, and the guard on the time since
    the application went to the background. *)
Definition decide_state (env : Env) s : DecisionMaker Q := ResetDayQuotaLocked (env_now env) s.
Definition too_late (env : Env) (key : PkgKey) s : bool :=
  match dm_pkgBgDurationMap_ s !! key with
  | None => false
  | Some t =>
      env_now env - t >?
        (if dm_allowRequestTime s =? 0 then default ALLOW_REQUEST_TIME_BG (env_dozeTime env)
         else dm_allowRequestTime s)
  end.

Lemma notInPresetTime_spec env key s :
  (notInPresetTime env key s).1 = too_late env key s /\
  forall now, keeps now s (notInPresetTime env key s).2 /\
    forall k, pkg_at (notInPresetTime env key s).2 k = pkg_at s k.
Proof.
  unfold notInPresetTime, too_late, GetAllowRequestTime.
  destruct (dm_pkgBgDurationMap_ s !! key) as [t|];
    [|split; [done|]; intros; split; [apply keeps_refl|done]].
  destruct (dm_allowRequestTime s =? 0); simpl; (split; [done|]); intros now;
    (split; [|done]); [apply keeps_allow | apply keeps_refl].
Qed.
End DMRequestSpecs.

Section DMDecide.
Context {sp : SystemParams} {cfg : TransientConfig} {ok : TransientParamsOk sp cfg}.
Context `{EventHandler Q}.
Implicit Types s : DecisionMaker Q.
Implicit Types p : PkgDelaySuspendInfo.
Abbreviation ids p := (ids_of (pi_requestList_ p)).
Abbreviation acct p := (acct_ids (pi_requestList_ p)).

Lemma IsRequestEmpty_live s key :
  pi_IsRequestEmpty (pkg_at s key) = true <-> forall id, ~ live s key id.
Proof.
  unfold pi_IsRequestEmpty. rewrite bool_decide_eq_true. setoid_rewrite live_pkg_at.
  unfold ids_of. destruct (pi_requestList_ (pkg_at s key)) as [|i l].
  - split; [set_solver|done].
  - split; [done|]. intros Hn. exfalso. apply (Hn (ex_requestId_ i)). set_solver.
Qed.

Lemma IsRequestEmpty_evolves s s' key :
  evolves s s' -> pi_IsRequestEmpty (pkg_at s' key) = pi_IsRequestEmpty (pkg_at s key).
Proof.
  intros He. apply eq_true_iff_eq. rewrite !IsRequestEmpty_live.
  by setoid_rewrite (ev_live _ _ He key).
Qed.

(** Why a request is refused, if it is. *)
Definition decide_error (env : Env) (key : KeyInfo) s : option Z :=
  let s0 := decide_state env s in
  if too_late env (key_of key) s0 then Some ERR_BGTASK_NOT_IN_PRESET_TIME
  else quota_error (env_now env) (ki_pkg_ key) (pkg_at s0 (key_of key)).

Definition decide_delay (env : Env) (dev : DeviceInfoManager) (key : KeyInfo) s : Z :=
  let left := quota_left (env_now env) (pkg_at (decide_state env s) (key_of key)) in
  if left <? MIN_ALLOW_QUOTA_TIME
  then GetTransientTaskExemptedQuato + WATCHDOG_DELAY_TIME
  else Z.min left (GetDelayTime dev).

(** A granted request: what [Decide] leaves behind. *)
Record accepted (env : Env) (dev : DeviceInfoManager) (key : KeyInfo) s s'
    (d : DelaySuspendInfoEx) : Prop := {
  ac_inv : dm_inv (env_now env) s';
  ac_watch : watch_step s s';
  ac_id : ex_requestId_ d = dm_requestId_ s;
  ac_fresh : forall k, ~ live s k (dm_requestId_ s);
  ac_live : forall k id, live s' k id <-> live s k id \/ (k = key_of key /\ id = dm_requestId_ s);
  ac_next : dm_requestId_ s' = dm_requestId_ s + 1;
  ac_delay : ex_actualDelayTime_ d = decide_delay env dev key s;
  ac_stored : d ∈ pi_requestList_ (pkg_at s' (key_of key));
  ac_running : accounting d <-> dev_isScreenOn_ dev = false \/ IsUidForeground (ki_uid_ key) s = false;
  ac_armed : accounting d -> dm_requestId_ s ∈ pending (dm_timers s');
  ac_posted : dm_posted s' =
    dm_posted s ++ grant_events key (pi_IsRequestEmpty (pkg_at s (key_of key)));
}.

Lemma decide_state_foreground env s :
  dm_foregroundUidPidMap_ (decide_state env s) = dm_foregroundUidPidMap_ s.
Proof. unfold decide_state, ResetDayQuotaLocked. by case_test. Qed.

Lemma notInPresetTime_foreground env key s :
  dm_foregroundUidPidMap_ (notInPresetTime env key s).2 = dm_foregroundUidPidMap_ s.
Proof.
  unfold notInPresetTime, GetAllowRequestTime. destruct (_ !! _); [|done]. by case_test.
Qed.

Lemma CanStart_owner now dev s key :
  dm_inv now s ->
  CanStartAccountingLocked dev (pkg_at s key) s = true <->
  dev_isScreenOn_ dev = false \/ IsUidForeground key.2 s = false.
Proof.
  intros Hs. destruct (pkg_at_inv now s key Hs) as [_ Ho].
  apply (f_equal snd) in Ho. simpl in Ho. unfold CanStartAccountingLocked. rewrite Ho.
  destruct (dev_isScreenOn_ dev), (IsUidForeground key.2 s); simpl; intuition congruence.
Qed.

(** The delay granted, in terms of the quota left. *)
Lemma grantedDelay_left now dev p :
  pkg_inv now p ->
  pi_grantedDelay (GetDelayTime dev) (quota_left now p <? MIN_ALLOW_QUOTA_TIME)
    (pi_UpdateQuota now false p) =
  if quota_left now p <? MIN_ALLOW_QUOTA_TIME
  then GetTransientTaskExemptedQuato + WATCHDOG_DELAY_TIME
  else Z.min (quota_left now p) (GetDelayTime dev).
Proof.
  intros Hp. pose proof exempted_quota_ok as He. unfold WATCHDOG_DELAY_TIME, MSEC_PER_SEC in *.
  unfold pi_grantedDelay. fold (quota_left now p). case_test.
  - apply int32_id. unfold WATCHDOG_DELAY_TIME, MSEC_PER_SEC. in_range.
  - case_test; bool_prop; lia.
Qed.

Lemma accepted_intro env dev key d s s2 s' :
  let now := env_now env in
  let p := pkg_at (decide_state env s) (key_of key) in
  evolves s s2 -> dm_inv now s2 -> dm_inv now s -> pkg_inv now p ->
  dm_foregroundUidPidMap_ s2 = dm_foregroundUidPidMap_ s ->
  pkg_at s2 (key_of key) = pi_UpdateQuota now false p ->
  granted now dev key (quota_left now p <? MIN_ALLOW_QUOTA_TIME) s2 s' d ->
  accepted env dev key s s' d.
Proof.
  intros now p He Hs2 Hs Hp Hf Hpk [].
  rewrite (ev_reqid _ _ He) in *. split; try done.
  - by eapply watch_step_trans; [apply evolves_watch|].
  - intros k Hk. by apply (gr_fresh0 k), (ev_live _ _ He).
  - intros k id. by rewrite gr_live0, (ev_live _ _ He).
  - by rewrite gr_delay0, Hpk, grantedDelay_left.
  - rewrite gr_running0, (CanStart_owner now) by done. unfold IsUidForeground. by rewrite Hf.
  - by rewrite gr_posted0, (ev_posted _ _ He), (IsRequestEmpty_evolves _ _ _ He).
Qed.

(** The id is the next, also where the request is not accepted as above. *)
Lemma Decide_grant_id env dev key d p needSetTime s :
  ex_requestId_ (Decide_grant env dev key d p needSetTime s).1 = (NewDelaySuspendRequestId s).1.
Proof.
  unfold Decide_grant. destruct (NewDelaySuspendRequestId s) as [id s1]. cbn [fst]. case_test; [|done].
  cbn [fst]. unfold ex_StartAccounting. by repeat case_test.
Qed.

Lemma Decide_spec env dev key d s :
  let now := env_now env in
  let r := Decide env dev (Some key) (Some d) s in
  0 < now -> dm_inv now s -> ex_baseTime_ d = 0 -> ex_spendTime_ d = 0 ->
  r.1.1 = default ERR_OK (decide_error env key s) /\
  if decide_error env key s is Some _
  then r.1.2 = Some d /\ dm_inv now r.2 /\ evolves s r.2
  else exists d', r.1.2 = Some d' /\ ex_requestId_ d' = (NewDelaySuspendRequestId s).1 /\
    (dm_requestId_ s < int32_max -> accepted env dev key s r.2 d').
Proof.
  intros now r Hn Hs Hb Hsp. unfold r, Decide, decide_error. clear r. cbv zeta.
  change (ResetDayQuotaLocked (env_now env) s) with (decide_state env s). fold now.
  destruct (keeps_ResetDayQuotaLocked now s Hs) as [Hi0 He0]. 
  change (ResetDayQuotaLocked now s) with (decide_state env s) in Hi0, He0.
  pose proof (decide_state_foreground env s) as Hf0.
  set (s0 := decide_state env s) in *.
  destruct (notInPresetTime_spec env (key_of key) s0) as [Hlate Hs1].
  pose proof (notInPresetTime_foreground env (key_of key) s0) as Hf1.
  destruct (notInPresetTime env (key_of key) s0) as [late s1]. cbn [fst snd] in *. subst late.
  destruct (Hs1 now) as [Hk1 Hp1]. destruct (Hk1 Hi0) as [Hi1 He1].
  pose proof (evolves_trans _ _ _ He0 He1) as He01.
  destruct (too_late env (key_of key) s0); [by split_and!|].
  change (default (new_PkgDelaySuspendInfo _ _) _) with (pkg_at s1 (key_of key)). rewrite Hp1.
  destruct (pkg_at_inv now s0 (key_of key) Hi0) as [Hp _].
  destruct (CheckQuotaTime now (KeyInfo_GetPkg key) (pkg_at s0 (key_of key))) as [[ret p2] ns] eqn:E.
  destruct (CheckQuotaTime_spec _ _ _ _ _ _ Hp E) as (-> & Hp2 & Ho2 & Hl2 & Hok).
  unfold KeyInfo_GetPkg in *. rewrite <- Hp1 in Ho2, Hl2.
  assert (Hi2 : dm_inv now (dm_update (key_of key) (p2, dm_timers s1) s1)).
  { apply dm_inv_update; try done; [by rewrite Hl2|set_solver|by rewrite Hl2]. }
  assert (He2 : evolves s (dm_update (key_of key) (p2, dm_timers s1) s1)).
  { eapply evolves_trans; [exact He01|]. eapply evolves_update; try done; rewrite Hl2; set_solver. }
  destruct (quota_error now (ki_pkg_ key) (pkg_at s0 (key_of key))) as [e|] eqn:Hq;
    cbn [default from_option id].
  - assert (e <> ERR_OK) as Hne.
    { unfold quota_error in Hq. repeat case_test; simplify_eq; by vm_compute. }
    rewrite (proj2 (Z.eqb_neq _ _) Hne). done.
  - destruct (Hok eq_refl) as (-> & Hsz & ->). rewrite Z.eqb_refl. cbn [negb].
    set (s2 := dm_update _ _ s1) in *.
    assert (Hpk : pkg_at s2 (key_of key) = pi_UpdateQuota now false (pkg_at s0 (key_of key))).
    { unfold s2. by rewrite pkg_at_update, decide_True. }
    rewrite <- Hpk.
    pose proof (Decide_grant_spec env dev key d
      (quota_left now (pkg_at s0 (key_of key)) <? MIN_ALLOW_QUOTA_TIME) s2 Hn Hi2) as Hg.
    pose proof (Decide_grant_id env dev key d (pkg_at s2 (key_of key))
      (quota_left now (pkg_at s0 (key_of key)) <? MIN_ALLOW_QUOTA_TIME) s2) as Hid.
    destruct (Decide_grant _ _ _ _ _ _ _) as [d' s'] eqn:Eg. cbn [fst snd] in *.
    split; [done|]. exists d'. split; [done|]. split.
    { rewrite Hid. unfold NewDelaySuspendRequestId. rewrite (ev_reqid _ _ He2). by case_test. }
    intros Hr. eapply accepted_intro; try done.
    + unfold s2. simpl. congruence.
    + apply Hg; try done; [by rewrite (ev_reqid _ _ He2) | by rewrite Hpk].
Qed.

(** ** Removing a request *)

Definition removal_events (key : KeyInfo) (last : bool) :
    list (TransientTaskAppInfo * TransientTaskEventType) :=
  (mkAppInfo (ki_pkg_ key) (ki_uid_ key) (ki_pid_ key), TASK_END) ::
  if last then [(mkAppInfo (ki_pkg_ key) (ki_uid_ key) AI_DEFAULT_PID, APP_TASK_END)] else [].

(** What removing request [id] of [key] leaves behind. *)
Record removed (now : Z) (key : KeyInfo) (id : Z) s s' : Prop := {
  rm_inv : dm_inv now s';
  rm_watch : watch_step s s';
  rm_live : forall k i, live s' k i <-> live s k i /\ (k, i) <> (key_of key, id);
  rm_timer : id ∉ pending (dm_timers s');
  rm_reqid : dm_requestId_ s' = dm_requestId_ s;
  rm_posted : dm_posted s' =
    dm_posted s ++ removal_events key (pi_IsRequestEmpty (pkg_at s' (key_of key)));
}.

(** The core of [RemoveRequest], before the notifications. *)
Lemma remove_core now key id s :
  let s' := dm_update (key_of key)
              (pi_RemoveRequest now id (pkg_at s (key_of key)) (dm_timers s)) s in
  dm_inv now s -> live s (key_of key) id ->
  dm_inv now s' /\ watch_step s s' /\
  (forall k i, live s' k i <-> live s k i /\ (k, i) <> (key_of key, id)) /\
  id ∉ pending (dm_timers s').
Proof.
  intros s' Hs Hlive. destruct (pkg_at_inv now s (key_of key) Hs) as [Hp _]. unfold s'.
  destruct (pi_RemoveRequest _ _ _ _) as [p' q'] eqn:E.
  destruct (pi_RemoveRequest_spec _ _ _ _ _ _ Hp E) as (Hp' & Ho & _ & Hi & Ha & Hq & _).
  assert (Hl : forall k i, live (dm_update (key_of key) (p', q') s) k i <->
                           live s k i /\ (k, i) <> (key_of key, id)).
  { intros k i. rewrite live_update. cbn [fst]. rewrite Hi. case_decide.
    - subst. rewrite live_pkg_at. set_unfold. naive_solver.
    - naive_solver. }
  assert (Hgone : forall i, running (dm_update (key_of key) (p', q') s) i -> i <> id).
  { intros i [k Hk]%running_live ->. apply Hl in Hk as [Hk Hne]. apply Hne. f_equal.
    by apply (dm_inv_unique _ _ Hs _ _ id). }
  split; [|split; [split; intros i Hr|split; [done|]]].
  - apply dm_inv_update; try done; [set_solver|set_solver|]. intros i. rewrite Ha, Hq. set_solver.
  - left. apply running_update in Hr. rewrite running_pkg_at. cbn [fst] in Hr.
    destruct Hr as [Hr|(k & _ & Hr)]; [exists (key_of key); set_solver|eauto].
  - apply Hgone in Hr. simpl. rewrite Hq. set_solver.
  - simpl. rewrite Hq. intros [Hin Hn]%elem_of_difference. apply Hn.
    apply elem_of_intersection. split; [|set_solver].
    apply (dm_inv_timers _ _ Hs), running_pkg_at in Hin as [k Hin].
    enough (k = key_of key) as -> by done. apply (dm_inv_unique _ _ Hs k _ id); [|done].
    by apply live_pkg_at, acct_subseteq_ids.
Qed.

Definition posts_removal (key : KeyInfo) (last : bool) s : DecisionMaker Q :=
  let s := dm_post (mkAppInfo (ki_pkg_ key) (ki_uid_ key) (ki_pid_ key)) TASK_END s in
  if last then dm_post (mkAppInfo (ki_pkg_ key) (ki_uid_ key) AI_DEFAULT_PID) APP_TASK_END s
  else s.

Lemma dm_RemoveRequest_spec now key id s :
  dm_inv now s -> live s (key_of key) id ->
  removed now key id s (dm_RemoveRequest now (Some key) id s).
Proof.
  intros Hs Hlive. pose proof (remove_core now key id s Hs Hlive) as (Hi & Hw & Hl & Ht).
  destruct Hlive as (p & Hp & _). unfold dm_RemoveRequest. rewrite Hp.
  pose proof (pkg_at_Some _ _ _ Hp) as Hpk. rewrite Hpk in Hi, Hw, Hl, Ht.
  destruct (pi_RemoveRequest now id p (dm_timers s)) as [p' q'] eqn:E.
  set (s1 := dm_update (key_of key) (p', q') s) in *.
  change (if pi_IsRequestEmpty p' then _ else _) with (posts_removal key (pi_IsRequestEmpty p') s1).
  assert (Hpk1 : pkg_at (posts_removal key (pi_IsRequestEmpty p') s1) (key_of key) = p').
  { unfold posts_removal, pkg_at. destruct (pi_IsRequestEmpty p'); simpl; by rewrite lookup_insert_eq. }
  split; rewrite ?Hpk1; unfold posts_removal, removal_events;
    destruct (pi_IsRequestEmpty p'); try done; try by repeat apply dm_inv_post.
  simpl. by rewrite <- app_assoc.
Qed.

(** Removing with a null key does nothing. *)
Lemma dm_RemoveRequest_null now id s : dm_RemoveRequest now None id s = s.
Proof. done. Qed.
End DMDecide.
