(* ===== verification/DecisionMakerProps.v ===== *)
(** * The decision maker: properties

    Reachable states of [DecisionMaker], admission of requests, the foreground
    map, request ids, the daily reset, and the charging of the quota. *)

From S2P Require Import Prelude.
From S2P Require Import Errors.
From S2P Require Import KeyInfo.
From S2P Require Import Interfaces.
From S2P Require Import DelaySuspendInfo.
From S2P Require Import PkgDelaySuspendInfo.
From S2P Require Import DeviceInfo.
From S2P Require Import DecisionMaker.
From S2P Require Import DecisionMakerSpec.
Local Open Scope Z_scope.

(** ** Reachable states *)
Section Reachable.
Context {sp : SystemParams} {cfg : TransientConfig} {ok : TransientParamsOk sp cfg}.
Context `{EventHandler Q}.
Implicit Types s : DecisionMaker Q.

(** One operation at time [now], whatever the device state and environment.
    A request is only made while the id counter has not reached INT_MAX. *)
Inductive dm_step (now : Z) : DecisionMaker Q -> DecisionMaker Q -> Prop :=
| step_Decide env dev key pid s :
    env_now env = now -> dm_requestId_ s < int32_max ->
    dm_step now s (Decide env dev (Some key) (Some (new_DelaySuspendInfoEx pid)) s).2
| step_RemoveRequest key id s : dm_step now s (dm_RemoveRequest now key id s)
| step_OnProcessStateChanged dev name uid pid st s :
    dm_step now s (OnProcessStateChanged dev now name uid pid st s)
| step_OnProcessDied dev name uid pid s : dm_step now s (OnProcessDied dev now name uid pid s)
| step_Pause uid name s : dm_step now s (dm_PauseTransientTaskTimeForInner now uid name s).2
| step_Start dev uid name s : dm_step now s (dm_StartTransientTaskTimeForInner dev now uid name s).2
| step_GetQuota key s : dm_step now s (dm_GetQuota now key s).2
| step_OnInputEvent env dev paused e s :
    env_now env = now -> dm_step now s (dm_OnInputEvent env dev paused e s)
| step_Timer id s :     (* the runner takes a timer event off the queue *)
    dm_step now s (dm_set_pkgs (dm_pkgDelaySuspendInfoMap_ s) (TakeEvent (dm_timers s) id) s).

Inductive dm_reachable : Z -> DecisionMaker Q -> Prop :=
| reach_init t : 0 < t -> dm_reachable t new_DecisionMaker
| reach_time t t' s : dm_reachable t s -> t <= t' -> dm_reachable t' s
| reach_step t s s' : dm_reachable t s -> dm_step t s s' -> dm_reachable t s'.

Lemma dm_inv_new now : dm_inv now (new_DecisionMaker (Q := Q)).
Proof.
  split; simpl.
  - intros key p. by rewrite lookup_empty.
  - intros key id (p & Hp & _). simpl in Hp. by rewrite lookup_empty in Hp.
  - intros k1 k2 id (p & Hp & _). simpl in Hp. by rewrite lookup_empty in Hp.
  - by unfold initRequestId_, int32_max.
  - intros id. rewrite pending_empty. set_solver.
  - intros uid pids. by rewrite lookup_empty.
Qed.

Lemma dm_inv_mono now t s : now <= t -> dm_inv now s -> dm_inv t s.
Proof.
  intros Ht Hs. split; try apply Hs. intros key p Hp.
  destruct (dm_inv_pkg _ _ Hs _ _ Hp). split; [|done]. by eapply pkg_inv_mono.
Qed.

Lemma dm_inv_RemoveRequest now key id s : dm_inv now s -> dm_inv now (dm_RemoveRequest now key id s).
Proof.
  intros Hs. destruct key as [key|]; [|done].
  unfold dm_RemoveRequest. destruct (dm_pkgDelaySuspendInfoMap_ s !! key_of key) as [p|] eqn:Hp; [|done].
  destruct (decide (id ∈ ids_of (pi_requestList_ p))) as [Hin|Hn].
  - assert (live s (key_of key) id) as Hl by (by exists p).
    pose proof (rm_inv _ _ _ _ _ (dm_RemoveRequest_spec now key id s Hs Hl)) as Hi.
    unfold dm_RemoveRequest in Hi. by rewrite Hp in Hi.
  - assert (existsb (fun i => ex_IsSameRequestId i id) (pi_requestList_ p) = false) as He
      by (apply not_true_iff_false; by rewrite existsb_same_id).
    unfold pi_RemoveRequest. rewrite He. cbn [negb].
    assert (dm_inv now (dm_update (key_of key) (p, dm_timers s) s)).
    { destruct (pkg_at_inv now s (key_of key) Hs) as [Hpk _].
      pose proof (pkg_at_Some _ _ _ Hp) as E.
      apply dm_inv_update; rewrite ?E in *; try done. set_solver. }
    case_test; by repeat apply dm_inv_post.
Qed.

Lemma dm_inv_Take now id s :
  dm_inv now s ->
  dm_inv now (dm_set_pkgs (dm_pkgDelaySuspendInfoMap_ s) (TakeEvent (dm_timers s) id) s).
Proof.
  intros Hs. split; try apply Hs. intros i Hi. apply (dm_inv_timers _ _ Hs).
  simpl in Hi. pose proof (pending_take (dm_timers s) id). set_solver.
Qed.

Lemma dm_step_inv now s s' : 0 < now -> dm_inv now s -> dm_step now s s' -> dm_inv now s'.
Proof.
  intros Hn Hs Hstep. destruct Hstep; subst.
  - destruct (Decide_spec env dev key (new_DelaySuspendInfoEx pid) s) as [_ Hr]; try done.
    destruct (decide_error env key s); [tauto|]. destruct Hr as (d' & _ & _ & Ha). by apply Ha.
  - by apply dm_inv_RemoveRequest.
  - by apply keeps_OnProcessStateChanged.
  - by apply keeps_OnProcessDied.
  - by apply keeps_Pause.
  - by apply keeps_Start.
  - by apply keeps_GetQuota.
  - by apply keeps_dm_OnInputEvent.
  - by apply dm_inv_Take.
Qed.

Lemma dm_reachable_dm_inv t s : dm_reachable t s -> 0 < t /\ dm_inv t s.
Proof.
  induction 1 as [t Ht|t t' s _ [Hn IH] Ht|t s s' _ [Hn IH] Hstep].
  - split; [done|apply dm_inv_new].
  - split; [lia|]. by eapply dm_inv_mono.
  - split; [done|]. by eapply dm_step_inv.
Qed.

(** C27. In every state the decision maker reaches while request ids are left (the counter
    stays below INT_MAX, from which it would start again at 1): the requests of an
    application are filed under its own key, there are at most three of them
    and its quota lies between zero and the initial quota; a request id is at
    least 1, below the next id to be issued, and names one request of one
    application; and only a request that is being accounted has a timer. *)
Theorem dm_reachable_sound t s :
  dm_reachable t s ->
  (forall key p, dm_pkgDelaySuspendInfoMap_ s !! key = Some p ->
     (pi_pkg_ p, pi_uid_ p) = key /\ pi_GetRequestSize p <= MAX_REQUEST_ID /\
     0 <= pi_quota_ p <= INIT_QUOTA /\ NoDup (ex_requestId_ <$> pi_requestList_ p) /\
     (Exists accounting (pi_requestList_ p) -> pi_isCounting_ p = true)) /\
  (forall key id, live s key id -> 1 <= id < dm_requestId_ s) /\
  (forall k1 k2 id, live s k1 id -> live s k2 id -> k1 = k2) /\
  (forall id, id ∈ pending (dm_timers s) ->
     exists key p i, dm_pkgDelaySuspendInfoMap_ s !! key = Some p /\ i ∈ pi_requestList_ p /\
       ex_requestId_ i = id /\ accounting i).
Proof.
  intros Hr. destruct (dm_reachable_dm_inv _ _ Hr) as [_ Hs].
  split_and!; try apply Hs.
  - intros key p Hp. destruct (dm_inv_pkg _ _ Hs _ _ Hp) as [[] Ho]. done.
  - intros id Hid. destruct (dm_inv_timers _ _ Hs _ Hid) as (key & p & Hp & Hin).
    apply elem_of_acct_ids in Hin as (i & ? & ? & ?). by exists key, p, i.
Qed.
End Reachable.

(** ** Admission *)
Section Admission.
Context {sp : SystemParams} {cfg : TransientConfig} {ok : TransientParamsOk sp cfg}.
Context `{EventHandler Q}.
Implicit Types s : DecisionMaker Q.

(** C25. A request for a transient task is decided exactly by the checks of the
    code, in order: refused because the application went to the background too
    long ago, because it holds three requests already, or because less than
    16 s of quota is left and it is not exempted; otherwise granted.  A refusal
    changes no request, posts nothing and loses no timer.  A granted request gets
    the next id, which is 1 again once the counter has come to INT_MAX; before
    that no live request has it, and the request is the only change to the set of
    requests, runs (with its timer armed) exactly when the screen is off or its
    uid is not in the foreground, is allowed the smaller of the quota left and the
    delay of the power mode (or the exempted delay), and is announced. *)
Theorem Decide_admission env dev key d s :
  let r := Decide env dev (Some key) (Some d) s in
  0 < env_now env -> dm_inv (env_now env) s -> ex_baseTime_ d = 0 -> ex_spendTime_ d = 0 ->
  r.1.1 = default ERR_OK (decide_error env key s) /\
  match decide_error env key s with
  | Some _ => r.1.2 = Some d /\ dm_inv (env_now env) r.2 /\ evolves s r.2
  | None => exists d', r.1.2 = Some d' /\
      ex_requestId_ d' = (if dm_requestId_ s =? int32_max then 1 else dm_requestId_ s) /\
      (dm_requestId_ s < int32_max -> accepted env dev key s r.2 d')
  end.
Proof.
  intros r Hn Hs Hb Hsp. destruct (Decide_spec env dev key d s Hn Hs Hb Hsp) as [He Hr]. split; [exact He|].
  fold r in Hr. destruct (decide_error env key s); [exact Hr|]. destruct Hr as (d' & Hd & Hid & Ha).
  exists d'. split; [exact Hd|]. split; [|exact Ha]. rewrite Hid. unfold NewDelaySuspendRequestId. by case_test.
Qed.

(** Removing a live request removes that request and no other, takes its
    timer off the queue, keeps every running request watched, and posts
    TASK_END, followed by APP_TASK_END exactly when it was the last request of
    its application. *)
Theorem RemoveRequest_removes now key id s :
  dm_inv now s -> live s (key_of key) id ->
  let s' := dm_RemoveRequest now (Some key) id s in
  (forall k i, live s' k i <-> live s k i /\ (k, i) <> (key_of key, id)) /\
  (id ∉ pending (dm_timers s')) /\ watch_step s s' /\
  ((dm_posted s' = dm_posted s ++ removal_events key true) <-> forall i, ~ live s' (key_of key) i).
Proof.
  intros Hs Hl s'. pose proof (dm_RemoveRequest_spec now key id s Hs Hl) as Hr. fold s' in Hr.
  split_and!; try apply Hr. rewrite (rm_posted _ _ _ _ _ Hr), <- IsRequestEmpty_live.
  destruct (pi_IsRequestEmpty (pkg_at s' (key_of key))); [done|].
  split; [|done]. by intros E%app_inv_head.
Qed.
End Admission.

(** ** Request ids *)
Section RequestIds.
Context `{EventHandler Q}.
Implicit Types s : DecisionMaker Q.

(** The ids issued by [n] requests in a row. *)
Fixpoint issue (n : nat) s : list Z * DecisionMaker Q :=
  match n with
  | O => ([], s)
  | S n => let '(id, s) := NewDelaySuspendRequestId s in
           let '(l, s) := issue n s in (id :: l, s)
  end.

Lemma issue_from n s :
  1 <= dm_requestId_ s -> dm_requestId_ s + Z.of_nat n <= int32_max ->
  (issue n s).1 = seqZ (dm_requestId_ s) (Z.of_nat n) /\
  dm_requestId_ (issue n s).2 = dm_requestId_ s + Z.of_nat n.
Proof.
  revert s. induction n as [|n IH]; intros s H1 H2; [simpl; split; [done|lia]|].
  cbn [issue]. rewrite NewDelaySuspendRequestId_next by lia.
  destruct (IH (dm_set_requestId (dm_requestId_ s + 1) s)) as [E1 E2]; [simpl; lia..|].
  destruct (issue n _) as [l s']. cbn [fst snd dm_set_requestId dm_requestId_] in *.
  rewrite seqZ_cons by lia. subst l. split; [f_equal; f_equal; lia | lia].
Qed.

(** The ids of the first 2^31 - 2 requests are 1, 2, 3, ...: positive 32-bit
    integers, all distinct; the counter then starts again at 1 instead of
    overflowing. *)
Theorem request_ids_distinct (n : nat) :
  Z.of_nat n < int32_max ->
  (issue n (new_DecisionMaker (Q := Q))).1 = seqZ 1 (Z.of_nat n) /\
  NoDup (issue n (new_DecisionMaker (Q := Q))).1 /\
  (forall s, dm_requestId_ s = int32_max ->
     (NewDelaySuspendRequestId s).1 = 1 /\ dm_requestId_ (NewDelaySuspendRequestId s).2 = 2).
Proof.
  intros Hn. destruct (issue_from n (new_DecisionMaker (Q := Q))) as [E _];
    [simpl; unfold initRequestId_; lia..|]. rewrite E. unfold new_DecisionMaker, initRequestId_.
  cbn [dm_requestId_]. split_and!; [done|apply NoDup_seqZ|].
  intros s Hs. unfold NewDelaySuspendRequestId. rewrite Hs. split; vm_compute; done.
Qed.
End RequestIds.

(** ** Foreground applications *)
Section Foreground.
Context `{EventHandler Q}.
Implicit Types s : DecisionMaker Q.

(** A history of reports (uid, pid, is it in the foreground). *)
Definition run_reports (evs : list (Z * Z * bool)) s : DecisionMaker Q :=
  fold_left (fun s '(uid, pid, b) => UpdateForegroundUidPidMap uid pid b s) evs s.

(** Whether the last report about a process says foreground. *)
Definition last_report (evs : list (Z * Z * bool)) (uid pid : Z) : bool :=
  fold_left (fun acc '(u, p, b) => if (u =? uid) && (p =? pid) then b else acc) evs false.

Lemma UpdateForegroundUidPidMap_lookup u p b s uid pid :
  (forall uid pids, dm_foregroundUidPidMap_ s !! uid = Some pids -> pids <> ∅) ->
  let m := dm_foregroundUidPidMap_ s in
  let m' := dm_foregroundUidPidMap_ (UpdateForegroundUidPidMap u p b s) in
  pid ∈ default ∅ (m' !! uid) <->
  if (u =? uid) && (p =? pid) then b = true else pid ∈ default ∅ (m !! uid).
Proof.
  intros Hne m m'. unfold m', UpdateForegroundUidPidMap. simpl. fold m.
  destruct (u =? uid) eqn:Eu; bool_prop; simpl.
  - subst u. destruct b; [|case_bool_decide as Hb]; rewrite ?lookup_insert_eq, ?lookup_delete_eq; simpl;
      destruct (p =? pid) eqn:Ep; bool_prop; subst; set_solver.
  - destruct b; [|case_bool_decide]; by rewrite ?lookup_insert_ne, ?lookup_delete_ne by done.
Qed.

Lemma run_reports_inv evs :
  let m := dm_foregroundUidPidMap_ (run_reports evs new_DecisionMaker) in
  (forall uid pids, m !! uid = Some pids -> pids <> ∅) /\
  (forall uid pid, pid ∈ default ∅ (m !! uid) <-> last_report evs uid pid = true).
Proof.
  unfold run_reports, last_report. induction evs as [|[[u p] b] evs [IH1 IH2]] using rev_ind; simpl.
  - split; intros; rewrite lookup_empty in *; simpl; [done|set_solver].
  - rewrite fold_left_app. cbn [fold_left]. set (s := fold_left _ evs new_DecisionMaker) in *. split.
    + unfold UpdateForegroundUidPidMap. simpl. intros uid pids.
      destruct b; [|case_bool_decide];
        (destruct (decide (u = uid)) as [->|];
           [rewrite ?lookup_insert_eq, ?lookup_delete_eq | rewrite ?lookup_insert_ne, ?lookup_delete_ne by done; apply IH1]);
        intros [= <-]; [set_solver|done].
    + intros uid pid. rewrite fold_left_app. cbn [fold_left].
      rewrite UpdateForegroundUidPidMap_lookup by done.
      case_test; [done|apply IH2].
Qed.

(** After any history of process reports, a uid counts as foreground exactly
    when the last report about at least one of its processes says foreground,
    whatever the order in which the reports of its processes came. *)
Theorem IsUidForeground_correct evs uid :
  IsUidForeground uid (run_reports evs (new_DecisionMaker (Q := Q))) = true <->
  exists pid, last_report evs uid pid = true.
Proof.
  destruct (run_reports_inv evs) as [H1 H2]. unfold IsUidForeground.
  rewrite bool_decide_eq_true. setoid_rewrite <- H2. split.
  - intros [pids Hp]. rewrite Hp. simpl. apply H1 in Hp. by apply set_choose_L in Hp.
  - intros [pid Hp]. destruct (_ !! uid); [done|]. simpl in Hp. set_solver.
Qed.

Context {sp : SystemParams} {cfg : TransientConfig} {ok : TransientParamsOk sp cfg}.

(** When an application comes to the foreground all its requests stop: none
    is accounted any more, its quota stops counting, no timer of its requests
    is left, and it may make requests again whenever it last went to the
    background; its requests stay. *)
Theorem foreground_stops_accounting dev now name uid pid s :
  dm_inv now s ->
  let s' := OnProcessStateChanged dev now name uid pid APP_STATE_FOREGROUND s in
  (forall id, live s' (name, uid) id <-> live s (name, uid) id) /\
  (forall id, live s (name, uid) id -> ~ running s' id /\ id ∉ pending (dm_timers s')) /\
  dm_pkgBgDurationMap_ s' !! (name, uid) = None /\ IsUidForeground uid s' = true.
Proof.
  intros Hs s'.
  destruct (keeps_UpdateForegroundUidPidMap now uid pid true s Hs) as [Hs1 He1].
  set (s1 := UpdateForegroundUidPidMap uid pid true s) in *.
  assert (E : dm_pkgBgDurationMap_ s' !! (name, uid) = None /\ dm_inv now s' /\
              evolves s1 s' /\ acct_ids (pi_requestList_ (pkg_at s' (name, uid))) = ∅ /\
              IsUidForeground uid s' = true).
  { unfold s', OnProcessStateChanged. cbn [orb]. fold s1. unfold HandleStateChange.
    assert (IsUidForeground uid s1 = true) as Hf.
    { unfold IsUidForeground, s1. simpl. rewrite lookup_insert_eq. by apply bool_decide_eq_true. }
    destruct (dm_pkgDelaySuspendInfoMap_ s1 !! (name, uid)) as [p|] eqn:Hp.
    - pose proof (pkg_at_Some _ _ _ Hp) as Hpk.
      destruct (keeps_stop now s1 (name, uid) Hs1) as [Hi2 He2]. rewrite Hpk in Hi2, He2.
      destruct (dm_inv_pkg _ _ Hs1 _ _ Hp) as [Hpi _].
      destruct (pi_StopAccountingAll now p (dm_timers s1)) as [p' q'] eqn:Est.
      destruct (pi_StopAccountingAll_spec _ _ _ _ _ Hpi Est) as (_ & _ & _ & Ha & _).
      set (s2 := dm_update (name, uid) (p', q') s1) in *.
      destruct (keeps_bg now (delete (name, uid) (dm_pkgBgDurationMap_ s2)) s2 Hi2) as [Hi3 He3].
      split_and!; try done; [simpl; by rewrite lookup_delete_eq|by eapply evolves_trans|].
      change (pkg_at (dm_set_bg _ s2) (name, uid)) with (pkg_at s2 (name, uid)).
      unfold s2. rewrite pkg_at_update, decide_True by done. done.
    - destruct (keeps_bg now (delete (name, uid) (dm_pkgBgDurationMap_ s1)) s1 Hs1) as [Hi3 He3].
      split_and!; try done; [simpl; by rewrite lookup_delete_eq|].
      change (pkg_at (dm_set_bg _ s1) (name, uid)) with (pkg_at s1 (name, uid)).
      unfold pkg_at. rewrite Hp. done. }
  destruct E as (Hbg & Hi & He & Ha & Hf).
  pose proof (evolves_trans _ _ _ He1 He) as Hev.
  split_and!; try done; [apply Hev|].
  intros id Hl. apply (ev_live _ _ Hev) in Hl.
  enough (~ running s' id) as Hnr by (split; [done|]; intros Hin%(dm_inv_timers _ _ Hi); done).
  intros [k Hk]%running_pkg_at.
  assert (k = (name, uid)) as ->.
  { apply (dm_inv_unique _ _ Hi k _ id); [|done]. by apply live_pkg_at, acct_subseteq_ids. }
  rewrite Ha in Hk. set_solver.
Qed.
End Foreground.

(** ** Quotas *)
Section Quotas.
Context {sp : SystemParams} {cfg : TransientConfig} {ok : TransientParamsOk sp cfg}.
Context `{EventHandler Q}.
Implicit Types s : DecisionMaker Q.
Implicit Types p : PkgDelaySuspendInfo.

(** When more than the update period has passed since the last reset, the
    next request first gives every application that still holds requests its
    full initial quota and forgets the others, which get a fresh quota when
    they ask again; before that, nothing is reset.  No request is lost. *)
Theorem daily_reset now s key p :
  dm_pkgDelaySuspendInfoMap_ s !! key = Some p ->
  let s' := ResetDayQuotaLocked now s in
  (now - dm_lastRequestTime_ s <= QUOTA_UPDATE -> s' = s) /\
  (now - dm_lastRequestTime_ s > QUOTA_UPDATE ->
     dm_lastRequestTime_ s' = now /\ pi_quota_ (pkg_at s' key) = INIT_QUOTA /\
     pi_requestList_ (pkg_at s' key) = pi_requestList_ p /\
     (dm_pkgDelaySuspendInfoMap_ s' !! key = None <-> pi_requestList_ p = [])).
Proof.
  intros Hp s'. unfold s'. split; intros Ht.
  - unfold ResetDayQuotaLocked, IsAfterOneDay. rewrite Z.gtb_ltb, (proj2 (Z.ltb_ge _ _)); [done|lia].
  - assert (IsAfterOneDay (dm_lastRequestTime_ s) now = true) as Hd
      by (unfold IsAfterOneDay; lia).
    split; [unfold ResetDayQuotaLocked; by rewrite Hd|].
    pose proof (ResetDayQuotaLocked_lookup now s key Hd) as Hl. rewrite Hp in Hl. simpl in Hl.
    unfold pkg_at. rewrite Hl. unfold pi_IsRequestEmpty.
    case_bool_decide as He; simpl; [by rewrite He|done].
Qed.

(** What the exemption takes off the time charged. *)
Definition exempted p : Z :=
  if IsTransientTaskExemptedQuatoApp (pi_pkg_ p) then GetTransientTaskExemptedQuato else 0.

Lemma startCounting_idle now p :
  pkg_inv now p -> pi_isCounting_ p = false ->
  pi_quota_ (startCounting now p) = pi_quota_ p /\ pi_isCounting_ (startCounting now p) = true /\
  pi_baseTime_ (startCounting now p) = int32 now /\ pi_pkg_ (startCounting now p) = pi_pkg_ p.
Proof.
  intros Hp Hc. unfold startCounting. rewrite Hc. split_and!; try done.
  change (pi_quota_ (pi_UpdateQuota now false p) = pi_quota_ p).
  rewrite pi_UpdateQuota_quota by apply Hp. rewrite Hc. pose proof (pkg_quota _ _ Hp). lia.
Qed.

(** The quota pays for running time only, and exactly: when the accounting of
    an idle application is started at [t0] and stopped at [t1] (within 24 days),
    its quota drops by the time between, less the exemption, and not below
    zero, whatever the 32-bit truncation of the clock; the time before [t0] is
    not charged. *)
Theorem quota_charged_exactly t0 t1 p (q : Q) :
  pkg_inv t0 p -> 0 < t0 -> 0 <= t1 - t0 <= int32_max ->
  pi_isCounting_ p = false -> pi_requestList_ p <> [] ->
  let '(p1, q1) := pi_StartAccounting t0 (-1) p q in
  let '(p2, q2) := pi_StopAccountingAll t1 p1 q1 in
  pi_quota_ p2 = Z.max 0 (pi_quota_ p - Z.max 0 (t1 - t0 - exempted p)) /\
  ids_of (pi_requestList_ p2) = ids_of (pi_requestList_ p) /\ pi_isCounting_ p2 = false.
Proof.
  intros Hp Hn Ht Hc Hne.
  destruct (pi_StartAccounting t0 (-1) p q) as [p1 q1] eqn:E1.
  destruct (pi_StartAccounting_spec _ _ _ _ _ _ Hn Hp E1) as (Hp1 & _ & Hi1 & _).
  apply (pkg_inv_mono t0 t1) in Hp1; [|lia].
  destruct (pi_StopAccountingAll t1 p1 q1) as [p2 q2] eqn:E2.
  destruct (pi_StopAccountingAll_spec _ _ _ _ _ Hp1 E2) as (_ & _ & Hi2 & _ & Hc2 & _).
  split; [|split; [congruence|done]].
  unfold pi_StartAccounting in E1.
  destruct (pi_StartAccounting_loop_spec t0 (-1) (pi_requestList_ p) p q Hn) as (q' & El & _).
  rewrite El in E1.
  assert (existsb (selected (-1)) (pi_requestList_ p) = true) as Hex by (by destruct (pi_requestList_ p)).
  rewrite Hex in E1. injection E1 as <- <-.
  destruct (startCounting_idle t0 p Hp Hc) as (Hq & Hc1 & Hb & Hpk).
  unfold pi_StopAccountingAll in E2. destruct (pi_StopAccounting_loop _ _ _ _) as [l q3].
  injection E2 as <- _.
  match goal with |- pi_quota_ (pi_set_isCounting _ (pi_UpdateQuota _ _ ?p3)) = _ =>
    change (pi_quota_ (pi_UpdateQuota t1 false p3) =
            Z.max 0 (pi_quota_ p - Z.max 0 (t1 - t0 - exempted p))); set (p4 := p3) in * end.
  assert (pi_quota_ p4 = pi_quota_ p /\ pi_isCounting_ p4 = true /\ pi_baseTime_ p4 = int32 t0 /\
          pi_pkg_ p4 = pi_pkg_ p) as (Hq4 & Hc4 & Hb4 & Hk4) by done.
  rewrite pi_UpdateQuota_quota by (rewrite Hq4; apply Hp).
  rewrite Hc4, Hq4. rewrite (pi_GetModifiedTime_spec t1 t0 p4) by done.
  unfold exempted. by rewrite Hk4.
Qed.

(** A running request is called back 6 s before its granted time is used up,
    and the watchdog armed then ends it when the time is up: the delay of the
    timer plus the delay of the watchdog is the remaining time, for any request
    with at least 6 s left; with less the callback is immediate. *)
Theorem callback_then_watchdog now i :
  ex_wf now i -> ex_used now i <= int32_max ->
  let left := Z.max 0 (ex_actualDelayTime_ i - ex_used now i) in
  ex_GetRemainDelayTime now i = left /\
  (ADVANCE_TIME <= left -> ex_GetAdvanceCallbackTime now i + WATCHDOG_DELAY_TIME = left) /\
  (left < ADVANCE_TIME -> ex_GetAdvanceCallbackTime now i = 0).
Proof.
  intros Hi Hu left. pose proof (ex_GetRemainDelayTime_spec now i Hi Hu) as Hl. fold left in Hl.
  split; [done|]. unfold ex_GetAdvanceCallbackTime. rewrite Hl.
  pose proof (ex_wf_delay _ _ Hi) as Hd. pose proof (ex_wf_spend _ _ Hi) as Hs.
  pose proof (ex_wf_base _ _ Hi) as Hb.
  assert (0 <= left <= int32_max).
  { unfold left, ex_used, int32_max in *. case_decide; lia. }
  unfold WATCHDOG_DELAY_TIME, ADVANCE_TIME, MSEC_PER_SEC in *. int32_simpl.
  split; intros ?; case_test; bool_prop; lia.
Qed.

(** Once the monotonic clock has passed 2^31 ms (24.8 days of uptime), the
    time at which an application went to the background is stored truncated
    to 32 bits, and every request the application makes from then on, however
    soon after, is refused as made too late, until it comes to the foreground. *)
Theorem background_time_truncated env dev now d name uid pid s :
  let s' := HandleStateChange dev now name uid false true s in
  let key := mkKeyInfo name uid pid in
  is_Some (dm_pkgDelaySuspendInfoMap_ s !! (name, uid)) ->
  CanStartAccountingLocked dev (pkg_at s (name, uid)) s = true ->
  2147483648 <= now <= env_now env ->
  dm_allowRequestTime s <= int32_max -> default ALLOW_REQUEST_TIME_BG (env_dozeTime env) <= int32_max ->
  (Decide env dev (Some key) (Some d) s').1.1 = ERR_BGTASK_NOT_IN_PRESET_TIME.
Proof.
  intros s' key [p Hp] Hc Hn Ha1 Ha2. rewrite (pkg_at_Some _ _ _ Hp) in Hc.
  assert (Hb : dm_pkgBgDurationMap_ s' !! (name, uid) = Some (int32 now) /\
               dm_allowRequestTime s' = dm_allowRequestTime s).
  { unfold s', HandleStateChange. rewrite Hp, Hc. simpl. by rewrite lookup_insert_eq. }
  destruct Hb as [Hb Ha].
  assert (int32 now <= now - 4294967296) as Hbig.
  { unfold int32. pose proof (Z.mod_pos_bound (now + 2147483648) 4294967296 ltac:(lia)).
    pose proof (Z_div_mod_eq_full (now + 2147483648) 4294967296).
    assert (1 <= (now + 2147483648) / 4294967296) by (apply Z.div_le_lower_bound; lia). lia. }
  unfold Decide. set (s0 := ResetDayQuotaLocked _ s').
  assert (dm_pkgBgDurationMap_ s0 = dm_pkgBgDurationMap_ s' /\
          dm_allowRequestTime s0 = dm_allowRequestTime s') as [Hb0 Ha0]
    by (unfold s0, ResetDayQuotaLocked; by case_test).
  pose proof (notInPresetTime_spec env (key_of key) s0) as [Hlate _].
  destruct (notInPresetTime env (key_of key) s0) as [late s1]. simpl in Hlate. subst late.
  unfold too_late. rewrite Hb0, Ha0, Ha. change (key_of key) with (name, uid). rewrite Hb.
  rewrite Z.gtb_ltb, (proj2 (Z.ltb_lt _ _)); [done|]. unfold int32_max in *. case_test; lia.
Qed.
End Quotas.
