(* ===== verification/DecisionMakerWitness.v ===== *)
(** * The decision maker on concrete inputs

    Runs of the decision maker with the default parameters and the list queue:
    the instances at which the theorems of DecisionMakerProps.v apply. *)

From S2P Require Import Prelude.
From S2P Require Import Errors.
From S2P Require Import KeyInfo.
From S2P Require Import Interfaces.
From S2P Require Import DelaySuspendInfo.
From S2P Require Import PkgDelaySuspendInfo.
From S2P Require Import DeviceInfo.
From S2P Require Import DecisionMaker.
From S2P Require Import DecisionMakerSpec.
From S2P Require Import DecisionMakerProps.
Local Open Scope Z_scope.

#[local] Existing Instance default_params.
#[local] Existing Instance plain_config.
#[local] Existing Instance default_params_ok.
#[local] Existing Instance ListQueue.list_queue.

Definition demo_dev : DeviceInfoManager := new_DeviceInfoManager.
Definition demo_env (now : Z) : Env := mkEnv now None None.
Definition demo_key : KeyInfo := mkKeyInfo "app" 100 7.
Definition demo_info : DelaySuspendInfoEx := new_DelaySuspendInfoEx 7.
Definition demo_new : DecisionMaker ListQueue.queue := new_DecisionMaker.

(** One background request at 1 s of uptime. *)
Definition demo_one : DecisionMaker ListQueue.queue :=
  (Decide (demo_env 1000) demo_dev (Some demo_key) (Some demo_info) demo_new).2.

Lemma demo_inv_new now : dm_inv now demo_new.
Proof. apply dm_inv_new. Qed.

Lemma demo_one_reachable : dm_reachable 1000 demo_one.
Proof.
  eapply reach_step; [by apply (reach_init 1000)|].
  by apply (step_Decide 1000 (demo_env 1000) demo_dev demo_key 7).
Qed.

Lemma demo_one_inv : dm_inv 1000 demo_one.
Proof. by destruct (dm_reachable_dm_inv _ _ demo_one_reachable). Qed.

Lemma demo_one_live : live demo_one (key_of demo_key) 1.
Proof. eexists. split; [vm_compute; reflexivity|]. vm_compute. set_solver. Qed.

Lemma Decide_admission_witness :
  exists d', (Decide (demo_env 1000) demo_dev (Some demo_key) (Some demo_info) demo_new).1.2 = Some d' /\
    ex_requestId_ d' = 1 /\ accounting d'.
Proof.
  destruct (Decide_admission (demo_env 1000) demo_dev demo_key demo_info demo_new) as [_ Hr];
    [done | apply demo_inv_new | done | done |].
  change (decide_error (demo_env 1000) demo_key demo_new) with (@None Z) in Hr.
  destruct Hr as (d' & E & Hid & Ha). exists d'. split; [exact E|]. split; [exact Hid|]. specialize (Ha eq_refl).
  apply (ac_running _ _ _ _ _ _ Ha). by right.
Defined.

Lemma dm_reachable_sound_witness : 1 <= 1 < dm_requestId_ demo_one.
Proof. apply (dm_reachable_sound 1000 demo_one demo_one_reachable) with (key := key_of demo_key), demo_one_live. Defined.

Lemma RemoveRequest_removes_witness :
  ~ live (dm_RemoveRequest 2000 (Some demo_key) 1 demo_one) (key_of demo_key) 1.
Proof.
  destruct (RemoveRequest_removes 2000 demo_key 1 demo_one) as (Hl & _).
  - apply (dm_inv_mono 1000); [done|apply demo_one_inv].
  - apply demo_one_live.
  - intros [_ Hne]%Hl. by apply Hne.
Defined.

Lemma request_ids_distinct_witness : (issue 3 demo_new).1 = [1; 2; 3].
Proof. by destruct (request_ids_distinct (Q := ListQueue.queue) 3). Defined.

Lemma foreground_stops_accounting_witness :
  ~ running (OnProcessStateChanged demo_dev 2000 "app" 100 7 APP_STATE_FOREGROUND demo_one) 1.
Proof.
  destruct (foreground_stops_accounting demo_dev 2000 "app" 100 7 demo_one) as (_ & Hs & _).
  - apply (dm_inv_mono 1000); [done|apply demo_one_inv].
  - apply Hs, demo_one_live.
Defined.

Lemma daily_reset_witness :
  pi_quota_ (pkg_at (ResetDayQuotaLocked 86402000 demo_one) ("app"%string, 100)) = 600000.
Proof.
  destruct (daily_reset 86402000 demo_one ("app"%string, 100)
    (pkg_at demo_one ("app"%string, 100))) as [_ Hr]; [vm_compute; reflexivity|].
  apply Hr. vm_compute. reflexivity.
Defined.

Definition demo_pkg : PkgDelaySuspendInfo :=
  mkPkg "app" 100 600000 0 0 false [mkEx 1 180000 7 0 0].

Lemma quota_charged_exactly_witness :
  let '(p1, q1) := pi_StartAccounting 5000 (-1) demo_pkg ([] : ListQueue.queue) in
  pi_quota_ (pi_StopAccountingAll 65000 p1 q1).1 = 540000.
Proof.
  assert (pkg_inv 5000 demo_pkg) as Hp.
  { split; [vm_compute; split; congruence|vm_compute; congruence|apply NoDup_singleton| |].
    - intros [Hx|Hx%Exists_nil]%Exists_cons; [|done]. by destruct Hx.
    - repeat constructor; vm_compute; congruence. }
  pose proof (quota_charged_exactly 5000 65000 demo_pkg ([] : ListQueue.queue) Hp) as Hq.
  destruct (pi_StartAccounting 5000 (-1) demo_pkg []) as [p1 q1].
  destruct (pi_StopAccountingAll 65000 p1 q1) as [p2 q2].
  destruct Hq as [Hq _]; [done | done | done | done |]. exact Hq.
Defined.

Lemma callback_then_watchdog_witness :
  ex_GetAdvanceCallbackTime 11000 (mkEx 1 180000 7 1000 0) + WATCHDOG_DELAY_TIME = 170000.
Proof.
  destruct (callback_then_watchdog 11000 (mkEx 1 180000 7 1000 0)) as (_ & Hc & _).
  - split; vm_compute; try split; congruence.
  - vm_compute. congruence.
  - apply Hc. vm_compute. congruence.
Defined.

Lemma background_time_truncated_witness :
  (Decide (demo_env 2200000001) demo_dev (Some demo_key) (Some demo_info)
     (HandleStateChange demo_dev 2200000000 "app" 100 false true demo_one)).1.1
  = ERR_BGTASK_NOT_IN_PRESET_TIME.
Proof.
  apply (background_time_truncated (demo_env 2200000001) demo_dev 2200000000 demo_info "app" 100 7 demo_one).
  - eexists. vm_compute. reflexivity.
  - reflexivity.
  - split; vm_compute; congruence.
  - vm_compute; congruence.
  - vm_compute; congruence.
Defined.

(** A run in which the quota is charged while nothing runs: request 1 is granted
    and paused with its application, request 2 is granted and removed, and the
    application is left with request 1 only, which is not accounted. *)
Definition paused_run : DecisionMaker ListQueue.queue :=
  let s := demo_one in
  let s := (dm_PauseTransientTaskTimeForInner 2000 100 "app" s).2 in
  let s := (Decide (demo_env 3000) demo_dev (Some demo_key) (Some demo_info) s).2 in
  dm_RemoveRequest 4000 (Some demo_key) 2 s.

(** Removing the only running request of an application whose other requests
    are paused leaves the application counting: in [paused_run] nothing is
    accounted any more, yet the quota read ten minutes later has dropped from
    599 s to nothing. *)
Theorem paused_quota_still_charged :
  (forall id, ~ running paused_run id) /\
  pi_quota_ (pkg_at paused_run (key_of demo_key)) = 599000 /\
  (dm_GetQuota 604000 (Some demo_key) paused_run).1 = 0.
Proof.
  split; [|split; vm_compute; reflexivity].
  intros id (key & p & Hp & Hin). apply elem_of_acct_ids in Hin as (i & Hi & Ha & _).
  assert (forall k p, dm_pkgDelaySuspendInfoMap_ paused_run !! k = Some p ->
            Forall (fun i => ex_baseTime_ i = 0) (pi_requestList_ p)) as Hall.
  { change (map_Forall (fun (_ : PkgKey) p => Forall (fun i => ex_baseTime_ i = 0) (pi_requestList_ p))
      (dm_pkgDelaySuspendInfoMap_ paused_run)).
    apply (bool_decide_unpack _). vm_compute. exact I. }
  apply Ha. by apply (proj1 (Forall_forall _ _) (Hall _ _ Hp)).
Qed.
