(* ===== verification/TransientTaskMgr.v ===== *)
(** * The transient task manager

    [BgTransientTaskMgr] of src/services/transient_task
    (bg_transient_task_mgr.h and .cpp), with [Watchdog] (watchdog.cpp) and the
    expiry handler of [TimerManager] (timer_manager.cpp): the IPC entry points of
    transient tasks, the callbacks and keys of the requests, the subscribers, and
    what happens when a request expires, its owner dies or is frozen.

    The remote objects are numbers.  What leaves the process (callbacks, death
    recipients, notifications, published events) is appended to [tm_out].  The
    tasks posted to [handler_] for the subscribers are [dm_posted] of the decision
    maker; [tm_delivered] counts those that have run. *)

From S2P Require Import Prelude.
From S2P Require Import Errors.
From S2P Require Import KeyInfo.
From S2P Require Import Interfaces.
From S2P Require Import DelaySuspendInfo.
From S2P Require Import PkgDelaySuspendInfo.
From S2P Require Import DeviceInfo.
From S2P Require Import DecisionMaker.
Local Open Scope Z_scope.

Inductive Effect :=
| AddDeathRecipient (r : Remote)
| RemoveDeathRecipient (r : Remote)
| OnExpired (callback : RemoteProxy)
| NotifyObserver (a : TransientTaskAppInfo) (t : TransientTaskEventType)
| NotifySubscriber (subscriber : RemoteProxy) (a : TransientTaskAppInfo) (t : TransientTaskEventType)
| PublishCommonEvent (action : string) (code : Z) (data : string)
| PostHandleSuspendManagerDie.

(** What a call sees of its caller and of the services it asks. *)
Record CallCtx := mkCtx {
  ctx_uid : Z;                               (* IPCSkeleton::GetCallingUid() *)
  ctx_pid : Z;                               (* IPCSkeleton::GetCallingPid() *)
  ctx_processName : string;                  (* native token of the caller *)
  ctx_GetNameForUid : Z -> option string;    (* bundle manager *)
  ctx_publish : string -> bool;              (* CommonEventManager::PublishCommonEvent *)
  ctx_env : Env;
}.
Definition ctx_now (c : CallCtx) : Z := env_now (ctx_env c).

Definition BG_INVALID_REMAIN_TIME : Z := -1.
Definition SUSPEND_NATIVE_OPERATE_CALLER : list string :=
  ["resource_schedule_service"%string; "hidumper_service"%string].

(** The id of the suspend manager belongs to the system ability manager. *)
Class SystemAbilityIds := { SUSPEND_MANAGER_SYSTEM_ABILITY_ID : Z }.

Record TransientTaskMgr (Q : Type) := mkTM {
  tm_isReady_ : bool;
  tm_decisionMaker_ : DecisionMaker Q;
  tm_deviceInfoManager_ : DeviceInfoManager;
  tm_watchdog_ : Q;
  tm_expiredCallbackMap_ : gmap Z RemoteProxy;
  tm_keyInfoMap_ : gmap Z KeyInfo;
  tm_subscriberList_ : list RemoteProxy;
  tm_transientPauseUid_ : gset Z;
  tm_delivered : nat;
  tm_out : list Effect;
}.
Arguments mkTM {Q}. Arguments tm_isReady_ {Q}. Arguments tm_decisionMaker_ {Q}.
Arguments tm_deviceInfoManager_ {Q}. Arguments tm_watchdog_ {Q}.
Arguments tm_expiredCallbackMap_ {Q}. Arguments tm_keyInfoMap_ {Q}.
Arguments tm_subscriberList_ {Q}. Arguments tm_transientPauseUid_ {Q}.
Arguments tm_delivered {Q}. Arguments tm_out {Q}.

Section Updates.
Context {Q : Type}.
Implicit Types s : TransientTaskMgr Q.

Definition tm_set_dm (d : DecisionMaker Q) s : TransientTaskMgr Q :=
  mkTM (tm_isReady_ s) d (tm_deviceInfoManager_ s) (tm_watchdog_ s) (tm_expiredCallbackMap_ s)
    (tm_keyInfoMap_ s) (tm_subscriberList_ s) (tm_transientPauseUid_ s) (tm_delivered s) (tm_out s).
Definition tm_set_dev (d : DeviceInfoManager) s : TransientTaskMgr Q :=
  mkTM (tm_isReady_ s) (tm_decisionMaker_ s) d (tm_watchdog_ s) (tm_expiredCallbackMap_ s)
    (tm_keyInfoMap_ s) (tm_subscriberList_ s) (tm_transientPauseUid_ s) (tm_delivered s) (tm_out s).
Definition tm_set_watchdog (w : Q) s : TransientTaskMgr Q :=
  mkTM (tm_isReady_ s) (tm_decisionMaker_ s) (tm_deviceInfoManager_ s) w (tm_expiredCallbackMap_ s)
    (tm_keyInfoMap_ s) (tm_subscriberList_ s) (tm_transientPauseUid_ s) (tm_delivered s) (tm_out s).
Definition tm_set_callbacks (m : gmap Z RemoteProxy) s : TransientTaskMgr Q :=
  mkTM (tm_isReady_ s) (tm_decisionMaker_ s) (tm_deviceInfoManager_ s) (tm_watchdog_ s) m
    (tm_keyInfoMap_ s) (tm_subscriberList_ s) (tm_transientPauseUid_ s) (tm_delivered s) (tm_out s).
Definition tm_set_keys (m : gmap Z KeyInfo) s : TransientTaskMgr Q :=
  mkTM (tm_isReady_ s) (tm_decisionMaker_ s) (tm_deviceInfoManager_ s) (tm_watchdog_ s)
    (tm_expiredCallbackMap_ s) m (tm_subscriberList_ s) (tm_transientPauseUid_ s)
    (tm_delivered s) (tm_out s).
Definition tm_set_subscribers (l : list RemoteProxy) s : TransientTaskMgr Q :=
  mkTM (tm_isReady_ s) (tm_decisionMaker_ s) (tm_deviceInfoManager_ s) (tm_watchdog_ s)
    (tm_expiredCallbackMap_ s) (tm_keyInfoMap_ s) l (tm_transientPauseUid_ s)
    (tm_delivered s) (tm_out s).
Definition tm_set_pause (u : gset Z) s : TransientTaskMgr Q :=
  mkTM (tm_isReady_ s) (tm_decisionMaker_ s) (tm_deviceInfoManager_ s) (tm_watchdog_ s)
    (tm_expiredCallbackMap_ s) (tm_keyInfoMap_ s) (tm_subscriberList_ s) u
    (tm_delivered s) (tm_out s).
Definition tm_set_delivered (n : nat) s : TransientTaskMgr Q :=
  mkTM (tm_isReady_ s) (tm_decisionMaker_ s) (tm_deviceInfoManager_ s) (tm_watchdog_ s)
    (tm_expiredCallbackMap_ s) (tm_keyInfoMap_ s) (tm_subscriberList_ s) (tm_transientPauseUid_ s)
    n (tm_out s).
Definition tm_emit (l : list Effect) s : TransientTaskMgr Q :=
  mkTM (tm_isReady_ s) (tm_decisionMaker_ s) (tm_deviceInfoManager_ s) (tm_watchdog_ s)
    (tm_expiredCallbackMap_ s) (tm_keyInfoMap_ s) (tm_subscriberList_ s) (tm_transientPauseUid_ s)
    (tm_delivered s) (tm_out s ++ l).
End Updates.

(** ** Handlers *)
Section TM.
Context {sp : SystemParams} {cfg : TransientConfig} `{EventHandler Q}.
Implicit Types s : TransientTaskMgr Q.

(** The manager after [InitNecessaryState] has succeeded. *)
Definition new_TransientTaskMgr : TransientTaskMgr Q :=
  mkTM true new_DecisionMaker new_DeviceInfoManager eh_empty ∅ ∅ [] ∅ 0 [].

(** [InitNecessaryState], given whether all services it needs are up; it posts
    itself again until they are. *)
Definition InitNecessaryState (servicesUp : bool) s : TransientTaskMgr Q :=
  if negb servicesUp
  then mkTM false (tm_decisionMaker_ s) (tm_deviceInfoManager_ s) (tm_watchdog_ s)
         (tm_expiredCallbackMap_ s) (tm_keyInfoMap_ s) (tm_subscriberList_ s)
         (tm_transientPauseUid_ s) (tm_delivered s) (tm_out s)
  else mkTM true new_DecisionMaker new_DeviceInfoManager eh_empty (tm_expiredCallbackMap_ s)
         (tm_keyInfoMap_ s) (tm_subscriberList_ s) (tm_transientPauseUid_ s)
         (tm_delivered s) (tm_out s).

Definition VerifyCallingInfo (uid pid : Z) : bool := (0 <=? uid) && (0 <=? pid).

Definition VerifyRequestIdLocked (name : string) (uid requestId : Z) s : bool :=
  match tm_keyInfoMap_ s !! requestId with
  | None => false
  | Some k => KeyInfo_IsEqual k name uid
  end.

(** The error, and the bundle name found. *)
Definition IsCallingInfoLegal (ctx : CallCtx) (callback : option RemoteProxy) : Z * string :=
  return_if negb (VerifyCallingInfo (ctx_uid ctx) (ctx_pid ctx)),
    (ERR_BGTASK_INVALID_PID_OR_UID, ""%string) ;;
  match ctx_GetNameForUid ctx (ctx_uid ctx) with
  | None => (ERR_BGTASK_INVALID_BUNDLE_NAME, ""%string)
  | Some name =>
      match callback with
      | None => (ERR_BGTASK_INVALID_CALLBACK, name)
      | Some cb =>
          return_if bool_decide (AsObject cb = None), (ERR_BGTASK_INVALID_CALLBACK, name) ;;
          (ERR_OK, name)
      end
  end.

(** [find_if] over [expiredCallbackMap_] by remote object. *)
Definition find_callback (r : option Remote) s : option Z :=
  fst <$> (snd <$> list_find (fun e => AsObject e.2 = r) (sorted_entries (tm_expiredCallbackMap_ s))).

Definition RequestSuspendDelay (ctx : CallCtx) (callback : option RemoteProxy) s :
    Z * option DelaySuspendInfoEx * TransientTaskMgr Q :=
  return_if negb (tm_isReady_ s), (ERR_BGTASK_SYS_NOT_READY, None, s) ;;
  let '(ret, name) := IsCallingInfoLegal ctx callback in
  return_if negb (ret =? ERR_OK), (ret, None, s) ;;
  match callback with
  | None => (ret, None, s)
  | Some cb =>
      let infoEx := new_DelaySuspendInfoEx (ctx_pid ctx) in
      return_if bool_decide (is_Some (find_callback (AsObject cb) s)),
        (ERR_BGTASK_CALLBACK_EXISTS, Some infoEx, s) ;;
      let keyInfo := mkKeyInfo name (ctx_uid ctx) (ctx_pid ctx) in
      let '(ret, info, d) :=
        Decide (ctx_env ctx) (tm_deviceInfoManager_ s) (Some keyInfo) (Some infoEx)
          (tm_decisionMaker_ s) in
      let s := tm_set_dm d s in
      return_if negb (ret =? ERR_OK), (ret, info, s) ;;
      match info with
      | None => (ret, info, s)
      | Some i =>
          let s := tm_set_callbacks (<[ex_requestId_ i := cb]> (tm_expiredCallbackMap_ s)) s in
          let s := tm_set_keys (<[ex_requestId_ i := keyInfo]> (tm_keyInfoMap_ s)) s in
          let s := match AsObject cb with
                   | Some r => tm_emit [AddDeathRecipient r] s
                   | None => s
                   end in
          (ERR_OK, Some i, s)
      end
  end.

Definition CheckProcessName (ctx : CallCtx) : bool :=
  bool_decide (ctx_processName ctx ∈ SUSPEND_NATIVE_OPERATE_CALLER).

Definition PauseTransientTaskTimeForInner (ctx : CallCtx) (uid : Z) s : Z * TransientTaskMgr Q :=
  return_if negb (tm_isReady_ s), (ERR_BGTASK_SYS_NOT_READY, s) ;;
  return_if negb (CheckProcessName ctx), (ERR_BGTASK_INVALID_PROCESS_NAME, s) ;;
  return_if uid <? 0, (ERR_BGTASK_INVALID_PID_OR_UID, s) ;;
  match ctx_GetNameForUid ctx uid with
  | None => (ERR_BGTASK_SERVICE_INNER_ERROR, s)
  | Some name =>
      let '(ret, d) :=
        dm_PauseTransientTaskTimeForInner (ctx_now ctx) uid name (tm_decisionMaker_ s) in
      let s := tm_set_dm d s in
      return_if negb (ret =? ERR_OK), (ret, s) ;;
      (ERR_OK, tm_set_pause ({[uid]} ∪ tm_transientPauseUid_ s) s)
  end.

Definition StartTransientTaskTimeForInner (ctx : CallCtx) (uid : Z) s : Z * TransientTaskMgr Q :=
  return_if negb (tm_isReady_ s), (ERR_BGTASK_SYS_NOT_READY, s) ;;
  return_if negb (CheckProcessName ctx), (ERR_BGTASK_INVALID_PROCESS_NAME, s) ;;
  return_if uid <? 0, (ERR_BGTASK_INVALID_PID_OR_UID, s) ;;
  match ctx_GetNameForUid ctx uid with
  | None => (ERR_BGTASK_SERVICE_INNER_ERROR, s)
  | Some name =>
      let '(ret, d) :=
        dm_StartTransientTaskTimeForInner (tm_deviceInfoManager_ s) (ctx_now ctx) uid name
          (tm_decisionMaker_ s) in
      let s := tm_set_dm d s in
      return_if negb (ret =? ERR_OK), (ret, s) ;;
      (ERR_OK, tm_set_pause (tm_transientPauseUid_ s ∖ {[uid]}) s)
  end.

(** ** Subscribers *)

Definition NotifyTransientTaskSuscriber (a : TransientTaskAppInfo) (t : TransientTaskEventType) s :
    TransientTaskMgr Q :=
  tm_emit (NotifyObserver a t :: ((fun sub => NotifySubscriber sub a t) <$> tm_subscriberList_ s)) s.

(** The handler runs the next task that [HandleTransientTaskSuscriberTask] posted. *)
Definition run_posted s : TransientTaskMgr Q :=
  match dm_posted (tm_decisionMaker_ s) !! tm_delivered s with
  | None => s
  | Some (a, t) => tm_set_delivered (S (tm_delivered s)) (NotifyTransientTaskSuscriber a t s)
  end.

Definition SubscribeBackgroundTask (subscriber : option RemoteProxy) s : Z * TransientTaskMgr Q :=
  match subscriber with
  | None => (ERR_BGTASK_INVALID_PARAM, s)
  | Some sub =>
      match AsObject sub with
      | None => (ERR_BGTASK_INVALID_PARAM, s)
      | Some r =>
          return_if existsb (same_remote (Some r)) (tm_subscriberList_ s), (ERR_OK, s) ;;
          (ERR_OK, tm_set_subscribers (tm_subscriberList_ s ++ [sub]) (tm_emit [AddDeathRecipient r] s))
      end
  end.

Definition UnsubscribeBackgroundTask (subscriber : option RemoteProxy) s : Z * TransientTaskMgr Q :=
  match subscriber with
  | None => (ERR_BGTASK_INVALID_PARAM, s)
  | Some sub =>
      match AsObject sub with
      | None => (ERR_BGTASK_INVALID_PARAM, s)
      | Some r =>
          return_if negb (existsb (same_remote (Some r)) (tm_subscriberList_ s)), (ERR_OK, s) ;;
          (ERR_OK, tm_set_subscribers (erase_first (same_remote (Some r)) (tm_subscriberList_ s))
                     (tm_emit [RemoveDeathRecipient r] s))
      end
  end.

Definition HandleSubscriberDeath (remote : option Remote) s : TransientTaskMgr Q :=
  match remote with
  | None => s
  | Some r =>
      tm_set_subscribers (erase_first (same_remote (Some r)) (tm_subscriberList_ s)) s
  end.

(** ** Cancelling *)

Definition CancelSuspendDelayLocked (now requestId : Z) s : Z * TransientTaskMgr Q :=
  let s := tm_set_watchdog (RemoveEvent (tm_watchdog_ s) requestId) s in
  let s := tm_set_dm (dm_RemoveRequest now (tm_keyInfoMap_ s !! requestId) requestId
                        (tm_decisionMaker_ s)) s in
  let s := tm_set_keys (delete requestId (tm_keyInfoMap_ s)) s in
  match tm_expiredCallbackMap_ s !! requestId with
  | None => (ERR_BGTASK_CALLBACK_NOT_EXIST, s)
  | Some cb =>
      let s := match AsObject cb with
               | Some r => tm_emit [RemoveDeathRecipient r] s
               | None => s
               end in
      (ERR_OK, tm_set_callbacks (delete requestId (tm_expiredCallbackMap_ s)) s)
  end.

Definition CancelSuspendDelay (ctx : CallCtx) (requestId : Z) s : Z * TransientTaskMgr Q :=
  return_if negb (tm_isReady_ s), (ERR_BGTASK_SYS_NOT_READY, s) ;;
  return_if negb (VerifyCallingInfo (ctx_uid ctx) (ctx_pid ctx)),
    (ERR_BGTASK_INVALID_PID_OR_UID, s) ;;
  match ctx_GetNameForUid ctx (ctx_uid ctx) with
  | None => (ERR_BGTASK_SERVICE_INNER_ERROR, s)
  | Some name =>
      return_if negb (VerifyRequestIdLocked name (ctx_uid ctx) requestId s),
        (ERR_BGTASK_INVALID_REQUEST_ID, s) ;;
      CancelSuspendDelayLocked (ctx_now ctx) requestId s
  end.

Definition ForceCancelSuspendDelay (now requestId : Z) s : TransientTaskMgr Q :=
  match tm_keyInfoMap_ s !! requestId with
  | None => s
  | Some _ => (CancelSuspendDelayLocked now requestId s).2
  end.

Definition HandleExpiredCallbackDeath (now : Z) (remote : option Remote) s : TransientTaskMgr Q :=
  match remote with
  | None => s
  | Some r =>
      match find_callback (Some r) s with
      | None => s
      | Some id =>
          let s := tm_set_watchdog (RemoveEvent (tm_watchdog_ s) id) s in
          let s := tm_set_callbacks (delete id (tm_expiredCallbackMap_ s)) s in
          match tm_keyInfoMap_ s !! id with
          | None => s
          | Some k =>
              let s := tm_set_dm (dm_RemoveRequest now (Some k) id (tm_decisionMaker_ s)) s in
              tm_set_keys (delete id (tm_keyInfoMap_ s)) s
          end
      end
  end.

(** [OnAppCacheStateChanged] reads the ids of the application under the lock of
    the decision maker, and cancels them under [expiredCallbackLock_]. *)
Definition cancel_all (now : Z) (ids : list Z) s : TransientTaskMgr Q :=
  fold_left (fun s id => (CancelSuspendDelayLocked now id s).2) ids s.

Definition OnAppCacheStateChanged (now uid pid : Z) (bundleName : string) s : TransientTaskMgr Q :=
  return_if negb (tm_isReady_ s), s ;;
  return_if negb (VerifyCallingInfo uid pid), s ;;
  let requestIdList :=
    GetRequestIdListByKey (Some (mkKeyInfo bundleName uid pid)) (tm_decisionMaker_ s) in
  return_if bool_decide (requestIdList = []), s ;;
  cancel_all now requestIdList s.

(** ** Expiry *)

Definition HandleRequestExpired (requestId : Z) s : TransientTaskMgr Q :=
  match tm_expiredCallbackMap_ s !! requestId with
  | None => s
  | Some cb =>
      let s := tm_emit [OnExpired cb] s in
      match tm_keyInfoMap_ s !! requestId with
      | None => s
      | Some _ => tm_set_watchdog (SendEvent (tm_watchdog_ s) requestId WATCHDOG_DELAY_TIME) s
      end
  end.

(** The runner takes the timer of [id] off its queue, and later processes it;
    likewise for the watchdog. *)
Definition take_timer (id : Z) s : TransientTaskMgr Q :=
  let d := tm_decisionMaker_ s in
  tm_set_dm (dm_set_pkgs (dm_pkgDelaySuspendInfoMap_ d) (TakeEvent (dm_timers d) id) d) s.
Definition take_watchdog (id : Z) s : TransientTaskMgr Q :=
  tm_set_watchdog (TakeEvent (tm_watchdog_ s) id) s.

Definition Watchdog_ProcessEvent (now id : Z) (info : option KeyInfo) s : TransientTaskMgr Q :=
  match info with
  | None => s
  | Some _ => ForceCancelSuspendDelay now id s
  end.
End TM.

(** ** Queries, dumps and the events of other services *)
Section TMQueries.
Context {sp : SystemParams} {cfg : TransientConfig} {actions : CommonEventActions}
  {sa : SystemAbilityIds} `{EventHandler Q}.
Implicit Types s : TransientTaskMgr Q.

(** The error, and the value [delayTime] is given, if any. *)
Definition GetRemainingDelayTime (ctx : CallCtx) (requestId : Z) s : Z * option Z :=
  return_if negb (tm_isReady_ s), (ERR_BGTASK_SYS_NOT_READY, None) ;;
  return_if negb (VerifyCallingInfo (ctx_uid ctx) (ctx_pid ctx)),
    (ERR_BGTASK_INVALID_PID_OR_UID, Some BG_INVALID_REMAIN_TIME) ;;
  match ctx_GetNameForUid ctx (ctx_uid ctx) with
  | None => (ERR_BGTASK_SERVICE_INNER_ERROR, Some BG_INVALID_REMAIN_TIME)
  | Some name =>
      return_if negb (VerifyRequestIdLocked name (ctx_uid ctx) requestId s),
        (ERR_BGTASK_INVALID_REQUEST_ID, Some BG_INVALID_REMAIN_TIME) ;;
      (ERR_OK, Some (dm_GetRemainingDelayTime (ctx_now ctx) (tm_keyInfoMap_ s !! requestId) requestId
                       (tm_decisionMaker_ s)))
  end.

(** The records of [keyInfoMap_], ascending by id. *)
Definition GetAllTransientTasks (ctx : CallCtx) s :
    Z * option Z * list (Z * Z) * TransientTaskMgr Q :=
  return_if negb (tm_isReady_ s), (ERR_BGTASK_TRANSIENT_SYS_NOT_READY, None, [], s) ;;
  return_if negb (VerifyCallingInfo (ctx_uid ctx) (ctx_pid ctx)),
    (ERR_BGTASK_INVALID_PID_OR_UID, None, [], s) ;;
  match ctx_GetNameForUid ctx (ctx_uid ctx) with
  | None => (ERR_BGTASK_SERVICE_INNER_ERROR, None, [], s)
  | Some name =>
      let keyInfo := mkKeyInfo name (ctx_uid ctx) (ctx_pid ctx) in
      let '(quota, d) := dm_GetQuota (ctx_now ctx) (Some keyInfo) (tm_decisionMaker_ s) in
      let s := tm_set_dm d s in
      let mine := filter (fun e => KeyInfo_GetPkg e.2 = name /\ KeyInfo_GetUid e.2 = ctx_uid ctx)
                    (sorted_entries (tm_keyInfoMap_ s)) in
      (ERR_OK, Some quota,
       (fun e => (e.1, dm_GetRemainingDelayTime (ctx_now ctx) (Some e.2) e.1 (tm_decisionMaker_ s)))
         <$> mine, s)
  end.

Definition GetTransientTaskApps s : Z * list TransientTaskAppInfo :=
  (ERR_OK,
   fold_left (fun list e =>
     if existsb (fun info => bool_decide (KeyInfo_GetPkg e.2 = ai_packageName_ info)
                             && (KeyInfo_GetUid e.2 =? ai_uid_ info)) list
     then list
     else list ++ [mkAppInfo (KeyInfo_GetPkg e.2) (KeyInfo_GetUid e.2) AI_DEFAULT_PID])
     (sorted_entries (tm_keyInfoMap_ s)) []).

(** [AddExemptedQuatoData] is an operation of [BgtaskConfig], on its state; [None]: it throws. *)
Definition SetBgTaskConfig {C} (AddExemptedQuatoData : string -> Z -> C -> option (bool * C)) (ctx : CallCtx)
    (configData : string) (sourceType : Z) s (c : C) : option (Z * C) :=
  return_if negb (tm_isReady_ s), Some (ERR_BGTASK_SYS_NOT_READY, c) ;;
  return_if negb (CheckProcessName ctx), Some (ERR_BGTASK_INVALID_PROCESS_NAME, c) ;;
  '(addResult, c) ← AddExemptedQuatoData configData sourceType c;
  return_if negb addResult, Some (ERR_PARAM_NUMBER_ERR, c) ;;
  Some (ERR_OK, c).

(** *** Shell *)

Definition NL : string := String (Ascii.ascii_of_nat 10) EmptyString.
Definition TAB : string := String (Ascii.ascii_of_nat 9) EmptyString.

Definition SendBatteryEvent (ctx : CallCtx) (action name : string) (dumpInfo : list string) s :
    list string * TransientTaskMgr Q :=
  (dumpInfo ++
     [if ctx_publish ctx action then ("Publish " +:+ name +:+ " succeed!" +:+ NL)%string
      else ("Publish " +:+ name +:+ " failed!" +:+ NL)%string],
   tm_emit [PublishCommonEvent action 0 "dump"] s).

Definition dump_record (ctx : CallCtx) (index : Z) (id : Z) (k : KeyInfo) (d : DecisionMaker Q) :
    string * DecisionMaker Q :=
  let remaining := dm_GetRemainingDelayTime (ctx_now ctx) (Some k) id d in
  let '(quota, d) := dm_GetQuota (ctx_now ctx) (Some k) d in
  (("No." +:+ pretty index +:+ NL
    +:+ TAB +:+ "RequestId: " +:+ pretty id +:+ NL
    +:+ TAB +:+ "AppName: " +:+ KeyInfo_GetPkg k +:+ NL
    +:+ TAB +:+ "AppUid: " +:+ pretty (KeyInfo_GetUid k) +:+ NL
    +:+ TAB +:+ "AppPid: " +:+ pretty (KeyInfo_GetPid k) +:+ NL
    +:+ TAB +:+ "ActualDelayTime: " +:+ pretty remaining +:+ NL
    +:+ TAB +:+ "RemainingQuota: " +:+ pretty quota +:+ NL +:+ NL)%string, d).

Fixpoint dump_records (ctx : CallCtx) (index : Z) (l : list (Z * KeyInfo)) (d : DecisionMaker Q) :
    list string * DecisionMaker Q :=
  match l with
  | [] => ([], d)
  | (id, k) :: l =>
      let '(str, d) := dump_record ctx index id k d in
      let '(strs, d) := dump_records ctx (index + 1) l d in (str :: strs, d)
  end.

Definition DumpAllRequestId (ctx : CallCtx) (dumpInfo : list string) s :
    bool * list string * TransientTaskMgr Q :=
  return_if bool_decide (tm_keyInfoMap_ s = ∅),
    (true, dumpInfo ++ [("No Transient Task!" +:+ NL)%string], s) ;;
  let '(strs, d) := dump_records ctx 1 (sorted_entries (tm_keyInfoMap_ s)) (tm_decisionMaker_ s) in
  (true, dumpInfo ++ strs, tm_set_dm d s).

Definition DumpTaskTime (ctx : CallCtx) (dumpOption : list string) (pause : bool)
    (dumpInfo : list string) s : list string * TransientTaskMgr Q :=
  match dumpOption !! 2%nat with
  | None => (dumpInfo, s)
  | Some o =>
      let uid := atoi o in
      if pause then
        let '(ret, s) := PauseTransientTaskTimeForInner ctx uid s in
        (dumpInfo ++ [if negb (ret =? ERR_OK) then ("pause transient tasl fail!" +:+ NL)%string
                      else ("pause transient tasl success!" +:+ NL)%string], s)
      else
        let '(ret, s) := StartTransientTaskTimeForInner ctx uid s in
        (dumpInfo ++ [if negb (ret =? ERR_OK) then ("start transient tasl fail!" +:+ NL)%string
                      else ("start transient tasl success!" +:+ NL)%string], s)
  end.

Definition ShellDump (ctx : CallCtx) (dumpOption : list string) (dumpInfo : list string) s :
    Z * list string * TransientTaskMgr Q :=
  return_if negb (tm_isReady_ s), (ERR_BGTASK_SYS_NOT_READY, dumpInfo, s) ;;
  match dumpOption !! 1%nat with
  | None => (ERR_BGTASK_INVALID_PARAM, dumpInfo, s)
  | Some opt =>
      let '(result, dumpInfo, s) :=
        if bool_decide (opt = "All"%string) then DumpAllRequestId ctx dumpInfo s
        else if bool_decide (opt = "BATTARY_LOW"%string) then
          let s := tm_set_dev (dev_SetDump true (tm_deviceInfoManager_ s)) s in
          let '(i, s) := SendBatteryEvent ctx COMMON_EVENT_BATTERY_LOW "COMMON_EVENT_BATTERY_LOW"
                           dumpInfo s in (true, i, s)
        else if bool_decide (opt = "BATTARY_OKAY"%string) then
          let s := tm_set_dev (dev_SetDump true (tm_deviceInfoManager_ s)) s in
          let '(i, s) := SendBatteryEvent ctx COMMON_EVENT_BATTERY_OKAY "COMMON_EVENT_BATTERY_OKAY"
                           dumpInfo s in (true, i, s)
        else if bool_decide (opt = "DUMP_CANCEL"%string) then
          (true, dumpInfo, tm_set_dev (dev_SetDump false (tm_deviceInfoManager_ s)) s)
        else if bool_decide (opt = "PAUSE"%string) then
          let '(i, s) := DumpTaskTime ctx dumpOption true dumpInfo s in (true, i, s)
        else if bool_decide (opt = "START"%string) then
          let '(i, s) := DumpTaskTime ctx dumpOption false dumpInfo s in (true, i, s)
        else (false, dumpInfo ++ [("Error transient dump command!" +:+ NL)%string], s) in
      ((if result : bool then ERR_OK else ERR_BGTASK_PERMISSION_DENIED), dumpInfo, s)
  end.

(** *** Other services *)

(** The paused uids, in the order of [std::set]. *)
Definition HandleSuspendManagerDie (ctx : CallCtx) s : TransientTaskMgr Q :=
  return_if bool_decide (tm_transientPauseUid_ s = ∅), s ;;
  let d :=
    fold_left (fun d uid =>
      match ctx_GetNameForUid ctx uid with
      | None => d
      | Some name =>
          (dm_StartTransientTaskTimeForInner (tm_deviceInfoManager_ s) (ctx_now ctx) uid name d).2
      end) (merge_sort Z.le (elements (tm_transientPauseUid_ s))) (tm_decisionMaker_ s) in
  tm_set_pause ∅ (tm_set_dm d s).

Definition OnRemoveSystemAbility (systemAbilityId : Z) s : TransientTaskMgr Q :=
  return_if negb (tm_isReady_ s), s ;;
  if systemAbilityId =? SUSPEND_MANAGER_SYSTEM_ABILITY_ID
  then tm_emit [PostHandleSuspendManagerDie] s else s.

(** [inputManager_] with its two listeners, in the order of
    [InitNecessaryState]: the device state, then the decision maker, which
    sees the new device state.  [None]: the unchecked access of
    [dev_OnInputEvent]. *)
Definition tm_listeners (ctx : CallCtx) : list (Listener (S := TransientTaskMgr Q)) :=
  let l := RegisterEventListener [] (Some (fun e s =>
             d ← dev_OnInputEvent e (tm_deviceInfoManager_ s); Some (tm_set_dev d s))) in
  RegisterEventListener l (Some (fun e s =>
    Some (tm_set_dm (dm_OnInputEvent (ctx_env ctx) (tm_deviceInfoManager_ s)
                       (tm_transientPauseUid_ s) e (tm_decisionMaker_ s)) s))).
Definition tm_OnReceiveEvent (ctx : CallCtx) (action : string) (code : Z) (data : string) s :
    option (TransientTaskMgr Q) :=
  InputManager_ProcessEvent (tm_listeners ctx) (Some (EventHub_OnReceiveEvent action code data)) s.

(** The application framework reports process states to the decision maker. *)
Definition tm_OnProcessStateChanged (now : Z) (bundleName : string) (uid pid : Z)
    (state : AppProcessState) s : TransientTaskMgr Q :=
  tm_set_dm (OnProcessStateChanged (tm_deviceInfoManager_ s) now bundleName uid pid state
               (tm_decisionMaker_ s)) s.
Definition tm_OnProcessDied (now : Z) (bundleName : string) (uid pid : Z) s : TransientTaskMgr Q :=
  tm_set_dm (OnProcessDied (tm_deviceInfoManager_ s) now bundleName uid pid (tm_decisionMaker_ s)) s.
End TMQueries.
