(* ===== verification/TransientTaskMgrSpec.v ===== *)
(** * The transient task manager: invariant and refinement

    [tm_inv] relates the maps of [BgTransientTaskMgr] to the requests of the
    decision maker, to the timers and watchdogs, and to the notifications posted.
    Every operation keeps it; seen from outside, the operations are those of a
    map from request ids to owners and callbacks ([tasks]). *)

From S2P Require Import Prelude.
From S2P Require Import Errors.
From S2P Require Import KeyInfo.
From S2P Require Import Interfaces.
From S2P Require Import DelaySuspendInfo.
From S2P Require Import PkgDelaySuspendInfo.
From S2P Require Import DeviceInfo.
From S2P Require Import DecisionMaker.
From S2P Require Import DecisionMakerSpec.
From S2P Require Import DecisionMakerProps.
From S2P Require Import TransientTaskMgr.
Local Open Scope Z_scope.

(** ** The start and end notifications of an application

    [session key b l] runs the APP_TASK notifications of [key] in [l] from a state
    in which its session is open ([b]) or closed; [None] when a session is opened
    or closed twice. *)
Fixpoint session (key : PkgKey) (b : bool) (l : list (TransientTaskAppInfo * TransientTaskEventType)) :
    option bool :=
  match l with
  | [] => Some b
  | (a, t) :: l =>
      if decide ((ai_packageName_ a, ai_uid_ a) = key) then
        match t, b with
        | APP_TASK_START, false => session key true l
        | APP_TASK_END, true => session key false l
        | APP_TASK_START, true | APP_TASK_END, false => None
        | _, _ => session key b l
        end
      else session key b l
  end.

Lemma session_app key b l1 l2 :
  session key b (l1 ++ l2) = b' ← session key b l1; session key b' l2.
Proof.
  revert b. induction l1 as [|[a t] l1 IH]; intros b; [done|]. simpl.
  case_decide; [|done]. destruct t, b; done.
Qed.

Lemma session_other key b k l :
  key <> key_of k -> Forall (fun e => (ai_packageName_ e.1, ai_uid_ e.1) = key_of k) l ->
  session key b l = Some b.
Proof.
  intros Hk. induction 1 as [|[a t] l Ha _ IH]; [done|]. simpl in *. rewrite Ha, decide_False by done. done.
Qed.

Lemma session_grant_at k first : session (key_of k) (negb first) (grant_events k first) = Some true.
Proof.
  unfold grant_events, key_of. destruct first; simpl; rewrite ?decide_True by done; simpl;
    rewrite ?decide_True by done; done.
Qed.

Lemma session_grant_ne key k first b :
  key <> key_of k -> session key b (grant_events k first) = Some b.
Proof. intros Hk. eapply (session_other _ _ k); [done|]. destruct first; repeat constructor; done. Qed.

Lemma session_removal_at k last : session (key_of k) true (removal_events k last) = Some (negb last).
Proof.
  unfold removal_events, key_of. destruct last; simpl; rewrite ?decide_True by done; simpl;
    rewrite ?decide_True by done; done.
Qed.

Lemma session_removal_ne key k last b :
  key <> key_of k -> session key b (removal_events k last) = Some b.
Proof. intros Hk. eapply (session_other _ _ k); [done|]. destruct last; repeat constructor; done. Qed.

Section TMInv.
Context {sp : SystemParams} {cfg : TransientConfig} {ok : TransientParamsOk sp cfg}.
Context `{EventHandler Q}.
Implicit Types s : TransientTaskMgr Q.
Implicit Types d : DecisionMaker Q.
Abbreviation dm := tm_decisionMaker_.
Abbreviation keys := tm_keyInfoMap_.
Abbreviation cbs := tm_expiredCallbackMap_.

(** The requests of [d] are the entries of the key map [m]. *)
Definition keys_match (m : gmap Z KeyInfo) d : Prop :=
  forall key id, live d key id <-> exists k, m !! id = Some k /\ key_of k = key.

(** The notifications posted so far describe the applications that hold requests. *)
Definition sessions_ok d : Prop :=
  forall key, exists b, session key false (dm_posted d) = Some b /\
    (b = true <-> exists id, live d key id).

(** [F]: the events that the runner has taken off a queue and not yet handled. *)
Record tm_inv (now : Z) (F : gset Z) s : Prop := {
  ti_dm : dm_inv now (dm s);
  ti_keys : keys_match (keys s) (dm s);
  ti_dom : forall id, is_Some (cbs s !! id) <-> is_Some (keys s !! id);
  ti_remote : forall id cb, cbs s !! id = Some cb -> is_Some (AsObject cb);
  ti_distinct : forall i j c1 c2, cbs s !! i = Some c1 -> cbs s !! j = Some c2 ->
    AsObject c1 = AsObject c2 -> i = j;
  ti_watched : forall id, running (dm s) id ->
    id ∈ pending (dm_timers (dm s)) ∪ pending (tm_watchdog_ s) ∪ F;
  ti_wd : forall id, id ∈ pending (tm_watchdog_ s) -> is_Some (keys s !! id);
  ti_sessions : sessions_ok (dm s);
}.

Lemma live_keys now F s key id :
  tm_inv now F s -> live (dm s) key id <-> exists k, keys s !! id = Some k /\ key_of k = key.
Proof. intros Hs. apply (ti_keys _ _ _ Hs). Qed.

Lemma watched_step now F s d :
  tm_inv now F s -> watch_step (dm s) d ->
  forall id, running d id -> id ∈ pending (dm_timers d) ∪ pending (tm_watchdog_ s) ∪ F.
Proof.
  intros Hs [HS HK] id Hr. destruct (HS _ Hr) as [Hr'|Hp]; [|set_solver].
  apply (ti_watched _ _ _ Hs) in Hr'. apply elem_of_union in Hr' as [Hr'|]; [|set_solver].
  apply elem_of_union in Hr' as [Hr'|]; [|set_solver].
  apply HK in Hr'; [set_solver|done].
Qed.

(** Operations of the decision maker that keep the requests. *)
Lemma tm_keeps now F s d :
  keeps now (dm s) d -> tm_inv now F s -> tm_inv now F (tm_set_dm d s).
Proof.
  intros Hk Hs. destruct (Hk (ti_dm _ _ _ Hs)) as [Hd He].
  split; simpl; try apply Hs; try done.
  - intros key id. rewrite (ev_live _ _ He). apply (ti_keys _ _ _ Hs).
  - by eapply watched_step, evolves_watch.
  - intros key. destruct (ti_sessions _ _ _ Hs key) as (b & Hb & Hl).
    exists b. rewrite (ev_posted _ _ He). split; [done|]. rewrite Hl.
    by setoid_rewrite (ev_live _ _ He key).
Qed.

(** Fields the invariant does not mention. *)
Lemma tm_inv_same now F s s' :
  dm s' = dm s -> keys s' = keys s -> cbs s' = cbs s -> tm_watchdog_ s' = tm_watchdog_ s ->
  tm_inv now F s -> tm_inv now F s'.
Proof.
  intros E1 E2 E3 E4 Hs. split; rewrite ?E1, ?E2, ?E3, ?E4; apply Hs.
Qed.

(** ** Looking up callbacks *)
Lemma find_callback_None r s :
  find_callback r s = None <-> forall id cb, cbs s !! id = Some cb -> AsObject cb <> r.
Proof.
  unfold find_callback. destruct (list_find _ _) as [[i [id cb]]|] eqn:E; simpl.
  - apply list_find_Some in E as (Hl & Hr & _). split; [done|]. intros Hn. exfalso.
    apply (Hn id cb); [|done]. apply elem_of_sorted_entries, list_elem_of_lookup. eauto.
  - apply list_find_None in E. rewrite Forall_forall in E. split; [|done].
    intros _ id cb Hl Hr. by apply (E (id, cb)); [apply elem_of_sorted_entries|].
Qed.

Lemma find_callback_Some r s id :
  find_callback r s = Some id -> exists cb, cbs s !! id = Some cb /\ AsObject cb = r.
Proof.
  unfold find_callback. destruct (list_find _ _) as [[i [id' cb]]|] eqn:E; simpl; [|done].
  apply list_find_Some in E as (Hl & Hr & _). intros [= <-]. exists cb. split; [|done].
  apply elem_of_sorted_entries, list_elem_of_lookup. eauto.
Qed.

(** ** Granting *)
Lemma sessions_grant env dev key d d' i :
  sessions_ok d -> accepted env dev key d d' i -> sessions_ok d'.
Proof.
  intros Hs Ha k. destruct (Hs k) as (b & Hb & Hl).
  rewrite (ac_posted _ _ _ _ _ _ Ha), session_app, Hb. simpl.
  destruct (decide (k = key_of key)) as [->|Hne].
  - assert (b = negb (pi_IsRequestEmpty (pkg_at d (key_of key)))) as ->.
    { pose proof (IsRequestEmpty_live d (key_of key)) as He.
      destruct b, (pi_IsRequestEmpty (pkg_at d (key_of key))); try done; exfalso.
      - destruct (proj1 Hl eq_refl) as [id Hid]. by apply (proj1 He eq_refl id).
      - assert (~ exists id, live d (key_of key) id) as Hno by (by intros ?%Hl).
        assert (false = true) as Hx by (apply He; eauto). done. }
    exists true. split; [apply session_grant_at|]. split; [|done]. intros _.
    exists (dm_requestId_ d). rewrite (ac_live _ _ _ _ _ _ Ha). by right.
  - exists b. split; [by apply session_grant_ne|]. rewrite Hl.
    split; intros [id Hid]; exists id; rewrite (ac_live _ _ _ _ _ _ Ha) in *; naive_solver.
Qed.

Lemma tm_granted F env dev key s d' i cb :
  tm_inv (env_now env) F s -> accepted env dev key (dm s) d' i ->
  is_Some (AsObject cb) -> find_callback (AsObject cb) s = None ->
  tm_inv (env_now env) F
    (tm_set_keys (<[dm_requestId_ (dm s) := key]> (keys s))
      (tm_set_callbacks (<[dm_requestId_ (dm s) := cb]> (cbs s)) (tm_set_dm d' s))) /\
  keys s !! dm_requestId_ (dm s) = None /\ cbs s !! dm_requestId_ (dm s) = None.
Proof.
  intros Hs Ha Hcb Hf. set (id := dm_requestId_ (dm s)).
  assert (Hk : keys s !! id = None).
  { apply eq_None_not_Some. intros [k Hk]. apply (ac_fresh _ _ _ _ _ _ Ha (key_of k)).
    apply (ti_keys _ _ _ Hs). eauto. }
  assert (Hc : cbs s !! id = None).
  { apply eq_None_not_Some. rewrite (ti_dom _ _ _ Hs), Hk. by intros []. }
  split; [|done]. rewrite find_callback_None in Hf.
  split; simpl.
  - apply Ha.
  - intros k i'. rewrite (ac_live _ _ _ _ _ _ Ha), (live_keys _ _ _ _ _ Hs). fold id.
    destruct (decide (i' = id)) as [->|Hne].
    + rewrite lookup_insert_eq, Hk. split.
      * intros [(? & ? & _)|[-> _]]; [done|eauto].
      * intros (k0 & [= <-] & <-). by right.
    + rewrite lookup_insert_ne by done. naive_solver.
  - intros i'. rewrite !lookup_insert_is_Some. rewrite (ti_dom _ _ _ Hs). done.
  - intros i' cb'. rewrite lookup_insert_Some. intros [[_ <-]|[_ Hl]]; [done|].
    by apply (ti_remote _ _ _ Hs) in Hl.
  - intros i1 i2 c1 c2. rewrite !lookup_insert_Some.
    intros [[<- <-]|[Hn1 H1]] [[<- <-]|[Hn2 H2]] Heq; [done| | |].
    + exfalso. by apply (Hf _ _ H2).
    + exfalso. by apply (Hf _ _ H1).
    + by apply (ti_distinct _ _ _ Hs _ _ _ _ H1 H2).
  - eapply watched_step; [done|]. apply Ha.
  - intros i' Hi. apply lookup_insert_is_Some'. right. by apply (ti_wd _ _ _ Hs).
  - eapply sessions_grant; [apply Hs|done].
Qed.

(** ** Removing *)
Lemma sessions_removed now key id d d' :
  dm_inv now d -> live d (key_of key) id ->
  sessions_ok d -> removed now key id d d' -> sessions_ok d'.
Proof.
  intros Hi Hl Hs Hr k. destruct (Hs k) as (b & Hb & Hbl).
  rewrite (rm_posted _ _ _ _ _ Hr), session_app, Hb. simpl.
  destruct (decide (k = key_of key)) as [->|Hne].
  - assert (b = true) as -> by (apply Hbl; eauto).
    exists (negb (pi_IsRequestEmpty (pkg_at d' (key_of key)))).
    split; [apply session_removal_at|].
    rewrite negb_true_iff, <- not_true_iff_false, IsRequestEmpty_live.
    split; [|intros [i Hi'] Hno; by apply (Hno i)].
    intros Hno. destruct (pi_requestList_ (pkg_at d' (key_of key))) as [|i l] eqn:E.
    + exfalso. apply Hno. intros i. rewrite live_pkg_at, E. unfold ids_of. simpl. set_solver.
    + exists (ex_requestId_ i). rewrite live_pkg_at, E. unfold ids_of. simpl. set_solver.
  - exists b. split; [by apply session_removal_ne|]. rewrite Hbl.
    split; intros [i Hi']; exists i; rewrite (rm_live _ _ _ _ _ Hr) in *; naive_solver.
Qed.

(** The state once the request, its callback, key and watchdog are gone. *)
Lemma tm_removed now F s id k (d' : DecisionMaker Q) :
  tm_inv now F s -> keys s !! id = Some k -> removed now k id (dm s) d' ->
  tm_inv now F
    (tm_set_callbacks (delete id (cbs s))
      (tm_set_keys (delete id (keys s))
        (tm_set_dm d' (tm_set_watchdog (RemoveEvent (tm_watchdog_ s) id) s)))).
Proof.
  intros Hs Hk Hr.
  assert (Hl : live (dm s) (key_of k) id) by (apply (live_keys _ _ _ _ _ Hs); eauto).
  split; simpl.
  - apply Hr.
  - intros key i. rewrite (rm_live _ _ _ _ _ Hr), (live_keys _ _ _ _ _ Hs).
    destruct (decide (i = id)) as [->|Hne].
    + rewrite lookup_delete_eq, Hk. naive_solver.
    + rewrite lookup_delete_ne by done. naive_solver.
  - intros i. rewrite !lookup_delete_is_Some, (ti_dom _ _ _ Hs). done.
  - intros i cb. rewrite lookup_delete_Some. intros [_ Hi]. by apply (ti_remote _ _ _ Hs) in Hi.
  - intros i j c1 c2. rewrite !lookup_delete_Some. intros [_ Hi] [_ Hj].
    by apply (ti_distinct _ _ _ Hs).
  - intros i Hi. pose proof (watched_step _ _ _ _ Hs (rm_watch _ _ _ _ _ Hr) i Hi) as Hw.
    rewrite pending_remove. enough (i <> id) by set_solver. intros ->.
    apply running_live in Hi as [k' Hk']. apply (rm_live _ _ _ _ _ Hr) in Hk' as [Hk' Hne].
    apply Hne. f_equal. by apply (dm_inv_unique _ _ (ti_dm _ _ _ Hs) k' (key_of k) id).
  - intros i. rewrite pending_remove. intros [Hi Hne]%elem_of_difference.
    rewrite lookup_delete_ne by set_solver. by apply (ti_wd _ _ _ Hs).
  - eapply sessions_removed; try done; apply Hs.
Qed.

(** [removed] from the invariant of the manager. *)
Lemma tm_remove_spec now F s id k :
  tm_inv now F s -> keys s !! id = Some k ->
  removed now k id (dm s) (dm_RemoveRequest now (Some k) id (dm s)).
Proof.
  intros Hs Hk. apply dm_RemoveRequest_spec; [apply Hs|]. apply (live_keys _ _ _ _ _ Hs). eauto.
Qed.

Lemma Cancel_known now F s id k :
  tm_inv now F s -> keys s !! id = Some k ->
  let r := CancelSuspendDelayLocked now id s in
  r.1 = ERR_OK /\ tm_inv now F r.2 /\
  keys r.2 = delete id (keys s) /\ cbs r.2 = delete id (cbs s) /\
  removed now k id (dm s) (dm r.2).
Proof.
  intros Hs Hk. pose proof (tm_remove_spec _ _ _ _ _ Hs Hk) as Hr.
  pose proof (tm_removed _ _ _ _ _ _ Hs Hk Hr) as Hi.
  destruct (proj2 (ti_dom _ _ _ Hs id)) as [cb Hcb]; [by rewrite Hk|].
  unfold CancelSuspendDelayLocked. simpl. rewrite Hcb, Hk. split; [done|].
  destruct (AsObject cb); simpl; (split; [|done]); [|done].
  eapply tm_inv_same; [..|exact Hi]; done.
Qed.

(** An id that is not, or no longer, in the maps. *)
Lemma Cancel_unknown now F s id :
  tm_inv now F s -> keys s !! id = None ->
  let r := CancelSuspendDelayLocked now id s in
  r.1 = ERR_BGTASK_CALLBACK_NOT_EXIST /\ tm_inv now F r.2 /\
  keys r.2 = keys s /\ cbs r.2 = cbs s /\ dm r.2 = dm s.
Proof.
  intros Hs Hk.
  assert (Hc : cbs s !! id = None).
  { apply eq_None_not_Some. rewrite (ti_dom _ _ _ Hs), Hk. by intros []. }
  unfold CancelSuspendDelayLocked. simpl. rewrite Hc, Hk. cbn [fst snd].
  split; [done|]. split; [|split_and!; try done; by apply delete_id].
  split; simpl; rewrite ?(delete_id (keys s)) by done; try apply Hs.
  - intros i Hi%(ti_watched _ _ _ Hs). rewrite pending_remove.
    enough (i <> id \/ id ∉ pending (tm_watchdog_ s)) by set_solver.
    right. intros Hin%(ti_wd _ _ _ Hs). rewrite Hk in Hin. by destruct Hin.
  - intros i. rewrite pending_remove. intros [Hi _]%elem_of_difference. by apply (ti_wd _ _ _ Hs).
Qed.

Lemma Cancel_inv now F s id :
  tm_inv now F s -> tm_inv now F (CancelSuspendDelayLocked now id s).2.
Proof.
  intros Hs. destruct (keys s !! id) as [k|] eqn:E.
  - by apply (Cancel_known now F s id k).
  - by apply Cancel_unknown.
Qed.

Lemma Death_spec now F s r :
  tm_inv now F s ->
  let s' := HandleExpiredCallbackDeath now (Some r) s in
  tm_inv now F s' /\
  match find_callback (Some r) s with
  | None => s' = s
  | Some id => exists k, keys s !! id = Some k /\
      keys s' = delete id (keys s) /\ cbs s' = delete id (cbs s) /\ removed now k id (dm s) (dm s')
  end.
Proof.
  intros Hs. unfold HandleExpiredCallbackDeath.
  destruct (find_callback (Some r) s) as [id|] eqn:E; [|done].
  destruct (find_callback_Some _ _ _ E) as (cb & Hcb & _).
  destruct (proj1 (ti_dom _ _ _ Hs id)) as [k Hk]; [by rewrite Hcb|].
  simpl. rewrite Hk. pose proof (tm_remove_spec _ _ _ _ _ Hs Hk) as Hr.
  pose proof (tm_removed _ _ _ _ _ _ Hs Hk Hr) as Hi. cbn zeta.
  split; [|by exists k]. eapply tm_inv_same; [..|exact Hi]; done.
Qed.

(** ** Expiry *)
Lemma Expired_inv now F s id :
  tm_inv now ({[id]} ∪ F) s -> tm_inv now F (HandleRequestExpired id s).
Proof.
  intros Hs. unfold HandleRequestExpired.
  destruct (cbs s !! id) as [cb|] eqn:Ec.
  - destruct (proj1 (ti_dom _ _ _ Hs id)) as [k Hk]; [by rewrite Ec|]. simpl. rewrite Hk.
    split; simpl; try apply Hs.
    + intros i Hi%(ti_watched _ _ _ Hs). rewrite pending_send. set_solver.
    + intros i. rewrite pending_send. intros [->%elem_of_singleton|Hi]%elem_of_union; [by rewrite Hk|].
      by apply (ti_wd _ _ _ Hs).
  - split; try apply Hs. intros i Hi. pose proof (ti_watched _ _ _ Hs _ Hi) as Hw.
    enough (i <> id) by set_solver. intros ->.
    apply running_live in Hi as [key Hi]. apply (live_keys _ _ _ _ _ Hs) in Hi as (k & Hk & _).
    assert (is_Some (cbs s !! id)) as Hx by (apply (ti_dom _ _ _ Hs); by rewrite Hk).
    rewrite Ec in Hx. by destruct Hx.
Qed.

Lemma ForceCancel_spec now F s id :
  tm_inv now ({[id]} ∪ F) s ->
  let s' := ForceCancelSuspendDelay now id s in
  tm_inv now F s' /\ keys s' = delete id (keys s) /\ cbs s' = delete id (cbs s) /\
  (forall i, running (dm s') i -> i <> id).
Proof.
  intros Hs. unfold ForceCancelSuspendDelay. destruct (keys s !! id) as [k|] eqn:Hk.
  - destruct (Cancel_known now _ s id k Hs Hk) as (_ & Hi & Ek & Ec & Hr).
    assert (Hgone : forall i, running (dm (CancelSuspendDelayLocked now id s).2) i -> i <> id).
    { intros i Hru ->. apply running_live in Hru as [key Hl].
      apply (live_keys _ _ _ _ _ Hi) in Hl as (k' & Hk' & _).
      by rewrite Ek, lookup_delete_eq in Hk'. }
    split_and!; try done. split; try apply Hi.
    intros i Hru. pose proof (ti_watched _ _ _ Hi _ Hru). apply Hgone in Hru. set_solver.
  - assert (Hc : cbs s !! id = None).
    { apply eq_None_not_Some. rewrite (ti_dom _ _ _ Hs), Hk. by intros []. }
    assert (Hgone : forall i, running (dm s) i -> i <> id).
    { intros i Hru ->. apply running_live in Hru as [key Hl].
      apply (live_keys _ _ _ _ _ Hs) in Hl as (k' & Hk' & _). by rewrite Hk in Hk'. }
    split_and!; try done; [|by rewrite delete_id|by rewrite delete_id].
    split; try apply Hs. intros i Hru. pose proof (ti_watched _ _ _ Hs _ Hru).
    apply Hgone in Hru. set_solver.
Qed.

Lemma take_timer_inv now F s id :
  tm_inv now F s -> tm_inv now ({[id]} ∪ F) (take_timer id s).
Proof.
  intros Hs. pose proof (pending_take (dm_timers (dm s)) id) as Ht.
  split; simpl; try apply Hs.
  - apply dm_inv_Take, Hs.
  - intros i Hi%(ti_watched _ _ _ Hs). destruct (decide (i = id)); set_solver.
Qed.

Lemma take_watchdog_inv now F s id :
  tm_inv now F s -> tm_inv now ({[id]} ∪ F) (take_watchdog id s).
Proof.
  intros Hs. pose proof (pending_take (tm_watchdog_ s) id) as Ht.
  split; simpl; try apply Hs.
  - intros i Hi%(ti_watched _ _ _ Hs). destruct (decide (i = id)); set_solver.
  - intros i Hi. apply (ti_wd _ _ _ Hs). set_solver.
Qed.
End TMInv.
