(* ===== verification/TransientTaskMgrProps.v ===== *)
(** * The transient task manager: properties

    The interleavings of the manager's entry points, event runners and death
    notices as a step relation; the invariant in every reachable state; the
    refinement of the map of tasks; and the behaviour of each entry point. *)

From S2P Require Import Prelude.
From S2P Require Import Errors.
From S2P Require Import KeyInfo.
From S2P Require Import Interfaces.
From S2P Require Import DelaySuspendInfo.
From S2P Require Import PkgDelaySuspendInfo.
From S2P Require Import DeviceInfo.
From S2P Require Import DecisionMaker.
From S2P Require Import DecisionMakerSpec.
From S2P Require Import DecisionMakerProps.
From S2P Require Import TransientTaskMgr.
From S2P Require Import TransientTaskMgrSpec.
Local Open Scope Z_scope.

Section TMOps.
Context {sp : SystemParams} {cfg : TransientConfig} {ok : TransientParamsOk sp cfg}.
Context {actions : CommonEventActions} {sa : SystemAbilityIds} `{EventHandler Q}.
Implicit Types s : TransientTaskMgr Q.
Abbreviation dm := tm_decisionMaker_.
Abbreviation keys := tm_keyInfoMap_.
Abbreviation cbs := tm_expiredCallbackMap_.

Lemma tm_inv_weaken now (F G : gset Z) s : F ⊆ G -> tm_inv now F s -> tm_inv now G s.
Proof.
  intros HFG Hs. split; try apply Hs. intros i Hi%(ti_watched _ _ _ Hs). set_solver.
Qed.

Lemma tm_inv_mono now t F s : now <= t -> tm_inv now F s -> tm_inv t F s.
Proof. intros Ht Hs. split; try apply Hs. eapply dm_inv_mono; [done|apply Hs]. Qed.

Lemma tm_inv_new now : tm_inv now ∅ (new_TransientTaskMgr (Q := Q)).
Proof.
  pose proof (dm_inv_new (Q := Q) now) as Hd.
  assert (Hno : forall key id, ~ live (new_DecisionMaker (Q := Q)) key id).
  { intros key id (p & Hp & _). simpl in Hp. by rewrite lookup_empty in Hp. }
  split; simpl; try done.
  - intros key id. split; [by intros ?%Hno|]. intros (k & Hk & _). by rewrite lookup_empty in Hk.
  - intros id. by rewrite !lookup_empty.
  - intros id [key Hl]%running_live. by apply Hno in Hl.
  - intros id. rewrite pending_empty. set_solver.
  - intros key. exists false. split; [done|]. split; [done|]. by intros [id Hl%Hno].
Qed.

(** What a map of tasks looks like from outside: owner and callback by id. *)
Definition tasks s : gmap Z (KeyInfo * RemoteProxy) := map_zip (keys s) (cbs s).

Lemma tasks_same s s' : keys s' = keys s -> cbs s' = cbs s -> tasks s' = tasks s.
Proof. unfold tasks. by intros -> ->. Qed.

Lemma tasks_lookup now F s id :
  tm_inv now F s -> fst <$> tasks s !! id = keys s !! id.
Proof.
  intros Hs. unfold tasks. rewrite map_lookup_zip_with. pose proof (ti_dom _ _ _ Hs id) as Hd.
  destruct (keys s !! id) as [k|], (cbs s !! id) as [c|]; simpl; try done.
  exfalso. destruct (proj2 Hd) as [? ?]; eauto; done.
Qed.

(** ** Requests *)

(** Why [RequestSuspendDelay] refuses, if it does. *)
Definition request_error (ctx : CallCtx) (callback : option RemoteProxy) s : option Z :=
  if negb (tm_isReady_ s) then Some ERR_BGTASK_SYS_NOT_READY
  else if negb (VerifyCallingInfo (ctx_uid ctx) (ctx_pid ctx)) then Some ERR_BGTASK_INVALID_PID_OR_UID
  else match ctx_GetNameForUid ctx (ctx_uid ctx) with
  | None => Some ERR_BGTASK_INVALID_BUNDLE_NAME
  | Some name =>
      match callback with
      | None => Some ERR_BGTASK_INVALID_CALLBACK
      | Some cb =>
          if bool_decide (AsObject cb = None) then Some ERR_BGTASK_INVALID_CALLBACK
          else if bool_decide (is_Some (find_callback (AsObject cb) s))
          then Some ERR_BGTASK_CALLBACK_EXISTS
          else decide_error (ctx_env ctx) (mkKeyInfo name (ctx_uid ctx) (ctx_pid ctx)) (dm s)
      end
  end.

Lemma err_ne_ok (e : Z) (b : bool) :
  (e =? ERR_OK) = b -> e = ERR_BGTASK_NOT_IN_PRESET_TIME \/ e = ERR_BGTASK_EXCEEDS_THRESHOLD \/
    e = ERR_BGTASK_TIME_INSUFFICIENT -> b = false.
Proof. intros <- [-> | [-> | ->]]; reflexivity. Qed.

Lemma decide_error_values env key (d : DecisionMaker Q) e :
  decide_error env key d = Some e ->
  e = ERR_BGTASK_NOT_IN_PRESET_TIME \/ e = ERR_BGTASK_EXCEEDS_THRESHOLD \/
  e = ERR_BGTASK_TIME_INSUFFICIENT.
Proof. unfold decide_error, quota_error. repeat case_test; intros [= <-]; auto. Qed.

Lemma Request_spec ctx cb F s :
  let now := ctx_now ctx in
  let r := RequestSuspendDelay ctx cb s in
  0 < now -> tm_inv now F s -> dm_requestId_ (dm s) < int32_max ->
  r.1.1 = default ERR_OK (request_error ctx cb s) /\ tm_inv now F r.2 /\
  match request_error ctx cb s with
  | Some _ => tasks r.2 = tasks s
  | None => exists name c i,
      ctx_GetNameForUid ctx (ctx_uid ctx) = Some name /\ cb = Some c /\ r.1.2 = Some i /\
      let id := dm_requestId_ (dm s) in
      let key := mkKeyInfo name (ctx_uid ctx) (ctx_pid ctx) in
      tasks s !! id = None /\ tasks r.2 = <[id := (key, c)]> (tasks s) /\
      accepted (ctx_env ctx) (tm_deviceInfoManager_ s) key (dm s) (dm r.2) i
  end.
Proof.
  intros now r Hn Hs Hr. unfold r, RequestSuspendDelay, request_error, IsCallingInfoLegal.
  destruct (tm_isReady_ s); cbn [negb]; [|done].
  destruct (VerifyCallingInfo _ _); cbn [negb]; [|done].
  destruct (ctx_GetNameForUid ctx (ctx_uid ctx)) as [name|]; [|done].
  destruct cb as [c|]; [|done]. case_bool_decide as Hc; [done|].
  change (ERR_OK =? ERR_OK) with true. cbn [negb].
  destruct (bool_decide_reflect (is_Some (find_callback (AsObject c) s))) as [|Hf]; [done|].
  apply eq_None_not_Some in Hf.
  set (key := mkKeyInfo name (ctx_uid ctx) (ctx_pid ctx)).
  pose proof (Decide_spec (ctx_env ctx) (tm_deviceInfoManager_ s) key
    (new_DelaySuspendInfoEx (ctx_pid ctx)) (dm s) Hn (ti_dm _ _ _ Hs) eq_refl eq_refl) as [Hret Hd].
  destruct (Decide _ _ _ _ _) as [[ret info] d'] eqn:E. cbn [fst snd] in Hret, Hd. subst ret.
  destruct (decide_error (ctx_env ctx) key (dm s)) as [e|] eqn:Ee; cbn [default from_option id].
  - rewrite (err_ne_ok _ _ eq_refl (decide_error_values _ _ _ _ Ee)). cbn [negb fst snd].
    destruct Hd as (_ & Hi & He). split; [done|]. split; [|done].
    apply tm_keeps; [|done]. by intros _.
  - destruct Hd as (i & -> & _ & Ha). specialize (Ha Hr). change (ERR_OK =? ERR_OK) with true. cbn [negb].
    destruct (AsObject c) as [rm|] eqn:Erm; [|done].
    rewrite (ac_id _ _ _ _ _ _ Ha).
    destruct (tm_granted F (ctx_env ctx) (tm_deviceInfoManager_ s) key s d' i c)
      as (Hi & Hk & Hcb); try done; [by rewrite Erm|].
    cbn [fst snd]. split; [done|]. split; [eapply tm_inv_same; [..|exact Hi]; done|].
    exists name, c, i. split_and!; try done.
    + unfold tasks. rewrite map_lookup_zip_with, Hk. done.
    + unfold tasks. simpl. by rewrite <- map_insert_zip_with.
Qed.

(** ** The other entry points *)
Lemma Pause_inv ctx uid F s :
  let r := PauseTransientTaskTimeForInner ctx uid s in
  tm_inv (ctx_now ctx) F s -> tm_inv (ctx_now ctx) F r.2 /\ tasks r.2 = tasks s.
Proof.
  intros r Hs. unfold r, PauseTransientTaskTimeForInner.
  repeat (case_test; [done|]). destruct (ctx_GetNameForUid ctx uid) as [name|]; [|done].
  pose proof (tm_keeps _ F s _ (keeps_Pause (ctx_now ctx) uid name (dm s)) Hs) as Hi.
  destruct (dm_PauseTransientTaskTimeForInner _ _ _ _) as [ret d]. simpl in Hi. case_test; [done|].
  split; [|done]. eapply tm_inv_same; [..|exact Hi]; done.
Qed.

Lemma Start_inv ctx uid F s :
  let r := StartTransientTaskTimeForInner ctx uid s in
  0 < ctx_now ctx -> tm_inv (ctx_now ctx) F s -> tm_inv (ctx_now ctx) F r.2 /\ tasks r.2 = tasks s.
Proof.
  intros r Hn Hs. unfold r, StartTransientTaskTimeForInner.
  repeat (case_test; [done|]). destruct (ctx_GetNameForUid ctx uid) as [name|]; [|done].
  pose proof (tm_keeps _ F s _ (keeps_Start (tm_deviceInfoManager_ s) (ctx_now ctx) uid name (dm s) Hn) Hs) as Hi.
  destruct (dm_StartTransientTaskTimeForInner _ _ _ _ _) as [ret d]. simpl in Hi. case_test; [done|].
  split; [|done]. eapply tm_inv_same; [..|exact Hi]; done.
Qed.

Lemma HandleSuspendManagerDie_inv ctx F s :
  0 < ctx_now ctx -> tm_inv (ctx_now ctx) F s ->
  tm_inv (ctx_now ctx) F (HandleSuspendManagerDie ctx s) /\
  tasks (HandleSuspendManagerDie ctx s) = tasks s.
Proof.
  intros Hn Hs. unfold HandleSuspendManagerDie. case_test; [done|]. split; [|done].
  eapply (tm_inv_same _ _ (tm_set_dm _ s)); [done..|]. apply tm_keeps; [|done].
  apply keeps_fold. intros d uid. destruct (ctx_GetNameForUid ctx uid); [|apply keeps_refl].
  by apply keeps_Start.
Qed.

Lemma tm_OnReceiveEvent_inv ctx action code data F s s' :
  0 < ctx_now ctx -> tm_inv (ctx_now ctx) F s ->
  tm_OnReceiveEvent ctx action code data s = Some s' ->
  tm_inv (ctx_now ctx) F s' /\ tasks s' = tasks s.
Proof.
  intros Hn Hs. unfold tm_OnReceiveEvent, tm_listeners. cbn [RegisterEventListener app InputManager_ProcessEvent].
  destruct (dev_OnInputEvent _ _) as [dev|]; cbn [mbind option_bind]; [|done]. intros [= <-].
  split; [|done]. eapply (tm_inv_same _ _ (tm_set_dm _ s)); [done..|].
  apply tm_keeps; [|done]. by apply keeps_dm_OnInputEvent.
Qed.

Lemma dump_records_keeps ctx index l (d : DecisionMaker Q) :
  keeps (ctx_now ctx) d (dump_records ctx index l d).2.
Proof.
  revert index d. induction l as [|[id k] l IH]; intros index d; [apply keeps_refl|].
  cbn [dump_records]. unfold dump_record.
  pose proof (keeps_GetQuota (ctx_now ctx) (Some k) d) as Hq.
  destruct (dm_GetQuota _ _ _) as [quota d1]. specialize (IH (index + 1) d1).
  destruct (dump_records _ _ _ _) as [strs d2]. by eapply keeps_trans.
Qed.

Lemma ShellDump_inv ctx opts info F s :
  let r := ShellDump ctx opts info s in
  0 < ctx_now ctx -> tm_inv (ctx_now ctx) F s -> tm_inv (ctx_now ctx) F r.2 /\ tasks r.2 = tasks s.
Proof.
  intros r Hn Hs. unfold r, ShellDump. case_test; [done|].
  destruct (opts !! 1%nat) as [opt|]; [|done].
  repeat case_bool_decide; cbn [fst snd].
  - unfold DumpAllRequestId. case_test; [done|].
    pose proof (dump_records_keeps ctx 1 (sorted_entries (keys s)) (dm s)) as Hk.
    destruct (dump_records _ _ _ _). split; [|done]. by apply tm_keeps.
  - split; [|done]. eapply tm_inv_same; [..|exact Hs]; done.
  - split; [|done]. eapply tm_inv_same; [..|exact Hs]; done.
  - split; [|done]. eapply tm_inv_same; [..|exact Hs]; done.
  - unfold DumpTaskTime. destruct (opts !! 2%nat); [|done].
    pose proof (Pause_inv ctx (atoi s0) F s Hs) as Hp.
    destruct (PauseTransientTaskTimeForInner _ _ _). done.
  - unfold DumpTaskTime. destruct (opts !! 2%nat); [|done].
    pose proof (Start_inv ctx (atoi s0) F s Hn Hs) as Hp.
    destruct (StartTransientTaskTimeForInner _ _ _). done.
  - done.
Qed.

Lemma GetAllTransientTasks_inv ctx F s :
  let r := GetAllTransientTasks ctx s in
  tm_inv (ctx_now ctx) F s -> tm_inv (ctx_now ctx) F r.2 /\ tasks r.2 = tasks s.
Proof.
  intros r Hs. unfold r, GetAllTransientTasks. repeat (case_test; [done|]).
  destruct (ctx_GetNameForUid ctx (ctx_uid ctx)) as [name|]; [|done].
  pose proof (tm_keeps _ F s _
    (keeps_GetQuota (ctx_now ctx) (Some (mkKeyInfo name (ctx_uid ctx) (ctx_pid ctx))) (dm s)) Hs) as Hi.
  destruct (dm_GetQuota _ _ _) as [quota d]. done.
Qed.

Lemma tasks_Cancel now F s id :
  tm_inv now F s -> tasks (CancelSuspendDelayLocked now id s).2 = delete id (tasks s).
Proof.
  intros Hs. unfold tasks. destruct (keys s !! id) as [k|] eqn:Hk.
  - destruct (Cancel_known now F s id k Hs Hk) as (_ & _ & -> & -> & _).
    symmetry. apply map_delete_zip_with.
  - destruct (Cancel_unknown now F s id Hs Hk) as (_ & _ & -> & -> & _).
    rewrite delete_id; [done|]. by rewrite map_lookup_zip_with, Hk.
Qed.

Lemma cancel_all_spec now F ids s :
  tm_inv now F s ->
  tm_inv now F (cancel_all now ids s) /\
  tasks (cancel_all now ids s) = filter (fun e => e.1 ∉ ids) (tasks s).
Proof.
  revert s. induction ids as [|id ids IH]; intros s Hs.
  - split; [done|]. symmetry. apply map_filter_id. intros. simpl. set_solver.
  - change (cancel_all now (id :: ids) s)
      with (cancel_all now ids (CancelSuspendDelayLocked now id s).2).
    destruct (IH _ (Cancel_inv now F s id Hs)) as [Hi Ht]. split; [done|].
    rewrite Ht, (tasks_Cancel _ F) by done.
    apply map_eq. intros i. rewrite !map_lookup_filter.
    destruct (decide (i = id)) as [->|Hne].
    + rewrite lookup_delete_eq. destruct (tasks s !! id); simpl; [|done].
      rewrite option_guard_False; [done|]. set_solver.
    + rewrite lookup_delete_ne by done. destruct (tasks s !! i); simpl; [|done].
      destruct (decide (i ∈ ids)).
      * rewrite !option_guard_False; [done|set_solver|set_solver].
      * rewrite !option_guard_True; [done|set_solver|set_solver].
Qed.
End TMOps.

(** ** The system: manager, and events taken off the queues but not yet handled *)
Section System.
Context {sp : SystemParams} {cfg : TransientConfig} {ok : TransientParamsOk sp cfg}.
Context {actions : CommonEventActions} {sa : SystemAbilityIds} `{EventHandler Q}.
Implicit Types s : TransientTaskMgr Q.
Abbreviation dm := tm_decisionMaker_.
Abbreviation keys := tm_keyInfoMap_.
Abbreviation cbs := tm_expiredCallbackMap_.

Record Sys := mkSys {
  sys_tm : TransientTaskMgr Q;
  sys_timers : gset Z;       (* timer events being handled *)
  sys_watchdogs : gset Z;    (* watchdog events being handled *)
}.

Definition with_tm (S : Sys) s : Sys := mkSys s (sys_timers S) (sys_watchdogs S).

(** One step at time [now].  The steps of a handler that take a lock are
    atomic; taking an event off a queue and handling it are two steps, and so
    are reading the requests of a frozen application and cancelling them, so
    that the ids cancelled may be stale: [step_cancel_stale] allows any. *)
Inductive tm_step (now : Z) (S : Sys) : Sys -> Prop :=
| tstep_Request ctx cb :
    ctx_now ctx = now -> dm_requestId_ (dm (sys_tm S)) < int32_max ->
    tm_step now S (with_tm S (RequestSuspendDelay ctx cb (sys_tm S)).2)
| tstep_Cancel ctx id :
    ctx_now ctx = now -> tm_step now S (with_tm S (CancelSuspendDelay ctx id (sys_tm S)).2)
| tstep_GetAll ctx :
    ctx_now ctx = now -> tm_step now S (with_tm S (GetAllTransientTasks ctx (sys_tm S)).2)
| tstep_Pause ctx uid :
    ctx_now ctx = now -> tm_step now S (with_tm S (PauseTransientTaskTimeForInner ctx uid (sys_tm S)).2)
| tstep_Start ctx uid :
    ctx_now ctx = now -> tm_step now S (with_tm S (StartTransientTaskTimeForInner ctx uid (sys_tm S)).2)
| tstep_Dump ctx opts info :
    ctx_now ctx = now -> tm_step now S (with_tm S (ShellDump ctx opts info (sys_tm S)).2)
| tstep_Subscribe sub : tm_step now S (with_tm S (SubscribeBackgroundTask sub (sys_tm S)).2)
| tstep_Unsubscribe sub : tm_step now S (with_tm S (UnsubscribeBackgroundTask sub (sys_tm S)).2)
| tstep_SubscriberDeath r : tm_step now S (with_tm S (HandleSubscriberDeath r (sys_tm S)))
| tstep_CallbackDeath r : tm_step now S (with_tm S (HandleExpiredCallbackDeath now r (sys_tm S)))
| tstep_posted : tm_step now S (with_tm S (run_posted (sys_tm S)))
| tstep_cancel_stale ids : tm_step now S (with_tm S (cancel_all now ids (sys_tm S)))
| tstep_SuspendManagerDie ctx :
    ctx_now ctx = now -> tm_step now S (with_tm S (HandleSuspendManagerDie ctx (sys_tm S)))
| tstep_RemoveAbility i : tm_step now S (with_tm S (OnRemoveSystemAbility i (sys_tm S)))
| tstep_Event ctx action code data s' :
    ctx_now ctx = now -> tm_OnReceiveEvent ctx action code data (sys_tm S) = Some s' ->
    tm_step now S (with_tm S s')
| tstep_StateChanged name uid pid st :
    tm_step now S (with_tm S (tm_OnProcessStateChanged now name uid pid st (sys_tm S)))
| tstep_Died name uid pid :
    tm_step now S (with_tm S (tm_OnProcessDied now name uid pid (sys_tm S)))
| tstep_TimerTaken id :
    tm_step now S (mkSys (take_timer id (sys_tm S)) ({[id]} ∪ sys_timers S) (sys_watchdogs S))
| tstep_TimerHandled id :
    id ∈ sys_timers S ->
    tm_step now S (mkSys (HandleRequestExpired id (sys_tm S)) (sys_timers S ∖ {[id]}) (sys_watchdogs S))
| tstep_WatchdogTaken id :
    tm_step now S (mkSys (take_watchdog id (sys_tm S)) (sys_timers S) ({[id]} ∪ sys_watchdogs S))
| tstep_WatchdogHandled id k :
    id ∈ sys_watchdogs S ->
    tm_step now S (mkSys (Watchdog_ProcessEvent now id (Some k) (sys_tm S))
                     (sys_timers S) (sys_watchdogs S ∖ {[id]})).

Inductive tm_reachable : Z -> Sys -> Prop :=
| treach_init t : 0 < t -> tm_reachable t (mkSys new_TransientTaskMgr ∅ ∅)
| treach_time t t' S : tm_reachable t S -> t <= t' -> tm_reachable t' S
| treach_step t S S' : tm_reachable t S -> tm_step t S S' -> tm_reachable t S'.

Definition sys_inv (now : Z) (S : Sys) : Prop :=
  tm_inv now (sys_timers S ∪ sys_watchdogs S) (sys_tm S).

(** What the world sees of a step: a task added under a fresh id with a callback
    not in use, or tasks ended. *)
Inductive task_step (m : gmap Z (KeyInfo * RemoteProxy)) :
    gmap Z (KeyInfo * RemoteProxy) -> Prop :=
| ts_same : task_step m m
| ts_request id key cb :
    m !! id = None -> 1 <= id < int32_max -> is_Some (AsObject cb) ->
    (forall i e, m !! i = Some e -> AsObject e.2 <> AsObject cb) ->
    task_step m (<[id := (key, cb)]> m)
| ts_end (gone : list Z) : task_step m (filter (fun e => e.1 ∉ gone) m).

Lemma task_step_delete m id : task_step m (delete id m).
Proof.
  replace (delete id m) with (filter (fun e => e.1 ∉ [id]) m); [constructor|].
  apply map_eq. intros i. rewrite map_lookup_filter. destruct (decide (i = id)) as [->|Hne].
  - rewrite lookup_delete_eq. destruct (m !! id); simpl; [|done]. rewrite option_guard_False; set_solver.
  - rewrite lookup_delete_ne by done. destruct (m !! i); simpl; [|done].
    rewrite option_guard_True; set_solver.
Qed.

Lemma tasks_Expired id s : tasks (HandleRequestExpired id s) = tasks s.
Proof.
  apply tasks_same; unfold HandleRequestExpired; destruct (cbs s !! id); try done; simpl;
    by destruct (keys s !! id).
Qed.

(** Each step keeps the invariant and is a step of the task map. *)
Lemma tm_step_sound now S S' :
  0 < now -> sys_inv now S -> tm_step now S S' ->
  sys_inv now S' /\ task_step (tasks (sys_tm S)) (tasks (sys_tm S')).
Proof.
  intros Hn Hs Hstep. unfold sys_inv in *.
  set (F := sys_timers S ∪ sys_watchdogs S) in *.
  assert (Hsame : forall s', tm_inv now F s' /\ tasks s' = tasks (sys_tm S) ->
    tm_inv now F s' /\ task_step (tasks (sys_tm S)) (tasks s'))
    by (intros s' [Hi ->]; split; [done|constructor]).
  destruct Hstep as [ctx cb <- Hr|ctx id <-|ctx <-|ctx uid <-|ctx uid <-|ctx opts info <-|sub|sub|r|r| |ids|
    ctx <-|i|ctx action code data s' <- He|name uid pid st|name uid pid|id|id Hid|id|id k Hid]; simpl.
  - destruct (Request_spec ctx cb F (sys_tm S) Hn Hs Hr) as (_ & Hi & Ht). split; [done|].
    destruct (request_error ctx cb (sys_tm S)) eqn:Ee; [rewrite Ht; constructor|].
    destruct Ht as (name & c & i & _ & -> & _ & Hno & -> & Ha).
    pose proof (dm_inv_reqid _ _ (ti_dm _ _ _ Hs)).
    assert (Hc : AsObject c <> None /\ find_callback (AsObject c) (sys_tm S) = None).
    { unfold request_error in Ee. repeat case_test; try done.
      destruct (ctx_GetNameForUid ctx (ctx_uid ctx)); [|done]. repeat case_bool_decide; try done.
      split; [done|]. by apply eq_None_not_Some. }
    destruct Hc as [Hc1 Hc2]. constructor; [done|lia|by apply not_eq_None_Some|].
    intros j e Hj. unfold tasks in Hj. rewrite map_lookup_zip_with in Hj.
    destruct (keys (sys_tm S) !! j), (cbs (sys_tm S) !! j) eqn:Ej; simplify_eq/=.
    apply (proj1 (find_callback_None _ _) Hc2 j _ Ej).
  - unfold CancelSuspendDelay. repeat (case_test; [by apply Hsame|]).
    destruct (ctx_GetNameForUid ctx (ctx_uid ctx)); [|by apply Hsame].
    case_test; [by apply Hsame|]. split; [by apply Cancel_inv|].
    rewrite (tasks_Cancel _ F) by done. apply task_step_delete.
  - by apply Hsame, GetAllTransientTasks_inv.
  - by apply Hsame, Pause_inv.
  - by apply Hsame, Start_inv.
  - by apply Hsame, ShellDump_inv.
  - apply Hsame. unfold SubscribeBackgroundTask. destruct sub as [sub|]; [|done].
    destruct (AsObject sub); [|done]. case_test; [done|].
    split; [|done]. eapply tm_inv_same; [..|exact Hs]; done.
  - apply Hsame. unfold UnsubscribeBackgroundTask. destruct sub as [sub|]; [|done].
    destruct (AsObject sub); [|done]. case_test; [done|].
    split; [|done]. eapply tm_inv_same; [..|exact Hs]; done.
  - apply Hsame. unfold HandleSubscriberDeath. destruct r; [|done].
    split; [|done]. eapply tm_inv_same; [..|exact Hs]; done.
  - destruct r as [r|]; [|by apply Hsame].
    destruct (Death_spec now F (sys_tm S) r Hs) as [Hi Hd]. split; [done|].
    destruct (find_callback (Some r) (sys_tm S)) as [id|].
    + destruct Hd as (k & _ & E1 & E2 & _). unfold tasks. rewrite E1, E2.
      rewrite <- map_delete_zip_with. apply task_step_delete.
    + rewrite Hd. constructor.
  - apply Hsame. unfold run_posted. destruct (_ !! _) as [[a t]|]; [|done].
    split; [|done]. eapply tm_inv_same; [..|exact Hs]; done.
  - destruct (cancel_all_spec now F ids (sys_tm S) Hs) as [Hi ->]. split; [done|constructor].
  - by apply Hsame, HandleSuspendManagerDie_inv.
  - apply Hsame. unfold OnRemoveSystemAbility. repeat case_test; try done.
    split; [|done]. eapply tm_inv_same; [..|exact Hs]; done.
  - apply Hsame. by eapply tm_OnReceiveEvent_inv.
  - apply Hsame. split; [|done]. apply tm_keeps; [|done]. by apply keeps_OnProcessStateChanged.
  - apply Hsame. split; [|done]. apply tm_keeps; [|done]. by apply keeps_OnProcessDied.
  - split; [|constructor]. rewrite <- union_assoc_L. by apply take_timer_inv.
  - split.
    + apply Expired_inv. eapply tm_inv_weaken; [|exact Hs]. intros x Hx.
      destruct (decide (x = id)); set_solver.
    + rewrite tasks_Expired. constructor.
  - split; [|constructor]. replace (_ ∪ (_ ∪ _)) with ({[id]} ∪ F) by set_solver.
    by apply take_watchdog_inv.
  - destruct (ForceCancel_spec now (sys_timers S ∪ sys_watchdogs S ∖ {[id]}) (sys_tm S) id)
      as (Hi & E1 & E2 & _).
    { eapply tm_inv_weaken; [|exact Hs]. intros x Hx. destruct (decide (x = id)); set_solver. }
    split; [done|]. unfold tasks. rewrite E1, E2, <- map_delete_zip_with. apply task_step_delete.
Qed.

Lemma tm_reachable_inv t S : tm_reachable t S -> 0 < t /\ sys_inv t S.
Proof.
  induction 1 as [t Ht|t t' S _ [Hn IH] Ht|t S S' _ [Hn IH] Hstep].
  - split; [done|]. unfold sys_inv. simpl. rewrite union_empty_l_L. apply tm_inv_new.
  - split; [lia|]. by eapply tm_inv_mono.
  - split; [done|]. by eapply tm_step_sound.
Qed.
End System.

(** ** Properties *)
Section TMTheorems.
Context {sp : SystemParams} {cfg : TransientConfig} {ok : TransientParamsOk sp cfg}.
Context {actions : CommonEventActions} {sa : SystemAbilityIds} `{EventHandler Q}.
Implicit Types s : TransientTaskMgr Q.
Abbreviation dm := tm_decisionMaker_.
Abbreviation keys := tm_keyInfoMap_.
Abbreviation cbs := tm_expiredCallbackMap_.

(** The tasks of one application. *)
Definition tasks_of (key : PkgKey) s : gmap Z (KeyInfo * RemoteProxy) :=
  filter (fun e => key_of e.2.1 = key) (tasks s).

Lemma tasks_of_app now F s key :
  tm_inv now F s ->
  dom (tasks_of key s) = ids_of (pi_requestList_ (pkg_at (dm s) key)).
Proof.
  intros Hs. apply set_eq. intros id.
  unfold tasks_of. rewrite elem_of_dom, <- live_pkg_at, (live_keys _ _ _ _ _ Hs), map_lookup_filter.
  rewrite <- (tasks_lookup _ _ _ id Hs). destruct (tasks s !! id) as [[k c]|]; simpl.
  - case_guard; simpl; split; [eauto|eauto|by intros []|].
    intros (k' & [= <-] & Hk). done.
  - split; [by intros []|by intros (? & ? & _)].
Qed.

(** In every reachable state of the manager, whatever the interleaving of
    requests, cancellations, expiries, deaths and frozen applications, the keys
    and callbacks of the manager and the requests of the decision maker agree:
    each id with a key has a callback with a live remote object, no two ids
    share a callback, the key of an id names the application whose request it
    is, and no application holds more than three tasks. *)
Theorem tm_maps_agree t S :
  tm_reachable t S ->
  let s := sys_tm S in
  (forall id, is_Some (cbs s !! id) <-> is_Some (keys s !! id)) /\
  (forall i j c1 c2, cbs s !! i = Some c1 -> cbs s !! j = Some c2 ->
     AsObject c1 = AsObject c2 -> i = j) /\
  (forall key id, live (dm s) key id <-> exists k, keys s !! id = Some k /\ key_of k = key) /\
  (forall key, Z.of_nat (size (tasks_of key s)) <= MAX_REQUEST_ID).
Proof.
  intros Hr s. destruct (tm_reachable_inv _ _ Hr) as [_ Hs].
  split_and!; try apply Hs.
  intros key. rewrite <- (size_dom (D := gset Z)), (tasks_of_app _ _ s key Hs).
  destruct (pkg_at_inv t (dm s) key (ti_dm _ _ _ Hs)) as [Hp _].
  pose proof (pkg_len _ _ Hp) as Hl. unfold pi_GetRequestSize in Hl. unfold ids_of.
  rewrite size_list_to_set by apply Hp. by rewrite length_fmap.
Qed.

(** *** The way of a request to its end

    The steps of the two runners: an event that is queued is taken off, and one that was
    taken is handled. *)
Inductive queue_step (now : Z) (S : Sys) : Sys -> Prop :=
| qs_timer_taken id : id ∈ pending (dm_timers (dm (sys_tm S))) ->
    queue_step now S (mkSys (take_timer id (sys_tm S)) ({[id]} ∪ sys_timers S) (sys_watchdogs S))
| qs_timer_handled id : id ∈ sys_timers S ->
    queue_step now S (mkSys (HandleRequestExpired id (sys_tm S)) (sys_timers S ∖ {[id]}) (sys_watchdogs S))
| qs_watchdog_taken id : id ∈ pending (tm_watchdog_ (sys_tm S)) ->
    queue_step now S (mkSys (take_watchdog id (sys_tm S)) (sys_timers S) ({[id]} ∪ sys_watchdogs S))
| qs_watchdog_handled id k : id ∈ sys_watchdogs S ->
    queue_step now S (mkSys (Watchdog_ProcessEvent now id (Some k) (sys_tm S)) (sys_timers S) (sys_watchdogs S ∖ {[id]})).

Lemma queue_step_tm_step now S S' : queue_step now S S' -> tm_step now S S'.
Proof. by intros []; constructor. Qed.
Lemma queue_step_inv now S S' : 0 < now -> sys_inv now S -> queue_step now S S' -> sys_inv now S'.
Proof. intros Hn Hs Hq. by eapply tm_step_sound, queue_step_tm_step. Qed.

(** Steps of the runners alone end the task [id] and no other, and the manager has put out
    [out] on the way. *)
Definition brought_to_end (now : Z) (S : Sys) (id : Z) (out : list Effect) : Prop :=
  exists S', rtc (queue_step now) S S' /\ tasks (sys_tm S') = delete id (tasks (sys_tm S)) /\
    ~ running (dm (sys_tm S')) id /\ (tm_out (sys_tm S) ++ out) `prefix_of` tm_out (sys_tm S').

Lemma brought_step now S S1 id out1 out2 :
  queue_step now S S1 -> tasks (sys_tm S1) = tasks (sys_tm S) -> tm_out (sys_tm S1) = tm_out (sys_tm S) ++ out1 ->
  brought_to_end now S1 id out2 -> brought_to_end now S id (out1 ++ out2).
Proof.
  intros Hq Ht Ho (S' & Hs & Hd & Hr & Hp). exists S'. split; [by eapply rtc_l|].
  split; [by rewrite Hd, Ht|]. split; [done|]. by rewrite app_assoc, <- Ho.
Qed.

Lemma ForceCancel_out now id s : tm_out s `prefix_of` tm_out (ForceCancelSuspendDelay now id s).
Proof.
  unfold ForceCancelSuspendDelay, CancelSuspendDelayLocked. destruct (keys s !! id); [|done].
  cbn [tm_expiredCallbackMap_ tm_set_keys tm_set_dm tm_set_watchdog]. destruct (cbs s !! id) as [c|]; [|done].
  destruct (AsObject c); cbn; [by eexists|done].
Qed.

Lemma watchdog_handled_ends now S id : sys_inv now S -> id ∈ sys_watchdogs S -> brought_to_end now S id [].
Proof.
  intros Hs Hid. set (k := mkKeyInfo "" 0 0). eexists. split; [by apply rtc_once, (qs_watchdog_handled now S id k)|].
  destruct (ForceCancel_spec now (sys_timers S ∪ sys_watchdogs S ∖ {[id]}) (sys_tm S) id) as (_ & E1 & E2 & Hg).
  { eapply tm_inv_weaken; [|exact Hs]. intros x Hx. destruct (decide (x = id)); set_solver. }
  cbn [sys_tm Watchdog_ProcessEvent]. split; [unfold tasks; by rewrite E1, E2, <- map_delete_zip_with|].
  split; [by intros ?%Hg|]. rewrite app_nil_r. apply ForceCancel_out.
Qed.
Lemma watchdog_pending_ends now S id :
  0 < now -> sys_inv now S -> id ∈ pending (tm_watchdog_ (sys_tm S)) -> brought_to_end now S id [].
Proof.
  intros Hn Hs Hid. pose proof (qs_watchdog_taken now S id Hid) as Hq.
  apply (brought_step now S _ id [] [] Hq); [done|by rewrite app_nil_r|].
  apply watchdog_handled_ends; [by eapply queue_step_inv|]. cbn. set_solver.
Qed.
Lemma timer_handled_ends now S id k c :
  0 < now -> sys_inv now S -> id ∈ sys_timers S -> tasks (sys_tm S) !! id = Some (k, c) ->
  brought_to_end now S id [OnExpired c].
Proof.
  intros Hn Hs Hid Ht. pose proof (qs_timer_handled now S id Hid) as Hq.
  unfold tasks in Ht. rewrite map_lookup_zip_with in Ht.
  destruct (keys (sys_tm S) !! id) as [k'|] eqn:Ek, (cbs (sys_tm S) !! id) as [c'|] eqn:Ec; try done.
  injection Ht as -> ->.
  apply (brought_step now S _ id [OnExpired c] [] Hq); cbn [sys_tm]; [apply tasks_Expired| |].
  - unfold HandleRequestExpired. by rewrite Ec; cbn; rewrite Ek.
  - apply watchdog_pending_ends; [done|by eapply queue_step_inv|]. cbn [sys_tm].
    unfold HandleRequestExpired. rewrite Ec. cbn. rewrite Ek. cbn. rewrite pending_send. set_solver.
Qed.
Lemma timer_pending_ends now S id k c :
  0 < now -> sys_inv now S -> id ∈ pending (dm_timers (dm (sys_tm S))) -> tasks (sys_tm S) !! id = Some (k, c) ->
  brought_to_end now S id [OnExpired c].
Proof.
  intros Hn Hs Hid Ht. pose proof (qs_timer_taken now S id Hid) as Hq.
  apply (brought_step now S _ id [] [OnExpired c] Hq); [done|by rewrite app_nil_r|].
  eapply timer_handled_ends; [done|by eapply queue_step_inv| |exact Ht]. cbn. set_solver.
Qed.

(** C26. No task runs unwatched.  In every state reached while request ids are left, a request
    whose time is being accounted is a task, and either its timer is queued or being handled,
    or its watchdog is; and from there the handling of queued events alone, without any action
    of the application, ends it and no other task: on the way, where the timer was not yet
    handled, its callback is called. *)
Theorem every_running_request_is_watched t S id :
  tm_reachable t S -> running (dm (sys_tm S)) id ->
  exists k c, tasks (sys_tm S) !! id = Some (k, c) /\
    ((id ∈ pending (dm_timers (dm (sys_tm S))) \/ id ∈ sys_timers S) /\ brought_to_end t S id [OnExpired c] \/
     (id ∈ pending (tm_watchdog_ (sys_tm S)) \/ id ∈ sys_watchdogs S) /\ brought_to_end t S id []).
Proof.
  intros Hr Hid. destruct (tm_reachable_inv _ _ Hr) as [Hn Hs].
  pose proof (ti_watched _ _ _ Hs _ Hid) as Hw. apply running_live in Hid as [key Hl].
  apply (live_keys _ _ _ _ _ Hs) in Hl as (k & Hk & _).
  destruct (proj2 (ti_dom _ _ _ Hs id)) as [c Hc]; [by rewrite Hk|].
  assert (tasks (sys_tm S) !! id = Some (k, c)) as Ht by (unfold tasks; by rewrite map_lookup_zip_with, Hk, Hc).
  exists k, c. split; [exact Ht|].
  assert (id ∈ pending (dm_timers (dm (sys_tm S))) \/ id ∈ sys_timers S \/
    id ∈ pending (tm_watchdog_ (sys_tm S)) \/ id ∈ sys_watchdogs S) as [?|[?|[?|?]]] by set_solver; [left|left|right|right].
  - split; [by left|]. by eapply timer_pending_ends.
  - split; [by right|]. by eapply timer_handled_ends.
  - split; [by left|]. by apply watchdog_pending_ends.
  - split; [by right|]. by apply watchdog_handled_ends.
Qed.

(** For each application, the notifications posted to the subscribers
    alternate APP_TASK_START and APP_TASK_END, beginning with a start, and the
    last one posted is a start exactly when the application holds a request. *)
Theorem app_notifications_alternate t S key :
  tm_reachable t S ->
  exists b, session key false (dm_posted (dm (sys_tm S))) = Some b /\
    (b = true <-> exists id, live (dm (sys_tm S)) key id).
Proof. intros Hr. destruct (tm_reachable_inv _ _ Hr) as [_ Hs]. apply (ti_sessions _ _ _ Hs). Qed.

(** C3. Refinement, while request ids are left (the counter stays below INT_MAX, from which
    it would start again at 1, an id a task may still have): seen through the map from
    task ids to owner and callback, every step of the manager from a state so reached leaves
    the map alone, adds one task under an unused positive 32-bit id with a callback no other
    task uses, or ends tasks. *)
Theorem tm_refines_task_map t S S' :
  tm_reachable t S -> tm_step t S S' ->
  task_step (tasks (sys_tm S)) (tasks (sys_tm S')).
Proof.
  intros Hr Hstep. destruct (tm_reachable_inv _ _ Hr) as [Hn Hs].
  by apply (tm_step_sound t S S').
Qed.

(** C38. [RequestSuspendDelay] returns exactly the first error of its checks
    (service not ready, caller, bundle name, callback, callback in use, and the
    decision); on error the tasks are untouched, and on success the task is
    added under the new id with the caller's key and callback. *)
Theorem RequestSuspendDelay_correct ctx cb F s :
  0 < ctx_now ctx -> tm_inv (ctx_now ctx) F s -> dm_requestId_ (dm s) < int32_max ->
  let r := RequestSuspendDelay ctx cb s in
  r.1.1 = default ERR_OK (request_error ctx cb s) /\ tm_inv (ctx_now ctx) F r.2 /\
  match request_error ctx cb s with
  | Some _ => tasks r.2 = tasks s
  | None => exists name c i,
      ctx_GetNameForUid ctx (ctx_uid ctx) = Some name /\ cb = Some c /\ r.1.2 = Some i /\
      let id := dm_requestId_ (dm s) in
      let key := mkKeyInfo name (ctx_uid ctx) (ctx_pid ctx) in
      tasks s !! id = None /\ tasks r.2 = <[id := (key, c)]> (tasks s) /\
      accepted (ctx_env ctx) (tm_deviceInfoManager_ s) key (dm s) (dm r.2) i
  end.
Proof. intros Hn Hs Hr r. by apply Request_spec. Qed.

(** Only its own application can cancel a task: for a legal caller,
    [CancelSuspendDelay] succeeds exactly when the id names a task whose package
    and uid are the caller's (whichever process made it); it then ends that task
    and only it, disarms its timer and watchdog and unlinks its death recipient.
    Otherwise it returns ERR_BGTASK_INVALID_REQUEST_ID and changes nothing. *)
Theorem CancelSuspendDelay_correct ctx id name F s :
  let r := CancelSuspendDelay ctx id s in
  tm_inv (ctx_now ctx) F s -> tm_isReady_ s = true ->
  VerifyCallingInfo (ctx_uid ctx) (ctx_pid ctx) = true ->
  ctx_GetNameForUid ctx (ctx_uid ctx) = Some name ->
  (r.1 = ERR_OK <-> exists k c, tasks s !! id = Some (k, c) /\ key_of k = (name, ctx_uid ctx)) /\
  (r.1 <> ERR_OK -> r = (ERR_BGTASK_INVALID_REQUEST_ID, s)) /\
  (r.1 = ERR_OK -> tasks r.2 = delete id (tasks s) /\ tm_inv (ctx_now ctx) F r.2 /\
     (id ∉ pending (dm_timers (dm r.2))) /\ (id ∉ pending (tm_watchdog_ r.2)) /\
     exists rm, tm_out r.2 = tm_out s ++ [RemoveDeathRecipient rm]).
Proof.
  intros r Hs Hready Hcall Hname.
  assert (Hver : VerifyRequestIdLocked name (ctx_uid ctx) id s = true <->
    exists k c, tasks s !! id = Some (k, c) /\ key_of k = (name, ctx_uid ctx)).
  { unfold VerifyRequestIdLocked. rewrite <- (tasks_lookup _ _ _ id Hs).
    destruct (tasks s !! id) as [[k c]|]; simpl.
    - rewrite KeyInfo_IsEqual_spec. split; [eauto|]. by intros (k' & c' & [= <- <-] & ?).
    - split; [done|]. by intros (? & ? & ? & _). }
  unfold r, CancelSuspendDelay. rewrite Hready, Hcall, Hname. cbn [negb].
  destruct (VerifyRequestIdLocked name (ctx_uid ctx) id s) eqn:Ev; cbn [negb].
  - destruct (proj1 Hver eq_refl) as (k & c & Ht & Hk).
    assert (Hkey : keys s !! id = Some k) by (by rewrite <- (tasks_lookup _ _ _ id Hs), Ht).
    destruct (Cancel_known _ F s id k Hs Hkey) as (E & Hi & _ & _ & Hr).
    split; [by split; intros _; [eauto 10|]|]. split; [by intros Hne; destruct (Hne E)|].
    intros _. split; [by eapply tasks_Cancel|].
    split_and!; [done|apply Hr| |]; unfold CancelSuspendDelayLocked; simpl;
      destruct (proj2 (ti_dom _ _ _ Hs id)) as [cb Hcb]; try (by rewrite Hkey); rewrite Hcb;
      destruct (ti_remote _ _ _ Hs _ _ Hcb) as [rm Hrm]; rewrite Hrm; simpl; [|eauto].
    rewrite pending_remove. set_solver.
  - split; [|split; [done|done]]. split; [done|]. by intros Hx%Hver.
Qed.

(** When a timer expires for a task that still exists, its callback is
    called, once, and its watchdog is armed; when the watchdog's event is then
    handled the task is ended, whatever happened in between, and it no longer
    runs.  For a task that is gone neither does anything to the other tasks. *)
Theorem expiry_ends_task now F s id :
  tm_inv now ({[id]} ∪ F) s ->
  let s1 := HandleRequestExpired id s in
  tm_inv now F s1 /\ tasks s1 = tasks s /\
  (forall k c, tasks s !! id = Some (k, c) ->
     tm_out s1 = tm_out s ++ [OnExpired c] /\ id ∈ pending (tm_watchdog_ s1)) /\
  (tasks s !! id = None -> s1 = s) /\
  forall t G s2 k, tm_inv t ({[id]} ∪ G) s2 ->
    let s3 := Watchdog_ProcessEvent t id (Some k) s2 in
    tm_inv t G s3 /\ tasks s3 = delete id (tasks s2) /\ ~ running (dm s3) id.
Proof.
  intros Hs s1. split; [by apply Expired_inv|]. split; [apply tasks_Expired|].
  split; [|split].
  - intros k c. unfold tasks. rewrite map_lookup_zip_with. unfold s1, HandleRequestExpired.
    destruct (keys s !! id) as [k'|] eqn:Ek, (cbs s !! id) as [c'|] eqn:Ec; try done.
    intros [= -> ->]. simpl. rewrite Ek. split; [done|]. simpl. rewrite pending_send. set_solver.
  - unfold tasks. rewrite map_lookup_zip_with. unfold s1, HandleRequestExpired.
    pose proof (ti_dom _ _ _ Hs id) as Hd.
    destruct (cbs s !! id) as [c'|] eqn:Ec; [|done].
    destruct (proj1 Hd) as [k' Hk]; [by eexists|]. by rewrite Hk.
  - intros t G s2 k Hs2 s3. destruct (ForceCancel_spec t G s2 id Hs2) as (Hi & E1 & E2 & Hg).
    split; [done|]. split; [|by intros ?%Hg].
    unfold s3, tasks, Watchdog_ProcessEvent. rewrite E1, E2. symmetry. apply map_delete_zip_with.
Qed.

(** The death of a callback's process ends exactly the task that registered
    the callback: a task is ended by the notice of [r] if and only if its
    callback is [r], and the request is gone from the decision maker too. *)
Theorem callback_death_ends_task now F s r :
  tm_inv now F s ->
  let s' := HandleExpiredCallbackDeath now (Some r) s in
  tm_inv now F s' /\
  tasks s' = filter (fun e => AsObject e.2.2 <> Some r) (tasks s).
Proof.
  intros Hs s'. destruct (Death_spec now F s r Hs) as [Hi Hd]. fold s' in Hi, Hd. split; [done|].
  destruct (find_callback (Some r) s) as [id|] eqn:Ef.
  - destruct Hd as (k & Hk & E1 & E2 & _).
    destruct (find_callback_Some _ _ _ Ef) as (c & Hc & Hrm).
    unfold tasks. rewrite E1, E2. apply map_eq. intros i.
    rewrite map_lookup_filter, !map_lookup_zip_with.
    destruct (decide (i = id)) as [->|Hne].
    + rewrite !lookup_delete_eq, Hk, Hc. simpl. by rewrite option_guard_False by naive_solver.
    + rewrite !lookup_delete_ne by done.
      destruct (keys s !! i), (cbs s !! i) as [c'|] eqn:Ec; simpl; try done.
      rewrite option_guard_True; [done|]. simpl. intros Hx. apply Hne.
      apply (ti_distinct _ _ _ Hs i id c' c); [done|done|congruence].
  - rewrite Hd. symmetry. apply map_filter_id. intros i [k c]. unfold tasks.
    rewrite map_lookup_zip_with. simpl.
    destruct (keys s !! i), (cbs s !! i) as [c'|] eqn:Ec; simpl; intros [= <- <-].
    by apply (proj1 (find_callback_None _ _) Ef i).
Qed.

(** When an application is frozen, all its tasks are ended and no task of
    another application is. *)
Theorem OnAppCacheStateChanged_ends_app now F s uid pid name :
  tm_inv now F s -> tm_isReady_ s = true -> VerifyCallingInfo uid pid = true ->
  let s' := OnAppCacheStateChanged now uid pid name s in
  tm_inv now F s' /\ tasks s' = filter (fun e => key_of e.2.1 <> (name, uid)) (tasks s).
Proof.
  intros Hs Hready Hcall s'. unfold s', OnAppCacheStateChanged. rewrite Hready, Hcall. cbn [negb].
  set (ids := GetRequestIdListByKey _ _).
  assert (Hids : forall id, id ∈ ids <-> live (dm s) (name, uid) id).
  { intros id. rewrite live_pkg_at. unfold ids, GetRequestIdListByKey, pkg_at.
    change (key_of _) with (name, uid). unfold ids_of.
    destruct (_ !! _) as [p|]; simpl; set_solver. }
  assert (Hf : filter (fun e => e.1 ∉ ids) (tasks s) =
               filter (fun e => key_of e.2.1 <> (name, uid)) (tasks s)).
  { apply map_filter_ext. intros id [k c] Ht. simpl. rewrite Hids, (live_keys _ _ _ _ _ Hs).
    pose proof (tasks_lookup _ _ _ id Hs) as Hl. rewrite Ht in Hl. simpl in Hl. rewrite <- Hl.
    split; [intros Hn Hk; apply Hn; eauto|]. intros Hn (k' & [= <-] & ?). done. }
  rewrite <- Hf. case_bool_decide as He; [|by apply cancel_all_spec].
  split; [done|]. rewrite He. symmetry. apply map_filter_id. intros. simpl. set_solver.
Qed.

Lemma fold_apps (l : list (Z * KeyInfo)) acc (key : PkgKey) :
  NoDup ((fun a => (ai_packageName_ a, ai_uid_ a)) <$> acc) ->
  let apps := fold_left (fun list e =>
     if existsb (fun info => bool_decide (KeyInfo_GetPkg e.2 = ai_packageName_ info)
                             && (KeyInfo_GetUid e.2 =? ai_uid_ info)) list
     then list
     else list ++ [mkAppInfo (KeyInfo_GetPkg e.2) (KeyInfo_GetUid e.2) AI_DEFAULT_PID]) l acc in
  NoDup ((fun a => (ai_packageName_ a, ai_uid_ a)) <$> apps) /\
  (key ∈ (fun a => (ai_packageName_ a, ai_uid_ a)) <$> apps <->
   key ∈ (fun a => (ai_packageName_ a, ai_uid_ a)) <$> acc \/ exists e, e ∈ l /\ key_of e.2 = key).
Proof.
  revert acc. induction l as [|e l IH]; intros acc Hnd; cbn [fold_left].
  - split; [done|]. split; [by left|]. intros [?|(e & He & _)]; [done|]. by apply not_elem_of_nil in He.
  - assert (Hex : existsb (fun info => bool_decide (KeyInfo_GetPkg e.2 = ai_packageName_ info)
         && (KeyInfo_GetUid e.2 =? ai_uid_ info)) acc = true <->
         key_of e.2 ∈ (fun a => (ai_packageName_ a, ai_uid_ a)) <$> acc).
    { rewrite existsb_exists, list_elem_of_fmap. setoid_rewrite andb_true_iff.
      setoid_rewrite bool_decide_eq_true. setoid_rewrite Z.eqb_eq.
      setoid_rewrite <- list_elem_of_In. unfold key_of, KeyInfo_GetPkg, KeyInfo_GetUid.
      split; intros (a & ?); exists a; intuition congruence. }
    destruct (existsb _ acc) eqn:E.
    + destruct (IH acc Hnd) as [H1 H2]. split; [done|]. rewrite H2.
      setoid_rewrite elem_of_cons. split; [naive_solver|].
      intros [?|(e' & [->|He] & Hk)]; [by left| |right; eauto].
      left. rewrite <- Hk. by apply Hex.
    + destruct (IH (acc ++ [mkAppInfo (KeyInfo_GetPkg e.2) (KeyInfo_GetUid e.2) AI_DEFAULT_PID]))
        as [H1 H2].
      { rewrite fmap_app. apply NoDup_app. split; [done|]. split; [|apply NoDup_singleton].
        intros x Hx ->%list_elem_of_singleton. by apply Hex in Hx. }
      split; [done|]. rewrite H2, fmap_app, elem_of_app. simpl. rewrite list_elem_of_singleton.
      split.
      * intros [[?|Hk]|(e' & He & Hk)]; [by left| |].
        -- right. exists e. split; [left|by rewrite Hk].
        -- right. exists e'. split; [by right|done].
      * intros [?|(e' & He & Hk)]; [by left; left|].
        apply elem_of_cons in He as [->|He]; [left; right; by rewrite <- Hk|right; eauto].
Qed.

(** [GetTransientTaskApps] lists each application that holds a task once, and
    no other application. *)
Theorem GetTransientTaskApps_correct s (key : PkgKey) :
  let apps := (fun a => (ai_packageName_ a, ai_uid_ a)) <$> (GetTransientTaskApps s).2 in
  NoDup apps /\ (key ∈ apps <-> exists id k, keys s !! id = Some k /\ key_of k = key).
Proof.
  destruct (fold_apps (sorted_entries (keys s)) [] key (NoDup_nil_2)) as [H1 H2].
  intros apps. split; [exact H1|]. unfold apps, GetTransientTaskApps. simpl snd. rewrite H2. split.
  - intros [He|([id k] & He & Hk)]; [by apply not_elem_of_nil in He|].
    apply elem_of_sorted_entries in He. eauto.
  - intros (id & k & Hl & Hk). right. exists (id, k). by rewrite elem_of_sorted_entries.
Qed.
End TMTheorems.
