(* ===== verification/TransientTaskMgrWitness.v ===== *)
(** * The transient task manager on concrete inputs *)

From S2P Require Import Prelude.
From S2P Require Import Errors.
From S2P Require Import KeyInfo.
From S2P Require Import Interfaces.
From S2P Require Import DelaySuspendInfo.
From S2P Require Import PkgDelaySuspendInfo.
From S2P Require Import DeviceInfo.
From S2P Require Import DecisionMaker.
From S2P Require Import DecisionMakerSpec.
From S2P Require Import DecisionMakerProps.
From S2P Require Import DecisionMakerWitness.
From S2P Require Import TransientTaskMgr.
From S2P Require Import TransientTaskMgrSpec.
From S2P Require Import TransientTaskMgrProps.
Local Open Scope Z_scope.

#[local] Existing Instance default_params.
#[local] Existing Instance plain_config.
#[local] Existing Instance default_params_ok.
#[local] Existing Instance ListQueue.list_queue.

#[local] Program Instance demo_actions : CommonEventActions := {|
  COMMON_EVENT_SCREEN_ON := "usual.event.SCREEN_ON";
  COMMON_EVENT_SCREEN_OFF := "usual.event.SCREEN_OFF";
  COMMON_EVENT_SCREEN_UNLOCKED := "usual.event.SCREEN_UNLOCKED";
  COMMON_EVENT_BATTERY_LOW := "usual.event.BATTERY_LOW";
  COMMON_EVENT_BATTERY_OKAY := "usual.event.BATTERY_OKAY";
|}.
Next Obligation. apply (bool_decide_unpack _). vm_compute. exact I. Qed.
#[local] Instance demo_abilities : SystemAbilityIds := {| SUSPEND_MANAGER_SYSTEM_ABILITY_ID := 1 |}.

Definition demo_ctx (now : Z) : CallCtx :=
  mkCtx 100 7 "resource_schedule_service" (fun _ => Some "app"%string) (fun _ => true) (demo_env now).
Definition demo_cb : RemoteProxy := mkProxy (Some 55).
Definition demo_tm0 : TransientTaskMgr ListQueue.queue := new_TransientTaskMgr.

(** One task of ("app", 100), id 1, callback 55. *)
Definition demo_tm1 : TransientTaskMgr ListQueue.queue :=
  (RequestSuspendDelay (demo_ctx 1000) (Some demo_cb) demo_tm0).2.
Definition demo_sys0 : Sys (Q := ListQueue.queue) := mkSys demo_tm0 ∅ ∅.
Definition demo_sys1 : Sys := with_tm demo_sys0 demo_tm1.

Lemma demo_step : tm_step 1000 demo_sys0 demo_sys1.
Proof. by apply (tstep_Request 1000 demo_sys0 (demo_ctx 1000) (Some demo_cb)). Qed.

Lemma demo_sys0_reachable : tm_reachable 1000 demo_sys0.
Proof. by apply (treach_init 1000). Qed.
Lemma demo_sys1_reachable : tm_reachable 1000 demo_sys1.
Proof. eapply treach_step; [apply demo_sys0_reachable|apply demo_step]. Qed.

Lemma demo_tm1_inv now F : 1000 <= now -> tm_inv now F demo_tm1.
Proof.
  intros Ht. eapply tm_inv_mono; [done|]. destruct (tm_reachable_inv _ _ demo_sys1_reachable) as [_ Hs].
  eapply tm_inv_weaken; [|exact Hs]. simpl. set_solver.
Qed.

Lemma demo_key1 : tm_keyInfoMap_ demo_tm1 !! 1 = Some demo_key.
Proof. reflexivity. Qed.
Lemma demo_task1 : tasks demo_tm1 !! 1 = Some (demo_key, demo_cb).
Proof. reflexivity. Qed.
Lemma demo_live1 : live (tm_decisionMaker_ demo_tm1) (key_of demo_key) 1.
Proof. eexists. split; [vm_compute; reflexivity|]. vm_compute. set_solver. Qed.
Lemma demo_running1 : running (tm_decisionMaker_ demo_tm1) 1.
Proof. exists (key_of demo_key). eexists. split; [vm_compute; reflexivity|]. vm_compute. set_solver. Qed.

Lemma tm_maps_agree_witness :
  exists k, tm_keyInfoMap_ demo_tm1 !! 1 = Some k /\ key_of k = key_of demo_key.
Proof.
  destruct (tm_maps_agree 1000 demo_sys1 demo_sys1_reachable) as (_ & _ & Hl & _).
  apply Hl, demo_live1.
Defined.

Lemma every_running_request_is_watched_witness :
  exists out, brought_to_end 1000 demo_sys1 1 out.
Proof.
  destruct (every_running_request_is_watched 1000 demo_sys1 1 demo_sys1_reachable demo_running1)
    as (k & c & _ & [[_ Hb]|[_ Hb]]); by eexists.
Defined.

Lemma app_notifications_alternate_witness :
  exists b, session (key_of demo_key) false (dm_posted (tm_decisionMaker_ demo_tm1)) = Some b /\ b = true.
Proof.
  destruct (app_notifications_alternate 1000 demo_sys1 (key_of demo_key) demo_sys1_reachable)
    as (b & Hb & Hl).
  exists b. split; [exact Hb|]. apply Hl. exists 1. apply demo_live1.
Defined.

Lemma tm_refines_task_map_witness : task_step (tasks demo_tm0) (tasks demo_tm1).
Proof. apply (tm_refines_task_map 1000 demo_sys0 demo_sys1 demo_sys0_reachable demo_step). Defined.

Lemma RequestSuspendDelay_correct_witness :
  (RequestSuspendDelay (demo_ctx 2000) (Some demo_cb) demo_tm1).1.1 = ERR_BGTASK_CALLBACK_EXISTS /\
  tasks (RequestSuspendDelay (demo_ctx 2000) (Some demo_cb) demo_tm1).2 = tasks demo_tm1.
Proof.
  destruct (RequestSuspendDelay_correct (demo_ctx 2000) (Some demo_cb) ∅ demo_tm1) as (E & _ & Ht);
    [done | by apply demo_tm1_inv | done |].
  change (request_error _ _ _) with (Some ERR_BGTASK_CALLBACK_EXISTS) in E, Ht. split; [exact E|exact Ht].
Defined.

Lemma CancelSuspendDelay_correct_witness :
  (CancelSuspendDelay (demo_ctx 2000) 1 demo_tm1).1 = ERR_OK.
Proof.
  destruct (CancelSuspendDelay_correct (demo_ctx 2000) 1 "app" ∅ demo_tm1) as (Hok & _);
    [by apply demo_tm1_inv | done | done | done |].
  apply Hok. exists demo_key, demo_cb. split; [apply demo_task1|done].
Defined.

Lemma expiry_ends_task_witness :
  tm_out (HandleRequestExpired 1 demo_tm1) = tm_out demo_tm1 ++ [OnExpired demo_cb].
Proof.
  destruct (expiry_ends_task 2000 ∅ demo_tm1 1) as (_ & _ & Hc & _); [by apply demo_tm1_inv|].
  by apply (Hc demo_key demo_cb), demo_task1.
Defined.

Lemma callback_death_ends_task_witness :
  tasks (HandleExpiredCallbackDeath 2000 (Some 55) demo_tm1) =
  filter (fun e => AsObject e.2.2 <> Some 55) (tasks demo_tm1).
Proof.
  destruct (callback_death_ends_task 2000 ∅ demo_tm1 55) as (_ & Ht); [by apply demo_tm1_inv|].
  exact Ht.
Defined.

Lemma OnAppCacheStateChanged_ends_app_witness :
  tasks (OnAppCacheStateChanged 2000 100 7 "app" demo_tm1) =
  filter (fun e => key_of e.2.1 <> ("app"%string, 100)) (tasks demo_tm1).
Proof.
  destruct (OnAppCacheStateChanged_ends_app 2000 ∅ demo_tm1 100 7 "app") as (_ & Ht);
    [by apply demo_tm1_inv | done | done |]. exact Ht.
Defined.
