(* ===== verification/ResourceTypes.v ===== *)
(** * Resource types, requests and records of efficiency resources

    [ResourceType], [EfficiencyResourcesCpuLevel], [EfficiencyResourceInfo] and
    [ResourceCallbackInfo] of interfaces/innerkits, [PersistTime] and
    [ResourceApplicationRecord] of src/services/efficiency_resources
    (resource_application_record.h and .cpp).  A set of resource kinds is a
    [uint32_t] with one bit per kind. *)

From S2P Require Import Prelude.
Local Open Scope Z_scope.

(** ** Kinds *)
Module ResourceType.
Definition CPU : Z := 1.
Definition COMMON_EVENT : Z := Z.shiftl 1 1.
Definition TIMER : Z := Z.shiftl 1 2.
Definition WORK_SCHEDULER : Z := Z.shiftl 1 3.
Definition BLUETOOTH : Z := Z.shiftl 1 4.
Definition GPS : Z := Z.shiftl 1 5.
Definition AUDIO : Z := Z.shiftl 1 6.
Definition RUNNING_LOCK : Z := Z.shiftl 1 7.
Definition SENSOR : Z := Z.shiftl 1 8.
End ResourceType.

Definition ResourceTypeName : list string :=
  ["CPU"%string; "COMMON_EVENT"%string; "TIMER"%string; "WORK_SCHEDULER"%string;
   "BLUETOOTH"%string; "GPS"%string; "AUDIO"%string; "RUNNING_LOCK"%string; "SENSOR"%string].

Definition MAX_RESOURCES_TYPE_NUM : Z := Z.of_nat (length ResourceTypeName).
Definition MAX_RESOURCE_MASK : Z := Z.shiftl 1 MAX_RESOURCES_TYPE_NUM - 1.

(** ** CPU levels; the enumeration's underlying type is [int32_t]. *)
Definition CPU_LEVEL_DEFAULT : Z := -1.
Definition SMALL_CPU : Z := 0.
Definition MEDIUM_CPU : Z := 1.
Definition LARGE_CPU : Z := 2.
Definition CPU_LEVEL_END : Z := 3.

Definition IsCpuLevelValid (cpuLevel : Z) : bool :=
  (cpuLevel >=? CPU_LEVEL_DEFAULT) && (cpuLevel <? CPU_LEVEL_END).

Definition GetEfficiencyResourcesCpuLevelStr (level : Z) : string :=
  if level =? CPU_LEVEL_DEFAULT then "default"
  else if level =? SMALL_CPU then "smallCPU"
  else if level =? MEDIUM_CPU then "mediumCPU"
  else if level =? LARGE_CPU then "largeCPU"
  else if level =? CPU_LEVEL_END then "end"
  else "default".

(** What every [SetCpuLevel] stores. *)
Definition valid_level (cpuLevel : Z) : Z :=
  if IsCpuLevelValid cpuLevel then cpuLevel else CPU_LEVEL_DEFAULT.

(** ** Requests *)
Record EfficiencyResourceInfo := mkInfo {
  inf_resourceNumber_ : Z;   (* uint32_t *)
  inf_isApply_ : bool;
  inf_timeOut_ : Z;          (* uint32_t *)
  inf_reason_ : string;
  inf_isPersist_ : bool;
  inf_isProcess_ : bool;
  inf_uid_ : Z;
  inf_pid_ : Z;
  inf_cpuLevel_ : Z;
}.
#[export] Instance EfficiencyResourceInfo_eq_dec : EqDecision EfficiencyResourceInfo.
Proof. solve_decision. Defined.

(** The constructor, with the member initialisers. *)
Definition new_EfficiencyResourceInfo (resourceNumber : Z) (isApply : bool) (timeOut : Z)
    (reason : string) (isPersist isProcess : bool) : EfficiencyResourceInfo :=
  mkInfo resourceNumber isApply timeOut reason isPersist isProcess (-1) (-1) CPU_LEVEL_DEFAULT.

Definition inf_SetResourceNumber (n : Z) (i : EfficiencyResourceInfo) : EfficiencyResourceInfo :=
  mkInfo n (inf_isApply_ i) (inf_timeOut_ i) (inf_reason_ i) (inf_isPersist_ i) (inf_isProcess_ i)
    (inf_uid_ i) (inf_pid_ i) (inf_cpuLevel_ i).
Definition inf_SetProcess (b : bool) (i : EfficiencyResourceInfo) : EfficiencyResourceInfo :=
  mkInfo (inf_resourceNumber_ i) (inf_isApply_ i) (inf_timeOut_ i) (inf_reason_ i) (inf_isPersist_ i)
    b (inf_uid_ i) (inf_pid_ i) (inf_cpuLevel_ i).
Definition inf_SetCpuLevel (l : Z) (i : EfficiencyResourceInfo) : EfficiencyResourceInfo :=
  mkInfo (inf_resourceNumber_ i) (inf_isApply_ i) (inf_timeOut_ i) (inf_reason_ i) (inf_isPersist_ i)
    (inf_isProcess_ i) (inf_uid_ i) (inf_pid_ i) (valid_level l).
Definition inf_SetCaller (uid pid : Z) (i : EfficiencyResourceInfo) : EfficiencyResourceInfo :=
  mkInfo (inf_resourceNumber_ i) (inf_isApply_ i) (inf_timeOut_ i) (inf_reason_ i) (inf_isPersist_ i)
    (inf_isProcess_ i) uid pid (inf_cpuLevel_ i).

Record ResourceCallbackInfo := mkCallback {
  cbi_uid_ : Z;
  cbi_pid_ : Z;
  cbi_resourceNumber_ : Z;
  cbi_bundleName_ : string;
  cbi_cpuLevel_ : Z;
}.
#[export] Instance ResourceCallbackInfo_eq_dec : EqDecision ResourceCallbackInfo.
Proof. solve_decision. Defined.

Definition new_ResourceCallbackInfo (uid pid resourceNumber : Z) (bundleName : string) :
    ResourceCallbackInfo :=
  mkCallback uid pid resourceNumber bundleName CPU_LEVEL_DEFAULT.
Definition cbi_SetCpuLevel (l : Z) (c : ResourceCallbackInfo) : ResourceCallbackInfo :=
  mkCallback (cbi_uid_ c) (cbi_pid_ c) (cbi_resourceNumber_ c) (cbi_bundleName_ c) (valid_level l).
Definition cbi_SetResourceNumber (n : Z) (c : ResourceCallbackInfo) : ResourceCallbackInfo :=
  mkCallback (cbi_uid_ c) (cbi_pid_ c) n (cbi_bundleName_ c) (cbi_cpuLevel_ c).

(** ** Records *)
Record PersistTime := mkUnit {
  pt_resourceIndex_ : Z;   (* uint32_t *)
  pt_isPersist_ : bool;
  pt_endTime_ : Z;         (* int64_t *)
  pt_reason_ : string;
  pt_timeOut_ : Z;         (* int64_t *)
}.
#[export] Instance PersistTime_eq_dec : EqDecision PersistTime.
Proof. solve_decision. Defined.

Definition PersistTime_lt (a b : PersistTime) : bool := pt_resourceIndex_ a <? pt_resourceIndex_ b.

Record ResourceApplicationRecord := mkRecord {
  rr_uid_ : Z;
  rr_pid_ : Z;
  rr_resourceNumber_ : Z;   (* uint32_t *)
  rr_cpuLevel_ : Z;
  rr_bundleName_ : string;
  rr_resourceUnitList_ : list PersistTime;
}.
#[export] Instance ResourceApplicationRecord_eq_dec : EqDecision ResourceApplicationRecord.
Proof. solve_decision. Defined.

Definition rr_SetCpuLevel (l : Z) (r : ResourceApplicationRecord) : ResourceApplicationRecord :=
  mkRecord (rr_uid_ r) (rr_pid_ r) (rr_resourceNumber_ r) (valid_level l) (rr_bundleName_ r)
    (rr_resourceUnitList_ r).
Definition rr_set_number (n : Z) (r : ResourceApplicationRecord) : ResourceApplicationRecord :=
  mkRecord (rr_uid_ r) (rr_pid_ r) n (rr_cpuLevel_ r) (rr_bundleName_ r) (rr_resourceUnitList_ r).
Definition rr_set_units (l : list PersistTime) (r : ResourceApplicationRecord) :
    ResourceApplicationRecord :=
  mkRecord (rr_uid_ r) (rr_pid_ r) (rr_resourceNumber_ r) (rr_cpuLevel_ r) (rr_bundleName_ r) l.

(** ** Facts about sets of kinds *)

Definition bit (i : Z) : Z := Z.shiftl 1 i.

Lemma bit_spec i j : 0 <= i -> Z.testbit (bit i) j = (i =? j).
Proof.
  intros Hi. unfold bit. destruct (decide (0 <= j)) as [Hj|Hj].
  - rewrite Z.shiftl_spec by done. destruct (Z.eqb_spec i j) as [->|Hne].
    + by rewrite Z.sub_diag.
    + destruct (decide (j < i)); [by rewrite Z.testbit_neg_r by lia|].
      apply Z.bits_above_log2; simpl; lia.
  - rewrite Z.testbit_neg_r by lia. symmetry. apply Z.eqb_neq. lia.
Qed.

(** [(n & (1 << i)) == 0] is the test of a bit. *)
Lemma land_bit n i : 0 <= i -> (Z.land n (bit i) =? 0) = negb (Z.testbit n i).
Proof.
  intros Hi. destruct (Z.eqb_spec (Z.land n (bit i)) 0) as [E|E].
  - apply (f_equal (fun z => Z.testbit z i)) in E.
    rewrite Z.land_spec, bit_spec, Z.eqb_refl, Z.bits_0, andb_true_r in E by done. by rewrite E.
  - destruct (Z.testbit n i) eqn:Hn; [done|]. exfalso. apply E, Z.bits_inj'. intros j Hj.
    rewrite Z.land_spec, bit_spec, Z.bits_0 by done.
    destruct (Z.eqb_spec i j) as [->|]; [by rewrite Hn|by rewrite andb_false_r].
Qed.

Lemma kinds_zero n : 0 <= n -> (forall i, 0 <= i -> Z.testbit n i = false) -> n = 0.
Proof. intros Hn Hb. apply Z.bits_inj'. intros i Hi. by rewrite Hb, Z.bits_0. Qed.

Lemma mask_spec i : 0 <= i -> Z.testbit MAX_RESOURCE_MASK i = (i <? MAX_RESOURCES_TYPE_NUM).
Proof.
  intros Hi. change MAX_RESOURCE_MASK with (Z.ones 9). change MAX_RESOURCES_TYPE_NUM with 9.
  destruct (Z.ltb_spec i 9); [by apply Z.ones_spec_low | by apply Z.ones_spec_high].
Qed.

(** A number up to the mask only has bits of kinds. *)
Lemma kinds_bound n i :
  0 <= n <= MAX_RESOURCE_MASK -> Z.testbit n i = true -> 0 <= i < MAX_RESOURCES_TYPE_NUM.
Proof.
  intros Hn Hb. destruct (decide (0 <= i)) as [Hi|Hi]; [|by rewrite Z.testbit_neg_r in Hb by lia].
  split; [done|]. apply Z.nle_gt. intros Hle.
  rewrite Z.bits_above_log2 in Hb; [done|lia|].
  destruct (decide (n = 0)) as [->|]; [change (Z.log2 0) with 0; unfold MAX_RESOURCES_TYPE_NUM in *; simpl in *; lia|].
  apply Z.log2_lt_pow2; [lia|]. apply Z.lt_le_trans with (2 ^ MAX_RESOURCES_TYPE_NUM).
  - change MAX_RESOURCE_MASK with 511 in Hn. change (2 ^ MAX_RESOURCES_TYPE_NUM) with 512. lia.
  - apply Z.pow_le_mono_r; lia.
Qed.

(** Conversely. *)
Lemma kinds_le_mask n :
  0 <= n -> (forall i, Z.testbit n i = true -> i < MAX_RESOURCES_TYPE_NUM) -> n <= MAX_RESOURCE_MASK.
Proof.
  intros Hn Hb. destruct (decide (n = 0)) as [->|Hz]; [by vm_compute|].
  assert (Z.log2 n < 9) as Hl by (apply (Hb (Z.log2 n)), Z.bit_log2; lia).
  apply Z.log2_lt_pow2 in Hl; [|lia]. change MAX_RESOURCE_MASK with 511. lia.
Qed.

(** * Batched system events

    [EfficiencyResourceApplyReportHisysEvent] and
    [EfficiencyResourceResetReportHisysEvent] of src/services/common
    (report_hisysevent_data.h and .cpp): parallel arrays of at most twenty rows,
    written out when full; and [ReportHisysEvent] of the efficiency manager. *)

Definition MAX_EFFICIENTCY_RESOURCE_HISYSEVCENT_DATA_LENGTH : Z := 20.

Inductive EfficiencyResourcesEventType :=
  APP_RESOURCE_APPLY | APP_RESOURCE_RESET | RESOURCE_APPLY | RESOURCE_RESET.
#[export] Instance EfficiencyResourcesEventType_eq_dec : EqDecision EfficiencyResourcesEventType.
Proof. solve_decision. Defined.

(** One index of the parallel arrays; the arrays are pushed to together. *)
Record ApplyRow := mkApplyRow {
  ar_appUid : Z; ar_appPid : Z; ar_appName : string; ar_uiabilityIdentity : Z;
  ar_resourceType : Z; ar_timeout : Z; ar_persist : bool; ar_process : bool;
}.
Record ResetRow := mkResetRow {
  re_appUid : Z; re_appPid : Z; re_appName : string; re_uiabilityIdentity : Z;
  re_resourceType : Z; re_process : bool; re_quota : Z; re_allQuota : Z;
}.

(** A batch: the rows, and [length_]. *)
Record Batch (R : Type) := mkBatch { ba_length_ : Z; ba_rows : list R }.
Arguments mkBatch {R}. Arguments ba_length_ {R}. Arguments ba_rows {R}.

Definition empty_batch {R} : Batch R := mkBatch 0 [].
Definition ClearData {R} (b : Batch R) : Batch R := empty_batch.

Definition app_name (name : string) (timestamp : Z) : string :=
  (name +:+ "|" +:+ pretty timestamp)%string.

(** [AddData] of the apply event; [int32_t] arrays truncate the kinds. *)
Definition apply_AddData (timestamp : Z) (resourceInfo : option EfficiencyResourceInfo)
    (callbackInfo : ResourceCallbackInfo) (b : Batch ApplyRow) : bool * Batch ApplyRow :=
  match resourceInfo with
  | None => (false, b)
  | Some info =>
      return_if ba_length_ b =? MAX_EFFICIENTCY_RESOURCE_HISYSEVCENT_DATA_LENGTH, (false, b) ;;
      (true, mkBatch (ba_length_ b + 1)
        (ba_rows b ++ [mkApplyRow (cbi_uid_ callbackInfo) (cbi_pid_ callbackInfo)
           (app_name (cbi_bundleName_ callbackInfo) timestamp) (-1)
           (int32 (cbi_resourceNumber_ callbackInfo)) (inf_timeOut_ info)
           (inf_isPersist_ info) (inf_isProcess_ info)]))
  end.

Definition reset_AddData (timestamp : Z) (callbackInfo : option ResourceCallbackInfo)
    (type : EfficiencyResourcesEventType) (b : Batch ResetRow) : bool * Batch ResetRow :=
  match callbackInfo with
  | None => (false, b)
  | Some c =>
      return_if ba_length_ b =? MAX_EFFICIENTCY_RESOURCE_HISYSEVCENT_DATA_LENGTH, (false, b) ;;
      (true, mkBatch (ba_length_ b + 1)
        (ba_rows b ++ [mkResetRow (cbi_uid_ c) (cbi_pid_ c) (app_name (cbi_bundleName_ c) timestamp) (-1)
           (int32 (cbi_resourceNumber_ c)) (negb (bool_decide (type = APP_RESOURCE_RESET))) 0 0]))
  end.

(** [ReportHisysEvent]: add a row, or write the batch out and start another; the
    written batches are the second component. *)
Definition report {R} (add : Batch R -> bool * Batch R) (b : Batch R) : Batch R * list (list R) :=
  let '(added, b') := add b in
  if added then (b', []) else ((add (ClearData b)).2, [ba_rows b]).

(** ** Facts *)
Definition batch_ok {R} (b : Batch R) : Prop :=
  ba_length_ b = Z.of_nat (length (ba_rows b)) /\
  ba_length_ b <= MAX_EFFICIENTCY_RESOURCE_HISYSEVCENT_DATA_LENGTH.

(** An [AddData] that pushes one row unless the batch is full. *)
Definition pushes {R} (row : R) (add : Batch R -> bool * Batch R) : Prop :=
  forall b, add b =
    if ba_length_ b =? MAX_EFFICIENTCY_RESOURCE_HISYSEVCENT_DATA_LENGTH then (false, b)
    else (true, mkBatch (ba_length_ b + 1) (ba_rows b ++ [row])).

Lemma apply_AddData_pushes ts info c : exists row, pushes row (apply_AddData ts (Some info) c).
Proof. by eexists. Qed.
Lemma reset_AddData_pushes ts c type : exists row, pushes row (reset_AddData ts (Some c) type).
Proof. by eexists. Qed.

Lemma report_pushes {R} (row : R) add b :
  pushes row add -> batch_ok b ->
  batch_ok (report add b).1 /\
  concat (report add b).2 ++ ba_rows (report add b).1 = ba_rows b ++ [row] /\
  Forall (fun w => length w = 20%nat) (report add b).2.
Proof.
  intros Hadd [Hl Hm]. unfold report. rewrite !Hadd. unfold batch_ok.
  change (MAX_EFFICIENTCY_RESOURCE_HISYSEVCENT_DATA_LENGTH) with 20 in *.
  destruct (Z.eqb_spec (ba_length_ b) 20) as [E|E]; simpl.
  - split; [split; [done|lia]|]. rewrite app_nil_r. split; [done|]. repeat constructor. lia.
  - rewrite length_app. simpl. split; [split; lia|]. done.
Qed.

(** A sequence of reports, each an [AddData] applied by [report]. *)
Fixpoint run_reports_batch {R} (adds : list (Batch R -> bool * Batch R)) (b : Batch R) :
    Batch R * list (list R) :=
  match adds with
  | [] => (b, [])
  | add :: adds =>
      let '(b, w1) := report add b in
      let '(b, w2) := run_reports_batch adds b in (b, w1 ++ w2)
  end.

(** No event is lost or reordered by the batching: whatever the sequence of
    applications (or resets) reported, the rows of the batches written out followed
    by those still held are the rows reported, in order; each batch written is full,
    with exactly twenty rows, and the batch held never exceeds twenty. *)
Theorem batches_lose_nothing {R} (l : list (R * (Batch R -> bool * Batch R))) :
  Forall (fun e => pushes e.1 e.2) l ->
  let '(b, written) := run_reports_batch l.*2 empty_batch in
  concat written ++ ba_rows b = l.*1 /\
  Forall (fun w => length w = 20%nat) written /\ batch_ok b.
Proof.
  intros Hl.
  enough (forall b0, batch_ok b0 ->
    let '(b, written) := run_reports_batch l.*2 b0 in
    concat written ++ ba_rows b = ba_rows b0 ++ l.*1 /\
    Forall (fun w => length w = 20%nat) written /\ batch_ok b) as Hgen.
  { apply (Hgen empty_batch). by split. }
  induction Hl as [|[row add] l Hadd _ IH]; intros b0 Hb0; rewrite ?fmap_cons; cbn [run_reports_batch fst snd].
  - cbn. rewrite app_nil_r. split; [done|]. split; [constructor|done].
  - simpl in Hadd. destruct (report_pushes row add b0 Hadd Hb0) as (Hb1 & Hr1 & Hw1).
    destruct (report add b0) as [b1 w1]. cbn [fst snd] in *. specialize (IH b1 Hb1).
    destruct (run_reports_batch l.*2 b1) as [b2 w2]. destruct IH as (Hr2 & Hw2 & Hb2).
    split; [|split; [by apply Forall_app|done]].
    by rewrite concat_app, <- app_assoc, Hr2, app_assoc, Hr1, <- app_assoc.
Qed.

Lemma batches_lose_nothing_witness :
  let c := new_ResourceCallbackInfo 100 7 1 "app" in
  let row := mkResetRow 100 7 "app|5" (-1) 1 false 0 0 in
  let '(b, written) :=
    run_reports_batch (replicate 21 (row, reset_AddData 5 (Some c) APP_RESOURCE_RESET)).*2 empty_batch in
  concat written ++ ba_rows b =
    (replicate 21 (row, reset_AddData 5 (Some c) APP_RESOURCE_RESET)).*1 /\
  Forall (fun w => length w = 20%nat) written /\ batch_ok b.
Proof.
  cbv zeta. apply (batches_lose_nothing (replicate 21
    (mkResetRow 100 7 "app|5" (-1) 1 false 0 0,
     reset_AddData 5 (Some (new_ResourceCallbackInfo 100 7 1 "app")) APP_RESOURCE_RESET))).
  apply Forall_replicate. intros b. reflexivity.
Defined.
