(* ===== verification/EfficiencyResources.v ===== *)
(** * The efficiency resources manager

    [ResourcesSubscriberMgr] (resources_subscriber_mgr.cpp) and
    [BgEfficiencyResourcesMgr] (bg_efficiency_resources_mgr.h and .cpp) of
    src/services/efficiency_resources.  [em_tasks] is the queue of [handler_]: the
    tasks posted, with the time each is due.  The two maps are
    [std::unordered_map]s; where the code walks one, the walk follows
    [map_to_list], an arbitrary but fixed order. *)

From S2P Require Import Prelude.
From S2P Require Import Errors.
From S2P Require Import Interfaces.
From S2P Require Import ResourceTypes.
Local Open Scope Z_scope.

Abbreviation ResourceRecordMap := (gmap Z ResourceApplicationRecord).

Inductive CancelReason :=
  CANCEL_DEFAULT | CANCEL_DUMPER | CANCEL_APPLY_INTERFACE | CANCEL_RESET_INTERFACE | CANCEL_APP_DIED
| CANCEL_APP_DIDE_TRIGGER_PROCESS_DIED | CANCEL_PROCESS_DIED.

(** The closures posted to [handler_]. *)
Inductive ETask :=
| TaskApply (callbackInfo : ResourceCallbackInfo) (resourceInfo : EfficiencyResourceInfo)
| TaskReset (callbackInfo : ResourceCallbackInfo) (isProcess : bool) (reason : CancelReason)
| TaskTimeOut (mapKey : Z) (isProcess : bool).

Inductive EffEffect :=
| EffObserver (c : ResourceCallbackInfo) (t : EfficiencyResourcesEventType)
| EffSubscriber (sub : RemoteProxy) (c : ResourceCallbackInfo) (t : EfficiencyResourcesEventType)
| EffAddDeathRecipient (r : Remote)
| EffRemoveDeathRecipient (r : Remote)
| EffUpdateCpuApplyQuota (uid : Z)
| EffSetCpuApplyQuota (uid quotaPerRequest quotaPerDay : Z)
| EffResetCpuApplyQuotaUsage (uid : Z)
| EffHisysApply (rows : list ApplyRow)
| EffHisysReset (rows : list ResetRow)
| EffSetReady.

Record RunningProcess := mkProc { rp_pid : Z; rp_uid : Z; rp_isService : bool }.

(** The optional library of CPU quotas: each symbol may be missing. *)
Record QuotaLib := mkQuota {
  q_HandleCpuApplyQuotaProcess : option (Z -> string -> EfficiencyResourceInfo -> bool);
  q_UpdateCpuApplyQuotaProcess : bool;
  q_SetCpuApplyQuotaProcess : bool;
  q_ResetCpuApplyQuotaUsageProcess : bool;
  q_GetCpuApplyQuotaProcess : option (Z -> list string);
}.

(** What an operation sees of its caller and of the other services. *)
Record EffEnv := mkEffEnv {
  ee_uid : Z;
  ee_pid : Z;
  ee_now : Z;                                      (* TimeProvider::GetCurrentTime() *)
  ee_boottime : Z;                                 (* GetCurrentTime(CLOCK_TYPE_BOOTTIME) *)
  ee_timestamp : Z;                                (* ResCommonUtil::GetCurrentTimestamp() *)
  ee_GetClientBundleName : Z -> string;
  ee_IsSystemApp : bool;
  ee_connectAppMgr : bool;                         (* ConnectAppMgrService() == ERR_OK *)
  ee_processes : list RunningProcess;              (* GetAllRunningProcesses *)
  ee_resourcesApply : string -> Z -> option (list Z);
  ee_GetBundleInfo : string -> Z -> option (string * string);
  ee_quota : option QuotaLib;
}.

(** What the manager asks of [BgtaskConfig] about CPU levels. *)
Class CpuLevelConfig := {
  CheckRequestCpuLevelBundleNameConfigured : string -> bool;
  CheckRequestCpuLevelAppSignatures : string -> string -> string -> bool;
  CheckRequestCpuLevel : string -> Z -> bool;
}.

(** What it asks of [DataStorageHelper]: the records in the file, added to the
    two maps. *)
Class RecordStore := {
  RestoreResourceRecord : ResourceRecordMap * ResourceRecordMap -> ResourceRecordMap * ResourceRecordMap;
}.

(** The ids of the abilities it depends on. *)
Class EffAbilityIds := {
  APP_MGR_SERVICE_ID : Z;
  BUNDLE_MGR_SERVICE_SYS_ABILITY_ID : Z;
  RES_SCHED_SYS_ABILITY_ID : Z;
  eff_abilities_distinct :
    NoDup [APP_MGR_SERVICE_ID; BUNDLE_MGR_SERVICE_SYS_ABILITY_ID; RES_SCHED_SYS_ABILITY_ID];
}.

Definition APP_MGR_READY : Z := 1.
Definition BUNDLE_MGR_READY : Z := 2.
Definition RES_SCHED_SYS_READY : Z := 4.
Definition ALL_DEPENDS_READY : Z := Z.lor (Z.lor APP_MGR_READY BUNDLE_MGR_READY) RES_SCHED_SYS_READY.
Definition FREEZE_ALL_RESOURCES : Z := 0.
Definition MAX_DUMP_PARAM_NUMS : Z := 4.

Record EffMgr := mkEff {
  em_isSysReady_ : bool;
  em_dependsReady_ : Z;                         (* uint32_t *)
  em_appMgrClient_ : bool;                      (* the client exists *)
  em_appResourceApplyMap_ : ResourceRecordMap;
  em_procResourceApplyMap_ : ResourceRecordMap;
  em_subscriberList_ : list RemoteProxy;
  em_tasks : list (Z * ETask);
  em_applyEventData_ : Batch ApplyRow;
  em_resetEventData_ : Batch ResetRow;
  em_stored : ResourceRecordMap * ResourceRecordMap;   (* last RefreshResourceRecord *)
  em_out : list EffEffect;
}.

Definition new_EffMgr : EffMgr :=
  mkEff false 0 false ∅ ∅ [] [] empty_batch empty_batch (∅, ∅) [].

(** ** Field updates *)
Section EffUpdates.
Implicit Types s : EffMgr.

Definition em_set_ready (ready : bool) (depends : Z) s : EffMgr :=
  mkEff ready depends (em_appMgrClient_ s) (em_appResourceApplyMap_ s) (em_procResourceApplyMap_ s)
    (em_subscriberList_ s) (em_tasks s) (em_applyEventData_ s) (em_resetEventData_ s) (em_stored s) (em_out s).
Definition em_set_client (b : bool) s : EffMgr :=
  mkEff (em_isSysReady_ s) (em_dependsReady_ s) b (em_appResourceApplyMap_ s) (em_procResourceApplyMap_ s)
    (em_subscriberList_ s) (em_tasks s) (em_applyEventData_ s) (em_resetEventData_ s) (em_stored s) (em_out s).
Definition em_set_maps (app proc : ResourceRecordMap) s : EffMgr :=
  mkEff (em_isSysReady_ s) (em_dependsReady_ s) (em_appMgrClient_ s) app proc
    (em_subscriberList_ s) (em_tasks s) (em_applyEventData_ s) (em_resetEventData_ s) (em_stored s) (em_out s).
Definition em_set_subscribers (l : list RemoteProxy) s : EffMgr :=
  mkEff (em_isSysReady_ s) (em_dependsReady_ s) (em_appMgrClient_ s) (em_appResourceApplyMap_ s)
    (em_procResourceApplyMap_ s) l (em_tasks s) (em_applyEventData_ s) (em_resetEventData_ s)
    (em_stored s) (em_out s).
Definition em_set_tasks (l : list (Z * ETask)) s : EffMgr :=
  mkEff (em_isSysReady_ s) (em_dependsReady_ s) (em_appMgrClient_ s) (em_appResourceApplyMap_ s)
    (em_procResourceApplyMap_ s) (em_subscriberList_ s) l (em_applyEventData_ s) (em_resetEventData_ s)
    (em_stored s) (em_out s).
Definition em_set_events (a : Batch ApplyRow) (r : Batch ResetRow) s : EffMgr :=
  mkEff (em_isSysReady_ s) (em_dependsReady_ s) (em_appMgrClient_ s) (em_appResourceApplyMap_ s)
    (em_procResourceApplyMap_ s) (em_subscriberList_ s) (em_tasks s) a r (em_stored s) (em_out s).
Definition em_emit (l : list EffEffect) s : EffMgr :=
  mkEff (em_isSysReady_ s) (em_dependsReady_ s) (em_appMgrClient_ s) (em_appResourceApplyMap_ s)
    (em_procResourceApplyMap_ s) (em_subscriberList_ s) (em_tasks s) (em_applyEventData_ s)
    (em_resetEventData_ s) (em_stored s) (em_out s ++ l).

(** [DataStorageHelper::RefreshResourceRecord(app, proc)]. *)
Definition RefreshResourceRecord s : EffMgr :=
  mkEff (em_isSysReady_ s) (em_dependsReady_ s) (em_appMgrClient_ s) (em_appResourceApplyMap_ s)
    (em_procResourceApplyMap_ s) (em_subscriberList_ s) (em_tasks s) (em_applyEventData_ s)
    (em_resetEventData_ s) (em_appResourceApplyMap_ s, em_procResourceApplyMap_ s) (em_out s).

(** [handler_->PostTask(task, delay)] at [now]. *)
Definition em_post (due : Z) (t : ETask) s : EffMgr := em_set_tasks (em_tasks s ++ [(due, t)]) s.

(** The map an operation works on. *)
Definition em_map (isProcess : bool) s : ResourceRecordMap :=
  if isProcess then em_procResourceApplyMap_ s else em_appResourceApplyMap_ s.
Definition em_set_map (isProcess : bool) (m : ResourceRecordMap) s : EffMgr :=
  if isProcess then em_set_maps (em_appResourceApplyMap_ s) m s
  else em_set_maps m (em_procResourceApplyMap_ s) s.
End EffUpdates.

(** ** Subscribers *)
Section EffSubscribers.
Implicit Types s : EffMgr.

Definition rs_AddSubscriber (subscriber : option RemoteProxy) s : Z * EffMgr :=
  match subscriber with
  | None => (ERR_BGTASK_INVALID_PARAM, s)
  | Some sub =>
      match AsObject sub with
      | None => (ERR_BGTASK_INVALID_PARAM, s)
      | Some r =>
          return_if existsb (same_remote (Some r)) (em_subscriberList_ s),
            (ERR_BGTASK_OBJECT_EXISTS, s) ;;
          (ERR_OK, em_emit [EffAddDeathRecipient r]
                     (em_set_subscribers (em_subscriberList_ s ++ [sub]) s))
      end
  end.

Definition rs_RemoveSubscriber (subscriber : option RemoteProxy) s : Z * EffMgr :=
  match subscriber with
  | None => (ERR_BGTASK_INVALID_PARAM, s)
  | Some sub =>
      match AsObject sub with
      | None => (ERR_BGTASK_INVALID_PARAM, s)
      | Some r =>
          return_if negb (existsb (same_remote (Some r)) (em_subscriberList_ s)),
            (ERR_BGTASK_OBJECT_EXISTS, s) ;;
          (ERR_OK, em_emit [EffRemoveDeathRecipient r]
                     (em_set_subscribers (erase_first (same_remote (Some r)) (em_subscriberList_ s)) s))
      end
  end.

Definition OnResourceChanged (callbackInfo : ResourceCallbackInfo)
    (type : EfficiencyResourcesEventType) s : EffMgr :=
  em_emit (EffObserver callbackInfo type
           :: ((fun sub => EffSubscriber sub callbackInfo type) <$> em_subscriberList_ s)) s.

Definition rs_HandleSubscriberDeath (remote : option Remote) s : EffMgr :=
  match remote with
  | None => s
  | Some r => em_set_subscribers (erase_first (same_remote (Some r)) (em_subscriberList_ s)) s
  end.

(** The manager's entry points; [AddSubscriber] drops the result. *)
Definition em_AddSubscriber (subscriber : option RemoteProxy) s : Z * EffMgr :=
  (ERR_OK, (rs_AddSubscriber subscriber s).2).
Definition em_RemoveSubscriber (subscriber : option RemoteProxy) s : Z * EffMgr :=
  rs_RemoveSubscriber subscriber s.
End EffSubscribers.

(** ** Records *)
Section EffRecords.
Implicit Types s : EffMgr.

(** One turn of the loop of [UpdateResourcesEndtime], for a kind asked for: the
    first unit of the kind is extended, or a new one is added. *)
Definition extend_unit (now : Z) (info : EfficiencyResourceInfo) (u : PersistTime) : PersistTime :=
  let endtime := now + inf_timeOut_ info in
  let isPersist := pt_isPersist_ u || inf_isPersist_ info in
  mkUnit (pt_resourceIndex_ u) isPersist
    (if isPersist then 0 else Z.max (pt_endTime_ u) endtime) (inf_reason_ info) (pt_timeOut_ u).
Fixpoint update_unit (now resourceIndex : Z) (info : EfficiencyResourceInfo) (l : list PersistTime) :
    list PersistTime :=
  match l with
  | [] =>
      let endtime := now + inf_timeOut_ info in
      [mkUnit resourceIndex (inf_isPersist_ info) (if inf_isPersist_ info then 0 else endtime)
         (inf_reason_ info) (inf_timeOut_ info)]
  | u :: l =>
      if pt_resourceIndex_ u =? resourceIndex then extend_unit now info u :: l
      else u :: update_unit now resourceIndex info l
  end.

Definition update_units (now number : Z) (info : EfficiencyResourceInfo) (l : list PersistTime) :
    list PersistTime :=
  fold_left (fun l resourceIndex =>
    if Z.land number (bit resourceIndex) =? 0 then l else update_unit now resourceIndex info l)
    (seqZ 0 MAX_RESOURCES_TYPE_NUM) l.

(** [UpdateResourcesEndtime]: the units, and the reset task of a temporary
    request. *)
Definition UpdateResourcesEndtime (now : Z) (callbackInfo : ResourceCallbackInfo)
    (record : ResourceApplicationRecord) (resourceInfo : EfficiencyResourceInfo) s :
    ResourceApplicationRecord * EffMgr :=
  let record := rr_set_units
    (update_units now (cbi_resourceNumber_ callbackInfo) resourceInfo (rr_resourceUnitList_ record)) record in
  return_if inf_isPersist_ resourceInfo, (record, s) ;;
  let isProcess := inf_isProcess_ resourceInfo in
  let mapKey := if isProcess then cbi_pid_ callbackInfo else cbi_uid_ callbackInfo in
  (record, em_post (now + inf_timeOut_ resourceInfo) (TaskTimeOut mapKey isProcess) s).

Definition ReportHisysEvent_apply (env : EffEnv) (resourceInfo : EfficiencyResourceInfo)
    (callbackInfo : ResourceCallbackInfo) s : EffMgr :=
  let '(b, w) := report (apply_AddData (ee_timestamp env) (Some resourceInfo) callbackInfo)
                   (em_applyEventData_ s) in
  em_emit (EffHisysApply <$> w) (em_set_events b (em_resetEventData_ s) s).
Definition ReportHisysEvent_reset (env : EffEnv) (callbackInfo : ResourceCallbackInfo)
    (type : EfficiencyResourcesEventType) s : EffMgr :=
  let '(b, w) := report (reset_AddData (ee_timestamp env) (Some callbackInfo) type)
                   (em_resetEventData_ s) in
  em_emit (EffHisysReset <$> w) (em_set_events (em_applyEventData_ s) b s).

Definition ApplyEfficiencyResourcesInner (env : EffEnv) (callbackInfo : ResourceCallbackInfo)
    (resourceInfo : EfficiencyResourceInfo) s : EffMgr :=
  let isProcess := inf_isProcess_ resourceInfo in
  let mapKey := if isProcess then cbi_pid_ callbackInfo else cbi_uid_ callbackInfo in
  let '(preResourceNumber, record) :=
    match em_map isProcess s !! mapKey with
    | None =>
        (0, rr_SetCpuLevel (cbi_cpuLevel_ callbackInfo)
              (mkRecord (cbi_uid_ callbackInfo) (cbi_pid_ callbackInfo)
                 (cbi_resourceNumber_ callbackInfo) CPU_LEVEL_DEFAULT (cbi_bundleName_ callbackInfo) []))
    | Some r =>
        (rr_resourceNumber_ r,
         rr_set_number (Z.lor (rr_resourceNumber_ r) (cbi_resourceNumber_ callbackInfo)) r)
    end in
  let '(record, s) := UpdateResourcesEndtime (ee_now env) callbackInfo record resourceInfo s in
  let s := em_set_map isProcess (<[mapKey := record]> (em_map isProcess s)) s in
  let s := ReportHisysEvent_apply env resourceInfo callbackInfo s in
  let diffResourceNumber :=
    Z.lxor (rr_resourceNumber_ record) (Z.land preResourceNumber (rr_resourceNumber_ record)) in
  return_if diffResourceNumber =? 0, RefreshResourceRecord s ;;
  let callbackInfo := cbi_SetResourceNumber diffResourceNumber callbackInfo in
  let s := OnResourceChanged callbackInfo (if isProcess then RESOURCE_APPLY else APP_RESOURCE_APPLY) s in
  let s := em_set_map isProcess
    (<[mapKey := rr_SetCpuLevel (cbi_cpuLevel_ callbackInfo) record]> (em_map isProcess s)) s in
  RefreshResourceRecord s.

Definition UpdateQuotaIfCpuReset (env : EffEnv) (type : EfficiencyResourcesEventType)
    (uid resourceNumber : Z) s : EffMgr :=
  return_if negb (bool_decide (type = APP_RESOURCE_RESET)), s ;;
  return_if Z.land resourceNumber ResourceType.CPU =? 0, s ;;
  match ee_quota env with
  | None => s
  | Some lib =>
      if q_UpdateCpuApplyQuotaProcess lib then em_emit [EffUpdateCpuApplyQuota uid] s else s
  end.

Definition RemoveListRecord (eraseBit : Z) (l : list PersistTime) : list PersistTime :=
  if eraseBit =? 0 then l
  else filter (fun u => (Z.land (bit (pt_resourceIndex_ u)) eraseBit =? 0) = true) l.

(** The kinds of [record] whose time is up at [now]. *)
Definition timed_out (now : Z) (record : ResourceApplicationRecord) : Z :=
  fold_left (fun eraseBit u =>
    if pt_isPersist_ u then eraseBit
    else if now >=? pt_endTime_ u then Z.lor eraseBit (bit (pt_resourceIndex_ u))
    else eraseBit) (rr_resourceUnitList_ record) 0.

Definition reset_type (isProcess : bool) : EfficiencyResourcesEventType :=
  if isProcess then RESOURCE_RESET else APP_RESOURCE_RESET.

(** Taking kinds off a record, with the notifications: the common end of
    [ResetTimeOutResource] and [RemoveTargetResourceRecord]. *)
Definition erase_kinds (env : EffEnv) (isProcess : bool) (mapKey eraseBit cpuLevel : Z)
    (record : ResourceApplicationRecord) s : EffMgr :=
  let record' := rr_set_units (RemoveListRecord eraseBit (rr_resourceUnitList_ record))
                   (rr_set_number (Z.lxor (rr_resourceNumber_ record) eraseBit) record) in
  let callbackInfo := cbi_SetCpuLevel cpuLevel
    (new_ResourceCallbackInfo (rr_uid_ record) (rr_pid_ record) eraseBit (rr_bundleName_ record)) in
  let type := reset_type isProcess in
  let s := em_set_map isProcess (<[mapKey := record']> (em_map isProcess s)) s in
  let s := UpdateQuotaIfCpuReset env type (cbi_uid_ callbackInfo) (cbi_resourceNumber_ callbackInfo) s in
  let s := ReportHisysEvent_reset env callbackInfo type s in
  let s := OnResourceChanged callbackInfo type s in
  if rr_resourceNumber_ record' =? 0
  then em_set_map isProcess (delete mapKey (em_map isProcess s)) s else s.

Definition ResetTimeOutResource (env : EffEnv) (mapKey : Z) (isProcess : bool) s : EffMgr :=
  match em_map isProcess s !! mapKey with
  | None => s
  | Some record =>
      let eraseBit := timed_out (ee_now env) record in
      return_if eraseBit =? 0, s ;;
      erase_kinds env isProcess mapKey eraseBit (rr_cpuLevel_ record) record s
  end.

Definition RemoveTargetResourceRecord (env : EffEnv) (isProcess : bool) (mapKey : Z)
    (resourcecallbackInfo : ResourceCallbackInfo) s : bool * EffMgr :=
  let cleanResource := cbi_resourceNumber_ resourcecallbackInfo in
  match em_map isProcess s !! mapKey with
  | None => (false, s)
  | Some record =>
      let eraseBit := Z.land (rr_resourceNumber_ record) cleanResource in
      return_if eraseBit =? 0, (false, s) ;;
      (true, erase_kinds env isProcess mapKey eraseBit (cbi_cpuLevel_ resourcecallbackInfo) record s)
  end.

(** The processes of [uid] lose the kinds their application lost. *)
Definition RemoveRelativeProcessRecord (env : EffEnv) (uid resourceNumber : Z) s : EffMgr :=
  fold_left (fun s e =>
    let record : ResourceApplicationRecord := e.2 in
    if (rr_uid_ record =? uid) && negb (Z.land resourceNumber (rr_resourceNumber_ record) =? 0) then
      let eraseBit := Z.land resourceNumber (rr_resourceNumber_ record) in
      em_post (ee_now env)
        (TaskReset (cbi_SetCpuLevel (rr_cpuLevel_ record)
           (new_ResourceCallbackInfo uid (rr_pid_ record) eraseBit (rr_bundleName_ record)))
           true CANCEL_APP_DIDE_TRIGGER_PROCESS_DIED) s
    else s) (map_to_list (em_procResourceApplyMap_ s)) s.

Definition ResetEfficiencyResourcesInner (env : EffEnv) (callbackInfo : ResourceCallbackInfo)
    (isProcess : bool) s : EffMgr :=
  let s :=
    if isProcess then
      (RemoveTargetResourceRecord env true (cbi_pid_ callbackInfo) callbackInfo s).2
    else
      let s := (RemoveTargetResourceRecord env false (cbi_uid_ callbackInfo) callbackInfo s).2 in
      RemoveRelativeProcessRecord env (cbi_uid_ callbackInfo) (cbi_resourceNumber_ callbackInfo) s in
  RefreshResourceRecord s.

(** The handler runs a task it took off the queue. *)
Definition run_task (env : EffEnv) (t : ETask) s : EffMgr :=
  match t with
  | TaskApply c i => ApplyEfficiencyResourcesInner env c i s
  | TaskReset c p _ => ResetEfficiencyResourcesInner env c p s
  | TaskTimeOut k p => ResetTimeOutResource env k p s
  end.
End EffRecords.

(** ** Entry points *)
Section EffEntry.
Context {ccm : CpuLevelConfig}.
Implicit Types s : EffMgr.

Definition CheckResourceInfo (resourceInfo : option EfficiencyResourceInfo) : bool :=
  match resourceInfo with
  | None => false
  | Some i =>
      negb ((inf_resourceNumber_ i =? 0) || (inf_resourceNumber_ i >? MAX_RESOURCE_MASK)
            || (inf_isApply_ i && negb (inf_isPersist_ i) && (inf_timeOut_ i =? 0)))
  end.

Definition IsServiceExtensionType (env : EffEnv) (pid : Z) s : bool :=
  return_if negb (em_appMgrClient_ s) || negb (ee_connectAppMgr env), false ;;
  existsb (fun p => (rp_pid p =? pid) && rp_isService p) (ee_processes env).

Definition CheckAlivedApp (env : EffEnv) (uid : Z) s : bool :=
  return_if negb (em_appMgrClient_ s) || negb (ee_connectAppMgr env), true ;;
  existsb (fun p => rp_uid p =? uid) (ee_processes env).

Definition CheckOrUpdateCpuApplyQuota (env : EffEnv) (uid : Z) (bundleName : string)
    (i : EfficiencyResourceInfo) : bool :=
  return_if inf_isProcess_ i, true ;;
  return_if Z.land (inf_resourceNumber_ i) ResourceType.CPU =? 0, true ;;
  return_if inf_isApply_ i && inf_isPersist_ i, true ;;
  match ee_quota env with
  | None => true
  | Some lib =>
      match q_HandleCpuApplyQuotaProcess lib with
      | None => true
      | Some f => f uid bundleName i
      end
  end.

Definition GetUserIdByUid (uid : Z) : Z := Z.quot uid 200000.

Definition QueryRunningResourcesApply (env : EffEnv) (uid : Z) (bundleName : string) : list Z :=
  default [] (ee_resourcesApply env bundleName (GetUserIdByUid uid)).

Definition GetExemptedResourceType (env : EffEnv) (resourceNumber uid : Z) (bundleName : string) : Z :=
  let resourcesApply := QueryRunningResourcesApply env uid bundleName in
  return_if bool_decide (resourcesApply = []), 0 ;;
  return_if bool_decide (FREEZE_ALL_RESOURCES ∈ resourcesApply), resourceNumber ;;
  Z.land
    (fold_left (fun exemptedResources resourceType =>
       if (resourceType <? 0) || (resourceType >? MAX_RESOURCES_TYPE_NUM) then exemptedResources
       else Z.lor exemptedResources (bit (resourceType - 1))) resourcesApply 0)
    resourceNumber.

(** The error, and the request with its CPU level adjusted. *)
Definition CheckIfCanApplyCpuLevel (env : EffEnv) (i : EfficiencyResourceInfo) (bundleName : string)
    (uid : Z) : Z * EfficiencyResourceInfo :=
  return_if negb (Z.land (inf_resourceNumber_ i) ResourceType.CPU =? ResourceType.CPU),
    (ERR_OK, inf_SetCpuLevel CPU_LEVEL_DEFAULT i) ;;
  return_if inf_cpuLevel_ i =? CPU_LEVEL_DEFAULT, (ERR_OK, i) ;;
  return_if negb (CheckRequestCpuLevelBundleNameConfigured bundleName),
    (ERR_BGTASK_EFFICIENCY_RESOURCES_CPU_LEVEL_NOT_ALLOW_APPLY, i) ;;
  match ee_GetBundleInfo env bundleName (GetUserIdByUid uid) with
  | None => (ERR_BGTASK_EFFICIENCY_RESOURCES_INVALID_BUNDLE_INFO, i)
  | Some (appId, appIdentifier) =>
      return_if negb (CheckRequestCpuLevelAppSignatures bundleName appId appIdentifier),
        (ERR_BGTASK_EFFICIENCY_RESOURCES_CPU_LEVEL_APP_SIGNATURES_INVALID, i) ;;
      return_if negb (CheckRequestCpuLevel bundleName (inf_cpuLevel_ i)),
        (ERR_BGTASK_EFFICIENCY_RESOURCES_CPU_LEVEL_TOO_LARGE, i) ;;
      (ERR_OK, i)
  end.

Definition GetPreAppCpuLevel (uid : Z) s : Z :=
  match em_appResourceApplyMap_ s !! uid with
  | None => CPU_LEVEL_DEFAULT
  | Some r => if IsCpuLevelValid (rr_cpuLevel_ r) then rr_cpuLevel_ r else CPU_LEVEL_DEFAULT
  end.

Definition SendResourceApplyTask (env : EffEnv) (uid pid : Z) (bundleName : string)
    (i : EfficiencyResourceInfo) s : EffMgr :=
  let callbackInfo := cbi_SetCpuLevel (inf_cpuLevel_ i)
    (new_ResourceCallbackInfo uid pid (inf_resourceNumber_ i) bundleName) in
  if inf_isApply_ i then em_post (ee_now env) (TaskApply callbackInfo i) s
  else em_post (ee_now env) (TaskReset callbackInfo (inf_isProcess_ i) CANCEL_APPLY_INTERFACE) s.

Definition ApplyResourceForPkgAndProc (env : EffEnv) (uid pid : Z) (bundleName : string)
    (i : EfficiencyResourceInfo) s : EffMgr :=
  return_if negb (inf_isProcess_ i), SendResourceApplyTask env uid pid bundleName i s ;;
  let s :=
    if negb (Z.land (inf_resourceNumber_ i) ResourceType.CPU =? 0)
    then SendResourceApplyTask env uid pid bundleName (inf_SetResourceNumber ResourceType.CPU i) s
    else s in
  let resourceNumber := Z.land (inf_resourceNumber_ i) (Z.lnot ResourceType.CPU) in
  if negb (resourceNumber =? 0) then
    let appInfo := inf_SetProcess false (inf_SetResourceNumber resourceNumber i) in
    let appInfo := inf_SetCpuLevel (GetPreAppCpuLevel uid s) appInfo in
    SendResourceApplyTask env uid pid bundleName appInfo s
  else s.

Definition em_IsCallingInfoLegal (uid pid : Z) : bool := negb ((uid <? 0) || (pid <? 0)).

Definition ApplyEfficiencyResources (env : EffEnv) (resourceInfo : option EfficiencyResourceInfo) s :
    Z * EffMgr :=
  return_if negb (em_isSysReady_ s), (ERR_BGTASK_SYS_NOT_READY, s) ;;
  return_if negb (CheckResourceInfo resourceInfo), (ERR_BGTASK_RESOURCES_EXCEEDS_MAX, s) ;;
  match resourceInfo with
  | None => (ERR_BGTASK_RESOURCES_EXCEEDS_MAX, s)
  | Some i =>
      let uid := ee_uid env in
      let pid := ee_pid env in
      return_if negb (em_IsCallingInfoLegal uid pid), (ERR_BGTASK_INVALID_PID_OR_UID, s) ;;
      let bundleName := ee_GetClientBundleName env uid in
      return_if negb (ee_IsSystemApp env) && negb (IsServiceExtensionType env pid s),
        (ERR_BGTASK_NOT_SYSTEM_APP, s) ;;
      let '(errCode, i) := CheckIfCanApplyCpuLevel env i bundleName uid in
      return_if negb (errCode =? ERR_OK), (errCode, s) ;;
      let exemptedResourceType := GetExemptedResourceType env (inf_resourceNumber_ i) uid bundleName in
      let i := inf_SetResourceNumber exemptedResourceType i in
      return_if exemptedResourceType =? 0, (ERR_BGTASK_PERMISSION_DENIED, s) ;;
      return_if negb (CheckOrUpdateCpuApplyQuota env uid bundleName i), (ERR_BGTASK_PERMISSION_DENIED, s) ;;
      (ERR_OK, ApplyResourceForPkgAndProc env uid pid bundleName i s)
  end.

Definition ResetAllEfficiencyResources (env : EffEnv) s : Z * EffMgr :=
  return_if negb (em_isSysReady_ s), (ERR_BGTASK_SYS_NOT_READY, s) ;;
  let uid := ee_uid env in
  let pid := ee_pid env in
  return_if negb (em_IsCallingInfoLegal uid pid), (ERR_BGTASK_INVALID_PID_OR_UID, s) ;;
  let bundleName := ee_GetClientBundleName env uid in
  return_if negb (ee_IsSystemApp env) && negb (IsServiceExtensionType env pid s),
    (ERR_BGTASK_NOT_SYSTEM_APP, s) ;;
  let exemptedResourceType := GetExemptedResourceType env MAX_RESOURCE_MASK uid bundleName in
  return_if exemptedResourceType =? 0, (ERR_BGTASK_PERMISSION_DENIED, s) ;;
  (ERR_OK, em_post (ee_now env)
     (TaskReset (new_ResourceCallbackInfo uid pid exemptedResourceType bundleName) false
        CANCEL_RESET_INTERFACE) s).

Definition EXEMPT_FROM_DEATH : Z :=
  Z.lxor (Z.lxor MAX_RESOURCE_MASK ResourceType.WORK_SCHEDULER) ResourceType.TIMER.

Definition RemoveAppRecord (env : EffEnv) (uid : Z) (bundleName : string) (resetAll : bool) s :
    Z * EffMgr :=
  return_if negb (em_isSysReady_ s), (ERR_BGTASK_SYS_NOT_READY, s) ;;
  let resourceNumber := if resetAll then MAX_RESOURCE_MASK else EXEMPT_FROM_DEATH in
  (ERR_OK, em_post (ee_now env)
     (TaskReset (new_ResourceCallbackInfo uid 0 resourceNumber bundleName) false CANCEL_APP_DIED) s).

Definition RemoveProcessRecord (env : EffEnv) (uid pid : Z) (bundleName : string) s : Z * EffMgr :=
  return_if negb (em_isSysReady_ s), (ERR_BGTASK_SYS_NOT_READY, s) ;;
  (ERR_OK, em_post (ee_now env)
     (TaskReset (new_ResourceCallbackInfo uid pid EXEMPT_FROM_DEATH bundleName) true
        CANCEL_PROCESS_DIED) s).

(** *** Queries *)

Definition GetEfficiencyResourcesInfosInner (infoMap : ResourceRecordMap) : list ResourceCallbackInfo :=
  (fun e => cbi_SetCpuLevel (rr_cpuLevel_ e.2)
     (new_ResourceCallbackInfo (rr_uid_ e.2) (rr_pid_ e.2) (rr_resourceNumber_ e.2) (rr_bundleName_ e.2)))
    <$> map_to_list infoMap.
Definition GetEfficiencyResourcesInfos s : Z * list ResourceCallbackInfo * list ResourceCallbackInfo :=
  (ERR_OK, GetEfficiencyResourcesInfosInner (em_appResourceApplyMap_ s),
   GetEfficiencyResourcesInfosInner (em_procResourceApplyMap_ s)).

(** The [uint32_t] kind reported for a unit, from an [int32_t] computation. *)
Definition reported_kind (resourceIndex : Z) : Z :=
  if resourceIndex =? 0 then 1 else uint32 (int32 (Z.shiftl resourceIndex 1)).

Definition GetAllEfficiencyResourcesInner (infoMap : ResourceRecordMap) (uid pid : Z)
    (isProcess : bool) : list EfficiencyResourceInfo :=
  concat ((fun e =>
    let record : ResourceApplicationRecord := e.2 in
    if negb (rr_uid_ record =? uid) then []
    else (fun u =>
      let appInfo := inf_SetCaller uid pid
        (new_EfficiencyResourceInfo (reported_kind (pt_resourceIndex_ u)) false
           (uint32 (pt_timeOut_ u)) (pt_reason_ u) (pt_isPersist_ u) isProcess) in
      if negb (rr_cpuLevel_ record =? CPU_LEVEL_DEFAULT)
      then inf_SetCpuLevel (rr_cpuLevel_ record) appInfo else appInfo)
      <$> rr_resourceUnitList_ record) <$> map_to_list infoMap).

Definition GetAllEfficiencyResources (env : EffEnv) s : Z * list EfficiencyResourceInfo :=
  return_if negb (em_isSysReady_ s), (ERR_BGTASK_RESOURCES_SYS_NOT_READY, []) ;;
  let uid := ee_uid env in
  let pid := ee_pid env in
  return_if negb (em_IsCallingInfoLegal uid pid), (ERR_BGTASK_RESOURCES_INVALID_PID_OR_UID, []) ;;
  return_if negb (ee_IsSystemApp env) && negb (IsServiceExtensionType env pid s),
    (ERR_BGTASK_NOT_SYSTEM_APP, []) ;;
  (ERR_OK, GetAllEfficiencyResourcesInner (em_appResourceApplyMap_ s) uid pid false
           ++ GetAllEfficiencyResourcesInner (em_procResourceApplyMap_ s) uid pid true).
End EffEntry.

(** ** Dependencies, restoration and dumps *)
Section EffLife.
Context {store : RecordStore} {abilities : EffAbilityIds}.
Implicit Types s : EffMgr.

(** [EraseRecordIf] for the two predicates of [CheckPersistenceData]. *)
Definition CheckPersistenceData (allProcesses : list RunningProcess) s : EffMgr :=
  let runningUid := rp_uid <$> allProcesses in
  let runningPid := rp_pid <$> allProcesses in
  let removeUid (key : Z) (record : ResourceApplicationRecord) : bool :=
    if negb (Z.land (rr_resourceNumber_ record) ResourceType.WORK_SCHEDULER =? 0)
       || negb (Z.land (rr_resourceNumber_ record) ResourceType.TIMER =? 0)
    then false else bool_decide (key ∉ runningUid) in
  let removePid (key : Z) : bool := bool_decide (key ∉ runningPid) in
  em_set_maps (filter (fun e => removeUid e.1 e.2 = false) (em_appResourceApplyMap_ s))
    (filter (fun e => removePid e.1 = false) (em_procResourceApplyMap_ s)) s.

Definition RecoverDelayedTask (now : Z) (isProcess : bool) (infoMap : ResourceRecordMap) s : EffMgr :=
  fold_left (fun s e =>
    fold_left (fun s u =>
      if pt_isPersist_ u then s
      else em_post (now + Z.max 0 (int32 (pt_endTime_ u - now))) (TaskTimeOut e.1 isProcess) s)
      (rr_resourceUnitList_ e.2) s) (map_to_list infoMap) s.

(** Soon after boot, applications keep only their work-scheduler and timer kinds. *)
Definition systemUpMaxDurationMs : Z := 4 * 60 * 1000.
Definition workSchedulerAndTimerResourceNumber : Z :=
  Z.lor ResourceType.WORK_SCHEDULER ResourceType.TIMER.
Definition RecoverResourceNumber (boottime : Z) s : EffMgr :=
  return_if boottime >? systemUpMaxDurationMs, s ;;
  em_set_maps
    ((fun r => rr_set_number (Z.land (rr_resourceNumber_ r) workSchedulerAndTimerResourceNumber) r)
       <$> em_appResourceApplyMap_ s) (em_procResourceApplyMap_ s) s.

Definition HandlePersistenceData (env : EffEnv) s : EffMgr :=
  let connectFailed := negb (em_appMgrClient_ s) && negb (ee_connectAppMgr env) in
  let s := em_set_client true s in
  return_if connectFailed, RefreshResourceRecord s ;;
  let '(app, proc) := RestoreResourceRecord (em_appResourceApplyMap_ s, em_procResourceApplyMap_ s) in
  let s := em_set_maps app proc s in
  let s := CheckPersistenceData (ee_processes env) s in
  let s := RecoverResourceNumber (ee_boottime env) s in
  let s := RecoverDelayedTask (ee_now env) true (em_procResourceApplyMap_ s) s in
  let s := RecoverDelayedTask (ee_now env) false (em_appResourceApplyMap_ s) s in
  RefreshResourceRecord s.

Definition em_InitNecessaryState (env : EffEnv) s : EffMgr :=
  return_if em_isSysReady_ s, s ;;
  let s := HandlePersistenceData env s in
  em_emit [EffSetReady] (em_set_ready true (em_dependsReady_ s) s).

(** The bit of [dependsReady_] an ability stands for. *)
Definition ready_bit (systemAbilityId : Z) : Z :=
  if systemAbilityId =? APP_MGR_SERVICE_ID then APP_MGR_READY
  else if systemAbilityId =? BUNDLE_MGR_SERVICE_SYS_ABILITY_ID then BUNDLE_MGR_READY
  else if systemAbilityId =? RES_SCHED_SYS_ABILITY_ID then RES_SCHED_SYS_READY
  else 0.

Definition em_OnAddSystemAbility (env : EffEnv) (systemAbilityId : Z) s : EffMgr :=
  let s := em_set_ready (em_isSysReady_ s) (Z.lor (em_dependsReady_ s) (ready_bit systemAbilityId)) s in
  if em_dependsReady_ s =? ALL_DEPENDS_READY then em_InitNecessaryState env s else s.

Definition em_OnRemoveSystemAbility (systemAbilityId : Z) s : EffMgr :=
  let s := em_set_ready (em_isSysReady_ s)
             (Z.land (em_dependsReady_ s) (uint32 (Z.lnot (ready_bit systemAbilityId)))) s in
  if negb (em_dependsReady_ s =? ALL_DEPENDS_READY)
  then em_set_ready false (em_dependsReady_ s) s else s.

(** *** Shell *)

Definition EOL : string := String (Ascii.ascii_of_nat 10) EmptyString.
Definition TB : string := String (Ascii.ascii_of_nat 9) EmptyString.

Definition dump_unit (curTime : Z) (u : PersistTime) : string :=
  (TB +:+ TB +:+ TB +:+ "resource type: "
     +:+ default "" (ResourceTypeName !! Z.to_nat (pt_resourceIndex_ u)) +:+ EOL
   +:+ TB +:+ TB +:+ TB +:+ "isPersist: " +:+ (if pt_isPersist_ u then "true" else "false") +:+ EOL
   +:+ (if pt_isPersist_ u then ""
        else TB +:+ TB +:+ TB +:+ "remainTime: " +:+ pretty (pt_endTime_ u - curTime) +:+ EOL)
   +:+ TB +:+ TB +:+ TB +:+ "reason: " +:+ pt_reason_ u +:+ EOL)%string.

Definition dump_app (now index key : Z) (r : ResourceApplicationRecord) : string :=
  ("No." +:+ pretty index +:+ EOL
   +:+ TB +:+ "efficiencyResourceKey: " +:+ pretty key +:+ EOL
   +:+ TB +:+ "efficiencyResourceValue:" +:+ EOL
   +:+ TB +:+ TB +:+ "bundleName: " +:+ rr_bundleName_ r +:+ EOL
   +:+ TB +:+ TB +:+ "uid: " +:+ pretty (rr_uid_ r) +:+ EOL
   +:+ TB +:+ TB +:+ "pid: " +:+ pretty (rr_pid_ r) +:+ EOL
   +:+ TB +:+ TB +:+ "resourceNumber: " +:+ pretty (rr_resourceNumber_ r) +:+ EOL
   +:+ TB +:+ TB +:+ "cpuLevel: " +:+ pretty (rr_cpuLevel_ r) +:+ EOL
   +:+ foldr (fun u acc => dump_unit now u +:+ acc) "" (rr_resourceUnitList_ r)
   +:+ EOL)%string.

(** [stream] is shared by the two calls: a heading whose map is empty stays in it
    and is printed before the first record of the next map. *)
Definition DumpApplicationInfoMap (now : Z) (infoMap : ResourceRecordMap) (dumpInfo : list string)
    (stream headInfo : string) : list string * string :=
  let '(dumpInfo, stream, _) :=
    fold_left (fun acc e =>
      let '(dumpInfo, stream, index) := acc in
      (dumpInfo ++ [stream +:+ dump_app now index e.1 e.2]%string, ""%string, index + 1))
      (map_to_list infoMap) (dumpInfo, (stream +:+ headInfo +:+ EOL)%string, 1) in
  (dumpInfo, stream).

Definition DumpAllApplicationInfo (now : Z) (dumpInfo : list string) s : list string :=
  return_if bool_decide (em_appResourceApplyMap_ s = ∅) && bool_decide (em_procResourceApplyMap_ s = ∅),
    dumpInfo ++ [("No running efficiency resources" +:+ EOL)%string] ;;
  let '(dumpInfo, stream) := DumpApplicationInfoMap now (em_appResourceApplyMap_ s) dumpInfo ""
                               ("app efficiency resource: " +:+ EOL) in
  (DumpApplicationInfoMap now (em_procResourceApplyMap_ s) dumpInfo stream
     ("process efficiency resource: " +:+ EOL)).1.

Definition DumpResetResource (env : EffEnv) (dumpOption : list string) (cleanApp cleanAll : bool) s :
    EffMgr :=
  let isProcess := negb cleanApp in
  if cleanAll then
    let s := fold_left (fun s e =>
      OnResourceChanged (cbi_SetCpuLevel (rr_cpuLevel_ e.2)
        (new_ResourceCallbackInfo (rr_uid_ e.2) (rr_pid_ e.2) (rr_resourceNumber_ e.2)
           (rr_bundleName_ e.2))) (reset_type isProcess) s)
      (map_to_list (em_map isProcess s)) s in
    em_set_map isProcess ∅ s
  else
    return_if Z.of_nat (length dumpOption) <? MAX_DUMP_PARAM_NUMS, s ;;
    let mapKey := atoi (default ""%string (dumpOption !! 2%nat)) in
    let cleanResource := uint32 (atoi (default ""%string (dumpOption !! 3%nat))) in
    match em_map isProcess s !! mapKey with
    | None => s
    | Some r =>
        (RemoveTargetResourceRecord env isProcess mapKey
           (cbi_SetCpuLevel (rr_cpuLevel_ r)
              (new_ResourceCallbackInfo (rr_uid_ r) (rr_pid_ r) cleanResource (rr_bundleName_ r))) s).2
    end.

Definition DumpResetAllResource (env : EffEnv) (dumpOption : list string) s : EffMgr :=
  let s := DumpResetResource env dumpOption true true s in
  DumpResetResource env dumpOption false true s.

Definition DumpGetCpuQuota (env : EffEnv) (dumpOption dumpInfo : list string) : list string :=
  match ee_quota env with
  | None => dumpInfo
  | Some lib =>
      match q_GetCpuApplyQuotaProcess lib with
      | None => dumpInfo
      | Some f =>
          return_if negb (Z.of_nat (length dumpOption) =? 3), dumpInfo ;;
          dumpInfo ++ f (atoi (default ""%string (dumpOption !! 2%nat)))
      end
  end.

Definition DumpSetCpuQuota (env : EffEnv) (dumpOption : list string) s : EffMgr :=
  match ee_quota env with
  | None => s
  | Some lib =>
      return_if negb (q_SetCpuApplyQuotaProcess lib), s ;;
      return_if negb (Z.of_nat (length dumpOption) =? 5), s ;;
      let arg n := atoi (default ""%string (dumpOption !! n)) in
      em_emit [EffSetCpuApplyQuota (arg 2%nat) (uint32 (arg 3%nat)) (uint32 (arg 4%nat))] s
  end.

Definition DumpResetCpuQuotaUsage (env : EffEnv) (dumpOption : list string) s : EffMgr :=
  match ee_quota env with
  | None => s
  | Some lib =>
      return_if negb (q_ResetCpuApplyQuotaUsageProcess lib), s ;;
      return_if negb (Z.of_nat (length dumpOption) =? 3), s ;;
      em_emit [EffResetCpuApplyQuotaUsage (atoi (default ""%string (dumpOption !! 2%nat)))] s
  end.

Definition em_ShellDumpInner (env : EffEnv) (dumpOption dumpInfo : list string) s :
    Z * list string * EffMgr :=
  match dumpOption !! 1%nat with
  | None => (ERR_BGTASK_INVALID_PARAM, dumpInfo, s)
  | Some opt =>
      let '(dumpInfo, s) :=
        if bool_decide (opt = "--all"%string) then (DumpAllApplicationInfo (ee_now env) dumpInfo s, s)
        else if bool_decide (opt = "--reset_all"%string) then (dumpInfo, DumpResetAllResource env dumpInfo s)
        else if bool_decide (opt = "--resetapp"%string) then (dumpInfo, DumpResetResource env dumpOption true false s)
        else if bool_decide (opt = "--resetproc"%string) then (dumpInfo, DumpResetResource env dumpOption false false s)
        else if bool_decide (opt = "--setquota"%string) then (dumpInfo, DumpSetCpuQuota env dumpOption s)
        else if bool_decide (opt = "--resetquota"%string) then (dumpInfo, DumpResetCpuQuotaUsage env dumpOption s)
        else if bool_decide (opt = "--getquota"%string) then (DumpGetCpuQuota env dumpOption dumpInfo, s)
        else (dumpInfo, s) in
      (ERR_OK, dumpInfo, RefreshResourceRecord s)
  end.

Definition em_ShellDump (env : EffEnv) (dumpOption dumpInfo : list string) s :
    Z * list string * EffMgr :=
  return_if negb (em_isSysReady_ s), (ERR_BGTASK_SYS_NOT_READY, dumpInfo, s) ;;
  let '(_, dumpInfo, s) := em_ShellDumpInner env dumpOption dumpInfo s in (ERR_OK, dumpInfo, s).
End EffLife.
