(* ===== verification/EfficiencyResourcesSpec.v ===== *)
(** * Efficiency resources: invariant of the records *)

From S2P Require Import Prelude.
From S2P Require Import Errors.
From S2P Require Import Interfaces.
From S2P Require Import ResourceTypes.
From S2P Require Import EfficiencyResources.
Local Open Scope Z_scope.

(** ** Units *)
Definition kinds_of (l : list PersistTime) : list Z := pt_resourceIndex_ <$> l.

Definition unit_ok (u : PersistTime) : Prop :=
  0 <= pt_resourceIndex_ u /\ (pt_isPersist_ u = true -> pt_endTime_ u = 0).

(** The units of a record are exactly the kinds of its number. *)
Record rec_ok (r : ResourceApplicationRecord) : Prop := {
  rok_nodup : NoDup (kinds_of (rr_resourceUnitList_ r));
  rok_units : Forall unit_ok (rr_resourceUnitList_ r);
  rok_number : 0 < rr_resourceNumber_ r <= MAX_RESOURCE_MASK;
  rok_kinds : forall i, Z.testbit (rr_resourceNumber_ r) i = true <-> i ∈ kinds_of (rr_resourceUnitList_ r);
}.

Section Units.
Implicit Types l : list PersistTime.

Lemma kinds_update_unit now i info l j :
  j ∈ kinds_of (update_unit now i info l) <-> j ∈ kinds_of l \/ j = i.
Proof.
  unfold kinds_of. induction l as [|u l IH]; simpl; [set_solver|].
  destruct (pt_resourceIndex_ u =? i) eqn:E; bool_prop; simpl.
  - rewrite !elem_of_cons. naive_solver.
  - rewrite !elem_of_cons, IH. tauto.
Qed.

Lemma NoDup_update_unit now i info l :
  NoDup (kinds_of l) -> NoDup (kinds_of (update_unit now i info l)).
Proof.
  induction l as [|u l IH]; simpl; [intros; apply NoDup_singleton|].
  intros Hn. apply NoDup_cons in Hn as [Hu Hl].
  destruct (pt_resourceIndex_ u =? i) eqn:E; bool_prop; simpl.
  - by apply NoDup_cons.
  - apply NoDup_cons. split; [|by apply IH].
    intros Hin. apply kinds_update_unit in Hin as [?|?]; done.
Qed.

Lemma unit_ok_update now i info l :
  0 <= i -> Forall unit_ok l -> Forall unit_ok (update_unit now i info l).
Proof.
  intros Hi. induction 1 as [|u l [Hu1 Hu2] Hl IH]; simpl.
  - repeat constructor; [done|]. simpl. by intros ->.
  - case_test; constructor; try done. split; [done|]. simpl. by intros ->.
Qed.

(** The end of a temporary unit is that of a temporary unit before, or the one
    just asked for. *)
Lemma ends_update_unit now i info l u :
  u ∈ update_unit now i info l -> pt_isPersist_ u = false ->
  (exists v, v ∈ l /\ pt_isPersist_ v = false /\ pt_endTime_ v = pt_endTime_ u) \/
  (inf_isPersist_ info = false /\ pt_endTime_ u = now + inf_timeOut_ info).
Proof.
  induction l as [|v l IH]; simpl.
  - intros ->%list_elem_of_singleton. simpl. intros E. rewrite E. by right.
  - case_test.
    + intros [->|Hin]%elem_of_cons; simpl.
      * intros [Ev Ei]%orb_false_elim. rewrite Ev, Ei. simpl.
        destruct (Z.max_spec (pt_endTime_ v) (now + inf_timeOut_ info)) as [[_ -> ]|[_ -> ]]; [by right|].
        left. exists v. by split; [left|].
      * intros. left. exists u. by split; [right|].
    + intros [->|Hin]%elem_of_cons Hp.
      * left. exists v. by split; [left|].
      * destruct (IH Hin Hp) as [(w & Hw & ?)|?]; [|by right]. left. exists w. by split; [right|].
Qed.

(** The loop over the kinds. *)
Lemma update_units_ind (P : list PersistTime -> Prop) now n info l :
  P l ->
  (forall l i, 0 <= i < MAX_RESOURCES_TYPE_NUM -> Z.testbit n i = true -> P l ->
     P (update_unit now i info l)) ->
  P (update_units now n info l).
Proof.
  intros Hl Hs. unfold update_units.
  assert (Hr : Forall (fun i => 0 <= i < MAX_RESOURCES_TYPE_NUM) (seqZ 0 MAX_RESOURCES_TYPE_NUM)).
  { apply Forall_forall. intros i Hi%elem_of_seqZ. lia. }
  revert l Hl. induction Hr as [|i ks Hi _ IH]; intros l Hl; simpl; [done|].
  apply IH. rewrite land_bit by lia. destruct (Z.testbit n i) eqn:E; simpl; [|done]. by apply Hs.
Qed.

Lemma kinds_fold now n info l (ks : list Z) j :
  Forall (fun i => 0 <= i) ks ->
  j ∈ kinds_of (fold_left (fun l i => if Z.land n (bit i) =? 0 then l else update_unit now i info l) ks l) <->
  j ∈ kinds_of l \/ (j ∈ ks /\ Z.testbit n j = true).
Proof.
  intros Hi. revert l. induction Hi as [|i ks Hi _ IH]; intros l; simpl.
  - split; [by left|]. intros [?|[Hx _]]; [done|]. by apply not_elem_of_nil in Hx.
  - rewrite IH, elem_of_cons, land_bit by done. destruct (Z.testbit n i) eqn:E; simpl.
    + rewrite kinds_update_unit. split; [intros [[?| ->]|[? ?]]|intros [?|[[-> |?] ?]]]; auto.
    + split; [intros [?|[? ?]]|intros [?|[[-> |?] ?]]]; auto. congruence.
Qed.

Lemma kinds_update_units now n info l j :
  0 <= n <= MAX_RESOURCE_MASK ->
  j ∈ kinds_of (update_units now n info l) <-> j ∈ kinds_of l \/ Z.testbit n j = true.
Proof.
  intros Hn. unfold update_units. rewrite kinds_fold.
  - split; [naive_solver|]. intros [?|Hb]; [by left|]. right. split; [|done].
    apply elem_of_seqZ. pose proof (kinds_bound n j Hn Hb). lia.
  - apply Forall_forall. intros i Hi%elem_of_seqZ. lia.
Qed.

Lemma ends_update_units now n info l u :
  u ∈ update_units now n info l -> pt_isPersist_ u = false ->
  (exists v, v ∈ l /\ pt_isPersist_ v = false /\ pt_endTime_ v = pt_endTime_ u) \/
  (inf_isPersist_ info = false /\ pt_endTime_ u = now + inf_timeOut_ info).
Proof.
  revert u. apply (update_units_ind (fun l' => forall u, u ∈ l' -> pt_isPersist_ u = false ->
    (exists v, v ∈ l /\ pt_isPersist_ v = false /\ pt_endTime_ v = pt_endTime_ u) \/
    (inf_isPersist_ info = false /\ pt_endTime_ u = now + inf_timeOut_ info))).
  - intros u Hu Hp. left. by exists u.
  - intros l' i _ _ IH u Hu Hp. destruct (ends_update_unit _ _ _ _ _ Hu Hp) as [(v & Hv & Hvp & Hve)|?];
      [|by right].
    destruct (IH v Hv Hvp) as [(w & ? & ? & ?)|[? ?]]; [left; exists w; split_and!; try done; congruence|].
    right. split; [done|congruence].
Qed.

(** [RemoveListRecord] keeps the units of the other kinds. *)
Lemma RemoveListRecord_spec n l u :
  Forall unit_ok l -> 
  u ∈ RemoveListRecord n l <-> u ∈ l /\ Z.testbit n (pt_resourceIndex_ u) = false.
Proof.
  intros Hl. unfold RemoveListRecord. destruct (Z.eqb_spec n 0) as [->|Hn].
  - setoid_rewrite Z.bits_0. tauto.
  - rewrite list_elem_of_filter, Z.land_comm. split.
    + intros [Hb Hu]. split; [done|]. rewrite land_bit in Hb; [by apply negb_true_iff|].
      by apply (proj1 (Forall_forall _ _) Hl).
    + intros [Hu Hb]. split; [|done]. rewrite land_bit, Hb; [done|].
      by apply (proj1 (Forall_forall _ _) Hl).
Qed.

Lemma RemoveListRecord_sublist n l : RemoveListRecord n l `sublist_of` l.
Proof. unfold RemoveListRecord. case_test; [done|apply sublist_filter]. Qed.

Lemma exists_cons {A} (P : A -> Prop) (x : A) (l : list A) :
  (exists y, y ∈ x :: l /\ P y) <-> P x \/ exists y, y ∈ l /\ P y.
Proof.
  setoid_rewrite elem_of_cons. split.
  - intros (y & [->|Hy] & HP); [by left|right; eauto].
  - intros [?|(y & ? & ?)]; eauto.
Qed.

(** The kinds that time out. *)
Lemma timed_out_spec now r i :
  Forall unit_ok (rr_resourceUnitList_ r) ->
  Z.testbit (timed_out now r) i = true <->
  exists u, u ∈ rr_resourceUnitList_ r /\ pt_resourceIndex_ u = i /\ pt_isPersist_ u = false /\
    pt_endTime_ u <= now.
Proof.
  unfold timed_out. generalize (rr_resourceUnitList_ r) as l. intros l Hl.
  enough (forall acc, Z.testbit (fold_left (fun eraseBit u =>
    if pt_isPersist_ u then eraseBit
    else if now >=? pt_endTime_ u then Z.lor eraseBit (bit (pt_resourceIndex_ u))
    else eraseBit) l acc) i = true <-> Z.testbit acc i = true \/ exists u, u ∈ l /\
      pt_resourceIndex_ u = i /\ pt_isPersist_ u = false /\ pt_endTime_ u <= now) as Hg.
  { rewrite Hg, Z.bits_0. naive_solver. }
  induction Hl as [|u l [Hu _] _ IH]; intros acc; simpl.
  - split; [by left|]. intros [?|(u & Hu & _)]; [done|]. by apply not_elem_of_nil in Hu.
  - rewrite IH, exists_cons. destruct (pt_isPersist_ u) eqn:Ep.
    + intuition congruence.
    + destruct (now >=? pt_endTime_ u) eqn:Et; bool_prop.
      * rewrite Z.lor_spec, bit_spec, orb_true_iff, Z.eqb_eq by done. intuition.
      * intuition lia.
Qed.

Lemma timed_out_nonneg now r : Forall unit_ok (rr_resourceUnitList_ r) -> 0 <= timed_out now r.
Proof.
  unfold timed_out. generalize (rr_resourceUnitList_ r) as l. intros l Hl.
  enough (forall acc, 0 <= acc -> 0 <= fold_left (fun eraseBit u =>
    if pt_isPersist_ u then eraseBit
    else if now >=? pt_endTime_ u then Z.lor eraseBit (bit (pt_resourceIndex_ u))
    else eraseBit) l acc) as Hg by (by apply Hg).
  induction Hl as [|u l [Hu _] _ IH]; intros acc Ha; simpl; [done|]. apply IH.
  repeat case_test; try done. apply Z.lor_nonneg. split; [done|]. by apply Z.shiftl_nonneg.
Qed.
End Units.

(** ** Invariant of the manager

    [t0] is when the service started: the task of a unit whose time was up by then is due
    at once. *)
Section EffInv.
Context {t0 : Z}.
Implicit Types s : EffMgr.
Implicit Types r : ResourceApplicationRecord.

Definition key_of_record (isProcess : bool) r : Z := if isProcess then rr_pid_ r else rr_uid_ r.

(** A task due at the end of each temporary unit is queued, or at the start of the service
    for a unit that had ended before. *)
Definition watched_by (tasks : list (Z * ETask)) (isProcess : bool) (key : Z) r : Prop :=
  forall u, u ∈ rr_resourceUnitList_ r -> pt_isPersist_ u = false ->
    exists due, pt_endTime_ u <= due <= Z.max t0 (pt_endTime_ u) /\ (due, TaskTimeOut key isProcess) ∈ tasks.

(** Requests queued ask for kinds. *)
Definition task_ok (t : ETask) : Prop :=
  match t with
  | TaskApply c _ => 0 < cbi_resourceNumber_ c <= MAX_RESOURCE_MASK
  | TaskReset c _ _ => 0 <= cbi_resourceNumber_ c
  | TaskTimeOut _ _ => True
  end.

Record em_inv s : Prop := {
  ei_rec : forall p key r, em_map p s !! key = Some r ->
    rec_ok r /\ key_of_record p r = key /\ watched_by (em_tasks s) p key r;
  ei_tasks : Forall (fun e => task_ok e.2) (em_tasks s);
}.

Lemma watched_more tasks tasks' p key r r' :
  tasks ⊆ tasks' -> rr_resourceUnitList_ r' ⊆ rr_resourceUnitList_ r -> watched_by tasks p key r -> watched_by tasks' p key r'.
Proof.
  intros Ht Hr Hw u Hu Hp. destruct (Hw u (Hr u Hu) Hp) as (due & Hd & Hin). exists due. split; [done|]. by apply Ht.
Qed.

(** *** Frames *)
Lemma em_map_set_same p m s : em_map p (em_set_map p m s) = m.
Proof. by destruct p. Qed.
Lemma em_map_set_other p m s : em_map (negb p) (em_set_map p m s) = em_map (negb p) s.
Proof. by destruct p. Qed.
Lemma em_set_map_frame p m s :
  em_tasks (em_set_map p m s) = em_tasks s /\ em_out (em_set_map p m s) = em_out s /\
  em_subscriberList_ (em_set_map p m s) = em_subscriberList_ s.
Proof. by destruct p. Qed.

(** The parts of the state a notification or report leaves alone. *)
Definition same_records s s' : Prop :=
  (forall p, em_map p s' = em_map p s) /\ em_tasks s' = em_tasks s /\
  em_subscriberList_ s' = em_subscriberList_ s.

Lemma same_records_refl s : same_records s s.
Proof. done. Qed.
Lemma same_records_trans s1 s2 s3 : same_records s1 s2 -> same_records s2 s3 -> same_records s1 s3.
Proof. intros (A1 & A2 & A3) (B1 & B2 & B3). split_and!; [intros p; by rewrite B1|congruence..]. Qed.

Lemma same_OnResourceChanged c t s : same_records s (OnResourceChanged c t s).
Proof. by split; [intros []|]. Qed.
Lemma same_report_apply env i c s : same_records s (ReportHisysEvent_apply env i c s).
Proof. unfold ReportHisysEvent_apply. destruct (report _ _). by split; [intros []|]. Qed.
Lemma same_report_reset env c t s : same_records s (ReportHisysEvent_reset env c t s).
Proof. unfold ReportHisysEvent_reset. destruct (report _ _). by split; [intros []|]. Qed.
Lemma same_UpdateQuota env t uid n s : same_records s (UpdateQuotaIfCpuReset env t uid n s).
Proof.
  unfold UpdateQuotaIfCpuReset. repeat case_test; try apply same_records_refl.
  destruct (ee_quota env); [case_test|]; by split; [intros []|].
Qed.
Lemma same_Refresh s : same_records s (RefreshResourceRecord s).
Proof. by split; [intros []|]. Qed.

Lemma em_inv_same s s' : same_records s s' -> em_inv s -> em_inv s'.
Proof.
  intros (Hm & Ht & _) Hs. split.
  - intros p key r. rewrite Hm, Ht. apply Hs.
  - rewrite Ht. apply Hs.
Qed.

(** The notifications: to the observer, then to each subscriber. *)
Definition change_events s (c : ResourceCallbackInfo) (t : EfficiencyResourcesEventType) : list EffEffect :=
  EffObserver c t :: ((fun sub => EffSubscriber sub c t) <$> em_subscriberList_ s).
(** The changes announced to the observer. *)
Definition observed (l : list EffEffect) : list (ResourceCallbackInfo * EfficiencyResourcesEventType) :=
  omap (fun e => match e with EffObserver c t => Some (c, t) | _ => None end) l.

Lemma observed_app l1 l2 : observed (l1 ++ l2) = observed l1 ++ observed l2.
Proof. apply omap_app. Qed.
Lemma observed_subs (l : list RemoteProxy) c t : observed ((fun sub => EffSubscriber sub c t) <$> l) = [].
Proof. induction l as [|x l IH]; [done|]. exact IH. Qed.

Lemma out_OnResourceChanged c t s :
  observed (em_out (OnResourceChanged c t s)) = observed (em_out s) ++ [(c, t)].
Proof.
  unfold OnResourceChanged. simpl. rewrite observed_app. f_equal.
  change (observed (EffObserver c t :: ?l)) with ((c, t) :: observed l).
  cbn [observed]. unfold observed at 1. simpl. f_equal. apply observed_subs.
Qed.
Lemma out_report_apply env i c s :
  observed (em_out (ReportHisysEvent_apply env i c s)) = observed (em_out s).
Proof.
  unfold ReportHisysEvent_apply. destruct (report _ _) as [b w]. simpl. rewrite observed_app.
  assert (observed (EffHisysApply <$> w) = []) as -> by (induction w; done). by rewrite app_nil_r.
Qed.
Lemma out_report_reset env c t s :
  observed (em_out (ReportHisysEvent_reset env c t s)) = observed (em_out s).
Proof.
  unfold ReportHisysEvent_reset. destruct (report _ _) as [b w]. simpl. rewrite observed_app.
  assert (observed (EffHisysReset <$> w) = []) as -> by (induction w; done). by rewrite app_nil_r.
Qed.
Lemma out_UpdateQuota env t uid n s :
  observed (em_out (UpdateQuotaIfCpuReset env t uid n s)) = observed (em_out s).
Proof.
  unfold UpdateQuotaIfCpuReset. repeat case_test; try done.
  destruct (ee_quota env); [case_test|]; try done. simpl. rewrite observed_app. by rewrite app_nil_r.
Qed.

(** *** Replacing one record *)
Lemma em_inv_replace s s' p key (r' : option ResourceApplicationRecord) tasks' :
  em_inv s ->
  em_map p s' = partial_alter (fun _ => r') key (em_map p s) ->
  em_map (negb p) s' = em_map (negb p) s ->
  em_tasks s' = em_tasks s ++ tasks' -> Forall (fun e => task_ok e.2) tasks' ->
  (forall r, r' = Some r -> rec_ok r /\ key_of_record p r = key /\ watched_by (em_tasks s') p key r) ->
  em_inv s'.
Proof.
  intros Hs Hm Ho Ht Htok Hr. split.
  - intros p0 key0 r0. destruct (decide (p0 = p)) as [->|Hp].
    + rewrite Hm. destruct (decide (key0 = key)) as [->|Hk].
      * rewrite lookup_partial_alter_eq. apply Hr.
      * rewrite lookup_partial_alter_ne by done. intros Hl. destruct (ei_rec _ Hs _ _ _ Hl) as (? & ? & Hw).
        split_and!; try done. eapply watched_more; [|done|done]. rewrite Ht. set_solver.
    + assert (p0 = negb p) as -> by (by destruct p0, p). rewrite Ho. intros Hl.
      destruct (ei_rec _ Hs _ _ _ Hl) as (? & ? & Hw). split_and!; try done.
      eapply watched_more; [|done|done]. rewrite Ht. set_solver.
  - rewrite Ht. apply Forall_app. split; [apply Hs|done].
Qed.

(** *** Applying *)
Definition apply_key (c : ResourceCallbackInfo) (i : EfficiencyResourceInfo) : Z :=
  if inf_isProcess_ i then cbi_pid_ c else cbi_uid_ c.
Definition held (p : bool) (key : Z) s : Z := default 0 (rr_resourceNumber_ <$> em_map p s !! key).
Definition apply_type (p : bool) : EfficiencyResourcesEventType :=
  if p then RESOURCE_APPLY else APP_RESOURCE_APPLY.

Lemma diff_ldiff pre n : Z.lxor (Z.lor pre n) (Z.land pre (Z.lor pre n)) = Z.ldiff n pre.
Proof.
  apply Z.bits_inj'. intros i _. rewrite Z.lxor_spec, Z.land_spec, Z.lor_spec, Z.ldiff_spec.
  by destruct (Z.testbit pre i), (Z.testbit n i).
Qed.

(** The record after an application. *)
Definition base_record (c : ResourceCallbackInfo) (old : option ResourceApplicationRecord) :=
  match old with
  | None =>
      rr_SetCpuLevel (cbi_cpuLevel_ c)
        (mkRecord (cbi_uid_ c) (cbi_pid_ c) (cbi_resourceNumber_ c) CPU_LEVEL_DEFAULT
           (cbi_bundleName_ c) [])
  | Some r => rr_set_number (Z.lor (rr_resourceNumber_ r) (cbi_resourceNumber_ c)) r
  end.
Definition applied_record (now : Z) (c : ResourceCallbackInfo) (i : EfficiencyResourceInfo)
    (old : option ResourceApplicationRecord) : ResourceApplicationRecord :=
  rr_set_units (update_units now (cbi_resourceNumber_ c) i
    (default [] (rr_resourceUnitList_ <$> old))) (base_record c old).

Lemma applied_record_ok now c i p key old :
  0 < cbi_resourceNumber_ c <= MAX_RESOURCE_MASK ->
  (forall r, old = Some r -> rec_ok r /\ key_of_record p r = key) ->
  key_of_record p (mkRecord (cbi_uid_ c) (cbi_pid_ c) 0 0 "" []) = key ->
  let r := applied_record now c i old in
  rec_ok r /\ key_of_record p r = key /\
  rr_resourceNumber_ r = Z.lor (default 0 (rr_resourceNumber_ <$> old)) (cbi_resourceNumber_ c).
Proof.
  intros Hn Hold Hkey. set (n := cbi_resourceNumber_ c) in *. cbv zeta.
  set (l := default [] (rr_resourceUnitList_ <$> old)).
  assert (Hl : NoDup (kinds_of l) /\ Forall unit_ok l /\
    (forall j, Z.testbit (default 0 (rr_resourceNumber_ <$> old)) j = true <-> j ∈ kinds_of l) /\
    0 <= default 0 (rr_resourceNumber_ <$> old) <= MAX_RESOURCE_MASK).
  { unfold l. destruct old as [r|]; simpl.
    - destruct (Hold r eq_refl) as [[] _]. split_and!; try done; lia.
    - split_and!; [constructor|constructor| |done|by vm_compute].
      intros j. rewrite Z.bits_0. split; [done|]. by intros ?%not_elem_of_nil. }
  destruct Hl as (Hnd & Hok & Hb & Hle). set (pre := default 0 _) in *.
  assert (Hnum : rr_resourceNumber_ (applied_record now c i old) = Z.lor pre n).
  { unfold applied_record, base_record, pre. destruct old; [done|]. simpl. by rewrite Z.lor_0_l. }
  assert (Hpos : 0 < Z.lor pre n).
  { assert (0 <= Z.lor pre n) by (apply Z.lor_nonneg; lia).
    assert (Z.lor pre n <> 0) by (rewrite Z.lor_eq_0_iff; lia). lia. }
  split; [|split; [|done]].
  - split; simpl; fold n l.
    + apply (update_units_ind (fun l => NoDup (kinds_of l))); [done|].
      intros. by apply NoDup_update_unit.
    + apply (update_units_ind (Forall unit_ok)); [done|]. intros. apply unit_ok_update; [lia|done].
    + change (rr_resourceNumber_ (base_record c old)) with (rr_resourceNumber_ (applied_record now c i old)).
      rewrite Hnum. split; [done|]. apply kinds_le_mask; [lia|].
      intros j. rewrite Z.lor_spec, orb_true_iff.
      intros [Hj|Hj]; apply kinds_bound in Hj; lia.
    + intros j. change (rr_resourceNumber_ (base_record c old))
        with (rr_resourceNumber_ (applied_record now c i old)).
      rewrite Hnum, Z.lor_spec, orb_true_iff, Hb, kinds_update_units by lia. done.
  - unfold applied_record, base_record. destruct old as [r|]; [|exact Hkey].
    destruct (Hold r eq_refl) as [_ <-]. by destruct p.
Qed.

(** The last part of [ApplyEfficiencyResourcesInner]: the announcement of the kinds
    that are new, and the level that goes with them. *)
Definition announce (p : bool) (key diff : Z) (c : ResourceCallbackInfo)
    (r : ResourceApplicationRecord) s : EffMgr :=
  if diff =? 0 then RefreshResourceRecord s
  else
    let c := cbi_SetResourceNumber diff c in
    let s := OnResourceChanged c (apply_type p) s in
    RefreshResourceRecord
      (em_set_map p (<[key := rr_SetCpuLevel (cbi_cpuLevel_ c) r]> (em_map p s)) s).

Lemma announce_spec p key diff c r s m :
  em_map p s = <[key := r]> m ->
  let s' := announce p key diff c r s in
  (exists r', em_map p s' = <[key := r']> m /\ (r' = r \/ r' = rr_SetCpuLevel (cbi_cpuLevel_ c) r)) /\
  em_map (negb p) s' = em_map (negb p) s /\ em_tasks s' = em_tasks s /\
  em_stored s' = (em_appResourceApplyMap_ s', em_procResourceApplyMap_ s') /\
  observed (em_out s') = observed (em_out s) ++
    (if diff =? 0 then [] else [(cbi_SetResourceNumber diff c, apply_type p)]).
Proof.
  intros Hm s'. unfold s', announce. destruct (diff =? 0).
  - rewrite app_nil_r. split_and!; try (by destruct p). exists r. split; [by destruct p|by left].
  - cbv zeta. cbn [cbi_cpuLevel_ cbi_SetResourceNumber].
    pose proof (out_OnResourceChanged (cbi_SetResourceNumber diff c) (apply_type p) s) as Ho.
    destruct (same_OnResourceChanged (cbi_SetResourceNumber diff c) (apply_type p) s) as (Hm4 & Ht4 & _).
    set (s4 := OnResourceChanged _ _ s) in *. clearbody s4.
    set (r' := rr_SetCpuLevel (cbi_cpuLevel_ c) r).
    destruct (em_set_map_frame p (<[key := r']> (em_map p s4)) s4) as (Ht5 & Ho5 & _).
    pose proof (em_map_set_same p (<[key := r']> (em_map p s4)) s4) as Hs5.
    pose proof (em_map_set_other p (<[key := r']> (em_map p s4)) s4) as Hn5.
    set (s5 := em_set_map p _ s4) in *. clearbody s5.
    destruct (same_Refresh s5) as (Hm6 & Ht6 & _).
    split_and!; [|by rewrite Hm6, Hn5, Hm4|by rewrite Ht6, Ht5, Ht4|done|simpl; by rewrite Ho5, Ho].
    exists r'. split; [|by right]. by rewrite Hm6, Hs5, Hm4, Hm, insert_insert_eq.
Qed.

(** [ApplyEfficiencyResourcesInner] in its three parts. *)
Lemma Apply_parts env c i s :
  let p := inf_isProcess_ i in
  let key := apply_key c i in
  let r := applied_record (ee_now env) c i (em_map p s !! key) in
  let diff := Z.ldiff (cbi_resourceNumber_ c) (held p key s) in
  rr_resourceNumber_ r = Z.lor (held p key s) (cbi_resourceNumber_ c) ->
  ApplyEfficiencyResourcesInner env c i s =
    let s := if inf_isPersist_ i then s
             else em_post (ee_now env + inf_timeOut_ i) (TaskTimeOut key p) s in
    let s := em_set_map p (<[key := r]> (em_map p s)) s in
    announce p key diff c r (ReportHisysEvent_apply env i c s).
Proof.
  intros p key r diff Hnum. unfold diff. rewrite <- diff_ldiff, <- Hnum.
  unfold ApplyEfficiencyResourcesInner, UpdateResourcesEndtime, announce, apply_type. fold p.
  change (if p then cbi_pid_ c else cbi_uid_ c) with key.
  assert (E : r = rr_set_units (update_units (ee_now env) (cbi_resourceNumber_ c) i
    (rr_resourceUnitList_ (base_record c (em_map p s !! key)))) (base_record c (em_map p s !! key))).
  { unfold r, applied_record, base_record. by destruct (em_map p s !! key). }
  unfold held. rewrite E. unfold base_record.
  destruct (em_map p s !! key) as [r0|]; destruct (inf_isPersist_ i); reflexivity.
Qed.

Lemma Apply_unfold env c i s :
  let p := inf_isProcess_ i in
  let key := apply_key c i in
  let r := applied_record (ee_now env) c i (em_map p s !! key) in
  let s' := ApplyEfficiencyResourcesInner env c i s in
  let diff := Z.ldiff (cbi_resourceNumber_ c) (held p key s) in
  rr_resourceNumber_ r = Z.lor (held p key s) (cbi_resourceNumber_ c) ->
  (exists r', em_map p s' = <[key := r']> (em_map p s) /\ (r' = r \/ r' = rr_SetCpuLevel (cbi_cpuLevel_ c) r)) /\
  em_map (negb p) s' = em_map (negb p) s /\
  em_tasks s' = em_tasks s ++ (if inf_isPersist_ i then []
                               else [(ee_now env + inf_timeOut_ i, TaskTimeOut key p)]) /\
  em_stored s' = (em_appResourceApplyMap_ s', em_procResourceApplyMap_ s') /\
  observed (em_out s') = observed (em_out s) ++
    (if diff =? 0 then [] else [(cbi_SetResourceNumber diff c, apply_type p)]).
Proof.
  intros p key r s' diff Hnum. unfold s'. rewrite Apply_parts by done.
  cbv zeta. fold p key r diff.
  set (s1 := if inf_isPersist_ i then s else _).
  assert (Hs1 : (forall q, em_map q s1 = em_map q s) /\ em_out s1 = em_out s /\
    em_tasks s1 = em_tasks s ++ (if inf_isPersist_ i then []
                               else [(ee_now env + inf_timeOut_ i, TaskTimeOut key p)])).
  { unfold s1. destruct (inf_isPersist_ i); [by rewrite app_nil_r|]. by split; [intros []|]. }
  destruct Hs1 as (Hm1 & Ho1 & Ht1). clearbody s1. rewrite Hm1.
  destruct (em_set_map_frame p (<[key := r]> (em_map p s)) s1) as (Ht2 & Ho2 & _).
  pose proof (em_map_set_same p (<[key := r]> (em_map p s)) s1) as Hs2.
  pose proof (em_map_set_other p (<[key := r]> (em_map p s)) s1) as Hn2.
  set (s2 := em_set_map p _ s1) in *. clearbody s2.
  destruct (same_report_apply env i c s2) as (Hm3 & Ht3 & _).
  pose proof (out_report_apply env i c s2) as Ho3.
  set (s3 := ReportHisysEvent_apply env i c s2) in *. clearbody s3.
  destruct (announce_spec p key diff c r s3 (em_map p s)) as (Hr & Hn & Ht & Hst & Ho);
    [by rewrite Hm3, Hs2|].
  split; [done|]. split; [congruence|]. split; [congruence|]. split; [done|].
  rewrite Ho. f_equal. congruence.
Qed.

Lemma rec_ok_level r l : rec_ok r -> rec_ok (rr_SetCpuLevel l r).
Proof. intros []. by split. Qed.

Lemma Apply_spec env c i s :
  let p := inf_isProcess_ i in
  let key := apply_key c i in
  let s' := ApplyEfficiencyResourcesInner env c i s in
  let diff := Z.ldiff (cbi_resourceNumber_ c) (held p key s) in
  em_inv s -> 0 < cbi_resourceNumber_ c <= MAX_RESOURCE_MASK ->
  em_inv s' /\
  held p key s' = Z.lor (held p key s) (cbi_resourceNumber_ c) /\
  (forall q k, (q, k) <> (p, key) -> em_map q s' !! k = em_map q s !! k) /\
  em_tasks s' = em_tasks s ++ (if inf_isPersist_ i then []
                               else [(ee_now env + inf_timeOut_ i, TaskTimeOut key p)]) /\
  em_stored s' = (em_appResourceApplyMap_ s', em_procResourceApplyMap_ s') /\
  observed (em_out s') = observed (em_out s) ++
    (if diff =? 0 then [] else [(cbi_SetResourceNumber diff c, apply_type p)]).
Proof.
  intros p key s' diff Hs Hn.
  destruct (applied_record_ok (ee_now env) c i p key (em_map p s !! key) Hn) as (Hok & Hkey & Hnum).
  { intros r Hr. destruct (ei_rec _ Hs _ _ _ Hr) as (? & ? & _). done. }
  { unfold key, apply_key. fold p. by destruct p. }
  destruct (Apply_unfold env c i s Hnum) as ((r' & Hm & Hr') & Hother & Ht & Hst & Ho).
  fold p key s' in Hm, Hr', Hother, Ht, Hst, Ho. fold diff in Ho.
  assert (Hr : rec_ok r' /\ key_of_record p r' = key /\
    rr_resourceNumber_ r' = Z.lor (held p key s) (cbi_resourceNumber_ c) /\
    rr_resourceUnitList_ r' = update_units (ee_now env) (cbi_resourceNumber_ c) i
      (default [] (rr_resourceUnitList_ <$> em_map p s !! key))).
  { destruct Hr' as [->| ->].
    - split_and!; try done.
    - split_and!; [by apply rec_ok_level|by destruct p|done|done]. }
  destruct Hr as (Hok' & Hkey' & Hnum' & Hunits).
  split; [|split; [|split; [|done]]].
  - eapply (em_inv_replace s s' p key (Some r')); try done.
    + by destruct (inf_isPersist_ i); repeat constructor.
    + intros r [= <-]. split_and!; try done. intros u Hu Hp. rewrite Hunits in Hu.
      destruct (ends_update_units _ _ _ _ _ Hu Hp) as [(v & Hv & Hvp & <-)|[E1 E2]].
      * destruct (em_map p s !! key) as [r0|] eqn:E; simpl in Hv; [|by apply not_elem_of_nil in Hv].
        destruct (ei_rec _ Hs _ _ _ E) as (_ & _ & Hw). destruct (Hw v Hv Hvp) as (due & Hd & Hin).
        exists due. split; [done|]. rewrite Ht. apply elem_of_app. by left.
      * exists (pt_endTime_ u). split; [lia|]. rewrite Ht, E1, E2. apply elem_of_app. right. by apply list_elem_of_singleton.
  - unfold held at 1. by rewrite Hm, lookup_insert_eq.
  - intros q k Hne. destruct (decide (q = p)) as [->|Hq].
    + rewrite Hm, lookup_insert_ne; [done|]. intros <-. done.
    + assert (q = negb p) as -> by (by destruct q, p). by rewrite Hother.
Qed.

(** *** Erasing *)

(** The record once [eraseBit] is taken off. *)
Definition erased_record (eraseBit : Z) r : ResourceApplicationRecord :=
  rr_set_units (RemoveListRecord eraseBit (rr_resourceUnitList_ r))
    (rr_set_number (Z.lxor (rr_resourceNumber_ r) eraseBit) r).

Lemma erase_unfold env p key e level r s :
  em_map p s !! key = Some r ->
  let s' := erase_kinds env p key e level r s in
  let n := Z.lxor (rr_resourceNumber_ r) e in
  em_map p s' = (if n =? 0 then delete key (em_map p s)
                 else <[key := erased_record e r]> (em_map p s)) /\
  em_map (negb p) s' = em_map (negb p) s /\ em_tasks s' = em_tasks s /\
  observed (em_out s') = observed (em_out s) ++
    [(cbi_SetCpuLevel level (new_ResourceCallbackInfo (rr_uid_ r) (rr_pid_ r) e (rr_bundleName_ r)),
      reset_type p)].
Proof.
  intros Hr s' n. unfold s', erase_kinds. cbv zeta.
  fold (erased_record e r). set (c := cbi_SetCpuLevel level _).
  destruct (em_set_map_frame p (<[key := erased_record e r]> (em_map p s)) s) as (Ht1 & Ho1 & _).
  pose proof (em_map_set_same p (<[key := erased_record e r]> (em_map p s)) s) as Hs1.
  pose proof (em_map_set_other p (<[key := erased_record e r]> (em_map p s)) s) as Hn1.
  set (s1 := em_set_map p _ s) in *. clearbody s1.
  set (s2 := UpdateQuotaIfCpuReset env (reset_type p) _ _ s1).
  assert (H2 : same_records s1 s2 /\ observed (em_out s2) = observed (em_out s1)).
  { split; [apply same_UpdateQuota|apply out_UpdateQuota]. }
  clearbody s2. destruct H2 as [(Hm2 & Ht2 & _) Ho2].
  pose proof (same_report_reset env c (reset_type p) s2) as (Hm3 & Ht3 & _).
  pose proof (out_report_reset env c (reset_type p) s2) as Ho3.
  set (s3 := ReportHisysEvent_reset env c (reset_type p) s2) in *. clearbody s3.
  pose proof (same_OnResourceChanged c (reset_type p) s3) as (Hm4 & Ht4 & _).
  pose proof (out_OnResourceChanged c (reset_type p) s3) as Ho4.
  set (s4 := OnResourceChanged c (reset_type p) s3) in *. clearbody s4.
  change (rr_resourceNumber_ (erased_record e r)) with n.
  assert (Hp4 : em_map p s4 = <[key := erased_record e r]> (em_map p s)) by congruence.
  assert (Hq4 : em_map (negb p) s4 = em_map (negb p) s) by congruence.
  assert (Ht : em_tasks s4 = em_tasks s) by congruence.
  assert (Ho : observed (em_out s4) = observed (em_out s) ++ [(c, reset_type p)]) by congruence.
  destruct (n =? 0); [|done].
  destruct (em_set_map_frame p (delete key (em_map p s4)) s4) as (Ht5 & Ho5 & _).
  rewrite em_map_set_same, em_map_set_other, Ht5, Ho5, Hp4, Hq4.
  split_and!; try done. by rewrite delete_insert_eq.
Qed.

Lemma erased_record_ok e r :
  rec_ok r -> 0 <= e -> (forall i, Z.testbit e i = true -> Z.testbit (rr_resourceNumber_ r) i = true) ->
  Z.lxor (rr_resourceNumber_ r) e = Z.ldiff (rr_resourceNumber_ r) e /\
  (Z.ldiff (rr_resourceNumber_ r) e <> 0 -> rec_ok (erased_record e r)).
Proof.
  intros Hr He Hsub.
  assert (Hx : Z.lxor (rr_resourceNumber_ r) e = Z.ldiff (rr_resourceNumber_ r) e).
  { apply Z.bits_inj'. intros i _. rewrite Z.lxor_spec, Z.ldiff_spec. specialize (Hsub i).
    destruct (Z.testbit (rr_resourceNumber_ r) i), (Z.testbit e i); try done. by destruct Hsub. }
  split; [done|]. intros Hne. pose proof (rok_number _ Hr) as Hn.
  assert (0 <= Z.ldiff (rr_resourceNumber_ r) e) as Hnn by (apply Z.ldiff_nonneg; lia).
  split; unfold erased_record; cbn [rr_resourceUnitList_ rr_resourceNumber_ rr_set_units rr_set_number].
  - eapply sublist_NoDup; [apply Hr|]. apply fmap_sublist, RemoveListRecord_sublist.
  - apply Forall_forall. intros u Hu. apply RemoveListRecord_spec in Hu as [Hu _]; [|apply Hr].
    by apply (proj1 (Forall_forall _ _) (rok_units _ Hr)).
  - rewrite Hx. split; [lia|]. apply kinds_le_mask; [done|]. intros i.
    rewrite Z.ldiff_spec, andb_true_iff. intros [Hi _]. apply kinds_bound in Hi; lia.
  - intros i. rewrite Hx, Z.ldiff_spec, andb_true_iff, negb_true_iff, (rok_kinds _ Hr).
    unfold kinds_of. rewrite !list_elem_of_fmap. split.
    + intros [(u & -> & Hu) Hi]. exists u. split; [done|]. apply RemoveListRecord_spec; [apply Hr|done].
    + intros (u & -> & Hu). apply RemoveListRecord_spec in Hu as [Hu Hi]; [|apply Hr]. eauto.
Qed.

Lemma erase_spec env p key e level r s :
  em_inv s -> em_map p s !! key = Some r ->
  0 <= e -> (forall i, Z.testbit e i = true -> Z.testbit (rr_resourceNumber_ r) i = true) ->
  let s' := erase_kinds env p key e level r s in
  em_inv s' /\ held p key s' = Z.ldiff (held p key s) e /\
  (em_map p s' !! key = if Z.ldiff (held p key s) e =? 0 then None else Some (erased_record e r)) /\
  (forall q k, (q, k) <> (p, key) -> em_map q s' !! k = em_map q s !! k) /\
  em_tasks s' = em_tasks s /\
  observed (em_out s') = observed (em_out s) ++
    [(cbi_SetCpuLevel level (new_ResourceCallbackInfo (rr_uid_ r) (rr_pid_ r) e (rr_bundleName_ r)),
      reset_type p)].
Proof.
  intros Hs Hr He Hsub s'. destruct (ei_rec _ Hs _ _ _ Hr) as (Hok & Hkey & Hw).
  destruct (erased_record_ok e r Hok He Hsub) as [Hx Hok'].
  destruct (erase_unfold env p key e level r s Hr) as (Hm & Ho & Ht & Hout). fold s' in Hm, Ho, Ht, Hout.
  rewrite Hx in Hm.
  assert (Hh : held p key s = rr_resourceNumber_ r) by (unfold held; by rewrite Hr). rewrite Hh.
  assert (Hat : em_map p s' !! key =
    if Z.ldiff (rr_resourceNumber_ r) e =? 0 then None else Some (erased_record e r)).
  { rewrite Hm. destruct (_ =? 0); [apply lookup_delete_eq|apply lookup_insert_eq]. }
  split; [|split; [|split; [done|split; [|done]]]].
  - eapply (em_inv_replace s s' p key
      (if Z.ldiff (rr_resourceNumber_ r) e =? 0 then None else Some (erased_record e r)) []); try done.
    + rewrite Hm. by destruct (_ =? 0).
    + by rewrite app_nil_r.
    + intros r' Hr'. destruct (Z.eqb_spec (Z.ldiff (rr_resourceNumber_ r) e) 0) as [|Hne]; [done|].
      injection Hr' as <-. split_and!; [by apply Hok'|by destruct p|].
      eapply watched_more; [by rewrite Ht| |done]. intros u Hu. by apply RemoveListRecord_spec in Hu as [Hu _]; [|apply Hok].
  - unfold held. rewrite Hat. destruct (Z.eqb_spec (Z.ldiff (rr_resourceNumber_ r) e) 0) as [->|]; [done|].
    simpl. by rewrite Hx.
  - intros q k Hne. destruct (decide (q = p)) as [->|Hq].
    + rewrite Hm. destruct (_ =? 0); [rewrite lookup_delete_ne|rewrite lookup_insert_ne]; try done;
        intros <-; done.
    + assert (q = negb p) as -> by (by destruct q, p). by rewrite Ho.
Qed.
End EffInv.
Arguments watched_by : clear implicits.
Arguments em_inv : clear implicits.
