(* ===== verification/Json.v ===== *)
(** * JSON values

    What the code uses of [nlohmann::json]: the kind of a value, the members of an
    object, the elements of an array and the conversions of [get<T>()], which throw
    ([None]) on a value of another kind.  The type of values is a parameter; a value
    is known through [view], which [mk] inverts.  [CheckJsonValue] is from
    src/services/common/src/common_utils.cpp. *)

From S2P Require Import Prelude.
Local Open Scope Z_scope.

(** A number with a fraction is known by its integer part, all the code takes of it. *)
Inductive JsonView (J : Type) :=
| JNull
| JBool (b : bool)
| JInt (z : Z)
| JFloat (trunc : Z)
| JString (s : string)
| JArray (l : list J)
| JObject (m : gmap string J).
Arguments JNull {J}.
Arguments JBool {J} b.
Arguments JInt {J} z.
Arguments JFloat {J} trunc.
Arguments JString {J} s.
Arguments JArray {J} l.
Arguments JObject {J} m.

Class Json (J : Type) := {
  view : J -> JsonView J;
  mk : JsonView J -> J;
  parse : string -> option J;          (* json::parse(text, nullptr, false) *)
  view_mk v : view (mk v) = v;
}.

Section JsonOps.
Context `{Json J}.
Implicit Types j : J.

Definition is_null j : bool := match view j with JNull => true | _ => false end.
Definition is_boolean j : bool := match view j with JBool _ => true | _ => false end.
Definition is_number_integer j : bool := match view j with JInt _ => true | _ => false end.
Definition is_string j : bool := match view j with JString _ => true | _ => false end.
Definition is_array j : bool := match view j with JArray _ => true | _ => false end.
Definition is_object j : bool := match view j with JObject _ => true | _ => false end.

(** [empty()]: no element. *)
Definition json_empty j : bool :=
  match view j with
  | JNull => true
  | JArray l => bool_decide (l = [])
  | JObject m => bool_decide (m = ∅)
  | _ => false
  end.

(** The member of an object; [contains] tells whether there is one. *)
Definition member (key : string) j : option J :=
  match view j with JObject m => m !! key | _ => None end.
Definition contains j (key : string) : bool := bool_decide (is_Some (member key j)).
(** A member the code knows to be there and to be of some kind. *)
Definition member_if (test : J -> bool) (key : string) j : option J :=
  match member key j with Some v => if test v then Some v else None | None => None end.

(** The elements a range-based [for] walks. *)
Definition elements j : list J := match view j with JArray l => l | _ => [] end.
(** The members [items()] walks, in key order. *)
Definition members j : gmap string J := match view j with JObject m => m | _ => ∅ end.

Definition get_bool j : option bool := match view j with JBool b => Some b | _ => None end.
Definition get_string j : option string := match view j with JString s => Some s | _ => None end.
(** Arithmetic conversions, before the cast to the type asked for. *)
Definition get_number j : option Z :=
  match view j with
  | JInt z => Some z
  | JFloat t => Some t
  | JBool b => Some (Z.b2z b)
  | _ => None
  end.
Definition get_int32 j : option Z := int32 <$> get_number j.
Definition get_uint32 j : option Z := uint32 <$> get_number j.

(** The strings among the elements of an array. *)
Definition strings j : list string := omap get_string (elements j).

Definition CheckJsonValue j (params : list string) : bool := forallb (contains j) params.

Lemma member_if_Some test key j v : member_if test key j = Some v -> member key j = Some v /\ test v = true.
Proof. unfold member_if. destruct (member key j); [|done]. case_test; [|done]. by intros [= <-]. Qed.

Lemma contains_member key j : contains j key = true <-> is_Some (member key j).
Proof. unfold contains. by rewrite bool_decide_eq_true. Qed.

Lemma elem_of_strings j s : s ∈ strings j <-> exists v, v ∈ elements j /\ get_string v = Some s.
Proof. unfold strings. apply list_elem_of_omap. Qed.
End JsonOps.

#[export] Hint Rewrite @view_mk : bgtask_rw.

(** ** Values as trees *)
Inductive json := Js (v : JsonView json).
Definition un_json (j : json) : JsonView json := match j with Js v => v end.
(** The tree representation, with a parser of its own choice. *)
Definition tree_json (p : string -> option json) : Json json.
Proof. refine {| view := un_json; mk := Js; parse := p |}. done. Defined.
