(* ===== verification/ResourceStorage.v ===== *)
(** * Storage of resource records

    The JSON of a [ResourceApplicationRecord] (resource_application_record.cpp) and
    the resource part of [DataStorageHelper] (src/services/common/src/
    data_storage_helper.cpp): what [RefreshResourceRecord] writes and what
    [RestoreResourceRecord] makes of it.  The file holds a JSON value: the text it is
    stored as is [nlohmann::json]'s, whose [parse] inverts its [dump]. *)

From S2P Require Import Prelude.
From S2P Require Import KeyInfo.
From S2P Require Import ResourceTypes.
From S2P Require Import EfficiencyResources.
From S2P Require Import Json.
Local Open Scope Z_scope.

Definition APP_RESOURCE_RECORD : string := "appResourceRecord".
Definition PROCESS_RESOURCE_RECORD : string := "processResourceRecord".

Definition int64 (z : Z) : Z := (z + 2 ^ 63) mod 2 ^ 64 - 2 ^ 63.

Section RecordJson.
Context `{Json J}.
Implicit Types r : ResourceApplicationRecord.
Implicit Types value : J.

Definition unit_ParseToJson (u : PersistTime) : J :=
  mk (JObject (list_to_map [
    ("resourceIndex"%string, mk (JInt (pt_resourceIndex_ u)));
    ("isPersist"%string, mk (JBool (pt_isPersist_ u)));
    ("endTime"%string, mk (JInt (pt_endTime_ u)));
    ("reason"%string, mk (JString (pt_reason_ u)));
    ("timeOut"%string, mk (JInt (pt_timeOut_ u)))])).

Definition ParseToJson r : J :=
  let root : gmap string J := list_to_map [
    ("bundleName"%string, mk (JString (rr_bundleName_ r)));
    ("uid"%string, mk (JInt (rr_uid_ r)));
    ("pid"%string, mk (JInt (rr_pid_ r)));
    ("resourceNumber"%string, mk (JInt (rr_resourceNumber_ r)));
    ("cpuLevel"%string, mk (JInt (rr_cpuLevel_ r)))] in
  mk (JObject
    (if bool_decide (rr_resourceUnitList_ r = []) then root
     else <["resourceUnitList"%string := mk (JArray (unit_ParseToJson <$> rr_resourceUnitList_ r))]> root)).

(** One element of the unit list; [None] skips it. *)
Definition unit_ParseFromJson value : option PersistTime :=
  return_if is_null value || negb (is_object value), None ;;
  resourceIndex ← member_if is_number_integer "resourceIndex" value;
  isPersist ← member_if is_boolean "isPersist" value;
  endTime ← member_if is_number_integer "endTime" value;
  reason ← member_if is_string "reason" value;
  timeOut ← member_if is_number_integer "timeOut" value;
  resourceIndex ← get_uint32 resourceIndex;
  isPersist ← get_bool isPersist;
  endTime ← get_number endTime;
  reason ← get_string reason;
  timeOut ← get_number timeOut;
  Some (mkUnit resourceIndex isPersist (int64 endTime) reason (int64 timeOut)).

(** The result, and the record: [r] when the members it needs are not there. *)
Definition ParseFromJson value r : bool * ResourceApplicationRecord :=
  return_if json_empty value, (false, r) ;;
  match (uid ← member_if is_number_integer "uid" value;
         pid ← member_if is_number_integer "pid" value;
         bundleName ← member_if is_string "bundleName" value;
         resourceNumber ← member_if is_number_integer "resourceNumber" value;
         uid ← get_int32 uid;
         pid ← get_int32 pid;
         bundleName ← get_string bundleName;
         resourceNumber ← get_uint32 resourceNumber;
         Some (uid, pid, bundleName, resourceNumber)) with
  | None => (false, r)
  | Some (uid, pid, bundleName, resourceNumber) =>
      let cpuLevel :=
        default (rr_cpuLevel_ r) (level ← member_if is_number_integer "cpuLevel" value; get_int32 level) in
      let units :=
        match member_if is_array "resourceUnitList" value with
        | None => []
        | Some resourceVal => omap unit_ParseFromJson (elements resourceVal)
        end in
      (true, mkRecord uid pid resourceNumber cpuLevel bundleName (rr_resourceUnitList_ r ++ units))
  end.
End RecordJson.

(** ** The maps *)

(** The members of an object in the order [begin()] walks them, by key. *)
Definition name_le {V} (a b : string * V) : Prop := str_lt b.1 a.1 = false.
#[export] Instance name_le_dec {V} : RelDecision (@name_le V).
Proof. intros a b. unfold name_le. apply _. Defined.
Definition by_name {V} (m : gmap string V) : list (string * V) := merge_sort name_le (map_to_list m).

Definition new_ResourceApplicationRecord : ResourceApplicationRecord :=
  mkRecord 0 0 0 CPU_LEVEL_DEFAULT "" [].

Section StorageMaps.
Context `{Json J}.

(** A map without records leaves the value null. *)
Definition ConvertMapToJson (records : ResourceRecordMap) : J :=
  if bool_decide (records = ∅) then mk JNull
  else mk (JObject (kmap (pretty : Z -> string) (ParseToJson <$> records))).

(** [ConvertMapToString], before [dump]. *)
Definition ConvertMaps (appRecord processRecord : ResourceRecordMap) : J :=
  mk (JObject (list_to_map [
    (APP_RESOURCE_RECORD, ConvertMapToJson appRecord);
    (PROCESS_RESOURCE_RECORD, ConvertMapToJson processRecord)])).

(** The key is read as an [int], cast to [uint32_t] and stored as an [int32_t]; an
    element already there stays ([emplace]), and a value that is no record leaves a
    default record. *)
Definition ConvertJsonToMap (value : J) (recordMap : ResourceRecordMap) : ResourceRecordMap :=
  fold_left (fun m e =>
    let key := int32 (uint32 (atoi e.1)) in
    match m !! key with
    | Some _ => m
    | None => <[key := (ParseFromJson e.2 new_ResourceApplicationRecord).2]> m
    end) (by_name (members value)) recordMap.

Definition DivideJsonToMap (root : J) (appRecord processRecord : ResourceRecordMap) :
    ResourceRecordMap * ResourceRecordMap :=
  (match member_if is_object APP_RESOURCE_RECORD root with
   | Some v => ConvertJsonToMap v appRecord
   | None => appRecord
   end,
   match member_if is_object PROCESS_RESOURCE_RECORD root with
   | Some v => ConvertJsonToMap v processRecord
   | None => processRecord
   end).

(** [file]: what [ParseJsonValueFromFile] reads. *)
Definition ds_RestoreResourceRecord (file : option J) (maps : ResourceRecordMap * ResourceRecordMap) :
    ResourceRecordMap * ResourceRecordMap :=
  match file with
  | None => maps
  | Some root => DivideJsonToMap root maps.1 maps.2
  end.

(** The store whose file is what the manager wrote last. *)
Definition file_store (file : option J) : RecordStore :=
  {| RestoreResourceRecord := ds_RestoreResourceRecord file |}.
End StorageMaps.

(** * Storage of resource records: round trips

    A record survives the way through JSON, and so do the two maps of the manager. *)

(** ** Decimal numbers *)
Lemma digit_value n : (n < 10)%N -> Z.of_nat (Ascii.nat_of_ascii (pretty_N_char n)) - 48 = Z.of_N n.
Proof.
  intros Hn. assert (Forall (fun k => Z.of_nat (Ascii.nat_of_ascii (pretty_N_char (N.of_nat k))) - 48 = Z.of_nat k)
    (seq 0 10)) as Hall by (apply (bool_decide_unpack _); by vm_compute).
  rewrite Forall_forall in Hall. specialize (Hall (N.to_nat n)).
  rewrite N2Nat.id in Hall. rewrite Hall by (apply elem_of_seq; lia). lia.
Qed.

Lemma atoi_digits_go n : forall str, atoi_digits 0 (pretty_N_go n str) = atoi_digits (Z.of_N n) str.
Proof.
  induction (N.lt_wf_0 n) as [n _ IH]; intros str.
  destruct (decide (n = 0%N)) as [->|Hn]; [done|].
  rewrite pretty_N_go_step by lia. rewrite IH by (apply N.div_lt; lia).
  pose proof (N.mod_lt n 10 ltac:(done)) as Hm. pose proof (N.div_mod n 10 ltac:(done)) as E.
  cbn [atoi_digits]. rewrite digit_value by done. clear IH.
  generalize dependent (n mod 10)%N. generalize (n / 10)%N. intros q d Hd E.
  assert ((0 <=? Z.of_N d) && (Z.of_N d <=? 9) = true) as -> by lia. f_equal. lia.
Qed.

(** The first character of a printed natural number is a digit. *)
Definition starts_with_digit (str : string) : Prop :=
  exists c r, str = String c r /\ 48 <= Z.of_nat (Ascii.nat_of_ascii c) <= 57.

Lemma pretty_go_starts n : forall str, starts_with_digit str -> starts_with_digit (pretty_N_go n str).
Proof.
  induction (N.lt_wf_0 n) as [n _ IH]; intros str Hs.
  destruct (decide (n = 0%N)) as [->|Hn]; [done|].
  rewrite pretty_N_go_step by lia. apply IH; [apply N.div_lt; lia|].
  eexists _, _. split; [done|]. pose proof (N.mod_lt n 10 ltac:(done)) as Hm.
  pose proof (digit_value _ Hm) as Hd.
  revert Hm Hd. generalize (n mod 10)%N. intros d ? ?. lia.
Qed.

Lemma pretty_positive_starts p : starts_with_digit (pretty_N_go (N.pos p) "").
Proof.
  rewrite pretty_N_go_step by lia. apply pretty_go_starts. eexists _, _. split; [done|].
  pose proof (N.mod_lt (N.pos p) 10 ltac:(done)) as Hm.
  pose proof (digit_value _ Hm) as Hd.
  revert Hm Hd. generalize (N.pos p mod 10)%N. intros d ? ?. lia.
Qed.

Lemma atoi_positive str : starts_with_digit str -> atoi str = int32 (atoi_digits 0 str).
Proof.
  intros (c & r & -> & Hc). cbn [atoi].
  set (n := Z.of_nat (Ascii.nat_of_ascii c)) in *.
  assert ((n =? 32) || (9 <=? n) && (n <=? 13) = false) as -> by lia.
  assert ((n =? 45) = false) as -> by lia. by assert ((n =? 43) = false) as -> by lia.
Qed.

Lemma atoi_pretty z : in_int32 z -> atoi (pretty z) = z.
Proof.
  intros Hz. destruct z as [|p|p]; [done| |].
  - change (pretty (Z.pos p)) with (pretty_N_go (N.pos p) "").
    rewrite atoi_positive by apply pretty_positive_starts. rewrite atoi_digits_go. by apply int32_id.
  - change (pretty (Z.neg p)) with ("-" +:+ pretty_N_go (N.pos p) "")%string.
    change (atoi ("-" +:+ ?x)) with (int32 (- atoi_digits 0 x)).
    rewrite atoi_digits_go. by apply int32_id.
Qed.

(** ** Records *)
Definition in_int64 (z : Z) : Prop := - 2 ^ 63 <= z < 2 ^ 63.

Record unit_storable (u : PersistTime) : Prop := {
  us_index : in_uint32 (pt_resourceIndex_ u);
  us_end : in_int64 (pt_endTime_ u);
  us_timeOut : in_int64 (pt_timeOut_ u);
}.

Record record_storable (r : ResourceApplicationRecord) : Prop := {
  rs_uid : in_int32 (rr_uid_ r);
  rs_pid : in_int32 (rr_pid_ r);
  rs_number : in_uint32 (rr_resourceNumber_ r);
  rs_level : in_int32 (rr_cpuLevel_ r);
  rs_units : Forall unit_storable (rr_resourceUnitList_ r);
}.

Lemma int64_id z : in_int64 z -> int64 z = z.
Proof. unfold in_int64, int64. intros Hz. rewrite Z.mod_small; lia. Qed.

Section RecordRoundTrip.
Context `{Json J}.
Implicit Types r : ResourceApplicationRecord.

Lemma member_object key (m : gmap string J) : member key (mk (JObject m)) = m !! key.
Proof. unfold member. by rewrite view_mk. Qed.

Lemma member_if_object (test : J -> bool) key (m : gmap string J) v :
  m !! key = Some v -> test v = true -> member_if test key (mk (JObject m)) = Some v.
Proof. intros Hm Ht. unfold member_if. by rewrite member_object, Hm, Ht. Qed.

Lemma kinds_mk :
  (forall z, is_number_integer (mk (JInt z)) = true) /\ (forall b, is_boolean (mk (JBool b)) = true) /\
  (forall str, is_string (mk (JString str)) = true) /\ (forall l, is_array (mk (JArray l)) = true) /\
  (forall m, is_object (mk (JObject m)) = true).
Proof.
  unfold is_number_integer, is_boolean, is_string, is_array, is_object.
  split_and!; intros; by rewrite view_mk.
Qed.

Lemma gets_mk :
  (forall z, get_number (mk (JInt z)) = Some z) /\ (forall b, get_bool (mk (JBool b)) = Some b) /\
  (forall str, get_string (mk (JString str)) = Some str).
Proof. unfold get_number, get_bool, get_string. split_and!; intros; by rewrite view_mk. Qed.

(** Reads a member of a literal object. *)
Ltac read_member :=
  erewrite member_if_object; [|reflexivity|apply kinds_mk]; cbn [mbind option_bind snd].

Lemma unit_roundtrip u : unit_storable u -> unit_ParseFromJson (unit_ParseToJson u) = Some u.
Proof.
  intros [H1 H2 H3]. unfold unit_ParseFromJson, unit_ParseToJson.
  set (m := list_to_map _).
  assert (is_null (mk (JObject m)) || negb (is_object (mk (JObject m))) = false) as ->
    by (unfold is_null, is_object; by rewrite view_mk).
  unfold m. do 5 read_member.
  unfold get_uint32. destruct gets_mk as (E1 & E2 & E3). rewrite !E1, E2, E3.
  cbn [fmap option_fmap option_map mbind option_bind].
  rewrite uint32_id, !int64_id by done. by destruct u.
Qed.

Lemma units_roundtrip (l : list PersistTime) :
  Forall unit_storable l -> omap unit_ParseFromJson (unit_ParseToJson <$> l) = l.
Proof.
  induction 1 as [|u l Hu _ IH]; [done|]. cbn [fmap list_fmap omap list_omap].
  rewrite unit_roundtrip by done. by f_equal.
Qed.

Lemma elements_array (l : list J) : elements (mk (JArray l)) = l.
Proof. unfold elements. by rewrite view_mk. Qed.

(** Writing a record and reading it back gives the same record. *)
Lemma record_roundtrip r :
  record_storable r -> ParseFromJson (ParseToJson r) new_ResourceApplicationRecord = (true, r).
Proof.
  intros [H1 H2 H3 H4 H5]. unfold ParseToJson. destruct r as [uid pid n level name l]. cbn in *.
  set (m := if bool_decide (l = []) then _ else _). unfold ParseFromJson.
  assert (He : json_empty (mk (JObject m)) = false).
  { unfold json_empty. rewrite view_mk. apply bool_decide_eq_false. intros E.
    assert (m !! "uid"%string = None) as Hn by (by rewrite E, lookup_empty).
    unfold m in Hn. by destruct (bool_decide (l = [])). }
  rewrite He.
  assert (Hm : forall key v, (m !! key = Some v) -> forall test, test v = true ->
    member_if test key (mk (JObject m)) = Some v) by (intros; by apply member_if_object).
  rewrite (Hm "uid"%string (mk (JInt uid)) ltac:(unfold m; by destruct (bool_decide (l = [])))) by apply kinds_mk.
  rewrite (Hm "pid"%string (mk (JInt pid)) ltac:(unfold m; by destruct (bool_decide (l = [])))) by apply kinds_mk.
  rewrite (Hm "bundleName"%string (mk (JString name)) ltac:(unfold m; by destruct (bool_decide (l = []))))
    by apply kinds_mk.
  rewrite (Hm "resourceNumber"%string (mk (JInt n)) ltac:(unfold m; by destruct (bool_decide (l = []))))
    by apply kinds_mk.
  rewrite (Hm "cpuLevel"%string (mk (JInt level)) ltac:(unfold m; by destruct (bool_decide (l = []))))
    by apply kinds_mk.
  cbn [mbind option_bind]. unfold get_int32, get_uint32. destruct gets_mk as (E1 & _ & E3).
  rewrite !E1, E3. cbn [fmap option_fmap option_map mbind option_bind default from_option id].
  rewrite !int32_id, uint32_id by done. do 2 f_equal.
  cbn [new_ResourceApplicationRecord rr_resourceUnitList_ app]. destruct (decide (l = [])) as [->|Hl].
  - unfold m. rewrite bool_decide_true by done. unfold member_if. by rewrite member_object.
  - assert (member_if is_array "resourceUnitList" (mk (JObject m)) = Some (mk (JArray (unit_ParseToJson <$> l)))) as ->.
    { apply Hm; [|apply kinds_mk]. unfold m. rewrite bool_decide_false by done. apply lookup_insert_eq. }
    rewrite elements_array. by apply units_roundtrip.
Qed.
End RecordRoundTrip.

(** ** Maps *)
Section MapRoundTrip.
Context `{Json J}.

Definition map_storable (m : ResourceRecordMap) : Prop :=
  map_Forall (fun key r => in_int32 key /\ record_storable r) m.

Definition stored_entry (e : Z * ResourceApplicationRecord) : string * J := (pretty e.1, ParseToJson e.2).
Definition restore_step (m : ResourceRecordMap) (e : string * J) : ResourceRecordMap :=
  let key := int32 (uint32 (atoi e.1)) in
  match m !! key with
  | Some _ => m
  | None => <[key := (ParseFromJson e.2 new_ResourceApplicationRecord).2]> m
  end.

Lemma int32_uint32 z : in_int32 z -> int32 (uint32 z) = z.
Proof.
  intros Hz. unfold int32, uint32. rewrite Zplus_mod_idemp_l. fold (int32 z). by apply int32_id.
Qed.

Lemma restore_step_entry key r m :
  in_int32 key -> record_storable r -> m !! key = None -> restore_step m (stored_entry (key, r)) = <[key := r]> m.
Proof.
  intros Hk Hr Hm. unfold restore_step, stored_entry. cbn [fst snd].
  rewrite atoi_pretty, int32_uint32, Hm, record_roundtrip by done. done.
Qed.

Lemma restore_entries (l : list (Z * ResourceApplicationRecord)) m :
  NoDup l.*1 -> (forall k, k ∈ l.*1 -> m !! k = None) ->
  Forall (fun e => in_int32 e.1 /\ record_storable e.2) l ->
  fold_left restore_step (stored_entry <$> l) m = list_to_map l ∪ m.
Proof.
  revert m. induction l as [|[k r] l IH]; intros m Hd Hm Hl; cbn [fmap list_fmap fold_left list_to_map foldr].
  - by rewrite (left_id_L ∅ (∪)).
  - apply Forall_cons in Hl as [[Hk Hr] Hl]. apply NoDup_cons in Hd as [Hn Hd].
    rewrite restore_step_entry by (try done; apply Hm; left).
    rewrite IH; [|done| |done].
    + cbn [fst snd]. rewrite <- insert_union_l, <- insert_union_r; [done|].
      by apply not_elem_of_list_to_map_1.
    + intros k' Hk'. rewrite lookup_insert_ne by (intros ->; done). apply Hm. by right.
Qed.

Lemma by_name_stored (m : ResourceRecordMap) :
  exists l, l ≡ₚ map_to_list m /\
    by_name (kmap (pretty : Z -> string) (ParseToJson <$> m)) = stored_entry <$> l.
Proof.
  assert (Hp : by_name (kmap (pretty : Z -> string) (ParseToJson <$> m)) ≡ₚ stored_entry <$> map_to_list m).
  { unfold by_name. rewrite merge_sort_Permutation. unfold kmap. rewrite map_to_list_fmap, <- list_fmap_compose.
    rewrite map_to_list_to_map; [done|]. rewrite <- list_fmap_compose.
    change (NoDup (((pretty : Z -> string) ∘ fst) <$> map_to_list m)).
    rewrite list_fmap_compose. apply (NoDup_fmap_2 _), NoDup_fst_map_to_list. }
  apply Permutation_map_inv in Hp as (l & Hl & Hp). exists l. split; [by symmetry|done].
Qed.

Lemma map_roundtrip (m : ResourceRecordMap) :
  map_storable m -> m <> ∅ -> ConvertJsonToMap (ConvertMapToJson m) ∅ = m.
Proof.
  intros Hm Hne. unfold ConvertJsonToMap, ConvertMapToJson. rewrite bool_decide_false by done.
  unfold members. rewrite view_mk. destruct (by_name_stored m) as (l & Hl & ->).
  change (fold_left restore_step (stored_entry <$> l) ∅ = m).
  assert (Hd : NoDup l.*1) by (rewrite Hl; apply NoDup_fst_map_to_list).
  rewrite restore_entries; [|done|intros; apply lookup_empty|].
  - rewrite (right_id_L ∅ (∪)). rewrite (list_to_map_proper _ _ Hd Hl). apply list_to_map_to_list.
  - rewrite Hl. apply map_Forall_to_list in Hm. eapply Forall_impl; [exact Hm|]. by intros [].
Qed.

Lemma ConvertMaps_members app proc :
  member_if is_object APP_RESOURCE_RECORD (ConvertMaps app proc) =
    (if bool_decide (app = ∅) then None else Some (ConvertMapToJson app)) /\
  member_if is_object PROCESS_RESOURCE_RECORD (ConvertMaps app proc) =
    (if bool_decide (proc = ∅) then None else Some (ConvertMapToJson proc)).
Proof.
  unfold ConvertMaps, member_if. rewrite !member_object.
  assert (Ho : forall m, is_object (ConvertMapToJson m) = negb (bool_decide (m = ∅))).
  { intros m. unfold is_object, ConvertMapToJson. case_bool_decide; by rewrite view_mk. }
  split.
  - change ((if is_object (ConvertMapToJson app) then Some (ConvertMapToJson app) else None) =
      if bool_decide (app = ∅) then None else Some (ConvertMapToJson app)).
    rewrite Ho. by case_bool_decide.
  - change ((if is_object (ConvertMapToJson proc) then Some (ConvertMapToJson proc) else None) =
      if bool_decide (proc = ∅) then None else Some (ConvertMapToJson proc)).
    rewrite Ho. by case_bool_decide.
Qed.

Lemma restore_stored app proc :
  map_storable app -> map_storable proc ->
  ds_RestoreResourceRecord (Some (ConvertMaps app proc)) (∅, ∅) = (app, proc).
Proof.
  intros Ha Hp. unfold ds_RestoreResourceRecord, DivideJsonToMap. cbn [fst snd].
  destruct (ConvertMaps_members app proc) as [-> ->].
  f_equal; case_bool_decide as He; try (by rewrite He); by apply map_roundtrip.
Qed.

(** What the manager writes it reads back: a record comes back from its JSON
    unchanged, and restoring from the file the records were written to gives exactly
    the two maps, for records whose numbers are of the widths of their fields. *)
Theorem storage_roundtrip app proc :
  map_storable app -> map_storable proc ->
  (forall key r, app !! key = Some r \/ proc !! key = Some r ->
     ParseFromJson (ParseToJson r) new_ResourceApplicationRecord = (true, r)) /\
  ds_RestoreResourceRecord (Some (ConvertMaps app proc)) (∅, ∅) = (app, proc).
Proof.
  intros Ha Hp. split; [|by apply restore_stored].
  intros key r [Hr|Hr]; apply record_roundtrip; [apply (Ha _ _ Hr)|apply (Hp _ _ Hr)].
Qed.
End MapRoundTrip.
