(* ===== verification/EfficiencyRestart.v ===== *)
(** * Restart of the efficiency resources manager

    The manager of EfficiencyResources.v on top of the storage of ResourceStorage.v:
    what a service started again holds. *)

From S2P Require Import Prelude.
From S2P Require Import ResourceTypes.
From S2P Require Import EfficiencyResources.
From S2P Require Import Json.
From S2P Require Import ResourceStorage.
Local Open Scope Z_scope.

Section Restart.
Context `{Json J}.
Implicit Types s : EffMgr.

Lemma post_all (due : PersistTime -> Z) (t : ETask) (l : list PersistTime) s :
  fold_left (fun s u => if pt_isPersist_ u then s else em_post (due u) t s) l s =
  em_set_tasks (em_tasks s ++ ((fun u => (due u, t)) <$> filter (fun u => pt_isPersist_ u = false) l)) s.
Proof.
  revert s. induction l as [|u l IH]; intros s; cbn [fold_left].
  - rewrite filter_nil, app_nil_r. by destruct s.
  - rewrite filter_cons, IH. destruct (pt_isPersist_ u).
    + by rewrite decide_False.
    + rewrite decide_True by done. cbn [fmap list_fmap em_tasks em_post em_set_tasks]. by rewrite <- app_assoc.
Qed.

(** The tasks [RecoverDelayedTask] posts for one record. *)
Definition delayed_tasks (now : Z) (p : bool) (e : Z * ResourceApplicationRecord) : list (Z * ETask) :=
  (fun u => (now + Z.max 0 (int32 (pt_endTime_ u - now)), TaskTimeOut e.1 p))
    <$> filter (fun u => pt_isPersist_ u = false) (rr_resourceUnitList_ e.2).

Lemma RecoverDelayedTask_tasks now p m s :
  RecoverDelayedTask now p m s = em_set_tasks (em_tasks s ++ concat (delayed_tasks now p <$> map_to_list m)) s.
Proof.
  unfold RecoverDelayedTask. generalize (map_to_list m). intros l. revert s.
  induction l as [|e l IH]; intros s; cbn [fold_left fmap list_fmap concat].
  - rewrite app_nil_r. by destruct s.
  - rewrite post_all, IH. cbn [em_tasks em_set_tasks]. fold (delayed_tasks now p e). by rewrite <- app_assoc.
Qed.

Lemma delayed_task_in now p m key r u :
  m !! key = Some r -> u ∈ rr_resourceUnitList_ r -> pt_isPersist_ u = false -> in_int32 (pt_endTime_ u - now) ->
  (Z.max now (pt_endTime_ u), TaskTimeOut key p) ∈ concat (delayed_tasks now p <$> map_to_list m).
Proof.
  intros Hm Hu Hp Hi. apply list_elem_of_In, in_concat. exists (delayed_tasks now p (key, r)).
  split; apply list_elem_of_In.
  - apply list_elem_of_fmap. exists (key, r). split; [done|]. by apply elem_of_map_to_list.
  - unfold delayed_tasks. apply list_elem_of_fmap. exists u. cbn [fst snd]. split.
    + f_equal. rewrite int32_id by done. lia.
    + apply list_elem_of_filter. done.
Qed.

(** A new manager, the last of whose abilities has just come, and which reads the file of
    [app] and [proc]. *)
Definition em_restart (app proc : ResourceRecordMap) (env : EffEnv) : EffMgr :=
  @em_InitNecessaryState (file_store (Some (ConvertMaps app proc))) env (em_set_ready false ALL_DEPENDS_READY new_EffMgr).

(** A service started again, more than four minutes after boot, reads back the
    records the manager had stored: it keeps those of the processes and applications
    still running, and those of applications with WORK_SCHEDULER or TIMER, unchanged;
    it posts for every temporary unit a task due at its end, or at once when that has
    passed; and it writes what it kept to the file. *)
Theorem restart_restores app proc env :
  map_storable app -> map_storable proc ->
  ee_connectAppMgr env = true -> systemUpMaxDurationMs < ee_boottime env ->
  let s := em_restart app proc env in
  (forall key r, em_map false s !! key = Some r <->
     app !! key = Some r /\
     (key ∈ rp_uid <$> ee_processes env \/ Z.land (rr_resourceNumber_ r) ResourceType.WORK_SCHEDULER <> 0 \/
      Z.land (rr_resourceNumber_ r) ResourceType.TIMER <> 0)) /\
  (forall key r, em_map true s !! key = Some r <-> proc !! key = Some r /\ key ∈ rp_pid <$> ee_processes env) /\
  (forall p key r u, em_map p s !! key = Some r -> u ∈ rr_resourceUnitList_ r -> pt_isPersist_ u = false ->
     in_int32 (pt_endTime_ u - ee_now env) ->
     (Z.max (ee_now env) (pt_endTime_ u), TaskTimeOut key p) ∈ em_tasks s) /\
  em_stored s = (em_appResourceApplyMap_ s, em_procResourceApplyMap_ s).
Proof.
  intros Ha Hp Hc Hb s. unfold s, em_restart, em_InitNecessaryState, HandlePersistenceData. rewrite Hc.
  cbn [negb andb em_appMgrClient_ new_EffMgr em_set_ready em_isSysReady_].
  cbn [RestoreResourceRecord file_store em_set_client em_appResourceApplyMap_ em_procResourceApplyMap_ em_set_ready new_EffMgr].
  rewrite restore_stored by done. unfold RecoverResourceNumber.
  rewrite Z.gtb_ltb. assert ((systemUpMaxDurationMs <? ee_boottime env) = true) as -> by lia.
  unfold CheckPersistenceData. rewrite !RecoverDelayedTask_tasks.
  cbn [em_map RefreshResourceRecord em_set_tasks em_set_maps em_appResourceApplyMap_ em_procResourceApplyMap_
       em_tasks em_stored em_set_client em_emit em_set_ready].
  set (fa := filter _ app). set (fp := filter _ proc).
  split; [|split; [|split; [|done]]].
  - intros key r. unfold fa. rewrite map_lookup_filter_Some. cbn [fst snd]. f_equiv.
    destruct (Z.eqb_spec (Z.land (rr_resourceNumber_ r) ResourceType.WORK_SCHEDULER) 0),
      (Z.eqb_spec (Z.land (rr_resourceNumber_ r) ResourceType.TIMER) 0); cbn [negb orb];
      rewrite ?bool_decide_eq_false; try tauto.
    split; [intros Hx; left; by apply dec_stable|intros [?|[?|?]]; [tauto|done|done]].
  - intros key r. unfold fp. rewrite map_lookup_filter_Some. cbn [fst snd]. f_equiv.
    rewrite bool_decide_eq_false. split; [apply dec_stable|tauto].
  - intros [] key r u Hm Hu Hpe Hi; cbn [em_map em_procResourceApplyMap_ em_appResourceApplyMap_] in Hm;
      rewrite !elem_of_app; [left; right|right]; by eapply delayed_task_in.
Qed.

(** Every task such a service has posted ends units. *)
Lemma restart_tasks app proc env :
  Forall (fun e => exists key p, e.2 = TaskTimeOut key p) (em_tasks (em_restart app proc env)).
Proof.
  assert (forall now p m, Forall (fun e : Z * ETask => exists key q, e.2 = TaskTimeOut key q)
    (concat (delayed_tasks now p <$> map_to_list m))) as Hd.
  { intros now p m. apply Forall_concat, Forall_fmap, Forall_forall. intros e _. unfold compose, delayed_tasks.
    apply Forall_fmap, Forall_forall. intros u _. cbn. by eexists _, _. }
  unfold em_restart, em_InitNecessaryState, HandlePersistenceData. cbn [em_isSysReady_ em_set_ready].
  destruct (ee_connectAppMgr env); [|constructor]. cbn [negb andb em_appMgrClient_ new_EffMgr em_set_ready].
  destruct (RestoreResourceRecord _) as [a q]. rewrite !RecoverDelayedTask_tasks.
  unfold RecoverResourceNumber. case_test; cbn; rewrite app_nil_l || idtac; apply Forall_app; by split.
Qed.
(** One that cannot reach the application manager reads nothing. *)
Lemma restart_disconnected app proc env p :
  ee_connectAppMgr env = false -> em_map p (em_restart app proc env) = ∅.
Proof.
  intros Hc. unfold em_restart, em_InitNecessaryState, HandlePersistenceData. rewrite Hc. by destruct p.
Qed.
End Restart.
