(* ===== verification/EfficiencyResourcesProps.v ===== *)
(** * Efficiency resources: properties *)

From S2P Require Import Prelude.
From S2P Require Import Errors.
From S2P Require Import Interfaces.
From S2P Require Import ResourceTypes.
From S2P Require Import EfficiencyResources.
From S2P Require Import EfficiencyResourcesSpec.
From S2P Require Import Json.
From S2P Require Import ResourceStorage.
From S2P Require Import EfficiencyRestart.
Local Open Scope Z_scope.

(** ** The operations keep the invariant *)
Section EffOps.
Context {ccm : CpuLevelConfig} {t0 : Z}.
Implicit Types s : EffMgr.

Lemma em_inv_post due t s : em_inv t0 s -> task_ok t -> em_inv t0 (em_post due t s).
Proof.
  intros Hs Ht. split; simpl.
  - intros p key r Hr. destruct (ei_rec _ Hs p key r) as (? & ? & Hw); [by destruct p|].
    split_and!; try done. eapply watched_more; [|done|done]. set_solver.
  - apply Forall_app. split; [apply Hs|]. by repeat constructor.
Qed.

Lemma em_inv_fold_post {A} (f : EffMgr -> A -> EffMgr) l s :
  (forall s a, em_inv t0 s -> em_inv t0 (f s a)) -> em_inv t0 s -> em_inv t0 (fold_left f l s).
Proof. intros Hf. revert s. induction l as [|a l IH]; intros s Hs; simpl; auto. Qed.

Lemma RemoveTarget_inv env p key c s :
  em_inv t0 s -> em_inv t0 (RemoveTargetResourceRecord env p key c s).2.
Proof.
  intros Hs. unfold RemoveTargetResourceRecord.
  destruct (em_map p s !! key) as [r|] eqn:E; [|done]. case_test; [done|].
  destruct (ei_rec _ Hs _ _ _ E) as (Hok & _). pose proof (rok_number _ Hok).
  apply erase_spec; try done; [apply Z.land_nonneg; lia|].
  intros i. rewrite Z.land_spec, andb_true_iff. tauto.
Qed.

Lemma RemoveRelative_inv env uid n s : em_inv t0 s -> em_inv t0 (RemoveRelativeProcessRecord env uid n s).
Proof.
  intros Hs. unfold RemoveRelativeProcessRecord.
  assert (Hall : Forall (fun e : Z * ResourceApplicationRecord => 0 <= rr_resourceNumber_ e.2)
    (map_to_list (em_procResourceApplyMap_ s))).
  { apply Forall_forall. intros [k r] Hin%elem_of_map_to_list.
    destruct (ei_rec _ Hs true k r Hin) as (Hok & _). pose proof (rok_number _ Hok). simpl. lia. }
  revert Hs. generalize s at 1 3. induction Hall as [|[k r] l Hr _ IH]; intros s0 Hs0; [done|].
  cbn [fold_left]. apply IH. case_test; [|done]. apply em_inv_post; [done|].
  simpl in *. apply Z.land_nonneg. lia.
Qed.

Lemma Reset_inv env c p s : em_inv t0 s -> em_inv t0 (ResetEfficiencyResourcesInner env c p s).
Proof.
  intros Hs. unfold ResetEfficiencyResourcesInner. eapply em_inv_same; [apply same_Refresh|].
  destruct p; [|apply RemoveRelative_inv]; by apply RemoveTarget_inv.
Qed.

Lemma TimeOut_inv env key p s : em_inv t0 s -> em_inv t0 (ResetTimeOutResource env key p s).
Proof.
  intros Hs. unfold ResetTimeOutResource. destruct (em_map p s !! key) as [r|] eqn:E; [|done].
  case_test; [done|]. destruct (ei_rec _ Hs _ _ _ E) as (Hok & _).
  apply erase_spec; try done; [apply timed_out_nonneg, Hok|].
  intros i. rewrite timed_out_spec, (rok_kinds _ Hok) by apply Hok.
  intros (u & Hu & <- & _). unfold kinds_of. apply list_elem_of_fmap. eauto.
Qed.

(** After a reset by time, what is left of the record runs on. *)
Lemma TimeOut_left env key p s r u :
  em_inv t0 s -> em_map p (ResetTimeOutResource env key p s) !! key = Some r ->
  u ∈ rr_resourceUnitList_ r -> pt_isPersist_ u = false -> ee_now env < pt_endTime_ u.
Proof.
  intros Hs. unfold ResetTimeOutResource. destruct (em_map p s !! key) as [r0|] eqn:E;
    [|by rewrite E].
  destruct (ei_rec _ Hs _ _ _ E) as (Hok & _).
  pose proof (fun i => timed_out_spec (ee_now env) r0 i (rok_units _ Hok)) as Ht.
  case_test; bool_prop.
  - rewrite E. intros [= <-] Hu Hp. apply Z.nle_gt. intros Hle.
    assert (Z.testbit (timed_out (ee_now env) r0) (pt_resourceIndex_ u) = true) as Hb
      by (apply Ht; eauto). by rewrite Hc, Z.bits_0 in Hb.
  - destruct (erase_spec (t0 := t0) env p key (timed_out (ee_now env) r0) (rr_cpuLevel_ r0) r0 s) as (_ & _ & Hm & _);
      try done; [apply timed_out_nonneg, Hok| |].
    { intros i. rewrite Ht, (rok_kinds _ Hok). intros (v & Hv & <- & _).
      unfold kinds_of. apply list_elem_of_fmap. eauto. }
    rewrite Hm. case_test; [done|]. intros [= <-] Hu Hp.
    apply RemoveListRecord_spec in Hu as [Hu Hb]; [|apply Hok].
    apply Z.nle_gt. intros Hle. rewrite (proj2 (Ht _)) in Hb by eauto. done.
Qed.

(** The handlers do not read the queue. *)
Lemma em_map_tasks p l s : em_map p (em_set_tasks l s) = em_map p s.
Proof. by destruct p. Qed.

Lemma TimeOut_tasks env key p l s :
  ResetTimeOutResource env key p (em_set_tasks l s) =
  em_set_tasks l (ResetTimeOutResource env key p s).
Proof.
  unfold ResetTimeOutResource. rewrite em_map_tasks. destruct (em_map p s !! key) as [r|]; [|done].
  case_test; [done|]. unfold erase_kinds, UpdateQuotaIfCpuReset, ReportHisysEvent_reset.
  rewrite em_map_tasks. cbv zeta.
  destruct p; simpl; repeat case_test; try (destruct (ee_quota env) as [lib|]);
    repeat case_test; simpl; destruct (report _ _); simpl; try reflexivity;
    repeat case_test; reflexivity.
Qed.

Lemma elem_of_delete_ne {A} (l : list A) i x y :
  l !! i = Some y -> x <> y -> x ∈ l -> x ∈ delete i l.
Proof.
  intros Hi Hne Hx. rewrite (delete_take_drop l i).
  rewrite <- (take_drop_middle l i y Hi) in Hx.
  rewrite elem_of_app, elem_of_cons in Hx. rewrite elem_of_app. naive_solver.
Qed.

(** Taking a task off the queue, when no unit needs it. *)
Lemma em_inv_take s i e :
  em_inv t0 s -> em_tasks s !! i = Some e ->
  (forall p key r u, em_map p s !! key = Some r -> u ∈ rr_resourceUnitList_ r ->
     pt_isPersist_ u = false -> pt_endTime_ u <= e.1 -> TaskTimeOut key p <> e.2) ->
  em_inv t0 (em_set_tasks (delete i (em_tasks s)) s).
Proof.
  intros Hs Hi Hn. split.
  - intros p key r. rewrite em_map_tasks. intros Hr. destruct (ei_rec _ Hs _ _ _ Hr) as (? & ? & Hw).
    split_and!; try done. intros u Hu Hp. simpl. destruct (Hw u Hu Hp) as (d & Hd & Hin). exists d. split; [done|].
    eapply elem_of_delete_ne; [done| |done]. intros <-. apply (Hn p key r u Hr Hu Hp); [cbn; lia|done].
  - simpl. rewrite (delete_take_drop (em_tasks s) i).
    pose proof (ei_tasks _ Hs) as Ht. rewrite <- (take_drop_middle _ _ _ Hi) in Ht.
    apply Forall_app in Ht as [Ht1 Ht2]. apply Forall_cons in Ht2 as [_ Ht2]. by apply Forall_app.
Qed.

(** The handler takes a due task and runs it. *)
Lemma run_task_inv env s i due t :
  em_inv t0 s -> em_tasks s !! i = Some (due, t) -> due <= ee_now env ->
  em_inv t0 (run_task env t (em_set_tasks (delete i (em_tasks s)) s)).
Proof.
  intros Hs Hi Hdue.
  assert (Ht : task_ok t).
  { apply (proj1 (Forall_forall _ _) (ei_tasks _ Hs) (due, t)). apply list_elem_of_lookup. eauto. }
  destruct t as [c info|c p reason|key p]; simpl in Ht |- *.
  - apply Apply_spec; [|done]. by eapply em_inv_take.
  - apply Reset_inv. by eapply em_inv_take.
  - rewrite TimeOut_tasks.
    assert (Hsame : em_tasks (ResetTimeOutResource env key p s) = em_tasks s).
    { unfold ResetTimeOutResource. destruct (em_map p s !! key) as [r|] eqn:E; [|done].
      case_test; [done|]. by apply erase_unfold. }
    rewrite <- Hsame. eapply em_inv_take; [by apply TimeOut_inv|by rewrite Hsame|].
    cbn [fst snd]. intros p0 key0 r u Hr Hu Hp Hend [= -> ->].
    pose proof (TimeOut_left env key p s r u Hs Hr Hu Hp). lia.
Qed.

(** *** Entry points *)
Lemma exempted_subset env n uid name i :
  0 <= n -> 0 <= GetExemptedResourceType env n uid name /\
  (Z.testbit (GetExemptedResourceType env n uid name) i = true -> Z.testbit n i = true).
Proof.
  intros Hn. unfold GetExemptedResourceType. repeat case_bool_decide; [split; [done|by rewrite Z.bits_0]|done|].
  split; [apply Z.land_nonneg; lia|]. rewrite Z.land_spec, andb_true_iff. tauto.
Qed.

Lemma Send_inv env uid pid name i s :
  em_inv t0 s -> 0 < inf_resourceNumber_ i <= MAX_RESOURCE_MASK ->
  em_inv t0 (SendResourceApplyTask env uid pid name i s).
Proof.
  intros Hs Hn. unfold SendResourceApplyTask. case_test; apply em_inv_post; try done. simpl. lia.
Qed.

Lemma land_not_cpu n :
  0 <= n <= MAX_RESOURCE_MASK -> 0 <= Z.land n (Z.lnot ResourceType.CPU) <= MAX_RESOURCE_MASK.
Proof.
  intros Hn. assert (0 <= Z.land n (Z.lnot ResourceType.CPU)) by (apply Z.land_nonneg; lia).
  split; [done|]. apply kinds_le_mask; [done|]. intros i. rewrite Z.land_spec, andb_true_iff.
  intros [Hi _]. apply kinds_bound in Hi; lia.
Qed.

Lemma ApplyPkgAndProc_inv env uid pid name i s :
  em_inv t0 s -> 0 < inf_resourceNumber_ i <= MAX_RESOURCE_MASK ->
  em_inv t0 (ApplyResourceForPkgAndProc env uid pid name i s).
Proof.
  intros Hs Hn. unfold ApplyResourceForPkgAndProc. case_test; [by apply Send_inv|].
  pose proof (land_not_cpu (inf_resourceNumber_ i)).
  set (s1 := if negb (Z.land (inf_resourceNumber_ i) ResourceType.CPU =? 0) then _ else _).
  assert (em_inv t0 s1) by (unfold s1; case_test; [|done]; by apply Send_inv).
  case_test; [|done]. bool_prop. apply Send_inv; [done|]. simpl. lia.
Qed.

Lemma CheckIfCanApply_number env i name uid :
  inf_resourceNumber_ (CheckIfCanApplyCpuLevel env i name uid).2 = inf_resourceNumber_ i.
Proof.
  unfold CheckIfCanApplyCpuLevel.
  destruct (ee_GetBundleInfo _ _ _) as [[a b]|]; by repeat case_test.
Qed.

Lemma ApplyEfficiencyResources_inv env info s :
  (forall i, info = Some i -> 0 <= inf_resourceNumber_ i) ->
  em_inv t0 s -> em_inv t0 (ApplyEfficiencyResources env info s).2.
Proof.
  intros Hu Hs. unfold ApplyEfficiencyResources. case_test; [done|]. case_test; [done|].
  destruct info as [i|]; [|done]. specialize (Hu i eq_refl). repeat (case_test; [done|]).
  pose proof (CheckIfCanApply_number env i (ee_GetClientBundleName env (ee_uid env)) (ee_uid env)) as Hnum.
  destruct (CheckIfCanApplyCpuLevel _ _ _ _) as [err i']. simpl in Hnum. repeat (case_test; [done|]).
  apply ApplyPkgAndProc_inv; [done|]. simpl. rewrite Hnum in *.
  unfold CheckResourceInfo in *. bool_prop.
  set (n := GetExemptedResourceType _ _ _ _) in *.
  assert (0 <= n) by (apply (exempted_subset env (inf_resourceNumber_ i) (ee_uid env)
    (ee_GetClientBundleName env (ee_uid env)) 0); done).
  split; [lia|]. apply kinds_le_mask; [done|]. intros j Hj.
  apply (proj2 (exempted_subset env (inf_resourceNumber_ i) _ _ j Hu)) in Hj.
  apply kinds_bound in Hj; lia.
Qed.

Lemma ResetAll_inv env s : em_inv t0 s -> em_inv t0 (ResetAllEfficiencyResources env s).2.
Proof.
  intros Hs. unfold ResetAllEfficiencyResources. repeat (case_test; [done|]).
  apply em_inv_post; [done|]. simpl.
  by apply (exempted_subset env MAX_RESOURCE_MASK (ee_uid env) _ 0).
Qed.
End EffOps.

(** ** The system *)
Section EffSystem.
Context {ccm : CpuLevelConfig} {abilities : EffAbilityIds} {t0 : Z}.
Implicit Types s : EffMgr.

Lemma DumpReset_inv env opts app all s : em_inv t0 s -> em_inv t0 (DumpResetResource env opts app all s).
Proof.
  intros Hs. unfold DumpResetResource. destruct all.
  - set (s1 := fold_left _ _ s).
    assert (H1 : same_records s s1).
    { unfold s1. generalize (map_to_list (em_map (negb app) s)). intros l. clear Hs s1. revert s.
      induction l as [|e l IH]; intros s; [apply same_records_refl|]. simpl.
      eapply same_records_trans; [apply same_OnResourceChanged|apply IH]. }
    apply (em_inv_same _ _ H1) in Hs. clearbody s1. split.
    + intros p key r. destruct (decide (p = negb app)) as [->|Hp].
      * rewrite em_map_set_same, lookup_empty. done.
      * assert (p = negb (negb app)) as -> by (by destruct p, app). rewrite em_map_set_other.
        rewrite (proj1 (em_set_map_frame _ _ _)). apply Hs.
    + rewrite (proj1 (em_set_map_frame _ _ _)). apply Hs.
  - case_test; [done|]. destruct (em_map (negb app) s !! _); [|done]. by apply RemoveTarget_inv.
Qed.

Lemma em_ShellDump_inv env opts info s : em_inv t0 s -> em_inv t0 (em_ShellDump env opts info s).2.
Proof.
  intros Hs. unfold em_ShellDump. case_test; [done|]. unfold em_ShellDumpInner.
  destruct (opts !! 1%nat) as [opt|]; [|done].
  set (r := if bool_decide (opt = "--all"%string) then _ else _).
  assert (em_inv t0 r.2) as Hr.
  { unfold r. repeat case_test; cbn [snd]; try done.
    - unfold DumpResetAllResource. by repeat apply DumpReset_inv.
    - by apply DumpReset_inv.
    - by apply DumpReset_inv.
    - unfold DumpSetCpuQuota. destruct (ee_quota env); [|done]. repeat case_test; try done.
      eapply em_inv_same; [|exact Hs]. by split; [intros []|].
    - unfold DumpResetCpuQuotaUsage. destruct (ee_quota env); [|done]. repeat case_test; try done.
      eapply em_inv_same; [|exact Hs]. by split; [intros []|]. }
  destruct r as [info' s']. cbn [snd] in *. eapply em_inv_same; [apply same_Refresh|done].
Qed.

(** One step: a call, or the handler running a task that is due. *)
Inductive em_step (env : EffEnv) (s : EffMgr) : EffMgr -> Prop :=
| estep_Apply info :
    (forall i, info = Some i -> in_uint32 (inf_resourceNumber_ i)) ->
    em_step env s (ApplyEfficiencyResources env info s).2
| estep_ResetAll : em_step env s (ResetAllEfficiencyResources env s).2
| estep_RemoveApp uid name all : em_step env s (RemoveAppRecord env uid name all s).2
| estep_RemoveProcess uid pid name : em_step env s (RemoveProcessRecord env uid pid name s).2
| estep_AddSubscriber sub : em_step env s (em_AddSubscriber sub s).2
| estep_RemoveSubscriber sub : em_step env s (em_RemoveSubscriber sub s).2
| estep_SubscriberDeath r : em_step env s (rs_HandleSubscriberDeath r s)
| estep_Dump opts info : em_step env s (em_ShellDump env opts info s).2
| estep_RemoveAbility i : em_step env s (em_OnRemoveSystemAbility i s)
| estep_Task i due t :
    em_tasks s !! i = Some (due, t) -> due <= ee_now env ->
    em_step env s (run_task env t (em_set_tasks (delete i (em_tasks s)) s)).

Lemma em_step_inv env s s' : em_inv t0 s -> em_step env s s' -> em_inv t0 s'.
Proof.
  intros Hs Hstep. destruct Hstep as [info Hu| |uid name all|uid pid name|sub|sub|r|opts info|i|i due t Hi Hd].
  - apply ApplyEfficiencyResources_inv; [|done]. intros j Hj. apply Hu in Hj. unfold in_uint32 in Hj. lia.
  - by apply ResetAll_inv.
  - unfold RemoveAppRecord. case_test; [done|]. apply em_inv_post; [done|]. by destruct all.
  - unfold RemoveProcessRecord. case_test; [done|]. by apply em_inv_post.
  - unfold em_AddSubscriber, rs_AddSubscriber. destruct sub as [sub|]; [|done].
    destruct (AsObject sub); [|done]. case_test; [done|].
    destruct Hs as [H1 H2]. split; [|done]. intros []; [apply (H1 true)|apply (H1 false)].
  - unfold em_RemoveSubscriber, rs_RemoveSubscriber. destruct sub as [sub|]; [|done].
    destruct (AsObject sub); [|done]. case_test; [done|].
    destruct Hs as [H1 H2]. split; [|done]. intros []; [apply (H1 true)|apply (H1 false)].
  - destruct r; [|done]. destruct Hs as [H1 H2]. split; [|done].
    intros []; [apply (H1 true)|apply (H1 false)].
  - by apply em_ShellDump_inv.
  - unfold em_OnRemoveSystemAbility. destruct Hs as [H1 H2].
    case_test; (split; [|done]); intros []; first [apply (H1 true)|apply (H1 false)].
  - by eapply run_task_inv.
Qed.

(** *** Starts *)
Lemma em_inv_new now : em_inv now (em_set_client true (em_set_ready true ALL_DEPENDS_READY new_EffMgr)).
Proof. split; [|constructor]. intros [] key r; simpl; by rewrite lookup_empty. Qed.

Context `{Json J}.

(** The service may be started again from what it has stored: the numbers have the width of
    their types, four minutes have passed since boot, and the times of the units are within
    a 32-bit number of milliseconds. *)
Definition restartable (env : EffEnv) s : Prop :=
  map_storable (em_appResourceApplyMap_ s) /\ map_storable (em_procResourceApplyMap_ s) /\
  systemUpMaxDurationMs < ee_boottime env /\
  forall p key r u, em_map p s !! key = Some r -> u ∈ rr_resourceUnitList_ r -> pt_isPersist_ u = false ->
    in_int32 (pt_endTime_ u - ee_now env).
Definition restarted (env : EffEnv) s : EffMgr :=
  em_restart (em_appResourceApplyMap_ s) (em_procResourceApplyMap_ s) env.

Lemma restarted_inv env s : em_inv t0 s -> restartable env s -> em_inv (ee_now env) (restarted env s).
Proof.
  intros Hs (Ha & Hp & Hb & Hi). split.
  2: { refine (Forall_impl _ _ _ (restart_tasks (em_appResourceApplyMap_ s) (em_procResourceApplyMap_ s) env) _).
       by intros [due t] (key & p & E); cbn in E; subst t. }
  destruct (ee_connectAppMgr env) eqn:Hc.
  2: { intros p key r. unfold restarted. by rewrite restart_disconnected, lookup_empty by done. }
  destruct (restart_restores _ _ env Ha Hp Hc Hb) as (Happ & Hproc & Hd & _).
  fold (restarted env s) in Happ, Hproc, Hd.
  assert (forall p key r, em_map p (restarted env s) !! key = Some r -> em_map p s !! key = Some r) as Hkept
    by (intros [] key r Hr; [apply Hproc in Hr|apply Happ in Hr]; exact (proj1 Hr)).
  intros p key r Hr. destruct (ei_rec _ Hs _ _ _ (Hkept _ _ _ Hr)) as (Hok & Hkey & _). split_and!; [done..|].
  intros u Hu Hpe. exists (Z.max (ee_now env) (pt_endTime_ u)). split; [lia|].
  apply (Hd p key r u Hr Hu Hpe), (Hi p key r u (Hkept _ _ _ Hr) Hu Hpe).
Qed.
End EffSystem.

Section EffReachable.
Context {ccm : CpuLevelConfig} {abilities : EffAbilityIds} `{Json J}.
Implicit Types s : EffMgr.

(** The states of a manager that is ready, at [start] for the last time: first without
    records, later with what it reads back of an earlier moment. *)
Inductive em_reachable : Z -> EffMgr -> Prop :=
| ereach_init now : em_reachable now (em_set_client true (em_set_ready true ALL_DEPENDS_READY new_EffMgr))
| ereach_step start env s s' : em_reachable start s -> em_step env s s' -> em_reachable start s'
| ereach_restart start env s : em_reachable start s -> restartable env s ->
    em_reachable (ee_now env) (restarted env s).

Lemma em_reachable_inv start s : em_reachable start s -> em_inv start s.
Proof.
  induction 1 as [now|start env s s' _ IH Hstep|start env s _ IH Hr];
    [apply em_inv_new|by eapply em_step_inv|by eapply restarted_inv].
Qed.

(** C31. In every state the efficiency manager reaches from one without records, by calls, tasks
    of its handler and starts from its file, of that moment or an earlier one, each record
    is filed under its uid (applications) or pid (processes), its resource number is a
    non-empty set of the nine kinds, and that set is exactly the set of kinds of its units,
    of which there is one per kind.  The starts from the file come more than four minutes
    after boot, and the numbers in it have their width, the ends of units being within
    2^31 ms of the clock.  (A start sooner after boot takes kinds off the numbers and leaves
    the units: then the set is not that of the units.) *)
Theorem em_records_consistent start s p key r :
  em_reachable start s -> em_map p s !! key = Some r ->
  key = (if p then rr_pid_ r else rr_uid_ r) /\
  0 < rr_resourceNumber_ r <= MAX_RESOURCE_MASK /\
  NoDup (kinds_of (rr_resourceUnitList_ r)) /\
  (forall i, Z.testbit (rr_resourceNumber_ r) i = true <-> i ∈ kinds_of (rr_resourceUnitList_ r)).
Proof.
  intros Hr Hm. destruct (ei_rec _ (em_reachable_inv _ _ Hr) _ _ _ Hm) as ([] & <- & _). done.
Qed.

(** C32. No temporary resource outlives its time, in the same states: the handler holds, for
    each temporary unit, a task due at the end of the unit — or at the last start of the
    manager, for a unit whose end had passed by then — and whenever that task runs, at its
    time or later, afterwards no temporary unit of that record is past its end. *)
Theorem em_temporary_resources_expire start s p key r u :
  em_reachable start s -> em_map p s !! key = Some r -> u ∈ rr_resourceUnitList_ r ->
  pt_isPersist_ u = false ->
  (exists due, pt_endTime_ u <= due <= Z.max start (pt_endTime_ u) /\ (due, TaskTimeOut key p) ∈ em_tasks s) /\
  forall env r', em_map p (run_task env (TaskTimeOut key p) s) !! key = Some r' ->
    forall v, v ∈ rr_resourceUnitList_ r' -> pt_isPersist_ v = false -> ee_now env < pt_endTime_ v.
Proof.
  intros Hr Hm Hu Hp. pose proof (em_reachable_inv _ _ Hr) as Hs.
  destruct (ei_rec _ Hs _ _ _ Hm) as (_ & _ & Hw). split; [by apply Hw|].
  intros env r' Hr' v Hv Hvp. by eapply (TimeOut_left env key p s r' v).
Qed.
End EffReachable.

Section EffCorrect.
Context {ccm : CpuLevelConfig} {t0 : Z}.
Implicit Types s : EffMgr.

(** An application of resources, when the handler runs it, adds exactly the
    kinds asked for to what the application (or process) holds, touches no other
    record, writes the records to storage, and announces exactly the kinds that
    were not held before - or nothing when there are none. *)
Theorem em_apply_correct env c i s :
  let p := inf_isProcess_ i in
  let key := if p then cbi_pid_ c else cbi_uid_ c in
  let s' := ApplyEfficiencyResourcesInner env c i s in
  let fresh := Z.ldiff (cbi_resourceNumber_ c) (held p key s) in
  em_inv t0 s -> 0 < cbi_resourceNumber_ c <= MAX_RESOURCE_MASK ->
  held p key s' = Z.lor (held p key s) (cbi_resourceNumber_ c) /\
  (forall q k, (q, k) <> (p, key) -> em_map q s' !! k = em_map q s !! k) /\
  em_stored s' = (em_appResourceApplyMap_ s', em_procResourceApplyMap_ s') /\
  observed (em_out s') = observed (em_out s) ++
    (if fresh =? 0 then []
     else [(cbi_SetResourceNumber fresh c, if p then RESOURCE_APPLY else APP_RESOURCE_APPLY)]).
Proof.
  intros p key s' fresh Hs Hn.
  destruct (Apply_spec env c i s Hs Hn) as (_ & Hh & Ho & _ & Hst & Hout). done.
Qed.

(** Taking resources away removes from the record exactly the kinds named that
    it holds, drops the record when nothing is left, touches no other record and
    announces exactly the kinds removed; when none is held nothing happens. *)
Theorem em_remove_correct env p key c s :
  let clean := cbi_resourceNumber_ c in
  let r := RemoveTargetResourceRecord env p key c s in
  em_inv t0 s ->
  held p key r.2 = Z.ldiff (held p key s) clean /\
  (em_map p r.2 !! key = None <-> held p key r.2 = 0) /\
  (forall q k, (q, k) <> (p, key) -> em_map q r.2 !! k = em_map q s !! k) /\
  (r.1 = false -> r.2 = s /\ Z.land (held p key s) clean = 0) /\
  (r.1 = true -> Z.land (held p key s) clean <> 0 /\ exists c',
     cbi_resourceNumber_ c' = Z.land (held p key s) clean /\
     observed (em_out r.2) = observed (em_out s) ++ [(c', reset_type p)]).
Proof.
  intros clean r Hs. unfold r, RemoveTargetResourceRecord. fold clean.
  destruct (em_map p s !! key) as [rec|] eqn:E.
  2: { assert (held p key s = 0) as -> by (unfold held; by rewrite E).
       cbn [fst snd]. rewrite Z.ldiff_0_l, Z.land_0_l. unfold held. rewrite E. done. }
  destruct (ei_rec _ Hs _ _ _ E) as (Hok & _). pose proof (rok_number _ Hok) as Hn.
  assert (Hh : held p key s = rr_resourceNumber_ rec) by (unfold held; by rewrite E).
  set (cut := Z.land (rr_resourceNumber_ rec) clean).
  assert (Hl : Z.ldiff (rr_resourceNumber_ rec) cut = Z.ldiff (rr_resourceNumber_ rec) clean).
  { apply Z.bits_inj'. intros i _. unfold cut. rewrite !Z.ldiff_spec, Z.land_spec.
    by destruct (Z.testbit (rr_resourceNumber_ rec) i), (Z.testbit clean i). }
  rewrite Hh. fold cut. destruct (Z.eqb_spec cut 0) as [Hz|Hz]; cbn [fst snd].
  - rewrite Hz, Z.ldiff_0_r in Hl. split; [congruence|].
    split; [rewrite E, Hh; split; [done|lia]|]. split; [done|]. split; [done|]. done.
  - destruct (erase_spec (t0 := t0) env p key cut (cbi_cpuLevel_ c) rec s)
      as (_ & Hd & Hm & Ho & _ & Hout); try done; [apply Z.land_nonneg; lia| |].
    { intros i. unfold cut. rewrite Z.land_spec, andb_true_iff. tauto. }
    rewrite ?Hh, ?Hl in Hd, Hm. split; [done|]. split; [|split; [done|split; [done|]]].
    + rewrite Hm, Hd. destruct (Z.eqb_spec (Z.ldiff (rr_resourceNumber_ rec) clean) 0); done.
    + intros _. split; [done|]. eexists. split; [|exact Hout]. done.
Qed.

(** The kinds granted are those asked for that the bundle's configuration
    permits: kind [i] is granted exactly when it was asked for and the
    configuration lists 0 (all resources) or [i + 1]. *)
Theorem GetExemptedResourceType_correct env n uid name i :
  0 <= n <= MAX_RESOURCE_MASK -> 0 <= i ->
  Z.testbit (GetExemptedResourceType env n uid name) i = true <->
  Z.testbit n i = true /\
  (FREEZE_ALL_RESOURCES ∈ QueryRunningResourcesApply env uid name \/
   i + 1 ∈ QueryRunningResourcesApply env uid name).
Proof.
  intros Hn Hi. unfold GetExemptedResourceType, FREEZE_ALL_RESOURCES.
  set (l := QueryRunningResourcesApply env uid name).
  case_bool_decide as He; [rewrite He, Z.bits_0; set_solver|].
  case_bool_decide as H0; [tauto|].
  rewrite Z.land_spec, andb_true_iff.
  enough (Z.testbit (fold_left (fun acc t =>
    if (t <? 0) || (t >? MAX_RESOURCES_TYPE_NUM) then acc else Z.lor acc (bit (t - 1))) l 0) i = true
    <-> i + 1 ∈ l /\ i < MAX_RESOURCES_TYPE_NUM) as Hf.
  { rewrite Hf. split; [tauto|]. intros [Hb [?|Hin]]; [done|]. pose proof (kinds_bound n i Hn Hb).
    split_and!; [done|lia|done]. }
  enough (forall acc, (forall t, t ∈ l -> t <> 0) -> Z.testbit (fold_left (fun acc t =>
    if (t <? 0) || (t >? MAX_RESOURCES_TYPE_NUM) then acc else Z.lor acc (bit (t - 1))) l acc) i = true
    <-> Z.testbit acc i = true \/ (i + 1 ∈ l /\ i < MAX_RESOURCES_TYPE_NUM)) as Hg.
  { rewrite Hg, Z.bits_0; [naive_solver|]. intros t Ht ->. done. }
  clear He H0. clearbody l. induction l as [|t l IH]; intros acc Hne; cbn [fold_left].
  - split; [by left|]. intros [?|[Hx _]]; [done|]. by apply not_elem_of_nil in Hx.
  - assert (t <> 0) as Ht by (apply Hne; left).
    rewrite IH, elem_of_cons by (intros ? ?; apply Hne; by right).
    destruct ((t <? 0) || (t >? MAX_RESOURCES_TYPE_NUM)) eqn:Et.
    + apply orb_prop in Et. destruct Et; bool_prop; intuition lia.
    + bool_prop. rewrite Z.lor_spec, bit_spec, orb_true_iff, Z.eqb_eq by lia.
      intuition lia.
Qed.
End EffCorrect.
