(* ===== verification/EfficiencyResourcesEntry.v ===== *)
(** * Entry points of the efficiency resources manager

    Admission of a request, the split of a request between the application and the
    calling process, what the queries report, and the readiness of the manager. *)

From S2P Require Import Prelude.
From S2P Require Import Errors.
From S2P Require Import Interfaces.
From S2P Require Import ResourceTypes.
From S2P Require Import EfficiencyResources.
From S2P Require Import EfficiencyResourcesSpec.
From S2P Require Import EfficiencyResourcesProps.
Local Open Scope Z_scope.

Section EffAdmission.
Context {ccm : CpuLevelConfig} {t0 : Z}.
Implicit Types s : EffMgr.

(** The scope a posted task works on, its kinds, and whether it applies them. *)
Definition task_process (t : ETask) : bool :=
  match t with TaskApply _ i => inf_isProcess_ i | TaskReset _ p _ => p | TaskTimeOut _ p => p end.
Definition task_callback (t : ETask) : option ResourceCallbackInfo :=
  match t with TaskApply c _ | TaskReset c _ _ => Some c | TaskTimeOut _ _ => None end.
Definition task_number (t : ETask) : Z := default 0 (cbi_resourceNumber_ <$> task_callback t).
Definition task_applies (t : ETask) : bool := match t with TaskApply _ _ => true | _ => false end.

(** What the caller sends for each scope. *)
Definition request_task (uid pid : Z) (name : string) (i : EfficiencyResourceInfo) : ETask :=
  let c := cbi_SetCpuLevel (inf_cpuLevel_ i) (new_ResourceCallbackInfo uid pid (inf_resourceNumber_ i) name) in
  if inf_isApply_ i then TaskApply c i else TaskReset c (inf_isProcess_ i) CANCEL_APPLY_INTERFACE.

Lemma Send_request_task env uid pid name i s :
  SendResourceApplyTask env uid pid name i s = em_post (ee_now env) (request_task uid pid name i) s.
Proof. unfold SendResourceApplyTask, request_task. by case_test. Qed.

Lemma request_task_frame uid pid name i :
  task_process (request_task uid pid name i) = inf_isProcess_ i /\
  task_number (request_task uid pid name i) = inf_resourceNumber_ i /\
  task_applies (request_task uid pid name i) = inf_isApply_ i /\
  exists l, task_callback (request_task uid pid name i) =
    Some (cbi_SetCpuLevel l (new_ResourceCallbackInfo uid pid (inf_resourceNumber_ i) name)).
Proof. unfold request_task. destruct (inf_isApply_ i); split_and!; eauto. Qed.

(** The requests a call is split into: CPU for the process, the rest for the
    application. *)
Definition split_request (uid : Z) (i : EfficiencyResourceInfo) s : list EfficiencyResourceInfo :=
  if inf_isProcess_ i then
    let n := inf_resourceNumber_ i in
    (if Z.land n ResourceType.CPU =? 0 then [] else [inf_SetResourceNumber ResourceType.CPU i]) ++
    (if Z.land n (Z.lnot ResourceType.CPU) =? 0 then []
     else [inf_SetCpuLevel (GetPreAppCpuLevel uid s)
             (inf_SetProcess false (inf_SetResourceNumber (Z.land n (Z.lnot ResourceType.CPU)) i))])
  else [i].

Lemma post_tasks due t s : em_tasks (em_post due t s) = em_tasks s ++ [(due, t)].
Proof. done. Qed.

Lemma ApplyPkgAndProc_split env uid pid name i s :
  ApplyResourceForPkgAndProc env uid pid name i s =
  em_set_tasks (em_tasks s ++ ((fun i => (ee_now env, request_task uid pid name i)) <$> split_request uid i s)) s.
Proof.
  unfold ApplyResourceForPkgAndProc, split_request. rewrite !Send_request_task.
  destruct (inf_isProcess_ i); cbn [negb]; [|done].
  destruct (Z.land (inf_resourceNumber_ i) ResourceType.CPU =? 0),
    (Z.land (inf_resourceNumber_ i) (Z.lnot ResourceType.CPU) =? 0); cbn [negb app fmap list_fmap].
  all: unfold em_post, em_set_tasks; simpl; rewrite ?app_nil_r, <- ?app_assoc; by destruct s.
Qed.

Lemma cpu_bit n : 0 <= n -> Z.land n ResourceType.CPU = if Z.testbit n 0 then 1 else 0.
Proof.
  intros Hn. apply Z.bits_inj'. intros k Hk. rewrite Z.land_spec.
  change ResourceType.CPU with (bit 0). rewrite bit_spec by lia.
  destruct (Z.eqb_spec k 0) as [->|Hne].
  - rewrite andb_true_r. by destruct (Z.testbit n 0).
  - assert ((0 =? k) = false) as -> by lia. rewrite andb_false_r.
    destruct (Z.testbit n 0); [|by rewrite Z.bits_0].
    change 1 with (bit 0) at 1. rewrite bit_spec by lia. lia.
Qed.

Lemma rest_bits n k : 0 <= k ->
  Z.testbit (Z.land n (Z.lnot ResourceType.CPU)) k = Z.testbit n k && negb (k =? 0).
Proof.
  intros Hk. rewrite Z.land_spec, Z.lnot_spec by done.
  change ResourceType.CPU with (bit 0). rewrite bit_spec by lia. by rewrite Z.eqb_sym.
Qed.

(** Kind [k] is in exactly one of the requests, the one of its scope. *)
Lemma split_request_kinds uid i s p k :
  0 <= inf_resourceNumber_ i -> 0 <= k ->
  (exists j, j ∈ split_request uid i s /\ inf_isProcess_ j = p /\ Z.testbit (inf_resourceNumber_ j) k = true)
  <-> Z.testbit (inf_resourceNumber_ i) k = true /\ p = inf_isProcess_ i && (k =? 0).
Proof.
  intros Hn Hk. unfold split_request. destruct (inf_isProcess_ i) eqn:Ep; cbn [andb].
  2: { split.
       - intros (j & Hj & <- & Hb). apply list_elem_of_singleton in Hj as ->. by rewrite Ep.
       - intros [Hb ->]. exists i. rewrite list_elem_of_singleton. by rewrite Ep. }
  rewrite cpu_bit by done. split.
  - intros (j & Hj & <- & Hb). apply elem_of_app in Hj as [Hj|Hj].
    + destruct (Z.testbit (inf_resourceNumber_ i) 0) eqn:E0; [|by apply not_elem_of_nil in Hj].
      apply list_elem_of_singleton in Hj as ->. cbn [inf_SetResourceNumber inf_resourceNumber_ inf_isProcess_] in *.
      change ResourceType.CPU with (bit 0) in Hb. rewrite bit_spec in Hb by lia.
      assert (k = 0) as -> by lia. rewrite Ep. done.
    + destruct (_ =? 0) in Hj; [by apply not_elem_of_nil in Hj|].
      apply list_elem_of_singleton in Hj as ->. simpl in Hb |- *. rewrite rest_bits in Hb by done.
      apply andb_prop in Hb as [Hb Hne]. split; [done|]. lia.
  - intros [Hb ->]. destruct (Z.eqb_spec k 0) as [->|Hne].
    + rewrite Hb. exists (inf_SetResourceNumber ResourceType.CPU i). split; [by left|]. done.
    + eexists. split; [apply elem_of_app; right|split].
      * destruct (Z.eqb_spec (Z.land (inf_resourceNumber_ i) (Z.lnot ResourceType.CPU)) 0) as [Hz|_]; [|by left].
        pose proof (rest_bits (inf_resourceNumber_ i) k Hk) as Hr. rewrite Hz, Hb, Z.bits_0 in Hr. lia.
      * done.
      * simpl. rewrite rest_bits by done. rewrite Hb. lia.
Qed.

Lemma split_request_apply uid i s j : j ∈ split_request uid i s -> inf_isApply_ j = inf_isApply_ i.
Proof.
  unfold split_request. destruct (inf_isProcess_ i).
  - rewrite elem_of_app. intros [H|H]; destruct (_ =? 0) in H;
      first [by apply not_elem_of_nil in H | by apply list_elem_of_singleton in H as ->].
  - by intros ->%list_elem_of_singleton.
Qed.

Lemma split_request_range uid i s j :
  0 < inf_resourceNumber_ i <= MAX_RESOURCE_MASK -> j ∈ split_request uid i s ->
  0 < inf_resourceNumber_ j <= MAX_RESOURCE_MASK.
Proof.
  intros Hn. unfold split_request. pose proof (land_not_cpu (inf_resourceNumber_ i)) as Hr.
  destruct (inf_isProcess_ i); [|by intros ->%list_elem_of_singleton].
  rewrite elem_of_app. intros [H|H]; [destruct (_ =? 0) in H|destruct (Z.eqb_spec (Z.land (inf_resourceNumber_ i)
    (Z.lnot ResourceType.CPU)) 0)]; try by apply not_elem_of_nil in H.
  - by apply list_elem_of_singleton in H as ->.
  - apply list_elem_of_singleton in H as ->. simpl. lia.
Qed.

Lemma CheckIfCanApply_frame env i name uid :
  let i' := (CheckIfCanApplyCpuLevel env i name uid).2 in
  inf_resourceNumber_ i' = inf_resourceNumber_ i /\ inf_isProcess_ i' = inf_isProcess_ i /\
  inf_isApply_ i' = inf_isApply_ i.
Proof.
  unfold CheckIfCanApplyCpuLevel. destruct (ee_GetBundleInfo _ _ _) as [[a b]|]; by repeat case_test.
Qed.

(** What the error cases of [ApplyEfficiencyResources] share, and its success. *)
Lemma Apply_result env info s :
  let r := ApplyEfficiencyResources env info s in
  let uid := ee_uid env in
  let pid := ee_pid env in
  let name := ee_GetClientBundleName env uid in
  (r.1 <> ERR_OK /\ r.2 = s) \/
  (r.1 = ERR_OK /\ em_isSysReady_ s = true /\ 0 <= uid /\ 0 <= pid /\
   (ee_IsSystemApp env = true \/ IsServiceExtensionType env pid s = true) /\
   exists i j, info = Some i /\ CheckResourceInfo info = true /\
     inf_resourceNumber_ j = GetExemptedResourceType env (inf_resourceNumber_ i) uid name /\
     inf_resourceNumber_ j <> 0 /\ inf_isProcess_ j = inf_isProcess_ i /\ inf_isApply_ j = inf_isApply_ i /\
     r.2 = em_set_tasks (em_tasks s ++
             ((fun i => (ee_now env, request_task uid pid name i)) <$> split_request uid j s)) s).
Proof.
  intros r uid pid name. unfold r, ApplyEfficiencyResources. fold uid pid name.
  case_test; [by left|]. case_test; [by left|].
  destruct info as [i|]; [|by left]. case_test; [by left|]. case_test; [by left|].
  pose proof (CheckIfCanApply_frame env i name uid) as (Hn & Hp & Ha).
  destruct (CheckIfCanApplyCpuLevel env i name uid) as [err i']. cbn [snd] in *.
  case_test; [left; bool_prop; split; [cbn [fst]; lia|done]|]. case_test; [by left|]. case_test; [by left|].
  right. unfold em_IsCallingInfoLegal in *. bool_prop. split; [done|].
  split; [done|]. split; [lia|]. split; [lia|].
  split; [destruct (ee_IsSystemApp env); [by left|right]; by destruct (IsServiceExtensionType env pid s)|].
  exists i, (inf_SetResourceNumber (GetExemptedResourceType env (inf_resourceNumber_ i') uid name) i').
  split; [done|]. split; [done|]. split; [|split; [|split; [exact Hp|split; [exact Ha|]]]].
  - cbn [inf_SetResourceNumber inf_resourceNumber_]. by rewrite Hn.
  - cbn [inf_SetResourceNumber inf_resourceNumber_]. done.
  - cbn [fst snd]. apply ApplyPkgAndProc_split.
Qed.

Lemma exempted_range env n uid name :
  0 <= n <= MAX_RESOURCE_MASK -> 0 <= GetExemptedResourceType env n uid name <= MAX_RESOURCE_MASK.
Proof.
  intros Hn. assert (0 <= n) as H0 by lia.
  destruct (exempted_subset env n uid name 0 H0) as [Hg _]. split; [done|].
  apply kinds_le_mask; [done|]. intros j Hj.
  apply (proj2 (exempted_subset env n uid name j H0)) in Hj. apply kinds_bound in Hj; lia.
Qed.

Lemma CheckResourceInfo_range i :
  CheckResourceInfo (Some i) = true -> 0 <= inf_resourceNumber_ i ->
  0 < inf_resourceNumber_ i <= MAX_RESOURCE_MASK /\
  (inf_isApply_ i = true -> inf_isPersist_ i = true \/ inf_timeOut_ i <> 0).
Proof.
  unfold CheckResourceInfo. intros H Hn. bool_prop. split; [lia|].
  intros Ha. rewrite Ha in *. destruct (inf_isPersist_ i); [by left|right]. cbn in *. lia.
Qed.

(** Running the tasks of a list of requests to apply. *)
Lemma run_requests env uid pid name (js : list EfficiencyResourceInfo) s (p : bool) k :
  em_inv t0 s -> (forall j, j ∈ js -> inf_isApply_ j = true /\ 0 < inf_resourceNumber_ j <= MAX_RESOURCE_MASK) ->
  let key := if p then pid else uid in
  let s' := fold_left (fun s t => run_task env t s) (request_task uid pid name <$> js) s in
  em_inv t0 s' /\
  (Z.testbit (held p key s') k = true <-> Z.testbit (held p key s) k = true \/
     exists j, j ∈ js /\ inf_isProcess_ j = p /\ Z.testbit (inf_resourceNumber_ j) k = true).
Proof.
  intros Hs Hjs key. revert s Hs. induction js as [|j js IH]; intros s Hs; cbn [fmap list_fmap fold_left].
  - split; [done|]. split; [by left|]. intros [?|(j & Hj & _)]; [done|]. by apply not_elem_of_nil in Hj.
  - destruct (Hjs j) as [Ha Hn]; [left|].
    set (c := cbi_SetCpuLevel (inf_cpuLevel_ j) (new_ResourceCallbackInfo uid pid (inf_resourceNumber_ j) name)).
    assert (request_task uid pid name j = TaskApply c j) as -> by (unfold request_task; by rewrite Ha).
    cbn [run_task].
    destruct (Apply_spec env c j s Hs Hn) as (Hs1 & Hh & Ho & _).
    set (s1 := ApplyEfficiencyResourcesInner env c j s) in *.
    destruct (IH (fun x Hx => Hjs x (list_elem_of_further x j js Hx)) s1 Hs1) as [IHi IHh].
    split; [done|]. rewrite IHh. rewrite exists_cons.
    assert (Z.testbit (held p key s1) k = true <-> Z.testbit (held p key s) k = true \/
      (inf_isProcess_ j = p /\ Z.testbit (inf_resourceNumber_ j) k = true)) as ->; [|tauto].
    destruct (decide (inf_isProcess_ j = p)) as [Hp|Hp].
    + assert (key = apply_key c j) as -> by (unfold apply_key, key; by rewrite Hp).
      rewrite <- Hp, Hh, Z.lor_spec, orb_true_iff. cbn [cbi_resourceNumber_ c cbi_SetCpuLevel new_ResourceCallbackInfo].
      tauto.
    + unfold held. rewrite Ho by congruence. tauto.
Qed.

(** C39. A call either fails, and leaves the manager as it was, or succeeds for a
    ready manager, a legal caller that is a system application or a service
    extension, and a valid request of which something is permitted.  It then only
    posts tasks, due at once; they carry the caller's identity, and their kinds
    partition the kinds permitted: CPU goes to the calling process when the request
    is for the process, everything else to the application. *)
Theorem ApplyEfficiencyResources_admission env info s :
  (forall i, info = Some i -> 0 <= inf_resourceNumber_ i) ->
  let r := ApplyEfficiencyResources env info s in
  let uid := ee_uid env in
  let pid := ee_pid env in
  let name := ee_GetClientBundleName env uid in
  (r.1 <> ERR_OK /\ r.2 = s) \/
  (r.1 = ERR_OK /\ em_isSysReady_ s = true /\ 0 <= uid /\ 0 <= pid /\
   (ee_IsSystemApp env = true \/ IsServiceExtensionType env pid s = true) /\
   exists i tasks, info = Some i /\
     (inf_isApply_ i = true -> inf_isPersist_ i = true \/ inf_timeOut_ i <> 0) /\
     r.2 = em_set_tasks (em_tasks s ++ (pair (ee_now env) <$> tasks)) s /\
     (forall t, t ∈ tasks -> task_applies t = inf_isApply_ i /\
        exists l, task_callback t = Some (cbi_SetCpuLevel l (new_ResourceCallbackInfo uid pid (task_number t) name))) /\
     (let granted := GetExemptedResourceType env (inf_resourceNumber_ i) uid name in
      granted <> 0 /\
      forall p k, 0 <= k ->
        (exists t, t ∈ tasks /\ task_process t = p /\ Z.testbit (task_number t) k = true) <->
        Z.testbit granted k = true /\ p = inf_isProcess_ i && (k =? 0))).
Proof.
  intros Hu r uid pid name.
  destruct (Apply_result env info s) as [?|(He & Hr & H1 & H2 & H3 & i & j & -> & Hc & Hj & Hj0 & Hp & Ha & Hs)];
    [by left|right].
  fold uid pid name r in He, Hr, H1, H2, H3, Hj, Hs.
  destruct (CheckResourceInfo_range i Hc (Hu i eq_refl)) as [Hn Hap].
  do 5 (split; [done|]). exists i, (request_task uid pid name <$> split_request uid j s).
  split; [done|]. split; [done|]. split; [|split].
  - rewrite Hs. do 2 f_equal. by rewrite <- list_fmap_compose.
  - intros t (x & -> & Hx)%list_elem_of_fmap.
    destruct (request_task_frame uid pid name x) as (_ & -> & -> & Hcb).
    split; [|done]. by rewrite (split_request_apply _ _ _ _ Hx).
  - intros granted. fold granted in Hj. split; [by rewrite <- Hj|]. intros p k Hk.
    assert (0 <= inf_resourceNumber_ j) by (rewrite Hj; apply exempted_range; lia).
    rewrite <- Hj, <- Hp, <- (split_request_kinds uid j s p k) by done. split.
    + intros (t & (x & -> & Hx)%list_elem_of_fmap & Ht).
      destruct (request_task_frame uid pid name x) as (E1 & E2 & _). rewrite E1, E2 in Ht. by exists x.
    + intros (x & Hx & Ht). exists (request_task uid pid name x).
      destruct (request_task_frame uid pid name x) as (-> & -> & _). split; [|done].
      apply list_elem_of_fmap. by exists x.
Qed.

(** Once the handler has run the tasks of a successful application, from
    whatever state it finds, the application and the process hold exactly what they
    held before and the kinds permitted for them. *)
Theorem ApplyEfficiencyResources_takes_effect env i s s0 :
  0 <= inf_resourceNumber_ i -> inf_isApply_ i = true ->
  (ApplyEfficiencyResources env (Some i) s).1 = ERR_OK -> em_inv t0 s0 ->
  let uid := ee_uid env in
  let pid := ee_pid env in
  let granted := GetExemptedResourceType env (inf_resourceNumber_ i) uid (ee_GetClientBundleName env uid) in
  exists tasks,
    em_tasks (ApplyEfficiencyResources env (Some i) s).2 = em_tasks s ++ (pair (ee_now env) <$> tasks) /\
    let s1 := fold_left (fun s t => run_task env t s) tasks s0 in
    em_inv t0 s1 /\
    forall (p : bool) k, 0 <= k ->
      let key := if p then pid else uid in
      Z.testbit (held p key s1) k = true <->
      Z.testbit (held p key s0) k = true \/ (Z.testbit granted k = true /\ p = inf_isProcess_ i && (k =? 0)).
Proof.
  intros Hn Ha He H0 uid pid granted.
  destruct (Apply_result env (Some i) s) as [[? _]|(_ & _ & _ & _ & _ & i' & j & Hi & Hc & Hj & Hj0 & Hp & Hap & Hs)];
    [done|]. injection Hi as <-. fold uid pid in Hj, Hs.
  destruct (CheckResourceInfo_range i Hc Hn) as [Hr _].
  pose proof (exempted_range env (inf_resourceNumber_ i) uid (ee_GetClientBundleName env uid)) as Hg.
  set (js := split_request uid j s) in *. set (name := ee_GetClientBundleName env uid) in *.
  exists (request_task uid pid name <$> js). split.
  { rewrite Hs. cbn [em_tasks em_set_tasks]. by rewrite <- list_fmap_compose. }
  assert (Hjs : forall x, x ∈ js -> inf_isApply_ x = true /\ 0 < inf_resourceNumber_ x <= MAX_RESOURCE_MASK).
  { intros x Hx. split; [by rewrite (split_request_apply _ _ _ _ Hx), Hap|].
    revert Hx. unfold js. apply split_request_range; lia. }
  intros s1. split; [apply (run_requests env uid pid name js s0 false 0 H0 Hjs)|].
  intros p k Hk key. destruct (run_requests env uid pid name js s0 p k H0 Hjs) as [_ Hrun].
  unfold s1, key, granted. rewrite Hrun. unfold js. rewrite split_request_kinds by lia. by rewrite Hj, Hp.
Qed.

(** A request may name a CPU level only when the configuration lists the bundle
    for it, the bundle's signature is the one configured and the level is within the
    bundle's limit; a request without CPU has its level reset. *)
Theorem CheckIfCanApplyCpuLevel_correct env i name uid :
  let r := CheckIfCanApplyCpuLevel env i name uid in
  let cpu := Z.testbit (inf_resourceNumber_ i) 0 in
  (r.1 = ERR_OK <->
     cpu = false \/ inf_cpuLevel_ i = CPU_LEVEL_DEFAULT \/
     (CheckRequestCpuLevelBundleNameConfigured name = true /\
      exists appId appIdentifier,
        ee_GetBundleInfo env name (GetUserIdByUid uid) = Some (appId, appIdentifier) /\
        CheckRequestCpuLevelAppSignatures name appId appIdentifier = true /\
        CheckRequestCpuLevel name (inf_cpuLevel_ i) = true)) /\
  r.2 = if cpu then i else inf_SetCpuLevel CPU_LEVEL_DEFAULT i.
Proof.
  intros r cpu. unfold r, CheckIfCanApplyCpuLevel.
  assert (Hc : (Z.land (inf_resourceNumber_ i) ResourceType.CPU =? ResourceType.CPU) = cpu).
  { change ResourceType.CPU with (Z.ones 1). rewrite Z.land_ones by lia. unfold cpu.
    rewrite Z.bit0_odd, Zodd_mod. done. }
  rewrite Hc. destruct cpu; cbn [negb]; [|by split; [split; [by left|]|]].
  destruct (Z.eqb_spec (inf_cpuLevel_ i) CPU_LEVEL_DEFAULT) as [->|Hl];
    [split; [split; [by right; left|done]|done]|].
  destruct (CheckRequestCpuLevelBundleNameConfigured name) eqn:E1; cbn [negb];
    [|split; [split; [done|by intros [?|[?|[? _]]]]|done]].
  destruct (ee_GetBundleInfo env name (GetUserIdByUid uid)) as [[a b]|] eqn:E2;
    [|split; [split; [done|intros [?|[?|(_ & x & y & ? & _)]]; done]|done]].
  destruct (CheckRequestCpuLevelAppSignatures name a b) eqn:E3; cbn [negb];
    [|split; [split; [done|intros [?|[?|(_ & x & y & ? & ? & _)]]; congruence]|done]].
  destruct (CheckRequestCpuLevel name (inf_cpuLevel_ i)) eqn:E4; cbn [negb];
    [|split; [split; [done|intros [?|[?|(_ & x & y & ? & ? & ?)]]; congruence]|done]].
  split; [split; [|done]|done]. intros _. right. right. split; [done|]. by exists a, b.
Qed.
End EffAdmission.

(** ** Readiness *)
Section EffReadiness.
Context {store : RecordStore} {abilities : EffAbilityIds}.
Implicit Types s : EffMgr.

(** The abilities the manager waits for. *)
Definition depends : list Z :=
  [APP_MGR_SERVICE_ID; BUNDLE_MGR_SERVICE_SYS_ABILITY_ID; RES_SCHED_SYS_ABILITY_ID].

(** An ability comes ([true]) or goes, in some environment. *)
Definition ability_event : Type := EffEnv * Z * bool.
Definition on_ability (s : EffMgr) (e : ability_event) : EffMgr :=
  let '(env, id, up) := e in
  if up then em_OnAddSystemAbility env id s else em_OnRemoveSystemAbility id s.

(** The abilities present after a sequence of events. *)
Definition present (evs : list ability_event) : gset Z :=
  fold_left (fun (up : gset Z) (e : ability_event) =>
    let '(_, id, b) := e in if b then up ∪ {[id]} else up ∖ {[id]}) evs ∅.

Definition depends_ok (up : gset Z) s : Prop :=
  (forall id, id ∈ depends ->
     Z.land (em_dependsReady_ s) (ready_bit id) = (if decide (id ∈ up) then ready_bit id else 0)) /\
  em_dependsReady_ s ∈ seqZ 0 8 /\
  (em_isSysReady_ s = true <-> em_dependsReady_ s = ALL_DEPENDS_READY).

Lemma ready_bits :
  ready_bit APP_MGR_SERVICE_ID = 1 /\ ready_bit BUNDLE_MGR_SERVICE_SYS_ABILITY_ID = 2 /\
  ready_bit RES_SCHED_SYS_ABILITY_ID = 4 /\ forall id, id ∉ depends -> ready_bit id = 0.
Proof.
  pose proof eff_abilities_distinct as Hd. apply NoDup_cons in Hd as [H1 Hd].
  apply NoDup_cons in Hd as [H2 _]. rewrite !not_elem_of_cons in *.
  unfold ready_bit, depends, APP_MGR_READY, BUNDLE_MGR_READY, RES_SCHED_SYS_READY.
  destruct H1 as (H1 & H1' & _), H2 as (H2 & _).
  split_and!; repeat case_match; try lia.
  intros id. rewrite !not_elem_of_cons. intros (? & ? & ? & _). repeat case_match; lia.
Qed.

(** Restoration does not touch the readiness. *)
Lemma ready_fold (A : Type) (f : EffMgr -> A -> EffMgr) (l : list A) s :
  (forall s x, em_dependsReady_ (f s x) = em_dependsReady_ s /\ em_isSysReady_ (f s x) = em_isSysReady_ s) ->
  em_dependsReady_ (fold_left f l s) = em_dependsReady_ s /\ em_isSysReady_ (fold_left f l s) = em_isSysReady_ s.
Proof.
  intros Hf. revert s. induction l as [|x l IH]; intros s; [done|]. cbn [fold_left].
  destruct (IH (f s x)) as [-> ->]. apply Hf.
Qed.

Lemma ready_RecoverDelayed now p m s :
  em_dependsReady_ (RecoverDelayedTask now p m s) = em_dependsReady_ s /\
  em_isSysReady_ (RecoverDelayedTask now p m s) = em_isSysReady_ s.
Proof.
  unfold RecoverDelayedTask. apply ready_fold. intros s1 e. apply ready_fold. intros s2 u.
  by destruct (pt_isPersist_ u).
Qed.

Lemma ready_HandlePersistence env s :
  em_dependsReady_ (HandlePersistenceData env s) = em_dependsReady_ s /\
  em_isSysReady_ (HandlePersistenceData env s) = em_isSysReady_ s.
Proof.
  unfold HandlePersistenceData. case_test; [done|].
  destruct (RestoreResourceRecord _) as [app proc]. cbn [RefreshResourceRecord em_dependsReady_ em_isSysReady_].
  rewrite !(proj1 (ready_RecoverDelayed _ _ _ _)), !(proj2 (ready_RecoverDelayed _ _ _ _)).
  unfold RecoverResourceNumber, CheckPersistenceData. by case_test.
Qed.

Lemma bits_table d b q :
  d ∈ seqZ 0 8 -> b ∈ [0; 1; 2; 4] -> q ∈ [1; 2; 4] ->
  (Z.lor d b ∈ seqZ 0 8 /\ Z.land (Z.lor d b) q = if q =? b then q else Z.land d q) /\
  (Z.land d (uint32 (Z.lnot b)) ∈ seqZ 0 8 /\
   Z.land (Z.land d (uint32 (Z.lnot b))) q = if q =? b then 0 else Z.land d q).
Proof.
  assert (Forall (fun d => Forall (fun b => Forall (fun q =>
    (Z.lor d b ∈ seqZ 0 8 /\ Z.land (Z.lor d b) q = if q =? b then q else Z.land d q) /\
    (Z.land d (uint32 (Z.lnot b)) ∈ seqZ 0 8 /\
     Z.land (Z.land d (uint32 (Z.lnot b))) q = if q =? b then 0 else Z.land d q))
    [1; 2; 4]) [0; 1; 2; 4]) (seqZ 0 8)) as H by (apply (bool_decide_unpack _); by vm_compute).
  rewrite Forall_forall in H. intros Hd Hb Hq. specialize (H d Hd).
  rewrite Forall_forall in H. specialize (H b Hb). rewrite Forall_forall in H. by apply H.
Qed.

Lemma all_ready d : d ∈ seqZ 0 8 ->
  d = ALL_DEPENDS_READY <-> Z.land d 1 = 1 /\ Z.land d 2 = 2 /\ Z.land d 4 = 4.
Proof.
  intros Hd. assert (Forall (fun d => bool_decide (d = ALL_DEPENDS_READY) =
    bool_decide (Z.land d 1 = 1) && bool_decide (Z.land d 2 = 2) && bool_decide (Z.land d 4 = 4)) (seqZ 0 8)) as H
    by (apply (bool_decide_unpack _); by vm_compute).
  rewrite Forall_forall in H. specialize (H d Hd).
  rewrite <- (bool_decide_eq_true (d = _)), H, !andb_true_iff, !bool_decide_eq_true. tauto.
Qed.

Lemma ready_bit_cases id :
  (id ∈ depends /\ ready_bit id ∈ [1; 2; 4]) \/ ((id ∉ depends) /\ ready_bit id = 0).
Proof.
  destruct ready_bits as (E1 & E2 & E3 & E4). destruct (decide (id ∈ depends)) as [Hin|Hout].
  - left. split; [done|]. unfold depends in Hin. rewrite !elem_of_cons in Hin.
    destruct Hin as [-> | [-> | [-> | H]]]; [rewrite E1|rewrite E2|rewrite E3|by apply not_elem_of_nil in H];
      by apply (bool_decide_unpack _).
  - right. split; [done|]. by apply E4.
Qed.

Lemma ready_bit_inj id id' : id ∈ depends -> ready_bit id = ready_bit id' -> id = id'.
Proof.
  destruct ready_bits as (E1 & E2 & E3 & E4). intros Hin He.
  destruct (ready_bit_cases id') as [[Hin' _]|[_ H0]].
  - unfold depends in Hin, Hin'. rewrite !elem_of_cons in Hin, Hin'.
    destruct Hin as [-> | [-> | [-> | H]]], Hin' as [-> | [-> | [-> | H']]];
      try (by apply not_elem_of_nil in H); try (by apply not_elem_of_nil in H'); congruence.
  - destruct (ready_bit_cases id) as [[_ H]|[? _]]; [|done].
    rewrite He, H0, !elem_of_cons in H. destruct H as [? | [? | [? | H]]]; try lia. by apply not_elem_of_nil in H.
Qed.

(** What an event does to the two flags. *)
Lemma on_ability_flags env id (b : bool) s :
  let s' := on_ability s (env, id, b) in
  let d := if b then Z.lor (em_dependsReady_ s) (ready_bit id)
           else Z.land (em_dependsReady_ s) (uint32 (Z.lnot (ready_bit id))) in
  em_dependsReady_ s' = d /\
  em_isSysReady_ s' = if b then em_isSysReady_ s || (d =? ALL_DEPENDS_READY)
                      else em_isSysReady_ s && (d =? ALL_DEPENDS_READY).
Proof.
  intros s' d. unfold s', on_ability, d. destruct b.
  - unfold em_OnAddSystemAbility. cbn [em_dependsReady_ em_set_ready].
    case_test; [|by rewrite orb_false_r].
    unfold em_InitNecessaryState. cbn [em_isSysReady_ em_set_ready].
    case_test; [done|]. rewrite orb_true_r. cbn [em_emit em_dependsReady_ em_isSysReady_ em_set_ready].
    split; [|done]. by rewrite (proj1 (ready_HandlePersistence _ _)).
  - unfold em_OnRemoveSystemAbility. cbn [em_dependsReady_ em_set_ready].
    destruct (_ =? ALL_DEPENDS_READY); cbn [negb em_set_ready em_dependsReady_ em_isSysReady_];
      by rewrite ?andb_true_r, ?andb_false_r.
Qed.

Lemma depends_ok_step up s env id (b : bool) :
  depends_ok up s ->
  depends_ok (if b then up ∪ {[id]} else up ∖ {[id]}) (on_ability s (env, id, b)).
Proof.
  intros (Hbits & Hd & Hready). destruct (on_ability_flags env id b s) as [Hd' Hr'].
  assert (Hb : ready_bit id ∈ [0; 1; 2; 4]).
  { destruct (ready_bit_cases id) as [[_ H]| [_ ->]]; [by right|left]. }
  assert (Hrange : em_dependsReady_ (on_ability s (env, id, b)) ∈ seqZ 0 8).
  { rewrite Hd'. destruct b; apply (bits_table _ _ 1); try done; left. }
  split; [|split; [done|]].
  - intros q Hq. rewrite Hd'. specialize (Hbits q Hq).
    destruct (ready_bit_cases q) as [[_ Hqb]|[? _]]; [|done].
    destruct (bits_table (em_dependsReady_ s) (ready_bit id) (ready_bit q) Hd Hb Hqb) as [[_ Ha] [_ Hm]].
    assert (Heq : (ready_bit q =? ready_bit id) = bool_decide (q = id)).
    { case_bool_decide as E; [rewrite E; apply Z.eqb_refl|]. apply Z.eqb_neq. intros H. by apply E, ready_bit_inj. }
    rewrite Heq in Ha, Hm.
    destruct b; [rewrite Ha|rewrite Hm]; rewrite Hbits; case_bool_decide; repeat case_decide; set_solver.
  - assert (Hl : forall q, q ∈ [1; 2; 4] -> Z.land (em_dependsReady_ (on_ability s (env, id, b))) q =
      if q =? ready_bit id then (if b then q else 0) else Z.land (em_dependsReady_ s) q).
    { intros q Hq. destruct (bits_table (em_dependsReady_ s) (ready_bit id) q Hd Hb Hq) as [[_ Ha] [_ Hm]].
      rewrite Hd'. by destruct b. }
    assert (H1 : 1 ∈ [1; 2; 4]) by (by apply (bool_decide_unpack _)).
    assert (H2 : 2 ∈ [1; 2; 4]) by (by apply (bool_decide_unpack _)).
    assert (H4 : 4 ∈ [1; 2; 4]) by (by apply (bool_decide_unpack _)).
    rewrite Hr', <- Hd'. pose proof (all_ready _ Hrange) as Hall. pose proof (all_ready _ Hd) as Hall0.
    rewrite (Hl 1 H1), (Hl 2 H2), (Hl 4 H4) in Hall.
    destruct b; [rewrite orb_true_iff|rewrite andb_true_iff]; rewrite Z.eqb_eq, Hready, Hall, Hall0;
      repeat case_test; intuition lia.
Qed.

Lemma depends_ok_all evs : depends_ok (present evs) (fold_left on_ability evs new_EffMgr).
Proof.
  unfold present. assert (depends_ok ∅ new_EffMgr) as H.
  { split; [|split; [by apply (bool_decide_unpack _)|done]]. intros id _. by rewrite decide_False. }
  revert H. generalize (∅ : gset Z) as up. generalize new_EffMgr as s.
  induction evs as [|[[env id] b] evs IH]; intros s up H; [done|]. cbn [fold_left].
  apply IH. by apply depends_ok_step.
Qed.

(** After any sequence of abilities coming and going, the manager is ready
    exactly when the application manager, the bundle manager and the resource
    scheduler are all present. *)
Theorem em_ready_iff_dependencies evs :
  em_isSysReady_ (fold_left on_ability evs new_EffMgr) = true <-> (forall id, id ∈ depends -> id ∈ present evs).
Proof.
  destruct (depends_ok_all evs) as (Hbits & Hd & ->). set (s := fold_left on_ability evs new_EffMgr) in *.
  destruct ready_bits as (E1 & E2 & E3 & _). rewrite all_ready by done.
  assert (Hl : forall id, id ∈ depends -> Z.land (em_dependsReady_ s) (ready_bit id) = ready_bit id <-> id ∈ present evs).
  { intros id Hid. rewrite Hbits by done. case_decide; [done|]. split; [|done]. intros H0.
    destruct (ready_bit_cases id) as [[_ Hx]|[? _]]; [|done]. rewrite <- H0 in Hx. exfalso. clear -Hx. by apply (bool_decide_pack (0 ∈ [1; 2; 4])) in Hx. }
  pose proof (Hl APP_MGR_SERVICE_ID) as L1. pose proof (Hl BUNDLE_MGR_SERVICE_SYS_ABILITY_ID) as L2.
  pose proof (Hl RES_SCHED_SYS_ABILITY_ID) as L3. rewrite E1 in L1. rewrite E2 in L2. rewrite E3 in L3.
  unfold depends in *. rewrite L1, L2, L3 by set_solver. set_solver.
Qed.
End EffReadiness.
