(* ===== verification/EfficiencyResourcesWitness.v ===== *)
(** * Concrete runs of the efficiency resources manager

    Instances of the interfaces, a scenario, the witnesses of the theorems of
    EfficiencyResourcesProps.v and EfficiencyResourcesEntry.v, and two behaviours
    shown on concrete runs. *)

From S2P Require Import Prelude.
From S2P Require Import Errors.
From S2P Require Import Interfaces.
From S2P Require Import ResourceTypes.
From S2P Require Import EfficiencyResources.
From S2P Require Import EfficiencyResourcesSpec.
From S2P Require Import Json.
From S2P Require Import ResourceStorage.
From S2P Require Import EfficiencyRestart.
From S2P Require Import EfficiencyResourcesProps.
From S2P Require Import EfficiencyResourcesEntry.
Local Open Scope Z_scope.

(** Every bundle may ask for any CPU level. *)
#[local] Instance open_levels : CpuLevelConfig := {
  CheckRequestCpuLevelBundleNameConfigured := fun _ => true;
  CheckRequestCpuLevelAppSignatures := fun _ _ _ => true;
  CheckRequestCpuLevel := fun _ _ => true;
}.
Lemma ability_ids_distinct : NoDup [501; 401; 1901].
Proof. apply (bool_decide_unpack _). by vm_compute. Qed.
#[local] Instance ability_ids : EffAbilityIds := {
  APP_MGR_SERVICE_ID := 501;
  BUNDLE_MGR_SERVICE_SYS_ABILITY_ID := 401;
  RES_SCHED_SYS_ABILITY_ID := 1901;
  eff_abilities_distinct := ability_ids_distinct;
}.

(** A system application, uid 100 and pid 7, that may use CPU, TIMER and GPS. *)
Definition eff_env (now : Z) : EffEnv :=
  mkEffEnv 100 7 now 1000 now (fun _ => "app"%string) true true
    [mkProc 7 100 false] (fun _ _ => Some [1; 3; 6]) (fun _ _ => Some ("id"%string, "idf"%string)) None.

(** CPU and GPS for the process, for 500 ms. *)
Definition cpu_gps : EfficiencyResourceInfo :=
  mkInfo 33 true 500 "navigation" false true 100 7 CPU_LEVEL_DEFAULT.

Definition eff0 : EffMgr := em_set_client true (em_set_ready true ALL_DEPENDS_READY new_EffMgr).
Definition eff1 : EffMgr := (ApplyEfficiencyResources (eff_env 1000) (Some cpu_gps) eff0).2.
Definition eff_run (now : Z) (s : EffMgr) : EffMgr :=
  match em_tasks s with
  | [] => s
  | (_, t) :: l => run_task (eff_env now) t (em_set_tasks l s)
  end.
(** The two halves of the request have been applied. *)
Definition eff2 : EffMgr := eff_run 1001 (eff_run 1000 eff1).

#[local] Instance tree : Json json := tree_json (fun _ => None).
Lemma eff1_reachable : em_reachable (J := json) 0 eff1.
Proof.
  apply (ereach_step 0 (eff_env 1000) eff0); [apply ereach_init|].
  apply estep_Apply. intros i [= <-]. by split.
Qed.

Lemma eff_run_step now s due t l :
  em_tasks s = (due, t) :: l -> due <= now -> em_step (eff_env now) s (eff_run now s).
Proof.
  intros Ht Hd. unfold eff_run. rewrite Ht.
  assert (l = delete 0%nat (em_tasks s)) as -> by (by rewrite Ht).
  apply (estep_Task (eff_env now) s 0%nat due t); [by rewrite Ht|done].
Qed.

Lemma eff2_reachable : em_reachable (J := json) 0 eff2.
Proof.
  apply (ereach_step 0 (eff_env 1001) (eff_run 1000 eff1)).
  - apply (ereach_step 0 (eff_env 1000) eff1); [exact eff1_reachable|].
    eapply eff_run_step; [vm_compute; reflexivity|lia].
  - eapply eff_run_step; [vm_compute; reflexivity|lia].
Qed.

Definition gps_record : ResourceApplicationRecord :=
  mkRecord 100 7 32 CPU_LEVEL_DEFAULT "app" [mkUnit 5 false 1501 "navigation" 500].

Lemma em_records_consistent_witness :
  em_map false eff2 !! 100 = Some gps_record /\ 100 = rr_uid_ gps_record /\
  0 < rr_resourceNumber_ gps_record <= MAX_RESOURCE_MASK.
Proof.
  assert (E : em_map false eff2 !! 100 = Some gps_record) by (by vm_compute).
  destruct (em_records_consistent 0 eff2 false 100 gps_record eff2_reachable E) as (H1 & H2 & _).
  done.
Defined.

Lemma em_temporary_resources_expire_witness :
  exists due, 1501 <= due <= 1501 /\ (due, TaskTimeOut 100 false) ∈ em_tasks eff2.
Proof.
  assert (E : em_map false eff2 !! 100 = Some gps_record) by (by vm_compute).
  exact (proj1 (em_temporary_resources_expire 0 eff2 false 100 gps_record
    (mkUnit 5 false 1501 "navigation" 500) eff2_reachable E ltac:(by left) eq_refl)).
Defined.

Lemma em_apply_correct_witness :
  held false 100 eff2 = 32 /\
  held false 100 (ApplyEfficiencyResourcesInner (eff_env 1002) (mkCallback 100 7 36 "app" (-1))
    (mkInfo 36 true 500 "r" false false 100 7 (-1)) eff2) = 36.
Proof.
  split; [by vm_compute|].
  refine (eq_trans (proj1 (em_apply_correct (eff_env 1002) (mkCallback 100 7 36 "app" (-1))
    (mkInfo 36 true 500 "r" false false 100 7 (-1)) eff2 (em_reachable_inv _ _ eff2_reachable) _)) _);
    by vm_compute.
Defined.

Lemma em_remove_correct_witness :
  held false 100 (RemoveTargetResourceRecord (eff_env 1002) false 100 (mkCallback 100 7 511 "app" (-1)) eff2).2 = 0.
Proof.
  refine (eq_trans (proj1 (em_remove_correct (eff_env 1002) false 100 (mkCallback 100 7 511 "app" (-1)) eff2
    (em_reachable_inv _ _ eff2_reachable))) _); by vm_compute.
Defined.

Lemma GetExemptedResourceType_correct_witness :
  Z.testbit (GetExemptedResourceType (eff_env 1000) 33 100 "app") 5 = true.
Proof.
  apply (GetExemptedResourceType_correct (eff_env 1000) 33 100 "app" 5); [by vm_compute|lia|].
  split; [done|]. right. apply (bool_decide_unpack _). by vm_compute.
Defined.

Lemma ApplyEfficiencyResources_admission_witness :
  exists tasks, em_tasks eff1 = pair 1000 <$> tasks.
Proof.
  destruct (ApplyEfficiencyResources_admission (eff_env 1000) (Some cpu_gps) eff0)
    as [[He _]|(_ & _ & _ & _ & _ & i & tasks & _ & _ & Hs & _)].
  - intros i [= <-]. by vm_compute.
  - exfalso. apply He. by vm_compute.
  - exists tasks. unfold eff1. by rewrite Hs.
Defined.

Lemma ApplyEfficiencyResources_takes_effect_witness :
  exists tasks, em_tasks eff1 = pair 1000 <$> tasks /\
    Z.testbit (held true 7 (fold_left (fun s t => run_task (eff_env 1000) t s) tasks eff0)) 0 = true.
Proof.
  destruct (ApplyEfficiencyResources_takes_effect (t0 := 0) (eff_env 1000) cpu_gps eff0 eff0)
    as (tasks & Ht & _ & Hk); [by vm_compute|done|by vm_compute|apply (em_inv_new 0)|].
  exists tasks. split; [exact Ht|]. apply (Hk true 0); [lia|]. right. by vm_compute.
Defined.

(** Each unit of a record is meant to be reported as its kind, [1 << index].  The
    code computes [index << 1]: kinds 1 and 2 come out right, and every kind from
    WORK_SCHEDULER (3) on is reported as another set of kinds. *)
Theorem em_kinds_misreported :
  Forall (fun i =>
    inf_resourceNumber_ <$>
      GetAllEfficiencyResourcesInner
        {[100 := mkRecord 100 7 (bit i) CPU_LEVEL_DEFAULT "app" [mkUnit i true 0 "r" 0]]} 100 7 false = [bit i]
    <-> i <= 2) (seqZ 0 MAX_RESOURCES_TYPE_NUM).
Proof.
  unfold MAX_RESOURCES_TYPE_NUM. cbn [length ResourceTypeName].
  repeat (apply Forall_cons; split; [split; [intros H; first [lia|vm_compute in H; discriminate H]|
    intros H; first [lia|by vm_compute]]|]). apply Forall_nil. done.
Qed.

(** An application that held TIMER for good and GPS until 5000 when the service went
    down. *)
Definition stored_record : ResourceApplicationRecord :=
  mkRecord 100 7 36 CPU_LEVEL_DEFAULT "app" [mkUnit 2 true 0 "r" 0; mkUnit 5 false 5000 "r" 4000].
#[local] Instance one_record : RecordStore := {
  RestoreResourceRecord := fun m => (<[100 := stored_record]> m.1, m.2);
}.

(** Restored soon after boot, a record keeps only its WORK_SCHEDULER and TIMER
    kinds, but the units of the others, and their tasks, stay.  When the time of such
    a unit is up the exclusive-or turns its kind on instead of off: the application
    then holds GPS with no unit to end it. *)
Theorem em_restored_kind_resurrected :
  let s := HandlePersistenceData (eff_env 1000) new_EffMgr in
  let s' := run_task (eff_env 5000) (TaskTimeOut 100 false) s in
  held false 100 s = ResourceType.TIMER /\
  (5000, TaskTimeOut 100 false) ∈ em_tasks s /\
  held false 100 s' = Z.lor ResourceType.TIMER ResourceType.GPS /\
  kinds_of <$> (rr_resourceUnitList_ <$> em_map false s' !! 100) = Some [2].
Proof.
  intros s s'. split; [by vm_compute|]. split; [|split; by vm_compute].
  assert (em_tasks s = [(5000, TaskTimeOut 100 false)]) as -> by (by vm_compute). by left.
Qed.
