(* ===== verification/BgtaskConfig.v ===== *)
(** * Configuration

    [BgTaskConfigFileInfo] (bg_task_config_file_info.cpp) and [BgtaskConfig]
    (bgtask_config.cpp) of src/services/common: the lists of exempted applications,
    the exempted quota and the CPU levels bundles may ask for, and the JSON they are
    read from.  [None] stands for the exception [get<T>()] throws on a value of
    another kind, which nothing catches. *)

From S2P Require Import Prelude.
From S2P Require Import Interfaces.
From S2P Require Import ResourceTypes.
From S2P Require Import EfficiencyResources.
From S2P Require Import Json.
From S2P Require Import Errors.
From S2P Require Import DelaySuspendInfo.
From S2P Require Import PkgDelaySuspendInfo.
Local Open Scope Z_scope.

(** ** CPU levels *)
Record CpuLevelConfigInfo := mkCpuLevel {
  cl_bundleName : string;
  cl_appSignatures : list string;
  cl_cpuLevel : Z;
}.

Abbreviation BgTaskConfigFileInfo := (gmap string CpuLevelConfigInfo).

Definition AddCpuLevelConfigInfo (i : CpuLevelConfigInfo) (m : BgTaskConfigFileInfo) :
    bool * BgTaskConfigFileInfo :=
  return_if bool_decide (cl_bundleName i = ""%string), (false, m) ;;
  (true, <[cl_bundleName i := i]> m).

Definition CheckCpuLevel (bundleName : string) (cpuLevel : Z) (m : BgTaskConfigFileInfo) : bool :=
  match m !! bundleName with
  | None => false
  | Some i => cpuLevel <=? cl_cpuLevel i
  end.

Definition CheckBundleName (bundleName : string) (m : BgTaskConfigFileInfo) : bool :=
  bool_decide (is_Some (m !! bundleName)).

Definition CheckAppSignatures (bundleName appId appIdentifier : string) (m : BgTaskConfigFileInfo) : bool :=
  match m !! bundleName with
  | None => false
  | Some i =>
      existsb (fun sign => bool_decide (sign = appId) || bool_decide (sign = appIdentifier))
        (cl_appSignatures i)
  end.

(** ** State *)
Record BgtaskConfig := mkConfig {
  bc_isInit_ : bool;
  bc_transientTaskExemptedQuatoList_ : gset string;
  bc_transientTaskCloudExemptedQuatoList_ : gset string;
  bc_taskKeepingExemptedQuatoList_ : gset string;
  bc_maliciousAppBlocklist_ : gset string;
  bc_specialExemptedQuatoList_ : gset string;
  bc_transientTaskExemptedQuato_ : Z;               (* int32_t *)
  bc_bgTaskConfigFileInfo_ : BgTaskConfigFileInfo;
  bc_signatureConfigs : list (gmap string string);  (* given to AddSignatureConfig *)
}.

Definition new_BgtaskConfig : BgtaskConfig := mkConfig false ∅ ∅ ∅ ∅ ∅ (10 * 1000) ∅ [].

Section ConfigUpdates.
Implicit Types c : BgtaskConfig.

Definition bc_set_init (b : bool) c : BgtaskConfig :=
  mkConfig b (bc_transientTaskExemptedQuatoList_ c) (bc_transientTaskCloudExemptedQuatoList_ c)
    (bc_taskKeepingExemptedQuatoList_ c) (bc_maliciousAppBlocklist_ c) (bc_specialExemptedQuatoList_ c)
    (bc_transientTaskExemptedQuato_ c) (bc_bgTaskConfigFileInfo_ c) (bc_signatureConfigs c).
Definition bc_set_transient (l cloud : gset string) c : BgtaskConfig :=
  mkConfig (bc_isInit_ c) l cloud
    (bc_taskKeepingExemptedQuatoList_ c) (bc_maliciousAppBlocklist_ c) (bc_specialExemptedQuatoList_ c)
    (bc_transientTaskExemptedQuato_ c) (bc_bgTaskConfigFileInfo_ c) (bc_signatureConfigs c).
Definition bc_set_lists (keeping malicious special : gset string) c : BgtaskConfig :=
  mkConfig (bc_isInit_ c) (bc_transientTaskExemptedQuatoList_ c) (bc_transientTaskCloudExemptedQuatoList_ c)
    keeping malicious special
    (bc_transientTaskExemptedQuato_ c) (bc_bgTaskConfigFileInfo_ c) (bc_signatureConfigs c).
Definition bc_set_quota (q : Z) c : BgtaskConfig :=
  mkConfig (bc_isInit_ c) (bc_transientTaskExemptedQuatoList_ c) (bc_transientTaskCloudExemptedQuatoList_ c)
    (bc_taskKeepingExemptedQuatoList_ c) (bc_maliciousAppBlocklist_ c) (bc_specialExemptedQuatoList_ c)
    q (bc_bgTaskConfigFileInfo_ c) (bc_signatureConfigs c).
Definition bc_set_levels (m : BgTaskConfigFileInfo) c : BgtaskConfig :=
  mkConfig (bc_isInit_ c) (bc_transientTaskExemptedQuatoList_ c) (bc_transientTaskCloudExemptedQuatoList_ c)
    (bc_taskKeepingExemptedQuatoList_ c) (bc_maliciousAppBlocklist_ c) (bc_specialExemptedQuatoList_ c)
    (bc_transientTaskExemptedQuato_ c) m (bc_signatureConfigs c).
Definition bc_add_signatures (m : gmap string string) c : BgtaskConfig :=
  mkConfig (bc_isInit_ c) (bc_transientTaskExemptedQuatoList_ c) (bc_transientTaskCloudExemptedQuatoList_ c)
    (bc_taskKeepingExemptedQuatoList_ c) (bc_maliciousAppBlocklist_ c) (bc_specialExemptedQuatoList_ c)
    (bc_transientTaskExemptedQuato_ c) (bc_bgTaskConfigFileInfo_ c) (bc_signatureConfigs c ++ [m]).
End ConfigUpdates.

Definition CONFIG_JSON_INDEX_TOP : string := "params".
Definition CONFIG_JSON_INDEX_SUSPEND_SECOND : string := "param".
Definition TRANSIENT_ERR_DELAYED_FROZEN_LIST : string := "transient_err_delayed_frozen_list".
Definition CONTINUOUS_TASK_KEEPING_EXEMPTED_LIST : string := "continuous_task_keeping_exemption_list".
Definition CONTINUOUS_TASK_SPECIAL_EXEMPTED_LIST : string := "special_exempted_list".
Definition MALICIOUS_APP_BLOCKLIST : string := "malicious_app_blocklist".
Definition TRANSIENT_EXEMPTED_QUOTA : string := "transient_exempted_quota".
Definition TRANSIENT_ERR_DELAYED_FROZEN_TIME : string := "transient_err_delayed_frozen_time".
Definition BUNDLE_SIGNATURE : string := "bundle_signature".
Definition SUSPEND_MANAGER_CONFIG_FILE : string := "etc/efficiency_manager/suspend_manager_config.json".
Definition BACKGROUND_TASK_CONFIG_FILE : string := "etc/backgroundtask/config.json".
Definition CPU_EFFICIENCY_RESOURCE_ALLOW_APPLY_BUNDLE_INFOS : string :=
  "cpu_efficiency_resource_allow_apply_bundle_infos".
Definition ALLOW_APPLY_BUNDLE_INFO_BUNDLE_NAME : string := "bundleName".
Definition ALLOW_APPLY_BUNDLE_INFO_APP_SIGNATURES : string := "appSignatures".
Definition ALLOW_APPLY_BUNDLE_INFO_CPU_LEVEL : string := "cpuLevel".

Definition CONFIG_CLOUD : Z := 1.
Definition CONFIG_SUSPEND_MANAGER : Z := 2.

(** ** Parsing *)
Section ConfigParsing.
Context `{Json J}.
Implicit Types c : BgtaskConfig.
Implicit Types jsonObj : J.

(** A list of applications under [key]: [None] leaves the list as it was. *)
Definition app_list (key : string) jsonObj : option (gset string) :=
  (fun a => list_to_set (strings a)) <$> member_if is_array key jsonObj.

(** Unlike the other lists, this one takes every element to be a string. *)
Definition ParseTransientTaskExemptedQuatoList jsonObj c : option BgtaskConfig :=
  return_if is_null jsonObj || json_empty jsonObj, Some c ;;
  match member_if is_array TRANSIENT_ERR_DELAYED_FROZEN_LIST jsonObj with
  | None => Some c
  | Some appArray =>
      apps ← mapM get_string (elements appArray);
      Some (bc_set_transient (bc_transientTaskExemptedQuatoList_ c ∪ list_to_set apps)
              (bc_transientTaskCloudExemptedQuatoList_ c) c)
  end.

Definition ParseTransientTaskExemptedQuato jsonObj c : option BgtaskConfig :=
  return_if is_null jsonObj || json_empty jsonObj, Some c ;;
  match member_if is_number_integer TRANSIENT_EXEMPTED_QUOTA jsonObj with
  | None => Some c
  | Some v => q ← get_int32 v; Some (bc_set_quota q c)
  end.

(** The exempted quota is read when the member is there and is not an integer. *)
Definition SetTransientTaskParam jsonObj c : option BgtaskConfig :=
  let c := match app_list TRANSIENT_ERR_DELAYED_FROZEN_LIST jsonObj with
           | Some l => bc_set_transient (bc_transientTaskExemptedQuatoList_ c) l c
           | None => c
           end in
  match member_if is_object CONFIG_JSON_INDEX_SUSPEND_SECOND jsonObj with
  | None => Some c
  | Some param =>
      match member_if (fun v => negb (is_number_integer v)) TRANSIENT_EXEMPTED_QUOTA param with
      | Some v => q ← get_int32 v; Some (bc_set_quota q c)
      | None => Some c
      end
  end.

Definition SetContinuousTaskParam jsonObj c : BgtaskConfig :=
  let keeping := default (bc_taskKeepingExemptedQuatoList_ c) (app_list CONTINUOUS_TASK_KEEPING_EXEMPTED_LIST jsonObj) in
  let malicious := default (bc_maliciousAppBlocklist_ c) (app_list MALICIOUS_APP_BLOCKLIST jsonObj) in
  let special := default (bc_specialExemptedQuatoList_ c) (app_list CONTINUOUS_TASK_SPECIAL_EXEMPTED_LIST jsonObj) in
  bc_set_lists keeping malicious special c.

Definition ParseBundleSignature jsonObj c : BgtaskConfig :=
  match member_if is_object BUNDLE_SIGNATURE jsonObj with
  | None => c
  | Some bundleList => bc_add_signatures (omap get_string (members bundleList)) c
  end.

Definition SetCloudConfigParam jsonObj c : option (bool * BgtaskConfig) :=
  match member_if is_object CONFIG_JSON_INDEX_TOP jsonObj with
  | None => Some (false, c)
  | Some params =>
      c ← SetTransientTaskParam params c;
      let c := SetContinuousTaskParam params c in
      Some (true, ParseBundleSignature params c)
  end.

Definition AddExemptedQuatoData (configData : string) (sourceType : Z) c : option (bool * BgtaskConfig) :=
  match parse configData with
  | None => Some (false, c)
  | Some jsonObj =>
      return_if is_null jsonObj || json_empty jsonObj, Some (false, c) ;;
      if sourceType =? CONFIG_CLOUD then SetCloudConfigParam jsonObj c
      else if sourceType =? CONFIG_SUSPEND_MANAGER then
        match member_if is_array TRANSIENT_ERR_DELAYED_FROZEN_LIST jsonObj with
        | None => Some (false, c)
        | Some appArray =>
            let c := bc_set_transient (list_to_set (strings appArray))
                       (bc_transientTaskCloudExemptedQuatoList_ c) c in
            match member_if is_number_integer TRANSIENT_ERR_DELAYED_FROZEN_TIME jsonObj with
            | None => Some (false, c)
            | Some v => q ← get_int32 v; Some (true, bc_set_quota q c)
            end
        end
      else Some (true, c)
  end.

Definition UpdateSusMgrCloudConfig (payload : J) c : option (bool * BgtaskConfig) :=
  return_if is_null payload, Some (false, c) ;;
  r ← SetCloudConfigParam payload c;
  Some (true, r.2).

(** One element of the list of CPU levels; [None] skips it. *)
Definition cpu_level_entry (j : J) : option CpuLevelConfigInfo :=
  name ← member_if is_string ALLOW_APPLY_BUNDLE_INFO_BUNDLE_NAME j;
  level ← member_if is_number_integer ALLOW_APPLY_BUNDLE_INFO_CPU_LEVEL j;
  cpuLevel ← get_int32 level;
  return_if (cpuLevel <? SMALL_CPU) || (cpuLevel >? LARGE_CPU), None ;;
  signs ← member_if is_array ALLOW_APPLY_BUNDLE_INFO_APP_SIGNATURES j;
  bundleName ← get_string name;
  Some (mkCpuLevel bundleName (strings signs) cpuLevel).

Definition ParseCpuEfficiencyResourceApplyBundleInfos jsonObj c : BgtaskConfig :=
  return_if is_null jsonObj || json_empty jsonObj, c ;;
  match member_if is_array CPU_EFFICIENCY_RESOURCE_ALLOW_APPLY_BUNDLE_INFOS jsonObj with
  | None => c
  | Some infos =>
      let newMap := fold_left (fun m j =>
        match cpu_level_entry j with
        | Some i => <[cl_bundleName i := i]> m
        | None => m
        end) (elements infos) ∅ in
      bc_set_levels newMap c
  end.

Definition UpdateBgMgrCloudConfig (payload : J) c : bool * BgtaskConfig :=
  return_if is_null payload, (false, c) ;;
  match member_if is_object CONFIG_JSON_INDEX_TOP payload with
  | None => (false, c)
  | Some params => (true, ParseCpuEfficiencyResourceApplyBundleInfos params c)
  end.

(** [file]: the JSON value [ParseJsonValueFromFile] reads, if it succeeds. *)
Definition LoadConfigFile (file : string -> option J) c : option BgtaskConfig :=
  match file SUSPEND_MANAGER_CONFIG_FILE with
  | None => Some c
  | Some jsonObj =>
      c ← ParseTransientTaskExemptedQuatoList jsonObj c;
      ParseTransientTaskExemptedQuato jsonObj c
  end.

Definition LoadBgTaskConfigFile (file : string -> option J) c : BgtaskConfig :=
  match file BACKGROUND_TASK_CONFIG_FILE with
  | None => c
  | Some jsonObj => ParseCpuEfficiencyResourceApplyBundleInfos jsonObj c
  end.

Definition bc_Init (file : string -> option J) c : option BgtaskConfig :=
  return_if bc_isInit_ c, Some c ;;
  c ← LoadConfigFile file c;
  Some (bc_set_init true (LoadBgTaskConfigFile file c)).
End ConfigParsing.

(** ** Queries

    [CheckSignature] asks the signature validator of the resource scheduler. *)
Section ConfigQueries.
Variable CheckSignature : string -> bool.
Implicit Types c : BgtaskConfig.

Definition bc_IsTransientTaskExemptedQuatoApp (bundleName : string) c : bool :=
  let isExempt :=
    if bool_decide (0 < size (bc_transientTaskCloudExemptedQuatoList_ c))%nat
    then bool_decide (bundleName ∈ bc_transientTaskCloudExemptedQuatoList_ c)
    else bool_decide (bundleName ∈ bc_transientTaskExemptedQuatoList_ c) in
  isExempt && CheckSignature bundleName.

Definition bc_IsTaskKeepingExemptedQuatoApp (bundleName : string) c : bool :=
  return_if negb (bool_decide (bundleName ∈ bc_taskKeepingExemptedQuatoList_ c)), false ;;
  CheckSignature bundleName.

Definition bc_IsMaliciousAppConfig (bundleName : string) c : bool :=
  return_if negb (bool_decide (bundleName ∈ bc_maliciousAppBlocklist_ c)), false ;;
  CheckSignature bundleName.

Definition bc_IsSpecialExemptedQuatoApp (bundleName : string) c : bool :=
  return_if negb (bool_decide (bundleName ∈ bc_specialExemptedQuatoList_ c)), false ;;
  CheckSignature bundleName.

Definition SetSupportedTaskKeepingProcesses (processSet : gset string) c : BgtaskConfig :=
  bc_set_lists (bc_taskKeepingExemptedQuatoList_ c ∪ processSet) (bc_maliciousAppBlocklist_ c)
    (bc_specialExemptedQuatoList_ c) c.
Definition SetMaliciousAppConfig (maliciousAppSet : gset string) c : BgtaskConfig :=
  bc_set_lists (bc_taskKeepingExemptedQuatoList_ c) (bc_maliciousAppBlocklist_ c ∪ maliciousAppSet)
    (bc_specialExemptedQuatoList_ c) c.
Definition SetSpecialExemptedProcess (bundleNameSet : gset string) c : BgtaskConfig :=
  bc_set_lists (bc_taskKeepingExemptedQuatoList_ c) (bc_maliciousAppBlocklist_ c)
    (bc_specialExemptedQuatoList_ c ∪ bundleNameSet) c.

(** What the managers see of a configuration. *)
Definition config_transient c : TransientConfig := {|
  IsTransientTaskExemptedQuatoApp name := bc_IsTransientTaskExemptedQuatoApp name c;
  GetTransientTaskExemptedQuato := bc_transientTaskExemptedQuato_ c;
|}.
Definition config_levels c : CpuLevelConfig := {|
  CheckRequestCpuLevelBundleNameConfigured name := CheckBundleName name (bc_bgTaskConfigFileInfo_ c);
  CheckRequestCpuLevelAppSignatures name appId appIdentifier :=
    CheckAppSignatures name appId appIdentifier (bc_bgTaskConfigFileInfo_ c);
  CheckRequestCpuLevel name level := CheckCpuLevel name level (bc_bgTaskConfigFileInfo_ c);
|}.
End ConfigQueries.

(** * Configuration: properties

    What the configuration holds after any sequence of updates, which applications
    it exempts, which CPU levels it lets pass, and when reading it throws. *)

Section ConfigProps.
Context `{Json J}.
Variable CheckSignature : string -> bool.
Implicit Types c : BgtaskConfig.
Implicit Types j : J.

(** ** CPU levels *)

(** Every entry is under its own bundle name, with one of the three levels. *)
Definition levels_ok (m : BgTaskConfigFileInfo) : Prop :=
  map_Forall (fun name i => cl_bundleName i = name /\ SMALL_CPU <= cl_cpuLevel i <= LARGE_CPU) m.

Lemma cpu_level_entry_ok j i : cpu_level_entry j = Some i -> SMALL_CPU <= cl_cpuLevel i <= LARGE_CPU.
Proof.
  unfold cpu_level_entry.
  destruct (member_if is_string _ j) as [n|]; [|done]. cbn [mbind option_bind].
  destruct (member_if is_number_integer _ j) as [v|]; [|done]. cbn [mbind option_bind].
  destruct (get_int32 v) as [l|]; [|done]. cbn [mbind option_bind].
  case_test; [done|]. destruct (member_if is_array _ j); [|done]. cbn [mbind option_bind].
  destruct (get_string n); [|done]. intros [= <-]. bool_prop. cbn [cl_cpuLevel]. lia.
Qed.

Definition add_level (m : BgTaskConfigFileInfo) (j : J) : BgTaskConfigFileInfo :=
  match cpu_level_entry j with Some i => <[cl_bundleName i := i]> m | None => m end.

Lemma levels_ok_fold (l : list J) m : levels_ok m -> levels_ok (fold_left add_level l m).
Proof.
  revert m. induction l as [|j l IH]; intros m Hm; [done|]. apply IH. unfold add_level.
  destruct (cpu_level_entry j) as [i|] eqn:E; [|done].
  apply map_Forall_insert_2; [|done]. split; [done|]. by eapply cpu_level_entry_ok.
Qed.

Lemma levels_ok_Parse j c :
  levels_ok (bc_bgTaskConfigFileInfo_ c) ->
  levels_ok (bc_bgTaskConfigFileInfo_ (ParseCpuEfficiencyResourceApplyBundleInfos j c)).
Proof.
  intros Hc. unfold ParseCpuEfficiencyResourceApplyBundleInfos. case_test; [done|].
  destruct (member_if is_array _ j); [|done]. cbn [bc_set_levels bc_bgTaskConfigFileInfo_].
  apply (levels_ok_fold _ ∅). apply map_Forall_empty.
Qed.

(** ** Updates *)
Inductive config_step c : BgtaskConfig -> Prop :=
| cstep_Init (file : string -> option J) c' : bc_Init file c = Some c' -> config_step c c'
| cstep_Add data source b c' : AddExemptedQuatoData data source c = Some (b, c') -> config_step c c'
| cstep_SusMgr payload b c' : UpdateSusMgrCloudConfig payload c = Some (b, c') -> config_step c c'
| cstep_BgMgr payload : config_step c (UpdateBgMgrCloudConfig payload c).2
| cstep_Keeping l : config_step c (SetSupportedTaskKeepingProcesses l c)
| cstep_Malicious l : config_step c (SetMaliciousAppConfig l c)
| cstep_Special l : config_step c (SetSpecialExemptedProcess l c).

Inductive config_reachable : BgtaskConfig -> Prop :=
| creach_new : config_reachable new_BgtaskConfig
| creach_step c c' : config_reachable c -> config_step c c' -> config_reachable c'.

Record config_ok c : Prop := {
  cfg_levels : levels_ok (bc_bgTaskConfigFileInfo_ c);
  cfg_quota : in_int32 (bc_transientTaskExemptedQuato_ c);
}.

Lemma get_int32_range j q : get_int32 j = Some q -> in_int32 q.
Proof.
  unfold get_int32. destruct (get_number j) as [z|]; [|done]. intros [= <-]. apply int32_range.
Qed.

Lemma config_ok_quota q c : in_int32 q -> config_ok c -> config_ok (bc_set_quota q c).
Proof. intros ? []. by split. Qed.

Lemma SetTransientTaskParam_ok j c c' : config_ok c -> SetTransientTaskParam j c = Some c' -> config_ok c'.
Proof.
  intros Hc. unfold SetTransientTaskParam.
  set (c1 := match app_list _ j with Some l => _ | None => _ end).
  assert (config_ok c1) by (unfold c1; destruct (app_list _ j); [destruct Hc; by split|done]).
  destruct (member_if is_object _ j) as [param|]; [|by intros [= <-]].
  destruct (member_if _ _ param) as [v|]; [|by intros [= <-]].
  destruct (get_int32 v) as [q|] eqn:E; [|done]. intros [= <-]. apply config_ok_quota; [|done].
  by eapply get_int32_range.
Qed.

Lemma SetCloudConfigParam_ok j b c c' : config_ok c -> SetCloudConfigParam j c = Some (b, c') -> config_ok c'.
Proof.
  intros Hc. unfold SetCloudConfigParam. destruct (member_if is_object _ j) as [p|]; [|by intros [= <- <-]].
  destruct (SetTransientTaskParam p c) as [c1|] eqn:E; [|done]. cbn [mbind option_bind].
  apply SetTransientTaskParam_ok in E; [|done]. intros [= <- <-].
  unfold ParseBundleSignature. destruct E. by destruct (member_if is_object _ p).
Qed.

Lemma AddExemptedQuatoData_ok data source b c c' :
  config_ok c -> AddExemptedQuatoData data source c = Some (b, c') -> config_ok c'.
Proof.
  intros Hc. unfold AddExemptedQuatoData. destruct (parse data) as [j|]; [|by intros [= <- <-]].
  case_test; [by intros [= <- <-]|]. case_test; [by apply SetCloudConfigParam_ok|].
  case_test; [|by intros [= <- <-]].
  destruct (member_if is_array _ j) as [a|]; [|by intros [= <- <-]].
  destruct (member_if is_number_integer _ j) as [v|]; [|intros [= <- <-]; destruct Hc; by split].
  destruct (get_int32 v) as [q|] eqn:E; [|done]. intros [= <- <-].
  split; [by destruct Hc|by eapply get_int32_range].
Qed.

Lemma LoadConfigFile_ok file c c' : config_ok c -> LoadConfigFile file c = Some c' -> config_ok c'.
Proof.
  intros Hc. unfold LoadConfigFile. destruct (file _) as [j|]; [|by intros [= <-]].
  destruct (ParseTransientTaskExemptedQuatoList j c) as [c1|] eqn:E; [|done]. cbn [mbind option_bind].
  assert (Hc1 : config_ok c1).
  { revert E. unfold ParseTransientTaskExemptedQuatoList. case_test; [by intros [= <-]|].
    destruct (member_if is_array _ j); [|by intros [= <-]].
    destruct (mapM _ _); [|done]. intros [= <-]. destruct Hc. by split. }
  unfold ParseTransientTaskExemptedQuato. case_test; [by intros [= <-]|].
  destruct (member_if is_number_integer _ j) as [v|]; [|by intros [= <-]].
  destruct (get_int32 v) as [q|] eqn:Eq; [|done]. intros [= <-]. apply config_ok_quota; [|done].
  by eapply get_int32_range.
Qed.

Lemma config_step_ok c c' : config_ok c -> config_step c c' -> config_ok c'.
Proof.
  intros Hc [file c1 E|data source b c1 E|payload b c1 E|payload|l|l|l].
  - revert E. unfold bc_Init. case_test; [by intros [= <-]|].
    destruct (LoadConfigFile file c) as [c2|] eqn:E; [|done]. intros [= <-].
    apply LoadConfigFile_ok in E as [H1 H2]; [|done]. unfold LoadBgTaskConfigFile.
    destruct (file _) as [j|]; [|by split]. split; cbn [bc_set_init bc_bgTaskConfigFileInfo_ bc_transientTaskExemptedQuato_].
    + by apply levels_ok_Parse.
    + unfold ParseCpuEfficiencyResourceApplyBundleInfos. case_test; [done|]. by destruct (member_if is_array _ j).
  - by eapply AddExemptedQuatoData_ok.
  - revert E. unfold UpdateSusMgrCloudConfig. case_test; [by intros [= <- <-]|].
    destruct (SetCloudConfigParam payload c) as [[b' c2]|] eqn:E; [|done]. intros [= <- <-].
    by eapply SetCloudConfigParam_ok.
  - unfold UpdateBgMgrCloudConfig. case_test; [done|]. destruct (member_if is_object _ payload) as [j|]; [|done].
    destruct Hc as [H1 H2]. split; [by apply levels_ok_Parse|]. cbn [snd].
    unfold ParseCpuEfficiencyResourceApplyBundleInfos. case_test; [done|]. by destruct (member_if is_array _ j).
  - destruct Hc. by split.
  - destruct Hc. by split.
  - destruct Hc. by split.
Qed.

(** A configuration whose quota is a possible delay gives the transient-task component
    what it relies on. *)
Lemma config_params_ok c :
  0 <= bc_transientTaskExemptedQuato_ c <= int32_max - WATCHDOG_DELAY_TIME ->
  TransientParamsOk default_params (config_transient CheckSignature c).
Proof. intros Hq. split; [vm_compute; split; congruence..|exact Hq]. Qed.

Lemma config_reachable_ok c : config_reachable c -> config_ok c.
Proof.
  induction 1 as [|c c' _ IH Hs]; [|by eapply config_step_ok].
  split; [apply map_Forall_empty|]. by vm_compute.
Qed.

(** C40. Whatever the configuration went through, a CPU level other than the default
    passes the checks of a request only for a bundle it lists, with an application
    identity it lists, and never above the level it lists nor above LARGE_CPU. *)
Theorem cpu_level_granted_is_configured c env i name uid :
  config_reachable c ->
  let r := @CheckIfCanApplyCpuLevel (config_levels c) env i name uid in
  r.1 = ERR_OK -> inf_cpuLevel_ r.2 <> CPU_LEVEL_DEFAULT ->
  exists e appId appIdentifier,
    bc_bgTaskConfigFileInfo_ c !! name = Some e /\ cl_bundleName e = name /\
    inf_cpuLevel_ r.2 <= cl_cpuLevel e <= LARGE_CPU /\
    ee_GetBundleInfo env name (GetUserIdByUid uid) = Some (appId, appIdentifier) /\
    (appId ∈ cl_appSignatures e \/ appIdentifier ∈ cl_appSignatures e).
Proof.
  intros Hr r. unfold r, CheckIfCanApplyCpuLevel. case_test; [intros _ Hn; by destruct Hn|].
  case_test; [bool_prop; intros _ Hn; by destruct Hn|]. case_test; [done|].
  destruct (ee_GetBundleInfo env name _) as [[appId appIdentifier]|]; [|done].
  case_test; [done|]. case_test; [done|]. bool_prop. intros _ _. cbn [snd].
  cbn [CheckRequestCpuLevelAppSignatures CheckRequestCpuLevel config_levels] in *.
  unfold CheckAppSignatures, CheckCpuLevel in *.
  destruct (bc_bgTaskConfigFileInfo_ c !! name) as [e|] eqn:E; [|done].
  destruct (cfg_levels _ (config_reachable_ok _ Hr) name e E) as [Hname Hl]. bool_prop.
  exists e, appId, appIdentifier. do 2 (split; [done|]). split; [lia|]. split; [done|].
  match goal with Hx : existsb _ _ = true |- _ =>
    apply existsb_exists in Hx as (sign & Hin & Hs) end.
  apply orb_prop in Hs. rewrite !bool_decide_eq_true in Hs. apply list_elem_of_In in Hin.
  destruct Hs as [<-|<-]; [by left|by right].
Qed.

(** ** Exempted applications *)

(** The list a cloud configuration carries for transient tasks. *)
Definition cloud_list (payload : J) : option (gset string) :=
  params ← member_if is_object CONFIG_JSON_INDEX_TOP payload;
  app_list TRANSIENT_ERR_DELAYED_FROZEN_LIST params.

Lemma SusMgr_lists payload b c c' :
  UpdateSusMgrCloudConfig payload c = Some (b, c') ->
  bc_transientTaskCloudExemptedQuatoList_ c' =
    default (bc_transientTaskCloudExemptedQuatoList_ c) (cloud_list payload) /\
  bc_transientTaskExemptedQuatoList_ c' = bc_transientTaskExemptedQuatoList_ c.
Proof.
  unfold UpdateSusMgrCloudConfig, cloud_list, SetCloudConfigParam, is_null.
  destruct (member_if is_object CONFIG_JSON_INDEX_TOP payload) as [p|] eqn:Ep; cbn [mbind option_bind default].
  2: { case_test; by intros [= <- <-]. }
  destruct (view payload) eqn:Ev;
    try (exfalso; unfold member_if, member in Ep; rewrite Ev in Ep; done). 
  unfold SetTransientTaskParam.
  set (c1 := match app_list TRANSIENT_ERR_DELAYED_FROZEN_LIST p with Some l => _ | None => _ end).
  assert (Hc1 : bc_transientTaskCloudExemptedQuatoList_ c1 =
      default (bc_transientTaskCloudExemptedQuatoList_ c) (app_list TRANSIENT_ERR_DELAYED_FROZEN_LIST p) /\
    bc_transientTaskExemptedQuatoList_ c1 = bc_transientTaskExemptedQuatoList_ c)
    by (unfold c1; by destruct (app_list _ p)).
  clearbody c1. destruct (member_if is_object CONFIG_JSON_INDEX_SUSPEND_SECOND p) as [q|];
    [destruct (member_if _ TRANSIENT_EXEMPTED_QUOTA q) as [v|]; [destruct (get_int32 v); [|done]|]|];
    cbn [mbind option_bind]; intros [= <- <-]; cbn [snd];
    unfold ParseBundleSignature; by destruct (member_if is_object BUNDLE_SIGNATURE p).
Qed.

(** After a cloud configuration with a non-empty list, the applications exempted
    from the quota are exactly those of that list whose signature checks; after one
    with an empty list they are those of the local list; a configuration without the
    list changes nothing. *)
Theorem cloud_exemptions payload b c c' name :
  UpdateSusMgrCloudConfig payload c = Some (b, c') ->
  bc_IsTransientTaskExemptedQuatoApp CheckSignature name c' = true <->
  CheckSignature name = true /\
  match cloud_list payload with
  | None => bc_IsTransientTaskExemptedQuatoApp CheckSignature name c = true
  | Some l => if decide (l = ∅) then name ∈ bc_transientTaskExemptedQuatoList_ c else name ∈ l
  end.
Proof.
  intros E. destruct (SusMgr_lists _ _ _ _ E) as [H1 H2].
  unfold bc_IsTransientTaskExemptedQuatoApp. rewrite H1, H2.
  destruct (cloud_list payload) as [l|]; cbn [default from_option id]; [|rewrite !andb_true_iff; tauto].
  assert (Hsz : (0 < size l)%nat <-> l <> ∅).
  { assert (Hz : size l = 0%nat <-> l = ∅) by (rewrite <- leibniz_equiv_iff; apply size_empty_iff).
    split; [intros ? Heq%Hz; lia|]. intros Hne. destruct (decide (size l = 0%nat)) as [E0|]; [by apply Hz in E0|lia]. }
  rewrite (bool_decide_ext _ _ Hsz).
  rewrite andb_true_iff. case_decide as Hl; case_bool_decide; try done; rewrite bool_decide_eq_true; tauto.
Qed.

(** The exempted quota in a cloud configuration is taken only when it is not an
    integer: the integer the configuration is meant to carry, at [params], [param],
    [transient_exempted_quota], never has an effect, while the same member of the
    local file sets the quota. *)
Theorem cloud_quota_ignored payload params param v z b c c' :
  member_if is_object CONFIG_JSON_INDEX_TOP payload = Some params ->
  member_if is_object CONFIG_JSON_INDEX_SUSPEND_SECOND params = Some param ->
  member TRANSIENT_EXEMPTED_QUOTA param = Some v -> view v = JInt z ->
  UpdateSusMgrCloudConfig payload c = Some (b, c') ->
  bc_transientTaskExemptedQuato_ c' = bc_transientTaskExemptedQuato_ c /\
  bc_transientTaskExemptedQuato_ <$> ParseTransientTaskExemptedQuato param c = Some (int32 z).
Proof.
  intros Ht Hp Hm Hv. unfold UpdateSusMgrCloudConfig, SetCloudConfigParam, SetTransientTaskParam.
  rewrite Ht, Hp. case_test.
  { unfold is_null in *. unfold member_if, member in Ht. by destruct (view payload). }
  unfold member_if at 1. rewrite Hm. unfold is_number_integer at 1. rewrite Hv. cbn [negb mbind option_bind].
  intros [= <- <-]. split.
  - cbn [snd]. unfold ParseBundleSignature. destruct (member_if is_object BUNDLE_SIGNATURE params);
      cbn [bc_add_signatures bc_transientTaskExemptedQuato_ SetContinuousTaskParam bc_set_lists];
      by destruct (app_list _ params).
  - unfold ParseTransientTaskExemptedQuato, is_null, json_empty. unfold member in Hm.
    destruct (view param) as [| | | | | |m] eqn:Ev; try done. case_test.
    { match goal with Hx : (false || bool_decide (m = ∅)) = true |- _ =>
        apply bool_decide_eq_true in Hx; subst m end. by rewrite lookup_empty in Hm. }
    unfold member_if, member. rewrite Ev, Hm. unfold is_number_integer, get_int32, get_number. rewrite Hv. by rewrite Hv.
Qed.

(** ** Exceptions *)

(** Reading the configuration at start fails, with an uncaught exception, exactly
    when the list of exempted applications in the file has an element that is not a
    string. *)
Theorem bc_Init_throws (file : string -> option J) c :
  bc_Init file c = None <->
  bc_isInit_ c = false /\
  exists j a, file SUSPEND_MANAGER_CONFIG_FILE = Some j /\
    member_if is_array TRANSIENT_ERR_DELAYED_FROZEN_LIST j = Some a /\
    exists e, e ∈ elements a /\ is_string e = false.
Proof.
  assert (Hs : forall l : list J, mapM get_string l = None <-> exists e, e ∈ l /\ is_string e = false).
  { intros l. rewrite mapM_None, Exists_exists. f_equiv. intros e. unfold get_string, is_string.
    destruct (view e); naive_solver. }
  unfold bc_Init. destruct (bc_isInit_ c); [naive_solver|].
  unfold LoadConfigFile. destruct (file SUSPEND_MANAGER_CONFIG_FILE) as [j|]; [|naive_solver].
  unfold ParseTransientTaskExemptedQuatoList.
  assert (Hq : forall c1, ParseTransientTaskExemptedQuato j c1 <> None).
  { intros c1. unfold ParseTransientTaskExemptedQuato. case_test; [done|].
    destruct (member_if is_number_integer _ j) as [v|] eqn:E; [|done].
    apply member_if_Some in E as [_ Hi]. unfold is_number_integer in Hi. unfold get_int32, get_number.
    by destruct (view v). }
  assert (Hfin : forall c1, (c2 ← ParseTransientTaskExemptedQuato j c1;
    Some (bc_set_init true (LoadBgTaskConfigFile file c2))) <> None).
  { intros c1. specialize (Hq c1). by destruct (ParseTransientTaskExemptedQuato j c1). }
  destruct (is_null j || json_empty j) eqn:En; cbn [mbind option_bind].
  - split; [by intros ?%Hfin|]. intros (_ & j' & a & [= <-] & Ha & e & He & _). exfalso.
    unfold member_if, member in Ha. unfold is_null, json_empty in En.
    destruct (view j) as [| | | | | |m]; try done. cbn [orb] in En.
    apply bool_decide_eq_true in En. subst m. by rewrite lookup_empty in Ha.
  - destruct (member_if is_array TRANSIENT_ERR_DELAYED_FROZEN_LIST j) as [a|] eqn:Ea; cbn [mbind option_bind].
    2: { split; [by intros ?%Hfin|]. naive_solver. }
    destruct (mapM get_string (elements a)) as [apps|] eqn:Em; cbn [mbind option_bind].
    + split; [by intros ?%Hfin|]. intros (_ & j' & a' & [= <-] & Ha & He).
      rewrite Ha in Ea. injection Ea as ->. apply Hs in He. congruence.
    + split; [intros _|done]. split; [done|]. exists j, a. do 2 (split; [done|]). by apply Hs.
Qed.
End ConfigProps.
