(* ===== verification/ConfigWitness.v ===== *)
(** * Configuration and storage on concrete inputs

    JSON values as trees, a cloud configuration, two stored maps, and the instances at
    which the theorems of BgtaskConfig.v, ResourceStorage.v and
    EfficiencyRestart.v apply. *)

From S2P Require Import Prelude.
From S2P Require Import Errors.
From S2P Require Import Interfaces.
From S2P Require Import ResourceTypes.
From S2P Require Import EfficiencyResources.
From S2P Require Import Json.
From S2P Require Import BgtaskConfig.
From S2P Require Import ResourceStorage.
From S2P Require Import EfficiencyRestart.
Local Open Scope Z_scope.

#[local] Instance tree : Json json := tree_json (fun _ => None).

Definition str (x : string) : json := Js (JString x).
Definition obj (l : list (string * json)) : json := Js (JObject (list_to_map l)).

(** ** Configurations *)
Definition cloud_payload : json :=
  obj [(CONFIG_JSON_INDEX_TOP, obj [
    (TRANSIENT_ERR_DELAYED_FROZEN_LIST, Js (JArray [str "app"; Js (JInt 1)]));
    (CONFIG_JSON_INDEX_SUSPEND_SECOND, obj [(TRANSIENT_EXEMPTED_QUOTA, Js (JInt 20000))])])].

Definition levels_payload : json :=
  obj [(CONFIG_JSON_INDEX_TOP, obj [
    (CPU_EFFICIENCY_RESOURCE_ALLOW_APPLY_BUNDLE_INFOS, Js (JArray [
      obj [(ALLOW_APPLY_BUNDLE_INFO_BUNDLE_NAME, str "app");
           (ALLOW_APPLY_BUNDLE_INFO_CPU_LEVEL, Js (JInt MEDIUM_CPU));
           (ALLOW_APPLY_BUNDLE_INFO_APP_SIGNATURES, Js (JArray [str "id"]))]]))])].

Definition after_cloud : BgtaskConfig :=
  default new_BgtaskConfig (snd <$> UpdateSusMgrCloudConfig cloud_payload new_BgtaskConfig).
Definition after_levels : BgtaskConfig := (UpdateBgMgrCloudConfig levels_payload new_BgtaskConfig).2.

Lemma after_cloud_step : UpdateSusMgrCloudConfig cloud_payload new_BgtaskConfig = Some (true, after_cloud).
Proof. reflexivity. Qed.

Definition config_env : EffEnv :=
  mkEffEnv 100 7 6000 300000 6000 (fun _ => "app"%string) true true
    [mkProc 7 100 false] (fun _ _ => Some [1]) (fun _ _ => Some ("id"%string, "idf"%string)) None.
Definition medium_cpu : EfficiencyResourceInfo := mkInfo 1 true 500 "r" false true 100 7 MEDIUM_CPU.

Lemma cpu_level_granted_is_configured_witness :
  exists e, bc_bgTaskConfigFileInfo_ after_levels !! "app"%string = Some e /\ MEDIUM_CPU <= cl_cpuLevel e.
Proof.
  destruct (cpu_level_granted_is_configured after_levels config_env medium_cpu "app" 100)
    as (e & a & b & He & _ & [Hl _] & _).
  - eapply creach_step; [apply creach_new|]. apply (cstep_BgMgr _ levels_payload).
  - by vm_compute.
  - by vm_compute.
  - exists e. split; [exact He|]. etrans; [|exact Hl]. by vm_compute.
Defined.

Lemma cloud_exemptions_witness :
  bc_IsTransientTaskExemptedQuatoApp (fun _ => true) "app" after_cloud = true.
Proof.
  apply (cloud_exemptions (fun _ => true) cloud_payload true new_BgtaskConfig after_cloud "app" after_cloud_step).
  split; [done|]. apply (bool_decide_unpack _). by vm_compute.
Defined.

Lemma cloud_quota_ignored_witness :
  bc_transientTaskExemptedQuato_ after_cloud = 10000.
Proof.
  refine (proj1 (cloud_quota_ignored cloud_payload _ _ _ 20000 true new_BgtaskConfig after_cloud _ _ _ _ after_cloud_step));
    vm_compute; reflexivity.
Defined.

(** ** Storage *)
Definition kept_record : ResourceApplicationRecord :=
  mkRecord 100 7 33 CPU_LEVEL_DEFAULT "app" [mkUnit 0 true 0 "r" 0; mkUnit 5 false 7000 "navigation" 500].
Definition kept : ResourceRecordMap := {[100 := kept_record]}.

Lemma kept_storable : map_storable kept.
Proof.
  apply map_Forall_singleton. split; [by vm_compute|].
  split; try by vm_compute. repeat constructor; by vm_compute.
Qed.

Lemma storage_roundtrip_witness :
  ds_RestoreResourceRecord (Some (ConvertMaps kept ∅)) (∅, ∅) = (kept, ∅).
Proof.
  apply (storage_roundtrip kept ∅); [exact kept_storable|apply map_Forall_empty].
Defined.

Lemma restart_restores_witness :
  em_map false (em_restart kept ∅ config_env) !! 100 = Some kept_record.
Proof.
  destruct (restart_restores kept ∅ config_env kept_storable (map_Forall_empty _) eq_refl eq_refl) as [Hk _].
  apply Hk.
  split; [by vm_compute|]. left. apply (bool_decide_unpack _). by vm_compute.
Defined.
