(* ===== verification/BackgroundModes.v ===== *)
(** * Modes of continuous tasks, reasons and authorisation results

    The enumerations and tables of src/interfaces/innerkits (background_mode,
    background_sub_mode, background_task_mode, background_task_submode,
    continuous_task_cancel_reason, continuous_task_suspend_reason, user_auth_result)
    and the operations on lists of modes of src/services/common/src/common_utils.cpp.
    A mode is a [uint32_t]; a [std::vector] of modes is a list. *)

From S2P Require Import Prelude.
Local Open Scope Z_scope.

(** ** Enumerations *)
Module BackgroundMode.
Definition DATA_TRANSFER : Z := 1.
Definition AUDIO_PLAYBACK : Z := 2.
Definition AUDIO_RECORDING : Z := 3.
Definition LOCATION : Z := 4.
Definition BLUETOOTH_INTERACTION : Z := 5.
Definition MULTI_DEVICE_CONNECTION : Z := 6.
Definition WIFI_INTERACTION : Z := 7.
Definition VOIP : Z := 8.
Definition TASK_KEEPING : Z := 9.
Definition WORKOUT : Z := 10.
Definition SPECIAL_SCENARIO_PROCESSING : Z := 13.
Definition NEARLINK : Z := 14.
Definition BM_END : Z := 15.
End BackgroundMode.

Module BackgroundSubMode.
Definition CAR_KEY : Z := 1.
End BackgroundSubMode.

(** The modes of the newer interface, by request object. *)
Module BackgroundTaskMode.
Definition MODE_DATA_TRANSFER : Z := 1.
Definition MODE_AUDIO_PLAYBACK : Z := 2.
Definition MODE_AUDIO_RECORDING : Z := 3.
Definition MODE_LOCATION : Z := 4.
Definition MODE_BLUETOOTH_INTERACTION : Z := 5.
Definition MODE_MULTI_DEVICE_CONNECTION : Z := 6.
Definition MODE_ALLOW_WIFI_AWARE : Z := 7.
Definition MODE_VOIP : Z := 8.
Definition MODE_TASK_KEEPING : Z := 9.
Definition MODE_AV_PLAYBACK_AND_RECORD : Z := 12.
Definition MODE_SPECIAL_SCENARIO_PROCESSING : Z := 13.
Definition MODE_NEARLINK : Z := 14.
Definition BTM_END : Z := 15.
End BackgroundTaskMode.

Module BackgroundTaskSubmode.
Definition SUBMODE_CAR_KEY_NORMAL_NOTIFICATION : Z := 1.
Definition SUBMODE_NORMAL_NOTIFICATION : Z := 2.
Definition SUBMODE_LIVE_VIEW_NOTIFICATION : Z := 3.
Definition SUBMODE_AUDIO_PLAYBACK_NORMAL_NOTIFICATION : Z := 4.
Definition SUBMODE_AVSESSION_AUDIO_PLAYBACK : Z := 5.
Definition SUBMODE_AUDIO_RECORD_NORMAL_NOTIFICATION : Z := 6.
Definition SUBMODE_SCREEN_RECORD_NORMAL_NOTIFICATION : Z := 7.
Definition SUBMODE_VOICE_CHAT_NORMAL_NOTIFICATION : Z := 8.
Definition SUBMODE_MEDIA_PROCESS_NORMAL_NOTIFICATION : Z := 9.
Definition SUBMODE_VIDEO_BROADCAST_NORMAL_NOTIFICATION : Z := 10.
Definition SUBMODE_WORK_OUT_NORMAL_NOTIFICATION : Z := 11.
End BackgroundTaskSubmode.

Module ContinuousTaskCancelReason.
Definition INVALID_REASON : Z := 0.
Definition CR_USER_CANCEL : Z := 1.
Definition CR_SYSTEM_CANCEL : Z := 2.
Definition USER_CANCEL_REMOVE_NOTIFICATION : Z := 3.
Definition SYSTEM_CANCEL_DATA_TRANSFER_LOW_SPEED : Z := 4.
Definition SYSTEM_CANCEL_AUDIO_PLAYBACK_NOT_USE_AVSESSION : Z := 5.
Definition SYSTEM_CANCEL_AUDIO_PLAYBACK_NOT_RUNNING : Z := 6.
Definition SYSTEM_CANCEL_AUDIO_RECORDING_NOT_RUNNING : Z := 7.
Definition SYSTEM_CANCEL_NOT_USE_LOCATION : Z := 8.
Definition SYSTEM_CANCEL_NOT_USE_BLUETOOTH : Z := 9.
Definition SYSTEM_CANCEL_NOT_USE_MULTI_DEVICE : Z := 10.
Definition SYSTEM_CANCEL_USE_ILLEGALLY : Z := 11.
Definition SYSTEM_CANCEL_DATA_TRANSFER_NOT_UPDATE : Z := 12.
Definition SYSTEM_CANCEL_VOIP_NOT_RUNNING : Z := 13.
Definition SYSTEM_CANCEL_USER_UNAUTHORIZED : Z := 14.
End ContinuousTaskCancelReason.

Module ContinuousTaskSuspendReason.
Definition SYSTEM_SUSPEND_DATA_TRANSFER_LOW_SPEED : Z := 4.
Definition SYSTEM_SUSPEND_AUDIO_PLAYBACK_NOT_USE_AVSESSION : Z := 5.
Definition SYSTEM_SUSPEND_AUDIO_PLAYBACK_NOT_RUNNING : Z := 6.
Definition SYSTEM_SUSPEND_AUDIO_RECORDING_NOT_RUNNING : Z := 7.
Definition SYSTEM_SUSPEND_LOCATION_NOT_USED : Z := 8.
Definition SYSTEM_SUSPEND_BLUETOOTH_NOT_USED : Z := 9.
Definition SYSTEM_SUSPEND_MULTI_DEVICE_NOT_USED : Z := 10.
Definition SYSTEM_SUSPEND_USED_ILLEGALLY : Z := 11.
Definition SYSTEM_SUSPEND_SYSTEM_LOAD_WARNING : Z := 12.
Definition SYSTEM_SUSPEND_VOIP_NOT_USED : Z := 13.
Definition SYSTEM_SUSPEND_BLUETOOTH_DATA_NOT_EXIST : Z := 14.
Definition SYSTEM_SUSPEND_POSITION_NOT_MOVED : Z := 15.
Definition SYSTEM_SUSPEND_AUDIO_PLAYBACK_MUTE : Z := 16.
Definition SYSTEM_SUSPEND_NEARLINK_NOT_USED : Z := 17.
Definition SYSTEM_SUSPEND_NEARLINK_DATA_NOT_EXIST : Z := 18.
Definition SYSTEM_SUSPEND_USER_UNAUTHORIZED : Z := 19.
End ContinuousTaskSuspendReason.

Module UserAuthResult.
Definition NOT_SUPPORTED : Z := 0.
Definition NOT_DETERMINED : Z := 1.
Definition DENIED : Z := 2.
Definition GRANTED_ONCE : Z := 3.
Definition GRANTED_ALWAYS : Z := 4.
Definition UAR_END : Z := 5.
End UserAuthResult.

Import BackgroundMode BackgroundSubMode BackgroundTaskMode BackgroundTaskSubmode.
Import ContinuousTaskCancelReason ContinuousTaskSuspendReason.

(** ** Tables

    [find] followed by [iter->second] on a constant map. *)
Fixpoint table_find {A} (k : Z) (t : list (Z * A)) : option A :=
  match t with
  | [] => None
  | (k', v) :: t' => if k =? k' then Some v else table_find k t'
  end.

Lemma table_find_elem {A} k (t : list (Z * A)) v : table_find k t = Some v -> (k, v) ∈ t.
Proof.
  induction t as [|[k' v'] t IH]; simpl; [done|].
  case_test; bool_prop; [intros [= ->]; subst; left | intros; right; auto].
Qed.

Definition PARAM_BACKGROUND_MODE_STR_MAP : list (Z * string) := [
  (DATA_TRANSFER, "dataTransfer"%string);
  (AUDIO_PLAYBACK, "audioPlayback"%string);
  (AUDIO_RECORDING, "audioRecording"%string);
  (LOCATION, "location"%string);
  (BLUETOOTH_INTERACTION, "bluetoothInteraction"%string);
  (MULTI_DEVICE_CONNECTION, "multiDeviceConnection"%string);
  (WIFI_INTERACTION, "wifiInteraction"%string);
  (VOIP, "voip"%string);
  (TASK_KEEPING, "taskKeeping"%string);
  (WORKOUT, "workout"%string);
  (SPECIAL_SCENARIO_PROCESSING, "specialScenarioProcessing"%string);
  (NEARLINK, "nearlink"%string);
  (BM_END, "end"%string)].

Definition BACKGROUND_MODE_TO_CANCEL_REASON_MAP : list (Z * Z) := [
  (DATA_TRANSFER, SYSTEM_CANCEL_DATA_TRANSFER_LOW_SPEED);
  (AUDIO_PLAYBACK, SYSTEM_CANCEL_AUDIO_PLAYBACK_NOT_RUNNING);
  (AUDIO_RECORDING, SYSTEM_CANCEL_AUDIO_RECORDING_NOT_RUNNING);
  (LOCATION, SYSTEM_CANCEL_NOT_USE_LOCATION);
  (BLUETOOTH_INTERACTION, SYSTEM_CANCEL_NOT_USE_BLUETOOTH);
  (MULTI_DEVICE_CONNECTION, SYSTEM_CANCEL_NOT_USE_MULTI_DEVICE);
  (VOIP, SYSTEM_CANCEL_VOIP_NOT_RUNNING);
  (SPECIAL_SCENARIO_PROCESSING, SYSTEM_CANCEL_USER_UNAUTHORIZED);
  (BM_END, INVALID_REASON)].

Definition GetBackgroundModeStr (mode : Z) : string :=
  default "default"%string (table_find mode PARAM_BACKGROUND_MODE_STR_MAP).

Definition GetDetailedCancelReasonFromMode (mode : Z) : Z :=
  default INVALID_REASON (table_find mode BACKGROUND_MODE_TO_CANCEL_REASON_MAP).

(** background_sub_mode.cpp *)
Definition GetBackgroundSubModeStr (mode : Z) : string :=
  default "default"%string (table_find mode [(CAR_KEY, "CAR_KEY"%string); (2, "end"%string)]).

(** background_task_submode.cpp *)
Definition PARAM_BACKGROUND_TASK_SUBMODE_STR_MAP : list (Z * string) := [
  (SUBMODE_CAR_KEY_NORMAL_NOTIFICATION, "submodeCarKeyNormalNotification"%string);
  (SUBMODE_NORMAL_NOTIFICATION, "submodeNormalNotification"%string);
  (SUBMODE_LIVE_VIEW_NOTIFICATION, "submodeLiveViewNotification"%string);
  (SUBMODE_AUDIO_PLAYBACK_NORMAL_NOTIFICATION, "submodeAudioPlaybackNormalNotification"%string);
  (SUBMODE_AVSESSION_AUDIO_PLAYBACK, "submodeAvsessionAudioPlayback"%string);
  (SUBMODE_AUDIO_RECORD_NORMAL_NOTIFICATION, "submodeAudioRecordNormalNotification"%string);
  (SUBMODE_SCREEN_RECORD_NORMAL_NOTIFICATION, "submodeScreenRecordNormalNotification"%string);
  (SUBMODE_VOICE_CHAT_NORMAL_NOTIFICATION, "submodeVoiceChatNormalNotification"%string);
  (SUBMODE_MEDIA_PROCESS_NORMAL_NOTIFICATION, "submodeMediaProcessNormalNotification"%string);
  (SUBMODE_VIDEO_BROADCAST_NORMAL_NOTIFICATION, "submodeVideoBroadcastNormalNotification"%string);
  (SUBMODE_WORK_OUT_NORMAL_NOTIFICATION, "submodeWorkOutNormalNotification"%string);
  (12, "end"%string)].

Definition GetBackgroundTaskSubmodeStr (mode : Z) : string :=
  default "default"%string (table_find mode PARAM_BACKGROUND_TASK_SUBMODE_STR_MAP).

(** ** background_task_mode.cpp *)
Definition PARAM_BACKGROUND_TASK_MODE_STR_MAP : list (Z * string) := [
  (MODE_DATA_TRANSFER, "modeDataTransfer"%string);
  (MODE_AUDIO_PLAYBACK, "modeAudioPlayback"%string);
  (MODE_AUDIO_RECORDING, "modeAudioRecording"%string);
  (MODE_LOCATION, "modeLocation"%string);
  (MODE_BLUETOOTH_INTERACTION, "modeBluetoothInteraction"%string);
  (MODE_MULTI_DEVICE_CONNECTION, "modeMultiDeviceConnection"%string);
  (MODE_ALLOW_WIFI_AWARE, "modeAllowWifiAware"%string);
  (MODE_VOIP, "modeVoip"%string);
  (MODE_TASK_KEEPING, "modeTaskKeeping"%string);
  (MODE_AV_PLAYBACK_AND_RECORD, "modeAVPlaybackAndRecord"%string);
  (MODE_SPECIAL_SCENARIO_PROCESSING, "modeSpecialScenarioProcessing"%string);
  (MODE_NEARLINK, "modeNearlink"%string);
  (BTM_END, "end"%string)].

(** Submode to the mode it belongs to. *)
Definition PARAM_BACKGROUND_TASK_MODE_CORRESPONDENCE_SUBMODE : list (Z * Z) := [
  (SUBMODE_LIVE_VIEW_NOTIFICATION, MODE_DATA_TRANSFER);
  (SUBMODE_CAR_KEY_NORMAL_NOTIFICATION, MODE_BLUETOOTH_INTERACTION);
  (SUBMODE_AUDIO_PLAYBACK_NORMAL_NOTIFICATION, MODE_AV_PLAYBACK_AND_RECORD);
  (SUBMODE_AVSESSION_AUDIO_PLAYBACK, MODE_AV_PLAYBACK_AND_RECORD);
  (SUBMODE_AUDIO_RECORD_NORMAL_NOTIFICATION, MODE_AV_PLAYBACK_AND_RECORD);
  (SUBMODE_SCREEN_RECORD_NORMAL_NOTIFICATION, MODE_AV_PLAYBACK_AND_RECORD);
  (SUBMODE_VOICE_CHAT_NORMAL_NOTIFICATION, MODE_AV_PLAYBACK_AND_RECORD);
  (SUBMODE_MEDIA_PROCESS_NORMAL_NOTIFICATION, MODE_SPECIAL_SCENARIO_PROCESSING);
  (SUBMODE_VIDEO_BROADCAST_NORMAL_NOTIFICATION, MODE_SPECIAL_SCENARIO_PROCESSING);
  (SUBMODE_WORK_OUT_NORMAL_NOTIFICATION, MODE_SPECIAL_SCENARIO_PROCESSING)].

(** The modes that go with the submode of a plain notification. *)
Definition PARAM_BACKGROUND_TASK_SUBMODE_CORRESPONDENCE_MODE : list (Z * Z) := [
  (MODE_AUDIO_PLAYBACK, SUBMODE_NORMAL_NOTIFICATION);
  (MODE_AUDIO_RECORDING, SUBMODE_NORMAL_NOTIFICATION);
  (MODE_LOCATION, SUBMODE_NORMAL_NOTIFICATION);
  (MODE_BLUETOOTH_INTERACTION, SUBMODE_NORMAL_NOTIFICATION);
  (MODE_MULTI_DEVICE_CONNECTION, SUBMODE_NORMAL_NOTIFICATION);
  (MODE_ALLOW_WIFI_AWARE, SUBMODE_NORMAL_NOTIFICATION);
  (MODE_VOIP, SUBMODE_NORMAL_NOTIFICATION);
  (MODE_TASK_KEEPING, SUBMODE_NORMAL_NOTIFICATION);
  (MODE_NEARLINK, SUBMODE_NORMAL_NOTIFICATION)].

Definition PARAM_CONTINUOUS_TASK_V9MODE_CORRESPONDENCE_V21MODE : list (Z * Z) := [
  (MODE_AUDIO_PLAYBACK, AUDIO_PLAYBACK);
  (MODE_AUDIO_RECORDING, AUDIO_RECORDING);
  (MODE_LOCATION, LOCATION);
  (MODE_BLUETOOTH_INTERACTION, BLUETOOTH_INTERACTION);
  (MODE_MULTI_DEVICE_CONNECTION, MULTI_DEVICE_CONNECTION);
  (MODE_ALLOW_WIFI_AWARE, WIFI_INTERACTION);
  (MODE_VOIP, VOIP);
  (MODE_TASK_KEEPING, TASK_KEEPING);
  (MODE_SPECIAL_SCENARIO_PROCESSING, SPECIAL_SCENARIO_PROCESSING);
  (MODE_NEARLINK, NEARLINK)].

Definition PARAM_CONTINUOUS_TASK_V9MODE_CORRESPONDENCE_V21SUBMODE : list (Z * Z) := [
  (SUBMODE_LIVE_VIEW_NOTIFICATION, DATA_TRANSFER);
  (SUBMODE_CAR_KEY_NORMAL_NOTIFICATION, BLUETOOTH_INTERACTION);
  (SUBMODE_AUDIO_PLAYBACK_NORMAL_NOTIFICATION, AUDIO_PLAYBACK);
  (SUBMODE_AVSESSION_AUDIO_PLAYBACK, AUDIO_PLAYBACK);
  (SUBMODE_AUDIO_RECORD_NORMAL_NOTIFICATION, AUDIO_RECORDING);
  (SUBMODE_SCREEN_RECORD_NORMAL_NOTIFICATION, AUDIO_RECORDING);
  (SUBMODE_VOICE_CHAT_NORMAL_NOTIFICATION, VOIP);
  (SUBMODE_MEDIA_PROCESS_NORMAL_NOTIFICATION, SPECIAL_SCENARIO_PROCESSING);
  (SUBMODE_VIDEO_BROADCAST_NORMAL_NOTIFICATION, SPECIAL_SCENARIO_PROCESSING);
  (SUBMODE_WORK_OUT_NORMAL_NOTIFICATION, SPECIAL_SCENARIO_PROCESSING)].

Definition GetBackgroundTaskModeStr (mode : Z) : string :=
  default "default"%string (table_find mode PARAM_BACKGROUND_TASK_MODE_STR_MAP).

Definition GetSubModeTypeMatching (backgroundTaskSubMode : Z) : Z :=
  default BTM_END (table_find backgroundTaskSubMode PARAM_BACKGROUND_TASK_MODE_CORRESPONDENCE_SUBMODE).

Definition IsModeTypeMatching (backgroundTaskMode : Z) : bool :=
  bool_decide (is_Some (table_find backgroundTaskMode PARAM_BACKGROUND_TASK_SUBMODE_CORRESPONDENCE_MODE)).

Definition GetV9BackgroundModeByMode (backgroundTaskMode : Z) : Z :=
  default BM_END (table_find backgroundTaskMode PARAM_CONTINUOUS_TASK_V9MODE_CORRESPONDENCE_V21MODE).

Definition GetV9BackgroundModeBySubMode (backgroundTaskSubMode : Z) : Z :=
  default BM_END (table_find backgroundTaskSubMode PARAM_CONTINUOUS_TASK_V9MODE_CORRESPONDENCE_V21SUBMODE).

(** ** continuous_task_suspend_reason.cpp *)
Definition PARAM_SUSPEND_REASON : list (Z * Z) := [
  (DATA_TRANSFER, SYSTEM_SUSPEND_DATA_TRANSFER_LOW_SPEED);
  (AUDIO_PLAYBACK, SYSTEM_SUSPEND_AUDIO_PLAYBACK_NOT_RUNNING);
  (AUDIO_RECORDING, SYSTEM_SUSPEND_AUDIO_RECORDING_NOT_RUNNING);
  (LOCATION, SYSTEM_SUSPEND_LOCATION_NOT_USED);
  (BLUETOOTH_INTERACTION, SYSTEM_SUSPEND_BLUETOOTH_NOT_USED);
  (MULTI_DEVICE_CONNECTION, SYSTEM_SUSPEND_MULTI_DEVICE_NOT_USED);
  (VOIP, SYSTEM_SUSPEND_VOIP_NOT_USED);
  (SPECIAL_SCENARIO_PROCESSING, SYSTEM_SUSPEND_USER_UNAUTHORIZED);
  (NEARLINK, SYSTEM_SUSPEND_NEARLINK_NOT_USED)].

Definition STANDBY_SUSPEND_REASON : list (Z * Z) := [
  (AUDIO_PLAYBACK, SYSTEM_SUSPEND_AUDIO_PLAYBACK_MUTE);
  (LOCATION, SYSTEM_SUSPEND_POSITION_NOT_MOVED);
  (BLUETOOTH_INTERACTION, SYSTEM_SUSPEND_BLUETOOTH_DATA_NOT_EXIST);
  (NEARLINK, SYSTEM_SUSPEND_NEARLINK_DATA_NOT_EXIST)].

(** 0 when there is none. *)
Definition GetSuspendReasonValue (mode : Z) (isStandby : bool) : Z :=
  let reasonMap := if isStandby then STANDBY_SUSPEND_REASON else PARAM_SUSPEND_REASON in
  default 0 (table_find mode reasonMap).

(** ** common_utils.cpp: lists of modes *)
Definition CheckExistMode (bgModeIds : list Z) (bgMode : Z) : bool := bool_decide (bgMode ∈ bgModeIds).

(** True when the id is _not_ in the list: the name says the contrary. *)
Definition CheckExistNotification (notificationIds : list Z) (notificationId : Z) : bool :=
  bool_decide (notificationId ∉ notificationIds).

Definition CheckModesSame (oldBgModeIds newBgModeIds : list Z) : bool :=
  bool_decide ((list_to_set oldBgModeIds : gset Z) = list_to_set newBgModeIds).

Definition ModesToString (bgmodes : list Z) : string :=
  fold_left (fun modeStr mode => modeStr +:+ pretty mode) bgmodes ""%string.

Fixpoint CheckApplyMode (applyBgModeIds checkBgModeIds : list Z) : bool :=
  match applyBgModeIds with
  | [] => true
  | mode :: rest =>
      return_if negb (bool_decide (mode ∈ checkBgModeIds)), false ;;
      CheckApplyMode rest checkBgModeIds
  end.

Definition CheckExistOtherMode (bgModeIds : list Z) (bgMode : Z) (liveViewTypes : list Z) : bool :=
  let taskTypesSet : gset Z := list_to_set bgModeIds in
  let otherTypes := filter (fun t => t <> bgMode) liveViewTypes in
  existsb (fun type => bool_decide (type ∈ taskTypesSet)) otherTypes.

(** [^\d+$] *)
Fixpoint all_digits (s : string) : bool :=
  match s with
  | EmptyString => true
  | String c r =>
      let n := Z.of_nat (Ascii.nat_of_ascii c) in
      (48 <=? n) && (n <=? 57) && all_digits r
  end.
Definition CheckStrToNum (value : string) : bool :=
  negb (bool_decide (value = ""%string)) && all_digits value.

Definition sort_target : list Z := [DATA_TRANSFER; AUDIO_RECORDING; LOCATION].

Definition SortMode (bgModeIds : list Z) : list Z :=
  filter (fun mode => mode ∈ bgModeIds) sort_target ++
  filter (fun mode => mode ∉ sort_target) bgModeIds.

(** ** Lemmas *)
Lemma CheckExistMode_spec l m : CheckExistMode l m = true <-> m ∈ l.
Proof. unfold CheckExistMode. apply bool_decide_eq_true. Qed.

Lemma CheckModesSame_spec l l' : CheckModesSame l l' = true <-> (forall m, m ∈ l <-> m ∈ l').
Proof.
  unfold CheckModesSame. rewrite bool_decide_eq_true. split.
  - intros E m. rewrite <- !(elem_of_list_to_set (C := gset Z)). by rewrite E.
  - intros E. apply set_eq. intros m. rewrite !elem_of_list_to_set. apply E.
Qed.

Lemma CheckApplyMode_spec l c : CheckApplyMode l c = true <-> (forall m, m ∈ l -> m ∈ c).
Proof.
  induction l as [|m l IH]; simpl.
  - split; [intros _ m Hm; by apply not_elem_of_nil in Hm | done].
  - case_bool_decide as Hm; simpl; [|split; [done | intros Hl; destruct Hm; apply Hl; left]].
    rewrite IH. split.
    + intros Hl m' [->|?]%elem_of_cons; auto.
    + intros Hl m' ?. apply Hl. by right.
Qed.

Lemma CheckExistOtherMode_spec l m t :
  CheckExistOtherMode l m t = true <-> exists x, x ∈ t /\ x <> m /\ x ∈ l.
Proof.
  unfold CheckExistOtherMode. rewrite existsb_exists. split.
  - intros (x & Hx & Hin). apply list_elem_of_In, list_elem_of_filter in Hx as [? ?].
    rewrite bool_decide_eq_true, elem_of_list_to_set in Hin. eauto.
  - intros (x & ? & ? & ?). exists x. split.
    + by apply list_elem_of_In, list_elem_of_filter.
    + by rewrite bool_decide_eq_true, elem_of_list_to_set.
Qed.

Lemma elem_of_SortMode m l : m ∈ SortMode l <-> m ∈ l.
Proof.
  unfold SortMode. rewrite elem_of_app, !list_elem_of_filter.
  split; [naive_solver|]. intros Hm. destruct (decide (m ∈ sort_target)); naive_solver.
Qed.

Lemma NoDup_sort_target : NoDup sort_target.
Proof. by apply (bool_decide_unpack _). Qed.

(** A list without duplicates is only reordered. *)
Lemma SortMode_perm l : NoDup l -> SortMode l ≡ₚ l.
Proof.
  intros Hl. apply NoDup_Permutation; [| done | intros; apply elem_of_SortMode].
  unfold SortMode. apply NoDup_app. split; [apply NoDup_filter, NoDup_sort_target|].
  split; [|by apply NoDup_filter].
  intros m [_ Hm]%list_elem_of_filter [Hn _]%list_elem_of_filter. done.
Qed.

#[export] Hint Rewrite CheckExistMode_spec CheckModesSame_spec CheckApplyMode_spec elem_of_SortMode : bgtask_rw.
