(* ===== verification/ContinuousTaskRecord.v ===== *)
(** * Records of continuous tasks and of authorisations

    src/services/continuous_task: [ContinuousTaskRecord] and
    [BannerNotificationRecord], their JSON, and the continuous task and authorisation
    parts of [DataStorageHelper]; [ProgressInfo] of the inner kits.  As in
    ResourceStorage.v a file holds a JSON value, its text being [nlohmann::json]'s.
    A want agent is what the code reads of it. *)

From Stdlib Require Import Ascii.
From S2P Require Import Prelude.
From S2P Require Import BackgroundModes.
From S2P Require Import Json.
From S2P Require Import ResourceStorage.
Import BackgroundMode.
Local Open Scope Z_scope.

(** ** Setters

    [with_field eta proj r v] is the record [r] with [v] for the field [proj], where
    [eta r] is the constructor applied to the fields of [r]. *)
Ltac with_field eta proj r v :=
  let body := eval cbv beta delta [eta] in (eta r) in
  let abstracted := eval pattern (proj r) in body in
  match abstracted with
  | ?f _ => let t := eval cbv beta in (f v) in exact t
  end.

(** ** Parts *)

(** What [GetOperation()], [HasParameter] and [GetIntParam] read of a want. *)
Record Want := mkWant {
  w_bundleName : string;
  w_abilityName : string;
  w_subMode : option Z;
}.

(** A want agent has a pending want or none; the want of its target may be null. *)
Record WantAgent := mkWantAgent {
  wa_pendingWant : option (option Want);
}.

Record WantAgentInfo := mkWantAgentInfo {
  wai_bundleName_ : string;
  wai_abilityName_ : string;
}.

Record ProgressInfo := mkProgressInfo {
  pg_title_ : string;
  pg_fileName_ : string;
  pg_progressValue_ : Z;
  pg_isMute_ : bool;
}.

Definition new_ProgressInfo : ProgressInfo := mkProgressInfo "" "" (-1) false.

#[export] Instance Want_eq_dec : EqDecision Want.
Proof. solve_decision. Defined.
#[export] Instance WantAgent_eq_dec : EqDecision WantAgent.
Proof. solve_decision. Defined.
#[export] Instance WantAgentInfo_eq_dec : EqDecision WantAgentInfo.
Proof. solve_decision. Defined.
#[export] Instance ProgressInfo_eq_dec : EqDecision ProgressInfo.
Proof. solve_decision. Defined.

(** The want of a want agent, where the code finds one. *)
Definition want_of (agent : option WantAgent) : option Want :=
  a ← agent; p ← wa_pendingWant a; p.

(** ** ContinuousTaskRecord *)
Record ContinuousTaskRecord := mkTask {
  ct_bundleName_ : string;
  ct_abilityName_ : string;
  ct_wantAgent_ : option WantAgent;
  ct_userId_ : Z;
  ct_uid_ : Z;
  ct_pid_ : Z;
  ct_bgModeId_ : Z;
  ct_isNewApi_ : bool;
  ct_isFromWebview_ : bool;
  ct_needNotificationForInnerApi_ : bool;
  ct_notificationLabel_ : string;
  ct_notificationId_ : Z;
  ct_subNotificationLabel_ : string;
  ct_subNotificationId_ : Z;
  ct_wantAgentInfo_ : option WantAgentInfo;
  ct_appName_ : string;
  ct_fullTokenId_ : Z;
  ct_callingTokenId_ : Z;
  ct_isBatchApi_ : bool;
  ct_bgModeIds_ : list Z;
  ct_bgSubModeIds_ : list Z;
  ct_abilityId_ : Z;
  ct_reason_ : Z;
  ct_detailedCancelReason_ : Z;
  ct_isSystem_ : bool;
  ct_continuousTaskId_ : Z;
  ct_suspendState_ : bool;
  ct_suspendReason_ : Z;
  ct_suspendAudioTaskTimes_ : Z;
  ct_isCombinedTaskNotification_ : bool;
  ct_combinedNotificationTaskId_ : Z;
  ct_isByRequestObject_ : bool;
  ct_appIndex_ : Z;
  ct_audioDetectState_ : bool;
  ct_audioPlayState_ : bool;
  ct_isStandby_ : bool;
  ct_isStandbySuspend_ : bool;
  ct_progressInfo_ : option ProgressInfo;
  ct_isFromComponent_ : bool;
}.

(** [ContinuousTaskRecord() = default], with the initialisers of the members. *)
Definition default_task : ContinuousTaskRecord := {|
  ct_bundleName_ := ""; ct_abilityName_ := ""; ct_wantAgent_ := None;
  ct_userId_ := 0; ct_uid_ := 0; ct_pid_ := 0; ct_bgModeId_ := 0;
  ct_isNewApi_ := false; ct_isFromWebview_ := false; ct_needNotificationForInnerApi_ := false;
  ct_notificationLabel_ := ""; ct_notificationId_ := -1;
  ct_subNotificationLabel_ := ""; ct_subNotificationId_ := -1;
  ct_wantAgentInfo_ := None; ct_appName_ := ""; ct_fullTokenId_ := 0; ct_callingTokenId_ := 0;
  ct_isBatchApi_ := false; ct_bgModeIds_ := []; ct_bgSubModeIds_ := [];
  ct_abilityId_ := -1; ct_reason_ := 0; ct_detailedCancelReason_ := 0; ct_isSystem_ := false;
  ct_continuousTaskId_ := -1; ct_suspendState_ := false; ct_suspendReason_ := 0;
  ct_suspendAudioTaskTimes_ := 0; ct_isCombinedTaskNotification_ := false;
  ct_combinedNotificationTaskId_ := -1; ct_isByRequestObject_ := false; ct_appIndex_ := -1;
  ct_audioDetectState_ := true; ct_audioPlayState_ := true; ct_isStandby_ := false;
  ct_isStandbySuspend_ := false; ct_progressInfo_ := None; ct_isFromComponent_ := false |}.

Definition task_eta (r : ContinuousTaskRecord) : ContinuousTaskRecord :=
  mkTask (ct_bundleName_ r) (ct_abilityName_ r) (ct_wantAgent_ r) (ct_userId_ r) (ct_uid_ r) (ct_pid_ r)
    (ct_bgModeId_ r) (ct_isNewApi_ r) (ct_isFromWebview_ r) (ct_needNotificationForInnerApi_ r)
    (ct_notificationLabel_ r) (ct_notificationId_ r) (ct_subNotificationLabel_ r) (ct_subNotificationId_ r)
    (ct_wantAgentInfo_ r) (ct_appName_ r) (ct_fullTokenId_ r) (ct_callingTokenId_ r) (ct_isBatchApi_ r)
    (ct_bgModeIds_ r) (ct_bgSubModeIds_ r) (ct_abilityId_ r) (ct_reason_ r) (ct_detailedCancelReason_ r)
    (ct_isSystem_ r) (ct_continuousTaskId_ r) (ct_suspendState_ r) (ct_suspendReason_ r)
    (ct_suspendAudioTaskTimes_ r) (ct_isCombinedTaskNotification_ r) (ct_combinedNotificationTaskId_ r)
    (ct_isByRequestObject_ r) (ct_appIndex_ r) (ct_audioDetectState_ r) (ct_audioPlayState_ r)
    (ct_isStandby_ r) (ct_isStandbySuspend_ r) (ct_progressInfo_ r) (ct_isFromComponent_ r).

Lemma task_eta_id r : task_eta r = r.
Proof. by destruct r. Qed.

Implicit Types r : ContinuousTaskRecord.

Definition ct_set_bundleName_ (v : string) r : ContinuousTaskRecord := ltac:(with_field task_eta ct_bundleName_ r v).
Definition ct_set_abilityName_ (v : string) r : ContinuousTaskRecord := ltac:(with_field task_eta ct_abilityName_ r v).
Definition ct_set_wantAgent_ (v : option WantAgent) r : ContinuousTaskRecord := ltac:(with_field task_eta ct_wantAgent_ r v).
Definition ct_set_userId_ (v : Z) r : ContinuousTaskRecord := ltac:(with_field task_eta ct_userId_ r v).
Definition ct_set_uid_ (v : Z) r : ContinuousTaskRecord := ltac:(with_field task_eta ct_uid_ r v).
Definition ct_set_pid_ (v : Z) r : ContinuousTaskRecord := ltac:(with_field task_eta ct_pid_ r v).
Definition ct_set_bgModeId_ (v : Z) r : ContinuousTaskRecord := ltac:(with_field task_eta ct_bgModeId_ r v).
Definition ct_set_isNewApi_ (v : bool) r : ContinuousTaskRecord := ltac:(with_field task_eta ct_isNewApi_ r v).
Definition ct_set_isFromWebview_ (v : bool) r : ContinuousTaskRecord := ltac:(with_field task_eta ct_isFromWebview_ r v).
Definition ct_set_needNotificationForInnerApi_ (v : bool) r : ContinuousTaskRecord := ltac:(with_field task_eta ct_needNotificationForInnerApi_ r v).
Definition ct_set_notificationLabel_ (v : string) r : ContinuousTaskRecord := ltac:(with_field task_eta ct_notificationLabel_ r v).
Definition ct_set_notificationId_ (v : Z) r : ContinuousTaskRecord := ltac:(with_field task_eta ct_notificationId_ r v).
Definition ct_set_subNotificationLabel_ (v : string) r : ContinuousTaskRecord := ltac:(with_field task_eta ct_subNotificationLabel_ r v).
Definition ct_set_subNotificationId_ (v : Z) r : ContinuousTaskRecord := ltac:(with_field task_eta ct_subNotificationId_ r v).
Definition ct_set_wantAgentInfo_ (v : option WantAgentInfo) r : ContinuousTaskRecord := ltac:(with_field task_eta ct_wantAgentInfo_ r v).
Definition ct_set_appName_ (v : string) r : ContinuousTaskRecord := ltac:(with_field task_eta ct_appName_ r v).
Definition ct_set_fullTokenId_ (v : Z) r : ContinuousTaskRecord := ltac:(with_field task_eta ct_fullTokenId_ r v).
Definition ct_set_callingTokenId_ (v : Z) r : ContinuousTaskRecord := ltac:(with_field task_eta ct_callingTokenId_ r v).
Definition ct_set_isBatchApi_ (v : bool) r : ContinuousTaskRecord := ltac:(with_field task_eta ct_isBatchApi_ r v).
Definition ct_set_bgModeIds_ (v : list Z) r : ContinuousTaskRecord := ltac:(with_field task_eta ct_bgModeIds_ r v).
Definition ct_set_bgSubModeIds_ (v : list Z) r : ContinuousTaskRecord := ltac:(with_field task_eta ct_bgSubModeIds_ r v).
Definition ct_set_abilityId_ (v : Z) r : ContinuousTaskRecord := ltac:(with_field task_eta ct_abilityId_ r v).
Definition ct_set_reason_ (v : Z) r : ContinuousTaskRecord := ltac:(with_field task_eta ct_reason_ r v).
Definition ct_set_detailedCancelReason_ (v : Z) r : ContinuousTaskRecord := ltac:(with_field task_eta ct_detailedCancelReason_ r v).
Definition ct_set_isSystem_ (v : bool) r : ContinuousTaskRecord := ltac:(with_field task_eta ct_isSystem_ r v).
Definition ct_set_continuousTaskId_ (v : Z) r : ContinuousTaskRecord := ltac:(with_field task_eta ct_continuousTaskId_ r v).
Definition ct_set_suspendState_ (v : bool) r : ContinuousTaskRecord := ltac:(with_field task_eta ct_suspendState_ r v).
Definition ct_set_suspendReason_ (v : Z) r : ContinuousTaskRecord := ltac:(with_field task_eta ct_suspendReason_ r v).
Definition ct_set_suspendAudioTaskTimes_ (v : Z) r : ContinuousTaskRecord := ltac:(with_field task_eta ct_suspendAudioTaskTimes_ r v).
Definition ct_set_isCombinedTaskNotification_ (v : bool) r : ContinuousTaskRecord := ltac:(with_field task_eta ct_isCombinedTaskNotification_ r v).
Definition ct_set_combinedNotificationTaskId_ (v : Z) r : ContinuousTaskRecord := ltac:(with_field task_eta ct_combinedNotificationTaskId_ r v).
Definition ct_set_isByRequestObject_ (v : bool) r : ContinuousTaskRecord := ltac:(with_field task_eta ct_isByRequestObject_ r v).
Definition ct_set_appIndex_ (v : Z) r : ContinuousTaskRecord := ltac:(with_field task_eta ct_appIndex_ r v).
Definition ct_set_audioDetectState_ (v : bool) r : ContinuousTaskRecord := ltac:(with_field task_eta ct_audioDetectState_ r v).
Definition ct_set_audioPlayState_ (v : bool) r : ContinuousTaskRecord := ltac:(with_field task_eta ct_audioPlayState_ r v).
Definition ct_set_isStandby_ (v : bool) r : ContinuousTaskRecord := ltac:(with_field task_eta ct_isStandby_ r v).
Definition ct_set_isStandbySuspend_ (v : bool) r : ContinuousTaskRecord := ltac:(with_field task_eta ct_isStandbySuspend_ r v).
Definition ct_set_progressInfo_ (v : option ProgressInfo) r : ContinuousTaskRecord := ltac:(with_field task_eta ct_progressInfo_ r v).
Definition ct_set_isFromComponent_ (v : bool) r : ContinuousTaskRecord := ltac:(with_field task_eta ct_isFromComponent_ r v).

(** The constructor: with the batch interface the mode is the first that is no data
    transfer, or else element 0 of the modes, which is out of bounds ([None]) when there
    are none. *)
Definition new_ContinuousTaskRecord (bundleName abilityName : string) (uid pid bgModeId : Z)
    (isBatchApi : bool) (bgModeIds : list Z) (abilityId : Z) : option ContinuousTaskRecord :=
  let made (mode : Z) (modes : list Z) :=
    ct_set_bundleName_ bundleName $ ct_set_abilityName_ abilityName $ ct_set_uid_ uid $
    ct_set_pid_ pid $ ct_set_bgModeId_ mode $ ct_set_isBatchApi_ isBatchApi $
    ct_set_bgModeIds_ modes $ ct_set_abilityId_ abilityId default_task in
  if isBatchApi then
    match list_find (fun target => target <> DATA_TRANSFER) bgModeIds with
    | Some (_, mode) => Some (made mode bgModeIds)
    | None =>
        match bgModeIds with
        | mode :: _ => Some (made mode bgModeIds)
        | [] => None
        end
    end
  else Some (made bgModeId (bgModeIds ++ [bgModeId])).

Definition IsSystem r : bool := ct_isSystem_ r.
Definition IsFromWebview r : bool := ct_isFromWebview_ r.

(** [OHOS::SplitStr] of the base library, which [ToVector] uses: the pieces of a string
    between the separators. *)
Class StrSplit := { SplitStr : string -> string -> list string }.

(** [ToString] and [ToVector]: the modes as decimal numbers, each followed by a comma. *)
Definition ToString (bgmodes : list Z) : string :=
  fold_left (fun result it => result +:+ pretty it +:+ ",") bgmodes ""%string.

Definition ToVector `{StrSplit} (str : string) : list Z :=
  (fun mode => uint32 (atoi mode)) <$> SplitStr str ",".

(** ** BannerNotificationRecord *)
Record BannerNotificationRecord := mkBanner {
  bn_bundleName_ : string;
  bn_uid_ : Z;
  bn_notificationId_ : Z;
  bn_notificationLabel_ : string;
  bn_appName_ : string;
  bn_authResult_ : Z;
  bn_userId_ : Z;
  bn_appIndex_ : Z;
}.

#[export] Instance Banner_eq_dec : EqDecision BannerNotificationRecord.
Proof. solve_decision. Defined.

Definition new_BannerNotificationRecord : BannerNotificationRecord :=
  mkBanner "" 0 (-1) "" "" UserAuthResult.NOT_DETERMINED 0 (-1).

Definition banner_eta (b : BannerNotificationRecord) : BannerNotificationRecord :=
  mkBanner (bn_bundleName_ b) (bn_uid_ b) (bn_notificationId_ b) (bn_notificationLabel_ b)
    (bn_appName_ b) (bn_authResult_ b) (bn_userId_ b) (bn_appIndex_ b).

Implicit Types b : BannerNotificationRecord.

Definition bn_SetBundleName (v : string) b : BannerNotificationRecord := ltac:(with_field banner_eta bn_bundleName_ b v).
Definition bn_SetUid (v : Z) b : BannerNotificationRecord := ltac:(with_field banner_eta bn_uid_ b v).
Definition bn_SetNotificationId (v : Z) b : BannerNotificationRecord := ltac:(with_field banner_eta bn_notificationId_ b v).
Definition bn_SetNotificationLabel (v : string) b : BannerNotificationRecord := ltac:(with_field banner_eta bn_notificationLabel_ b v).
Definition bn_SetAppName (v : string) b : BannerNotificationRecord := ltac:(with_field banner_eta bn_appName_ b v).
Definition bn_SetAuthResult (v : Z) b : BannerNotificationRecord := ltac:(with_field banner_eta bn_authResult_ b v).
Definition bn_SetUserId (v : Z) b : BannerNotificationRecord := ltac:(with_field banner_eta bn_userId_ b v).
Definition bn_SetAppIndex (v : Z) b : BannerNotificationRecord := ltac:(with_field banner_eta bn_appIndex_ b v).

(** ** JSON *)
Section TaskJson.
Context `{Json J} `{StrSplit}.
Implicit Types value : J.

(** [value.at(key).get<T>()], for the members the code has found to be there and of
    their kind. *)
Definition at_int32 (key : string) value : Z := default 0 (member key value ≫= get_int32).
Definition at_uint32 (key : string) value : Z := default 0 (member key value ≫= get_uint32).
Definition at_string (key : string) value : string := default ""%string (member key value ≫= get_string).
Definition at_bool (key : string) value : bool := default false (member key value ≫= get_bool).
Definition at_is (test : J -> bool) (key : string) value : bool := bool_decide (is_Some (member_if test key value)).

Definition json_int (z : Z) : J := mk (JInt z).
Definition json_bool (x : bool) : J := mk (JBool x).
Definition json_string (x : string) : J := mk (JString x).

(** *** ProgressInfo *)
Definition pg_ParseToJson (p : ProgressInfo) : J :=
  mk (JObject (list_to_map [
    ("title"%string, json_string (pg_title_ p));
    ("fileName"%string, json_string (pg_fileName_ p));
    ("progressValue"%string, json_int (pg_progressValue_ p));
    ("isMute"%string, json_bool (pg_isMute_ p))])).

Definition pg_ParseFromJson value (p : ProgressInfo) : bool * ProgressInfo :=
  return_if is_null value || negb (is_object value), (false, p) ;;
  return_if negb (at_is is_string "title" value) || negb (at_is is_string "fileName" value), (false, p) ;;
  (true, mkProgressInfo (at_string "title" value) (at_string "fileName" value)
    (if at_is is_number_integer "progressValue" value then at_int32 "progressValue" value else pg_progressValue_ p)
    (if at_is is_boolean "isMute" value then at_bool "isMute" value else pg_isMute_ p)).

(** *** ContinuousTaskRecord *)
Definition ct_fields r : list (string * J) := [
  ("bundleName"%string, json_string (ct_bundleName_ r));
  ("abilityName"%string, json_string (ct_abilityName_ r));
  ("userId"%string, json_int (ct_userId_ r));
  ("uid"%string, json_int (ct_uid_ r));
  ("pid"%string, json_int (ct_pid_ r));
  ("bgModeId"%string, json_int (ct_bgModeId_ r));
  ("isNewApi"%string, json_bool (ct_isNewApi_ r));
  ("isFromWebview"%string, json_bool (ct_isFromWebview_ r));
  ("needSendNotificationForInnerApi"%string, json_bool (ct_needNotificationForInnerApi_ r));
  ("notificationLabel"%string, json_string (ct_notificationLabel_ r));
  ("notificationId"%string, json_int (ct_notificationId_ r));
  ("isBatchApi"%string, json_bool (ct_isBatchApi_ r));
  ("bgModeIds"%string, json_string (ToString (ct_bgModeIds_ r)));
  ("bgSubModeIds"%string, json_string (ToString (ct_bgSubModeIds_ r)));
  ("isSystem"%string, json_bool (ct_isSystem_ r));
  ("continuousTaskId"%string, json_int (ct_continuousTaskId_ r));
  ("abilityId"%string, json_int (ct_abilityId_ r));
  ("suspendState"%string, json_bool (ct_suspendState_ r));
  ("suspendReason"%string, json_int (ct_suspendReason_ r));
  ("isCombinedTaskNotification"%string, json_bool (ct_isCombinedTaskNotification_ r));
  ("combinedNotificationTaskId"%string, json_int (ct_combinedNotificationTaskId_ r));
  ("isByRequestObject"%string, json_bool (ct_isByRequestObject_ r));
  ("subNotificationLabel"%string, json_string (ct_subNotificationLabel_ r));
  ("subNotificationId"%string, json_int (ct_subNotificationId_ r));
  ("appIndex"%string, json_int (ct_appIndex_ r));
  ("detailedCancelReason"%string, json_int (ct_detailedCancelReason_ r));
  ("isStandby"%string, json_bool (ct_isStandby_ r));
  ("audioPlayState"%string, json_bool (ct_audioPlayState_ r));
  ("isStandbySuspend"%string, json_bool (ct_isStandbySuspend_ r));
  ("isFromComponent"%string, json_bool (ct_isFromComponent_ r))].

(** The information of the want agent and the progress are there when the record has
    them. *)
Definition ct_ParseToJson r : J :=
  mk (JObject (list_to_map (
    match ct_progressInfo_ r with
    | Some p => [("progressInfo"%string, pg_ParseToJson p)]
    | None => []
    end ++
    match ct_wantAgentInfo_ r with
    | Some i => [("wantAgentInfo"%string, mk (JObject (list_to_map [
        ("bundleName"%string, json_string (wai_bundleName_ i));
        ("abilityName"%string, json_string (wai_abilityName_ i))])))]
    | None => []
    end ++ ct_fields r))).

(** The members that must be there, with the test of [CheckContinuousRecod]. *)
Definition record_members : list (string * (J -> bool)) := [
  ("bundleName"%string, is_string); ("abilityName"%string, is_string);
  ("userId"%string, is_number_integer); ("uid"%string, is_number_integer);
  ("pid"%string, is_number_integer); ("bgModeId"%string, is_number_integer);
  ("isNewApi"%string, is_boolean); ("isFromWebview"%string, is_boolean);
  ("needSendNotificationForInnerApi"%string, is_boolean);
  ("notificationLabel"%string, is_string); ("isSystem"%string, is_boolean);
  ("continuousTaskId"%string, is_number_integer); ("abilityId"%string, is_number_integer);
  ("suspendState"%string, is_boolean); ("suspendReason"%string, is_number_integer);
  ("isCombinedTaskNotification"%string, is_boolean);
  ("combinedNotificationTaskId"%string, is_number_integer);
  ("isByRequestObject"%string, is_boolean); ("subNotificationLabel"%string, is_string);
  ("subNotificationId"%string, is_number_integer); ("appIndex"%string, is_number_integer);
  ("detailedCancelReason"%string, is_number_integer); ("audioPlayState"%string, is_boolean);
  ("isStandby"%string, is_boolean); ("isStandbySuspend"%string, is_boolean);
  ("isFromComponent"%string, is_boolean)].

(** True when some member is of another kind. *)
Definition CheckContinuousRecod value : bool :=
  existsb (fun m => negb (at_is m.2 m.1 value)) record_members.

Definition ct_SetRecordValue value r : ContinuousTaskRecord :=
  let r :=
    ct_set_bundleName_ (at_string "bundleName" value) $
    ct_set_abilityName_ (at_string "abilityName" value) $
    ct_set_userId_ (at_int32 "userId" value) $
    ct_set_uid_ (at_int32 "uid" value) $
    ct_set_pid_ (at_int32 "pid" value) $
    ct_set_bgModeId_ (at_uint32 "bgModeId" value) $
    ct_set_isNewApi_ (at_bool "isNewApi" value) $
    ct_set_isFromWebview_ (at_bool "isFromWebview" value) $
    ct_set_needNotificationForInnerApi_ (at_bool "needSendNotificationForInnerApi" value) $
    ct_set_notificationLabel_ (at_string "notificationLabel" value) $
    ct_set_isSystem_ (at_bool "isSystem" value) $
    ct_set_continuousTaskId_ (at_int32 "continuousTaskId" value) $
    ct_set_abilityId_ (at_int32 "abilityId" value) $
    ct_set_suspendState_ (at_bool "suspendState" value) $
    ct_set_suspendReason_ (at_int32 "suspendReason" value) $
    ct_set_isCombinedTaskNotification_ (at_bool "isCombinedTaskNotification" value) $
    ct_set_combinedNotificationTaskId_ (at_int32 "combinedNotificationTaskId" value) $
    ct_set_isByRequestObject_ (at_bool "isByRequestObject" value) $
    ct_set_subNotificationLabel_ (at_string "subNotificationLabel" value) $
    ct_set_subNotificationId_ (at_int32 "subNotificationId" value) $
    ct_set_appIndex_ (at_int32 "appIndex" value) r in
  let r := if at_is is_boolean "isBatchApi" value then ct_set_isBatchApi_ (at_bool "isBatchApi" value) r else r in
  let r := if at_is is_string "bgModeIds" value
           then ct_set_bgModeIds_ (ToVector (at_string "bgModeIds" value)) r else r in
  let r := if at_is is_string "bgSubModeIds" value
           then ct_set_bgSubModeIds_ (ToVector (at_string "bgSubModeIds" value)) r else r in
  ct_set_detailedCancelReason_ (at_int32 "detailedCancelReason" value) $
  ct_set_isStandby_ (at_bool "isStandby" value) $
  ct_set_audioPlayState_ (at_bool "audioPlayState" value) $
  ct_set_isStandbySuspend_ (at_bool "isStandbySuspend" value) $
  ct_set_isFromComponent_ (at_bool "isFromComponent" value) r.

(** The result, and the record as far as it was filled. *)
Definition ct_ParseFromJson value r : bool * ContinuousTaskRecord :=
  return_if is_null value || negb (is_object value) || negb (CheckJsonValue value record_members.*1),
    (false, r) ;;
  return_if CheckContinuousRecod value, (false, r) ;;
  let r := ct_SetRecordValue value r in
  match match member "wantAgentInfo" value with
        | Some infoVal =>
            if negb (CheckJsonValue infoVal ["bundleName"%string; "abilityName"%string]) ||
               negb (at_is is_string "bundleName" infoVal) || negb (at_is is_string "abilityName" infoVal)
            then None
            else Some (ct_set_wantAgentInfo_
              (Some (mkWantAgentInfo (at_string "bundleName" infoVal) (at_string "abilityName" infoVal))) r)
        | None => Some r
        end with
  | None => (false, r)
  | Some r =>
      let r := if at_is is_number_integer "notificationId" value
               then ct_set_notificationId_ (at_int32 "notificationId" value) r else r in
      (true,
        match member_if is_object "progressInfo" value with
        | Some pj =>
            let (ok, p) := pg_ParseFromJson pj new_ProgressInfo in
            ct_set_progressInfo_ (if ok then Some p else None) r
        | None => r
        end)
  end.

(** *** BannerNotificationRecord *)
Definition bn_ParseToJson b : J :=
  mk (JObject (list_to_map [
    ("bundleName"%string, json_string (bn_bundleName_ b));
    ("uid"%string, json_int (bn_uid_ b));
    ("notificationId"%string, json_int (bn_notificationId_ b));
    ("notificationLabel"%string, json_string (bn_notificationLabel_ b));
    ("appName"%string, json_string (bn_appName_ b));
    ("authResult"%string, json_int (bn_authResult_ b));
    ("userId"%string, json_int (bn_userId_ b));
    ("appIndex"%string, json_int (bn_appIndex_ b))])).

Definition banner_members : list (string * (J -> bool)) := [
  ("bundleName"%string, is_string); ("uid"%string, is_number_integer);
  ("notificationId"%string, is_number_integer); ("notificationLabel"%string, is_string);
  ("appName"%string, is_string); ("authResult"%string, is_number_integer);
  ("userId"%string, is_number_integer); ("appIndex"%string, is_number_integer)].

Definition CheckRecordKey value : bool :=
  existsb (fun m => negb (at_is m.2 m.1 value)) banner_members.

Definition bn_SetRecordValue value : BannerNotificationRecord :=
  mkBanner (at_string "bundleName" value) (at_int32 "uid" value) (at_int32 "notificationId" value)
    (at_string "notificationLabel" value) (at_string "appName" value) (at_int32 "authResult" value)
    (at_int32 "userId" value) (at_int32 "appIndex" value).

Definition bn_ParseFromJson value b : bool * BannerNotificationRecord :=
  return_if is_null value || negb (is_object value) || negb (CheckJsonValue value banner_members.*1),
    (false, b) ;;
  return_if CheckRecordKey value, (false, b) ;;
  (true, bn_SetRecordValue value).
End TaskJson.

(** ** DataStorageHelper: the tasks and the authorisations

    An empty map leaves the value null.  [RestoreTaskRecord] and [RestoreAuthRecord] walk
    the members of the object in the order of their keys. *)
Section TaskStorage.
Context `{Json J} `{StrSplit}.

Definition ds_RefreshTaskRecord (allRecord : gmap string ContinuousTaskRecord) : J :=
  if bool_decide (allRecord = ∅) then mk JNull else mk (JObject (ct_ParseToJson <$> allRecord)).

(** [emplace]: an entry that is there stays.  The loop runs over the elements of an array
    too, where [iter.key()] throws ([None]) once an element is a record. *)
Definition ds_RestoreTaskRecord (file : option J) (allRecord : gmap string ContinuousTaskRecord) :
    option (gmap string ContinuousTaskRecord) :=
  match file with
  | None => Some allRecord
  | Some root =>
      match view root with
      | JObject members =>
          Some (fold_left (fun m e =>
            let (ok, record) := ct_ParseFromJson e.2 default_task in
            match ok, m !! e.1 with
            | true, None => <[e.1 := record]> m
            | _, _ => m
            end) (by_name members) allRecord)
      | JArray l =>
          if existsb (fun v => (ct_ParseFromJson v default_task).1) l then None else Some allRecord
      | _ => Some allRecord
      end
  end.

Definition ds_RefreshAuthRecord (authRecord : gmap string BannerNotificationRecord) : J :=
  if bool_decide (authRecord = ∅) then mk JNull else mk (JObject (bn_ParseToJson <$> authRecord)).

(** Two records are of the same application. *)
Definition same_application (b b' : BannerNotificationRecord) : bool :=
  (bn_userId_ b =? bn_userId_ b') && bool_decide (bn_bundleName_ b = bn_bundleName_ b') &&
  (bn_appIndex_ b =? bn_appIndex_ b').

(** A record of an application that has one is passed over. *)
Definition ds_RestoreAuthRecord (file : option J) (authRecord : gmap string BannerNotificationRecord) :
    gmap string BannerNotificationRecord :=
  match file with
  | None => authRecord
  | Some root =>
      return_if is_null root || negb (is_object root), authRecord ;;
      fold_left (fun m e =>
        let (ok, record) := bn_ParseFromJson e.2 new_BannerNotificationRecord in
        if negb ok || existsb (fun o => same_application o.2 record) (map_to_list m) then m
        else match m !! e.1 with None => <[e.1 := record]> m | Some _ => m end)
        (by_name (members root)) authRecord
  end.

(** [RestoreAuthRecord] has read an object, and stores the map again. *)
Definition ds_auth_restored (file : option J) : bool :=
  match file with
  | None => false
  | Some root => negb (is_null root || negb (is_object root))
  end.
End TaskStorage.
