(* ===== verification/ContinuousTypes.v ===== *)
(** * The state of the continuous task manager

    Data of [BgContinuousTaskMgr] (src/services/continuous_task), the requests it
    receives, what it tells others ([ContEffect]), what others answer ([ContEnv]) and
    the state monad its operations are written in.  The stores it consults are part of
    the state: [GamePreLaunchMgr] (services/common) and the audio players of
    [AudioRendererInfoPluginData] (services/plugin). *)

From S2P Require Import Prelude.
From S2P Require Import Errors.
From S2P Require Import Interfaces.
From S2P Require Import BackgroundModes.
From S2P Require Import Json.
From S2P Require Import ContinuousTaskRecord.
Local Open Scope Z_scope.

(** ** The build

    The switches of the build files, the constants of the notification service and the
    base library the code uses and [std::hash] on strings, which the standard leaves open. *)
Class ContinuousPlatform := {
  SUPPORT_TASK_KEEPING : bool;
  SUPPORT_AUTH : bool;
  HAS_OS_ACCOUNT_PART : bool;
  HAS_OS_ACCOUNT_CAR : bool;
  DISTRIBUTED_NOTIFICATION_ENABLE : bool;
  GAME_PRE_LAUNCH_ENABLE : bool;
  FEATURE_PRODUCT_WATCH : bool;
  APP_CANCEL_REASON_DELETE : Z;
  TRIGGER_EIGHT_HOUR_REASON_DELETE : Z;
  TRIGGER_THIRTY_MINUTES_REASON_DELETE : Z;
  ERR_INVALID_VALUE : Z;
  ERR_INVALID_OPERATION : Z;
  string_hash : string -> N;
  string_split :: StrSplit;
}.

(** ** Requests (continuous_task_param.h, data_transfer_progress.h,
    background_task_state_info.h) *)
Record ContinuousTaskParam := mkParam {
  tp_isNewApi_ : bool;
  tp_bgModeId_ : Z;
  tp_wantAgent_ : option WantAgent;
  tp_abilityName_ : string;
  tp_appName_ : string;
  tp_isBatchApi_ : bool;
  tp_bgModeIds_ : list Z;
  tp_abilityId_ : Z;
  tp_bgSubModeIds_ : list Z;
  tp_isCombinedTaskNotification_ : bool;
  tp_combinedNotificationTaskId_ : Z;
  tp_updateTaskId_ : Z;
  tp_isByRequestObject_ : bool;
  tp_appIndex_ : Z;
  tp_requestAuthApiVersion_ : Z;
  tp_notificationId_ : Z;
  tp_continuousTaskId_ : Z;
  tp_progressInfo_ : option ProgressInfo;
}.

Record ContinuousTaskParamForInner := mkInnerParam {
  ip_uid_ : Z;
  ip_bgModeId_ : Z;
  ip_isStart_ : bool;
  ip_abilityId_ : Z;
  ip_tokenId_ : Z;
  ip_pid_ : Z;
}.

Record DataTransferProgress := mkProgress {
  dp_continuousTaskId_ : Z;
  dp_wantAgent_ : option WantAgent;
  dp_progressInfo_ : option ProgressInfo;
}.

Record BackgroundTaskStateInfo := mkStateInfo {
  bs_userId_ : Z;
  bs_bundleName_ : string;
  bs_appIndex_ : Z;
  bs_authResult_ : Z;
}.

(** ** What subscribers are told (continuous_task_callback_info.h) *)
Record ContinuousTaskCallbackInfo := mkCallbackInfo {
  ci_typeId_ : Z;
  ci_creatorUid_ : Z;
  ci_creatorPid_ : Z;
  ci_abilityName_ : string;
  ci_isFromWebview_ : bool;
  ci_isBatchApi_ : bool;
  ci_typeIds_ : list Z;
  ci_abilityId_ : Z;
  ci_tokenId_ : Z;
  ci_continuousTaskId_ : Z;
  ci_cancelReason_ : Z;
  ci_detailedCancelReason_ : Z;
  ci_suspendState_ : bool;
  ci_suspendReason_ : Z;
  ci_isByRequestObject_ : bool;
  ci_bundleName_ : string;
  ci_userId_ : Z;
  ci_appIndex_ : Z;
  ci_backgroundSubModes_ : list Z;
  ci_notificationId_ : Z;
  ci_wantAgentBundleName_ : string;
  ci_wantAgentAbilityName_ : string;
  ci_cancelCallBackSelf_ : bool;
  ci_isStandby_ : bool;
  ci_isFromComponent_ : bool;
}.

(** The five callbacks of [IBackgroundTaskSubscriber] about continuous tasks. *)
Inductive CallbackKind :=
| OnContinuousTaskStart | OnContinuousTaskUpdate | OnContinuousTaskStop
| OnContinuousTaskSuspend | OnContinuousTaskActive.
#[export] Instance CallbackKind_eq_dec : EqDecision CallbackKind.
Proof. solve_decision. Defined.

Inductive ContinuousTaskEventTriggerType :=
| TASK_START | TASK_UPDATE | TASK_CANCEL | TASK_SUSPEND | TASK_ACTIVE.
#[export] Instance Trigger_eq_dec : EqDecision ContinuousTaskEventTriggerType.
Proof. solve_decision. Defined.

(** stop task reason, continuous_task_record.h *)
Definition USER_CANCEL : Z := 0.
Definition REMOVE_NOTIFICATION_CANCEL : Z := 1.
Definition FREEZE_CANCEL : Z := 2.
Definition SYSTEM_CANCEL : Z := 3.

(** ** Notifications *)

(** What the code puts in a [NotificationRequest]; [nr_liveView] is the slot (live view
    or other). *)
Record NotificationRequest := mkRequest {
  nr_label : string;
  nr_id : Z;
  nr_title : string;
  nr_text : string;
  nr_type : option Z;
  nr_ownerUid : Z;
  nr_abilityName : string;
  nr_wantAgent : option WantAgent;
  nr_liveView : bool;
  nr_progress : option (Z * bool);
}.

(** An active notification, as far as the code looks; [None] is a null pointer. *)
Record ActiveNotification := mkActive {
  an_label : string;
  an_creatorUid : Z;
  an_hasContent : bool;
}.

(** ** Subscribers *)
Record SubscriberInfo := mkSubscriber {
  si_subscriber_ : option RemoteProxy;
  si_uid_ : Z;
  si_pid_ : Z;
  si_isHap_ : bool;
  si_flag_ : Z;
}.
(** [subscriber_->AsObject()] *)
Definition si_object (i : SubscriberInfo) : option Remote := si_subscriber_ i ≫= AsObject.

Definition CONTINUOUS_TASK_SUSPEND : Z := 2.
Definition CONTINUOUS_TASK_ACTIVE : Z := Z.shiftl 1 2.
Definition SUBSCRIBER_BACKGROUND_TASK_STATE : Z := Z.shiftl 1 3.

(** ** Effects *)
Inductive ContEffect :=
| EPublish (n : NotificationRequest)
| ECancelNotification (label : string) (id : Z)
| ERepublish (label title text : string)
| ERepublishAgent (label : string) (agent : option WantAgent) (content : option (string * string))
| EObserver (kind : CallbackKind) (info : ContinuousTaskCallbackInfo)
| ENotify (to : option Remote) (kind : CallbackKind) (info : ContinuousTaskCallbackInfo)
| EAppContinuousTaskStop (to : option Remote) (uid : Z)
| ETaskRecords (tasks : gmap string ContinuousTaskRecord)
| EAuthRecords (auth : gmap string BannerNotificationRecord)
| EExpiredAuth (callback : option Remote) (authResult : Z)
| EDeathRecipient (remote : option Remote) (watched : bool)
| EHiSysEvent (name : string) (uid pid : Z) (bundle ability : string) (values : list Z).

(** ** Bundles *)
Record AbilityInfo := mkAbility { ab_name : string; ab_backgroundModes : Z }.
Record BundleInfo := mkBundle {
  bi_abilityInfos : list AbilityInfo;
  bi_reqPermissions : list string;
  bi_isSystemApp : bool;
}.
Record CachedBundleInfo := mkCached {
  cb_abilityBgMode_ : gmap string Z;
  cb_appName_ : string;
}.

(** ** The other services, and the caller

    The answers to one operation.  The three questions to [BgtaskConfig] are answered by
    [cont_env] of the configuration (BackgroundTaskMgrService.v). *)
Record ContEnv := mkEnv {
  ce_callingUid : Z;
  ce_callingPid : Z;
  ce_callingFullTokenId : Z;
  ce_callingTokenId : Z;
  ce_GetClientBundleName : Z -> string;
  ce_GetOsAccountLocalIdFromUid : Z -> Z;
  ce_CheckPermission : string -> bool;
  ce_CheckACLPermission : string -> Z -> bool;
  ce_IsSystemApp : Z -> bool;
  ce_GetBundleInfo : string -> Z -> option BundleInfo;
  ce_GetBundleResourceInfo : string -> option string;
  ce_GetAppIndexAndBundleNameByUid : Z -> option (Z * string);
  ce_GetForegroundApplications : option (list Z);
  ce_GetAllRunningProcesses : option (list Z);
  ce_GetAbilityRunningInfos : option (list (Z * Z * string));
  ce_ActiveOsAccountIds : option (list Z);
  ce_ForegroundOsAccounts : option (list Z);
  ce_IsTaskKeepingExempted : string -> bool;
  ce_IsSpecialExempted : string -> bool;
  ce_IsMaliciousApp : string -> bool;
  ce_ResourceManager : option (string -> option string);  (* None: the argument is left as it was *)
  ce_FormatByName : string -> list string -> string;
  ce_PublishNotification : string -> Z -> bool;
  ce_CancelNotification : string -> Z -> bool;
  ce_GetActiveNotifications : option (list (option ActiveNotification));
  ce_PublishContinuousTaskNotification : string -> bool;
  ce_CreateActionButton : bool;
  ce_SaveTaskRecord : Z;
  ce_SaveAuthRecord : Z;
}.

(** ** Tasks posted to the handler

    The closures of [handler_->PostTask]; each runs later, on its own.  Those of
    [PT_AVSession] are posted under a name, by which they can be taken back. *)
Inductive PostedTask :=
| PT_InitNecessaryState
| PT_StopContinuousTask (uid pid taskType : Z) (key : string)
| PT_SuspendContinuousTask (uid pid reason : Z) (key : string) (isStandby : bool)
| PT_ActiveContinuousTask (uid pid : Z) (key : string) (isStandby : bool)
| PT_SuspendContinuousAudioTask (uid : Z)
| PT_AVSession (uid pid : Z) (isPublish : bool)
| PT_RemoveTaskByMode (mode : Z)
| PT_NotifyAudioStart (uid : Z).

(** ** The manager *)
Record ContinuousMgr := mkMgr {
  cm_isSysReady_ : bool;
  cm_bgTaskUid_ : Z;
  cm_continuousTaskInfosMap_ : gmap string ContinuousTaskRecord;
  cm_avSessionNotification_ : gmap Z bool;
  cm_delayTasks_ : gset Z;
  cm_liveViewInfo_ : gmap Z (gset string);
  cm_bgTaskSubscribers_ : list SubscriberInfo;
  cm_cachedBundleInfos_ : gmap Z CachedBundleInfo;
  cm_applyTaskOnForeground_ : gmap Z (list Z);
  cm_bannerNotificationRecord_ : gmap string BannerNotificationRecord;
  cm_appOnForeground_ : gset Z;
  cm_continuousTaskText_ : list string;
  cm_continuousTaskSubText_ : list string;
  cm_startingTaskText_ : list string;
  cm_bannerNotificationBtn_ : list string;
  cm_modeForNotificationText_ : gmap Z (string * string);
  cm_expiredCallbackMap_ : gmap string RemoteProxy;
  cm_continuousTaskIdIndex_ : Z;
  cm_disableRequestUidList_ : gset Z;
  cm_notificationIdIndex_ : Z;             (* NotificationTools, static *)
  cm_gamePreLaunchAppUids_ : gset Z;       (* GamePreLaunchMgr *)
  cm_audioPlayerInfos_ : list (Z * Z);     (* AudioRendererInfoPluginData *)
  cm_posted : list PostedTask;             (* the queue of handler_ *)
  cm_effects : list ContEffect;
}.

Definition mgr_eta (s : ContinuousMgr) : ContinuousMgr :=
  mkMgr (cm_isSysReady_ s) (cm_bgTaskUid_ s) (cm_continuousTaskInfosMap_ s) (cm_avSessionNotification_ s)
    (cm_delayTasks_ s) (cm_liveViewInfo_ s) (cm_bgTaskSubscribers_ s) (cm_cachedBundleInfos_ s)
    (cm_applyTaskOnForeground_ s) (cm_bannerNotificationRecord_ s) (cm_appOnForeground_ s)
    (cm_continuousTaskText_ s) (cm_continuousTaskSubText_ s) (cm_startingTaskText_ s)
    (cm_bannerNotificationBtn_ s) (cm_modeForNotificationText_ s) (cm_expiredCallbackMap_ s)
    (cm_continuousTaskIdIndex_ s) (cm_disableRequestUidList_ s) (cm_notificationIdIndex_ s)
    (cm_gamePreLaunchAppUids_ s) (cm_audioPlayerInfos_ s) (cm_posted s) (cm_effects s).

Implicit Types s : ContinuousMgr.

Definition cm_set_isSysReady_ (v : bool) s : ContinuousMgr := ltac:(with_field mgr_eta cm_isSysReady_ s v).
Definition cm_set_bgTaskUid_ (v : Z) s : ContinuousMgr := ltac:(with_field mgr_eta cm_bgTaskUid_ s v).
Definition cm_set_continuousTaskInfosMap_ (v : gmap string ContinuousTaskRecord) s : ContinuousMgr := ltac:(with_field mgr_eta cm_continuousTaskInfosMap_ s v).
Definition cm_set_avSessionNotification_ (v : gmap Z bool) s : ContinuousMgr := ltac:(with_field mgr_eta cm_avSessionNotification_ s v).
Definition cm_set_delayTasks_ (v : gset Z) s : ContinuousMgr := ltac:(with_field mgr_eta cm_delayTasks_ s v).
Definition cm_set_liveViewInfo_ (v : gmap Z (gset string)) s : ContinuousMgr := ltac:(with_field mgr_eta cm_liveViewInfo_ s v).
Definition cm_set_bgTaskSubscribers_ (v : list SubscriberInfo) s : ContinuousMgr := ltac:(with_field mgr_eta cm_bgTaskSubscribers_ s v).
Definition cm_set_cachedBundleInfos_ (v : gmap Z CachedBundleInfo) s : ContinuousMgr := ltac:(with_field mgr_eta cm_cachedBundleInfos_ s v).
Definition cm_set_applyTaskOnForeground_ (v : gmap Z (list Z)) s : ContinuousMgr := ltac:(with_field mgr_eta cm_applyTaskOnForeground_ s v).
Definition cm_set_bannerNotificationRecord_ (v : gmap string BannerNotificationRecord) s : ContinuousMgr := ltac:(with_field mgr_eta cm_bannerNotificationRecord_ s v).
Definition cm_set_appOnForeground_ (v : gset Z) s : ContinuousMgr := ltac:(with_field mgr_eta cm_appOnForeground_ s v).
Definition cm_set_continuousTaskText_ (v : list string) s : ContinuousMgr := ltac:(with_field mgr_eta cm_continuousTaskText_ s v).
Definition cm_set_continuousTaskSubText_ (v : list string) s : ContinuousMgr := ltac:(with_field mgr_eta cm_continuousTaskSubText_ s v).
Definition cm_set_startingTaskText_ (v : list string) s : ContinuousMgr := ltac:(with_field mgr_eta cm_startingTaskText_ s v).
Definition cm_set_bannerNotificationBtn_ (v : list string) s : ContinuousMgr := ltac:(with_field mgr_eta cm_bannerNotificationBtn_ s v).
Definition cm_set_modeForNotificationText_ (v : gmap Z (string * string)) s : ContinuousMgr := ltac:(with_field mgr_eta cm_modeForNotificationText_ s v).
Definition cm_set_expiredCallbackMap_ (v : gmap string RemoteProxy) s : ContinuousMgr := ltac:(with_field mgr_eta cm_expiredCallbackMap_ s v).
Definition cm_set_continuousTaskIdIndex_ (v : Z) s : ContinuousMgr := ltac:(with_field mgr_eta cm_continuousTaskIdIndex_ s v).
Definition cm_set_disableRequestUidList_ (v : gset Z) s : ContinuousMgr := ltac:(with_field mgr_eta cm_disableRequestUidList_ s v).
Definition cm_set_notificationIdIndex_ (v : Z) s : ContinuousMgr := ltac:(with_field mgr_eta cm_notificationIdIndex_ s v).
Definition cm_set_gamePreLaunchAppUids_ (v : gset Z) s : ContinuousMgr := ltac:(with_field mgr_eta cm_gamePreLaunchAppUids_ s v).
Definition cm_set_audioPlayerInfos_ (v : list (Z * Z)) s : ContinuousMgr := ltac:(with_field mgr_eta cm_audioPlayerInfos_ s v).
Definition cm_set_posted (v : list PostedTask) s : ContinuousMgr := ltac:(with_field mgr_eta cm_posted s v).
Definition cm_set_effects (v : list ContEffect) s : ContinuousMgr := ltac:(with_field mgr_eta cm_effects s v).

(** A manager as the process starts. *)
Definition new_ContinuousMgr : ContinuousMgr :=
  mkMgr false (-1) ∅ ∅ ∅ ∅ [] ∅ ∅ ∅ ∅ [] [] [] [] ∅ ∅ 0 ∅ (-1) ∅ [] [] [].

(** ** The monad of the operations

    An operation reads the environment and the state, and gives its result with the new
    state.  [x <- m ;; k] binds, [let* p := m in k] too, with a
    pattern, and [m ;;; k] sequences. *)
Definition CM (A : Type) : Type := ContEnv -> ContinuousMgr -> A * ContinuousMgr.

Definition ret {A} (a : A) : CM A := fun _ s => (a, s).
Definition bind {A B} (m : CM A) (k : A -> CM B) : CM B :=
  fun e s => let (a, s') := m e s in k a e s'.
Definition ask {A} (f : ContEnv -> A) : CM A := fun e s => (f e, s).
Definition get {A} (f : ContinuousMgr -> A) : CM A := fun _ s => (f s, s).
Definition modify (f : ContinuousMgr -> ContinuousMgr) : CM unit := fun _ s => (tt, f s).
Definition emits (l : list ContEffect) : CM unit := modify (fun s => cm_set_effects (cm_effects s ++ l) s).
Definition emit (x : ContEffect) : CM unit := emits [x].
(** [handler_->PostTask] *)
Definition post (t : PostedTask) : CM unit := modify (fun s => cm_set_posted (cm_posted s ++ [t]) s).

Declare Scope cm_scope.
Delimit Scope cm_scope with cm.
Notation "x <- m ;; k" := (bind m (fun x => k))
  (at level 199, m at level 99, k at level 200, only parsing) : cm_scope.
Notation "'let*' p := m 'in' k" := (bind m (fun p => k))
  (at level 10, p strict pattern, m at level 99, k at level 200, only parsing) : cm_scope.
Notation "m ;;; k" := (bind m (fun _ => k))
  (at level 199, k at level 200, only parsing) : cm_scope.
Open Scope cm_scope.

(** [for (x : l) body(x)] *)
Fixpoint for_each {A} (l : list A) (body : A -> CM unit) : CM unit :=
  match l with
  | [] => ret tt
  | x :: l' => body x ;;; for_each l' body
  end.

(** The loop stops at the first error, which is returned. *)
Fixpoint for_err {A} (l : list A) (body : A -> CM Z) : CM Z :=
  match l with
  | [] => ret ERR_OK
  | x :: l' =>
      result <- body x ;;
      return_if negb (result =? ERR_OK), ret result ;;
      for_err l' body
  end.

Notation "'when' c m" := (if c then m else ret tt) (at level 10, c at level 9, m at level 9) : cm_scope.

(** ** The map of tasks *)
Definition tasks s := cm_continuousTaskInfosMap_ s.
Definition find_key (key : string) : CM (option ContinuousTaskRecord) := get (fun s => tasks s !! key).
(** The record of an entry, after its members were assigned. *)
Definition put_task (key : string) (r : ContinuousTaskRecord) : CM unit :=
  modify (fun s => cm_set_continuousTaskInfosMap_ (<[key := r]> (tasks s)) s).
Definition erase_task (key : string) : CM unit :=
  modify (fun s => cm_set_continuousTaskInfosMap_ (delete key (tasks s)) s).

(** [std::find_if] on the map, in the order of [map_to_list]. *)
Definition find_task_in (p : ContinuousTaskRecord -> bool) (m : gmap string ContinuousTaskRecord) :
    option (string * ContinuousTaskRecord) :=
  snd <$> list_find (fun e => p e.2 = true) (map_to_list m).
Definition find_task (p : ContinuousTaskRecord -> bool) : CM (option (string * ContinuousTaskRecord)) :=
  get (fun s => find_task_in p (tasks s)).

(** A loop over the map whose body may change or erase the entry it is at. *)
Definition for_tasks (body : string -> ContinuousTaskRecord -> CM unit) : CM unit :=
  l <- get (fun s => map_to_list (tasks s)) ;;
  for_each l (fun e => body e.1 e.2).

(** ** GamePreLaunchMgr *)
Definition AddGamePreLaunchApp (uid : Z) : CM unit :=
  modify (fun s => cm_set_gamePreLaunchAppUids_ ({[uid]} ∪ cm_gamePreLaunchAppUids_ s) s).
Definition RemoveGamePreLaunchApp (uid : Z) : CM unit :=
  modify (fun s => cm_set_gamePreLaunchAppUids_ (cm_gamePreLaunchAppUids_ s ∖ {[uid]}) s).
Definition IsGamePreLaunchApp (uid : Z) : CM bool :=
  get (fun s => bool_decide (uid ∈ cm_gamePreLaunchAppUids_ s)).

(** ** AudioRendererInfoPluginData

    A player is its uid and session. *)
Definition CheckAppIsPlaying (uid : Z) : CM bool :=
  infos <- get cm_audioPlayerInfos_ ;;
  return_if bool_decide (infos = []), ret false ;;
  ret (existsb (fun target : Z * Z => target.1 =? uid) infos).

Definition AddAudioPlayerInfo (audioInfo : option (Z * Z)) : CM bool :=
  match audioInfo with
  | None => ret false
  | Some info =>
      infos <- get cm_audioPlayerInfos_ ;;
      if existsb (fun target : Z * Z => (target.1 =? info.1) && (target.2 =? info.2)) infos then ret false
      else modify (cm_set_audioPlayerInfos_ (infos ++ [info])) ;;; ret true
  end.

Definition RemoveAudioPlayerInfo (uid sessionId : Z) : CM unit :=
  infos <- get cm_audioPlayerInfos_ ;;
  return_if bool_decide (infos = []), ret tt ;;
  modify (cm_set_audioPlayerInfos_
    (erase_first (fun target : Z * Z => (target.1 =? uid) && (target.2 =? sessionId)) infos)).

Definition ClearAudioPlayerInfo : CM unit := modify (cm_set_audioPlayerInfos_ []).

(** The renderers of the audio service: uid, session, and whether it is running; a null
    entry is passed over. *)
Definition AfterAddSaListener (audioInfos : list (option (Z * Z * bool))) : CM unit :=
  ClearAudioPlayerInfo ;;;
  for_each audioInfos (fun info =>
    match info with
    | None => ret tt
    | Some (clientUID, sessionId, running) =>
        return_if negb running, ret tt ;;
        AddAudioPlayerInfo (Some (clientUID, sessionId)) ;;; ret tt
    end).
