(* ===== verification/NotificationTools.v ===== *)
(** * Notifications of continuous tasks

    src/services/continuous_task/src/notification_tools.cpp: labels, the requests built
    for the notification service, and their publication, refreshing and withdrawal.  A
    publication that the service accepts is an effect; so is every withdrawal asked for.
    An operation that assigns members of a record gives the record back. *)

From S2P Require Import Prelude.
From S2P Require Import Errors.
From S2P Require Import BackgroundModes.
From S2P Require Import Json.
From S2P Require Import ContinuousTaskRecord.
From S2P Require Import ContinuousTypes.
Import BackgroundMode.
Local Open Scope Z_scope.

Definition NOTIFICATION_PREFIX : string := "bgmode".
Definition BANNER_NOTIFICATION_PREFIX : string := "bgbanner".
Definition SEPARATOR : string := "_".
Definition TYPE_CODE_VOIP : Z := 0.
Definition TYPE_CODE_AUDIO_RECORDING : Z := 7.
Definition TYPE_CODE_DATA_TANSFER : Z := 8.
Definition MIN_PROGRESS_VALUE : Z := 0.
Definition MAX_PROGRESS_VALUE : Z := 100.
Definition BGTASK_BANNER_NOTIFICATION_BTN_ALLOW_TIME : Z := 0.
Definition BGTASK_BANNER_NOTIFICATION_BTN_ALLOW_ALLOWED : Z := 1.

Definition SetNotificationIdIndex (id : Z) : CM unit := modify (cm_set_notificationIdIndex_ id).

(** [++notificationIdIndex_] *)
Definition next_notification_id : CM Z :=
  i <- get cm_notificationIdIndex_ ;;
  let i' := int32 (i + 1) in
  modify (cm_set_notificationIdIndex_ i') ;;; ret i'.

(** A progress is shown clamped to 100, silently when it is out of range, or complete and
    muted: the value and whether sound and vibration are off. *)
Definition SetProgressNotification (p : ProgressInfo) : Z * bool :=
  let v := pg_progressValue_ p in
  if (MIN_PROGRESS_VALUE <=? v) && (v <? MAX_PROGRESS_VALUE) then (v, false)
  else if v =? MAX_PROGRESS_VALUE then (MAX_PROGRESS_VALUE, pg_isMute_ p)
  else (MAX_PROGRESS_VALUE, true).

Definition CreateStartAbilityWantAgent (r : ContinuousTaskRecord) : WantAgent :=
  mkWantAgent (Some (Some (mkWant (ct_bundleName_ r) (ct_bundleName_ r) None))).

Definition CreateBannerNotificationLabel (bundleName : string) (userId appIndex : Z) : string :=
  BANNER_NOTIFICATION_PREFIX +:+ SEPARATOR +:+ pretty userId +:+ SEPARATOR +:+ pretty appIndex +:+
  SEPARATOR +:+ bundleName.

Section Labels.
Context `{ContinuousPlatform}.

Definition CreateNotificationLabel (uid : Z) (abilityName : string) (abilityId : Z)
    (isByRequestObject : bool) (continuousTaskId : Z) : string :=
  NOTIFICATION_PREFIX +:+ SEPARATOR +:+ pretty uid +:+ SEPARATOR +:+ pretty (string_hash abilityName) +:+
  SEPARATOR +:+ pretty abilityId +:+
  (if isByRequestObject then SEPARATOR +:+ pretty continuousTaskId else "").

Definition CreateSubNotificationLabel (uid : Z) (abilityName : string) (abilityId continuousTaskId pid : Z) : string :=
  NOTIFICATION_PREFIX +:+ SEPARATOR +:+ pretty uid +:+ SEPARATOR +:+ pretty (string_hash abilityName) +:+
  SEPARATOR +:+ pretty abilityId +:+ SEPARATOR +:+ pretty continuousTaskId +:+ SEPARATOR +:+ pretty pid.
End Labels.

(** [NotificationHelper::PublishNotification] *)
Definition helper_publish (n : NotificationRequest) : CM bool :=
  accepted <- ask (fun e => ce_PublishNotification e (nr_label n) (nr_id n)) ;;
  if accepted then emit (EPublish n) ;;; ret true else ret false.

(** The type code of the live view of a notification. *)
Definition live_type (modes : list Z) : option Z :=
  if CheckExistMode modes DATA_TRANSFER then Some TYPE_CODE_DATA_TANSFER
  else if CheckExistMode modes AUDIO_RECORDING then Some TYPE_CODE_AUDIO_RECORDING
  else if CheckExistMode modes VOIP then Some TYPE_CODE_VOIP
  else None.

Section Tools.
Context `{ContinuousPlatform}.
Implicit Types r mainRecord subRecord : ContinuousTaskRecord.

Definition PublishNotification r (appName prompt : string) (serviceUid : Z) : CM (Z * ContinuousTaskRecord) :=
  return_if negb DISTRIBUTED_NOTIFICATION_ENABLE, ret (ERR_OK, r) ;;
  let isDataTransfer := CheckExistMode (ct_bgModeIds_ r) DATA_TRANSFER in
  let notificationLabel := CreateNotificationLabel (ct_uid_ r) (ct_abilityName_ r) (ct_abilityId_ r)
    (ct_isByRequestObject_ r) (ct_continuousTaskId_ r) in
  let agent := if ct_needNotificationForInnerApi_ r && ct_isFromComponent_ r
    then Some (CreateStartAbilityWantAgent r) else ct_wantAgent_ r in
  id <- (if ct_notificationId_ r =? -1 then next_notification_id else ret (ct_notificationId_ r)) ;;
  accepted <- helper_publish {|
    nr_label := notificationLabel; nr_id := id; nr_title := appName; nr_text := prompt;
    nr_type := live_type (ct_bgModeIds_ r); nr_ownerUid := ct_uid_ r; nr_abilityName := ct_abilityName_ r;
    nr_wantAgent := agent; nr_liveView := isDataTransfer;
    nr_progress := if isDataTransfer then SetProgressNotification <$> ct_progressInfo_ r else None |} ;;
  return_if negb accepted, ret (ERR_BGTASK_NOTIFICATION_ERR, r) ;;
  let r := ct_set_notificationLabel_ notificationLabel r in
  ret (ERR_OK, if ct_notificationId_ r =? -1 then ct_set_notificationId_ id r else r).

Definition CancelNotification_tool (label : string) (id : Z) : CM Z :=
  return_if negb DISTRIBUTED_NOTIFICATION_ENABLE, ret ERR_OK ;;
  emit (ECancelNotification label id) ;;;
  ok <- ask (fun e => ce_CancelNotification e label id) ;;
  return_if negb ok, ret ERR_BGTASK_NOTIFICATION_ERR ;;
  ret ERR_OK.

(** New titles and texts by label. *)
Definition PromptInfos : Type := gmap string (string * string).

Definition RefreshContinuousNotifications (newPromptInfos : PromptInfos) (serviceUid : Z) : CM unit :=
  return_if negb DISTRIBUTED_NOTIFICATION_ENABLE, ret tt ;;
  return_if bool_decide (newPromptInfos = ∅), ret tt ;;
  active <- ask ce_GetActiveNotifications ;;
  match active with
  | None => ret tt
  | Some notificationRequests =>
      for_each (omap id notificationRequests) (fun var =>
        match newPromptInfos !! an_label var with
        | Some (title, text) =>
            return_if negb (an_creatorUid var =? serviceUid), ret tt ;;
            emit (ERepublish (an_label var) title text)
        | None => ret tt
        end)
  end.

Definition RefreshContinuousNotificationWantAndContext (serviceUid : Z) (newPromptInfos : PromptInfos)
    r (updateContent : bool) : CM Z :=
  return_if negb DISTRIBUTED_NOTIFICATION_ENABLE, ret ERR_OK ;;
  active <- ask ce_GetActiveNotifications ;;
  match active with
  | None => ret ERR_BGTASK_CONTINUOUS_UPDATE_NOTIFICATION_FAIL
  | Some notificationRequests =>
      for_err notificationRequests (fun var =>
        match var with
        | None => ret ERR_BGTASK_CONTINUOUS_UPDATE_NOTIFICATION_FAIL
        | Some var =>
            match newPromptInfos !! an_label var with
            | None => ret ERR_OK
            | Some content =>
                return_if negb (an_creatorUid var =? serviceUid), ret ERR_OK ;;
                return_if updateContent && negb (an_hasContent var),
                  ret ERR_BGTASK_CONTINUOUS_UPDATE_NOTIFICATION_FAIL ;;
                emit (ERepublishAgent (an_label var) (ct_wantAgent_ r)
                  (if updateContent then Some content else None)) ;;;
                ok <- ask (fun e => ce_PublishContinuousTaskNotification e (an_label var)) ;;
                return_if negb ok, ret ERR_BGTASK_CONTINUOUS_UPDATE_NOTIFICATION_FAIL ;;
                ret ERR_OK
            end
        end)
  end.

(** The main notification of a task with data transfer and other modes. *)
Definition PublishMainNotification subRecord (appName prompt : string) (serviceUid : Z) mainRecord :
    CM (Z * ContinuousTaskRecord) :=
  return_if negb DISTRIBUTED_NOTIFICATION_ENABLE, ret (ERR_OK, mainRecord) ;;
  let notificationLabel := CreateNotificationLabel (ct_uid_ subRecord) (ct_abilityName_ subRecord)
    (ct_abilityId_ subRecord) (ct_isByRequestObject_ subRecord) (ct_continuousTaskId_ subRecord) in
  id <- (if ct_notificationId_ mainRecord =? -1 then next_notification_id
         else ret (ct_notificationId_ mainRecord)) ;;
  accepted <- helper_publish {|
    nr_label := notificationLabel; nr_id := id; nr_title := appName; nr_text := prompt;
    nr_type := Some TYPE_CODE_DATA_TANSFER; nr_ownerUid := ct_uid_ subRecord;
    nr_abilityName := ct_abilityName_ subRecord; nr_wantAgent := ct_wantAgent_ subRecord;
    nr_liveView := true; nr_progress := SetProgressNotification <$> ct_progressInfo_ mainRecord |} ;;
  return_if negb accepted, ret (ERR_BGTASK_NOTIFICATION_ERR, mainRecord) ;;
  let r := ct_set_notificationLabel_ notificationLabel mainRecord in
  ret (ERR_OK, if ct_notificationId_ r =? -1 then ct_set_notificationId_ id r else r).

(** The notification of its other modes. *)
Definition PublishSubNotification subRecord (appName prompt : string) (serviceUid : Z) mainRecord :
    CM (Z * ContinuousTaskRecord) :=
  return_if negb DISTRIBUTED_NOTIFICATION_ENABLE, ret (ERR_OK, mainRecord) ;;
  let notificationLabel := CreateSubNotificationLabel (ct_uid_ subRecord) (ct_abilityName_ subRecord)
    (ct_abilityId_ subRecord) (ct_continuousTaskId_ subRecord) (ct_pid_ subRecord) in
  id <- (if ct_subNotificationId_ mainRecord =? -1 then next_notification_id
         else ret (ct_subNotificationId_ mainRecord)) ;;
  accepted <- helper_publish {|
    nr_label := notificationLabel; nr_id := id; nr_title := appName; nr_text := prompt;
    nr_type :=
      if CheckExistMode (ct_bgModeIds_ subRecord) AUDIO_RECORDING then Some TYPE_CODE_AUDIO_RECORDING
      else if CheckExistMode (ct_bgModeIds_ subRecord) VOIP then Some TYPE_CODE_VOIP else None;
    nr_ownerUid := ct_uid_ subRecord; nr_abilityName := ct_abilityName_ subRecord;
    nr_wantAgent := ct_wantAgent_ subRecord; nr_liveView := false; nr_progress := None |} ;;
  return_if negb accepted, ret (ERR_BGTASK_NOTIFICATION_ERR, mainRecord) ;;
  let r := ct_set_subNotificationLabel_ notificationLabel mainRecord in
  ret (ERR_OK, if ct_subNotificationId_ r =? -1 then ct_set_subNotificationId_ id r else r).

(** ** The banner that asks the user for an authorisation *)
Definition PublishBannerNotification (b : BannerNotificationRecord) (prompt : string) (serviceUid : Z)
    (bannerNotificationBtn : list string) : CM (Z * BannerNotificationRecord) :=
  return_if Z.of_nat (length bannerNotificationBtn) <=? BGTASK_BANNER_NOTIFICATION_BTN_ALLOW_ALLOWED,
    ret (ERR_BGTASK_NOTIFICATION_ERR, b) ;;
  return_if negb DISTRIBUTED_NOTIFICATION_ENABLE, ret (ERR_OK, b) ;;
  id <- next_notification_id ;;
  let label := CreateBannerNotificationLabel (bn_bundleName_ b) (bn_userId_ b) (bn_appIndex_ b) in
  button <- ask ce_CreateActionButton ;;
  return_if negb button, ret (ERR_BGTASK_NOTIFICATION_ERR, b) ;;
  accepted <- helper_publish {|
    nr_label := label; nr_id := id; nr_title := bn_appName_ b; nr_text := prompt; nr_type := None;
    nr_ownerUid := bn_uid_ b; nr_abilityName := ""; nr_wantAgent := None; nr_liveView := false;
    nr_progress := None |} ;;
  return_if negb accepted, ret (ERR_BGTASK_NOTIFICATION_ERR, b) ;;
  ret (ERR_OK, bn_SetNotificationLabel label (bn_SetNotificationId id b)).

Definition RefreshBannerNotifications (bannerNotificationBtn : list string) (newPromptInfos : PromptInfos)
    (serviceUid : Z) : CM unit :=
  return_if Z.of_nat (length bannerNotificationBtn) <=? BGTASK_BANNER_NOTIFICATION_BTN_ALLOW_ALLOWED, ret tt ;;
  return_if negb DISTRIBUTED_NOTIFICATION_ENABLE, ret tt ;;
  active <- ask ce_GetActiveNotifications ;;
  match active with
  | None => ret tt
  | Some notificationRequests =>
      _ <- for_err notificationRequests (fun var =>
        match var with
        | None => ret ERR_BGTASK_NOTIFICATION_ERR
        | Some var =>
            match newPromptInfos !! an_label var with
            | None => ret ERR_OK
            | Some (title, text) =>
                return_if negb (an_creatorUid var =? serviceUid), ret ERR_OK ;;
                return_if negb (an_hasContent var), ret ERR_BGTASK_NOTIFICATION_ERR ;;
                button <- ask ce_CreateActionButton ;;
                return_if negb button, ret ERR_BGTASK_NOTIFICATION_ERR ;;
                emit (ERepublish (an_label var) title text) ;;; ret ERR_OK
            end
        end) ;;
      ret tt
  end.
End Tools.

(** * The notification of a continuous task

    The part of src/services/continuous_task/src/bg_continuous_task_mgr.cpp that decides
    the text of the notification of a task and publishes it.  An operation that assigns
    members of the record it is given returns the record; the caller puts it back into
    the map when it is the record of an entry. *)

Import BackgroundMode BackgroundSubMode.

Definition BGMODE_NUMS : Z := 10.
Definition MAX_NOTIFICATION_TEXT_TYPE : nat := 3.
Definition NOTIFICATION_TEXT_MEDIA_PROCESS_INDEX : nat := 1.
Definition NOTIFICATION_TEXT_VIDEO_BROADCAST_INDEX : nat := 2.
Definition NOTIFICATION_TEXT_WORK_OUT_INDEX : nat := 3.
Definition g_liveViewTypes : list Z := [DATA_TRANSFER; AUDIO_RECORDING; LOCATION; VOIP].
Definition new_line : string := String (Ascii.ascii_of_nat 10) EmptyString.

Section Notification.
Context `{ContinuousPlatform}.
Implicit Types r record subRecord : ContinuousTaskRecord.

(** The label of the main ability; empty when the bundle is not found. *)
Definition GetMainAbilityLabel (bundleName : string) (userId : Z) : CM string :=
  label <- ask (fun e => ce_GetBundleResourceInfo e bundleName) ;;
  ret (default ""%string label).

Definition GetBgModeNameIndex (bgModeId : Z) (isNewApi : bool) : Z :=
  if negb isNewApi then BGMODE_NUMS - 1 else uint32 (bgModeId - 1).

(** [vector.at(index)] under the test of the size. *)
Definition text_at (index : Z) (texts : list string) : option string :=
  if index <? Z.of_nat (length texts) then texts !! Z.to_nat index else None.

(** The AVSession notification of the application is shown. *)
Definition avsession_shown (uid : Z) : CM bool :=
  m <- get cm_avSessionNotification_ ;; ret (default false (m !! uid)).

Definition CheckLiveViewInfoModes r : bool :=
  CheckExistMode (ct_bgModeIds_ r) LOCATION &&
  negb (CheckExistOtherMode (ct_bgModeIds_ r) LOCATION g_liveViewTypes).

Definition CheckLiveViewInfo r : CM bool :=
  info <- get cm_liveViewInfo_ ;;
  return_if bool_decide (info !! ct_uid_ r = None), ret false ;;
  ret (CheckLiveViewInfoModes r).

(** The modes a notification is needed for, ordered. *)
Definition FilterNotificationMode record : CM (list Z) :=
  let carKey := CheckExistMode (ct_bgModeIds_ record) BLUETOOTH_INTERACTION &&
                CheckExistMode (ct_bgSubModeIds_ record) CAR_KEY in
  let modesValue := if carKey then erase_first (fun m => m =? BLUETOOTH_INTERACTION) (ct_bgModeIds_ record)
                    else ct_bgModeIds_ record in
  let subModesValue := if carKey then erase_first (fun m => m =? CAR_KEY) (ct_bgSubModeIds_ record)
                       else ct_bgSubModeIds_ record in
  isPublish <- avsession_shown (ct_uid_ record) ;;
  let isPublishAvsession := isPublish ||
    (CheckExistMode subModesValue BackgroundTaskSubmode.SUBMODE_AVSESSION_AUDIO_PLAYBACK &&
     ct_isByRequestObject_ record) in
  let skip (mode : Z) : bool := ((mode =? AUDIO_PLAYBACK) && isPublishAvsession) ||
    (((mode =? VOIP) || (mode =? AUDIO_RECORDING)) && IsSystem record) in
  ret (SortMode (filter (fun mode => skip mode = false) modesValue)).

Definition CheckSpecialNotificationText record : CM (Z * string) :=
  subText <- get cm_continuousTaskSubText_ ;;
  return_if bool_decide (subText = []), ret (ERR_BGTASK_NOTIFICATION_VERIFY_FAILED, ""%string) ;;
  let text_of (subMode : Z) (index : nat) :=
    if CheckExistMode (ct_bgSubModeIds_ record) subMode then subText !! index else None in
  match text_of BackgroundTaskSubmode.SUBMODE_MEDIA_PROCESS_NORMAL_NOTIFICATION
          NOTIFICATION_TEXT_MEDIA_PROCESS_INDEX,
        text_of BackgroundTaskSubmode.SUBMODE_VIDEO_BROADCAST_NORMAL_NOTIFICATION
          NOTIFICATION_TEXT_VIDEO_BROADCAST_INDEX,
        text_of BackgroundTaskSubmode.SUBMODE_WORK_OUT_NORMAL_NOTIFICATION
          NOTIFICATION_TEXT_WORK_OUT_INDEX with
  | Some t, _, _ | None, Some t, _ | None, None, Some t => ret (ERR_OK, t +:+ new_line)
  | None, None, None => ret (ERR_BGTASK_NOTIFICATION_VERIFY_FAILED, ""%string)
  end.

(** A playing task whose application is silent has the text of a task that starts, until
    [NotifyAudioStart]. *)
Definition SingleModeNotificationText (checkModes : list Z) (mergeBlueNotificationText : string) record :
    CM (Z * string * ContinuousTaskRecord) :=
  let audio := negb (CheckExistMode (ct_bgModeIds_ record) BLUETOOTH_INTERACTION) &&
               CheckExistMode checkModes AUDIO_PLAYBACK in
  isPlayingAudio <- (if audio then CheckAppIsPlaying (ct_uid_ record) else ret true) ;;
  starting <- get cm_startingTaskText_ ;;
  match (if audio && negb isPlayingAudio then head starting else None) with
  | Some t => ret (ERR_OK, t, ct_set_audioPlayState_ false record)
  | None =>
      texts <- get cm_continuousTaskText_ ;;
      match text_at (GetBgModeNameIndex (hd 0 checkModes) (ct_isNewApi_ record)) texts with
      | Some t => ret (ERR_OK, mergeBlueNotificationText +:+ t +:+ new_line, record)
      | None => ret (ERR_BGTASK_NOTIFICATION_VERIFY_FAILED, ""%string, record)
      end
  end.

Definition FormatNotificationText (checkModes : list Z) (mergeBlueNotificationText : string)
    (jsParams : list string) : CM (Z * string) :=
  manager <- ask ce_ResourceManager ;;
  match manager with
  | None => ret (ERR_BGTASK_NOTIFICATION_VERIFY_FAILED, ""%string)
  | Some _ =>
      let n := length checkModes in
      let notificationFormatType :=
        (if decide (n = MAX_NOTIFICATION_TEXT_TYPE - 1)%nat then "notification_text_running_task_two_mode"
         else if decide (n = MAX_NOTIFICATION_TEXT_TYPE) then "notification_text_running_task_three_mode"
         else if decide (MAX_NOTIFICATION_TEXT_TYPE < n)%nat then "notification_text_running_task_exceed"
         else "")%string in
      merged <- ask (fun e => ce_FormatByName e notificationFormatType jsParams) ;;
      return_if bool_decide (merged = ""%string), ret (ERR_BGTASK_NOTIFICATION_VERIFY_FAILED, ""%string) ;;
      ret (ERR_OK, mergeBlueNotificationText +:+ merged)
  end.

(** The texts of the first three modes; [None] when one is missing. *)
Fixpoint mode_texts (texts : gmap Z (string * string)) (room : nat) (checkModes : list Z) : option (list string) :=
  match room, checkModes with
  | O, _ | _, [] => Some []
  | S room', mode :: rest =>
      match texts !! mode with
      | None => None
      | Some (_, modeText) =>
          return_if bool_decide (modeText = ""%string), None ;;
          match mode_texts texts room' rest with
          | Some l => Some (modeText :: l)
          | None => None
          end
      end
  end.

Definition MergeNotificationText (checkModes : list Z) (mergeBlueNotificationText : string) : CM (Z * string) :=
  texts <- get cm_modeForNotificationText_ ;;
  match mode_texts texts MAX_NOTIFICATION_TEXT_TYPE checkModes with
  | None => ret (ERR_BGTASK_NOTIFICATION_VERIFY_FAILED, ""%string)
  | Some jsParams => FormatNotificationText checkModes mergeBlueNotificationText jsParams
  end.

(** The error code and the text; no text is needed when it is empty. *)
Definition CheckNotificationText record : CM (Z * string * ContinuousTaskRecord) :=
  liveView <- CheckLiveViewInfo record ;;
  return_if liveView, ret (ERR_OK, ""%string, record) ;;
  return_if CheckExistMode (ct_bgModeIds_ record) SPECIAL_SCENARIO_PROCESSING,
    (let* (result, text) := CheckSpecialNotificationText record in ret (result, text, record)) ;;
  subText <- get cm_continuousTaskSubText_ ;;
  let carKey := CheckExistMode (ct_bgModeIds_ record) BLUETOOTH_INTERACTION &&
                CheckExistMode (ct_bgSubModeIds_ record) CAR_KEY in
  let blue := if carKey then (fun t => t +:+ new_line) <$> text_at (CAR_KEY - 1) subText else Some ""%string in
  match blue with
  | None => ret (ERR_BGTASK_NOTIFICATION_VERIFY_FAILED, ""%string, record)
  | Some mergeBlueNotificationText =>
      checkModes <- FilterNotificationMode record ;;
      return_if bool_decide (checkModes = []), ret (ERR_OK, mergeBlueNotificationText, record) ;;
      return_if bool_decide (length checkModes = 1%nat),
        SingleModeNotificationText checkModes mergeBlueNotificationText record ;;
      let* (result, text) := MergeNotificationText checkModes mergeBlueNotificationText in
      ret (result, text, record)
  end.

Definition GetNotificationText record : CM (string * ContinuousTaskRecord) :=
  let* (p, record) := CheckNotificationText record in
  ret (p.2, record).

(** [appName_] of the cached bundle information. *)
Definition cached_app_name (uid : Z) : CM string :=
  cache <- get cm_cachedBundleInfos_ ;;
  ret (match cache !! uid with Some c => cb_appName_ c | None => ""%string end).

Definition SendContinuousTaskNotification record : CM (Z * ContinuousTaskRecord) :=
  texts <- get cm_continuousTaskText_ ;;
  return_if bool_decide (texts = []), ret (ERR_BGTASK_NOTIFICATION_VERIFY_FAILED, record) ;;
  appName <- cached_app_name (ct_uid_ record) ;;
  return_if bool_decide (appName = ""%string), ret (ERR_BGTASK_NOTIFICATION_VERIFY_FAILED, record) ;;
  let* (p, record) := CheckNotificationText record in
  let (result, notificationText) := p : Z * string in
  return_if negb (result =? ERR_OK), ret (result, record) ;;
  return_if bool_decide (notificationText = ""%string),
    (if negb (ct_notificationId_ record =? -1)
     then _ <- CancelNotification_tool (ct_notificationLabel_ record) (ct_notificationId_ record) ;;
          ret (ERR_OK, ct_set_notificationId_ (-1) record)
     else ret (ERR_OK, record)) ;;
  isPublish <- avsession_shown (ct_uid_ record) ;;
  let isPublishAvsession := isPublish ||
    (CheckExistMode (ct_bgSubModeIds_ record) BackgroundTaskSubmode.SUBMODE_AVSESSION_AUDIO_PLAYBACK &&
     ct_isByRequestObject_ record) in
  return_if bool_decide (ct_bgModeIds_ record = [AUDIO_PLAYBACK]) && isPublishAvsession, ret (ERR_OK, record) ;;
  serviceUid <- get cm_bgTaskUid_ ;;
  PublishNotification record appName notificationText serviceUid.

(** ** Data transfer together with other modes: two notifications *)

(** The error code, and the two records. *)
Definition SendNotification subRecord record (appName : string) (isSubNotification : bool) :
    CM (Z * ContinuousTaskRecord * ContinuousTaskRecord) :=
  let* (p, subRecord) := CheckNotificationText subRecord in
  let (result, notificationText) := p : Z * string in
  return_if negb (result =? ERR_OK), ret (result, subRecord, record) ;;
  return_if isSubNotification && bool_decide (notificationText = ""%string), ret (ERR_OK, subRecord, record) ;;
  serviceUid <- get cm_bgTaskUid_ ;;
  let* (result, record) :=
    (if isSubNotification then PublishSubNotification subRecord appName notificationText serviceUid record
     else PublishMainNotification subRecord appName notificationText serviceUid record) in
  ret (result, subRecord, record).

(** The modes other than data transfer, and the submodes at their positions. *)
Fixpoint other_modes (modes subModes : list Z) : list Z * list Z :=
  match modes with
  | [] => ([], [])
  | mode :: rest =>
      let (ms, subs) := other_modes rest (tail subModes) in
      if mode =? DATA_TRANSFER then (ms, subs)
      else (mode :: ms, match subModes with sub :: _ => sub :: subs | [] => subs end)
  end.

(** The record made for the two notifications; its [bgModeId_] is not read. *)
Definition live_view_record record : ContinuousTaskRecord :=
  let r := default default_task
    (new_ContinuousTaskRecord (ct_bundleName_ record) (ct_abilityName_ record) (ct_uid_ record)
       (ct_pid_ record) (ct_bgModeId_ record) false [] (-1)) in
  ct_set_bgModeIds_ [DATA_TRANSFER] $ ct_set_bgModeId_ DATA_TRANSFER $ ct_set_isByRequestObject_ true $
  ct_set_isNewApi_ (ct_isNewApi_ record) $ ct_set_continuousTaskId_ (ct_continuousTaskId_ record) $
  ct_set_abilityId_ (ct_abilityId_ record) $ ct_set_wantAgent_ (ct_wantAgent_ record) r.

Definition SendLiveViewAndOtherNotification record : CM (Z * ContinuousTaskRecord) :=
  texts <- get cm_continuousTaskText_ ;;
  return_if bool_decide (texts = []), ret (ERR_BGTASK_NOTIFICATION_VERIFY_FAILED, record) ;;
  appName <- cached_app_name (ct_uid_ record) ;;
  return_if bool_decide (appName = ""%string), ret (ERR_BGTASK_NOTIFICATION_VERIFY_FAILED, record) ;;
  let* (p, record) := SendNotification (live_view_record record) record appName false in
  let (result, subRecord) := p : Z * ContinuousTaskRecord in
  return_if negb (result =? ERR_OK), ret (result, record) ;;
  let (modes, subModes) := other_modes (ct_bgModeIds_ record) (ct_bgSubModeIds_ record) in
  let subRecord := ct_set_bgModeId_ (hd 0 modes) $ ct_set_bgModeIds_ modes $
    ct_set_bgSubModeIds_ (ct_bgSubModeIds_ subRecord ++ subModes) subRecord in
  let* (p, record) := SendNotification subRecord record appName true in
  return_if negb (p.1 =? ERR_OK),
    (if negb (ct_notificationId_ record =? -1)
     then _ <- CancelNotification_tool (ct_notificationLabel_ record) (ct_notificationId_ record) ;;
          ret (p.1, record)
     else ret (p.1, record)) ;;
  ret (ERR_OK, record).

(** Data transfer with other modes, asked for by request object. *)
Definition has_sub_notification record : bool :=
  ct_isByRequestObject_ record && bool_decide (1 < length (ct_bgModeIds_ record))%nat &&
  CheckExistMode (ct_bgModeIds_ record) DATA_TRANSFER.

Definition HandleActiveNotification record : CM ContinuousTaskRecord :=
  return_if ct_suspendState_ record, ret record ;;
  let* (_, record) :=
    (if has_sub_notification record then SendLiveViewAndOtherNotification record
     else SendContinuousTaskNotification record) in
  ret record.

(** The copy of a record with its other modes only; the mode is assigned under a test of
    the submodes. *)
Definition InitSubNotificationRecord record subRecord : ContinuousTaskRecord :=
  let (modes, subModes) := other_modes (ct_bgModeIds_ record) (ct_bgSubModeIds_ record) in
  let subRecord := ct_set_bgModeIds_ modes (ct_set_bgSubModeIds_ subModes subRecord) in
  if negb (bool_decide (subModes = [])) then ct_set_bgModeId_ (hd 0 modes) subRecord else subRecord.
End Notification.
