(* ===== verification/ContinuousTaskMgr.v ===== *)
(** * Continuous task manager: starting, updating and ending tasks

    src/services/continuous_task/src/bg_continuous_task_mgr.cpp: what subscribers are
    told, the admission of a task, its update, and the ways it is suspended, activated
    and ended.  A [PostSyncTask] runs at once, in the caller; a [PostTask] is a
    [PostedTask] of the queue. *)

From S2P Require Import Prelude.
From S2P Require Import Errors.
From S2P Require Import Interfaces.
From S2P Require Import BackgroundModes.
From S2P Require Import Json.
From S2P Require Import ContinuousTaskRecord.
From S2P Require Import ContinuousTypes.
From S2P Require Import NotificationTools.
Import BackgroundMode BackgroundSubMode.
Import ContinuousTaskCancelReason ContinuousTaskSuspendReason.
Local Open Scope Z_scope.

Definition BGMODE_PERMISSION : string := "ohos.permission.KEEP_BACKGROUND_RUNNING".
Definition BGMODE_PERMISSION_SYSTEM : string := "ohos.permission.KEEP_BACKGROUND_RUNNING_SYSTEM".
Definition BGMODE_PERMISSION_SPECIAL_SCENARIO : string :=
  "ohos.permission.KEEP_BACKGROUND_RUNNING_SPECIAL_SCENARIO".
Definition SYSTEM_APP_BGMODE_WIFI_INTERACTION : Z := 64.
Definition PC_BGMODE_TASK_KEEPING : Z := 256.
Definition BGMODE_SPECIAL_SCENARIO_PROCESSING : Z := 4096.
Definition BGMODE_AUDIO_PLAYBACK : Z := 2.
Definition BGMODE_AUDIO_RECORDING : Z := 4.
Definition BGMODE_VOIP : Z := 128.
Definition ILLEGAL_NOTIFICATION_ID : Z := -2.
Definition INVALID_BGMODE : Z := 0.
Definition BG_MODE_INDEX_HEAD : Z := 1.
Definition ALL_MODES : Z := 255.
Definition ABILITY_TASK_MAX_NUM : Z := 10.
Definition UID_TRANSFORM_DIVISOR : Z := 200000.

(** A shift of a 32-bit value by a [uint32_t]: the instruction takes the amount modulo 32
    (the language leaves amounts of 32 and more undefined). *)
Definition shl32 (x n : Z) : Z := uint32 (Z.shiftl x (n mod 32)).

(** ** Telling others *)
Section Notify.
Implicit Types r : ContinuousTaskRecord.

Definition callback_of r : ContinuousTaskCallbackInfo := {|
  ci_typeId_ := ct_bgModeId_ r; ci_creatorUid_ := ct_uid_ r; ci_creatorPid_ := ct_pid_ r;
  ci_abilityName_ := ct_abilityName_ r; ci_isFromWebview_ := ct_isFromWebview_ r;
  ci_isBatchApi_ := ct_isBatchApi_ r; ci_typeIds_ := ct_bgModeIds_ r; ci_abilityId_ := ct_abilityId_ r;
  ci_tokenId_ := ct_fullTokenId_ r; ci_continuousTaskId_ := ct_continuousTaskId_ r;
  ci_cancelReason_ := ct_reason_ r; ci_detailedCancelReason_ := ct_detailedCancelReason_ r;
  ci_suspendState_ := ct_suspendState_ r; ci_suspendReason_ := ct_suspendReason_ r;
  ci_isByRequestObject_ := ct_isByRequestObject_ r; ci_bundleName_ := ct_bundleName_ r;
  ci_userId_ := ct_userId_ r; ci_appIndex_ := ct_appIndex_ r;
  ci_backgroundSubModes_ := ct_bgSubModeIds_ r; ci_notificationId_ := ct_notificationId_ r;
  ci_wantAgentBundleName_ := match ct_wantAgentInfo_ r with Some i => wai_bundleName_ i | None => "" end;
  ci_wantAgentAbilityName_ := match ct_wantAgentInfo_ r with Some i => wai_abilityName_ i | None => "" end;
  ci_cancelCallBackSelf_ := false; ci_isStandby_ := ct_isStandby_ r; ci_isFromComponent_ := ct_isFromComponent_ r |}.

(** The flag of callbacks for every task. *)
Definition wants_state (i : SubscriberInfo) : bool := 0 <? Z.land (si_flag_ i) SUBSCRIBER_BACKGROUND_TASK_STATE.
Definition has_subscriber (i : SubscriberInfo) : bool := bool_decide (is_Some (si_subscriber_ i)).

Definition CanNotifyHap (i : SubscriberInfo) (info : ContinuousTaskCallbackInfo) : bool :=
  return_if si_isHap_ i && (si_uid_ i =? ci_creatorUid_ info),
    (return_if (ci_cancelReason_ info =? REMOVE_NOTIFICATION_CANCEL) && ci_isFromComponent_ info, false ;;
     (ci_cancelReason_ info =? REMOVE_NOTIFICATION_CANCEL) || (ci_cancelReason_ info =? FREEZE_CANCEL)) ;;
  false.

(** Starting and updating: the subscribers that are services, and the applications that
    asked for the state of every task. *)
Definition notify_state (kind : CallbackKind) (info : ContinuousTaskCallbackInfo) (i : SubscriberInfo) :
    list ContEffect :=
  if has_subscriber i && (negb (si_isHap_ i) || wants_state i) then [ENotify (si_object i) kind info] else [].

Definition NotifySubscribersTaskStart (info : ContinuousTaskCallbackInfo) : CM unit :=
  subs <- get cm_bgTaskSubscribers_ ;;
  emits (EObserver OnContinuousTaskStart info :: (subs ≫= notify_state OnContinuousTaskStart info)).

Definition NotifySubscribersTaskUpdate (info : ContinuousTaskCallbackInfo) : CM unit :=
  subs <- get cm_bgTaskSubscribers_ ;;
  emits (EObserver OnContinuousTaskUpdate info :: (subs ≫= notify_state OnContinuousTaskUpdate info)).

Definition NotifySubscribersTaskCancel (info : ContinuousTaskCallbackInfo) : CM unit :=
  subs <- get cm_bgTaskSubscribers_ ;;
  emits (EObserver OnContinuousTaskStop info :: (subs ≫= fun i =>
    if has_subscriber i && (negb (si_isHap_ i) || CanNotifyHap i info || wants_state i)
    then [ENotify (si_object i) OnContinuousTaskStop info] else [])).

(** To a service a task that is suspended has stopped, and one that is activated has
    started; unless it was for standby. *)
Definition notify_suspension (stop suspend : CallbackKind) (info : ContinuousTaskCallbackInfo) : CM unit :=
  let isNotStandby := negb (ci_isStandby_ info) in
  subs <- get cm_bgTaskSubscribers_ ;;
  emits ((if isNotStandby then [EObserver stop info] else []) ++ (subs ≫= fun i =>
    if negb (si_isHap_ i) && has_subscriber i && isNotStandby then [ENotify (si_object i) stop info]
    else if si_isHap_ i && has_subscriber i then
      (if wants_state i && isNotStandby then [ENotify (si_object i) stop info] else []) ++
      (if si_uid_ i =? ci_creatorUid_ info then [ENotify (si_object i) suspend info] else [])
    else [])).

Definition NotifySubscribersTaskSuspend (info : ContinuousTaskCallbackInfo) : CM unit :=
  notify_suspension OnContinuousTaskStop OnContinuousTaskSuspend info.
Definition NotifySubscribersTaskActive (info : ContinuousTaskCallbackInfo) : CM unit :=
  notify_suspension OnContinuousTaskStart OnContinuousTaskActive info.

Definition NotifySubscribers (changeEventType : ContinuousTaskEventTriggerType)
    (info : ContinuousTaskCallbackInfo) : CM unit :=
  match changeEventType with
  | TASK_START => NotifySubscribersTaskStart info
  | TASK_UPDATE => NotifySubscribersTaskUpdate info
  | TASK_CANCEL => NotifySubscribersTaskCancel info
  | TASK_SUSPEND => NotifySubscribersTaskSuspend info
  | TASK_ACTIVE => NotifySubscribersTaskActive info
  end.

Definition GetModeNumByTypeIds (typeIds : list Z) : Z :=
  fold_left (fun modeNum mode => Z.lor modeNum (shl32 1 (uint32 (mode - 1)))) typeIds 0.

Definition ReportHisysEvent (changeEventType : ContinuousTaskEventTriggerType) r : CM unit :=
  match changeEventType with
  | TASK_START | TASK_UPDATE =>
      emit (EHiSysEvent "CONTINUOUS_TASK_APPLY" (ct_uid_ r) (ct_pid_ r) (ct_bundleName_ r) (ct_abilityName_ r)
        [GetModeNumByTypeIds (ct_bgModeIds_ r); ct_abilityId_ r])
  | TASK_CANCEL =>
      emit (EHiSysEvent "CONTINUOUS_TASK_CANCEL" (ct_uid_ r) (ct_pid_ r) (ct_bundleName_ r) (ct_abilityName_ r)
        [GetModeNumByTypeIds (ct_bgModeIds_ r); ct_abilityId_ r; ct_reason_ r])
  | TASK_SUSPEND | TASK_ACTIVE => ret tt
  end.

Definition OnContinuousTaskChanged r (changeEventType : ContinuousTaskEventTriggerType) : CM unit :=
  NotifySubscribers changeEventType (callback_of r) ;;;
  ReportHisysEvent changeEventType r.

Definition IsExistCallback (uid type : Z) : CM bool :=
  subs <- get cm_bgTaskSubscribers_ ;;
  ret (existsb (fun i => si_isHap_ i && (si_uid_ i =? uid) && (0 <? Z.land (si_flag_ i) type)) subs).

(** Services are told when the last task of an application is gone. *)
Definition HandleAppContinuousTaskStop (uid : Z) : CM unit :=
  found <- find_task (fun t => ct_uid_ t =? uid) ;;
  match found with
  | Some _ => ret tt
  | None =>
      subs <- get cm_bgTaskSubscribers_ ;;
      emits (subs ≫= fun i =>
        if negb (si_isHap_ i) && has_subscriber i then [EAppContinuousTaskStop (si_object i) uid] else [])
  end.

Definition RefreshTaskRecord : CM Z :=
  m <- get tasks ;;
  emit (ETaskRecords m) ;;;
  ask ce_SaveTaskRecord.
End Notify.

Section Manager.
Context `{ContinuousPlatform}.
Implicit Types r record : ContinuousTaskRecord.

(** The notifications of a record that is not in the map any more, unless a task that is
    shares the main one. *)
Definition CancelNotification record : CM Z :=
  return_if ct_notificationId_ record =? -1, ret ERR_OK ;;
  found <- find_task (fun t => (ct_notificationId_ t =? ct_notificationId_ record) &&
    bool_decide (ct_notificationLabel_ t = ct_notificationLabel_ record)) ;;
  match found with
  | Some _ => ret ERR_OK
  | None =>
      result <- CancelNotification_tool (ct_notificationLabel_ record) (ct_notificationId_ record) ;;
      return_if negb (ct_subNotificationId_ record =? -1) && ct_isByRequestObject_ record,
        CancelNotification_tool (ct_subNotificationLabel_ record) (ct_subNotificationId_ record) ;;
      ret result
  end.

(** The main notification whatever its id, and the sub notification if there is one. *)
Definition cancel_both record : CM unit :=
  CancelNotification_tool (ct_notificationLabel_ record) (ct_notificationId_ record) ;;;
  (if negb (ct_subNotificationId_ record =? -1) && ct_isByRequestObject_ record
   then CancelNotification_tool (ct_subNotificationLabel_ record) (ct_subNotificationId_ record) ;;; ret tt
   else ret tt).

(** ** Keys of the map *)
Definition context_key (uid : Z) (abilityName : string) (abilityId : Z) : string :=
  pretty uid +:+ SEPARATOR +:+ abilityName +:+ SEPARATOR +:+ pretty abilityId.
Definition task_key r : string :=
  context_key (ct_uid_ r) (ct_abilityName_ r) (ct_abilityId_ r) +:+
  (if ct_isByRequestObject_ r then SEPARATOR +:+ pretty (ct_continuousTaskId_ r) else "").

(** ** Admission *)
Definition GetOsAccountIdFromUid (uid : Z) : CM Z :=
  if HAS_OS_ACCOUNT_PART then ask (fun e => ce_GetOsAccountLocalIdFromUid e uid)
  else ret (Z.quot uid UID_TRANSFORM_DIVISOR).

(** [emplace]: the first ability of a name. *)
Definition AddAbilityBgModeInfos (bundleInfo : BundleInfo) record : option (gmap string Z) :=
  let modes := fold_left (fun m ab =>
    if ab_backgroundModes ab =? INVALID_BGMODE then m
    else match m !! ab_name ab with Some _ => m | None => <[ab_name ab := ab_backgroundModes ab]> m end)
    (bi_abilityInfos bundleInfo) ∅ in
  if bool_decide (modes = ∅) then
    if ct_needNotificationForInnerApi_ record && ct_isFromComponent_ record
    then Some {[ct_abilityName_ record := AUDIO_PLAYBACK]} else None
  else Some modes.

Definition SetCachedBundleInfo record : CM bool :=
  cache <- get cm_cachedBundleInfos_ ;;
  return_if bool_decide (is_Some (cache !! ct_uid_ record)), ret true ;;
  info <- ask (fun e => ce_GetBundleInfo e (ct_bundleName_ record) (ct_userId_ record)) ;;
  match info with
  | None => ret false
  | Some bundleInfo =>
      appName <- GetMainAbilityLabel (ct_bundleName_ record) (ct_userId_ record) ;;
      match AddAbilityBgModeInfos bundleInfo record with
      | Some modes =>
          modify (cm_set_cachedBundleInfos_ (<[ct_uid_ record := mkCached modes appName]> cache)) ;;; ret true
      | None => ret false
      end
  end.

Definition GetBackgroundModeInfo (uid : Z) (abilityName : string) : CM Z :=
  cache <- get cm_cachedBundleInfos_ ;;
  ret (default INVALID_BGMODE (c ← cache !! uid; cb_abilityBgMode_ c !! abilityName)).

Definition CheckSpecialScenarioACLPermission (callingTokenId : Z) : CM bool :=
  ask (fun e => ce_CheckACLPermission e BGMODE_PERMISSION_SYSTEM callingTokenId ||
                ce_CheckACLPermission e BGMODE_PERMISSION_SPECIAL_SCENARIO callingTokenId).

Definition AllowUseTaskKeeping record : CM bool :=
  return_if SUPPORT_TASK_KEEPING, ret true ;;
  exempted <- ask (fun e => ce_IsTaskKeepingExempted e (ct_bundleName_ record)) ;;
  return_if exempted, ret true ;;
  acl <- CheckSpecialScenarioACLPermission (ct_callingTokenId_ record) ;;
  ret (acl && negb (ct_isSystem_ record)).

Definition AllowUseSpecial record : CM Z :=
  exempted <- ask (fun e => ce_IsSpecialExempted e (ct_bundleName_ record)) ;;
  acl <- CheckSpecialScenarioACLPermission (ct_callingTokenId_ record) ;;
  return_if negb exempted && negb acl, ret ERR_BGTASK_CONTINUOUS_APP_NOT_HAVE_BGMODE_PERMISSION_SYSTEM ;;
  return_if negb exempted && ct_isSystem_ record, ret ERR_BGTASK_CONTINUOUS_SYSTEM_APP_NOT_SUPPORT_ACL ;;
  malicious <- ask (fun e => ce_IsMaliciousApp e (ct_bundleName_ record)) ;;
  return_if malicious, ret ERR_BGTASK_APP_DETECTED_MALICIOUS_BEHAVIOR ;;
  return_if negb SUPPORT_AUTH, ret ERR_BGTASK_SPECIAL_SCENARIO_PROCESSING_NOTSUPPORT_DEVICE ;;
  ret ERR_OK.

Definition CheckBgmodeType (configuredBgMode requestedBgModeId : Z) (isNewApi : bool) record : CM Z :=
  return_if negb isNewApi,
    (if configuredBgMode =? INVALID_BGMODE then ret ERR_BGMODE_NULL_OR_TYPE_ERR else ret ERR_OK) ;;
  let recordedBgMode := shl32 BG_MODE_INDEX_HEAD (uint32 (requestedBgModeId - 1)) in
  return_if (recordedBgMode =? SYSTEM_APP_BGMODE_WIFI_INTERACTION) && negb (IsSystem record),
    ret ERR_BGTASK_NOT_SYSTEM_APP ;;
  taskKeeping <- (if recordedBgMode =? PC_BGMODE_TASK_KEEPING then AllowUseTaskKeeping record else ret true) ;;
  return_if negb taskKeeping, ret ERR_BGTASK_KEEPING_TASK_VERIFY_ERR ;;
  special <- (if recordedBgMode =? BGMODE_SPECIAL_SCENARIO_PROCESSING then AllowUseSpecial record else ret ERR_OK) ;;
  return_if negb (special =? ERR_OK), ret special ;;
  let avPlayBackAndRecordMode := shl32 BG_MODE_INDEX_HEAD (BackgroundTaskMode.MODE_AV_PLAYBACK_AND_RECORD - 1) in
  return_if ((recordedBgMode =? BGMODE_AUDIO_PLAYBACK) || (recordedBgMode =? BGMODE_AUDIO_RECORDING) ||
             (recordedBgMode =? BGMODE_VOIP)) && ct_isByRequestObject_ record &&
            negb (Z.land configuredBgMode avPlayBackAndRecordMode =? 0), ret ERR_OK ;;
  return_if (requestedBgModeId =? INVALID_BGMODE) || (Z.land configuredBgMode recordedBgMode =? 0),
    ret ERR_BGTASK_INVALID_BGMODE ;;
  ret ERR_OK.

Definition CheckBgmodeTypeForInner (requestedBgModeId : Z) : Z :=
  return_if (requestedBgModeId =? INVALID_BGMODE) || (BGMODE_NUMS <? requestedBgModeId),
    ERR_BGTASK_INVALID_BGMODE ;;
  ERR_OK.

Definition CheckTaskParam (taskParam : option ContinuousTaskParam) : bool :=
  match taskParam with
  | None => false
  | Some p =>
      if tp_isNewApi_ p then
        return_if bool_decide (tp_wantAgent_ p = None) || bool_decide (tp_abilityName_ p = ""%string), false ;;
        return_if tp_isByRequestObject_ p &&
          (bool_decide (tp_bgModeIds_ p = []) || bool_decide (tp_bgSubModeIds_ p = [])), false ;;
        return_if tp_isBatchApi_ p && bool_decide (tp_bgModeIds_ p = []), false ;;
        true
      else
        return_if bool_decide (tp_abilityName_ p = ""%string), false ;;
        return_if tp_isBatchApi_ p && bool_decide (tp_bgModeIds_ p = []), false ;;
        true
  end.

(** The tasks asked for by request object with this ability id, of any application. *)
Definition ability_tasks (abilityId : Z) (m : gmap string ContinuousTaskRecord) : gmap string ContinuousTaskRecord :=
  filter (fun e : string * ContinuousTaskRecord =>
    ct_abilityId_ e.2 = abilityId /\ ct_isByRequestObject_ e.2 = true) m.

Definition CheckAbilityTaskNum record : CM Z :=
  m <- get tasks ;;
  return_if ABILITY_TASK_MAX_NUM <=? Z.of_nat (size (ability_tasks (ct_abilityId_ record) m)),
    ret ERR_BGTASK_CONTINUOUS_NOT_APPLY_MAX_TASK ;;
  ret ERR_OK.

Definition AllowApplyContinuousTask record : CM Z :=
  let uid := ct_uid_ record in
  prelaunch <- IsGamePreLaunchApp uid ;;
  return_if GAME_PRE_LAUNCH_ENABLE && prelaunch, ret ERR_BGTASK_CONTINUOUS_NOT_APPLY_PRELOAD_STATE ;;
  return_if negb (ct_isByRequestObject_ record), ret ERR_OK ;;
  result <- CheckAbilityTaskNum record ;;
  return_if negb (result =? ERR_OK), ret result ;;
  foreground <- get cm_appOnForeground_ ;;
  return_if IsFromWebview record || bool_decide (uid ∈ foreground), ret ERR_OK ;;
  applied <- get cm_applyTaskOnForeground_ ;;
  let checkBgModeIds := default [] (applied !! uid) ++ [AUDIO_PLAYBACK] in
  return_if CheckApplyMode (ct_bgModeIds_ record) checkBgModeIds, ret ERR_OK ;;
  fgApps <- ask ce_GetForegroundApplications ;;
  return_if bool_decide (uid ∈ default [] fgApps), ret ERR_OK ;;
  ret ERR_BGTASK_CONTINUOUS_NOT_APPLY_ONBACKGROUND.

(** ** Sharing the notification of another task *)

(** The error code, whether a notification is to be sent, and the record with the
    notification it shares. *)
Definition DetermineMatchCombinedTaskNotifacation record : CM (Z * bool * ContinuousTaskRecord) :=
  let mergeNotificationTaskId := ct_combinedNotificationTaskId_ record in
  found <- find_task (fun t => (ct_uid_ t =? ct_uid_ record) &&
    (ct_continuousTaskId_ t =? mergeNotificationTaskId)) ;;
  match found with
  | None => ret (ERR_BGTASK_CONTINUOUS_TASKID_INVALID, true, record)
  | Some (key, other) =>
      return_if negb (ct_isCombinedTaskNotification_ other),
        ret (ERR_BGTASK_CONTINUOUS_NOT_MERGE_COMBINED_FALSE, true, record) ;;
      return_if ct_notificationId_ other =? -1,
        ret (ERR_BGTASK_CONTINUOUS_NOT_MERGE_NOTIFICATION_NOT_EXIST, true, record) ;;
      return_if negb (CheckModesSame (ct_bgModeIds_ other) (ct_bgModeIds_ record)),
        ret (ERR_BGTASK_CONTINUOUS_MODE_OR_SUBMODE_TYPE_MISMATCH, true, record) ;;
      return_if negb (CheckModesSame (ct_bgSubModeIds_ other) (ct_bgSubModeIds_ record)),
        ret (ERR_BGTASK_CONTINUOUS_MODE_OR_SUBMODE_TYPE_MISMATCH, true, record) ;;
      put_task key (ct_set_combinedNotificationTaskId_ mergeNotificationTaskId other) ;;;
      ret (ERR_OK, false,
        ct_set_notificationLabel_ (ct_notificationLabel_ other) $
        ct_set_notificationId_ (ct_notificationId_ other) record)
  end.

Definition CheckCombinedTaskNotification record : CM (Z * bool * ContinuousTaskRecord) :=
  return_if negb (ct_isByRequestObject_ record), ret (ERR_OK, true, record) ;;
  return_if ct_isCombinedTaskNotification_ record && CheckExistMode (ct_bgModeIds_ record) DATA_TRANSFER,
    ret (ERR_BGTASK_CONTINUOUS_DATA_TRANSFER_NOT_MERGE_NOTIFICATION, true, record) ;;
  return_if ct_isCombinedTaskNotification_ record &&
            CheckExistMode (ct_bgModeIds_ record) SPECIAL_SCENARIO_PROCESSING,
    ret (ERR_BGTASK_CONTINUOUS_SPECIAL_SCENARIO_PROCESSING_NOT_MERGE_NOTIFICATION, true, record) ;;
  return_if ct_combinedNotificationTaskId_ record =? -1, ret (ERR_OK, true, record) ;;
  return_if negb (ct_isCombinedTaskNotification_ record),
    ret (ERR_BGTASK_CONTINUOUS_NOT_MERGE_CURRENTTASK_COMBINED_FALSE, true, record) ;;
  DetermineMatchCombinedTaskNotifacation record.
End Manager.
