(* ===== verification/ContinuousTaskStart.v ===== *)
(** * Continuous task manager: activation, start and update

    src/services/continuous_task/src/bg_continuous_task_mgr.cpp, from the requests of
    applications and services to the entry of the task.  A result [None] of an entry
    point is a read out of the bounds of a vector. *)

From S2P Require Import Prelude.
From S2P Require Import Errors.
From S2P Require Import Interfaces.
From S2P Require Import BackgroundModes.
From S2P Require Import Json.
From S2P Require Import ContinuousTaskRecord.
From S2P Require Import ContinuousTypes.
From S2P Require Import NotificationTools.
From S2P Require Import ContinuousTaskMgr.
Import BackgroundMode BackgroundSubMode.
Local Open Scope Z_scope.

Section Start.
Context `{ContinuousPlatform}.
Implicit Types r record : ContinuousTaskRecord.

(** ** Activation

    The loop of [HandleActiveContinuousTask] does not advance after it has activated the
    entry it is at: the next turn finds it active and goes on.  [keys] are the entries
    from the iterator on; [false] is a loop that has not come to the end in [fuel]
    turns. *)
Fixpoint active_loop (fuel : nat) (uid : Z) (keys : list string)
    (notificationLabel : string) (notificationId : Z) (notificationOldIds : list Z) : CM bool :=
  match fuel, keys with
  | O, _ => ret false
  | S _, [] => ret true
  | S fuel', key :: rest =>
      entry <- find_key key ;;
      match entry with
      | None => active_loop fuel' uid rest notificationLabel notificationId notificationOldIds
      | Some r =>
          return_if negb (ct_uid_ r =? uid) || negb (ct_suspendState_ r),
            active_loop fuel' uid rest notificationLabel notificationId notificationOldIds ;;
          let r := ct_set_isStandby_ false (ct_set_suspendState_ false r) in
          put_task key r ;;;
          OnContinuousTaskChanged r TASK_ACTIVE ;;;
          if ct_notificationId_ r =? -1 then
            RefreshTaskRecord ;;;
            active_loop fuel' uid keys notificationLabel notificationId notificationOldIds
          else if (notificationId =? ILLEGAL_NOTIFICATION_ID) ||
                  CheckExistNotification notificationOldIds (ct_notificationId_ r) then
            let notificationOldIds := notificationOldIds ++ [ct_notificationId_ r] in
            r <- HandleActiveNotification r ;;
            put_task key r ;;;
            RefreshTaskRecord ;;;
            active_loop fuel' uid keys (ct_notificationLabel_ r) (ct_notificationId_ r) notificationOldIds
          else
            put_task key (ct_set_notificationId_ notificationId (ct_set_notificationLabel_ notificationLabel r)) ;;;
            RefreshTaskRecord ;;;
            active_loop fuel' uid keys notificationLabel notificationId notificationOldIds
      end
  end.

(** Two turns for each entry, and one to find the end. *)
Definition active_fuel (keys : list string) : nat := S (2 * length keys).

Definition HandleActiveContinuousTask (uid pid : Z) (key : string) : CM unit :=
  found <- find_task (fun t => (ct_uid_ t =? uid) && ct_suspendState_ t) ;;
  match found with
  | None => ret tt
  | Some _ =>
      keys <- get (fun s => (map_to_list (tasks s)).*1) ;;
      active_loop (active_fuel keys) uid keys "default" ILLEGAL_NOTIFICATION_ID [] ;;; ret tt
  end.

(** ** Start *)

(** The error code, and the record with its id and its notification. *)
Definition StartBackgroundRunningSubmit record (taskInfoMapKey : string) : CM (Z * ContinuousTaskRecord) :=
  result <-
    (if ct_isFromWebview_ record then ret (CheckBgmodeTypeForInner (ct_bgModeId_ record))
     else
       configuredBgMode <- GetBackgroundModeInfo (ct_uid_ record) (ct_abilityName_ record) ;;
       for_err (ct_bgModeIds_ record) (fun mode =>
         result <- CheckBgmodeType configuredBgMode mode (ct_isNewApi_ record) record ;;
         (if negb (result =? ERR_OK)
          then emit (EHiSysEvent "BGMODE_TYPE_MATCHING_FAILED" (ct_uid_ record) (ct_pid_ record)
                 (ct_bundleName_ record) "" [result])
          else ret tt) ;;;
         ret result)) ;;
  return_if negb (ct_isFromWebview_ record) && negb (result =? ERR_OK), ret (result, record) ;;
  let* (p, record) := CheckCombinedTaskNotification record in
  let (result, sendNotification) := p : Z * bool in
  return_if negb (result =? ERR_OK), ret (result, record) ;;
  let* (result, record) :=
    (if (negb (ct_isFromWebview_ record) || ct_needNotificationForInnerApi_ record) && sendNotification then
       if has_sub_notification record then SendLiveViewAndOtherNotification record
       else SendContinuousTaskNotification record
     else ret (ERR_OK, record)) in
  return_if negb (result =? ERR_OK), ret (result, record) ;;
  put_task taskInfoMapKey record ;;;
  OnContinuousTaskChanged record TASK_START ;;;
  result <- RefreshTaskRecord ;;
  ret (result, record).

(** [++continuousTaskIdIndex_] *)
Definition next_task_id : CM Z :=
  i <- get cm_continuousTaskIdIndex_ ;;
  let i' := int32 (i + 1) in
  modify (cm_set_continuousTaskIdIndex_ i') ;;; ret i'.

Definition uid_disabled (uid : Z) : CM bool :=
  get (fun s => bool_decide (uid ∈ cm_disableRequestUidList_ s)).

(** The suspension tested for a key that is there is that of the new record. *)
Definition StartBackgroundRunningInner record : CM (Z * ContinuousTaskRecord) :=
  disabled <- uid_disabled (ct_uid_ record) ;;
  return_if disabled, ret (ERR_BGTASK_MALICIOUS_CONTINUOUSTASK, record) ;;
  result <- AllowApplyContinuousTask record ;;
  return_if negb (result =? ERR_OK), ret (result, record) ;;
  id <- next_task_id ;;
  let record := ct_set_continuousTaskId_ id record in
  let taskInfoMapKey := task_key record in
  result <- (if ct_isByRequestObject_ record then CheckAbilityTaskNum record else ret ERR_OK) ;;
  return_if negb (result =? ERR_OK), ret (result, record) ;;
  entry <- find_key taskInfoMapKey ;;
  match entry with
  | Some _ =>
      return_if ct_suspendState_ record,
        (HandleActiveContinuousTask (ct_uid_ record) (ct_pid_ record) taskInfoMapKey ;;; ret (ERR_OK, record)) ;;
      ret (ERR_BGTASK_OBJECT_EXISTS, record)
  | None =>
      (if negb (ct_isFromWebview_ record) || ct_needNotificationForInnerApi_ record
       then SetCachedBundleInfo record ;;; ret tt else ret tt) ;;;
      StartBackgroundRunningSubmit record taskInfoMapKey
  end.

Definition InitRecordParam record (taskParam : ContinuousTaskParam) (userId : Z) : CM ContinuousTaskRecord :=
  fullTokenId <- ask ce_callingFullTokenId ;;
  callingTokenId <- ask ce_callingTokenId ;;
  isSystem <- ask (fun e => ce_IsSystemApp e fullTokenId) ;;
  ret (ct_set_wantAgent_ (tp_wantAgent_ taskParam) $
    ct_set_userId_ userId $
    ct_set_isNewApi_ (tp_isNewApi_ taskParam) $
    ct_set_appName_ (tp_appName_ taskParam) $
    ct_set_fullTokenId_ fullTokenId $
    ct_set_callingTokenId_ callingTokenId $
    ct_set_isSystem_ isSystem $
    ct_set_bgSubModeIds_ (tp_bgSubModeIds_ taskParam) $
    ct_set_isCombinedTaskNotification_ (tp_isCombinedTaskNotification_ taskParam) $
    ct_set_combinedNotificationTaskId_ (tp_combinedNotificationTaskId_ taskParam) $
    ct_set_isByRequestObject_ (tp_isByRequestObject_ taskParam) $
    ct_set_appIndex_ (tp_appIndex_ taskParam) $
    ct_set_progressInfo_ (tp_progressInfo_ taskParam) record).

(** A submode in the want is the car key of a Bluetooth task of the older interface. *)
Definition CheckSubMode (want : Want) record : Z * ContinuousTaskRecord :=
  match w_subMode want with
  | None => (ERR_OK, record)
  | Some subMode =>
      if CheckExistMode (ct_bgModeIds_ record) BLUETOOTH_INTERACTION && (subMode =? CAR_KEY) &&
         negb (ct_isByRequestObject_ record)
      then (ERR_OK, ct_set_bgSubModeIds_ (ct_bgSubModeIds_ record ++ [CAR_KEY]) record)
      else (ERR_BGTASK_CHECK_TASK_PARAM, record)
  end.

Definition set_want_info (want : Want) record : ContinuousTaskRecord :=
  ct_set_wantAgentInfo_ (Some (mkWantAgentInfo (w_bundleName want) (w_abilityName want))) record.

(** The notification and task ids the caller is given. *)
Definition set_out_ids record (p : ContinuousTaskParam) : ContinuousTaskParam :=
  mkParam (tp_isNewApi_ p) (tp_bgModeId_ p) (tp_wantAgent_ p) (tp_abilityName_ p) (tp_appName_ p)
    (tp_isBatchApi_ p) (tp_bgModeIds_ p) (tp_abilityId_ p) (tp_bgSubModeIds_ p)
    (tp_isCombinedTaskNotification_ p) (tp_combinedNotificationTaskId_ p) (tp_updateTaskId_ p)
    (tp_isByRequestObject_ p) (tp_appIndex_ p) (tp_requestAuthApiVersion_ p)
    (ct_notificationId_ record) (ct_continuousTaskId_ record) (tp_progressInfo_ p).

Definition StartBackgroundRunning (taskParam : option ContinuousTaskParam) :
    CM (option (Z * option ContinuousTaskParam)) :=
  ready <- get cm_isSysReady_ ;;
  return_if negb ready, ret (Some (ERR_BGTASK_SYS_NOT_READY, taskParam)) ;;
  return_if negb (CheckTaskParam taskParam), ret (Some (ERR_BGTASK_CHECK_TASK_PARAM, taskParam)) ;;
  match taskParam with
  | None => ret (Some (ERR_BGTASK_CHECK_TASK_PARAM, taskParam))
  | Some p =>
      callingUid <- ask ce_callingUid ;;
      callingPid <- ask ce_callingPid ;;
      bundleName <- ask (fun e => ce_GetClientBundleName e callingUid) ;;
      userId <- GetOsAccountIdFromUid callingUid ;;
      permission <- ask (fun e => ce_CheckPermission e BGMODE_PERMISSION) ;;
      return_if negb permission, ret (Some (ERR_BGTASK_PERMISSION_DENIED, taskParam)) ;;
      match new_ContinuousTaskRecord bundleName (tp_abilityName_ p) callingUid callingPid (tp_bgModeId_ p)
              (tp_isBatchApi_ p) (tp_bgModeIds_ p) (tp_abilityId_ p) with
      | None => ret None
      | Some record =>
          record <- InitRecordParam record p userId ;;
          let (result, record) :=
            match want_of (tp_wantAgent_ p) with
            | Some want => CheckSubMode want (set_want_info want record)
            | None => (ERR_OK, record)
            end in
          return_if negb (result =? ERR_OK), ret (Some (result, taskParam)) ;;
          let* (result, record) := StartBackgroundRunningInner record in
          ret (Some (result, Some (set_out_ids record p)))
      end
  end.

(** ** Requests of services

    The modes a service may ask for, by its uid, and whether a notification is sent. *)
Definition g_innerApiReqBgRunningConfig : list (Z * (Z * bool)) := [
  (7022, (VOIP, false));
  (5520, (SPECIAL_SCENARIO_PROCESSING, false));
  (7878, (AUDIO_PLAYBACK, true));
  (if FEATURE_PRODUCT_WATCH then 7500 else 7259, (WORKOUT, false))].

Definition CheckPermissionForInner (taskParam : ContinuousTaskParamForInner) (callingUid : Z) : bool :=
  return_if match table_find callingUid g_innerApiReqBgRunningConfig with
            | Some (mode, _) => mode =? ip_bgModeId_ taskParam
            | None => false
            end, true ;;
  (callingUid =? ip_uid_ taskParam) && (ip_bgModeId_ taskParam =? AUDIO_PLAYBACK).

Definition GetAbilityNamePid (taskParam : ContinuousTaskParamForInner) (pid callingUid : Z) : CM string :=
  let webview := ("Webview" +:+ pretty (ip_bgModeId_ taskParam))%string in
  return_if negb (callingUid =? ip_uid_ taskParam) || negb (ip_bgModeId_ taskParam =? AUDIO_PLAYBACK), ret webview ;;
  infos <- ask ce_GetAbilityRunningInfos ;;
  ret match infos with
      | None => webview
      | Some l =>
          match list_find (fun i : Z * Z * string => i.1.1 = pid /\ i.1.2 = ip_uid_ taskParam) l with
          | Some (_, (_, abilityName)) => abilityName
          | None => webview
          end
      end.

(** The pid of the request, or that of the caller. *)
Definition inner_pid (taskParam : ContinuousTaskParamForInner) : CM Z :=
  callingPid <- ask ce_callingPid ;;
  ret (if ip_pid_ taskParam =? 0 then callingPid else ip_pid_ taskParam).

Definition StartBackgroundRunningForInner (taskParam : ContinuousTaskParamForInner) (callingUid : Z) : CM Z :=
  let uid := ip_uid_ taskParam in
  callingPid <- inner_pid taskParam ;;
  fullTokenId <- ask ce_callingFullTokenId ;;
  bundleName <- ask (fun e => ce_GetClientBundleName e uid) ;;
  abilityName <- GetAbilityNamePid taskParam callingPid callingUid ;;
  userId <- GetOsAccountIdFromUid uid ;;
  match new_ContinuousTaskRecord bundleName abilityName uid callingPid (ip_bgModeId_ taskParam) false [] (-1) with
  | None => ret ERR_OK
  | Some record =>
      let configured := match table_find callingUid g_innerApiReqBgRunningConfig with
                        | Some (_, needNotification) => needNotification
                        | None => false
                        end in
      let own := (callingUid =? uid) && (ip_bgModeId_ taskParam =? AUDIO_PLAYBACK) in
      let record :=
        ct_set_isFromComponent_ own $ ct_set_needNotificationForInnerApi_ (configured || own) $
        ct_set_fullTokenId_ fullTokenId $ ct_set_userId_ userId $
        ct_set_isFromWebview_ true $ ct_set_isNewApi_ true record in
      let* (result, _) := StartBackgroundRunningInner record in
      ret result
  end.

(** ** Update *)
Definition CheckIsSysReadyAndPermission (callingUid : Z) : CM Z :=
  ready <- get cm_isSysReady_ ;;
  return_if negb ready, ret ERR_BGTASK_SYS_NOT_READY ;;
  permission <- ask (fun e => ce_CheckPermission e BGMODE_PERMISSION) ;;
  return_if negb permission, ret ERR_BGTASK_PERMISSION_DENIED ;;
  return_if callingUid <? 0, ret ERR_BGTASK_INVALID_UID ;;
  ret ERR_OK.

(** The error code, and the record as far as it was changed. *)
Definition UpdateTaskNotification record (taskParam : ContinuousTaskParam) : CM (Z * ContinuousTaskRecord) :=
  let oldModes := ct_bgModeIds_ record in
  mainAbilityLabel <- GetMainAbilityLabel (ct_bundleName_ record) (ct_userId_ record) ;;
  return_if bool_decide (mainAbilityLabel = ""%string), ret (ERR_BGTASK_NOTIFICATION_VERIFY_FAILED, record) ;;
  let record := if negb (ct_isCombinedTaskNotification_ record)
    then ct_set_bgSubModeIds_ (tp_bgSubModeIds_ taskParam) $ ct_set_bgModeIds_ (tp_bgModeIds_ taskParam) $
         ct_set_bgModeId_ (tp_bgModeId_ taskParam) record
    else record in
  let record := ct_set_wantAgent_ (tp_wantAgent_ taskParam) record in
  let record := match want_of (ct_wantAgent_ record) with
                | Some want => set_want_info want record
                | None => record
                end in
  serviceUid <- get cm_bgTaskUid_ ;;
  return_if ct_isCombinedTaskNotification_ record,
    (if CheckModesSame oldModes (tp_bgModeIds_ taskParam) then
       result <- RefreshContinuousNotificationWantAndContext serviceUid
         {[ct_notificationLabel_ record := (mainAbilityLabel, ""%string)]} record false ;;
       ret (result, record)
     else ret (ERR_BGTASK_CONTINUOUS_UPDATE_FAIL_SAME_MODE_AND_MERGED, record)) ;;
  let* (notificationText, record) := GetNotificationText record in
  return_if bool_decide (notificationText = ""%string), ret (ERR_OK, record) ;;
  return_if ct_notificationId_ record =? -1, SendContinuousTaskNotification record ;;
  result <- RefreshContinuousNotificationWantAndContext serviceUid
    {[ct_notificationLabel_ record := (mainAbilityLabel, notificationText)]} record true ;;
  ret (result, record).

(** What an update ends with: activation of a suspended task, the callbacks, the caller's
    ids and the storage. *)
Definition finish_update (key : string) record (taskParam : ContinuousTaskParam) :
    CM (Z * ContinuousTaskParam) :=
  (if ct_suspendState_ record then HandleActiveContinuousTask (ct_uid_ record) (ct_pid_ record) key else ret tt) ;;;
  entry <- find_key key ;;
  let record := default record entry in
  OnContinuousTaskChanged record TASK_UPDATE ;;;
  result <- RefreshTaskRecord ;;
  ret (result, set_out_ids record taskParam).

Definition UpdateTaskInfo (key : string) record (taskParam : ContinuousTaskParam) : CM (Z * ContinuousTaskParam) :=
  let* (result, record) := UpdateTaskNotification record taskParam in
  put_task key record ;;;
  return_if negb (result =? ERR_OK), ret (result, taskParam) ;;
  finish_update key record taskParam.

Definition UpdateBackgroundRunningByTaskIdInner (uid : Z) (taskParam : ContinuousTaskParam) :
    CM (Z * ContinuousTaskParam) :=
  disabled <- uid_disabled uid ;;
  return_if disabled, ret (ERR_BGTASK_MALICIOUS_CONTINUOUSTASK, taskParam) ;;
  let continuousTaskId := tp_updateTaskId_ taskParam in
  return_if continuousTaskId <? 0, ret (ERR_BGTASK_CONTINUOUS_TASKID_INVALID, taskParam) ;;
  found <- find_task (fun t => (ct_continuousTaskId_ t =? continuousTaskId) && ct_isByRequestObject_ t) ;;
  match found with
  | None => ret (ERR_BGTASK_OBJECT_NOT_EXIST, taskParam)
  | Some (key, record) =>
      configuredBgMode <- GetBackgroundModeInfo uid (ct_abilityName_ record) ;;
      result <- for_err (tp_bgModeIds_ taskParam) (fun mode => CheckBgmodeType configuredBgMode mode true record) ;;
      return_if negb (result =? ERR_OK), ret (result, taskParam) ;;
      return_if CheckExistMode (ct_bgModeIds_ record) DATA_TRANSFER ||
                CheckExistMode (tp_bgModeIds_ taskParam) DATA_TRANSFER,
        ret (ERR_BGTASK_CONTINUOUS_DATA_TRANSFER_NOT_UPDATE, taskParam) ;;
      return_if bool_decide (is_Some (tp_progressInfo_ taskParam)),
        ret (ERR_BGTASK_CONTINUOUS_PROGRESS_INFO_INVALID, taskParam) ;;
      return_if CheckExistMode (ct_bgModeIds_ record) SPECIAL_SCENARIO_PROCESSING &&
                tp_isCombinedTaskNotification_ taskParam,
        ret (ERR_BGTASK_CONTINUOUS_SPECIAL_SCENARIO_PROCESSING_NOT_MERGE_NOTIFICATION, taskParam) ;;
      UpdateTaskInfo key record taskParam
  end.

Definition UpdateBackgroundRunningInner (taskInfoMapKey : string) (taskParam : ContinuousTaskParam) :
    CM (Z * ContinuousTaskParam) :=
  entry <- find_key taskInfoMapKey ;;
  match entry with
  | None => ret (ERR_BGTASK_OBJECT_NOT_EXIST, taskParam)
  | Some record =>
      disabled <- uid_disabled (ct_uid_ record) ;;
      return_if disabled, ret (ERR_BGTASK_MALICIOUS_CONTINUOUSTASK, taskParam) ;;
      let oldModes := ct_bgModeIds_ record in
      return_if CheckModesSame oldModes (tp_bgModeIds_ taskParam), ret (ERR_OK, taskParam) ;;
      let record := if negb (CheckExistMode (tp_bgModeIds_ taskParam) BLUETOOTH_INTERACTION) &&
                       negb (bool_decide (ct_bgSubModeIds_ record = []))
                    then ct_set_bgSubModeIds_ [] record else record in
      put_task taskInfoMapKey record ;;;
      configuredBgMode <- GetBackgroundModeInfo (ct_uid_ record) (ct_abilityName_ record) ;;
      result <- for_err (tp_bgModeIds_ taskParam) (fun mode => CheckBgmodeType configuredBgMode mode true record) ;;
      return_if negb (result =? ERR_OK), ret (result, taskParam) ;;
      let record := ct_set_isBatchApi_ (tp_isBatchApi_ taskParam) $
                    ct_set_bgModeIds_ (tp_bgModeIds_ taskParam) record in
      put_task taskInfoMapKey record ;;;
      let* (result, record) :=
        (if CheckExistMode oldModes DATA_TRANSFER && CheckExistMode (ct_bgModeIds_ record) DATA_TRANSFER
         then ret (ERR_OK, record)
         else SendContinuousTaskNotification record) in
      put_task taskInfoMapKey record ;;;
      return_if negb (result =? ERR_OK), ret (result, taskParam) ;;
      finish_update taskInfoMapKey record taskParam
  end.

Definition UpdateBackgroundRunning (taskParam : ContinuousTaskParam) : CM (Z * ContinuousTaskParam) :=
  callingUid <- ask ce_callingUid ;;
  result <- CheckIsSysReadyAndPermission callingUid ;;
  return_if negb (result =? ERR_OK), ret (result, taskParam) ;;
  if tp_isByRequestObject_ taskParam then UpdateBackgroundRunningByTaskIdInner callingUid taskParam
  else UpdateBackgroundRunningInner
    (context_key callingUid (tp_abilityName_ taskParam) (tp_abilityId_ taskParam)) taskParam.

Definition UpdateDataTransferProgressInner (uid : Z) (progressInfo : DataTransferProgress) : CM Z :=
  let continuousTaskId := dp_continuousTaskId_ progressInfo in
  return_if continuousTaskId <? 0, ret ERR_BGTASK_CONTINUOUS_TASKID_INVALID ;;
  return_if bool_decide (dp_progressInfo_ progressInfo = None), ret ERR_BGTASK_CONTINUOUS_PROGRESS_INFO_INVALID ;;
  found <- find_task (fun t => (ct_continuousTaskId_ t =? continuousTaskId) && (ct_uid_ t =? uid)) ;;
  match found with
  | None => ret ERR_BGTASK_OBJECT_NOT_EXIST
  | Some (key, record) =>
      return_if negb (CheckExistMode (ct_bgModeIds_ record) DATA_TRANSFER), ret ERR_BGTASK_CONTINUOUS_NOT_DATA_TRANSFER ;;
      let record := match dp_wantAgent_ progressInfo with
                    | Some agent => ct_set_wantAgent_ (Some agent) record
                    | None => record
                    end in
      let record := ct_set_progressInfo_ (dp_progressInfo_ progressInfo) record in
      let* (result, record) := SendContinuousTaskNotification record in
      put_task key record ;;;
      return_if negb (result =? ERR_OK), ret result ;;
      RefreshTaskRecord
  end.

Definition UpdateDataTransferProgress (progressInfo : DataTransferProgress) : CM Z :=
  callingUid <- ask ce_callingUid ;;
  result <- CheckIsSysReadyAndPermission callingUid ;;
  return_if negb (result =? ERR_OK), ret result ;;
  UpdateDataTransferProgressInner callingUid progressInfo.
End Start.
