(* ===== verification/ContinuousTaskStop.v ===== *)
(** * Continuous task manager: suspension and end of tasks

    src/services/continuous_task/src/bg_continuous_task_mgr.cpp: stopping by the
    application, by the detection services, by the user and by the system; suspension and
    activation; the notifications of AVSession and of live views; the shell's cancel. *)

From S2P Require Import Prelude.
From S2P Require Import Errors.
From S2P Require Import Interfaces.
From S2P Require Import BackgroundModes.
From S2P Require Import Json.
From S2P Require Import ContinuousTaskRecord.
From S2P Require Import ContinuousTypes.
From S2P Require Import NotificationTools.
From S2P Require Import ContinuousTaskMgr.
From S2P Require Import ContinuousTaskStart.
Import BackgroundMode BackgroundSubMode.
Import ContinuousTaskCancelReason ContinuousTaskSuspendReason.
Local Open Scope Z_scope.

Definition AVSESSION_SA_UID : Z := 6700.
Definition SA_ID_VOIP_CALL_MANAGER : Z := 65968.
Definition SA_ID_HEALTH_SPORT : Z := 9527.
Definition SA_ID_AAM_CONN : Z := 65952.

Section Stop.
Context `{ContinuousPlatform}.
Implicit Types r record : ContinuousTaskRecord.

(** ** By the application *)
Definition StopBackgroundRunningByTask (task : ContinuousTaskRecord) : CM Z :=
  found <- find_task (fun t => ct_continuousTaskId_ t =? ct_continuousTaskId_ task) ;;
  match found with
  | None => ret ERR_BGTASK_OBJECT_EXISTS
  | Some (key, record) =>
      OnContinuousTaskChanged record TASK_CANCEL ;;;
      erase_task key ;;;
      result <- CancelNotification record ;;
      HandleAppContinuousTaskStop (ct_uid_ record) ;;;
      RefreshTaskRecord ;;;
      ret result
  end.

Definition of_context (uid : Z) (abilityName : string) (abilityId : Z) r : bool :=
  (ct_uid_ r =? uid) && bool_decide (ct_abilityName_ r = abilityName) && (ct_abilityId_ r =? abilityId).

Definition StopBackgroundRunningByContext (uid : Z) (abilityName : string) (abilityId : Z) : CM Z :=
  m <- get tasks ;;
  let tasklist := filter (fun t => of_context uid abilityName abilityId t = true) (map_to_list m).*2 in
  for_err tasklist StopBackgroundRunningByTask.

(** By id when there is one, whoever owns the task; else every task of the context. *)
Definition StopBackgroundRunningInner (uid : Z) (abilityName : string) (abilityId continuousTaskId : Z) : CM Z :=
  if negb (continuousTaskId =? -1) then
    found <- find_task (fun t => ct_continuousTaskId_ t =? continuousTaskId) ;;
    match found with
    | None => ret ERR_BGTASK_OBJECT_NOT_EXIST
    | Some (_, task) => StopBackgroundRunningByTask task
    end
  else
    found <- find_task (of_context uid abilityName abilityId) ;;
    match found with
    | None => ret ERR_BGTASK_OBJECT_NOT_EXIST
    | Some _ => StopBackgroundRunningByContext uid abilityName abilityId
    end.

Definition StopBackgroundRunning (abilityName : string) (abilityId continuousTaskId : Z) : CM Z :=
  ready <- get cm_isSysReady_ ;;
  return_if negb ready, ret ERR_BGTASK_SYS_NOT_READY ;;
  return_if bool_decide (abilityName = ""%string), ret ERR_BGTASK_INVALID_PARAM ;;
  callingUid <- ask ce_callingUid ;;
  StopBackgroundRunningInner callingUid abilityName abilityId continuousTaskId.

Definition StopBackgroundRunningForInner (taskParam : ContinuousTaskParamForInner) (callingUid : Z) : CM Z :=
  callingPid <- inner_pid taskParam ;;
  abilityName <- GetAbilityNamePid taskParam callingPid callingUid ;;
  StopBackgroundRunningInner (ip_uid_ taskParam) abilityName (ip_abilityId_ taskParam) (-1).

Definition RequestBackgroundRunningForInner (taskParam : option ContinuousTaskParamForInner) : CM Z :=
  ready <- get cm_isSysReady_ ;;
  return_if negb ready, ret ERR_BGTASK_SYS_NOT_READY ;;
  match taskParam with
  | None => ret ERR_BGTASK_CHECK_TASK_PARAM
  | Some p =>
      callingUid <- ask ce_callingUid ;;
      return_if negb (CheckPermissionForInner p callingUid), ret ERR_BGTASK_CHECK_TASK_PARAM ;;
      if ip_isStart_ p then StartBackgroundRunningForInner p callingUid
      else StopBackgroundRunningForInner p callingUid
  end.

Definition DebugContinuousTaskInner (taskParam : option ContinuousTaskParamForInner) : CM Z :=
  ready <- get cm_isSysReady_ ;;
  return_if negb ready, ret ERR_BGTASK_SYS_NOT_READY ;;
  match taskParam with
  | None => ret ERR_BGTASK_CHECK_TASK_PARAM
  | Some p => if ip_isStart_ p then StartBackgroundRunningForInner p 0 else StopBackgroundRunningForInner p 0
  end.

(** ** By the detection services *)
Definition SetReason (mapKey : string) (reason detailedCancelReason : Z) : CM unit :=
  entry <- find_key mapKey ;;
  match entry with
  | None => ret tt
  | Some record =>
      let record := ct_set_reason_ reason record in
      put_task mapKey
        (if negb (detailedCancelReason =? INVALID_REASON)
         then ct_set_detailedCancelReason_ detailedCancelReason record else record)
  end.

(** The task of an entry goes, with its notifications. *)
Definition remove_with_notifications (key : string) (reason detailed : Z) record : CM unit :=
  let record := ct_set_detailedCancelReason_ detailed (ct_set_reason_ reason record) in
  put_task key record ;;;
  OnContinuousTaskChanged record TASK_CANCEL ;;;
  cancel_both record ;;;
  erase_task key ;;;
  RefreshTaskRecord ;;; ret tt.

Definition RemoveContinuousTaskRecordByUid (uid : Z) : CM unit :=
  for_tasks (fun key record =>
    return_if negb (ct_uid_ record =? uid), ret tt ;;
    remove_with_notifications key FREEZE_CANCEL SYSTEM_CANCEL_USE_ILLEGALLY record) ;;;
  HandleAppContinuousTaskStop uid.

Definition RemoveContinuousTaskRecordByUidAndMode (uid mode : Z) : CM unit :=
  for_tasks (fun key record =>
    return_if negb (ct_uid_ record =? uid), ret tt ;;
    return_if negb (CheckExistMode (ct_bgModeIds_ record) mode), ret tt ;;
    remove_with_notifications key FREEZE_CANCEL (GetDetailedCancelReasonFromMode mode) record) ;;;
  HandleAppContinuousTaskStop uid.

Definition HandleStopContinuousTask (uid pid taskType : Z) (key : string) : CM unit :=
  return_if taskType =? DATA_TRANSFER, RemoveContinuousTaskRecordByUidAndMode uid taskType ;;
  return_if taskType =? ALL_MODES, RemoveContinuousTaskRecordByUid uid ;;
  entry <- find_key key ;;
  match entry with
  | None => ret tt
  | Some record =>
      SetReason key FREEZE_CANCEL
        match ct_bgModeIds_ record with
        | mode :: _ => GetDetailedCancelReasonFromMode mode
        | [] => INVALID_REASON
        end ;;;
      StopBackgroundRunningByTask record ;;; ret tt
  end.

(** [PostTask] of an operation, when the manager is ready. *)
Definition post_if_ready (t : PostedTask) : CM unit :=
  ready <- get cm_isSysReady_ ;;
  return_if negb ready, ret tt ;;
  post t.

Definition StopContinuousTask (uid pid taskType : Z) (key : string) : CM unit :=
  post_if_ready (PT_StopContinuousTask uid pid taskType key).
Definition SuspendContinuousTask (uid pid reason : Z) (key : string) (isStandby : bool) : CM unit :=
  post_if_ready (PT_SuspendContinuousTask uid pid reason key isStandby).
Definition ActiveContinuousTask (uid pid : Z) (key : string) (isStandby : bool) : CM unit :=
  post_if_ready (PT_ActiveContinuousTask uid pid key isStandby).
Definition SuspendContinuousAudioTask (uid : Z) : CM unit := post_if_ready (PT_SuspendContinuousAudioTask uid).

(** -1 stands for a mode without a reason. *)
Definition suspend_reason (mode : Z) (isStandby : bool) : Z :=
  let reasonValue := GetSuspendReasonValue mode isStandby in
  if reasonValue =? 0 then -1 else int32 reasonValue.

(** The notification of the task of the key goes even when the uid is another's. *)
Definition HandleSuspendContinuousTask (uid pid mode : Z) (key : string) : CM unit :=
  entry <- find_key key ;;
  match entry with
  | None => ret tt
  | Some record =>
      (if ct_uid_ record =? uid then
         let record := ct_set_suspendReason_ (suspend_reason mode false) $ ct_set_isStandby_ false $
                       ct_set_suspendState_ true record in
         put_task key record ;;;
         OnContinuousTaskChanged record TASK_SUSPEND ;;;
         RefreshTaskRecord ;;; ret tt
       else ret tt) ;;;
      cancel_both record ;;;
      HandleAppContinuousTaskStop uid
  end.

Definition HandleSuspendContinuousTaskByStandby (uid pid mode : Z) (key : string) : CM unit :=
  entry <- find_key key ;;
  match entry with
  | None => ret tt
  | Some taskInfo =>
      return_if negb (ct_uid_ taskInfo =? uid) || ct_suspendState_ taskInfo || ct_isStandbySuspend_ taskInfo, ret tt ;;
      let taskInfo := ct_set_suspendReason_ (suspend_reason mode true) $ ct_set_isStandbySuspend_ true $
                      ct_set_isStandby_ true taskInfo in
      put_task key taskInfo ;;;
      OnContinuousTaskChanged taskInfo TASK_SUSPEND ;;;
      RefreshTaskRecord ;;; ret tt
  end.

(** The posted closure: an application without a callback for suspension loses the task. *)
Definition run_SuspendContinuousTask (uid pid reason : Z) (key : string) (isStandby : bool) : CM unit :=
  hasCallback <- IsExistCallback uid CONTINUOUS_TASK_SUSPEND ;;
  return_if isStandby,
    (if hasCallback then HandleSuspendContinuousTaskByStandby uid pid reason key else ret tt) ;;
  if hasCallback then HandleSuspendContinuousTask uid pid reason key
  else HandleStopContinuousTask uid pid 0 key.

Definition HandleActiveContinuousTaskByStandby (uid pid : Z) (key : string) : CM unit :=
  for_tasks (fun key record =>
    return_if negb (ct_uid_ record =? uid) || negb (ct_isStandbySuspend_ record), ret tt ;;
    let record := ct_set_isStandbySuspend_ false (ct_set_isStandby_ true record) in
    put_task key record ;;;
    OnContinuousTaskChanged record TASK_ACTIVE ;;;
    RefreshTaskRecord ;;; ret tt).

Definition run_ActiveContinuousTask (uid pid : Z) (key : string) (isStandby : bool) : CM unit :=
  return_if isStandby,
    (hasCallback <- IsExistCallback uid CONTINUOUS_TASK_ACTIVE ;;
     if hasCallback then HandleActiveContinuousTaskByStandby uid pid key else ret tt) ;;
  HandleActiveContinuousTask uid pid key.

(** ** Audio *)
Definition SendAudioCallBackTaskState record : CM unit :=
  subs <- get cm_bgTaskSubscribers_ ;;
  let i := callback_of record in
  let info := mkCallbackInfo (ci_typeId_ i) (ci_creatorUid_ i) (ci_creatorPid_ i) (ci_abilityName_ i)
    (ci_isFromWebview_ i) (ci_isBatchApi_ i) (ci_typeIds_ i) (ci_abilityId_ i) (ci_tokenId_ i)
    (ci_continuousTaskId_ i) (ci_cancelReason_ i) (-1) (ci_suspendState_ i) (ci_suspendReason_ i)
    (ci_isByRequestObject_ i) (ci_bundleName_ i) (ci_userId_ i) (ci_appIndex_ i) [] (-1) "" "" false false false in
  emits (subs ≫= fun sub =>
    if si_isHap_ sub && has_subscriber sub && wants_state sub
    then [ENotify (si_object sub) OnContinuousTaskStop info] else []).

(** A first time the task is suspended, a second time it ends. *)
Definition HandleSuspendContinuousAudioTask (uid : Z) : CM unit :=
  for_tasks (fun key record =>
    return_if negb ((ct_uid_ record =? uid) && CheckExistMode (ct_bgModeIds_ record) AUDIO_PLAYBACK), ret tt ;;
    let record := ct_set_audioDetectState_ false record in
    put_task key record ;;;
    CancelNotification_tool (ct_notificationLabel_ record) (ct_notificationId_ record) ;;;
    hasCallback <- IsExistCallback uid CONTINUOUS_TASK_SUSPEND ;;
    return_if negb hasCallback, SendAudioCallBackTaskState record ;;
    if ct_suspendAudioTaskTimes_ record =? 0 then
      let record := ct_set_suspendReason_ SYSTEM_SUSPEND_AUDIO_PLAYBACK_NOT_RUNNING $
                    ct_set_suspendAudioTaskTimes_ 1 $ ct_set_suspendState_ true record in
      put_task key record ;;;
      OnContinuousTaskChanged record TASK_SUSPEND ;;;
      RefreshTaskRecord ;;; ret tt
    else
      let record := ct_set_detailedCancelReason_ SYSTEM_CANCEL_AUDIO_PLAYBACK_NOT_RUNNING $
                    ct_set_reason_ FREEZE_CANCEL record in
      put_task key record ;;;
      OnContinuousTaskChanged record TASK_CANCEL ;;;
      erase_task key ;;;
      RefreshTaskRecord ;;; ret tt) ;;;
  HandleAppContinuousTaskStop uid.

Definition NotifyAudioStart (uid : Z) : CM Z :=
  ready <- get cm_isSysReady_ ;;
  return_if negb ready, ret ERR_BGTASK_SYS_NOT_READY ;;
  post (PT_NotifyAudioStart uid) ;;; ret ERR_OK.

(** The silent tasks of the application, gathered until one has no text: the marked
    records, the new texts, and whether the walk came to the end. *)
Fixpoint audio_started (texts : list string) (appName : string) (uid : Z)
    (l : list (string * ContinuousTaskRecord)) : list (string * ContinuousTaskRecord) * PromptInfos * bool :=
  match l with
  | [] => ([], ∅, true)
  | (key, record) :: rest =>
      return_if ct_audioPlayState_ record || (ct_notificationId_ record =? -1) || negb (ct_uid_ record =? uid),
        audio_started texts appName uid rest ;;
      match text_at (GetBgModeNameIndex AUDIO_PLAYBACK (ct_isNewApi_ record)) texts with
      | None => ([], ∅, false)
      | Some notificationText =>
          return_if bool_decide (notificationText = ""%string), ([], ∅, false) ;;
          let '(marked, infos, complete) := audio_started texts appName uid rest in
          ((key, ct_set_audioPlayState_ true record) :: marked,
           <[ct_notificationLabel_ record := (appName, notificationText)]> infos, complete)
      end
  end.

Definition NotifyAudioStartInner (uid : Z) : CM unit :=
  found <- find_task (fun t => (ct_uid_ t =? uid) && negb (ct_audioPlayState_ t) && (0 <? ct_notificationId_ t)) ;;
  match found with
  | None => ret tt
  | Some (_, first) =>
      appName <- GetMainAbilityLabel (ct_bundleName_ first) (ct_userId_ first) ;;
      return_if bool_decide (appName = ""%string), ret tt ;;
      texts <- get cm_continuousTaskText_ ;;
      l <- get (fun s => map_to_list (tasks s)) ;;
      let '(marked, newPromptInfos, complete) := audio_started texts appName uid l in
      for_each marked (fun e => put_task e.1 e.2) ;;;
      return_if negb complete || bool_decide (newPromptInfos = ∅), ret tt ;;
      serviceUid <- get cm_bgTaskUid_ ;;
      RefreshContinuousNotifications newPromptInfos serviceUid ;;;
      RefreshTaskRecord ;;; ret tt
  end.

(** ** AVSession *)

(** The delayed tasks all have one name: [RemoveTask] takes those of every uid back. *)
Definition audio_playback_send (t : PostedTask) : bool :=
  match t with PT_AVSession _ _ _ => true | _ => false end.
Definition RemoveAudioPlaybackDelayTask (uid : Z) : CM unit :=
  delayed <- get cm_delayTasks_ ;;
  return_if bool_decide (uid ∉ delayed), ret tt ;;
  modify (fun s => cm_set_delayTasks_ (delayed ∖ {[uid]})
    (cm_set_posted (filter (fun t => audio_playback_send t = false) (cm_posted s)) s)).

Definition AVSessionNotifyUpdateNotificationInner (uid pid : Z) (isPublish : bool) : CM Z :=
  modify (fun s => cm_set_avSessionNotification_ (<[uid := isPublish]> (cm_avSessionNotification_ s)) s) ;;;
  (if isPublish then RemoveAudioPlaybackDelayTask uid else ret tt) ;;;
  found <- find_task (fun t => ct_uid_ t =? uid) ;;
  match found with
  | None => RemoveAudioPlaybackDelayTask uid ;;; ret ERR_BGTASK_OBJECT_NOT_EXIST
  | Some (key, record) =>
      return_if negb (ct_audioDetectState_ record),
        (put_task key (ct_set_audioDetectState_ true record) ;;;
         RemoveAudioPlaybackDelayTask uid ;;; ret ERR_OK) ;;
      return_if negb isPublish &&
                CheckExistMode (ct_bgSubModeIds_ record) BackgroundTaskSubmode.SUBMODE_AVSESSION_AUDIO_PLAYBACK,
        (RemoveAudioPlaybackDelayTask uid ;;; ret ERR_OK) ;;
      return_if negb isPublish && bool_decide (ct_bgModeIds_ record = [AUDIO_PLAYBACK]),
        (let* (result, record) := SendContinuousTaskNotification record in
         put_task key record ;;;
         RefreshTaskRecord ;;;
         RemoveAudioPlaybackDelayTask uid ;;; ret result) ;;
      result <- (if negb (CheckExistMode (ct_bgModeIds_ record) DATA_TRANSFER) then
          mainAbilityLabel <- GetMainAbilityLabel (ct_bundleName_ record) (ct_userId_ record) ;;
          let* (notificationText, record) := GetNotificationText record in
          result <- (if bool_decide (notificationText = ""%string) then
              result <- CancelNotification_tool (ct_notificationLabel_ record) (ct_notificationId_ record) ;;
              put_task key (ct_set_notificationId_ (-1) record) ;;; ret result
            else
              put_task key record ;;;
              serviceUid <- get cm_bgTaskUid_ ;;
              RefreshContinuousNotifications
                {[ct_notificationLabel_ record := (mainAbilityLabel, notificationText)]} serviceUid ;;;
              ret ERR_OK) ;;
          RefreshTaskRecord ;;; ret result
        else ret ERR_OK) ;;
      RemoveAudioPlaybackDelayTask uid ;;; ret result
  end.

Definition AVSessionNotifyUpdateNotification (uid pid : Z) (isPublish : bool) : CM Z :=
  ready <- get cm_isSysReady_ ;;
  return_if negb ready, ret ERR_BGTASK_SYS_NOT_READY ;;
  callingUid <- ask ce_callingUid ;;
  return_if negb (callingUid =? AVSESSION_SA_UID), ret ERR_BGTASK_CHECK_TASK_PARAM ;;
  if isPublish then AVSessionNotifyUpdateNotificationInner uid pid isPublish
  else
    post (PT_AVSession uid pid isPublish) ;;;
    modify (fun s => cm_set_delayTasks_ ({[uid]} ∪ cm_delayTasks_ s) s) ;;; ret ERR_OK.

(** ** Live views *)
Definition SetLiveViewInfo (uid : Z) (isLiveViewPublish : bool) (eventName : string) : CM unit :=
  modify (fun s =>
    let events := default ∅ (cm_liveViewInfo_ s !! uid) in
    if isLiveViewPublish then cm_set_liveViewInfo_ (<[uid := {[eventName]} ∪ events]> (cm_liveViewInfo_ s)) s
    else
      let events := events ∖ {[eventName]} in
      cm_set_liveViewInfo_ (if bool_decide (events = ∅) then delete uid (cm_liveViewInfo_ s)
                            else <[uid := events]> (cm_liveViewInfo_ s)) s).

Definition CancelBgTaskNotificationInner (uid : Z) : CM unit :=
  for_tasks (fun key record =>
    return_if negb (ct_uid_ record =? uid) || (ct_notificationId_ record =? -1), ret tt ;;
    return_if negb (CheckLiveViewInfoModes record), ret tt ;;
    CancelNotification_tool (ct_notificationLabel_ record) (ct_notificationId_ record) ;;;
    put_task key (ct_set_notificationId_ (-1) record) ;;;
    RefreshTaskRecord ;;; ret tt).

Definition SendNotificationByLiveViewCancelInner (uid : Z) : CM unit :=
  for_tasks (fun key record =>
    return_if negb (ct_uid_ record =? uid), ret tt ;;
    return_if negb (ct_notificationId_ record =? -1), ret tt ;;
    let* (_, record) := SendContinuousTaskNotification record in
    put_task key record ;;;
    RefreshTaskRecord ;;; ret tt).

(** [PostSyncTask] of an operation, when the manager is ready. *)
Definition if_ready (m : CM unit) : CM unit :=
  ready <- get cm_isSysReady_ ;;
  return_if negb ready, ret tt ;;
  m.

Definition CancelBgTaskNotification (uid : Z) : CM unit := if_ready (CancelBgTaskNotificationInner uid).
Definition SendNotificationByLiveViewCancel (uid : Z) : CM unit :=
  if_ready (SendNotificationByLiveViewCancelInner uid).

Definition SendNotificationByDeteTaskInner (taskKeys : list string) : CM Z :=
  for_each taskKeys (fun key =>
    entry <- find_key key ;;
    match entry with
    | None => ret tt
    | Some record =>
        modify (fun s => cm_set_avSessionNotification_ (<[ct_uid_ record := false]> (cm_avSessionNotification_ s)) s) ;;;
        record <- HandleActiveNotification record ;;
        put_task key record
    end) ;;;
  ret ERR_OK.

Definition SendNotificationByDeteTask (taskKeys : list string) : CM Z :=
  ready <- get cm_isSysReady_ ;;
  return_if negb ready, ret ERR_BGTASK_SYS_NOT_READY ;;
  SendNotificationByDeteTaskInner taskKeys.

(** ** By the user *)
Definition StopContinuousTaskByUserInner (key : string) (isSubNotification : bool) : CM bool :=
  entry <- find_key key ;;
  match entry with
  | None => ret false
  | Some removed =>
      (if negb (ct_notificationId_ removed =? -1) then
         for_tasks (fun key record =>
           return_if negb (ct_notificationId_ record =? ct_notificationId_ removed) ||
             negb (bool_decide (ct_notificationLabel_ record = ct_notificationLabel_ removed)), ret tt ;;
           let record := ct_set_reason_ REMOVE_NOTIFICATION_CANCEL record in
           put_task key record ;;;
           OnContinuousTaskChanged record TASK_CANCEL ;;;
           (if isSubNotification
            then CancelNotification_tool (ct_notificationLabel_ record) (ct_notificationId_ record) ;;; ret tt
            else if negb (ct_subNotificationId_ record =? -1) && ct_isByRequestObject_ record
            then CancelNotification_tool (ct_subNotificationLabel_ record) (ct_subNotificationId_ record) ;;; ret tt
            else ret tt) ;;;
           erase_task key ;;;
           HandleAppContinuousTaskStop (ct_uid_ record) ;;;
           RefreshTaskRecord ;;; ret tt)
       else ret tt) ;;;
      ret true
  end.

Definition StopContinuousTaskByUser (mapKey : string) (isSubNotification : bool) (deleteReason : Z) : CM bool :=
  ready <- get cm_isSysReady_ ;;
  return_if negb ready, ret false ;;
  let detailedCancelReason :=
    if DISTRIBUTED_NOTIFICATION_ENABLE && (TRIGGER_EIGHT_HOUR_REASON_DELETE <=? deleteReason) &&
       (deleteReason <=? TRIGGER_THIRTY_MINUTES_REASON_DELETE)
    then SYSTEM_CANCEL_DATA_TRANSFER_NOT_UPDATE else USER_CANCEL_REMOVE_NOTIFICATION in
  SetReason mapKey REMOVE_NOTIFICATION_CANCEL detailedCancelReason ;;;
  StopContinuousTaskByUserInner mapKey isSubNotification.

(** ** By the system *)
Definition OnAbilityStateChanged (uid : Z) (abilityName : string) (abilityId : Z) : CM unit :=
  ready <- get cm_isSysReady_ ;;
  return_if negb ready, ret tt ;;
  return_if bool_decide (abilityName = ""%string), ret tt ;;
  StopBackgroundRunningByContext uid abilityName abilityId ;;; ret tt.

(** The tasks of an application that stopped. *)
Definition stop_app_tasks (uid : Z) : CM unit :=
  for_tasks (fun key record =>
    return_if negb (ct_uid_ record =? uid), ret tt ;;
    let record := ct_set_reason_ SYSTEM_CANCEL record in
    put_task key record ;;;
    OnContinuousTaskChanged record TASK_CANCEL ;;;
    (if negb (ct_notificationId_ record =? -1)
     then CancelNotification_tool (ct_notificationLabel_ record) (ct_notificationId_ record) ;;; ret tt
     else ret tt) ;;;
    (if negb (ct_subNotificationId_ record =? -1) && ct_isByRequestObject_ record
     then CancelNotification_tool (ct_subNotificationLabel_ record) (ct_subNotificationId_ record) ;;; ret tt
     else ret tt) ;;;
    erase_task key ;;;
    HandleAppContinuousTaskStop (ct_uid_ record) ;;;
    RefreshTaskRecord ;;; ret tt).

(** Ends a task that meets the test for [SYSTEM_CANCEL]; only its main notification is
    withdrawn. *)
Definition cancel_tasks_where (test : ContinuousTaskRecord -> bool) : CM unit :=
  for_tasks (fun key record =>
    return_if negb (test record), ret tt ;;
    let record := ct_set_reason_ SYSTEM_CANCEL record in
    put_task key record ;;;
    OnContinuousTaskChanged record TASK_CANCEL ;;;
    CancelNotification_tool (ct_notificationLabel_ record) (ct_notificationId_ record) ;;;
    erase_task key ;;;
    HandleAppContinuousTaskStop (ct_uid_ record) ;;;
    RefreshTaskRecord ;;; ret tt).

Definition ClearBgOsAccountTaskInCar : CM unit :=
  accounts <- ask ce_ForegroundOsAccounts ;;
  match accounts with
  | None => ret tt
  | Some accounts => cancel_tasks_where (fun r => bool_decide (ct_userId_ r ∉ accounts))
  end.

Definition ClearBgOsAccountTask (activatedOsAccountIds : list Z) : CM unit :=
  if HAS_OS_ACCOUNT_CAR then ClearBgOsAccountTaskInCar
  else cancel_tasks_where (fun r => bool_decide (ct_userId_ r ∉ activatedOsAccountIds)).

Definition OnAccountsStateChanged (id : Z) : CM unit :=
  ids <- (if HAS_OS_ACCOUNT_PART then ask ce_ActiveOsAccountIds else ret (Some [0])) ;;
  match ids with
  | None => ret tt
  | Some activatedOsAccountIds => ClearBgOsAccountTask activatedOsAccountIds
  end.

Definition HandleRemoveTaskByMode (mode : Z) : CM unit :=
  for_tasks (fun key record =>
    return_if negb (ct_isFromWebview_ record && CheckExistMode (ct_bgModeIds_ record) mode), ret tt ;;
    let record := ct_set_reason_ SYSTEM_CANCEL record in
    put_task key record ;;;
    OnContinuousTaskChanged record TASK_CANCEL ;;;
    erase_task key ;;;
    HandleAppContinuousTaskStop (ct_uid_ record) ;;;
    RefreshTaskRecord ;;;
    CancelNotification record ;;; ret tt).

Definition OnRemoveSystemAbility (systemAbilityId : Z) : CM unit :=
  ready <- get cm_isSysReady_ ;;
  return_if negb ready, ret tt ;;
  if systemAbilityId =? SA_ID_VOIP_CALL_MANAGER then post (PT_RemoveTaskByMode VOIP)
  else if systemAbilityId =? SA_ID_HEALTH_SPORT then post (PT_RemoveTaskByMode WORKOUT)
  else if systemAbilityId =? SA_ID_AAM_CONN then post (PT_RemoveTaskByMode AUDIO_PLAYBACK)
  else ret tt.

(** The modes of the tasks of an application, each once, in the order they are met. *)
Definition add_modes (appliedModeIds bgModeIds : list Z) : list Z :=
  fold_left (fun acc mode => if bool_decide (mode ∈ acc) then acc else acc ++ [mode]) bgModeIds appliedModeIds.

(** In the background an application keeps the modes of the tasks it has. *)
Definition OnAppStateChanged (uid : Z) (foreground gamePrelaunch : bool) : CM unit :=
  ready <- get cm_isSysReady_ ;;
  return_if negb ready, ret tt ;;
  return_if foreground,
    (modify (fun s => cm_set_appOnForeground_ ({[uid]} ∪ cm_appOnForeground_ s) s) ;;;
     prelaunch <- IsGamePreLaunchApp uid ;;
     if GAME_PRE_LAUNCH_ENABLE && negb gamePrelaunch && prelaunch then RemoveGamePreLaunchApp uid else ret tt) ;;
  modify (fun s => cm_set_appOnForeground_ (cm_appOnForeground_ s ∖ {[uid]})
    (cm_set_applyTaskOnForeground_ (delete uid (cm_applyTaskOnForeground_ s)) s)) ;;;
  m <- get tasks ;;
  return_if bool_decide (m = ∅), ret tt ;;
  let appliedModeIds := fold_left (fun acc (e : string * ContinuousTaskRecord) =>
    if ct_uid_ e.2 =? uid then add_modes acc (ct_bgModeIds_ e.2) else acc) (map_to_list m) [] in
  modify (fun s => cm_set_applyTaskOnForeground_ (<[uid := appliedModeIds]> (cm_applyTaskOnForeground_ s)) s).

Definition EnableContinuousTaskRequest (uid : Z) (isEnable : bool) : CM Z :=
  ready <- get cm_isSysReady_ ;;
  return_if negb ready, ret ERR_BGTASK_SYS_NOT_READY ;;
  modify (fun s => cm_set_disableRequestUidList_
    (if isEnable then cm_disableRequestUidList_ s ∖ {[uid]} else {[uid]} ∪ cm_disableRequestUidList_ s) s) ;;;
  ret ERR_OK.

(** ** From the shell *)
Definition DumpCancelTask (dumpOption : list string) (cleanAll : bool) : CM unit :=
  if cleanAll then
    l <- get (fun s => map_to_list (tasks s)) ;;
    for_each l (fun item =>
      CancelNotification_tool (ct_notificationLabel_ item.2) (ct_notificationId_ item.2) ;;;
      OnContinuousTaskChanged item.2 TASK_CANCEL) ;;;
    modify (cm_set_continuousTaskInfosMap_ ∅) ;;;
    RefreshTaskRecord ;;;
    for_each (merge_sort Z.le
        (base.elements (list_to_set ((fun item : string * ContinuousTaskRecord => ct_uid_ item.2) <$> l) : gset Z)))
      HandleAppContinuousTaskStop
  else
    match dumpOption with
    | _ :: _ :: taskKey :: _ =>
        entry <- find_key taskKey ;;
        match entry with
        | None => ret tt
        | Some task => StopBackgroundRunningByTask task ;;; ret tt
        end
    | _ => ret tt
    end.
End Stop.
