(* ===== verification/ContinuousAuth.v ===== *)
(** * Continuous task manager: modes that need an authorisation

    src/services/continuous_task/src/bg_continuous_task_mgr.cpp: the modes an application
    may use, the authorisation of the special scenario by the user (a banner, later a
    dialog), its records by application, and the events that revoke them. *)

From S2P Require Import Prelude.
From S2P Require Import Errors.
From S2P Require Import Interfaces.
From S2P Require Import BackgroundModes.
From S2P Require Import Json.
From S2P Require Import ContinuousTaskRecord.
From S2P Require Import ContinuousTypes.
From S2P Require Import NotificationTools.
From S2P Require Import ContinuousTaskMgr.
From S2P Require Import ContinuousTaskStart.
From S2P Require Import ContinuousTaskStop.
Import BackgroundMode UserAuthResult.
Local Open Scope Z_scope.

Definition API_VERSION_CHECK_SPECIAL_USER_AUTH : Z := 22.
Definition API_VERSION_CHECK_SPECIAL_USER_AUTH_RESULT : Z := 26.
Definition API_VERSION_REQUEST_SPECIAL_USER_AUTH : Z := 22.
Definition API_VERSION_REQUEST_SPECIAL_USER_AUTH_BY_DIALOG : Z := 26.

(** The common events about a package the manager listens to. *)
Inductive PackageEvent :=
| COMMON_EVENT_PACKAGE_ADDED | COMMON_EVENT_PACKAGE_REMOVED | COMMON_EVENT_BUNDLE_REMOVED
| COMMON_EVENT_PACKAGE_FULLY_REMOVED | COMMON_EVENT_PACKAGE_CHANGED | COMMON_EVENT_PACKAGE_REPLACED
| COMMON_EVENT_PACKAGE_DATA_CLEARED | OTHER_EVENT.
#[export] Instance PackageEvent_eq_dec : EqDecision PackageEvent.
Proof. solve_decision. Defined.

Section Auth.
Context `{ContinuousPlatform}.
Implicit Types record : ContinuousTaskRecord.
Implicit Types b : BannerNotificationRecord.

(** ** The map of authorisations *)
Definition banners (s : ContinuousMgr) : gmap string BannerNotificationRecord := cm_bannerNotificationRecord_ s.
Definition find_banner_in (p : BannerNotificationRecord -> bool) (m : gmap string BannerNotificationRecord) :
    option (string * BannerNotificationRecord) :=
  snd <$> list_find (fun e => p e.2 = true) (map_to_list m).
Definition find_banner (p : BannerNotificationRecord -> bool) : CM (option (string * BannerNotificationRecord)) :=
  get (fun s => find_banner_in p (banners s)).
Definition put_banner (key : string) b : CM unit :=
  modify (fun s => cm_set_bannerNotificationRecord_ (<[key := b]> (banners s)) s).
Definition erase_banner (key : string) : CM unit :=
  modify (fun s => cm_set_bannerNotificationRecord_ (delete key (banners s)) s).
Definition of_application (bundleName : string) (userId appIndex : Z) b : bool :=
  bool_decide (bn_bundleName_ b = bundleName) && (bn_userId_ b =? userId) && (bn_appIndex_ b =? appIndex).
Definition granted (authResult : Z) : bool := (authResult =? GRANTED_ONCE) || (authResult =? GRANTED_ALWAYS).

Definition RefreshAuthRecord : CM Z :=
  m <- get banners ;;
  emit (EAuthRecords m) ;;;
  ask ce_SaveAuthRecord.

(** ** Which modes an application may use *)
Definition count_special (modes : list Z) : nat := length (filter (fun m => m = SPECIAL_SCENARIO_PROCESSING) modes).

(** A caller without the exemption needs the permission, and must be no system
    application. *)
Definition CheckCallerSpecial (bundleName : string) (isSystem : bool) : CM Z :=
  exempted <- ask (fun e => ce_IsSpecialExempted e bundleName) ;;
  return_if exempted, ret ERR_OK ;;
  callingTokenId <- ask ce_callingTokenId ;;
  acl <- CheckSpecialScenarioACLPermission callingTokenId ;;
  return_if negb acl, ret ERR_BGTASK_CONTINUOUS_APP_NOT_HAVE_BGMODE_PERMISSION_SYSTEM ;;
  return_if isSystem, ret ERR_BGTASK_CONTINUOUS_SYSTEM_APP_NOT_SUPPORT_ACL ;;
  ret ERR_OK.

Definition calling_is_system : CM bool :=
  fullTokenId <- ask ce_callingFullTokenId ;;
  ask (fun e => ce_IsSystemApp e fullTokenId).

Definition CheckModeSupportedPermission (taskParam : ContinuousTaskParam) : CM Z :=
  let specialModeSize := count_special (tp_bgModeIds_ taskParam) in
  return_if bool_decide (1 < specialModeSize)%nat,
    ret ERR_BGTASK_SPECIAL_SCENARIO_PROCESSING_ONLY_ALLOW_ONE_APPLICATION ;;
  return_if bool_decide (specialModeSize = 1 /\ 1 < length (tp_bgModeIds_ taskParam))%nat,
    ret ERR_BGTASK_SPECIAL_SCENARIO_PROCESSING_CONFLICTS_WITH_OTHER_TASK ;;
  permission <- ask (fun e => ce_CheckPermission e BGMODE_PERMISSION) ;;
  return_if negb permission, ret ERR_BGTASK_PERMISSION_DENIED ;;
  return_if negb (bool_decide (specialModeSize = 1 /\ length (tp_bgModeIds_ taskParam) = 1)%nat), ret ERR_OK ;;
  callingUid <- ask ce_callingUid ;;
  bundleName <- ask (fun e => ce_GetClientBundleName e callingUid) ;;
  isSystem <- calling_is_system ;;
  result <- CheckCallerSpecial bundleName isSystem ;;
  return_if negb (result =? ERR_OK), ret result ;;
  return_if negb SUPPORT_AUTH, ret ERR_BGTASK_SPECIAL_SCENARIO_PROCESSING_NOTSUPPORT_DEVICE ;;
  ret ERR_OK.

Definition CheckTaskkeepingPermission (taskParam : ContinuousTaskParam) (callingTokenId : Z)
    (bundleName : string) (fullTokenId : Z) : CM Z :=
  exempted <- ask (fun e => ce_IsTaskKeepingExempted e bundleName) ;;
  return_if exempted || SUPPORT_TASK_KEEPING, ret ERR_OK ;;
  return_if negb (CheckExistMode (tp_bgModeIds_ taskParam) TASK_KEEPING), ret ERR_OK ;;
  isSystem <- ask (fun e => ce_IsSystemApp e fullTokenId) ;;
  acl <- ask (fun e => ce_CheckACLPermission e BGMODE_PERMISSION_SYSTEM callingTokenId) ;;
  return_if isSystem,
    (if acl then ret ERR_BGTASK_CONTINUOUS_SYSTEM_APP_NOT_SUPPORT_ACL else ret ERR_BGTASK_KEEPING_TASK_VERIFY_ERR) ;;
  return_if negb acl, ret ERR_BGTASK_CONTINUOUS_APP_NOT_HAVE_BGMODE_PERMISSION_SYSTEM ;;
  ret ERR_OK.

Definition IsModeSupported (taskParam : ContinuousTaskParam) : CM Z :=
  ready <- get cm_isSysReady_ ;;
  return_if negb ready, ret ERR_BGTASK_SYS_NOT_READY ;;
  result <- CheckModeSupportedPermission taskParam ;;
  return_if negb (result =? ERR_OK), ret result ;;
  fullTokenId <- ask ce_callingFullTokenId ;;
  callingTokenId <- ask ce_callingTokenId ;;
  callingUid <- ask ce_callingUid ;;
  bundleName <- ask (fun e => ce_GetClientBundleName e callingUid) ;;
  CheckTaskkeepingPermission taskParam callingTokenId bundleName fullTokenId.

(** Whether the application declares the special mode, with the permission asked for in
    its package and no system application unless it is exempted. *)
Definition CheckApplySpecial (bundleName : string) (userId : Z) (checkPermission : bool) : CM bool :=
  info <- ask (fun e => ce_GetBundleInfo e bundleName userId) ;;
  match info with
  | None => ret false
  | Some bundleInfo =>
      exempted <- ask (fun e => ce_IsSpecialExempted e bundleName) ;;
      return_if negb exempted && checkPermission &&
        negb (bool_decide (BGMODE_PERMISSION_SYSTEM ∈ bi_reqPermissions bundleInfo)) &&
        negb (bool_decide (BGMODE_PERMISSION_SPECIAL_SCENARIO ∈ bi_reqPermissions bundleInfo)), ret false ;;
      return_if negb exempted && checkPermission && bi_isSystemApp bundleInfo, ret false ;;
      let modeType := shl32 BG_MODE_INDEX_HEAD (SPECIAL_SCENARIO_PROCESSING - 1) in
      ret (existsb (fun ab => negb (ab_backgroundModes ab =? INVALID_BGMODE) &&
                              (0 <? Z.land (ab_backgroundModes ab) modeType)) (bi_abilityInfos bundleInfo))
  end.

(** ** Asking the user *)
Definition CheckSpecialModePermission (taskParam : ContinuousTaskParam) : CM Z :=
  return_if bool_decide (tp_bgModeIds_ taskParam = []) || bool_decide (tp_bgSubModeIds_ taskParam = []),
    ret ERR_BGTASK_CONTINUOUS_MODE_OR_SUBMODE_IS_EMPTY ;;
  let specialModeSize := count_special (tp_bgModeIds_ taskParam) in
  return_if bool_decide (specialModeSize = 0)%nat, ret ERR_BGTASK_SPECIAL_SCENARIO_PROCESSING_EMPTY ;;
  return_if bool_decide (1 < specialModeSize)%nat,
    ret ERR_BGTASK_SPECIAL_SCENARIO_PROCESSING_ONLY_ALLOW_ONE_APPLICATION ;;
  return_if bool_decide (1 < length (tp_bgModeIds_ taskParam))%nat,
    ret ERR_BGTASK_SPECIAL_SCENARIO_PROCESSING_CONFLICTS_WITH_OTHER_TASK ;;
  return_if negb (forallb (fun subMode =>
      GetSubModeTypeMatching subMode =? BackgroundTaskMode.MODE_SPECIAL_SCENARIO_PROCESSING)
      (tp_bgSubModeIds_ taskParam)), ret ERR_BGTASK_CONTINUOUS_MODE_OR_SUBMODE_TYPE_MISMATCH ;;
  permission <- ask (fun e => ce_CheckPermission e BGMODE_PERMISSION) ;;
  return_if negb permission, ret ERR_BGTASK_PERMISSION_DENIED ;;
  ret ERR_OK.

(** The error code, and the record with the name of the application. *)
Definition CheckAuthParam record (callback : RemoteProxy) (apiVersion : Z) : CM (Z * ContinuousTaskRecord) :=
  callbacks <- get cm_expiredCallbackMap_ ;;
  return_if existsb (fun c : string * RemoteProxy => same_remote (AsObject callback) c.2) (map_to_list callbacks),
    ret (ERR_BGTASK_CONTINUOUS_CALLBACK_EXISTS, record) ;;
  found <- find_banner (of_application (ct_bundleName_ record) (ct_userId_ record) (ct_appIndex_ record)) ;;
  match found with
  | Some (_, b) =>
      let authResult := bn_authResult_ b in
      return_if authResult =? NOT_SUPPORTED,
        ret (ERR_BGTASK_CONTINUOUS_NOT_DEPLOY_SPECIAL_SCENARIO_PROCESSING, record) ;;
      return_if granted authResult ||
        ((apiVersion =? API_VERSION_REQUEST_SPECIAL_USER_AUTH_BY_DIALOG) && (authResult =? DENIED)),
        (emit (EExpiredAuth (AsObject callback) authResult) ;;;
         ret (ERR_BGTASK_CONTINUOUS_TRIGGER_CALLBACK, record)) ;;
      ret (ERR_BGTASK_CONTINUOUS_BANNER_NOTIFICATION_EXIST_OR_AUTHORIZED, record)
  | None =>
      return_if negb (apiVersion =? API_VERSION_REQUEST_SPECIAL_USER_AUTH), ret (ERR_OK, record) ;;
      appName <- GetMainAbilityLabel (ct_bundleName_ record) (ct_userId_ record) ;;
      return_if bool_decide (appName = ""%string), ret (ERR_BGTASK_CONTINUOUS_BANNER_NOTIFICATION_FAIL, record) ;;
      ret (ERR_OK, ct_set_appName_ appName record)
  end.

(** [None]: no text. *)
Definition FormatBannerNotificationContext (appName : string) : CM (option string) :=
  manager <- ask ce_ResourceManager ;;
  match manager with
  | None => ret None
  | Some _ =>
      content <- ask (fun e => ce_FormatByName e "text_banner_notification_allow_background_keepalive" [appName]) ;;
      return_if bool_decide (content = ""%string), ret None ;;
      ret (Some content)
  end.

Definition HisysEventRequestAuth b : CM unit :=
  emit (EHiSysEvent "BGTASK_ERR" (bn_uid_ b) (bn_userId_ b) (bn_appName_ b) "" [bn_appIndex_ b; -1]).

(** The error code and the notification id. *)
Definition RequestAuthFromUserInner record (callback : RemoteProxy) (notificationId apiVersion : Z) : CM (Z * Z) :=
  let* (result, record) := CheckAuthParam record callback apiVersion in
  return_if negb (result =? ERR_OK), ret (result, notificationId) ;;
  let b := bn_SetAppIndex (ct_appIndex_ record) $ bn_SetUserId (ct_userId_ record) $
           bn_SetUid (ct_uid_ record) $ bn_SetBundleName (ct_bundleName_ record) new_BannerNotificationRecord in
  let keep b notificationId :=
    let key := CreateBannerNotificationLabel (ct_bundleName_ record) (ct_userId_ record) (ct_appIndex_ record) in
    modify (fun s => cm_set_expiredCallbackMap_ (<[key := callback]> (cm_expiredCallbackMap_ s)) s) ;;;
    emit (EDeathRecipient (AsObject callback) true) ;;;
    m <- get banners ;;
    (if bool_decide (is_Some (m !! key)) then ret tt else put_banner key b) ;;;
    HisysEventRequestAuth b ;;;
    result <- RefreshAuthRecord ;;
    ret (result, notificationId) in
  if apiVersion =? API_VERSION_REQUEST_SPECIAL_USER_AUTH_BY_DIALOG then
    apply <- CheckApplySpecial (ct_bundleName_ record) (ct_userId_ record) false ;;
    return_if negb apply,
      (emit (EExpiredAuth (AsObject callback) NOT_SUPPORTED) ;;;
       ret (ERR_BGTASK_CONTINUOUS_NOT_DEPLOY_SPECIAL_SCENARIO_PROCESSING, ct_uid_ record)) ;;
    keep b (ct_uid_ record)
  else
    content <- FormatBannerNotificationContext (ct_appName_ record) ;;
    match content with
    | None => ret (ERR_BGTASK_CONTINUOUS_BANNER_NOTIFICATION_FAIL, ct_uid_ record)
    | Some bannerContent =>
        serviceUid <- get cm_bgTaskUid_ ;;
        buttons <- get cm_bannerNotificationBtn_ ;;
        let* (result, b) :=
          PublishBannerNotification (bn_SetAppName (ct_appName_ record) b) bannerContent serviceUid buttons in
        return_if negb (result =? ERR_OK), ret (ERR_BGTASK_CONTINUOUS_BANNER_NOTIFICATION_FAIL, ct_uid_ record) ;;
        keep b (bn_notificationId_ b)
    end.

(** The record of the caller; [None] when the modes are empty. *)
Definition caller_record (p : ContinuousTaskParam) : CM (option ContinuousTaskRecord) :=
  callingUid <- ask ce_callingUid ;;
  callingPid <- ask ce_callingPid ;;
  userId <- GetOsAccountIdFromUid callingUid ;;
  bundleName <- ask (fun e => ce_GetClientBundleName e callingUid) ;;
  match new_ContinuousTaskRecord bundleName "" callingUid callingPid (tp_bgModeId_ p) true (tp_bgModeIds_ p) (-1) with
  | None => ret None
  | Some record => record <- InitRecordParam record p userId ;; ret (Some record)
  end.

Definition RequestAuthFromUser (taskParam : option ContinuousTaskParam) (callback : option RemoteProxy)
    (notificationId : Z) : CM (option (Z * Z)) :=
  ready <- get cm_isSysReady_ ;;
  return_if negb ready, ret (Some (ERR_BGTASK_SYS_NOT_READY, notificationId)) ;;
  match taskParam, callback with
  | None, _ => ret (Some (ERR_BGTASK_CHECK_TASK_PARAM, notificationId))
  | _, None => ret (Some (ERR_BGTASK_CONTINUOUS_CALLBACK_NULL_OR_TYPE_ERR, notificationId))
  | Some p, Some callback =>
      result <- CheckSpecialModePermission p ;;
      return_if negb (result =? ERR_OK), ret (Some (result, notificationId)) ;;
      made <- caller_record p ;;
      match made with
      | None => ret None
      | Some record =>
          result <- CheckCallerSpecial (ct_bundleName_ record) (ct_isSystem_ record) ;;
          return_if negb (result =? ERR_OK), ret (Some (result, notificationId)) ;;
          return_if negb SUPPORT_AUTH,
            ret (Some (ERR_BGTASK_SPECIAL_SCENARIO_PROCESSING_NOTSUPPORT_DEVICE, notificationId)) ;;
          answer <- RequestAuthFromUserInner record callback notificationId (tp_requestAuthApiVersion_ p) ;;
          ret (Some answer)
      end
  end.

(** ** The answers of the user *)

(** The callback of the key is called with the result and forgotten. *)
Definition trigger_callback (key : string) (authResult : option Z) : CM unit :=
  callbacks <- get cm_expiredCallbackMap_ ;;
  match callbacks !! key with
  | None => ret tt
  | Some callback =>
      (match authResult with Some v => emit (EExpiredAuth (AsObject callback) v) | None => ret tt end) ;;;
      (match AsObject callback with
       | Some remote => emit (EDeathRecipient (Some remote) false)
       | None => ret tt
       end) ;;;
      modify (cm_set_expiredCallbackMap_ (delete key callbacks))
  end.

Definition OnBannerNotificationActionButtonClickInner (buttonType uid : Z) (label : string) : CM unit :=
  m <- get banners ;;
  match m !! label with
  | None => ret tt
  | Some b =>
      let answered b :=
        put_banner label b ;;;
        RefreshAuthRecord ;;;
        (if negb (bn_notificationId_ b =? -1) && negb (bool_decide (bn_notificationLabel_ b = ""%string))
         then CancelNotification_tool (bn_notificationLabel_ b) (bn_notificationId_ b) ;;; ret tt
         else ret tt) ;;;
        trigger_callback (bn_notificationLabel_ b) (Some (bn_authResult_ b)) in
      if buttonType =? BGTASK_BANNER_NOTIFICATION_BTN_ALLOW_TIME then answered (bn_SetAuthResult GRANTED_ONCE b)
      else if buttonType =? BGTASK_BANNER_NOTIFICATION_BTN_ALLOW_ALLOWED
      then answered (bn_SetAuthResult GRANTED_ALWAYS b)
      else ret tt
  end.

Definition OnBannerNotificationActionButtonClick (buttonType uid : Z) (label : string) : CM unit :=
  if_ready (OnBannerNotificationActionButtonClickInner buttonType uid label).

Definition OnPermissionDialogButtonClickInner (authResult bundleUid : Z) (bundleName : string) (appIndex : Z) : CM unit :=
  ready <- get cm_isSysReady_ ;;
  return_if negb ready, ret tt ;;
  return_if (authResult <? DENIED) || (UAR_END <=? authResult), ret tt ;;
  userId <- GetOsAccountIdFromUid bundleUid ;;
  let key := CreateBannerNotificationLabel bundleName userId appIndex in
  m <- get banners ;;
  match m !! key with
  | None => ret tt
  | Some b =>
      put_banner key (bn_SetAuthResult authResult b) ;;;
      RefreshAuthRecord ;;;
      trigger_callback key (Some authResult)
  end.

(** The banner is swiped away: the request is forgotten unless it was granted. *)
Definition StopBannerContinuousTaskByUserInner (label : string) : CM bool :=
  m <- get banners ;;
  (match m !! label with
   | Some b =>
       if granted (bn_authResult_ b) then ret tt
       else erase_banner label ;;; RefreshAuthRecord ;;; ret tt
   | None => ret tt
   end) ;;;
  ret true.

Definition StopBannerContinuousTaskByUser (label : string) : CM bool :=
  ready <- get cm_isSysReady_ ;;
  return_if negb ready, ret false ;;
  StopBannerContinuousTaskByUserInner label.

Definition HandleAuthExpiredCallbackDeathInner (remote : option Remote) : CM unit :=
  callbacks <- get cm_expiredCallbackMap_ ;;
  match list_find (fun c : string * RemoteProxy => same_remote remote c.2 = true) (map_to_list callbacks) with
  | None => ret tt
  | Some (_, (key, _)) =>
      modify (cm_set_expiredCallbackMap_ (delete key callbacks)) ;;;
      m <- get banners ;;
      match m !! key with
      | None => ret tt
      | Some b =>
          (if negb (bn_notificationId_ b =? -1)
           then CancelNotification_tool key (bn_notificationId_ b) ;;; ret tt else ret tt) ;;;
          erase_banner key ;;;
          RefreshAuthRecord ;;; ret tt
      end
  end.

Definition HandleAuthExpiredCallbackDeath (remote : option Remote) : CM unit :=
  match remote with
  | None => ret tt
  | Some _ => if_ready (HandleAuthExpiredCallbackDeathInner remote)
  end.

Definition RemoveAuthRecordInner record : CM Z :=
  let key := CreateBannerNotificationLabel (ct_bundleName_ record) (ct_userId_ record) (ct_appIndex_ record) in
  m <- get banners ;;
  (if bool_decide (is_Some (m !! key)) then erase_banner key ;;; RefreshAuthRecord ;;; ret tt else ret tt) ;;;
  trigger_callback key None ;;;
  ret ERR_OK.

Definition RemoveAuthRecord (taskParam : option ContinuousTaskParam) : CM (option Z) :=
  ready <- get cm_isSysReady_ ;;
  return_if negb ready, ret (Some ERR_BGTASK_SYS_NOT_READY) ;;
  match taskParam with
  | None => ret (Some ERR_BGTASK_CHECK_TASK_PARAM)
  | Some p =>
      made <- caller_record p ;;
      match made with
      | None => ret None
      | Some record => result <- RemoveAuthRecordInner record ;; ret (Some result)
      end
  end.

(** ** Queries and settings *)
Definition CheckSpecialScenarioAuthInner (bundleName : string) (userId appIndex apiVersion authResult : Z) : CM (Z * Z) :=
  apply <- (if apiVersion =? API_VERSION_CHECK_SPECIAL_USER_AUTH_RESULT
            then CheckApplySpecial bundleName userId false else ret true) ;;
  return_if negb apply, ret (ERR_OK, NOT_SUPPORTED) ;;
  found <- find_banner (of_application bundleName userId appIndex) ;;
  match found with
  | None =>
      return_if apiVersion =? API_VERSION_CHECK_SPECIAL_USER_AUTH_RESULT, ret (ERR_OK, NOT_DETERMINED) ;;
      ret (ERR_BGTASK_CONTINUOUS_NOT_APPLY_AUTH_RECORD, authResult)
  | Some (_, b) => ret (ERR_OK, uint32 (bn_authResult_ b))
  end.

Definition CheckSpecialScenarioAuth (appIndex authResult apiVersion : Z) : CM (Z * Z) :=
  ready <- get cm_isSysReady_ ;;
  return_if negb ready, ret (ERR_BGTASK_SYS_NOT_READY, authResult) ;;
  permission <- ask (fun e => ce_CheckPermission e BGMODE_PERMISSION) ;;
  return_if negb permission, ret (ERR_BGTASK_PERMISSION_DENIED, authResult) ;;
  callingUid <- ask ce_callingUid ;;
  userId <- GetOsAccountIdFromUid callingUid ;;
  bundleName <- ask (fun e => ce_GetClientBundleName e callingUid) ;;
  isSystem <- calling_is_system ;;
  result <- CheckCallerSpecial bundleName isSystem ;;
  return_if negb (result =? ERR_OK), ret (result, authResult) ;;
  return_if negb SUPPORT_AUTH, ret (ERR_BGTASK_SPECIAL_SCENARIO_PROCESSING_NOTSUPPORT_DEVICE, authResult) ;;
  CheckSpecialScenarioAuthInner bundleName userId appIndex apiVersion authResult.

Definition CheckTaskAuthResultInner (bundleName : string) (userId appIndex : Z) : CM Z :=
  found <- find_banner (of_application bundleName userId appIndex) ;;
  match found with
  | None => ret ERR_BGTASK_CONTINUOUS_NOT_APPLY_AUTH_RECORD
  | Some (_, b) =>
      return_if granted (bn_authResult_ b), ret ERR_OK ;;
      ret ERR_BGTASK_CONTINUOUS_AUTH_NOT_PERMITTED
  end.

Definition CheckTaskAuthResult (bundleName : string) (userId appIndex : Z) : CM Z :=
  ready <- get cm_isSysReady_ ;;
  return_if negb ready, ret ERR_BGTASK_SYS_NOT_READY ;;
  CheckTaskAuthResultInner bundleName userId appIndex.

Definition SetBackgroundTaskStateInner (taskParam : BackgroundTaskStateInfo) : CM Z :=
  let userId := bs_userId_ taskParam in
  let bundleName := bs_bundleName_ taskParam in
  let appIndex := bs_appIndex_ taskParam in
  let authResult := bs_authResult_ taskParam in
  found <- find_banner (of_application bundleName userId appIndex) ;;
  (match found with
   | None =>
       let b := bn_SetAuthResult authResult $ bn_SetAppIndex appIndex $ bn_SetUserId userId $
                bn_SetBundleName bundleName new_BannerNotificationRecord in
       let key := CreateBannerNotificationLabel bundleName userId appIndex in
       m <- get banners ;;
       if bool_decide (is_Some (m !! key)) then ret tt else put_banner key b
   | Some (key, b) => put_banner key (bn_SetAuthResult authResult b)
   end) ;;;
  RefreshAuthRecord ;;;
  ret ERR_OK.

Definition SetBackgroundTaskState (taskParam : option BackgroundTaskStateInfo) : CM Z :=
  ready <- get cm_isSysReady_ ;;
  return_if negb ready, ret ERR_BGTASK_SYS_NOT_READY ;;
  match taskParam with
  | None => ret ERR_BGTASK_CHECK_TASK_PARAM
  | Some p =>
      return_if (bs_userId_ p =? -1) || (bs_appIndex_ p =? -1) || bool_decide (bs_bundleName_ p = ""%string) ||
        (UAR_END <=? bs_authResult_ p) || (bs_authResult_ p <? NOT_SUPPORTED),
        ret ERR_BGTASK_CONTINUOUS_BACKGROUND_TASK_PARAM_INVALID ;;
      SetBackgroundTaskStateInner p
  end.

Definition GetBackgroundTaskStateInner (taskParam : BackgroundTaskStateInfo) : CM (Z * Z) :=
  let bundleName := bs_bundleName_ taskParam in
  malicious <- ask (fun e => ce_IsMaliciousApp e bundleName) ;;
  return_if malicious, ret (ERR_OK, NOT_SUPPORTED) ;;
  found <- find_banner (of_application bundleName (bs_userId_ taskParam) (bs_appIndex_ taskParam)) ;;
  match found with
  | None =>
      apply <- CheckApplySpecial bundleName (bs_userId_ taskParam) true ;;
      ret (ERR_OK, if apply then NOT_DETERMINED else NOT_SUPPORTED)
  | Some (_, b) => ret (ERR_OK, uint32 (bn_authResult_ b))
  end.

Definition GetBackgroundTaskState (taskParam : option BackgroundTaskStateInfo) (authResult : Z) : CM (Z * Z) :=
  ready <- get cm_isSysReady_ ;;
  return_if negb ready, ret (ERR_BGTASK_SYS_NOT_READY, authResult) ;;
  match taskParam with
  | None => ret (ERR_BGTASK_CHECK_TASK_PARAM, authResult)
  | Some p =>
      return_if (bs_userId_ p =? -1) || (bs_appIndex_ p =? -1) || bool_decide (bs_bundleName_ p = ""%string),
        ret (ERR_BGTASK_CONTINUOUS_BACKGROUND_TASK_PARAM_INVALID, authResult) ;;
      GetBackgroundTaskStateInner p
  end.

(** ** Events that revoke an authorisation *)

(** Each erasure is stored. *)
Definition erase_banners_where (test : BannerNotificationRecord -> bool) : CM unit :=
  l <- get (fun s => map_to_list (banners s)) ;;
  for_each l (fun e =>
    return_if negb (test e.2), ret tt ;;
    erase_banner e.1 ;;;
    RefreshAuthRecord ;;; ret tt).

(** A grant for one time ends with the application, whatever the user. *)
Definition OnAppStopped (uid : Z) : CM unit :=
  ready <- get cm_isSysReady_ ;;
  return_if negb ready, ret tt ;;
  stop_app_tasks uid ;;;
  app <- ask (fun e => ce_GetAppIndexAndBundleNameByUid e uid) ;;
  match app with
  | None => ret tt
  | Some (stopAppIndex, stopBundleName) =>
      erase_banners_where (fun b => bool_decide (bn_bundleName_ b = stopBundleName) &&
        (bn_appIndex_ b =? stopAppIndex) && (bn_authResult_ b =? GRANTED_ONCE))
  end.

Definition OnBundleInfoChanged (action : PackageEvent) (bundleName : string) (uid userId appIndex : Z) : CM unit :=
  ready <- get cm_isSysReady_ ;;
  return_if negb ready, ret tt ;;
  let forget := modify (fun s => cm_set_cachedBundleInfos_ (delete uid (cm_cachedBundleInfos_ s)) s) in
  match action with
  | COMMON_EVENT_PACKAGE_ADDED => forget
  | COMMON_EVENT_PACKAGE_REMOVED | COMMON_EVENT_BUNDLE_REMOVED | COMMON_EVENT_PACKAGE_FULLY_REMOVED
  | COMMON_EVENT_PACKAGE_CHANGED | COMMON_EVENT_PACKAGE_REPLACED =>
      forget ;;; erase_banners_where (of_application bundleName userId appIndex)
  | COMMON_EVENT_PACKAGE_DATA_CLEARED =>
      forget ;;; cancel_tasks_where (fun r => ct_uid_ r =? uid)
  | OTHER_EVENT => ret tt
  end.
End Auth.
