(* ===== verification/ContinuousQueries.v ===== *)
(** * Continuous task manager: subscribers, queries, the shell and notification events

    src/services/continuous_task/src/bg_continuous_task_mgr.cpp (subscribers, the lists
    of tasks, the dump), bg_continuous_task_dumper.cpp and task_notification_subscriber.cpp,
    which turns what happens to notifications into calls of the manager. *)

From S2P Require Import Prelude.
From S2P Require Import Errors.
From S2P Require Import Interfaces.
From S2P Require Import BackgroundModes.
From S2P Require Import Json.
From S2P Require Import ContinuousTaskRecord.
From S2P Require Import ContinuousTypes.
From S2P Require Import NotificationTools.
From S2P Require Import ContinuousTaskMgr.
From S2P Require Import ContinuousTaskStart.
From S2P Require Import ContinuousTaskStop.
From S2P Require Import ContinuousAuth.
Import BackgroundMode.
Local Open Scope Z_scope.

(** ** Subscribers *)
Definition with_flag (flag : Z) (i : SubscriberInfo) : SubscriberInfo :=
  mkSubscriber (si_subscriber_ i) (si_uid_ i) (si_pid_ i) (si_isHap_ i) flag.

(** [target->subscriber_->AsObject() == remote] *)
Definition is_object (remote : option Remote) (i : SubscriberInfo) : bool := bool_decide (si_object i = remote).

(** [f] on the first element that meets the test. *)
Fixpoint alter_first {A} (test : A -> bool) (f : A -> A) (l : list A) : list A :=
  match l with
  | [] => []
  | x :: l' => if test x then f x :: l' else x :: alter_first test f l'
  end.

Definition set_subscribers (l : list SubscriberInfo) : CM unit := modify (cm_set_bgTaskSubscribers_ l).

Definition AddSubscriberInner (subscriberInfo : SubscriberInfo) : CM Z :=
  subs <- get cm_bgTaskSubscribers_ ;;
  let remoteObj := si_object subscriberInfo in
  match list_find (fun i => is_object remoteObj i = true) subs with
  | Some (_, found) =>
      (if si_isHap_ found
       then set_subscribers (alter_first (is_object remoteObj)
              (with_flag (Z.lor (si_flag_ found) (si_flag_ subscriberInfo))) subs)
       else ret tt) ;;;
      ret ERR_BGTASK_OBJECT_EXISTS
  | None =>
      set_subscribers (subs ++ [subscriberInfo]) ;;;
      emit (EDeathRecipient remoteObj true) ;;;
      ret ERR_OK
  end.

(** The result of the inner operation is not the caller's. *)
Definition AddSubscriber (subscriberInfo : option SubscriberInfo) : CM Z :=
  match subscriberInfo with
  | None => ret ERR_BGTASK_INVALID_PARAM
  | Some i =>
      return_if bool_decide (si_object i = None), ret ERR_BGTASK_INVALID_PARAM ;;
      AddSubscriberInner i ;;; ret ERR_OK
  end.

(** An application that keeps another callback stays. *)
Definition RemoveSubscriberInner (subscriber : RemoteProxy) (flag : Z) : CM Z :=
  match AsObject subscriber with
  | None => ret ERR_BGTASK_INVALID_PARAM
  | Some remote =>
      subs <- get cm_bgTaskSubscribers_ ;;
      match list_find (fun i => is_object (Some remote) i = true) subs with
      | None => ret ERR_BGTASK_INVALID_PARAM
      | Some (_, found) =>
          let flag' := if si_isHap_ found then Z.ldiff (si_flag_ found) flag else si_flag_ found in
          set_subscribers (alter_first (is_object (Some remote)) (with_flag flag') subs) ;;;
          return_if si_isHap_ found && (0 <? flag'), ret ERR_OK ;;
          emit (EDeathRecipient (Some remote) false) ;;;
          set_subscribers (erase_first (is_object (Some remote)) subs) ;;;
          ret ERR_OK
      end
  end.

Definition RemoveSubscriber (subscriber : option RemoteProxy) (flag : Z) : CM Z :=
  match subscriber with
  | None => ret ERR_BGTASK_INVALID_PARAM
  | Some proxy => RemoveSubscriberInner proxy flag ;;; ret ERR_OK
  end.

(** The outer option is the weak pointer, the inner one whether it can be promoted. *)
Definition OnRemoteSubscriberDiedInner (object : option Remote) : CM unit :=
  match object with
  | None => ret tt
  | Some remote =>
      subs <- get cm_bgTaskSubscribers_ ;;
      set_subscribers (filter (fun i => is_object (Some remote) i = false) subs)
  end.

Definition OnRemoteSubscriberDied (object : option (option Remote)) : CM unit :=
  ready <- get cm_isSysReady_ ;;
  return_if negb ready, ret tt ;;
  match object with
  | None => ret tt
  | Some object => OnRemoteSubscriberDiedInner object
  end.

(** ** Lists of tasks *)

(** [ContinuousTaskInfo], interfaces/innerkits *)
Record ContinuousTaskInfo := mkTaskInfo {
  ti_abilityName_ : string;
  ti_uid_ : Z;
  ti_pid_ : Z;
  ti_isFromWebView_ : bool;
  ti_backgroundModes_ : list Z;
  ti_backgroundSubModes_ : list Z;
  ti_notificationId_ : Z;
  ti_continuousTaskId_ : Z;
  ti_abilityId_ : Z;
  ti_wantAgentBundleName_ : string;
  ti_wantAgentAbilityName_ : string;
  ti_suspendState_ : bool;
  ti_bundleName_ : string;
  ti_appIndex_ : Z;
  ti_isByRequestObject_ : bool;
}.

(** The list's entry for a task; the suspension is left at its default. *)
Definition task_info (r : ContinuousTaskRecord) : ContinuousTaskInfo := {|
  ti_abilityName_ := ct_abilityName_ r; ti_uid_ := ct_uid_ r; ti_pid_ := ct_pid_ r;
  ti_isFromWebView_ := ct_isFromWebview_ r; ti_backgroundModes_ := ct_bgModeIds_ r;
  ti_backgroundSubModes_ := ct_bgSubModeIds_ r; ti_notificationId_ := ct_notificationId_ r;
  ti_continuousTaskId_ := ct_continuousTaskId_ r; ti_abilityId_ := ct_abilityId_ r;
  ti_wantAgentBundleName_ := match ct_wantAgentInfo_ r with Some i => wai_bundleName_ i | None => "NULL" end;
  ti_wantAgentAbilityName_ := match ct_wantAgentInfo_ r with Some i => wai_abilityName_ i | None => "NULL" end;
  ti_suspendState_ := false; ti_bundleName_ := ct_bundleName_ r; ti_appIndex_ := ct_appIndex_ r;
  ti_isByRequestObject_ := ct_isByRequestObject_ r |}.

(** The records of the map, in the order of its walk. *)
Definition records (m : gmap string ContinuousTaskRecord) : list ContinuousTaskRecord := (map_to_list m).*2.

Definition GetAllContinuousTasksInner (uid : Z) (includeSuspended exemptUid : bool) :
    CM (Z * list ContinuousTaskInfo) :=
  m <- get tasks ;;
  ret (ERR_OK, task_info <$> filter (fun r =>
    (exemptUid || (ct_uid_ r =? uid)) && (includeSuspended || negb (ct_suspendState_ r)) = true) (records m)).

Definition RequestGetContinuousTasksByUidForInner (uid : Z) : CM (Z * list ContinuousTaskInfo) :=
  ready <- get cm_isSysReady_ ;;
  return_if negb ready, ret (ERR_BGTASK_SYS_NOT_READY, []) ;;
  GetAllContinuousTasksInner uid true false.

Section Queries.
Context `{ContinuousPlatform}.

Definition GetAllContinuousTasks (includeSuspended : bool) : CM (Z * list ContinuousTaskInfo) :=
  callingUid <- ask ce_callingUid ;;
  result <- CheckIsSysReadyAndPermission callingUid ;;
  return_if negb (result =? ERR_OK), ret (result, []) ;;
  GetAllContinuousTasksInner callingUid includeSuspended false.

Definition GetAllContinuousTasksBySystem : CM (Z * list ContinuousTaskInfo) :=
  ready <- get cm_isSysReady_ ;;
  return_if negb ready, ret (ERR_BGTASK_SYS_NOT_READY, []) ;;
  GetAllContinuousTasksInner (-1) false true.

(** What is told of a task in the lists of the efficiency side. *)
Definition app_info (r : ContinuousTaskRecord) : ContinuousTaskCallbackInfo :=
  mkCallbackInfo (ct_bgModeId_ r) (ct_uid_ r) (ct_pid_ r) (ct_abilityName_ r) (ct_isFromWebview_ r)
    (ct_isBatchApi_ r) (ct_bgModeIds_ r) (ct_abilityId_ r) (ct_fullTokenId_ r) (ct_continuousTaskId_ r)
    (-1) (-1) (ct_suspendState_ r) (ct_suspendReason_ r) (ct_isByRequestObject_ r) "" 0 (-1) [] (-1) "" ""
    false false false.

Definition GetContinuousTaskAppsInner (uid : Z) (includeSuspended : bool) :
    CM (Z * list ContinuousTaskCallbackInfo) :=
  m <- get tasks ;;
  ret (ERR_OK, app_info <$> filter (fun r =>
    ((uid =? -1) || (uid =? ct_uid_ r)) && (negb (ct_suspendState_ r) || includeSuspended) = true) (records m)).

Definition GetContinuousTaskApps (uid : Z) : CM (Z * list ContinuousTaskCallbackInfo) :=
  ready <- get cm_isSysReady_ ;;
  return_if negb ready, ret (ERR_BGTASK_SYS_NOT_READY, []) ;;
  GetContinuousTaskAppsInner uid false.

Definition GetAllContinuousTaskApps : CM (Z * list ContinuousTaskCallbackInfo) :=
  ready <- get cm_isSysReady_ ;;
  return_if negb ready, ret (ERR_BGTASK_SYS_NOT_READY, []) ;;
  GetContinuousTaskAppsInner (-1) true.

(** ** The shell *)
Definition MAX_DUMP_INNER_PARAM_NUMS : nat := 4.
Definition MAX_DUMP_PARAM_NUMS : nat := 3.
Definition tab : string := String (Ascii.ascii_of_nat 9) EmptyString.
Definition tabs : string := tab +:+ tab.
Definition true_false (x : bool) : string := if x then "true" else "false".
Definition line (name value : string) : string := tabs +:+ name +:+ ": " +:+ value +:+ new_line.
Definition param_invalid : string := "param invaild" +:+ new_line.

Definition g_continuousTaskModeName : list string :=
  ["dataTransfer"; "audioPlayback"; "audioRecording"; "location"; "bluetoothInteraction";
   "multiDeviceConnection"; "wifiInteraction"; "voip"; "taskKeeping"; "workout"; "default";
   "avPlaybackAndRecord"; "specialScenarioProcessing"; "nearlink"; "default"]%string.

(** [None]: the mode's index is out of the bounds of the table of names. *)
Definition dump_task (index : Z) (key : string) (r : ContinuousTaskRecord) : option string :=
  modeName ← g_continuousTaskModeName !! Z.to_nat (GetBgModeNameIndex (ct_bgModeId_ r) (ct_isNewApi_ r));
  Some ("No." +:+ pretty index +:+ tab +:+ "continuousTaskKey: " +:+ key +:+ new_line +:+
    tab +:+ "continuousTaskValue:" +:+ new_line +:+
    line "bundleName" (ct_bundleName_ r) +:+
    line "abilityName" (ct_abilityName_ r) +:+
    line "suspendState" (true_false (ct_suspendState_ r)) +:+
    line "isFromWebview" (true_false (ct_isFromWebview_ r)) +:+
    line "isFromNewApi" (true_false (ct_isNewApi_ r)) +:+
    line "backgroundMode" modeName +:+
    line "isBatchApi" (true_false (ct_isBatchApi_ r)) +:+
    line "backgroundModes" (ToString (ct_bgModeIds_ r)) +:+
    line "backgroundSubModes" (ToString (ct_bgSubModeIds_ r)) +:+
    line "uid" (pretty (ct_uid_ r)) +:+
    line "userId" (pretty (ct_userId_ r)) +:+
    line "pid" (pretty (ct_pid_ r)) +:+
    line "notificationLabel" (ct_notificationLabel_ r) +:+
    line "notificationId" (pretty (ct_notificationId_ r)) +:+
    (if (negb (ct_subNotificationId_ r =? -1) && ct_isByRequestObject_ r)%Z
     then line "subNotificationLabel" (ct_subNotificationLabel_ r) +:+
          line "subNotificationId" (pretty (ct_subNotificationId_ r))
     else "") +:+
    line "continuousTaskId" (pretty (ct_continuousTaskId_ r)) +:+
    line "wantAgentBundleName" match ct_wantAgentInfo_ r with Some i => wai_bundleName_ i | None => "NULL" end +:+
    line "wantAgentAbilityName" match ct_wantAgentInfo_ r with Some i => wai_abilityName_ i | None => "NULL" end +:+
    line "isCombinedTaskNotification" (true_false (ct_isCombinedTaskNotification_ r)) +:+
    line "combinedNotificationTaskId" (pretty (ct_combinedNotificationTaskId_ r)) +:+
    line "isByRequestObject" (true_false (ct_isByRequestObject_ r)) +:+ new_line)%string.

(** [f index entry] for every entry, the indices from 1. *)
Definition numbered {A} (l : list A) : list (Z * A) := zip (Z.of_nat <$> seq 1 (length l)) l.

Definition DumpAllTaskInfo : CM (option (list string)) :=
  m <- get tasks ;;
  return_if bool_decide (m = ∅), ret (Some ["No running continuous task" +:+ new_line]%string) ;;
  ret (mapM (fun e : Z * (string * ContinuousTaskRecord) => dump_task e.1 e.2.1 e.2.2) (numbered (map_to_list m))).

Definition dump_info (index : Z) (info : ContinuousTaskInfo) : string :=
  ("No." +:+ pretty index +:+
    line "abilityName" (ti_abilityName_ info) +:+
    line "isFromWebview" (true_false (ti_isFromWebView_ info)) +:+
    line "uid" (pretty (ti_uid_ info)) +:+
    line "pid" (pretty (ti_pid_ info)) +:+
    line "notificationId" (pretty (ti_notificationId_ info)) +:+
    line "continuousTaskId" (pretty (ti_continuousTaskId_ info)) +:+
    line "abilityId" (pretty (ti_abilityId_ info)) +:+
    line "wantAgentBundleName" (ti_wantAgentBundleName_ info) +:+
    line "wantAgentAbilityName" (ti_wantAgentAbilityName_ info) +:+
    line "backgroundModes" (ToString (ti_backgroundModes_ info)) +:+
    line "backgroundSubModes" (ToString (ti_backgroundSubModes_ info)) +:+ new_line)%string.

Definition DumpGetTask (dumpOption : list string) : CM (list string) :=
  return_if negb (bool_decide (length dumpOption = MAX_DUMP_PARAM_NUMS)), ret [param_invalid] ;;
  let uid := int32 (atoi (default ""%string (dumpOption !! (MAX_DUMP_PARAM_NUMS - 1)%nat))) in
  return_if uid <? 0, ret [param_invalid] ;;
  let* (result, l) := RequestGetContinuousTasksByUidForInner uid in
  return_if negb (result =? ERR_OK), ret [param_invalid] ;;
  return_if bool_decide (length l = 0%nat), ret ["No running continuous task" +:+ new_line]%string ;;
  ret ((fun e : Z * ContinuousTaskInfo => dump_info e.1 e.2) <$> numbered l).

Definition DebugContinuousTask (dumpOption : list string) : CM (list string) :=
  let n := length dumpOption in
  return_if negb (bool_decide (n = MAX_DUMP_INNER_PARAM_NUMS \/ n = S MAX_DUMP_INNER_PARAM_NUMS)),
    ret [param_invalid] ;;
  let option_at i := default ""%string (dumpOption !! i) in
  let mode := if bool_decide (option_at 2%nat = "WORKOUT"%string) then WORKOUT else 0 in
  return_if mode =? 0, ret [param_invalid] ;;
  let operationType := option_at 3%nat in
  let isApply := bool_decide (operationType = "apply"%string) in
  return_if negb isApply && negb (bool_decide (operationType = "reset"%string)), ret [param_invalid] ;;
  let uid :=
    if bool_decide (n = S MAX_DUMP_INNER_PARAM_NUMS) && CheckStrToNum (option_at 4%nat)
    then int32 (atoi (option_at 4%nat)) else 1 in
  result <- DebugContinuousTaskInner (Some (mkInnerParam uid mode isApply (-1) 0 0)) ;;
  ret [if (result =? ERR_OK)%Z then "dump inner continuous task success." +:+ new_line
       else "dump inner continuous task fail." +:+ new_line]%string.

(** [None]: the dump of all tasks left the table of names. *)
Definition ShellDumpInner (dumpOption : list string) : CM (Z * option (list string)) :=
  match dumpOption with
  | _ :: command :: _ =>
      return_if bool_decide (command = "--all"%string),
        (dumpInfo <- DumpAllTaskInfo ;; ret (ERR_OK, dumpInfo)) ;;
      return_if bool_decide (command = "--cancel_all"%string),
        (DumpCancelTask dumpOption true ;;; ret (ERR_OK, Some [])) ;;
      return_if bool_decide (command = "--cancel"%string),
        (DumpCancelTask dumpOption false ;;; ret (ERR_OK, Some [])) ;;
      return_if bool_decide (command = "--get"%string),
        (dumpInfo <- DumpGetTask dumpOption ;; ret (ERR_OK, Some dumpInfo)) ;;
      return_if bool_decide (command = "--inner_task"%string),
        (dumpInfo <- DebugContinuousTask dumpOption ;; ret (ERR_OK, Some dumpInfo)) ;;
      ret (ERR_OK, Some [])
  | _ => ret (ERR_INVALID_VALUE, Some [])
  end.

Definition ShellDump (dumpOption : list string) : CM (Z * option (list string)) :=
  ready <- get cm_isSysReady_ ;;
  return_if negb ready, ret (ERR_BGTASK_SYS_NOT_READY, Some []) ;;
  ShellDumpInner dumpOption.

(** ** TaskNotificationSubscriber *)
Definition LABEL_SPLITER : Ascii.ascii := Ascii.ascii_of_nat 95.
Definition LABEL_SIZE : nat := 5.
Definition LABEL_BANNER_SIZE : nat := 4.
Definition NAVIGATION : string := "NAVIGATION".
Definition CAPSULE_STATUS_ACTIVE : Z := 1.

(** [getline] until the end of the stream: no piece after a delimiter at the end.  [cur]
    is the piece being read. *)
Fixpoint getlines (cur str : string) (delim : Ascii.ascii) : list string :=
  match str with
  | EmptyString => if bool_decide (cur = ""%string) then [] else [cur]
  | String c rest =>
      if bool_decide (c = delim) then cur :: getlines "" rest delim
      else getlines (cur +:+ String c EmptyString) rest delim
  end.
Definition StringSplit (str : string) (delim : Ascii.ascii) : list string := getlines "" str delim.

(** A notification the subscriber is told of: of its request the label, the uids, whether
    it is a live view, the ability name of the additional data ([None]: there is no
    additional data) and the event and capsule status of the content. *)
Record NotificationEvent := mkEvent {
  ne_label : string;
  ne_creatorUid : Z;
  ne_ownerUid : Z;
  ne_isLiveView : bool;
  ne_abilityName : option string;
  ne_liveView : string * Z;
}.

(** The key of the map that a label of five or six parts, or of four, stands for. *)
Definition label_key (labelSplits : list string) (abilityName : string) : string :=
  let part i := default ""%string (labelSplits !! i) in
  let taskInfoMapKey := part 1%nat +:+ SEPARATOR +:+ abilityName +:+ SEPARATOR +:+ part 3%nat in
  if bool_decide (length labelSplits = LABEL_SIZE \/ length labelSplits = S LABEL_SIZE)
  then taskInfoMapKey +:+ SEPARATOR +:+ part 4%nat else taskInfoMapKey.

Definition CancelNotificationByBgTask (request : NotificationEvent) (deleteReason : Z) : CM unit :=
  let labelSplits := StringSplit (ne_label request) LABEL_SPLITER in
  let n := length labelSplits in
  return_if bool_decide (n = LABEL_BANNER_SIZE /\ labelSplits !! 0%nat = Some BANNER_NOTIFICATION_PREFIX),
    (StopBannerContinuousTaskByUser (ne_label request) ;;; ret tt) ;;
  return_if negb (bool_decide (labelSplits !! 0%nat = Some NOTIFICATION_PREFIX)) ||
            bool_decide (S LABEL_SIZE < n \/ n < LABEL_SIZE - 1)%nat, ret tt ;;
  return_if deleteReason =? APP_CANCEL_REASON_DELETE, ret tt ;;
  match ne_abilityName request with
  | None => ret tt
  | Some abilityName =>
      StopContinuousTaskByUser (label_key labelSplits abilityName) (bool_decide (n = S LABEL_SIZE)) deleteReason ;;;
      ret tt
  end.

(** A report to the resource scheduler is left out. *)
Definition OnCanceled (notification : option NotificationEvent) (deleteReason : Z) : CM unit :=
  match notification with
  | None => ret tt
  | Some request =>
      bgTaskUid <- get cm_bgTaskUid_ ;;
      return_if ne_creatorUid request =? bgTaskUid, CancelNotificationByBgTask request deleteReason ;;
      return_if negb (ne_creatorUid request =? ne_ownerUid request) || negb (ne_isLiveView request), ret tt ;;
      return_if negb (bool_decide ((ne_liveView request).1 = NAVIGATION)), ret tt ;;
      SetLiveViewInfo (ne_creatorUid request) false (ne_liveView request).1 ;;;
      SendNotificationByLiveViewCancel (ne_creatorUid request)
  end.

Definition OnConsumed (notification : option NotificationEvent) : CM unit :=
  match notification with
  | None => ret tt
  | Some request =>
      bgTaskUid <- get cm_bgTaskUid_ ;;
      return_if (ne_creatorUid request =? bgTaskUid) || negb (ne_isLiveView request), ret tt ;;
      return_if negb ((ne_liveView request).2 =? CAPSULE_STATUS_ACTIVE) ||
                negb (bool_decide ((ne_liveView request).1 = NAVIGATION)), ret tt ;;
      SetLiveViewInfo (ne_creatorUid request) true (ne_liveView request).1 ;;;
      CancelBgTaskNotification (ne_creatorUid request)
  end.
End Queries.
