(* ===== verification/ContinuousRestart.v ===== *)
(** * Continuous task manager: start of the service, and its operations together

    src/services/continuous_task/src/bg_continuous_task_mgr.cpp: [Init], the texts of the
    notifications, the tasks and authorisations read back from the files, and the change
    of the language; then [ContOp], every operation of the manager, [exec] that runs one,
    and the states that can be reached. *)

From S2P Require Import Prelude.
From S2P Require Import Errors.
From S2P Require Import Interfaces.
From S2P Require Import BackgroundModes.
From S2P Require Import Json.
From S2P Require Import ContinuousTaskRecord.
From S2P Require Import ContinuousTypes.
From S2P Require Import NotificationTools.
From S2P Require Import ContinuousTaskMgr.
From S2P Require Import ContinuousTaskStart.
From S2P Require Import ContinuousTaskStop.
From S2P Require Import ContinuousAuth.
From S2P Require Import ContinuousQueries.
Import BackgroundMode.
Local Open Scope Z_scope.

Definition BG_TASK_RES_BUNDLE_NAME : string := "com.ohos.backgroundtaskmgr.resources".
Definition g_taskPromptResNames : list string :=
  ["ohos_bgmode_prompt_data_transfer"; "ohos_bgmode_prompt_audio_playback";
   "ohos_bgmode_prompt_audio_recording"; "ohos_bgmode_prompt_location";
   "ohos_bgmode_prompt_bluetooth_interaction"; "ohos_bgmode_prompt_multidevice_connection";
   "ohos_bgmode_prompt_wifi_interaction"; "ohos_bgmode_prompt_voip"; "ohos_bgmode_prompt_task_keeping";
   "ohos_bgmode_prompt_default_value"; "ohos_bgmode_prompt_default_value";
   "ohos_bgmode_prompt_default_value"; "ohos_bgmode_prompt_default_value";
   "ohos_bgmode_prompt_nearlink"]%string.
Definition g_taskPromptResNamesSubMode : list string :=
  ["ohos_bgsubmode_prompt_car_key"; "ohos_bgsubmode_prompt_media_process";
   "ohos_bgsubmode_prompt_video_broadcast"; "ohos_bgsubmode_prompt_work_out"]%string.
Definition g_startingTaskNotificationResNames : list string := ["notification_text_starting_task"]%string.
Definition g_btnBannerNotification : list string := ["btn_allow_time"; "btn_allow_allowed"]%string.

Section Restart.
Context `{ContinuousPlatform}.
Implicit Types r record : ContinuousTaskRecord.

(** ** Texts *)
Definition notification_texts : list (Z * string) := [
  (DATA_TRANSFER, "notification_text_data_transfer"%string);
  (AUDIO_PLAYBACK, "notification_text_audio_playbackr"%string);
  (AUDIO_RECORDING, "notification_text_audio_recording"%string);
  (LOCATION, "notification_text_location"%string);
  (BLUETOOTH_INTERACTION, "notification_text_bluetooth_interactionn"%string);
  (MULTI_DEVICE_CONNECTION, "notification_text_multidevice_connection"%string);
  (WIFI_INTERACTION, "notification_text_wifi_interaction"%string);
  (VOIP, "notification_text_voip"%string);
  (TASK_KEEPING, "notification_text_task_keeping"%string);
  (NEARLINK, "notification_text_nearlink"%string)].

(** [emplace] *)
Definition InitNotificationText : CM unit :=
  modify (fun s => cm_set_modeForNotificationText_
    (fold_left (fun m (e : Z * string) =>
       match m !! e.1 with Some _ => m | None => <[e.1 := (e.2, ""%string)]> m end)
       notification_texts (cm_modeForNotificationText_ s)) s).

(** The strings of the names, up to the first that is empty; [text] is the argument the
    calls write to. *)
Fixpoint get_strings (GetStringByName : string -> option string) (text : string) (names : list string) :
    list string * bool :=
  match names with
  | [] => ([], true)
  | name :: rest =>
      let text := default text (GetStringByName name) in
      return_if bool_decide (text = ""%string), ([], false) ;;
      let (texts, ok) := get_strings GetStringByName text rest in (text :: texts, ok)
  end.

Definition GetNotificationTextForMode (GetStringByName : string -> option string) : CM bool :=
  m <- get cm_modeForNotificationText_ ;;
  let entries := sorted_entries m in
  let (texts, ok) := get_strings GetStringByName "" ((fun e : Z * (string * string) => e.2.1) <$> entries) in
  modify (cm_set_modeForNotificationText_
    (fold_left (fun m (e : Z * (string * string) * string) => <[e.1.1 := (e.1.2.1, e.2)]> m) (zip entries texts) m)) ;;;
  return_if negb ok, ret false ;;
  let (starting, ok) := get_strings GetStringByName "" g_startingTaskNotificationResNames in
  modify (cm_set_startingTaskText_ starting) ;;;
  return_if negb ok, ret false ;;
  let (buttons, ok) := get_strings GetStringByName "" g_btnBannerNotification in
  modify (cm_set_bannerNotificationBtn_ buttons) ;;;
  ret ok.

(** No resource manager: the resource bundle, or its resources, are not there. *)
Definition GetNotificationPrompt : CM bool :=
  modify (fun s => cm_set_continuousTaskSubText_ [] (cm_set_continuousTaskText_ [] s)) ;;;
  manager <- ask ce_ResourceManager ;;
  match manager with
  | None => ret false
  | Some GetStringByName =>
      let (texts, ok) := get_strings GetStringByName "" g_taskPromptResNames in
      modify (cm_set_continuousTaskText_ texts) ;;;
      return_if negb ok, ret false ;;
      let (subTexts, ok) := get_strings GetStringByName "" g_taskPromptResNamesSubMode in
      modify (cm_set_continuousTaskSubText_ subTexts) ;;;
      return_if negb ok, ret false ;;
      GetNotificationTextForMode GetStringByName
  end.

(** ** The tasks that were stored *)
Definition checkPidCondition (allProcesses : list Z) (pid : Z) : bool :=
  existsb (fun target => pid =? target) allProcesses.

(** The greatest of the ids, and -1. *)
Definition max_id (id : ContinuousTaskRecord -> Z) (l : list ContinuousTaskRecord) : Z :=
  fold_left (fun m r => if m <? id r then id r else m) l (-1).

(** One turn of the loop: a task of a process that lives shows its notification again,
    the others go. *)
Definition check_persisted (allProcesses : list Z) (key : string) record : CM unit :=
  if checkPidCondition allProcesses (ct_pid_ record) then
    return_if ct_notificationId_ record =? -1, ret tt ;;
    SetCachedBundleInfo record ;;;
    record <- HandleActiveNotification record ;;
    put_task key record
  else
    erase_task key ;;;
    CancelNotification record ;;; ret tt.

(** The ids are those the records had when the loop came to them: publishing a new
    notification happens only to records without one, which the loop passes over. *)
Definition CheckPersistenceData (allProcesses : list Z) : CM unit :=
  l <- get (fun s => records (tasks s)) ;;
  let maxNotificationId := max_id ct_notificationId_ l in
  let maxContinuousTaskId := max_id ct_continuousTaskId_ l in
  for_tasks (check_persisted allProcesses) ;;;
  (if negb (maxNotificationId =? -1) then SetNotificationIdIndex maxNotificationId else ret tt) ;;;
  (if negb (maxContinuousTaskId =? -1)
   then modify (cm_set_continuousTaskIdIndex_ maxContinuousTaskId) else ret tt).

(** The modes applied for by the tasks of each application. *)
Definition applied_modes (l : list ContinuousTaskRecord) : gmap Z (list Z) :=
  fold_left (fun m r =>
    <[ct_uid_ r := match m !! ct_uid_ r with
                   | None => ct_bgModeIds_ r
                   | Some appliedModeIds => add_modes appliedModeIds (ct_bgModeIds_ r)
                   end]> m) l ∅.

Definition RestoreApplyRecord : CM unit :=
  modify (cm_set_appOnForeground_ ∅) ;;;
  fgApps <- ask ce_GetForegroundApplications ;;
  match fgApps with
  | None => ret tt
  | Some fgApps =>
      modify (fun s => cm_set_applyTaskOnForeground_ (applied_modes (records (tasks s)))
                (cm_set_appOnForeground_ (list_to_set fgApps) s))
  end.

Section Files.
Context `{Json J}.

(** [taskFile] and [authFile]: the parsed contents of the two files, if there are.
    [None]: reading the tasks throws. *)
Definition HandlePersistenceData (taskFile authFile : option J) : CM (option unit) :=
  m <- get tasks ;;
  match ds_RestoreTaskRecord taskFile m with
  | None => ret None
  | Some m =>
      modify (cm_set_continuousTaskInfosMap_ m) ;;;
      processes <- ask ce_GetAllRunningProcesses ;;
      match processes with
      | None => ret (Some tt)
      | Some allAppProcessInfos =>
          CheckPersistenceData allAppProcessInfos ;;;
          RefreshTaskRecord ;;;
          RestoreApplyRecord ;;;
          modify (fun s => cm_set_bannerNotificationRecord_ (ds_RestoreAuthRecord authFile (banners s)) s) ;;;
          (if ds_auth_restored authFile then RefreshAuthRecord ;;; ret tt else ret tt) ;;;
          RefreshAuthRecord ;;; ret (Some tt)
      end
  end.

Definition InitRequiredResourceInfo (taskFile authFile : option J) : CM (option unit) :=
  InitNotificationText ;;;
  GetNotificationPrompt ;;;
  done <- HandlePersistenceData taskFile authFile ;;
  match done with
  | None => ret None
  | Some _ => modify (cm_set_isSysReady_ true) ;;; ret (Some tt)
  end.

(** Tried again until the services are there; [listeners]: every subscription to events
    succeeds. *)
Definition InitNecessaryState (servicesReady listeners : bool) (taskFile authFile : option J) :
    CM (option unit) :=
  return_if negb servicesReady, (post PT_InitNecessaryState ;;; ret (Some tt)) ;;
  return_if negb listeners, ret (Some tt) ;;
  InitRequiredResourceInfo taskFile authFile.

(** [ownUid]: the uid of the service. *)
Definition Init (ownUid : Z) (servicesReady listeners : bool) (taskFile authFile : option J) :
    CM (option unit) :=
  modify (cm_set_bgTaskUid_ ownUid) ;;;
  InitNecessaryState servicesReady listeners taskFile authFile.

(** The records of a backup are added to those the service has.  [copied]: the backup was
    read, written over the file of the records, and the reply was sent; [backup]: what the
    file then holds, parsed. *)
Definition OnRestore (copied : bool) (backup : option J) : CM Z :=
  ready <- get cm_isSysReady_ ;;
  return_if negb ready, ret ERR_BGTASK_SYS_NOT_READY ;;
  return_if negb copied, ret ERR_INVALID_OPERATION ;;
  modify (fun s => cm_set_bannerNotificationRecord_ (ds_RestoreAuthRecord backup (banners s)) s) ;;;
  if ds_auth_restored backup then RefreshAuthRecord ;;; ret ERR_OK else ret ERR_BGTASK_DATA_STORAGE_ERR.
End Files.

(** ** Change of the language *)

(** The title and text of the notification of a task; a task with data transfer alone
    keeps its own. *)
Definition refreshed_prompt (infos : PromptInfos) (key : string) record : CM PromptInfos :=
  let emplace label title text :=
    match infos !! label with Some _ => infos | None => <[label := (title, text)]> infos end in
  if negb (ct_subNotificationId_ record =? -1) && negb (bool_decide (ct_subNotificationLabel_ record = ""%string)) then
    appName <- GetMainAbilityLabel (ct_bundleName_ record) (ct_userId_ record) ;;
    let* (p, _) := CheckNotificationText (InitSubNotificationRecord record record) in
    let (result, text) := p : Z * string in
    ret (if (result =? ERR_OK) && negb (bool_decide (text = ""%string))
         then emplace (ct_subNotificationLabel_ record) appName text else infos)
  else if negb (CheckExistMode (ct_bgModeIds_ record) DATA_TRANSFER) then
    mainAbilityLabel <- GetMainAbilityLabel (ct_bundleName_ record) (ct_userId_ record) ;;
    let* (text, record') := GetNotificationText record in
    put_task key record' ;;;
    ret (emplace (ct_notificationLabel_ record) mainAbilityLabel text)
  else ret infos.

Fixpoint refreshed_prompts (infos : PromptInfos) (l : list (string * ContinuousTaskRecord)) : CM PromptInfos :=
  match l with
  | [] => ret infos
  | (key, record) :: rest =>
      infos <- refreshed_prompt infos key record ;;
      refreshed_prompts infos rest
  end.

Definition OnBundleResourcesChangedInner : CM unit :=
  GetNotificationPrompt ;;;
  modify (cm_set_cachedBundleInfos_ ∅) ;;;
  l <- get (fun s => map_to_list (tasks s)) ;;
  newPromptInfos <- refreshed_prompts ∅ l ;;
  serviceUid <- get cm_bgTaskUid_ ;;
  RefreshContinuousNotifications newPromptInfos serviceUid ;;;
  authRecords <- get (fun s => map_to_list (banners s)) ;;
  for_each authRecords (fun e =>
    appName <- GetMainAbilityLabel (bn_bundleName_ e.2) (bn_userId_ e.2) ;;
    put_banner e.1 (bn_SetAppName appName e.2) ;;;
    content <- FormatBannerNotificationContext appName ;;
    match content with
    | None => ret tt
    | Some bannerNotificationText =>
        buttons <- get cm_bannerNotificationBtn_ ;;
        RefreshBannerNotifications buttons {[bn_notificationLabel_ e.2 := (appName, bannerNotificationText)]} serviceUid
    end).

(** When the manager is not ready a warning is logged, and the work is done. *)
Definition OnBundleResourcesChanged : CM unit :=
  ready <- get cm_isSysReady_ ;;
  OnBundleResourcesChangedInner.
End Restart.
