(* ===== verification/ContinuousSystem.v ===== *)
(** * Continuous task manager: all its operations, and the states they lead to

    [ContOp] lists the entry points of [BgContinuousTaskMgr] (and of
    [TaskNotificationSubscriber], [GamePreLaunchMgr] and [AudioRendererInfoPluginData],
    whose data are part of the state), [run_posted] runs a closure of the handler's queue,
    and [reachable] the states of a service that is started, used and started again. *)

From S2P Require Import Prelude.
From S2P Require Import Errors.
From S2P Require Import Interfaces.
From S2P Require Import BackgroundModes.
From S2P Require Import Json.
From S2P Require Import ContinuousTaskRecord.
From S2P Require Import ContinuousTypes.
From S2P Require Import NotificationTools.
From S2P Require Import ContinuousTaskMgr.
From S2P Require Import ContinuousTaskStart.
From S2P Require Import ContinuousTaskStop.
From S2P Require Import ContinuousAuth.
From S2P Require Import ContinuousQueries.
From S2P Require Import ContinuousRestart.
Local Open Scope Z_scope.

(** The requests, events and commands the manager handles. *)
Inductive ContOp :=
| OpStart (p : option ContinuousTaskParam)
| OpUpdate (p : ContinuousTaskParam)
| OpProgress (p : DataTransferProgress)
| OpStop (abilityName : string) (abilityId continuousTaskId : Z)
| OpInner (p : option ContinuousTaskParamForInner)
| OpStopTask (uid pid taskType : Z) (key : string)
| OpSuspendTask (uid pid reason : Z) (key : string) (isStandby : bool)
| OpActiveTask (uid pid : Z) (key : string) (isStandby : bool)
| OpSuspendAudio (uid : Z)
| OpAudioStart (uid : Z)
| OpAVSession (uid pid : Z) (isPublish : bool)
| OpDeteTask (taskKeys : list string)
| OpCanceled (n : option NotificationEvent) (deleteReason : Z)
| OpConsumed (n : option NotificationEvent)
| OpAbilityState (uid : Z) (abilityName : string) (abilityId : Z)
| OpAppStopped (uid : Z)
| OpAppState (uid : Z) (foreground gamePrelaunch : bool)
| OpAccounts (id : Z)
| OpBundleInfo (action : PackageEvent) (bundleName : string) (uid userId appIndex : Z)
| OpResources
| OpRemoveAbility (systemAbilityId : Z)
| OpEnable (uid : Z) (isEnable : bool)
| OpRequestAuth (p : option ContinuousTaskParam) (callback : option RemoteProxy) (notificationId : Z)
| OpBannerClick (buttonType uid : Z) (label : string)
| OpDialogClick (authResult bundleUid : Z) (bundleName : string) (appIndex : Z)
| OpCallbackDeath (remote : option Remote)
| OpRemoveAuth (p : option ContinuousTaskParam)
| OpSetState (p : option BackgroundTaskStateInfo)
| OpAddSubscriber (i : option SubscriberInfo)
| OpRemoveSubscriber (p : option RemoteProxy) (flag : Z)
| OpSubscriberDied (o : option (option Remote))
| OpShell (options : list string)
| OpAudioPlayers (infos : list (option (Z * Z * bool)))
| OpAudioPlayer (info : option (Z * Z))
| OpAudioPlayerGone (uid sessionId : Z)
| OpGamePreLaunch (uid : Z) (add : bool)
| OpRun (n : nat).

Section System.
Context `{ContinuousPlatform}.

(** A closure of the queue; [InitNecessaryState] is [Init] of [reachable]. *)
Definition run_posted (t : PostedTask) : CM unit :=
  match t with
  | PT_InitNecessaryState => ret tt
  | PT_StopContinuousTask uid pid taskType key => HandleStopContinuousTask uid pid taskType key
  | PT_SuspendContinuousTask uid pid reason key isStandby => run_SuspendContinuousTask uid pid reason key isStandby
  | PT_ActiveContinuousTask uid pid key isStandby => run_ActiveContinuousTask uid pid key isStandby
  | PT_SuspendContinuousAudioTask uid => HandleSuspendContinuousAudioTask uid
  | PT_AVSession uid pid isPublish => AVSessionNotifyUpdateNotificationInner uid pid isPublish ;;; ret tt
  | PT_RemoveTaskByMode mode => HandleRemoveTaskByMode mode
  | PT_NotifyAudioStart uid => NotifyAudioStartInner uid
  end.

(** The [n]th closure of the queue is taken off it and run. *)
Definition run_nth (n : nat) : CM unit :=
  posted <- get cm_posted ;;
  match posted !! n with
  | None => ret tt
  | Some t => modify (cm_set_posted (list_delete n posted)) ;;; run_posted t
  end.

Definition exec (op : ContOp) : CM unit :=
  match op with
  | OpStart p => StartBackgroundRunning p ;;; ret tt
  | OpUpdate p => UpdateBackgroundRunning p ;;; ret tt
  | OpProgress p => UpdateDataTransferProgress p ;;; ret tt
  | OpStop abilityName abilityId id => StopBackgroundRunning abilityName abilityId id ;;; ret tt
  | OpInner p => RequestBackgroundRunningForInner p ;;; ret tt
  | OpStopTask uid pid taskType key => StopContinuousTask uid pid taskType key
  | OpSuspendTask uid pid reason key isStandby => SuspendContinuousTask uid pid reason key isStandby
  | OpActiveTask uid pid key isStandby => ActiveContinuousTask uid pid key isStandby
  | OpSuspendAudio uid => SuspendContinuousAudioTask uid
  | OpAudioStart uid => NotifyAudioStart uid ;;; ret tt
  | OpAVSession uid pid isPublish => AVSessionNotifyUpdateNotification uid pid isPublish ;;; ret tt
  | OpDeteTask keys => SendNotificationByDeteTask keys ;;; ret tt
  | OpCanceled n reason => OnCanceled n reason
  | OpConsumed n => OnConsumed n
  | OpAbilityState uid name id => OnAbilityStateChanged uid name id
  | OpAppStopped uid => OnAppStopped uid
  | OpAppState uid foreground game => OnAppStateChanged uid foreground game
  | OpAccounts id => OnAccountsStateChanged id
  | OpBundleInfo action name uid user app => OnBundleInfoChanged action name uid user app
  | OpResources => OnBundleResourcesChanged
  | OpRemoveAbility id => OnRemoveSystemAbility id
  | OpEnable uid b => EnableContinuousTaskRequest uid b ;;; ret tt
  | OpRequestAuth p callback id => RequestAuthFromUser p callback id ;;; ret tt
  | OpBannerClick button uid label => OnBannerNotificationActionButtonClick button uid label
  | OpDialogClick r uid name app => OnPermissionDialogButtonClickInner r uid name app
  | OpCallbackDeath remote => HandleAuthExpiredCallbackDeath remote
  | OpRemoveAuth p => RemoveAuthRecord p ;;; ret tt
  | OpSetState p => SetBackgroundTaskState p ;;; ret tt
  | OpAddSubscriber i => AddSubscriber i ;;; ret tt
  | OpRemoveSubscriber p flag => RemoveSubscriber p flag ;;; ret tt
  | OpSubscriberDied o => OnRemoteSubscriberDied o
  | OpShell options => ShellDump options ;;; ret tt
  | OpAudioPlayers infos => AfterAddSaListener infos
  | OpAudioPlayer info => AddAudioPlayerInfo info ;;; ret tt
  | OpAudioPlayerGone uid session => RemoveAudioPlayerInfo uid session
  | OpGamePreLaunch uid add => if add then AddGamePreLaunchApp uid else RemoveGamePreLaunchApp uid
  | OpRun n => run_nth n
  end.

(** Requests come with 32-bit numbers, and the ids of tasks have not run out. *)
Definition admissible (op : ContOp) (e : ContEnv) (s : ContinuousMgr) : Prop :=
  cm_continuousTaskIdIndex_ s < int32_max /\
  match op with
  | OpStart (Some p) => in_int32 (ce_callingUid e) /\ in_int32 (tp_abilityId_ p)
  | OpInner (Some p) => in_int32 (ip_uid_ p)
  | _ => True
  end.

Context `{Json J}.

(** The service starts without files; serves requests; takes the authorisations of a
    backup; and starts again from the files of an earlier moment.  [asks] says what is
    known of the surroundings of each start from files: the service asks there for the
    running processes, and where it is not told it keeps what it read without a look. *)
Inductive reach (asks : ContEnv -> Prop) : ContinuousMgr -> Prop :=
| reach_new e ownUid services listeners :
    reach asks (Init ownUid services listeners (None : option J) None e new_ContinuousMgr).2
| reach_step s op e : reach asks s -> admissible op e s -> reach asks (exec op e s).2
| reach_backup s e copied (backup : option J) : reach asks s -> reach asks (OnRestore copied backup e s).2
| reach_restart s e ownUid services listeners (authFile : option J) :
    reach asks s -> asks e ->
    reach asks (Init ownUid services listeners (Some (ds_RefreshTaskRecord (tasks s))) authFile e new_ContinuousMgr).2.

(** Every state; and those where each start from files was told of the processes. *)
Definition reachable_any : ContinuousMgr -> Prop := reach (fun _ => True).
Definition reachable : ContinuousMgr -> Prop := reach (fun e => ce_GetAllRunningProcesses e <> None).
End System.
