(* ===== verification/ContinuousTaskMgrSpec.v ===== *)
(** * Continuous task manager: assertions about operations

    Triples on the part of the state the theorems are about ([Core]: the map of tasks,
    the last task id and what observers were told), the operations that leave it alone
    ([Quiet]), the identity of a task, and the view an observer has of the tasks. *)

From S2P Require Import Prelude.
From S2P Require Import Errors.
From S2P Require Import Interfaces.
From S2P Require Import BackgroundModes.
From S2P Require Import Json.
From S2P Require Import ContinuousTaskRecord.
From S2P Require Import ContinuousTypes.
From S2P Require Import NotificationTools.
From S2P Require Import ContinuousTaskMgr.
Local Open Scope Z_scope.

(** ** What the theorems look at *)
Definition is_observer (x : ContEffect) : bool := match x with EObserver _ _ => true | _ => false end.
(** The calls of the observers, in order. *)
Definition told (l : list ContEffect) : list ContEffect := filter (fun x => is_observer x = true) l.

Record Core := mkCore {
  co_tasks : gmap string ContinuousTaskRecord;
  co_index : Z;
  co_told : list ContEffect;
}.
Definition core (s : ContinuousMgr) : Core := mkCore (tasks s) (cm_continuousTaskIdIndex_ s) (told (cm_effects s)).

(** ** Triples *)
Definition triple {A} (P : Core -> Prop) (m : CM A) (Q : A -> Core -> Prop) : Prop :=
  forall e s, P (core s) -> Q (m e s).1 (core (m e s).2).

Definition Quiet {A} (m : CM A) : Prop := forall e s, core (m e s).2 = core s.

Section Rules.
Context {A B : Type}.
Implicit Types P : Core -> Prop.

Lemma triple_ret P (a : A) (Q : A -> Core -> Prop) : (forall c, P c -> Q a c) -> triple P (ret a) Q.
Proof. intros H e s Hs. by apply H. Qed.

Lemma bind_run (m : CM A) (k : A -> CM B) e s : bind m k e s = k (m e s).1 e (m e s).2.
Proof. unfold bind. by destruct (m e s). Qed.

Lemma triple_ret_bind P (a : A) (k : A -> CM B) Q : triple P (k a) Q -> triple P (bind (ret a) k) Q.
Proof. done. Qed.
Lemma triple_bind P R (m : CM A) (k : A -> CM B) Q :
  triple P m R -> (forall a, triple (R a) (k a) Q) -> triple P (bind m k) Q.
Proof. intros Hm Hk e s Hs. rewrite bind_run. apply Hk, Hm, Hs. Qed.

Lemma triple_quiet P (m : CM A) (k : A -> CM B) Q :
  Quiet m -> (forall a, triple P (k a) Q) -> triple P (bind m k) Q.
Proof. intros Hm Hk. apply (triple_bind P (fun _ => P)); [|done]. intros e s Hs. by rewrite Hm. Qed.

Lemma quiet_triple P (m : CM A) : Quiet m -> triple P m (fun _ => P).
Proof. intros Hm e s Hs. by rewrite Hm. Qed.

Lemma triple_conseq (P P' : Core -> Prop) (m : CM A) (Q Q' : A -> Core -> Prop) :
  triple P m Q -> (forall c, P' c -> P c) -> (forall a c, Q a c -> Q' a c) -> triple P' m Q'.
Proof. intros Hm HP HQ e s Hs. apply HQ, Hm, HP, Hs. Qed.

Lemma triple_pure P (φ : Prop) (m : CM A) Q : (φ -> triple P m Q) -> triple (fun c => P c /\ φ) m Q.
Proof. intros Hm e s [Hs Hp]. by apply Hm. Qed.

(** A value read from the tasks. *)
Lemma triple_get P {C} (f : ContinuousMgr -> C) (g : Core -> C) (k : C -> CM A) Q :
  (forall s, f s = g (core s)) ->
  (forall x, triple (fun c => x = g c /\ P c) (k x) Q) -> triple P (bind (get f) k) Q.
Proof.
  intros Hf Hk. intros e s Hs. apply (Hk (f s)). by rewrite <- Hf.
Qed.

Lemma quiet_ret (a : A) : Quiet (ret a).
Proof. done. Qed.
Lemma quiet_ask (f : ContEnv -> A) : Quiet (ask f).
Proof. done. Qed.
Lemma quiet_get (f : ContinuousMgr -> A) : Quiet (get f).
Proof. done. Qed.
Lemma quiet_bind (m : CM A) (k : A -> CM B) : Quiet m -> (forall a, Quiet (k a)) -> Quiet (bind m k).
Proof. intros Hm Hk e s. rewrite bind_run, Hk. apply Hm. Qed.
Lemma quiet_modify f : (forall s, core (f s) = core s) -> Quiet (modify f).
Proof. intros Hf e s. apply Hf. Qed.
Lemma quiet_if (b : bool) (m m' : CM A) : Quiet m -> Quiet m' -> Quiet (if b then m else m').
Proof. by destruct b. Qed.
End Rules.

Lemma quiet_emits l : told l = [] -> Quiet (emits l).
Proof.
  intros Hl e s. unfold core, emits, modify, told, tasks in *. cbn.
  f_equal. by rewrite filter_app, Hl, app_nil_r.
Qed.

Lemma quiet_for_each {A} (l : list A) body : (forall x, Quiet (body x)) -> Quiet (for_each l body).
Proof. intros Hb. induction l as [|x l IH]; [done|]. apply quiet_bind; [apply Hb|]. intros _. apply IH. Qed.

Lemma quiet_for_err {A} (l : list A) body : (forall x, Quiet (body x)) -> Quiet (for_err l body).
Proof.
  intros Hb. induction l as [|x l IH]; [done|]. apply quiet_bind; [apply Hb|].
  intros r. by case_test.
Qed.

Lemma quiet_emit x : is_observer x = false -> Quiet (emit x).
Proof. intros Hx. apply quiet_emits. unfold told. by rewrite filter_cons, Hx. Qed.

Create HintDb quiet.
#[export] Hint Resolve quiet_ret quiet_ask quiet_get quiet_emit quiet_emits quiet_for_each quiet_for_err : quiet.
#[export] Hint Unfold Is_true : quiet.

(** Goes through the binds and the branches of an operation. *)
Ltac quiet_step :=
  first
    [ match goal with |- forall _, _ => intros ? end
    | solve [auto with quiet]
    | apply quiet_bind
    | (apply quiet_modify; done)
    | apply quiet_for_each | apply quiet_for_err
    | match goal with
      | |- Quiet (match ?x with _ => _ end) => destruct x
      | |- Quiet (let _ := ?x in _) => cbv zeta
      end ].
Ltac quiet := repeat quiet_step.

(** Equations of the monad, to run an operation step by step. *)
Lemma bind_ask {A B} (f : ContEnv -> A) (k : A -> CM B) e s : bind (ask f) k e s = k (f e) e s.
Proof. done. Qed.
Lemma bind_get {A B} (f : ContinuousMgr -> A) (k : A -> CM B) e s : bind (get f) k e s = k (f s) e s.
Proof. done. Qed.
Lemma bind_ret {A B} (a : A) (k : A -> CM B) e s : bind (ret a) k e s = k a e s.
Proof. done. Qed.
Lemma bind_modify {B} f (k : unit -> CM B) e s : bind (modify f) k e s = k tt e (f s).
Proof. done. Qed.
(** The result of an operation is passed over, or turned into another. *)
Lemma bind_state {A B} (m : CM A) (f : A -> B) e s : (bind m (fun a => ret (f a)) e s).2 = (m e s).2.
Proof. by rewrite bind_run. Qed.

(** A fact about the result, whatever the state. *)
Definition yields {A} (m : CM A) (φ : A -> Prop) : Prop := forall e s, φ (m e s).1.

Section Yields.
Context {A B : Type}.
Lemma yields_ret (a : A) (φ : A -> Prop) : φ a -> yields (ret a) φ.
Proof. by intros ? e s. Qed.
Lemma yields_bind (m : CM A) (k : A -> CM B) (ψ : A -> Prop) (φ : B -> Prop) :
  yields m ψ -> (forall a, ψ a -> yields (k a) φ) -> yields (bind m k) φ.
Proof. intros Hm Hk e s. rewrite bind_run. apply Hk, Hm. Qed.
Lemma yields_any (m : CM A) (k : A -> CM B) (φ : B -> Prop) :
  (forall a, yields (k a) φ) -> yields (bind m k) φ.
Proof. intros Hk e s. rewrite bind_run. apply Hk. Qed.
Lemma triple_yields P (m : CM A) (φ : A -> Prop) (k : A -> CM B) Q :
  Quiet m -> yields m φ -> (forall a, φ a -> triple P (k a) Q) -> triple P (bind m k) Q.
Proof. intros Hm Hy Hk e s Hs. rewrite bind_run. apply Hk; [apply Hy|by rewrite Hm]. Qed.
End Yields.

(** ** The identity of a task: what no operation changes once it is there, and the
    suspension. *)
Definition same_task (r r' : ContinuousTaskRecord) : Prop :=
  task_key r = task_key r' /\ ct_uid_ r = ct_uid_ r' /\ ct_pid_ r = ct_pid_ r' /\
  ct_userId_ r = ct_userId_ r' /\ ct_bundleName_ r = ct_bundleName_ r' /\
  ct_abilityName_ r = ct_abilityName_ r' /\ ct_abilityId_ r = ct_abilityId_ r' /\
  ct_continuousTaskId_ r = ct_continuousTaskId_ r' /\ ct_isByRequestObject_ r = ct_isByRequestObject_ r' /\
  ct_isFromWebview_ r = ct_isFromWebview_ r'.

#[export] Instance same_task_equiv : Equivalence same_task.
Proof. split; unfold same_task; red; intuition congruence. Qed.

(** Nor the suspension. *)
Definition same_state (r r' : ContinuousTaskRecord) : Prop :=
  same_task r r' /\ ct_suspendState_ r = ct_suspendState_ r'.
#[export] Instance same_state_equiv : Equivalence same_state.
Proof.
  split; unfold same_state.
  - intros x. by repeat split.
  - intros x y []. split; [by symmetry|auto].
  - intros x y z [] []. split; [by etrans|congruence].
Qed.

Lemma same_state_task r r' : same_state r r' -> same_task r r'.
Proof. by intros []. Qed.
#[export] Hint Resolve same_state_task : core.

(** What a task was asked for with: all but its notifications, and how it has fared since. *)
Definition same_terms (r r' : ContinuousTaskRecord) : Prop :=
  ct_bgModeId_ r = ct_bgModeId_ r' /\ ct_bgModeIds_ r = ct_bgModeIds_ r' /\
  ct_bgSubModeIds_ r = ct_bgSubModeIds_ r' /\ ct_isBatchApi_ r = ct_isBatchApi_ r' /\
  ct_wantAgent_ r = ct_wantAgent_ r' /\ ct_wantAgentInfo_ r = ct_wantAgentInfo_ r' /\
  ct_isNewApi_ r = ct_isNewApi_ r' /\ ct_appName_ r = ct_appName_ r' /\ ct_appIndex_ r = ct_appIndex_ r' /\
  ct_progressInfo_ r = ct_progressInfo_ r' /\
  ct_isCombinedTaskNotification_ r = ct_isCombinedTaskNotification_ r' /\
  ct_combinedNotificationTaskId_ r = ct_combinedNotificationTaskId_ r'.
Definition same_request (r r' : ContinuousTaskRecord) : Prop := same_state r r' /\ same_terms r r'.
#[export] Instance same_terms_equiv : Equivalence same_terms.
Proof. split; unfold same_terms; red; intuition congruence. Qed.
#[export] Instance same_request_equiv : Equivalence same_request.
Proof.
  split; unfold same_request.
  - intros x. by split.
  - intros x y []. by split.
  - intros x y z [] []. split; by etrans.
Qed.
Lemma same_request_state r r' : same_request r r' -> same_state r r'.
Proof. by intros []. Qed.

(** Solves [same_task], [same_state] and [same_request] between a record and one made from
    it by assignments of other members. *)
Ltac same := repeat (case_test || match goal with |- context [match ?x with _ => _ end] => destruct x end);
  done || (repeat split; reflexivity).

(** ** Notifications leave the tasks alone

    and the records they give back have the identity and the state of those they were
    given. *)
Lemma quiet_post t : Quiet (post t).
Proof. done. Qed.
Lemma quiet_next_notification_id : Quiet next_notification_id.
Proof. unfold next_notification_id. quiet. Qed.
Lemma quiet_SetNotificationIdIndex id : Quiet (SetNotificationIdIndex id).
Proof. unfold SetNotificationIdIndex. quiet. Qed.
Lemma quiet_helper_publish n : Quiet (helper_publish n).
Proof. unfold helper_publish. quiet. Qed.
#[export] Hint Resolve quiet_post quiet_next_notification_id quiet_SetNotificationIdIndex quiet_helper_publish : quiet.

(** An operation that leaves the tasks alone and gives a record like [r]. *)
Section Gives.
Context (R : relation ContinuousTaskRecord) {Requiv : Equivalence R}.
Definition gives_as {A} (rec : A -> ContinuousTaskRecord) (r : ContinuousTaskRecord) (m : CM A) : Prop :=
  Quiet m /\ yields m (fun a => R r (rec a)).

Lemma gives_ret {A} (rec : A -> ContinuousTaskRecord) r a : R r (rec a) -> gives_as rec r (ret a).
Proof. intros Ha. split; [done|by apply yields_ret]. Qed.
Lemma gives_any {A B} (rec : B -> ContinuousTaskRecord) r (m : CM A) (k : A -> CM B) :
  Quiet m -> (forall a, gives_as rec r (k a)) -> gives_as rec r (bind m k).
Proof. intros Hm Hk. split; [apply quiet_bind; [done|apply Hk]|apply yields_any, Hk]. Qed.
Lemma gives_bind {A B} (rec : A -> ContinuousTaskRecord) (rec' : B -> ContinuousTaskRecord) r (m : CM A) (k : A -> CM B) :
  gives_as rec r m -> (forall a, R r (rec a) -> gives_as rec' r (k a)) -> gives_as rec' r (bind m k).
Proof.
  intros [Hm Hy] Hk. split.
  - intros e s. rewrite bind_run. destruct (Hk (m e s).1 (Hy e s)) as [Hq _]. rewrite Hq. apply Hm.
  - apply (yields_bind _ _ (fun a => R r (rec a))); [done|]. intros a Ha. by apply Hk.
Qed.
Lemma gives_trans {A} (rec : A -> ContinuousTaskRecord) r r' (m : CM A) :
  R r r' -> gives_as rec r' m -> gives_as rec r m.
Proof using Requiv. intros Hr [Hm Hy]. split; [done|]. intros e s. etrans; [done|apply Hy]. Qed.
End Gives.

(** As far as the identity and the suspension go; and the terms of the request too. *)
Abbreviation gives := (gives_as same_state).
Abbreviation gives_whole := (gives_as same_request).
Lemma gives_weaken {A} (rec : A -> ContinuousTaskRecord) r (m : CM A) : gives_whole rec r m -> gives rec r m.
Proof. intros [Hm Hy]. split; [done|]. intros e s. apply same_request_state, Hy. Qed.

Create HintDb gives.
(** The record given may have been assigned members of before. *)
Ltac gives_call := solve [eauto with gives | eapply gives_trans; [eauto with typeclass_instances| |solve [eauto with gives]]; same].
Ltac gives_step :=
  first
    [ solve [apply gives_ret; same]
    | gives_call
    | match goal with
      | |- gives_as _ _ _ (bind (match ?x with _ => _ end) _) => destruct x
      | |- gives_as _ _ _ (bind _ _) =>
          first
            [ eapply gives_bind; [gives_call|];
              let a := fresh "a" in let Ha := fresh "Ha" in
              intros a Ha; repeat match goal with x : _ * _ |- _ => destruct x end; cbn in Ha;
              refine (gives_trans _ _ _ _ _ Ha _); clear Ha
            | apply gives_any; [solve [quiet]|];
              let a := fresh "a" in intros a ]
      | |- gives_as _ _ _ (match ?x with _ => _ end) => destruct x
      end
    | progress cbv zeta ].
Ltac gives := repeat gives_step.

Section Tools.
Context `{ContinuousPlatform}.
Implicit Types r record subRecord : ContinuousTaskRecord.

Lemma quiet_CancelNotification_tool label id : Quiet (CancelNotification_tool label id).
Proof. unfold CancelNotification_tool. quiet. Qed.
Lemma gives_PublishNotification r appName prompt uid : gives_whole snd r (PublishNotification r appName prompt uid).
Proof. unfold PublishNotification. gives. Qed.
Lemma gives_PublishMainNotification subRecord appName prompt uid r :
  gives_whole snd r (PublishMainNotification subRecord appName prompt uid r).
Proof. unfold PublishMainNotification. gives. Qed.
Lemma gives_PublishSubNotification subRecord appName prompt uid r :
  gives_whole snd r (PublishSubNotification subRecord appName prompt uid r).
Proof. unfold PublishSubNotification. gives. Qed.
Lemma quiet_RefreshContinuousNotifications infos uid : Quiet (RefreshContinuousNotifications infos uid).
Proof. unfold RefreshContinuousNotifications. quiet. Qed.
Lemma quiet_RefreshWantAndContext uid infos r b :
  Quiet (RefreshContinuousNotificationWantAndContext uid infos r b).
Proof. unfold RefreshContinuousNotificationWantAndContext. quiet. Qed.
Lemma quiet_PublishBannerNotification b prompt uid btn : Quiet (PublishBannerNotification b prompt uid btn).
Proof. unfold PublishBannerNotification. quiet. Qed.
Lemma quiet_RefreshBannerNotifications btn infos uid : Quiet (RefreshBannerNotifications btn infos uid).
Proof. unfold RefreshBannerNotifications. quiet. Qed.
#[local] Hint Resolve quiet_CancelNotification_tool : quiet.

Lemma quiet_cached_app_name uid : Quiet (cached_app_name uid).
Proof. unfold cached_app_name. quiet. Qed.
Lemma quiet_GetMainAbilityLabel b u : Quiet (GetMainAbilityLabel b u).
Proof. unfold GetMainAbilityLabel. quiet. Qed.
Lemma quiet_avsession_shown uid : Quiet (avsession_shown uid).
Proof. unfold avsession_shown. quiet. Qed.
#[local] Hint Resolve quiet_cached_app_name quiet_avsession_shown : quiet.
Lemma quiet_FilterNotificationMode r : Quiet (FilterNotificationMode r).
Proof. unfold FilterNotificationMode. quiet. Qed.
Lemma quiet_CheckSpecialNotificationText r : Quiet (CheckSpecialNotificationText r).
Proof. unfold CheckSpecialNotificationText. quiet. Qed.
Lemma quiet_MergeNotificationText modes blue : Quiet (MergeNotificationText modes blue).
Proof. unfold MergeNotificationText, FormatNotificationText. quiet. Qed.
Lemma quiet_CheckAppIsPlaying uid : Quiet (CheckAppIsPlaying uid).
Proof. unfold CheckAppIsPlaying. quiet. Qed.
Lemma quiet_CheckLiveViewInfo r : Quiet (CheckLiveViewInfo r).
Proof. unfold CheckLiveViewInfo. quiet. Qed.
#[local] Hint Resolve quiet_FilterNotificationMode quiet_CheckSpecialNotificationText quiet_MergeNotificationText
  quiet_CheckAppIsPlaying quiet_CheckLiveViewInfo : quiet.

Lemma gives_SingleModeNotificationText modes blue r : gives_whole snd r (SingleModeNotificationText modes blue r).
Proof. unfold SingleModeNotificationText. gives. Qed.
#[local] Hint Resolve gives_SingleModeNotificationText : gives.
Lemma gives_CheckNotificationText r : gives_whole snd r (CheckNotificationText r).
Proof. unfold CheckNotificationText. gives. Qed.
#[local] Hint Resolve gives_CheckNotificationText : gives.
Lemma gives_GetNotificationText r : gives_whole snd r (GetNotificationText r).
Proof. unfold GetNotificationText. gives. Qed.
#[local] Hint Resolve gives_PublishNotification : gives.
Lemma gives_SendContinuousTaskNotification r : gives_whole snd r (SendContinuousTaskNotification r).
Proof. unfold SendContinuousTaskNotification. gives. Qed.
Lemma quiet_CheckNotificationText r : Quiet (CheckNotificationText r).
Proof. apply gives_CheckNotificationText. Qed.
#[local] Hint Resolve quiet_CheckNotificationText : quiet.
#[local] Hint Resolve gives_PublishMainNotification gives_PublishSubNotification : gives.
Lemma gives_SendNotification subRecord r appName b : gives_whole snd r (SendNotification subRecord r appName b).
Proof. unfold SendNotification. gives. Qed.
#[local] Hint Resolve gives_SendNotification : gives.
Lemma gives_SendLiveViewAndOtherNotification r : gives_whole snd r (SendLiveViewAndOtherNotification r).
Proof. unfold SendLiveViewAndOtherNotification. gives. Qed.
#[local] Hint Resolve gives_SendContinuousTaskNotification gives_SendLiveViewAndOtherNotification : gives.
Lemma gives_HandleActiveNotification r : gives_whole id r (HandleActiveNotification r).
Proof. unfold HandleActiveNotification. gives. Qed.
Lemma quiet_GetNotificationText r : Quiet (GetNotificationText r).
Proof. apply gives_GetNotificationText. Qed.
Lemma quiet_SendContinuousTaskNotification r : Quiet (SendContinuousTaskNotification r).
Proof. apply gives_SendContinuousTaskNotification. Qed.
Lemma quiet_SendLiveViewAndOtherNotification r : Quiet (SendLiveViewAndOtherNotification r).
Proof. apply gives_SendLiveViewAndOtherNotification. Qed.
Lemma quiet_HandleActiveNotification r : Quiet (HandleActiveNotification r).
Proof. apply gives_HandleActiveNotification. Qed.
End Tools.
#[export] Hint Resolve quiet_GetNotificationText quiet_SendContinuousTaskNotification
  quiet_SendLiveViewAndOtherNotification quiet_HandleActiveNotification : quiet.
#[export] Hint Resolve quiet_CancelNotification_tool quiet_RefreshContinuousNotifications
  quiet_RefreshWantAndContext quiet_PublishBannerNotification quiet_RefreshBannerNotifications
  quiet_cached_app_name quiet_GetMainAbilityLabel quiet_CheckNotificationText : quiet.
#[export] Hint Resolve gives_weaken : gives.
#[export] Hint Resolve gives_GetNotificationText gives_SendContinuousTaskNotification
  gives_SendLiveViewAndOtherNotification gives_HandleActiveNotification : gives.
