(* ===== verification/ContinuousInvariant.v ===== *)
(** * Continuous task manager: what an observer knows

    An observer ([EObserver]: the calls of OnContinuousTaskStart and OnContinuousTaskStop
    inside the service) keeps the keys of the tasks it has been told of.  [Inv] says that
    these are the running tasks of the map, with a condition [ok] on the entries; the
    lemmas of this file show how the steps the operations are made of keep it. *)

From S2P Require Import Prelude.
From S2P Require Import Errors.
From S2P Require Import Interfaces.
From S2P Require Import BackgroundModes.
From S2P Require Import Json.
From S2P Require Import ContinuousTaskRecord.
From S2P Require Import ContinuousTypes.
From S2P Require Import NotificationTools.
From S2P Require Import ContinuousTaskMgr.
From S2P Require Import ContinuousTaskMgrSpec.
From S2P Require Import ContinuousTaskStart.
From S2P Require Import ContinuousTaskStop.
From S2P Require Import ContinuousAuth.
From S2P Require Import ContinuousQueries.
From S2P Require Import ContinuousRestart.
From S2P Require Import ContinuousSystem.
Local Open Scope Z_scope.

(** The key of the task a callback is about. *)
Definition info_key (i : ContinuousTaskCallbackInfo) : string :=
  context_key (ci_creatorUid_ i) (ci_abilityName_ i) (ci_abilityId_ i) +:+
  (if ci_isByRequestObject_ i then SEPARATOR +:+ pretty (ci_continuousTaskId_ i) else "").

(** What an observer makes of a call. *)
Definition observe (v : gset string) (x : ContEffect) : gset string :=
  match x with
  | EObserver OnContinuousTaskStart i => {[info_key i]} ∪ v
  | EObserver OnContinuousTaskStop i => v ∖ {[info_key i]}
  | _ => v
  end.
Definition followed (v : gset string) (l : list ContEffect) : gset string := fold_left observe l v.

(** The keys of the tasks that are not suspended. *)
Definition running (m : gmap string ContinuousTaskRecord) : gset string :=
  dom (filter (fun e : string * ContinuousTaskRecord => ct_suspendState_ e.2 = false) m).

Lemma followed_app v l l' : followed v (l ++ l') = followed (followed v l) l'.
Proof. apply fold_left_app. Qed.
Lemma followed_told v l : followed v (told l) = followed v l.
Proof.
  unfold followed, told. revert v. induction l as [|x l IH]; intros v; [done|]. rewrite filter_cons.
  case_decide as Hx; cbn [fold_left]; rewrite IH; [done|]. f_equal. by destruct x.
Qed.

Lemma elem_of_running m key : key ∈ running m <-> exists r, m !! key = Some r /\ ct_suspendState_ r = false.
Proof.
  unfold running. rewrite elem_of_dom. split.
  - intros [r Hr]. apply map_lookup_filter_Some in Hr. by exists r.
  - intros (r & Hr & Hs). exists r. by apply map_lookup_filter_Some.
Qed.
Lemma running_insert m key r :
  running (<[key := r]> m) = if ct_suspendState_ r then running m ∖ {[key]} else {[key]} ∪ running m.
Proof.
  apply set_eq. intros k. rewrite elem_of_running.
  destruct (decide (k = key)) as [->|Hk].
  - rewrite lookup_insert_eq. destruct (ct_suspendState_ r) eqn:E; set_unfold; naive_solver congruence.
  - rewrite lookup_insert_ne by done. rewrite <- elem_of_running.
    destruct (ct_suspendState_ r); set_solver.
Qed.
Lemma running_delete m key : running (delete key m) = running m ∖ {[key]}.
Proof.
  apply set_eq. intros k. rewrite elem_of_running. rewrite elem_of_difference, elem_of_running, elem_of_singleton.
  destruct (decide (k = key)) as [->|Hk].
  - rewrite lookup_delete_eq. naive_solver.
  - rewrite lookup_delete_ne by done. naive_solver.
Qed.
Lemma running_insert_same m key r r' :
  m !! key = Some r -> ct_suspendState_ r = ct_suspendState_ r' -> running (<[key := r']> m) = running m.
Proof.
  intros Hr Hs. rewrite running_insert. apply set_eq. intros k.
  destruct (decide (k = key)) as [->|]; [|case_test; set_solver].
  rewrite elem_of_running. rewrite Hr, <- Hs. case_test; set_unfold; naive_solver congruence.
Qed.

(** ** What the callbacks of an event tell observers *)
Definition trigger_told (t : ContinuousTaskEventTriggerType) (i : ContinuousTaskCallbackInfo) : list ContEffect :=
  match t with
  | TASK_START => [EObserver OnContinuousTaskStart i]
  | TASK_UPDATE => [EObserver OnContinuousTaskUpdate i]
  | TASK_CANCEL => [EObserver OnContinuousTaskStop i]
  | TASK_SUSPEND => if ci_isStandby_ i then [] else [EObserver OnContinuousTaskStop i]
  | TASK_ACTIVE => if ci_isStandby_ i then [] else [EObserver OnContinuousTaskStart i]
  end.

Lemma told_nil l : Forall (fun x => is_observer x = false) l -> told l = [].
Proof. unfold told. induction 1 as [|x l Hx _ IH]; [done|]. rewrite filter_cons, decide_False; [done|congruence]. Qed.
Lemma told_subs (subs : list SubscriberInfo) f : (forall i, told (f i) = []) -> told (subs ≫= f) = [].
Proof.
  intros Hf. induction subs as [|i subs IH]; [done|]. cbn. unfold told in *. by rewrite filter_app, Hf, IH.
Qed.
Lemma info_key_callback r : info_key (callback_of r) = task_key r.
Proof. done. Qed.

Lemma core_emits l e s :
  core (emits l e s).2 = mkCore (tasks s) (cm_continuousTaskIdIndex_ s) (told (cm_effects s) ++ told l).
Proof. unfold core, emits, modify, tasks, told. cbn. by rewrite filter_app. Qed.

Lemma told_cons_subs k i (subs : list SubscriberInfo) f : (forall sub, told (f sub) = []) ->
  told (EObserver k i :: (subs ≫= f)) = [EObserver k i].
Proof. intros Hf. unfold told. rewrite filter_cons, decide_True by done. f_equal. by apply told_subs. Qed.

Lemma told_suspension stop suspend i (subs : list SubscriberInfo) :
  told ((if negb (ci_isStandby_ i) then [EObserver stop i] else []) ++ (subs ≫= fun sub =>
    if negb (si_isHap_ sub) && has_subscriber sub && negb (ci_isStandby_ i) then [ENotify (si_object sub) stop i]
    else if si_isHap_ sub && has_subscriber sub then
      (if wants_state sub && negb (ci_isStandby_ i) then [ENotify (si_object sub) stop i] else []) ++
      (if si_uid_ sub =? ci_creatorUid_ i then [ENotify (si_object sub) suspend i] else [])
    else [])) = if ci_isStandby_ i then [] else [EObserver stop i].
Proof.
  unfold told. rewrite filter_app. etrans; [|apply app_nil_r]. f_equal.
  - by destruct (ci_isStandby_ i).
  - apply (told_subs subs). intros sub. by repeat case_test.
Qed.

Lemma quiet_ReportHisysEvent t r : Quiet (ReportHisysEvent t r).
Proof. unfold ReportHisysEvent. quiet. Qed.

Lemma core_OnContinuousTaskChanged r t e s :
  core (OnContinuousTaskChanged r t e s).2 =
  mkCore (tasks s) (cm_continuousTaskIdIndex_ s) (told (cm_effects s) ++ trigger_told t (callback_of r)).
Proof.
  unfold OnContinuousTaskChanged. rewrite bind_run, quiet_ReportHisysEvent.
  destruct t; cbn [NotifySubscribers trigger_told];
    unfold NotifySubscribersTaskStart, NotifySubscribersTaskUpdate, NotifySubscribersTaskCancel,
      NotifySubscribersTaskSuspend, NotifySubscribersTaskActive, notify_suspension;
    rewrite bind_run, core_emits; cbn [fst snd get]; f_equal; f_equal.
  1-3: apply told_cons_subs; intros sub; unfold notify_state; by repeat case_test.
  all: apply told_suspension.
Qed.

Lemma quiet_standby r t : ct_isStandby_ r = true -> t = TASK_SUSPEND \/ t = TASK_ACTIVE ->
  Quiet (OnContinuousTaskChanged r t).
Proof.
  intros Hr Ht e s. rewrite core_OnContinuousTaskChanged.
  destruct Ht as [-> | ->]; cbn; rewrite Hr, app_nil_r; done.
Qed.

(** ** The invariant

    [D]: the tasks observers have been told have stopped, that are still in the map.  The
    view is claimed when it is [tracked]. *)
Section Inv.
Context (ok : string -> ContinuousTaskRecord -> Prop) (index : Z) (tracked : Prop) (v0 : gset string).
Hypothesis ok_same : forall key r r', same_task r r' -> ok key r -> ok key r'.
Hypothesis ok_key : forall key r, ok key r -> key = task_key r.

Definition Inv (D : gset string) (c : Core) : Prop :=
  (forall key r, co_tasks c !! key = Some r -> ok key r) /\ co_index c = index /\
  (tracked -> running (co_tasks c) ∖ D = followed v0 (co_told c)).

(** The entry at [key] has the state of [r]. *)
Definition At (D : gset string) (key : string) (r : ContinuousTaskRecord) (c : Core) : Prop :=
  Inv D c /\ exists r0, co_tasks c !! key = Some r0 /\ same_state r0 r.

Lemma At_Inv D key r c : At D key r c -> Inv D c.
Proof. by intros []. Qed.
Lemma At_same D key r r' c : same_state r r' -> At D key r c -> At D key r' c.
Proof. intros Hr (Hi & r0 & H0 & Hs). split; [done|]. exists r0. split; [done|by etrans]. Qed.
Lemma At_ok D key r c : At D key r c -> ok key r.
Proof. intros ((Ho & _) & r0 & H0 & Hs). eapply ok_same; [apply same_state_task, Hs|]. by apply Ho. Qed.
Lemma Inv_at D key r c : Inv D c -> co_tasks c !! key = Some r -> At D key r c.
Proof. intros Hi Hr. split; [done|]. by exists r. Qed.

(** *** The primitive changes *)
Lemma core_put_task key r e s :
  core (put_task key r e s).2 = mkCore (<[key := r]> (tasks s)) (cm_continuousTaskIdIndex_ s) (told (cm_effects s)).
Proof. done. Qed.
Lemma core_erase_task key e s :
  core (erase_task key e s).2 = mkCore (delete key (tasks s)) (cm_continuousTaskIdIndex_ s) (told (cm_effects s)).
Proof. done. Qed.

Lemma Inv_put D key r c : ok key r -> Inv D c ->
  forall key' r', <[key := r]> (co_tasks c) !! key' = Some r' -> ok key' r'.
Proof.
  intros Hr (Ho & _) k r' Hk. apply lookup_insert_Some in Hk as [[<- <-]|[_ Hk]]; [done|]. by apply Ho.
Qed.

Lemma triple_put_same D key r r' : same_state r r' ->
  triple (At D key r) (put_task key r') (fun _ => At D key r').
Proof.
  intros Hr e s Ha. pose proof (At_same _ _ _ _ _ Hr Ha) as Ha'.
  rewrite core_put_task. destruct Ha' as (Hi & r0 & H0 & Hs). split; [|exists r'; split; [apply lookup_insert_eq|done]].
  destruct Hi as (Ho & Hx & Hv). split; [|split; [done|]].
  - apply (Inv_put D key r' (core s)); [|done]. eapply At_ok. eapply At_same; [exact Hr|exact Ha].
  - intros Ht. specialize (Hv Ht). cbn [co_tasks co_told core] in *. rewrite (running_insert_same _ _ r0); [done..|]. apply Hs.
Qed.

Lemma triple_cancel D key r : triple (At D key r) (OnContinuousTaskChanged r TASK_CANCEL) (fun _ => At ({[key]} ∪ D) key r).
Proof.
  intros e s Ha. rewrite core_OnContinuousTaskChanged. cbn [trigger_told].
  pose proof (ok_key _ _ (At_ok _ _ _ _ Ha)) as Hk. destruct Ha as ((Ho & Hx & Hv) & r0 & H0 & Hs).
  split; [|by exists r0]. split; [done|]. split; [done|]. intros Ht. specialize (Hv Ht). cbn [co_tasks co_told core] in *.
  rewrite followed_app, <- Hv. cbn. rewrite info_key_callback, <- Hk. set_solver.
Qed.

Lemma triple_erase D key : triple (Inv ({[key]} ∪ D)) (erase_task key) (fun _ => Inv D).
Proof.
  intros e s (Ho & Hx & Hv). rewrite core_erase_task. split; [|split; [done|]].
  - cbn [co_tasks]. intros k r Hk. apply lookup_delete_Some in Hk as [_ Hk]. by apply Ho.
  - intros Ht. specialize (Hv Ht). cbn [co_tasks co_told core] in *. rewrite running_delete, <- Hv. set_solver.
Qed.

(** An entry has been written, and the callbacks of [t] will restore the invariant. *)
Definition Mid (t : ContinuousTaskEventTriggerType) (key : string) (r : ContinuousTaskRecord) (c : Core) : Prop :=
  At ∅ key r (mkCore (co_tasks c) (co_index c) (co_told c ++ trigger_told t (callback_of r))).

Lemma put_mid t key r e s : ok key r -> Inv ∅ (core s) ->
  (tracked -> followed (running (tasks s)) (trigger_told t (callback_of r)) = running (<[key := r]> (tasks s))) ->
  Mid t key r (core (put_task key r e s).2).
Proof.
  intros Hok Hi Hv. rewrite core_put_task.
  split; [|exists r; split; [apply lookup_insert_eq|done]].
  split; [by apply (Inv_put ∅ key r (core s))|]. destruct Hi as (Ho & Hx & Hv0). split; [done|].
  intros Ht. specialize (Hv0 Ht). specialize (Hv Ht).
  cbn [co_tasks co_told core] in *. rewrite difference_empty_L in *.
  rewrite followed_app, <- Hv. f_equal. by rewrite <- Hv0.
Qed.

(** An update tells observers nothing about which tasks run. *)
Lemma triple_update D r : triple (Inv D) (OnContinuousTaskChanged r TASK_UPDATE) (fun _ => Inv D).
Proof.
  intros e s (Ho & Hx & Hv). rewrite core_OnContinuousTaskChanged.
  split; [done|]. split; [done|]. intros Ht. specialize (Hv Ht). cbn [co_tasks co_told core trigger_told] in *.
  by rewrite followed_app, <- Hv.
Qed.

(** *** The same, at the head of an operation *)
Section Heads.
Context {A : Type}.
Implicit Types (k : unit -> CM A) (Q : A -> Core -> Prop).

Lemma at_put D key r r' k Q : same_state r r' ->
  triple (At D key r') (k tt) Q -> triple (At D key r) (bind (put_task key r') k) Q.
Proof. intros Hr Hk. eapply triple_bind; [by apply triple_put_same|]. by intros []. Qed.
Lemma at_cancel D key r k Q :
  triple (At ({[key]} ∪ D) key r) (k tt) Q -> triple (At D key r) (bind (OnContinuousTaskChanged r TASK_CANCEL) k) Q.
Proof. intros Hk. eapply triple_bind; [apply triple_cancel|]. by intros []. Qed.
Lemma at_erase D key r k Q :
  triple (Inv D) (k tt) Q -> triple (At ({[key]} ∪ D) key r) (bind (erase_task key) k) Q.
Proof.
  intros Hk e s Ha. rewrite bind_run. pose proof (triple_erase D key e s (At_Inv _ _ _ _ Ha)) as Hi.
  destruct (erase_task key e s) as [[] s']. by apply Hk.
Qed.
Lemma mid_tell t key r k Q :
  triple (At ∅ key r) (k tt) Q -> triple (Mid t key r) (bind (OnContinuousTaskChanged r t) k) Q.
Proof.
  intros Hk e s Hm. rewrite bind_run. pose proof (core_OnContinuousTaskChanged r t e s) as Hc.
  destruct (OnContinuousTaskChanged r t e s) as [[] s']. apply Hk. cbn [snd] in *. by rewrite Hc.
Qed.
Lemma at_mid t key r r' k Q : same_task r r' ->
  (tracked -> forall v, followed v (trigger_told t (callback_of r')) =
     if ct_suspendState_ r' then v ∖ {[task_key r']} else {[task_key r']} ∪ v) ->
  triple (Mid t key r') (k tt) Q -> triple (At ∅ key r) (bind (put_task key r') k) Q.
Proof.
  intros Hr Hv Hk e s Ha. pose proof (ok_same _ _ _ Hr (At_ok _ _ _ _ Ha)) as Hok.
  rewrite bind_run. apply Hk, put_mid; [done|by eapply At_Inv|].
  intros Ht. rewrite running_insert, Hv by done. by rewrite <- (ok_key _ _ Hok).
Qed.
Lemma at_suspend key r r' k Q : same_task r r' -> ct_suspendState_ r' = true -> (tracked -> ct_isStandby_ r' = false) ->
  triple (Mid TASK_SUSPEND key r') (k tt) Q -> triple (At ∅ key r) (bind (put_task key r') k) Q.
Proof. intros Hr Hs Hb. apply at_mid; [done|]. intros Ht v. rewrite Hs. cbn. by rewrite Hb. Qed.
Lemma at_activate key r r' k Q : same_task r r' -> ct_suspendState_ r' = false -> ct_isStandby_ r' = false ->
  triple (Mid TASK_ACTIVE key r') (k tt) Q -> triple (At ∅ key r) (bind (put_task key r') k) Q.
Proof. intros Hr Hs Hb. apply at_mid; [done|]. intros Ht v. rewrite Hs. cbn. by rewrite Hb. Qed.
Lemma inv_start key r k Q : ok key r -> ct_suspendState_ r = false ->
  triple (Mid TASK_START key r) (k tt) Q -> triple (Inv ∅) (bind (put_task key r) k) Q.
Proof.
  intros Hok Hs Hk e s Hi. rewrite bind_run. apply Hk, put_mid; [done..|]. intros _.
  rewrite running_insert, Hs. cbn. by rewrite info_key_callback, <- (ok_key _ _ Hok).
Qed.
Lemma at_change D key r r' (m : CM A) Q : same_state r r' -> triple (At D key r') m Q -> triple (At D key r) m Q.
Proof. intros Hr Hm. intros e s Ha. apply Hm. by eapply At_same. Qed.
Lemma at_inv D key r (m : CM A) Q : triple (Inv D) m Q -> triple (At D key r) m Q.
Proof. intros Hm. intros e s Ha. apply Hm. by eapply At_Inv. Qed.

(** The entry an operation finds. *)
Lemma inv_find_key D key (k : option ContinuousTaskRecord -> CM A) Q :
  triple (Inv D) (k None) Q -> (forall r, triple (At D key r) (k (Some r)) Q) ->
  triple (Inv D) (bind (find_key key) k) Q.
Proof.
  intros Hn Hs e s Hi. rewrite bind_run. cbn. destruct (tasks s !! key) as [r|] eqn:E; [|by apply Hn].
  apply Hs. by apply Inv_at.
Qed.
Lemma inv_find_task D p (k : option (string * ContinuousTaskRecord) -> CM A) Q :
  triple (Inv D) (k None) Q -> (forall key r, p r = true -> triple (At D key r) (k (Some (key, r))) Q) ->
  triple (Inv D) (bind (find_task p) k) Q.
Proof.
  intros Hn Hs e s Hi. rewrite bind_run. cbn. unfold find_task_in.
  destruct (list_find _ (map_to_list (tasks s))) as [[i [key r]]|] eqn:E; [|by apply Hn].
  apply list_find_Some in E as (Hl & Hp & _). cbn. apply Hs; [done|].
  apply Inv_at; [done|]. apply elem_of_map_to_list. by eapply list_elem_of_lookup_2.
Qed.
End Heads.
End Inv.

Lemma triple_assoc {A B C} P (m : CM A) (f : A -> CM B) (k : B -> CM C) Q :
  triple P (bind m (fun a => bind (f a) k)) Q -> triple P (bind (bind m f) k) Q.
Proof. intros Hm e s Hs. rewrite !bind_run. specialize (Hm e s Hs). by rewrite !bind_run in Hm. Qed.

Lemma triple_for_err {A} P (l : list A) body :
  (forall x, x ∈ l -> triple P (body x) (fun _ => P)) -> triple P (for_err l body) (fun _ => P).
Proof.
  intros Hb. induction l as [|x l IH]; [by apply triple_ret|]. cbn.
  apply (triple_bind _ (fun _ => P)); [apply Hb; left|]. intros r. case_test; [by apply triple_ret|].
  apply IH. intros y Hy. apply Hb. by right.
Qed.
Lemma triple_for_each {A} P (l : list A) body :
  (forall x, x ∈ l -> triple P (body x) (fun _ => P)) -> triple P (for_each l body) (fun _ => P).
Proof.
  intros Hb. induction l as [|x l IH]; [by apply triple_ret|]. cbn.
  apply (triple_bind _ (fun _ => P)); [apply Hb; left|]. intros r.
  apply IH. intros y Hy. apply Hb. by right.
Qed.

(** ** Loops over the map *)

(** An operation that changes no entry but that of [key]. *)
Definition Confined {A} (key : string) (m : CM A) : Prop :=
  forall e s k, k <> key -> tasks (m e s).2 !! k = tasks s !! k.

Lemma tasks_core s s' : core s = core s' -> tasks s = tasks s'.
Proof. by intros [=]. Qed.
Lemma confined_quiet {A} key (m : CM A) : Quiet m -> Confined key m.
Proof. intros Hm e s k _. by rewrite (tasks_core _ _ (Hm e s)). Qed.
Lemma confined_bind {A B} key (m : CM A) (k : A -> CM B) :
  Confined key m -> (forall a, Confined key (k a)) -> Confined key (bind m k).
Proof. intros Hm Hk e s k' Hne. rewrite bind_run, Hk, Hm; done. Qed.
Lemma confined_put key r : Confined key (put_task key r).
Proof. intros e s k Hk. by apply lookup_insert_ne. Qed.
Lemma confined_erase key : Confined key (erase_task key).
Proof. intros e s k Hk. by apply lookup_delete_ne. Qed.
Lemma confined_changed key r t : Confined key (OnContinuousTaskChanged r t).
Proof. intros e s k _. pose proof (core_OnContinuousTaskChanged r t e s) as [= -> _ _]. done. Qed.
#[export] Hint Resolve confined_put confined_erase confined_changed : quiet.

Ltac confined_step :=
  first
    [ match goal with |- forall _, _ => intros ? end
    | solve [auto with quiet]
    | solve [apply confined_quiet; quiet]
    | apply confined_bind
    | match goal with
      | |- Confined _ (match ?x with _ => _ end) => destruct x
      | |- Confined _ (let _ := ?x in _) => cbv zeta
      end ].
Ltac confined := repeat confined_step.

Section Loop.
Context (ok : string -> ContinuousTaskRecord -> Prop) (index : Z) (tracked : Prop) (v0 : gset string).
Local Abbreviation Inv := (Inv ok index tracked v0).
Local Abbreviation At := (At ok index tracked v0).

Lemma triple_loop (F : string -> ContinuousTaskRecord -> Prop) body (l : list (string * ContinuousTaskRecord)) :
  (forall key r, F key r -> triple (At ∅ key r) (body key r) (fun _ => Inv ∅)) ->
  (forall key r, Confined key (body key r)) ->
  NoDup l.*1 -> (forall key r, (key, r) ∈ l -> F key r) ->
  triple (fun c => Inv ∅ c /\ forall key r, (key, r) ∈ l -> co_tasks c !! key = Some r)
    (for_each l (fun e => body e.1 e.2)) (fun _ => Inv ∅).
Proof.
  intros Hb Hc Hn HF. induction l as [|[key r] l IH]; intros e s [Hi Hl]; [done|].
  cbn [for_each fst snd]. rewrite bind_run. inversion_clear Hn as [|? ? Hx Hn'].
  apply IH; [done|set_solver|]. split.
  - apply Hb; [apply HF; left|]. apply Inv_at; [done|]. apply Hl. left.
  - intros k r' Hk. cbn [co_tasks core]. rewrite Hc.
    + apply Hl. by right.
    + intros ->. apply Hx. apply list_elem_of_fmap. by exists (key, r').
Qed.

Lemma triple_for_tasks_where (F : string -> ContinuousTaskRecord -> Prop) body :
  (forall key r, F key r -> triple (At ∅ key r) (body key r) (fun _ => Inv ∅)) ->
  (forall key r, Confined key (body key r)) ->
  triple (fun c => Inv ∅ c /\ map_Forall F (co_tasks c)) (for_tasks body) (fun _ => Inv ∅).
Proof.
  intros Hb Hc e s [Hi HF]. unfold for_tasks. rewrite bind_run. cbn [get fst snd].
  apply (triple_loop F); [done..| | |].
  - apply NoDup_fst_map_to_list.
  - intros key r Hk%elem_of_map_to_list. by apply HF.
  - split; [done|]. intros key r Hk. by apply elem_of_map_to_list.
Qed.

Lemma triple_for_tasks body :
  (forall key r, triple (At ∅ key r) (body key r) (fun _ => Inv ∅)) ->
  (forall key r, Confined key (body key r)) ->
  triple (Inv ∅) (for_tasks body) (fun _ => Inv ∅).
Proof.
  intros Hb Hc. eapply triple_conseq; [apply (triple_for_tasks_where (fun _ _ => True)); [|done]| |done].
  - intros key r _. apply Hb.
  - intros c Hi. split; [done|]. by intros ? ? ?.
Qed.
End Loop.

(** * Continuous task manager: what every operation keeps

    One section, over a condition [ok] on the entries that depends on the identity of the
    task only: every operation but the start of a task keeps [Inv], so that it makes no
    new task, changes none's identity, and tells observers exactly which tasks run. *)

Import BackgroundMode.

(** ** Quiet operations of the manager *)
Lemma quiet_HandleAppContinuousTaskStop uid : Quiet (HandleAppContinuousTaskStop uid).
Proof.
  intros e s. unfold HandleAppContinuousTaskStop. rewrite bind_run. cbn [find_task get fst snd].
  destruct (find_task_in _ _); [done|]. rewrite bind_run. apply quiet_emits.
  apply told_subs. intros i. by case_test.
Qed.
Lemma quiet_RefreshTaskRecord : Quiet RefreshTaskRecord.
Proof. unfold RefreshTaskRecord. quiet. Qed.
Lemma quiet_find_task p : Quiet (find_task p).
Proof. done. Qed.
Lemma quiet_find_key key : Quiet (find_key key).
Proof. done. Qed.
Lemma quiet_IsExistCallback uid type : Quiet (IsExistCallback uid type).
Proof. unfold IsExistCallback. quiet. Qed.
Lemma quiet_SendAudioCallBackTaskState r : Quiet (SendAudioCallBackTaskState r).
Proof.
  intros e s. unfold SendAudioCallBackTaskState. rewrite bind_run. apply quiet_emits.
  apply told_subs. intros i. by case_test.
Qed.
Lemma quiet_standby_suspend r : ct_isStandby_ r = true -> Quiet (OnContinuousTaskChanged r TASK_SUSPEND).
Proof. intros Hr. apply quiet_standby; auto. Qed.
Lemma quiet_standby_active r : ct_isStandby_ r = true -> Quiet (OnContinuousTaskChanged r TASK_ACTIVE).
Proof. intros Hr. apply quiet_standby; auto. Qed.
#[export] Hint Resolve quiet_standby_suspend quiet_standby_active : quiet.
#[export] Hint Resolve quiet_HandleAppContinuousTaskStop quiet_RefreshTaskRecord quiet_find_task quiet_find_key
  quiet_IsExistCallback quiet_SendAudioCallBackTaskState : quiet.

Section Quiet.
Context `{ContinuousPlatform}.
Implicit Types r record : ContinuousTaskRecord.

Lemma quiet_CancelNotification r : Quiet (CancelNotification r).
Proof. unfold CancelNotification. quiet. Qed.
Lemma quiet_cancel_both r : Quiet (cancel_both r).
Proof. unfold cancel_both. quiet. Qed.
Lemma quiet_GetOsAccountIdFromUid uid : Quiet (GetOsAccountIdFromUid uid).
Proof. unfold GetOsAccountIdFromUid. quiet. Qed.
Lemma quiet_SetCachedBundleInfo r : Quiet (SetCachedBundleInfo r).
Proof. unfold SetCachedBundleInfo. quiet. Qed.
Lemma quiet_GetBackgroundModeInfo uid name : Quiet (GetBackgroundModeInfo uid name).
Proof. unfold GetBackgroundModeInfo. quiet. Qed.
Lemma quiet_CheckBgmodeType c m n r : Quiet (CheckBgmodeType c m n r).
Proof.
  unfold CheckBgmodeType, AllowUseTaskKeeping, AllowUseSpecial, CheckSpecialScenarioACLPermission. quiet.
Qed.
Lemma quiet_CheckAbilityTaskNum r : Quiet (CheckAbilityTaskNum r).
Proof. unfold CheckAbilityTaskNum. quiet. Qed.
#[local] Hint Resolve quiet_CheckAbilityTaskNum : quiet.
Lemma quiet_IsGamePreLaunchApp uid : Quiet (IsGamePreLaunchApp uid).
Proof. done. Qed.
#[local] Hint Resolve quiet_IsGamePreLaunchApp : quiet.
Lemma quiet_AllowApplyContinuousTask r : Quiet (AllowApplyContinuousTask r).
Proof. unfold AllowApplyContinuousTask. quiet. Qed.
Lemma quiet_uid_disabled uid : Quiet (uid_disabled uid).
Proof. done. Qed.
Lemma quiet_RemoveAudioPlaybackDelayTask uid : Quiet (RemoveAudioPlaybackDelayTask uid).
Proof. unfold RemoveAudioPlaybackDelayTask. quiet. Qed.
Lemma quiet_RefreshAuthRecord : Quiet RefreshAuthRecord.
Proof. unfold RefreshAuthRecord. quiet. Qed.
Lemma quiet_CheckIsSysReadyAndPermission uid : Quiet (CheckIsSysReadyAndPermission uid).
Proof. unfold CheckIsSysReadyAndPermission. quiet. Qed.
Lemma quiet_GetAbilityNamePid p pid uid : Quiet (GetAbilityNamePid p pid uid).
Proof. unfold GetAbilityNamePid. quiet. Qed.
Lemma quiet_inner_pid p : Quiet (inner_pid p).
Proof. unfold inner_pid. quiet. Qed.
Lemma quiet_InitRecordParam r p u : Quiet (InitRecordParam r p u).
Proof. unfold InitRecordParam. quiet. Qed.
End Quiet.
#[export] Hint Resolve quiet_CancelNotification quiet_cancel_both quiet_GetOsAccountIdFromUid
  quiet_SetCachedBundleInfo quiet_GetBackgroundModeInfo quiet_CheckBgmodeType quiet_CheckAbilityTaskNum
  quiet_IsGamePreLaunchApp quiet_AllowApplyContinuousTask quiet_uid_disabled
  quiet_RemoveAudioPlaybackDelayTask quiet_RefreshAuthRecord quiet_CheckIsSysReadyAndPermission
  quiet_GetAbilityNamePid quiet_inner_pid quiet_InitRecordParam : quiet.

Section Keeps.
Context `{ContinuousPlatform}.
Context (ok : string -> ContinuousTaskRecord -> Prop) (index : Z) (tracked : Prop) (v0 : gset string).
Hypothesis ok_same : forall key r r', same_task r r' -> ok key r -> ok key r'.
Hypothesis ok_key : forall key r, ok key r -> key = task_key r.
Local Abbreviation Inv := (Inv ok index tracked v0).
Local Abbreviation At := (At ok index tracked v0).

(** An operation that keeps the invariant. *)
Definition keeps {A} (m : CM A) : Prop := triple (Inv ∅) m (fun _ => Inv ∅).

Lemma quiet_keeps {A} (m : CM A) : Quiet m -> keeps m.
Proof. apply quiet_triple. Qed.
Lemma keeps_bind {A B} (m : CM A) (k : A -> CM B) : keeps m -> (forall a, keeps (k a)) -> keeps (bind m k).
Proof. intros Hm Hk. by apply (triple_bind _ (fun _ => Inv ∅)). Qed.
Lemma at_quiet {A} D key r (m : CM A) : Quiet m -> triple (At D key r) m (fun _ => Inv D).
Proof. intros Hm e s Ha. rewrite Hm. by eapply At_Inv. Qed.
Lemma at_keeps {A B} key r (m : CM A) (k : A -> CM B) : keeps m -> (forall a, keeps (k a)) ->
  triple (At ∅ key r) (bind m k) (fun _ => Inv ∅).
Proof. intros Hm Hk. apply at_inv. by apply keeps_bind. Qed.
Lemma at_gives {A B} D key r (rec : A -> ContinuousTaskRecord) (m : CM A) (k : A -> CM B) Q :
  gives rec r m -> (forall a, triple (At D key (rec a)) (k a) Q) -> triple (At D key r) (bind m k) Q.
Proof.
  intros [Hq Hy] Hk. eapply triple_yields; [done..|]. intros a Ha. cbn in Ha.
  eapply at_change; [done|]. apply Hk.
Qed.

Lemma at_keeps_tail {A} key r (m : CM A) : keeps m -> triple (At ∅ key r) m (fun _ => Inv ∅).
Proof. apply at_inv. Qed.
Lemma keeps_tail {A} (m : CM A) : keeps m -> triple (Inv ∅) m (fun _ => Inv ∅).
Proof. done. Qed.

Lemma at_put_tail D key r r' : same_state r r' -> triple (At D key r) (put_task key r') (fun _ => Inv D).
Proof.
  intros Hr e s Ha. eapply At_Inv. by apply (triple_put_same ok index tracked v0 ok_same D key r r').
Qed.

Create HintDb keeps.
Ltac pairs := repeat match goal with x : _ * _ |- _ => destruct x end; cbn [fst snd id].
Ltac keep_tail :=
  solve [ apply triple_ret; intros; first [done | by eapply At_Inv]
        | apply at_quiet; quiet | apply quiet_triple; quiet
        | apply at_put_tail; same | apply at_keeps_tail; auto with keeps | apply keeps_tail; auto with keeps | auto with keeps ].
Ltac keep_step :=
  first
    [ exact ok_same | exact ok_key
    | match goal with
      | |- forall _, _ => intros ?
      | |- keeps _ => red
      | |- triple _ (bind (bind _ _) _) _ => apply triple_assoc
      | |- triple _ (bind (match ?x with _ => _ end) _) _ => destruct x
      | |- triple _ (match ?x with _ => _ end) _ => destruct x
      | |- triple _ (bind (ret _) _) _ => apply triple_ret_bind; cbn beta iota
      | |- triple (Inv _) (bind (find_key _) _) _ => apply inv_find_key
      | |- triple (Inv _) (bind (find_task _) _) _ => apply inv_find_task
      | |- triple (At ?D ?key ?r) (bind (put_task ?key ?r') _) _ =>
          first
            [ apply (at_put _ _ _ _ ok_same D key r r'); [same|]
            | apply (at_suspend _ _ _ _ ok_same ok_key key r r'); [same|reflexivity|solve [auto]|]
            | apply (at_activate _ _ _ _ ok_same ok_key key r r'); [same|reflexivity|reflexivity|] ]
      | |- triple (Mid _ _ _ _ ?t ?key ?r) (bind (OnContinuousTaskChanged ?r ?t) _) _ => apply mid_tell
      | |- triple (At _ ?key ?r) (bind (OnContinuousTaskChanged ?r TASK_CANCEL) _) _ => apply (at_cancel _ _ _ _ ok_same ok_key)
      | |- triple (At ({[?key]} ∪ _) ?key ?r) (bind (erase_task ?key) _) _ => apply at_erase
      end
    | keep_tail
    | match goal with
      | |- triple (At _ _ ?r) (bind _ _) _ =>
          eapply at_gives; [gives_call|]; let a := fresh "a" in intros a; pairs
      | |- triple _ (bind _ _) _ => apply triple_quiet; [solve [quiet]|]
      | |- triple (At ∅ _ _) (bind _ _) _ => apply at_keeps; [solve [auto with keeps]|]
      | |- triple (Inv ∅) (bind _ _) _ => apply keeps_bind; [solve [auto with keeps]|]
      end
    | progress cbv zeta ].
Ltac keep := repeat keep_step.

Lemma keeps_update r : keeps (OnContinuousTaskChanged r TASK_UPDATE).
Proof. apply triple_update. Qed.
#[local] Hint Resolve keeps_update : keeps.

Lemma keeps_StopBackgroundRunningByTask r : keeps (StopBackgroundRunningByTask r).
Proof. unfold StopBackgroundRunningByTask. keep. Qed.
#[local] Hint Resolve keeps_StopBackgroundRunningByTask : keeps.
Lemma keeps_StopBackgroundRunningByContext uid name id : keeps (StopBackgroundRunningByContext uid name id).
Proof.
  unfold StopBackgroundRunningByContext. apply triple_quiet; [done|]. intros m.
  apply triple_for_err. intros r _. apply keeps_StopBackgroundRunningByTask.
Qed.
#[local] Hint Resolve keeps_StopBackgroundRunningByContext : keeps.
Lemma keeps_StopBackgroundRunningInner uid name id task : keeps (StopBackgroundRunningInner uid name id task).
Proof. unfold StopBackgroundRunningInner. keep. Qed.
#[local] Hint Resolve keeps_StopBackgroundRunningInner : keeps.
Lemma keeps_StopBackgroundRunning name id task : keeps (StopBackgroundRunning name id task).
Proof. unfold StopBackgroundRunning. keep. Qed.
Lemma keeps_StopBackgroundRunningForInner p uid : keeps (StopBackgroundRunningForInner p uid).
Proof. unfold StopBackgroundRunningForInner. keep. Qed.

Lemma keeps_for_tasks body :
  (forall key r, triple (At ∅ key r) (body key r) (fun _ => Inv ∅)) ->
  (forall key r, Confined key (body key r)) -> keeps (for_tasks body).
Proof. apply triple_for_tasks. Qed.
Ltac keep_loop := apply keeps_for_tasks; intros; [keep|confined].

Lemma keeps_SetReason key reason detailed : keeps (SetReason key reason detailed).
Proof. unfold SetReason. keep. Qed.
#[local] Hint Resolve keeps_SetReason : keeps.
Lemma at_remove key reason detailed r :
  triple (At ∅ key r) (remove_with_notifications key reason detailed r) (fun _ => Inv ∅).
Proof. unfold remove_with_notifications. keep. Qed.
Lemma confined_remove key reason detailed r : Confined key (remove_with_notifications key reason detailed r).
Proof. unfold remove_with_notifications. confined. Qed.
#[local] Hint Resolve at_remove : keeps.
#[local] Hint Resolve confined_remove : quiet.
Lemma keeps_RemoveContinuousTaskRecordByUid uid : keeps (RemoveContinuousTaskRecordByUid uid).
Proof. unfold RemoveContinuousTaskRecordByUid. apply keeps_bind; [keep_loop|keep]. Qed.
Lemma keeps_RemoveContinuousTaskRecordByUidAndMode uid mode : keeps (RemoveContinuousTaskRecordByUidAndMode uid mode).
Proof. unfold RemoveContinuousTaskRecordByUidAndMode. apply keeps_bind; [keep_loop|keep]. Qed.
#[local] Hint Resolve keeps_RemoveContinuousTaskRecordByUid keeps_RemoveContinuousTaskRecordByUidAndMode : keeps.
Lemma keeps_HandleStopContinuousTask uid pid type key : keeps (HandleStopContinuousTask uid pid type key).
Proof. unfold HandleStopContinuousTask. keep. Qed.
Lemma keeps_HandleSuspendContinuousTask uid pid mode key : keeps (HandleSuspendContinuousTask uid pid mode key).
Proof. unfold HandleSuspendContinuousTask. keep. Qed.
Lemma keeps_HandleSuspendContinuousTaskByStandby uid pid mode key :
  keeps (HandleSuspendContinuousTaskByStandby uid pid mode key).
Proof. unfold HandleSuspendContinuousTaskByStandby. keep. Qed.
#[local] Hint Resolve keeps_HandleStopContinuousTask keeps_HandleSuspendContinuousTask
  keeps_HandleSuspendContinuousTaskByStandby : keeps.
Lemma keeps_run_SuspendContinuousTask uid pid reason key b : keeps (run_SuspendContinuousTask uid pid reason key b).
Proof. unfold run_SuspendContinuousTask. keep. Qed.

Lemma keeps_active_loop fuel uid keys label id olds : keeps (active_loop fuel uid keys label id olds).
Proof.
  revert keys label id olds. induction fuel as [|fuel IH]; intros [|key keys] label id olds; cbn [active_loop];
    [apply quiet_keeps; quiet..|].
  keep.
Qed.
#[local] Hint Resolve keeps_active_loop : keeps.
Lemma keeps_HandleActiveContinuousTask uid pid key : keeps (HandleActiveContinuousTask uid pid key).
Proof. unfold HandleActiveContinuousTask. keep. Qed.
Lemma keeps_HandleActiveContinuousTaskByStandby uid pid key : keeps (HandleActiveContinuousTaskByStandby uid pid key).
Proof. unfold HandleActiveContinuousTaskByStandby. keep_loop. Qed.
#[local] Hint Resolve keeps_HandleActiveContinuousTask keeps_HandleActiveContinuousTaskByStandby : keeps.
Lemma keeps_run_ActiveContinuousTask uid pid key b : keeps (run_ActiveContinuousTask uid pid key b).
Proof. unfold run_ActiveContinuousTask. keep. Qed.

(** *** Audio, AVSession and live views *)
Lemma keeps_AVSession uid pid b : keeps (AVSessionNotifyUpdateNotificationInner uid pid b).
Proof. unfold AVSessionNotifyUpdateNotificationInner. keep. Qed.
Lemma keeps_CancelBgTaskNotification uid : keeps (CancelBgTaskNotification uid).
Proof.
  unfold CancelBgTaskNotification, if_ready, CancelBgTaskNotificationInner. apply keeps_bind; [keep|].
  intros ready. case_test; [keep|keep_loop].
Qed.
Lemma keeps_SendNotificationByLiveViewCancel uid : keeps (SendNotificationByLiveViewCancel uid).
Proof.
  unfold SendNotificationByLiveViewCancel, if_ready, SendNotificationByLiveViewCancelInner. apply keeps_bind; [keep|].
  intros ready. case_test; [keep|keep_loop].
Qed.
Lemma keeps_SendNotificationByDeteTask keys : keeps (SendNotificationByDeteTask keys).
Proof.
  unfold SendNotificationByDeteTask, SendNotificationByDeteTaskInner. apply keeps_bind; [keep|].
  intros ready. case_test; [keep|]. apply keeps_bind; [|keep].
  apply triple_for_each. intros key _. keep.
Qed.

(** *** By the user and by the system *)
Lemma keeps_StopContinuousTaskByUserInner key b : keeps (StopContinuousTaskByUserInner key b).
Proof.
  unfold StopContinuousTaskByUserInner. apply inv_find_key; [keep|]. intros r. apply at_inv.
  apply keeps_bind; [|keep]. case_test; [keep_loop|keep].
Qed.
#[local] Hint Resolve keeps_StopContinuousTaskByUserInner : keeps.
Lemma keeps_StopContinuousTaskByUser key b reason : keeps (StopContinuousTaskByUser key b reason).
Proof. unfold StopContinuousTaskByUser. keep. Qed.
Lemma keeps_OnAbilityStateChanged uid name id : keeps (OnAbilityStateChanged uid name id).
Proof. unfold OnAbilityStateChanged. keep. Qed.
Lemma keeps_stop_app_tasks uid : keeps (stop_app_tasks uid).
Proof. unfold stop_app_tasks. keep_loop. Qed.
Lemma keeps_cancel_tasks_where test : keeps (cancel_tasks_where test).
Proof. unfold cancel_tasks_where. keep_loop. Qed.
#[local] Hint Resolve keeps_stop_app_tasks keeps_cancel_tasks_where : keeps.
Lemma keeps_OnAccountsStateChanged id : keeps (OnAccountsStateChanged id).
Proof. unfold OnAccountsStateChanged, ClearBgOsAccountTask, ClearBgOsAccountTaskInCar. keep. Qed.
Lemma keeps_HandleRemoveTaskByMode mode : keeps (HandleRemoveTaskByMode mode).
Proof. unfold HandleRemoveTaskByMode. keep_loop. Qed.
Lemma keeps_OnAppStopped uid : keeps (OnAppStopped uid).
Proof. unfold OnAppStopped, erase_banners_where, erase_banner. keep. Qed.
Lemma keeps_OnBundleInfoChanged action name uid user app : keeps (OnBundleInfoChanged action name uid user app).
Proof. unfold OnBundleInfoChanged, erase_banners_where, erase_banner. destruct action; keep. Qed.

(** *** The shell *)
Lemma triple_cancel_all m (l : list (string * ContinuousTaskRecord)) :
  (forall key r, (key, r) ∈ l -> m !! key = Some r) -> forall D,
  triple (fun c => Inv D c /\ co_tasks c = m)
    (for_each l (fun item =>
      CancelNotification_tool (ct_notificationLabel_ item.2) (ct_notificationId_ item.2) ;;;
      OnContinuousTaskChanged item.2 TASK_CANCEL))
    (fun _ c => exists D', Inv D' c /\ co_tasks c = m /\ forall key, key ∈ l.*1 \/ key ∈ D -> key ∈ D').
Proof.
  induction l as [|[key r] l IH]; intros Hl D e s [Hi Hm].
  - exists D. repeat split; try done; [by apply Hi..|]. intros k [Hk|]; [by apply not_elem_of_nil in Hk|done].
  - cbn [for_each fst snd]. rewrite !bind_run. set (s1 := (CancelNotification_tool _ _ e s).2).
    assert (core s1 = core s) as E1 by apply quiet_CancelNotification_tool.
    assert (At D key r (core s1)) as Ha by (rewrite E1; apply Inv_at; [done|rewrite Hm; apply Hl; left]).
    pose proof (triple_cancel _ _ _ _ ok_same ok_key D key r e s1 Ha) as [Hi2 _].
    pose proof (core_OnContinuousTaskChanged r TASK_CANCEL e s1) as Hc.
    set (s2 := (OnContinuousTaskChanged r TASK_CANCEL e s1).2) in *.
    destruct (IH (fun k x Hk => Hl k x (list_elem_of_further _ _ _ Hk)) ({[key]} ∪ D) e s2) as (D' & H1 & H2 & H3).
    { split; [done|]. rewrite Hc, <- Hm, <- E1. done. }
    exists D'. split; [exact H1|]. split; [exact H2|]. intros k Hk. apply H3.
    set_unfold. destruct Hk as [(k' & -> & [Hk|Hk])|Hk]; [simplify_eq; auto|left; eauto|auto].
Qed.

Lemma keeps_DumpCancelTask options all : keeps (DumpCancelTask options all).
Proof.
  unfold DumpCancelTask. destruct all; [|keep].
  intros e s Hi. rewrite bind_run. cbn [get fst snd]. rewrite bind_run.
  destruct (triple_cancel_all (tasks s) (map_to_list (tasks s))
    (fun k r => proj1 (elem_of_map_to_list (tasks s) k r)) ∅ e s (conj Hi eq_refl))
    as (D' & (Ho & Hx & Hv) & Hm & HD).
  set (s1 := (for_each _ _ e s).2) in *. rewrite bind_run.
  assert (Inv ∅ (core (modify (cm_set_continuousTaskInfosMap_ ∅) e s1).2)) as Hi1.
  { unfold core, tasks, modify in *. split; [|split; [done|]];
      cbn [co_tasks co_told snd cm_continuousTaskInfosMap_ cm_set_continuousTaskInfosMap_ cm_effects] in *;
      [intros key r Hk; by rewrite lookup_empty in Hk|].
    intros Ht. rewrite <- (Hv Ht). apply set_eq. intros key. rewrite !elem_of_difference, elem_of_running. split.
    - intros [(r & Hk & _) _]. by rewrite lookup_empty in Hk.
    - intros [Hr Hn]. apply elem_of_running in Hr as (r & Hr & _). exfalso. apply Hn, HD. left.
      rewrite Hm in Hr. apply list_elem_of_fmap. exists (key, r). split; [done|].
      by apply elem_of_map_to_list. }
  revert Hi1. generalize (modify (cm_set_continuousTaskInfosMap_ ∅) e s1).2. intros s2 Hi2.
  pose proof (quiet_keeps (RefreshTaskRecord ;;; for_each (merge_sort Z.le
        (base.elements (list_to_set ((fun item : string * ContinuousTaskRecord => ct_uid_ item.2) <$>
           map_to_list (tasks s)) : gset Z))) HandleAppContinuousTaskStop) ltac:(quiet) e s2 Hi2) as Hk.
  exact Hk.
Qed.

(** *** Update *)
Lemma at_finish_update key r p : triple (At ∅ key r) (finish_update key r p) (fun _ => Inv ∅).
Proof. unfold finish_update. keep. Qed.
#[local] Hint Resolve at_finish_update : keeps.
Lemma gives_UpdateTaskNotification r p : gives snd r (UpdateTaskNotification r p).
Proof. unfold UpdateTaskNotification. gives. Qed.
#[local] Hint Resolve gives_UpdateTaskNotification : gives.
Lemma at_UpdateTaskInfo key r p : triple (At ∅ key r) (UpdateTaskInfo key r p) (fun _ => Inv ∅).
Proof. unfold UpdateTaskInfo. keep. Qed.
#[local] Hint Resolve at_UpdateTaskInfo : keeps.
Lemma keeps_UpdateBackgroundRunning p : keeps (UpdateBackgroundRunning p).
Proof.
  unfold UpdateBackgroundRunning, UpdateBackgroundRunningByTaskIdInner, UpdateBackgroundRunningInner. keep.
Qed.
Lemma keeps_UpdateDataTransferProgress p : keeps (UpdateDataTransferProgress p).
Proof. unfold UpdateDataTransferProgress, UpdateDataTransferProgressInner. keep. Qed.

(** *** Audio *)

(** A task in standby that is suspended for silence is not told of: this excludes it. *)
Definition audio_told (uid : Z) (key : string) (r : ContinuousTaskRecord) : Prop :=
  tracked -> ct_uid_ r = uid -> CheckExistMode (ct_bgModeIds_ r) AUDIO_PLAYBACK = true -> ct_isStandby_ r = false.

Lemma triple_HandleSuspendContinuousAudioTask uid :
  triple (fun c => Inv ∅ c /\ map_Forall (audio_told uid) (co_tasks c))
    (HandleSuspendContinuousAudioTask uid) (fun _ => Inv ∅).
Proof.
  unfold HandleSuspendContinuousAudioTask.
  apply (triple_bind _ (fun _ => Inv ∅)); [|keep].
  apply triple_for_tasks_where; [|intros; confined].
  intros key r HF. case_test; [keep|]. bool_prop.
  assert (tracked -> ct_isStandby_ r = false) as Hb by (intros Ht; by apply HF).
  keep.
Qed.

(** The entries of [m] are there, as they were. *)
Definition Like (m : gmap string ContinuousTaskRecord) (c : Core) : Prop :=
  Inv ∅ c /\ forall key r, m !! key = Some r -> exists r0, co_tasks c !! key = Some r0 /\ same_state r0 r.

Lemma triple_put_like m key r r' : m !! key = Some r -> same_state r r' ->
  triple (Like m) (put_task key r') (fun _ => Like m).
Proof.
  intros Hm Hr e s [Hi Hl]. destruct (Hl key r Hm) as (r0 & H0 & Hs).
  assert (At ∅ key r (core s)) as Ha by (split; [done|by exists r0]).
  pose proof (triple_put_same _ _ _ _ ok_same ∅ key r r' Hr e s Ha) as [Hi' _]. split; [done|].
  intros k x Hk. cbn [put_task modify snd core co_tasks].
  destruct (decide (k = key)) as [->|Hne].
  - exists r'. split; [apply lookup_insert_eq|]. rewrite Hm in Hk. by simplify_eq.
  - destruct (Hl k x Hk) as (x0 & Hx & Hxs). exists x0. split; [|done].
    etrans; [apply lookup_insert_ne; done|exact Hx].
Qed.

Lemma audio_started_spec texts appName uid l key r' :
  (key, r') ∈ (audio_started texts appName uid l).1.1 -> exists r, (key, r) ∈ l /\ r' = ct_set_audioPlayState_ true r.
Proof.
  induction l as [|[k r] l IH]; cbn [audio_started]; [by intros ?%not_elem_of_nil|].
  case_test; [intros Hx; destruct (IH Hx) as (x & ? & ->); exists x; split; [by right|done]|].
  destruct (text_at _ _); [|by intros ?%not_elem_of_nil].
  case_test; [by intros ?%not_elem_of_nil|].
  destruct (audio_started texts appName uid l) as [[marked infos] complete]. cbn [fst].
  intros [Hx|Hx]%elem_of_cons.
  - simplify_eq. exists r. split; [left|done].
  - destruct (IH Hx) as (x & ? & ->). exists x. split; [by right|done].
Qed.

Lemma keeps_NotifyAudioStartInner uid : keeps (NotifyAudioStartInner uid).
Proof.
  unfold NotifyAudioStartInner. apply triple_quiet; [quiet|]. intros [[k0 r0]|]; [|keep].
  apply triple_quiet; [quiet|]. intros appName. case_test; [keep|].
  apply triple_quiet; [quiet|]. intros texts.
  intros e s Hi. rewrite bind_run. cbn [get fst snd].
  destruct (audio_started texts appName uid (map_to_list (tasks s))) as [[marked infos] complete] eqn:E.
  assert (triple (Like (tasks s)) (for_each marked (fun e => put_task e.1 e.2)) (fun _ => Like (tasks s))) as Hm.
  { apply triple_for_each. intros [key r'] Hx. cbn [fst snd].
    destruct (audio_started_spec texts appName uid (map_to_list (tasks s)) key r') as (r & Hr & ->).
    - by rewrite E.
    - apply (triple_put_like _ key r); [by apply elem_of_map_to_list|same]. }
  assert (Like (tasks s) (core s)) as Hl by (split; [done|]; intros k x Hk; by exists x).
  destruct (Hm e s Hl) as [Hi1 _]. rewrite bind_run. apply quiet_keeps; [|done]. quiet.
Qed.

(** *** Change of the language *)
Lemma quiet_GetNotificationPrompt : Quiet GetNotificationPrompt.
Proof. unfold GetNotificationPrompt, GetNotificationTextForMode. quiet. Qed.
#[local] Hint Resolve quiet_GetNotificationPrompt : quiet.
Lemma triple_refreshed_prompt m infos key r : m !! key = Some r ->
  triple (Like m) (refreshed_prompt infos key r) (fun _ => Like m).
Proof.
  intros Hm. unfold refreshed_prompt. cbv zeta. case_test; [apply quiet_triple; quiet|].
  case_test; [|apply quiet_triple; quiet].
  apply triple_quiet; [quiet|]. intros label.
  destruct (gives_weaken _ _ _ (gives_GetNotificationText r)) as [Hq Hy].
  eapply triple_yields; [done..|]. intros [text r'] Hr. cbn in Hr.
  apply (triple_bind _ (fun _ => Like m)); [by apply (triple_put_like _ key r)|]. intros _. by apply triple_ret.
Qed.
Lemma triple_refreshed_prompts m l infos : (forall key r, (key, r) ∈ l -> m !! key = Some r) ->
  triple (Like m) (refreshed_prompts infos l) (fun _ => Like m).
Proof.
  revert infos. induction l as [|[key r] l IH]; intros infos Hl; [by apply triple_ret|]. cbn [refreshed_prompts].
  apply (triple_bind _ (fun _ => Like m)); [apply triple_refreshed_prompt, Hl; left|]. intros infos'. apply IH.
  intros k x Hk. apply Hl. by right.
Qed.
Lemma quiet_FormatBannerNotificationContext name : Quiet (FormatBannerNotificationContext name).
Proof. unfold FormatBannerNotificationContext. quiet. Qed.
Lemma quiet_put_banner key b : Quiet (put_banner key b).
Proof. done. Qed.
Lemma quiet_erase_banner key : Quiet (erase_banner key).
Proof. done. Qed.
#[local] Hint Resolve quiet_FormatBannerNotificationContext quiet_put_banner quiet_erase_banner : quiet.
Lemma keeps_OnBundleResourcesChanged : keeps OnBundleResourcesChanged.
Proof.
  unfold OnBundleResourcesChanged, OnBundleResourcesChangedInner.
  do 3 (apply triple_quiet; [quiet|]; intros _).
  intros e s Hi. rewrite bind_run. cbn [get fst snd]. rewrite bind_run.
  assert (Like (tasks s) (core s)) as Hl by (split; [done|]; intros k x Hk; by exists x).
  pose proof (triple_refreshed_prompts (tasks s) (map_to_list (tasks s)) ∅
    (fun k x => proj1 (elem_of_map_to_list _ k x)) e s Hl) as [Hi1 _].
  destruct (refreshed_prompts ∅ (map_to_list (tasks s)) e s) as [infos s1]. cbn [fst snd] in *.
  apply quiet_keeps; [|done]. quiet.
Qed.

(** *** Start *)
Lemma triple_CheckCombined record :
  triple (Inv ∅) (CheckCombinedTaskNotification record) (fun a c => Inv ∅ c /\ same_state record a.2).
Proof.
  assert (forall (x : Z) (b : bool), triple (Inv ∅) (ret (x, b, record)) (fun a c => Inv ∅ c /\ same_state record a.2)) as Hret
    by (intros x b; apply triple_ret; by split).
  unfold CheckCombinedTaskNotification, DetermineMatchCombinedTaskNotifacation.
  repeat (case_test; [apply Hret|]).
  apply inv_find_task; [apply Hret|]. intros key r _.
  repeat (case_test; [apply at_inv, Hret|]).
  apply (at_put _ _ _ _ ok_same _ _ _ _); [same|]. apply at_inv. apply triple_ret. intros c Hi. split; [exact Hi|same].
Qed.

(** The record of the task that is started, as it is put into the map. *)
Lemma keeps_StartBackgroundRunningSubmit record key :
  (forall r, same_task record r -> ok key r) -> ct_suspendState_ record = false ->
  keeps (StartBackgroundRunningSubmit record key).
Proof.
  intros Hnew Hs. unfold StartBackgroundRunningSubmit. apply triple_quiet; [quiet|]. intros result.
  case_test; [keep|]. eapply triple_bind; [apply triple_CheckCombined|].
  intros [[r send] r1]. cbn [snd]. apply triple_pure. intros Hr. case_test; [keep|].
  eapply (triple_yields _ _ (fun a => same_state r1 a.2)); [quiet| |].
  { case_test; [case_test|]; [apply (gives_weaken snd), gives_SendLiveViewAndOtherNotification|apply (gives_weaken snd), gives_SendContinuousTaskNotification|].
    by apply yields_ret. }
  intros [r' r2] Hr2. cbn in Hr2. case_test; [keep|].
  assert (same_state record r2) as [H1 H2] by (by etrans).
  apply (inv_start _ _ _ _ ok_key); [by apply Hnew|congruence|]. keep.
Qed.
End Keeps.

(** * Continuous task manager: the states that can be reached

    The operations of [exec] and what they keep; the start of a task, which makes one new
    entry; the start of the service from its files. *)

Import BackgroundMode.

(** ** Operations that are not about tasks *)
Section Quiet.
Context `{ContinuousPlatform}.

Lemma quiet_trigger_callback key v : Quiet (trigger_callback key v).
Proof. unfold trigger_callback. quiet. Qed.
Lemma quiet_RequestAuthFromUser p callback id : Quiet (RequestAuthFromUser p callback id).
Proof.
  unfold RequestAuthFromUser, RequestAuthFromUserInner, CheckSpecialModePermission, CheckAuthParam, caller_record,
    CheckCallerSpecial, CheckSpecialScenarioACLPermission, CheckApplySpecial, FormatBannerNotificationContext,
    find_banner, put_banner, HisysEventRequestAuth. quiet.
Qed.
#[local] Hint Resolve quiet_trigger_callback : quiet.
Lemma quiet_OnBannerNotificationActionButtonClick b uid label :
  Quiet (OnBannerNotificationActionButtonClick b uid label).
Proof.
  unfold OnBannerNotificationActionButtonClick, if_ready, OnBannerNotificationActionButtonClickInner, put_banner. quiet.
Qed.
Lemma quiet_OnPermissionDialogButtonClickInner r uid name app :
  Quiet (OnPermissionDialogButtonClickInner r uid name app).
Proof. unfold OnPermissionDialogButtonClickInner, put_banner. quiet. Qed.
Lemma quiet_StopBannerContinuousTaskByUser label : Quiet (StopBannerContinuousTaskByUser label).
Proof. unfold StopBannerContinuousTaskByUser, StopBannerContinuousTaskByUserInner, erase_banner. quiet. Qed.
Lemma quiet_HandleAuthExpiredCallbackDeath remote : Quiet (HandleAuthExpiredCallbackDeath remote).
Proof.
  unfold HandleAuthExpiredCallbackDeath, if_ready, HandleAuthExpiredCallbackDeathInner, erase_banner. quiet.
Qed.
Lemma quiet_RemoveAuthRecord p : Quiet (RemoveAuthRecord p).
Proof.
  unfold RemoveAuthRecord, caller_record, RemoveAuthRecordInner, find_banner, erase_banner. quiet.
Qed.
Lemma quiet_SetBackgroundTaskState p : Quiet (SetBackgroundTaskState p).
Proof. unfold SetBackgroundTaskState, SetBackgroundTaskStateInner, find_banner, put_banner. quiet. Qed.
Lemma quiet_subscribers i : Quiet (AddSubscriber i).
Proof. unfold AddSubscriber, AddSubscriberInner, set_subscribers. quiet. Qed.
Lemma quiet_RemoveSubscriber p flag : Quiet (RemoveSubscriber p flag).
Proof. unfold RemoveSubscriber, RemoveSubscriberInner, set_subscribers. quiet. Qed.
Lemma quiet_OnRemoteSubscriberDied o : Quiet (OnRemoteSubscriberDied o).
Proof. unfold OnRemoteSubscriberDied, OnRemoteSubscriberDiedInner, set_subscribers. quiet. Qed.
Lemma quiet_AfterAddSaListener infos : Quiet (AfterAddSaListener infos).
Proof. unfold AfterAddSaListener, ClearAudioPlayerInfo, AddAudioPlayerInfo. quiet. Qed.
Lemma quiet_AddAudioPlayerInfo i : Quiet (AddAudioPlayerInfo i).
Proof. unfold AddAudioPlayerInfo. quiet. Qed.
Lemma quiet_RemoveAudioPlayerInfo uid session : Quiet (RemoveAudioPlayerInfo uid session).
Proof. unfold RemoveAudioPlayerInfo. quiet. Qed.
Lemma quiet_OnAppStateChanged uid b b' : Quiet (OnAppStateChanged uid b b').
Proof. unfold OnAppStateChanged, RemoveGamePreLaunchApp. quiet. Qed.
Lemma quiet_AVSessionNotify uid pid : Quiet (post (PT_AVSession uid pid false)).
Proof. done. Qed.
Lemma quiet_SetLiveViewInfo uid b name : Quiet (SetLiveViewInfo uid b name).
Proof. unfold SetLiveViewInfo. apply quiet_modify. intros s. by repeat case_test. Qed.
Lemma quiet_post_if_ready t : Quiet (post_if_ready t).
Proof. unfold post_if_ready. quiet. Qed.
Lemma quiet_OnRemoveSystemAbility id : Quiet (OnRemoveSystemAbility id).
Proof. unfold OnRemoveSystemAbility. quiet. Qed.
Lemma quiet_EnableContinuousTaskRequest uid b : Quiet (EnableContinuousTaskRequest uid b).
Proof. unfold EnableContinuousTaskRequest. quiet. Qed.
Lemma quiet_DumpAllTaskInfo : Quiet DumpAllTaskInfo.
Proof. unfold DumpAllTaskInfo. quiet. Qed.
Lemma quiet_DumpGetTask o : Quiet (DumpGetTask o).
Proof. unfold DumpGetTask, RequestGetContinuousTasksByUidForInner, GetAllContinuousTasksInner. quiet. Qed.
End Quiet.
#[export] Hint Resolve quiet_RequestAuthFromUser quiet_OnBannerNotificationActionButtonClick
  quiet_OnPermissionDialogButtonClickInner quiet_StopBannerContinuousTaskByUser quiet_HandleAuthExpiredCallbackDeath
  quiet_RemoveAuthRecord quiet_SetBackgroundTaskState quiet_subscribers quiet_RemoveSubscriber
  quiet_OnRemoteSubscriberDied quiet_AfterAddSaListener quiet_AddAudioPlayerInfo quiet_RemoveAudioPlayerInfo
  quiet_OnAppStateChanged quiet_SetLiveViewInfo quiet_post_if_ready quiet_OnRemoveSystemAbility
  quiet_EnableContinuousTaskRequest quiet_DumpAllTaskInfo quiet_DumpGetTask : quiet.

(** ** Operations that start no task *)
Definition may_start (op : ContOp) : bool :=
  match op with OpStart _ | OpInner _ | OpShell _ => true | _ => false end.

(** The closure that suspends silent tasks is run. *)
Definition suspends_audio (op : ContOp) (s : ContinuousMgr) : option Z :=
  match op with
  | OpRun n => match cm_posted s !! n with Some (PT_SuspendContinuousAudioTask uid) => Some uid | _ => None end
  | _ => None
  end.

Section Keeps.
Context `{ContinuousPlatform}.
Context (ok : string -> ContinuousTaskRecord -> Prop) (index : Z) (tracked : Prop) (v0 : gset string).
Hypothesis ok_same : forall key r r', same_task r r' -> ok key r -> ok key r'.
Hypothesis ok_key : forall key r, ok key r -> key = task_key r.
Local Abbreviation Inv := (Inv ok index tracked v0).
Local Abbreviation keeps := (keeps ok index tracked v0).

Lemma keeps_OnCanceled n reason : keeps (OnCanceled n reason).
Proof.
  unfold OnCanceled, CancelNotificationByBgTask. destruct n as [n|]; [|by apply quiet_keeps].
  apply keeps_bind; [by apply quiet_keeps|]. intros uid. repeat case_test; try (apply quiet_keeps; quiet; done).
  - destruct (ne_abilityName n); [|by apply quiet_keeps].
    apply keeps_bind; [by apply keeps_StopContinuousTaskByUser|]. intros. by apply quiet_keeps.
  - apply keeps_bind; [apply quiet_keeps; quiet|]. intros _. by apply keeps_SendNotificationByLiveViewCancel.
Qed.
Lemma keeps_OnConsumed n : keeps (OnConsumed n).
Proof.
  unfold OnConsumed. destruct n as [n|]; [|by apply quiet_keeps].
  apply keeps_bind; [by apply quiet_keeps|]. intros uid. repeat case_test; try (apply quiet_keeps; quiet; done).
  apply keeps_bind; [apply quiet_keeps; quiet|]. intros _. by apply keeps_CancelBgTaskNotification.
Qed.

Lemma keeps_run_posted t : (forall uid, t <> PT_SuspendContinuousAudioTask uid) -> keeps (run_posted t).
Proof.
  intros Ht. destruct t; cbn [run_posted].
  - by apply quiet_keeps.
  - by apply keeps_HandleStopContinuousTask.
  - by apply keeps_run_SuspendContinuousTask.
  - by apply keeps_run_ActiveContinuousTask.
  - by destruct (Ht uid).
  - apply keeps_bind; [by apply keeps_AVSession|]. intros _. by apply quiet_keeps.
  - by apply keeps_HandleRemoveTaskByMode.
  - by apply keeps_NotifyAudioStartInner.
Qed.

Lemma triple_run_nth n e s :
  (forall uid, suspends_audio (OpRun n) s = Some uid -> map_Forall (audio_told tracked uid) (tasks s)) ->
  Inv ∅ (core s) -> Inv ∅ (core (run_nth n e s).2).
Proof.
  intros Ha Hi. unfold run_nth. rewrite bind_run. cbn [get fst snd suspends_audio] in *.
  destruct (cm_posted s !! n) as [t|] eqn:E; [|done]. rewrite bind_run.
  set (s1 := (modify _ e s).2). assert (core s1 = core s) as E1 by done.
  destruct t; try (apply keeps_run_posted; [by intros|by rewrite E1]).
  apply triple_HandleSuspendContinuousAudioTask; [done..|]. rewrite E1. split; [done|]. by apply Ha.
Qed.

Lemma exec_keeps op e s : may_start op = false ->
  (forall uid, suspends_audio op s = Some uid -> map_Forall (audio_told tracked uid) (tasks s)) ->
  Inv ∅ (core s) -> Inv ∅ (core (exec op e s).2).
Proof.
  intros Hop Ha Hi. destruct op; try discriminate; cbn [exec];
    try (apply quiet_keeps; [unfold StopContinuousTask, SuspendContinuousTask, ActiveContinuousTask,
           SuspendContinuousAudioTask, NotifyAudioStart, AddGamePreLaunchApp, RemoveGamePreLaunchApp; solve [quiet]|done]);
    try (apply keeps_bind; [|by intros; apply quiet_keeps|done]).
  - by apply keeps_UpdateBackgroundRunning.
  - by apply keeps_UpdateDataTransferProgress.
  - by apply keeps_StopBackgroundRunning.
  - unfold AVSessionNotifyUpdateNotification. apply keeps_bind; [by apply quiet_keeps|]. intros ready.
    case_test; [by apply quiet_keeps|]. apply keeps_bind; [by apply quiet_keeps|]. intros uid'.
    case_test; [by apply quiet_keeps|]. case_test; [by apply keeps_AVSession|apply quiet_keeps; quiet].
  - by apply keeps_SendNotificationByDeteTask.
  - by apply keeps_OnCanceled.
  - by apply keeps_OnConsumed.
  - by apply keeps_OnAbilityStateChanged.
  - by apply keeps_OnAppStopped.
  - by apply keeps_OnAccountsStateChanged.
  - by apply keeps_OnBundleInfoChanged.
  - by apply keeps_OnBundleResourcesChanged.
  - by apply triple_run_nth.
Qed.

End Keeps.

(** ** The start of a task *)

(** Whatever the condition on the entries, it is kept. *)
Definition kept (tracked : Prop) (s s' : ContinuousMgr) : Prop :=
  forall ok index v0,
    (forall key r r', same_task r r' -> ok key r -> ok key r') -> (forall key r, ok key r -> key = task_key r) ->
    Inv ok index tracked v0 ∅ (core s) -> Inv ok index tracked v0 ∅ (core s').

(** A task that may start in [s], with the next id. *)
Definition may_be_new (s : ContinuousMgr) (new : ContinuousTaskRecord) : Prop :=
  in_int32 (ct_uid_ new) /\ in_int32 (ct_abilityId_ new) /\
  ct_continuousTaskId_ new = int32 (cm_continuousTaskIdIndex_ s + 1).
Definition has_room (s : ContinuousMgr) (new : ContinuousTaskRecord) : Prop :=
  ct_isByRequestObject_ new = true ->
  Z.of_nat (size (ability_tasks (ct_abilityId_ new) (tasks s))) < ABILITY_TASK_MAX_NUM.

(** An id is taken, and at most the task [new] is new, for a uid of [U] and with room for it. *)
Definition started (tracked : Prop) (U : Z -> Prop) (s s' : ContinuousMgr) : Prop :=
  exists new, U (ct_uid_ new) /\ may_be_new s new /\
    forall ok v0,
      (forall key r r', same_task r r' -> ok key r -> ok key r') -> (forall key r, ok key r -> key = task_key r) ->
      (has_room s new -> forall r, same_task new r -> ok (task_key new) r) ->
      Inv ok (cm_continuousTaskIdIndex_ s) tracked v0 ∅ (core s) ->
      Inv ok (int32 (cm_continuousTaskIdIndex_ s + 1)) tracked v0 ∅ (core s').

(** From [s] to [s'] at most one task starts. *)
Definition one_start (tracked : Prop) (U : Z -> Prop) (s s' : ContinuousMgr) : Prop :=
  kept tracked s s' \/ started tracked U s s'.

Lemma one_start_keeps (tracked : Prop) U s s' : kept tracked s s' -> one_start tracked U s s'.
Proof. by left. Qed.
Lemma one_start_core tracked U s s' : core s' = core s -> one_start tracked U s s'.
Proof. intros E. left. intros ok index v0 _ _ Hi. by rewrite E. Qed.
Lemma one_start_same (tracked : Prop) U s : one_start tracked U s s.
Proof. by apply one_start_core. Qed.

Section Start.
Context `{ContinuousPlatform}.
Context (tracked : Prop) (U : Z -> Prop).
Local Abbreviation one_start := (one_start tracked U).

Lemma StartBackgroundRunningInner_one record e s :
  ct_suspendState_ record = false -> in_int32 (ct_uid_ record) -> in_int32 (ct_abilityId_ record) ->
  U (ct_uid_ record) -> one_start s (StartBackgroundRunningInner record e s).2.
Proof.
  intros Hs Hu Ha HU. unfold StartBackgroundRunningInner. rewrite bind_run. cbn [uid_disabled get fst snd].
  case_test; [by apply one_start_same|]. rewrite bind_run.
  set (s1 := (AllowApplyContinuousTask record e s).2).
  assert (core s1 = core s) as E1 by apply quiet_AllowApplyContinuousTask.
  case_test; [by apply one_start_core|].
  right. exists (ct_set_continuousTaskId_ (int32 (cm_continuousTaskIdIndex_ s + 1)) record).
  split; [done|]. split; [done|]. intros ok v0 ok_same ok_key Had Hi.
  rewrite bind_run. set (i' := (next_task_id e s1).1). set (s2 := (next_task_id e s1).2).
  assert (cm_continuousTaskIdIndex_ s1 = cm_continuousTaskIdIndex_ s) as Ei by (by injection E1).
  assert (tasks s1 = tasks s) as Et by (by apply tasks_core).
  assert (i' = int32 (cm_continuousTaskIdIndex_ s + 1)) as Ei' by (unfold i'; rewrite <- Ei; done).
  assert (core s2 = mkCore (tasks s) i' (told (cm_effects s))) as E2.
  { unfold i'. rewrite <- Et. injection E1 as _ _ <-. done. }
  assert (Inv ok i' tracked v0 ∅ (core s2)) as Hi2.
  { rewrite E2. destruct Hi as (Ho & _ & Hv). by split. }
  rewrite <- Ei' in Had |- *. clearbody i' s2.
  rewrite bind_run. set (new := ct_set_continuousTaskId_ i' record).
  set (num := (if ct_isByRequestObject_ new then CheckAbilityTaskNum new else ret ERR_OK)).
  assert (Quiet num) as Hq by (unfold num; quiet).
  assert (negb ((num e s2).1 =? ERR_OK) = false -> ct_isByRequestObject_ new = true ->
    Z.of_nat (size (ability_tasks (ct_abilityId_ new) (tasks s))) < ABILITY_TASK_MAX_NUM) as Hnum.
  { unfold num. intros Hc' Hb. rewrite Hb in Hc'. unfold CheckAbilityTaskNum in Hc'. rewrite bind_run in Hc'.
    cbn [get fst snd] in Hc'. rewrite (tasks_core s2 (cm_set_continuousTaskIdIndex_ i' s)) in Hc'.
    - destruct (ABILITY_TASK_MAX_NUM <=? _) eqn:Eb in Hc'; [done|]. by apply Z.leb_gt in Eb.
    - by rewrite E2. }
  specialize (Hq e s2). destruct (num e s2) as [res s3]. cbn [fst snd] in *.
  rewrite <- Hq in Hi2. destruct (negb (res =? ERR_OK)) eqn:Er; [exact Hi2|].
  specialize (Hnum eq_refl). rewrite bind_run. cbn [find_key get fst snd].
  destruct (tasks s3 !! task_key new) as [old|]; [by replace (ct_suspendState_ new) with false by done|].
  refine (keeps_bind ok i' tracked v0 _ _ (quiet_keeps _ _ _ _ _ _) _ e s3 Hi2); [quiet|].
  intros _. apply keeps_StartBackgroundRunningSubmit; [done..| |done].
  intros r Hr. by apply Had.
Qed.

Lemma new_record_fields bundle name uid pid mode batch modes abilityId r :
  new_ContinuousTaskRecord bundle name uid pid mode batch modes abilityId = Some r ->
  ct_suspendState_ r = false /\ ct_uid_ r = uid /\ ct_abilityId_ r = abilityId.
Proof.
  unfold new_ContinuousTaskRecord. intros Hr. destruct batch; [|by simplify_eq].
  destruct (list_find _ modes) as [[i m]|]; [by simplify_eq|]. destruct modes; by simplify_eq.
Qed.

Lemma CheckSubMode_fields want record :
  ct_suspendState_ (CheckSubMode want record).2 = ct_suspendState_ record /\
  ct_uid_ (CheckSubMode want record).2 = ct_uid_ record /\
  ct_abilityId_ (CheckSubMode want record).2 = ct_abilityId_ record.
Proof. unfold CheckSubMode. destruct (w_subMode want); [|done]. by case_test. Qed.

Lemma GetOsAccountIdFromUid_state uid e s : (GetOsAccountIdFromUid uid e s).2 = s.
Proof. unfold GetOsAccountIdFromUid. by case_test. Qed.
Lemma GetAbilityNamePid_state p pid uid e s : (GetAbilityNamePid p pid uid e s).2 = s.
Proof. unfold GetAbilityNamePid. by case_test. Qed.
Lemma InitRecordParam_run r p u e s :
  (InitRecordParam r p u e s).2 = s /\
  ct_suspendState_ (InitRecordParam r p u e s).1 = ct_suspendState_ r /\
  ct_uid_ (InitRecordParam r p u e s).1 = ct_uid_ r /\
  ct_abilityId_ (InitRecordParam r p u e s).1 = ct_abilityId_ r.
Proof. unfold InitRecordParam. by rewrite !bind_ask. Qed.

Lemma StartBackgroundRunning_one p e s :
  (forall p', p = Some p' -> in_int32 (ce_callingUid e) /\ in_int32 (tp_abilityId_ p')) -> U (ce_callingUid e) ->
  one_start s (StartBackgroundRunning p e s).2.
Proof.
  intros Hp HU. pose proof (one_start_same tracked U s) as Hno.
  unfold StartBackgroundRunning. rewrite bind_get.
  case_test; [done|]. case_test; [done|]. destruct p as [p|]; [|done].
  destruct (Hp p eq_refl) as [Hu Ha].
  rewrite !bind_ask, bind_run, GetOsAccountIdFromUid_state, bind_ask.
  case_test; [done|].
  destruct (new_ContinuousTaskRecord _ _ _ _ _ _ _ _) as [r|] eqn:Er; [|done].
  apply new_record_fields in Er as (Es & Eu & Ea).
  rewrite bind_run. generalize (GetOsAccountIdFromUid (ce_callingUid e) e s).1. intros userId.
  destruct (InitRecordParam_run r p userId e s) as (Hst & Hs1 & Hu1 & Ha1).
  destruct (InitRecordParam r p userId e s) as [r1 s1]. cbn [fst snd] in *. subst s1.
  assert (ct_suspendState_ r1 = false /\ ct_uid_ r1 = ce_callingUid e /\ ct_abilityId_ r1 = tp_abilityId_ p) as Hr1
    by (repeat split; congruence).
  set (sub := match want_of (tp_wantAgent_ p) with Some want => CheckSubMode want (set_want_info want r1) | None => (ERR_OK, r1) end).
  assert (ct_suspendState_ sub.2 = false /\ ct_uid_ sub.2 = ce_callingUid e /\ ct_abilityId_ sub.2 = tp_abilityId_ p)
    as (Fs & Fu & Fa).
  { unfold sub. destruct (want_of _) as [w|]; [|done].
    destruct (CheckSubMode_fields w (set_want_info w r1)) as (-> & -> & ->). exact Hr1. }
  clearbody sub. destruct sub as [result r2]. cbn [snd] in *. case_test; [done|].
  rewrite bind_run. pose proof (StartBackgroundRunningInner_one r2 e s Fs) as Hin.
  rewrite Fu, Fa in Hin. specialize (Hin Hu Ha HU).
  destruct (StartBackgroundRunningInner r2 e s) as [[x r3] s']. exact Hin.
Qed.

Lemma StartBackgroundRunningForInner_one p uid e s :
  in_int32 (ip_uid_ p) -> U (ip_uid_ p) -> one_start s (StartBackgroundRunningForInner p uid e s).2.
Proof.
  intros Hu HU. unfold StartBackgroundRunningForInner.
  rewrite bind_run. assert ((inner_pid p e s).2 = s) as -> by done.
  rewrite !bind_ask, bind_run, GetAbilityNamePid_state, bind_run, GetOsAccountIdFromUid_state. cbv zeta.
  destruct (new_ContinuousTaskRecord _ _ _ _ _ _ _ _) as [r|] eqn:Er.
  - apply new_record_fields in Er as (Es & Eu & Ea). rewrite bind_run.
    match goal with |- context [StartBackgroundRunningInner ?x e s] => set (r2 := x) end.
    pose proof (StartBackgroundRunningInner_one r2 e s) as Hst.
    change (ct_suspendState_ r2) with (ct_suspendState_ r) in Hst.
    change (ct_uid_ r2) with (ct_uid_ r) in Hst. change (ct_abilityId_ r2) with (ct_abilityId_ r) in Hst.
    rewrite Eu, Ea in Hst. specialize (Hst Es Hu ltac:(in_range) HU).
    clearbody r2. destruct (StartBackgroundRunningInner r2 e s) as [[x r3] s']. exact Hst.
  - apply one_start_same.
Qed.

Lemma DebugContinuousTask_one options e s : (forall uid, U uid) -> one_start s (DebugContinuousTask options e s).2.
Proof.
  intros HU. pose proof (one_start_same tracked U s) as Hno.
  unfold DebugContinuousTask. cbv zeta. do 3 (case_test; [done|]).
  match goal with |- context [mkInnerParam ?u _ _ _ _ _] => set (uid := u) end.
  assert (in_int32 uid) as Hu by (unfold uid; case_test; [apply int32_range|in_range]). clearbody uid.
  rewrite bind_state. unfold DebugContinuousTaskInner. rewrite bind_get. case_test; [done|]. case_test.
  - by apply StartBackgroundRunningForInner_one.
  - apply one_start_keeps. intros ok index v0 H1 H2. by apply keeps_StopBackgroundRunningForInner.
Qed.

(** ** Every operation *)
(** For whom an operation may start a task: the caller; who a configured service names; or
    anyone, from the shell. *)
Definition starts_for (op : ContOp) (e : ContEnv) (uid : Z) : Prop :=
  match op with
  | OpStart _ => uid = ce_callingUid e
  | OpInner (Some p) => uid = ip_uid_ p /\ CheckPermissionForInner p (ce_callingUid e) = true
  | OpShell _ => True
  | _ => False
  end.

Lemma exec_one_start op e s :
  (forall uid, suspends_audio op s = Some uid -> map_Forall (audio_told tracked uid) (tasks s)) ->
  (forall uid, starts_for op e uid -> U uid) ->
  admissible op e s -> one_start s (exec op e s).2.
Proof.
  intros Hau HU [Hx Ht]. pose proof (one_start_same tracked U s) as Hno.
  destruct (may_start op) eqn:Eop; [|apply one_start_keeps; intros ok index v0 H1 H2; by apply exec_keeps].
  destruct op as [p| | | |p| | | | | | | | | | | | | | | | | | | | | | | | | | |options| | | | |]; try discriminate; cbn [exec].
  - rewrite bind_state. apply StartBackgroundRunning_one; [intros p' ->; exact Ht|by apply HU].
  - rewrite bind_state. unfold RequestBackgroundRunningForInner. rewrite bind_get. case_test; [done|].
    destruct p as [p|]; [|done]. rewrite bind_ask. case_test; [done|].
    case_test; [apply StartBackgroundRunningForInner_one; [done|apply HU; split; [done|by bool_prop]]|].
    apply one_start_keeps. intros ok index v0 H1 H2. by apply keeps_StopBackgroundRunningForInner.
  - rewrite bind_state. unfold ShellDump. rewrite bind_get. case_test; [done|]. unfold ShellDumpInner.
    destruct options as [|x [|command rest]]; [done..|].
    assert (forall A (m : CM A) (f : A -> Z * option (list string)),
      (forall ok index v0, (forall key r r', same_task r r' -> ok key r -> ok key r') ->
        (forall key r, ok key r -> key = task_key r) -> keeps ok index tracked v0 m) ->
      one_start s (bind m (fun a => ret (f a)) e s).2) as Hk
      by (intros A m f Hm; rewrite bind_state; apply one_start_keeps; intros ok index v0 H1 H2; by apply Hm).
    case_test; [apply Hk; intros; apply quiet_keeps; quiet|].
    case_test; [by apply Hk; intros; apply keeps_DumpCancelTask|].
    case_test; [by apply Hk; intros; apply keeps_DumpCancelTask|].
    case_test; [apply Hk; intros; apply quiet_keeps; quiet|].
    case_test; [|done]. rewrite bind_state. apply DebugContinuousTask_one. intros uid. by apply HU.
Qed.
End Start.
