(* ===== verification/ContinuousStorageProps.v ===== *)
(** * Storage of continuous tasks and authorisations: round trips

    What a record is after it was written to JSON and read back, and what the two maps
    are after a restart (ContinuousTaskRecord.v). *)

From S2P Require Import Prelude.
From S2P Require Import Json.
From S2P Require Import ResourceStorage.
From S2P Require Import BackgroundModes.
From S2P Require Import ContinuousTaskRecord.
Local Open Scope Z_scope.

(** ** Objects written member by member *)
Fixpoint assoc {V} (key : string) (l : list (string * V)) : option V :=
  match l with
  | [] => None
  | (k, v) :: l' => if bool_decide (k = key) then Some v else assoc key l'
  end.

Lemma assoc_lookup {V} key (l : list (string * V)) : (list_to_map l : gmap string V) !! key = assoc key l.
Proof.
  induction l as [|[k v] l IH]; [done|]. cbn [assoc list_to_map foldr fst snd].
  case_bool_decide as Hk; [subst; apply lookup_insert_eq|]. rewrite lookup_insert_ne by done. apply IH.
Qed.

(** ** Decimal numbers have no separator in them *)
Fixpoint free (c : Ascii.ascii) (str : string) : Prop :=
  match str with
  | EmptyString => True
  | String c' rest => c' <> c /\ free c rest
  end.

Lemma string_cons_app c (a b : string) : String c a +:+ b = String c (a +:+ b).
Proof. done. Qed.
Lemma free_app c s t : free c (s +:+ t) <-> free c s /\ free c t.
Proof.
  induction s as [|c' s IH]; [cbn; tauto|]. rewrite string_cons_app. cbn [free]. rewrite IH. tauto.
Qed.

(** No digit and no sign. *)
Definition separator (c : Ascii.ascii) : Prop :=
  c <> Ascii.ascii_of_nat 45 /\ Forall (fun n => pretty_N_char (N.of_nat n) <> c) (seq 0 10).

Lemma separator_digit c n : separator c -> (n < 10)%N -> pretty_N_char n <> c.
Proof.
  intros [_ Hc] Hn. rewrite Forall_forall in Hc. specialize (Hc (N.to_nat n)).
  rewrite N2Nat.id in Hc. apply Hc, elem_of_seq. lia.
Qed.
Lemma free_go c n : separator c -> forall str, free c str -> free c (pretty_N_go n str).
Proof.
  intros Hc. induction (N.lt_wf_0 n) as [n _ IH]; intros str Hs.
  destruct (decide (n = 0%N)) as [->|Hn]; [done|].
  rewrite pretty_N_go_step by lia. apply IH; [apply N.div_lt; lia|]. split; [|done].
  apply separator_digit; [done|]. by apply N.mod_lt.
Qed.
Lemma free_pretty c (z : Z) : separator c -> free c (pretty z).
Proof.
  intros Hc. destruct z as [|p|p].
  - split; [|done]. by apply (separator_digit c 0).
  - change (pretty (Z.pos p)) with (pretty_N_go (N.pos p) ""). by apply free_go.
  - change (pretty (Z.neg p)) with ("-" +:+ pretty_N_go (N.pos p) "")%string. split; [|by apply free_go].
    intros E. by destruct Hc as [[] _].
Qed.
Lemma pretty_nonempty (z : Z) : pretty z <> ""%string.
Proof.
  destruct z as [|p|p]; [done| |done].
  change (pretty (Z.pos p)) with (pretty_N_go (N.pos p) "").
  destruct (pretty_positive_starts p) as (c & r & -> & _). done.
Qed.

Lemma string_app_assoc (a b c : string) : ((a +:+ b) +:+ c = a +:+ (b +:+ c))%string.
Proof. induction a as [|x a IH]; [done|]. rewrite !string_cons_app. by f_equal. Qed.
Lemma string_app_empty (a : string) : (a +:+ "" = a)%string.
Proof. induction a as [|x a IH]; [done|]. rewrite !string_cons_app. by f_equal. Qed.

(** ** Lists of modes *)
(** What is relied on of [OHOS::SplitStr]: pieces that hold no separator and are not empty,
    each followed by the separator, are found again; the empty end is dropped. *)
Class StrSplitLaws `{StrSplit} : Prop := SplitStr_pieces (pieces : list string) :
  Forall (fun piece => piece <> ""%string /\ free (Ascii.ascii_of_nat 44) piece) pieces ->
  SplitStr (foldr (fun piece rest => piece +:+ String (Ascii.ascii_of_nat 44) rest) ""%string pieces) "," = pieces.

Lemma ToString_acc (l : list Z) acc :
  fold_left (fun result it => result +:+ pretty it +:+ ",") l acc = (acc +:+ ToString l)%string.
Proof.
  unfold ToString. revert acc. induction l as [|x l IH]; intros acc; cbn [fold_left]; [by rewrite string_app_empty|].
  rewrite IH, (IH (_ +:+ _)%string). by rewrite !string_app_assoc.
Qed.
Lemma ToString_cons (x : Z) l : ToString (x :: l) = (pretty x +:+ String (Ascii.ascii_of_nat 44) (ToString l))%string.
Proof. unfold ToString at 1. cbn [fold_left]. rewrite ToString_acc, !string_app_assoc. reflexivity. Qed.
Lemma ToString_pieces (l : list Z) :
  ToString l = foldr (fun piece rest => piece +:+ String (Ascii.ascii_of_nat 44) rest)%string ""%string (pretty <$> l).
Proof. induction l as [|x l IH]; [done|]. rewrite ToString_cons, IH. reflexivity. Qed.
Lemma SplitStr_ToString `{StrSplitLaws} (l : list Z) : SplitStr (ToString l) "," = pretty <$> l.
Proof.
  rewrite ToString_pieces. apply SplitStr_pieces, Forall_fmap, Forall_true. intros z. split; [apply pretty_nonempty|].
  apply free_pretty. split; [done|]. by apply (bool_decide_unpack _); vm_compute.
Qed.
(** Modes are stored exactly. *)
Lemma ToVector_ToString `{StrSplitLaws} l : Forall (fun m => 0 <= m <= int32_max) l -> ToVector (ToString l) = l.
Proof.
  intros Hl. unfold ToVector. rewrite SplitStr_ToString, <- list_fmap_compose.
  induction Hl as [|m l Hm _ IH]; [done|]. cbn [fmap list_fmap compose]. f_equal; [|exact IH].
  rewrite atoi_pretty by in_range. apply uint32_id. in_range.
Qed.

Section Literal.
Context `{Json J} {splitter : StrSplit} {splits : StrSplitLaws}.

Lemma member_literal (l : list (string * J)) key : member key (mk (JObject (list_to_map l))) = assoc key l.
Proof. rewrite member_object. apply assoc_lookup. Qed.

Section Members.
Context (value : J) (key : string).

Lemma at_string_member x : member key value = Some (json_string x) -> at_string key value = x.
Proof. intros Hk. unfold at_string. rewrite Hk. cbn. unfold get_string, json_string. by rewrite view_mk. Qed.
Lemma at_bool_member x : member key value = Some (json_bool x) -> at_bool key value = x.
Proof. intros Hk. unfold at_bool. rewrite Hk. cbn. unfold get_bool, json_bool. by rewrite view_mk. Qed.
Lemma at_int32_member x : member key value = Some (json_int x) -> at_int32 key value = int32 x.
Proof. intros Hk. unfold at_int32. rewrite Hk. cbn. unfold get_int32, get_number, json_int. by rewrite view_mk. Qed.
Lemma at_uint32_member x : member key value = Some (json_int x) -> at_uint32 key value = uint32 x.
Proof. intros Hk. unfold at_uint32. rewrite Hk. cbn. unfold get_uint32, get_number, json_int. by rewrite view_mk. Qed.

Lemma at_is_member (test : J -> bool) v : member key value = Some v -> test v = true -> at_is test key value = true.
Proof. intros Hk Ht. unfold at_is, member_if. rewrite Hk, Ht. by apply bool_decide_eq_true. Qed.
Lemma at_is_string_member x : member key value = Some (json_string x) -> at_is is_string key value = true.
Proof. intros Hk. apply (at_is_member _ _ Hk). apply kinds_mk. Qed.
Lemma at_is_bool_member x : member key value = Some (json_bool x) -> at_is is_boolean key value = true.
Proof. intros Hk. apply (at_is_member _ _ Hk). apply kinds_mk. Qed.
Lemma at_is_int_member x : member key value = Some (json_int x) -> at_is is_number_integer key value = true.
Proof. intros Hk. apply (at_is_member _ _ Hk). apply kinds_mk. Qed.
Lemma contains_Some v : member key value = Some v -> contains value key = true.
Proof. intros Hk. apply contains_member. by eexists. Qed.
End Members.

(** Reads members of a literal object, each found by the tactic [find]. *)
Ltac read_members find :=
  repeat first
    [ erewrite at_is_string_member by find | erewrite at_is_int_member by find | erewrite at_is_bool_member by find
    | erewrite contains_Some by find
    | erewrite at_string_member by find | erewrite at_bool_member by find
    | erewrite at_int32_member by find | erewrite at_uint32_member by find ].
Ltac in_literal E := rewrite E, member_literal; reflexivity.

(** ** BannerNotificationRecord *)
Record banner_typed (b : BannerNotificationRecord) : Prop := {
  bt_uid : in_int32 (bn_uid_ b);
  bt_notificationId : in_int32 (bn_notificationId_ b);
  bt_authResult : in_int32 (bn_authResult_ b);
  bt_userId : in_int32 (bn_userId_ b);
  bt_appIndex : in_int32 (bn_appIndex_ b);
}.

Lemma bn_round_trip b b0 : banner_typed b -> bn_ParseFromJson (bn_ParseToJson b) b0 = (true, b).
Proof.
  intros []. pose proof (eq_refl : bn_ParseToJson b = mk (JObject (list_to_map _))) as E.
  unfold bn_ParseFromJson, CheckRecordKey, banner_members, CheckJsonValue, bn_SetRecordValue.
  cbn [existsb forallb fmap list_fmap fst snd].
  assert (is_null (bn_ParseToJson b) = false) as -> by (unfold is_null, bn_ParseToJson; by rewrite view_mk).
  assert (is_object (bn_ParseToJson b) = true) as -> by apply kinds_mk.
  read_members ltac:(in_literal E). cbn [negb orb andb]. rewrite !int32_id by done. by destruct b.
Qed.

(** ** ContinuousTaskRecord *)

(** What reading back a stored record gives, whatever its numbers. *)
Definition reread_progress (p : ProgressInfo) : ProgressInfo :=
  mkProgressInfo (pg_title_ p) (pg_fileName_ p) (int32 (pg_progressValue_ p)) (pg_isMute_ p).
Definition reread (r : ContinuousTaskRecord) : ContinuousTaskRecord := {|
  ct_bundleName_ := ct_bundleName_ r; ct_abilityName_ := ct_abilityName_ r; ct_wantAgent_ := None;
  ct_userId_ := int32 (ct_userId_ r); ct_uid_ := int32 (ct_uid_ r); ct_pid_ := int32 (ct_pid_ r);
  ct_bgModeId_ := uint32 (ct_bgModeId_ r);
  ct_isNewApi_ := ct_isNewApi_ r; ct_isFromWebview_ := ct_isFromWebview_ r;
  ct_needNotificationForInnerApi_ := ct_needNotificationForInnerApi_ r;
  ct_notificationLabel_ := ct_notificationLabel_ r; ct_notificationId_ := int32 (ct_notificationId_ r);
  ct_subNotificationLabel_ := ct_subNotificationLabel_ r; ct_subNotificationId_ := int32 (ct_subNotificationId_ r);
  ct_wantAgentInfo_ := ct_wantAgentInfo_ r; ct_appName_ := ""; ct_fullTokenId_ := 0; ct_callingTokenId_ := 0;
  ct_isBatchApi_ := ct_isBatchApi_ r; ct_bgModeIds_ := ToVector (ToString (ct_bgModeIds_ r));
  ct_bgSubModeIds_ := ToVector (ToString (ct_bgSubModeIds_ r));
  ct_abilityId_ := int32 (ct_abilityId_ r); ct_reason_ := 0;
  ct_detailedCancelReason_ := int32 (ct_detailedCancelReason_ r); ct_isSystem_ := ct_isSystem_ r;
  ct_continuousTaskId_ := int32 (ct_continuousTaskId_ r); ct_suspendState_ := ct_suspendState_ r;
  ct_suspendReason_ := int32 (ct_suspendReason_ r);
  ct_suspendAudioTaskTimes_ := 0; ct_isCombinedTaskNotification_ := ct_isCombinedTaskNotification_ r;
  ct_combinedNotificationTaskId_ := int32 (ct_combinedNotificationTaskId_ r);
  ct_isByRequestObject_ := ct_isByRequestObject_ r; ct_appIndex_ := int32 (ct_appIndex_ r);
  ct_audioDetectState_ := true; ct_audioPlayState_ := ct_audioPlayState_ r; ct_isStandby_ := ct_isStandby_ r;
  ct_isStandbySuspend_ := ct_isStandbySuspend_ r; ct_progressInfo_ := reread_progress <$> ct_progressInfo_ r;
  ct_isFromComponent_ := ct_isFromComponent_ r |}.

Lemma pg_reread p : pg_ParseFromJson (pg_ParseToJson p) new_ProgressInfo = (true, reread_progress p).
Proof.
  pose proof (eq_refl : pg_ParseToJson p = mk (JObject (list_to_map _))) as E.
  unfold pg_ParseFromJson.
  assert (is_null (pg_ParseToJson p) = false) as -> by (unfold is_null, pg_ParseToJson; by rewrite view_mk).
  assert (is_object (pg_ParseToJson p) = true) as -> by apply kinds_mk.
  by read_members ltac:(in_literal E).
Qed.

Lemma want_reread i :
  let value := mk (JObject (list_to_map [("bundleName"%string, json_string (wai_bundleName_ i));
                                        ("abilityName"%string, json_string (wai_abilityName_ i))])) in
  CheckJsonValue value ["bundleName"%string; "abilityName"%string] = true /\
  at_is is_string "bundleName" value = true /\ at_is is_string "abilityName" value = true /\
  at_string "bundleName" value = wai_bundleName_ i /\ at_string "abilityName" value = wai_abilityName_ i.
Proof.
  intros value. pose proof (eq_refl : value = mk (JObject (list_to_map _))) as E.
  unfold CheckJsonValue. cbn [forallb]. by read_members ltac:(in_literal E).
Qed.

(** The members other than the two that may be missing. *)
Lemma member_fields r key : key <> "progressInfo"%string -> key <> "wantAgentInfo"%string ->
  member key (ct_ParseToJson r) = assoc key (ct_fields r).
Proof.
  intros Hp Hw. unfold ct_ParseToJson. rewrite member_literal.
  destruct (ct_progressInfo_ r), (ct_wantAgentInfo_ r); cbn [app assoc]; by rewrite ?bool_decide_false.
Qed.
Lemma member_wantAgentInfo r : member "wantAgentInfo" (ct_ParseToJson r) =
  (fun i => mk (JObject (list_to_map [("bundleName"%string, json_string (wai_bundleName_ i));
                                     ("abilityName"%string, json_string (wai_abilityName_ i))]))) <$> ct_wantAgentInfo_ r.
Proof. unfold ct_ParseToJson. rewrite member_literal. by destruct (ct_progressInfo_ r), (ct_wantAgentInfo_ r). Qed.
Lemma member_progressInfo r : member "progressInfo" (ct_ParseToJson r) = pg_ParseToJson <$> ct_progressInfo_ r.
Proof. unfold ct_ParseToJson. rewrite member_literal. by destruct (ct_progressInfo_ r), (ct_wantAgentInfo_ r). Qed.
Ltac in_fields := rewrite member_fields by discriminate; reflexivity.

Lemma fields_present r : CheckJsonValue (ct_ParseToJson r) record_members.*1 = true /\
  CheckContinuousRecod (ct_ParseToJson r) = false.
Proof.
  unfold CheckContinuousRecod, record_members, CheckJsonValue. cbn [existsb forallb fmap list_fmap fst snd].
  by read_members in_fields.
Qed.

Lemma pg_is_object p : is_object (pg_ParseToJson p) = true.
Proof. apply kinds_mk. Qed.
Lemma ct_reread r : ct_ParseFromJson (ct_ParseToJson r) default_task = (true, reread r).
Proof.
  destruct (fields_present r) as [Hp Hc]. unfold ct_ParseFromJson. rewrite Hp, Hc.
  assert (is_null (ct_ParseToJson r) = false) as -> by (unfold is_null, ct_ParseToJson; by rewrite view_mk).
  assert (is_object (ct_ParseToJson r) = true) as -> by apply kinds_mk. cbn [negb orb].
  unfold ct_SetRecordValue. read_members in_fields. rewrite member_wantAgentInfo.
  unfold member_if. rewrite member_progressInfo. unfold reread.
  destruct (ct_wantAgentInfo_ r) as [i|]; cbn [fmap option_fmap option_map].
  - destruct (want_reread i) as (-> & -> & -> & -> & ->). cbn [negb orb].
    destruct (ct_progressInfo_ r) as [p|]; cbn [fmap option_fmap option_map]; [|by destruct i].
    rewrite pg_is_object, pg_reread. by destruct i.
  - destruct (ct_progressInfo_ r) as [p|]; cbn [fmap option_fmap option_map]; [|done].
    by rewrite pg_is_object, pg_reread.
Qed.

(** The members of a record whose numbers have the width of their type. *)
Record task_typed (r : ContinuousTaskRecord) : Prop := {
  tt_userId : in_int32 (ct_userId_ r); tt_uid : in_int32 (ct_uid_ r); tt_pid : in_int32 (ct_pid_ r);
  tt_bgModeId : in_uint32 (ct_bgModeId_ r); tt_notificationId : in_int32 (ct_notificationId_ r);
  tt_subNotificationId : in_int32 (ct_subNotificationId_ r); tt_abilityId : in_int32 (ct_abilityId_ r);
  tt_detailed : in_int32 (ct_detailedCancelReason_ r); tt_taskId : in_int32 (ct_continuousTaskId_ r);
  tt_suspendReason : in_int32 (ct_suspendReason_ r); tt_combined : in_int32 (ct_combinedNotificationTaskId_ r);
  tt_appIndex : in_int32 (ct_appIndex_ r);
  tt_modes : Forall (fun m => 0 <= m <= int32_max) (ct_bgModeIds_ r);
  tt_subModes : Forall (fun m => 0 <= m <= int32_max) (ct_bgSubModeIds_ r);
  tt_progress : forall p, ct_progressInfo_ r = Some p -> in_int32 (pg_progressValue_ p);
}.

(** The members that are stored; the want agent, the application's name, the tokens, the
    reason and the audio detection are as in a new record. *)
Definition stored_part (r : ContinuousTaskRecord) : ContinuousTaskRecord :=
  ct_set_audioDetectState_ true $ ct_set_suspendAudioTaskTimes_ 0 $ ct_set_reason_ 0 $
  ct_set_callingTokenId_ 0 $ ct_set_fullTokenId_ 0 $ ct_set_appName_ "" $ ct_set_wantAgent_ None r.

Lemma reread_typed r : task_typed r -> reread r = stored_part r.
Proof.
  intros []. unfold reread. rewrite !int32_id, uint32_id, !ToVector_ToString by done.
  assert (reread_progress <$> ct_progressInfo_ r = ct_progressInfo_ r) as ->.
  { destruct (ct_progressInfo_ r) as [p|]; [|done]. cbn. unfold reread_progress.
    rewrite int32_id by auto. by destruct p. }
  by destruct r.
Qed.

(** ** The maps *)

(** A loop over stored entries that each end up, changed by [g], in the map. *)
Lemma fold_restore {A B C} (step : gmap string C -> string * B -> gmap string C) (f : A -> B) (g : A -> C)
    (fits : gmap string C -> A -> Prop) (l : list (string * A)) m0 :
  NoDup l.*1 -> (forall k, k ∈ l.*1 -> m0 !! k = None) ->
  (forall m k x, m !! k = None -> fits m x -> step m (k, f x) = <[k := g x]> m) ->
  (forall l1 k x l2, l = l1 ++ (k, x) :: l2 -> fits (list_to_map (prod_map id g <$> reverse l1) ∪ m0) x) ->
  fold_left step (prod_map id f <$> l) m0 = list_to_map (prod_map id g <$> reverse l) ∪ m0.
Proof.
  intros Hn H0 Hs Hf. induction l as [|[k x] l IH] using rev_ind;
    [change (m0 = ∅ ∪ m0); by rewrite (left_id_L ∅ (∪))|].
  rewrite fmap_app, fold_left_app. rewrite fmap_app in Hn. apply NoDup_app in Hn as (Hn & Hx & _).
  rewrite IH; [|done| |]; clear IH.
  - cbn [fmap list_fmap fold_left prod_map fst snd]. rewrite Hs.
    + rewrite reverse_app. cbn [reverse rev_append app fmap list_fmap prod_map fst snd list_to_map foldr id].
      by rewrite insert_union_l.
    + apply lookup_union_None. split; [|apply H0; rewrite fmap_app; apply elem_of_app; right; left].
      apply not_elem_of_list_to_map_1. intros Hk. apply (Hx k); [|left].
      apply list_elem_of_fmap in Hk as ([k1 z] & E1 & Hk). apply list_elem_of_fmap in Hk as ([k2 y] & E2 & Hk).
      cbn in E1, E2. simplify_eq. apply list_elem_of_fmap. exists (k2, y). split; [done|]. by apply elem_of_reverse.
    + apply (Hf l k x []). done.
  - intros k' Hk. apply H0. rewrite fmap_app. apply elem_of_app. by left.
  - intros l1 k' y l2 ->. apply (Hf l1 k' y (l2 ++ [(k, x)])). by rewrite <- app_assoc.
Qed.

Lemma by_name_fmap {A B} (f : A -> B) (m : gmap string A) :
  exists l, l ≡ₚ map_to_list m /\ by_name (f <$> m) = prod_map id f <$> l.
Proof.
  assert (by_name (f <$> m) ≡ₚ prod_map id f <$> map_to_list m) as Hp
    by (unfold by_name; by rewrite merge_sort_Permutation, map_to_list_fmap).
  apply Permutation_map_inv in Hp as (l & Hl & Hp). exists l. split; [by symmetry|done].
Qed.

Lemma list_to_map_fmap_entries {A B} (g : A -> B) (l : list (string * A)) m :
  NoDup l.*1 -> l ≡ₚ map_to_list m -> (list_to_map (prod_map id g <$> reverse l) : gmap string B) = g <$> m.
Proof.
  intros Hn Hl. rewrite <- (list_to_map_to_list m), <- list_to_map_fmap. symmetry. apply list_to_map_proper.
  - rewrite <- list_fmap_compose.
    change (NoDup ((fst : string * A -> string) <$> map_to_list m)). apply NoDup_fst_map_to_list.
  - f_equiv. rewrite <- Hl. symmetry. apply reverse_Permutation.
Qed.

Lemma restore_tasks m : ds_RestoreTaskRecord (Some (ds_RefreshTaskRecord m)) ∅ = Some (reread <$> m).
Proof.
  unfold ds_RestoreTaskRecord, ds_RefreshTaskRecord. case_bool_decide as Hm.
  - rewrite view_mk. by rewrite Hm, fmap_empty.
  - rewrite view_mk. f_equal. destruct (by_name_fmap ct_ParseToJson m) as (l & Hl & ->).
    assert (NoDup l.*1) as Hn by (rewrite Hl; apply NoDup_fst_map_to_list).
    rewrite (fold_restore _ ct_ParseToJson reread (fun _ _ => True)).
    + rewrite (list_to_map_fmap_entries reread l m) by done. by rewrite (right_id_L ∅ (∪)).
    + done.
    + intros. apply lookup_empty.
    + intros m' k r Hk _. cbn [fst snd]. by rewrite ct_reread, Hk.
    + done.
Qed.

(** Authorisations of different applications. *)
Definition one_each (m : gmap string BannerNotificationRecord) : Prop :=
  forall k k' b b', m !! k = Some b -> m !! k' = Some b' -> same_application b b' = true -> k = k'.

Lemma restore_auth m : map_Forall (fun _ b => banner_typed b) m -> one_each m ->
  ds_RestoreAuthRecord (Some (ds_RefreshAuthRecord m)) ∅ = m.
Proof.
  intros Ht Ho. unfold ds_RestoreAuthRecord, ds_RefreshAuthRecord, is_null, is_object, members.
  case_bool_decide as Hm; rewrite view_mk; [by subst|]. cbn [negb orb].
  destruct (by_name_fmap bn_ParseToJson m) as (l & Hl & ->).
  assert (NoDup l.*1) as Hn by (rewrite Hl; apply NoDup_fst_map_to_list).
  rewrite (fold_restore _ bn_ParseToJson id
    (fun m' b => banner_typed b /\ existsb (fun o => same_application o.2 b) (map_to_list m') = false)).
  - rewrite (list_to_map_fmap_entries id l m) by done. by rewrite map_fmap_id, (right_id_L ∅ (∪)).
  - done.
  - intros. apply lookup_empty.
  - intros m' k b Hk [Hb He]. cbn [fst snd]. by rewrite bn_round_trip, He, Hk.
  - intros l1 k b l2 E. rewrite (right_id_L ∅ (∪)).
    assert (forall k' b', (k', b') ∈ l -> m !! k' = Some b') as Hin
      by (intros k' b' Hk; rewrite Hl in Hk; by apply elem_of_map_to_list in Hk).
    assert (m !! k = Some b) as Hkb by (apply Hin; rewrite E; set_solver).
    assert (forall k' b', (k', b') ∈ l1 -> m !! k' = Some b') as Hin1
      by (intros k' b' Hk; apply Hin; rewrite E; apply elem_of_app; by left).
    rewrite E, fmap_app in Hn. apply NoDup_app in Hn as (_ & Hx & _). clear E Hin.
    split; [by apply (Ht k)|]. apply not_true_iff_false. intros Hex.
    apply existsb_exists in Hex as ([k' b'] & Hk' & Hs). apply list_elem_of_In, elem_of_map_to_list in Hk'.
    apply elem_of_list_to_map_2 in Hk'. apply list_elem_of_fmap in Hk' as ([k1 b1] & E1 & H1).
    cbn in E1. simplify_eq. rewrite elem_of_reverse in H1.
    assert (k1 = k) as -> by (eapply (Ho k1 k b1 b); [by apply Hin1|done|done]).
    apply (Hx k); [apply list_elem_of_fmap; by exists (k, b1)|left].
Qed.
End Literal.
