(* ===== verification/ContinuousWellFormed.v ===== *)
(** * Continuous task manager: well-formed tasks

    What holds of the map of tasks in every state the service reaches, restarts
    included. *)

From S2P Require Import Prelude.
From S2P Require Import Errors.
From S2P Require Import Interfaces.
From S2P Require Import BackgroundModes.
From S2P Require Import Json.
From S2P Require Import ContinuousTaskRecord.
From S2P Require Import ContinuousStorageProps.
From S2P Require Import ContinuousTypes.
From S2P Require Import NotificationTools.
From S2P Require Import ContinuousTaskMgr.
From S2P Require Import ContinuousTaskStart.
From S2P Require Import ContinuousTaskStop.
From S2P Require Import ContinuousAuth.
From S2P Require Import ContinuousQueries.
From S2P Require Import ContinuousRestart.
From S2P Require Import ContinuousSystem.
From S2P Require Import ContinuousTaskMgrSpec.
From S2P Require Import ContinuousInvariant.
Import BackgroundMode.
Local Open Scope Z_scope.

(** The part of the identity of a task that is looked at here. *)
Definition similar (r r' : ContinuousTaskRecord) : Prop :=
  task_key r = task_key r' /\ ct_uid_ r = ct_uid_ r' /\ ct_abilityId_ r = ct_abilityId_ r' /\
  ct_continuousTaskId_ r = ct_continuousTaskId_ r' /\ ct_isByRequestObject_ r = ct_isByRequestObject_ r'.
#[export] Instance similar_equiv : Equivalence similar.
Proof. split; unfold similar; red; intuition congruence. Qed.
Lemma same_task_similar r r' : same_task r r' -> similar r r'.
Proof. intros (? & ? & _ & _ & _ & _ & ? & ? & ? & _). done. Qed.
#[local] Hint Resolve same_task_similar : core.

(** ** Well-formed tasks *)
Definition entry_ok (index : Z) (key : string) (r : ContinuousTaskRecord) : Prop :=
  key = task_key r /\ in_int32 (ct_uid_ r) /\ in_int32 (ct_abilityId_ r) /\ 0 < ct_continuousTaskId_ r <= index.

Definition ids_unique (m : gmap string ContinuousTaskRecord) : Prop :=
  forall key key' r r', m !! key = Some r -> m !! key' = Some r' ->
    ct_continuousTaskId_ r = ct_continuousTaskId_ r' -> key = key'.
Definition roomy (m : gmap string ContinuousTaskRecord) : Prop :=
  forall abilityId, Z.of_nat (size (ability_tasks abilityId m)) <= ABILITY_TASK_MAX_NUM.

(** What holds whatever the restarts were told. *)
Record filed (m : gmap string ContinuousTaskRecord) (index : Z) : Prop := {
  fd_index : 0 <= index <= int32_max;
  fd_entry : map_Forall (entry_ok int32_max) m;
  fd_room : roomy m;
}.

Record well_formed (m : gmap string ContinuousTaskRecord) (index : Z) : Prop := {
  wf_index : 0 <= index <= int32_max;
  wf_entry : map_Forall (entry_ok index) m;
  wf_ids : ids_unique m;
  wf_room : roomy m;
}.

(** Each entry of [m'] is one of [m]'s, as far as its identity goes. *)
Definition alike (m m' : gmap string ContinuousTaskRecord) : Prop :=
  forall key r', m' !! key = Some r' -> exists r, m !! key = Some r /\ similar r r'.

Lemma entry_ok_same index index' key r r' : index <= index' -> similar r r' -> entry_ok index key r -> entry_ok index' key r'.
Proof.
  intros Hx (E1 & E2 & E3 & E4 & _). unfold entry_ok. rewrite <- E1, <- E2, <- E3, <- E4.
  intros (? & ? & ? & ?). split; [done|]. split; [done|]. split; [done|]. lia.
Qed.
Lemma similar_id r r' : similar r r' -> ct_continuousTaskId_ r = ct_continuousTaskId_ r'.
Proof. by intros (_ & _ & _ & ? & _). Qed.
Lemma similar_by_ability r r' : similar r r' ->
  ct_abilityId_ r = ct_abilityId_ r' /\ ct_isByRequestObject_ r = ct_isByRequestObject_ r'.
Proof. by intros (_ & _ & ? & _ & ?). Qed.

Lemma ability_tasks_dom abilityId m key :
  key ∈ dom (ability_tasks abilityId m) <->
  exists r, m !! key = Some r /\ ct_abilityId_ r = abilityId /\ ct_isByRequestObject_ r = true.
Proof.
  unfold ability_tasks. rewrite elem_of_dom. split.
  - intros [r Hr]. apply map_lookup_filter_Some in Hr as [Hr []]. by exists r.
  - intros (r & Hr & Ha). exists r. by apply map_lookup_filter_Some.
Qed.
Lemma ability_tasks_size abilityId m m' (new : gset string) :
  dom (ability_tasks abilityId m') ⊆ dom (ability_tasks abilityId m) ∪ new ->
  Z.of_nat (size (ability_tasks abilityId m')) <= Z.of_nat (size (ability_tasks abilityId m)) + Z.of_nat (size new).
Proof.
  intros Hs. rewrite <- !(size_dom (D := gset string)). apply subseteq_size in Hs. rewrite size_union_alt in Hs.
  assert (size (new ∖ dom (ability_tasks abilityId m)) <= size new)%nat by (apply subseteq_size; set_solver).
  lia.
Qed.

Lemma empty_well_formed index : 0 <= index <= int32_max -> well_formed ∅ index.
Proof.
  intros Hi. split; [done|by intros ? ? ?|intros ? ? ? ? H; by rewrite lookup_empty in H|].
  intros a. unfold ability_tasks. by rewrite map_filter_empty, map_size_empty.
Qed.

Lemma alike_roomy m m' : roomy m -> alike m m' -> roomy m'.
Proof.
  intros Hr Ha a. specialize (Hr a). pose proof (ability_tasks_size a m m' ∅) as Hz. rewrite size_empty in Hz.
  enough (dom (ability_tasks a m') ⊆ dom (ability_tasks a m)) by (specialize (Hz ltac:(set_solver)); lia).
  intros key. rewrite !ability_tasks_dom. intros (r' & Hk & Hab & Hb).
  destruct (Ha _ _ Hk) as (r & Hm & Hs). exists r.
  by destruct (similar_by_ability _ _ Hs) as [-> ->].
Qed.
Lemma alike_entries index index' m m' :
  index <= index' -> map_Forall (entry_ok index) m -> alike m m' -> map_Forall (entry_ok index') m'.
Proof.
  intros Hi He Ha key r' Hk. destruct (Ha key r' Hk) as (r & Hm & Hs). apply (entry_ok_same index _ _ r); [done..|by apply He].
Qed.
Lemma alike_well_formed m m' index index' :
  well_formed m index -> alike m m' -> index <= index' <= int32_max -> well_formed m' index'.
Proof.
  intros [Hi He Hu Hr] Ha Hj. split; [lia|eapply alike_entries; [|done..]; lia| |by eapply alike_roomy].
  intros key key' r r' Hk Hk' Eid. destruct (Ha _ _ Hk) as (q & Hm & Hs), (Ha _ _ Hk') as (q' & Hm' & Hs').
  apply (Hu key key' q q' Hm Hm'). by rewrite (similar_id _ _ Hs), (similar_id _ _ Hs').
Qed.
Lemma alike_filed m m' index index' : filed m index -> alike m m' -> 0 <= index' <= int32_max -> filed m' index'.
Proof. intros [_ He Hr] Ha Hj. split; [done|eapply alike_entries; [|done..]; lia|by eapply alike_roomy]. Qed.

(** ** One new task *)

(** The map is the one of [s], as far as its identities go, but perhaps for [new]. *)
Definition alike_but (s : ContinuousMgr) (new : ContinuousTaskRecord) (m' : gmap string ContinuousTaskRecord) : Prop :=
  forall key r', m' !! key = Some r' -> (exists r, tasks s !! key = Some r /\ similar r r') \/
     (has_room s new /\ key = task_key new /\ similar new r').

Lemma new_roomy s new m' : roomy (tasks s) -> alike_but s new m' -> roomy m'.
Proof.
  intros Hr Hm a. specialize (Hr a). unfold alike_but, has_room in Hm.
  destruct (decide (ct_abilityId_ new = a /\ ct_isByRequestObject_ new = true /\
    Z.of_nat (size (ability_tasks a (tasks s))) < ABILITY_TASK_MAX_NUM)) as [(Ha & Hb & Hlt)|Hno].
  - pose proof (ability_tasks_size a (tasks s) m' {[task_key new]}) as Hz. rewrite size_singleton in Hz.
    enough (dom (ability_tasks a m') ⊆ dom (ability_tasks a (tasks s)) ∪ {[task_key new]})
      by (specialize (Hz ltac:(done)); lia).
    intros key. rewrite elem_of_union, !ability_tasks_dom, elem_of_singleton. intros (r' & Hk & Hab & Hb').
    destruct (Hm _ _ Hk) as [(q & H0 & Hs)|(_ & -> & _)]; [left|by right].
    exists q. by destruct (similar_by_ability _ _ Hs) as [-> ->].
  - pose proof (ability_tasks_size a (tasks s) m' ∅) as Hz. rewrite size_empty in Hz.
    enough (dom (ability_tasks a m') ⊆ dom (ability_tasks a (tasks s))) by (specialize (Hz ltac:(set_solver)); lia).
    intros key. rewrite !ability_tasks_dom. intros (r' & Hk & Hab & Hb').
    destruct (Hm _ _ Hk) as [(q & H0 & Hs)|(Hroom & _ & Hs)].
    + exists q. by destruct (similar_by_ability _ _ Hs) as [-> ->].
    + destruct Hno. destruct (similar_by_ability _ _ Hs) as [E1 E2]. rewrite <- E1 in Hab.
      rewrite <- E2 in Hb'. rewrite <- Hab. repeat split; auto.
Qed.

(** With [bound] the greatest id before, and the new id within [bound']. *)
Lemma new_entries s new m' bound bound' : map_Forall (entry_ok bound) (tasks s) -> alike_but s new m' ->
  in_int32 (ct_uid_ new) -> in_int32 (ct_abilityId_ new) -> 0 < ct_continuousTaskId_ new <= bound' -> bound <= bound' ->
  map_Forall (entry_ok bound') m'.
Proof.
  intros He Hm Nu Na Nid Hb key r' Hk. destruct (Hm key r' Hk) as [(r & H0 & Hs)|(_ & -> & Hs)].
  - apply (entry_ok_same bound _ _ r); [done..|by apply He].
  - apply (entry_ok_same bound' _ _ new); [lia|done|]. by repeat split; lia || apply Nu || apply Na.
Qed.

Lemma new_ids_unique s new m' : map_Forall (entry_ok (cm_continuousTaskIdIndex_ s)) (tasks s) -> ids_unique (tasks s) ->
  ct_continuousTaskId_ new = cm_continuousTaskIdIndex_ s + 1 -> alike_but s new m' -> ids_unique m'.
Proof.
  intros He Hu Nid Hm key key' r r' Hk Hk' E.
  destruct (Hm _ _ Hk) as [(q & H0 & Hs)|(_ & -> & Hs)], (Hm _ _ Hk') as [(q' & H0' & Hs')|(_ & -> & Hs')];
    rewrite <- (similar_id _ _ Hs), <- (similar_id _ _ Hs') in E; [by apply (Hu key key' q q')| | |done].
  - destruct (He _ _ H0) as (_ & _ & _ & ?). lia.
  - destruct (He _ _ H0') as (_ & _ & _ & ?). lia.
Qed.

(** ** Operations *)
Lemma alike_refl m : alike m m.
Proof. intros key r Hr. by exists r. Qed.

Lemma one_start_alike U s s' :
  one_start False U s s' -> map_Forall (fun key r => key = task_key r) (tasks s) ->
  (alike (tasks s) (tasks s') /\ cm_continuousTaskIdIndex_ s' = cm_continuousTaskIdIndex_ s) \/
  (exists new, may_be_new s new /\ alike_but s new (tasks s') /\
     cm_continuousTaskIdIndex_ s' = int32 (cm_continuousTaskIdIndex_ s + 1)).
Proof.
  intros Ho He. set (old := fun key r' => exists r, tasks s !! key = Some r /\ similar r r').
  assert (forall key r r', same_task r r' -> old key r -> old key r') as Hold
    by (intros key r r' Hr (q & Hq & Hs); exists q; split; [done|]; etrans; eauto).
  assert (forall key r, old key r -> key = task_key r) as Hkey
    by (intros key r (q & Hq & Hs); rewrite (He _ _ Hq); by apply Hs).
  destruct Ho as [Hk|(new & _ & Hn & Hk)]; [left|right].
  - destruct (Hk old (cm_continuousTaskIdIndex_ s) ∅) as (Ho & Ex & _); [done..| |done].
    split; [by intros key r Hr; exists r|]. split; [done|]. by intros [].
  - exists new. split; [done|].
    set (ok := fun key r' => old key r' \/ (has_room s new /\ key = task_key new /\ similar new r')).
    destruct (Hk ok ∅) as (Ho & Ex & _); [| | | |done].
    + intros key r r' Hr [Hq|(Hq & Hq' & Hs)]; [left; by eapply Hold|right]. split; [done|]. split; [done|]. etrans; eauto.
    + intros key r [Hq|(_ & -> & Hs)]; [by apply Hkey|apply Hs].
    + intros Hr r Hs. right. auto.
    + split; [intros key r Hr; left; by exists r|]. split; [done|]. by intros [].
Qed.
Lemma entries_keyed bound (m : gmap string ContinuousTaskRecord) : map_Forall (entry_ok bound) m -> map_Forall (fun key r => key = task_key r) m.
Proof. intros He key r Hk. by destruct (He _ _ Hk). Qed.

Lemma one_start_filed U s s' :
  one_start False U s s' -> filed (tasks s) (cm_continuousTaskIdIndex_ s) ->
  cm_continuousTaskIdIndex_ s < int32_max -> filed (tasks s') (cm_continuousTaskIdIndex_ s').
Proof.
  intros Ho Hw Hx. pose proof Hw as [Hi He Hr].
  destruct (one_start_alike _ _ _ Ho (entries_keyed _ _ He)) as [[Ha Ei]|(new & (Nu & Na & Nid) & Hm & Ei)].
  - by eapply alike_filed; [..|rewrite Ei].
  - rewrite Ei, int32_id in * by in_range. split; [lia| |by eapply new_roomy].
    eapply new_entries; [done..| |done]. lia.
Qed.
Lemma one_start_well_formed U s s' :
  one_start False U s s' -> well_formed (tasks s) (cm_continuousTaskIdIndex_ s) ->
  cm_continuousTaskIdIndex_ s < int32_max -> well_formed (tasks s') (cm_continuousTaskIdIndex_ s').
Proof.
  intros Ho Hw Hx. pose proof Hw as [Hi He Hu Hr].
  destruct (one_start_alike _ _ _ Ho (entries_keyed _ _ He)) as [[Ha Ei]|(new & (Nu & Na & Nid) & Hm & Ei)].
  - eapply alike_well_formed; [done..|rewrite Ei; lia].
  - rewrite Ei, int32_id in * by in_range. split; [lia| |by eapply new_ids_unique|by eapply new_roomy].
    eapply new_entries; [done..| |]; lia.
Qed.

(** ** Restart *)
Section Restart.
Context `{ContinuousPlatform}.

Lemma max_id_acc (id : ContinuousTaskRecord -> Z) l m0 :
  let m := fold_left (fun m r => if m <? id r then id r else m) l m0 in
  m0 <= m /\ Forall (fun r => id r <= m) l /\ (m = m0 \/ exists r, r ∈ l /\ m = id r).
Proof.
  revert m0. induction l as [|r l IH]; intros m0; cbn; [auto using Z.le_refl|].
  destruct (IH (if m0 <? id r then id r else m0)) as (Hm & Hl & Hx).
  destruct (Z.ltb_spec m0 (id r)) as [Hlt|Hle].
  - split; [lia|]. split; [by constructor|]. right. destruct Hx as [->|(q & Hq & ->)];
      [exists r; by split; [apply list_elem_of_here|]|].
    exists q. split; [by right|done].
  - split; [lia|]. split; [constructor; [lia|done]|]. destruct Hx as [->|(q & Hq & ->)]; [by left|right].
    exists q. split; [by right|done].
Qed.
Lemma max_id_spec (id : ContinuousTaskRecord -> Z) l :
  Forall (fun r => id r <= max_id id l) l /\ (max_id id l = -1 \/ exists r, r ∈ l /\ max_id id l = id r).
Proof. destruct (max_id_acc id l (-1)) as (_ & Hl & Hx). auto. Qed.

Section Keeps.
Context (ok : string -> ContinuousTaskRecord -> Prop) (index : Z) (tracked : Prop) (v0 : gset string).
Hypothesis ok_same : forall key r r', same_task r r' -> ok key r -> ok key r'.
Hypothesis ok_key : forall key r, ok key r -> key = task_key r.
Hypothesis not_tracked : ~ tracked.

Lemma untracked_erase key : keeps ok index tracked v0 (erase_task key).
Proof.
  intros e s (Ho & Hx & _). split; [|by split].
  intros k r Hk. cbn in Hk. apply lookup_delete_Some in Hk as [_ Hk]. by apply Ho.
Qed.

Lemma keeps_check_persisted processes :
  keeps ok index tracked v0 (for_tasks (check_persisted processes)).
Proof.
  apply keeps_for_tasks; intros key r; unfold check_persisted; case_test.
  - case_test; [by apply at_quiet|]. apply triple_quiet; [quiet|]. intros _.
    eapply (at_gives ok index tracked v0); [apply gives_weaken, gives_HandleActiveNotification|].
    intros r'. cbn [id]. by apply at_put_tail.
  - apply at_inv. apply keeps_bind; [apply untracked_erase|]. intros _. apply quiet_keeps. quiet.
  - confined.
  - confined.
Qed.
End Keeps.

Lemma alike_trans m1 m2 m3 : alike m1 m2 -> alike m2 m3 -> alike m1 m3.
Proof.
  intros H1 H2 key r3 Hk. destruct (H2 _ _ Hk) as (r2 & Hk2 & Hs2). destruct (H1 _ _ Hk2) as (r1 & Hk1 & Hs1).
  exists r1. split; [done|]. etrans; eauto.
Qed.

Lemma reread_alike m index : map_Forall (entry_ok index) m -> index <= int32_max -> alike m (reread <$> m).
Proof.
  intros He Hi key r' Hk. rewrite lookup_fmap in Hk. destruct (m !! key) as [r|] eqn:E; [|done].
  injection Hk as <-. exists r. split; [done|]. destruct (He _ _ E) as (_ & Hu & Ha & Hid).
  unfold similar, task_key, reread. cbn -[context_key]. by rewrite !int32_id by in_range.
Qed.

(** The index of ids after a start from [m], which bounds the ids of its tasks. *)
Definition first_index (m : gmap string ContinuousTaskRecord) : Z :=
  let top := max_id ct_continuousTaskId_ (records m) in if negb (top =? -1) then top else 0.

Lemma first_index_spec m bound : map_Forall (entry_ok bound) m -> 0 <= bound ->
  map_Forall (entry_ok (first_index m)) m /\ 0 <= first_index m <= bound.
Proof.
  intros He Hb. unfold first_index. destruct (max_id_spec ct_continuousTaskId_ (records m)) as [Hmax Hin].
  set (top := max_id ct_continuousTaskId_ (records m)) in *.
  assert (forall key r, m !! key = Some r -> ct_continuousTaskId_ r <= top) as Hle.
  { intros key r Hk. rewrite Forall_forall in Hmax. apply Hmax. unfold records.
    apply list_elem_of_fmap. exists (key, r). by split; [|apply elem_of_map_to_list]. }
  split.
  - intros key r Hk. specialize (Hle _ _ Hk). destruct (He _ _ Hk) as (? & ? & ? & ?).
    do 3 (split; [done|]). case_test; lia.
  - destruct Hin as [->|(r & Hr' & ->)]; [done|]. unfold records in Hr'.
    apply list_elem_of_fmap in Hr' as ([key r'] & -> & Hk%elem_of_map_to_list).
    destruct (He _ _ Hk) as (_ & _ & _ & Hid). cbn [snd] in *. case_test; lia.
Qed.
Lemma first_index_filed m index : filed m index -> filed m (first_index m).
Proof. intros [_ He Hr]. split; [by apply (first_index_spec m int32_max)|done..]. Qed.
Lemma first_index_well_formed m index : well_formed m index -> well_formed m (first_index m).
Proof.
  intros [Hi He Hu Hr]. destruct (first_index_spec m index He) as [He' Hf]; [lia|]. split; [lia|done..].
Qed.

Lemma quiet_InitNotificationText : Quiet InitNotificationText.
Proof. unfold InitNotificationText. quiet. Qed.
Lemma quiet_RestoreApplyRecord : Quiet RestoreApplyRecord.
Proof. unfold RestoreApplyRecord. quiet. Qed.

Lemma CheckPersistenceData_alike processes e s :
  map_Forall (fun key r => key = task_key r) (tasks s) -> cm_continuousTaskIdIndex_ s = 0 ->
  let s' := (CheckPersistenceData processes e s).2 in
  alike (tasks s) (tasks s') /\ cm_continuousTaskIdIndex_ s' = first_index (tasks s).
Proof.
  intros Hw H0. cbv zeta. unfold CheckPersistenceData. rewrite bind_get, bind_run.
  set (old := fun key r' => exists r, tasks s !! key = Some r /\ similar r r').
  destruct (keeps_check_persisted old 0 False ∅) with (processes := processes) (e := e) (s := s) as (Ho & Hx & _).
  - intros key r r' Hr (q & Hq & Hs). exists q. split; [done|]. etrans; eauto.
  - by intros [].
  - split; [by intros key r Hr; exists r|]. split; [done|]. by intros [].
  - set (s1 := (for_tasks _ e s).2) in *. cbn [core co_tasks co_index] in Ho, Hx. clearbody s1.
    rewrite bind_run. set (s2 := (if negb (_ =? -1) then SetNotificationIdIndex _ else ret tt) e s1).
    assert (core s2.2 = core s1) as E2 by (unfold s2; case_test; done).
    assert (alike (tasks s) (tasks s1)) as Ha by exact Ho.
    destruct s2 as [[] s2]. cbn [snd] in *.
    assert (tasks s2 = tasks s1) as Et by (by apply tasks_core).
    assert (cm_continuousTaskIdIndex_ s2 = cm_continuousTaskIdIndex_ s1) as Ei by (by injection E2).
    unfold first_index. case_test; cbn; rewrite ?Ei, ?Hx;
      change (cm_continuousTaskInfosMap_ s2) with (tasks s2); by rewrite Et.
Qed.

Context `{Json J}.

(** A start from [m]: its tasks, and the index of ids; where the processes could not be
    asked for the index is not set. *)
Definition started_from (m : gmap string ContinuousTaskRecord) (e : ContEnv) (s : ContinuousMgr) : Prop :=
  alike m (tasks s) /\
  (cm_continuousTaskIdIndex_ s = first_index m \/
   cm_continuousTaskIdIndex_ s = 0 /\ (ce_GetAllRunningProcesses e = None \/ tasks s = ∅)).

Lemma HandlePersistenceData_starts (taskFile authFile : option J) e s m :
  ds_RestoreTaskRecord taskFile (tasks s) = Some m -> map_Forall (fun key r => key = task_key r) m ->
  cm_continuousTaskIdIndex_ s = 0 -> started_from m e (HandlePersistenceData taskFile authFile e s).2.
Proof.
  intros Hm Hw Hz. unfold HandlePersistenceData, started_from. rewrite bind_get, Hm, bind_modify, bind_ask.
  destruct (ce_GetAllRunningProcesses e) as [processes|].
  2: { cbn. split; [by apply alike_refl|]. right. rewrite Hz. auto. }
  rewrite bind_run. set (s1 := cm_set_continuousTaskInfosMap_ m s).
  destruct (CheckPersistenceData_alike processes e s1 Hw Hz) as [Ha Hx].
  destruct (CheckPersistenceData processes e s1) as [[] s2]. cbn [snd] in *.
  match goal with |- context [bind ?x ?k e s2] => set (rest := bind x k) end.
  assert (Quiet rest) as Hq by (unfold rest; quiet; apply quiet_RestoreApplyRecord).
  specialize (Hq e s2). rewrite (tasks_core _ _ Hq). injection Hq as _ -> _. rewrite Hx. by split; [|left].
Qed.

Lemma Init_starts ownUid services listeners (taskFile authFile : option J) e m :
  ds_RestoreTaskRecord taskFile ∅ = Some m -> map_Forall (fun key r => key = task_key r) m ->
  started_from m e (Init ownUid services listeners taskFile authFile e new_ContinuousMgr).2.
Proof.
  intros Hm Hw. unfold Init. rewrite bind_modify. set (s0 := cm_set_bgTaskUid_ ownUid new_ContinuousMgr).
  assert (started_from m e s0) as Hempty by (split; [done|right; auto]).
  unfold InitNecessaryState. case_test; [done|]. case_test; [done|].
  unfold InitRequiredResourceInfo. rewrite bind_run.
  assert (core (InitNotificationText e s0).2 = core s0) as E1 by apply quiet_InitNotificationText.
  set (s1 := (InitNotificationText e s0).2) in *. clearbody s1. rewrite bind_run.
  assert (core (GetNotificationPrompt e s1).2 = core s1) as E2 by apply quiet_GetNotificationPrompt.
  set (s2 := (GetNotificationPrompt e s1).2) in *. clearbody s2. rewrite E1 in E2. rewrite bind_run.
  assert (tasks s2 = ∅) as Et by (by rewrite (tasks_core _ _ E2)).
  assert (cm_continuousTaskIdIndex_ s2 = 0) as Ei by (by injection E2).
  pose proof (HandlePersistenceData_starts taskFile authFile e s2 m) as Hh. rewrite Et in Hh.
  specialize (Hh Hm Hw Ei). by destruct (HandlePersistenceData taskFile authFile e s2) as [[[]|] s3].
Qed.

Lemma quiet_OnRestore copied (backup : option J) : Quiet (OnRestore copied backup).
Proof. unfold OnRestore. quiet. Qed.

(** A step and a backup have the invariant if one start and what is quiet do. *)
Lemma reach_invariant asks (I : gmap string ContinuousTaskRecord -> Z -> Prop) :
  I ∅ 0 ->
  (forall s s', one_start False (fun _ => True) s s' -> I (tasks s) (cm_continuousTaskIdIndex_ s) ->
     cm_continuousTaskIdIndex_ s < int32_max -> I (tasks s') (cm_continuousTaskIdIndex_ s')) ->
  (forall s e s', asks e -> I (tasks s) (cm_continuousTaskIdIndex_ s) ->
     (map_Forall (fun key r => key = task_key r) (reread <$> tasks s) -> started_from (reread <$> tasks s) e s') ->
     I (tasks s') (cm_continuousTaskIdIndex_ s')) ->
  forall s, reach asks s -> I (tasks s) (cm_continuousTaskIdIndex_ s).
Proof.
  intros Hnew Hone Hst s.
  induction 1 as [e ownUid services listeners|s op e _ IH Ha|s e copied backup _ IH|s e ownUid services listeners authFile _ IH Hp].
  - destruct (Init_starts ownUid services listeners None None e ∅) as [Ha Hi]; [done..|].
    assert (tasks (Init ownUid services listeners None None e new_ContinuousMgr).2 = ∅) as ->.
    { apply map_empty. intros key. apply eq_None_not_Some. intros [r Hk]. by destruct (Ha _ _ Hk) as (? & ? & _). }
    destruct Hi as [->|[-> _]]; exact Hnew.
  - eapply Hone; [|done|apply Ha]. by apply exec_one_start; [intros; intros ? ? ? []|..].
  - pose proof (quiet_OnRestore copied backup e s) as E. rewrite (tasks_core _ _ E).
    by replace (cm_continuousTaskIdIndex_ _) with (cm_continuousTaskIdIndex_ s) by (by injection E).
  - eapply Hst; [done..|]. apply Init_starts, restore_tasks.
Qed.

Lemma reach_filed asks s : reach asks s -> filed (tasks s) (cm_continuousTaskIdIndex_ s).
Proof.
  apply (reach_invariant asks filed).
  - destruct (empty_well_formed 0) as [Hi He _ Hr]; [done|]. by split.
  - apply one_start_filed.
  - clear s. intros s e s' _ [Hi He Hr] Hst. pose proof (reread_alike _ _ He ltac:(lia)) as Ha.
    assert (filed (reread <$> tasks s) 0) as Hf by (apply (alike_filed (tasks s) _ (cm_continuousTaskIdIndex_ s)); [by split|done..]).
    destruct Hst as [Ha' Hx]; [eapply entries_keyed, Hf|]. apply (alike_filed _ _ _ _ (first_index_filed _ _ Hf) Ha').
    destruct Hx as [->|[-> _]]; [|done]. apply (fd_index _ _ (first_index_filed _ _ Hf)).
Qed.

Lemma reachable_well_formed s : reachable s -> well_formed (tasks s) (cm_continuousTaskIdIndex_ s).
Proof.
  apply (reach_invariant _ well_formed).
  - by apply empty_well_formed.
  - apply one_start_well_formed.
  - clear s. intros s e s' Hp Hw Hst. pose proof (wf_index _ _ Hw). 
    pose proof (reread_alike _ _ (wf_entry _ _ Hw) ltac:(lia)) as Ha.
    assert (well_formed (reread <$> tasks s) (cm_continuousTaskIdIndex_ s)) as Hf by (eapply alike_well_formed; [done..|lia]).
    destruct Hst as [Ha' Hx]; [eapply entries_keyed, Hf|]. destruct Hx as [->|[-> [?| ->]]]; [|done|by apply empty_well_formed].
    apply first_index_well_formed in Hf. apply (alike_well_formed _ _ _ _ Hf Ha'). pose proof (wf_index _ _ Hf). lia.
Qed.
End Restart.
