(* ===== verification/ContinuousTaskMgrProps.v ===== *)
(** * Continuous task manager: its properties

    The map of tasks is well formed in every state the service reaches, restarts
    included; observers know which tasks run; only a start makes a task, and what a start
    that succeeds has made. *)

From S2P Require Import Prelude.
From S2P Require Import Errors.
From S2P Require Import Interfaces.
From S2P Require Import BackgroundModes.
From S2P Require Import Json.
From S2P Require Import ContinuousTaskRecord.
From S2P Require Import ContinuousStorageProps.
From S2P Require Import ContinuousTypes.
From S2P Require Import NotificationTools.
From S2P Require Import ContinuousTaskMgr.
From S2P Require Import ContinuousTaskStart.
From S2P Require Import ContinuousTaskStop.
From S2P Require Import ContinuousAuth.
From S2P Require Import ContinuousQueries.
From S2P Require Import ContinuousRestart.
From S2P Require Import ContinuousSystem.
From S2P Require Import ContinuousTaskMgrSpec.
From S2P Require Import ContinuousInvariant.
From S2P Require Import ContinuousWellFormed.
Import BackgroundMode.
Local Open Scope Z_scope.

Section Props.
Context `{ContinuousPlatform} `{Json J}.

(** C1. In every state the service reaches while ids of tasks are left, restarts from its
    files included, whatever these are told of the running processes: each task is at the
    key of its application, ability and, for a task asked for by request object, id; its
    numbers have their width; ids are positive; and no ability id has more than ten tasks of
    that kind.  Where each restart was told which processes run, also no two tasks share an
    id, and none has a greater one than the last that was given. *)
Theorem continuous_tasks_well_formed s :
  (reachable_any s -> filed (tasks s) (cm_continuousTaskIdIndex_ s)) /\
  (reachable s -> well_formed (tasks s) (cm_continuousTaskIdIndex_ s)).
Proof. split; [apply reach_filed|apply reachable_well_formed]. Qed.

Lemma exec_followed s op e v :
  reachable s -> admissible op e s ->
  (forall uid, suspends_audio op s = Some uid -> map_Forall (audio_told True uid) (tasks s)) ->
  running (tasks s) = followed v (cm_effects s) ->
  running (tasks (exec op e s).2) = followed v (cm_effects (exec op e s).2).
Proof.
  intros Hr Ha Hau Hv. pose proof (reachable_well_formed s Hr) as Hw.
  set (ok := fun key r => key = task_key r).
  assert (forall key r r', same_task r r' -> ok key r -> ok key r') as Hok by (intros key r r' Hs ->; apply Hs).
  assert (Inv ok (cm_continuousTaskIdIndex_ s) True v ∅ (core s)) as Hi.
  { split; [intros key r Hk; by destruct (wf_entry _ _ Hw _ _ Hk)|]. split; [done|]. intros _.
    cbn [core co_tasks co_told]. by rewrite difference_empty_L, followed_told. }
  destruct (exec_one_start True (fun _ => True) op e s Hau ltac:(done) Ha) as [Hk|(new & _ & _ & Hk)].
  - destruct (Hk ok _ v Hok ltac:(done) Hi) as (_ & _ & Hf). specialize (Hf I). cbn [core co_tasks co_told] in Hf.
    by rewrite difference_empty_L, followed_told in Hf.
  - destruct (Hk ok v Hok ltac:(done)) as (_ & _ & Hf); [by intros _ r Hs; apply Hs|done|].
    specialize (Hf I). cbn [core co_tasks co_told] in Hf. by rewrite difference_empty_L, followed_told in Hf.
Qed.

(** C2. Every operation tells observers of starts and stops what they need: if the keys an
    observer has gathered from the calls are those of the running tasks before it, they
    are so after it.  The proviso is about the closure that suspends the silent tasks of
    an application: its tasks are not marked as on standby. *)
Theorem observers_follow_running_tasks s op e v :
  reachable s -> admissible op e s ->
  (forall uid, suspends_audio op s = Some uid -> map_Forall (audio_told True uid) (tasks s)) ->
  running (tasks s) = followed v (cm_effects s) ->
  running (tasks (exec op e s).2) = followed v (cm_effects (exec op e s).2).
Proof. apply exec_followed. Qed.

Lemma tasks_started_for op e s key r' :
  reachable s -> admissible op e s ->
  tasks s !! key = None -> tasks (exec op e s).2 !! key = Some r' -> starts_for op e (ct_uid_ r').
Proof.
  intros Hr Ha Hn Hk. pose proof (reachable_well_formed s Hr) as Hw.
  set (ok := fun key r' => (exists r, tasks s !! key = Some r /\ same_task r r') \/
                           (key = task_key r' /\ starts_for op e (ct_uid_ r'))).
  assert (forall k r1 r2, same_task r1 r2 -> ok k r1 -> ok k r2) as Hok.
  { intros k r1 r2 Hs [(r & H1 & H2)|[-> H2]]; [left; exists r; split; [done|by etrans]|right].
    destruct Hs as (Hs & Hu & _). split; [done|]. congruence. }
  assert (forall k r, ok k r -> k = task_key r) as Hkey.
  { intros k r [(r1 & H1 & H2)|[-> _]]; [|done]. destruct (wf_entry _ _ Hw _ _ H1) as [-> _]. by apply H2. }
  assert (Inv ok (cm_continuousTaskIdIndex_ s) False ∅ ∅ (core s)) as Hi.
  { split; [intros k r H1; left; by exists r|]. split; [done|]. by intros []. }
  assert (ok key r' -> starts_for op e (ct_uid_ r')) as Hend by (intros [(r & H1 & _)|[_ H1]]; [congruence|done]).
  apply Hend. destruct (exec_one_start False (starts_for op e) op e s) as [Ho|(new & HU & _ & Ho)]; [by intros; intros ? ? ? []|done..| |].
  - by apply (Ho ok _ ∅ Hok Hkey Hi).
  - refine (proj1 (Ho ok ∅ Hok Hkey _ Hi) key r' Hk). intros _ r Hs. right. destruct Hs as (Hs & <- & _). done.
Qed.

(** A new task belongs to the caller who asked for it; or to who a service of the table of
    inner requests names, in the mode the table gives that service; or was made from the
    shell. *)
Theorem tasks_start_for_their_owner op e s key r' :
  reachable s -> admissible op e s ->
  tasks s !! key = None -> tasks (exec op e s).2 !! key = Some r' -> starts_for op e (ct_uid_ r').
Proof. apply tasks_started_for. Qed.

(** An operation other than the three that may start a task leaves no task that was not
    there, and changes neither the key nor the application, ability, process or id of
    one. *)
Theorem only_starts_make_tasks s op e key r' :
  reachable s -> may_start op = false -> tasks (exec op e s).2 !! key = Some r' ->
  exists r, tasks s !! key = Some r /\ same_task r r'.
Proof.
  intros Hr Hop Hk. pose proof (reachable_well_formed s Hr) as Hw.
  set (ok := fun key r' => exists r, tasks s !! key = Some r /\ same_task r r').
  destruct (exec_keeps ok (cm_continuousTaskIdIndex_ s) False ∅) with (op := op) (e := e) (s := s) as (Ho & _).
  - intros k r1 r2 Hs (r & H1 & H2). exists r. split; [done|by etrans].
  - intros k r1 (r & H1 & H2). destruct (wf_entry _ _ Hw _ _ H1) as [-> _]. by apply H2.
  - done.
  - by intros uid _ k r _ [].
  - split; [by intros k r H1; exists r|]. split; [done|]. by intros [].
  - by apply Ho.
Qed.

End Props.
