(* ===== verification/ContinuousStartProps.v ===== *)
(** * Continuous task manager: the outcome of a start

    Every way [StartBackgroundRunning] ends: a task that is new, or an error and none. *)

From S2P Require Import Prelude.
From S2P Require Import Errors.
From S2P Require Import Interfaces.
From S2P Require Import BackgroundModes.
From S2P Require Import Json.
From S2P Require Import ContinuousTaskRecord.
From S2P Require Import ContinuousStorageProps.
From S2P Require Import ContinuousTypes.
From S2P Require Import NotificationTools.
From S2P Require Import ContinuousTaskMgr.
From S2P Require Import ContinuousTaskStart.
From S2P Require Import ContinuousTaskStop.
From S2P Require Import ContinuousAuth.
From S2P Require Import ContinuousQueries.
From S2P Require Import ContinuousRestart.
From S2P Require Import ContinuousSystem.
From S2P Require Import ContinuousTaskMgrSpec.
From S2P Require Import ContinuousInvariant.
Import BackgroundMode.
Local Open Scope Z_scope.

(** An operation on a new record ends with the record at [key], its result being that of
    the storage; or with an error, and no key that was not there. *)
Definition outcome (record : ContinuousTaskRecord) (key : string) (m : CM (Z * ContinuousTaskRecord)) : Prop :=
  forall e s,
    let x := (m e s).1.1 in let r := (m e s).1.2 in let s' := (m e s).2 in
    (x = ce_SaveTaskRecord e /\ same_request record r /\ tasks s' !! key = Some r) \/
    (x <> ERR_OK /\ dom (tasks s') ⊆ dom (tasks s)).

(** No key that was not there. *)
Definition no_new_key {A} (m : CM A) : Prop := forall e s, dom (tasks (m e s).2) ⊆ dom (tasks s).

Lemma quiet_no_new_key {A} (m : CM A) : Quiet m -> no_new_key m.
Proof. intros Hm e s. by rewrite (tasks_core _ _ (Hm e s)). Qed.

Lemma not_ok x : negb (x =? ERR_OK) = true -> x <> ERR_OK.
Proof. intros Hx ->. by rewrite Z.eqb_refl in Hx. Qed.

Section Outcome.
Context `{ContinuousPlatform}.

Lemma outcome_error record key x r : (x <> ERR_OK) -> outcome record key (ret (x, r)).
Proof. intros Hx e s. by right. Qed.
Lemma outcome_bind {A} record key (m : CM A) k : no_new_key m -> (forall a, outcome record key (k a)) -> outcome record key (bind m k).
Proof.
  intros Hm Hk e s. rewrite bind_run. destruct (Hk (m e s).1 e (m e s).2) as [Ho|[Hx Hd]]; [by left|right].
  split; [done|]. etrans; [done|apply Hm].
Qed.
Lemma outcome_record {A} record key (rec : A -> ContinuousTaskRecord) (m : CM A) k :
  no_new_key m -> yields m (fun a => same_request record (rec a)) ->
  (forall a, outcome (rec a) key (k a)) -> outcome record key (bind m k).
Proof.
  intros Hm Hy Hk e s. rewrite bind_run. destruct (Hk (m e s).1 e (m e s).2) as [(Hx & Hs & Ht)|[Hx Hd]].
  - left. split; [done|]. split; [|done]. etrans; [apply Hy|done].
  - right. split; [done|]. etrans; [done|apply Hm].
Qed.

Lemma CheckCombined_yields record : yields (CheckCombinedTaskNotification record) (fun a => same_request record a.2).
Proof.
  unfold CheckCombinedTaskNotification. repeat (case_test; [by apply yields_ret|]).
  unfold DetermineMatchCombinedTaskNotifacation. apply yields_any. intros [[key other]|]; [|by apply yields_ret].
  repeat (case_test; [by apply yields_ret|]). apply yields_any. intros _. apply yields_ret. same.
Qed.
Lemma CheckCombined_no_new_key record : no_new_key (CheckCombinedTaskNotification record).
Proof.
  intros e s. unfold CheckCombinedTaskNotification. repeat (case_test; [done|]).
  unfold DetermineMatchCombinedTaskNotifacation. rewrite bind_run. cbn [find_task get fst snd].
  destruct (find_task_in _ (tasks s)) as [[key other]|] eqn:E; [|done].
  repeat (case_test; [done|]). cbn. rewrite dom_insert. change (cm_continuousTaskInfosMap_ s) with (tasks s).
  unfold find_task_in in E. destruct (list_find _ _) as [[i [k r]]|] eqn:Ef; [|done]. cbn in E. simplify_eq.
  apply list_find_Some in Ef as (Hl & _ & _). apply list_elem_of_lookup_2, elem_of_map_to_list in Hl.
  apply elem_of_dom_2 in Hl. set_solver.
Qed.

Lemma StartBackgroundRunningSubmit_outcome record key : outcome record key (StartBackgroundRunningSubmit record key).
Proof.
  unfold StartBackgroundRunningSubmit. apply outcome_bind.
  { apply quiet_no_new_key. case_test; quiet. }
  intros result. case_test; [apply outcome_error; apply andb_true_iff in Hc as [_ Hc]; by apply not_ok|].
  apply (outcome_record _ _ snd); [apply CheckCombined_no_new_key|apply CheckCombined_yields|].
  intros [[x send] r]. cbn [snd]. case_test; [by apply outcome_error, not_ok|].
  apply (outcome_record _ _ snd).
  - apply quiet_no_new_key. quiet.
  - match goal with |- yields ?m _ => enough (gives_whole snd r m) as [_ Hy] by exact Hy end. gives.
  - intros [y r']. cbn [snd]. case_test; [by apply outcome_error, not_ok|].
    intros e s. left. rewrite bind_run. set (s1 := (put_task key r' e s).2).
    rewrite bind_run. pose proof (core_OnContinuousTaskChanged r' TASK_START e s1) as Hcore.
    assert (tasks (OnContinuousTaskChanged r' TASK_START e s1).2 = tasks s1) as Ht by (by injection Hcore).
    destruct (OnContinuousTaskChanged r' TASK_START e s1) as [[] s2]. cbn [fst snd] in *.
    split; [done|]. split; [done|]. cbn. change (cm_continuousTaskInfosMap_ s2) with (tasks s2). rewrite Ht.
    apply lookup_insert_eq.
Qed.

Lemma next_task_id_run e s : next_task_id e s =
  (int32 (cm_continuousTaskIdIndex_ s + 1), cm_set_continuousTaskIdIndex_ (int32 (cm_continuousTaskIdIndex_ s + 1)) s).
Proof. done. Qed.

(** What a start that succeeds has found, and the record it ends with. *)
Definition task_started (record r : ContinuousTaskRecord) (s s' : ContinuousMgr) : Prop :=
  same_request (ct_set_continuousTaskId_ (int32 (cm_continuousTaskIdIndex_ s + 1)) record) r /\
  (ct_uid_ r ∉ cm_disableRequestUidList_ s) /\
  tasks s !! task_key r = None /\ tasks s' !! task_key r = Some r.

Lemma StartBackgroundRunningInner_outcome record e s : ct_suspendState_ record = false ->
  let x := (StartBackgroundRunningInner record e s).1.1 in let r := (StartBackgroundRunningInner record e s).1.2 in
  let s' := (StartBackgroundRunningInner record e s).2 in
  (x = ce_SaveTaskRecord e /\ task_started record r s s') \/ (x <> ERR_OK /\ dom (tasks s') ⊆ dom (tasks s)).
Proof.
  intros Hsus. unfold StartBackgroundRunningInner. rewrite bind_run. cbn [uid_disabled get fst snd].
  case_test; [by right|]. apply bool_decide_eq_false in Hc. rewrite bind_run.
  pose proof (quiet_AllowApplyContinuousTask record e s) as E1.
  destruct (AllowApplyContinuousTask record e s) as [x1 s1]. cbn [fst snd] in *.
  case_test; [right; split; [by apply not_ok|]; cbn [ret fst snd]; by rewrite (tasks_core _ _ E1)|].
  assert (cm_continuousTaskIdIndex_ s1 = cm_continuousTaskIdIndex_ s) as Ei by (by injection E1).
  rewrite bind_run, next_task_id_run, Ei. cbn [fst snd].
  set (i' := int32 (cm_continuousTaskIdIndex_ s + 1)). set (new := ct_set_continuousTaskId_ i' record).
  set (s2 := cm_set_continuousTaskIdIndex_ i' s1). assert (tasks s2 = tasks s) as E2 by (by rewrite <- (tasks_core _ _ E1)).
  clearbody s2. rewrite bind_run.
  set (num := (if ct_isByRequestObject_ new then CheckAbilityTaskNum new else ret ERR_OK)).
  assert (Quiet num) as Hq by (unfold num; quiet). specialize (Hq e s2). destruct (num e s2) as [x3 s3].
  cbn [fst snd] in *. rewrite <- (tasks_core _ _ Hq) in E2.
  case_test; [right; split; [by apply not_ok|]; cbn [ret fst snd]; by rewrite E2|].
  rewrite bind_run. cbn [find_key get fst snd]. rewrite E2.
  destruct (tasks s !! task_key new) as [old|] eqn:Eold.
  { right. replace (ct_suspendState_ new) with false by done. cbn. split; [done|]. by rewrite <- E2. }
  rewrite bind_run. match goal with |- context [(?m e s3).2] => assert (Quiet m) as Hq4 by quiet; specialize (Hq4 e s3);
    set (s4 := (m e s3).2) in * end.
  rewrite <- (tasks_core _ _ Hq4) in E2. clearbody s4.
  destruct (StartBackgroundRunningSubmit_outcome new (task_key new) e s4) as [(Hx & Hs & Ht)|[Hx Hd]].
  - left. split; [exact Hx|].
    assert (task_key ((StartBackgroundRunningSubmit new (task_key new) e s4).1.2) = task_key new) as Ek
      by (symmetry; apply Hs).
    unfold task_started. rewrite Ek. split; [exact Hs|]. split; [|split; [done|exact Ht]].
    destruct Hs as (((_ & <- & _) & _) & _). exact Hc.
  - right. split; [exact Hx|]. etrans; [exact Hd|]. by rewrite E2.
Qed.

(** The modes a request asks for, and the one the record counts as its own. *)
Definition asked_modes (q : ContinuousTaskParam) : list Z :=
  if tp_isBatchApi_ q then tp_bgModeIds_ q else tp_bgModeIds_ q ++ [tp_bgModeId_ q].
Definition asked_mode (q : ContinuousTaskParam) : option Z :=
  if tp_isBatchApi_ q then
    match list_find (fun mode => mode <> DATA_TRANSFER) (tp_bgModeIds_ q) with
    | Some (_, mode) => Some mode
    | None => head (tp_bgModeIds_ q)
    end
  else Some (tp_bgModeId_ q).
(** The submodes: the car key comes with the want, never by a request object. *)
Definition asked_submodes (q : ContinuousTaskParam) : list Z :=
  tp_bgSubModeIds_ q ++
  match want_of (tp_wantAgent_ q) with
  | Some want =>
      if w_subMode want is Some _ then
        if tp_isByRequestObject_ q then [] else [BackgroundSubMode.CAR_KEY]
      else []
  | None => []
  end.
Definition asked_want_info (q : ContinuousTaskParam) : option WantAgentInfo :=
  (fun want => mkWantAgentInfo (w_bundleName want) (w_abilityName want)) <$> want_of (tp_wantAgent_ q).

(** The members a new record takes from the request and its caller; [subModes] and [info]
    are looked at apart, as the want is read last. *)
Definition requested_as (subModes : list Z) (info : option WantAgentInfo) (q : ContinuousTaskParam) (e : ContEnv)
    (r : ContinuousTaskRecord) : Prop :=
  (ct_suspendState_ r = false /\ ct_uid_ r = ce_callingUid e /\ ct_pid_ r = ce_callingPid e /\
   ct_bundleName_ r = ce_GetClientBundleName e (ce_callingUid e) /\ ct_abilityName_ r = tp_abilityName_ q /\
   ct_abilityId_ r = tp_abilityId_ q /\ ct_isByRequestObject_ r = tp_isByRequestObject_ q /\
   ct_isFromWebview_ r = false) /\
  Some (ct_bgModeId_ r) = asked_mode q /\ ct_bgModeIds_ r = asked_modes q /\ ct_bgSubModeIds_ r = subModes /\
  ct_isBatchApi_ r = tp_isBatchApi_ q /\ ct_wantAgent_ r = tp_wantAgent_ q /\ ct_wantAgentInfo_ r = info /\
  ct_isNewApi_ r = tp_isNewApi_ q /\ ct_appName_ r = tp_appName_ q /\ ct_appIndex_ r = tp_appIndex_ q /\
  ct_progressInfo_ r = tp_progressInfo_ q /\
  ct_isCombinedTaskNotification_ r = tp_isCombinedTaskNotification_ q /\
  ct_combinedNotificationTaskId_ r = tp_combinedNotificationTaskId_ q.
Definition requested (q : ContinuousTaskParam) (e : ContEnv) (r : ContinuousTaskRecord) : Prop :=
  requested_as (asked_submodes q) (asked_want_info q) q e r.

Lemma requested_same subModes info q e r r' i :
  requested_as subModes info q e r -> same_request (ct_set_continuousTaskId_ i r) r' -> requested_as subModes info q e r'.
Proof.
  unfold requested_as, same_request, same_state, same_task, same_terms. cbn -[task_key]. intros Hq Hs.
  decompose [and] Hq. decompose [and] Hs. split_and!; congruence.
Qed.

Lemma new_record_defined q name bundle uid pid abilityId : CheckTaskParam (Some q) = true ->
  exists r, new_ContinuousTaskRecord bundle name uid pid (tp_bgModeId_ q) (tp_isBatchApi_ q) (tp_bgModeIds_ q) abilityId = Some r /\
    (ct_suspendState_ r = false /\ ct_uid_ r = uid /\ ct_pid_ r = pid /\ ct_bundleName_ r = bundle /\
     ct_abilityName_ r = name /\ ct_abilityId_ r = abilityId /\ ct_isFromWebview_ r = false) /\
    Some (ct_bgModeId_ r) = asked_mode q /\ ct_bgModeIds_ r = asked_modes q /\ ct_isBatchApi_ r = tp_isBatchApi_ q /\
    ct_wantAgentInfo_ r = None.
Proof.
  intros Hq. unfold new_ContinuousTaskRecord, asked_mode, asked_modes. destruct (tp_isBatchApi_ q) eqn:Eb; [|by eexists].
  destruct (list_find _ (tp_bgModeIds_ q)) as [[i m]|]; [by eexists|].
  destruct (tp_bgModeIds_ q) as [|m l] eqn:El; [|by eexists].
  exfalso. unfold CheckTaskParam in Hq. rewrite Eb, El in Hq. cbn in Hq.
  destruct (tp_isNewApi_ q); cbn in Hq; by repeat case_test.
Qed.

Lemma InitRecordParam_still r q u e s : (InitRecordParam r q u e s).2 = s.
Proof. unfold InitRecordParam. by rewrite !bind_ask. Qed.

(** The record an application's request is made into, with its want. *)
Definition initial_record (q : ContinuousTaskParam) (r : ContinuousTaskRecord) : Z * ContinuousTaskRecord :=
  match want_of (tp_wantAgent_ q) with
  | Some want => CheckSubMode want (set_want_info want r)
  | None => (ERR_OK, r)
  end.
Lemma initial_record_requested q e r :
  requested_as (tp_bgSubModeIds_ q) None q e r -> (initial_record q r).1 = ERR_OK -> requested q e (initial_record q r).2.
Proof.
  intros Hr. unfold initial_record, requested, asked_submodes, asked_want_info. revert Hr.
  unfold requested_as. destruct (want_of (tp_wantAgent_ q)) as [want|]; cbn [fst snd fmap option_fmap option_map].
  - unfold CheckSubMode. destruct (w_subMode want) as [subMode|]; [case_test|]; cbn; intros Hq Ho; decompose [and] Hq;
      try discriminate Ho; [|split_and!; rewrite ?app_nil_r; congruence].
    apply andb_prop in Hc as [_ Hc]. apply negb_true_iff in Hc. cbn in Hc.
    replace (tp_isByRequestObject_ q) with false by congruence. split_and!; congruence.
  - intros Hq _. rewrite app_nil_r. exact Hq.
Qed.

(** What the map has after a start that succeeds. *)
Definition start_succeeds (q : ContinuousTaskParam) (r : ContinuousTaskRecord) (e : ContEnv) (s s' : ContinuousMgr) : Prop :=
  cm_isSysReady_ s = true /\ ce_CheckPermission e BGMODE_PERMISSION = true /\
  (ce_callingUid e ∉ cm_disableRequestUidList_ s) /\ requested q e r /\
  ct_continuousTaskId_ r = int32 (cm_continuousTaskIdIndex_ s + 1) /\
  tasks s !! task_key r = None /\ tasks s' !! task_key r = Some r.

Lemma start_ends (p : option ContinuousTaskParam) e s :
  let s' := (StartBackgroundRunning p e s).2 in
  exists err p', (StartBackgroundRunning p e s).1 = Some (err, p') /\
    ((err <> ERR_OK /\ dom (tasks s') ⊆ dom (tasks s)) \/
     (exists q r, p = Some q /\ err = ce_SaveTaskRecord e /\ p' = Some (set_out_ids r q) /\ start_succeeds q r e s s')).
Proof.
  unfold StartBackgroundRunning. rewrite bind_get.
  destruct (cm_isSysReady_ s) eqn:Eready; [|by do 2 eexists; split; [|left]].
  cbn [negb]. case_test; [by do 2 eexists; split; [|left]|]. apply negb_false_iff in Hc.
  destruct p as [q|]; [|done]. rewrite !bind_ask, bind_run, GetOsAccountIdFromUid_state, bind_ask.
  destruct (ce_CheckPermission e BGMODE_PERMISSION) eqn:Eperm; [|by do 2 eexists; split; [|left]]. cbn [negb].
  destruct (new_record_defined q (tp_abilityName_ q) (ce_GetClientBundleName e (ce_callingUid e)) (ce_callingUid e)
    (ce_callingPid e) (tp_abilityId_ q) Hc) as (r & -> & Hr).
  rewrite bind_run. generalize (GetOsAccountIdFromUid (ce_callingUid e) e s).1. intros userId.
  pose proof (InitRecordParam_still r q userId e s) as Hst.
  assert (requested_as (tp_bgSubModeIds_ q) None q e (InitRecordParam r q userId e s).1) as Hreq.
  { unfold InitRecordParam. rewrite !bind_ask. unfold requested_as. cbn. decompose [and] Hr. by split_and!. }
  destruct (InitRecordParam r q userId e s) as [r1 s1]. cbn [fst snd] in *. subst s1. clear Hr r.
  pose proof (initial_record_requested _ _ _ Hreq) as Hrec. clear Hreq. fold (initial_record q r1).
  destruct (initial_record q r1) as [result r2]. cbn [fst snd] in *.
  case_test; [do 2 eexists; split; [done|]; left; split; [by apply not_ok|done]|].
  apply negb_false_iff, Z.eqb_eq in Hc0. specialize (Hrec Hc0).
  rewrite bind_run. pose proof (StartBackgroundRunningInner_outcome r2 e s) as Ho.
  specialize (Ho ltac:(apply Hrec)). destruct (StartBackgroundRunningInner r2 e s) as [[x r] s']. cbn [fst snd ret] in *.
  do 2 eexists. split; [done|]. destruct Ho as [(Hx & Hs & Hd & Hold & Hnew)|Ho]; [right|by left].
  exists q, r. split; [done|]. split; [exact Hx|]. split; [done|].
  pose proof (requested_same _ _ _ _ _ _ _ Hrec Hs) as Hr.
  assert (ct_uid_ r = ce_callingUid e) as Eu by apply Hr. rewrite Eu in Hd.
  split_and!; try done. symmetry. apply Hs.
Qed.

End Outcome.
