(* ===== verification/ContinuousActivation.v ===== *)
(** * Continuous task manager: activation

    The loop of [HandleActiveContinuousTask] stays at an entry it has activated for one
    turn more; it comes to its end, and what it has done then. *)

From S2P Require Import Prelude.
From S2P Require Import Errors.
From S2P Require Import Interfaces.
From S2P Require Import BackgroundModes.
From S2P Require Import Json.
From S2P Require Import ContinuousTaskRecord.
From S2P Require Import ContinuousStorageProps.
From S2P Require Import ContinuousTypes.
From S2P Require Import NotificationTools.
From S2P Require Import ContinuousTaskMgr.
From S2P Require Import ContinuousTaskStart.
From S2P Require Import ContinuousTaskStop.
From S2P Require Import ContinuousAuth.
From S2P Require Import ContinuousQueries.
From S2P Require Import ContinuousRestart.
From S2P Require Import ContinuousSystem.
From S2P Require Import ContinuousTaskMgrSpec.
From S2P Require Import ContinuousInvariant.
Local Open Scope Z_scope.

(** [r'] is [r], no longer suspended if it is of the application and at one of the keys. *)
Definition resumed_entry (uid : Z) (here : bool) (r r' : ContinuousTaskRecord) : Prop :=
  same_task r r' /\ ct_suspendState_ r' = ct_suspendState_ r && negb ((ct_uid_ r =? uid) && here).

(** Of the tasks at [keys] those of the application are no longer suspended; the map is
    otherwise that it was, as far as identity and suspension go. *)
Definition resumed (uid : Z) (keys : list string) (m m' : gmap string ContinuousTaskRecord) : Prop :=
  forall key, option_Forall2 (resumed_entry uid (bool_decide (key ∈ keys))) (m !! key) (m' !! key).

Lemma resumed_nil uid m : resumed uid [] m m.
Proof.
  intros key. destruct (m !! key) as [r|]; constructor. split; [done|]. by rewrite andb_false_r, andb_true_r.
Qed.
Lemma resumed_entry_trans uid b1 b2 r1 r2 r3 :
  resumed_entry uid b1 r1 r2 -> resumed_entry uid b2 r2 r3 -> resumed_entry uid (b1 || b2) r1 r3.
Proof.
  intros [H1 E1] [H2 E2]. split; [by etrans|]. rewrite E2, E1. destruct H1 as (_ & <- & _).
  destruct (ct_suspendState_ r1), (ct_uid_ r1 =? uid), b1, b2; done.
Qed.
Lemma resumed_trans uid keys1 keys2 m1 m2 m3 :
  resumed uid keys1 m1 m2 -> resumed uid keys2 m2 m3 -> resumed uid (keys1 ++ keys2) m1 m3.
Proof.
  intros H1 H2 key. specialize (H1 key). specialize (H2 key).
  assert (bool_decide (key ∈ keys1 ++ keys2) = bool_decide (key ∈ keys1) || bool_decide (key ∈ keys2)) as ->.
  { rewrite <- bool_decide_or. apply bool_decide_ext. apply elem_of_app. }
  inversion H1 as [r1 r2 Hr E1 E2|E1 E2]; rewrite <- E2 in H2; inversion H2; constructor.
  by eapply resumed_entry_trans.
Qed.
(** An entry the loop passes by. *)
Lemma resumed_skip uid key m :
  (forall r, m !! key = Some r -> (ct_uid_ r =? uid) = false \/ ct_suspendState_ r = false) -> resumed uid [key] m m.
Proof.
  intros Hk k. destruct (m !! k) as [r|] eqn:E; constructor. split; [done|].
  destruct (decide (k = key)) as [->|Hne].
  - destruct (Hk r E) as [-> | ->]; [by rewrite andb_true_r|done].
  - rewrite bool_decide_false by set_solver. by rewrite andb_false_r, andb_true_r.
Qed.
Lemma resumed_put uid key m r r' : m !! key = Some r -> ct_uid_ r = uid -> same_task r r' -> ct_suspendState_ r' = false ->
  resumed uid [key] m (<[key := r']> m).
Proof.
  intros Hm Hu Hr Hs k. destruct (decide (k = key)) as [->|Hne].
  - rewrite Hm, lookup_insert_eq. constructor. split; [done|]. rewrite Hs, bool_decide_true by set_solver.
    rewrite (proj2 (Z.eqb_eq _ _) Hu). by rewrite andb_false_r.
  - rewrite lookup_insert_ne by done. destruct (m !! k) as [q|]; constructor. split; [done|].
    rewrite bool_decide_false by set_solver. by rewrite andb_false_r, andb_true_r.
Qed.

Section Activation.
Context `{ContinuousPlatform}.

(** The loop at [keys] ends, and has resumed what there is to resume. *)
Definition ends (uid : Z) (keys : list string) (m : CM bool) : Prop :=
  forall e s, (m e s).1 = true /\ resumed uid keys (tasks s) (tasks (m e s).2).

Lemma active_loop_skip fuel uid key rest label id olds e s :
  (forall r, tasks s !! key = Some r -> (ct_uid_ r =? uid) = false \/ ct_suspendState_ r = false) ->
  active_loop (S fuel) uid (key :: rest) label id olds e s = active_loop fuel uid rest label id olds e s.
Proof.
  intros Hk. cbn [active_loop]. rewrite bind_run. cbn [find_key get fst snd].
  destruct (tasks s !! key) as [r|]; [|done]. by destruct (Hk r eq_refl) as [-> | ->]; rewrite ?orb_true_r.
Qed.

Lemma tasks_changed r t e s : tasks (OnContinuousTaskChanged r t e s).2 = tasks s.
Proof. pose proof (core_OnContinuousTaskChanged r t e s) as Hc. by injection Hc. Qed.
Lemma tasks_quiet {A} (m : CM A) e s : Quiet m -> tasks (m e s).2 = tasks s.
Proof. intros Hm. apply tasks_core, Hm. Qed.

Section Turn.
Context (uid : Z) (key : string) (rest : list string) (fuel : nat).
Hypothesis rest_ends : forall f, (fuel <= f)%nat -> forall label id olds, ends uid rest (active_loop f uid rest label id olds).

(** After an activation the next turn passes on to the rest. *)
Lemma turn_again r r2 label id olds m e s2 :
  m !! key = Some r -> ct_uid_ r = uid -> same_task r r2 -> ct_suspendState_ r2 = false -> tasks s2 = <[key := r2]> m ->
  let o := active_loop (S fuel) uid (key :: rest) label id olds e s2 in
  o.1 = true /\ resumed uid (key :: rest) m (tasks o.2).
Proof.
  intros Hk Hu Hr Hs Et. cbv zeta. rewrite active_loop_skip.
  - destruct (rest_ends fuel ltac:(done) label id olds e s2) as [H1 H2]. split; [exact H1|].
    apply (resumed_trans uid [key] rest _ (tasks s2)); [|exact H2]. rewrite Et. by apply (resumed_put uid key m r).
  - rewrite Et, lookup_insert_eq. intros q [= <-]. by right.
Qed.

Lemma turn_ends label id olds : ends uid (key :: rest) (active_loop (S (S fuel)) uid (key :: rest) label id olds).
Proof.
  intros e s.
  assert ((forall r, tasks s !! key = Some r -> (ct_uid_ r =? uid) = false \/ ct_suspendState_ r = false) ->
    let o := active_loop (S (S fuel)) uid (key :: rest) label id olds e s in
    o.1 = true /\ resumed uid (key :: rest) (tasks s) (tasks o.2)) as Hskip.
  { intros Hk. cbv zeta. rewrite active_loop_skip by done. destruct (rest_ends (S fuel) ltac:(lia) label id olds e s) as [H1 H2].
    split; [exact H1|]. apply (resumed_trans uid [key] rest _ (tasks s)); [by apply resumed_skip|exact H2]. }
  destruct (tasks s !! key) as [r|] eqn:Ek; [|by apply Hskip].
  destruct (ct_uid_ r =? uid) eqn:Eu; [|apply Hskip; intros ? [= <-]; by left].
  destruct (ct_suspendState_ r) eqn:Es; [|apply Hskip; intros ? [= <-]; by right].
  clear Hskip. apply Z.eqb_eq in Eu.
  set (n := S fuel). cbn [active_loop]. rewrite bind_run. cbn [find_key get fst snd]. rewrite Ek, Es.
  rewrite (proj2 (Z.eqb_eq _ _) Eu). cbn [negb orb]. cbv zeta.
  set (r1 := ct_set_isStandby_ false (ct_set_suspendState_ false r)).
  assert (same_task r r1) as Hr1 by same. assert (ct_suspendState_ r1 = false) as Hs1 by done. clearbody r1.
  rewrite bind_run. set (s1 := (put_task key r1 e s).2). rewrite bind_run.
  pose proof (tasks_changed r1 TASK_ACTIVE e s1) as E2. set (s2 := (OnContinuousTaskChanged r1 TASK_ACTIVE e s1).2) in *.
  change (tasks s1) with (<[key := r1]> (tasks s)) in E2. clearbody s2. clear s1.
  case_test; [|case_test].
  - rewrite bind_run. apply (turn_again r r1); [done..|]. by rewrite tasks_quiet by quiet.
  - rewrite bind_run. pose proof (gives_weaken _ _ _ (gives_HandleActiveNotification r1)) as [Hq Hy]. specialize (Hy e s2). cbn [Datatypes.id] in Hy.
    pose proof (tasks_quiet _ e s2 Hq) as E3. destruct (HandleActiveNotification r1 e s2) as [r2 s3]. cbn [fst snd] in *.
    rewrite bind_run. set (s4 := (put_task key r2 e s3).2). rewrite bind_run.
    apply (turn_again r r2); [done|done|etrans; [exact Hr1|apply Hy]|destruct Hy as [_ <-]; done|].
    rewrite tasks_quiet by quiet. change (tasks s4) with (<[key := r2]> (tasks s3)). by rewrite E3, E2, insert_insert_eq.
  - rewrite bind_run. match goal with |- context [put_task key ?r2 e s2] => set (r3 := r2) end.
    set (s4 := (put_task key r3 e s2).2). rewrite bind_run.
    apply (turn_again r r3); [done|done|etrans; [exact Hr1|]; same|done|].
    rewrite tasks_quiet by quiet. change (tasks s4) with (<[key := r3]> (tasks s2)). by rewrite E2, insert_insert_eq.
Qed.
End Turn.

Lemma active_loop_ends uid keys : forall fuel label id olds, (2 * length keys < fuel)%nat ->
  ends uid keys (active_loop fuel uid keys label id olds).
Proof.
  induction keys as [|key rest IH]; intros fuel label id olds Hf.
  - destruct fuel as [|fuel]; [lia|]. intros e s. split; [done|]. apply resumed_nil.
  - cbn [length] in Hf. destruct fuel as [|[|fuel]]; [lia..|]. apply turn_ends. intros f Hle l i o. apply IH. lia.
Qed.

(** C28. The loop that resumes the tasks of an application comes to its end within two turns for
    each entry and one more, wherever it starts and whatever the notification service and
    the file answer; and then exactly the suspended tasks of the application at the keys
    it went over are no longer suspended, each task being the one it was. *)
Theorem activation_terminates uid keys label id olds e s :
  (active_loop (active_fuel keys) uid keys label id olds e s).1 = true /\
  resumed uid keys (tasks s) (tasks (active_loop (active_fuel keys) uid keys label id olds e s).2).
Proof. apply active_loop_ends. unfold active_fuel. lia. Qed.

(** Activating an application leaves none of its tasks suspended, and resumes no task of
    another; no task comes or goes. *)
Theorem activation_resumes_application uid pid key0 e s key :
  option_Forall2 (resumed_entry uid true) (tasks s !! key) (tasks (HandleActiveContinuousTask uid pid key0 e s).2 !! key).
Proof.
  unfold HandleActiveContinuousTask. rewrite bind_run. cbn [find_task get fst snd].
  destruct (find_task_in _ (tasks s)) as [found|] eqn:E.
  - rewrite bind_get, bind_run. set (keys := (map_to_list (tasks s)).*1).
    destruct (active_loop_ends uid keys (active_fuel keys) "default" ILLEGAL_NOTIFICATION_ID [] ltac:(unfold active_fuel; lia) e s)
      as [_ Hr].
    specialize (Hr key). set (o := active_loop _ _ keys _ _ _ e s) in *. cbn [ret snd]. clearbody o.
    destruct (tasks s !! key) as [r|] eqn:Ek; [|inversion Hr; constructor].
    rewrite bool_decide_true in Hr; [exact Hr|].
    unfold keys. apply list_elem_of_fmap. exists (key, r). by rewrite elem_of_map_to_list.
  - cbn. change (cm_continuousTaskInfosMap_ s) with (tasks s).
    destruct (tasks s !! key) as [r|] eqn:Ek; constructor. split; [done|].
    unfold find_task_in in E. destruct (list_find _ _) as [x|] eqn:Ef; [done|].
    rewrite list_find_None, Forall_forall in Ef. specialize (Ef (key, r)). rewrite elem_of_map_to_list in Ef.
    specialize (Ef Ek). cbn in Ef. destruct (ct_uid_ r =? uid), (ct_suspendState_ r); done.
Qed.
End Activation.
