(* ===== verification/ContinuousStopProps.v ===== *)
(** * Continuous task manager: which tasks an operation ends

    Loops over the map as functions on entries, and the operations that end the tasks
    that meet a test: afterwards the map is the old one without them. *)

From S2P Require Import Prelude.
From S2P Require Import Errors.
From S2P Require Import Interfaces.
From S2P Require Import BackgroundModes.
From S2P Require Import Json.
From S2P Require Import ContinuousTaskRecord.
From S2P Require Import ContinuousStorageProps.
From S2P Require Import ContinuousTypes.
From S2P Require Import NotificationTools.
From S2P Require Import ContinuousTaskMgr.
From S2P Require Import ContinuousTaskStart.
From S2P Require Import ContinuousTaskStop.
From S2P Require Import ContinuousAuth.
From S2P Require Import ContinuousQueries.
From S2P Require Import ContinuousRestart.
From S2P Require Import ContinuousSystem.
From S2P Require Import ContinuousTaskMgrSpec.
From S2P Require Import ContinuousInvariant.
From S2P Require Import ContinuousWellFormed.
From S2P Require Import ContinuousActivation.
Import BackgroundMode BackgroundSubMode.
Import ContinuousTaskCancelReason.
Local Open Scope Z_scope.

(** ** Loops *)

(** The body makes of the entry of a key what [f] says. *)
Definition makes (f : string -> ContinuousTaskRecord -> option ContinuousTaskRecord)
    (body : string -> ContinuousTaskRecord -> CM unit) : Prop :=
  forall key r e s, tasks s !! key = Some r -> tasks (body key r e s).2 !! key = f key r.

Lemma for_each_lookup f body (l : list (string * ContinuousTaskRecord)) e s k :
  makes f body -> (forall key r, Confined key (body key r)) -> NoDup l.*1 ->
  (forall key r, (key, r) ∈ l -> tasks s !! key = Some r) ->
  tasks (for_each l (fun x => body x.1 x.2) e s).2 !! k =
    if bool_decide (k ∈ l.*1) then tasks s !! k ≫= f k else tasks s !! k.
Proof.
  intros Hf Hc. revert s. induction l as [|[key r] l IH]; intros s Hn Hl; [done|].
  cbn [for_each fst snd]. rewrite bind_run. inversion_clear Hn as [|? ? Hx Hn'].
  assert (tasks s !! key = Some r) as Hk by (apply Hl; left).
  assert (forall key' r', (key', r') ∈ l -> tasks (body key r e s).2 !! key' = Some r') as Hl'.
  { intros key' r' Hin. rewrite Hc; [apply Hl; by right|]. intros ->. apply Hx, list_elem_of_fmap. by exists (key, r'). }
  rewrite IH by done. destruct (decide (k = key)) as [->|Hne].
  - rewrite bool_decide_false by done. rewrite bool_decide_true by left. rewrite Hk. by apply Hf.
  - rewrite !Hc by done.
    by rewrite (bool_decide_ext (k ∈ ((key, r) :: l).*1) (k ∈ l.*1)) by (rewrite fmap_cons; set_solver).
Qed.

Lemma for_tasks_lookup f body e s k : makes f body -> (forall key r, Confined key (body key r)) ->
  tasks (for_tasks body e s).2 !! k = tasks s !! k ≫= f k.
Proof.
  intros Hf Hc. unfold for_tasks. rewrite bind_run. cbn [get fst snd]. rewrite (for_each_lookup f); [|done..| |].
  - destruct (tasks s !! k) as [r|] eqn:E; [|by case_bool_decide].
    rewrite bool_decide_true; [done|]. apply list_elem_of_fmap. exists (k, r). by rewrite elem_of_map_to_list.
  - apply NoDup_fst_map_to_list.
  - intros key r Hk. by apply elem_of_map_to_list.
Qed.

(** The tasks of [m] that do not meet the test. *)
Definition without (test : ContinuousTaskRecord -> bool) (m : gmap string ContinuousTaskRecord) :
    gmap string ContinuousTaskRecord :=
  filter (fun x : string * ContinuousTaskRecord => test x.2 = false) m.

(** A body that ends the task of the entry if it meets the test. *)
Definition ends_if (test : ContinuousTaskRecord -> bool) (body : string -> ContinuousTaskRecord -> CM unit) : Prop :=
  makes (fun _ r => if test r then None else Some r) body /\ forall key r, Confined key (body key r).

Lemma for_tasks_without test body e s : ends_if test body -> tasks (for_tasks body e s).2 = without test (tasks s).
Proof.
  intros [Hf Hc]. apply map_eq. intros k. rewrite (for_tasks_lookup _ _ _ _ _ Hf Hc). unfold without.
  rewrite map_lookup_filter. destruct (tasks s !! k) as [r|]; [|done]. cbn. destruct (test r); cbn; by case_guard.
Qed.

(** What is left of an entry by an operation that goes on with it. *)
Lemma makes_if test body : (forall key r e s, test r = true -> tasks (body key r e s).2 !! key = None) ->
  (forall key r e s, test r = false -> (body key r e s).2 = s) ->
  makes (fun _ r => if test r then None else Some r) body.
Proof.
  intros Ht Hn key r e s Hk. destruct (test r) eqn:E; [by apply Ht|]. by rewrite Hn.
Qed.

(** An entry that is erased, and not written again. *)
Definition erases {A} (key : string) (m : CM A) : Prop := forall e s, tasks (m e s).2 !! key = None.
Lemma erases_last {A} key (m : CM A) : Quiet m -> erases key (bind (erase_task key) (fun _ => m)).
Proof. intros Hm e s. rewrite bind_run, (tasks_core _ _ (Hm _ _)). apply lookup_delete_eq. Qed.
Lemma erases_bind {A B} key (m : CM A) (k : A -> CM B) : (forall a, erases key (k a)) -> erases key (bind m k).
Proof. intros Hk e s. rewrite bind_run. apply Hk. Qed.

Ltac erases := repeat (solve [apply erases_last; quiet] || (apply erases_bind; intros ?) || case_test).

(** Splits a conjunction of tests and puts their values in. *)
Ltac tests :=
  repeat match goal with Hb : _ && _ = true |- _ => apply andb_true_iff in Hb as [? ?] end;
  repeat match goal with Hb : ?b = true |- context [?b] => rewrite Hb end; cbn [negb andb].
Ltac no_test Ht :=
  match type of Ht with
  | _ && _ = false => apply andb_false_iff in Ht as [Ht|Ht]; no_test Ht
  | _ => rewrite Ht, ?andb_false_r; cbn [negb andb]; repeat (case_test; try done); try done
  end.
Ltac ends_if :=
  split;
  [ let key := fresh "key" in let r := fresh "r" in let e := fresh "e" in let s := fresh "s" in let Ht := fresh "Ht" in
    apply makes_if; intros key r e s Ht;
    [ tests; match goal with |- tasks (?m _ _).2 !! key = None => enough (erases key m) by done end; cbv zeta; erases
    | no_test Ht ]
  | intros; confined ].

Section Stop.
Context `{ContinuousPlatform}.

Lemma stop_app_tasks_without uid e s :
  tasks (stop_app_tasks uid e s).2 = without (fun r => ct_uid_ r =? uid) (tasks s).
Proof. apply for_tasks_without. ends_if. Qed.
Lemma cancel_tasks_where_without test e s : tasks (cancel_tasks_where test e s).2 = without test (tasks s).
Proof. apply for_tasks_without. ends_if. Qed.
Lemma HandleRemoveTaskByMode_without mode e s : tasks (HandleRemoveTaskByMode mode e s).2 =
  without (fun r => ct_isFromWebview_ r && CheckExistMode (ct_bgModeIds_ r) mode) (tasks s).
Proof. apply for_tasks_without. ends_if. Qed.

Lemma erases_remove key reason detailed r : erases key (remove_with_notifications key reason detailed r).
Proof. unfold remove_with_notifications. cbv zeta. erases. Qed.
Lemma confined_remove_with key reason detailed r : Confined key (remove_with_notifications key reason detailed r).
Proof. unfold remove_with_notifications. confined. Qed.
#[local] Hint Resolve confined_remove_with : quiet.

Lemma for_tasks_then_quiet test body (m : CM unit) e s : ends_if test body -> Quiet m ->
  tasks (bind (for_tasks body) (fun _ => m) e s).2 = without test (tasks s).
Proof. intros Hb Hm. rewrite bind_run, (tasks_core _ _ (Hm _ _)). by apply for_tasks_without. Qed.

Lemma RemoveContinuousTaskRecordByUid_without uid e s :
  tasks (RemoveContinuousTaskRecordByUid uid e s).2 = without (fun r => ct_uid_ r =? uid) (tasks s).
Proof.
  apply for_tasks_then_quiet; [|quiet]. split; [|intros; confined].
  apply makes_if; intros key r e0 s0 Ht; [tests; apply erases_remove|no_test Ht].
Qed.
Lemma RemoveContinuousTaskRecordByUidAndMode_without uid mode e s :
  tasks (RemoveContinuousTaskRecordByUidAndMode uid mode e s).2 =
  without (fun r => (ct_uid_ r =? uid) && CheckExistMode (ct_bgModeIds_ r) mode) (tasks s).
Proof.
  apply for_tasks_then_quiet; [|quiet]. split; [|intros; confined].
  apply makes_if; intros key r e0 s0 Ht; [tests; apply erases_remove|no_test Ht].
Qed.

Lemma without_none test m : map_Forall (fun _ r => test r = false) m -> without test m = m.
Proof. intros Hm. apply map_filter_id. intros key r Hk. by apply (Hm key r). Qed.
Lemma without_one test m key r : m !! key = Some r -> test r = true ->
  (forall k q, m !! k = Some q -> test q = true -> k = key) -> without test m = delete key m.
Proof.
  intros Hk Ht Hu. apply map_eq. intros k. unfold without. rewrite map_lookup_filter.
  destruct (decide (k = key)) as [->|Hne].
  - rewrite lookup_delete_eq, Hk. cbn. rewrite Ht. by case_guard.
  - rewrite lookup_delete_ne by done. destruct (m !! k) as [q|] eqn:E; [|done]. cbn. case_guard as Hg; [done|].
    exfalso. apply Hne, (Hu k q); [done|]. by destruct (test q).
Qed.

(** A task found, or none there. *)
Lemma find_task_cases p m :
  match find_task_in p m with
  | Some (key, r) => m !! key = Some r /\ p r = true
  | None => map_Forall (fun _ r => p r = false) m
  end.
Proof.
  unfold find_task_in. destruct (list_find _ _) as [[i [key r]]|] eqn:E; cbn.
  - apply list_find_Some in E as (Hl & Hp & _). split; [|exact Hp].
    by apply elem_of_map_to_list, list_elem_of_lookup_2 with i.
  - rewrite list_find_None, Forall_forall in E. intros key r Hk. apply not_true_iff_false.
    apply (E (key, r)). by apply elem_of_map_to_list.
Qed.

(** One of the tasks that meet the test goes, if there is one. *)
Definition loses_one (test : ContinuousTaskRecord -> bool) (m m' : gmap string ContinuousTaskRecord) : Prop :=
  (exists key r, m !! key = Some r /\ test r = true /\ m' = delete key m) \/
  (map_Forall (fun _ r => test r = false) m /\ m' = m).
Definition has_id (id : Z) (r : ContinuousTaskRecord) : bool := ct_continuousTaskId_ r =? id.

Lemma loses_one_without id m m' : ids_unique m -> loses_one (has_id id) m m' -> m' = without (has_id id) m.
Proof.
  unfold has_id. intros Hu [(key & r & Hk & Hr & ->)|[Hn ->]]; [|by rewrite without_none].
  symmetry. apply without_one with r; [done..|]. intros k q Hq Ht. apply (Hu k key q r); [done..|]. lia.
Qed.

Lemma StopBackgroundRunningByTask_one r e s :
  loses_one (has_id (ct_continuousTaskId_ r)) (tasks s) (tasks (StopBackgroundRunningByTask r e s).2).
Proof.
  unfold StopBackgroundRunningByTask. rewrite bind_run. cbn [find_task get fst snd].
  pose proof (find_task_cases (fun t => ct_continuousTaskId_ t =? ct_continuousTaskId_ r) (tasks s)) as Hf.
  destruct (find_task_in _ (tasks s)) as [[key q]|]; [left|by right].
  destruct Hf as [Hk Hq]. exists key, q. split; [done|]. split; [exact Hq|].
  rewrite bind_run. pose proof (tasks_changed q TASK_CANCEL e s) as Et.
  set (s1 := (OnContinuousTaskChanged q TASK_CANCEL e s).2) in *. rewrite bind_run.
  set (s2 := (erase_task key e s1).2). rewrite tasks_quiet by quiet.
  change (tasks s2) with (delete key (tasks s1)). by rewrite Et.
Qed.
Lemma StopBackgroundRunningByTask_without r e s : ids_unique (tasks s) ->
  tasks (StopBackgroundRunningByTask r e s).2 = without (has_id (ct_continuousTaskId_ r)) (tasks s).
Proof. intros Hu. apply loses_one_without; [done|]. apply StopBackgroundRunningByTask_one. Qed.

Lemma StopBackgroundRunningInner_by_id uid name ability id e s : id <> -1 ->
  loses_one (has_id id) (tasks s) (tasks (StopBackgroundRunningInner uid name ability id e s).2).
Proof.
  intros Hid. unfold StopBackgroundRunningInner. rewrite (proj2 (Z.eqb_neq _ _) Hid). cbn [negb].
  rewrite bind_run. cbn [find_task get fst snd].
  pose proof (find_task_cases (fun t => ct_continuousTaskId_ t =? id) (tasks s)) as Hf.
  destruct (find_task_in _ (tasks s)) as [[key q]|]; [|by right].
  destruct Hf as [_ Hq%Z.eqb_eq]. rewrite <- Hq. apply StopBackgroundRunningByTask_one.
Qed.

(** ** The operations that end tasks, and the test each applies *)
Definition inactive_accounts (e : ContEnv) : option (list Z) :=
  ids ← (if HAS_OS_ACCOUNT_PART then ce_ActiveOsAccountIds e else Some [0]);
  if HAS_OS_ACCOUNT_CAR then ce_ForegroundOsAccounts e else Some ids.

Definition ended_by (op : ContOp) (e : ContEnv) (s : ContinuousMgr) : option (ContinuousTaskRecord -> bool) :=
  match op with
  | OpStop name _ id =>
      if cm_isSysReady_ s && negb (bool_decide (name = ""%string)) && negb (id =? -1)
      then Some (has_id id) else None
  | OpAppStopped uid => if cm_isSysReady_ s then Some (fun r => ct_uid_ r =? uid) else None
  | OpBundleInfo COMMON_EVENT_PACKAGE_DATA_CLEARED _ uid _ _ =>
      if cm_isSysReady_ s then Some (fun r => ct_uid_ r =? uid) else None
  | OpAccounts _ => (fun ids r => bool_decide (ct_userId_ r ∉ ids)) <$> inactive_accounts e
  | OpRun n =>
      match cm_posted s !! n with
      | Some (PT_RemoveTaskByMode mode) => Some (fun r => ct_isFromWebview_ r && CheckExistMode (ct_bgModeIds_ r) mode)
      | Some (PT_StopContinuousTask uid _ taskType _) =>
          if taskType =? DATA_TRANSFER
          then Some (fun r => (ct_uid_ r =? uid) && CheckExistMode (ct_bgModeIds_ r) taskType)
          else if taskType =? ALL_MODES then Some (fun r => ct_uid_ r =? uid) else None
      | _ => None
      end
  | _ => None
  end.

Lemma quiet_erase_banners_where test : Quiet (erase_banners_where test).
Proof. unfold erase_banners_where, erase_banner. quiet. Qed.
#[local] Hint Resolve quiet_erase_banners_where : quiet.

Definition stops_by_id (op : ContOp) : Prop := match op with OpStop _ _ _ => True | _ => False end.

Lemma stop_loses_one op e s test : stops_by_id op -> ended_by op e s = Some test ->
  loses_one test (tasks s) (tasks (exec op e s).2) /\ exists id, test = has_id id.
Proof.
  intros Hi Hop. destruct op; try done. cbn [exec ended_by] in *.
  rewrite bind_state. unfold StopBackgroundRunning. rewrite bind_get.
    destruct (cm_isSysReady_ s), (bool_decide (abilityName = ""%string)), (continuousTaskId =? -1) eqn:E; try done.
  simplify_eq/=. rewrite bind_ask. split; [apply StopBackgroundRunningInner_by_id; lia|by eexists].
Qed.

Lemma exec_without op e s test : (stops_by_id op -> ids_unique (tasks s)) -> ended_by op e s = Some test ->
  tasks (exec op e s).2 = without test (tasks s).
Proof.
  intros Hu Hop. destruct op; try discriminate.
  { destruct (stop_loses_one (OpStop abilityName abilityId continuousTaskId) e s test I Hop) as [Hl [id ->]]. apply loses_one_without; [by apply Hu|done]. }
  all: cbn [exec ended_by] in *.
  - unfold OnAppStopped. rewrite bind_get. destruct (cm_isSysReady_ s); [|done]. simplify_eq/=.
    rewrite bind_run, tasks_quiet by quiet. apply stop_app_tasks_without.
  - unfold OnAccountsStateChanged, ClearBgOsAccountTask, ClearBgOsAccountTaskInCar. unfold inactive_accounts in Hop.
    rewrite bind_run. destruct HAS_OS_ACCOUNT_PART; cbn [ask ret fst snd] in *.
    + destruct (ce_ActiveOsAccountIds e) as [ids|]; [|done]. cbn in Hop. destruct HAS_OS_ACCOUNT_CAR.
      * rewrite bind_ask. destruct (ce_ForegroundOsAccounts e) as [l|]; [|done]. simplify_eq/=. apply cancel_tasks_where_without.
      * simplify_eq/=. apply cancel_tasks_where_without.
    + cbn in Hop. destruct HAS_OS_ACCOUNT_CAR.
      * rewrite bind_ask. destruct (ce_ForegroundOsAccounts e) as [l|]; [|done]. simplify_eq/=. apply cancel_tasks_where_without.
      * simplify_eq/=. apply cancel_tasks_where_without.
  - unfold OnBundleInfoChanged. rewrite bind_get. destruct action; try discriminate.
    destruct (cm_isSysReady_ s); [|done]. simplify_eq/=.
    rewrite bind_modify, cancel_tasks_where_without. done.
  - unfold run_nth. rewrite bind_get. destruct (cm_posted s !! n) as [t|]; [|done]. rewrite bind_modify.
    set (s1 := cm_set_posted _ s). change (tasks s) with (tasks s1). clearbody s1.
    destruct t; try discriminate; cbn [run_posted].
    + unfold HandleStopContinuousTask. destruct (taskType =? DATA_TRANSFER) eqn:E.
      * simplify_eq. apply RemoveContinuousTaskRecordByUidAndMode_without.
      * destruct (taskType =? ALL_MODES); [|done]. simplify_eq. apply RemoveContinuousTaskRecordByUid_without.
    + simplify_eq. apply HandleRemoveTaskByMode_without.
Qed.

(** C13. The operations that end tasks by a test — a stop by id, the end of an application or
    the clearing of its data, a change of the accounts, the end of a service that asked for
    tasks, and the stop of all tasks of an application or of its transfers — end exactly
    the tasks that meet it, in any state: afterwards the map is what it was, without them.
    Only the stop by id looks no further than the first it finds: it ends exactly those
    with the id where no two tasks share one, and one of them where they do. *)
Theorem ending_operations_end_what_they_test s op e test :
  ended_by op e s = Some test ->
  ((stops_by_id op -> ids_unique (tasks s)) -> tasks (exec op e s).2 = without test (tasks s)) /\
  (stops_by_id op -> loses_one test (tasks s) (tasks (exec op e s).2)).
Proof.
  intros Ht. split; [intros Hu; by apply exec_without|]. intros Hi. by apply (stop_loses_one _ _ _ _ Hi Ht).
Qed.
End Stop.
