(* ===== verification/ContinuousAbilityStop.v ===== *)
(** * Continuous task manager: the end of an ability

    [StopBackgroundRunningByContext] ends the tasks of an ability one by one, and gives up
    at the first whose notification cannot be cancelled.  Where the notification service
    cancels what it is asked to, every task of the ability is ended and no other. *)

From S2P Require Import Prelude.
From S2P Require Import Errors.
From S2P Require Import Interfaces.
From S2P Require Import ContinuousTaskRecord.
From S2P Require Import ContinuousTypes.
From S2P Require Import NotificationTools.
From S2P Require Import ContinuousTaskMgr.
From S2P Require Import ContinuousTaskStart.
From S2P Require Import ContinuousTaskStop.
From S2P Require Import ContinuousTaskMgrSpec.
From S2P Require Import ContinuousInvariant.
From S2P Require Import ContinuousActivation.
From S2P Require Import ContinuousWellFormed.
From S2P Require Import ContinuousStopProps.
Local Open Scope Z_scope.

(** ** Tests on tasks *)
Lemma without_ext test test' m : map_Forall (fun _ r => test r = test' r) m -> without test m = without test' m.
Proof. intros Hm. apply map_filter_ext. intros key r Hk. cbn. by rewrite (Hm key r Hk). Qed.
Lemma without_without test test' m : without test (without test' m) = without (fun r => test r || test' r) m.
Proof.
  unfold without. rewrite map_filter_filter. apply map_filter_ext. intros key r _. cbn.
  destruct (test r), (test' r); naive_solver.
Qed.
Lemma lookup_without test m key r : without test m !! key = Some r <-> m !! key = Some r /\ test r = false.
Proof. apply map_lookup_filter_Some. Qed.
Lemma ids_unique_without test m : ids_unique m -> ids_unique (without test m).
Proof. intros Hu k k' r r' [Hk _]%lookup_without [Hk' _]%lookup_without. by apply Hu. Qed.

Definition ids_of (l : list ContinuousTaskRecord) : list Z := ct_continuousTaskId_ <$> l.
Definition among (l : list ContinuousTaskRecord) (t : ContinuousTaskRecord) : bool :=
  bool_decide (ct_continuousTaskId_ t ∈ ids_of l).

(** The records of a map have distinct ids. *)
Lemma ids_of_values m (P : ContinuousTaskRecord -> Prop) `{!forall r, Decision (P r)} :
  ids_unique m -> NoDup (ids_of (filter P (map_to_list m).*2)).
Proof.
  intros Hu. apply (sublist_NoDup _ (ids_of (map_to_list m).*2)); [|apply fmap_sublist, sublist_filter].
  unfold ids_of. rewrite <- list_fmap_compose.
  apply NoDup_fmap_2_strong; [|apply NoDup_map_to_list].
  intros [k r] [k' r'] Hk%elem_of_map_to_list Hk'%elem_of_map_to_list Hid. cbn in Hid.
  pose proof (Hu k k' r r' Hk Hk' Hid) as ->. by simplify_eq.
Qed.

Section AbilityStop.
Context `{ContinuousPlatform}.
Variable e : ContEnv.
Hypothesis cancels : forall label i, ce_CancelNotification e label i = true.

Lemma CancelNotification_ok r s : (CancelNotification r e s).1 = ERR_OK.
Proof.
  assert (forall label i s', (CancelNotification_tool label i e s').1 = ERR_OK) as Ht.
  { intros label i s'. unfold CancelNotification_tool. case_test; [done|].
    unfold emit, modify, ask, bind. cbn. by rewrite cancels. }
  unfold CancelNotification. case_test; [done|]. rewrite bind_run. case_match; [done|].
  rewrite bind_run. case_test; apply Ht.
Qed.

Lemma StopBackgroundRunningByTask_ok key r s :
  tasks s !! key = Some r -> (StopBackgroundRunningByTask r e s).1 = ERR_OK.
Proof.
  intros Hk. unfold StopBackgroundRunningByTask. rewrite bind_run. cbn [find_task get fst snd].
  pose proof (find_task_cases (fun t => ct_continuousTaskId_ t =? ct_continuousTaskId_ r) (tasks s)) as Hf.
  destruct (find_task_in _ _) as [[key' q]|].
  - rewrite !bind_run. cbn [ret fst]. apply CancelNotification_ok.
  - pose proof (Hf _ _ Hk) as Hx. cbn in Hx. lia.
Qed.

Lemma stop_all_without l s :
  ids_unique (tasks s) -> NoDup (ids_of l) -> (forall r, r ∈ l -> exists key, tasks s !! key = Some r) ->
  tasks (for_err l StopBackgroundRunningByTask e s).2 = without (among l) (tasks s).
Proof.
  revert s. induction l as [|r l IH]; intros s Hu Hn Hl.
  - cbn. symmetry. apply without_none. intros key r _. by apply bool_decide_eq_false, not_elem_of_nil.
  - cbn [for_err]. rewrite bind_run. destruct (Hl r) as [key Hk]; [left|].
    rewrite (StopBackgroundRunningByTask_ok key) by done. cbn [negb Z.eqb ERR_OK].
    pose proof (StopBackgroundRunningByTask_without r e s Hu) as E.
    set (s1 := (StopBackgroundRunningByTask r e s).2) in *. clearbody s1.
    apply NoDup_cons in Hn as [Hr Hn].
    rewrite IH, E.
    + rewrite without_without. apply without_ext. intros k t _. unfold among, ids_of. rewrite fmap_cons.
      unfold has_id. destruct (Z.eqb_spec (ct_continuousTaskId_ t) (ct_continuousTaskId_ r)) as [->|Hne].
      * rewrite orb_true_r. symmetry. apply bool_decide_eq_true. left.
      * rewrite orb_false_r. apply bool_decide_ext. rewrite elem_of_cons. tauto.
    + rewrite E. by apply ids_unique_without.
    + done.
    + intros q Hq. destruct (Hl q) as [k Hq']; [by right|]. exists k. rewrite E. apply lookup_without. split; [done|].
      apply Z.eqb_neq. intros Eq. apply Hr. rewrite <- Eq. by apply list_elem_of_fmap_2.
Qed.

Lemma StopBackgroundRunningByContext_without uid abilityName abilityId s : ids_unique (tasks s) ->
  tasks (StopBackgroundRunningByContext uid abilityName abilityId e s).2 =
  without (of_context uid abilityName abilityId) (tasks s).
Proof.
  intros Hu. unfold StopBackgroundRunningByContext. rewrite bind_get. cbv zeta. rewrite stop_all_without; [|done| |].
  - apply without_ext. intros key r Hk. apply eq_bool_prop_intro. unfold among. rewrite bool_decide_spec.
    unfold ids_of. rewrite list_elem_of_fmap. split.
    + intros (q & Hid & Hq). apply list_elem_of_filter in Hq as [Hq Hin].
      apply list_elem_of_fmap in Hin as ([k q'] & -> & Hin%elem_of_map_to_list). cbn in *.
      pose proof (Hu _ _ _ _ Hk Hin Hid) as ->. simplify_eq. by apply Is_true_true.
    + intros Ht%Is_true_true. exists r. split; [done|]. apply list_elem_of_filter. split; [done|].
      apply list_elem_of_fmap. exists (key, r). by rewrite elem_of_map_to_list.
  - by apply ids_of_values.
  - intros r Hr. apply list_elem_of_filter in Hr as [_ Hin].
    apply list_elem_of_fmap in Hin as ([k q] & -> & Hin%elem_of_map_to_list). by exists k.
Qed.

Lemma OnAbilityStateChanged_without uid abilityName abilityId s :
  ids_unique (tasks s) -> cm_isSysReady_ s = true -> abilityName <> ""%string ->
  tasks (OnAbilityStateChanged uid abilityName abilityId e s).2 =
  without (of_context uid abilityName abilityId) (tasks s).
Proof.
  intros Hu Hr Hn. unfold OnAbilityStateChanged. rewrite bind_get, Hr. cbn [negb].
  rewrite bool_decide_false by done. rewrite bind_run. by apply StopBackgroundRunningByContext_without.
Qed.
End AbilityStop.

(** Where the notification of the first task cannot be cancelled, that task alone is ended:
    the others of the ability stay. *)
Lemma stop_gives_up `{ContinuousPlatform} r l e s :
  ids_unique (tasks s) -> (StopBackgroundRunningByTask r e s).1 <> ERR_OK ->
  tasks (for_err (r :: l) StopBackgroundRunningByTask e s).2 =
  without (has_id (ct_continuousTaskId_ r)) (tasks s).
Proof.
  intros Hu Hf. cbn [for_err]. rewrite bind_run, (proj2 (Z.eqb_neq _ _) Hf).
  by apply StopBackgroundRunningByTask_without.
Qed.
