(* ===== verification/ContinuousLabels.v ===== *)
(** * Continuous task manager: labels of notifications

    The notification service hands back the label of a notification the user removed: the
    label names the task, and the tasks that share the notification end. *)

From S2P Require Import Prelude.
From S2P Require Import Errors.
From S2P Require Import Interfaces.
From S2P Require Import BackgroundModes.
From S2P Require Import Json.
From S2P Require Import ContinuousTaskRecord.
From S2P Require Import ContinuousStorageProps.
From S2P Require Import ContinuousTypes.
From S2P Require Import NotificationTools.
From S2P Require Import ContinuousTaskMgr.
From S2P Require Import ContinuousTaskStart.
From S2P Require Import ContinuousTaskStop.
From S2P Require Import ContinuousAuth.
From S2P Require Import ContinuousQueries.
From S2P Require Import ContinuousRestart.
From S2P Require Import ContinuousSystem.
From S2P Require Import ContinuousTaskMgrSpec.
From S2P Require Import ContinuousInvariant.
From S2P Require Import ContinuousWellFormed.
From S2P Require Import ContinuousActivation.
From S2P Require Import ContinuousStopProps.
Import BackgroundMode.
Local Open Scope Z_scope.

(** ** Splitting *)
Lemma getlines_piece d a : free d a -> forall cur rest,
  getlines cur (a +:+ String d rest) d = (cur +:+ a) :: getlines "" rest d.
Proof.
  induction a as [|c a IH]; intros Ha cur rest.
  - cbn [getlines]. change ("" +:+ String d rest)%string with (String d rest). cbn [getlines].
    by rewrite bool_decide_true, string_app_empty.
  - destruct Ha as [Hc Ha]. rewrite string_cons_app. cbn [getlines]. rewrite bool_decide_false by done.
    rewrite IH by done. by rewrite string_app_assoc.
Qed.
Lemma getlines_last d a : free d a -> forall cur, (cur +:+ a)%string <> ""%string -> getlines cur a d = [(cur +:+ a)%string].
Proof.
  induction a as [|c a IH]; intros Ha cur Hne.
  - cbn [getlines]. rewrite string_app_empty in *. by rewrite bool_decide_false.
  - destruct Ha as [Hc Ha]. cbn [getlines]. rewrite bool_decide_false by done.
    assert ((cur +:+ String c "") +:+ a = cur +:+ String c a)%string as E by (by rewrite string_app_assoc).
    rewrite IH; [by rewrite E|done|by rewrite E].
Qed.

Lemma separator_splitter : separator LABEL_SPLITER.
Proof. unfold LABEL_SPLITER. split; [done|]. by apply (bool_decide_unpack _); vm_compute. Qed.
Lemma free_number (z : Z) : free LABEL_SPLITER (pretty z).
Proof. apply free_pretty, separator_splitter. Qed.
Lemma free_hash (n : N) : free LABEL_SPLITER (pretty n).
Proof. destruct n as [|p]; [exact (free_number 0)|exact (free_number (Z.pos p))]. Qed.
Lemma free_prefix : free LABEL_SPLITER NOTIFICATION_PREFIX.
Proof. repeat split; discriminate. Qed.

(** A number at the end of a label. *)
Lemma getlines_number (z : Z) : getlines "" (pretty z) LABEL_SPLITER = [pretty z].
Proof. by rewrite getlines_last by (apply free_number || apply pretty_nonempty). Qed.

Lemma piece (a rest : string) : free LABEL_SPLITER a ->
  getlines "" (a +:+ SEPARATOR +:+ rest) LABEL_SPLITER = a :: getlines "" rest LABEL_SPLITER.
Proof. intros Ha. exact (getlines_piece LABEL_SPLITER a Ha "" rest). Qed.

Section Labels.
Context `{ContinuousPlatform}.

Lemma StringSplit_label uid name abilityId by_request id :
  StringSplit (CreateNotificationLabel uid name abilityId by_request id) LABEL_SPLITER =
  [NOTIFICATION_PREFIX; pretty uid; pretty (string_hash name); pretty abilityId] ++
  (if by_request then [pretty id] else []).
Proof.
  unfold StringSplit, CreateNotificationLabel.
  rewrite !piece by (apply free_prefix || apply free_number || apply free_hash).
  destruct by_request.
  - rewrite piece by apply free_number. by rewrite getlines_number.
  - by rewrite string_app_empty, getlines_number.
Qed.
Lemma StringSplit_sub_label uid name abilityId id pid :
  StringSplit (CreateSubNotificationLabel uid name abilityId id pid) LABEL_SPLITER =
  [NOTIFICATION_PREFIX; pretty uid; pretty (string_hash name); pretty abilityId; pretty id; pretty pid].
Proof.
  unfold StringSplit, CreateSubNotificationLabel.
  rewrite !piece by (apply free_prefix || apply free_number || apply free_hash).
  by rewrite getlines_number.
Qed.

Lemma label_key_main r :
  label_key (StringSplit (CreateNotificationLabel (ct_uid_ r) (ct_abilityName_ r) (ct_abilityId_ r)
    (ct_isByRequestObject_ r) (ct_continuousTaskId_ r)) LABEL_SPLITER) (ct_abilityName_ r) = task_key r.
Proof.
  rewrite StringSplit_label. unfold label_key, task_key, context_key.
  destruct (ct_isByRequestObject_ r); cbn; [by rewrite bool_decide_true by auto|].
  rewrite bool_decide_false by (intros [|]; discriminate). by rewrite string_app_empty.
Qed.

(** C35. The label of the notification of a task names the task: split at its separators, and with
    the name of the ability that travels beside it, it gives the key the task has in the
    map; and so does the label of the second notification of a task asked for by request
    object. *)
Theorem notification_labels_name_their_task r :
  label_key (StringSplit (CreateNotificationLabel (ct_uid_ r) (ct_abilityName_ r) (ct_abilityId_ r)
    (ct_isByRequestObject_ r) (ct_continuousTaskId_ r)) LABEL_SPLITER) (ct_abilityName_ r) = task_key r /\
  (ct_isByRequestObject_ r = true ->
   label_key (StringSplit (CreateSubNotificationLabel (ct_uid_ r) (ct_abilityName_ r) (ct_abilityId_ r)
     (ct_continuousTaskId_ r) (ct_pid_ r)) LABEL_SPLITER) (ct_abilityName_ r) = task_key r).
Proof.
  split; [apply label_key_main|]. intros Hr. rewrite StringSplit_sub_label. unfold label_key, task_key, context_key.
  rewrite Hr. cbn. by rewrite bool_decide_true by auto.
Qed.

(** ** A notification the user removes *)

(** The event of a task's main notification. *)
Definition removal_of (n : NotificationEvent) (r : ContinuousTaskRecord) (s : ContinuousMgr) : Prop :=
  ne_creatorUid n = cm_bgTaskUid_ s /\ ne_abilityName n = Some (ct_abilityName_ r) /\
  ne_label n = CreateNotificationLabel (ct_uid_ r) (ct_abilityName_ r) (ct_abilityId_ r)
    (ct_isByRequestObject_ r) (ct_continuousTaskId_ r).

Definition shares_notification (r t : ContinuousTaskRecord) : bool :=
  (ct_notificationId_ t =? ct_notificationId_ r) && bool_decide (ct_notificationLabel_ t = ct_notificationLabel_ r).

Lemma SetReason_run key r reason detailed e s : tasks s !! key = Some r ->
  exists r', tasks (SetReason key reason detailed e s).2 = <[key := r']> (tasks s) /\
    ct_notificationId_ r' = ct_notificationId_ r /\ ct_notificationLabel_ r' = ct_notificationLabel_ r.
Proof.
  intros Hk. unfold SetReason. rewrite bind_run. cbn [find_key get fst snd]. rewrite Hk.
  eexists. split; [done|]. by case_test.
Qed.

Lemma StopContinuousTaskByUserInner_without key r b e s : tasks s !! key = Some r -> ct_notificationId_ r <> -1 ->
  tasks (StopContinuousTaskByUserInner key b e s).2 = without (shares_notification r) (tasks s).
Proof.
  intros Hk Hn. unfold StopContinuousTaskByUserInner. rewrite bind_run. cbn [find_key get fst snd]. rewrite Hk.
  rewrite (proj2 (Z.eqb_neq _ _) Hn). cbn [negb]. rewrite bind_run. cbn [ret fst snd].
  apply for_tasks_without. split; [|intros; confined].
  apply makes_if; intros k q e0 s0 Ht; unfold shares_notification in Ht.
  - tests. cbn [orb]. match goal with |- tasks (?m _ _).2 !! k = None => enough (erases k m) by done end.
    cbv zeta. erases.
  - apply andb_false_iff in Ht as [-> | ->]; cbn [negb orb]; [done|]. by rewrite orb_true_r.
Qed.

(** When the user removes the notification of a task, that task ends and with it the tasks
    that share the notification; every other task is as it was. *)
Theorem removed_notification_ends_its_tasks n reason r e s :
  cm_isSysReady_ s = true -> removal_of n r s -> tasks s !! task_key r = Some r ->
  ct_notificationId_ r <> -1 -> reason <> APP_CANCEL_REASON_DELETE ->
  tasks (OnCanceled (Some n) reason e s).2 = without (shares_notification r) (tasks s).
Proof.
  intros Hready (Hu & Hn & Hl) Hk Hid Hreason. unfold OnCanceled. rewrite bind_get, Hu, Z.eqb_refl.
  unfold CancelNotificationByBgTask. rewrite Hl, Hn. rewrite StringSplit_label.
  pose proof (label_key_main r) as Hkey. rewrite StringSplit_label in Hkey.
  set (parts := [_; _; _; _] ++ _) in *.
  assert (length parts = if ct_isByRequestObject_ r then 5%nat else 4%nat) as Hlen
    by (unfold parts; by destruct (ct_isByRequestObject_ r)).
  assert (parts !! 0%nat = Some NOTIFICATION_PREFIX) as H0 by done. clearbody parts.
  rewrite bool_decide_false by (rewrite H0; intros [_ [=]]).
  rewrite (bool_decide_true (parts !! 0%nat = _)) by done. cbn [negb orb].
  rewrite bool_decide_false by (rewrite Hlen; destruct (ct_isByRequestObject_ r); unfold LABEL_SIZE; lia).
  rewrite (proj2 (Z.eqb_neq _ _) Hreason). cbv zeta. rewrite Hkey, bind_state.
  unfold StopContinuousTaskByUser. rewrite bind_get, Hready. cbn [negb]. rewrite bind_run.
  match goal with |- context [SetReason ?k ?x ?d e s] => destruct (SetReason_run k r x d e s Hk) as (r' & Et & E1 & E2);
    set (s1 := (SetReason k x d e s).2) in * end.
  rewrite (StopContinuousTaskByUserInner_without _ r'); [|by rewrite Et, lookup_insert_eq|by rewrite E1].
  rewrite Et. apply map_eq. intros k. unfold without. rewrite !map_lookup_filter.
  destruct (decide (k = task_key r)) as [->|Hne]; [|rewrite lookup_insert_ne by done; unfold shares_notification; by rewrite E1, E2].
  rewrite lookup_insert_eq, Hk. cbn. unfold shares_notification. rewrite E1, E2, Z.eqb_refl, bool_decide_true by done.
  by repeat case_guard.
Qed.
End Labels.
