(* ===== verification/ContinuousAuthProps.v ===== *)
(** * Continuous task manager: the authorisations of users

    Which operations leave the authorisations alone ([Leaves]), which only take them away
    ([grants_nothing]), and where a grant comes from. *)

From S2P Require Import Prelude.
From S2P Require Import Errors.
From S2P Require Import Interfaces.
From S2P Require Import BackgroundModes.
From S2P Require Import Json.
From S2P Require Import ResourceStorage.
From S2P Require Import ContinuousTaskRecord.
From S2P Require Import ContinuousTypes.
From S2P Require Import NotificationTools.
From S2P Require Import ContinuousTaskMgr.
From S2P Require Import ContinuousTaskStart.
From S2P Require Import ContinuousTaskStop.
From S2P Require Import ContinuousAuth.
From S2P Require Import ContinuousQueries.
From S2P Require Import ContinuousRestart.
From S2P Require Import ContinuousSystem.
From S2P Require Import ContinuousTaskMgrSpec.
From S2P Require Import ContinuousActivation.
Import BackgroundMode UserAuthResult.
Local Open Scope Z_scope.

(** ** Operations that leave the authorisations alone *)
Create HintDb leaves.
Definition Leaves {A} (m : CM A) : Prop := forall e s, banners (m e s).2 = banners s.

Lemma leaves_bind {A B} (m : CM A) (k : A -> CM B) : Leaves m -> (forall a, Leaves (k a)) -> Leaves (bind m k).
Proof. intros Hm Hk e s. rewrite bind_run, Hk. apply Hm. Qed.
Lemma leaves_modify f : (forall s, banners (f s) = banners s) -> Leaves (modify f).
Proof. intros Hf e s. apply Hf. Qed.
Lemma leaves_for_each {A} (l : list A) body : (forall x, Leaves (body x)) -> Leaves (for_each l body).
Proof. intros Hb. induction l as [|x l IH]; [done|]. apply leaves_bind; [apply Hb|]. intros _. apply IH. Qed.

Lemma leaves_for_err {A} (l : list A) body : (forall x, Leaves (body x)) -> Leaves (for_err l body).
Proof. intros Hb. induction l as [|x l IH]; [done|]. apply leaves_bind; [apply Hb|]. intros z. by case_test. Qed.

Ltac head_of t := match t with ?f _ => head_of f | ?f => f end.
Ltac leaves_step :=
  first
    [ match goal with |- forall _, _ => intros ? end
    | solve [auto with leaves]
    | apply leaves_bind
    | (apply leaves_modify; done)
    | apply leaves_for_each | apply leaves_for_err
    | match goal with
      | |- Leaves (match ?x with _ => _ end) => destruct x
      | |- Leaves (let _ := ?x in _) => cbv zeta
      | |- Leaves (ret _) => done
      | |- Leaves (ask _) => done
      | |- Leaves (get _) => done
      | |- Leaves (emit _) => done
      | |- Leaves (emits _) => done
      | |- Leaves ?m => let f := head_of m in unfold f
      end ].
Ltac leaves := repeat leaves_step.


Section Leave.
Context `{ContinuousPlatform}.

Lemma leaves_GetNotificationText r : Leaves (GetNotificationText r).
Proof. leaves. Qed.
Lemma leaves_CheckNotificationText r : Leaves (CheckNotificationText r).
Proof. leaves. Qed.
#[local] Hint Resolve leaves_GetNotificationText leaves_CheckNotificationText : leaves.
Lemma leaves_PublishNotification r appName prompt uid : Leaves (PublishNotification r appName prompt uid).
Proof. leaves. Qed.
Lemma leaves_CancelNotification r : Leaves (CancelNotification r).
Proof. leaves. Qed.
#[local] Hint Resolve leaves_PublishNotification leaves_CancelNotification : leaves.
Lemma leaves_SendNotification subRecord r appName b : Leaves (SendNotification subRecord r appName b).
Proof. leaves. Qed.
#[local] Hint Resolve leaves_SendNotification : leaves.
Lemma leaves_SendContinuousTaskNotification r : Leaves (SendContinuousTaskNotification r).
Proof. leaves. Qed.
Lemma leaves_SendLiveViewAndOtherNotification r : Leaves (SendLiveViewAndOtherNotification r).
Proof. leaves. Qed.
Lemma leaves_OnContinuousTaskChanged r t : Leaves (OnContinuousTaskChanged r t).
Proof. leaves. Qed.
#[local] Hint Resolve leaves_SendContinuousTaskNotification leaves_SendLiveViewAndOtherNotification
  leaves_OnContinuousTaskChanged : leaves.
Lemma leaves_remove_with_notifications key reason detailed r : Leaves (remove_with_notifications key reason detailed r).
Proof. leaves. Qed.
Lemma leaves_active_loop fuel uid keys label id olds : Leaves (active_loop fuel uid keys label id olds).
Proof.
  revert keys label id olds. induction fuel as [|fuel IH]; intros [|key keys] label id olds; [done..|]. cbn [active_loop]. leaves.
Qed.
#[local] Hint Resolve leaves_remove_with_notifications leaves_active_loop : leaves.
Lemma leaves_HandleActive uid pid key : Leaves (HandleActiveContinuousTask uid pid key).
Proof. leaves. Qed.
#[local] Hint Resolve leaves_HandleActive : leaves.
Lemma leaves_StartSubmit r key : Leaves (StartBackgroundRunningSubmit r key).
Proof. leaves. Qed.
Lemma leaves_CheckBgmodeType r : Leaves (AllowApplyContinuousTask r).
Proof. leaves. Qed.
#[local] Hint Resolve leaves_StartSubmit leaves_CheckBgmodeType : leaves.
Lemma leaves_StartInner r : Leaves (StartBackgroundRunningInner r).
Proof. leaves. Qed.
#[local] Hint Resolve leaves_StartInner : leaves.
Lemma leaves_Start p : Leaves (StartBackgroundRunning p).
Proof. leaves. Qed.
#[local] Hint Resolve leaves_Start : leaves.
Lemma leaves_Update p : Leaves (UpdateBackgroundRunning p).
Proof. leaves. Qed.
Lemma leaves_Progress p : Leaves (UpdateDataTransferProgress p).
Proof. leaves. Qed.
Lemma leaves_Stop name ability id : Leaves (StopBackgroundRunning name ability id).
Proof. leaves. Qed.
Lemma leaves_Inner p : Leaves (RequestBackgroundRunningForInner p).
Proof. leaves. Qed.
Lemma leaves_run_posted t : Leaves (run_posted t).
Proof. destruct t; leaves. Qed.
Lemma leaves_SendNotificationByLiveViewCancel uid : Leaves (SendNotificationByLiveViewCancel uid).
Proof. leaves. Qed.
Lemma leaves_StopContinuousTaskByUser key b reason : Leaves (StopContinuousTaskByUser key b reason).
Proof. leaves. Qed.
Lemma leaves_ShellDump options : Leaves (ContinuousQueries.ShellDump options).
Proof. leaves. Qed.
End Leave.
#[export] Hint Resolve leaves_GetNotificationText leaves_CheckNotificationText leaves_PublishNotification
  leaves_CancelNotification leaves_SendNotification leaves_SendContinuousTaskNotification
  leaves_SendLiveViewAndOtherNotification leaves_OnContinuousTaskChanged leaves_remove_with_notifications
  leaves_HandleActive leaves_StartInner leaves_Start leaves_Update leaves_Progress leaves_Stop leaves_Inner
  leaves_run_posted leaves_SendNotificationByLiveViewCancel leaves_StopContinuousTaskByUser leaves_ShellDump : leaves.

(** ** Where a grant comes from *)

(** The record of the same application, with the same decision. *)
Definition same_grant (b b' : BannerNotificationRecord) : Prop :=
  bn_bundleName_ b = bn_bundleName_ b' /\ bn_userId_ b = bn_userId_ b' /\ bn_appIndex_ b = bn_appIndex_ b' /\
  bn_authResult_ b = bn_authResult_ b'.

(** Every grant of [m'] is one of [m]. *)
Definition grants_of (m m' : gmap string BannerNotificationRecord) : Prop :=
  forall key b', m' !! key = Some b' -> granted (bn_authResult_ b') = true ->
  exists b, m !! key = Some b /\ same_grant b b'.

Section From.
Context `{ContinuousPlatform}.
Context (old : gmap string BannerNotificationRecord).

Definition From {A} (m : CM A) : Prop := forall e s, grants_of old (banners s) -> grants_of old (banners (m e s).2).

Lemma from_leaves {A} (m : CM A) : Leaves m -> From m.
Proof. intros Hm e s Hs. by rewrite Hm. Qed.
Lemma from_bind {A B} (m : CM A) (k : A -> CM B) : From m -> (forall a, From (k a)) -> From (bind m k).
Proof. intros Hm Hk e s Hs. rewrite bind_run. by apply Hk, Hm. Qed.
Lemma from_get {A B} (f : ContinuousMgr -> A) (k : A -> CM B) :
  (forall s, grants_of old (banners s) -> From (k (f s))) -> From (bind (get f) k).
Proof. intros Hk e s Hs. rewrite bind_get. by apply Hk. Qed.
Lemma from_yields {A B} (m : CM A) (φ : A -> Prop) (k : A -> CM B) :
  Leaves m -> yields m φ -> (forall a, φ a -> From (k a)) -> From (bind m k).
Proof. intros Hm Hy Hk e s Hs. rewrite bind_run. apply Hk; [apply Hy|by rewrite Hm]. Qed.
Lemma from_for_each {A} (l : list A) body : (forall x, x ∈ l -> From (body x)) -> From (for_each l body).
Proof.
  intros Hb. induction l as [|x l IH]; [by apply from_leaves|]. apply from_bind; [apply Hb; left|].
  intros _. apply IH. intros y Hy. apply Hb. by right.
Qed.
Lemma from_erase key : From (erase_banner key).
Proof. intros e s Hs k b Hk. cbn in Hk. apply lookup_delete_Some in Hk as [_ Hk]. by apply Hs. Qed.
Lemma from_put key b :
  (granted (bn_authResult_ b) = true -> exists b0, old !! key = Some b0 /\ same_grant b0 b) -> From (put_banner key b).
Proof.
  intros Hb e s Hs k b' Hk Hg. cbn in Hk. apply lookup_insert_Some in Hk as [[<- <-]|[_ Hk]]; [by apply Hb|by apply Hs].
Qed.
End From.

Create HintDb from.
#[export] Hint Resolve from_erase : from.
Ltac from_step :=
  first
    [ match goal with |- forall _, _ => intros ? end
    | solve [auto with from]
    | solve [apply from_leaves; leaves]
    | match goal with |- From _ (bind (get _) _) => apply from_get; intros ? ? end
    | apply from_bind
    | apply from_for_each
    | match goal with
      | |- From _ (match ?x with _ => _ end) => destruct x eqn:?
      | |- From _ (let _ := ?x in _) => cbv zeta
      end ].
Ltac from := repeat from_step.

Section Grants.
Context `{ContinuousPlatform}.
Context (old : gmap string BannerNotificationRecord).

Lemma from_erase_banners_where test : From old (erase_banners_where test).
Proof. unfold erase_banners_where. from. Qed.
#[local] Hint Resolve from_erase_banners_where : from.

Lemma from_OnAppStopped uid : From old (OnAppStopped uid).
Proof. unfold OnAppStopped. from. Qed.
Lemma from_OnBundleInfoChanged action name uid user app : From old (OnBundleInfoChanged action name uid user app).
Proof. unfold OnBundleInfoChanged. from. Qed.
Lemma from_OnCanceled n reason : From old (OnCanceled n reason).
Proof.
  unfold OnCanceled, CancelNotificationByBgTask, StopBannerContinuousTaskByUser, StopBannerContinuousTaskByUserInner. from.
Qed.
Lemma from_CallbackDeath remote : From old (HandleAuthExpiredCallbackDeath remote).
Proof. unfold HandleAuthExpiredCallbackDeath, HandleAuthExpiredCallbackDeathInner, if_ready. from. Qed.
Lemma from_RemoveAuth p : From old (RemoveAuthRecord p).
Proof. unfold RemoveAuthRecord, RemoveAuthRecordInner. from. Qed.

(** A request is not yet granted. *)
Lemma PublishBannerNotification_yields b text uid buttons :
  yields (PublishBannerNotification b text uid buttons) (fun a => bn_authResult_ a.2 = bn_authResult_ b).
Proof.
  unfold PublishBannerNotification. repeat (case_test; [by apply yields_ret|]). apply yields_any. intros id.
  cbv zeta. apply yields_any. intros []; [|by apply yields_ret]. cbn [negb]. apply yields_any.
  intros []; by apply yields_ret.
Qed.
Lemma from_asked key b : bn_authResult_ b = NOT_DETERMINED -> From old (put_banner key b).
Proof. intros Hb. apply from_put. by rewrite Hb. Qed.
Lemma from_RequestAuthInner r callback id version : From old (RequestAuthFromUserInner r callback id version).
Proof.
  unfold RequestAuthFromUserInner. apply from_bind; [from|]. intros [x r']. case_test; [from|]. cbv zeta. case_test.
  - from. by apply from_asked.
  - apply from_bind; [from|]. intros [text|]; [|from]. apply from_get. intros s1 _. apply from_get. intros s2 _.
    eapply from_yields; [leaves|apply PublishBannerNotification_yields|]. intros [y b] Hb. cbn in Hb.
    case_test; [from|]. from. by apply from_asked.
Qed.
#[local] Hint Resolve from_RequestAuthInner : from.
Lemma from_RequestAuth p callback id : From old (RequestAuthFromUser p callback id).
Proof. unfold RequestAuthFromUser. from. Qed.

(** The change of the language gives each record a name. *)
Lemma leaves_refreshed_prompts infos l : Leaves (refreshed_prompts infos l).
Proof. revert infos. induction l as [|[key r] l IH]; intros infos; [done|]. cbn [refreshed_prompts]. leaves. Qed.
Lemma from_OnBundleResourcesChanged : From old OnBundleResourcesChanged.
Proof.
  unfold OnBundleResourcesChanged, OnBundleResourcesChangedInner. apply from_get. intros s0 _.
  do 2 (apply from_bind; [from|intros _]). apply from_get. intros s1 _.
  apply from_bind; [apply from_leaves, leaves_refreshed_prompts|]. intros infos. apply from_get. intros s2 _.
  apply from_bind; [from|]. intros _. apply from_get. intros s3 Hs. apply from_for_each. intros [key b] Hb.
  apply elem_of_map_to_list in Hb. apply from_bind; [from|]. intros appName. apply from_bind; [|from].
  apply from_put. intros Hg. by destruct (Hs key b Hb Hg) as (b0 & ? & ?); exists b0.
Qed.

(** The operations by which a user, or the system for the user, decides. *)
Definition decides (op : ContOp) : bool :=
  match op with OpBannerClick _ _ _ | OpDialogClick _ _ _ _ | OpSetState _ => true | _ => false end.

#[local] Hint Resolve from_OnAppStopped from_OnBundleInfoChanged from_OnCanceled from_CallbackDeath from_RemoveAuth
  from_RequestAuth from_OnBundleResourcesChanged : from.
Lemma from_exec op : decides op = false -> From old (exec op).
Proof.
  intros Hop. destruct op; try discriminate Hop; cbn [exec]; try (apply from_bind; [|from]); auto with from;
    apply from_leaves; leaves.
Qed.
End Grants.

Section Decisions.
Context `{ContinuousPlatform}.

(** The records that one of those operations writes. *)
Definition decision (op : ContOp) (s : ContinuousMgr) (key : string) (b' : BannerNotificationRecord) : Prop :=
  let answer v := exists b, banners s !! key = Some b /\ b' = bn_SetAuthResult v b in
  match op with
  | OpBannerClick button _ label => key = label /\
      ((button = BGTASK_BANNER_NOTIFICATION_BTN_ALLOW_TIME /\ answer GRANTED_ONCE) \/
       (button = BGTASK_BANNER_NOTIFICATION_BTN_ALLOW_ALLOWED /\ answer GRANTED_ALWAYS))
  | OpDialogClick authResult _ bundleName appIndex =>
      DENIED <= authResult < UAR_END /\
      (exists userId, key = CreateBannerNotificationLabel bundleName userId appIndex) /\ answer authResult
  | OpSetState (Some p) =>
      NOT_SUPPORTED <= bs_authResult_ p < UAR_END /\ bn_authResult_ b' = bs_authResult_ p /\
      of_application (bs_bundleName_ p) (bs_userId_ p) (bs_appIndex_ p) b' = true
  | _ => False
  end.

Lemma grants_refl m : grants_of m m.
Proof. intros key b Hk _. by exists b. Qed.

Lemma find_banner_found q m key b : find_banner_in q m = Some (key, b) -> m !! key = Some b /\ q b = true.
Proof.
  unfold find_banner_in. destruct (list_find _ _) as [[i [k b']]|] eqn:E; [|done]. cbn. intros [= -> ->].
  apply list_find_Some in E as (Hl & Hq & _). split; [|exact Hq].
  by apply elem_of_map_to_list, list_elem_of_lookup_2 with i.
Qed.

(** After one written record, every record is that one or an old one. *)
Lemma one_written {A} key0 b0 (m : CM A) e s key b' : Leaves m ->
  banners (bind (put_banner key0 b0) (fun _ => m) e s).2 !! key = Some b' ->
  (key = key0 /\ b' = b0) \/ banners s !! key = Some b'.
Proof.
  intros Hm Hk. rewrite bind_run, Hm in Hk. cbn in Hk. apply lookup_insert_Some in Hk as [[<- <-]|[_ Hk]]; auto.
Qed.

(** The outcome of an operation: an old grant, or a decision. *)
Definition from_decision (op : ContOp) (s : ContinuousMgr) (m : gmap string BannerNotificationRecord) : Prop :=
  forall key b', m !! key = Some b' -> granted (bn_authResult_ b') = true ->
  (exists b, banners s !! key = Some b /\ same_grant b b') \/ (cm_isSysReady_ s = true /\ decision op s key b').

Lemma no_decision op s : from_decision op s (banners s).
Proof. intros key b' Hk _. left. by exists b'. Qed.
Lemma one_decision {A} op key0 b0 (m : CM A) e s : Leaves m -> cm_isSysReady_ s = true -> decision op s key0 b0 ->
  from_decision op s (banners (bind (put_banner key0 b0) (fun _ => m) e s).2).
Proof.
  intros Hm Hready Hd key b' Hk Hg. apply one_written in Hk as [[-> ->]|Hk]; [by right|left; by exists b'|done].
Qed.

Lemma banner_click_decides button uid label e s :
  from_decision (OpBannerClick button uid label) s (banners (OnBannerNotificationActionButtonClick button uid label e s).2).
Proof.
  unfold OnBannerNotificationActionButtonClick, if_ready. rewrite bind_get.
  destruct (cm_isSysReady_ s) eqn:Er; [|apply no_decision]. cbn [negb].
  unfold OnBannerNotificationActionButtonClickInner. rewrite bind_get.
  destruct (banners s !! label) as [b|] eqn:Eb; [|apply no_decision]. cbv zeta.
  destruct (Z.eqb_spec button BGTASK_BANNER_NOTIFICATION_BTN_ALLOW_TIME) as [->|_];
    [|destruct (Z.eqb_spec button BGTASK_BANNER_NOTIFICATION_BTN_ALLOW_ALLOWED) as [->|_]; [|apply no_decision]];
    (apply one_decision; [leaves|done|]); cbn [decision]; (split; [done|]); eauto 10.
Qed.

Lemma dialog_click_decides authResult uid name app e s :
  from_decision (OpDialogClick authResult uid name app) s
    (banners (OnPermissionDialogButtonClickInner authResult uid name app e s).2).
Proof.
  unfold OnPermissionDialogButtonClickInner. rewrite bind_get.
  destruct (cm_isSysReady_ s) eqn:Er; [|apply no_decision]. cbn [negb].
  case_test; [apply no_decision|]. apply orb_false_iff in Hc as [Hl Hu]. rewrite bind_run.
  assert ((GetOsAccountIdFromUid uid e s).2 = s) as -> by (unfold GetOsAccountIdFromUid; by case_test).
  cbv zeta. rewrite bind_get.
  destruct (banners s !! _) as [b|] eqn:Eb; [|apply no_decision].
  apply one_decision; [leaves|done|]. cbn [decision]. split; [lia|]. split; [by eexists|]. by exists b.
Qed.

Lemma set_state_decides p e s : from_decision (OpSetState p) s (banners (SetBackgroundTaskState p e s).2).
Proof.
  unfold SetBackgroundTaskState. rewrite bind_get. destruct (cm_isSysReady_ s) eqn:Er; [|apply no_decision].
  cbn [negb]. destruct p as [p|]; [|apply no_decision]. case_test; [apply no_decision|].
  repeat (apply orb_false_iff in Hc as [Hc ?]). unfold SetBackgroundTaskStateInner. rewrite bind_run.
  cbn [find_banner get fst snd].
  assert (Leaves (bind RefreshAuthRecord (fun _ => ret ERR_OK))) as Hq by leaves.
  destruct (find_banner_in _ (banners s)) as [[key b]|] eqn:Ef.
  - apply find_banner_found in Ef as [Hk Ho]. apply one_decision; [done..|]. cbn [decision]. split; [lia|]. by split.
  - rewrite bind_run, bind_get. rewrite Hq. case_test; [apply no_decision|].
    intros key b' Hk Hg. cbn in Hk. apply lookup_insert_Some in Hk as [[<- <-]|[_ Hk]]; [right|left; by exists b'].
    split; [done|]. cbn [decision]. split; [lia|]. split; [done|]. unfold of_application. cbn.
    by rewrite bool_decide_true, !Z.eqb_refl.
Qed.

Lemma operation_decides op e s : from_decision op s (banners (exec op e s).2).
Proof.
  destruct (decides op) eqn:Hop.
  2: { intros key b' Hk Hg. left. exact (from_exec (banners s) op Hop e s (grants_refl _) key b' Hk Hg). }
  destruct op; try discriminate Hop; cbn [exec].
  - apply banner_click_decides.
  - apply dialog_click_decides.
  - rewrite bind_state. apply set_state_decides.
Qed.

(** *** Files *)
Context `{Json J}.

(** A record of the application's in a file of authorisations. *)
Definition stored (file : option J) (key : string) (b : BannerNotificationRecord) : Prop :=
  exists root value, file = Some root /\ Json.is_object root = true /\ members root !! key = Some value /\
    bn_ParseFromJson value new_BannerNotificationRecord = (true, b).

Lemma elem_of_by_name {A} (m : gmap string A) e : e ∈ by_name m -> m !! e.1 = Some e.2.
Proof. unfold by_name. rewrite merge_sort_Permutation. destruct e as [k v]. apply elem_of_map_to_list. Qed.
Lemma restored_from file m key b : ds_RestoreAuthRecord file m !! key = Some b ->
  m !! key = Some b \/ stored file key b.
Proof.
  unfold ds_RestoreAuthRecord. destruct file as [root|]; [|by left].
  destruct (is_null root || negb (Json.is_object root)) eqn:Eroot; [by left|].
  apply orb_false_iff in Eroot as [_ Eroot%negb_false_iff].
  assert (forall e, e ∈ by_name (members root) -> members root !! e.1 = Some e.2) as Hin
    by (intros e; apply elem_of_by_name).
  revert m Hin. induction (by_name (members root)) as [|[k v] l IH]; intros m Hin; [by left|].
  cbn [fold_left fst snd]. specialize (fun m => IH m (fun e He => Hin e (list_elem_of_further _ _ _ He))).
  destruct (bn_ParseFromJson v new_BannerNotificationRecord) as [[] b0] eqn:Ep; cbn [negb orb]; [|by apply IH].
  case_match; [by apply IH|]. destruct (m !! k) eqn:Ek; [by apply IH|].
  intros Hk. destruct (IH _ Hk) as [Hb|Hb]; [|by right].
  apply lookup_insert_Some in Hb as [[<- <-]|[_ Hb]]; [right|by left].
  exists root, v. split; [done|]. split; [done|]. split; [|done]. apply (Hin (k, v)). left.
Qed.

Lemma leaves_CheckPersistenceData processes : Leaves (CheckPersistenceData processes).
Proof. leaves. Qed.
Lemma leaves_RestoreApplyRecord : Leaves RestoreApplyRecord.
Proof. leaves. Qed.
Lemma HandlePersistenceData_banners (taskFile authFile : option J) e s :
  let s' := (HandlePersistenceData taskFile authFile e s).2 in
  banners s' = banners s \/ banners s' = ds_RestoreAuthRecord authFile (banners s).
Proof.
  cbv zeta. unfold HandlePersistenceData. rewrite bind_get.
  destruct (ds_RestoreTaskRecord taskFile (tasks s)) as [m|]; [|by left].
  rewrite bind_modify, bind_ask. destruct (ce_GetAllRunningProcesses e) as [processes|]; [|by left]. right.
  rewrite bind_run. set (s1 := cm_set_continuousTaskInfosMap_ m s).
  pose proof (leaves_CheckPersistenceData processes e s1) as E2.
  set (s2 := (CheckPersistenceData processes e s1).2) in *. clearbody s2.
  rewrite bind_run. set (s3 := (RefreshTaskRecord e s2).2). assert (banners s3 = banners s2) as E3 by done. clearbody s3.
  rewrite bind_run. pose proof (leaves_RestoreApplyRecord e s3) as E4.
  set (s4 := (RestoreApplyRecord e s3).2) in *. clearbody s4. rewrite bind_modify.
  change (banners s) with (banners s1). rewrite <- E2, <- E3, <- E4.
  unfold RefreshAuthRecord. by destruct (ds_auth_restored authFile).
Qed.
Lemma leaves_texts : Leaves InitNotificationText /\ Leaves GetNotificationPrompt.
Proof. split; leaves. Qed.
Lemma Init_banners ownUid services listeners (taskFile authFile : option J) e :
  let s' := (Init ownUid services listeners taskFile authFile e new_ContinuousMgr).2 in
  banners s' = ∅ \/ banners s' = ds_RestoreAuthRecord authFile ∅.
Proof.
  cbv zeta. unfold Init, InitNecessaryState, InitRequiredResourceInfo. rewrite bind_modify.
  set (s0 := cm_set_bgTaskUid_ ownUid new_ContinuousMgr). assert (banners s0 = ∅) as E0 by done. clearbody s0.
  case_test; [by left|]. case_test; [by left|]. destruct leaves_texts as [H1 H2].
  rewrite bind_run. specialize (H1 e s0). set (s1 := (InitNotificationText e s0).2) in *. clearbody s1.
  rewrite bind_run. specialize (H2 e s1). set (s2 := (GetNotificationPrompt e s1).2) in *. clearbody s2.
  rewrite bind_run. pose proof (HandlePersistenceData_banners taskFile authFile e s2) as Hh. cbv zeta in Hh.
  rewrite H2, H1, E0 in Hh. by destruct (HandlePersistenceData taskFile authFile e s2) as [[[]|] s3].
Qed.

(** All that changes the authorisations: an operation; the restore of a backup; and the
    start of the service, which has no authorisations before. *)
Inductive AuthEvent :=
| AuOperation (op : ContOp)
| AuRestore (copied : bool) (backup : option J)
| AuStart (ownUid : Z) (services listeners : bool) (taskFile authFile : option J).
Definition auth_event (event : AuthEvent) : CM unit :=
  match event with
  | AuOperation op => exec op
  | AuRestore copied backup => OnRestore copied backup ;;; ret tt
  | AuStart ownUid services listeners taskFile authFile => fun e _ =>
      (tt, (Init ownUid services listeners taskFile authFile e new_ContinuousMgr).2)
  end.
(** What lets a grant be new. *)
Definition grant_source (event : AuthEvent) (s : ContinuousMgr) (key : string) (b : BannerNotificationRecord) : Prop :=
  match event with
  | AuOperation op => cm_isSysReady_ s = true /\ decision op s key b
  | AuRestore copied backup => cm_isSysReady_ s = true /\ copied = true /\ stored backup key b
  | AuStart _ _ _ _ authFile => stored authFile key b
  end.

(** C24. A grant of the special mode is a user's.  Where an operation, the restore of a backup
    or a start of the service leaves a granted record, the same application had the same
    grant before it; or the operation is a click on the banner or in the dialog, on a record
    that was there, with the button's or the dialog's result; or it is the setting by the
    system, with its result for its application; or the record is one of the backup that is
    restored, or of the file of authorisations the service starts from. *)
Theorem grants_come_from_decisions event e s key b' :
  banners (auth_event event e s).2 !! key = Some b' -> granted (bn_authResult_ b') = true ->
  (exists b, banners s !! key = Some b /\ same_grant b b') \/ grant_source event s key b'.
Proof.
  destruct event as [op|copied backup|ownUid services listeners taskFile authFile]; cbn [auth_event grant_source]; intros Hk Hg.
  - exact (operation_decides op e s key b' Hk Hg).
  - rewrite bind_state in Hk. unfold OnRestore in Hk. rewrite bind_get in Hk.
    destruct (cm_isSysReady_ s); cbn [negb] in Hk; [|left; by exists b'].
    destruct copied; cbn [negb] in Hk; [|left; by exists b']. rewrite bind_modify in Hk.
    assert (ds_RestoreAuthRecord backup (banners s) !! key = Some b') as [Hb|Hb]%restored_from
      by (destruct (ds_auth_restored backup); exact Hk).
    + left. by exists b'.
    + by right.
  - cbn [snd] in Hk. right. pose proof (Init_banners ownUid services listeners taskFile authFile e) as [E|E]; cbv zeta in E;
      rewrite E in Hk; [by rewrite lookup_empty in Hk|].
    apply restored_from in Hk as [Hk|Hk]; [by rewrite lookup_empty in Hk|done].
Qed.
End Decisions.

(** ** Bounds *)
Section Bounds.
Context `{ContinuousPlatform}.

Lemma caller_record_defined p e s :
  (caller_record p e s).1 = None <-> tp_bgModeIds_ p = [].
Proof.
  unfold caller_record. rewrite !bind_ask, bind_run. cbn [fst].
  rewrite bind_ask. unfold new_ContinuousTaskRecord.
  destruct (list_find _ (tp_bgModeIds_ p)) as [[i m]|] eqn:E.
  - unfold InitRecordParam. rewrite bind_run, !bind_ask. cbn. split; [done|]. intros E0. by rewrite E0 in E.
  - destruct (tp_bgModeIds_ p) as [|m l]; [done|].
    unfold InitRecordParam. rewrite bind_run, !bind_ask. done.
Qed.

Lemma RequestAuthFromUser_defined p callback id e s : (RequestAuthFromUser p callback id e s).1 <> None.
Proof.
  unfold RequestAuthFromUser. rewrite bind_get. case_test; [done|]. destruct p as [q|], callback as [c|]; try done.
  rewrite bind_run. unfold CheckSpecialModePermission.
  destruct (decide (tp_bgModeIds_ q = [])) as [->|Hne]; [done|].
  set (x := (_ : CM Z) e s). clearbody x. destruct x as [x s1]. cbn [fst snd]. case_test; [done|].
  rewrite bind_run. pose proof (caller_record_defined q e s1) as Hd.
  destruct (caller_record q e s1) as [[r|] s2]; cbn [fst snd] in *; [|by destruct Hne; apply Hd].
  rewrite bind_run. case_test; [done|]. case_test; [done|]. by rewrite bind_run.
Qed.
Lemma RemoveAuthRecord_undefined p e s :
  (RemoveAuthRecord p e s).1 = None <->
  cm_isSysReady_ s = true /\ exists q, p = Some q /\ tp_bgModeIds_ q = [].
Proof.
  unfold RemoveAuthRecord. rewrite bind_get. destruct (cm_isSysReady_ s); cbn [negb].
  2: { split; [done|by intros [? _]]. }
  destruct p as [q|]; [|split; [done|by intros (_ & ? & ? & _)]].
  rewrite bind_run. pose proof (caller_record_defined q e s) as Hd.
  destruct (caller_record q e s) as [[r|] s1]; cbn [fst snd] in *.
  + rewrite bind_run. split; [done|]. intros (_ & q' & [= <-] & E). by apply Hd in E.
  + split; [|done]. intros _. split; [done|]. exists q. split; [done|]. by apply Hd.
Qed.

(** A request to the user never reads outside the modes it comes with: those without modes
    are refused.  The withdrawal of a request makes no such test: with a manager that is
    ready, a parameter whose list of modes is empty has element 0 of the list read, which is
    not there; and only such a parameter has. *)
Theorem auth_requests_in_bounds p callback id e s :
  (RequestAuthFromUser p callback id e s).1 <> None /\
  ((RemoveAuthRecord p e s).1 = None <->
   cm_isSysReady_ s = true /\ exists q, p = Some q /\ tp_bgModeIds_ q = []).
Proof.
  split.
  - apply RequestAuthFromUser_defined.
  - apply RemoveAuthRecord_undefined.
Qed.
End Bounds.
