(* ===== verification/ContinuousRestartProps.v ===== *)
(** * Continuous task manager: what a restart keeps

    The service is killed and started again from the files it wrote: which tasks and
    authorisations it has then. *)

From S2P Require Import Prelude.
From S2P Require Import Errors.
From S2P Require Import Interfaces.
From S2P Require Import BackgroundModes.
From S2P Require Import Json.
From S2P Require Import ContinuousTaskRecord.
From S2P Require Import ContinuousStorageProps.
From S2P Require Import ContinuousTypes.
From S2P Require Import NotificationTools.
From S2P Require Import ContinuousTaskMgr.
From S2P Require Import ContinuousTaskStart.
From S2P Require Import ContinuousTaskStop.
From S2P Require Import ContinuousAuth.
From S2P Require Import ContinuousQueries.
From S2P Require Import ContinuousRestart.
From S2P Require Import ContinuousSystem.
From S2P Require Import ContinuousTaskMgrSpec.
From S2P Require Import ContinuousInvariant.
From S2P Require Import ContinuousWellFormed.
From S2P Require Import ContinuousAuthProps.
Local Open Scope Z_scope.

(** ** Loops whose bodies relate an entry to what they leave of it *)
Section Loops.
Context (R : ContinuousTaskRecord -> option ContinuousTaskRecord -> Prop).
Context (body : string -> ContinuousTaskRecord -> CM unit).
Hypothesis body_relates : forall key r e s, tasks s !! key = Some r -> R r (tasks (body key r e s).2 !! key).
Hypothesis body_confined : forall key r, Confined key (body key r).

Lemma for_each_relates (l : list (string * ContinuousTaskRecord)) e s key :
  NoDup l.*1 -> (forall k r, (k, r) ∈ l -> tasks s !! k = Some r) ->
  let s' := (for_each l (fun x => body x.1 x.2) e s).2 in
  if bool_decide (key ∈ l.*1) then from_option (fun r => R r (tasks s' !! key)) False (tasks s !! key)
  else tasks s' !! key = tasks s !! key.
Proof.
  cbv zeta. revert s. induction l as [|[k r] l IH]; intros s Hn Hl; [done|].
  cbn [for_each fst snd]. rewrite bind_run. inversion_clear Hn as [|? ? Hx Hn'].
  assert (tasks s !! k = Some r) as Hk by (apply Hl; left).
  set (s1 := (body k r e s).2).
  assert (forall k', k' <> k -> tasks s1 !! k' = tasks s !! k') as Hne by (intros; by apply body_confined).
  specialize (IH s1 Hn'). destruct (decide (key = k)) as [->|Hd].
  - rewrite bool_decide_false in IH by done. rewrite bool_decide_true by left. rewrite Hk. cbn.
    rewrite IH; [by apply body_relates|]. intros k' r' Hin. rewrite Hne; [by apply Hl; right|].
    intros ->. apply Hx, list_elem_of_fmap. by exists (k, r').
  - rewrite (bool_decide_ext (key ∈ ((k, r) :: l).*1) (key ∈ l.*1)) by (rewrite fmap_cons; set_solver).
    rewrite <- (Hne key) by done. apply IH. intros k' r' Hin. rewrite Hne; [by apply Hl; right|].
    intros ->. apply Hx, list_elem_of_fmap. by exists (k, r').
Qed.

Lemma for_tasks_relates e s key :
  let s' := (for_tasks body e s).2 in
  match tasks s !! key with Some r => R r (tasks s' !! key) | None => tasks s' !! key = None end.
Proof.
  cbv zeta. unfold for_tasks. rewrite bind_run. cbn [get fst snd].
  pose proof (for_each_relates (map_to_list (tasks s)) e s key (NoDup_fst_map_to_list _)) as Hf.
  specialize (Hf (fun k r => proj1 (elem_of_map_to_list _ _ _))). cbv zeta in Hf.
  destruct (tasks s !! key) as [r|] eqn:E.
  - rewrite bool_decide_true in Hf; [exact Hf|]. apply list_elem_of_fmap. exists (key, r).
    by rewrite elem_of_map_to_list.
  - by case_bool_decide.
Qed.
End Loops.

Section Restart.
Context `{ContinuousPlatform}.

(** What a restart makes of a task: it lives on with its process, or is forgotten. *)
Definition lives_on (processes : list Z) (r : ContinuousTaskRecord) (o : option ContinuousTaskRecord) : Prop :=
  if checkPidCondition processes (ct_pid_ r)
  then from_option (same_state r) False o
  else o = None.

Lemma check_persisted_relates processes key r e s : tasks s !! key = Some r ->
  lives_on processes r (tasks (check_persisted processes key r e s).2 !! key).
Proof.
  intros Hk. unfold check_persisted, lives_on. case_test.
  - case_test; [cbn; by rewrite Hk|]. rewrite bind_run. set (s1 := (SetCachedBundleInfo r e s).2).
    rewrite bind_run. destruct (gives_weaken _ _ _ (gives_HandleActiveNotification r)) as [_ Hy]. specialize (Hy e s1). cbn [id] in Hy.
    set (s2 := (HandleActiveNotification r e s1)) in *. clearbody s2. destruct s2 as [r' s2]. cbn [fst snd] in *.
    unfold put_task. cbn. by rewrite lookup_insert_eq.
  - rewrite bind_run. set (s1 := (erase_task key e s).2). rewrite bind_state.
    pose proof (quiet_CancelNotification r e s1) as Hq. rewrite (tasks_core _ _ Hq). apply lookup_delete_eq.
Qed.
Lemma confined_check_persisted processes key r : Confined key (check_persisted processes key r).
Proof. unfold check_persisted. confined. Qed.

Lemma CheckPersistenceData_lives_on processes e s key :
  let s' := (CheckPersistenceData processes e s).2 in
  match tasks s !! key with Some r => lives_on processes r (tasks s' !! key) | None => tasks s' !! key = None end.
Proof.
  cbv zeta. unfold CheckPersistenceData. rewrite bind_get, bind_run.
  pose proof (for_tasks_relates (lives_on processes) (check_persisted processes)
    (check_persisted_relates processes) (confined_check_persisted processes) e s key) as Hf. cbv zeta in Hf.
  set (s1 := (for_tasks _ e s).2) in *. clearbody s1. rewrite bind_run.
  set (s2 := (if negb (_ =? -1) then SetNotificationIdIndex _ else ret tt) e s1).
  assert (tasks s2.2 = tasks s1) as E2 by (unfold s2; case_test; done).
  destruct s2 as [[] s2]. cbn [snd] in *. rewrite <- E2 in Hf. by case_test.
Qed.

Context `{Json J}.
Implicit Types authFile : option J.

Lemma HandlePersistenceData_restores m authFile processes e s : tasks s = ∅ ->
  ce_GetAllRunningProcesses e = Some processes ->
  let o := HandlePersistenceData (Some (ds_RefreshTaskRecord m)) authFile e s in
  o.1 = Some tt /\
  (forall key, match m !! key with
               | Some r => lives_on processes (reread r) (tasks o.2 !! key)
               | None => tasks o.2 !! key = None
               end) /\
  banners o.2 = ds_RestoreAuthRecord authFile (banners s).
Proof.
  intros Ht Hp. cbv zeta. unfold HandlePersistenceData. rewrite bind_get, Ht, restore_tasks, bind_modify, bind_ask, Hp.
  set (s1 := cm_set_continuousTaskInfosMap_ (reread <$> m) s). rewrite bind_run.
  pose proof (fun key => CheckPersistenceData_lives_on processes e s1 key) as Hl. cbv zeta in Hl.
  assert (banners (CheckPersistenceData processes e s1).2 = banners s) as Hb.
  { transitivity (banners s1); [|done]. apply leaves_CheckPersistenceData. }
  set (s2 := (CheckPersistenceData processes e s1).2) in *. clearbody s2.
  rewrite bind_run. set (s3 := (RefreshTaskRecord e s2).2).
  assert (tasks s3 = tasks s2 /\ banners s3 = banners s2) as [Et3 Eb3] by done. clearbody s3.
  rewrite bind_run. set (s4 := (RestoreApplyRecord e s3).2).
  assert (tasks s4 = tasks s3 /\ banners s4 = banners s3) as [Et4 Eb4].
  { unfold s4, RestoreApplyRecord. rewrite bind_modify, bind_ask. by destruct (ce_GetForegroundApplications e). }
  clearbody s4. rewrite bind_modify.
  assert (forall key, match m !! key with
                      | Some r => lives_on processes (reread r) (tasks s4 !! key)
                      | None => tasks s4 !! key = None
                      end) as Hk.
  { intros key. specialize (Hl key). change (tasks s1) with (reread <$> m) in Hl. rewrite lookup_fmap in Hl.
    rewrite Et4, Et3. by destruct (m !! key). }
  unfold RefreshAuthRecord. rewrite Eb4, Eb3, Hb. by destruct (ds_auth_restored authFile).
Qed.

(** Where the running processes cannot be asked for, all tasks are kept as they were read and
    the file of authorisations is not read. *)
Lemma HandlePersistenceData_blind m authFile e s : tasks s = ∅ -> ce_GetAllRunningProcesses e = None ->
  HandlePersistenceData (Some (ds_RefreshTaskRecord m)) authFile e s =
  (Some tt, cm_set_continuousTaskInfosMap_ (reread <$> m) s).
Proof.
  intros Ht Hp. unfold HandlePersistenceData. by rewrite bind_get, Ht, restore_tasks, bind_modify, bind_ask, Hp.
Qed.

(** What a start from the file of [m] has, by what it is told of the processes. *)
Definition restored (m : gmap string ContinuousTaskRecord) (authFile : option J) (e : ContEnv) (s : ContinuousMgr) : Prop :=
  match ce_GetAllRunningProcesses e with
  | Some processes =>
      (forall key, match m !! key with
                   | Some r => lives_on processes (reread r) (tasks s !! key)
                   | None => tasks s !! key = None
                   end) /\
      banners s = ds_RestoreAuthRecord authFile ∅
  | None => tasks s = reread <$> m /\ banners s = ∅
  end.

Lemma Init_restores m ownUid authFile e :
  let o := Init ownUid true true (Some (ds_RefreshTaskRecord m)) authFile e new_ContinuousMgr in
  cm_isSysReady_ o.2 = true /\ restored m authFile e o.2.
Proof.
  cbv zeta. unfold Init, InitNecessaryState, InitRequiredResourceInfo. cbn [negb]. rewrite bind_modify.
  set (s0 := cm_set_bgTaskUid_ ownUid new_ContinuousMgr). rewrite bind_run.
  assert (tasks (InitNotificationText e s0).2 = ∅ /\ banners (InitNotificationText e s0).2 = ∅) as [E1 E2] by done.
  set (s1 := (InitNotificationText e s0).2) in *. clearbody s1. rewrite bind_run.
  assert (tasks (GetNotificationPrompt e s1).2 = ∅ /\ banners (GetNotificationPrompt e s1).2 = ∅) as [E3 E4].
  { rewrite <- E1 at 1. rewrite <- E2. split; [apply tasks_core, quiet_GetNotificationPrompt|apply leaves_texts]. }
  set (s2 := (GetNotificationPrompt e s1).2) in *. clearbody s2. rewrite bind_run. unfold restored.
  destruct (ce_GetAllRunningProcesses e) as [processes|] eqn:Hp.
  - pose proof (HandlePersistenceData_restores m authFile processes e s2 E3 Hp) as Hh. cbv zeta in Hh. rewrite E4 in Hh.
    set (o := HandlePersistenceData _ _ e s2) in *. clearbody o. destruct o as [o s3]. cbn [fst snd] in *.
    by destruct Hh as (-> & Hk & Hb).
  - by rewrite HandlePersistenceData_blind by done.
Qed.

Context {splits : StrSplitLaws}.

(** C30. A restart from the file of the tasks makes no new ones, and the service is ready after
    it.  Where it is told which processes run, it keeps the tasks of these, with their
    identity and suspension, and forgets the others; where it is not told, it keeps every
    task, as far as a task is written. *)
Theorem restart_keeps_living_tasks m ownUid authFile e :
  map_Forall (fun _ r => task_typed r) m ->
  let s := (Init ownUid true true (Some (ds_RefreshTaskRecord m)) authFile e new_ContinuousMgr).2 in
  cm_isSysReady_ s = true /\
  match ce_GetAllRunningProcesses e with
  | Some processes => forall key,
      match m !! key with
      | Some r => lives_on processes r (tasks s !! key)
      | None => tasks s !! key = None
      end
  | None => tasks s = stored_part <$> m
  end.
Proof.
  intros Ht. destruct (Init_restores m ownUid authFile e) as [Hr Hk]. split; [done|]. unfold restored in Hk.
  destruct (ce_GetAllRunningProcesses e) as [processes|].
  - destruct Hk as [Hk _]. intros key. specialize (Hk key). destruct (m !! key) as [r|] eqn:E; [|done].
    specialize (Ht key r E). cbn in Ht. rewrite reread_typed in Hk by done. exact Hk.
  - destruct Hk as [-> _]. apply map_eq. intros key. rewrite !lookup_fmap. destruct (m !! key) as [r|] eqn:E; [|done].
    apply (f_equal Some), reread_typed, (Ht key r E).
Qed.

(** C37. Every decision of a user on an application's use of the special mode survives a
    restart that is told which processes run: the authorisations after it are those whose
    file was written, no application having two.  A restart that is not told does not come to read them: it has none. *)
Theorem restart_keeps_authorisations m auth ownUid e :
  map_Forall (fun _ b => banner_typed b) auth -> one_each auth ->
  banners (Init ownUid true true (Some (ds_RefreshTaskRecord m)) (Some (ds_RefreshAuthRecord auth)) e new_ContinuousMgr).2
  = match ce_GetAllRunningProcesses e with Some _ => auth | None => ∅ end.
Proof.
  intros Ht Ho. destruct (Init_restores m ownUid (Some (ds_RefreshAuthRecord auth)) e) as [_ Hk]. unfold restored in Hk.
  destruct (ce_GetAllRunningProcesses e) as [processes|]; destruct Hk as [_ ->]; [|done]. by apply restore_auth.
Qed.
End Restart.
