(* ===== verification/ContinuousAppStop.v ===== *)
(** * Continuous task manager: operations that leave the tasks alone, or only add some

    [Still] operations change neither the tasks nor the subscribers, and only add to the
    effects; [Widens] operations end no task.  Both are found by going through the
    definitions ([still], [widens]). *)

From S2P Require Import Prelude.
From S2P Require Import Errors.
From S2P Require Import Interfaces.
From S2P Require Import BackgroundModes.
From S2P Require Import Json.
From S2P Require Import ContinuousTaskRecord.
From S2P Require Import ContinuousStorageProps.
From S2P Require Import ContinuousTypes.
From S2P Require Import NotificationTools.
From S2P Require Import ContinuousTaskMgr.
From S2P Require Import ContinuousTaskStart.
From S2P Require Import ContinuousTaskStop.
From S2P Require Import ContinuousAuth.
From S2P Require Import ContinuousQueries.
From S2P Require Import ContinuousRestart.
From S2P Require Import ContinuousSystem.
From S2P Require Import ContinuousTaskMgrSpec.
From S2P Require Import ContinuousInvariant.
From S2P Require Import ContinuousWellFormed.
From S2P Require Import ContinuousActivation.
From S2P Require Import ContinuousAuthProps.
From S2P Require Import ContinuousStopProps.
From S2P Require Import ContinuousLabels.
Import BackgroundMode.
Local Open Scope Z_scope.

(** ** Frames *)
Definition Still {A} (m : CM A) : Prop := forall e s,
  tasks (m e s).2 = tasks s /\ cm_bgTaskSubscribers_ (m e s).2 = cm_bgTaskSubscribers_ s /\
  exists l, cm_effects (m e s).2 = cm_effects s ++ l.
Definition Widens {A} (m : CM A) : Prop := forall e s, dom (tasks s) ⊆ dom (tasks (m e s).2).

Lemma still_bind {A B} (m : CM A) (k : A -> CM B) : Still m -> (forall a, Still (k a)) -> Still (bind m k).
Proof.
  intros Hm Hk e s. rewrite bind_run. destruct (Hm e s) as (E1 & E2 & l & E3).
  destruct (Hk (m e s).1 e (m e s).2) as (-> & -> & l' & ->). rewrite E1, E2, E3, <- app_assoc. eauto.
Qed.
Lemma still_modify f :
  (forall s, tasks (f s) = tasks s /\ cm_bgTaskSubscribers_ (f s) = cm_bgTaskSubscribers_ s /\
             cm_effects (f s) = cm_effects s) -> Still (modify f).
Proof. intros Hf e s. destruct (Hf s) as (E1 & E2 & E3). cbn. rewrite E1, E2, E3. repeat split. exists []. by rewrite app_nil_r. Qed.
Lemma still_same {A} (m : CM A) : (forall e s, (m e s).2 = s) -> Still m.
Proof. intros Hm e s. rewrite Hm. repeat split. exists []. by rewrite app_nil_r. Qed.
Lemma still_emits l : Still (emits l).
Proof. intros e s. repeat split. by exists l. Qed.
Lemma still_for_each {A} (l : list A) body : (forall x, Still (body x)) -> Still (for_each l body).
Proof. intros Hb. induction l as [|x l IH]; [by apply still_same|]. apply still_bind; [apply Hb|]. intros _. apply IH. Qed.
Lemma still_for_err {A} (l : list A) body : (forall x, Still (body x)) -> Still (for_err l body).
Proof.
  intros Hb. induction l as [|x l IH]; [by apply still_same|]. apply still_bind; [apply Hb|].
  intros z. case_test; [by apply still_same|done].
Qed.

Lemma widens_still {A} (m : CM A) : Still m -> Widens m.
Proof. intros Hm e s. by destruct (Hm e s) as [-> _]. Qed.
Lemma widens_bind {A B} (m : CM A) (k : A -> CM B) : Widens m -> (forall a, Widens (k a)) -> Widens (bind m k).
Proof. intros Hm Hk e s. rewrite bind_run. etrans; [apply Hm|apply Hk]. Qed.
Lemma widens_modify f : (forall s, tasks (f s) = tasks s) -> Widens (modify f).
Proof. intros Hf e s. cbn. by rewrite Hf. Qed.
Lemma widens_put key r : Widens (put_task key r).
Proof. intros e s. cbn. rewrite dom_insert. set_solver. Qed.
Lemma widens_for_each {A} (l : list A) body : (forall x, Widens (body x)) -> Widens (for_each l body).
Proof. intros Hb. induction l as [|x l IH]; [by intros e s|]. apply widens_bind; [apply Hb|]. intros _. apply IH. Qed.
Lemma widens_for_err {A} (l : list A) body : (forall x, Widens (body x)) -> Widens (for_err l body).
Proof.
  intros Hb. induction l as [|x l IH]; [by intros e s|]. apply widens_bind; [apply Hb|].
  intros z. case_test; [by intros e s|done].
Qed.

Create HintDb still.
#[export] Hint Resolve still_emits : still.
Ltac still_step :=
  first
    [ match goal with |- forall _, _ => intros ? end
    | solve [auto with still]
    | apply still_bind
    | (apply still_modify; done)
    | apply still_for_each | apply still_for_err
    | match goal with
      | |- Still (match ?x with _ => _ end) => destruct x
      | |- Still (let _ := ?x in _) => cbv zeta
      | |- Still (ret _) => by apply still_same
      | |- Still (ask _) => by apply still_same
      | |- Still (get _) => by apply still_same
      | |- Still ?m => let f := head_of m in unfold f
      end ].
Ltac still := repeat still_step.
Create HintDb widens.
#[export] Hint Resolve widens_put : widens.
Ltac widens_step :=
  first
    [ match goal with |- forall _, _ => intros ? end
    | solve [auto with widens]
    | solve [apply widens_still; auto with still]
    | apply widens_bind
    | (apply widens_modify; done)
    | apply widens_for_each | apply widens_for_err
    | match goal with
      | |- Widens (match ?x with _ => _ end) => destruct x
      | |- Widens (let _ := ?x in _) => cbv zeta
      | |- Widens (ret _) => by intros e s
      | |- Widens (ask _) => by intros e s
      | |- Widens (get _) => by intros e s
      | |- Widens ?m => let f := head_of m in unfold f
      end ].
Ltac widens := repeat widens_step.

Section Frames.
Context `{ContinuousPlatform}.

Lemma still_GetNotificationText r : Still (GetNotificationText r).
Proof. still. Qed.
Lemma still_CheckNotificationText r : Still (CheckNotificationText r).
Proof. still. Qed.
#[local] Hint Resolve still_GetNotificationText still_CheckNotificationText : still.
Lemma still_PublishNotification r appName prompt uid : Still (PublishNotification r appName prompt uid).
Proof. still. Qed.
Lemma still_CancelNotification r : Still (CancelNotification r).
Proof. still. Qed.
#[local] Hint Resolve still_PublishNotification still_CancelNotification : still.
Lemma still_SendNotification subRecord r appName b : Still (SendNotification subRecord r appName b).
Proof. still. Qed.
#[local] Hint Resolve still_SendNotification : still.
Lemma still_SendContinuousTaskNotification r : Still (SendContinuousTaskNotification r).
Proof. still. Qed.
Lemma still_SendLiveViewAndOtherNotification r : Still (SendLiveViewAndOtherNotification r).
Proof. still. Qed.
Lemma still_OnContinuousTaskChanged r t : Still (OnContinuousTaskChanged r t).
Proof. still. Qed.
Lemma still_AllowApply r : Still (AllowApplyContinuousTask r).
Proof. still. Qed.
Lemma still_HandleApp uid : Still (HandleAppContinuousTaskStop uid).
Proof. still. Qed.
Lemma still_cancel label id : Still (CancelNotification_tool label id).
Proof. still. Qed.
Lemma still_RefreshTaskRecord : Still RefreshTaskRecord.
Proof. still. Qed.
Lemma still_RefreshNotifications infos uid : Still (RefreshContinuousNotifications infos uid).
Proof. still. Qed.
Lemma still_RefreshWant uid infos r b : Still (RefreshContinuousNotificationWantAndContext uid infos r b).
Proof. still. Qed.
End Frames.
#[export] Hint Resolve still_GetNotificationText still_CheckNotificationText still_PublishNotification
  still_CancelNotification still_SendNotification still_SendContinuousTaskNotification
  still_SendLiveViewAndOtherNotification still_OnContinuousTaskChanged still_AllowApply still_HandleApp
  still_cancel still_RefreshTaskRecord still_RefreshNotifications still_RefreshWant : still.

(** ** Operations that end no task *)
Section Widen.
Context `{ContinuousPlatform}.

Lemma widens_active_loop fuel uid keys label id olds : Widens (active_loop fuel uid keys label id olds).
Proof.
  revert keys label id olds. induction fuel as [|fuel IH]; intros [|key keys] label id olds;
    [by intros e s..|]. cbn [active_loop]. widens.
Qed.
#[local] Hint Resolve widens_active_loop : widens.
Lemma widens_HandleActive uid pid key : Widens (HandleActiveContinuousTask uid pid key).
Proof. widens. Qed.
#[local] Hint Resolve widens_HandleActive : widens.
Lemma widens_StartSubmit r key : Widens (StartBackgroundRunningSubmit r key).
Proof. widens. Qed.
#[local] Hint Resolve widens_StartSubmit : widens.
Lemma widens_StartInner r : Widens (StartBackgroundRunningInner r).
Proof. widens. Qed.
#[local] Hint Resolve widens_StartInner : widens.
Lemma widens_Start p : Widens (StartBackgroundRunning p).
Proof. widens. Qed.
Lemma widens_StartForInner p uid : Widens (StartBackgroundRunningForInner p uid).
Proof. widens. Qed.
Lemma widens_Update p : Widens (UpdateBackgroundRunning p).
Proof. widens. Qed.
Lemma widens_Progress p : Widens (UpdateDataTransferProgress p).
Proof. widens. Qed.
Lemma widens_ByStandby uid pid key : Widens (HandleActiveContinuousTaskByStandby uid pid key).
Proof. widens. Qed.
Lemma widens_SuspendByStandby uid pid mode key : Widens (HandleSuspendContinuousTaskByStandby uid pid mode key).
Proof. widens. Qed.
Lemma widens_NotifyAudio uid : Widens (NotifyAudioStartInner uid).
Proof. widens. Qed.
Lemma widens_AVSession uid pid b : Widens (AVSessionNotifyUpdateNotificationInner uid pid b).
Proof. widens. Qed.
Lemma widens_refreshed_prompts infos l : Widens (refreshed_prompts infos l).
Proof. revert infos. induction l as [|[key r] l IH]; intros infos; [by intros e s|]. cbn [refreshed_prompts]. widens. Qed.
#[local] Hint Resolve widens_Start widens_StartForInner widens_Update widens_Progress widens_refreshed_prompts
  widens_ByStandby widens_SuspendByStandby widens_NotifyAudio widens_AVSession : widens.

(** The operations that may end a task. *)
Definition may_end (op : ContOp) : bool :=
  match op with
  | OpStop _ _ _ | OpInner _ | OpCanceled _ _ | OpAbilityState _ _ _ | OpAppStopped _ | OpAccounts _
  | OpBundleInfo _ _ _ _ _ | OpShell _ | OpRun _ => true
  | _ => false
  end.
Lemma widens_exec op : may_end op = false -> Widens (exec op).
Proof. intros Hop. destruct op; try discriminate Hop; cbn [exec]; clear Hop; widens. Qed.
End Widen.
#[export] Hint Resolve widens_HandleActive widens_StartForInner widens_ByStandby widens_SuspendByStandby
  widens_NotifyAudio widens_AVSession : widens.

(** * Continuous task manager: the end of the last task of an application

    Services are told when an application has no tasks left.  [Tells] says which
    applications may have lost their last task during an operation and have not been
    reported yet. *)

Import BackgroundMode.

(** ** The key of a task names its application *)
Lemma free_split d a a' b b' : free d a -> free d a' ->
  (a +:+ String d b = a' +:+ String d b')%string -> a = a'.
Proof.
  revert a'. induction a as [|c a IH]; intros [|c' a'] Ha Ha' E; [done|..].
  - destruct Ha' as [Hc _]. by injection E as -> _.
  - destruct Ha as [Hc _]. by injection E as -> _.
  - destruct Ha as [_ Ha], Ha' as [_ Ha']. rewrite !string_cons_app in E. injection E as -> E. f_equal. by apply (IH a').
Qed.
Lemma pretty_Z_inj (x y : Z) : pretty x = pretty y -> x = y.
Proof. apply (inj (pretty : Z -> string)). Qed.
Lemma task_key_uid r r' : task_key r = task_key r' -> ct_uid_ r = ct_uid_ r'.
Proof.
  intros E. apply pretty_Z_inj. unfold task_key, context_key in E. rewrite !string_app_assoc in E.
  by eapply (free_split LABEL_SPLITER); [apply free_number..|exact E].
Qed.

(** ** Operations that end tasks *)
Definition keyed (m : gmap string ContinuousTaskRecord) : Prop := map_Forall (fun key r => key = task_key r) m.
Definition has_app (uid : Z) (m : gmap string ContinuousTaskRecord) : Prop :=
  exists key r, m !! key = Some r /\ ct_uid_ r = uid.
(** Every service that subscribed is called for the application. *)
Definition stop_told (subs : list SubscriberInfo) (uid : Z) (l : list ContEffect) : Prop :=
  Forall (fun i => si_isHap_ i = false -> has_subscriber i = true -> EAppContinuousTaskStop (si_object i) uid ∈ l) subs.

Lemma stop_told_app subs uid l l' : stop_told subs uid l -> stop_told subs uid (l ++ l').
Proof. unfold stop_told. rewrite !Forall_forall. intros Hl i Hi Hh Hs. apply elem_of_app. left. by apply (Hl i). Qed.

Section Tells.
Context `{ContinuousPlatform}.
Context (old : gmap string ContinuousTaskRecord) (subs : list SubscriberInfo) (base : list ContEffect).

(** Of the applications that had tasks, those of [U] may have none and not be reported. *)
Definition Pending (U : gset Z) (s : ContinuousMgr) : Prop :=
  keyed (tasks s) /\ cm_bgTaskSubscribers_ s = subs /\
  exists l, cm_effects s = base ++ l /\
    forall uid, has_app uid old -> has_app uid (tasks s) \/ stop_told subs uid l \/ uid ∈ U.
Definition Tells {A} (U : gset Z) (m : CM A) (V : gset Z) : Prop := forall e s, Pending U s -> Pending V (m e s).2.

Lemma tells_weaken {A} U V (m : CM A) U' V' : Tells U m V -> U' ⊆ U -> V ⊆ V' -> Tells U' m V'.
Proof.
  intros Hm HU HV e s (Hk & Es & l & El & Hu). destruct (Hm e s) as (Hk' & Es' & l' & El' & Hu').
  - split; [done|]. split; [done|]. exists l. split; [done|]. intros uid Ho. destruct (Hu uid Ho) as [|[|]]; auto.
  - split; [done|]. split; [done|]. exists l'. split; [done|]. intros uid Ho. destruct (Hu' uid Ho) as [|[|]]; auto.
Qed.
Lemma tells_still {A} U (m : CM A) : Still m -> Tells U m U.
Proof.
  intros Hm e s (Hk & Es & l & El & Hu). destruct (Hm e s) as (Et & Eb & l' & El'). unfold Pending.
  rewrite Et, Eb, El', El. split; [done|]. split; [done|]. exists (l ++ l'). split; [by rewrite app_assoc|].
  intros uid Ho. destruct (Hu uid Ho) as [|[|]]; auto using stop_told_app.
Qed.
Lemma tells_bind {A B} U V W (m : CM A) (k : A -> CM B) : Tells U m V -> (forall a, Tells V (k a) W) -> Tells U (bind m k) W.
Proof. intros Hm Hk e s Hs. rewrite bind_run. by apply Hk, Hm. Qed.
Lemma tells_get {A B} U V (f : ContinuousMgr -> A) (k : A -> CM B) :
  (forall s, keyed (tasks s) -> Tells U (k (f s)) V) -> Tells U (bind (get f) k) V.
Proof. intros Hk e s Hs. rewrite bind_get. apply Hk; [apply Hs|done]. Qed.
Lemma tells_for_each {A} U (l : list A) body : (forall x, x ∈ l -> Tells U (body x) U) -> Tells U (for_each l body) U.
Proof.
  intros Hb. induction l as [|x l IH]; [by apply tells_still, still_same|].
  eapply tells_bind; [apply Hb; left|]. intros _. apply IH. intros y Hy. apply Hb. by right.
Qed.
Lemma tells_for_err {A} U (l : list A) body : (forall x, x ∈ l -> Tells U (body x) U) -> Tells U (for_err l body) U.
Proof.
  intros Hb. induction l as [|x l IH]; [by apply tells_still, still_same|].
  eapply tells_bind; [apply Hb; left|]. intros z. case_test; [by apply tells_still, still_same|].
  apply IH. intros y Hy. apply Hb. by right.
Qed.
Lemma tells_for_tasks U body : (forall key r, key = task_key r -> Tells U (body key r) U) -> Tells U (for_tasks body) U.
Proof.
  intros Hb. unfold for_tasks. apply tells_get. intros s Hs. apply tells_for_each. intros [key r] Hin.
  apply Hb. apply elem_of_map_to_list in Hin. by apply (Hs key r).
Qed.

Lemma has_app_put uid key r m : keyed m -> key = task_key r -> has_app uid m -> has_app uid (<[key := r]> m).
Proof.
  intros Hm -> (k & q & Hk & Hq). destruct (decide (k = task_key r)) as [->|Hne].
  - exists (task_key r), r. rewrite lookup_insert_eq. split; [done|]. rewrite <- Hq. apply task_key_uid. by apply (Hm _ q).
  - exists k, q. by rewrite lookup_insert_ne.
Qed.
Lemma tells_put U key r : key = task_key r -> Tells U (put_task key r) U.
Proof.
  intros Hr e s (Hk & Es & l & El & Hu). unfold Pending. cbn. change (cm_continuousTaskInfosMap_ s) with (tasks s).
  split; [by apply map_Forall_insert_2|]. split; [done|]. exists l. split; [done|].
  intros uid Ho. destruct (Hu uid Ho) as [Ha|[|]]; auto. left. by apply has_app_put.
Qed.
Lemma tells_erase U key r : key = task_key r -> Tells U (erase_task key) ({[ct_uid_ r]} ∪ U).
Proof.
  intros -> e s (Hk & Es & l & El & Hu). unfold Pending. cbn. change (cm_continuousTaskInfosMap_ s) with (tasks s).
  split; [by apply map_Forall_delete|]. split; [done|]. exists l. split; [done|].
  intros uid Ho. destruct (Hu uid Ho) as [(k & q & Hq & Eq)|[|]]; [|auto|set_solver].
  destruct (decide (k = task_key r)) as [->|Hne]; [right; right|left; exists k, q; by rewrite lookup_delete_ne].
  assert (ct_uid_ q = ct_uid_ r) by (symmetry; apply task_key_uid; by apply (Hk _ q)). set_solver.
Qed.
Lemma tells_report U uid : Tells ({[uid]} ∪ U) (HandleAppContinuousTaskStop uid) U.
Proof.
  intros e s (Hk & Es & l & El & Hu). unfold HandleAppContinuousTaskStop. rewrite bind_run. cbn [find_task get fst snd].
  pose proof (find_task_cases (fun t => ct_uid_ t =? uid) (tasks s)) as Hf.
  destruct (find_task_in _ (tasks s)) as [[key q]|].
  - destruct Hf as [Hq Eq%Z.eqb_eq]. split; [done|]. split; [done|]. exists l. split; [done|].
    intros u Ho. destruct (Hu u Ho) as [|[|[->%elem_of_singleton|]%elem_of_union]]; auto. left. by exists key, q.
  - rewrite bind_get. unfold Pending. cbn. split; [done|]. split; [done|].
    eexists. rewrite El, <- app_assoc. split; [done|].
    intros u Ho. destruct (Hu u Ho) as [|[Hl|[->%elem_of_singleton|]%elem_of_union]]; auto using stop_told_app.
    right; left. apply Forall_forall. intros i Hi Hh Hs. apply elem_of_app. right. rewrite Es.
    apply list_elem_of_bind. exists i. split; [|done]. rewrite Hh, Hs. apply list_elem_of_here.
Qed.
End Tells.

Create HintDb tells.
Ltac tells_still := apply tells_still; solve [auto with still | still].
Ltac tells_step :=
  first
    [ match goal with |- forall _, _ => intros ? end
    | solve [auto with tells]
    | solve [tells_still]
    | match goal with
      | |- Tells _ _ _ _ (bind (get _) _) _ => apply tells_get; intros ? ?
      | |- Tells _ _ _ _ (bind (find_key _) _) _ => apply tells_get; intros ? ?
      | |- Tells _ _ _ _ (bind (find_task _) _) _ => apply tells_get; intros ? ?
      | |- Tells _ _ _ _ (bind (put_task _ _) _) _ => eapply tells_bind; [apply tells_put; done|]
      | |- Tells _ _ _ _ (bind (erase_task _) _) _ => eapply tells_bind; [eapply tells_erase; done|]
      | |- Tells _ _ _ _ (bind (HandleAppContinuousTaskStop _) _) _ => eapply tells_bind; [apply tells_report|]
      | |- Tells _ _ _ _ (bind _ _) _ => eapply tells_bind; [first [solve [auto with tells] | tells_still]|]
      | |- Tells _ _ _ _ (match ?x with _ => _ end) _ => destruct x eqn:?
      | |- Tells _ _ _ _ (let _ := ?x in _) _ => cbv zeta
      end ].
Ltac tells := repeat tells_step.

Section Ending.
Context `{ContinuousPlatform}.
Context (old : gmap string ContinuousTaskRecord) (subs : list SubscriberInfo) (base : list ContEffect).
Local Abbreviation tells := (Tells old subs base).
Implicit Types U : gset Z.

Lemma tells_StopByTask r : tells ∅ (StopBackgroundRunningByTask r) ∅.
Proof.
  unfold StopBackgroundRunningByTask. apply tells_get. intros s Hs.
  pose proof (find_task_cases (fun t => ct_continuousTaskId_ t =? ct_continuousTaskId_ r) (tasks s)) as Hf.
  destruct (find_task_in _ (tasks s)) as [[key q]|]; [|tells].
  destruct Hf as [Hq _]. specialize (Hs key q Hq). cbn in Hs. tells.
Qed.
#[local] Hint Resolve tells_StopByTask : tells.
Lemma tells_cancel_where test : tells ∅ (cancel_tasks_where test) ∅.
Proof. unfold cancel_tasks_where. apply tells_for_tasks. tells. Qed.
Lemma tells_stop_app uid : tells ∅ (stop_app_tasks uid) ∅.
Proof. unfold stop_app_tasks. apply tells_for_tasks. tells. Qed.
Lemma tells_RemoveByMode mode : tells ∅ (HandleRemoveTaskByMode mode) ∅.
Proof. unfold HandleRemoveTaskByMode. apply tells_for_tasks. tells. Qed.
#[local] Hint Resolve tells_cancel_where tells_stop_app tells_RemoveByMode : tells.

(** The tasks of one application, and one report after the loop. *)
Lemma tells_remove uid r key reason detailed : key = task_key r -> ct_uid_ r = uid ->
  tells ({[uid]} ∪ ∅) (remove_with_notifications key reason detailed r) ({[uid]} ∪ ∅).
Proof.
  intros Hk Hu. unfold remove_with_notifications. cbv zeta. eapply tells_bind; [apply tells_put; done|]. intros _.
  eapply tells_bind; [tells_still|]. intros _. eapply tells_bind; [tells_still|]. intros _.
  eapply tells_bind; [eapply tells_erase; exact Hk|]. intros _. rewrite Hu.
  eapply tells_weaken; [apply (tells_still _ _ _ ({[uid]} ∪ ∅)); still|set_solver|done].
Qed.
Lemma tells_RemoveByUid uid : tells ∅ (RemoveContinuousTaskRecordByUid uid) ∅.
Proof.
  unfold RemoveContinuousTaskRecordByUid. eapply tells_bind; [|intros _; apply tells_report].
  eapply tells_weaken; [apply tells_for_tasks|apply empty_subseteq|done]. intros key r Hk.
  destruct (Z.eqb_spec (ct_uid_ r) uid) as [Hu|_]; cbn [negb]; [by apply tells_remove|tells].
Qed.
Lemma tells_RemoveByUidAndMode uid mode : tells ∅ (RemoveContinuousTaskRecordByUidAndMode uid mode) ∅.
Proof.
  unfold RemoveContinuousTaskRecordByUidAndMode. eapply tells_bind; [|intros _; apply tells_report].
  eapply tells_weaken; [apply tells_for_tasks|apply empty_subseteq|done]. intros key r Hk.
  destruct (Z.eqb_spec (ct_uid_ r) uid) as [Hu|_]; cbn [negb]; [|tells]. case_test; [tells|by apply tells_remove].
Qed.
Lemma tells_SuspendAudio uid : tells ∅ (HandleSuspendContinuousAudioTask uid) ∅.
Proof.
  unfold HandleSuspendContinuousAudioTask. eapply tells_bind; [|intros _; apply tells_report].
  eapply tells_weaken; [apply (tells_for_tasks _ _ _ ({[uid]} ∪ ∅))|apply empty_subseteq|done]. intros key r Hk.
  destruct (Z.eqb_spec (ct_uid_ r) uid) as [Hu|_]; cbn [negb andb]; [|tells]. case_test; [tells|]. cbv zeta.
  do 2 (eapply tells_bind; [first [apply tells_put; done | tells_still]|]; intros _).
  eapply tells_bind; [tells_still|]. intros []; cbn [negb]; [|tells_still]. case_test; [tells|].
  do 2 (eapply tells_bind; [first [apply tells_put; done | tells_still]|]; intros _).
  eapply tells_bind; [eapply (tells_erase _ _ _ _ _ r); exact Hk|]. intros _. rewrite Hu.
  eapply tells_weaken; [apply (tells_still _ _ _ ({[uid]} ∪ ∅)); still|set_solver|done].
Qed.
#[local] Hint Resolve tells_RemoveByUid tells_RemoveByUidAndMode tells_SuspendAudio : tells.
Lemma tells_SetReason key reason detailed : tells ∅ (SetReason key reason detailed) ∅.
Proof.
  unfold SetReason. apply tells_get. intros s Hs. destruct (tasks s !! key) as [r|] eqn:E; [|tells].
  specialize (Hs key r E). cbn in Hs. cbv zeta. apply tells_put. by case_test.
Qed.
#[local] Hint Resolve tells_SetReason : tells.
Lemma tells_HandleStop uid pid taskType key : tells ∅ (HandleStopContinuousTask uid pid taskType key) ∅.
Proof. unfold HandleStopContinuousTask. tells. Qed.
Lemma tells_ByContext uid name ability : tells ∅ (StopBackgroundRunningByContext uid name ability) ∅.
Proof. unfold StopBackgroundRunningByContext. apply tells_get. intros s _. cbv zeta. apply tells_for_err. tells. Qed.
#[local] Hint Resolve tells_HandleStop tells_ByContext : tells.
Lemma tells_StopInner uid name ability id : tells ∅ (StopBackgroundRunningInner uid name ability id) ∅.
Proof. unfold StopBackgroundRunningInner. tells. Qed.
#[local] Hint Resolve tells_StopInner : tells.
Lemma tells_Stop name ability id : tells ∅ (StopBackgroundRunning name ability id) ∅.
Proof. unfold StopBackgroundRunning. tells. Qed.
Lemma tells_StopForInner p uid : tells ∅ (StopBackgroundRunningForInner p uid) ∅.
Proof. unfold StopBackgroundRunningForInner. tells. Qed.
Lemma tells_ByUser key b reason : tells ∅ (StopContinuousTaskByUser key b reason) ∅.
Proof.
  unfold StopContinuousTaskByUser, StopContinuousTaskByUserInner. apply tells_get. intros s _. case_test; [tells|].
  cbv zeta. eapply tells_bind; [auto with tells|]. intros _. apply tells_get. intros s' _.
  destruct (tasks s' !! key) as [q|]; [|tells]. eapply tells_bind; [|tells]. case_test; [|tells].
  apply tells_for_tasks. tells.
Qed.
#[local] Hint Resolve tells_Stop tells_StopForInner tells_ByUser : tells.
Lemma tells_yields {A B} U W (m : CM A) (φ : A -> Prop) (k : A -> CM B) :
  Still m -> yields m φ -> (forall a, φ a -> tells U (k a) W) -> tells U (bind m k) W.
Proof.
  intros Hm Hy Hk e s Hs. rewrite bind_run. apply Hk; [apply Hy|].
  by apply (tells_still old subs base U m Hm e s).
Qed.
Lemma tells_LiveViewCancel uid : tells ∅ (SendNotificationByLiveViewCancel uid) ∅.
Proof.
  unfold SendNotificationByLiveViewCancel, if_ready, SendNotificationByLiveViewCancelInner. apply tells_get. intros s _.
  case_test; [tells|]. apply tells_for_tasks. intros key r Hk. do 2 (case_test; [tells|]).
  eapply tells_yields; [auto with still|apply (gives_weaken snd), gives_SendContinuousTaskNotification|].
  intros [x r'] ((Hr & _) & _). cbn in Hr. eapply tells_bind; [apply tells_put; by rewrite Hk|]. tells.
Qed.
#[local] Hint Resolve tells_LiveViewCancel : tells.
Lemma tells_OnCanceled n reason : tells ∅ (OnCanceled n reason) ∅.
Proof. unfold OnCanceled, CancelNotificationByBgTask. tells. Qed.
Lemma tells_AbilityState uid name id : tells ∅ (OnAbilityStateChanged uid name id) ∅.
Proof. unfold OnAbilityStateChanged. tells. Qed.
Lemma tells_AppStopped uid : tells ∅ (OnAppStopped uid) ∅.
Proof. unfold OnAppStopped. tells. Qed.
Lemma tells_Accounts id : tells ∅ (OnAccountsStateChanged id) ∅.
Proof. unfold OnAccountsStateChanged, ClearBgOsAccountTask, ClearBgOsAccountTaskInCar. tells. Qed.
Lemma tells_BundleInfo action name uid user app : tells ∅ (OnBundleInfoChanged action name uid user app) ∅.
Proof. unfold OnBundleInfoChanged. tells. Qed.

Lemma tells_reports (l : list Z) : tells (list_to_set l) (for_each l HandleAppContinuousTaskStop) ∅.
Proof.
  induction l as [|uid l IH]; [apply tells_still; still|]. cbn [for_each list_to_set].
  eapply tells_bind; [apply tells_report|]. by intros _.
Qed.
Lemma tells_CleanAll options : tells ∅ (DumpCancelTask options true) ∅.
Proof.
  unfold DumpCancelTask. intros e s Hs. rewrite bind_get, bind_run.
  match goal with |- context [(?m e s).2] => assert (Still m) as Hm by still; set (s1 := (m e s).2) end.
  assert (Pending old subs base ∅ s1) as Hs1 by (by apply (tells_still old subs base ∅ _ Hm e s)).
  assert (tasks s1 = tasks s) as Et by apply Hm. clearbody s1.
  set (uids := (fun item : string * ContinuousTaskRecord => ct_uid_ item.2) <$> map_to_list (tasks s)).
  rewrite bind_modify. set (s2 := cm_set_continuousTaskInfosMap_ ∅ s1).
  assert (Pending old subs base (list_to_set uids) s2) as Hs2.
  { destruct Hs1 as (Hk & Eb & l & El & Hu). split; [apply map_Forall_empty|]. split; [done|]. exists l. split; [done|].
    intros uid Ho. destruct (Hu uid Ho) as [(key & r & Hr & Er)|[|]]; [|auto|set_solver]. right; right.
    rewrite Et in Hr. apply elem_of_list_to_set, list_elem_of_fmap. exists (key, r). by rewrite elem_of_map_to_list. }
  clearbody s2. revert e s2 Hs2.
  change (tells (list_to_set uids) (bind RefreshTaskRecord (fun _ => for_each
    (merge_sort Z.le (base.elements (list_to_set uids : gset Z))) HandleAppContinuousTaskStop)) ∅).
  eapply tells_bind; [tells_still|]. intros _. eapply tells_weaken; [apply tells_reports| |done].
  intros uid Hu. apply elem_of_list_to_set. rewrite merge_sort_Permutation. by apply elem_of_elements.
Qed.
Lemma tells_CancelOne options : tells ∅ (DumpCancelTask options false) ∅.
Proof. unfold DumpCancelTask. tells. Qed.
End Ending.
#[export] Hint Resolve tells_Stop tells_StopForInner tells_OnCanceled tells_AbilityState tells_AppStopped tells_Accounts
  tells_BundleInfo tells_HandleStop tells_SuspendAudio tells_RemoveByMode tells_CleanAll tells_CancelOne : tells.

Section Report.
Context `{ContinuousPlatform}.

(** Either every application that lost its tasks was reported, or no entry is gone. *)
Definition reported (s s' : ContinuousMgr) : Prop :=
  Pending (tasks s) (cm_bgTaskSubscribers_ s) (cm_effects s) ∅ s' \/ dom (tasks s) ⊆ dom (tasks s').

Lemma reported_tells {A} (m : CM A) e s :
  (forall old subs base, Tells old subs base ∅ m ∅) -> keyed (tasks s) -> reported s (m e s).2.
Proof.
  intros Hm Hs. left. apply Hm. split; [done|]. split; [done|]. exists []. split; [by rewrite app_nil_r|]. auto.
Qed.
Lemma reported_widens {A} (m : CM A) e s : Widens m -> reported s (m e s).2.
Proof. intros Hm. right. apply Hm. Qed.
Lemma reported_same s : reported s s.
Proof. by right. Qed.
Ltac by_tells := apply reported_tells; [intros; solve [auto with tells | tells]|done].

Lemma run_posted_reported t e s : keyed (tasks s) -> reported s (run_posted t e s).2.
Proof.
  intros Hs. destruct t; cbn [run_posted]; try by_tells; try solve [apply reported_widens; widens].
  unfold run_SuspendContinuousTask. rewrite bind_run. assert ((IsExistCallback uid CONTINUOUS_TASK_SUSPEND e s).2 = s) as -> by done.
  repeat case_test; try by_tells; apply reported_widens; widens.
Qed.
Lemma Inner_reported p e s : keyed (tasks s) -> reported s (RequestBackgroundRunningForInner p e s).2.
Proof.
  intros Hs. unfold RequestBackgroundRunningForInner. rewrite bind_get. case_test; [apply reported_same|].
  destruct p as [p|]; [|apply reported_same]. rewrite bind_ask. case_test; [apply reported_same|].
  case_test; [apply reported_widens; widens|by_tells].
Qed.
Lemma Shell_reported options e s : keyed (tasks s) -> reported s (ContinuousQueries.ShellDump options e s).2.
Proof.
  intros Hs. unfold ContinuousQueries.ShellDump. rewrite bind_get. case_test; [apply reported_same|].
  unfold ShellDumpInner. destruct options as [|x [|command rest]]; [apply reported_same..|].
  case_test; [by_tells|]. case_test; [by_tells|]. case_test; [by_tells|]. case_test; [by_tells|].
  case_test; [|apply reported_same]. rewrite bind_state. unfold DebugContinuousTask. cbv zeta.
  do 3 (case_test; [apply reported_same|]). rewrite bind_state. unfold DebugContinuousTaskInner.
  rewrite bind_get. case_test; [apply reported_same|]. case_test; [apply reported_widens; widens|by_tells].
Qed.

Lemma exec_reported op e s : keyed (tasks s) -> reported s (exec op e s).2.
Proof.
  intros Hs. destruct (may_end op) eqn:Hop; [|by apply reported_widens, widens_exec].
  destruct op; try discriminate Hop; cbn [exec]; rewrite ?bind_state; try by_tells.
  - by apply Inner_reported.
  - by apply Shell_reported.
  - unfold run_nth. rewrite bind_get. destruct (cm_posted s !! n) as [t|]; [|apply reported_same]. rewrite bind_modify.
    by apply (run_posted_reported t e (cm_set_posted (list_delete n (cm_posted s)) s)).
Qed.

Context `{Json J}.

(** C29. When an operation leaves an application without tasks, every service that subscribed
    is called for that application during it. *)
Theorem last_task_end_is_reported s op e uid i :
  reachable s -> admissible op e s -> has_app uid (tasks s) -> ~ has_app uid (tasks (exec op e s).2) ->
  i ∈ cm_bgTaskSubscribers_ s -> si_isHap_ i = false -> has_subscriber i = true ->
  exists l, cm_effects (exec op e s).2 = cm_effects s ++ l /\ EAppContinuousTaskStop (si_object i) uid ∈ l.
Proof.
  intros Hr Ha Ho Hn Hi Hh Hsub. pose proof (reachable_well_formed s Hr) as Hw.
  assert (keyed (tasks s)) as Hk by (intros key r E; by destruct (wf_entry _ _ Hw key r E)).
  destruct (exec_reported op e s Hk) as [(_ & _ & l & El & Hl)|Hd].
  - exists l. split; [done|]. destruct (Hl uid Ho) as [|[Ht|]]; [done| |set_solver].
    unfold stop_told in Ht. rewrite Forall_forall in Ht. by apply Ht.
  - destruct Hn. destruct Ho as (key & r & E & <-). pose proof E as Ek. apply elem_of_dom_2, Hd, elem_of_dom in E as [r' E'].
    exists key, r'. split; [done|]. pose proof (reachable_well_formed _ (reach_step _ s op e Hr Ha)) as Hw'.
    destruct (wf_entry _ _ Hw' key r' E') as [E1 _]. apply task_key_uid. rewrite <- E1. by apply (Hk key r Ek).
Qed.
End Report.
