(* ===== verification/ContinuousWitness.v ===== *)
(** * Continuous task manager on concrete inputs

    A platform, answers of the other services and a small run of the manager: the
    instances at which the theorems on continuous tasks apply, and runs that show where
    the code does not do what it means to. *)

From S2P Require Import Prelude.
From S2P Require Import Errors.
From S2P Require Import Interfaces.
From S2P Require Import BackgroundModes.
From S2P Require Import Json.
From S2P Require Import BgtaskConfig.
From S2P Require Import ContinuousTaskRecord.
From S2P Require Import ContinuousStorageProps.
From S2P Require Import ContinuousTypes.
From S2P Require Import NotificationTools.
From S2P Require Import ContinuousTaskMgr.
From S2P Require Import ContinuousTaskStart.
From S2P Require Import ContinuousTaskStop.
From S2P Require Import ContinuousAuth.
From S2P Require Import ContinuousQueries.
From S2P Require Import ContinuousRestart.
From S2P Require Import ContinuousSystem.
From S2P Require Import ContinuousTaskMgrSpec.
From S2P Require Import ContinuousInvariant.
From S2P Require Import ContinuousWellFormed.
From S2P Require Import ContinuousTaskMgrProps.
From S2P Require Import ContinuousStartProps.
From S2P Require Import ContinuousActivation.
From S2P Require Import ContinuousStopProps.
From S2P Require Import ContinuousLabels.
From S2P Require Import ContinuousAuthProps.
From S2P Require Import ContinuousRestartProps.
From S2P Require Import ContinuousAppStop.
Import BackgroundMode UserAuthResult.
Local Open Scope Z_scope.

(** ** The platform *)

(** The pieces between the separators, without the empty ones. *)
Fixpoint split_pieces (sep : Ascii.ascii) (cur str : string) : list string :=
  match str with
  | EmptyString => if bool_decide (cur = ""%string) then [] else [cur]
  | String c rest =>
      if bool_decide (c = sep)
      then (if bool_decide (cur = ""%string) then [] else [cur]) ++ split_pieces sep "" rest
      else split_pieces sep (cur +:+ String c EmptyString) rest
  end.
#[local] Instance splitter : StrSplit := {
  SplitStr := fun str sep => match sep with String c _ => split_pieces c "" str | EmptyString => [str] end
}.

Lemma split_piece sep cur piece rest : free sep piece -> (cur +:+ piece)%string <> ""%string ->
  split_pieces sep cur (piece +:+ String sep rest) = (cur +:+ piece)%string :: split_pieces sep "" rest.
Proof.
  revert cur. induction piece as [|c piece IH]; intros cur Hf Hn.
  - rewrite string_app_empty in *. change ("" +:+ ?x)%string with x. cbn [split_pieces].
    by rewrite bool_decide_true, bool_decide_false.
  - destruct Hf as [Hc Hf]. rewrite string_cons_app. cbn [split_pieces]. rewrite bool_decide_false by done.
    assert (((cur +:+ String c "") +:+ piece)%string = (cur +:+ String c piece)%string) as E by apply string_app_assoc.
    rewrite IH by (by rewrite ?E). by rewrite E.
Qed.
#[local] Instance splitter_laws : StrSplitLaws.
Proof.
  intros pieces Hp. cbn. induction Hp as [|piece pieces [Hn Hf] _ IH]; [done|]. cbn [foldr].
  rewrite split_piece by done. f_equal. exact IH.
Qed.

#[local] Instance phone : ContinuousPlatform := {|
  SUPPORT_TASK_KEEPING := false; SUPPORT_AUTH := true; HAS_OS_ACCOUNT_PART := true; HAS_OS_ACCOUNT_CAR := false;
  DISTRIBUTED_NOTIFICATION_ENABLE := true; GAME_PRE_LAUNCH_ENABLE := false; FEATURE_PRODUCT_WATCH := false;
  APP_CANCEL_REASON_DELETE := 8; TRIGGER_EIGHT_HOUR_REASON_DELETE := 23; TRIGGER_THIRTY_MINUTES_REASON_DELETE := 25;
  ERR_INVALID_VALUE := 22; ERR_INVALID_OPERATION := 38; string_hash := fun str => N.of_nat (String.length str);
  string_split := splitter
|}.
#[local] Instance tree : Json json := tree_json (fun _ => None).

(** An application of user 100 whose ability declares the location, or what is given; the
    configuration answers what is asked of it. *)
Definition configured (uid modes : Z) (c : BgtaskConfig) : ContEnv := {|
  ce_callingUid := uid; ce_callingPid := 30; ce_callingFullTokenId := 5; ce_callingTokenId := 5;
  ce_GetClientBundleName := fun _ => "app"%string; ce_GetOsAccountLocalIdFromUid := fun _ => 100;
  ce_CheckPermission := fun _ => true; ce_CheckACLPermission := fun _ _ => true; ce_IsSystemApp := fun _ => false;
  ce_GetBundleInfo := fun _ _ => Some (mkBundle [mkAbility "main" modes] [] false);
  ce_GetBundleResourceInfo := fun _ => Some "App"%string;
  ce_GetAppIndexAndBundleNameByUid := fun _ => Some (0, "app"%string);
  ce_GetForegroundApplications := Some []; ce_GetAllRunningProcesses := Some [30];
  ce_GetAbilityRunningInfos := Some []; ce_ActiveOsAccountIds := Some [100]; ce_ForegroundOsAccounts := Some [100];
  ce_IsTaskKeepingExempted := fun name => bc_IsTaskKeepingExemptedQuatoApp (fun _ => true) name c;
  ce_IsSpecialExempted := fun name => bc_IsSpecialExemptedQuatoApp (fun _ => true) name c;
  ce_IsMaliciousApp := fun name => bc_IsMaliciousAppConfig (fun _ => true) name c; ce_ResourceManager := Some (fun name => Some name);
  ce_FormatByName := fun name _ => name; ce_PublishNotification := fun _ _ => true;
  ce_CancelNotification := fun _ _ => true; ce_GetActiveNotifications := Some [];
  ce_PublishContinuousTaskNotification := fun _ => true; ce_CreateActionButton := true;
  ce_SaveTaskRecord := ERR_OK; ce_SaveAuthRecord := ERR_OK
|}.
Definition answers : ContEnv := configured 20000 8 new_BgtaskConfig.
Definition request : ContinuousTaskParam := {|
  tp_isNewApi_ := false; tp_bgModeId_ := LOCATION; tp_wantAgent_ := None; tp_abilityName_ := "main"; tp_appName_ := "App";
  tp_isBatchApi_ := false; tp_bgModeIds_ := []; tp_abilityId_ := 1; tp_bgSubModeIds_ := [];
  tp_isCombinedTaskNotification_ := false; tp_combinedNotificationTaskId_ := -1; tp_updateTaskId_ := -1;
  tp_isByRequestObject_ := false; tp_appIndex_ := 0; tp_requestAuthApiVersion_ := 0; tp_notificationId_ := -1;
  tp_continuousTaskId_ := -1; tp_progressInfo_ := None
|}.
Definition service : SubscriberInfo := mkSubscriber (Some (mkProxy (Some 7))) 1096 12 false 0.
Definition ready : ContinuousMgr := (Init 3051 true true (None : option json) None answers new_ContinuousMgr).2.
Definition watched : ContinuousMgr := (exec (OpAddSubscriber (Some service)) answers ready).2.
Definition one_task : ContinuousMgr := (exec (OpStart (Some request)) answers watched).2.
Definition the_task : ContinuousTaskRecord := Eval vm_compute in default default_task (tasks one_task !! "20000_main_1"%string).

Lemma ready_reachable : reachable (J := json) ready.
Proof. apply (reach_new _ answers). Qed.
Lemma watched_reachable : reachable (J := json) watched.
Proof. apply reach_step; [apply ready_reachable|]. split; [by vm_compute|done]. Qed.
Lemma one_task_reachable : reachable (J := json) one_task.
Proof. apply reach_step; [apply watched_reachable|]. split; [by vm_compute|]. split; vm_compute; split; discriminate. Qed.
Lemma one_task_tasks : tasks one_task = {["20000_main_1"%string := the_task]}.
Proof. by vm_compute. Qed.

(** ** The theorems there *)
Lemma continuous_tasks_well_formed_witness : well_formed (tasks one_task) 1.
Proof. exact (proj2 (continuous_tasks_well_formed one_task) one_task_reachable). Defined.

Lemma observers_follow_running_tasks_witness :
  running (tasks (exec (OpAppStopped 20000) answers one_task).2) =
  followed ∅ (cm_effects (exec (OpAppStopped 20000) answers one_task).2).
Proof.
  apply (observers_follow_running_tasks one_task).
  - apply one_task_reachable.
  - split; [by vm_compute|done].
  - intros uid [=].
  - by vm_compute.
Defined.

Lemma only_starts_make_tasks_witness :
  exists r, tasks one_task !! "20000_main_1"%string = Some r /\ same_task r the_task.
Proof. apply (only_starts_make_tasks one_task (OpAudioStart 20000) answers); [apply one_task_reachable|done|by vm_compute]. Defined.

Lemma ending_operations_end_what_they_test_witness :
  tasks (exec (OpStop "main" 1 1) answers one_task).2 = without (has_id 1) (tasks one_task).
Proof.
  refine (proj1 (ending_operations_end_what_they_test one_task (OpStop "main" 1 1) answers (has_id 1) _) _).
  - by vm_compute.
  - intros _ key key' r r'. rewrite one_task_tasks, !lookup_singleton_Some. intros [<- _] [<- _] _. done.
Defined.

Lemma notification_labels_name_their_task_witness :
  let r := ct_set_isByRequestObject_ true the_task in
  label_key (StringSplit (CreateSubNotificationLabel 20000 "main" 1 1 30) LABEL_SPLITER) "main" = task_key r.
Proof. exact (proj2 (notification_labels_name_their_task (ct_set_isByRequestObject_ true the_task)) eq_refl). Defined.

Lemma removed_notification_ends_its_tasks_witness :
  let n := mkEvent "bgmode_20000_4_1" 3051 3051 false (Some "main"%string) ("", 0)%string in
  tasks (OnCanceled (Some n) 1 answers one_task).2 = without (shares_notification the_task) (tasks one_task).
Proof.
  apply removed_notification_ends_its_tasks; [by vm_compute|split; [|split]; by vm_compute|by vm_compute|by vm_compute|by vm_compute].
Defined.

Lemma last_task_end_is_reported_witness : exists l,
  cm_effects (exec (OpAppStopped 20000) answers one_task).2 = cm_effects one_task ++ l /\
  EAppContinuousTaskStop (Some 7) 20000 ∈ l.
Proof.
  apply (last_task_end_is_reported one_task (OpAppStopped 20000) answers 20000 service).
  - apply one_task_reachable.
  - split; [by vm_compute|done].
  - exists "20000_main_1"%string, the_task. split; by vm_compute.
  - assert (tasks (exec (OpAppStopped 20000) answers one_task).2 = ∅) as -> by (by vm_compute).
    intros (key & r & Hk & _). by rewrite lookup_empty in Hk.
  - assert (cm_bgTaskSubscribers_ one_task = [service]) as -> by (by vm_compute). left.
  - done.
  - done.
Defined.

(** ** Authorisations: the user is asked in a dialog, and allows always *)
Definition special_answers : ContEnv := configured 20000 (Z.shiftl 1 (SPECIAL_SCENARIO_PROCESSING - 1)) new_BgtaskConfig.
Definition auth_request : ContinuousTaskParam := {|
  tp_isNewApi_ := true; tp_bgModeId_ := 0; tp_wantAgent_ := None; tp_abilityName_ := ""; tp_appName_ := "";
  tp_isBatchApi_ := true; tp_bgModeIds_ := [SPECIAL_SCENARIO_PROCESSING];
  tp_abilityId_ := -1; tp_bgSubModeIds_ := [BackgroundTaskSubmode.SUBMODE_MEDIA_PROCESS_NORMAL_NOTIFICATION];
  tp_isCombinedTaskNotification_ := false; tp_combinedNotificationTaskId_ := -1; tp_updateTaskId_ := -1;
  tp_isByRequestObject_ := false; tp_appIndex_ := 0;
  tp_requestAuthApiVersion_ := API_VERSION_REQUEST_SPECIAL_USER_AUTH_BY_DIALOG; tp_notificationId_ := -1;
  tp_continuousTaskId_ := -1; tp_progressInfo_ := None
|}.
Definition asked : ContinuousMgr :=
  (exec (OpRequestAuth (Some auth_request) (Some (mkProxy (Some 9))) (-1)) special_answers ready).2.
Definition the_banner : BannerNotificationRecord := Eval vm_compute in
  default new_BannerNotificationRecord (banners asked !! "bgbanner_100_0_app"%string).

Lemma grants_come_from_decisions_witness :
  grant_source (J := json) (AuOperation (OpDialogClick GRANTED_ALWAYS 20000 "app" 0)) asked "bgbanner_100_0_app"
    (bn_SetAuthResult GRANTED_ALWAYS the_banner).
Proof.
  destruct (grants_come_from_decisions (J := json) (AuOperation (OpDialogClick GRANTED_ALWAYS 20000 "app" 0)) special_answers asked
    "bgbanner_100_0_app" (bn_SetAuthResult GRANTED_ALWAYS the_banner)) as [(b & Hb & Hs)|Hd].
  - by vm_compute.
  - reflexivity.
  - assert (banners asked !! "bgbanner_100_0_app"%string = Some the_banner) as E by (by vm_compute).
    rewrite E in Hb. injection Hb as <-. destruct Hs as (_ & _ & _ & [=]).
  - exact Hd.
Defined.

(** ** Restarts *)
Lemma restart_keeps_living_tasks_witness :
  let s := (Init 3051 true true (Some (ds_RefreshTaskRecord (J := json) (tasks one_task))) None answers
    new_ContinuousMgr).2 in
  from_option (same_state the_task) False (tasks s !! "20000_main_1"%string).
Proof.
  destruct (restart_keeps_living_tasks (J := json) (tasks one_task) 3051 None answers) as [_ Hk].
  - rewrite one_task_tasks. apply map_Forall_singleton.
    split; cbn; unfold in_int32, in_uint32, int32_min, int32_max, uint32_max; try lia; try discriminate;
      repeat constructor; lia.
  - change (ce_GetAllRunningProcesses answers) with (Some [30]) in Hk. cbv iota in Hk. specialize (Hk "20000_main_1"%string).
    assert (tasks one_task !! "20000_main_1"%string = Some the_task) as E by (by vm_compute).
    rewrite E in Hk. exact Hk.
Defined.

Lemma restart_keeps_authorisations_witness :
  banners (Init 3051 true true (Some (ds_RefreshTaskRecord (J := json) ∅)) (Some (ds_RefreshAuthRecord (banners asked)))
    answers new_ContinuousMgr).2 = banners asked.
Proof.
  assert (banners asked = {["bgbanner_100_0_app"%string := the_banner]}) as -> by (by vm_compute).
  apply (restart_keeps_authorisations (J := json) ∅ _ 3051 answers).
  - apply map_Forall_singleton. split; vm_compute; split; discriminate.
  - intros k k' b b' Hb Hb' _. apply lookup_singleton_Some in Hb as [<- _]. by apply lookup_singleton_Some in Hb' as [<- _].
Defined.

(** ** Where the code does not do what it means to *)

(** A restart at which the running processes cannot be asked for keeps the tasks it read
    and starts their ids again from zero: the next task gets the id of one that runs. *)
Definition blind : ContEnv := {|
  ce_callingUid := 20000; ce_callingPid := 30; ce_callingFullTokenId := 5; ce_callingTokenId := 5;
  ce_GetClientBundleName := fun _ => "app"%string; ce_GetOsAccountLocalIdFromUid := fun _ => 100;
  ce_CheckPermission := fun _ => true; ce_CheckACLPermission := fun _ _ => true; ce_IsSystemApp := fun _ => false;
  ce_GetBundleInfo := fun _ _ => None; ce_GetBundleResourceInfo := fun _ => None;
  ce_GetAppIndexAndBundleNameByUid := fun _ => None; ce_GetForegroundApplications := None;
  ce_GetAllRunningProcesses := None; ce_GetAbilityRunningInfos := None; ce_ActiveOsAccountIds := None;
  ce_ForegroundOsAccounts := None; ce_IsTaskKeepingExempted := fun _ => false;
  ce_IsSpecialExempted := fun _ => false; ce_IsMaliciousApp := fun _ => false; ce_ResourceManager := Some (fun x => Some x);
  ce_FormatByName := fun name _ => name; ce_PublishNotification := fun _ _ => false;
  ce_CancelNotification := fun _ _ => false; ce_GetActiveNotifications := None;
  ce_PublishContinuousTaskNotification := fun _ => true; ce_CreateActionButton := false;
  ce_SaveTaskRecord := ERR_OK; ce_SaveAuthRecord := ERR_OK
|}.
Definition other_request : ContinuousTaskParam := {|
  tp_isNewApi_ := false; tp_bgModeId_ := LOCATION; tp_wantAgent_ := None; tp_abilityName_ := "main"; tp_appName_ := "App";
  tp_isBatchApi_ := false; tp_bgModeIds_ := []; tp_abilityId_ := 2; tp_bgSubModeIds_ := [];
  tp_isCombinedTaskNotification_ := false; tp_combinedNotificationTaskId_ := -1; tp_updateTaskId_ := -1;
  tp_isByRequestObject_ := false; tp_appIndex_ := 0; tp_requestAuthApiVersion_ := 0; tp_notificationId_ := -1;
  tp_continuousTaskId_ := -1; tp_progressInfo_ := None
|}.
Definition blind_restart : ContinuousMgr :=
  (Init 3051 true true (Some (ds_RefreshTaskRecord (J := json) (tasks one_task))) None blind new_ContinuousMgr).2.

(** A restart at which the running processes cannot be asked for keeps the tasks it has
    read and starts the ids again from zero.  The next task gets the id of the one that
    runs, and a stop of the new task by its id ends the one that comes first. *)
Theorem restart_reuses_ids :
  let s := (exec (OpStart (Some other_request)) answers blind_restart).2 in
  (ct_continuousTaskId_ <$> tasks s !! "20000_main_1"%string) = Some 1 /\
  (ct_continuousTaskId_ <$> tasks s !! "20000_main_2"%string) = Some 1 /\
  size (tasks (exec (OpStop "main" 2 1) answers s).2) = 1%nat.
Proof. by vm_compute. Qed.

(** Any application that knows the id of a task, and ids are counted up from one, ends it:
    the owner is not looked at. *)
Theorem stop_by_id_ends_anyones_task :
  (ct_uid_ <$> tasks one_task !! "20000_main_1"%string) = Some 20000 /\
  tasks (exec (OpStop "any" 9 1) (configured 20001 8 new_BgtaskConfig) one_task).2 = ∅.
Proof. by vm_compute. Qed.

(** ** Silent audio *)
Definition audio_answers : ContEnv := configured 20000 2 new_BgtaskConfig.
Definition audio_request : ContinuousTaskParam := {|
  tp_isNewApi_ := false; tp_bgModeId_ := AUDIO_PLAYBACK; tp_wantAgent_ := None; tp_abilityName_ := "main";
  tp_appName_ := "App"; tp_isBatchApi_ := false; tp_bgModeIds_ := []; tp_abilityId_ := 1; tp_bgSubModeIds_ := [];
  tp_isCombinedTaskNotification_ := false; tp_combinedNotificationTaskId_ := -1; tp_updateTaskId_ := -1;
  tp_isByRequestObject_ := false; tp_appIndex_ := 0; tp_requestAuthApiVersion_ := 0; tp_notificationId_ := -1;
  tp_continuousTaskId_ := -1; tp_progressInfo_ := None
|}.
Definition player : SubscriberInfo :=
  mkSubscriber (Some (mkProxy (Some 8))) 20000 30 true (Z.lor CONTINUOUS_TASK_SUSPEND CONTINUOUS_TASK_ACTIVE).
Definition run (ops : list ContOp) (e : ContEnv) (s : ContinuousMgr) : ContinuousMgr :=
  fold_left (fun s op => (exec op e s).2) ops s.
(** The application's task goes on standby, and is then found silent. *)
Definition silent : ContinuousMgr :=
  run [OpAddSubscriber (Some player); OpStart (Some audio_request);
       OpSuspendTask 20000 30 AUDIO_PLAYBACK "20000_main_1" true; OpRun 0; OpSuspendAudio 20000; OpRun 0]
    audio_answers ready.

(** The suspension of the silent task of an application that is on standby is not told to
    observers: they go on taking it for running. *)
Theorem silent_standby_suspension_untold :
  running (tasks silent) = ∅ /\ followed ∅ (cm_effects silent) = {["20000_main_1"%string]}.
Proof. by vm_compute. Qed.
