(* ===== verification/RecordFiles.v ===== *)
(** * The files of the records

    The part of DataStorageHelper (src/services/common/src/data_storage_helper.cpp) that goes
    to the disk: creating and writing the three files, reading them, the copy of a backup and
    the file of the doze time.

    Files are kept by their real path.  [Links] resolves paths; [Disk] says which of the
    system calls of one operation work.  What [nlohmann::json] makes of a value is a text
    ([JsonText]); where it throws there is no outcome. *)

From S2P Require Import Prelude.
From S2P Require Import Errors.
From S2P Require Import KeyInfo.
From S2P Require Import ResourceTypes.
From S2P Require Import EfficiencyResources.
From S2P Require Import Json.
From S2P Require Import ResourceStorage.
From S2P Require Import ContinuousTypes.
From S2P Require Import ContinuousTaskRecord.
From S2P Require Import ContinuousStorageProps.
From S2P Require Import ConfigWitness.
From S2P Require Import BackgroundModes.
From S2P Require Import ContinuousTaskMgr.
From S2P Require Import ContinuousWitness.
Local Open Scope Z_scope.

Definition TASK_RECORD_FILE_PATH : string := "/data/service/el1/public/background_task_mgr/running_task".
Definition RESOURCE_RECORD_FILE_PATH : string := "/data/service/el1/public/background_task_mgr/resource_record".
Definition AUTH_RECORD_FILE_PATH : string := "/data/service/el1/public/background_task_mgr/auth_record".
Definition EXTENSION_SUCCESS_CODE : Z := 0.
Definition EXTENSION_ERROR_CODE : Z := 13500099.
Definition MAX_AUTH_RECORD_SIZE : Z := 400 * 1000.
Definition PATH_MAX : Z := 4096.

(** ** The system

    [real_path]: the file a path names, once there is one.  [GetOneCfgFile]: the full path of
    a file of the configuration. *)
Class Links := {
  real_path : string -> string;
  real_path_real path : real_path (real_path path) = real_path path;
  GetOneCfgFile : string -> option string;
}.
Abbreviation FileSystem := (gmap string string).

(** [dk_write]: what of a text reaches the file; the writes through streams are not checked. *)
Record Disk := mkDisk {
  dk_fopen : bool;
  dk_fclose : bool;
  dk_open : bool;
  dk_write : string -> string;
  dk_load : bool;
}.

(** The characters before the first NUL. *)
Fixpoint c_str (s : string) : string :=
  match s with
  | EmptyString => EmptyString
  | String a s => if Ascii.eqb a (Ascii.ascii_of_nat 0) then EmptyString else String a (c_str s)
  end.
Definition endl : string := String (Ascii.ascii_of_nat 10) "".

(** The text of a value: it holds no NUL, and is parsed as the value it was made of. *)
Class JsonText (J : Type) `{Json J} := {
  dump : J -> option string;
  dump_whole j s : dump j = Some s -> c_str s = s;
  parse_dump j s : dump j = Some s -> parse (s +:+ endl) = Some j;
}.

Section Files.
Context {links : Links}.
Implicit Types fs : FileSystem.
Implicit Types d : Disk.

Definition access (path : string) fs : bool := bool_decide (is_Some (fs !! real_path path)).
Definition realpath (path : string) fs : option string := if access path fs then Some (real_path path) else None.
(** [fopen(path, "w+")]: the file is there, and empty. *)
Definition fopen_write d (path : string) fs : option FileSystem :=
  if dk_fopen d then Some (<[real_path path := ""%string]> fs) else None.

Definition ConvertFullPath (partialPath : string) fs : option string :=
  if bool_decide (partialPath = ""%string) || (PATH_MAX <=? Z.of_nat (String.length partialPath)) then None
  else realpath partialPath fs.

Definition SaveJsonValueToFile d (value filePath : string) fs : Z * FileSystem :=
  match ConvertFullPath filePath fs with
  | None => (ERR_BGTASK_GET_ACTUAL_FILE_ERR, fs)
  | Some realPath =>
      if negb (dk_open d) then (ERR_BGTASK_OPEN_FILE_ERR, fs)
      else (ERR_OK, <[realPath := dk_write d (c_str value +:+ endl)]> fs)
  end.

(** The file is created where it is missing: the code of an error, and the files. *)
Definition create_file d (path : string) fs : option Z * FileSystem :=
  if access path fs then (None, fs) else
  match fopen_write d path fs with
  | None => (Some ERR_BGTASK_CREATE_FILE_ERR, fs)
  | Some fs => (if dk_fclose d then None else Some ERR_BGTASK_CREATE_FILE_ERR, fs)
  end.

Section Records.
Context `{JsonText J}.

Definition ParseJsonValueFromFile d (filePath : string) fs : option J :=
  realPath ← ConvertFullPath filePath fs;
  parse (if dk_load d then default ""%string (fs !! realPath) else ""%string).

(** The file is created, then the value is put into words. *)
Definition refresh_file d (root : J) (path : string) fs : option Z * FileSystem :=
  match create_file d path fs with
  | (Some e, fs) => (Some e, fs)
  | (None, fs) =>
      match dump root with
      | None => (None, fs)
      | Some text => let (code, fs) := SaveJsonValueToFile d text path fs in (Some code, fs)
      end
  end.
Definition RefreshTaskRecord `{StrSplit} d (allRecord : gmap string ContinuousTaskRecord) fs : option Z * FileSystem :=
  refresh_file d (ds_RefreshTaskRecord allRecord) TASK_RECORD_FILE_PATH fs.
Definition RefreshAuthRecord d (authRecord : gmap string BannerNotificationRecord) fs : option Z * FileSystem :=
  refresh_file d (ds_RefreshAuthRecord authRecord) AUTH_RECORD_FILE_PATH fs.
(** The value is put into words, then the file is created. *)
Definition RefreshResourceRecord d (appRecord processRecord : ResourceRecordMap) fs : option Z * FileSystem :=
  match dump (ConvertMaps appRecord processRecord) with
  | None => (None, fs)
  | Some record =>
      match create_file d RESOURCE_RECORD_FILE_PATH fs with
      | (Some e, fs) => (Some e, fs)
      | (None, fs) => let (code, fs) := SaveJsonValueToFile d record RESOURCE_RECORD_FILE_PATH fs in (Some code, fs)
      end
  end.

(** ** The file of the doze time *)
Definition GetConfigFileAbsolutePath (relativePath : string) fs : string :=
  if bool_decide (relativePath = ""%string) then ""%string else
  default ""%string
    (tmpPath ← GetOneCfgFile relativePath;
     if Z.of_nat (String.length tmpPath) >? PATH_MAX then None else realpath tmpPath fs).

(** A member that is an object with the members named. *)
Definition object_with (params : list string) (j : J) : option J :=
  if is_null j || negb (is_object j) || negb (CheckJsonValue j params) then None else Some j.
Definition ParseFastSuspendDozeTime d (FilePath : string) fs : option Z :=
  jsonObj ← ParseJsonValueFromFile d (GetConfigFileAbsolutePath FilePath fs) fs;
  jsonObj ← object_with ["param"%string] jsonObj;
  param ← member "param" jsonObj ≫= object_with ["fast_frozen"%string];
  fastFrozen ← member "fast_frozen" param ≫= object_with ["enable"%string; "doze_time"%string];
  enable ← member "enable" fastFrozen ≫= get_bool;
  doze_time ← member "doze_time" fastFrozen;
  if negb enable || negb (is_number_integer doze_time) then None else get_int32 doze_time.

(** ** Backups *)
Context `{ContinuousPlatform}.

Definition SetReplyCode (replyCode : Z) : J :=
  mk (JObject {["resultInfo"%string :=
    mk (JArray [mk (JObject (list_to_map [
      ("type"%string, mk (JString "AuthRecord"));
      ("errorCode"%string, mk (JString (pretty replyCode)));
      ("errorInfo"%string, mk (JString ""))]))])]}).

(** The descriptor sent: the size [fstat] gives and what [read] gives.  The size is looked at
    as an [int32_t]. *)
Definition GetAuthRecord d (fd : option (Z * string)) fs : bool * FileSystem :=
  match fd with
  | None => (false, fs)
  | Some (st_size, authRecordStr) =>
      if int32 st_size >? MAX_AUTH_RECORD_SIZE then (false, fs) else
      if negb (Z.of_nat (String.length authRecordStr) =? st_size) then (false, fs) else
      match realpath AUTH_RECORD_FILE_PATH fs with
      | None => (false, fs)
      | Some tmpPath =>
          match fopen_write d tmpPath fs with
          | None => (false, fs)
          | Some fs =>
              let written := dk_write d authRecordStr in
              let fs := <[real_path tmpPath := written]> fs in
              if negb (bool_decide (written = authRecordStr)) then (false, fs) else (dk_fclose d, fs)
          end
      end
  end.

(** The code, the file sent, and the reply; [replies]: the reply could be written. *)
Definition files_OnBackup (opens replies closes : bool) fs : Z * option string * J :=
  let file := path ← realpath AUTH_RECORD_FILE_PATH fs; if opens then fs !! path else None in
  let replyCode := SetReplyCode (if bool_decide (file = None) then EXTENSION_ERROR_CODE else EXTENSION_SUCCESS_CODE) in
  (if negb replies then ERR_INVALID_OPERATION else
   if bool_decide (file = None) then ERR_INVALID_OPERATION else
   if closes then ERR_OK else ERR_INVALID_OPERATION, file, replyCode).

Definition files_OnRestore d (fd : option (Z * string)) (replies : bool) (allRecord : gmap string BannerNotificationRecord) fs :
    option (Z * J * gmap string BannerNotificationRecord * FileSystem) :=
  let (getAuthRet, fs) := GetAuthRecord d fd fs in
  let replyCode := SetReplyCode (if getAuthRet then EXTENSION_SUCCESS_CODE else EXTENSION_ERROR_CODE) in
  if negb replies || negb getAuthRet then Some (ERR_INVALID_OPERATION, replyCode, allRecord, fs) else
  let file := ParseJsonValueFromFile d AUTH_RECORD_FILE_PATH fs in
  let allRecord := ds_RestoreAuthRecord file allRecord in
  if negb (ds_auth_restored file) then Some (ERR_BGTASK_DATA_STORAGE_ERR, replyCode, allRecord, fs) else
  let (ret, fs) := RefreshAuthRecord d allRecord fs in
  _ ← ret; Some (ERR_OK, replyCode, allRecord, fs).
End Records.
End Files.

(** * The files of the records: properties

    What a refused write leaves of the files, and that what is written is read back. *)

Section Files.
Context {links : Links} `{JsonText J}.
Implicit Types fs : FileSystem.
Implicit Types d : Disk.

(** The paths of the service are short enough. *)
Definition short (path : string) : bool :=
  negb (bool_decide (path = ""%string)) && (Z.of_nat (String.length path) <? PATH_MAX).
Definition record_paths : list string := [TASK_RECORD_FILE_PATH; AUTH_RECORD_FILE_PATH; RESOURCE_RECORD_FILE_PATH].
Lemma record_paths_short path : path ∈ record_paths -> short path = true.
Proof.
  assert (Forall (fun path => short path = true) record_paths) as Hf by (repeat constructor).
  rewrite Forall_forall in Hf. apply Hf.
Qed.
Lemma full_path path fs : short path = true -> ConvertFullPath path fs = realpath path fs.
Proof.
  unfold short, ConvertFullPath. intros [Hn Hl]%andb_prop. apply Z.ltb_lt in Hl.
  apply negb_true_iff in Hn. rewrite Hn. rewrite (proj2 (Z.leb_gt _ _) Hl). done.
Qed.

(** What an operation that writes the record file [path] may have done to the files. *)
Definition only_at (path : string) fs fs' : Prop := forall other, other <> real_path path -> fs' !! other = fs !! other.
Definition left_alone (path : string) fs fs' : Prop :=
  fs' = fs \/ (fs !! real_path path = None /\ fs' = <[real_path path := ""%string]> fs).

Lemma create_outcome d path fs :
  let r := create_file d path fs in
  left_alone path fs r.2 /\ (r.1 = None -> access path r.2 = true).
Proof.
  unfold create_file, left_alone. destruct (access path fs) eqn:Ha; [by split; [left|]|]. unfold fopen_write.
  assert (fs !! real_path path = None) as Hnone.
  { apply eq_None_not_Some. by apply bool_decide_eq_false in Ha. }
  destruct (dk_fopen d); cbn; [|by split; [left|]]. split; [by right|]. intros _. unfold access.
  apply bool_decide_eq_true. rewrite lookup_insert_eq. by eexists.
Qed.

Lemma save_outcome d text path fs : short path = true -> access path fs = true -> c_str text = text ->
  SaveJsonValueToFile d text path fs =
  if dk_open d then (ERR_OK, <[real_path path := dk_write d (text +:+ endl)]> fs) else (ERR_BGTASK_OPEN_FILE_ERR, fs).
Proof.
  intros Hs Ha Ht. unfold SaveJsonValueToFile. rewrite full_path by done. unfold realpath. rewrite Ha, Ht.
  by destruct (dk_open d).
Qed.

Lemma kept_only path fs fs' : left_alone path fs fs' -> only_at path fs fs'.
Proof. intros [->|[_ ->]] other Ho; [done|]. by apply lookup_insert_ne. Qed.

(** A value whose text is saved, or an error with the file as it was, or newly there. *)
Definition refreshed d (root : J) (path : string) fs (r : option Z * FileSystem) : Prop :=
  (exists text, dump root = Some text /\ r.1 = Some ERR_OK /\ only_at path fs r.2 /\
     r.2 !! real_path path = Some (dk_write d (text +:+ endl))) \/
  (r.1 <> Some ERR_OK /\ left_alone path fs r.2).

Lemma create_save d root text path fs : short path = true -> dump root = Some text ->
  refreshed d root path fs
    match create_file d path fs with
    | (Some e, fs) => (Some e, fs)
    | (None, fs) => let (code, fs) := SaveJsonValueToFile d text path fs in (Some code, fs)
    end.
Proof.
  intros Hs Ht. pose proof (create_outcome d path fs) as [Hk Ha].
  assert ((create_file d path fs).1 <> Some ERR_OK) as Hne.
  { unfold create_file. case_test; [done|]. destruct (fopen_write d path fs); [|done]. by destruct (dk_fclose d). }
  destruct (create_file d path fs) as [[e|] fs1]; cbn in *; [by right|].
  rewrite (save_outcome d text path fs1 Hs (Ha eq_refl) (dump_whole _ _ Ht)). destruct (dk_open d); [left|by right].
  exists text. split; [done|]. split; [done|]. cbn. split; [|by rewrite lookup_insert_eq].
  intros other Ho. rewrite lookup_insert_ne by done. exact (kept_only _ _ _ Hk other Ho).
Qed.

Lemma refresh_outcome d root path fs : short path = true -> refreshed d root path fs (refresh_file d root path fs).
Proof.
  intros Hs. unfold refresh_file. destruct (dump root) as [text|] eqn:Et; [by apply create_save|].
  pose proof (create_outcome d path fs) as [Hk _].
  assert ((create_file d path fs).1 <> Some ERR_OK) as Hne.
  { unfold create_file. case_test; [done|]. destruct (fopen_write d path fs); [|done]. by destruct (dk_fclose d). }
  right. by destruct (create_file d path fs) as [[e|] fs1].
Qed.
Lemma resources_outcome d app proc fs :
  refreshed d (ConvertMaps app proc) RESOURCE_RECORD_FILE_PATH fs (RefreshResourceRecord d app proc fs).
Proof.
  unfold RefreshResourceRecord. destruct (dump (ConvertMaps app proc)) as [text|] eqn:Et.
  - apply create_save; [apply record_paths_short; set_solver|done].
  - right. split; [done|by left].
Qed.

(** A disk that takes what is written and gives what is there. *)
Definition writes d : Prop := forall text, dk_write d text = text.

Lemma refreshed_read d d' root path fs r : short path = true -> writes d -> dk_load d' = true ->
  refreshed d root path fs r -> r.1 = Some ERR_OK ->
  only_at path fs r.2 /\ forall fs',
    fs' !! real_path path = r.2 !! real_path path -> ParseJsonValueFromFile d' path fs' = Some root.
Proof.
  intros Hs Hw Hl [(text & Ht & _ & Ho & Hf)|[Hne _]] Hr; [|done]. split; [done|]. intros fs' He.
  unfold ParseJsonValueFromFile. rewrite full_path by done. unfold realpath, access. rewrite He, Hf.
  rewrite bool_decide_true by (by eexists). cbn. rewrite He, Hf, Hl, Hw. cbn. by apply parse_dump.
Qed.

Context {splitter : StrSplit} {splits : StrSplitLaws}.

(** C36. The three files of the service, where none is a link to another, do not get into each
    other's way, and keep what reaches them.  A save, on any disk, has one of two ends.  It reports that it is done:
    then its file, and no other, has changed, and holds as much of the text of what was saved
    as the stream has taken, which is all of it on a disk that works; a write the stream loses
    is not noticed, and is reported as done too.  Or it reports an error, or throws: then each
    file is as it was, but for an empty one where its own was missing.  Where the tasks, the
    authorisations and the resources are saved one after the other on a disk that works, those
    whose save reports that it is done are read back from the files after a restart, each and
    every one, whatever was on the disk before: of a task the members that are stored, and
    authorisations and resources whole, their numbers having their width and no application
    having two authorisations. *)
Theorem records_survive_in_files d d' (m : gmap string ContinuousTaskRecord) auth app proc fs :
  NoDup (real_path <$> record_paths) ->
  let saved_tasks := RefreshTaskRecord d m fs in
  let saved_auth := RefreshAuthRecord d auth saved_tasks.2 in
  let saved_resources := RefreshResourceRecord d app proc saved_auth.2 in
  let files := saved_resources.2 in
  (refreshed d (ds_RefreshTaskRecord m) TASK_RECORD_FILE_PATH fs saved_tasks /\
   refreshed d (ds_RefreshAuthRecord auth) AUTH_RECORD_FILE_PATH saved_tasks.2 saved_auth /\
   refreshed d (ConvertMaps app proc) RESOURCE_RECORD_FILE_PATH saved_auth.2 saved_resources) /\
  (writes d -> dk_load d' = true ->
   (saved_tasks.1 = Some ERR_OK ->
    ds_RestoreTaskRecord (ParseJsonValueFromFile d' TASK_RECORD_FILE_PATH files) ∅ = Some (reread <$> m)) /\
   (saved_auth.1 = Some ERR_OK -> map_Forall (fun _ b => banner_typed b) auth -> one_each auth ->
    ds_RestoreAuthRecord (ParseJsonValueFromFile d' AUTH_RECORD_FILE_PATH files) ∅ = auth) /\
   (saved_resources.1 = Some ERR_OK -> map_storable app -> map_storable proc ->
    ds_RestoreResourceRecord (ParseJsonValueFromFile d' RESOURCE_RECORD_FILE_PATH files) (∅, ∅) = (app, proc))).
Proof.
  intros Hd saved_tasks saved_auth saved_resources files.
  assert (short TASK_RECORD_FILE_PATH = true /\ short AUTH_RECORD_FILE_PATH = true /\ short RESOURCE_RECORD_FILE_PATH = true)
    as (S1 & S2 & S3) by (split_and!; apply record_paths_short; set_solver).
  assert (real_path TASK_RECORD_FILE_PATH <> real_path AUTH_RECORD_FILE_PATH /\
    real_path TASK_RECORD_FILE_PATH <> real_path RESOURCE_RECORD_FILE_PATH /\
    real_path AUTH_RECORD_FILE_PATH <> real_path RESOURCE_RECORD_FILE_PATH) as (D1 & D2 & D3).
  { cbn in Hd. rewrite !NoDup_cons in Hd. set_solver. }
  pose proof (refresh_outcome d (ds_RefreshTaskRecord m) TASK_RECORD_FILE_PATH fs S1) as R1.
  pose proof (refresh_outcome d (ds_RefreshAuthRecord auth) AUTH_RECORD_FILE_PATH saved_tasks.2 S2) as R2.
  pose proof (resources_outcome d app proc saved_auth.2) as R3.
  fold saved_tasks in R1. fold saved_auth in R2. fold saved_resources in R3.
  split; [done|].
  intros Hw Hl.
  assert (only_at AUTH_RECORD_FILE_PATH saved_tasks.2 saved_auth.2) as O2
    by (destruct R2 as [(? & _ & _ & Ho & _)|[_ Hk]]; [done|by apply kept_only]).
  assert (only_at RESOURCE_RECORD_FILE_PATH saved_auth.2 files) as O3
    by (destruct R3 as [(? & _ & _ & Ho & _)|[_ Hk]]; [done|by apply kept_only]).
  split_and!.
  - intros Hok. destruct (refreshed_read d d' _ _ _ _ S1 Hw Hl R1 Hok) as [_ ->]; [apply restore_tasks|].
    by rewrite (O3 _ D2), (O2 _ D1).
  - intros Hok Ht Ho. destruct (refreshed_read d d' _ _ _ _ S2 Hw Hl R2 Hok) as [_ ->]; [by apply restore_auth|].
    by rewrite (O3 _ D3).
  - intros Hok Ha Hp. destruct (refreshed_read d d' _ _ _ _ S3 Hw Hl R3 Hok) as [_ ->]; [by apply restore_stored|done].
Qed.

(** A stream's failure is not looked at: the save is reported as done, and the file is cut. *)
Lemma lost_write_is_reported_done m fs :
  is_Some (fs !! (real_path TASK_RECORD_FILE_PATH)) -> is_Some (dump (ds_RefreshTaskRecord m)) ->
  RefreshTaskRecord (mkDisk true true true (fun _ => ""%string) true) m fs =
  (Some ERR_OK, <[real_path TASK_RECORD_FILE_PATH := ""%string]> fs).
Proof.
  intros Hf [text Ht]. unfold RefreshTaskRecord, refresh_file, create_file, access. rewrite bool_decide_true by done.
  rewrite Ht, save_outcome; [done|apply record_paths_short; set_solver|by apply bool_decide_eq_true|by eapply dump_whole].
Qed.

(** The size of a backup is compared as an [int32_t]. *)
Lemma huge_backup_passes : (int32 (2 ^ 32 + 1) >? MAX_AUTH_RECORD_SIZE) = false.
Proof. done. Qed.
End Files.

(** * The files of the records on concrete inputs

    Three records, words for their values, and a disk. *)

#[local] Existing Instance splitter.
#[local] Existing Instance splitter_laws.
#[local] Existing Instance phone.

(** ** Words for values

    [same n]: equality of trees of a depth below [n]. *)
Fixpoint all_same {A} (f : A -> A -> bool) (l l' : list A) : bool :=
  match l, l' with
  | [], [] => true
  | x :: l, y :: l' => f x y && all_same f l l'
  | _, _ => false
  end.
Fixpoint same (n : nat) (a b : json) : bool :=
  match n with
  | O => false
  | S n =>
      match un_json a, un_json b with
      | JNull, JNull => true
      | JBool x, JBool y => Bool.eqb x y
      | JInt x, JInt y | JFloat x, JFloat y => x =? y
      | JString x, JString y => bool_decide (x = y)
      | JArray l, JArray l' => all_same (same n) l l'
      | JObject m, JObject m' =>
          all_same (fun p q => bool_decide (p.1 = q.1) && same n p.2 q.2) (map_to_list m) (map_to_list m')
      | _, _ => false
      end
  end.
Lemma all_same_eq {A} (f : A -> A -> bool) l l' : (forall x y, f x y = true -> x = y) -> all_same f l l' = true -> l = l'.
Proof.
  intros Hf. revert l'. induction l as [|x l IH]; intros [|y l']; try done. cbn. intros [->%Hf ->%IH]%andb_prop. done.
Qed.
Lemma same_eq n a b : same n a b = true -> a = b.
Proof.
  revert a b. induction n as [|n IH]; [done|]. intros [[| | | | |l|m]] [[| | | | |l'|m']]; cbn; try done; intros E.
  - by apply Bool.eqb_true_iff in E as ->.
  - by apply Z.eqb_eq in E as ->.
  - by apply Z.eqb_eq in E as ->.
  - by apply bool_decide_eq_true in E as ->.
  - by rewrite (all_same_eq (same n) l l' IH E).
  - assert (map_to_list m = map_to_list m') as Hm.
    { refine (all_same_eq _ _ _ _ E). intros [k x] [k' y] [Hk%bool_decide_eq_true Hx%IH]%andb_prop. cbn in *. by subst. }
    by rewrite <- (list_to_map_to_list m), <- (list_to_map_to_list m'), Hm.
Qed.

Definition plain : Json json := tree_json (fun _ => None).
Definition banner : gmap string BannerNotificationRecord := {["bgbanner_100_0_app"%string := the_banner]}.
Definition one : gmap string ContinuousTaskRecord := {["20000_main_1"%string := the_task]}.
Definition task_root : json := ds_RefreshTaskRecord (H := plain) one.
Definition auth_root : json := ds_RefreshAuthRecord (H := plain) banner.
Definition resource_root : json := ConvertMaps (H := plain) kept ∅.

Definition words : list (string * json) := [("T"%string, task_root); ("A"%string, auth_root); ("R"%string, resource_root)].
Definition read_words (s : string) : option json :=
  if String.eqb s ("T" +:+ endl) then Some task_root else
  if String.eqb s ("A" +:+ endl) then Some auth_root else
  if String.eqb s ("R" +:+ endl) then Some resource_root else None.
#[local] Instance worded : Json json := tree_json read_words.
Definition to_words (j : json) : option string := fst <$> (snd <$> list_find (fun p => same 9 j p.2 = true) words).
#[local] Instance in_words : JsonText json.
Proof.
  assert (forall j s, to_words j = Some s -> (s, j) ∈ words) as Hw.
  { intros j s. unfold to_words. destruct (list_find _ _) as [[n [t r]]|] eqn:E; [|done]. intros [= <-].
    apply list_find_Some in E as (Hn & Hs & _). cbn [snd] in Hs. apply same_eq in Hs as ->. by apply list_elem_of_lookup_2 in Hn. }
  assert (forall j s, to_words j = Some s -> c_str s = s /\ read_words (s +:+ endl) = Some j) as Hr.
  { intros j s Hs%Hw. unfold words in Hs. rewrite !elem_of_cons in Hs.
    destruct Hs as [Hs|[Hs|[Hs|Hs]]]; [| | |by apply elem_of_nil in Hs];
      apply pair_equal_spec in Hs as [-> ->]; by split. }
  refine {| dump := to_words |}; intros j s Hs; [exact (proj1 (Hr j s Hs))|exact (proj2 (Hr j s Hs))].
Defined.

#[local] Instance no_links : Links.
Proof. refine {| real_path path := path; GetOneCfgFile path := Some path |}. done. Defined.
Definition good_disk : Disk := mkDisk true true true (fun text => text) true.

Lemma records_survive_in_files_witness :
  let saved_tasks := RefreshTaskRecord good_disk one ∅ in
  let saved_auth := RefreshAuthRecord good_disk banner saved_tasks.2 in
  let files := (RefreshResourceRecord good_disk kept ∅ saved_auth.2).2 in
  ds_RestoreTaskRecord (ParseJsonValueFromFile good_disk TASK_RECORD_FILE_PATH files) ∅ = Some (reread <$> one) /\
  ds_RestoreAuthRecord (ParseJsonValueFromFile good_disk AUTH_RECORD_FILE_PATH files) ∅ = banner /\
  ds_RestoreResourceRecord (ParseJsonValueFromFile good_disk RESOURCE_RECORD_FILE_PATH files) (∅, ∅) = (kept, ∅).
Proof.
  destruct (records_survive_in_files good_disk good_disk one banner kept ∅ ∅) as [_ Hread].
  { apply (bool_decide_unpack _). by vm_compute. }
  destruct Hread as (Ht & Ha & Hr); [done|done|]. split; [|split].
  - apply Ht. vm_compute. reflexivity.
  - apply Ha; [vm_compute; reflexivity| |].
    + apply map_Forall_singleton. split; vm_compute; split; discriminate.
    + unfold banner. intros k k' b b' Hb Hb' _. apply lookup_singleton_Some in Hb as [<- _]. by apply lookup_singleton_Some in Hb' as [<- _].
  - apply Hr; [vm_compute; reflexivity|exact kept_storable|apply map_Forall_empty].
Defined.
