(* ===== verification/BackgroundTaskMgrService.v ===== *)
(** * The service

    [BackgroundTaskMgrService] of src/services/core (background_task_mgr_service.h and
    .cpp): the entry points other processes call, the checks on who calls, and how a
    request is handed to the transient task manager, the efficiency resources manager,
    the continuous task manager or the configuration; how the service becomes ready; the
    dump command.

    The state holds the three managers and the configuration, each as its own file models
    it; what the managers ask of the configuration is answered from that state.  An
    operation is a function of what the other processes answer and of the state; its
    result is [None] where the code throws or reads out of bounds. *)

From S2P Require Import Prelude.
From S2P Require Import Errors.
From S2P Require Import KeyInfo.
From S2P Require Import Interfaces.
From S2P Require Import DelaySuspendInfo.
From S2P Require Import DeviceInfo.
From S2P Require Import DecisionMaker.
From S2P Require Import TransientTaskMgr.
From S2P Require Import ResourceTypes.
From S2P Require Import EfficiencyResources.
From S2P Require Import Json.
From S2P Require Import BgtaskConfig.
From S2P Require Import BackgroundModes.
From S2P Require Import ContinuousTaskRecord.
From S2P Require Import ContinuousTypes.
From S2P Require Import ContinuousTaskMgr.
From S2P Require Import ContinuousTaskStart.
From S2P Require Import ContinuousTaskStop.
From S2P Require Import ContinuousAuth.
From S2P Require Import ContinuousQueries.
From S2P Require Import ContinuousRestart.
Import BackgroundMode.
Local Open Scope Z_scope.

Definition RESOURCE_SCHEDULE_SERVICE_UID : Z := 1096.
Definition SET_BACKGROUND_TASK_STATE_PERMISSION : string := "ohos.permission.SET_BACKGROUND_TASK_STATE".
Definition GET_BACKGROUND_TASK_INFO_PERMISSION : string := "ohos.permission.GET_BACKGROUND_TASK_INFO".
Definition EXTENSION_BACKUP : string := "backup".
Definition EXTENSION_RESTORE : string := "restore".

(** [ServiceReadyState] *)
Definition TRANSIENT_SERVICE_READY : Z := Z.shiftl 1 0.
Definition CONTINUOUS_SERVICE_READY : Z := Z.shiftl 1 1.
Definition EFFICIENCY_RESOURCES_SERVICE_READY : Z := Z.shiftl 1 2.
Definition ALL_READY : Z :=
  Z.lor (Z.lor TRANSIENT_SERVICE_READY CONTINUOUS_SERVICE_READY) EFFICIENCY_RESOURCES_SERVICE_READY.

(** The kind of a caller, as the access token service gives it. *)
Inductive ATokenTypeEnum := TOKEN_HAP | TOKEN_NATIVE | TOKEN_SHELL | TOKEN_INVALID.
#[export] Instance ATokenTypeEnum_eq_dec : EqDecision ATokenTypeEnum.
Proof. solve_decision. Defined.

(** ** What the other processes answer during one operation

    The caller and the bundle manager are those of [se_cont]. *)
Record ServiceEnv (J : Type) := mkServiceEnv {
  se_tokenType : ATokenTypeEnum;                 (* GetTokenTypeFlag(GetCallingTokenID()) *)
  se_IsAtomicService : Z -> bool;                (* IsAtomicServiceByFullTokenID *)
  se_dumpGranted : bool;                         (* the first caller may dump *)
  se_transient : CallCtx;
  se_efficiency : EffEnv;
  se_cont : ContEnv;
  se_Publish : bool;
  se_file : string -> option J;
  se_SaveStringToFd : bool;
}.
Arguments mkServiceEnv {J}. Arguments se_tokenType {J}. Arguments se_IsAtomicService {J}.
Arguments se_dumpGranted {J}. Arguments se_transient {J}. Arguments se_efficiency {J}.
Arguments se_cont {J}. Arguments se_Publish {J}. Arguments se_file {J}. Arguments se_SaveStringToFd {J}.

(** ** State

    [sv_published] counts the times the service was published; [sv_pluginInit] those that
    [BgtaskPluginMgr] was initialised. *)
Record BackgroundTaskMgrService (Q : Type) := mkService {
  sv_running : bool;                             (* state_ == STATE_RUNNING *)
  sv_dependsReady_ : Z;                          (* uint32_t *)
  sv_transient : TransientTaskMgr Q;
  sv_efficiency : EffMgr;
  sv_continuous : ContinuousMgr;
  sv_config : BgtaskConfig;
  sv_published : nat;
  sv_pluginInit : nat;
}.
Arguments mkService {Q}. Arguments sv_running {Q}. Arguments sv_dependsReady_ {Q}.
Arguments sv_transient {Q}. Arguments sv_efficiency {Q}. Arguments sv_continuous {Q}.
Arguments sv_config {Q}. Arguments sv_published {Q}. Arguments sv_pluginInit {Q}.

Section ServiceUpdates.
Context {Q : Type}.
Implicit Types s : BackgroundTaskMgrService Q.
Definition sv_set_running (v : bool) s : BackgroundTaskMgrService Q :=
  mkService v (sv_dependsReady_ s) (sv_transient s) (sv_efficiency s) (sv_continuous s) (sv_config s) (sv_published s) (sv_pluginInit s).
Definition sv_set_dependsReady_ (v : Z) s : BackgroundTaskMgrService Q :=
  mkService (sv_running s) v (sv_transient s) (sv_efficiency s) (sv_continuous s) (sv_config s) (sv_published s) (sv_pluginInit s).
Definition sv_set_transient (v : TransientTaskMgr Q) s : BackgroundTaskMgrService Q :=
  mkService (sv_running s) (sv_dependsReady_ s) v (sv_efficiency s) (sv_continuous s) (sv_config s) (sv_published s) (sv_pluginInit s).
Definition sv_set_efficiency (v : EffMgr) s : BackgroundTaskMgrService Q :=
  mkService (sv_running s) (sv_dependsReady_ s) (sv_transient s) v (sv_continuous s) (sv_config s) (sv_published s) (sv_pluginInit s).
Definition sv_set_continuous (v : ContinuousMgr) s : BackgroundTaskMgrService Q :=
  mkService (sv_running s) (sv_dependsReady_ s) (sv_transient s) (sv_efficiency s) v (sv_config s) (sv_published s) (sv_pluginInit s).
Definition sv_set_config (v : BgtaskConfig) s : BackgroundTaskMgrService Q :=
  mkService (sv_running s) (sv_dependsReady_ s) (sv_transient s) (sv_efficiency s) (sv_continuous s) v (sv_published s) (sv_pluginInit s).
Definition sv_set_published (v : nat) s : BackgroundTaskMgrService Q :=
  mkService (sv_running s) (sv_dependsReady_ s) (sv_transient s) (sv_efficiency s) (sv_continuous s) (sv_config s) v (sv_pluginInit s).
Definition sv_set_pluginInit (v : nat) s : BackgroundTaskMgrService Q :=
  mkService (sv_running s) (sv_dependsReady_ s) (sv_transient s) (sv_efficiency s) (sv_continuous s) (sv_config s) (sv_published s) v.
End ServiceUpdates.

(** ** Operations of the service

    [SV] passes the state; [transient], [efficiency] and [continuous] run an operation of
    a manager, with the configuration of the moment. *)
Declare Scope service_scope.
Delimit Scope service_scope with service.

Section Service.
Context {sp : SystemParams} {actions : CommonEventActions} {sa : SystemAbilityIds} {store : RecordStore}
  {abilities : EffAbilityIds} `{ContinuousPlatform} `{Json J} `{EventHandler Q}.
(** [CheckSignature] asks the signature validator of the resource scheduler. *)
Variable CheckSignature : string -> bool.
Abbreviation Service := (BackgroundTaskMgrService Q).
Abbreviation Env := (ServiceEnv J).
Implicit Types s : Service.
Implicit Types e : Env.

Definition SV (A : Type) : Type := Env -> Service -> option (A * Service).
Definition sv_ret {A} (a : A) : SV A := fun _ s => Some (a, s).
Definition sv_bind {A B} (m : SV A) (k : A -> SV B) : SV B :=
  fun e s => match m e s with Some (a, s) => k a e s | None => None end.
Definition sv_ask {A} (f : Env -> A) : SV A := fun e s => Some (f e, s).
Definition sv_modify (f : Service -> Service) : SV unit := fun _ s => Some (tt, f s).
Notation "x <- m ;; k" := (sv_bind m (fun x => k)) : service_scope.
Notation "m ;;; k" := (sv_bind m (fun _ => k)) : service_scope.
Local Open Scope service_scope.

Definition transient_ctx e : CallCtx :=
  let t := se_transient e in
  mkCtx (ce_callingUid (se_cont e)) (ce_callingPid (se_cont e)) (ctx_processName t) (ctx_GetNameForUid t)
    (ctx_publish t) (ctx_env t).
Definition efficiency_env e : EffEnv :=
  let f := se_efficiency e in
  mkEffEnv (ce_callingUid (se_cont e)) (ce_callingPid (se_cont e)) (ee_now f) (ee_boottime f) (ee_timestamp f)
    (ee_GetClientBundleName f) (ce_IsSystemApp (se_cont e) (ce_callingFullTokenId (se_cont e))) (ee_connectAppMgr f)
    (ee_processes f) (ee_resourcesApply f) (ee_GetBundleInfo f) (ee_quota f).
Definition cont_env (c : BgtaskConfig) e : ContEnv :=
  let o := se_cont e in
  mkEnv (ce_callingUid o) (ce_callingPid o) (ce_callingFullTokenId o) (ce_callingTokenId o)
    (ce_GetClientBundleName o) (ce_GetOsAccountLocalIdFromUid o) (ce_CheckPermission o) (ce_CheckACLPermission o)
    (ce_IsSystemApp o) (ce_GetBundleInfo o) (ce_GetBundleResourceInfo o) (ce_GetAppIndexAndBundleNameByUid o)
    (ce_GetForegroundApplications o) (ce_GetAllRunningProcesses o) (ce_GetAbilityRunningInfos o)
    (ce_ActiveOsAccountIds o) (ce_ForegroundOsAccounts o)
    (fun name => bc_IsTaskKeepingExemptedQuatoApp CheckSignature name c)
    (fun name => bc_IsSpecialExemptedQuatoApp CheckSignature name c)
    (fun name => bc_IsMaliciousAppConfig CheckSignature name c)
    (ce_ResourceManager o) (ce_FormatByName o) (ce_PublishNotification o) (ce_CancelNotification o)
    (ce_GetActiveNotifications o) (ce_PublishContinuousTaskNotification o) (ce_CreateActionButton o)
    (ce_SaveTaskRecord o) (ce_SaveAuthRecord o).

Definition transient {A} (f : TransientConfig -> CallCtx -> TransientTaskMgr Q -> A * TransientTaskMgr Q) : SV A :=
  fun e s =>
    let '(a, t) := f (config_transient CheckSignature (sv_config s)) (transient_ctx e) (sv_transient s) in
    Some (a, sv_set_transient t s).
Definition transient_do (f : TransientConfig -> CallCtx -> TransientTaskMgr Q -> TransientTaskMgr Q) : SV unit :=
  transient (fun cfg ctx t => (tt, f cfg ctx t)).
Definition efficiency {A} (f : CpuLevelConfig -> EffEnv -> EffMgr -> A * EffMgr) : SV A :=
  fun e s =>
    let '(a, m) := f (config_levels (sv_config s)) (efficiency_env e) (sv_efficiency s) in
    Some (a, sv_set_efficiency m s).
Definition continuous {A} (m : CM A) : SV A :=
  fun e s =>
    let '(a, c) := m (cont_env (sv_config s) e) (sv_continuous s) in
    Some (a, sv_set_continuous c s).
(** An operation of the continuous task manager that may throw. *)
Definition continuous_try {A} (m : CM (option A)) : SV A :=
  fun e s =>
    let '(a, c) := m (cont_env (sv_config s) e) (sv_continuous s) in
    (fun a => (a, sv_set_continuous c s)) <$> a.
Definition config_do (f : BgtaskConfig -> BgtaskConfig) : SV unit :=
  sv_modify (fun s => sv_set_config (f (sv_config s)) s).

(** *** Who calls *)
Definition CheckCallingToken : SV bool :=
  tokenFlag <- sv_ask se_tokenType ;;
  sv_ret (bool_decide (tokenFlag = TOKEN_NATIVE) || bool_decide (tokenFlag = TOKEN_SHELL)).

Definition is_hap : SV bool := sv_ask (fun e => bool_decide (se_tokenType e = TOKEN_HAP)).
Definition CheckPermission (permission : string) : SV bool :=
  sv_ask (fun e => ce_CheckPermission (se_cont e) permission).
Definition IsSystemApp : SV bool := sv_ask (fun e => ce_IsSystemApp (se_cont e) (ce_callingFullTokenId (se_cont e))).

(** The answer, and [isHap]. *)
Definition CheckHapCalling (flag : Z) : SV (bool * bool) :=
  hap <- is_hap ;;
  return_if negb hap, sv_ret (false, false) ;;
  return_if flag =? SUBSCRIBER_BACKGROUND_TASK_STATE, sv_ret (true, true) ;;
  permission <- CheckPermission BGMODE_PERMISSION ;;
  sv_ret (permission, true).

Definition CheckCallingProcess : SV bool :=
  sv_ask (fun e => ce_callingUid (se_cont e) =? RESOURCE_SCHEDULE_SERVICE_UID).

Definition CheckAtomicService : SV bool :=
  sv_ask (fun e => se_IsAtomicService e (ce_callingFullTokenId (se_cont e))).

(** [!CheckCallingToken() || !CheckCallingProcess()] *)
Definition not_scheduler : SV bool :=
  token <- CheckCallingToken ;;
  return_if negb token, sv_ret true ;;
  process <- CheckCallingProcess ;;
  sv_ret (negb process).

(** *** Transient tasks *)

Definition sv_RequestSuspendDelay (callback : option RemoteProxy) : SV (Z * option DelaySuspendInfoEx) :=
  atomic <- CheckAtomicService ;;
  return_if atomic, sv_ret (ERR_BGTASK_PERMISSION_DENIED, None) ;;
  r <- transient (fun cfg ctx t => RequestSuspendDelay ctx callback t) ;;
  return_if r.1 =? ERR_OK, sv_ret r ;;
  sv_ret (r.1, None).

Definition sv_CancelSuspendDelay (requestId : Z) : SV Z :=
  transient (fun cfg ctx t => CancelSuspendDelay ctx requestId t).
Definition sv_GetRemainingDelayTime (requestId : Z) : SV (Z * option Z) :=
  transient (fun cfg ctx t => (GetRemainingDelayTime ctx requestId t, t)).
Definition sv_GetAllTransientTasks : SV (Z * option Z * list (Z * Z)) :=
  transient (fun cfg ctx t => GetAllTransientTasks ctx t).
Definition sv_ForceCancelSuspendDelay (requestId : Z) : SV unit :=
  transient_do (fun cfg ctx t => ForceCancelSuspendDelay (ctx_now ctx) requestId t).

Definition sv_GetTransientTaskApps : SV (Z * list TransientTaskAppInfo) :=
  token <- CheckCallingToken ;;
  return_if negb token, sv_ret (ERR_BGTASK_PERMISSION_DENIED, []) ;;
  r <- transient (fun cfg ctx t => (GetTransientTaskApps t, t)) ;;
  sv_ret (r.1, if r.1 =? ERR_OK then r.2 else []).

Definition sv_PauseTransientTaskTimeForInner (uid : Z) : SV Z :=
  transient (fun cfg ctx t => PauseTransientTaskTimeForInner ctx uid t).
Definition sv_StartTransientTaskTimeForInner (uid : Z) : SV Z :=
  transient (fun cfg ctx t => StartTransientTaskTimeForInner ctx uid t).

Definition sv_SetBgTaskConfig (configData : string) (sourceType : Z) : SV Z :=
  token <- CheckCallingToken ;;
  return_if negb token, sv_ret ERR_BGTASK_PERMISSION_DENIED ;;
  fun e s =>
    '(result, c) ← SetBgTaskConfig AddExemptedQuatoData (transient_ctx e) configData sourceType
                     (sv_transient s) (sv_config s);
    Some (result, sv_set_config c s).

(** *** Continuous tasks *)

(** The modes an atomic service may ask for. *)
Definition atomic_mode (mode : Z) : bool :=
  (mode =? AUDIO_PLAYBACK) || (mode =? MULTI_DEVICE_CONNECTION) || (mode =? LOCATION).
Definition atomic_refused (taskParam : ContinuousTaskParam) : SV bool :=
  atomic <- CheckAtomicService ;;
  sv_ret (atomic && negb (forallb atomic_mode (tp_bgModeIds_ taskParam))).

(** The ids given back: those of the parameters where the request succeeds, else the ones
    the caller sent. *)
Definition given_ids (r : Z * ContinuousTaskParam) (notificationId continuousTaskId : Z) : Z * Z * Z :=
  if r.1 =? ERR_OK then (r.1, tp_notificationId_ r.2, tp_continuousTaskId_ r.2)
  else (r.1, notificationId, continuousTaskId).

Definition sv_StartBackgroundRunning (taskParam : ContinuousTaskParam) (notificationId continuousTaskId : Z) :
    SV (Z * Z * Z) :=
  refused <- atomic_refused taskParam ;;
  return_if refused, sv_ret (ERR_BGTASK_PERMISSION_DENIED, notificationId, continuousTaskId) ;;
  r <- continuous_try (StartBackgroundRunning (Some taskParam)) ;;
  sv_ret (given_ids (r.1, default taskParam r.2) notificationId continuousTaskId).

Definition sv_UpdateBackgroundRunning (taskParam : ContinuousTaskParam) (notificationId continuousTaskId : Z) :
    SV (Z * Z * Z) :=
  refused <- atomic_refused taskParam ;;
  return_if refused, sv_ret (ERR_BGTASK_PERMISSION_DENIED, notificationId, continuousTaskId) ;;
  r <- continuous (UpdateBackgroundRunning taskParam) ;;
  sv_ret (given_ids r notificationId continuousTaskId).

Definition sv_RequestBackgroundRunningForInner (taskParam : ContinuousTaskParamForInner) : SV Z :=
  continuous (RequestBackgroundRunningForInner (Some taskParam)).

Definition sv_RequestGetContinuousTasksByUidForInner (uid : Z) : SV (Z * list ContinuousTaskInfo) :=
  callingUid <- sv_ask (fun e => ce_callingUid (se_cont e)) ;;
  token <- CheckCallingToken ;;
  return_if negb token && negb (uid =? callingUid), sv_ret (ERR_BGTASK_PERMISSION_DENIED, []) ;;
  r <- continuous (RequestGetContinuousTasksByUidForInner uid) ;;
  sv_ret (r.1, if r.1 =? ERR_OK then r.2 else []).

Definition sv_StopBackgroundRunning (abilityName : string) (abilityId continuousTaskId : Z) : SV Z :=
  continuous (StopBackgroundRunning abilityName abilityId continuousTaskId).

Definition sv_GetAllContinuousTasks : SV (Z * list ContinuousTaskInfo) :=
  r <- continuous (GetAllContinuousTasks true) ;;
  sv_ret (r.1, if r.1 =? ERR_OK then r.2 else []).
Definition sv_GetAllContinuousTasksSuspended (includeSuspended : bool) : SV (Z * list ContinuousTaskInfo) :=
  continuous (GetAllContinuousTasks includeSuspended).

Definition sv_UpdateDataTransferProgress (progressInfo : DataTransferProgress) : SV Z :=
  atomic <- CheckAtomicService ;;
  return_if atomic, sv_ret ERR_BGTASK_PERMISSION_DENIED ;;
  continuous (UpdateDataTransferProgress progressInfo).

(** Who is not a service sees the tasks of its own uid. *)
Definition sv_GetContinuousTaskApps : SV (Z * list ContinuousTaskCallbackInfo) :=
  callingUid <- sv_ask (fun e => ce_callingUid (se_cont e)) ;;
  token <- CheckCallingToken ;;
  r <- continuous (GetContinuousTaskApps (if token then -1 else callingUid)) ;;
  sv_ret (r.1, if r.1 =? ERR_OK then r.2 else []).

(** *** What the resource scheduler may do with the tasks of others *)

(** [m] for the resource scheduler alone. *)
Definition for_scheduler (m : SV Z) : SV Z :=
  refused <- not_scheduler ;;
  return_if refused, sv_ret ERR_BGTASK_PERMISSION_DENIED ;;
  m.

Definition sv_StopContinuousTask (uid pid taskType : Z) (key : string) : SV Z :=
  for_scheduler (continuous (StopContinuousTask uid pid taskType key) ;;; sv_ret ERR_OK).
Definition sv_SuspendContinuousTask (uid pid reason : Z) (key : string) (isStandby : bool) : SV Z :=
  for_scheduler (continuous (SuspendContinuousTask uid pid reason key isStandby) ;;; sv_ret ERR_OK).
Definition sv_ActiveContinuousTask (uid pid : Z) (key : string) (isStandby : bool) : SV Z :=
  for_scheduler (continuous (ActiveContinuousTask uid pid key isStandby) ;;; sv_ret ERR_OK).
Definition sv_SuspendContinuousAudioTask (uid : Z) : SV Z :=
  for_scheduler (continuous (SuspendContinuousAudioTask uid) ;;; sv_ret ERR_OK).
Definition sv_SetSupportedTaskKeepingProcesses (processSet : gset string) : SV Z :=
  for_scheduler (config_do (SetSupportedTaskKeepingProcesses processSet) ;;; sv_ret ERR_OK).
Definition sv_SetMaliciousAppConfig (maliciousAppSet : gset string) : SV Z :=
  for_scheduler (config_do (SetMaliciousAppConfig maliciousAppSet) ;;; sv_ret ERR_OK).
Definition sv_SetSpecialExemptedProcess (bundleNameSet : gset string) : SV Z :=
  for_scheduler (config_do (SetSpecialExemptedProcess bundleNameSet) ;;; sv_ret ERR_OK).
Definition sv_CheckTaskAuthResult (bundleName : string) (userId appIndex : Z) : SV Z :=
  for_scheduler (continuous (CheckTaskAuthResult bundleName userId appIndex)).
Definition sv_EnableContinuousTaskRequest (uid : Z) (isEnable : bool) : SV Z :=
  for_scheduler (continuous (EnableContinuousTaskRequest uid isEnable)).
Definition sv_GetAllContinuousTaskApps : SV (Z * list ContinuousTaskCallbackInfo) :=
  refused <- not_scheduler ;;
  return_if refused, sv_ret (ERR_BGTASK_PERMISSION_DENIED, []) ;;
  r <- continuous GetAllContinuousTaskApps ;;
  sv_ret (r.1, if r.1 =? ERR_OK then r.2 else []).
(** The keys of the set, ascending. *)
Definition sv_SendNotificationByDeteTask (taskKeys : list string) : SV Z :=
  for_scheduler (continuous (SendNotificationByDeteTask taskKeys)).

Definition sv_AVSessionNotifyUpdateNotification (uid pid : Z) (isPublish : bool) : SV Z :=
  token <- CheckCallingToken ;;
  return_if negb token, sv_ret ERR_BGTASK_PERMISSION_DENIED ;;
  continuous (AVSessionNotifyUpdateNotification uid pid isPublish).

(** *** Authorisation of continuous tasks *)

(** What a request of an application for its own authorisation passes first. *)
Definition auth_refused (apiVersion : Z) (versions : list Z) : SV (option Z) :=
  atomic <- CheckAtomicService ;;
  return_if atomic, sv_ret (Some ERR_BGTASK_PERMISSION_DENIED) ;;
  hap <- is_hap ;;
  return_if negb hap, sv_ret (Some ERR_BGTASK_PERMISSION_DENIED) ;;
  return_if negb (bool_decide (apiVersion ∈ versions)), sv_ret (Some ERR_BGTASK_CONTINUOUS_API_VERSION_FAIL) ;;
  sv_ret None.

Definition sv_IsModeSupported (taskParam : ContinuousTaskParam) : SV Z :=
  atomic <- CheckAtomicService ;;
  return_if atomic, sv_ret ERR_BGTASK_PERMISSION_DENIED ;;
  continuous (IsModeSupported taskParam).

Definition sv_RequestAuthFromUser (taskParam : ContinuousTaskParam) (callback : option RemoteProxy)
    (notificationId : Z) : SV (Z * Z) :=
  refused <- auth_refused (tp_requestAuthApiVersion_ taskParam)
    [API_VERSION_REQUEST_SPECIAL_USER_AUTH; API_VERSION_REQUEST_SPECIAL_USER_AUTH_BY_DIALOG] ;;
  match refused with
  | Some err => sv_ret (err, notificationId)
  | None => continuous_try (RequestAuthFromUser (Some taskParam) callback notificationId)
  end.

Definition sv_CheckSpecialScenarioAuth (appIndex authResult apiVersion : Z) : SV (Z * Z) :=
  refused <- auth_refused apiVersion
    [API_VERSION_CHECK_SPECIAL_USER_AUTH; API_VERSION_CHECK_SPECIAL_USER_AUTH_RESULT] ;;
  match refused with
  | Some err => sv_ret (err, authResult)
  | None => continuous (CheckSpecialScenarioAuth appIndex authResult apiVersion)
  end.

(** What a request of the settings passes first: a system application with [permission]. *)
Definition settings_refused (permission : string) : SV (option Z) :=
  atomic <- CheckAtomicService ;;
  return_if atomic, sv_ret (Some ERR_BGTASK_PERMISSION_DENIED) ;;
  hap <- is_hap ;;
  return_if negb hap, sv_ret (Some ERR_BGTASK_PERMISSION_DENIED) ;;
  permitted <- CheckPermission permission ;;
  return_if negb permitted, sv_ret (Some ERR_BGTASK_PERMISSION_DENIED) ;;
  system <- IsSystemApp ;;
  return_if negb system, sv_ret (Some ERR_BGTASK_NOT_SYSTEM_APP) ;;
  sv_ret None.

Definition sv_SetBackgroundTaskState (taskParam : BackgroundTaskStateInfo) : SV Z :=
  refused <- settings_refused SET_BACKGROUND_TASK_STATE_PERMISSION ;;
  match refused with
  | Some err => sv_ret err
  | None => continuous (SetBackgroundTaskState (Some taskParam))
  end.

(** The query does not carry the result of the caller along. *)
Definition sv_GetBackgroundTaskState (taskParam : BackgroundTaskStateInfo) (authResult : Z) : SV (Z * Z) :=
  refused <- settings_refused SET_BACKGROUND_TASK_STATE_PERMISSION ;;
  match refused with
  | Some err => sv_ret (err, authResult)
  | None =>
      continuous (GetBackgroundTaskState
        (Some (mkStateInfo (bs_userId_ taskParam) (bs_bundleName_ taskParam) (bs_appIndex_ taskParam)
                 0)) authResult)
  end.

Definition sv_GetAllContinuousTasksBySystem : SV (Z * list ContinuousTaskInfo) :=
  refused <- settings_refused GET_BACKGROUND_TASK_INFO_PERMISSION ;;
  match refused with
  | Some err => sv_ret (err, [])
  | None => continuous GetAllContinuousTasksBySystem
  end.

Definition sv_RemoveAuthRecord (taskParam : ContinuousTaskParam) : SV Z :=
  hap <- is_hap ;;
  return_if negb hap, sv_ret ERR_BGTASK_PERMISSION_DENIED ;;
  continuous_try (RemoveAuthRecord (Some taskParam)).

(** *** Subscribers of background tasks *)

(** What subscribing and unsubscribing pass first; else whether the caller is an
    application. *)
Definition subscribe_check (flag : Z) : SV (Z + bool) :=
  token <- CheckCallingToken ;;
  hap <- (if token then sv_ret (true, false) else CheckHapCalling flag) ;;
  return_if negb hap.1, sv_ret (inl ERR_BGTASK_PERMISSION_DENIED) ;;
  return_if negb (hap.2 && (flag =? SUBSCRIBER_BACKGROUND_TASK_STATE)), sv_ret (inr hap.2) ;;
  atomic <- CheckAtomicService ;;
  return_if atomic, sv_ret (inl ERR_BGTASK_PERMISSION_DENIED) ;;
  system <- IsSystemApp ;;
  return_if negb system, sv_ret (inl ERR_BGTASK_NOT_SYSTEM_APP) ;;
  permitted <- CheckPermission GET_BACKGROUND_TASK_INFO_PERMISSION ;;
  return_if negb permitted, sv_ret (inl ERR_BGTASK_PERMISSION_DENIED) ;;
  sv_ret (inr hap.2).

(** The transient task manager, then the efficiency resources manager if that succeeded. *)
Definition both_managers (m1 m2 : SV Z) : SV Z :=
  r1 <- m1 ;;
  return_if negb (r1 =? ERR_OK), sv_ret ERR_BGTASK_SYS_NOT_READY ;;
  r2 <- m2 ;;
  return_if negb (r2 =? ERR_OK), sv_ret ERR_BGTASK_SYS_NOT_READY ;;
  sv_ret ERR_OK.

Definition sv_SubscribeBackgroundTask (subscriber : option RemoteProxy) (flag : Z) : SV Z :=
  check <- subscribe_check flag ;;
  match check with
  | inl err => sv_ret err
  | inr isHap =>
      callingUid <- sv_ask (fun e => ce_callingUid (se_cont e)) ;;
      callingPid <- sv_ask (fun e => ce_callingPid (se_cont e)) ;;
      r <- continuous (AddSubscriber (Some (mkSubscriber subscriber callingUid callingPid isHap flag))) ;;
      return_if negb (r =? ERR_OK), sv_ret ERR_BGTASK_SYS_NOT_READY ;;
      return_if isHap, sv_ret ERR_OK ;;
      both_managers (transient (fun cfg ctx t => SubscribeBackgroundTask subscriber t))
        (efficiency (fun ccm env m => em_AddSubscriber subscriber m))
  end.

Definition sv_UnsubscribeBackgroundTask (subscriber : option RemoteProxy) (flag : Z) : SV Z :=
  check <- subscribe_check flag ;;
  match check with
  | inl err => sv_ret err
  | inr isHap =>
      r <- continuous (RemoveSubscriber subscriber flag) ;;
      return_if negb (r =? ERR_OK), sv_ret ERR_BGTASK_SYS_NOT_READY ;;
      return_if isHap, sv_ret ERR_OK ;;
      both_managers (transient (fun cfg ctx t => UnsubscribeBackgroundTask subscriber t))
        (efficiency (fun ccm env m => em_RemoveSubscriber subscriber m))
  end.

Definition sv_HandleRequestExpired (requestId : Z) : SV unit :=
  transient_do (fun cfg ctx t => HandleRequestExpired requestId t).
Definition sv_HandleExpiredCallbackDeath (remote : option Remote) : SV unit :=
  transient_do (fun cfg ctx t => HandleExpiredCallbackDeath (ctx_now ctx) remote t) ;;;
  continuous (HandleAuthExpiredCallbackDeath remote).
Definition sv_HandleSubscriberDeath (remote : option Remote) : SV unit :=
  transient_do (fun cfg ctx t => HandleSubscriberDeath remote t).

(** *** Efficiency resources *)

Definition sv_ApplyEfficiencyResources (resourceInfo : EfficiencyResourceInfo) : SV Z :=
  efficiency (fun ccm env m => ApplyEfficiencyResources env (Some resourceInfo) m).
Definition sv_ResetAllEfficiencyResources : SV Z :=
  efficiency (fun ccm env m => ResetAllEfficiencyResources env m).
Definition sv_GetAllEfficiencyResources : SV (Z * list EfficiencyResourceInfo) :=
  r <- efficiency (fun ccm env m => (GetAllEfficiencyResources env m, m)) ;;
  sv_ret (r.1, if r.1 =? ERR_OK then r.2 else []).
Definition sv_GetEfficiencyResourcesInfos : SV (Z * list ResourceCallbackInfo * list ResourceCallbackInfo) :=
  token <- CheckCallingToken ;;
  return_if negb token, sv_ret (ERR_BGTASK_PERMISSION_DENIED, [], []) ;;
  r <- efficiency (fun ccm env m => (GetEfficiencyResourcesInfos m, m)) ;;
  sv_ret (if r.1.1 =? ERR_OK then r else (r.1.1, [], [])).

(** *** Readiness *)

(** Each manager reports when it is ready; the last of the three has the configuration
    read and the service published. *)
Definition SetReady (flag : Z) : SV unit :=
  fun e s =>
    return_if sv_dependsReady_ s =? ALL_READY, Some (tt, s) ;;
    let s := sv_set_dependsReady_ (Z.lor (sv_dependsReady_ s) flag) s in
    return_if negb (sv_dependsReady_ s =? ALL_READY), Some (tt, s) ;;
    c ← bc_Init (se_file e) (sv_config s);
    let s := sv_set_config c s in
    return_if negb (se_Publish e), Some (tt, s) ;;
    let s := sv_set_running true (sv_set_published (S (sv_published s)) s) in
    Some (tt, sv_set_pluginInit (S (sv_pluginInit s)) s).

(** [InitNecessaryState] of the managers, up to their report.  [servicesUp]: the services
    a manager waits for; else it posts itself again. *)
Definition init_transient (servicesUp : bool) : SV unit :=
  transient_do (fun cfg ctx t => TransientTaskMgr.InitNecessaryState servicesUp t) ;;;
  return_if negb servicesUp, sv_ret tt ;;
  SetReady TRANSIENT_SERVICE_READY.

Definition init_continuous (servicesUp listeners : bool) (taskFile authFile : option J) : SV unit :=
  continuous_try (InitNecessaryState servicesUp listeners taskFile authFile) ;;;
  return_if negb (servicesUp && listeners), sv_ret tt ;;
  SetReady CONTINUOUS_SERVICE_READY.

Definition sv_OnAddSystemAbility (systemAbilityId : Z) : SV unit :=
  reported <- efficiency (fun ccm env m =>
    let m' := em_OnAddSystemAbility env systemAbilityId m in
    (negb (em_isSysReady_ m) && em_isSysReady_ m', m')) ;;
  return_if negb reported, sv_ret tt ;;
  SetReady EFFICIENCY_RESOURCES_SERVICE_READY.

Definition sv_OnRemoveSystemAbility (systemAbilityId : Z) : SV unit :=
  efficiency (fun ccm env m => (tt, em_OnRemoveSystemAbility systemAbilityId m)) ;;;
  continuous (ContinuousTaskStop.OnRemoveSystemAbility systemAbilityId) ;;;
  transient_do (fun cfg ctx t => TransientTaskMgr.OnRemoveSystemAbility systemAbilityId t).

(** [ownUid]: the uid of the service; the answers about services and files are those of
    the first attempt of each manager. *)
Definition sv_Init (ownUid : Z) (transientUp servicesUp listeners : bool) (taskFile authFile : option J) : SV unit :=
  init_transient transientUp ;;;
  continuous (modify (cm_set_bgTaskUid_ ownUid)) ;;;
  init_continuous servicesUp listeners taskFile authFile.

Definition OnStart (ownUid : Z) (transientUp servicesUp listeners : bool) (taskFile authFile : option J) : SV unit :=
  running <- (fun e s => Some (sv_running s, s)) ;;
  return_if running, sv_ret tt ;;
  sv_Init ownUid transientUp servicesUp listeners taskFile authFile.

(** The managers unsubscribe from events, and keep their state. *)
Definition OnStop : SV unit := sv_modify (sv_set_running false).

(** [DataStorageHelper::OnBackup]: whether the file of the authorisations could be opened,
    the reply written and the file closed. *)
Definition ds_OnBackup (opened replied closed : bool) : Z :=
  return_if negb replied, ERR_INVALID_OPERATION ;;
  return_if negb (opened && closed), ERR_INVALID_OPERATION ;;
  ERR_OK.
Definition OnBackup (opened replied closed : bool) : CM Z :=
  fun _ c =>
    return_if negb (cm_isSysReady_ c), (ERR_BGTASK_SYS_NOT_READY, c) ;;
    (ds_OnBackup opened replied closed, c).

(** [copied], [backup]: see [OnRestore]. *)
Definition OnExtension (extension : string) (opened replied closed copied : bool) (backup : option J) : SV Z :=
  return_if bool_decide (extension = EXTENSION_BACKUP), continuous (OnBackup opened replied closed) ;;
  return_if bool_decide (extension = EXTENSION_RESTORE), continuous (OnRestore copied backup) ;;
  sv_ret 0.

(** *** Shell *)
Definition ENG_MODE : Z := GetIntParameter "const.debuggable" 0.
Definition AllowDump : SV bool :=
  return_if ENG_MODE =? 0, sv_ret false ;;
  sv_ask se_dumpGranted.

Definition dump_usage : list string := [
  "usage: bgtask dump [<options>]";
  "options list:";
  "    -h                                   help menu";
  "    -T                                   transient task commands:";
  "        BATTARY_LOW                          battary low mode";
  "        BATTARY_OKAY                         battary okay mode";
  "        DUMP_CANCEL                          cancel dump mode";
  "        All                                  list all request";
  "    -C                                   continuous task commands:";
  "        --all                                list all running continuous task infos";
  "        --cancel_all                         cancel all running continuous task";
  "        --cancel {continuous task key}       cancel one task by specifying task key";
  "    -E                                   efficiency resources commands;";
  "        --all                                list all efficiency resource aplications";
  "        --reset_all                          reset all efficiency resource aplications";
  "        --resetapp {uid} {resources}          reset one application of uid by specifying ";
  "        --resetproc {pid} {resources}         reset one application of pid by specifying "]%string.
Definition concat_strings (l : list string) : string := fold_right String.append EmptyString l.
Definition DumpUsage : string := concat_strings ((fun str => str +:+ NL) <$> dump_usage)%string.

(** The result, and what is written. *)
Definition Dump (args : list string) : SV (Z * string) :=
  allow <- AllowDump ;;
  return_if negb allow, sv_ret (ERR_BGTASK_PERMISSION_DENIED, ""%string) ;;
  r <- match args with
       | [] => sv_ret (ERR_OK, DumpUsage)
       | opt :: _ =>
           return_if bool_decide (opt = "-h"%string), sv_ret (ERR_OK, DumpUsage) ;;
           r <- (return_if bool_decide (opt = "-T"%string), transient (fun cfg ctx t => TransientTaskMgr.ShellDump ctx args [] t) ;;
                 return_if bool_decide (opt = "-C"%string),
                   continuous_try (fun o c => let '(r, c) := ContinuousQueries.ShellDump args o c in
                                              ((fun infos => (r.1, infos)) <$> r.2, c)) ;;
                 return_if bool_decide (opt = "-E"%string), efficiency (fun ccm env m => em_ShellDump env args [] m) ;;
                 sv_ret (ERR_BGTASK_INVALID_PARAM, [("Error params." +:+ NL)%string])) ;;
           sv_ret (r.1, concat_strings r.2)
       end ;;
  saved <- sv_ask se_SaveStringToFd ;;
  sv_ret (if saved then r.1 else ERR_BGTASK_METHOD_CALLED_FAILED, r.2).
End Service.
