(* ===== verification/BackgroundTaskMgrSystem.v ===== *)
(** * Requests to the service, and who may make them

    The requests of IBackgroundTaskMgr.idl as one type, [serve] as the dispatch of the stub
    to the entry points of BackgroundTaskMgrService.v, and the access policy the service
    promises: the class of callers of each request ([access_of]), and what a class means
    for one caller ([refusal]). *)

From S2P Require Import Prelude.
From S2P Require Import Errors.
From S2P Require Import KeyInfo.
From S2P Require Import Interfaces.
From S2P Require Import DeviceInfo.
From S2P Require Import DecisionMaker.
From S2P Require Import TransientTaskMgr.
From S2P Require Import ResourceTypes.
From S2P Require Import EfficiencyResources.
From S2P Require Import Json.
From S2P Require Import BgtaskConfig.
From S2P Require Import BackgroundModes.
From S2P Require Import ContinuousTaskRecord.
From S2P Require Import ContinuousTypes.
From S2P Require Import ContinuousTaskMgr.
From S2P Require Import ContinuousAuth.
From S2P Require Import ContinuousQueries.
From S2P Require Import BackgroundTaskMgrService.
Import BackgroundMode.
Local Open Scope Z_scope.

(** What a caller sends; the out parameters it reads are left out, but for the ids and
    results it sends along. *)
Inductive ServiceRequest :=
| RqRequestSuspendDelay (callback : option RemoteProxy)
| RqCancelSuspendDelay (requestId : Z)
| RqGetRemainingDelayTime (requestId : Z)
| RqGetAllTransientTasks
| RqGetTransientTaskApps
| RqPauseTransientTaskTimeForInner (uid : Z)
| RqStartTransientTaskTimeForInner (uid : Z)
| RqSetBgTaskConfig (configData : string) (sourceType : Z)
| RqStartBackgroundRunning (p : ContinuousTaskParam) (notificationId continuousTaskId : Z)
| RqUpdateBackgroundRunning (p : ContinuousTaskParam) (notificationId continuousTaskId : Z)
| RqRequestBackgroundRunningForInner (p : ContinuousTaskParamForInner)
| RqRequestGetContinuousTasksByUidForInner (uid : Z)
| RqStopBackgroundRunning (abilityName : string) (abilityId continuousTaskId : Z)
| RqGetAllContinuousTasks
| RqGetAllContinuousTasksSuspended (includeSuspended : bool)
| RqUpdateDataTransferProgress (p : DataTransferProgress)
| RqGetContinuousTaskApps
| RqStopContinuousTask (uid pid taskType : Z) (key : string)
| RqSuspendContinuousTask (uid pid reason : Z) (key : string) (isStandby : bool)
| RqActiveContinuousTask (uid pid : Z) (key : string) (isStandby : bool)
| RqSuspendContinuousAudioTask (uid : Z)
| RqSetSupportedTaskKeepingProcesses (processSet : gset string)
| RqSetMaliciousAppConfig (maliciousAppSet : gset string)
| RqSetSpecialExemptedProcess (bundleNameSet : gset string)
| RqCheckTaskAuthResult (bundleName : string) (userId appIndex : Z)
| RqEnableContinuousTaskRequest (uid : Z) (isEnable : bool)
| RqGetAllContinuousTaskApps
| RqSendNotificationByDeteTask (taskKeys : list string)
| RqAVSessionNotifyUpdateNotification (uid pid : Z) (isPublish : bool)
| RqIsModeSupported (p : ContinuousTaskParam)
| RqRequestAuthFromUser (p : ContinuousTaskParam) (callback : option RemoteProxy) (notificationId : Z)
| RqCheckSpecialScenarioAuth (appIndex authResult apiVersion : Z)
| RqSetBackgroundTaskState (p : BackgroundTaskStateInfo)
| RqGetBackgroundTaskState (p : BackgroundTaskStateInfo) (authResult : Z)
| RqGetAllContinuousTasksBySystem
| RqRemoveAuthRecord (p : ContinuousTaskParam)
| RqSubscribeBackgroundTask (subscriber : option RemoteProxy) (flag : Z)
| RqUnsubscribeBackgroundTask (subscriber : option RemoteProxy) (flag : Z)
| RqApplyEfficiencyResources (info : EfficiencyResourceInfo)
| RqResetAllEfficiencyResources
| RqGetAllEfficiencyResources
| RqGetEfficiencyResourcesInfos
| RqDump (args : list string).

(** ** The access policy *)
Inductive access :=
| Anyone
| NotAtomicServices
| AtomicServicesWith (modes : list Z)         (* atomic services: for these modes only *)
| SystemServices                              (* native processes and the shell *)
| SystemServicesOr (uid : Z)                  (* and the owner of [uid] *)
| ResourceScheduler
| Applications
| ApplicationsAtVersion (apiVersion : Z) (versions : list Z)
| SystemApplicationsWith (permission : string)
| SubscribersWith (flag : Z)
| Dumpers.

Definition access_of (r : ServiceRequest) : access :=
  match r with
  | RqRequestSuspendDelay _ | RqUpdateDataTransferProgress _ | RqIsModeSupported _ => NotAtomicServices
  | RqStartBackgroundRunning p _ _ | RqUpdateBackgroundRunning p _ _ => AtomicServicesWith (tp_bgModeIds_ p)
  | RqGetTransientTaskApps | RqSetBgTaskConfig _ _ | RqGetEfficiencyResourcesInfos
  | RqAVSessionNotifyUpdateNotification _ _ _ => SystemServices
  | RqRequestGetContinuousTasksByUidForInner uid => SystemServicesOr uid
  | RqStopContinuousTask _ _ _ _ | RqSuspendContinuousTask _ _ _ _ _ | RqActiveContinuousTask _ _ _ _
  | RqSuspendContinuousAudioTask _ | RqSetSupportedTaskKeepingProcesses _ | RqSetMaliciousAppConfig _
  | RqSetSpecialExemptedProcess _ | RqCheckTaskAuthResult _ _ _ | RqEnableContinuousTaskRequest _ _
  | RqGetAllContinuousTaskApps | RqSendNotificationByDeteTask _ => ResourceScheduler
  | RqRemoveAuthRecord _ => Applications
  | RqRequestAuthFromUser p _ _ => ApplicationsAtVersion (tp_requestAuthApiVersion_ p) [22; 26]
  | RqCheckSpecialScenarioAuth _ _ v => ApplicationsAtVersion v [22; 26]
  | RqSetBackgroundTaskState _ | RqGetBackgroundTaskState _ _ =>
      SystemApplicationsWith SET_BACKGROUND_TASK_STATE_PERMISSION
  | RqGetAllContinuousTasksBySystem => SystemApplicationsWith GET_BACKGROUND_TASK_INFO_PERMISSION
  | RqSubscribeBackgroundTask _ flag | RqUnsubscribeBackgroundTask _ flag => SubscribersWith flag
  | RqDump _ => Dumpers
  | _ => Anyone
  end.

Section System.
Context {sp : SystemParams} {actions : CommonEventActions} {sa : SystemAbilityIds} {store : RecordStore}
  {abilities : EffAbilityIds} `{ContinuousPlatform} `{Json J} `{EventHandler Q}.
Variable CheckSignature : string -> bool.
Implicit Types e : ServiceEnv J.

(** Facts about the caller. *)
Definition caller_system_service e : bool := bool_decide (se_tokenType e ∈ [TOKEN_NATIVE; TOKEN_SHELL]).
Definition caller_application e : bool := bool_decide (se_tokenType e = TOKEN_HAP).
Definition caller_atomic e : bool := se_IsAtomicService e (ce_callingFullTokenId (se_cont e)).
Definition caller_system_app e : bool := ce_IsSystemApp (se_cont e) (ce_callingFullTokenId (se_cont e)).
Definition caller_may (permission : string) e : bool := ce_CheckPermission (se_cont e) permission.

(** The first of the tests that fails gives the error. *)
Fixpoint first_failure (tests : list (bool * Z)) : option Z :=
  match tests with
  | [] => None
  | (ok, err) :: tests => if ok then first_failure tests else Some err
  end.

Definition system_app_tests (permission : string) e : list (bool * Z) := [
  (caller_system_app e, ERR_BGTASK_NOT_SYSTEM_APP); (caller_may permission e, ERR_BGTASK_PERMISSION_DENIED)].

(** The error a caller outside the class is given. *)
Definition refusal (a : access) e : option Z :=
  let permit (b : bool) : option Z := first_failure [(b, ERR_BGTASK_PERMISSION_DENIED)] in
  match a with
  | Anyone => None
  | NotAtomicServices => permit (negb (caller_atomic e))
  | AtomicServicesWith modes =>
      permit (negb (caller_atomic e) ||
              bool_decide (Forall (fun m => m ∈ [AUDIO_PLAYBACK; MULTI_DEVICE_CONNECTION; LOCATION]) modes))
  | SystemServices => permit (caller_system_service e)
  | SystemServicesOr uid => permit (caller_system_service e || (uid =? ce_callingUid (se_cont e)))
  | ResourceScheduler => permit (caller_system_service e && (ce_callingUid (se_cont e) =? 1096))
  | Applications => permit (caller_application e)
  | ApplicationsAtVersion v versions => first_failure [
      (caller_application e && negb (caller_atomic e), ERR_BGTASK_PERMISSION_DENIED);
      (bool_decide (v ∈ versions), ERR_BGTASK_CONTINUOUS_API_VERSION_FAIL)]
  | SystemApplicationsWith permission => first_failure [
      (caller_application e && negb (caller_atomic e) && caller_may permission e, ERR_BGTASK_PERMISSION_DENIED);
      (caller_system_app e, ERR_BGTASK_NOT_SYSTEM_APP)]
  | SubscribersWith flag =>
      if caller_system_service e then None
      else if flag =? 8
      then first_failure ((caller_application e && negb (caller_atomic e), ERR_BGTASK_PERMISSION_DENIED) ::
                          system_app_tests GET_BACKGROUND_TASK_INFO_PERMISSION e)
      else permit (caller_application e && caller_may BGMODE_PERMISSION e)
  | Dumpers => permit (negb (ENG_MODE =? 0) && se_dumpGranted e)
  end.

(** ** Dispatch

    The error code of the reply. *)
Notation "m '$>' f" := (sv_bind m (fun r => sv_ret (f r))) (at level 60, only parsing).

Definition serve (r : ServiceRequest) : SV (J := J) (Q := Q) Z :=
  match r with
  | RqRequestSuspendDelay callback => sv_RequestSuspendDelay CheckSignature callback $> fst
  | RqCancelSuspendDelay id => sv_CancelSuspendDelay CheckSignature id
  | RqGetRemainingDelayTime id => sv_GetRemainingDelayTime CheckSignature id $> fst
  | RqGetAllTransientTasks => sv_GetAllTransientTasks CheckSignature $> (fun r => r.1.1)
  | RqGetTransientTaskApps => sv_GetTransientTaskApps CheckSignature $> fst
  | RqPauseTransientTaskTimeForInner uid => sv_PauseTransientTaskTimeForInner CheckSignature uid
  | RqStartTransientTaskTimeForInner uid => sv_StartTransientTaskTimeForInner CheckSignature uid
  | RqSetBgTaskConfig configData sourceType => sv_SetBgTaskConfig configData sourceType
  | RqStartBackgroundRunning p n c => sv_StartBackgroundRunning CheckSignature p n c $> (fun r => r.1.1)
  | RqUpdateBackgroundRunning p n c => sv_UpdateBackgroundRunning CheckSignature p n c $> (fun r => r.1.1)
  | RqRequestBackgroundRunningForInner p => sv_RequestBackgroundRunningForInner CheckSignature p
  | RqRequestGetContinuousTasksByUidForInner uid => sv_RequestGetContinuousTasksByUidForInner CheckSignature uid $> fst
  | RqStopBackgroundRunning name ability id => sv_StopBackgroundRunning CheckSignature name ability id
  | RqGetAllContinuousTasks => sv_GetAllContinuousTasks CheckSignature $> fst
  | RqGetAllContinuousTasksSuspended b => sv_GetAllContinuousTasksSuspended CheckSignature b $> fst
  | RqUpdateDataTransferProgress p => sv_UpdateDataTransferProgress CheckSignature p
  | RqGetContinuousTaskApps => sv_GetContinuousTaskApps CheckSignature $> fst
  | RqStopContinuousTask uid pid taskType key => sv_StopContinuousTask CheckSignature uid pid taskType key
  | RqSuspendContinuousTask uid pid reason key b => sv_SuspendContinuousTask CheckSignature uid pid reason key b
  | RqActiveContinuousTask uid pid key b => sv_ActiveContinuousTask CheckSignature uid pid key b
  | RqSuspendContinuousAudioTask uid => sv_SuspendContinuousAudioTask CheckSignature uid
  | RqSetSupportedTaskKeepingProcesses l => sv_SetSupportedTaskKeepingProcesses l
  | RqSetMaliciousAppConfig l => sv_SetMaliciousAppConfig l
  | RqSetSpecialExemptedProcess l => sv_SetSpecialExemptedProcess l
  | RqCheckTaskAuthResult name user app => sv_CheckTaskAuthResult CheckSignature name user app
  | RqEnableContinuousTaskRequest uid b => sv_EnableContinuousTaskRequest CheckSignature uid b
  | RqGetAllContinuousTaskApps => sv_GetAllContinuousTaskApps CheckSignature $> fst
  | RqSendNotificationByDeteTask keys => sv_SendNotificationByDeteTask CheckSignature keys
  | RqAVSessionNotifyUpdateNotification uid pid b => sv_AVSessionNotifyUpdateNotification CheckSignature uid pid b
  | RqIsModeSupported p => sv_IsModeSupported CheckSignature p
  | RqRequestAuthFromUser p callback id => sv_RequestAuthFromUser CheckSignature p callback id $> fst
  | RqCheckSpecialScenarioAuth app result v => sv_CheckSpecialScenarioAuth CheckSignature app result v $> fst
  | RqSetBackgroundTaskState p => sv_SetBackgroundTaskState CheckSignature p
  | RqGetBackgroundTaskState p result => sv_GetBackgroundTaskState CheckSignature p result $> fst
  | RqGetAllContinuousTasksBySystem => sv_GetAllContinuousTasksBySystem CheckSignature $> fst
  | RqRemoveAuthRecord p => sv_RemoveAuthRecord CheckSignature p
  | RqSubscribeBackgroundTask sub flag => sv_SubscribeBackgroundTask CheckSignature sub flag
  | RqUnsubscribeBackgroundTask sub flag => sv_UnsubscribeBackgroundTask CheckSignature sub flag
  | RqApplyEfficiencyResources info => sv_ApplyEfficiencyResources info
  | RqResetAllEfficiencyResources => sv_ResetAllEfficiencyResources
  | RqGetAllEfficiencyResources => sv_GetAllEfficiencyResources $> fst
  | RqGetEfficiencyResourcesInfos => sv_GetEfficiencyResourcesInfos $> (fun r => r.1.1)
  | RqDump args => Dump CheckSignature args $> fst
  end.
End System.

(** The entry points unfold to their checks and to the operations of the managers. *)
Create HintDb service.
#[export] Hint Unfold sv_RequestSuspendDelay sv_CancelSuspendDelay sv_GetRemainingDelayTime
  sv_GetAllTransientTasks sv_ForceCancelSuspendDelay sv_GetTransientTaskApps
  sv_PauseTransientTaskTimeForInner sv_StartTransientTaskTimeForInner sv_SetBgTaskConfig
  sv_StartBackgroundRunning sv_UpdateBackgroundRunning sv_RequestBackgroundRunningForInner
  sv_RequestGetContinuousTasksByUidForInner sv_StopBackgroundRunning sv_GetAllContinuousTasks
  sv_GetAllContinuousTasksSuspended sv_UpdateDataTransferProgress sv_GetContinuousTaskApps
  sv_StopContinuousTask sv_SuspendContinuousTask sv_ActiveContinuousTask
  sv_SuspendContinuousAudioTask sv_SetSupportedTaskKeepingProcesses sv_SetMaliciousAppConfig
  sv_SetSpecialExemptedProcess sv_CheckTaskAuthResult sv_EnableContinuousTaskRequest
  sv_GetAllContinuousTaskApps sv_SendNotificationByDeteTask sv_AVSessionNotifyUpdateNotification
  sv_IsModeSupported sv_RequestAuthFromUser sv_CheckSpecialScenarioAuth sv_SetBackgroundTaskState
  sv_GetBackgroundTaskState sv_GetAllContinuousTasksBySystem sv_RemoveAuthRecord
  sv_SubscribeBackgroundTask sv_UnsubscribeBackgroundTask sv_HandleRequestExpired
  sv_HandleExpiredCallbackDeath sv_HandleSubscriberDeath sv_ApplyEfficiencyResources
  sv_ResetAllEfficiencyResources sv_GetAllEfficiencyResources sv_GetEfficiencyResourcesInfos
  sv_OnAddSystemAbility sv_OnRemoveSystemAbility Dump for_scheduler given_ids both_managers :
  service.
