(* ===== verification/BackgroundTaskMgrRun.v ===== *)
(** * Running the operations of the service

    Equations for the sequences of [SV], for the checks an operation begins with and for
    the operations of the managers in it; [checks] rewrites with them, and [runs] follows
    an operation through its cases to its ends. *)

From S2P Require Import Prelude.
From S2P Require Import Errors.
From S2P Require Import KeyInfo.
From S2P Require Import Interfaces.
From S2P Require Import DeviceInfo.
From S2P Require Import DecisionMaker.
From S2P Require Import TransientTaskMgr.
From S2P Require Import ResourceTypes.
From S2P Require Import EfficiencyResources.
From S2P Require Import Json.
From S2P Require Import BgtaskConfig.
From S2P Require Import BackgroundModes.
From S2P Require Import ContinuousTaskRecord.
From S2P Require Import ContinuousTypes.
From S2P Require Import ContinuousTaskMgr.
From S2P Require Import ContinuousTaskStart.
From S2P Require Import ContinuousTaskStop.
From S2P Require Import ContinuousAuth.
From S2P Require Import ContinuousQueries.
From S2P Require Import ContinuousRestart.
From S2P Require Import ContinuousSystem.
From S2P Require Import ContinuousTaskMgrSpec.
From S2P Require Import ContinuousInvariant.
From S2P Require Import ContinuousWellFormed.
From S2P Require Import ContinuousTaskMgrProps.
From S2P Require Import ContinuousAuthProps.
From S2P Require Import BackgroundTaskMgrService.
From S2P Require Import BackgroundTaskMgrSystem.
Import BackgroundMode.
Local Open Scope Z_scope.

Section Runs.
Context {sp : SystemParams} {actions : CommonEventActions} {sa : SystemAbilityIds} {store : RecordStore}
  {abilities : EffAbilityIds} `{ContinuousPlatform} `{Json J} `{EventHandler Q}.
Variable CheckSignature : string -> bool.
Abbreviation Service := (BackgroundTaskMgrService Q).
Implicit Types s : Service.
Implicit Types e : ServiceEnv J.
Abbreviation serve := (BackgroundTaskMgrSystem.serve CheckSignature).

(** ** Sequences in [SV] *)
Lemma sv_bind_ret {A B} (a : A) (k : A -> SV B) : sv_bind (J := J) (Q := Q) (sv_ret a) k = k a.
Proof. done. Qed.
Lemma sv_bind_run {A B} (m : SV A) (k : A -> SV B) e s a s' :
  m e s = Some (a, s') -> sv_bind (J := J) (Q := Q) m k e s = k a e s'.
Proof. intros Hm. unfold sv_bind. by rewrite Hm. Qed.
Lemma sv_bind_ask {A B} (f : ServiceEnv J -> A) (k : A -> SV B) e s :
  sv_bind (Q := Q) (sv_ask f) k e s = k (f e) e s.
Proof. done. Qed.

(** The checks, as facts about the caller. *)
Lemma run_CheckCallingToken e s : CheckCallingToken e s = Some (caller_system_service e, s).
Proof. unfold CheckCallingToken, caller_system_service, sv_bind, sv_ask. by destruct (se_tokenType e). Qed.
Lemma run_not_scheduler e s :
  not_scheduler e s = Some (negb (caller_system_service e && (ce_callingUid (se_cont e) =? 1096)), s).
Proof.
  unfold not_scheduler. rewrite (sv_bind_run _ _ _ _ _ _ (run_CheckCallingToken e s)).
  by destruct (caller_system_service e).
Qed.
Lemma atomic_mode_spec m : Is_true (atomic_mode m) <-> m ∈ [AUDIO_PLAYBACK; MULTI_DEVICE_CONNECTION; LOCATION].
Proof.
  unfold atomic_mode. rewrite !orb_True, !Is_true_true, !Z.eqb_eq, !elem_of_cons, elem_of_nil. tauto.
Qed.
Lemma run_atomic_refused p e s :
  atomic_refused p e s =
  Some (negb (negb (caller_atomic e) ||
              bool_decide (Forall (fun m => m ∈ [AUDIO_PLAYBACK; MULTI_DEVICE_CONNECTION; LOCATION]) (tp_bgModeIds_ p))), s).
Proof.
  unfold atomic_refused, CheckAtomicService, caller_atomic. rewrite sv_bind_ask. unfold sv_ret.
  do 2 f_equal. destruct (se_IsAtomicService _ _); [|done]. cbn [negb andb orb]. f_equal.
  apply eq_bool_prop_intro. rewrite bool_decide_spec, forallb_True.
  apply Forall_iff. apply atomic_mode_spec.
Qed.
Lemma run_auth_refused v e s :
  auth_refused v [22; 26] e s = Some (refusal (ApplicationsAtVersion v [22; 26]) e, s).
Proof.
  unfold auth_refused, CheckAtomicService, is_hap, refusal, caller_application, caller_atomic.
  rewrite sv_bind_ask. destruct (se_IsAtomicService _ _); [by destruct (bool_decide _)|].
  rewrite sv_bind_ask. destruct (bool_decide (se_tokenType e = _)); [|done]. cbn. by destruct (bool_decide _).
Qed.
Lemma run_settings_refused permission e s :
  settings_refused permission e s = Some (refusal (SystemApplicationsWith permission) e, s).
Proof.
  unfold settings_refused, CheckAtomicService, is_hap, CheckPermission, IsSystemApp, refusal, caller_application,
    caller_atomic, caller_may, caller_system_app.
  rewrite sv_bind_ask. destruct (se_IsAtomicService _ _); [by destruct (bool_decide _)|].
  rewrite sv_bind_ask. destruct (bool_decide _); [|done]. cbn. unfold sv_bind, sv_ask.
  destruct (ce_CheckPermission _ _); [|done]. cbn. by destruct (ce_IsSystemApp _ _).
Qed.
(** An application passes as such. *)
Lemma run_subscribe_check flag e s :
  subscribe_check flag e s =
  Some (match refusal (SubscribersWith flag) e with
        | Some err => inl err
        | None => inr (negb (caller_system_service e))
        end, s).
Proof.
  unfold subscribe_check. rewrite (sv_bind_run _ _ _ _ _ _ (run_CheckCallingToken e s)).
  unfold refusal. destruct (caller_system_service e) eqn:Ht; [done|].
  unfold CheckHapCalling, is_hap, CheckAtomicService, IsSystemApp, CheckPermission, system_app_tests, caller_application,
    caller_atomic, caller_may, caller_system_app, sv_bind, sv_ask, sv_ret.
  destruct (bool_decide (se_tokenType e = TOKEN_HAP)); [|by destruct (flag =? 8)].
  change SUBSCRIBER_BACKGROUND_TASK_STATE with 8. destruct (flag =? 8).
  - cbn. destruct (se_IsAtomicService _ _); [done|]. cbn. destruct (ce_IsSystemApp _ _); [|done].
    cbn. by destruct (ce_CheckPermission _ _).
  - cbn. by destruct (ce_CheckPermission _ _).
Qed.
Lemma run_AllowDump e s : AllowDump e s = Some (negb (ENG_MODE =? 0) && se_dumpGranted e, s).
Proof. unfold AllowDump. by destruct (ENG_MODE =? 0). Qed.
Lemma first_failure_permit b err : first_failure [(b, ERR_BGTASK_PERMISSION_DENIED)] = Some err -> b = false /\ err = ERR_BGTASK_PERMISSION_DENIED.
Proof. destruct b; [done|]. by intros [= <-]. Qed.

Lemma run_ask {A} (f : ServiceEnv J -> A) e s : sv_ask (Q := Q) f e s = Some (f e, s).
Proof. done. Qed.
Lemma run_CheckAtomicService e s : CheckAtomicService e s = Some (caller_atomic e, s).
Proof. done. Qed.
Lemma run_is_hap e s : is_hap e s = Some (caller_application e, s).
Proof. done. Qed.
Lemma sv_bind_at {A B} (m : SV A) (k : A -> SV B) e s :
  sv_bind (J := J) (Q := Q) m k e s = match m e s with Some (a, s) => k a e s | None => None end.
Proof. done. Qed.

(** *** What the operations of the managers do to the state of the service *)
Lemma run_transient {A} (f : TransientConfig -> CallCtx -> TransientTaskMgr Q -> A * TransientTaskMgr Q) e s :
  transient CheckSignature f e s =
  Some ((f (config_transient CheckSignature (sv_config s)) (transient_ctx e) (sv_transient s)).1,
        sv_set_transient (f (config_transient CheckSignature (sv_config s)) (transient_ctx e) (sv_transient s)).2 s).
Proof. unfold transient. by destruct (f _ (transient_ctx e) _). Qed.
Lemma run_efficiency {A} (f : CpuLevelConfig -> EffEnv -> EffMgr -> A * EffMgr) e s :
  efficiency f e s =
  Some ((f (config_levels (sv_config s)) (efficiency_env e) (sv_efficiency s)).1,
        sv_set_efficiency (f (config_levels (sv_config s)) (efficiency_env e) (sv_efficiency s)).2 s).
Proof. unfold efficiency. by destruct (f _ (efficiency_env e) _). Qed.
Lemma run_continuous {A} (m : CM A) e s :
  continuous CheckSignature m e s =
  Some ((m (cont_env CheckSignature (sv_config s) e) (sv_continuous s)).1,
        sv_set_continuous (m (cont_env CheckSignature (sv_config s) e) (sv_continuous s)).2 s).
Proof. unfold continuous. by destruct (m _ _). Qed.
Lemma run_continuous_try {A} (m : CM (option A)) e s :
  continuous_try CheckSignature m e s =
  (fun a => (a, sv_set_continuous (m (cont_env CheckSignature (sv_config s) e) (sv_continuous s)).2 s)) <$>
    (m (cont_env CheckSignature (sv_config s) e) (sv_continuous s)).1.
Proof. unfold continuous_try. by destruct (m _ _). Qed.
Lemma run_ret {A} (a : A) e s : sv_ret (J := J) (Q := Q) a e s = Some (a, s).
Proof. done. Qed.
Lemma run_config_do f e s : config_do f e s = Some (tt, sv_set_config (f (sv_config s)) s).
Proof. done. Qed.
End Runs.

Create Rewrite HintDb checks.
#[export] Hint Rewrite @run_CheckCallingToken @run_not_scheduler @run_atomic_refused @run_ask
  @run_CheckAtomicService @run_is_hap @run_transient @run_efficiency @run_continuous @run_continuous_try @run_ret @run_config_do : checks.

(** [checks] runs the checks an operation begins with. *)
Ltac checks :=
  repeat (rewrite ?sv_bind_at, ?run_auth_refused, ?run_settings_refused, ?run_subscribe_check, ?run_AllowDump;
          autorewrite with checks); cbn beta iota.
Ltac fields := cbn [sv_running sv_dependsReady_ sv_transient sv_efficiency sv_continuous sv_config sv_published
  sv_pluginInit sv_set_running sv_set_dependsReady_ sv_set_transient sv_set_efficiency sv_set_continuous sv_set_config
  sv_set_published sv_set_pluginInit fst snd].
(** [runs] follows an operation to its ends. *)
Ltac runs := repeat (checks; match goal with
  | |- context [(if ?b then _ else _) _ _] => destruct b eqn:?
  | |- context [match ?x with _ => _ end _ _] => destruct x eqn:?
  | |- context [?x ≫= _] => destruct x as [[? ?]|] eqn:?; cbn [mbind option_bind]
  | |- context [?f <$> ?x] => destruct x eqn:?; cbn [fmap option_fmap option_map]
  end); checks.
