(* ===== verification/BackgroundTaskMgrProps.v ===== *)
(** * What the service promises its callers

    The access policy, the steps of the managers behind the requests, and what follows for
    the continuous tasks. *)

From S2P Require Import Prelude.
From S2P Require Import Errors.
From S2P Require Import KeyInfo.
From S2P Require Import Interfaces.
From S2P Require Import DeviceInfo.
From S2P Require Import DecisionMaker.
From S2P Require Import TransientTaskMgr.
From S2P Require Import ResourceTypes.
From S2P Require Import EfficiencyResources.
From S2P Require Import Json.
From S2P Require Import BgtaskConfig.
From S2P Require Import BackgroundModes.
From S2P Require Import ContinuousTaskRecord.
From S2P Require Import ContinuousTypes.
From S2P Require Import ContinuousTaskMgr.
From S2P Require Import ContinuousTaskStart.
From S2P Require Import ContinuousTaskStop.
From S2P Require Import ContinuousAuth.
From S2P Require Import ContinuousQueries.
From S2P Require Import ContinuousRestart.
From S2P Require Import ContinuousSystem.
From S2P Require Import ContinuousTaskMgrSpec.
From S2P Require Import ContinuousInvariant.
From S2P Require Import ContinuousWellFormed.
From S2P Require Import ContinuousTaskMgrProps.
From S2P Require Import ContinuousAuthProps.
From S2P Require Import BackgroundTaskMgrService.
From S2P Require Import BackgroundTaskMgrSystem.
From S2P Require Import BackgroundTaskMgrRun.
Import BackgroundMode.

Local Open Scope Z_scope.

Section Props.
Context {sp : SystemParams} {actions : CommonEventActions} {sa : SystemAbilityIds} {store : RecordStore}
  {abilities : EffAbilityIds} `{ContinuousPlatform} `{Json J} `{EventHandler Q}.
Variable CheckSignature : string -> bool.
Abbreviation Service := (BackgroundTaskMgrService Q).
Implicit Types s : Service.
Implicit Types e : ServiceEnv J.
Abbreviation serve := (BackgroundTaskMgrSystem.serve CheckSignature).

(** ** The policy *)

Lemma serve_refused r e s err :
  refusal (access_of r) e = Some err -> serve r e s = Some (err, s).
Proof.
  destruct r; cbn [access_of]; intros Hr; try discriminate Hr; unfold BackgroundTaskMgrSystem.serve.
  all: try (apply first_failure_permit in Hr as [Hr ->]).
  all: autounfold with service; checks; rewrite ?Hr; try done.
  all: bool_prop; rewrite ?Hr; try done.
  match goal with H1 : _ = false, H2 : _ <> _ |- _ => rewrite H1, (proj2 (Z.eqb_neq _ _) H2); done end.
Qed.

(** C4. A caller outside the class of callers a request is for is given the error of the
    policy, and nothing changes: no manager, no configuration, no readiness. *)
Theorem refused_requests_do_nothing r e s err :
  refusal (access_of r) e = Some err -> serve r e s = Some (err, s).
Proof. apply serve_refused. Qed.

(** ** The managers behind the requests *)
(** The operation of the continuous task manager behind a request. *)
Definition op_of e (r : ServiceRequest) : option ContOp :=
  match r with
  | RqStartBackgroundRunning p _ _ => Some (OpStart (Some p))
  | RqUpdateBackgroundRunning p _ _ => Some (OpUpdate p)
  | RqRequestBackgroundRunningForInner p => Some (OpInner (Some p))
  | RqStopBackgroundRunning name ability id => Some (OpStop name ability id)
  | RqUpdateDataTransferProgress p => Some (OpProgress p)
  | RqStopContinuousTask uid pid taskType key => Some (OpStopTask uid pid taskType key)
  | RqSuspendContinuousTask uid pid reason key b => Some (OpSuspendTask uid pid reason key b)
  | RqActiveContinuousTask uid pid key b => Some (OpActiveTask uid pid key b)
  | RqSuspendContinuousAudioTask uid => Some (OpSuspendAudio uid)
  | RqEnableContinuousTaskRequest uid b => Some (OpEnable uid b)
  | RqSendNotificationByDeteTask keys => Some (OpDeteTask keys)
  | RqAVSessionNotifyUpdateNotification uid pid b => Some (OpAVSession uid pid b)
  | RqRequestAuthFromUser p callback id => Some (OpRequestAuth (Some p) callback id)
  | RqSetBackgroundTaskState p => Some (OpSetState (Some p))
  | RqRemoveAuthRecord p => Some (OpRemoveAuth (Some p))
  | RqSubscribeBackgroundTask sub flag =>
      Some (OpAddSubscriber (Some (mkSubscriber sub (ce_callingUid (se_cont e)) (ce_callingPid (se_cont e))
                                     (negb (caller_system_service e)) flag)))
  | RqUnsubscribeBackgroundTask sub flag => Some (OpRemoveSubscriber sub flag)
  | RqDump args => Some (OpShell args)
  | _ => None
  end.

(** Which requests may change the transient task manager, the efficiency resources manager
    and the configuration. *)
Definition for_transient (r : ServiceRequest) : bool :=
  match r with
  | RqRequestSuspendDelay _ | RqCancelSuspendDelay _ | RqGetAllTransientTasks | RqPauseTransientTaskTimeForInner _
  | RqStartTransientTaskTimeForInner _ | RqSubscribeBackgroundTask _ _ | RqUnsubscribeBackgroundTask _ _ | RqDump _ => true
  | _ => false
  end.
Definition for_efficiency (r : ServiceRequest) : bool :=
  match r with
  | RqApplyEfficiencyResources _ | RqResetAllEfficiencyResources | RqSubscribeBackgroundTask _ _
  | RqUnsubscribeBackgroundTask _ _ | RqDump _ => true
  | _ => false
  end.
Definition for_config (r : ServiceRequest) : bool :=
  match r with
  | RqSetBgTaskConfig _ _ | RqSetSupportedTaskKeepingProcesses _ | RqSetMaliciousAppConfig _
  | RqSetSpecialExemptedProcess _ => true
  | _ => false
  end.

(** Operations that only ask. *)
Definition ReadOnly {A} (m : CM A) : Prop := forall (o : ContEnv) (c : ContinuousMgr), (m o c).2 = c.
Lemma readonly_bind {A B} (m : CM A) (k : A -> CM B) : ReadOnly m -> (forall a, ReadOnly (k a)) -> ReadOnly (bind m k).
Proof. intros Hm Hk o c. unfold bind. pose proof (Hm o c) as E. destruct (m o c) as [a c1]. cbn in E. subst. apply Hk. Qed.
Ltac readonly := repeat first
  [ done
  | apply readonly_bind; [|intros]
  | match goal with
    | |- ReadOnly (if ?c then _ else _) => destruct c
    | |- ReadOnly (match ?x with _ => _ end) => destruct x
    | |- ReadOnly ?m => let f := head_of m in unfold f
    end ].
Lemma readonly_queries :
  (forall uid, ReadOnly (RequestGetContinuousTasksByUidForInner uid)) /\ (forall b, ReadOnly (GetAllContinuousTasks b)) /\
  (forall uid, ReadOnly (GetContinuousTaskApps uid)) /\
  (forall name user app, ReadOnly (CheckTaskAuthResult name user app)) /\ ReadOnly GetAllContinuousTaskApps /\
  (forall p, ReadOnly (IsModeSupported p)) /\ (forall app result v, ReadOnly (CheckSpecialScenarioAuth app result v)) /\
  (forall p result, ReadOnly (GetBackgroundTaskState p result)) /\ ReadOnly GetAllContinuousTasksBySystem.
Proof. repeat split; intros; readonly. Qed.

(** What a served request leaves as it was, and the step of the continuous task manager. *)
Definition frame e (r : ServiceRequest) s s' : Prop :=
  (sv_running s' = sv_running s /\ sv_dependsReady_ s' = sv_dependsReady_ s /\ sv_published s' = sv_published s) /\
  (for_transient r = false -> sv_transient s' = sv_transient s) /\
  (for_efficiency r = false -> sv_efficiency s' = sv_efficiency s) /\
  (for_config r = false -> sv_config s' = sv_config s) /\
  (sv_continuous s' = sv_continuous s \/ exists op, op_of e r = Some op /\
     sv_continuous s' = (exec op (cont_env CheckSignature (sv_config s) e) (sv_continuous s)).2).

Lemma readonly_frame {A} (m : CM A) o c : ReadOnly m -> (m o c).2 = c.
Proof. done. Qed.
Lemma exec_drop {A} (m : CM A) o c : (bind m (fun _ => ret tt) o c).2 = (m o c).2.
Proof. unfold bind. by destruct (m o c). Qed.

Lemma served_frame r e s x s' : serve r e s = Some (x, s') -> frame e r s s'.
Proof.
  destruct r; unfold BackgroundTaskMgrSystem.serve; autounfold with service; runs; try discriminate.
  all: intros E; apply (inj Some), (f_equal snd) in E; cbn [snd] in E; subst s'; unfold frame; fields; cbn [for_transient for_efficiency for_config op_of].
  all: split_and!; try done.
  all: try first [left; reflexivity | left; apply readonly_queries | right; eexists; split; [reflexivity|]; cbn [exec]; rewrite ?exec_drop; try done].
  all: repeat match goal with
    | Hc : match refusal _ _ with _ => _ end = _ |- _ => destruct (refusal _ _); simplify_eq
    | Hc : negb _ = _ |- context [negb (caller_system_service _)] => rewrite Hc; try done
    end.
  all: try done.
  by destruct (ContinuousQueries.ShellDump _ _ _).
Qed.

(** ** Sequences of requests *)

(** The numbers of a request are machine integers, and the ids of tasks have not run out. *)
Definition well_typed (r : ServiceRequest) e s : Prop :=
  forall op, op_of e r = Some op -> admissible op (cont_env CheckSignature (sv_config s) e) (sv_continuous s).

(** Any number of requests, each with its caller. *)
Inductive served : Service -> Service -> Prop :=
| served_none s : served s s
| served_one s r e x s1 s' :
    well_typed r e s -> serve r e s = Some (x, s1) -> served s1 s' -> served s s'.

Lemma served_reachable s s' : served s s' -> reachable (J := J) (sv_continuous s) -> reachable (J := J) (sv_continuous s').
Proof.
  intros Hs. induction Hs as [|s r e x s1 s' Ht Hr _ IH]; [done|]. intros Hi. apply IH.
  destruct (served_frame _ _ _ _ _ Hr) as (_ & _ & _ & _ & [->|(op & Ho & ->)]); [done|].
  apply reach_step; [done|]. by apply Ht.
Qed.

(** Whatever requests come, from whatever callers and in whatever order, the records of
    the continuous tasks stay well formed: keys, ids and their bound, at most ten tasks of
    an ability. *)
Theorem requests_keep_tasks_well_formed s s' :
  reachable (J := J) (sv_continuous s) -> served s s' ->
  well_formed (tasks (sv_continuous s')) (cm_continuousTaskIdIndex_ (sv_continuous s')).
Proof. intros Hi Hs. by eapply (reachable_well_formed (J := J)), served_reachable. Qed.

(** C7. A request starts no task in the name of another: a task that is new belongs to the
    caller, unless the caller is one of the services of the table of inner requests, or
    may dump on a debuggable device. *)
Theorem requests_start_tasks_of_their_caller r e s x s' key task :
  reachable (J := J) (sv_continuous s) -> well_typed r e s -> serve r e s = Some (x, s') ->
  tasks (sv_continuous s) !! key = None -> tasks (sv_continuous s') !! key = Some task ->
  ct_uid_ task = ce_callingUid (se_cont e) \/
  is_Some (table_find (ce_callingUid (se_cont e)) g_innerApiReqBgRunningConfig) \/
  (ENG_MODE <> 0 /\ se_dumpGranted e = true).
Proof.
  intros Hi Ht Hr Hn Hk. pose proof Hr as Hx.
  destruct (served_frame _ _ _ _ _ Hr) as (_ & _ & _ & _ & [E|(op & Ho & E)]); [congruence|].
  rewrite E in Hk. pose proof (tasks_started_for op _ _ key task Hi (Ht op Ho) Hn Hk) as Hu.
  destruct r; try discriminate Ho; cbn [op_of] in Ho; injection Ho as <-; try (by destruct Hu); try (by left).
  - cbn [starts_for] in Hu. destruct Hu as [Hu Hp]. unfold CheckPermissionForInner in Hp.
    cbn [cont_env ce_callingUid] in Hp.
    destruct (table_find _ _) as [[m b]|] eqn:Ef; [right; left; done|]. bool_prop. left. congruence.
  - right. right. destruct (refusal (access_of (RqDump args)) e) eqn:Ed.
    + rewrite (serve_refused _ _ _ _ Ed) in Hx. congruence.
    + cbn in Ed. destruct (ENG_MODE =? 0) eqn:Ee, (se_dumpGranted e); try discriminate. split; [by bool_prop|done].
Qed.
End Props.
