(* ===== verification/BackgroundTaskMgrReady.v ===== *)
(** * Readiness, configuration and subscribers of the service

    When the service is published; how a list set by the resource scheduler reaches the
    answer about an application; what a subscription registers; where an application brings
    the service down. *)

From S2P Require Import Prelude.
From S2P Require Import Errors.
From S2P Require Import KeyInfo.
From S2P Require Import Interfaces.
From S2P Require Import DeviceInfo.
From S2P Require Import DecisionMaker.
From S2P Require Import TransientTaskMgr.
From S2P Require Import EfficiencyResources.
From S2P Require Import Json.
From S2P Require Import BgtaskConfig.
From S2P Require Import BackgroundModes.
From S2P Require Import ContinuousTaskRecord.
From S2P Require Import ContinuousTypes.
From S2P Require Import NotificationTools.
From S2P Require Import ContinuousTaskMgr.
From S2P Require Import ContinuousAuth.
From S2P Require Import ContinuousQueries.
From S2P Require Import ContinuousSystem.
From S2P Require Import ContinuousTaskMgrSpec.
From S2P Require Import ContinuousStartProps.
From S2P Require Import ContinuousAuthProps.
From S2P Require Import BackgroundTaskMgrService.
From S2P Require Import BackgroundTaskMgrSystem.
From S2P Require Import BackgroundTaskMgrRun.
From S2P Require Import BackgroundTaskMgrProps.
Local Open Scope Z_scope.

Section Ready.
Context {sp : SystemParams} {actions : CommonEventActions} {sa : SystemAbilityIds} {store : RecordStore}
  {abilities : EffAbilityIds} `{ContinuousPlatform} `{Json J} `{EventHandler Q}.
Variable CheckSignature : string -> bool.
Abbreviation Service := (BackgroundTaskMgrService Q).
Implicit Types s : Service.
Implicit Types e : ServiceEnv J.
Abbreviation serve := (BackgroundTaskMgrSystem.serve CheckSignature).

(** ** The reports of the managers *)
Definition report_flags : list Z :=
  [TRANSIENT_SERVICE_READY; CONTINUOUS_SERVICE_READY; EFFICIENCY_RESOURCES_SERVICE_READY].
(** Each with what the service reads and is answered at it; [None]: it throws. *)
Fixpoint reports (l : list (Z * ServiceEnv J)) s : option Service :=
  match l with
  | [] => Some s
  | (flag, e) :: l => match SetReady flag e s with Some (_, s) => reports l s | None => None end
  end.
Definition all_reported (l : list Z) : bool := forallb (fun flag => bool_decide (flag ∈ l)) report_flags.

(** A service that waits for reports and has had those of [b1], [b2] and [b3]. *)
Definition waiting (c0 : BgtaskConfig) (b1 b2 b3 : bool) s : Prop :=
  sv_dependsReady_ s = Z.b2z b1 + 2 * Z.b2z b2 + 4 * Z.b2z b3 /\
  sv_running s = false /\ sv_published s = 0%nat /\ sv_config s = c0.

Lemma SetReady_waits c0 flag b1 b2 b3 e s : flag ∈ report_flags -> waiting c0 b1 b2 b3 s ->
  (b1 || (flag =? 1)) && (b2 || (flag =? 2)) && (b3 || (flag =? 4)) = false ->
  exists s', SetReady flag e s = Some (tt, s') /\
    waiting c0 (b1 || (flag =? 1)) (b2 || (flag =? 2)) (b3 || (flag =? 4)) s'.
Proof.
  intros Hf (Hd & Hr & Hn & Hg). unfold SetReady. rewrite Hd.
  assert (flag = 1 \/ flag = 2 \/ flag = 4) as [->|[->| ->]] by (unfold report_flags in Hf; set_solver).
  all: destruct b1, b2, b3; cbn; intros Ha; try discriminate Ha; rewrite ?Hd; cbn.
  all: eexists; split; [reflexivity|]; unfold waiting; cbn; rewrite ?Hd, ?Hr, ?Hn, ?Hg; done.
Qed.
Lemma SetReady_last c0 flag b1 b2 b3 e s : flag ∈ report_flags -> waiting c0 b1 b2 b3 s ->
  b1 && b2 && b3 = false -> (b1 || (flag =? 1)) && (b2 || (flag =? 2)) && (b3 || (flag =? 4)) = true ->
  match bc_Init (se_file e) c0 with
  | None => SetReady flag e s = None
  | Some c => exists s', SetReady flag e s = Some (tt, s') /\ sv_dependsReady_ s' = ALL_READY /\
      sv_running s' = se_Publish e /\ sv_published s' = (if se_Publish e then 1 else 0)%nat /\ sv_config s' = c
  end.
Proof.
  intros Hf (Hd & Hr & Hn & Hg). unfold SetReady. rewrite Hd.
  assert (flag = 1 \/ flag = 2 \/ flag = 4) as [->|[->| ->]] by (unfold report_flags in Hf; set_solver).
  all: destruct b1, b2, b3; cbn; intros Hb Ha; try discriminate Ha; try discriminate Hb; rewrite ?Hd, ?Hg; cbn.
  all: destruct (bc_Init (se_file e) c0); [|done].
  all: cbn; destruct (se_Publish e); cbn; (eexists; split; [reflexivity|]); cbn; rewrite ?Hr, ?Hn; done.
Qed.
Lemma reports_done l s : sv_dependsReady_ s = ALL_READY -> reports l s = Some s.
Proof.
  intros Hd. induction l as [|[flag e] l IH]; [done|]. cbn [reports]. unfold SetReady. rewrite Hd, Z.eqb_refl. exact IH.
Qed.

(** The reports of [l], and those before. *)
Abbreviation with_reports b n l := (b || bool_decide (n ∈ (l : list (Z * ServiceEnv J)).*1)).
Lemma with_report b n flag e l : with_reports b n ((flag, e) :: l) = with_reports (b || (flag =? n)) n l.
Proof.
  rewrite <- orb_assoc. f_equal. apply eq_bool_prop_intro.
  rewrite orb_True, !bool_decide_spec, Is_true_true, Z.eqb_eq. cbn. rewrite elem_of_cons. naive_solver.
Qed.
Lemma reports_wait c0 l : Forall (.∈ report_flags) l.*1 -> forall b1 b2 b3 s, waiting c0 b1 b2 b3 s ->
  with_reports b1 1 l && with_reports b2 2 l && with_reports b3 4 l = false ->
  exists s', reports l s = Some s' /\ waiting c0 (with_reports b1 1 l) (with_reports b2 2 l) (with_reports b3 4 l) s'.
Proof.
  induction l as [|[flag e] l IH]; intros Hl b1 b2 b3 s Hs.
  { cbn. rewrite !orb_false_r. intros _. by exists s. }
  cbn [fmap list_fmap fst] in Hl. apply Forall_cons in Hl as [Hf Hl]. rewrite !with_report. intros Ha.
  destruct (SetReady_waits c0 flag b1 b2 b3 e s Hf Hs) as (s1 & E1 & Hs1).
  { destruct (b1 || (flag =? 1)), (b2 || (flag =? 2)), (b3 || (flag =? 4)); done. }
  cbn [reports]. rewrite E1. by apply IH.
Qed.
Lemma all_reported_with (l : list (Z * ServiceEnv J)) :
  all_reported l.*1 = with_reports false 1 l && with_reports false 2 l && with_reports false 4 l.
Proof. unfold all_reported. cbn. by rewrite andb_true_r, andb_assoc. Qed.
Lemma reports_app l1 l2 s : reports (l1 ++ l2) s = s' ← reports l1 s; reports l2 s'.
Proof.
  revert s. induction l1 as [|[flag e] l1 IH]; intros s; [done|]. cbn [reports app].
  destruct (SetReady flag e s) as [[[] s1]|]; [apply IH|done].
Qed.

(** C33. The managers report in any order, and as often as they like.  Before all three have,
    nothing is published and the configuration is not read.  At the report with which all
    three have, the configuration is read, once: where that throws, so does the report; else
    the service is published, and runs, where the publication succeeds — where it fails the
    service does not run, and no later report tries again. *)
Theorem published_when_all_reported l s :
  sv_dependsReady_ s = 0 -> sv_running s = false -> sv_published s = 0%nat -> Forall (.∈ report_flags) l.*1 ->
  (all_reported l.*1 = false -> exists s', reports l s = Some s' /\
     sv_running s' = false /\ sv_published s' = 0%nat /\ sv_config s' = sv_config s) /\
  (forall l1 flag e l2, l = l1 ++ (flag, e) :: l2 ->
     all_reported l1.*1 = false -> all_reported (l1.*1 ++ [flag]) = true ->
     match bc_Init (se_file e) (sv_config s) with
     | None => reports l s = None
     | Some c => exists s', reports l s = Some s' /\
         sv_running s' = se_Publish e /\ sv_published s' = (if se_Publish e then 1 else 0)%nat /\ sv_config s' = c
     end).
Proof.
  intros Hd Hr Hn Hl. assert (waiting (sv_config s) false false false s) as Hs by done.
  split.
  - rewrite all_reported_with. intros Ha. destruct (reports_wait _ l Hl _ _ _ s Hs Ha) as (s' & E & _ & ? & ? & ?). by exists s'.
  - intros l1 flag e l2 -> Hbefore. rewrite fmap_app in Hl. apply Forall_app in Hl as [Hl1 Hl2].
    cbn [fmap list_fmap fst] in Hl2. apply Forall_cons in Hl2 as [Hf _].
    change (l1.*1 ++ [flag]) with (l1.*1 ++ [(flag, e)].*1). rewrite <- fmap_app, all_reported_with. intros Hafter.
    rewrite all_reported_with in Hbefore. destruct (reports_wait _ l1 Hl1 _ _ _ s Hs Hbefore) as (s1 & E1 & Hs1).
    pose proof (SetReady_last _ flag _ _ _ e s1 Hf Hs1 Hbefore) as Hlast. rewrite reports_app, E1. cbn [mbind option_bind reports].
    assert (forall n, with_reports false n (l1 ++ [(flag, e)]) = with_reports false n l1 || (flag =? n)) as Hw.
    { intros n. cbn [orb]. rewrite fmap_app. apply eq_true_iff_eq. rewrite orb_true_iff, !bool_decide_eq_true, Z.eqb_eq, elem_of_app.
      cbn. rewrite list_elem_of_singleton. intuition congruence. }
    rewrite !Hw in Hafter. specialize (Hlast Hafter). destruct (bc_Init _ _) as [c|]; [|by rewrite Hlast].
    destruct Hlast as (s2 & E2 & Hd2 & Hp). rewrite E2, reports_done by done. by exists s2.
Qed.

(** What starts and stops the service, and what makes a manager report. *)
Inductive Lifecycle :=
| LcStart (ownUid : Z) (transientUp servicesUp listeners : bool) (taskFile authFile : option J)
| LcStop
| LcRetryTransient (servicesUp : bool)
| LcRetryContinuous (servicesUp listeners : bool) (taskFile authFile : option J)
| LcAddAbility (systemAbilityId : Z)
| LcRemoveAbility (systemAbilityId : Z).
Definition live (x : Lifecycle) : SV unit :=
  match x with
  | LcStart ownUid up1 up2 listeners taskFile authFile =>
      OnStart CheckSignature ownUid up1 up2 listeners taskFile authFile
  | LcStop => OnStop
  | LcRetryTransient up => init_transient CheckSignature up
  | LcRetryContinuous up listeners taskFile authFile => init_continuous CheckSignature up listeners taskFile authFile
  | LcAddAbility id => sv_OnAddSystemAbility id
  | LcRemoveAbility id => sv_OnRemoveSystemAbility CheckSignature id
  end.
Fixpoint lives (l : list (Lifecycle * ServiceEnv J)) s : option Service :=
  match l with
  | [] => Some s
  | (x, e) :: l => match live x e s with Some (_, s) => lives l s | None => None end
  end.

(** Stopped, after all managers had reported. *)
Definition stopped n s : Prop := sv_dependsReady_ s = ALL_READY /\ sv_running s = false /\ sv_published s = n.
Definition StaysStopped n {A} (m : SV A) : Prop :=
  forall e s a s', stopped n s -> m e s = Some (a, s') -> stopped n s'.

Lemma stopped_bind n {A B} (m : SV A) (k : A -> SV B) :
  StaysStopped n m -> (forall a, StaysStopped n (k a)) -> StaysStopped n (sv_bind m k).
Proof.
  intros Hm Hk e s b s' Hs. unfold sv_bind. destruct (m e s) as [[a s1]|] eqn:E; [|done].
  apply Hk. by eapply Hm.
Qed.
Lemma stopped_ret n {A} (a : A) : StaysStopped n (sv_ret a).
Proof. intros e s b s' Hs [= _ <-]. done. Qed.
Lemma stopped_SetReady n flag : StaysStopped n (SetReady flag).
Proof. intros e s a s' Hs. unfold SetReady. rewrite (proj1 Hs), Z.eqb_refl. intros [= _ <-]. done. Qed.
Lemma stopped_transient n {A} (f : TransientConfig -> CallCtx -> TransientTaskMgr Q -> A * TransientTaskMgr Q) :
  StaysStopped n (transient CheckSignature f).
Proof. intros e s a s' Hs. rewrite run_transient. intros [= _ <-]. done. Qed.
Lemma stopped_efficiency n {A} (f : CpuLevelConfig -> EffEnv -> EffMgr -> A * EffMgr) : StaysStopped n (efficiency f).
Proof. intros e s a s' Hs. rewrite run_efficiency. intros [= _ <-]. done. Qed.
Lemma stopped_continuous n {A} (m : CM A) : StaysStopped n (continuous CheckSignature m).
Proof. intros e s a s' Hs. rewrite run_continuous. intros [= _ <-]. done. Qed.
Lemma stopped_continuous_try n {A} (m : CM (option A)) : StaysStopped n (continuous_try CheckSignature m).
Proof.
  intros e s a s' Hs. rewrite run_continuous_try. destruct ((m _ _).1); [|done]. intros [= _ <-]. done.
Qed.
Lemma stopped_OnStop n : StaysStopped n OnStop.
Proof. intros e s a s' (Hd & Hr & Hn) [= _ <-]. done. Qed.
Ltac stopped := repeat first
  [ apply stopped_ret | apply stopped_SetReady | apply stopped_transient | apply stopped_efficiency
  | apply stopped_continuous | apply stopped_continuous_try | apply stopped_OnStop
  | apply stopped_bind; [|intros ?]
  | match goal with |- StaysStopped _ (if ?c then _ else _) => destruct c end ].
Lemma stopped_live n x : StaysStopped n (live x).
Proof.
  destruct x; cbn [live];
    unfold OnStart, sv_Init, init_transient, init_continuous, sv_OnAddSystemAbility, sv_OnRemoveSystemAbility, transient_do;
    stopped.
  intros e s a s' Hs [= _ <-]. done.
Qed.

(** Once [OnStop] has been called after all managers reported, no start, no attempt of a
    manager and no coming or going of an ability makes the service run or publishes it again:
    [dependsReady_] is never reset, and [SetReady] does nothing when all have reported. *)
Theorem stopped_service_never_runs_again s e a s0 l s1 :
  sv_dependsReady_ s = ALL_READY -> OnStop e s = Some (a, s0) -> lives l s0 = Some s1 ->
  sv_running s1 = false /\ sv_published s1 = sv_published s.
Proof.
  intros Hd [= _ <-] Hl.
  enough (stopped (sv_published s) s1) as (_ & Hr1 & Hn1) by done.
  assert (stopped (sv_published s) (sv_set_running false s)) as Hs by done. revert Hs Hl.
  generalize (sv_set_running false s). induction l as [|[x e1] l IH]; intros s2 Hs; cbn [lives]; [by intros [= <-]|].
  destruct (live x e1 s2) as [[b s3]|] eqn:E; [|done]. apply IH. by eapply stopped_live.
Qed.

(** ** The configuration *)
Fixpoint serves (l : list (ServiceRequest * ServiceEnv J)) s : option Service :=
  match l with
  | [] => Some s
  | (r, e) :: l => match serve r e s with Some (_, s) => serves l s | None => None end
  end.
Definition sets_config (r : ServiceRequest) : bool := match r with RqSetBgTaskConfig _ _ => true | _ => false end.

(** Nothing but a new cloud configuration takes an application off the list. *)
Lemma serve_keeps_blocked name r e s x s' :
  sets_config r = false -> serve r e s = Some (x, s') ->
  name ∈ bc_maliciousAppBlocklist_ (sv_config s) -> name ∈ bc_maliciousAppBlocklist_ (sv_config s').
Proof.
  intros Hc Hs Hn. destruct (for_config r) eqn:Ef.
  - destruct r; try discriminate; cbn in Hs; unfold sv_SetSupportedTaskKeepingProcesses, sv_SetMaliciousAppConfig,
      sv_SetSpecialExemptedProcess, for_scheduler, config_do, sv_bind, sv_ret, sv_modify in Hs;
      rewrite run_not_scheduler in Hs; destruct (negb _); cbn in Hs; simplify_eq; cbn; set_solver.
  - destruct (served_frame CheckSignature r e s x s' Hs) as (_ & _ & _ & Hf & _). by rewrite Hf.
Qed.
Lemma serves_keeps_blocked name l s s' :
  Forall (fun p => sets_config p.1 = false) l -> serves l s = Some s' ->
  name ∈ bc_maliciousAppBlocklist_ (sv_config s) -> name ∈ bc_maliciousAppBlocklist_ (sv_config s').
Proof.
  intros Hl. revert s. induction Hl as [|[r e] l Hr _ IH]; intros s; cbn [serves]; [by intros [= <-]|].
  destruct (serve r e s) as [[x s1]|] eqn:E; [|done]. intros Hs Hn.
  apply (IH s1 Hs). by eapply serve_keeps_blocked.
Qed.

(** An application the resource scheduler puts on the blocklist (its signature checked) is
    answered to have no background authorisation, whatever its record says and whatever was
    requested in between, until a cloud configuration replaces the list. *)
Theorem blocked_application_is_not_supported names e0 s0 x s1 l s e name userId appIndex authResult :
  refusal ResourceScheduler e0 = None -> serve (RqSetMaliciousAppConfig names) e0 s0 = Some (x, s1) ->
  name ∈ names -> CheckSignature name = true ->
  Forall (fun p => sets_config p.1 = false) l -> serves l s1 = Some s ->
  refusal (SystemApplicationsWith SET_BACKGROUND_TASK_STATE_PERMISSION) e = None ->
  cm_isSysReady_ (sv_continuous s) = true -> userId <> -1 -> appIndex <> -1 -> name <> ""%string ->
  exists s', sv_GetBackgroundTaskState CheckSignature (mkStateInfo userId name appIndex 0) authResult e s =
             Some ((ERR_OK, UserAuthResult.NOT_SUPPORTED), s').
Proof.
  intros He0 Hset Hn Hsig Hl Hs He Hready Hu Ha Hne.
  assert (name ∈ bc_maliciousAppBlocklist_ (sv_config s)) as Hb.
  { eapply serves_keeps_blocked; [done..|]. cbn in Hset. unfold sv_SetMaliciousAppConfig, for_scheduler, sv_bind in Hset.
    rewrite run_not_scheduler in Hset. cbn in He0. destruct (caller_system_service e0 && _); [|done].
    cbn in Hset. injection Hset as _ <-. by apply elem_of_union_r. }
  eexists. unfold sv_GetBackgroundTaskState, sv_bind. rewrite run_settings_refused, He, run_continuous.
  unfold GetBackgroundTaskState. rewrite bind_get, Hready. cbn [negb].
  cbn [bs_userId_ bs_appIndex_ bs_bundleName_].
  rewrite (proj2 (Z.eqb_neq _ _) Hu), (proj2 (Z.eqb_neq _ _) Ha), bool_decide_eq_false_2 by done. cbn [orb].
  unfold GetBackgroundTaskStateInner. rewrite bind_ask. cbn [cont_env ce_IsMaliciousApp bs_bundleName_].
  unfold bc_IsMaliciousAppConfig. rewrite bool_decide_eq_true_2, Hsig by done. cbn [negb]. reflexivity.
Qed.

(** ** Subscribers *)

Lemma existsb_same remote (l : list RemoteProxy) :
  existsb (same_remote (Some remote)) l = true -> Exists (fun p => AsObject p = Some remote) l.
Proof.
  rewrite existsb_exists, Exists_exists. intros (p & Hp & Ho). exists p. split; [by apply list_elem_of_In|].
  unfold same_remote in Ho. by apply bool_decide_eq_true in Ho.
Qed.
Lemma exists_alter_first (remote : option Remote) f (l : list SubscriberInfo) :
  (forall i, si_object (f i) = si_object i) ->
  Exists (fun i => si_object i = remote) l -> Exists (fun i => si_object i = remote) (alter_first (is_object remote) f l).
Proof.
  intros Hf. induction 1 as [i l Hi|i l _ IH]; cbn [alter_first].
  - unfold is_object at 1. rewrite bool_decide_eq_true_2 by done. left. by rewrite Hf.
  - destruct (is_object remote i) eqn:E; [|by right]. left. rewrite Hf. by apply bool_decide_eq_true in E.
Qed.
Lemma AddSubscriber_registers (i : SubscriberInfo) remote o c :
  si_object i = Some remote ->
  (AddSubscriber (Some i) o c).1 = ERR_OK /\
  Exists (fun i => si_object i = Some remote) (cm_bgTaskSubscribers_ (AddSubscriber (Some i) o c).2).
Proof.
  intros Hi. unfold AddSubscriber. rewrite Hi, bool_decide_eq_false_2 by done. unfold bind. cbn [AddSubscriberInner].
  unfold AddSubscriberInner, bind. cbn [get]. rewrite Hi.
  destruct (list_find _ _) as [[n found]|] eqn:E.
  - apply list_find_Some in E as (Hl & Hf & _).
    assert (Exists (fun i => si_object i = Some remote) (cm_bgTaskSubscribers_ c)) as Hx.
    { apply Exists_exists. exists found. split; [by eapply list_elem_of_lookup_2|]. by apply bool_decide_eq_true in Hf. }
    destruct (si_isHap_ found); cbn; split; [done| |done|exact Hx]. by apply exists_alter_first.
  - cbn. split; [done|]. apply Exists_app. right. by left.
Qed.

Lemma tm_subscribe_registers remote (t : TransientTaskMgr Q) :
  let r := SubscribeBackgroundTask (Some (mkProxy (Some remote))) t in
  r.1 = ERR_OK /\ Exists (fun p => AsObject p = Some remote) (tm_subscriberList_ r.2).
Proof.
  cbn [SubscribeBackgroundTask AsObject]. case_test; cbn; (split; [done|]); [by apply existsb_same|].
  apply Exists_app. right. by left.
Qed.
Lemma em_subscribe_registers remote (m : EffMgr) :
  let r := em_AddSubscriber (Some (mkProxy (Some remote))) m in
  r.1 = ERR_OK /\ Exists (fun p => AsObject p = Some remote) (em_subscriberList_ r.2).
Proof.
  split; [done|]. unfold em_AddSubscriber, rs_AddSubscriber. cbn [AsObject]. case_test; cbn; [by apply existsb_same|].
  apply Exists_app. right. by left.
Qed.

(** A native process or the shell that subscribes with a live object is told of success,
    and is then registered with each of the three managers. *)
Theorem service_subscribes_to_every_manager remote flag e s :
  caller_system_service e = true ->
  exists s', serve (RqSubscribeBackgroundTask (Some (mkProxy (Some remote))) flag) e s = Some (ERR_OK, s') /\
    Exists (fun i => si_object i = Some remote) (cm_bgTaskSubscribers_ (sv_continuous s')) /\
    Exists (fun p => AsObject p = Some remote) (tm_subscriberList_ (sv_transient s')) /\
    Exists (fun p => AsObject p = Some remote) (em_subscriberList_ (sv_efficiency s')).
Proof.
  intros Hc. unfold BackgroundTaskMgrSystem.serve, sv_SubscribeBackgroundTask, both_managers, sv_bind.
  rewrite run_subscribe_check. unfold refusal. rewrite Hc. cbn [negb sv_ask].
  set (i := mkSubscriber _ _ _ _ _). rewrite run_continuous.
  destruct (AddSubscriber_registers i remote (cont_env CheckSignature (sv_config s) e) (sv_continuous s) eq_refl) as [E Hx].
  rewrite E, Z.eqb_refl. cbn [negb]. rewrite run_transient.
  destruct (tm_subscribe_registers remote (sv_transient s)) as [Et Hxt].
  cbn beta. cbn [sv_set_continuous sv_transient]. rewrite Et, Z.eqb_refl. cbn [negb]. rewrite run_efficiency.
  destruct (em_subscribe_registers remote (sv_efficiency s)) as [Em Hxm].
  cbn beta. cbn [sv_set_continuous sv_transient sv_config sv_efficiency sv_set_transient sv_continuous].
  rewrite Em, Z.eqb_refl. eexists. split; [reflexivity|]. done.
Qed.

(** ** An application that brings the service down *)

(** ** Where the service can be brought down *)
Lemma undefined_removal p e s :
  serve (RqRemoveAuthRecord p) e s = None <->
  se_tokenType e = TOKEN_HAP /\ cm_isSysReady_ (sv_continuous s) = true /\ tp_bgModeIds_ p = [].
Proof.
  unfold BackgroundTaskMgrSystem.serve, sv_RemoveAuthRecord, sv_bind. rewrite run_is_hap. unfold caller_application.
  case_bool_decide as Hh; cbn [negb]; [|split; [done|by intros [? _]]].
  rewrite run_continuous_try.
  pose proof (RemoveAuthRecord_undefined (Some p) (cont_env CheckSignature (sv_config s) e) (sv_continuous s)) as Hu.
  destruct ((RemoveAuthRecord _ _ _).1); cbn; (split; [intros E; try discriminate E|]).
  - intros (_ & Hr & Hm). discriminate (proj2 Hu (conj Hr (ex_intro _ p (conj eq_refl Hm)))).
  - destruct (proj1 Hu eq_refl) as (Hr & q & [= <-] & Hm). done.
  - done.
Qed.

(** *** The dump of all tasks *)

(** The mode of the task has no name in the table. *)
Definition unnamed (r : ContinuousTaskRecord) : Prop :=
  g_continuousTaskModeName !! Z.to_nat (GetBgModeNameIndex (ct_bgModeId_ r) (ct_isNewApi_ r)) = None.

Lemma dump_task_undefined index key r : dump_task index key r = None <-> unnamed r.
Proof. unfold dump_task, unnamed. by destruct (g_continuousTaskModeName !! _). Qed.
Lemma mapM_undefined {A B} (f : A -> option B) l : mapM f l = None <-> Exists (fun x => f x = None) l.
Proof.
  induction l as [|x l IH]; [split; [done|by intros ?%Exists_nil]|].
  rewrite Exists_cons, <- IH. cbn. destruct (f x) as [y|]; cbn; [|by split; [left|]].
  destruct (mapM f l); cbn; naive_solver.
Qed.
Lemma numbered_entries {A} (l : list A) : (numbered l).*2 = l.
Proof. apply snd_zip. by rewrite length_fmap, length_seq. Qed.

Lemma DumpAllTaskInfo_undefined o c :
  (DumpAllTaskInfo o c).1 = None <-> exists key r, tasks c !! key = Some r /\ unnamed r.
Proof.
  unfold DumpAllTaskInfo. rewrite bind_get. case_bool_decide as Hm.
  { split; [done|]. intros (key & r & Hk & _). by rewrite Hm, lookup_empty in Hk. }
  cbn [ret fst]. rewrite mapM_undefined.
  assert (Exists (fun x : Z * (string * ContinuousTaskRecord) => dump_task x.1 x.2.1 x.2.2 = None) (numbered (map_to_list (tasks c)))
    <-> Exists (fun x : string * ContinuousTaskRecord => unnamed x.2) (numbered (map_to_list (tasks c))).*2) as ->.
  { rewrite Exists_fmap, !Exists_exists. split; intros (x & Hx & Hu); exists x; (split; [done|]); by eapply dump_task_undefined. }
  rewrite numbered_entries, Exists_exists. split.
  - intros ([key r] & Hk%elem_of_map_to_list & Hu). by exists key, r.
  - intros (key & r & Hk & Hu). exists (key, r). by rewrite elem_of_map_to_list.
Qed.

Lemma undefined_ShellDump args o c : (ContinuousQueries.ShellDump args o c).1.2 = None <->
  cm_isSysReady_ c = true /\ (exists opt rest, args = opt :: "--all"%string :: rest) /\
  exists key r, tasks c !! key = Some r /\ unnamed r.
Proof.
  unfold ContinuousQueries.ShellDump. rewrite bind_get. destruct (cm_isSysReady_ c); cbn [negb].
  2: { split; [done|by intros [? _]]. }
  unfold ShellDumpInner. destruct args as [|opt [|command rest]]; [split; [done|naive_solver]..|].
  case_bool_decide as Ec; [subst command|].
  - rewrite bind_run. cbn [ret fst snd]. destruct (DumpAllTaskInfo o c) as [x c'] eqn:E. cbn [fst snd].
    pose proof (DumpAllTaskInfo_undefined o c) as Hd. rewrite E in Hd. cbn [fst] in Hd. rewrite Hd.
    split; [intros Hx|by intros (_ & _ & Hx)]. split; [done|]. split; [by eexists _, _|done].
  - split; [|intros (_ & (opt' & rest' & [= -> -> ->]) & _); done].
    repeat case_bool_decide; rewrite ?bind_run; done.
Qed.

Lemma undefined_dump args e s :
  serve (RqDump args) e s = None <->
  refusal Dumpers e = None /\ cm_isSysReady_ (sv_continuous s) = true /\
  (exists rest, args = "-C" :: "--all" :: rest)%string /\
  exists key r, tasks (sv_continuous s) !! key = Some r /\ unnamed r.
Proof.
  destruct (refusal Dumpers e) as [err|] eqn:Ed.
  { rewrite (serve_refused CheckSignature (RqDump args) e s err Ed). split; [done|by intros [? _]]. }
  unfold BackgroundTaskMgrSystem.serve, Dump. rewrite !sv_bind_at, run_AllowDump.
  assert (negb (ENG_MODE =? 0) && se_dumpGranted e = true) as -> by (revert Ed; unfold refusal; by destruct (negb (ENG_MODE =? 0) && se_dumpGranted e)).
  cbn [negb]. destruct args as [|opt rest].
  { cbn. split; [done|]. by intros (_ & _ & (? & [=]) & _). }
  destruct (bool_decide_reflect (opt = "-h"%string)) as [->|Hh].
  { cbn. split; [done|]. by intros (_ & _ & (? & [=]) & _). }
  rewrite !sv_bind_at. destruct (bool_decide_reflect (opt = "-T"%string)) as [->|HT].
  { rewrite run_transient. cbn. split; [done|]. by intros (_ & _ & (? & [=]) & _). }
  destruct (bool_decide_reflect (opt = "-C"%string)) as [->|HC].
  2: { destruct (bool_decide_reflect (opt = "-E"%string)) as [->|HE]; rewrite ?run_efficiency; cbn;
       (split; [done|]); intros (_ & _ & (? & [= E]) & _); done. }
  rewrite run_continuous_try.
  pose proof (undefined_ShellDump ("-C"%string :: rest) (cont_env CheckSignature (sv_config s) e) (sv_continuous s)) as Hd.
  destruct (ContinuousQueries.ShellDump _ _ _) as [[err infos] c']. cbn [fst snd] in *.
  destruct infos as [infos|]; cbn [fmap option_fmap option_map fst].
  - split; [done|]. intros (_ & Hr & (rest' & [= ->]) & Hx). destruct Hd as [_ Hd].
    by discriminate (Hd (conj Hr (conj (ex_intro _ _ (ex_intro _ _ eq_refl)) Hx))).
  - split; [intros _|done]. destruct (proj1 Hd eq_refl) as (Hr & (opt' & rest' & [= -> ->]) & Hx).
    split; [done|]. split; [done|]. split; [by eexists|done].
Qed.

Lemma undefined_config configData sourceType e s :
  serve (RqSetBgTaskConfig configData sourceType) e s = None <->
  caller_system_service e = true /\ tm_isReady_ (sv_transient s) = true /\ CheckProcessName (transient_ctx e) = true /\
  AddExemptedQuatoData configData sourceType (sv_config s) = None.
Proof.
  unfold BackgroundTaskMgrSystem.serve, sv_SetBgTaskConfig, sv_bind. rewrite run_CheckCallingToken.
  destruct (caller_system_service e); cbn [negb]; [|split; [done|by intros [? _]]].
  unfold SetBgTaskConfig. destruct (tm_isReady_ _); cbn [negb]; [|split; [done|by intros (_ & ? & _)]].
  destruct (CheckProcessName _); cbn [negb]; [|split; [done|by intros (_ & _ & ? & _)]].
  destruct (AddExemptedQuatoData _ _ _) as [[b c]|]; [|done]. cbn. destruct b; (split; [done|by intros (_ & _ & _ & ?)]).
Qed.

(** The requests that bring the service down, and when. *)
Definition faults (r : ServiceRequest) e s : Prop :=
  match r with
  | RqRemoveAuthRecord p =>
      se_tokenType e = TOKEN_HAP /\ cm_isSysReady_ (sv_continuous s) = true /\ tp_bgModeIds_ p = []
  | RqSetBgTaskConfig configData sourceType =>
      caller_system_service e = true /\ tm_isReady_ (sv_transient s) = true /\ CheckProcessName (transient_ctx e) = true /\
      AddExemptedQuatoData configData sourceType (sv_config s) = None
  | RqDump args =>
      refusal Dumpers e = None /\ cm_isSysReady_ (sv_continuous s) = true /\
      (exists rest, args = "-C" :: "--all" :: rest)%string /\
      exists key r, tasks (sv_continuous s) !! key = Some r /\ unnamed r
  | _ => False
  end.

End Ready.
