(* ===== verification/Parcel.v ===== *)
(** * Parcels

    The objects that cross process boundaries are written to and read from a [Parcel] of
    the base library, which is not part of the program: here it is the class [Parcel], the
    operations the code calls, with the behaviour it relies on as laws.  A parcel is a
    queue of typed values; a write may fail, when the parcel cannot grow.  [ListParcel] is
    an implementation.

    [carries w r v] says that what the writer [w] puts in a parcel the reader [r] takes
    out as [v]; it is proved for a class from the same for its members. *)

From S2P Require Import Prelude.
From S2P Require Import ContinuousTaskRecord.
Local Open Scope Z_scope.

Definition in_uint64 (z : Z) : Prop := 0 <= z <= 18446744073709551615.

Definition Writer (P : Type) : Type := P -> option P.
Definition Reader (P A : Type) : Type := P -> option (A * P).

(** What is in a parcel; [IPresent] is what [WriteParcelable] puts before an object. *)
Inductive ParcelItem (u16string : Type) :=
| IBool (b : bool)
| IInt32 (z : Z)
| IUint32 (z : Z)
| IUint64 (z : Z)
| IString (s : string)
| IString16 (s : u16string)
| IUInt32Vector (l : list Z)
| IWantAgent (w : WantAgent)
| IPresent.
Arguments IBool {_}.
Arguments IInt32 {_}.
Arguments IUint32 {_}.
Arguments IUint64 {_}.
Arguments IString {_}.
Arguments IString16 {_}.
Arguments IUInt32Vector {_}.
Arguments IWantAgent {_}.
Arguments IPresent {_}.

Class Parcel (P : Type) := {
  u16string : Type;
  Str8ToStr16 : string -> u16string;
  Str16ToStr8 : u16string -> string;
  WriteBool : bool -> Writer P;
  WriteInt32 : Z -> Writer P;
  WriteUint32 : Z -> Writer P;
  WriteUint64 : Z -> Writer P;
  WriteString : string -> Writer P;
  WriteString16 : u16string -> Writer P;
  WriteUInt32Vector : list Z -> Writer P;
  MarshalWantAgent : WantAgent -> Writer P;
  WriteParcelable : Writer P -> Writer P;
  ReadBool : Reader P bool;
  ReadInt32 : Reader P Z;
  ReadUint32 : Reader P Z;
  ReadUint64 : Reader P Z;
  ReadString : Reader P string;
  ReadString16 : Reader P u16string;
  ReadUInt32Vector : Reader P (list Z);
  UnmarshalWantAgent : Reader P WantAgent;
  ReadParcelable {A} : Reader P A -> Reader P A;
}.

Section Carries.
Context {P} `{Parcel P}.

(** ** Readers and writers of objects

    [write_all] writes one member after the other and returns [false] at the first that
    fails; [x <~ r ;; k] reads a member and goes on. *)
Fixpoint write_all (ws : list (Writer P)) : Writer P :=
  fun p => match ws with
           | [] => Some p
           | w :: ws => match w p with Some p => write_all ws p | None => None end
           end.

Definition read_ret {A} (a : A) : Reader P A := fun p => Some (a, p).
Definition read_bind {A B} (r : Reader P A) (k : A -> Reader P B) : Reader P B :=
  fun p => match r p with Some (a, p) => k a p | None => None end.

(** [parcel.ReadBool()] and [parcel.ReadString16()] give a default for what is not there. *)
Definition read_or {A} (d : A) (r : Reader P A) : Reader P A :=
  fun p => Some (match r p with Some x => x | None => (d, p) end).

(** A pointer that may be null: a flag, and the object where there is one. *)
Definition write_pointer {A} (w : A -> Writer P) (a : option A) : Writer P :=
  write_all (WriteBool (bool_decide (is_Some a)) ::
             match a with Some a => [WriteParcelable (w a)] | None => [] end).
Definition read_pointer {A} (r : Reader P A) : Reader P (option A) :=
  read_bind (read_or false ReadBool) (fun valid =>
    if valid then read_bind (ReadParcelable r) (fun a => read_ret (Some a)) else read_ret None).
End Carries.
#[global] Arguments write_all : simpl never.

Declare Scope parcel_scope.
Delimit Scope parcel_scope with parcel.
Notation "x <~ r ;; k" := (read_bind r (fun x => k))
  (at level 199, r at level 99, k at level 200, only parsing) : parcel_scope.

(** ** The laws *)
Class ParcelLaws (P : Type) `{Parcel P} := {
  Pending : P -> list (ParcelItem u16string);
  empty_parcel : P;
  pending_nothing : Pending empty_parcel = [];
  utf8 : string -> Prop;
  Str16ToStr8_Str8ToStr16 s : utf8 s -> Str16ToStr8 (Str8ToStr16 s) = s;
  write_bool b p p' : WriteBool b p = Some p' -> Pending p' = Pending p ++ [IBool b];
  write_int32 z p p' : in_int32 z -> WriteInt32 z p = Some p' -> Pending p' = Pending p ++ [IInt32 z];
  write_uint32 z p p' : in_uint32 z -> WriteUint32 z p = Some p' -> Pending p' = Pending p ++ [IUint32 z];
  write_uint64 z p p' : in_uint64 z -> WriteUint64 z p = Some p' -> Pending p' = Pending p ++ [IUint64 z];
  write_string s p p' : WriteString s p = Some p' -> Pending p' = Pending p ++ [IString s];
  write_string16 s p p' : WriteString16 s p = Some p' -> Pending p' = Pending p ++ [IString16 s];
  write_vector l p p' : Forall in_uint32 l -> WriteUInt32Vector l p = Some p' ->
    Pending p' = Pending p ++ [IUInt32Vector l];
  write_agent w p p' : MarshalWantAgent w p = Some p' -> Pending p' = Pending p ++ [IWantAgent w];
  write_parcelable w p p' : WriteParcelable w p = Some p' ->
    exists q, Pending q = Pending p ++ [IPresent] /\ w q = Some p';
  read_bool b p l : Pending p = IBool b :: l -> exists q, ReadBool p = Some (b, q) /\ Pending q = l;
  read_int32 z p l : Pending p = IInt32 z :: l -> exists q, ReadInt32 p = Some (z, q) /\ Pending q = l;
  read_uint32 z p l : Pending p = IUint32 z :: l -> exists q, ReadUint32 p = Some (z, q) /\ Pending q = l;
  read_uint64 z p l : Pending p = IUint64 z :: l -> exists q, ReadUint64 p = Some (z, q) /\ Pending q = l;
  read_string s p l : Pending p = IString s :: l -> exists q, ReadString p = Some (s, q) /\ Pending q = l;
  read_string16 s p l : Pending p = IString16 s :: l -> exists q, ReadString16 p = Some (s, q) /\ Pending q = l;
  read_vector v p l : Pending p = IUInt32Vector v :: l -> exists q, ReadUInt32Vector p = Some (v, q) /\ Pending q = l;
  read_agent w p l : Pending p = IWantAgent w :: l -> exists q, UnmarshalWantAgent p = Some (w, q) /\ Pending q = l;
  read_parcelable A (r : Reader P A) p l : Pending p = IPresent :: l ->
    exists q, Pending q = l /\ ReadParcelable r p = r q;
}.

Section Carried.
Context {P} `{ParcelLaws P}.

Definition carries {A} (w : Writer P) (r : Reader P A) (v : A) : Prop :=
  exists l, (forall p p', w p = Some p' -> Pending p' = Pending p ++ l) /\
            (forall p rest, Pending p = l ++ rest -> exists q, r p = Some (v, q) /\ Pending q = rest).

(** An object put in an empty parcel is read back, and nothing is left over. *)
Lemma carries_round {A} w (r : Reader P A) v p p' :
  carries w r v -> Pending p = [] -> w p = Some p' -> exists q, r p' = Some (v, q) /\ Pending q = [].
Proof. intros (l & Hw & Hr) Hp Hp'. apply Hr. by rewrite (Hw _ _ Hp'), Hp, app_nil_r. Qed.

Lemma carries_item {A} (w : Writer P) (r : Reader P A) v i :
  (forall p p', w p = Some p' -> Pending p' = Pending p ++ [i]) ->
  (forall p l, Pending p = i :: l -> exists q, r p = Some (v, q) /\ Pending q = l) -> carries w r v.
Proof. intros Hw Hr. by exists [i]. Qed.

Lemma carries_end {A} (v : A) : carries (write_all []) (read_ret v) v.
Proof.
  exists []. split; [|by eauto]. intros p p' [=->]. by rewrite app_nil_r.
Qed.

Lemma carries_next {A B} w (r : Reader P A) v ws (k : A -> Reader P B) x :
  carries w r v -> carries (write_all ws) (k v) x -> carries (write_all (w :: ws)) (read_bind r k) x.
Proof.
  intros (l1 & Hw1 & Hr1) (l2 & Hw2 & Hr2). exists (l1 ++ l2). split.
  - intros p p' Hp'. change (match w p with Some p1 => write_all ws p1 | None => None end = Some p') in Hp'.
    destruct (w p) as [p1|] eqn:E; [|done].
    by rewrite (Hw2 _ _ Hp'), (Hw1 _ _ E), app_assoc.
  - intros p rest Hp. rewrite <- app_assoc in Hp. destruct (Hr1 _ _ Hp) as (q & Eq & Hq).
    destruct (Hr2 _ _ Hq) as (q' & Eq' & Hq'). exists q'. split; [|done]. unfold read_bind. by rewrite Eq.
Qed.

Lemma carries_last {A} w (r : Reader P A) v : carries w r v -> carries (write_all [w]) r v.
Proof.
  intros (l & Hw & Hr). exists l. split; [|done]. intros p p' Hp.
  change (match w p with Some p1 => Some p1 | None => None end = Some p') in Hp.
  destruct (w p) eqn:E; [|done]. simplify_eq. by apply Hw.
Qed.

Lemma carries_or {A} w (r : Reader P A) d v : carries w r v -> carries w (read_or d r) v.
Proof.
  intros (l & Hw & Hr). exists l. split; [done|]. intros p rest Hp. destruct (Hr _ _ Hp) as (q & Eq & Hq).
  exists q. unfold read_or. by rewrite Eq.
Qed.

Lemma carries_map {A B} w (r : Reader P A) (f : A -> B) v :
  carries w r v -> carries w (read_bind r (fun a => read_ret (f a))) (f v).
Proof.
  intros (l & Hw & Hr). exists l. split; [done|]. intros p rest Hp. destruct (Hr _ _ Hp) as (q & Eq & Hq).
  exists q. unfold read_bind, read_ret. by rewrite Eq.
Qed.

Lemma carries_parcelable {A} w (r : Reader P A) v : carries w r v -> carries (WriteParcelable w) (ReadParcelable r) v.
Proof.
  intros (l & Hw & Hr). exists (IPresent :: l). split.
  - intros p p' Hp. destruct (write_parcelable _ _ _ Hp) as (q & Hq & Hp').
    by rewrite (Hw _ _ Hp'), Hq, <- app_assoc.
  - intros p rest Hp. destruct (read_parcelable _ r _ _ Hp) as (q & Hq & ->). by apply Hr.
Qed.

Lemma carries_bool b : carries (WriteBool b) ReadBool b.
Proof. eapply carries_item; [apply write_bool|apply read_bool]. Qed.
Lemma carries_int32 z : in_int32 z -> carries (WriteInt32 z) ReadInt32 z.
Proof. intros Hz. eapply carries_item; [intros; by apply write_int32|apply read_int32]. Qed.
Lemma carries_uint32 z : in_uint32 z -> carries (WriteUint32 z) ReadUint32 z.
Proof. intros Hz. eapply carries_item; [intros; by apply write_uint32|apply read_uint32]. Qed.
Lemma carries_uint64 z : in_uint64 z -> carries (WriteUint64 z) ReadUint64 z.
Proof. intros Hz. eapply carries_item; [intros; by apply write_uint64|apply read_uint64]. Qed.
Lemma carries_string s : carries (WriteString s) ReadString s.
Proof. eapply carries_item; [apply write_string|apply read_string]. Qed.
Lemma carries_string16 s : carries (WriteString16 s) ReadString16 s.
Proof. eapply carries_item; [apply write_string16|apply read_string16]. Qed.
Lemma carries_vector l : Forall in_uint32 l -> carries (WriteUInt32Vector l) ReadUInt32Vector l.
Proof. intros Hl. eapply carries_item; [intros; by apply write_vector|apply read_vector]. Qed.
Lemma carries_agent w : carries (MarshalWantAgent w) UnmarshalWantAgent w.
Proof. eapply carries_item; [apply write_agent|apply read_agent]. Qed.

Lemma carries_pointer {A} (w : A -> Writer P) (r : Reader P A) a v :
  match a with Some a => exists x, v = Some x /\ carries (w a) r x | None => v = None end ->
  carries (write_pointer w a) (read_pointer r) v.
Proof.
  unfold write_pointer, read_pointer. intros Hv.
  eapply carries_next; [apply carries_or, carries_bool|]. destruct a as [a|]; cbn -[write_all].
  - destruct Hv as (x & -> & Hx). eapply carries_next; [by apply carries_parcelable|]. apply carries_end.
  - subst v. apply carries_end.
Qed.
End Carried.

(** Member by member; what is left are the ranges of the integers and the characters. *)
Create HintDb parcel.
#[export] Hint Resolve carries_bool carries_int32 carries_uint32 carries_uint64 carries_string
  carries_string16 carries_vector carries_agent carries_or carries_parcelable : parcel.
Ltac carry := repeat (eapply carries_next; [by eauto with parcel|cbv beta]).

(** ** An implementation

    A list of the values with the room that is left; strings of 16-bit units are lists of
    ASCII characters. *)
Module ListParcel.
Definition item := ParcelItem (list Ascii.ascii).
Definition parcel : Type := nat * list item.

Definition put (i : item) : Writer parcel :=
  fun p => match p.1 with O => None | S room => Some (room, p.2 ++ [i]) end.
Definition take {A} (f : item -> option A) : Reader parcel A :=
  fun p => match p.2 with
           | [] => None
           | i :: l => match f i with Some a => Some (a, (p.1, l)) | None => None end
           end.

#[export] Instance list_parcel : Parcel parcel := {|
  u16string := list Ascii.ascii;
  Str8ToStr16 := String.list_ascii_of_string;
  Str16ToStr8 := String.string_of_list_ascii;
  WriteBool b := put (IBool b);
  WriteInt32 z := put (IInt32 z);
  WriteUint32 z := put (IUint32 z);
  WriteUint64 z := put (IUint64 z);
  WriteString s := put (IString s);
  WriteString16 s := put (IString16 s);
  WriteUInt32Vector l := put (IUInt32Vector l);
  MarshalWantAgent w := put (IWantAgent w);
  WriteParcelable w := fun p => match put IPresent p with Some p => w p | None => None end;
  ReadBool := take (fun i => match i with IBool b => Some b | _ => None end);
  ReadInt32 := take (fun i => match i with IInt32 z => Some z | _ => None end);
  ReadUint32 := take (fun i => match i with IUint32 z => Some z | _ => None end);
  ReadUint64 := take (fun i => match i with IUint64 z => Some z | _ => None end);
  ReadString := take (fun i => match i with IString s => Some s | _ => None end);
  ReadString16 := take (fun i => match i with IString16 s => Some s | _ => None end);
  ReadUInt32Vector := take (fun i => match i with IUInt32Vector l => Some l | _ => None end);
  UnmarshalWantAgent := take (fun i => match i with IWantAgent w => Some w | _ => None end);
  ReadParcelable A r := fun p =>
    match take (fun i => match i with IPresent => Some tt | _ => None end) p with Some (_, p) => r p | None => None end;
|}.

Lemma put_pending i p p' : put i p = Some p' -> p'.2 = p.2 ++ [i].
Proof. destruct p as [[|room] l]; [done|]. by intros [=<-]. Qed.
Lemma take_pending {A} (f : item -> option A) a i p l :
  f i = Some a -> p.2 = i :: l -> exists q, take f p = Some (a, q) /\ q.2 = l.
Proof. intros Hf Hp. unfold take. rewrite Hp, Hf. eauto. Qed.

#[export] Program Instance list_parcel_laws : ParcelLaws parcel := {|
  Pending := snd;
  empty_parcel := (1000%nat, []);
  utf8 s := True;
|}.
Solve All Obligations with
  (try (intros; first
    [ reflexivity | exact I | apply String.string_of_list_ascii_of_string | eapply put_pending; eassumption
    | eapply take_pending; [|eassumption]; reflexivity ])).
Next Obligation.
  intros w p p'. simpl. destruct (put IPresent p) as [q|] eqn:E; [|done]. intros Hw. exists q.
  split; [by apply put_pending|done].
Qed.
Next Obligation.
  intros A r p l Hp. simpl in *. destruct (take_pending (fun i => match i with IPresent => Some tt | _ => None end) tt
    IPresent p l eq_refl Hp) as (q & Eq & Hq). exists q. split; [done|]. by rewrite Eq.
Qed.
End ListParcel.
