(* ===== verification/Parcelables.v ===== *)
(** * The objects of the interface as parcels

    [Marshalling] and [ReadFromParcel] of the classes of interfaces/innerkits that cross
    process boundaries.  [Unmarshalling] is [ReadFromParcel] into a new object, and null
    where it fails: the readers are these.  Members a class does not write have the value
    of a new object ([received]). *)

From S2P Require Import Prelude.
From S2P Require Import DelaySuspendInfo.
From S2P Require Import DecisionMaker.
From S2P Require Import ResourceTypes.
From S2P Require Import ContinuousTaskRecord.
From S2P Require Import ContinuousTypes.
From S2P Require Import ContinuousQueries.
From S2P Require Import Parcel.
Local Open Scope Z_scope.
Local Open Scope parcel_scope.

(** The part of a request that is sent back (delay_suspend_info.h), the base class of
    [DelaySuspendInfoEx]. *)
Record DelaySuspendInfo := mkDelayInfo { di_requestId_ : Z; di_actualDelayTime_ : Z }.
Definition delay_info (i : DelaySuspendInfoEx) : DelaySuspendInfo :=
  mkDelayInfo (ex_requestId_ i) (ex_actualDelayTime_ i).

(** A request as the bindings build it (continuous_task_request.h). *)
Record ContinuousTaskRequest := mkTaskRequest {
  cr_backgroundTaskModes_ : list Z;
  cr_backgroundTaskSubmodes_ : list Z;
  cr_wantAgent_ : option WantAgent;
  cr_combinedTaskNotification_ : bool;
  cr_continuousTaskId_ : Z;
  cr_isBuildByRequest_ : bool;
  cr_progressInfo_ : option ProgressInfo;
}.

Section Parcelables.
Context `{Parcel P}.

(** ** progress_info.cpp *)
Definition pg_Marshalling (i : ProgressInfo) : Writer P := write_all [
  WriteString16 (Str8ToStr16 (pg_title_ i));
  WriteString16 (Str8ToStr16 (pg_fileName_ i));
  WriteInt32 (pg_progressValue_ i);
  WriteBool (pg_isMute_ i)].
Definition pg_ReadFromParcel : Reader P ProgressInfo :=
  u16Title <~ ReadString16 ;;
  u16FileName <~ ReadString16 ;;
  progressValue <~ ReadInt32 ;;
  isMute <~ ReadBool ;;
  read_ret (mkProgressInfo (Str16ToStr8 u16Title) (Str16ToStr8 u16FileName) progressValue isMute).

(** ** continuous_task_param.cpp

    The list of modes is sent only by the interface that has one. *)
Definition tp_MarshallingNewApi (p : ContinuousTaskParam) : Writer P := write_all [
  WriteUInt32Vector (tp_bgSubModeIds_ p);
  WriteBool (tp_isCombinedTaskNotification_ p);
  WriteInt32 (tp_combinedNotificationTaskId_ p);
  WriteInt32 (tp_updateTaskId_ p);
  WriteBool (tp_isByRequestObject_ p);
  WriteInt32 (tp_appIndex_ p);
  WriteInt32 (tp_requestAuthApiVersion_ p);
  write_pointer pg_Marshalling (tp_progressInfo_ p)].
Definition tp_Marshalling (p : ContinuousTaskParam) : Writer P := write_all [
  WriteBool (tp_isNewApi_ p);
  WriteUint32 (tp_bgModeId_ p);
  write_pointer MarshalWantAgent (tp_wantAgent_ p);
  WriteString16 (Str8ToStr16 (tp_abilityName_ p));
  WriteString16 (Str8ToStr16 (tp_appName_ p));
  WriteBool (tp_isBatchApi_ p);
  write_all (if tp_isBatchApi_ p then [WriteUInt32Vector (tp_bgModeIds_ p)] else []);
  WriteInt32 (tp_abilityId_ p);
  tp_MarshallingNewApi p].

Definition tp_ReadFromParcelNewApi (p : ContinuousTaskParam) : Reader P ContinuousTaskParam :=
  bgSubModeIds <~ ReadUInt32Vector ;;
  isCombinedTaskNotification <~ ReadBool ;;
  combinedNotificationTaskId <~ ReadInt32 ;;
  updateTaskId <~ ReadInt32 ;;
  isByRequestObject <~ ReadBool ;;
  appIndex <~ ReadInt32 ;;
  requestAuthApiVersion <~ ReadInt32 ;;
  progressInfo <~ read_pointer pg_ReadFromParcel ;;
  read_ret (mkParam (tp_isNewApi_ p) (tp_bgModeId_ p) (tp_wantAgent_ p) (tp_abilityName_ p) (tp_appName_ p)
    (tp_isBatchApi_ p) (tp_bgModeIds_ p) (tp_abilityId_ p) bgSubModeIds isCombinedTaskNotification
    combinedNotificationTaskId updateTaskId isByRequestObject appIndex requestAuthApiVersion (-1) (-1) progressInfo).
Definition tp_ReadFromParcel : Reader P ContinuousTaskParam :=
  isNewApi <~ ReadBool ;;
  bgModeId <~ ReadUint32 ;;
  wantAgent <~ read_pointer UnmarshalWantAgent ;;
  u16AbilityName <~ ReadString16 ;;
  u16AppName <~ ReadString16 ;;
  isBatchApi <~ ReadBool ;;
  bgModeIds <~ (if isBatchApi then ReadUInt32Vector else read_ret []) ;;
  abilityId <~ ReadInt32 ;;
  tp_ReadFromParcelNewApi (mkParam isNewApi bgModeId wantAgent (Str16ToStr8 u16AbilityName)
    (Str16ToStr8 u16AppName) isBatchApi bgModeIds abilityId [] false (-1) (-1) false (-1) 22 (-1) (-1) None).

Definition ip_Marshalling (p : ContinuousTaskParamForInner) : Writer P := write_all [
  WriteBool (ip_isStart_ p);
  WriteUint32 (ip_bgModeId_ p);
  WriteInt32 (ip_uid_ p);
  WriteInt32 (ip_abilityId_ p);
  WriteUint64 (ip_tokenId_ p);
  WriteInt32 (ip_pid_ p)].
Definition ip_ReadFromParcel : Reader P ContinuousTaskParamForInner :=
  isStart <~ ReadBool ;;
  bgModeId <~ ReadUint32 ;;
  uid <~ ReadInt32 ;;
  abilityId <~ ReadInt32 ;;
  tokenId <~ ReadUint64 ;;
  pid <~ ReadInt32 ;;
  read_ret (mkInnerParam uid bgModeId isStart abilityId tokenId pid).

(** ** continuous_task_request.cpp *)
Definition cr_Marshalling (r : ContinuousTaskRequest) : Writer P := write_all [
  WriteUInt32Vector (cr_backgroundTaskModes_ r);
  WriteUInt32Vector (cr_backgroundTaskSubmodes_ r);
  write_pointer MarshalWantAgent (cr_wantAgent_ r);
  WriteBool (cr_combinedTaskNotification_ r);
  WriteInt32 (cr_continuousTaskId_ r);
  WriteBool (cr_isBuildByRequest_ r);
  write_pointer pg_Marshalling (cr_progressInfo_ r)].
Definition cr_ReadFromParcel : Reader P ContinuousTaskRequest :=
  backgroundTaskModes <~ ReadUInt32Vector ;;
  backgroundTaskSubmodes <~ ReadUInt32Vector ;;
  wantAgent <~ read_pointer UnmarshalWantAgent ;;
  combinedTaskNotification <~ ReadBool ;;
  continuousTaskId <~ ReadInt32 ;;
  isBuildByRequest <~ ReadBool ;;
  progressInfo <~ read_pointer pg_ReadFromParcel ;;
  read_ret (mkTaskRequest backgroundTaskModes backgroundTaskSubmodes wantAgent combinedTaskNotification
    continuousTaskId isBuildByRequest progressInfo).

(** ** data_transfer_progress.cpp *)
Definition dp_Marshalling (d : DataTransferProgress) : Writer P := write_all [
  WriteInt32 (dp_continuousTaskId_ d);
  write_pointer MarshalWantAgent (dp_wantAgent_ d);
  write_pointer pg_Marshalling (dp_progressInfo_ d)].
Definition dp_ReadFromParcel : Reader P DataTransferProgress :=
  continuousTaskId <~ ReadInt32 ;;
  wantAgent <~ read_pointer UnmarshalWantAgent ;;
  progressInfo <~ read_pointer pg_ReadFromParcel ;;
  read_ret (mkProgress continuousTaskId wantAgent progressInfo).

(** ** continuous_task_info.cpp *)
Definition ti_Marshalling (i : ContinuousTaskInfo) : Writer P := write_all [
  WriteString (ti_abilityName_ i);
  WriteInt32 (ti_uid_ i);
  WriteInt32 (ti_pid_ i);
  WriteBool (ti_isFromWebView_ i);
  WriteUInt32Vector (ti_backgroundModes_ i);
  WriteUInt32Vector (ti_backgroundSubModes_ i);
  WriteInt32 (ti_notificationId_ i);
  WriteInt32 (ti_continuousTaskId_ i);
  WriteInt32 (ti_abilityId_ i);
  WriteString (ti_wantAgentBundleName_ i);
  WriteString (ti_wantAgentAbilityName_ i);
  WriteBool (ti_suspendState_ i);
  WriteString (ti_bundleName_ i);
  WriteInt32 (ti_appIndex_ i);
  WriteBool (ti_isByRequestObject_ i)].
Definition ti_ReadFromParcel : Reader P ContinuousTaskInfo :=
  abilityName <~ ReadString ;;
  uid <~ ReadInt32 ;;
  pid <~ ReadInt32 ;;
  isFromWebView <~ ReadBool ;;
  backgroundModes <~ ReadUInt32Vector ;;
  backgroundSubModes <~ ReadUInt32Vector ;;
  notificationId <~ ReadInt32 ;;
  continuousTaskId <~ ReadInt32 ;;
  abilityId <~ ReadInt32 ;;
  wantAgentBundleName <~ ReadString ;;
  wantAgentAbilityName <~ ReadString ;;
  suspendState <~ ReadBool ;;
  bundleName <~ ReadString ;;
  appIndex <~ ReadInt32 ;;
  isByRequestObject <~ ReadBool ;;
  read_ret (mkTaskInfo abilityName uid pid isFromWebView backgroundModes backgroundSubModes notificationId
    continuousTaskId abilityId wantAgentBundleName wantAgentAbilityName suspendState bundleName appIndex
    isByRequestObject).

(** ** continuous_task_callback_info.cpp *)
Definition ci_Marshalling (i : ContinuousTaskCallbackInfo) : Writer P := write_all [
  WriteUint32 (ci_typeId_ i);
  WriteInt32 (ci_creatorUid_ i);
  WriteInt32 (ci_creatorPid_ i);
  WriteBool (ci_isFromWebview_ i);
  WriteString16 (Str8ToStr16 (ci_abilityName_ i));
  WriteBool (ci_isBatchApi_ i);
  WriteUInt32Vector (ci_typeIds_ i);
  WriteInt32 (ci_abilityId_ i);
  WriteUint64 (ci_tokenId_ i);
  WriteInt32 (ci_continuousTaskId_ i);
  WriteInt32 (ci_cancelReason_ i);
  WriteInt32 (ci_detailedCancelReason_ i);
  WriteBool (ci_suspendState_ i);
  WriteInt32 (ci_suspendReason_ i);
  WriteBool (ci_isByRequestObject_ i);
  WriteString16 (Str8ToStr16 (ci_bundleName_ i));
  WriteInt32 (ci_userId_ i);
  WriteInt32 (ci_appIndex_ i);
  WriteUInt32Vector (ci_backgroundSubModes_ i);
  WriteInt32 (ci_notificationId_ i);
  WriteString16 (Str8ToStr16 (ci_wantAgentBundleName_ i));
  WriteString16 (Str8ToStr16 (ci_wantAgentAbilityName_ i));
  WriteBool (ci_cancelCallBackSelf_ i);
  WriteBool (ci_isStandby_ i);
  WriteBool (ci_isFromComponent_ i)].
Definition ci_ReadFromParcel : Reader P ContinuousTaskCallbackInfo :=
  typeId <~ ReadUint32 ;;
  creatorUid <~ ReadInt32 ;;
  creatorPid <~ ReadInt32 ;;
  isFromWebview <~ ReadBool ;;
  u16AbilityName <~ ReadString16 ;;
  isBatchApi <~ ReadBool ;;
  typeIds <~ ReadUInt32Vector ;;
  abilityId <~ ReadInt32 ;;
  tokenId <~ ReadUint64 ;;
  continuousTaskId <~ ReadInt32 ;;
  cancelReason <~ ReadInt32 ;;
  detailedCancelReason <~ ReadInt32 ;;
  suspendState <~ ReadBool ;;
  suspendReason <~ ReadInt32 ;;
  isByRequestObject <~ ReadBool ;;
  u16BundleName <~ ReadString16 ;;
  userId <~ ReadInt32 ;;
  appIndex <~ ReadInt32 ;;
  backgroundSubModes <~ ReadUInt32Vector ;;
  notificationId <~ ReadInt32 ;;
  u16WantAgentBundleName <~ ReadString16 ;;
  u16WantAgentAbilityName <~ ReadString16 ;;
  cancelCallBackSelf <~ ReadBool ;;
  isStandby <~ ReadBool ;;
  isFromComponent <~ ReadBool ;;
  read_ret (mkCallbackInfo typeId creatorUid creatorPid (Str16ToStr8 u16AbilityName) isFromWebview isBatchApi
    typeIds abilityId tokenId continuousTaskId cancelReason detailedCancelReason suspendState suspendReason
    isByRequestObject (Str16ToStr8 u16BundleName) userId appIndex backgroundSubModes notificationId
    (Str16ToStr8 u16WantAgentBundleName) (Str16ToStr8 u16WantAgentAbilityName) cancelCallBackSelf isStandby
    isFromComponent).

(** ** background_task_state_info.cpp, delay_suspend_info.cpp, transient_task_app_info.cpp *)
Definition bs_Marshalling (i : BackgroundTaskStateInfo) : Writer P := write_all [
  WriteInt32 (bs_userId_ i);
  WriteString (bs_bundleName_ i);
  WriteInt32 (bs_appIndex_ i);
  WriteInt32 (bs_authResult_ i)].
Definition bs_ReadFromParcel : Reader P BackgroundTaskStateInfo :=
  userId <~ ReadInt32 ;;
  bundleName <~ ReadString ;;
  appIndex <~ ReadInt32 ;;
  authResult <~ ReadInt32 ;;
  read_ret (mkStateInfo userId bundleName appIndex authResult).

Definition di_Marshalling (i : DelaySuspendInfo) : Writer P := write_all [
  WriteInt32 (di_requestId_ i);
  WriteInt32 (di_actualDelayTime_ i)].
Definition di_ReadFromParcel : Reader P DelaySuspendInfo :=
  requestId <~ ReadInt32 ;;
  actualDelayTime <~ ReadInt32 ;;
  read_ret (mkDelayInfo requestId actualDelayTime).

Definition ai_Marshalling (i : TransientTaskAppInfo) : Writer P := write_all [
  WriteString16 (Str8ToStr16 (ai_packageName_ i));
  WriteInt32 (ai_uid_ i);
  WriteInt32 (ai_pid_ i)].
Definition ai_ReadFromParcel : Reader P TransientTaskAppInfo :=
  package <~ read_or (Str8ToStr16 "") ReadString16 ;;
  uid <~ ReadInt32 ;;
  pid <~ ReadInt32 ;;
  read_ret (mkAppInfo (Str16ToStr8 package) uid pid).

(** ** efficiency_resource_info.cpp, resource_callback_info.cpp

    The level of the processor is taken as it comes. *)
Definition inf_Marshalling (i : EfficiencyResourceInfo) : Writer P := write_all [
  WriteUint32 (inf_resourceNumber_ i);
  WriteBool (inf_isApply_ i);
  WriteUint32 (inf_timeOut_ i);
  WriteString (inf_reason_ i);
  WriteBool (inf_isPersist_ i);
  WriteBool (inf_isProcess_ i);
  WriteInt32 (inf_uid_ i);
  WriteInt32 (inf_pid_ i);
  WriteInt32 (inf_cpuLevel_ i)].
Definition inf_ReadFromParcel : Reader P EfficiencyResourceInfo :=
  resourceNumber <~ ReadUint32 ;;
  isApply <~ ReadBool ;;
  timeOut <~ ReadUint32 ;;
  reason <~ ReadString ;;
  isPersist <~ ReadBool ;;
  isProcess <~ ReadBool ;;
  uid <~ ReadInt32 ;;
  pid <~ ReadInt32 ;;
  cpuLevel <~ ReadInt32 ;;
  read_ret (mkInfo resourceNumber isApply timeOut reason isPersist isProcess uid pid cpuLevel).

Definition cbi_Marshalling (i : ResourceCallbackInfo) : Writer P := write_all [
  WriteInt32 (cbi_uid_ i);
  WriteInt32 (cbi_pid_ i);
  WriteUint32 (cbi_resourceNumber_ i);
  WriteString (cbi_bundleName_ i);
  WriteInt32 (cbi_cpuLevel_ i)].
Definition cbi_ReadFromParcel : Reader P ResourceCallbackInfo :=
  uid <~ ReadInt32 ;;
  pid <~ ReadInt32 ;;
  resourceNumber <~ ReadUint32 ;;
  bundleName <~ ReadString ;;
  cpuLevel <~ ReadInt32 ;;
  read_ret (mkCallback uid pid resourceNumber bundleName cpuLevel).
End Parcelables.
