(* ===== verification/ParcelableProps.v ===== *)
(** * What crosses a process boundary arrives

    For each class of Parcelables.v, which objects its format can hold ([fits]: integers
    within their width, well-formed strings), and what arrives of one ([received], where
    it is not all of it). *)

From S2P Require Import Prelude.
From S2P Require Import DelaySuspendInfo.
From S2P Require Import DecisionMaker.
From S2P Require Import ResourceTypes.
From S2P Require Import ContinuousTaskRecord.
From S2P Require Import ContinuousTypes.
From S2P Require Import ContinuousQueries.
From S2P Require Import Parcel.
From S2P Require Import Parcelables.
Local Open Scope Z_scope.

(** What arrives of a request: its modes when it is of the interface with a list of them;
    the ids are for the way back. *)
Definition tp_received (p : ContinuousTaskParam) : ContinuousTaskParam :=
  mkParam (tp_isNewApi_ p) (tp_bgModeId_ p) (tp_wantAgent_ p) (tp_abilityName_ p) (tp_appName_ p)
    (tp_isBatchApi_ p) (if tp_isBatchApi_ p then tp_bgModeIds_ p else []) (tp_abilityId_ p) (tp_bgSubModeIds_ p)
    (tp_isCombinedTaskNotification_ p) (tp_combinedNotificationTaskId_ p) (tp_updateTaskId_ p)
    (tp_isByRequestObject_ p) (tp_appIndex_ p) (tp_requestAuthApiVersion_ p) (-1) (-1) (tp_progressInfo_ p).

(** What a class of objects has to show for its parcels. *)
Class Parcelable (P A : Type) `{ParcelLaws P} := {
  Marshalling : A -> Writer P;
  ReadFromParcel : Reader P A;
  fits : A -> Prop;
  received : A -> A;
  arrives a : fits a -> carries (Marshalling a) ReadFromParcel (received a);
}.

Section ParcelableProps.
Context `{ParcelLaws P}.

(** The string members: converted on the way. *)
Lemma carries_name s : utf8 s -> carries (WriteString16 (Str8ToStr16 s)) ReadString16 (Str8ToStr16 s).
Proof. intros _. apply carries_string16. Qed.

Definition pg_fits (i : ProgressInfo) : Prop :=
  utf8 (pg_title_ i) /\ utf8 (pg_fileName_ i) /\ in_int32 (pg_progressValue_ i).

Lemma pg_arrives i : pg_fits i -> carries (pg_Marshalling i) pg_ReadFromParcel i.
Proof.
  intros (Ht & Hf & Hv). destruct i. simpl in *. unfold pg_Marshalling, pg_ReadFromParcel. simpl. carry.
  rewrite !Str16ToStr8_Str8ToStr16 by done. apply carries_end.
Qed.

Definition option_fits {A} (f : A -> Prop) (a : option A) : Prop := match a with Some a => f a | None => True end.

Lemma agent_arrives a : carries (write_pointer MarshalWantAgent a) (read_pointer UnmarshalWantAgent) a.
Proof. apply carries_pointer. destruct a; [|done]. eexists. split; [done|apply carries_agent]. Qed.
Lemma progress_arrives a :
  option_fits pg_fits a -> carries (write_pointer pg_Marshalling a) (read_pointer pg_ReadFromParcel) a.
Proof. intros Ha. apply carries_pointer. destruct a; [|done]. eexists. split; [done|by apply pg_arrives]. Qed.
Hint Resolve agent_arrives progress_arrives : parcel.

Definition tp_fits (p : ContinuousTaskParam) : Prop :=
  in_uint32 (tp_bgModeId_ p) /\ utf8 (tp_abilityName_ p) /\ utf8 (tp_appName_ p) /\
  Forall in_uint32 (tp_bgModeIds_ p) /\ in_int32 (tp_abilityId_ p) /\ Forall in_uint32 (tp_bgSubModeIds_ p) /\
  in_int32 (tp_combinedNotificationTaskId_ p) /\ in_int32 (tp_updateTaskId_ p) /\ in_int32 (tp_appIndex_ p) /\
  in_int32 (tp_requestAuthApiVersion_ p) /\ option_fits pg_fits (tp_progressInfo_ p).

Lemma tp_new_arrives p p0 :
  tp_fits p ->
  mkParam (tp_isNewApi_ p0) (tp_bgModeId_ p0) (tp_wantAgent_ p0) (tp_abilityName_ p0) (tp_appName_ p0)
    (tp_isBatchApi_ p0) (tp_bgModeIds_ p0) (tp_abilityId_ p0) (tp_bgSubModeIds_ p)
    (tp_isCombinedTaskNotification_ p) (tp_combinedNotificationTaskId_ p) (tp_updateTaskId_ p)
    (tp_isByRequestObject_ p) (tp_appIndex_ p) (tp_requestAuthApiVersion_ p) (-1) (-1) (tp_progressInfo_ p)
  = tp_received p ->
  carries (tp_MarshallingNewApi p) (tp_ReadFromParcelNewApi p0) (tp_received p).
Proof.
  intros Hp <-. hnf in Hp. destruct_and?. unfold tp_MarshallingNewApi, tp_ReadFromParcelNewApi. carry.
  apply carries_end.
Qed.

Lemma modes_arrive (batch : bool) l :
  Forall in_uint32 l ->
  carries (write_all (if batch then [WriteUInt32Vector l] else []))
    (if batch then ReadUInt32Vector else read_ret []) (if batch then l else []).
Proof. intros Hl. destruct batch; [by apply carries_last, carries_vector|apply carries_end]. Qed.
Hint Resolve modes_arrive : parcel.

Lemma tp_arrives p : tp_fits p -> carries (tp_Marshalling p) tp_ReadFromParcel (tp_received p).
Proof.
  intros Hp. pose proof Hp as (Hm & Hn & Ha & Hl & Hi & _). unfold tp_Marshalling, tp_ReadFromParcel. carry.
  apply carries_last, tp_new_arrives; [done|]. simpl. by rewrite !Str16ToStr8_Str8ToStr16.
Qed.

Definition ip_fits (p : ContinuousTaskParamForInner) : Prop :=
  in_uint32 (ip_bgModeId_ p) /\ in_int32 (ip_uid_ p) /\ in_int32 (ip_abilityId_ p) /\ in_uint64 (ip_tokenId_ p) /\
  in_int32 (ip_pid_ p).

Lemma ip_arrives p : ip_fits p -> carries (ip_Marshalling p) ip_ReadFromParcel p.
Proof.
  intros Hp. hnf in Hp. destruct_and?. destruct p. unfold ip_Marshalling, ip_ReadFromParcel. carry.
  apply carries_end.
Qed.

Definition cr_fits (r : ContinuousTaskRequest) : Prop :=
  Forall in_uint32 (cr_backgroundTaskModes_ r) /\ Forall in_uint32 (cr_backgroundTaskSubmodes_ r) /\
  in_int32 (cr_continuousTaskId_ r) /\ option_fits pg_fits (cr_progressInfo_ r).

Lemma cr_arrives r : cr_fits r -> carries (cr_Marshalling r) cr_ReadFromParcel r.
Proof.
  intros Hr. hnf in Hr. destruct_and?. destruct r. unfold cr_Marshalling, cr_ReadFromParcel. carry.
  apply carries_end.
Qed.

Definition dp_fits (d : DataTransferProgress) : Prop :=
  in_int32 (dp_continuousTaskId_ d) /\ option_fits pg_fits (dp_progressInfo_ d).

Lemma dp_arrives d : dp_fits d -> carries (dp_Marshalling d) dp_ReadFromParcel d.
Proof. intros [Hi Hg]. destruct d. unfold dp_Marshalling, dp_ReadFromParcel. carry. apply carries_end. Qed.

Definition ti_fits (i : ContinuousTaskInfo) : Prop :=
  in_int32 (ti_uid_ i) /\ in_int32 (ti_pid_ i) /\ Forall in_uint32 (ti_backgroundModes_ i) /\
  Forall in_uint32 (ti_backgroundSubModes_ i) /\ in_int32 (ti_notificationId_ i) /\
  in_int32 (ti_continuousTaskId_ i) /\ in_int32 (ti_abilityId_ i) /\ in_int32 (ti_appIndex_ i).

Lemma ti_arrives i : ti_fits i -> carries (ti_Marshalling i) ti_ReadFromParcel i.
Proof.
  intros Hi. hnf in Hi. destruct_and?. destruct i. unfold ti_Marshalling, ti_ReadFromParcel. carry.
  apply carries_end.
Qed.

Definition ci_fits (i : ContinuousTaskCallbackInfo) : Prop :=
  Forall utf8 [ci_abilityName_ i; ci_bundleName_ i; ci_wantAgentBundleName_ i; ci_wantAgentAbilityName_ i] /\
  in_uint32 (ci_typeId_ i) /\ in_uint64 (ci_tokenId_ i) /\
  Forall in_uint32 (ci_typeIds_ i) /\ Forall in_uint32 (ci_backgroundSubModes_ i) /\
  Forall in_int32 [ci_creatorUid_ i; ci_creatorPid_ i; ci_abilityId_ i; ci_continuousTaskId_ i; ci_cancelReason_ i;
    ci_detailedCancelReason_ i; ci_suspendReason_ i; ci_userId_ i; ci_appIndex_ i; ci_notificationId_ i].

Lemma ci_arrives i : ci_fits i -> carries (ci_Marshalling i) ci_ReadFromParcel i.
Proof.
  intros (Hs & Hi & Ht & Hl & Hb & Hz). rewrite !Forall_cons in Hs. rewrite !Forall_cons in Hz.
  destruct_and?. destruct i. simpl in *.
  unfold ci_Marshalling, ci_ReadFromParcel. simpl. carry.
  rewrite !Str16ToStr8_Str8ToStr16 by done. apply carries_end.
Qed.

Definition bs_fits (i : BackgroundTaskStateInfo) : Prop :=
  in_int32 (bs_userId_ i) /\ in_int32 (bs_appIndex_ i) /\ in_int32 (bs_authResult_ i).

Lemma bs_arrives i : bs_fits i -> carries (bs_Marshalling i) bs_ReadFromParcel i.
Proof. intros (Hu & Ha & Hr). destruct i. unfold bs_Marshalling, bs_ReadFromParcel. carry. apply carries_end. Qed.

Definition di_fits (i : DelaySuspendInfo) : Prop := in_int32 (di_requestId_ i) /\ in_int32 (di_actualDelayTime_ i).

Lemma di_arrives i : di_fits i -> carries (di_Marshalling i) di_ReadFromParcel i.
Proof. intros (Hu & Ha). destruct i. unfold di_Marshalling, di_ReadFromParcel. carry. apply carries_end. Qed.

Definition ai_fits (i : TransientTaskAppInfo) : Prop :=
  utf8 (ai_packageName_ i) /\ in_int32 (ai_uid_ i) /\ in_int32 (ai_pid_ i).

Lemma ai_arrives i : ai_fits i -> carries (ai_Marshalling i) ai_ReadFromParcel i.
Proof.
  intros (Hn & Hu & Hp). destruct i. simpl in *. unfold ai_Marshalling, ai_ReadFromParcel. simpl. carry.
  rewrite Str16ToStr8_Str8ToStr16 by done. apply carries_end.
Qed.

Definition inf_fits (i : EfficiencyResourceInfo) : Prop :=
  in_uint32 (inf_resourceNumber_ i) /\ in_uint32 (inf_timeOut_ i) /\ in_int32 (inf_uid_ i) /\
  in_int32 (inf_pid_ i) /\ in_int32 (inf_cpuLevel_ i).

Lemma inf_arrives i : inf_fits i -> carries (inf_Marshalling i) inf_ReadFromParcel i.
Proof.
  intros Hi. hnf in Hi. destruct_and?. destruct i. unfold inf_Marshalling, inf_ReadFromParcel. carry.
  apply carries_end.
Qed.

Definition cbi_fits (i : ResourceCallbackInfo) : Prop :=
  in_int32 (cbi_uid_ i) /\ in_int32 (cbi_pid_ i) /\ in_uint32 (cbi_resourceNumber_ i) /\ in_int32 (cbi_cpuLevel_ i).

Lemma cbi_arrives i : cbi_fits i -> carries (cbi_Marshalling i) cbi_ReadFromParcel i.
Proof.
  intros Hi. hnf in Hi. destruct_and?. destruct i. unfold cbi_Marshalling, cbi_ReadFromParcel. carry.
  apply carries_end.
Qed.

#[export] Instance param_parcelable : Parcelable P ContinuousTaskParam := {| arrives := tp_arrives |}.
#[export] Instance inner_parcelable : Parcelable P ContinuousTaskParamForInner := {| received p := p; arrives := ip_arrives |}.
#[export] Instance request_parcelable : Parcelable P ContinuousTaskRequest := {| received r := r; arrives := cr_arrives |}.
#[export] Instance progress_parcelable : Parcelable P DataTransferProgress := {| received d := d; arrives := dp_arrives |}.
#[export] Instance progress_info_parcelable : Parcelable P ProgressInfo := {| received i := i; arrives := pg_arrives |}.
#[export] Instance task_info_parcelable : Parcelable P ContinuousTaskInfo := {| received i := i; arrives := ti_arrives |}.
#[export] Instance callback_info_parcelable : Parcelable P ContinuousTaskCallbackInfo := {| received i := i; arrives := ci_arrives |}.
#[export] Instance state_info_parcelable : Parcelable P BackgroundTaskStateInfo := {| received i := i; arrives := bs_arrives |}.
#[export] Instance delay_info_parcelable : Parcelable P DelaySuspendInfo := {| received i := i; arrives := di_arrives |}.
#[export] Instance app_info_parcelable : Parcelable P TransientTaskAppInfo := {| received i := i; arrives := ai_arrives |}.
#[export] Instance resource_info_parcelable : Parcelable P EfficiencyResourceInfo := {| received i := i; arrives := inf_arrives |}.
#[export] Instance resource_callback_parcelable : Parcelable P ResourceCallbackInfo := {| received i := i; arrives := cbi_arrives |}.

(** An object that is written to an empty parcel is what is read from it, to the last
    member, and the parcel is empty again. *)
Definition crosses {A B} (w : A -> Writer P) (r : Reader P B) (a : A) (b : B) : Prop :=
  forall p p', Pending p = [] -> w a p = Some p' -> exists q, r p' = Some (b, q) /\ Pending q = [].

Lemma parcelable_crosses {A} `{!Parcelable P A} (a : A) :
  fits a -> crosses Marshalling ReadFromParcel a (received a).
Proof. intros Ha q q'. by apply carries_round, arrives. Qed.

(** C16. A request for a continuous task crosses a process boundary: what was marshalled is read
    back, but for the list of modes of the interface that sends a single one, and for the
    ids of the answer. *)
Theorem request_parcel_roundtrip p : tp_fits p -> crosses tp_Marshalling tp_ReadFromParcel p (tp_received p).
Proof. pose proof (parcelable_crosses p) as Hp. exact Hp. Qed.

(** C17. The other objects of the interface cross whole: what observers are told, the answers to
    queries, the progress of transfers, the settings of the user, and the requests of
    services and for efficiency resources. *)
Theorem objects_cross_whole :
  (forall i, ci_fits i -> crosses ci_Marshalling ci_ReadFromParcel i i) /\
  (forall i, ti_fits i -> crosses ti_Marshalling ti_ReadFromParcel i i) /\
  (forall p, ip_fits p -> crosses ip_Marshalling ip_ReadFromParcel p p) /\
  (forall r, cr_fits r -> crosses cr_Marshalling cr_ReadFromParcel r r) /\
  (forall d, dp_fits d -> crosses dp_Marshalling dp_ReadFromParcel d d) /\
  (forall i, bs_fits i -> crosses bs_Marshalling bs_ReadFromParcel i i) /\
  (forall i, di_fits i -> crosses di_Marshalling di_ReadFromParcel i i) /\
  (forall i, ai_fits i -> crosses ai_Marshalling ai_ReadFromParcel i i) /\
  (forall i, inf_fits i -> crosses inf_Marshalling inf_ReadFromParcel i i) /\
  (forall i, cbi_fits i -> crosses cbi_Marshalling cbi_ReadFromParcel i i).
Proof. split_and!; intros a; pose proof (parcelable_crosses a) as Ha; exact Ha. Qed.
End ParcelableProps.

(** * Objects across processes: concrete runs

    A request and a callback written to and read from [ListParcel]. *)

Import ListParcel.

(** A data transfer with its progress, of the interface with a list of modes. *)
Definition transfer : ContinuousTaskParam := {|
  tp_isNewApi_ := true; tp_bgModeId_ := 1; tp_wantAgent_ := None; tp_abilityName_ := "main";
  tp_appName_ := "App"; tp_isBatchApi_ := true; tp_bgModeIds_ := [1]; tp_abilityId_ := 1; tp_bgSubModeIds_ := [];
  tp_isCombinedTaskNotification_ := false; tp_combinedNotificationTaskId_ := -1; tp_updateTaskId_ := -1;
  tp_isByRequestObject_ := true; tp_appIndex_ := 0; tp_requestAuthApiVersion_ := 22; tp_notificationId_ := 7;
  tp_continuousTaskId_ := 8; tp_progressInfo_ := Some (mkProgressInfo "file" "a.txt" 50 false)
|}.

Ltac fitting := repeat split; repeat constructor; simpl; try done; in_range.

Lemma transfer_fits : tp_fits (P := parcel) transfer.
Proof. fitting. Qed.

Lemma request_parcel_roundtrip_witness :
  exists p q, tp_Marshalling transfer empty_parcel = Some p /\
              tp_ReadFromParcel p = Some (tp_received transfer, q) /\ Pending q = [].
Proof.
  destruct (tp_Marshalling transfer (empty_parcel : parcel)) as [p|] eqn:Hp; [|by vm_compute in Hp].
  destruct (request_parcel_roundtrip transfer transfer_fits empty_parcel p pending_nothing Hp) as (q & Hq & Hl).
  by exists p, q.
Defined.

Definition told : ContinuousTaskCallbackInfo := {|
  ci_typeId_ := 1; ci_creatorUid_ := 20000; ci_creatorPid_ := 30; ci_abilityName_ := "main";
  ci_isFromWebview_ := false; ci_isBatchApi_ := true; ci_typeIds_ := [1]; ci_abilityId_ := 1; ci_tokenId_ := 5;
  ci_continuousTaskId_ := 1; ci_cancelReason_ := -1; ci_detailedCancelReason_ := -1; ci_suspendState_ := false;
  ci_suspendReason_ := -1; ci_isByRequestObject_ := true; ci_bundleName_ := "com.app"; ci_userId_ := 100;
  ci_appIndex_ := 0; ci_backgroundSubModes_ := []; ci_notificationId_ := 0; ci_wantAgentBundleName_ := "";
  ci_wantAgentAbilityName_ := ""; ci_cancelCallBackSelf_ := false; ci_isStandby_ := false; ci_isFromComponent_ := false
|}.

Lemma objects_cross_whole_witness :
  ci_fits (P := parcel) told /\ crosses (P := parcel) ci_Marshalling ci_ReadFromParcel told told.
Proof.
  assert (ci_fits (P := parcel) told) as Ht by fitting.
  split; [done|]. exact (proj1 (objects_cross_whole (P := parcel)) told Ht).
Defined.
