(* ===== verification/RequestArrival.v ===== *)
(** * Requests decided as they were sent

    A request reaches the service as what its parcel carries ([tp_received]).  When the
    modes a caller gives are those its interface sends ([modes_sent]), the service decides
    what arrives as it would have decided what was sent. *)

From S2P Require Import Prelude.
From S2P Require Import Errors.
From S2P Require Import Interfaces.
From S2P Require Import DeviceInfo.
From S2P Require Import TransientTaskMgr.
From S2P Require Import EfficiencyResources.
From S2P Require Import Json.
From S2P Require Import BgtaskConfig.
From S2P Require Import BackgroundModes.
From S2P Require Import ContinuousTaskRecord.
From S2P Require Import ContinuousTypes.
From S2P Require Import ContinuousTaskMgr.
From S2P Require Import ContinuousTaskStart.
From S2P Require Import ContinuousAuth.
From S2P Require Import ContinuousTaskMgrSpec.
From S2P Require Import BackgroundTaskMgrService.
From S2P Require Import BackgroundTaskMgrSystem.
From S2P Require Import Parcel.
From S2P Require Import ParcelableProps.
Local Open Scope Z_scope.

Definition modes_sent (p : ContinuousTaskParam) : Prop := tp_isBatchApi_ p = true \/ tp_bgModeIds_ p = [].

Definition rq_received (r : ServiceRequest) : ServiceRequest :=
  match r with
  | RqStartBackgroundRunning p n c => RqStartBackgroundRunning (tp_received p) n c
  | RqUpdateBackgroundRunning p n c => RqUpdateBackgroundRunning (tp_received p) n c
  | RqIsModeSupported p => RqIsModeSupported (tp_received p)
  | RqRequestAuthFromUser p callback n => RqRequestAuthFromUser (tp_received p) callback n
  | RqRemoveAuthRecord p => RqRemoveAuthRecord (tp_received p)
  | r => r
  end.

(** The parameters of a request, where it has any. *)
Definition rq_param (r : ServiceRequest) : option ContinuousTaskParam :=
  match r with
  | RqStartBackgroundRunning p _ _ | RqUpdateBackgroundRunning p _ _ | RqIsModeSupported p
  | RqRequestAuthFromUser p _ _ | RqRemoveAuthRecord p => Some p
  | _ => None
  end.

(** ** Operations that agree but for the ids they hand on *)
Definition agree {A} (R : A -> A -> Prop) (m1 m2 : CM A) : Prop :=
  forall e s, R (m1 e s).1 (m2 e s).1 /\ (m1 e s).2 = (m2 e s).2.

Lemma agree_bind {A B} (R : B -> B -> Prop) (m : CM A) k1 k2 :
  (forall a, agree R (k1 a) (k2 a)) -> agree R (bind m k1) (bind m k2).
Proof. intros Hk e s. unfold bind. destruct (m e s) as [a s']. apply Hk. Qed.
Lemma agree_ret {A} (R : A -> A -> Prop) a b : R a b -> agree R (ret a) (ret b).
Proof. by intros HR e s. Qed.
Lemma agree_if {A} (R : A -> A -> Prop) (c : bool) m1 m2 k1 k2 :
  agree R m1 m2 -> agree R k1 k2 -> agree R (if c then m1 else k1) (if c then m2 else k2).
Proof. by destruct c. Qed.

Ltac agreeing := repeat first
  [ apply agree_bind; intros ? | apply agree_if | apply agree_ret; done
  | match goal with
    | |- agree _ (match ?x with _ => _ end) (match ?y with _ => _ end) => change y with x; destruct x
    end ].

Section RequestArrival.
Context `{ContinuousPlatform}.

Definition same_code (r1 r2 : Z * ContinuousTaskParam) : Prop := r1.1 = r2.1.
Definition same_outcome (r1 r2 : option (Z * option ContinuousTaskParam)) : Prop :=
  fst <$> r1 = fst <$> r2.

(** Without the ids for the way back. *)
Definition without_ids (p : ContinuousTaskParam) : ContinuousTaskParam :=
  mkParam (tp_isNewApi_ p) (tp_bgModeId_ p) (tp_wantAgent_ p) (tp_abilityName_ p) (tp_appName_ p)
    (tp_isBatchApi_ p) (tp_bgModeIds_ p) (tp_abilityId_ p) (tp_bgSubModeIds_ p)
    (tp_isCombinedTaskNotification_ p) (tp_combinedNotificationTaskId_ p) (tp_updateTaskId_ p)
    (tp_isByRequestObject_ p) (tp_appIndex_ p) (tp_requestAuthApiVersion_ p) (-1) (-1) (tp_progressInfo_ p).

Lemma received_without_ids p : modes_sent p -> tp_received p = without_ids p.
Proof.
  unfold tp_received, without_ids. intros [Hb | Hm]; [by rewrite Hb | rewrite Hm; by destruct (tp_isBatchApi_ p)].
Qed.

Lemma StartBackgroundRunning_arrives p :
  agree same_outcome (StartBackgroundRunning (Some (without_ids p))) (StartBackgroundRunning (Some p)).
Proof.
  unfold StartBackgroundRunning. change (CheckTaskParam (Some (without_ids p))) with (CheckTaskParam (Some p)).
  agreeing. 
Qed.

Lemma UpdateBackgroundRunning_arrives p :
  agree same_code (UpdateBackgroundRunning (without_ids p)) (UpdateBackgroundRunning p).
Proof.
  unfold UpdateBackgroundRunning, UpdateBackgroundRunningByTaskIdInner, UpdateBackgroundRunningInner, UpdateTaskInfo,
    finish_update. agreeing.
Qed.

End RequestArrival.

Section Service.
Context {sp : SystemParams} {actions : CommonEventActions} {sa : SystemAbilityIds} {store : RecordStore}
  {abilities : EffAbilityIds} `{ContinuousPlatform} `{Json J} `{EventHandler Q}.
Variable CheckSignature : string -> bool.
Implicit Types e : ServiceEnv J.
Implicit Types s : BackgroundTaskMgrService Q.
Abbreviation serve := (BackgroundTaskMgrSystem.serve CheckSignature).

Lemma serve_start_arrives p n c e s :
  serve (RqStartBackgroundRunning (without_ids p) n c) e s = serve (RqStartBackgroundRunning p n c) e s.
Proof.
  unfold BackgroundTaskMgrSystem.serve, sv_StartBackgroundRunning, continuous_try, sv_bind.
  change (atomic_refused (without_ids p) e s) with (atomic_refused p e s).
  destruct (atomic_refused p e s) as [[[|] s1]|]; [done| |done].
  destruct (StartBackgroundRunning_arrives p (cont_env CheckSignature (sv_config s1) e) (sv_continuous s1)) as [Hr Hs].
  destruct (StartBackgroundRunning (Some (without_ids p)) _ _) as [r1 c1], (StartBackgroundRunning (Some p) _ _) as [r2 c2].
  simpl in Hr, Hs. subst c2. destruct r1 as [[x1 q1]|], r2 as [[x2 q2]|]; unfold same_outcome in Hr; simplify_eq/=; [|done].
  unfold given_ids. simpl. by destruct (x2 =? ERR_OK).
Qed.

Lemma serve_update_arrives p n c e s :
  serve (RqUpdateBackgroundRunning (without_ids p) n c) e s = serve (RqUpdateBackgroundRunning p n c) e s.
Proof.
  unfold BackgroundTaskMgrSystem.serve, sv_UpdateBackgroundRunning, continuous, sv_bind.
  change (atomic_refused (without_ids p) e s) with (atomic_refused p e s).
  destruct (atomic_refused p e s) as [[[|] s1]|]; [done| |done].
  destruct (UpdateBackgroundRunning_arrives p (cont_env CheckSignature (sv_config s1) e) (sv_continuous s1)) as [Hr Hs].
  destruct (UpdateBackgroundRunning (without_ids p) _ _) as [[x1 q1] c1], (UpdateBackgroundRunning p _ _) as [[x2 q2] c2].
  simpl in Hr, Hs. unfold same_code in Hr. simplify_eq/=. unfold given_ids. simpl. by destruct (x2 =? ERR_OK).
Qed.

Lemma service_arrives r e s :
  (forall p, rq_param r = Some p -> modes_sent p) -> serve (rq_received r) e s = serve r e s.
Proof.
  intros Hr. destruct r as []; try done; cbn [rq_received rq_param] in *;
    rewrite (received_without_ids _ (Hr _ eq_refl)); try done.
  - apply serve_start_arrives.
  - apply serve_update_arrives.
Qed.

(** The service decides a request that arrives over a parcel, and changes its state by it,
    as it would have had the caller handed over its own object: what the parcel leaves out
    are the ids for the way back, and the list of modes of a request of the interface
    without one. *)
Theorem service_decides_as_sent r e s :
  (forall p, rq_param r = Some p -> modes_sent p) -> serve (rq_received r) e s = serve r e s.
Proof. apply service_arrives. Qed.
End Service.
