(* ===== verification/BackgroundTaskObserver.v ===== *)
(** * What the resource scheduler is told

    [BackgroundTaskObserver] (services/common background_task_observer.cpp), the observer
    inside the process each manager tells first ([EObserver], [NotifyObserver] and
    [EffObserver] in the effects of the managers): it checks what it is told and reports it
    to the resource scheduler as typed data with a payload.  And what a reader of the
    reports knows: the payload of a continuous task identifies the task, and whoever
    follows the reports has the running tasks. *)

From S2P Require Import Prelude.
From S2P Require Import Interfaces.
From S2P Require Import DeviceInfo.
From S2P Require Import DecisionMaker.
From S2P Require Import TransientTaskMgr.
From S2P Require Import ResourceTypes.
From S2P Require Import EfficiencyResources.
From S2P Require Import BackgroundModes.
From S2P Require Import ContinuousTaskRecord.
From S2P Require Import ContinuousTypes.
From S2P Require Import NotificationTools.
From S2P Require Import ContinuousTaskMgr.
From S2P Require Import ContinuousStorageProps.
From S2P Require Import ContinuousInvariant.
From S2P Require Import Json.
From S2P Require Import ContinuousSystem.
From S2P Require Import ContinuousTaskMgrProps.
Import BackgroundMode.
Local Open Scope Z_scope.

(** ** Reports

    [ResType] of the resource scheduler: the status says the type. *)
Inductive ReportStatus :=
| TRANSIENT_TASK_START | TRANSIENT_TASK_END | TRANSIENT_TASK_ERR | APP_TRANSIENT_TASK_START | APP_TRANSIENT_TASK_END
| CONTINUOUS_TASK_START | CONTINUOUS_TASK_END | CONTINUOUS_TASK_UPDATE
| APP_EFFICIENCY_RESOURCES_APPLY | APP_EFFICIENCY_RESOURCES_RESET | PROC_EFFICIENCY_RESOURCES_APPLY
| PROC_EFFICIENCY_RESOURCES_RESET.
#[export] Instance ReportStatus_eq_dec : EqDecision ReportStatus.
Proof. solve_decision. Defined.

(** A member of a payload, with the kind of JSON it has. *)
Inductive PayloadValue := PStr (s : string) | PInt (z : Z) | PBool (b : bool) | PInts (l : list Z).
Definition Payload : Type := list (string * PayloadValue).
Record Report := mkReport { rp_status : ReportStatus; rp_payload : Payload }.
Definition number (z : Z) : PayloadValue := PStr (pretty z).

(** ** Transient tasks *)
Definition CheckTransientTaskAppInfo (info : TransientTaskAppInfo) : bool :=
  (0 <? ai_uid_ info) && (0 <=? ai_pid_ info) && (0 <? String.length (ai_packageName_ info))%nat.
Definition MarshallingTransientTaskAppInfo (info : TransientTaskAppInfo) : Payload :=
  [("pid", number (ai_pid_ info)); ("uid", number (ai_uid_ info)); ("bundleName", PStr (ai_packageName_ info))]%string.

Definition checked {A} (check : A -> bool) (status : ReportStatus) (marshal : A -> Payload) (info : option A) :
    list Report :=
  match info with
  | Some info => if check info then [mkReport status (marshal info)] else []
  | None => []
  end.
Definition ob_OnTransientTaskStart := checked CheckTransientTaskAppInfo TRANSIENT_TASK_START MarshallingTransientTaskAppInfo.
Definition ob_OnTransientTaskEnd := checked CheckTransientTaskAppInfo TRANSIENT_TASK_END MarshallingTransientTaskAppInfo.
Definition ob_OnTransientTaskErr := checked CheckTransientTaskAppInfo TRANSIENT_TASK_ERR MarshallingTransientTaskAppInfo.
Definition ob_OnAppTransientTaskStart (info : TransientTaskAppInfo) : list Report :=
  [mkReport APP_TRANSIENT_TASK_START (MarshallingTransientTaskAppInfo info)].
Definition ob_OnAppTransientTaskEnd (info : TransientTaskAppInfo) : list Report :=
  [mkReport APP_TRANSIENT_TASK_END (MarshallingTransientTaskAppInfo info)].

(** ** Continuous tasks *)
Definition CheckContinuousTaskInfo (eventData : ContinuousTaskCallbackInfo) : bool :=
  (0 <? ci_creatorUid_ eventData) && (0 <=? ci_creatorPid_ eventData) &&
  (0 <? String.length (ci_abilityName_ eventData))%nat && (0 <? ci_typeId_ eventData) && (ci_typeId_ eventData <=? BM_END).
Definition MarshallingContinuousTaskCallbackInfo (info : ContinuousTaskCallbackInfo) : Payload := [
  ("pid", number (ci_creatorPid_ info));
  ("uid", number (ci_creatorUid_ info));
  ("abilityName", PStr (ci_abilityName_ info));
  ("isBatchApi", number (Z.b2z (ci_isBatchApi_ info)));
  ("typeId", number (ci_typeId_ info));
  ("abilityId", number (ci_abilityId_ info));
  ("continuousTaskId", number (ci_continuousTaskId_ info));
  ("isFromWebview", PBool (ci_isFromWebview_ info));
  ("typeIds", PInts (ci_typeIds_ info));
  ("tokenId", PInt (ci_tokenId_ info));
  ("isByRequestObject", PBool (ci_isByRequestObject_ info));
  ("bundleName", PStr (ci_bundleName_ info));
  ("userId", PInt (ci_userId_ info));
  ("appIndex", PInt (ci_appIndex_ info));
  ("suspendState", PBool (ci_suspendState_ info));
  ("suspendReason", PInt (ci_suspendReason_ info))]%string.
Definition ob_OnContinuousTaskStart :=
  checked CheckContinuousTaskInfo CONTINUOUS_TASK_START MarshallingContinuousTaskCallbackInfo.
Definition ob_OnContinuousTaskStop :=
  checked CheckContinuousTaskInfo CONTINUOUS_TASK_END MarshallingContinuousTaskCallbackInfo.
Definition ob_OnContinuousTaskUpdate :=
  checked CheckContinuousTaskInfo CONTINUOUS_TASK_UPDATE MarshallingContinuousTaskCallbackInfo.

(** ** Efficiency resources *)
Definition MarshallingResourceInfo (info : option ResourceCallbackInfo) : Payload :=
  match info with
  | None => []
  | Some info => [
      ("pid", PInt (cbi_pid_ info)); ("uid", PInt (cbi_uid_ info)); ("resourceNumber", PInt (cbi_resourceNumber_ info));
      ("bundleName", PStr (cbi_bundleName_ info)); ("cpuLevel", PInt (cbi_cpuLevel_ info))]%string
  end.
Definition ob_OnAppEfficiencyResourcesApply info := [mkReport APP_EFFICIENCY_RESOURCES_APPLY (MarshallingResourceInfo info)].
Definition ob_OnAppEfficiencyResourcesReset info := [mkReport APP_EFFICIENCY_RESOURCES_RESET (MarshallingResourceInfo info)].
Definition ob_OnProcEfficiencyResourcesApply info := [mkReport PROC_EFFICIENCY_RESOURCES_APPLY (MarshallingResourceInfo info)].
Definition ob_OnProcEfficiencyResourcesReset info := [mkReport PROC_EFFICIENCY_RESOURCES_RESET (MarshallingResourceInfo info)].

(** ** What the managers tell the observer, as reports *)
Definition report_transient (a : TransientTaskAppInfo) (t : TransientTaskEventType) : list Report :=
  match t with
  | DecisionMaker.TASK_START => ob_OnTransientTaskStart (Some a)
  | DecisionMaker.TASK_END => ob_OnTransientTaskEnd (Some a)
  | DecisionMaker.TASK_ERR => ob_OnTransientTaskErr (Some a)
  | APP_TASK_START => ob_OnAppTransientTaskStart a
  | APP_TASK_END => ob_OnAppTransientTaskEnd a
  end.
Definition report_efficiency (c : ResourceCallbackInfo) (t : EfficiencyResourcesEventType) : list Report :=
  match t with
  | APP_RESOURCE_APPLY => ob_OnAppEfficiencyResourcesApply (Some c)
  | APP_RESOURCE_RESET => ob_OnAppEfficiencyResourcesReset (Some c)
  | RESOURCE_APPLY => ob_OnProcEfficiencyResourcesApply (Some c)
  | RESOURCE_RESET => ob_OnProcEfficiencyResourcesReset (Some c)
  end.
Definition report_continuous (x : ContEffect) : list Report :=
  match x with
  | EObserver OnContinuousTaskStart i => ob_OnContinuousTaskStart (Some i)
  | EObserver OnContinuousTaskUpdate i => ob_OnContinuousTaskUpdate (Some i)
  | EObserver OnContinuousTaskStop i => ob_OnContinuousTaskStop (Some i)
  | _ => []
  end.
Definition reports (l : list ContEffect) : list Report := l ≫= report_continuous.

(** ** A reader of the reports *)

(** A member of a payload; a reader knows the kind it has. *)
Definition member (name : string) (p : Payload) : option PayloadValue :=
  snd <$> (snd <$> list_find (fun m : string * PayloadValue => m.1 = name) p).
Definition text (v : PayloadValue) : string := match v with PStr s => s | _ => "" end.
Definition truth (v : PayloadValue) : bool := match v with PBool b => b | _ => false end.

(** The key of the task a payload is about, put together from its members. *)
Definition payload_key (p : Payload) : option string :=
  uid ← member "uid" p;
  name ← member "abilityName" p;
  ability ← member "abilityId" p;
  by_request ← member "isByRequestObject" p;
  task ← member "continuousTaskId" p;
  Some (text uid +:+ SEPARATOR +:+ text name +:+ SEPARATOR +:+ text ability +:+
        (if truth by_request then SEPARATOR +:+ text task else ""))%string.
Definition read_report (v : gset string) (r : Report) : gset string :=
  match payload_key (rp_payload r), rp_status r with
  | Some key, CONTINUOUS_TASK_START => {[key]} ∪ v
  | Some key, CONTINUOUS_TASK_END => v ∖ {[key]}
  | _, _ => v
  end.
Definition read_reports (v : gset string) (l : list Report) : gset string := fold_left read_report l v.

Lemma payload_key_info i : payload_key (MarshallingContinuousTaskCallbackInfo i) = Some (info_key i).
Proof. unfold info_key, context_key. by rewrite !string_app_assoc. Qed.

(** What the observer is told passes its check. *)
Definition reportable (x : ContEffect) : Prop :=
  match x with EObserver _ i => CheckContinuousTaskInfo i = true | _ => True end.

Lemma read_report_continuous v x : reportable x -> read_reports v (report_continuous x) = observe v x.
Proof.
  destruct x as [| | | |kind i| | | | | | |]; try done. cbn [reportable]. intros Hi.
  destruct kind; cbn; rewrite ?Hi; try done; cbn [fold_left]; unfold read_report; cbn [rp_payload rp_status];
    by rewrite payload_key_info.
Qed.
Lemma read_reports_followed v l : Forall reportable l -> read_reports v (reports l) = followed v l.
Proof.
  intros Hl. revert v. induction Hl as [|x l Hx _ IH]; intros v; [done|].
  unfold reports, read_reports in *. cbn [mbind list_bind followed fold_left]. rewrite fold_left_app.
  rewrite (read_report_continuous v x Hx : fold_left read_report (report_continuous x) v = _). apply IH.
Qed.

(** * What the resource scheduler knows of the continuous tasks *)

(** A payload determines what it carries of the task. *)
Lemma payload_inj i i' :
  MarshallingContinuousTaskCallbackInfo i = MarshallingContinuousTaskCallbackInfo i' ->
  ci_creatorUid_ i = ci_creatorUid_ i' /\ ci_creatorPid_ i = ci_creatorPid_ i' /\
  ci_abilityName_ i = ci_abilityName_ i' /\ ci_abilityId_ i = ci_abilityId_ i' /\
  ci_continuousTaskId_ i = ci_continuousTaskId_ i' /\ ci_typeId_ i = ci_typeId_ i' /\ ci_typeIds_ i = ci_typeIds_ i' /\
  ci_isBatchApi_ i = ci_isBatchApi_ i' /\ info_key i = info_key i'.
Proof.
  intros E. assert (info_key i = info_key i') as Ek
    by (pose proof (payload_key_info i) as H1; rewrite E, payload_key_info in H1; by injection H1).
  unfold MarshallingContinuousTaskCallbackInfo, number in E.
  injection E as Ep Eu En Eb Et Ea Ec _ Em _ _ _ _ _ _ _.
  apply (inj pretty) in Ep, Eu, Et, Ea, Ec, Eb. split_and!; try done.
  by destruct (ci_isBatchApi_ i), (ci_isBatchApi_ i').
Qed.

Section Props.
Context `{ContinuousPlatform} `{Json J}.

(** C15. The resource scheduler can tell the running tasks from the reports alone: a reader
    that puts the key of a task together from the members of a payload, adds it on a start
    and takes it away on an end has, after every operation, the running tasks, if it had
    them before — as long as what the observer is told passes its check (positive uid, a
    process id, an ability name and a known mode; the closure that suspends silent tasks is
    as in the claim on observers). *)
Theorem scheduler_knows_running_tasks s op e v :
  reachable s -> admissible op e s ->
  (forall uid, suspends_audio op s = Some uid -> map_Forall (audio_told True uid) (tasks s)) ->
  Forall reportable (cm_effects s) -> Forall reportable (cm_effects (exec op e s).2) ->
  running (tasks s) = read_reports v (reports (cm_effects s)) ->
  running (tasks (exec op e s).2) = read_reports v (reports (cm_effects (exec op e s).2)).
Proof.
  intros Hr Ha Hau Hs Hs' Hv. rewrite read_reports_followed in Hv |- * by done. by apply exec_followed.
Qed.
End Props.
