(* ===== verification/Observers.v ===== *)
(** * The proxies of other services

    [BundleManagerHelper] and [AppMgrHelper] of services/common keep a proxy of the bundle
    manager and of the application manager and ask through it what the environments of the
    managers answer ([ce_GetClientBundleName], [ce_GetAllRunningProcesses] and the like).

    A service is an incarnation [I] that lives until it dies; a new one takes its place in
    the registry.  A query of an incarnation gives an answer, or fails. *)

From S2P Require Import Prelude.
From S2P Require Import Errors.
From S2P Require Import Interfaces.
From S2P Require Import DeviceInfo.
From S2P Require Import DecisionMaker.
From S2P Require Import TransientTaskMgr.
From S2P Require Import EfficiencyResources.
From S2P Require Import Json.
From S2P Require Import BgtaskConfig.
From S2P Require Import BackgroundModes.
From S2P Require Import ContinuousTypes.
From S2P Require Import ContinuousTaskMgr.
From S2P Require Import ContinuousTaskStop.
From S2P Require Import ContinuousAuth.
From S2P Require Import ContinuousRestart.
From S2P Require Import BackgroundTaskMgrService.
Local Open Scope Z_scope.

Section Proxies.
(** The incarnations of a service. *)
Context {I : Type}.

(** What connecting finds: the registry, the object registered, and what its cast gives —
    null, or a proxy, with or without an object. *)
Record Registry := mkRegistry {
  rg_manager : bool;
  rg_ability : option I;
  rg_cast : option bool;
}.
Implicit Types n : Registry.

(** [hp_watched]: the death recipient is attached to the proxy's object. *)
Record HelperState := mkHelper {
  hp_proxy_ : option (I * bool);
  hp_watched : bool;
}.
Implicit Types h : HelperState.
Definition new_helper : HelperState := mkHelper None false.

Definition cast_of n : option (I * bool) :=
  ability ← (if rg_manager n then rg_ability n else None); b ← rg_cast n; Some (ability, b).
Definition found n : bool := rg_manager n && bool_decide (is_Some (rg_ability n)).

(** ** BundleManagerHelper

    [recipient]: the death recipient could be made, when the helper was.  The code attaches
    it without a test of the proxy's object: the cast of an object that is not null has
    one. *)
Section BundleManager.
Variable recipient : bool.

Definition bh_Connect n h : bool * HelperState :=
  return_if bool_decide (is_Some (hp_proxy_ h)), (true, h) ;;
  return_if negb (found n), (false, h) ;;
  let h := mkHelper (cast_of n) false in
  return_if bool_decide (is_Some (hp_proxy_ h)) && recipient, (true, mkHelper (hp_proxy_ h) true) ;;
  (false, h).
Definition bh_Disconnect h : HelperState :=
  match hp_proxy_ h with
  | Some (_, true) => mkHelper None false
  | _ => h
  end.
Definition bh_OnRemoteDied h : HelperState := bh_Disconnect h.

(** A query through the helper: [failed] where there is no proxy; [ask] is the query of an
    incarnation. *)
Definition bh_query {A} (failed : A) (ask : I -> A) n h : A * HelperState :=
  let h := (bh_Connect n h).2 in
  match hp_proxy_ h with
  | Some (i, _) => (ask i, h)
  | None => (failed, h)
  end.

(** The queries: a name, or the empty one; whether the call succeeded, and what it gave. *)
Definition bh_GetClientBundleName (GetNameForUid : I -> Z -> string) (uid : Z) n h : string * HelperState :=
  bh_query ""%string (fun i => GetNameForUid i uid) n h.
Definition bh_GetBundleInfo {F B} (GetBundleInfo : I -> string -> F -> Z -> option B) (bundleName : string) (flag : F)
    (userId : Z) n h : option B * HelperState :=
  bh_query None (fun i => GetBundleInfo i bundleName flag userId) n h.
Definition bh_GetApplicationInfo {F B} (GetApplicationInfo : I -> string -> F -> Z -> option B) (appName : string)
    (flag : F) (userId : Z) n h : option B * HelperState :=
  bh_query None (fun i => GetApplicationInfo i appName flag userId) n h.
Definition bh_QueryAbilityInfo {W B} (QueryAbilityInfo : I -> W -> Z -> Z -> option B) (want : W) (flags userId : Z)
    n h : option B * HelperState :=
  bh_query None (fun i => QueryAbilityInfo i want flags userId) n h.
Definition bh_GetBundleInfoByFlags {B} (GetBundleInfo : I -> string -> Z -> Z -> option B) (bundleName : string)
    (flags userId : Z) n h : option B * HelperState :=
  bh_query None (fun i => GetBundleInfo i bundleName flags userId) n h.
(** Through the proxy of the resources of bundles the bundle manager gives, or none. *)
Definition bh_GetBundleResourceInfo {R F B} (GetBundleResourceProxy : I -> option R)
    (GetBundleResourceInfo : R -> string -> F -> option B) (bundleName : string) (flags : F) n h :
    option B * HelperState :=
  bh_query None (fun i => r ← GetBundleResourceProxy i; GetBundleResourceInfo r bundleName flags) n h.
Definition bh_GetAppIndexAndBundleNameByUid (GetNameAndIndexForUid : I -> Z -> option (string * Z)) (uid : Z) n h :
    option (string * Z) * HelperState :=
  bh_query None (fun i => GetNameAndIndexForUid i uid) n h.
End BundleManager.

(** ** AppMgrHelper *)
Definition am_Connect n h : bool * HelperState :=
  return_if bool_decide (is_Some (hp_proxy_ h)), (true, h) ;;
  return_if negb (found n), (false, h) ;;
  let h := mkHelper (cast_of n) false in
  return_if negb match hp_proxy_ h with Some (_, b) => b | None => false end, (false, h) ;;
  (true, h).

Definition am_query {A} (ask : I -> option A) n h : option A * HelperState :=
  let '(connected, h) := am_Connect n h in
  return_if negb connected, (None, h) ;;
  match hp_proxy_ h with
  | Some (i, _) => (ask i, h)
  | None => (None, h)
  end.
Definition am_GetAllRunningProcesses {A} (GetAllRunningProcesses : I -> option (list A)) :=
  am_query GetAllRunningProcesses.
Definition am_GetForegroundApplications {A} (GetForegroundApplications : I -> option (list A)) :=
  am_query GetForegroundApplications.
(** Whether an observer could be registered, or unregistered. *)
Definition am_register (register : I -> bool) n h : bool * HelperState :=
  let '(r, h) := am_query (fun i => if register i then Some tt else None) n h in (bool_decide (is_Some r), h).
Definition am_SubscribeObserver := am_register.
Definition am_SubscribeConfigurationObserver := am_register.
Definition am_UnsubscribeObserver := am_register.

(** ** What becomes of the proxies *)

(** Where everything is in place for incarnation [i]. *)
Definition serves n (i : I) : Prop := rg_manager n = true /\ rg_ability n = Some i /\ rg_cast n = Some true.

Lemma serves_cast n i : serves n i -> found n = true /\ cast_of n = Some (i, true).
Proof. intros (Em & Ea & Ec). unfold found, cast_of. by rewrite Em, Ea, Ec. Qed.

(** The bundle manager dies and is replaced: the next query is answered by the new one. *)
Lemma bundle_manager_is_found_again {A} recipient (failed : A) ask n i j :
  serves n j -> bh_query recipient failed ask n (bh_OnRemoteDied (mkHelper (Some (i, true)) true)) =
  (ask j, mkHelper (Some (j, true)) recipient).
Proof.
  intros [Hf Hc]%serves_cast. unfold bh_query, bh_Connect. cbn. rewrite Hf, Hc. cbn. by destruct recipient.
Qed.

(** The helper of the application manager never lets go of a proxy. *)
Lemma am_Connect_keeps n h i b : hp_proxy_ h = Some (i, b) -> am_Connect n h = (true, h).
Proof. intros E. unfold am_Connect. rewrite bool_decide_true; [done|]. by rewrite E. Qed.

Fixpoint queries {A} (ask : I -> option A) (l : list Registry) h : list (option A) :=
  match l with
  | [] => []
  | n :: l => let '(r, h) := am_query ask n h in r :: queries ask l h
  end.
Lemma queries_stay {A} (ask : I -> option A) l h i b :
  hp_proxy_ h = Some (i, b) -> queries ask l h = (fun _ => ask i) <$> l.
Proof.
  intros E. induction l as [|n l IH]; cbn [queries fmap list_fmap]; [done|].
  unfold am_query at 1. rewrite (am_Connect_keeps n h i b E). cbn. rewrite E. by f_equal.
Qed.

(** Once connected, the helper asks the incarnation of the application manager it first
    found, whatever the registry holds later: after that one has died every query fails,
    though another serves.  The helper of the bundle manager, told of the death, asks the
    new one. *)
Theorem app_manager_is_not_found_again {A} (ask : I -> option A) n later i :
  serves n i -> ask i = None ->
  Forall (fun r => r = None) (queries ask later (am_query ask n new_helper).2) /\
  forall j recipient, serves n j ->
    (bh_query recipient None ask n (bh_OnRemoteDied (mkHelper (Some (i, true)) true))).1 = ask j.
Proof.
  intros Hs Hd. split.
  - rewrite (queries_stay ask later _ i true).
    + rewrite Hd. apply Forall_forall. intros r (x & -> & _)%list_elem_of_fmap. done.
    + apply serves_cast in Hs as [Hf Hc]. unfold am_query, am_Connect. cbn. rewrite Hf, Hc. done.
  - intros j recipient Hj. by rewrite (bundle_manager_is_found_again recipient None ask n i j Hj).
Qed.
End Proxies.

(** The first incarnation has died and the second serves. *)
Lemma app_manager_is_not_found_again_witness :
  let ask := fun i : nat => if (i =? 1)%nat then None else Some i in
  let up := fun i : nat => mkRegistry true (Some i) (Some true) in
  Forall (fun r => r = None) (queries ask [up 2%nat; up 2%nat] (am_query ask (up 1%nat) new_helper).2) /\
  forall j recipient, serves (up 1%nat) j ->
    (bh_query recipient None ask (up 1%nat) (bh_OnRemoteDied (mkHelper (Some (1%nat, true)) true))).1 = ask j.
Proof. cbv zeta. by apply (app_manager_is_not_found_again (I := nat)). Defined.

(** * Observers

    What the application manager and the common event service tell the service:
    [AppStateObserver], [SystemEventObserver], [DialogEventObserver] and
    [BannerNotificationEventObserver] of services/common.  A callback changes the managers
    at once or posts closures to the handler of the continuous task manager
    ([ObserverTask]); it gives the closures it posts, which run later ([run_observer_task]).
    [handler] says whether the observer still has its handler and its manager. *)

(** ** What observers are told

    The enumerations of the application framework, as far as the code looks. *)
Inductive ApplicationState := AS_FOREGROUND | AS_BACKGROUND | AS_CACHED | AS_OTHER.
Inductive AbilityState := ABILITY_STATE_TERMINATED | ABILITY_STATE_OTHER.
#[export] Instance ApplicationState_eq_dec : EqDecision ApplicationState.
Proof. solve_decision. Defined.
#[export] Instance AbilityState_eq_dec : EqDecision AbilityState.
Proof. solve_decision. Defined.

Record AppStateData := mkAppState {
  as_bundleName : string;
  as_uid : Z;
  as_pid : Z;
  as_state : ApplicationState;
  as_gamePrelaunch : bool;                       (* preloadMode == GAME_PRELAUNCH *)
}.
Record AbilityStateData := mkAbilityState {
  ab_abilityName : string;
  ab_uid : Z;
  ab_abilityRecordId : Z;
  ab_abilityState : AbilityState;
}.
Record ProcessData := mkProcess {
  pd_bundleName : string;
  pd_uid : Z;
  pd_pid : Z;
  pd_state : AppProcessState;
  pd_gamePrelaunch : bool;
}.

(** A common event: its want, whose parameters have types. *)
Inductive SystemAction :=
| COMMON_EVENT_USER_SWITCHED | COMMON_EVENT_USER_ADDED | COMMON_EVENT_USER_REMOVED
| COMMON_EVENT_BUNDLE_RESOURCES_CHANGED
| ABundle (action : PackageEvent)
| ANamed (action : string).
#[export] Instance SystemAction_eq_dec : EqDecision SystemAction.
Proof. solve_decision. Defined.

Record CommonEventData := mkEvent {
  ev_action : SystemAction;
  ev_bundleName : string;                        (* want.GetElement().GetBundleName() *)
  ev_code : Z;
  ev_GetIntParam : string -> Z -> Z;
  ev_GetStringParam : string -> string;
  ev_HasParameter : string -> bool;
}.

(** The keys of the bundle manager, [AppExecFwk::Constants]. *)
Class WantKeys := { KEY_UID : string; KEY_USER_ID : string; KEY_APP_INDEX : string }.

(** common_utils.h *)
Definition BGTASK_AUTH_DIALOG_EVENT_NAME : string := "OnBgTaskServiceDialogClicked".
Definition BGTASK_BANNER_NOTIFICATION_ACTION_NAME : string := "bgtask_banner_notification_action_name".
Definition BGTASK_BANNER_NOTIFICATION_ACTION_PARAM_BTN : string := "bgtask_banner_notificaiton_action_param_btn".
Definition BGTASK_BANNER_NOTIFICATION_ACTION_PARAM_UID : string := "bgtask_banner_notificaiton_action_param_uid".
Definition BGTASK_BANNER_NOTIFICATION_ACTION_LABEL : string := "bgtask_banner_notificaiton_action_label".

(** ** The closures *)
Inductive ObserverTask :=
| TASK_ON_APP_STATE_CHANGED (uid : Z) (foreground gamePrelaunch : bool)
| TASK_ON_ABILITY_STATE_CHANGED (uid : Z) (abilityName : string) (abilityId : Z)
| TASK_ON_APP_CACHE_STATE_CHANGED (uid pid : Z) (bundleName : string)
| TASK_ON_APP_DIED (uid : Z)
| TASK_ON_OS_ACCOUNT_CHANGED (userId : Z)
| TASK_ON_BUNDLE_RESOURCES_CHANGED
| TASK_ON_BUNDLEINFO_CHANGED (action : PackageEvent) (bundleName : string) (uid userId appIndex : Z)
| TASK_ON_PERMISSION_DIALOG_BUTTON_CLICK (authResult bundleUid : Z) (bundleName : string) (appIndex : Z)
| TASK_ON_BANNER_NOTIFICATION_ACTION_BUTTON_CLICK (buttonType uid : Z) (label : string).

Section Observers.
Context {sp : SystemParams} {actions : CommonEventActions} {sa : SystemAbilityIds} {store : RecordStore}
  {abilities : EffAbilityIds} `{ContinuousPlatform} `{Json J} `{EventHandler Q} {keys : WantKeys}.
Variable CheckSignature : string -> bool.
Abbreviation SV := (SV (J := J) (Q := Q)).
Abbreviation continuous := (continuous CheckSignature).
Local Open Scope service_scope.
Notation "x <- m ;; k" := (sv_bind m (fun x => k)) : service_scope.
Notation "m ;;; k" := (sv_bind m (fun _ => k)) : service_scope.

Definition run_observer_task (t : ObserverTask) : SV unit :=
  match t with
  | TASK_ON_APP_STATE_CHANGED uid foreground game => continuous (OnAppStateChanged uid foreground game)
  | TASK_ON_ABILITY_STATE_CHANGED uid name id => continuous (OnAbilityStateChanged uid name id)
  | TASK_ON_APP_CACHE_STATE_CHANGED uid pid name =>
      transient_do CheckSignature (fun cfg ctx t => TransientTaskMgr.OnAppCacheStateChanged (ctx_now ctx) uid pid name t)
  | TASK_ON_APP_DIED uid => continuous (OnAppStopped uid)
  | TASK_ON_OS_ACCOUNT_CHANGED userId => continuous (OnAccountsStateChanged userId)
  | TASK_ON_BUNDLE_RESOURCES_CHANGED => continuous OnBundleResourcesChanged
  | TASK_ON_BUNDLEINFO_CHANGED action name uid userId appIndex =>
      continuous (OnBundleInfoChanged action name uid userId appIndex)
  | TASK_ON_PERMISSION_DIALOG_BUTTON_CLICK r uid name appIndex =>
      continuous (OnPermissionDialogButtonClickInner r uid name appIndex)
  | TASK_ON_BANNER_NOTIFICATION_ACTION_BUTTON_CLICK button uid label =>
      continuous (OnBannerNotificationActionButtonClick button uid label)
  end.

(** ** AppStateObserver (app_state_observer.cpp) *)
Section AppState.
Variable handler : bool.

Definition post_if_handler (t : ObserverTask) : SV (list ObserverTask) := sv_ret (if handler then [t] else []).

Definition obs_OnAppStateChanged (d : AppStateData) : SV (list ObserverTask) :=
  return_if negb (bool_decide (as_state d = AS_BACKGROUND)) && negb (bool_decide (as_state d = AS_FOREGROUND)),
    sv_ret [] ;;
  post_if_handler (TASK_ON_APP_STATE_CHANGED (as_uid d) (bool_decide (as_state d = AS_FOREGROUND)) (as_gamePrelaunch d)).

Definition obs_OnAbilityStateChanged (d : AbilityStateData) : SV (list ObserverTask) :=
  return_if negb (bool_decide (ab_abilityState d = ABILITY_STATE_TERMINATED)), sv_ret [] ;;
  post_if_handler (TASK_ON_ABILITY_STATE_CHANGED (ab_uid d) (ab_abilityName d) (ab_abilityRecordId d)).

Definition obs_OnAppCacheStateChanged (d : AppStateData) : SV (list ObserverTask) :=
  return_if negb (bool_decide (as_state d = AS_CACHED)), sv_ret [] ;;
  post_if_handler (TASK_ON_APP_CACHE_STATE_CHANGED (as_uid d) (as_pid d) (as_bundleName d)).

Definition obs_OnProcessCreated (d : ProcessData) : SV (list ObserverTask) :=
  return_if negb (GAME_PRE_LAUNCH_ENABLE && pd_gamePrelaunch d), sv_ret [] ;;
  continuous (AddGamePreLaunchApp (pd_uid d)) ;;; sv_ret [].

Definition OnProcessDiedEfficiencyRes (d : ProcessData) : SV unit :=
  efficiency (fun levels env m => RemoveProcessRecord env (pd_uid d) (pd_pid d) (pd_bundleName d) m) ;;; sv_ret tt.

Definition obs_OnProcessDied (d : ProcessData) : SV (list ObserverTask) :=
  OnProcessDiedEfficiencyRes d ;;;
  return_if negb GAME_PRE_LAUNCH_ENABLE, sv_ret [] ;;
  game <- continuous (IsGamePreLaunchApp (pd_uid d)) ;;
  return_if negb game, sv_ret [] ;;
  continuous (RemoveGamePreLaunchApp (pd_uid d)) ;;; sv_ret [].

Definition ValidateAppStateData (d : AppStateData) : bool :=
  (0 <? as_uid d) && negb (bool_decide (as_bundleName d = ""%string)).

Definition obs_OnAppStopped (d : AppStateData) : SV (list ObserverTask) :=
  return_if negb (ValidateAppStateData d), sv_ret [] ;;
  efficiency (fun levels env m => RemoveAppRecord env (as_uid d) (as_bundleName d) false m) ;;;
  post_if_handler (TASK_ON_APP_DIED (as_uid d)).

(** ** SystemEventObserver (system_event_observer.cpp) *)
Definition OnReceiveEventContinuousTask (d : CommonEventData) : SV (list ObserverTask) :=
  match ev_action d with
  | COMMON_EVENT_USER_SWITCHED | COMMON_EVENT_USER_ADDED | COMMON_EVENT_USER_REMOVED =>
      post_if_handler (TASK_ON_OS_ACCOUNT_CHANGED (ev_code d))
  | COMMON_EVENT_BUNDLE_RESOURCES_CHANGED => post_if_handler TASK_ON_BUNDLE_RESOURCES_CHANGED
  | action =>
      post_if_handler (TASK_ON_BUNDLEINFO_CHANGED (match action with ABundle a => a | _ => OTHER_EVENT end)
        (ev_bundleName d) (ev_GetIntParam d KEY_UID (-1)) (ev_GetIntParam d KEY_USER_ID (-1))
        (ev_GetIntParam d KEY_APP_INDEX (-1)))
  end.

Definition OnReceiveEventEfficiencyRes (d : CommonEventData) : SV unit :=
  return_if negb (bool_decide (ev_action d = ABundle COMMON_EVENT_PACKAGE_REMOVED)), sv_ret tt ;;
  efficiency (fun levels env m => RemoveAppRecord env (ev_GetIntParam d KEY_UID (-1)) (ev_bundleName d) true m) ;;;
  sv_ret tt.

Definition sys_OnReceiveEvent (d : CommonEventData) : SV (list ObserverTask) :=
  tasks <- OnReceiveEventContinuousTask d ;;
  OnReceiveEventEfficiencyRes d ;;;
  sv_ret tasks.

(** ** DialogEventObserver (dialog_event_observer.cpp) *)

(** A number in a parameter of the dialog; [-1] where there is none. *)
Definition number_param (d : CommonEventData) (key : string) : Z :=
  let str := ev_GetStringParam d key in
  if ev_HasParameter d key && CheckStrToNum str then atoi str else -1.

Definition OnPermissionDialogButtonClick (d : CommonEventData) : SV (list ObserverTask) :=
  let authResult := ev_code d in
  let bundleName := if ev_HasParameter d "bundleName" then ev_GetStringParam d "bundleName" else ""%string in
  let bundleUid := number_param d "bundleUid" in
  let appIndex := number_param d "appIndex" in
  return_if (appIndex =? -1) || (bundleUid =? -1) || bool_decide (bundleName = ""%string) || (authResult <? 0),
    sv_ret [] ;;
  sv_ret [TASK_ON_PERMISSION_DIALOG_BUTTON_CLICK authResult bundleUid bundleName appIndex].

Definition dialog_OnReceiveEvent (d : CommonEventData) : SV (list ObserverTask) :=
  return_if negb handler, sv_ret [] ;;
  return_if negb (bool_decide (ev_action d = ANamed BGTASK_AUTH_DIALOG_EVENT_NAME)), sv_ret [] ;;
  OnPermissionDialogButtonClick d.

(** ** BannerNotificationEventObserver (banner_notification_event_observer.cpp) *)
Definition banner_OnActionButtonClick (d : CommonEventData) : SV (list ObserverTask) :=
  let buttonType := ev_GetIntParam d BGTASK_BANNER_NOTIFICATION_ACTION_PARAM_BTN (-1) in
  let uid := ev_GetIntParam d BGTASK_BANNER_NOTIFICATION_ACTION_PARAM_UID (-1) in
  let label := ev_GetStringParam d BGTASK_BANNER_NOTIFICATION_ACTION_LABEL in
  return_if (buttonType =? -1) || (uid =? -1) || bool_decide (label = ""%string), sv_ret [] ;;
  sv_ret [TASK_ON_BANNER_NOTIFICATION_ACTION_BUTTON_CLICK buttonType uid label].

Definition banner_OnReceiveEvent (d : CommonEventData) : SV (list ObserverTask) :=
  return_if negb handler, sv_ret [] ;;
  return_if negb (bool_decide (ev_action d = ANamed BGTASK_BANNER_NOTIFICATION_ACTION_NAME)), sv_ret [] ;;
  banner_OnActionButtonClick d.
End AppState.
End Observers.
