(* ===== verification/PluginAdapters.v ===== *)
(** * Plugins of the resource scheduler

    The second source of the same events: the resource scheduler loads the service as a
    plugin and dispatches typed resource data to it.  [BgtaskPluginMgr] finds the adapter
    registered for the type (bgtask_plugin_mgr.cpp), [BgtaskPlugin] the callback for the
    value (bgtask_plugin.cpp), and the callback unpacks the payload and calls an observer or
    a manager (app_state_observer_plugin_adapter.cpp, event_msg_handler_plugin_adapter.cpp,
    audio_stream_plugin_adapter.cpp).  Subscriptions at the scheduler's own plugin manager
    are recorded as effects. *)

From S2P Require Import Prelude.
From S2P Require Import Interfaces.
From S2P Require Import DeviceInfo.
From S2P Require Import DecisionMaker.
From S2P Require Import TransientTaskMgr.
From S2P Require Import EfficiencyResources.
From S2P Require Import Json.
From S2P Require Import BgtaskConfig.
From S2P Require Import BackgroundModes.
From S2P Require Import ContinuousTypes.
From S2P Require Import ContinuousTaskMgr.
From S2P Require Import ContinuousTaskStop.
From S2P Require Import BackgroundTaskMgrService.
From S2P Require Import Observers.
From S2P Require Import BackgroundTaskMgrRun.
Local Open Scope Z_scope.

(** The types and values of resource data, the ids of services and the state of renderers:
    constants of other repositories. *)
Class ResourceTypes := {
  RES_TYPE_PROCESS_STATE_CHANGE : Z;
  RES_TYPE_ON_APP_STATE_CHANGED : Z;
  RES_TYPE_APP_STOPPED : Z;
  RES_TYPE_ABILITY_STATE_CHANGE : Z;
  RES_TYPE_OBSERVER_MANAGER_STATUS_CHANGE : Z;
  RES_TYPE_RSS_CLOUD_CONFIG_UPDATE : Z;
  RES_TYPE_AUDIO_RENDER_STATE_CHANGE : Z;
  RES_VALUE_FOR_ALL : Z;
  PROCESS_DIED : Z;
  PROCESS_FOREGROUND : Z;
  PROCESS_BACKGROUND : Z;
  PROCESS_CREATED : Z;
  STATE_CREATE : Z;                              (* AbilityState::ABILITY_STATE_CREATE *)
  STATE_TERMINATED : Z;                          (* AbilityState::ABILITY_STATE_TERMINATED *)
  ADD_SYSTEM_ABILITY : Z;
  AUDIO_POLICY_SERVICE_ID : Z;
  BACKGROUND_TASK_MANAGER_SERVICE_ID : Z;
  RENDERER_RUNNING : Z;
  application_state : Z -> ApplicationState;
  ability_state : Z -> AbilityState;
  process_state : Z -> AppProcessState;
  game_prelaunch : Z -> bool;
}.
Definition RES_TYPE_EXT_ON_APP_CACHED_STATE_CHANGED : Z := 10008.

(** [ResCommonUtil] of the resource scheduler: a parameter of a payload, where it is there
    and of the type. *)
Class PayloadParser (J : Type) := {
  ParseStringParameterFromJson : string -> J -> option string;
  ParseIntParameterFromJson : string -> J -> option Z;
  ParseStringJsonPayloadToNumber : string -> J -> option Z;
}.

(** The adapters, and their callbacks. *)
Inductive BgtaskPlugin := AppStateObserverPluginAdapter | EventMsgHandlerPluginAdapter | AudioStreamPluginAdapter.
Inductive PluginCallback :=
| CB_OnProcessDied | CB_OnProcessStateChanged | CB_OnProcessCreated | CB_OnAppStateChanged | CB_OnAppStopped
| CB_OnAppCacheStateChanged | CB_OnAbilityStateChanged | CB_AfterAddSaListener | CB_HandleCloudConfigUpdateEvent
| CB_RendererStateChange.
#[export] Instance BgtaskPlugin_eq_dec : EqDecision BgtaskPlugin.
Proof. solve_decision. Defined.

(** [SubscribeResource] is for all values of a type, [SubscribeResourceAccurately] for one. *)
Inductive PluginEffect :=
| ESubscribe (resType : Z) (value : option Z)
| EUnSubscribe (resType : Z) (value : option Z).

(** [pm_appStateObserver_]: null, or the observer and whether it has a handler. *)
Record BgtaskPluginMgr := mkPluginMgr {
  pm_pluginEnable : bool;
  pm_asyncCbMap_ : gmap Z BgtaskPlugin;
  pm_appStateObserver_ : option bool;
  pm_decisionMaker_ : bool;
  pm_effects : list PluginEffect;
}.
Definition new_BgtaskPluginMgr : BgtaskPluginMgr := mkPluginMgr false ∅ None false [].

(** What the initialisation of the plugins finds. *)
Record PluginEnv := mkPluginEnv {
  pe_decisionMaker : bool;                       (* GetDecisionMaker() *)
  pe_handler : bool;                             (* GetHandler() *)
}.

Section Plugins.
Context {sp : SystemParams} {actions : CommonEventActions} {sa : SystemAbilityIds} {store : RecordStore}
  {abilities : EffAbilityIds} `{ContinuousPlatform} `{Json J} `{EventHandler Q} {keys : WantKeys}
  {types : ResourceTypes} `{PayloadParser J}.
Variable CheckSignature : string -> bool.
Implicit Types pm : BgtaskPluginMgr.
Implicit Types payload : J.
Abbreviation SV := (SV (J := J) (Q := Q)).
Local Open Scope service_scope.
Notation "x <- m ;; k" := (sv_bind m (fun x => k)) : service_scope.
Notation "m ;;; k" := (sv_bind m (fun _ => k)) : service_scope.

(** ** The tables of callbacks ([InitCbMap], [InitAbilityCbMap]) *)
Definition CallBackMap : Type := gmap Z (gmap Z PluginCallback).

Definition AppStateObserver_InitCbMap : CallBackMap :=
  <[RES_TYPE_EXT_ON_APP_CACHED_STATE_CHANGED := list_to_map [(RES_VALUE_FOR_ALL, CB_OnAppCacheStateChanged)]]> $
  <[RES_TYPE_APP_STOPPED := list_to_map [(RES_VALUE_FOR_ALL, CB_OnAppStopped)]]> $
  <[RES_TYPE_ON_APP_STATE_CHANGED := list_to_map [(RES_VALUE_FOR_ALL, CB_OnAppStateChanged)]]> $
  <[RES_TYPE_PROCESS_STATE_CHANGE := list_to_map [
     (PROCESS_DIED, CB_OnProcessDied); (PROCESS_FOREGROUND, CB_OnProcessStateChanged);
     (PROCESS_BACKGROUND, CB_OnProcessStateChanged); (PROCESS_CREATED, CB_OnProcessCreated)]]> ∅.
Definition EventMsgHandler_InitCbMap : CallBackMap :=
  <[RES_TYPE_RSS_CLOUD_CONFIG_UPDATE := list_to_map [(-1, CB_HandleCloudConfigUpdateEvent)]]> $
  <[RES_TYPE_OBSERVER_MANAGER_STATUS_CHANGE := list_to_map [(ADD_SYSTEM_ABILITY, CB_AfterAddSaListener)]]> ∅.
Definition AudioStream_InitCbMap : CallBackMap :=
  <[RES_TYPE_AUDIO_RENDER_STATE_CHANGE := list_to_map [(-1, CB_RendererStateChange)]]> ∅.
Definition InitAbilityCbMap (cbMap : CallBackMap) : CallBackMap :=
  <[RES_TYPE_ABILITY_STATE_CHANGE := list_to_map [
     (STATE_CREATE, CB_OnAbilityStateChanged); (STATE_TERMINATED, CB_OnAbilityStateChanged)]]> cbMap.

Definition cbMap_ (plugin : BgtaskPlugin) : CallBackMap :=
  match plugin with
  | AppStateObserverPluginAdapter => InitAbilityCbMap AppStateObserver_InitCbMap
  | EventMsgHandlerPluginAdapter => EventMsgHandler_InitCbMap
  | AudioStreamPluginAdapter => AudioStream_InitCbMap
  end.

(** ** BgtaskPlugin (bgtask_plugin.cpp) *)
Definition plugin_callback (plugin : BgtaskPlugin) (resType stateType : Z) : option PluginCallback :=
  match cbMap_ plugin !! resType with
  | None => None
  | Some stateTypeCbMap =>
      match stateTypeCbMap !! RES_VALUE_FOR_ALL with
      | Some cb => if bool_decide (size stateTypeCbMap = 1%nat) then Some cb else stateTypeCbMap !! stateType
      | None => stateTypeCbMap !! stateType
      end
  end.
Definition GetPluginValue (plugin : BgtaskPlugin) (resType : Z) : list Z :=
  match cbMap_ plugin !! resType with
  | None => []
  | Some stateTypeCbMap => (map_to_list stateTypeCbMap).*1
  end.

(** ** Payloads *)
Definition UnmarshallingProcessData payload : option ProcessData :=
  bundleName ← ParseStringParameterFromJson "bundleName" payload;
  pid ← ParseStringJsonPayloadToNumber "pid" payload;
  uid ← ParseStringJsonPayloadToNumber "uid" payload;
  processType ← ParseStringJsonPayloadToNumber "processType" payload;
  state ← ParseStringJsonPayloadToNumber "state" payload;
  extensionType ← ParseStringJsonPayloadToNumber "extensionType" payload;
  preloadMode ← ParseStringJsonPayloadToNumber "preloadMode" payload;
  Some (mkProcess bundleName uid pid (process_state state) (game_prelaunch preloadMode)).

Definition UnmarshallingAppStateData payload : option AppStateData :=
  bundleName ← ParseStringParameterFromJson "bundleName" payload;
  pid ← ParseIntParameterFromJson "pid" payload;
  uid ← ParseIntParameterFromJson "uid" payload;
  state ← ParseIntParameterFromJson "state" payload;
  extensionType ← ParseIntParameterFromJson "extensionType" payload;
  preloadMode ← ParseIntParameterFromJson "preloadMode" payload;
  Some (mkAppState bundleName uid pid (application_state state) (game_prelaunch preloadMode)).

Definition UnmarshallingAbilityStateData payload : option AbilityStateData :=
  pid ← ParseIntParameterFromJson "pid" payload;
  uid ← ParseIntParameterFromJson "uid" payload;
  recordId ← ParseIntParameterFromJson "recordId" payload;
  abilityType ← ParseIntParameterFromJson "abilityType" payload;
  abilityName ← ParseStringParameterFromJson "abilityName" payload;
  let extension := match ParseIntParameterFromJson "extensionState" payload with
                   | Some state => Some state
                   | None => ParseIntParameterFromJson "uiExtensionState" payload
                   end in
  abilityState ← match extension with
                 | Some state => _ ← ParseIntParameterFromJson "extensionAbilityType" payload; Some state
                 | None =>
                     state ← ParseIntParameterFromJson "abilityState" payload;
                     _ ← ParseIntParameterFromJson "extType" payload; Some state
                 end;
  Some (mkAbilityState abilityName uid recordId (ability_state abilityState)).

(** ** AppStateObserverPluginAdapter *)
Definition with_observer pm (f : bool -> SV (list ObserverTask)) : SV (list ObserverTask) :=
  match pm_appStateObserver_ pm with Some handler => f handler | None => sv_ret [] end.
Definition with_payload {A} (a : option A) (f : A -> SV (list ObserverTask)) : SV (list ObserverTask) :=
  match a with Some a => f a | None => sv_ret [] end.
Definition decision_maker (f : TransientConfig -> Z -> TransientTaskMgr Q -> TransientTaskMgr Q) : SV unit :=
  transient_do CheckSignature (fun cfg ctx t => f cfg (ctx_now ctx) t).

Definition ad_OnProcessCreated pm payload : SV (list ObserverTask) :=
  with_payload (UnmarshallingProcessData payload) (fun d =>
    with_observer pm (fun _ => obs_OnProcessCreated CheckSignature d)).
Definition ad_OnProcessDied pm payload : SV (list ObserverTask) :=
  with_payload (UnmarshallingProcessData payload) (fun d =>
    (if pm_decisionMaker_ pm
     then decision_maker (fun cfg now t => tm_OnProcessDied now (pd_bundleName d) (pd_uid d) (pd_pid d) t)
     else sv_ret tt) ;;;
    with_observer pm (fun _ => obs_OnProcessDied CheckSignature d)).
Definition ad_OnProcessStateChanged pm payload : SV (list ObserverTask) :=
  with_payload (UnmarshallingProcessData payload) (fun d =>
    return_if negb (pm_decisionMaker_ pm), sv_ret [] ;;
    decision_maker (fun cfg now t =>
      tm_OnProcessStateChanged now (pd_bundleName d) (pd_uid d) (pd_pid d) (pd_state d) t) ;;;
    sv_ret []).
Definition ad_OnAppStateChanged pm payload : SV (list ObserverTask) :=
  with_payload (UnmarshallingAppStateData payload) (fun d =>
    with_observer pm (fun handler => obs_OnAppStateChanged handler d)).
Definition ad_OnAppStopped pm payload : SV (list ObserverTask) :=
  with_payload (UnmarshallingAppStateData payload) (fun d =>
    with_observer pm (fun handler => obs_OnAppStopped handler d)).
Definition ad_OnAppCacheStateChanged pm payload : SV (list ObserverTask) :=
  with_payload (UnmarshallingAppStateData payload) (fun d =>
    with_observer pm (fun handler => obs_OnAppCacheStateChanged handler d)).
Definition ad_OnAbilityStateChanged pm payload : SV (list ObserverTask) :=
  with_payload (UnmarshallingAbilityStateData payload) (fun d =>
    with_observer pm (fun handler => obs_OnAbilityStateChanged handler d)).

(** ** EventMsgHandlerPluginAdapter

    [renderers] are the renderers of the audio service of the moment. *)
Definition ad_AfterAddSaListener (renderers : list (option (Z * Z * bool))) payload : SV (list ObserverTask) :=
  match ParseIntParameterFromJson "saId" payload with
  | None => sv_ret []
  | Some saId =>
      return_if negb (saId =? AUDIO_POLICY_SERVICE_ID), sv_ret [] ;;
      continuous CheckSignature (AfterAddSaListener renderers) ;;; sv_ret []
  end.

Definition HandleCloudConfigUpdateEvent (stateType : Z) payload : SV (list ObserverTask) :=
  return_if stateType =? SUSPEND_MANAGER_SYSTEM_ABILITY_ID,
    (fun e s =>
       r ← UpdateSusMgrCloudConfig payload (sv_config s);
       Some ([], sv_set_config r.2 s)) ;;
  return_if stateType =? BACKGROUND_TASK_MANAGER_SERVICE_ID,
    (config_do (fun c => (UpdateBgMgrCloudConfig payload c).2) ;;; sv_ret []) ;;
  sv_ret [].

(** ** AudioStreamPluginAdapter *)
Definition RendererStateChange payload : SV (list ObserverTask) :=
  return_if is_null payload, sv_ret [] ;;
  match ParseIntParameterFromJson "uid" payload, ParseIntParameterFromJson "rendererState" payload,
        ParseIntParameterFromJson "sessionId" payload with
  | Some uid, Some rendererState, Some sessionId =>
      return_if negb (rendererState =? RENDERER_RUNNING),
        (continuous CheckSignature (RemoveAudioPlayerInfo uid sessionId) ;;; sv_ret []) ;;
      added <- continuous CheckSignature (AddAudioPlayerInfo (Some (uid, sessionId))) ;;
      return_if negb added, sv_ret [] ;;
      continuous CheckSignature (NotifyAudioStart uid) ;;; sv_ret []
  | _, _, _ => sv_ret []
  end.

(** ** Dispatch *)
Definition run_callback pm (renderers : list (option (Z * Z * bool))) (cb : PluginCallback) (stateType : Z) payload :
    SV (list ObserverTask) :=
  match cb with
  | CB_OnProcessDied => ad_OnProcessDied pm payload
  | CB_OnProcessStateChanged => ad_OnProcessStateChanged pm payload
  | CB_OnProcessCreated => ad_OnProcessCreated pm payload
  | CB_OnAppStateChanged => ad_OnAppStateChanged pm payload
  | CB_OnAppStopped => ad_OnAppStopped pm payload
  | CB_OnAppCacheStateChanged => ad_OnAppCacheStateChanged pm payload
  | CB_OnAbilityStateChanged => ad_OnAbilityStateChanged pm payload
  | CB_AfterAddSaListener => ad_AfterAddSaListener renderers payload
  | CB_HandleCloudConfigUpdateEvent => HandleCloudConfigUpdateEvent stateType payload
  | CB_RendererStateChange => RendererStateChange payload
  end.

(** A value of resource data has 64 bits, the state of a callback 32. *)
Definition DispatchResource pm renderers (resType value : Z) payload : SV (list ObserverTask) :=
  return_if negb (pm_pluginEnable pm), sv_ret [] ;;
  match pm_asyncCbMap_ pm !! resType with
  | None => sv_ret []
  | Some plugin =>
      match plugin_callback plugin resType (int32 value) with
      | None => sv_ret []
      | Some cb => run_callback pm renderers cb (int32 value) payload
      end
  end.

(** ** Registration, start and end (bgtask_plugin_mgr.cpp) *)
Definition subscription (value : Z) : option Z := if value =? RES_VALUE_FOR_ALL then None else Some value.
Definition RegisterAsyncPluginByValue (resType : Z) (plugin : BgtaskPlugin) pm : BgtaskPluginMgr :=
  mkPluginMgr (pm_pluginEnable pm) (pm_asyncCbMap_ pm) (pm_appStateObserver_ pm) (pm_decisionMaker_ pm)
    (pm_effects pm ++ (ESubscribe resType ∘ subscription <$> GetPluginValue plugin resType)).

(** A type that is registered keeps its plugin. *)
Definition RegisterAsyncPlugin (resType : Z) (plugin : BgtaskPlugin) pm : BgtaskPluginMgr :=
  match pm_asyncCbMap_ pm !! resType with
  | Some _ => pm
  | None =>
      let pm := if pm_pluginEnable pm then RegisterAsyncPluginByValue resType plugin pm else pm in
      mkPluginMgr (pm_pluginEnable pm) (<[resType := plugin]> (pm_asyncCbMap_ pm)) (pm_appStateObserver_ pm)
        (pm_decisionMaker_ pm) (pm_effects pm)
  end.
Definition SelfRegister (plugin : BgtaskPlugin) pm : BgtaskPluginMgr :=
  fold_left (fun pm resType => RegisterAsyncPlugin resType plugin pm) (map_to_list (cbMap_ plugin)).*1 pm.

Definition plugin_Init (env : PluginEnv) (plugin : BgtaskPlugin) pm : BgtaskPluginMgr :=
  match plugin with
  | AppStateObserverPluginAdapter =>
      mkPluginMgr (pm_pluginEnable pm) (pm_asyncCbMap_ pm) (Some (pe_decisionMaker env && pe_handler env))
        (pe_decisionMaker env) (pm_effects pm)
  | _ => pm
  end.
Definition plugins_Init (env : PluginEnv) pm : BgtaskPluginMgr :=
  let pm := fold_left (fun pm '(resType, plugin) => RegisterAsyncPluginByValue resType plugin (plugin_Init env plugin pm))
              (map_to_list (pm_asyncCbMap_ pm)) pm in
  mkPluginMgr true (pm_asyncCbMap_ pm) (pm_appStateObserver_ pm) (pm_decisionMaker_ pm) (pm_effects pm).

Definition Uninit (plugin : BgtaskPlugin) : SV unit :=
  match plugin with
  | AudioStreamPluginAdapter => continuous CheckSignature ClearAudioPlayerInfo
  | _ => sv_ret tt
  end.
Definition Disable pm : SV BgtaskPluginMgr :=
  fold_right (fun '(resType, plugin) rest => Uninit plugin ;;; rest)
    (sv_ret (mkPluginMgr false (pm_asyncCbMap_ pm) (pm_appStateObserver_ pm) (pm_decisionMaker_ pm)
       (pm_effects pm ++ (map_to_list (pm_asyncCbMap_ pm) ≫= fun '(resType, plugin) =>
          EUnSubscribe resType ∘ subscription <$> GetPluginValue plugin resType))))
    (map_to_list (pm_asyncCbMap_ pm)).
End Plugins.

(** * Plugins: what is subscribed is what is handled

    The subscriptions [BgtaskPluginMgr] makes at the resource scheduler against the tables
    of callbacks of the adapters, and what its end gives up. *)

(** The values of single states are not the value that stands for all of them. *)
Class ResourceValues `{types : ResourceTypes} : Prop := {
  value_specific : Forall (fun v => v <> RES_VALUE_FOR_ALL)
    [PROCESS_DIED; PROCESS_FOREGROUND; PROCESS_BACKGROUND; PROCESS_CREATED; STATE_CREATE; STATE_TERMINATED];
}.

Section PluginProps.
Context {types : ResourceTypes}.
Implicit Types pm : BgtaskPluginMgr.

Definition subscribes (plugin : BgtaskPlugin) (resType : Z) : list PluginEffect :=
  ESubscribe resType ∘ subscription <$> GetPluginValue plugin resType.
Definition unsubscribes (plugin : BgtaskPlugin) (resType : Z) : list PluginEffect :=
  EUnSubscribe resType ∘ subscription <$> GetPluginValue plugin resType.

(** ** What registration and initialisation do *)
Lemma effects_by_value resType plugin pm :
  pm_effects (RegisterAsyncPluginByValue resType plugin pm) = pm_effects pm ++ subscribes plugin resType.
Proof. done. Qed.

Lemma plugin_Init_keeps env plugin pm :
  pm_effects (plugin_Init env plugin pm) = pm_effects pm /\
  pm_asyncCbMap_ (plugin_Init env plugin pm) = pm_asyncCbMap_ pm.
Proof. by destruct plugin. Qed.

Lemma effects_Init env pm :
  pm_effects (plugins_Init env pm) =
    pm_effects pm ++ (map_to_list (pm_asyncCbMap_ pm) ≫= fun '(resType, plugin) => subscribes plugin resType) /\
  pm_asyncCbMap_ (plugins_Init env pm) = pm_asyncCbMap_ pm /\ pm_pluginEnable (plugins_Init env pm) = true.
Proof.
  unfold plugins_Init. cbn [pm_effects pm_asyncCbMap_ pm_pluginEnable].
  generalize (map_to_list (pm_asyncCbMap_ pm)). intros l. revert pm.
  induction l as [|[resType plugin] l IH]; intros pm; cbn [fold_left mbind list_bind]; [by rewrite app_nil_r|].
  destruct (IH (RegisterAsyncPluginByValue resType plugin (plugin_Init env plugin pm))) as (E1 & E2 & _).
  destruct (plugin_Init_keeps env plugin pm) as [F1 F2].
  rewrite E1, E2, effects_by_value, F1, <- app_assoc. by split_and!.
Qed.

Lemma register_disabled resType plugin pm : pm_pluginEnable pm = false ->
  pm_pluginEnable (RegisterAsyncPlugin resType plugin pm) = false /\
  pm_effects (RegisterAsyncPlugin resType plugin pm) = pm_effects pm.
Proof. intros E. unfold RegisterAsyncPlugin. rewrite E. by destruct (_ !! _). Qed.
Lemma SelfRegister_disabled plugin pm : pm_pluginEnable pm = false ->
  pm_pluginEnable (SelfRegister plugin pm) = false /\ pm_effects (SelfRegister plugin pm) = pm_effects pm.
Proof.
  unfold SelfRegister. generalize ((map_to_list (cbMap_ plugin)).*1). intros l. revert pm.
  induction l as [|resType l IH]; intros pm E; cbn [fold_left]; [done|].
  destruct (register_disabled resType plugin pm E) as [E1 E2].
  destruct (IH _ E1) as [-> ->]. by split.
Qed.

(** ** Tables *)
Context `{!ResourceValues}.

(** A table with a callback for all values has no other. *)
Definition coherent (m : gmap Z PluginCallback) : Prop :=
  RES_VALUE_FOR_ALL ∈ dom m -> size m = 1%nat.

Lemma coherent_singleton v cb : coherent (list_to_map [(v, cb)]).
Proof. intros _. cbn. by rewrite map_size_insert, lookup_empty, map_size_empty. Qed.
Lemma coherent_specific (l : list (Z * PluginCallback)) :
  Forall (fun v => v <> RES_VALUE_FOR_ALL) l.*1 -> coherent (list_to_map l).
Proof.
  intros Hl Hd. apply elem_of_dom in Hd as [cb Hcb]. apply elem_of_list_to_map_2 in Hcb.
  exfalso. apply (proj1 (Forall_forall _ _) Hl RES_VALUE_FOR_ALL); [|done].
  apply list_elem_of_fmap. by exists (RES_VALUE_FOR_ALL, cb).
Qed.

Lemma cbMap_coherent plugin : map_Forall (fun _ m => coherent m) (cbMap_ plugin).
Proof.
  pose proof value_specific as Hs. rewrite !Forall_cons in Hs.
  destruct plugin; unfold cbMap_, InitAbilityCbMap, AppStateObserver_InitCbMap, EventMsgHandler_InitCbMap,
      AudioStream_InitCbMap;
    repeat (apply map_Forall_insert_2; [|]); try apply map_Forall_empty; try apply coherent_singleton;
    apply coherent_specific; cbn; rewrite !Forall_cons; tauto.
Qed.

(** A value is covered by a subscription for all values or for it. *)
Definition covered (resType value : Z) (l : list PluginEffect) : Prop :=
  ESubscribe resType None ∈ l \/ ESubscribe resType (Some value) ∈ l.

Lemma subscribed_iff plugin resType o resType' :
  ESubscribe resType o ∈ subscribes plugin resType' <->
  resType = resType' /\ exists v m, cbMap_ plugin !! resType = Some m /\ v ∈ dom m /\ o = subscription v.
Proof.
  unfold subscribes, GetPluginValue. rewrite list_elem_of_fmap. split.
  - intros (v & E & Hv). injection E as -> ->. split; [done|].
    destruct (cbMap_ plugin !! resType') as [m|]; [|by apply not_elem_of_nil in Hv].
    exists v, m. split_and!; [done| |done]. apply list_elem_of_fmap in Hv as ([v' cb] & -> & Hin%elem_of_map_to_list).
    by apply elem_of_dom_2 in Hin.
  - intros (-> & v & m & E & Hv & ->). exists v. split; [done|]. rewrite E. apply elem_of_dom in Hv as [cb Hcb].
    apply list_elem_of_fmap. exists (v, cb). by rewrite elem_of_map_to_list.
Qed.

Lemma handled_iff plugin resType value :
  is_Some (plugin_callback plugin resType value) <-> covered resType value (subscribes plugin resType).
Proof.
  unfold covered. rewrite !subscribed_iff. unfold plugin_callback, subscription.
  destruct (cbMap_ plugin !! resType) as [m|] eqn:Em.
  2: { split; [by intros []|]. intros [(_ & v & m & ? & _)|(_ & v & m & ? & _)]; done. }
  pose proof (cbMap_coherent plugin resType m Em) as Hc. cbn in Hc.
  destruct (m !! RES_VALUE_FOR_ALL) as [cb|] eqn:Ea.
  - apply elem_of_dom_2 in Ea as Hd. rewrite bool_decide_true by auto. split; [|done].
    intros _. left. split; [done|]. exists RES_VALUE_FOR_ALL, m. by rewrite Z.eqb_refl.
  - rewrite <- elem_of_dom. split.
    + intros Hd. right. split; [done|]. exists value, m. split_and!; [done..|].
      destruct (Z.eqb_spec value RES_VALUE_FOR_ALL) as [->|]; [|done].
      apply elem_of_dom in Hd as [? Hd]. congruence.
    + intros [(_ & v & m' & E & Hd & Ho)|(_ & v & m' & E & Hd & Ho)]; simplify_eq.
      * destruct (Z.eqb_spec v RES_VALUE_FOR_ALL) as [->|]; [|done]. apply elem_of_dom in Hd as [? Hd]. congruence.
      * by destruct (v =? RES_VALUE_FOR_ALL); simplify_eq.
Qed.

(** The callback a datum is dispatched to. *)
Definition dispatched pm (resType value : Z) : option PluginCallback :=
  plugin ← pm_asyncCbMap_ pm !! resType; plugin_callback plugin resType value.

(** The three adapters register themselves when the library is loaded; then the plugins are
    initialised, when the service is ready. *)
Definition loaded : BgtaskPluginMgr :=
  SelfRegister AudioStreamPluginAdapter (SelfRegister EventMsgHandlerPluginAdapter
    (SelfRegister AppStateObserverPluginAdapter new_BgtaskPluginMgr)).

Lemma loaded_silent : pm_effects loaded = [].
Proof.
  unfold loaded. destruct (SelfRegister_disabled AppStateObserverPluginAdapter new_BgtaskPluginMgr) as [E1 E2]; [done|].
  destruct (SelfRegister_disabled EventMsgHandlerPluginAdapter _ E1) as [E3 E4].
  destruct (SelfRegister_disabled AudioStreamPluginAdapter _ E3) as [_ ->]. by rewrite E4, E2.
Qed.

Lemma covered_Init env pm resType value : pm_effects pm = [] ->
  covered resType value (pm_effects (plugins_Init env pm)) <->
  is_Some (dispatched (plugins_Init env pm) resType value).
Proof.
  intros Hn. destruct (effects_Init env pm) as (E & Em & _). rewrite E, Hn. unfold dispatched. rewrite Em. cbn [app].
  assert (forall o, ESubscribe resType o ∈ (map_to_list (pm_asyncCbMap_ pm) ≫= fun '(t, p) => subscribes p t) <->
    exists p, pm_asyncCbMap_ pm !! resType = Some p /\ ESubscribe resType o ∈ subscribes p resType) as Hs.
  { intros o. rewrite list_elem_of_bind. split.
    - intros ([t p] & Hin & Hp%elem_of_map_to_list). pose proof Hin as [-> _]%subscribed_iff. by exists p.
    - intros (p & Hp & Hin). exists (resType, p). by rewrite elem_of_map_to_list. }
  unfold covered. rewrite !Hs. destruct (pm_asyncCbMap_ pm !! resType) as [p|]; cbn [mbind option_bind].
  - rewrite handled_iff. unfold covered. naive_solver.
  - split; [naive_solver|by intros []].
Qed.

(** C18. Once the plugins are initialised, the scheduler is asked for exactly the data the
    service has a callback for: a type and value is covered by a subscription (for all
    values, or for that one) if and only if a datum with them is dispatched to a callback. *)
Theorem subscriptions_match_callbacks env resType value :
  covered resType value (pm_effects (plugins_Init env loaded)) <->
  is_Some (dispatched (plugins_Init env loaded) resType value).
Proof. apply covered_Init, loaded_silent. Qed.
End PluginProps.

(** ** The end *)
Section Disable.
Context {sp : SystemParams} {actions : CommonEventActions} {sa : SystemAbilityIds} {store : RecordStore}
  {abilities : EffAbilityIds} `{ContinuousPlatform} `{Json J} `{EventHandler Q} {keys : WantKeys}
  {types : ResourceTypes} `{PayloadParser J}.
Variable CheckSignature : string -> bool.

(** Disabling gives up every subscription of the registered types; from then on what the
    scheduler still sends changes nothing. *)
Lemma disabled_plugins_do_nothing pm pm' (e : ServiceEnv J) (s s' : BackgroundTaskMgrService Q) :
  Disable CheckSignature pm e s = Some (pm', s') ->
  pm_effects pm' = pm_effects pm ++
    (map_to_list (pm_asyncCbMap_ pm) ≫= fun '(resType, plugin) => unsubscribes plugin resType) /\
  forall renderers resType value payload e1 s1,
    DispatchResource CheckSignature pm' renderers resType value payload e1 s1 = Some ([], s1).
Proof.
  unfold Disable.
  set (last := mkPluginMgr false _ _ _ _).
  enough (forall l s0, fold_right (fun '(_, plugin) rest => sv_bind (Uninit CheckSignature plugin) (fun _ => rest))
            (sv_ret last) (l : list (Z * BgtaskPlugin)) e s0 = Some (pm', s') -> pm' = last) as Hl
    by (intros ->%Hl; done).
  intros l. induction l as [|[t plugin] l IH]; intros s0; cbn [fold_right]; [by intros [= <- _]|].
  rewrite sv_bind_at. destruct plugin; cbn [Uninit]; try exact (IH s0). rewrite run_continuous. apply IH.
Qed.
End Disable.
