(* ===== verification/ObserverProps.v ===== *)
(** * The service among its sources of events

    The whole service as a transition system: requests, what observers and plugins are told,
    the closures observers have posted, and the queues of the managers, in any order.  What
    holds of the continuous tasks and of the efficiency records whatever happens, and what
    becomes of the tasks of an ability that terminates. *)

From S2P Require Import Prelude.
From S2P Require Import Errors.
From S2P Require Import KeyInfo.
From S2P Require Import Interfaces.
From S2P Require Import DeviceInfo.
From S2P Require Import DecisionMaker.
From S2P Require Import TransientTaskMgr.
From S2P Require Import ResourceTypes.
From S2P Require Import EfficiencyResources.
From S2P Require Import EfficiencyResourcesSpec.
From S2P Require Import Json.
From S2P Require Import ResourceStorage.
From S2P Require Import EfficiencyRestart.
From S2P Require Import EfficiencyResourcesProps.
From S2P Require Import BgtaskConfig.
From S2P Require Import BackgroundModes.
From S2P Require Import ContinuousTaskRecord.
From S2P Require Import ContinuousTypes.
From S2P Require Import ContinuousTaskMgr.
From S2P Require Import ContinuousTaskStart.
From S2P Require Import ContinuousTaskStop.
From S2P Require Import ContinuousAuth.
From S2P Require Import ContinuousQueries.
From S2P Require Import ContinuousRestart.
From S2P Require Import ContinuousSystem.
From S2P Require Import ContinuousTaskMgrSpec.
From S2P Require Import ContinuousInvariant.
From S2P Require Import ContinuousWellFormed.
From S2P Require Import ContinuousTaskMgrProps.
From S2P Require Import ContinuousStopProps.
From S2P Require Import ContinuousAbilityStop.
From S2P Require Import ContinuousAuthProps.
From S2P Require Import BackgroundTaskMgrService.
From S2P Require Import BackgroundTaskMgrSystem.
From S2P Require Import BackgroundTaskMgrRun.
From S2P Require Import BackgroundTaskMgrProps.
From S2P Require Import Observers.
From S2P Require Import PluginAdapters.
Local Open Scope Z_scope.

(** ** What happens around the service *)
Inductive PlatformEvent (J : Type) :=
| PeAppStateChanged (d : AppStateData)
| PeAbilityStateChanged (d : AbilityStateData)
| PeAppCacheStateChanged (d : AppStateData)
| PeProcessCreated (d : ProcessData)
| PeProcessDied (d : ProcessData)
| PeAppStopped (d : AppStateData)
| PeSystemEvent (d : CommonEventData)
| PeDialogEvent (d : CommonEventData)
| PeBannerEvent (d : CommonEventData)
| PePlugin (resType value : Z) (payload : J).
Arguments PeAppStateChanged {J}.
Arguments PeAbilityStateChanged {J}.
Arguments PeAppCacheStateChanged {J}.
Arguments PeProcessCreated {J}.
Arguments PeProcessDied {J}.
Arguments PeAppStopped {J}.
Arguments PeSystemEvent {J}.
Arguments PeDialogEvent {J}.
Arguments PeBannerEvent {J}.
Arguments PePlugin {J}.

(** The service, the plugin manager, and the closures posted by observers. *)
Record System (Q : Type) := mkSystem {
  sys_service : BackgroundTaskMgrService Q;
  sys_plugins : BgtaskPluginMgr;
  sys_posted : list ObserverTask;
}.
Arguments mkSystem {Q}.
Arguments sys_service {Q}.
Arguments sys_plugins {Q}.
Arguments sys_posted {Q}.

Create HintDb safe.

Section System.
Context {sp : SystemParams} {actions : CommonEventActions} {sa : SystemAbilityIds} {store : RecordStore}
  {abilities : EffAbilityIds} `{ContinuousPlatform} `{Json J} `{EventHandler Q} {keys : WantKeys}
  {types : PluginAdapters.ResourceTypes} `{PayloadParser J}.
Variable CheckSignature : string -> bool.
Abbreviation Service := (BackgroundTaskMgrService Q).
Implicit Types s : Service.
Implicit Types S : System Q.
Implicit Types e : ServiceEnv J.
Abbreviation serve := (BackgroundTaskMgrSystem.serve CheckSignature).
Abbreviation run_observer_task := (Observers.run_observer_task (J := J) (Q := Q) CheckSignature).

Definition handle (handler : bool) (renderers : list (option (Z * Z * bool))) (pm : BgtaskPluginMgr)
    (ev : PlatformEvent J) : SV (J := J) (Q := Q) (list ObserverTask) :=
  match ev with
  | PeAppStateChanged d => obs_OnAppStateChanged handler d
  | PeAbilityStateChanged d => obs_OnAbilityStateChanged handler d
  | PeAppCacheStateChanged d => obs_OnAppCacheStateChanged handler d
  | PeProcessCreated d => obs_OnProcessCreated CheckSignature d
  | PeProcessDied d => obs_OnProcessDied CheckSignature d
  | PeAppStopped d => obs_OnAppStopped handler d
  | PeSystemEvent d => sys_OnReceiveEvent handler d
  | PeDialogEvent d => dialog_OnReceiveEvent handler d
  | PeBannerEvent d => banner_OnReceiveEvent handler d
  | PePlugin resType value payload => DispatchResource CheckSignature pm renderers resType value payload
  end.

(** The numbers of an efficiency request are machine integers. *)
Definition resources_typed (r : ServiceRequest) : Prop :=
  match r with RqApplyEfficiencyResources i => in_uint32 (inf_resourceNumber_ i) | _ => True end.

Definition ids_left s : Prop := cm_continuousTaskIdIndex_ (sv_continuous s) < int32_max.

Inductive sys_step (e : ServiceEnv J) S : System Q -> Prop :=
| sys_request r x s' :
    well_typed CheckSignature r e (sys_service S) -> resources_typed r ->
    serve r e (sys_service S) = Some (x, s') -> sys_step e S (mkSystem s' (sys_plugins S) (sys_posted S))
| sys_event handler renderers ev tasks s' :
    ids_left (sys_service S) -> handle handler renderers (sys_plugins S) ev e (sys_service S) = Some (tasks, s') ->
    sys_step e S (mkSystem s' (sys_plugins S) (sys_posted S ++ tasks))
| sys_task i t u s' :
    ids_left (sys_service S) -> sys_posted S !! i = Some t -> run_observer_task t e (sys_service S) = Some (u, s') ->
    sys_step e S (mkSystem s' (sys_plugins S) (list_delete i (sys_posted S)))
| sys_continuous n u s' :
    ids_left (sys_service S) ->
    BackgroundTaskMgrService.continuous CheckSignature (exec (OpRun n)) e (sys_service S) = Some (u, s') ->
    sys_step e S (mkSystem s' (sys_plugins S) (sys_posted S))
| sys_efficiency i due t u s' :
    em_tasks (sv_efficiency (sys_service S)) !! i = Some (due, t) -> due <= ee_now (efficiency_env e) ->
    efficiency (fun levels env m => (tt, run_task env t (em_set_tasks (delete i (em_tasks m)) m))) e (sys_service S) =
      Some (u, s') ->
    sys_step e S (mkSystem s' (sys_plugins S) (sys_posted S))
| sys_backup copied backup u s' :
    BackgroundTaskMgrService.continuous CheckSignature (OnRestore copied backup) e (sys_service S) = Some (u, s') ->
    sys_step e S (mkSystem s' (sys_plugins S) (sys_posted S))
| sys_register plugin : sys_step e S (mkSystem (sys_service S) (SelfRegister plugin (sys_plugins S)) (sys_posted S))
| sys_plugins_init env : sys_step e S (mkSystem (sys_service S) (plugins_Init env (sys_plugins S)) (sys_posted S))
| sys_plugins_disable pm s' :
    ids_left (sys_service S) -> Disable CheckSignature (sys_plugins S) e (sys_service S) = Some (pm, s') ->
    sys_step e S (mkSystem s' pm (sys_posted S)).

(** The service dies, and a new one reads the file of the efficiency records, as [S] wrote
    it, and the file of the tasks, as [T] did; it is told which processes run, and four
    minutes have passed since boot.  Its plugins are not loaded and nothing is posted;
    whatever else it has is left open. *)
Definition sys_restart (e : ServiceEnv J) (S T S' : System Q) : Prop :=
  let s := sys_service S in
  let s' := sys_service S' in
  ce_GetAllRunningProcesses (cont_env CheckSignature (sv_config s') e) <> None /\
  restartable (efficiency_env e) (sv_efficiency s) /\
  sv_efficiency s' = restarted (efficiency_env e) (sv_efficiency s) /\
  (exists ownUid services listeners (authFile : option J), sv_continuous s' =
     (Init ownUid services listeners (Some (ds_RefreshTaskRecord (tasks (sv_continuous (sys_service T))))) authFile
       (cont_env CheckSignature (sv_config s') e) new_ContinuousMgr).2) /\
  sys_plugins S' = new_BgtaskPluginMgr /\ sys_posted S' = [].

(** Any number of steps, each with what the other processes answer during it, of a service
    started at the first number, and at the second for the last time. *)
Inductive sys_steps (start : Z) S : Z -> System Q -> Prop :=
| sys_steps_none : sys_steps start S start S
| sys_steps_one e last S1 S2 : sys_steps start S last S1 -> sys_step e S1 S2 -> sys_steps start S last S2
| sys_steps_restart e last last' S1 T S2 :
    sys_steps start S last S1 -> sys_steps start S last' T -> sys_restart e S1 T S2 ->
    sys_steps start S (ee_now (efficiency_env e)) S2.

(** ** The invariant *)
Section Invariant.
Context {start : Z}.
Definition sound s : Prop := reachable (J := J) (sv_continuous s) /\ em_inv start (sv_efficiency s).

(** An operation that keeps it, when ids are left, and uses none. *)
Definition Safe {A} (m : SV (J := J) (Q := Q) A) : Prop :=
  forall e s a s', m e s = Some (a, s') -> ids_left s -> sound s -> sound s'.
(** One that leaves the ids as they are, too. *)
Definition SafeStill {A} (m : SV (J := J) (Q := Q) A) : Prop :=
  forall e s a s', m e s = Some (a, s') -> ids_left s -> sound s -> sound s' /\ ids_left s'.

Lemma safe_still {A} (m : SV A) : SafeStill m -> Safe m.
Proof. intros Hm e s a s' E Hl Hs. by eapply Hm. Qed.
Lemma still_ret {A} (a : A) : SafeStill (sv_ret a).
Proof. by intros e s x s' [= <- <-]. Qed.
Lemma safe_bind {A B} (m : SV A) (k : A -> SV B) : SafeStill m -> (forall a, Safe (k a)) -> Safe (sv_bind m k).
Proof.
  intros Hm Hk e s b s'. unfold sv_bind. destruct (m e s) as [[a s1]|] eqn:E; [|done]. intros E2 Hl Hs.
  destruct (Hm _ _ _ _ E Hl Hs). by eapply Hk.
Qed.
Lemma safe_last {A B} (m : SV A) (f : A -> B) : Safe m -> Safe (sv_bind m (fun a => sv_ret (f a))).
Proof.
  intros Hm e s b s'. unfold sv_bind. destruct (m e s) as [[a s1]|] eqn:E; [|done]. intros [= <- <-]. by eapply Hm.
Qed.
Lemma safe_still_bind {A B} (m : SV A) (k : A -> SV B) : SafeStill m -> (forall a, SafeStill (k a)) -> SafeStill (sv_bind m k).
Proof.
  intros Hm Hk e s b s'. unfold sv_bind. destruct (m e s) as [[a s1]|] eqn:E; [|done]. intros E2 Hl Hs.
  destruct (Hm _ _ _ _ E Hl Hs). by eapply Hk.
Qed.

(** ** The operations of the managers *)
Definition starts_nothing (op : ContOp) : Prop :=
  match op with OpStart _ | OpInner _ => False | _ => True end.

Lemma safe_op {A} op (m : CM A) :
  starts_nothing op -> (forall o c, (m o c).2 = (exec op o c).2) ->
  Safe (BackgroundTaskMgrService.continuous CheckSignature m).
Proof.
  intros Hop Hm e s a s'. rewrite run_continuous. intros [= <- <-] Hl [Hr He]. split; [|done]. cbn.
  rewrite Hm. apply reach_step; [done|]. split; [done|]. by destruct op.
Qed.
Lemma still_op {A} op (m : CM A) :
  starts_nothing op -> (forall o c, (m o c).2 = (exec op o c).2) ->
  (forall o c, cm_continuousTaskIdIndex_ (m o c).2 = cm_continuousTaskIdIndex_ c) ->
  SafeStill (BackgroundTaskMgrService.continuous CheckSignature m).
Proof.
  intros Hop Hm Hi e s a s' E Hl Hs. split; [by eapply (safe_op op m Hop Hm e s a)|].
  revert E. rewrite run_continuous. intros [= <- <-]. unfold ids_left. cbn. by rewrite Hi.
Qed.
Lemma still_read {A} (m : CM A) :
  (forall o c, (m o c).2 = c) -> SafeStill (BackgroundTaskMgrService.continuous CheckSignature m).
Proof.
  intros Hm e s a s'. rewrite run_continuous. intros [= <- <-] Hl Hs. unfold sound, ids_left. cbn. by rewrite Hm.
Qed.
Lemma still_efficiency {A} (f : CpuLevelConfig -> EffEnv -> EffMgr -> A * EffMgr) :
  (forall levels env m, em_step (ccm := levels) env m (f levels env m).2) -> SafeStill (efficiency f).
Proof.
  intros Hf e s a s'. rewrite run_efficiency. intros [= <- <-] Hl [Hr He]. split; [|done]. split; [done|].
  cbn. eapply em_step_inv; [exact He|apply Hf].
Qed.
Lemma still_transient {A} (f : TransientConfig -> CallCtx -> TransientTaskMgr Q -> A * TransientTaskMgr Q) :
  SafeStill (transient CheckSignature f).
Proof. intros e s a s'. rewrite run_transient. by intros [= <- <-]. Qed.
Lemma still_config f : SafeStill (config_do f).
Proof. intros e s a s'. rewrite run_config_do. by intros [= <- <-]. Qed.

(** ** Observers and plugins *)
Lemma safe_AddGamePreLaunchApp uid : Safe (BackgroundTaskMgrService.continuous CheckSignature (AddGamePreLaunchApp uid)).
Proof. by apply (safe_op (OpGamePreLaunch uid true)). Qed.
Lemma safe_RemoveGamePreLaunchApp uid :
  Safe (BackgroundTaskMgrService.continuous CheckSignature (RemoveGamePreLaunchApp uid)).
Proof. by apply (safe_op (OpGamePreLaunch uid false)). Qed.
Lemma still_AddAudioPlayerInfo info :
  SafeStill (BackgroundTaskMgrService.continuous CheckSignature (AddAudioPlayerInfo info)).
Proof.
  apply (still_op (OpAudioPlayer info)); [done|..]; intros o c; cbn [exec]; [by rewrite exec_drop|].
  unfold AddAudioPlayerInfo. destruct info as [i|]; [|done]. rewrite bind_get. by case_test.
Qed.
Lemma still_ClearAudioPlayerInfo : SafeStill (BackgroundTaskMgrService.continuous CheckSignature ClearAudioPlayerInfo).
Proof. by apply (still_op (OpAudioPlayers [])). Qed.
Lemma safe_NotifyAudioStart uid : Safe (BackgroundTaskMgrService.continuous CheckSignature (NotifyAudioStart uid)).
Proof. apply (safe_op (OpAudioStart uid)); [done|]. intros o c. cbn [exec]. by rewrite exec_drop. Qed.
Lemma safe_RemoveAudioPlayerInfo uid session :
  Safe (BackgroundTaskMgrService.continuous CheckSignature (RemoveAudioPlayerInfo uid session)).
Proof. by apply (safe_op (OpAudioPlayerGone uid session)). Qed.
Lemma safe_AfterAddSaListener infos :
  Safe (BackgroundTaskMgrService.continuous CheckSignature (AfterAddSaListener infos)).
Proof. by apply (safe_op (OpAudioPlayers infos)). Qed.

Lemma still_RemoveAppRecord uid name all :
  SafeStill (efficiency (fun levels env m => RemoveAppRecord env uid name all m)).
Proof. apply still_efficiency. intros. apply estep_RemoveApp. Qed.
Lemma still_OnProcessDied d : SafeStill (OnProcessDiedEfficiencyRes d).
Proof.
  apply safe_still_bind; [|intros; apply still_ret]. apply still_efficiency. intros. apply estep_RemoveProcess.
Qed.
Lemma still_post handler t : SafeStill (post_if_handler handler t).
Proof. apply still_ret. Qed.
Lemma safe_ret {A} (a : A) : Safe (sv_ret a).
Proof. apply safe_still, still_ret. Qed.

Lemma safe_run_observer_task t : Safe (run_observer_task t).
Proof.
  destruct t as [uid fg g|uid name i|uid pid name|uid|user| |action name uid user app|r uid name app|button uid label];
    cbn [Observers.run_observer_task].
  - by apply (safe_op (OpAppState uid fg g)).
  - by apply (safe_op (OpAbilityState uid name i)).
  - apply safe_still, still_transient.
  - by apply (safe_op (OpAppStopped uid)).
  - by apply (safe_op (OpAccounts user)).
  - by apply (safe_op OpResources).
  - by apply (safe_op (OpBundleInfo action name uid user app)).
  - by apply (safe_op (OpDialogClick r uid name app)).
  - by apply (safe_op (OpBannerClick button uid label)).
Qed.

#[local] Hint Resolve safe_AddGamePreLaunchApp safe_RemoveGamePreLaunchApp still_AddAudioPlayerInfo
  safe_NotifyAudioStart safe_RemoveAudioPlayerInfo safe_AfterAddSaListener still_RemoveAppRecord still_OnProcessDied
  still_post safe_ret still_ret still_transient still_config : safe.
Ltac safe := repeat first
  [ solve [eauto 1 with safe]
  | apply safe_still; solve [eauto 1 with safe]
  | apply safe_last
  | apply safe_bind; [|intros]
  | apply safe_still_bind; [|intros]
  | match goal with
    | |- Safe (if ?b then _ else _) => destruct b
    | |- Safe (match ?x with _ => _ end) => destruct x
    | |- SafeStill (if ?b then _ else _) => destruct b
    | |- SafeStill (match ?x with _ => _ end) => destruct x
    | |- Safe ?m => let f := head_of m in unfold f; cbv zeta
    | |- SafeStill ?m => let f := head_of m in unfold f; cbv zeta
    end ].

Lemma safe_obs_OnProcessDied d : Safe (obs_OnProcessDied CheckSignature d).
Proof.
  apply safe_bind; [apply still_OnProcessDied|intros _]. case_test; [apply safe_ret|].
  apply safe_bind; [by apply still_read|]. intros game. case_test; [apply safe_ret|].
  apply safe_last, safe_RemoveGamePreLaunchApp.
Qed.
#[local] Hint Resolve safe_obs_OnProcessDied : safe.

(** Cloud configuration changes the configuration alone. *)
Lemma safe_HandleCloudConfigUpdateEvent stateType payload : Safe (HandleCloudConfigUpdateEvent stateType payload).
Proof.
  unfold HandleCloudConfigUpdateEvent. case_test; [|safe].
  intros e s a s' E _ Hs. destruct (UpdateSusMgrCloudConfig payload (sv_config s)); by simplify_eq/=.
Qed.
#[local] Hint Resolve safe_HandleCloudConfigUpdateEvent : safe.

Lemma safe_run_callback pm renderers cb stateType payload :
  Safe (run_callback CheckSignature pm renderers cb stateType payload).
Proof. destruct cb; cbn [run_callback]; safe. Qed.
Lemma safe_handle handler renderers pm ev : Safe (handle handler renderers pm ev).
Proof. destruct ev; cbn [handle]; safe. Qed.

Lemma safe_Uninit_all plugins (pm : BgtaskPluginMgr) :
  SafeStill (fold_right (fun '(_, plugin) rest => sv_bind (Uninit CheckSignature plugin) (fun _ => rest)) (sv_ret pm)
               (plugins : list (Z * BgtaskPlugin))).
Proof.
  induction plugins as [|[t plugin] plugins IH]; cbn [fold_right]; [apply still_ret|].
  apply safe_still_bind; [|by intros]. destruct plugin; first [apply still_ret|apply still_ClearAudioPlayerInfo].
Qed.

(** *** Requests *)
Lemma served_efficiency r e s x s' :
  resources_typed r -> serve r e s = Some (x, s') ->
  sv_efficiency s' = sv_efficiency s \/
  em_step (ccm := config_levels (sv_config s)) (efficiency_env e) (sv_efficiency s) (sv_efficiency s').
Proof.
  intros Ht E. destruct (for_efficiency r) eqn:Hr; [|left; by eapply served_frame].
  destruct r; try discriminate; revert E; unfold BackgroundTaskMgrSystem.serve; autounfold with service; runs; try discriminate.
  all: intros E; apply (inj Some), (f_equal snd) in E; cbn [snd] in E; subst s'; fields; first [by left|right].
  all: try solve [constructor].
  constructor. intros i [= <-]. exact Ht.
Qed.

Lemma sound_serve r e s x s' :
  well_typed CheckSignature r e s -> resources_typed r -> serve r e s = Some (x, s') -> sound s -> sound s'.
Proof.
  intros Ht Hr E [Hc He]. split.
  - destruct (served_frame _ _ _ _ _ _ E) as (_ & _ & _ & _ & [->|(op & Ho & ->)]); [done|].
    apply reach_step; [done|]. by apply Ht.
  - destruct (served_efficiency _ _ _ _ _ Hr E) as [->|Hstep]; [done|]. by eapply em_step_inv.
Qed.

Lemma sound_step e S S' : sys_step e S S' -> sound (sys_service S) -> sound (sys_service S').
Proof.
  intros Hstep Hs. destruct Hstep as [r x s' Ht Hr E|h renderers ev ts s' Hl E|i t u s' Hl Hi E|n u s' Hl E
    |i due t u s' Hi Hd E|copied backup u s' E|plugin|env|pm s' Hl E]; cbn [sys_service]; try done.
  - by eapply sound_serve.
  - exact (safe_handle _ _ _ _ _ _ _ _ E Hl Hs).
  - exact (safe_run_observer_task _ _ _ _ _ E Hl Hs).
  - exact (safe_op (OpRun n) (exec (OpRun n)) I (fun _ _ => eq_refl) _ _ _ _ E Hl Hs).
  - revert E. rewrite run_efficiency. intros [= _ <-]. destruct Hs as [Hc He]. split; [done|]. cbn.
    eapply em_step_inv; [exact He|]. by apply (estep_Task (ccm := config_levels (sv_config (sys_service S))) _ _ i due t).
  - revert E. rewrite run_continuous. intros [= _ <-]. destruct Hs as [Hc He]. split; [|done]. by apply reach_backup.
  - exact (proj1 (safe_Uninit_all _ _ _ _ _ _ E Hl Hs)).
Qed.
End Invariant.
Arguments sound : clear implicits.

Lemma sound_restart start start' e S T S' :
  sys_restart e S T S' -> sound start (sys_service S) -> sound start' (sys_service T) ->
  sound (ee_now (efficiency_env e)) (sys_service S').
Proof.
  intros (Hp & Hr & Ee & (ownUid & services & listeners & authFile & Ec) & _) [_ He] [Hc _]. split.
  - rewrite Ec. by apply reach_restart.
  - rewrite Ee. by eapply restarted_inv.
Qed.

Lemma sound_steps start last S S' :
  sys_steps start S last S' -> sound start (sys_service S) -> sound last (sys_service S').
Proof.
  induction 1 as [|e last S1 S2 _ IH Hstep|e last last' S1 T S2 _ IH _ IHT Hstep]; [done|..]; intros Hs.
  - by eapply sound_step, IH.
  - exact (sound_restart _ _ _ _ _ _ Hstep (IH Hs) (IHT Hs)).
Qed.

(** A service that has read its files and holds no efficiency record yet. *)
Definition starts s : Prop :=
  reachable (J := J) (sv_continuous s) /\ em_tasks (sv_efficiency s) = [] /\
  forall p, em_map p (sv_efficiency s) = ∅.
Lemma starts_sound start s : starts s -> sound start s.
Proof.
  intros (Hr & Ht & Hm). split; [done|]. split; [|by rewrite Ht].
  intros p key r. by rewrite Hm, lookup_empty.
Qed.


(** ** Events that end tasks

    The test an event applies to the tasks when its closure runs in [o]. *)
Definition ended_by_event (ev : PlatformEvent J) (o : ContEnv) : option (ContinuousTaskRecord -> bool) :=
  match ev with
  | PeAbilityStateChanged d =>
      if bool_decide (ab_abilityState d = ABILITY_STATE_TERMINATED) && negb (bool_decide (ab_abilityName d = ""%string))
      then Some (of_context (ab_uid d) (ab_abilityName d) (ab_abilityRecordId d)) else None
  | PeAppStopped d => if ValidateAppStateData d then Some (fun r => ct_uid_ r =? as_uid d) else None
  | PeSystemEvent d =>
      match ev_action d with
      | COMMON_EVENT_USER_SWITCHED | COMMON_EVENT_USER_ADDED | COMMON_EVENT_USER_REMOVED =>
          (fun ids r => bool_decide (ct_userId_ r ∉ ids)) <$> inactive_accounts o
      | ABundle COMMON_EVENT_PACKAGE_DATA_CLEARED => Some (fun r => ct_uid_ r =? ev_GetIntParam d KEY_UID (-1))
      | _ => None
      end
  | _ => None
  end.

(** The end of an ability stops its tasks by their ids. *)
Definition ends_by_id (ev : PlatformEvent J) : Prop :=
  match ev with PeAbilityStateChanged _ => True | _ => False end.

Lemma event_ends_by_op renderers pm ev e s ts s' o c test :
  handle true renderers pm ev e s = Some (ts, s') -> cm_isSysReady_ c = true -> (ends_by_id ev -> ids_unique (tasks c)) ->
  (forall label i, ce_CancelNotification o label i = true) -> ended_by_event ev o = Some test ->
  exists t op, ts = [t] /\ run_observer_task t = BackgroundTaskMgrService.continuous CheckSignature (exec op) /\
    tasks (exec op o c).2 = without test (tasks c).
Proof.
  intros E Hr Hu Hc Ht.
  assert (forall op, ~ stops_by_id op -> ended_by op o c = Some test -> tasks (exec op o c).2 = without test (tasks c)) as Hop
    by (intros op Hi; by apply exec_without).
  destruct ev as [d|d|d|d|d|d|d|d|d|rt v p]; try discriminate; cbn [handle ended_by_event] in *.
  - unfold obs_OnAbilityStateChanged in E. destruct (bool_decide (ab_abilityState d = _)) eqn:Hs; [|done].
    destruct (bool_decide (ab_abilityName d = ""%string)) eqn:Hn; [done|]. injection E as <- <-. injection Ht as <-.
    eexists _, (OpAbilityState (ab_uid d) (ab_abilityName d) (ab_abilityRecordId d)).
    split_and!; [done|done|]. apply OnAbilityStateChanged_without; [done|by apply Hu|done|].
    by apply bool_decide_eq_false in Hn.
  - unfold obs_OnAppStopped in E. destruct (ValidateAppStateData d); [|done]. injection Ht as <-.
    cbn [negb] in E. revert E. unfold post_if_handler. checks. intros [= <- _].
    eexists _, (OpAppStopped (as_uid d)). split_and!; [done|done|]. apply Hop; [by intros []|]. cbn. by rewrite Hr.
  - revert E. unfold sys_OnReceiveEvent, OnReceiveEventContinuousTask, OnReceiveEventEfficiencyRes, post_if_handler.
    destruct (ev_action d) as [| | | |a|] eqn:Ha; try discriminate; cbv iota; checks; intros E.
    1-3: injection E as <- _; exists (TASK_ON_OS_ACCOUNT_CHANGED (ev_code d)), (OpAccounts (ev_code d));
      split_and!; [done|done|by apply Hop; [intros []|]].
    destruct a; try discriminate. injection E as <- _. injection Ht as <-.
    eexists _, (OpBundleInfo COMMON_EVENT_PACKAGE_DATA_CLEARED (ev_bundleName d) (ev_GetIntParam d KEY_UID (-1))
      (ev_GetIntParam d KEY_USER_ID (-1)) (ev_GetIntParam d KEY_APP_INDEX (-1))).
    split_and!; [done|done|]. apply Hop; [by intros []|]. cbn. by rewrite Hr.
Qed.

(** C14. An ability that terminates, an application that stops, the clearing of its data and a
    change of accounts post one closure; and whenever the handler runs it, in whatever state
    the service is ready in by then, exactly the tasks the event is about are ended — all of
    them where the notifications can be cancelled — and the records of the other tasks are
    untouched.  The end of an ability, which stops its tasks by their ids, needs that no two
    tasks share one. *)
Theorem events_end_the_tasks_they_are_about renderers pm ev e s ts s' e1 s1 test :
  handle true renderers pm ev e s = Some (ts, s') -> cm_isSysReady_ (sv_continuous s1) = true ->
  (ends_by_id ev -> ids_unique (tasks (sv_continuous s1))) ->
  (forall label i, ce_CancelNotification (se_cont e1) label i = true) ->
  ended_by_event ev (se_cont e1) = Some test ->
  exists t s2, ts = [t] /\ run_observer_task t e1 s1 = Some (tt, s2) /\
    tasks (sv_continuous s2) = without test (tasks (sv_continuous s1)).
Proof.
  intros E Hready Hu Hc Ht.
  destruct (event_ends_by_op renderers pm ev e s ts s' (cont_env CheckSignature (sv_config s1) e1) (sv_continuous s1) test)
    as (t & op & -> & Hrun & Hop); [done..|].
  exists t, (sv_set_continuous (exec op (cont_env CheckSignature (sv_config s1) e1) (sv_continuous s1)).2 s1).
  split; [done|]. split; [|exact Hop]. rewrite Hrun, run_continuous. by destruct (exec op _ _) as [[] ?].
Qed.
End System.
