(* ===== verification/BackgroundTaskManager.v ===== *)
(** * The client library

    [BackgroundTaskManager] of frameworks/src/background_task_manager.cpp, through which
    applications, the language bindings and other services call the service; the helper
    with static functions in front of it (innerkits background_task_mgr_helper.cpp); and
    the callback a client is told by that a request expires (expired_callback.cpp).

    The proxy of IBackgroundTaskMgr.idl is generated code of another process' state [W]: the
    class [IBackgroundTaskMgr] gives, for a request, the result of a call and what the proxy
    wrote to the out parameters, if anything.  An operation of the client takes the
    parameters its caller passes by reference as they are and gives them back as they are
    then. *)

From S2P Require Import Prelude.
From S2P Require Import Errors.
From S2P Require Import Interfaces.
From S2P Require Import ResourceTypes.
From S2P Require Import ContinuousTaskRecord.
From S2P Require Import ContinuousTypes.
From S2P Require Import ContinuousQueries.
From S2P Require Import DecisionMaker.
From S2P Require Import TransientTaskMgr.
From S2P Require Import BackgroundTaskMgrSystem.
From S2P Require Import Parcelables.
From S2P Require Import ContinuousAuth.
Local Open Scope Z_scope.

(** ** The proxy *)

(** The out parameters of a request. *)
Definition Out (r : ServiceRequest) : Type :=
  match r with
  | RqRequestSuspendDelay _ => DelaySuspendInfo
  | RqGetRemainingDelayTime _ => Z
  | RqGetAllTransientTasks => Z * list DelaySuspendInfo
  | RqGetTransientTaskApps => list TransientTaskAppInfo
  | RqStartBackgroundRunning _ _ _ | RqUpdateBackgroundRunning _ _ _ => Z * Z
  | RqRequestGetContinuousTasksByUidForInner _ | RqGetAllContinuousTasks | RqGetAllContinuousTasksSuspended _
  | RqGetAllContinuousTasksBySystem => list ContinuousTaskInfo
  | RqGetContinuousTaskApps | RqGetAllContinuousTaskApps => list ContinuousTaskCallbackInfo
  | RqRequestAuthFromUser _ _ _ | RqCheckSpecialScenarioAuth _ _ _ | RqGetBackgroundTaskState _ _ => Z
  | RqGetAllEfficiencyResources => list EfficiencyResourceInfo
  | RqGetEfficiencyResourcesInfos => list ResourceCallbackInfo * list ResourceCallbackInfo
  | _ => unit
  end%type.

Class IBackgroundTaskMgr (W : Type) := transact : forall r : ServiceRequest, W -> Z * option (Out r) * W.

(** ** State

    [cl_proxy_]: null, or whether the proxy has an object; [cl_watched]: the death recipient
    is attached to that object. *)
Record ClientState := mkClient { cl_proxy_ : option bool; cl_watched : bool }.
Definition new_client : ClientState := mkClient None false.

(** What connecting finds: the registry of services, the service in it, what the cast of
    its object gives, and memory for the recipient. *)
Record Platform := mkPlatform {
  cn_manager : bool;
  cn_ability : bool;
  cn_cast : option bool;
  cn_memory : bool;
}.

Section Client.
Context `{IBackgroundTaskMgr W}.
Implicit Types n : Platform.
Implicit Types st : ClientState.

Definition GetBackgroundTaskManagerProxy n st : bool * ClientState :=
  match cl_proxy_ st with
  | Some _ => (true, st)
  | None =>
      return_if negb (cn_manager n), (false, st) ;;
      return_if negb (cn_ability n), (false, st) ;;
      let st := mkClient (cn_cast n) false in
      return_if negb (bool_decide (cn_cast n = Some true)), (false, st) ;;
      return_if negb (cn_memory n), (false, st) ;;
      (true, mkClient (cn_cast n) true)
  end.

(** The service died. *)
Definition ResetBackgroundTaskManagerProxy st : ClientState := mkClient None false.

(** *** Calls *)
Definition CL (A : Type) : Type := Platform -> ClientState -> W -> A * ClientState * W.
Definition cl_ret {A} (a : A) : CL A := fun _ st w => (a, st, w).
(** The result of a call, and what [f] makes of it and of what was written. *)
Definition call {A} (r : ServiceRequest) (f : Z -> option (Out r) -> A) : CL A :=
  fun _ st w => let '(result, out, w) := transact r w in (f result out, st, w).
Definition call_code (r : ServiceRequest) : CL Z := call r (fun result _ => result).
(** [m] over the proxy; [failed] where there is none. *)
Definition with_proxy {A} (failed : A) (m : CL A) : CL A :=
  fun n st w =>
    let '(ok, st) := GetBackgroundTaskManagerProxy n st in
    if ok then m n st w else (failed, st, w).
Abbreviation NOT_CONNECTED := ERR_BGTASK_SERVICE_NOT_CONNECTED.

(** A list read into a local one, which replaces the caller's where the call succeeds. *)
Definition get_list {A} (list : list A) (result : Z) (read : Datatypes.list A) : Z * Datatypes.list A :=
  (result, if result =? ERR_OK then read else list).

(** *** Transient tasks *)

(** The callback is the object a caller's [ExpiredCallback] holds, or null; [delayInfo] the
    caller's pointer. *)
Definition cl_RequestSuspendDelay (callback : option RemoteProxy) (delayInfo : option DelaySuspendInfo) :
    CL (Z * option DelaySuspendInfo) :=
  with_proxy (NOT_CONNECTED, delayInfo)
    (return_if bool_decide (callback = None), cl_ret (ERR_CALLBACK_NULL_OR_TYPE_ERR, delayInfo) ;;
     call (RqRequestSuspendDelay callback) (fun result out => (result, Some (default (mkDelayInfo (-1) 0) out)))).
Definition cl_CancelSuspendDelay (requestId : Z) : CL Z :=
  with_proxy NOT_CONNECTED (call_code (RqCancelSuspendDelay requestId)).
Definition cl_GetRemainingDelayTime (requestId delayTime : Z) : CL (Z * Z) :=
  with_proxy (NOT_CONNECTED, delayTime)
    (call (RqGetRemainingDelayTime requestId) (fun result out => (result, default delayTime out))).
Definition cl_GetAllTransientTasks (remainingQuota : Z) (list : list DelaySuspendInfo) :
    CL (Z * (Z * Datatypes.list DelaySuspendInfo)) :=
  with_proxy (ERR_BGTASK_TRANSIENT_SERVICE_NOT_CONNECTED, (remainingQuota, list))
    (call RqGetAllTransientTasks (fun result out => (result, default (remainingQuota, list) out))).
Definition cl_GetTransientTaskApps (list : list TransientTaskAppInfo) : CL (Z * Datatypes.list TransientTaskAppInfo) :=
  with_proxy (NOT_CONNECTED, list)
    (call RqGetTransientTaskApps (fun result out => get_list list result (default [] out))).
Definition cl_PauseTransientTaskTimeForInner (uid : Z) : CL Z :=
  with_proxy NOT_CONNECTED (call_code (RqPauseTransientTaskTimeForInner uid)).
Definition cl_StartTransientTaskTimeForInner (uid : Z) : CL Z :=
  with_proxy NOT_CONNECTED (call_code (RqStartTransientTaskTimeForInner uid)).
Definition cl_SetBgTaskConfig (configData : string) (sourceType : Z) : CL Z :=
  with_proxy NOT_CONNECTED (call_code (RqSetBgTaskConfig configData sourceType)).

(** *** Continuous tasks *)
Definition set_ids (taskParam : ContinuousTaskParam) (ids : Z * Z) : ContinuousTaskParam :=
  mkParam (tp_isNewApi_ taskParam) (tp_bgModeId_ taskParam) (tp_wantAgent_ taskParam) (tp_abilityName_ taskParam)
    (tp_appName_ taskParam) (tp_isBatchApi_ taskParam) (tp_bgModeIds_ taskParam) (tp_abilityId_ taskParam)
    (tp_bgSubModeIds_ taskParam) (tp_isCombinedTaskNotification_ taskParam)
    (tp_combinedNotificationTaskId_ taskParam) (tp_updateTaskId_ taskParam) (tp_isByRequestObject_ taskParam)
    (tp_appIndex_ taskParam) (tp_requestAuthApiVersion_ taskParam) ids.1 ids.2 (tp_progressInfo_ taskParam).

(** The ids of the parameters are sent along, and replaced by what comes back. *)
Definition cl_RequestStartBackgroundRunning (taskParam : ContinuousTaskParam) : CL (Z * ContinuousTaskParam) :=
  let ids := (tp_notificationId_ taskParam, tp_continuousTaskId_ taskParam) in
  with_proxy (NOT_CONNECTED, taskParam)
    (call (RqStartBackgroundRunning taskParam ids.1 ids.2)
       (fun res out => (res, set_ids taskParam (default ids out)))).
Definition cl_RequestUpdateBackgroundRunning (taskParam : ContinuousTaskParam) : CL (Z * ContinuousTaskParam) :=
  let ids := (tp_notificationId_ taskParam, tp_continuousTaskId_ taskParam) in
  with_proxy (NOT_CONNECTED, taskParam)
    (call (RqUpdateBackgroundRunning taskParam ids.1 ids.2)
       (fun ret out => (ret, set_ids taskParam (default ids out)))).
Definition cl_RequestBackgroundRunningForInner (taskParam : ContinuousTaskParamForInner) : CL Z :=
  with_proxy NOT_CONNECTED (call_code (RqRequestBackgroundRunningForInner taskParam)).
Definition cl_RequestGetContinuousTasksByUidForInner (uid : Z) (list : list ContinuousTaskInfo) :
    CL (Z * Datatypes.list ContinuousTaskInfo) :=
  with_proxy (NOT_CONNECTED, list)
    (return_if uid <? 0, cl_ret (ERR_BGTASK_INVALID_UID, list) ;;
     call (RqRequestGetContinuousTasksByUidForInner uid)
       (fun result out => get_list list result (default [] out))).
Definition cl_RequestStopBackgroundRunning (abilityName : string) (abilityId continuousTaskId : Z) : CL Z :=
  with_proxy NOT_CONNECTED (call_code (RqStopBackgroundRunning abilityName abilityId continuousTaskId)).
Definition cl_RequestGetAllContinuousTasks (list : list ContinuousTaskInfo) : CL (Z * Datatypes.list ContinuousTaskInfo) :=
  with_proxy (NOT_CONNECTED, list)
    (call RqGetAllContinuousTasks (fun result out => get_list list result (default [] out))).
(** With suspended tasks on demand; read into the caller's list. *)
Definition cl_RequestGetAllContinuousTasksSuspended (list : list ContinuousTaskInfo) (includeSuspended : bool) :
    CL (Z * Datatypes.list ContinuousTaskInfo) :=
  with_proxy (NOT_CONNECTED, list)
    (call (RqGetAllContinuousTasksSuspended includeSuspended) (fun result out => (result, default list out))).
Definition cl_RequestUpdateDataTransferProgress (progressInfo : DataTransferProgress) : CL Z :=
  with_proxy NOT_CONNECTED (call_code (RqUpdateDataTransferProgress progressInfo)).
Definition cl_GetContinuousTaskApps (list : list ContinuousTaskCallbackInfo) :
    CL (Z * Datatypes.list ContinuousTaskCallbackInfo) :=
  with_proxy (NOT_CONNECTED, list)
    (call RqGetContinuousTaskApps (fun result out => get_list list result (default [] out))).
Definition cl_GetAllContinuousTaskApps (list : list ContinuousTaskCallbackInfo) :
    CL (Z * Datatypes.list ContinuousTaskCallbackInfo) :=
  with_proxy (NOT_CONNECTED, list)
    (call RqGetAllContinuousTaskApps (fun result out => get_list list result (default [] out))).
Definition cl_GetAllContinuousTasksBySystem (list : list ContinuousTaskInfo) :
    CL (Z * Datatypes.list ContinuousTaskInfo) :=
  with_proxy (NOT_CONNECTED, list)
    (call RqGetAllContinuousTasksBySystem (fun result out => (result, default list out))).
Definition cl_StopContinuousTask (uid pid taskType : Z) (key : string) : CL Z :=
  with_proxy NOT_CONNECTED (call_code (RqStopContinuousTask uid pid taskType key)).
Definition cl_SuspendContinuousTask (uid pid reason : Z) (key : string) (isStandby : bool) : CL Z :=
  with_proxy NOT_CONNECTED (call_code (RqSuspendContinuousTask uid pid reason key isStandby)).
Definition cl_ActiveContinuousTask (uid pid : Z) (key : string) (isStandby : bool) : CL Z :=
  with_proxy NOT_CONNECTED (call_code (RqActiveContinuousTask uid pid key isStandby)).
Definition cl_SuspendContinuousAudioTask (uid : Z) : CL Z :=
  with_proxy NOT_CONNECTED (call_code (RqSuspendContinuousAudioTask uid)).
Definition cl_AVSessionNotifyUpdateNotification (uid pid : Z) (isPublish : bool) : CL Z :=
  with_proxy NOT_CONNECTED (call_code (RqAVSessionNotifyUpdateNotification uid pid isPublish)).
Definition cl_SetSupportedTaskKeepingProcesses (processSet : gset string) : CL Z :=
  with_proxy NOT_CONNECTED (call_code (RqSetSupportedTaskKeepingProcesses processSet)).
Definition cl_SetMaliciousAppConfig (maliciousAppSet : gset string) : CL Z :=
  with_proxy NOT_CONNECTED (call_code (RqSetMaliciousAppConfig maliciousAppSet)).
Definition cl_SetSpecialExemptedProcess (bundleNameSet : gset string) : CL Z :=
  with_proxy NOT_CONNECTED (call_code (RqSetSpecialExemptedProcess bundleNameSet)).
Definition cl_EnableContinuousTaskRequest (uid : Z) (isEnable : bool) : CL Z :=
  with_proxy NOT_CONNECTED (call_code (RqEnableContinuousTaskRequest uid isEnable)).
(** The keys of the set, ascending. *)
Definition cl_SendNotificationByDeteTask (taskKeys : list string) : CL Z :=
  with_proxy NOT_CONNECTED (call_code (RqSendNotificationByDeteTask taskKeys)).

(** *** Authorisation *)
Definition cl_IsModeSupported (taskParam : ContinuousTaskParam) : CL Z :=
  with_proxy NOT_CONNECTED (call_code (RqIsModeSupported taskParam)).
Definition cl_RequestAuthFromUser (taskParam : ContinuousTaskParam) (callback : option RemoteProxy) (notificationId : Z) :
    CL (Z * Z) :=
  with_proxy (NOT_CONNECTED, notificationId)
    (return_if bool_decide (callback = None),
       cl_ret (ERR_BGTASK_CONTINUOUS_CALLBACK_NULL_OR_TYPE_ERR, notificationId) ;;
     call (RqRequestAuthFromUser taskParam callback notificationId)
       (fun result out => (result, default notificationId out))).
Definition cl_CheckSpecialScenarioAuth (appIndex authResult apiVersion : Z) : CL (Z * Z) :=
  with_proxy (NOT_CONNECTED, authResult)
    (call (RqCheckSpecialScenarioAuth appIndex authResult apiVersion)
       (fun result out => (result, default authResult out))).
Definition cl_CheckTaskAuthResult (bundleName : string) (userId appIndex : Z) : CL Z :=
  with_proxy NOT_CONNECTED (call_code (RqCheckTaskAuthResult bundleName userId appIndex)).
Definition cl_SetBackgroundTaskState (taskParam : option BackgroundTaskStateInfo) : CL Z :=
  with_proxy NOT_CONNECTED
    match taskParam with
    | None => cl_ret ERR_BGTASK_CHECK_TASK_PARAM
    | Some p => call_code (RqSetBackgroundTaskState p)
    end.
(** The object the caller shares is told the result. *)
Definition cl_GetBackgroundTaskState (taskParam : option BackgroundTaskStateInfo) :
    CL (Z * option BackgroundTaskStateInfo) :=
  with_proxy (NOT_CONNECTED, taskParam)
    match taskParam with
    | None => cl_ret (ERR_BGTASK_CHECK_TASK_PARAM, None)
    | Some p =>
        call (RqGetBackgroundTaskState p 0) (fun ret out =>
          return_if negb (ret =? ERR_OK), (ret, taskParam) ;;
          (ERR_OK, Some (mkStateInfo (bs_userId_ p) (bs_bundleName_ p) (bs_appIndex_ p) (int32 (default 0 out)))))
    end.
Definition cl_RemoveAuthRecord (taskParam : ContinuousTaskParam) : CL Z :=
  with_proxy NOT_CONNECTED (call_code (RqRemoveAuthRecord taskParam)).

(** *** Subscribers

    The object a caller's subscriber holds, or null. *)
Definition cl_SubscribeBackgroundTask (subscriber : option RemoteProxy) (currentCallBackType_ : Z) : CL Z :=
  with_proxy NOT_CONNECTED
    (return_if bool_decide (subscriber = None), cl_ret ERR_BGTASK_INVALID_PARAM ;;
     call_code (RqSubscribeBackgroundTask subscriber currentCallBackType_)).
Definition cl_UnsubscribeBackgroundTask (subscriber : option RemoteProxy) (currentCallBackType_ : Z) : CL Z :=
  with_proxy NOT_CONNECTED
    (return_if bool_decide (subscriber = None), cl_ret ERR_BGTASK_INVALID_PARAM ;;
     call_code (RqUnsubscribeBackgroundTask subscriber currentCallBackType_)).

(** *** Efficiency resources *)
Definition cl_ApplyEfficiencyResources (resourceInfo : EfficiencyResourceInfo) : CL Z :=
  with_proxy NOT_CONNECTED (call_code (RqApplyEfficiencyResources resourceInfo)).
Definition cl_ResetAllEfficiencyResources : CL Z := with_proxy NOT_CONNECTED (call_code RqResetAllEfficiencyResources).
Definition cl_GetAllEfficiencyResources (resourceInfoList : list EfficiencyResourceInfo) :
    CL (Z * list EfficiencyResourceInfo) :=
  with_proxy (ERR_BGTASK_RESOURCES_SERVICE_NOT_CONNECTED, resourceInfoList)
    (call RqGetAllEfficiencyResources (fun result out => get_list resourceInfoList result (default [] out))).
Definition cl_GetEfficiencyResourcesInfos (appList procList : list ResourceCallbackInfo) :
    CL (Z * (list ResourceCallbackInfo * list ResourceCallbackInfo)) :=
  with_proxy (NOT_CONNECTED, (appList, procList))
    (call RqGetEfficiencyResourcesInfos (fun result out =>
       (result, if result =? ERR_OK then default ([], []) out else (appList, procList)))).

(** *** The callback of a request (expired_callback.cpp)

    [callback_]: whether the application still holds its callback; the result, and whether
    it was called. *)
Definition cb_OnExpired (callback_ : bool) : Z * bool :=
  if callback_ then (ERR_OK, true) else (ERR_BGTASK_CALLBACK_NOT_EXIST, false).
Definition cb_OnExpiredAuth (callback_ : bool) (authResult : Z) : Z * option Z :=
  if callback_ then (ERR_OK, Some authResult) else (ERR_BGTASK_CALLBACK_NOT_EXIST, None).
End Client.

(** * The static interface of the library, and its subscriber object

    [BackgroundTaskMgrHelper] (innerkits background_task_mgr_helper.cpp): static functions
    over the one [BackgroundTaskManager] of the process.  [BackgroundTaskSubscriber]
    (background_task_subscriber.cpp): the base class of subscribers, whose methods do
    nothing, and the remote object inside it, which hands the calls of the service on. *)

(** The constructor of [ContinuousTaskParam], with the member initialisers; the token of the
    ability is not sent. *)
Definition new_ContinuousTaskParam (isNewApi : bool) (bgModeId : Z) (wantAgent : option WantAgent)
    (abilityName appName : string) (isBatchApi : bool) (bgModeIds : list Z) (abilityId : Z) : ContinuousTaskParam :=
  mkParam isNewApi bgModeId wantAgent abilityName appName isBatchApi bgModeIds abilityId [] false (-1) (-1) false (-1)
    API_VERSION_REQUEST_SPECIAL_USER_AUTH (-1) (-1) None.

Module BackgroundTaskMgrHelper.
Section Helper.
Context `{IBackgroundTaskMgr W}.
Abbreviation CL := (CL (W := W)).

Definition RequestStartBackgroundRunning (taskParam : ContinuousTaskParam) : CL (Z * ContinuousTaskParam) :=
  cl_RequestStartBackgroundRunning taskParam.
Definition RequestUpdateBackgroundRunning (taskParam : ContinuousTaskParam) : CL (Z * ContinuousTaskParam) :=
  cl_RequestUpdateBackgroundRunning taskParam.
(** [continuousTaskId] is -1 where the caller leaves it out. *)
Definition RequestStopBackgroundRunning (abilityName : string) (abilityId continuousTaskId : Z) : CL Z :=
  cl_RequestStopBackgroundRunning abilityName abilityId continuousTaskId.
Definition RequestGetAllContinuousTasks (list : list ContinuousTaskInfo) : CL (Z * Datatypes.list ContinuousTaskInfo) :=
  cl_RequestGetAllContinuousTasks list.
Definition RequestGetAllContinuousTasksSuspended (list : list ContinuousTaskInfo) (includeSuspended : bool) :
    CL (Z * Datatypes.list ContinuousTaskInfo) :=
  cl_RequestGetAllContinuousTasksSuspended list includeSuspended.
Definition RequestBackgroundRunningForInner (taskParam : ContinuousTaskParamForInner) : CL Z :=
  cl_RequestBackgroundRunningForInner taskParam.
Definition RequestGetContinuousTasksByUidForInner (uid : Z) (list : list ContinuousTaskInfo) :
    CL (Z * Datatypes.list ContinuousTaskInfo) :=
  cl_RequestGetContinuousTasksByUidForInner uid list.
Definition SubscribeBackgroundTask (subscriber : option RemoteProxy) (currentCallBackType_ : Z) : CL Z :=
  cl_SubscribeBackgroundTask subscriber currentCallBackType_.
Definition UnsubscribeBackgroundTask (subscriber : option RemoteProxy) (currentCallBackType_ : Z) : CL Z :=
  cl_UnsubscribeBackgroundTask subscriber currentCallBackType_.
Definition GetTransientTaskApps (list : list TransientTaskAppInfo) : CL (Z * Datatypes.list TransientTaskAppInfo) :=
  cl_GetTransientTaskApps list.
Definition PauseTransientTaskTimeForInner (uid : Z) : CL Z := cl_PauseTransientTaskTimeForInner uid.
Definition StartTransientTaskTimeForInner (uid : Z) : CL Z := cl_StartTransientTaskTimeForInner uid.
Definition GetContinuousTaskApps (list : list ContinuousTaskCallbackInfo) :
    CL (Z * Datatypes.list ContinuousTaskCallbackInfo) :=
  cl_GetContinuousTaskApps list.
Definition GetEfficiencyResourcesInfos (appList procList : list ResourceCallbackInfo) :
    CL (Z * (list ResourceCallbackInfo * list ResourceCallbackInfo)) :=
  cl_GetEfficiencyResourcesInfos appList procList.
Definition ApplyEfficiencyResources (resourceInfo : EfficiencyResourceInfo) : CL Z :=
  cl_ApplyEfficiencyResources resourceInfo.
Definition ResetAllEfficiencyResources : CL Z := cl_ResetAllEfficiencyResources.
Definition StopContinuousTask (uid pid taskType : Z) (key : string) : CL Z :=
  cl_StopContinuousTask uid pid taskType key.
Definition SetBgTaskConfig (configData : string) (sourceType : Z) : CL Z := cl_SetBgTaskConfig configData sourceType.
Definition SuspendContinuousTask (uid pid reason : Z) (key : string) (isStandby : bool) : CL Z :=
  cl_SuspendContinuousTask uid pid reason key isStandby.
Definition ActiveContinuousTask (uid pid : Z) (key : string) (isStandby : bool) : CL Z :=
  cl_ActiveContinuousTask uid pid key isStandby.
Definition AVSessionNotifyUpdateNotification (uid pid : Z) (isPublish : bool) : CL Z :=
  cl_AVSessionNotifyUpdateNotification uid pid isPublish.
Definition SuspendContinuousAudioTask (uid : Z) : CL Z := cl_SuspendContinuousAudioTask uid.
Definition IsModeSupported (taskParam : ContinuousTaskParam) : CL Z := cl_IsModeSupported taskParam.
Definition SetSupportedTaskKeepingProcesses (processSet : gset string) : CL Z :=
  cl_SetSupportedTaskKeepingProcesses processSet.
Definition SetMaliciousAppConfig (maliciousAppSet : gset string) : CL Z := cl_SetMaliciousAppConfig maliciousAppSet.
Definition CheckSpecialScenarioAuth (appIndex authResult apiVersion : Z) : CL (Z * Z) :=
  cl_CheckSpecialScenarioAuth appIndex authResult apiVersion.
Definition CheckTaskAuthResult (bundleName : string) (userId appIndex : Z) : CL Z :=
  cl_CheckTaskAuthResult bundleName userId appIndex.
Definition EnableContinuousTaskRequest (uid : Z) (isEnable : bool) : CL Z := cl_EnableContinuousTaskRequest uid isEnable.
Definition SetBackgroundTaskState (taskParam : option BackgroundTaskStateInfo) : CL Z :=
  cl_SetBackgroundTaskState taskParam.
Definition GetBackgroundTaskState (taskParam : option BackgroundTaskStateInfo) : CL (Z * option BackgroundTaskStateInfo) :=
  cl_GetBackgroundTaskState taskParam.
Definition GetAllContinuousTasksBySystem (list : list ContinuousTaskInfo) : CL (Z * Datatypes.list ContinuousTaskInfo) :=
  cl_GetAllContinuousTasksBySystem list.
Definition SetSpecialExemptedProcess (bundleNameSet : gset string) : CL Z := cl_SetSpecialExemptedProcess bundleNameSet.
Definition GetAllContinuousTaskApps (list : list ContinuousTaskCallbackInfo) :
    CL (Z * Datatypes.list ContinuousTaskCallbackInfo) :=
  cl_GetAllContinuousTaskApps list.
Definition SendNotificationByDeteTask (taskKeys : list string) : CL Z := cl_SendNotificationByDeteTask taskKeys.
Definition RequestUpdateDataTransferProgress (progressInfo : DataTransferProgress) : CL Z :=
  cl_RequestUpdateDataTransferProgress progressInfo.
End Helper.
End BackgroundTaskMgrHelper.

(** ** The subscriber object

    The calls of IBackgroundTaskSubscriber.idl. *)
Inductive SubscriberCall :=
| ScOnConnected
| ScOnDisconnected
| ScOnTransientTaskStart (info : TransientTaskAppInfo)
| ScOnTransientTaskEnd (info : TransientTaskAppInfo)
| ScOnTransientTaskErr (info : TransientTaskAppInfo)
| ScOnAppTransientTaskStart (info : TransientTaskAppInfo)
| ScOnAppTransientTaskEnd (info : TransientTaskAppInfo)
| ScOnContinuousTask (kind : CallbackKind) (info : ContinuousTaskCallbackInfo)
| ScOnAppContinuousTaskStop (uid : Z)
| ScOnAppEfficiencyResourcesApply (info : ResourceCallbackInfo)
| ScOnAppEfficiencyResourcesReset (info : ResourceCallbackInfo)
| ScOnProcEfficiencyResourcesApply (info : ResourceCallbackInfo)
| ScOnProcEfficiencyResourcesReset (info : ResourceCallbackInfo)
| ScGetFlag (flag : Z).

(** A class derived from [BackgroundTaskSubscriber]: what its methods do to the object. *)
Class BackgroundTaskSubscriber (S : Type) := {
  on_call : SubscriberCall -> S -> S;
  on_GetFlag : S -> Z -> Z;
}.

(** The base class itself. *)
Definition base_subscriber {S} : BackgroundTaskSubscriber S := {| on_call _ s := s; on_GetFlag _ flag := flag |}.

(** [BackgroundTaskSubscriberImpl]: the code it answers, the flag it gives out, the object;
    that the subscriber is connected or not is not passed on. *)
Definition impl_call {S} `{BackgroundTaskSubscriber S} (c : SubscriberCall) (subscriber_ : S) : Z * option Z * S :=
  match c with
  | ScOnConnected | ScOnDisconnected => (ERR_OK, None, subscriber_)
  | ScGetFlag flag => (ERR_OK, Some (on_GetFlag subscriber_ flag), subscriber_)
  | c => (ERR_OK, None, on_call c subscriber_)
  end.
