(* ===== verification/ClientProps.v ===== *)
(** * A request from the library to the service and back

    The connection of a client; and the composition of the client, the parcels and the
    service: with the service behind the proxy ([ServiceBehind]) a call gives what the
    service decides on the request, and changes the service as the request does. *)

From S2P Require Import Prelude.
From S2P Require Import Errors.
From S2P Require Import Interfaces.
From S2P Require Import DeviceInfo.
From S2P Require Import DecisionMaker.
From S2P Require Import TransientTaskMgr.
From S2P Require Import ResourceTypes.
From S2P Require Import EfficiencyResources.
From S2P Require Import Json.
From S2P Require Import BgtaskConfig.
From S2P Require Import BackgroundModes.
From S2P Require Import ContinuousTaskRecord.
From S2P Require Import ContinuousTypes.
From S2P Require Import ContinuousTaskMgr.
From S2P Require Import ContinuousTaskStart.
From S2P Require Import ContinuousQueries.
From S2P Require Import ContinuousStartProps.
From S2P Require Import BackgroundTaskMgrService.
From S2P Require Import BackgroundTaskMgrSystem.
From S2P Require Import BackgroundTaskMgrRun.
From S2P Require Import Parcel.
From S2P Require Import Parcelables.
From S2P Require Import ParcelableProps.
From S2P Require Import RequestArrival.
From S2P Require Import BackgroundTaskManager.
Local Open Scope Z_scope.

(** ** The operations of the library, by the request each makes *)

(** What is sent: the ids of the parameters, and no result. *)
Definition sends (r : ServiceRequest) : ServiceRequest :=
  match r with
  | RqStartBackgroundRunning p _ _ => RqStartBackgroundRunning p (tp_notificationId_ p) (tp_continuousTaskId_ p)
  | RqUpdateBackgroundRunning p _ _ => RqUpdateBackgroundRunning p (tp_notificationId_ p) (tp_continuousTaskId_ p)
  | RqGetBackgroundTaskState p _ => RqGetBackgroundTaskState p 0
  | r => r
  end.

(** The dump is not asked for through the library. *)
Definition of_library (r : ServiceRequest) : bool := match r with RqDump _ => false | _ => true end.

Definition not_connected (r : ServiceRequest) : Z :=
  match r with
  | RqGetAllTransientTasks => ERR_BGTASK_TRANSIENT_SERVICE_NOT_CONNECTED
  | RqGetAllEfficiencyResources => ERR_BGTASK_RESOURCES_SERVICE_NOT_CONNECTED
  | _ => ERR_BGTASK_SERVICE_NOT_CONNECTED
  end.

(** What the library refuses by itself. *)
Definition refuses (r : ServiceRequest) : option Z :=
  match r with
  | RqRequestSuspendDelay None => Some ERR_CALLBACK_NULL_OR_TYPE_ERR
  | RqRequestAuthFromUser _ None _ => Some ERR_BGTASK_CONTINUOUS_CALLBACK_NULL_OR_TYPE_ERR
  | RqSubscribeBackgroundTask None _ | RqUnsubscribeBackgroundTask None _ => Some ERR_BGTASK_INVALID_PARAM
  | RqRequestGetContinuousTasksByUidForInner uid => if uid <? 0 then Some ERR_BGTASK_INVALID_UID else None
  | _ => None
  end.

Create HintDb library.

Section Library.
Context `{IBackgroundTaskMgr W}.
Abbreviation CL := (CL (W := W)).
Implicit Types n : Platform.
Implicit Types st : ClientState.
Implicit Types w : W.

Definition code {A} (m : CL (Z * A)) : CL Z := fun n st w => let '(x, _, st, w) := m n st w in (x, st, w).

Definition library (r : ServiceRequest) : CL Z :=
  match r with
  | RqRequestSuspendDelay callback => code (cl_RequestSuspendDelay callback None)
  | RqCancelSuspendDelay id => cl_CancelSuspendDelay id
  | RqGetRemainingDelayTime id => code (cl_GetRemainingDelayTime id 0)
  | RqGetAllTransientTasks => code (cl_GetAllTransientTasks 0 [])
  | RqGetTransientTaskApps => code (cl_GetTransientTaskApps [])
  | RqPauseTransientTaskTimeForInner uid => cl_PauseTransientTaskTimeForInner uid
  | RqStartTransientTaskTimeForInner uid => cl_StartTransientTaskTimeForInner uid
  | RqSetBgTaskConfig configData sourceType => cl_SetBgTaskConfig configData sourceType
  | RqStartBackgroundRunning p _ _ => code (cl_RequestStartBackgroundRunning p)
  | RqUpdateBackgroundRunning p _ _ => code (cl_RequestUpdateBackgroundRunning p)
  | RqRequestBackgroundRunningForInner p => cl_RequestBackgroundRunningForInner p
  | RqRequestGetContinuousTasksByUidForInner uid => code (cl_RequestGetContinuousTasksByUidForInner uid [])
  | RqStopBackgroundRunning name ability id => cl_RequestStopBackgroundRunning name ability id
  | RqGetAllContinuousTasks => code (cl_RequestGetAllContinuousTasks [])
  | RqGetAllContinuousTasksSuspended b => code (cl_RequestGetAllContinuousTasksSuspended [] b)
  | RqUpdateDataTransferProgress p => cl_RequestUpdateDataTransferProgress p
  | RqGetContinuousTaskApps => code (cl_GetContinuousTaskApps [])
  | RqStopContinuousTask uid pid taskType key => cl_StopContinuousTask uid pid taskType key
  | RqSuspendContinuousTask uid pid reason key b => cl_SuspendContinuousTask uid pid reason key b
  | RqActiveContinuousTask uid pid key b => cl_ActiveContinuousTask uid pid key b
  | RqSuspendContinuousAudioTask uid => cl_SuspendContinuousAudioTask uid
  | RqSetSupportedTaskKeepingProcesses l => cl_SetSupportedTaskKeepingProcesses l
  | RqSetMaliciousAppConfig l => cl_SetMaliciousAppConfig l
  | RqSetSpecialExemptedProcess l => cl_SetSpecialExemptedProcess l
  | RqCheckTaskAuthResult name user app => cl_CheckTaskAuthResult name user app
  | RqEnableContinuousTaskRequest uid b => cl_EnableContinuousTaskRequest uid b
  | RqGetAllContinuousTaskApps => code (cl_GetAllContinuousTaskApps [])
  | RqSendNotificationByDeteTask keys => cl_SendNotificationByDeteTask keys
  | RqAVSessionNotifyUpdateNotification uid pid b => cl_AVSessionNotifyUpdateNotification uid pid b
  | RqIsModeSupported p => cl_IsModeSupported p
  | RqRequestAuthFromUser p callback id => code (cl_RequestAuthFromUser p callback id)
  | RqCheckSpecialScenarioAuth app result v => code (cl_CheckSpecialScenarioAuth app result v)
  | RqSetBackgroundTaskState p => cl_SetBackgroundTaskState (Some p)
  | RqGetBackgroundTaskState p _ => code (cl_GetBackgroundTaskState (Some p))
  | RqGetAllContinuousTasksBySystem => code (cl_GetAllContinuousTasksBySystem [])
  | RqRemoveAuthRecord p => cl_RemoveAuthRecord p
  | RqSubscribeBackgroundTask sub flag => cl_SubscribeBackgroundTask sub flag
  | RqUnsubscribeBackgroundTask sub flag => cl_UnsubscribeBackgroundTask sub flag
  | RqApplyEfficiencyResources info => cl_ApplyEfficiencyResources info
  | RqResetAllEfficiencyResources => cl_ResetAllEfficiencyResources
  | RqGetAllEfficiencyResources => code (cl_GetAllEfficiencyResources [])
  | RqGetEfficiencyResourcesInfos => code (cl_GetEfficiencyResourcesInfos [] [])
  | RqDump _ => cl_ret 0
  end.

(** ** Calls *)
#[local] Hint Unfold cl_RequestSuspendDelay cl_CancelSuspendDelay cl_GetRemainingDelayTime cl_GetAllTransientTasks
  cl_GetTransientTaskApps cl_PauseTransientTaskTimeForInner cl_StartTransientTaskTimeForInner cl_SetBgTaskConfig
  cl_RequestStartBackgroundRunning cl_RequestUpdateBackgroundRunning cl_RequestBackgroundRunningForInner
  cl_RequestGetContinuousTasksByUidForInner cl_RequestStopBackgroundRunning cl_RequestGetAllContinuousTasks
  cl_RequestGetAllContinuousTasksSuspended cl_RequestUpdateDataTransferProgress cl_GetContinuousTaskApps
  cl_StopContinuousTask cl_SuspendContinuousTask cl_ActiveContinuousTask cl_SuspendContinuousAudioTask
  cl_SetSupportedTaskKeepingProcesses cl_SetMaliciousAppConfig cl_SetSpecialExemptedProcess cl_CheckTaskAuthResult
  cl_EnableContinuousTaskRequest cl_GetAllContinuousTaskApps cl_SendNotificationByDeteTask
  cl_AVSessionNotifyUpdateNotification cl_IsModeSupported cl_RequestAuthFromUser cl_CheckSpecialScenarioAuth
  cl_SetBackgroundTaskState cl_GetBackgroundTaskState cl_GetAllContinuousTasksBySystem cl_RemoveAuthRecord
  cl_SubscribeBackgroundTask cl_UnsubscribeBackgroundTask cl_ApplyEfficiencyResources cl_ResetAllEfficiencyResources
  cl_GetAllEfficiencyResources cl_GetEfficiencyResourcesInfos get_list : library.
Lemma with_proxy_run {A} (failed : A) (m : CL A) n st w :
  with_proxy failed m n st w =
  let '(ok, st') := GetBackgroundTaskManagerProxy n st in if ok then m n st' w else (failed, st', w).
Proof. done. Qed.
Lemma call_code_run r n st w : call_code r n st w = ((transact r w).1.1, st, (transact r w).2).
Proof. unfold call_code, call. by destruct (transact r w) as [[x o] w']. Qed.
Lemma code_with_proxy {A} (x : Z) (a : A) (m : CL (Z * A)) n st w :
  code (with_proxy (x, a) m) n st w = with_proxy x (code m) n st w.
Proof. unfold code, with_proxy. destruct (GetBackgroundTaskManagerProxy n st) as [[] st']; [|done]. reflexivity. Qed.
Lemma code_call {A} r (f : Z -> option (Out r) -> Z * A) n st w :
  (forall x o, (f x o).1 = x) -> code (call r f) n st w = call_code r n st w.
Proof.
  intros Hf. unfold code, call_code, call. destruct (transact r w) as [[x o] w'].
  specialize (Hf x o). destruct (f x o). by simpl in Hf; subst.
Qed.

(** Every operation: the error of the connection, or the library's own, or the call. *)
Lemma library_run r n st w : of_library r = true ->
  library r n st w =
  let '(ok, st') := GetBackgroundTaskManagerProxy n st in
  if ok then
    match refuses r with
    | Some err => (err, st', w)
    | None => ((transact (sends r) w).1.1, st', (transact (sends r) w).2)
    end
  else (not_connected r, st', w).
Proof.
  intros Hr. destruct r; try discriminate Hr; cbn [library sends refuses not_connected].
  all: autounfold with library; rewrite ?code_with_proxy, with_proxy_run;
    destruct (GetBackgroundTaskManagerProxy n st) as [[] st']; try done.
  all: repeat case_match; try discriminate; bool_prop; try done.
  all: first [apply call_code_run | by simplify_eq | rewrite code_call; [apply call_code_run|]].
  all: intros x o; repeat case_test; bool_prop; done.
Qed.

(** ** The connection *)
Definition connectable n : bool := cn_manager n && cn_ability n && bool_decide (cn_cast n = Some true) && cn_memory n.

Lemma connects n st :
  cl_proxy_ st = None -> (GetBackgroundTaskManagerProxy n st).1 = connectable n.
Proof.
  intros E. unfold GetBackgroundTaskManagerProxy, connectable. rewrite E.
  destruct (cn_manager n), (cn_ability n), (bool_decide (cn_cast n = Some true)), (cn_memory n); done.
Qed.

(** A connection that fails after the cast leaves the proxy behind: the next call goes
    through it, though it has no object, or its death is not watched. *)
Lemma half_connected_is_used n n' cast :
  cn_manager n = true -> cn_ability n = true -> cn_cast n = Some cast -> cast && cn_memory n = false ->
  GetBackgroundTaskManagerProxy n new_client = (false, mkClient (Some cast) false) /\
  GetBackgroundTaskManagerProxy n' (mkClient (Some cast) false) = (true, mkClient (Some cast) false).
Proof.
  intros E1 E2 E3 E4. unfold GetBackgroundTaskManagerProxy. cbn. rewrite E1, E2, E3. cbn.
  destruct cast; [|done]. cbn in *. by rewrite E4.
Qed.

(** The states of a client: calls connect, and the service dies — which the client is told
    of where it watches the service. *)
Inductive client_reachable : ClientState -> Prop :=
| client_new : client_reachable new_client
| client_call n st : client_reachable st -> client_reachable (GetBackgroundTaskManagerProxy n st).2
| client_death st : client_reachable st -> cl_watched st = true -> client_reachable (ResetBackgroundTaskManagerProxy st).

Lemma watched_has_object st : client_reachable st -> cl_watched st = true -> cl_proxy_ st = Some true.
Proof.
  induction 1 as [|n st _ IH|st _ IH]; [done| |done].
  unfold GetBackgroundTaskManagerProxy. destruct (cl_proxy_ st) eqn:E; [cbn; by rewrite E|].
  repeat case_test; cbn; try done; try (intros Hw; specialize (IH Hw); congruence).
  by bool_prop.
Qed.
End Library.

(** ** The service behind the proxy *)
Section Service.
Context {sp : SystemParams} {actions : CommonEventActions} {sa : SystemAbilityIds} {store : RecordStore}
  {abilities : EffAbilityIds} `{ContinuousPlatform} `{Json J} `{EventHandler Q}.
Variable CheckSignature : string -> bool.
Implicit Types e : ServiceEnv J.
Implicit Types s : BackgroundTaskMgrService Q.
Abbreviation serve := (BackgroundTaskMgrSystem.serve CheckSignature).
Abbreviation SV := (SV (J := J) (Q := Q)).
Notation "m '$>' f" := (sv_bind m (fun r => sv_ret (f r))) (at level 60, only parsing).

(** The whole reply of the service to a request that has arrived. *)
Definition answer (r : ServiceRequest) : SV (Z * Out r) :=
  match r return SV (Z * Out r) with
  | RqRequestSuspendDelay callback =>
      sv_RequestSuspendDelay CheckSignature callback $> (fun x => (x.1, default (mkDelayInfo (-1) 0) (delay_info <$> x.2)))
  | RqGetRemainingDelayTime id => sv_GetRemainingDelayTime CheckSignature id $> (fun x => (x.1, default 0 x.2))
  | RqGetAllTransientTasks =>
      sv_GetAllTransientTasks CheckSignature $>
        (fun x => (x.1.1, (default 0 x.1.2, (fun d => mkDelayInfo d.1 d.2) <$> x.2)))
  | RqGetTransientTaskApps => sv_GetTransientTaskApps CheckSignature
  | RqStartBackgroundRunning p n c =>
      sv_StartBackgroundRunning CheckSignature (tp_received p) n c $> (fun x => (x.1.1, (x.1.2, x.2)))
  | RqUpdateBackgroundRunning p n c =>
      sv_UpdateBackgroundRunning CheckSignature (tp_received p) n c $> (fun x => (x.1.1, (x.1.2, x.2)))
  | RqRequestGetContinuousTasksByUidForInner uid => sv_RequestGetContinuousTasksByUidForInner CheckSignature uid
  | RqGetAllContinuousTasks => sv_GetAllContinuousTasks CheckSignature
  | RqGetAllContinuousTasksSuspended b => sv_GetAllContinuousTasksSuspended CheckSignature b
  | RqGetContinuousTaskApps => sv_GetContinuousTaskApps CheckSignature
  | RqGetAllContinuousTaskApps => sv_GetAllContinuousTaskApps CheckSignature
  | RqRequestAuthFromUser p callback id => sv_RequestAuthFromUser CheckSignature (tp_received p) callback id
  | RqCheckSpecialScenarioAuth app result v => sv_CheckSpecialScenarioAuth CheckSignature app result v
  | RqGetBackgroundTaskState p result => sv_GetBackgroundTaskState CheckSignature p result
  | RqGetAllContinuousTasksBySystem => sv_GetAllContinuousTasksBySystem CheckSignature
  | RqGetAllEfficiencyResources => sv_GetAllEfficiencyResources
  | RqGetEfficiencyResourcesInfos => sv_GetEfficiencyResourcesInfos $> (fun x => (x.1.1, (x.1.2, x.2)))
  | r => serve (rq_received r) $> (fun x => (x, tt))
  end.

(** Its code is what the dispatch of the service gives. *)
Lemma answer_code r e s : serve (rq_received r) e s = (fun x => (x.1.1, x.2)) <$> answer r e s.
Proof.
  destruct r; cbn [answer rq_received]; unfold BackgroundTaskMgrSystem.serve; rewrite ?sv_bind_at;
    match goal with |- context [match ?m with Some _ => _ | None => _ end] => by destruct m as [[? ?]|] end.
Qed.

(** What the client's proxy promises: the code of the reply, the out parameters of a call
    that succeeds, and the service as it is then. *)
Class ServiceBehind (W : Type) `{IBackgroundTaskMgr W} := {
  at_service : W -> ServiceEnv J * BackgroundTaskMgrService Q;
  transact_answers r w x o s' :
    answer r (at_service w).1 (at_service w).2 = Some ((x, o), s') ->
    (transact r w).1.1 = x /\ (x = ERR_OK -> (transact r w).1.2 = Some o) /\
    at_service (transact r w).2 = ((at_service w).1, s');
}.

Context `{ServiceBehind W}.
Implicit Types n : Platform.
Implicit Types st : ClientState.
Implicit Types w : W.

Lemma rq_param_sends r : rq_param (sends r) = rq_param r.
Proof. by destruct r. Qed.

(** C6. What goes through the library is decided by the service: where the client can connect
    and the library refuses nothing by itself, the code its caller gets, over parcels and
    proxy, is that of the service for this caller, and the service changes as the request
    has it. *)
Theorem library_requests_are_served r n st w x s' :
  of_library r = true -> refuses r = None -> (forall p, rq_param r = Some p -> modes_sent p) ->
  (GetBackgroundTaskManagerProxy n st).1 = true ->
  serve (sends r) (at_service w).1 (at_service w).2 = Some (x, s') ->
  exists st' w', library r n st w = (x, st', w') /\ at_service w' = ((at_service w).1, s').
Proof.
  intros Hl Hn Hm Hp Hs. rewrite library_run by done. destruct (GetBackgroundTaskManagerProxy n st) as [ok st'].
  simpl in Hp. subst ok. rewrite Hn.
  assert (serve (rq_received (sends r)) (at_service w).1 (at_service w).2 = Some (x, s')) as Hr.
  { rewrite <- Hs. apply service_arrives. intros p. rewrite rq_param_sends. apply Hm. }
  rewrite answer_code in Hr. destruct (answer (sends r) _ _) as [[[x' o] s2]|] eqn:Ha; [|done].
  simpl in Hr. injection Hr as -> ->. destruct (transact_answers (sends r) w x o s' Ha) as (Hx & _ & Hw).
  exists st', (transact (sends r) w).2. by rewrite Hx.
Qed.

Lemma library_start_ends p n st w :
  modes_sent p -> (GetBackgroundTaskManagerProxy n st).1 = true ->
  let e := (at_service w).1 in
  let s := (at_service w).2 in
  exists err p' st' w', cl_RequestStartBackgroundRunning p n st w = (err, p', st', w') /\
    let c := sv_continuous s in
    let c' := sv_continuous (at_service w').2 in
    (err <> ERR_OK /\ dom (tasks c') ⊆ dom (tasks c)) \/
    (exists r, start_succeeds p r (cont_env CheckSignature (sv_config s) e) c c' /\
       err = ce_SaveTaskRecord (se_cont e) /\ (err = ERR_OK -> p' = set_out_ids r p)).
Proof.
  intros Hm Hp e s. unfold cl_RequestStartBackgroundRunning. rewrite with_proxy_run.
  destruct (GetBackgroundTaskManagerProxy n st) as [ok st']. simpl in Hp. subst ok. unfold call. cbn [fst snd].
  set (r := RqStartBackgroundRunning p (tp_notificationId_ p) (tp_continuousTaskId_ p)).
  assert (exists x o s', answer r e s = Some ((x, o), s') /\
    ((x <> ERR_OK /\ dom (tasks (sv_continuous s')) ⊆ dom (tasks (sv_continuous s))) \/
     (exists q, start_succeeds p q (cont_env CheckSignature (sv_config s) e) (sv_continuous s) (sv_continuous s') /\
        x = ce_SaveTaskRecord (se_cont e) /\
        (x = ERR_OK -> o = (ct_notificationId_ q, ct_continuousTaskId_ q))))) as (x & o & s' & Ha & Ho).
  { cbn [answer r]. rewrite sv_bind_at. unfold sv_StartBackgroundRunning. checks. case_test.
    { cbn. do 3 eexists. split; [done|]. by left. }
    rewrite sv_bind_at, run_continuous_try.
    pose proof (start_ends (Some (tp_received p)) (cont_env CheckSignature (sv_config s) e) (sv_continuous s)) as Hstart.
    destruct (StartBackgroundRunning (Some (tp_received p)) _ _) as [r1 c1]. cbn [fst snd] in *.
    destruct Hstart as (err & p' & -> & Hcases). cbn. do 3 eexists. split; [done|].
    destruct Hcases as [[Hne Hd]|(q & t & Eq & -> & -> & Hst)].
    - left. unfold given_ids. cbn. rewrite (proj2 (Z.eqb_neq _ _) Hne). done.
    - right. injection Eq as <-. rewrite (received_without_ids _ Hm) in Hst |- *. exists t. unfold given_ids. cbn.
      split; [exact Hst|]. by case_test; bool_prop. }
  destruct (transact_answers r w x o s' Ha) as (Hx & Hout & Hw).
  destruct (transact r w) as [[x' out] w'] eqn:Et. cbn in Hx, Hout, Hw. subst x'.
  do 4 eexists. split; [done|]. rewrite Hw. destruct Ho as [Ho|(q & Hq & Hsave & Hids)]; [by left|right].
  exists q. split; [exact Hq|]. split; [done|]. intros Hok. rewrite (Hout Hok), (Hids Hok). done.
Qed.

(** A start through the library ends in one of two ways.  Its caller is given an error
    and no key is new; or the service, ready and allowing it, has a new task of the caller
    with what was asked for, the result is that of writing the file, and where that is
    success the caller's parameters hold the ids of that task and of its notification. *)
Theorem library_start_outcome p n st w :
  modes_sent p -> (GetBackgroundTaskManagerProxy n st).1 = true ->
  let e := (at_service w).1 in
  let s := (at_service w).2 in
  exists err p' st' w', cl_RequestStartBackgroundRunning p n st w = (err, p', st', w') /\
    let c := sv_continuous s in
    let c' := sv_continuous (at_service w').2 in
    (err <> ERR_OK /\ dom (tasks c') ⊆ dom (tasks c)) \/
    (exists r, start_succeeds p r (cont_env CheckSignature (sv_config s) e) c c' /\
       err = ce_SaveTaskRecord (se_cont e) /\ (err = ERR_OK -> p' = set_out_ids r p)).
Proof. apply library_start_ends. Qed.
End Service.
