(* ===== verification/ServiceWitness.v ===== *)
(** * The service on concrete inputs

    The instances at which the theorems on the service apply: an application and the
    resource scheduler as callers of a service whose continuous task manager is ready. *)

From S2P Require Import Prelude.
From S2P Require Import Errors.
From S2P Require Import KeyInfo.
From S2P Require Import Interfaces.
From S2P Require Import DeviceInfo.
From S2P Require Import DecisionMaker.
From S2P Require Import TransientTaskMgr.
From S2P Require Import TransientTaskMgrWitness.
From S2P Require Import ResourceTypes.
From S2P Require Import EfficiencyResources.
From S2P Require Import EfficiencyResourcesWitness.
From S2P Require Import Json.
From S2P Require Import BgtaskConfig.
From S2P Require Import BackgroundModes.
From S2P Require Import ContinuousTaskRecord.
From S2P Require Import ContinuousTypes.
From S2P Require Import ContinuousTaskMgr.
From S2P Require Import ContinuousTaskStart.
From S2P Require Import ContinuousTaskStop.
From S2P Require Import ContinuousSystem.
From S2P Require Import ContinuousTaskMgrSpec.
From S2P Require Import ContinuousInvariant.
From S2P Require Import ContinuousWellFormed.
From S2P Require Import ContinuousWitness.
From S2P Require Import BackgroundTaskMgrService.
From S2P Require Import BackgroundTaskMgrSystem.
From S2P Require Import BackgroundTaskMgrRun.
From S2P Require Import BackgroundTaskMgrProps.
From S2P Require Import BackgroundTaskMgrReady.
From S2P Require Import RequestArrival.
Local Open Scope Z_scope.

#[local] Existing Instance default_params.
#[local] Existing Instance ListQueue.list_queue.
#[local] Existing Instance demo_actions.
#[local] Existing Instance demo_abilities.
#[local] Existing Instance ability_ids.
#[local] Existing Instance phone.
#[local] Existing Instance ContinuousWitness.tree.
#[local] Instance no_records : RecordStore := {| RestoreResourceRecord := fun m => m |}.

Definition signed (name : string) : bool := true.
Definition caller (tokenType : ATokenTypeEnum) (uid : Z) : ServiceEnv json := {|
  se_tokenType := tokenType; se_IsAtomicService := fun _ => false; se_dumpGranted := false;
  se_transient := demo_ctx 1000; se_efficiency := eff_env 1000;
  se_cont := configured uid 8 new_BgtaskConfig; se_Publish := true; se_file := fun _ => None;
  se_SaveStringToFd := true
|}.
Definition an_app : ServiceEnv json := caller TOKEN_HAP 20000.
Definition scheduler : ServiceEnv json := caller TOKEN_NATIVE 1096.

(** A service none of whose managers has reported, but whose continuous task manager is
    ready to serve. *)
Abbreviation Svc := (BackgroundTaskMgrService ListQueue.queue).
Definition idle : Svc := mkService false 0 new_TransientTaskMgr new_EffMgr ready new_BgtaskConfig 0 0.
Definition after (r : ServiceRequest) (e : ServiceEnv json) (s : Svc) : Svc := default s (snd <$> serve signed r e s).

Lemma refused_requests_do_nothing_witness :
  serve signed (RqSuspendContinuousTask 20000 30 4 "20000_main_1" false) an_app idle =
  Some (ERR_BGTASK_PERMISSION_DENIED, idle).
Proof. by apply refused_requests_do_nothing. Defined.

Definition start : ServiceRequest := RqStartBackgroundRunning request (-1) (-1).
Definition running_one : Svc := Eval vm_compute in after start an_app idle.

Lemma start_well_typed : well_typed signed start an_app idle.
Proof. intros op [= <-]. split; [by vm_compute|]. split; vm_compute; split; discriminate. Qed.
Lemma start_served : serve signed start an_app idle = Some (ERR_OK, running_one).
Proof. vm_compute. reflexivity. Qed.

Lemma requests_keep_tasks_well_formed_witness :
  well_formed (tasks (sv_continuous running_one)) (cm_continuousTaskIdIndex_ (sv_continuous running_one)).
Proof.
  apply (requests_keep_tasks_well_formed signed idle); [exact ready_reachable|].
  eapply served_one; [exact start_well_typed|exact start_served|apply served_none].
Defined.

Lemma requests_start_tasks_of_their_caller_witness :
  ct_uid_ the_task = 20000 \/ is_Some (table_find 20000 g_innerApiReqBgRunningConfig) \/
  (ENG_MODE <> 0 /\ se_dumpGranted an_app = true).
Proof.
  apply (requests_start_tasks_of_their_caller signed start an_app idle ERR_OK running_one "20000_main_1" the_task);
    [exact ready_reachable|exact start_well_typed|exact start_served|by vm_compute|by vm_compute].
Defined.

Lemma published_when_all_reported_witness :
  exists s', reports [(4, an_app); (1, an_app); (1, an_app); (2, an_app)] idle = Some s' /\
    sv_running s' = true /\ sv_published s' = 1%nat /\ sv_config s' = bc_set_init true new_BgtaskConfig.
Proof.
  refine (proj2 (published_when_all_reported [(4, an_app); (1, an_app); (1, an_app); (2, an_app)] idle eq_refl eq_refl eq_refl _)
    [(4, an_app); (1, an_app); (1, an_app)] 2 an_app [] eq_refl eq_refl eq_refl).
  repeat constructor; set_solver.
Defined.

(** All have reported, and the service is stopped and started. *)
Definition published : Svc := Eval vm_compute in default idle (reports [(1, an_app); (2, an_app); (4, an_app)] idle).
Definition stopped_svc : Svc := Eval vm_compute in sv_set_running false published.
Definition restarted_svc : Svc := Eval vm_compute in
  default idle (lives signed [(LcStart 3051 true true true None None, an_app); (LcAddAbility 501, an_app)] stopped_svc).
Lemma stopped_service_never_runs_again_witness :
  sv_running restarted_svc = false /\ sv_published restarted_svc = 1%nat.
Proof.
  apply (stopped_service_never_runs_again signed published an_app tt stopped_svc
           [(LcStart 3051 true true true None None, an_app); (LcAddAbility 501, an_app)]); by vm_compute.
Defined.

Definition blocked : Svc := Eval vm_compute in after (RqSetMaliciousAppConfig {["app"%string]}) scheduler idle.
Definition settings : ServiceEnv json :=
  mkServiceEnv TOKEN_HAP (fun _ => false) false (demo_ctx 1000) (eff_env 1000)
    {| ce_callingUid := 20010; ce_callingPid := 31; ce_callingFullTokenId := 6; ce_callingTokenId := 6;
       ce_GetClientBundleName := fun _ => "settings"%string; ce_GetOsAccountLocalIdFromUid := fun _ => 100;
       ce_CheckPermission := fun _ => true; ce_CheckACLPermission := fun _ _ => true; ce_IsSystemApp := fun _ => true;
       ce_GetBundleInfo := fun _ _ => None; ce_GetBundleResourceInfo := fun _ => None;
       ce_GetAppIndexAndBundleNameByUid := fun _ => None; ce_GetForegroundApplications := None;
       ce_GetAllRunningProcesses := None; ce_GetAbilityRunningInfos := None; ce_ActiveOsAccountIds := None;
       ce_ForegroundOsAccounts := None; ce_IsTaskKeepingExempted := fun _ => false; ce_IsSpecialExempted := fun _ => false;
       ce_IsMaliciousApp := fun _ => false; ce_ResourceManager := None; ce_FormatByName := fun name _ => name;
       ce_PublishNotification := fun _ _ => true; ce_CancelNotification := fun _ _ => true;
       ce_GetActiveNotifications := None; ce_PublishContinuousTaskNotification := fun _ => true;
       ce_CreateActionButton := true; ce_SaveTaskRecord := ERR_OK; ce_SaveAuthRecord := ERR_OK |}
    true (fun _ => None) true.
Definition after_start : Svc := Eval vm_compute in after start an_app blocked.

Lemma blocked_application_is_not_supported_witness :
  exists s', sv_GetBackgroundTaskState signed (mkStateInfo 100 "app" 0 0) 5 settings after_start =
             Some ((ERR_OK, UserAuthResult.NOT_SUPPORTED), s').
Proof.
  apply (blocked_application_is_not_supported signed {["app"%string]} scheduler idle ERR_OK blocked [(start, an_app)]
           after_start settings "app" 100 0 5); try (by vm_compute); try done.
  by repeat constructor.
Defined.

Lemma service_subscribes_to_every_manager_witness :
  exists s', serve signed (RqSubscribeBackgroundTask (Some (mkProxy (Some 7))) 0) scheduler idle = Some (ERR_OK, s') /\
    Exists (fun i => si_object i = Some 7) (cm_bgTaskSubscribers_ (sv_continuous s')) /\
    Exists (fun p => AsObject p = Some 7) (tm_subscriberList_ (sv_transient s')) /\
    Exists (fun p => AsObject p = Some 7) (em_subscriberList_ (sv_efficiency s')).
Proof. exact (service_subscribes_to_every_manager signed 7 0 scheduler idle eq_refl). Defined.


(** ** An atomic service and the modes it may not use

    The modes an atomic service asks for are tested in [bgModeIds_]; a request of the old
    interface carries its mode in [bgModeId_]. *)
Definition atomic_caller : ServiceEnv json :=
  mkServiceEnv TOKEN_HAP (fun _ => true) false (demo_ctx 1000) (eff_env 1000) (configured 20000 1 new_BgtaskConfig)
    true (fun _ => None) true.
Definition transfer_request (batch : bool) : ContinuousTaskParam := {|
  tp_isNewApi_ := false; tp_bgModeId_ := BackgroundMode.DATA_TRANSFER; tp_wantAgent_ := None; tp_abilityName_ := "main";
  tp_appName_ := "App"; tp_isBatchApi_ := batch;
  tp_bgModeIds_ := if batch then [BackgroundMode.DATA_TRANSFER] else []; tp_abilityId_ := 1; tp_bgSubModeIds_ := [];
  tp_isCombinedTaskNotification_ := false; tp_combinedNotificationTaskId_ := -1; tp_updateTaskId_ := -1;
  tp_isByRequestObject_ := false; tp_appIndex_ := 0; tp_requestAuthApiVersion_ := 0; tp_notificationId_ := -1;
  tp_continuousTaskId_ := -1; tp_progressInfo_ := None
|}.
Definition code_of (r : ServiceRequest) (e : ServiceEnv json) (s : Svc) : option Z := fst <$> serve signed r e s.

(** An atomic service is refused a data transfer that it asks for with the list of modes, and
    gets it with the single mode of the old interface: the task runs. *)
Lemma atomic_service_starts_any_mode :
  code_of (RqStartBackgroundRunning (transfer_request true) (-1) (-1)) atomic_caller idle =
    Some ERR_BGTASK_PERMISSION_DENIED /\
  code_of (RqStartBackgroundRunning (transfer_request false) (-1) (-1)) atomic_caller idle = Some ERR_OK /\
  ct_bgModeId_ <$> tasks (sv_continuous (after (RqStartBackgroundRunning (transfer_request false) (-1) (-1)) atomic_caller idle))
    !! "20000_main_1"%string = Some BackgroundMode.DATA_TRANSFER.
Proof. split_and!; by vm_compute. Qed.

(** ** A request over a parcel *)
Lemma service_decides_as_sent_witness :
  exists s, serve signed (rq_received (RqStartBackgroundRunning (transfer_request true) 3 4)) an_app idle = Some s.
Proof.
  rewrite (service_decides_as_sent signed (RqStartBackgroundRunning (transfer_request true) 3 4) an_app idle).
  - by eexists; vm_compute.
  - intros p [= <-]. by left.
Defined.

From S2P Require Import EfficiencyResourcesSpec.
From S2P Require Import ContinuousStopProps.
From S2P Require Import ContinuousAbilityStop.
From S2P Require Import Parcel.
From S2P Require Import ParcelableProps.
From S2P Require Import ContinuousStartProps.
From S2P Require Import BackgroundTaskManager.
From S2P Require Import ClientProps.
From S2P Require Import Observers.
From S2P Require Import PluginAdapters.
From S2P Require Import ObserverProps.
From S2P Require Import BackgroundTaskObserver.


(** * The library on concrete inputs

    The service of one application behind a proxy that hands its replies on. *)

#[local] Existing Instance default_params.
#[local] Existing Instance ListQueue.list_queue.
#[local] Existing Instance demo_actions.
#[local] Existing Instance demo_abilities.
#[local] Existing Instance ability_ids.
#[local] Existing Instance phone.
#[local] Existing Instance ContinuousWitness.tree.
#[local] Existing Instance no_records.

Definition Behind : Type := ServiceEnv json * Svc.
#[local] Instance direct : IBackgroundTaskMgr Behind := fun r w =>
  match answer signed r w.1 w.2 with
  | Some ((x, o), s') => (x, Some o, (w.1, s'))
  | None => (ERR_BGTASK_SERVICE_INNER_ERROR, None, w)
  end.
#[local] Instance directly : ServiceBehind signed Behind.
Proof.
  refine {| at_service := fun w : Behind => w |}. intros r w x o s' E. unfold transact, direct. by rewrite E.
Defined.

Definition all_up : Platform := mkPlatform true true (Some true) true.
Definition app_and_service : Behind := (an_app, idle).

Lemma request_sent : modes_sent request.
Proof. by right. Qed.

Lemma library_requests_are_served_witness :
  exists st' w', library start all_up new_client app_and_service = (ERR_OK, st', w') /\
    at_service signed w' = (an_app, running_one).
Proof.
  refine (library_requests_are_served signed start all_up new_client app_and_service ERR_OK running_one
            eq_refl eq_refl _ eq_refl start_served).
  intros p [= <-]. exact request_sent.
Defined.

Lemma library_start_outcome_witness :
  exists err p' st' w',
    cl_RequestStartBackgroundRunning request all_up new_client app_and_service = (err, p', st', w') /\
    ((err <> ERR_OK /\ dom (tasks (sv_continuous (at_service signed w').2)) ⊆ dom (tasks (sv_continuous idle))) \/
     (exists r, start_succeeds request r (cont_env signed (sv_config idle) an_app) (sv_continuous idle)
                  (sv_continuous (at_service signed w').2) /\
        err = ce_SaveTaskRecord (se_cont an_app) /\ (err = ERR_OK -> p' = set_out_ids r request))).
Proof. exact (library_start_outcome signed request all_up new_client app_and_service request_sent eq_refl). Defined.

(** * Observers and plugins on concrete inputs

    An application starts a task and its ability terminates. *)

#[local] Existing Instance default_params.
#[local] Existing Instance ListQueue.list_queue.
#[local] Existing Instance demo_actions.
#[local] Existing Instance demo_abilities.
#[local] Existing Instance ability_ids.
#[local] Existing Instance phone.
#[local] Existing Instance ContinuousWitness.tree.
#[local] Existing Instance no_records.
#[local] Instance want_keys : WantKeys := {| KEY_UID := "uid"; KEY_USER_ID := "userId"; KEY_APP_INDEX := "appIndex" |}.
#[local] Instance resource_types : PluginAdapters.ResourceTypes := {|
  RES_TYPE_PROCESS_STATE_CHANGE := 4; RES_TYPE_ON_APP_STATE_CHANGED := 109; RES_TYPE_APP_STOPPED := 112;
  RES_TYPE_ABILITY_STATE_CHANGE := 3; RES_TYPE_OBSERVER_MANAGER_STATUS_CHANGE := 42;
  RES_TYPE_RSS_CLOUD_CONFIG_UPDATE := 132; RES_TYPE_AUDIO_RENDER_STATE_CHANGE := 26; RES_VALUE_FOR_ALL := -1;
  PROCESS_DIED := 0; PROCESS_FOREGROUND := 3; PROCESS_BACKGROUND := 4; PROCESS_CREATED := 1; STATE_CREATE := 0;
  STATE_TERMINATED := 4; ADD_SYSTEM_ABILITY := 0; AUDIO_POLICY_SERVICE_ID := 3009;
  BACKGROUND_TASK_MANAGER_SERVICE_ID := 1903; RENDERER_RUNNING := 1;
  application_state := fun _ => AS_OTHER; ability_state := fun _ => ABILITY_STATE_OTHER;
  process_state := fun _ => APP_STATE_OTHER; game_prelaunch := fun _ => false
|}.
#[local] Instance no_payload : PayloadParser json :=
  {| ParseStringParameterFromJson := fun _ _ => None; ParseIntParameterFromJson := fun _ _ => None;
     ParseStringJsonPayloadToNumber := fun _ _ => None |}.

#[local] Instance resource_values : ResourceValues.
Proof. split. by repeat constructor. Defined.
Lemma subscriptions_match_callbacks_witness :
  covered 112 7 (pm_effects (plugins_Init (mkPluginEnv true true) loaded)) <->
  is_Some (dispatched (plugins_Init (mkPluginEnv true true) loaded) 112 7).
Proof. apply subscriptions_match_callbacks. Defined.

Definition terminated : AbilityStateData := mkAbilityState "main" 20000 1 ABILITY_STATE_TERMINATED.
Definition ended : ObserverTask := TASK_ON_ABILITY_STATE_CHANGED 20000 "main" 1.
Definition rested : Svc := Eval vm_compute in default idle (snd <$> run_observer_task signed ended an_app running_one).

Lemma events_end_the_tasks_they_are_about_witness :
  exists t s2, [ended] = [t] /\ run_observer_task signed t an_app running_one = Some (tt, s2) /\
    tasks (sv_continuous s2) = without (of_context 20000 "main" 1) (tasks (sv_continuous running_one)).
Proof.
  apply (events_end_the_tasks_they_are_about signed [] loaded (PeAbilityStateChanged terminated) an_app running_one
           [ended] running_one an_app running_one); try done.
  intros _. eapply wf_ids, reachable_well_formed.
  exact (served_reachable signed idle running_one (served_one _ _ _ _ _ _ _ start_well_typed start_served (served_none _ _)) ready_reachable).
Defined.

Definition at_first : System ListQueue.queue := mkSystem idle new_BgtaskPluginMgr [].

(** Whether the observer's check passes, on a concrete list. *)
Definition reportable_b (x : ContEffect) : bool :=
  match x with EObserver _ i => CheckContinuousTaskInfo i | _ => true end.
Lemma reportable_all l : forallb reportable_b l = true -> Forall reportable l.
Proof.
  induction l as [|x l IH]; [by constructor|]. cbn. intros [Hx Hl]%andb_prop.
  constructor; [by destruct x|by apply IH].
Qed.

Lemma scheduler_knows_running_tasks_witness :
  running (tasks (exec (OpAppStopped 20000) answers one_task).2) =
  read_reports ∅ (reports (cm_effects (exec (OpAppStopped 20000) answers one_task).2)).
Proof.
  apply (scheduler_knows_running_tasks one_task).
  - apply one_task_reachable.
  - split; [by vm_compute|done].
  - intros uid [=].
  - apply reportable_all. by vm_compute.
  - apply reportable_all. by vm_compute.
  - by vm_compute.
Defined.
