(* ===== verification/NapiCommon.v ===== *)
(** * The script engine, as the language bindings use it

    The bindings of interfaces/kits/napi read the arguments of a script's call through
    Node-API.  The engine is not part of the repository: the class [NodeApi] gives what a
    read of a script value [V] returns, with no result where the status is not [napi_ok].
    The values the bindings create are [JsValue]s; creating one does not fail.

    A binding runs in the monad [NM S]: [S] is the object it fills in, and the errors it
    throws are listed in order, of which the script sees one. *)

From S2P Require Import Prelude.
From S2P Require Import Errors.
From S2P Require Import ContinuousTaskRecord.
From S2P Require Import ResourceTypes.
From S2P Require Import ContinuousTypes.
From S2P Require Import ContinuousQueries.
From S2P Require Import BackgroundModes.
From S2P Require Import Parcelables.
Local Open Scope Z_scope.

Inductive napi_valuetype :=
  napi_undefined | napi_null | napi_boolean | napi_number | napi_string | napi_symbol
| napi_object | napi_function | napi_external | napi_bigint.

#[export] Instance napi_valuetype_eq_dec : EqDecision napi_valuetype.
Proof. solve_decision. Defined.

(** What the bindings read of an ability's context: the name and the application index in its
    ability info, its token, its record id, and whether it shows a page ([GetUIContent]). *)
Record AbilityContext := mkContext {
  ac_GetAbilityInfo : option (string * Z);
  ac_GetToken : bool;
  ac_GetAbilityRecordId : Z;
  ac_GetUIContent : bool;
}.

(** [napi_get_value_string_utf8 v n]: the bytes written to a buffer of [n] bytes.
    [IsStageContext]: no result where the read fails.  [GetStageModeContext]: the context a
    value of the stage model wraps, converted to that of an ability.  [GetCurrentAbility]:
    the context of the ability the script runs in, in the FA model. *)
Class NodeApi (V : Type) := {
  napi_get_undefined : V;
  napi_typeof : V -> option napi_valuetype;
  napi_get_value_int32 : V -> option Z;
  napi_get_value_uint32 : V -> option Z;
  napi_get_value_bool : V -> option bool;
  napi_get_value_string_utf8 : V -> Z -> option string;
  napi_is_array : V -> option bool;
  napi_get_array_length : V -> option Z;
  napi_get_element : V -> Z -> option V;
  napi_has_named_property : V -> string -> option bool;
  napi_get_named_property : V -> string -> option V;
  napi_strict_equals : V -> V -> bool;
  napi_unwrap : V -> option WantAgent;
  ConvertFromJsValue : V -> option string;
  IsStageContext : V -> option bool;
  GetStageModeContext : V -> option AbilityContext;
  GetCurrentAbility : option AbilityContext;
}.

(** ** Values made for the script *)
Inductive JsValue :=
| JsNull
| JsUndefined
| JsBool (b : bool)
| JsInt32 (n : Z)
| JsString (s : string)
| JsArray (l : list JsValue)
| JsObject (l : list (string * JsValue)).

(** A property of a created object: the last value set. *)
Definition js_get (v : JsValue) (name : string) : option JsValue :=
  match v with
  | JsObject l => (list_to_map (reverse l) : gmap string JsValue) !! name
  | _ => None
  end.

(** ** The monad *)

(** [napi_throw_error]; [ThrowLastError]: what [NAPI_CALL] does where a call fails. *)
Inductive Thrown :=
| ThrowError (code msg : string)
| ThrowLastError.

#[export] Instance Thrown_eq_dec : EqDecision Thrown.
Proof. solve_decision. Defined.

Definition NM (S A : Type) : Type := S -> A * S * list Thrown.

Section Monad.
Context {S : Type}.
Definition nret {A} (a : A) : NM S A := fun s => (a, s, []).
Definition nbind {A B} (m : NM S A) (k : A -> NM S B) : NM S B :=
  fun s => let '(a, s, t) := m s in let '(b, s, t') := k a s in (b, s, t ++ t').
Definition nget {A} (f : S -> A) : NM S A := fun s => (f s, s, []).
Definition nset (f : S -> S) : NM S unit := fun s => (tt, f s, []).
Definition nthrow (e : Thrown) : NM S unit := fun s => (tt, s, [e]).
(** An object reached from the one at hand. *)
Definition nzoom {T A} (f : S -> T) (g : T -> S -> S) (m : NM T A) : NM S A :=
  fun s => let '(a, t, e) := m (f s) in (a, g t s, e).
(** A local object: its contents at the end are given back. *)
Definition nlocal {T A} (t : T) (m : NM T A) : NM S (A * T) := fun s => let '(a, t, e) := m t in ((a, t), s, e).
End Monad.

Declare Scope nm_scope.
Delimit Scope nm_scope with nm.
Notation "x <<- m ;; k" := (nbind m (fun x => k))
  (at level 199, m at level 99, k at level 200, only parsing) : nm_scope.
Notation "'nlet' p := m 'in' k" := (nbind m (fun p => k))
  (at level 10, p strict pattern, m at level 99, k at level 200, only parsing) : nm_scope.
Notation "m ;>> k" := (nbind m (fun _ => k))
  (at level 199, k at level 200, only parsing) : nm_scope.
Open Scope nm_scope.

(** [if (x == nullptr) return nullptr;] and the like: a read that must give something. *)
Definition ntry {S A B} (o : option A) (failed : NM S B) (k : A -> NM S B) : NM S B :=
  match o with Some a => k a | None => failed end.

(** [argv[i]] of the values passed; the engine fills the rest with undefined. *)
Definition arg {V} `{NodeApi V} (argv : list V) (i : nat) : V := nth i argv napi_get_undefined.

(** The number of values passed. *)
Definition argc {V} (argv : list V) : Z := Z.of_nat (length argv).

(** ** Facts *)
Lemma nbind_ret {S A B} (a : A) (k : A -> NM S B) s : nbind (nret a) k s = k a s.
Proof. unfold nbind, nret. by destruct (k a s) as [[b s'] t]. Qed.

Lemma nbind_assoc {S A B C} (m : NM S A) (k : A -> NM S B) (j : B -> NM S C) s :
  nbind (nbind m k) j s = nbind m (fun a => nbind (k a) j) s.
Proof.
  unfold nbind. destruct (m s) as [[a s1] t1]. destruct (k a s1) as [[b s2] t2].
  destruct (j b s2) as [[c s3] t3]. by rewrite app_assoc.
Qed.

(** * What the Node-API bindings share

    [Common] of interfaces/kits/napi/src/common.cpp: the script values made of the results,
    the errors thrown, and the arguments read.  A function whose [napi_value] result only
    says whether it succeeded gives a [bool], or an option of what it read. *)

Import BackgroundMode BackgroundTaskMode BackgroundTaskSubmode.

Definition STR_MAX_SIZE : Z := 64.
Definition INVALID_CONTINUOUSTASK_ID : Z := -2.
Definition INVALID_MODE_ID : Z := -1.
Definition MIN_PROGRESS_VALUE : Z := 0.
Definition MAX_PROGRESS_VALUE : Z := 100.
Definition BackgroundSubMode_END : Z := 2.
Definition BackgroundTaskSubmode_END : Z := 12.

(** ** Fields of the objects filled in *)
Definition request_eta (r : ContinuousTaskRequest) : ContinuousTaskRequest :=
  mkTaskRequest (cr_backgroundTaskModes_ r) (cr_backgroundTaskSubmodes_ r) (cr_wantAgent_ r)
    (cr_combinedTaskNotification_ r) (cr_continuousTaskId_ r) (cr_isBuildByRequest_ r) (cr_progressInfo_ r).
Definition SetBackgroundTaskMode (v : list Z) r : ContinuousTaskRequest := ltac:(with_field request_eta cr_backgroundTaskModes_ r v).
Definition SetBackgroundTaskSubMode (v : list Z) r : ContinuousTaskRequest := ltac:(with_field request_eta cr_backgroundTaskSubmodes_ r v).
Definition SetWantAgent (v : option WantAgent) r : ContinuousTaskRequest := ltac:(with_field request_eta cr_wantAgent_ r v).
Definition SetCombinedTaskNotification (v : bool) r : ContinuousTaskRequest := ltac:(with_field request_eta cr_combinedTaskNotification_ r v).
Definition SetContinuousTaskId (v : Z) r : ContinuousTaskRequest := ltac:(with_field request_eta cr_continuousTaskId_ r v).
Definition SetProgressInfo (v : option ProgressInfo) r : ContinuousTaskRequest := ltac:(with_field request_eta cr_progressInfo_ r v).
Definition new_ContinuousTaskRequest : ContinuousTaskRequest := mkTaskRequest [] [] None false (-1) false None.

Definition progress_eta (i : ProgressInfo) : ProgressInfo :=
  mkProgressInfo (pg_title_ i) (pg_fileName_ i) (pg_progressValue_ i) (pg_isMute_ i).
Definition SetTitle (v : string) i : ProgressInfo := ltac:(with_field progress_eta pg_title_ i v).
Definition SetFileName (v : string) i : ProgressInfo := ltac:(with_field progress_eta pg_fileName_ i v).
Definition SetProgressValue (v : Z) i : ProgressInfo := ltac:(with_field progress_eta pg_progressValue_ i v).
Definition SetIsMute (v : bool) i : ProgressInfo := ltac:(with_field progress_eta pg_isMute_ i v).

Definition state_eta (i : BackgroundTaskStateInfo) : BackgroundTaskStateInfo :=
  mkStateInfo (bs_userId_ i) (bs_bundleName_ i) (bs_appIndex_ i) (bs_authResult_ i).
Definition SetUserId (v : Z) i : BackgroundTaskStateInfo := ltac:(with_field state_eta bs_userId_ i v).
Definition SetBundleName (v : string) i : BackgroundTaskStateInfo := ltac:(with_field state_eta bs_bundleName_ i v).
Definition SetAppIndex (v : Z) i : BackgroundTaskStateInfo := ltac:(with_field state_eta bs_appIndex_ i v).
Definition SetUserAuthResult (v : Z) i : BackgroundTaskStateInfo := ltac:(with_field state_eta bs_authResult_ i v).
Definition new_BackgroundTaskStateInfo : BackgroundTaskStateInfo := mkStateInfo (-1) "" (-1) UserAuthResult.NOT_SUPPORTED.

Module Common.

(** ** Results *)
Definition GetCallbackErrorValue (errCode : Z) (errMsg : string) : JsValue :=
  if errCode =? ERR_OK then JsNull
  else JsObject [("code", JsInt32 errCode); ("message", JsString errMsg)]%string.

Definition GetExpireCallbackValue (errCode : Z) (value : JsValue) : JsValue :=
  JsObject [("code", JsInt32 errCode); ("data", value)]%string.

(** What becomes of a callback or a promise: the callback is called with the values, of
    which a null pointer is none; the promise is resolved or rejected. *)
Inductive Settled :=
| CallFunction (args : list (option JsValue))
| Resolve (value : option JsValue)
| Reject (value : JsValue).

(** The overload without an error code. *)
Definition SetCallbackValue (result : JsValue) : Settled := CallFunction [Some (GetExpireCallbackValue 0 result)].

Definition SetCallback (errCode : Z) (result : option JsValue) : Settled :=
  CallFunction [Some (if errCode =? ERR_OK then JsNull
                      else GetCallbackErrorValue (ErrorReport.FindErrCode errCode) (ErrorReport.FindErrMsg errCode));
                result].

Definition SetAuthCallback (authResult : Z) : Settled := CallFunction [Some (JsInt32 authResult)].

Definition error_with_data (errCodeInfo : Z) (errMsg : string) : JsValue :=
  JsObject [("data", JsInt32 errCodeInfo); ("code", JsInt32 errCodeInfo); ("message", JsString errMsg)]%string.

Definition SetPromise (errCode : Z) (result : option JsValue) : Settled :=
  if errCode =? ERR_OK then Resolve result
  else Reject (error_with_data (ErrorReport.FindErrCode errCode) (ErrorReport.FindErrMsg errCode)).

Definition ReturnCallbackPromise (isCallback : bool) (errCode : Z) (result : option JsValue) : Settled :=
  if isCallback then SetCallback errCode result else SetPromise errCode result.

(** The callback is called at once and null returned, or a rejected promise returned. *)
Definition JSParaError (callback : bool) : Settled :=
  if callback then SetCallback ERR_BGTASK_INVALID_PARAM None
  else Reject (error_with_data ERR_BGTASK_INVALID_PARAM (ErrorReport.FindErrMsg ERR_BGTASK_INVALID_PARAM)).

(** A null pointer becomes [false], with nothing set; else the properties are set. *)
Definition SetDelaySuspendInfo (delaySuspendInfo : option DelaySuspendInfo) : bool * JsValue :=
  match delaySuspendInfo with
  | None => (false, JsObject [])
  | Some i => (true, JsObject [("requestId", JsInt32 (di_requestId_ i));
                               ("actualDelayTime", JsInt32 (di_actualDelayTime_ i))]%string)
  end.

Definition NapiSetBgTaskMode (continuousTaskInfo : ContinuousTaskInfo) : list (string * JsValue) :=
  let modes := filter (fun mode => mode < BM_END) (ti_backgroundModes_ continuousTaskInfo) in
  let subModes :=
    if ti_isByRequestObject_ continuousTaskInfo
    then map (fun subMode => JsString (GetBackgroundTaskSubmodeStr subMode))
           (filter (fun subMode => subMode < BackgroundTaskSubmode_END) (ti_backgroundSubModes_ continuousTaskInfo))
    else map (fun subMode => JsString (GetBackgroundSubModeStr subMode))
           (filter (fun subMode => subMode < BackgroundSubMode_END) (ti_backgroundSubModes_ continuousTaskInfo)) in
  [("backgroundModes", JsArray (map (fun mode => JsString (GetBackgroundModeStr mode)) modes));
   ("backgroundSubModes", JsArray subModes)]%string.

Definition FormatContinuousTaskInfo (continuousTaskInfo : ContinuousTaskInfo) : list (string * JsValue) :=
  [("bundleName", JsString (ti_bundleName_ continuousTaskInfo));
   ("appIndex", JsInt32 (ti_appIndex_ continuousTaskInfo))]%string.

Definition GetNapiContinuousTaskInfo (continuousTaskInfo : ContinuousTaskInfo) : JsValue :=
  JsObject
    ([("abilityName", JsString (ti_abilityName_ continuousTaskInfo));
      ("uid", JsInt32 (ti_uid_ continuousTaskInfo));
      ("pid", JsInt32 (ti_pid_ continuousTaskInfo));
      ("isFromWebView", JsBool (ti_isFromWebView_ continuousTaskInfo))]%string ++
     NapiSetBgTaskMode continuousTaskInfo ++
     [("notificationId", JsInt32 (ti_notificationId_ continuousTaskInfo));
      ("continuousTaskId", JsInt32 (ti_continuousTaskId_ continuousTaskInfo));
      ("abilityId", JsInt32 (ti_abilityId_ continuousTaskInfo));
      ("wantAgentBundleName", JsString (ti_wantAgentBundleName_ continuousTaskInfo));
      ("wantAgentAbilityName", JsString (ti_wantAgentAbilityName_ continuousTaskInfo));
      ("suspendState", JsBool (ti_suspendState_ continuousTaskInfo))]%string ++
     FormatContinuousTaskInfo continuousTaskInfo).

Definition GetNapiDelaySuspendInfo (i : DelaySuspendInfo) : JsValue :=
  JsObject [("requestId", JsInt32 (di_requestId_ i)); ("actualDelayTime", JsInt32 (di_actualDelayTime_ i))]%string.

(** The level is named only where it is not the default. *)
Definition GetNapiEfficiencyResourcesInfo (i : EfficiencyResourceInfo) : JsValue :=
  JsObject
    ([("resourceTypes", JsInt32 (int32 (inf_resourceNumber_ i)));
      ("timeout", JsInt32 (int32 (inf_timeOut_ i)));
      ("isPersistent", JsBool (inf_isPersist_ i));
      ("isForProcess", JsBool (inf_isProcess_ i));
      ("reason", JsString (inf_reason_ i));
      ("uid", JsInt32 (inf_uid_ i));
      ("pid", JsInt32 (inf_pid_ i))]%string ++
     (if inf_cpuLevel_ i =? CPU_LEVEL_DEFAULT then [] else [("cpuLevel", JsInt32 (inf_cpuLevel_ i))]%string)).

(** The entry of a task made of what subscribers are told about it. *)
Definition GetNapiCallBackInfo (i : ContinuousTaskCallbackInfo) : JsValue :=
  GetNapiContinuousTaskInfo {|
    ti_abilityName_ := ci_abilityName_ i; ti_uid_ := ci_creatorUid_ i; ti_pid_ := ci_creatorPid_ i;
    ti_isFromWebView_ := ci_isFromWebview_ i; ti_backgroundModes_ := ci_typeIds_ i;
    ti_backgroundSubModes_ := ci_backgroundSubModes_ i; ti_notificationId_ := ci_notificationId_ i;
    ti_continuousTaskId_ := ci_continuousTaskId_ i; ti_abilityId_ := ci_abilityId_ i;
    ti_wantAgentBundleName_ := ci_wantAgentBundleName_ i; ti_wantAgentAbilityName_ := ci_wantAgentAbilityName_ i;
    ti_suspendState_ := ci_suspendState_ i; ti_bundleName_ := ci_bundleName_ i; ti_appIndex_ := ci_appIndex_ i;
    ti_isByRequestObject_ := ci_isByRequestObject_ i |}.

(** ** Errors *)
Definition HandleErrCode {S} (errCode : Z) (isThrow : bool) : NM S unit :=
  return_if negb isThrow || (errCode =? ERR_OK), nret tt ;;
  let errMsg := ErrorReport.FindErrMsg errCode in
  let errCodeInfo := ErrorReport.FindErrCode errCode in
  if bool_decide (errMsg <> "")%string then nthrow (ThrowError (pretty errCodeInfo) errMsg) else nret tt.

Definition HandleParamErr {S} (errCode : Z) (isThrow : bool) : NM S bool :=
  return_if negb isThrow || (errCode =? ERR_OK), nret false ;;
  let errMsg := BusinessErrorMap.GetParamErrMsg errCode in
  if bool_decide (errMsg <> "")%string
  then nthrow (ThrowError (pretty ERR_BGTASK_INVALID_PARAM) ("BussinessError 401: Parameter error. " +:+ errMsg)) ;>>
       nret true
  else nret false.

(** ** Arguments *)
Section Arguments.
Context `{NodeApi V}.
Implicit Types value objValue : V.

Definition typeof value : napi_valuetype := default napi_undefined (napi_typeof value).
Definition has_type (t : napi_valuetype) value : bool := bool_decide (napi_typeof value = Some t).

Definition GetInt32NumberValue value : option Z :=
  if has_type napi_number value then napi_get_value_int32 value else None.

Definition GetStringValue value : option string :=
  if has_type napi_string value then napi_get_value_string_utf8 value (STR_MAX_SIZE - 1) else None.

(** A failed call throws here ([NAPI_CALL]). *)
Definition GetU16StringValue {S} value : NM S (option string) :=
  match napi_typeof value with
  | None => nthrow ThrowLastError ;>> nret None
  | Some napi_string =>
      match napi_get_value_string_utf8 value (STR_MAX_SIZE - 1) with
      | None => nthrow ThrowLastError ;>> nret None
      | Some str => nret (Some str)
      end
  | Some _ => nret None
  end.

Definition GetBooleanValue value : option bool :=
  if has_type napi_boolean value then napi_get_value_bool value else None.

Definition getNamedProperty objValue (propertyName : string) : option V :=
  if default false (napi_has_named_property objValue propertyName)
  then napi_get_named_property objValue propertyName else None.

Definition GetIntProperty objValue (propertyName : string) : Z :=
  match napi_get_named_property objValue propertyName with
  | None => INVALID_CONTINUOUSTASK_ID
  | Some value =>
      if bool_decide (typeof value = napi_number)
      then default INVALID_CONTINUOUSTASK_ID (napi_get_value_int32 value) else -1
  end.

Definition GetBoolProperty objValue (propertyName : string) : bool :=
  match napi_get_named_property objValue propertyName with
  | None => false
  | Some value =>
      if bool_decide (typeof value = napi_boolean) then default false (napi_get_value_bool value) else false
  end.

Definition GetStrValue objValue (propertyName : string) : string :=
  match napi_get_named_property objValue propertyName with
  | None => ""
  | Some value =>
      if bool_decide (typeof value = napi_string)
      then default "" (napi_get_value_string_utf8 value (STR_MAX_SIZE - 1)) else ""
  end.

(** *** Progress *)
Definition GetprogressInfoParam objValue : NM ProgressInfo bool :=
  ntry (getNamedProperty objValue "title") (nret false) (fun titleValue =>
  ntry (GetStringValue titleValue) (nret false) (fun title =>
  nset (SetTitle title) ;>>
  ntry (getNamedProperty objValue "fileName") (nret false) (fun fileNameValue =>
  ntry (GetStringValue fileNameValue) (nret false) (fun fileName =>
  nset (SetFileName fileName) ;>>
  ok <<- match progressValue ← getNamedProperty objValue "progressValue"; GetInt32NumberValue progressValue with
         | Some progressValue =>
             if (progressValue <? MIN_PROGRESS_VALUE) || (progressValue >? MAX_PROGRESS_VALUE)
             then HandleErrCode ERR_BGTASK_CONTINUOUS_PROGRESS_INFO_INVALID true ;>> nret false
             else nset (SetProgressValue progressValue) ;>> nret true
         | None => nret true
         end ;;
  if ok : bool then nset (SetIsMute (GetBoolProperty objValue "isMute")) ;>> nret true else nret false)))).

Definition GetprogressInfo objValue : NM ProgressInfo bool :=
  ntry (getNamedProperty objValue "progressInfo") (nret false) (fun progressInfoValue =>
  if bool_decide (typeof progressInfoValue = napi_object) then GetprogressInfoParam progressInfoValue
  else nret false).

(** *** Requests for continuous tasks *)

(** The loop over an array of modes or submodes: numbers that are not negative. *)
Definition read_mode (napiMode : V) : option Z :=
  return_if bool_decide (typeof napiMode <> napi_number), None ;;
  let intValue := default INVALID_MODE_ID (napi_get_value_int32 napiMode) in
  if intValue <? 0 then None else Some intValue.
Definition read_modes (arrayValue : V) (length : Z) : option (list Z) :=
  mapM (fun i => napiMode ← napi_get_element arrayValue i; read_mode napiMode) (seqZ 0 length).

Definition GetBackgroundTaskModesFromArray (arrayValue : V) : NM ContinuousTaskRequest bool :=
  return_if negb (default false (napi_is_array arrayValue)), nret false ;;
  ntry (read_modes arrayValue (default 0 (napi_get_array_length arrayValue))) (nret false) (fun backgroundTaskModes =>
  nset (SetBackgroundTaskMode backgroundTaskModes) ;>> nret true).
Definition GetBackgroundTaskModesProperty (object : V) (propertyName : string) : NM ContinuousTaskRequest bool :=
  ntry (napi_get_named_property object propertyName) (nret false) GetBackgroundTaskModesFromArray.

Definition GetBackgroundTaskSubmodesFromArray (arrayValue : V) : NM ContinuousTaskRequest bool :=
  return_if negb (default false (napi_is_array arrayValue)), nret false ;;
  ntry (read_modes arrayValue (default 0 (napi_get_array_length arrayValue))) (nret false) (fun backgroundTaskSubModes =>
  nset (SetBackgroundTaskSubMode backgroundTaskSubModes) ;>> nret true).
Definition GetBackgroundTaskSubmodesProperty (object : V) (propertyName : string) : NM ContinuousTaskRequest bool :=
  ntry (napi_get_named_property object propertyName) (nret false) GetBackgroundTaskSubmodesFromArray.

Definition GetWantAgentProperty (object : V) (propertyName : string) : NM ContinuousTaskRequest bool :=
  ntry (napi_get_named_property object propertyName) (nret false) (fun value =>
  return_if bool_decide (typeof value <> napi_object), nret false ;;
  ntry (napi_unwrap value) (nret false) (fun wantAgentPtr =>
  nset (SetWantAgent (Some wantAgentPtr)) ;>> nret true)).

Definition GetContinuousTaskRequest objValue : NM ContinuousTaskRequest bool :=
  modes <<- GetBackgroundTaskModesProperty objValue "backgroundTaskModes" ;;
  if negb modes then nret false else
  submodes <<- GetBackgroundTaskSubmodesProperty objValue "backgroundTaskSubmodes" ;;
  if negb submodes then nret false else
  wantAgent <<- GetWantAgentProperty objValue "wantAgent" ;;
  if negb wantAgent then nret false else
  let continuousTaskId := GetIntProperty objValue "continuousTaskId" in
  if continuousTaskId =? INVALID_CONTINUOUSTASK_ID then nret false else
  nset (SetContinuousTaskId continuousTaskId) ;>>
  (if GetBoolProperty objValue "combinedTaskNotification" then nset (SetCombinedTaskNotification true) else nret tt) ;>>
  if negb (default false (napi_has_named_property objValue "progressInfo")) then nret true else
  nlet (ok, progressInfo) := nlocal new_ProgressInfo (GetprogressInfo objValue) in
  if ok : bool then nset (SetProgressInfo (Some progressInfo)) ;>> nret true else nret false.

(** *** The state of an authorisation *)
Definition GetBackgroundTaskStateParam objValue (inculdeAurh : bool) : NM BackgroundTaskStateInfo bool :=
  let userId := GetIntProperty objValue "userId" in
  if userId =? -1 then nret false else
  nset (SetUserId userId) ;>>
  let appIndex := GetIntProperty objValue "appIndex" in
  if appIndex =? -1 then nret false else
  nset (SetAppIndex appIndex) ;>>
  let bundleName := GetStrValue objValue "bundleName" in
  if bool_decide (bundleName = "")%string then nret false else
  nset (SetBundleName bundleName) ;>>
  if inculdeAurh then
    let authResult := GetIntProperty objValue "authResult" in
    if (authResult =? -1) || (authResult >=? UserAuthResult.UAR_END) || (authResult <? UserAuthResult.NOT_SUPPORTED)
    then nret false
    else nset (SetUserAuthResult authResult) ;>> nret true
  else nret true.

(** *** Subscribers *)
Definition has_function objValue (name : string) : bool :=
  match napi_get_named_property objValue name with
  | None => false
  | Some value => bool_decide (typeof value = napi_function)
  end.
Definition CheckSubscriberParam objValue : bool :=
  let names := ["onContinuousTaskStart"; "onContinuousTaskUpdate"; "onContinuousTaskStop"]%string in
  forallb (fun name => default false (napi_has_named_property objValue name)) names && forallb (has_function objValue) names.
End Arguments.

(** ** The modes of a request object, as the service counts them

    [backgroundTaskModes[index]] is read without a bound: no result where there are fewer
    modes than submodes and one is needed. *)
Fixpoint convert_modes (backgroundTaskModes backgroundTaskSubModes : list Z) (index : nat) : option (list Z) :=
  match backgroundTaskSubModes with
  | [] => Some []
  | subMode :: backgroundTaskSubModes =>
      mode ← (if subMode =? SUBMODE_NORMAL_NOTIFICATION
              then GetV9BackgroundModeByMode <$> backgroundTaskModes !! index
              else Some (GetV9BackgroundModeBySubMode subMode));
      modes ← convert_modes backgroundTaskModes backgroundTaskSubModes (S index);
      Some (mode :: modes)
  end.
Definition TaskModeTypeConversion (request : ContinuousTaskRequest) : option ContinuousTaskRequest :=
  modes ← convert_modes (cr_backgroundTaskModes_ request) (cr_backgroundTaskSubmodes_ request) 0;
  Some (SetBackgroundTaskSubMode (cr_backgroundTaskSubmodes_ request) (SetBackgroundTaskMode modes request)).
End Common.
