(* ===== verification/NapiContinuousTask.v ===== *)
(** * Continuous tasks from a script

    interfaces/kits/napi/src/bg_continuous_task_napi_module.cpp.  A call reads its arguments
    into an [AsyncCallbackInfo]; where they are refused it throws and queues nothing, else
    it queues work: [execute] runs in another thread over the client library, [complete]
    then settles the promise or calls the callback.  Allocations succeed.

    A step that would read through a null pointer or past the end of a vector has no
    result. *)

From S2P Require Import Prelude.
From S2P Require Import Errors.
From S2P Require Import ContinuousTaskRecord.
From S2P Require Import ContinuousTypes.
From S2P Require Import ContinuousQueries.
From S2P Require Import ContinuousAuth.
From S2P Require Import BackgroundModes.
From S2P Require Import Parcelables.
From S2P Require Import BackgroundTaskManager.
From S2P Require Import NapiCommon.
Import BackgroundTaskMode BackgroundTaskSubmode Common.
Local Open Scope Z_scope.

Definition MAX_START_BG_RUNNING_PARAMS : Z := 4.
Definition MAX_START_BG_RUNNING_BY_RQUEST_PARAMS : Z := 2.
Definition MAX_STOP_BG_RUNNING_PARAMS : Z := 2.
Definition MAX_UPDATE_BG_RUNNING_PARAMS : Z := 2.
Definition MAX_GET_ALL_CONTINUOUSTASK_PARAMS : Z := 2.
Definition MAX_GET_BACKGROUND_TASK_STATE : Z := 1.
Definition MAX_SET_BACKGROUND_TASK_STATE : Z := 1.
Definition MAX_CHECK_SPRCIAL_SCENARIO_AUTH : Z := 1.
Definition BG_MODE_ID_BEGIN : Z := 1.
Definition BG_MODE_ID_END : Z := 9.
Definition SYSTEM_LIVE_CONTENT_TYPE : Z := 8.
Definition SLOT_TYPE : Z := 4.
Definition MAX_TASK_NUMS : Z := 1.
Definition ARGC_ONE : Z := 1.
Definition ARGC_TWO : Z := 2.
Definition UPDATE_PROGRESS_INFO_PARAMS : Z := 2.
Definition g_backgroundModes : list string :=
  ["dataTransfer"; "audioPlayback"; "audioRecording"; "location"; "bluetoothInteraction";
   "multiDeviceConnection"; "wifiInteraction"; "voip"; "taskKeeping"]%string.

(** ** The state of a call *)
Record AsyncCallbackInfo := mkAsync {
  as_errCode : Z;
  as_callback : bool;
  as_abilityContext : option AbilityContext;
  as_bgMode : Z;
  as_wantAgent : option WantAgent;
  as_bgModes : list Z;
  as_isBatchApi : bool;
  as_includeSuspended : bool;
  as_request : ContinuousTaskRequest;
  as_removeTaskId : Z;
  as_checkSpecialAuthApiVersion : Z;
  as_notificationId : Z;
  as_continuousTaskId : Z;
  as_authResult : Z;
  as_list : list ContinuousTaskInfo;
}.
Definition new_AsyncCallbackInfo : AsyncCallbackInfo :=
  mkAsync 0 false None 0 None [] false false new_ContinuousTaskRequest (-1) API_VERSION_REQUEST_SPECIAL_USER_AUTH
    (-1) (-1) 0 [].

Definition async_eta (i : AsyncCallbackInfo) : AsyncCallbackInfo :=
  mkAsync (as_errCode i) (as_callback i) (as_abilityContext i) (as_bgMode i) (as_wantAgent i) (as_bgModes i)
    (as_isBatchApi i) (as_includeSuspended i) (as_request i) (as_removeTaskId i) (as_checkSpecialAuthApiVersion i)
    (as_notificationId i) (as_continuousTaskId i) (as_authResult i) (as_list i).
Implicit Types i : AsyncCallbackInfo.
Definition as_set_errCode (v : Z) i : AsyncCallbackInfo := ltac:(with_field async_eta as_errCode i v).
Definition as_set_callback (v : bool) i : AsyncCallbackInfo := ltac:(with_field async_eta as_callback i v).
Definition as_set_abilityContext (v : option AbilityContext) i : AsyncCallbackInfo := ltac:(with_field async_eta as_abilityContext i v).
Definition as_set_bgMode (v : Z) i : AsyncCallbackInfo := ltac:(with_field async_eta as_bgMode i v).
Definition as_set_wantAgent (v : option WantAgent) i : AsyncCallbackInfo := ltac:(with_field async_eta as_wantAgent i v).
Definition as_set_bgModes (v : list Z) i : AsyncCallbackInfo := ltac:(with_field async_eta as_bgModes i v).
Definition as_set_isBatchApi (v : bool) i : AsyncCallbackInfo := ltac:(with_field async_eta as_isBatchApi i v).
Definition as_set_includeSuspended (v : bool) i : AsyncCallbackInfo := ltac:(with_field async_eta as_includeSuspended i v).
Definition as_set_request (v : ContinuousTaskRequest) i : AsyncCallbackInfo := ltac:(with_field async_eta as_request i v).
Definition as_set_removeTaskId (v : Z) i : AsyncCallbackInfo := ltac:(with_field async_eta as_removeTaskId i v).
Definition as_set_checkSpecialAuthApiVersion (v : Z) i : AsyncCallbackInfo := ltac:(with_field async_eta as_checkSpecialAuthApiVersion i v).
Definition as_set_notificationId (v : Z) i : AsyncCallbackInfo := ltac:(with_field async_eta as_notificationId i v).
Definition as_set_continuousTaskId (v : Z) i : AsyncCallbackInfo := ltac:(with_field async_eta as_continuousTaskId i v).
Definition as_set_authResult (v : Z) i : AsyncCallbackInfo := ltac:(with_field async_eta as_authResult i v).
Definition as_set_list (v : list ContinuousTaskInfo) i : AsyncCallbackInfo := ltac:(with_field async_eta as_list i v).

(** The functions a call queues: what runs in the other thread, and what settles it. *)
Inductive ExecuteCB :=
| XStartBackgroundRunning
| XStartBackgroundRunningByRequest
| XUpdateBackgroundRunning
| XUpdateBackgroundRunningByRequest
| XStopBackgroundRunning
| XStopBackgroundRunningByTaskId
| XGetAllContinuousTasks
| XGetAllContinuousTasksIncludeSuspended
| XCheckSpecialScenarioAuth
| XObtainAllContinuousTasks.
Inductive CompleteCB := CCallback | CPromise | CGetAllContinuousTasks | CCheckSpecialScenarioAuth.

(** What a step of a call gives: a null pointer, null, or queued work with a promise or a
    callback. *)
Inductive Reply :=
| Nullptr
| Void
| Queued (promise : bool) (execute : ExecuteCB) (complete : CompleteCB).

(** What the script gets: a value or a promise, the errors thrown, the work that follows. *)
Inductive Returned := RValue (v : JsValue) | RPromise.
Record NapiCall := mkCall {
  nc_return : Returned;
  nc_thrown : list Thrown;
  nc_work : option (ExecuteCB * CompleteCB * AsyncCallbackInfo);
}.
Definition null_call (thrown : list Thrown) : NapiCall := mkCall (RValue JsNull) thrown None.

(** [ret], with null for a null pointer, after which the [AsyncCallbackInfo] is deleted. *)
Definition finish (i : AsyncCallbackInfo) (m : NM AsyncCallbackInfo Reply) : NapiCall :=
  let '(ret, i, thrown) := m i in
  match ret with
  | Nullptr | Void => null_call thrown
  | Queued promise x c => mkCall (if promise then RPromise else RValue JsNull) thrown (Some (x, c, i))
  end.

(** [HandleParamErr] or [HandleErrCode], [errCode] set, and the answer false. *)
Definition refuse (errCode : Z) (isThrow : bool) : NM AsyncCallbackInfo bool :=
  HandleParamErr errCode isThrow ;>> nset (as_set_errCode errCode) ;>> nret false.
Definition refuse_code (errCode : Z) : NM AsyncCallbackInfo bool :=
  HandleErrCode errCode true ;>> nset (as_set_errCode errCode) ;>> nret false.

(** ** Arguments *)
Section Arguments.
Context `{NodeApi V}.
Implicit Types (value objValue : V) (argv : list V).
Abbreviation N := (NM AsyncCallbackInfo).

Definition GetAbilityContext value : option AbilityContext :=
  if default false (IsStageContext value) then GetStageModeContext value else GetCurrentAbility.

(** [GetAbilityContext] into the state; with [k] where there is one. *)
Definition with_context value (isThrow : bool) (k : N bool) : N bool :=
  ntry (GetAbilityContext value) (refuse ERR_CONTEXT_NULL_OR_TYPE_ERR isThrow)
    (fun c => nset (as_set_abilityContext (Some c)) ;>> k).

Definition CheckBackgroundMode (isThrow : bool) : N bool :=
  out_of_range <<- nget (fun i =>
    existsb (fun mode => (mode <? BG_MODE_ID_BEGIN) || (mode >? BG_MODE_ID_END))
      (if as_isBatchApi i then as_bgModes i else [as_bgMode i])) ;;
  if out_of_range : bool then refuse ERR_BGMODE_RANGE_ERR isThrow else nret true.

Definition StartBackgroundRunningCheckParam (isThrow : bool) : N bool :=
  i <<- nget id ;;
  if negb (as_errCode i =? ERR_OK) then nret false else
  match as_abilityContext i with
  | None => refuse ERR_CONTEXT_NULL_OR_TYPE_ERR isThrow
  | Some abilityContext =>
      if bool_decide (ac_GetAbilityInfo abilityContext = None) then refuse ERR_ABILITY_INFO_EMPTY isThrow else
      if bool_decide (as_wantAgent i = None) then refuse ERR_WANTAGENT_NULL_OR_TYPE_ERR isThrow else
      if negb (ac_GetToken abilityContext) then refuse ERR_GET_TOKEN_ERR isThrow else
      CheckBackgroundMode isThrow
  end.

Definition StopBackgroundRunningCheckParam (isThrow : bool) : N bool :=
  i <<- nget id ;;
  match as_abilityContext i with
  | None => refuse ERR_CONTEXT_NULL_OR_TYPE_ERR isThrow
  | Some abilityContext =>
      if bool_decide (ac_GetAbilityInfo abilityContext = None) then refuse ERR_ABILITY_INFO_EMPTY isThrow else
      if negb (ac_GetToken abilityContext) then refuse ERR_GET_TOKEN_ERR isThrow else
      nret true
  end.

(** [napi_typeof] under [NAPI_CALL]. *)
Definition typeof_or_throw {S A} value (failed : A) (k : napi_valuetype -> NM S A) : NM S A :=
  match napi_typeof value with
  | None => nthrow ThrowLastError ;>> nret failed
  | Some valuetype => k valuetype
  end.

Definition GetMode value : N bool :=
  typeof_or_throw value false (fun valuetype =>
    if bool_decide (valuetype <> napi_number)
    then HandleParamErr ERR_BGMODE_NULL_OR_TYPE_ERR true ;>> nret false
    else nset (fun i => as_set_isBatchApi false (as_set_bgMode (default (as_bgMode i) (napi_get_value_uint32 value)) i)) ;>>
         nret true).

(** The place of a name in [g_backgroundModes], counted from one. *)
Definition mode_of_name (result : string) : option Z :=
  p ← list_find (eq result) g_backgroundModes; Some (Z.of_nat p.1 + 1).

Fixpoint GetModes_loop value (l : list Z) : N bool :=
  match l with
  | [] => nret true
  | n :: l =>
      match mode ← napi_get_element value n; result ← GetStringValue mode; mode_of_name result with
      | None => HandleParamErr ERR_BGMODE_NULL_OR_TYPE_ERR true ;>> nret false
      | Some mode =>
          nset (fun i => if bool_decide (mode ∈ as_bgModes i) then i else as_set_bgModes (as_bgModes i ++ [mode]) i) ;>>
          GetModes_loop value l
      end
  end.
Definition GetModes value : N bool :=
  let arrayLen := default 0 (napi_get_array_length value) in
  if arrayLen =? 0 then HandleParamErr ERR_BGMODE_NULL_OR_TYPE_ERR true ;>> nret false else
  nset (as_set_isBatchApi true) ;>> GetModes_loop value (seqZ 0 arrayLen).

Definition GetBackgroundMode value : N bool :=
  if default false (napi_is_array value) then GetModes value else GetMode value.

Definition GetWantAgent {S} value : NM S (option WantAgent) :=
  typeof_or_throw value None (fun valuetype =>
    if bool_decide (valuetype <> napi_object)
    then HandleParamErr ERR_WANTAGENT_NULL_OR_TYPE_ERR true ;>> nret None
    else nret (napi_unwrap value)).

Definition GetIncludeSuspended {S} value : NM S (option bool) :=
  typeof_or_throw value None (fun valuetype =>
    if bool_decide (valuetype <> napi_boolean)
    then HandleParamErr ERR_WANTAGENT_NULL_OR_TYPE_ERR true ;>> nret None
    else nret (Some (default false (napi_get_value_bool value)))).

Definition GetAllContinuousTasksCheckParamBeforeSubmit argv (isThrow : bool) : N bool :=
  if (argc argv >? MAX_GET_ALL_CONTINUOUSTASK_PARAMS) || (argc argv <? ARGC_ONE)
  then refuse ERR_PARAM_NUMBER_ERR isThrow else
  with_context (arg argv 0) isThrow
    (if argc argv =? ARGC_TWO then
       includeSuspended <<- GetIncludeSuspended (arg argv 1) ;;
       ntry includeSuspended (refuse ERR_BGMODE_NULL_OR_TYPE_ERR isThrow)
         (fun includeSuspended => nset (as_set_includeSuspended includeSuspended) ;>> nret true)
     else nret true).

Definition StartBackgroundRunningCheckParamBeforeSubmit argv (isThrow : bool) : N bool :=
  with_context (arg argv 0) isThrow
    (bgMode <<- GetBackgroundMode (arg argv 1) ;;
     if negb bgMode then refuse ERR_BGMODE_NULL_OR_TYPE_ERR isThrow else
     wantAgent <<- GetWantAgent (arg argv 2) ;;
     ntry wantAgent (refuse ERR_WANTAGENT_NULL_OR_TYPE_ERR isThrow)
       (fun wantAgent => nset (as_set_wantAgent (Some wantAgent)) ;>> nret true)).

(** *** A request object *)
Definition CheckSpecialModeParma : N bool :=
  request <<- nget as_request ;;
  let backgroundTaskModes := cr_backgroundTaskModes_ request in
  let count mode := Z.of_nat (count_occ Z.eq_dec backgroundTaskModes mode) in
  let specialModeSize := count MODE_SPECIAL_SCENARIO_PROCESSING in
  if cr_combinedTaskNotification_ request && (specialModeSize >? 0)
  then refuse_code ERR_BGTASK_CONTINUOUS_SPECIAL_SCENARIO_PROCESSING_NOT_MERGE_NOTIFICATION else
  if cr_combinedTaskNotification_ request && (count MODE_DATA_TRANSFER >? 0)
  then refuse_code ERR_BGTASK_CONTINUOUS_DATA_TRANSFER_NOT_MERGE_NOTIFICATION else
  if specialModeSize >? MAX_TASK_NUMS
  then refuse_code ERR_BGTASK_SPECIAL_SCENARIO_PROCESSING_ONLY_ALLOW_ONE_APPLICATION else
  if (specialModeSize =? MAX_TASK_NUMS) && (Z.of_nat (length backgroundTaskModes) >? MAX_TASK_NUMS)
  then refuse_code ERR_BGTASK_SPECIAL_SCENARIO_PROCESSING_CONFLICTS_WITH_OTHER_TASK
  else nret true.

(** The loop over modes and submodes of the same number. *)
Definition check_submode (mode subMode : Z) : Z :=
  if (subMode >=? BackgroundTaskSubmode_END) || (subMode <? SUBMODE_CAR_KEY_NORMAL_NOTIFICATION)
  then ERR_BGTASK_CONTINUOUS_MODE_OR_SUBMODE_CROSS_BORDER else
  if subMode =? SUBMODE_NORMAL_NOTIFICATION
  then if IsModeTypeMatching mode then ERR_OK else ERR_BGTASK_CONTINUOUS_MODE_OR_SUBMODE_TYPE_MISMATCH
  else if GetSubModeTypeMatching subMode =? mode then ERR_OK else ERR_BGTASK_CONTINUOUS_MODE_OR_SUBMODE_TYPE_MISMATCH.
Fixpoint check_submodes (l : list (Z * Z)) : N bool :=
  match l with
  | [] => nret true
  | (mode, subMode) :: l =>
      let result := check_submode mode subMode in
      if result =? ERR_OK then check_submodes l else refuse_code result
  end.

Definition StartBackgroundRunningCheckModes : N bool :=
  request <<- nget as_request ;;
  let backgroundTaskModes := cr_backgroundTaskModes_ request in
  let backgroundTaskSubmodes := cr_backgroundTaskSubmodes_ request in
  if (length backgroundTaskModes =? 0)%nat || (length backgroundTaskSubmodes =? 0)%nat
  then refuse_code ERR_BGTASK_CONTINUOUS_MODE_OR_SUBMODE_IS_EMPTY else
  if negb (length backgroundTaskModes =? length backgroundTaskSubmodes)%nat
  then refuse_code ERR_BGTASK_CONTINUOUS_MODE_OR_SUBMODE_LENGTH_MISMATCH else
  special <<- CheckSpecialModeParma ;;
  if negb special then nret false else
  check_submodes (combine backgroundTaskModes backgroundTaskSubmodes).

Definition StartBackgroundRunningCheckRequest argv (isThrow : bool) : N bool :=
  if negb (argc argv =? MAX_UPDATE_BG_RUNNING_PARAMS) then refuse ERR_PARAM_NUMBER_ERR isThrow else
  with_context (arg argv 0) isThrow
    (abilityContext <<- nget as_abilityContext ;;
     if bool_decide (abilityContext ≫= ac_GetAbilityInfo = None) then refuse ERR_ABILITY_INFO_EMPTY isThrow else
     request <<- nzoom as_request as_set_request (GetContinuousTaskRequest (arg argv 1)) ;;
     if negb request then refuse_code ERR_BGTASK_CONTINUOUS_REQUEST_NULL_OR_TYPE else
     StartBackgroundRunningCheckModes).

Definition UpdateBackgroundRunningCheckParam argv (isThrow : bool) : N bool :=
  if negb (argc argv =? MAX_UPDATE_BG_RUNNING_PARAMS) then refuse ERR_PARAM_NUMBER_ERR isThrow else
  with_context (arg argv 0) isThrow
    (bgMode <<- GetBackgroundMode (arg argv 1) ;;
     if negb bgMode then refuse ERR_BGMODE_NULL_OR_TYPE_ERR isThrow else nret true).

(** ** Queued work *)
Definition StartBackgroundRunningAsync argv (argCallback : nat) (isThrow : bool) : N Reply :=
  errCode <<- nget as_errCode ;;
  if isThrow && negb (errCode =? ERR_OK) then nret Nullptr else
  typeof_or_throw (arg argv argCallback) Nullptr (fun valuetype =>
    if bool_decide (valuetype <> napi_function)
    then HandleParamErr ERR_CALLBACK_NULL_OR_TYPE_ERR isThrow ;>> nret Nullptr else
    nset (as_set_callback true) ;>>
    ok <<- StartBackgroundRunningCheckParam isThrow ;;
    if negb ok && isThrow then nret Nullptr else nret (Queued false XStartBackgroundRunning CCallback)).
Definition StartBackgroundRunningPromise (isThrow : bool) : N Reply :=
  ok <<- StartBackgroundRunningCheckParam isThrow ;;
  if negb ok then nret Nullptr else nret (Queued true XStartBackgroundRunning CPromise).
Definition StartBackgroundRunningByRequestPromise : N Reply :=
  nret (Queued true XStartBackgroundRunningByRequest CPromise).
Definition StartBackgroundRunningSubmit argv (isThrow : bool) : N Reply :=
  ok <<- StartBackgroundRunningCheckRequest argv isThrow ;;
  if negb ok then nret Void else StartBackgroundRunningByRequestPromise.

Definition UpdateBackgroundRunningPromise (isThrow : bool) : N Reply :=
  ok <<- CheckBackgroundMode isThrow ;;
  if negb ok then nret Nullptr else nret (Queued true XUpdateBackgroundRunning CPromise).
Definition UpdateBackgroundRunningByRequestPromise : N Reply :=
  request <<- nget as_request ;;
  if cr_continuousTaskId_ request <? 0 then refuse_code ERR_BGTASK_CONTINUOUS_TASKID_INVALID ;>> nret Nullptr
  else nret (Queued true XUpdateBackgroundRunningByRequest CPromise).

Definition StopBackgroundRunningAsync argv (argCallback : nat) (isThrow : bool) : N Reply :=
  errCode <<- nget as_errCode ;;
  if isThrow && negb (errCode =? ERR_OK) then nret Nullptr else
  typeof_or_throw (arg argv argCallback) Nullptr (fun valuetype =>
    if bool_decide (valuetype <> napi_function)
    then HandleParamErr ERR_CALLBACK_NULL_OR_TYPE_ERR isThrow ;>> nret Nullptr else
    nset (as_set_callback true) ;>>
    ok <<- StopBackgroundRunningCheckParam isThrow ;;
    if negb ok && isThrow then nret Nullptr else nret (Queued false XStopBackgroundRunning CCallback)).
Definition StopBackgroundRunningPromise (isThrow : bool) : N Reply :=
  ok <<- StopBackgroundRunningCheckParam isThrow ;;
  if negb ok then nret Nullptr else nret (Queued true XStopBackgroundRunning CPromise).
Definition StopBackgroundRunningByTaskIdPromise (isThrow : bool) : N Reply :=
  ok <<- StopBackgroundRunningCheckParam isThrow ;;
  if negb ok then nret Nullptr else nret (Queued true XStopBackgroundRunningByTaskId CPromise).
Definition StopBackgroundRunningBySubmit argv (isThrow : bool) : N Reply :=
  if argc argv >? MAX_STOP_BG_RUNNING_PARAMS then refuse ERR_PARAM_NUMBER_ERR isThrow ;>> nret Nullptr else
  let value := arg argv 1 in
  if bool_decide (typeof value = napi_number) then
    let taskIdValue := default (-1) (napi_get_value_int32 value) in
    if taskIdValue <? 0 then refuse_code ERR_BGTASK_CONTINUOUS_TASKID_INVALID ;>> nret Nullptr
    else nset (as_set_removeTaskId taskIdValue) ;>> StopBackgroundRunningByTaskIdPromise isThrow
  else StopBackgroundRunningAsync argv 1 isThrow.

Definition GetAllContinuousTasksPromise : N Reply := nret (Queued true XGetAllContinuousTasks CGetAllContinuousTasks).
Definition GetAllContinuousTasksIncludeSuspendedPromise : N Reply :=
  nret (Queued true XGetAllContinuousTasksIncludeSuspended CGetAllContinuousTasks).
Definition CheckSpecialScenarioAuthPromise : N Reply :=
  nret (Queued true XCheckSpecialScenarioAuth CCheckSpecialScenarioAuth).
Definition ObtainAllContinuousTasksPromise : N Reply :=
  nret (Queued true XObtainAllContinuousTasks CGetAllContinuousTasks).

(** ** The functions of the script *)
Definition StartBackgroundRunning argv (isThrow : bool) : NapiCall :=
  finish new_AsyncCallbackInfo
    (if argc argv >? MAX_START_BG_RUNNING_PARAMS then HandleParamErr ERR_PARAM_NUMBER_ERR isThrow ;>> nret Void else
     if argc argv =? MAX_START_BG_RUNNING_BY_RQUEST_PARAMS then StartBackgroundRunningSubmit argv isThrow else
     ok <<- StartBackgroundRunningCheckParamBeforeSubmit argv isThrow ;;
     if negb ok then nret Void else
     if argc argv =? MAX_START_BG_RUNNING_PARAMS then StartBackgroundRunningAsync argv 3 isThrow
     else StartBackgroundRunningPromise isThrow).

Definition UpdateBackgroundRunning argv (isThrow : bool) : NapiCall :=
  finish new_AsyncCallbackInfo
    (if negb (argc argv =? MAX_UPDATE_BG_RUNNING_PARAMS)
     then HandleParamErr ERR_PARAM_NUMBER_ERR isThrow ;>> nret Void else
     if default false (napi_is_array (arg argv 1)) then
       ok <<- UpdateBackgroundRunningCheckParam argv isThrow ;;
       if ok : bool then UpdateBackgroundRunningPromise isThrow else nret Nullptr
     else
       ok <<- StartBackgroundRunningCheckRequest argv isThrow ;;
       if ok : bool then UpdateBackgroundRunningByRequestPromise else nret Nullptr).

(** Refused early, the script gets undefined ([nullptr]), not null. *)
Definition StopBackgroundRunning argv (isThrow : bool) : NapiCall :=
  let refused c := mkCall (RValue JsUndefined) (HandleParamErr c isThrow new_AsyncCallbackInfo).2 None in
  if argc argv >? MAX_STOP_BG_RUNNING_PARAMS then refused ERR_PARAM_NUMBER_ERR else
  match GetAbilityContext (arg argv 0) with
  | None => refused ERR_CONTEXT_NULL_OR_TYPE_ERR
  | Some abilityContext =>
      finish (as_set_abilityContext (Some abilityContext) new_AsyncCallbackInfo)
        (if argc argv =? MAX_STOP_BG_RUNNING_PARAMS then StopBackgroundRunningBySubmit argv isThrow
         else StopBackgroundRunningPromise isThrow)
  end.

Definition GetAllContinuousTasks argv (isThrow : bool) : NapiCall :=
  finish new_AsyncCallbackInfo
    (ok <<- GetAllContinuousTasksCheckParamBeforeSubmit argv isThrow ;;
     if negb ok then nret Void else
     if argc argv =? ARGC_ONE then GetAllContinuousTasksPromise else GetAllContinuousTasksIncludeSuspendedPromise).

Definition CheckSpecialScenarioUserAuth argv (apiVersion : Z) : NapiCall :=
  finish (as_set_checkSpecialAuthApiVersion apiVersion new_AsyncCallbackInfo)
    (if negb (argc argv =? MAX_CHECK_SPRCIAL_SCENARIO_AUTH) then HandleParamErr ERR_PARAM_NUMBER_ERR true ;>> nret Void else
     match GetAbilityContext (arg argv 0) with
     | None => HandleParamErr ERR_CONTEXT_NULL_OR_TYPE_ERR true ;>> nret Void
     | Some abilityContext =>
         nset (as_set_abilityContext (Some abilityContext)) ;>>
         if bool_decide (ac_GetAbilityInfo abilityContext = None)
         then HandleParamErr ERR_ABILITY_INFO_EMPTY true ;>> nret Void
         else CheckSpecialScenarioAuthPromise
     end).

Definition ObtainAllContinuousTasks : NapiCall := finish new_AsyncCallbackInfo ObtainAllContinuousTasksPromise.

Definition StartBackgroundRunningThrow argv : NapiCall := StartBackgroundRunning argv true.
Definition UpdateBackgroundRunningThrow argv : NapiCall := UpdateBackgroundRunning argv true.
Definition StopBackgroundRunningThrow argv : NapiCall := StopBackgroundRunning argv true.
Definition GetAllContinuousTasksThrow argv : NapiCall := GetAllContinuousTasks argv true.
Definition CheckSpecialScenarioAuthResult argv : NapiCall :=
  CheckSpecialScenarioUserAuth argv API_VERSION_CHECK_SPECIAL_USER_AUTH_RESULT.
Definition CheckSpecialScenarioAuth argv : NapiCall := CheckSpecialScenarioUserAuth argv API_VERSION_CHECK_SPECIAL_USER_AUTH.
End Arguments.

(** * Continuous tasks from a script: the calls of the library

    The rest of bg_continuous_task_napi_module.cpp: the functions queued work runs over the
    client library and those that settle it, and the functions of the script that call the
    library at once. *)

Import BackgroundTaskMode Common.

(** ** Settling *)
Definition CallbackCompletedCB (i : AsyncCallbackInfo) : Settled :=
  let errCode := as_errCode i in
  if errCode =? ERR_OK then CallFunction [Some JsUndefined; Some (JsInt32 0)]
  else CallFunction [Some (GetCallbackErrorValue (ErrorReport.FindErrCode errCode) (ErrorReport.FindErrMsg errCode));
                     Some JsUndefined].

Definition reject (errCode : Z) : Settled :=
  Reject (GetCallbackErrorValue (ErrorReport.FindErrCode errCode) (ErrorReport.FindErrMsg errCode)).

Definition PromiseCompletedCB (i : AsyncCallbackInfo) : Settled :=
  if as_errCode i =? ERR_OK then
    Resolve (Some
      (if (0 <? length (as_bgModes i))%nat then
         JsObject [("slotType", JsInt32 SLOT_TYPE); ("contentType", JsInt32 SYSTEM_LIVE_CONTENT_TYPE);
                   ("notificationId", JsInt32 (as_notificationId i));
                   ("continuousTaskId", JsInt32 (as_continuousTaskId i))]%string
       else JsInt32 0))
  else reject (as_errCode i).

(** Also [ObtainAllContinuousTasksPromiseCompletedCB]. *)
Definition GetAllContinuousTasksPromiseCompletedCB (i : AsyncCallbackInfo) : Settled :=
  if as_errCode i =? ERR_OK then Resolve (Some (JsArray (map GetNapiContinuousTaskInfo (as_list i))))
  else reject (as_errCode i).

Definition CheckSpecialScenarioAuthPromiseCompletedCB (i : AsyncCallbackInfo) : Settled :=
  if as_errCode i =? ERR_OK then Resolve (Some (JsInt32 (int32 (as_authResult i)))) else reject (as_errCode i).

Definition complete (c : CompleteCB) (i : AsyncCallbackInfo) : Settled :=
  match c with
  | CCallback => CallbackCompletedCB i
  | CPromise => PromiseCompletedCB i
  | CGetAllContinuousTasks => GetAllContinuousTasksPromiseCompletedCB i
  | CCheckSpecialScenarioAuth => CheckSpecialScenarioAuthPromiseCompletedCB i
  end.

(** ** Work *)
Section Work.
Context `{IBackgroundTaskMgr W}.
Abbreviation CL := (CL (W := W)).

Definition cl_map {A B} (f : A -> B) (m : CL A) : CL B := fun n st w => let '(a, st, w) := m n st w in (f a, st, w).

(** With the context and the ability info the work goes by; it has no result where it goes
    by a null pointer. *)
Definition with_ability i (k : AbilityContext -> string * Z -> CL AsyncCallbackInfo) : CL (option AsyncCallbackInfo) :=
  match as_abilityContext i with
  | None => cl_ret None
  | Some c => match ac_GetAbilityInfo c with None => cl_ret None | Some info => cl_map Some (k c info) end
  end.

(** Nothing is done where the arguments were refused. *)
Definition unless_refused i (m : CL (option AsyncCallbackInfo)) : CL (option AsyncCallbackInfo) :=
  if negb (as_errCode i =? ERR_OK) then cl_ret (Some i) else m.

Definition with_ids i (r : Z * ContinuousTaskParam) : AsyncCallbackInfo :=
  as_set_continuousTaskId (tp_continuousTaskId_ r.2)
    (as_set_notificationId (tp_notificationId_ r.2) (as_set_errCode r.1 i)).

Definition set_appIndex (v : Z) (p : ContinuousTaskParam) : ContinuousTaskParam :=
  mkParam (tp_isNewApi_ p) (tp_bgModeId_ p) (tp_wantAgent_ p) (tp_abilityName_ p) (tp_appName_ p) (tp_isBatchApi_ p)
    (tp_bgModeIds_ p) (tp_abilityId_ p) (tp_bgSubModeIds_ p) (tp_isCombinedTaskNotification_ p)
    (tp_combinedNotificationTaskId_ p) (tp_updateTaskId_ p) (tp_isByRequestObject_ p) v
    (tp_requestAuthApiVersion_ p) (tp_notificationId_ p) (tp_continuousTaskId_ p) (tp_progressInfo_ p).

Definition start_param i (c : AbilityContext) (info : string * Z) : ContinuousTaskParam :=
  set_appIndex info.2
    (new_ContinuousTaskParam true (as_bgMode i) (as_wantAgent i) info.1 "" (as_isBatchApi i) (as_bgModes i)
       (ac_GetAbilityRecordId c)).
Definition StartBackgroundRunningExecuteCB i : CL (option AsyncCallbackInfo) :=
  unless_refused i (with_ability i (fun c info =>
    cl_map (with_ids i) (BackgroundTaskMgrHelper.RequestStartBackgroundRunning (start_param i c info)))).

Definition update_param i (c : AbilityContext) (info : string * Z) : ContinuousTaskParam :=
  new_ContinuousTaskParam true (as_bgMode i) None info.1 "" true (as_bgModes i) (ac_GetAbilityRecordId c).
Definition UpdateBackgroundRunningExecuteCB i : CL (option AsyncCallbackInfo) :=
  unless_refused i (with_ability i (fun c info =>
    cl_map (with_ids i) (BackgroundTaskMgrHelper.RequestUpdateBackgroundRunning (update_param i c info)))).

(** What a request object is sent as: [startId] the task whose notification it joins,
    [updateId] the one it changes. *)
Definition request_param (r : ContinuousTaskRequest) (mode : Z) (name : string) (abilityId startId updateId appIndex : Z) :
    ContinuousTaskParam :=
  mkParam true mode (cr_wantAgent_ r) name "" true (cr_backgroundTaskModes_ r) abilityId (cr_backgroundTaskSubmodes_ r)
    (cr_combinedTaskNotification_ r) startId updateId true appIndex API_VERSION_REQUEST_SPECIAL_USER_AUTH (-1) (-1)
    (cr_progressInfo_ r).

(** The request with its modes converted, and the first of them. *)
Definition with_request i (k : ContinuousTaskRequest -> Z -> CL (option AsyncCallbackInfo)) : CL (option AsyncCallbackInfo) :=
  match r ← TaskModeTypeConversion (as_request i); mode ← head (cr_backgroundTaskModes_ r); Some (r, mode) with
  | None => cl_ret None
  | Some (r, mode) => k r mode
  end.
Definition with_request_ids i (request : ContinuousTaskRequest) (r : Z * ContinuousTaskParam) : AsyncCallbackInfo :=
  with_ids (as_set_bgModes (cr_backgroundTaskModes_ request) (as_set_request request i)) r.

Definition StartBackgroundRunningByRequestExecuteCB i : CL (option AsyncCallbackInfo) :=
  unless_refused i (with_request i (fun r mode => with_ability i (fun c info =>
    cl_map (with_request_ids i r)
      (BackgroundTaskMgrHelper.RequestStartBackgroundRunning
         (request_param r mode info.1 (ac_GetAbilityRecordId c) (cr_continuousTaskId_ r) (-1) info.2))))).
Definition UpdateBackgroundRunningByRequestExecuteCB i : CL (option AsyncCallbackInfo) :=
  unless_refused i (with_request i (fun r mode => with_ability i (fun c info =>
    cl_map (with_request_ids i r)
      (BackgroundTaskMgrHelper.RequestUpdateBackgroundRunning
         (request_param r mode info.1 (ac_GetAbilityRecordId c) (-1) (cr_continuousTaskId_ r) (-1)))))).

Definition StopBackgroundRunningExecuteCB i : CL (option AsyncCallbackInfo) :=
  unless_refused i (with_ability i (fun c info =>
    cl_map (fun errCode => as_set_errCode errCode i)
      (BackgroundTaskMgrHelper.RequestStopBackgroundRunning info.1 (ac_GetAbilityRecordId c) (-1)))).
Definition StopBackgroundRunningByTaskIdExecuteCB i : CL (option AsyncCallbackInfo) :=
  unless_refused i (with_ability i (fun c info =>
    cl_map (fun errCode => as_set_errCode errCode i)
      (BackgroundTaskMgrHelper.RequestStopBackgroundRunning info.1 (ac_GetAbilityRecordId c) (as_removeTaskId i)))).

Definition with_list i (r : Z * list ContinuousTaskInfo) : AsyncCallbackInfo := as_set_list r.2 (as_set_errCode r.1 i).
Definition GetAllContinuousTasksExecuteCB i : CL (option AsyncCallbackInfo) :=
  unless_refused i (cl_map (fun r => Some (with_list i r)) (BackgroundTaskMgrHelper.RequestGetAllContinuousTasks (as_list i))).
Definition GetAllContinuousTasksIncludeSuspendedExecuteCB i : CL (option AsyncCallbackInfo) :=
  unless_refused i (cl_map (fun r => Some (with_list i r))
    (BackgroundTaskMgrHelper.RequestGetAllContinuousTasksSuspended (as_list i) (as_includeSuspended i))).
Definition ObtainAllContinuousTasksExecuteCB i : CL (option AsyncCallbackInfo) :=
  cl_map (fun r => Some (with_list i r)) (BackgroundTaskMgrHelper.GetAllContinuousTasksBySystem (as_list i)).

Definition CheckSpecialScenarioAuthExecuteCB i : CL (option AsyncCallbackInfo) :=
  with_ability i (fun _ info =>
    cl_map (fun r => as_set_authResult r.2 (as_set_errCode r.1 i))
      (BackgroundTaskMgrHelper.CheckSpecialScenarioAuth info.2 (as_authResult i) (as_checkSpecialAuthApiVersion i))).

Definition execute (x : ExecuteCB) i : CL (option AsyncCallbackInfo) :=
  match x with
  | XStartBackgroundRunning => StartBackgroundRunningExecuteCB i
  | XStartBackgroundRunningByRequest => StartBackgroundRunningByRequestExecuteCB i
  | XUpdateBackgroundRunning => UpdateBackgroundRunningExecuteCB i
  | XUpdateBackgroundRunningByRequest => UpdateBackgroundRunningByRequestExecuteCB i
  | XStopBackgroundRunning => StopBackgroundRunningExecuteCB i
  | XStopBackgroundRunningByTaskId => StopBackgroundRunningByTaskIdExecuteCB i
  | XGetAllContinuousTasks => GetAllContinuousTasksExecuteCB i
  | XGetAllContinuousTasksIncludeSuspended => GetAllContinuousTasksIncludeSuspendedExecuteCB i
  | XCheckSpecialScenarioAuth => CheckSpecialScenarioAuthExecuteCB i
  | XObtainAllContinuousTasks => ObtainAllContinuousTasksExecuteCB i
  end.

(** The work of a call, run to its end. *)
Definition run_work (work : ExecuteCB * CompleteCB * AsyncCallbackInfo) : CL (option Settled) :=
  let '(x, c, i) := work in cl_map (fmap (complete c)) (execute x i).

(** ** Functions of the script that wait for the library *)
Context `{NodeApi V}.

(** The errors [HandleErrCode] and [HandleParamErr] throw. *)
Definition thrown_code (errCode : Z) : list Thrown := (HandleErrCode (S := unit) errCode true tt).2.
Definition thrown_param (errCode : Z) : list Thrown := (HandleParamErr (S := unit) errCode true tt).2.

Definition mode_param (backgroundTaskModes : list Z) : ContinuousTaskParam :=
  new_ContinuousTaskParam true (uint32 (-1)) None "" "" true backgroundTaskModes (-1).
Definition IsModeSupportedExecuteCB (request : ContinuousTaskRequest) : CL (bool * list Thrown) :=
  cl_map (fun errCode => (errCode =? ERR_OK, thrown_code errCode))
    (BackgroundTaskMgrHelper.IsModeSupported (mode_param (map GetV9BackgroundModeByMode (cr_backgroundTaskModes_ request)))).

Definition CheckSpecialModeSupported : NM AsyncCallbackInfo bool :=
  nbind (nget as_request) (fun request =>
  let backgroundTaskModes := cr_backgroundTaskModes_ request in
  if (length backgroundTaskModes =? 0)%nat then refuse_code ERR_BGTASK_CONTINUOUS_MODE_OR_SUBMODE_IS_EMPTY else
  let specialModeSize := Z.of_nat (count_occ Z.eq_dec backgroundTaskModes MODE_SPECIAL_SCENARIO_PROCESSING) in
  if specialModeSize >? MAX_TASK_NUMS
  then refuse_code ERR_BGTASK_SPECIAL_SCENARIO_PROCESSING_ONLY_ALLOW_ONE_APPLICATION else
  if (specialModeSize =? MAX_TASK_NUMS) && (Z.of_nat (length backgroundTaskModes) >? MAX_TASK_NUMS)
  then refuse_code ERR_BGTASK_SPECIAL_SCENARIO_PROCESSING_CONFLICTS_WITH_OTHER_TASK
  else nret true).

(** Called on a request object; where it has no modes, null and no error. *)
Definition IsModeSupported (jsThis : V) : CL NapiCall :=
  match getNamedProperty jsThis "backgroundTaskModes" with
  | None => cl_ret (null_call [])
  | Some backgroundTaskModes =>
      let '(ok, request, thrown) := GetBackgroundTaskModesFromArray backgroundTaskModes new_ContinuousTaskRequest in
      if negb ok then cl_ret (null_call thrown) else
      let '(ok, _, thrown') := CheckSpecialModeSupported (as_set_request request new_AsyncCallbackInfo) in
      if negb ok then cl_ret (null_call (thrown ++ thrown')) else
      cl_map (fun r => mkCall (RValue (JsBool r.1)) (thrown ++ thrown' ++ r.2) None) (IsModeSupportedExecuteCB request)
  end.

(** One argument, an object, and what is read of it. *)
Definition with_task_state (argv : list V) (inculdeAurh : bool) (k : BackgroundTaskStateInfo -> CL NapiCall) : CL NapiCall :=
  if negb (argc argv =? 1) then cl_ret (null_call (thrown_param ERR_PARAM_NUMBER_ERR)) else
  match napi_typeof (arg argv 0) with
  | None => cl_ret (mkCall (RValue JsUndefined) [ThrowLastError] None)
  | Some valuetype =>
      if bool_decide (valuetype <> napi_object) then cl_ret (null_call (thrown_param ERR_PARAM_NUMBER_ERR)) else
      let '(ok, taskState, thrown) := GetBackgroundTaskStateParam (arg argv 0) inculdeAurh new_BackgroundTaskStateInfo in
      if negb ok then cl_ret (null_call (thrown ++ thrown_code ERR_BGTASK_CONTINUOUS_BACKGROUND_TASK_PARAM_INVALID))
      else k taskState
  end.

Definition SetBackgroundTaskState (argv : list V) : CL NapiCall :=
  with_task_state argv true (fun taskState =>
    cl_map (fun errCode => null_call (thrown_code errCode)) (BackgroundTaskMgrHelper.SetBackgroundTaskState (Some taskState))).

Definition GetBackgroundTaskState (argv : list V) : CL NapiCall :=
  with_task_state argv false (fun taskState =>
    cl_map (fun '(errCode, taskState) =>
        match taskState with
        | Some taskState =>
            if errCode =? ERR_OK then mkCall (RValue (JsInt32 (bs_authResult_ taskState))) [] None
            else null_call (thrown_code errCode)
        | None => null_call (thrown_code errCode)
        end)
      (BackgroundTaskMgrHelper.GetBackgroundTaskState (Some taskState))).

(** The want agent may be left out; a wrong one throws and is left out. *)
Definition GetDataTransferProgress (objValue : V) : NM DataTransferProgress bool :=
  if bool_decide (typeof objValue <> napi_object) then nret false else
  let continuousTaskId := GetIntProperty objValue "continuousTaskId" in
  if continuousTaskId =? -1 then nret false else
  nbind (nset (fun p => mkProgress continuousTaskId (dp_wantAgent_ p) (dp_progressInfo_ p))) (fun _ =>
  nbind
    match getNamedProperty objValue "wantAgent" with
    | None => nret tt
    | Some wantAgentValue =>
        nbind (GetWantAgent wantAgentValue) (fun wantAgent =>
          nset (fun p => mkProgress (dp_continuousTaskId_ p) match wantAgent with Some _ => wantAgent | None => dp_wantAgent_ p end (dp_progressInfo_ p)))
    end (fun _ =>
  nbind (nlocal new_ProgressInfo (GetprogressInfo objValue)) (fun '(ok, progressInfoInner) =>
  if negb ok then nret false else
  nbind (nset (fun p => mkProgress (dp_continuousTaskId_ p) (dp_wantAgent_ p) (Some progressInfoInner))) (fun _ =>
  nret true)))).

Definition UpdateDataTransferProgress (argv : list V) : CL NapiCall :=
  if negb (argc argv =? UPDATE_PROGRESS_INFO_PARAMS) then cl_ret (null_call (thrown_param ERR_PARAM_NUMBER_ERR)) else
  match GetAbilityContext (arg argv 0) with
  | None => cl_ret (null_call (thrown_param ERR_CONTEXT_NULL_OR_TYPE_ERR))
  | Some _ =>
      let '(ok, progressInfo, thrown) := GetDataTransferProgress (arg argv 1) (mkProgress (-1) None None) in
      if negb ok then cl_ret (null_call (thrown ++ thrown_param ERR_BGTASK_INVALID_PARAM)) else
      cl_map (fun errCode => null_call (thrown ++ thrown_code errCode))
        (BackgroundTaskMgrHelper.RequestUpdateDataTransferProgress progressInfo)
  end.
End Work.
