(* ===== verification/NapiProps.v ===== *)
(** * Scripts and continuous tasks: properties

    What the script gets and what is queued, for every way it can call; the modes a request
    object may ask for and what they are sent as; that no queued work goes by a null pointer;
    and what a start means at the service. *)

From S2P Require Import Prelude.
From S2P Require Import Errors.
From S2P Require Import ContinuousTaskRecord.
From S2P Require Import ContinuousTypes.
From S2P Require Import ContinuousQueries.
From S2P Require Import BackgroundModes.
From S2P Require Import Parcelables.
From S2P Require Import BackgroundTaskManager.
From S2P Require Import NapiCommon.
From S2P Require Import NapiContinuousTask.
Import BackgroundMode BackgroundTaskMode BackgroundTaskSubmode Common.
Local Open Scope Z_scope.

(** ** Conditions on a run of the monad *)
Definition nwp {S A} (m : NM S A) (s : S) (Q : A -> S -> list Thrown -> Prop) : Prop :=
  let '(a, s', t) := m s in Q a s' t.

Lemma nwp_mono {S A} (m : NM S A) s (Q Q' : A -> S -> list Thrown -> Prop) :
  nwp m s Q -> (forall a s' t, Q a s' t -> Q' a s' t) -> nwp m s Q'.
Proof. unfold nwp. destruct (m s) as [[a s'] t]. auto. Qed.

Lemma nwp_bind {S A B} (m : NM S A) (k : A -> NM S B) s (Q : B -> S -> list Thrown -> Prop) :
  nwp m s (fun a s' t => nwp (k a) s' (fun b s2 t' => Q b s2 (t ++ t'))) -> nwp (nbind m k) s Q.
Proof.
  unfold nwp, nbind. destruct (m s) as [[a s1] t]. by destruct (k a s1) as [[b s2] t'].
Qed.

Lemma nwp_nset {S B} (f : S -> S) (k : unit -> NM S B) s (Q : B -> S -> list Thrown -> Prop) :
  nwp (k tt) (f s) Q -> nwp (nbind (nset f) k) s Q.
Proof. intros Hq. apply nwp_bind. exact Hq. Qed.

Lemma nwp_nget {S A B} (f : S -> A) (k : A -> NM S B) s (Q : B -> S -> list Thrown -> Prop) :
  nwp (k (f s)) s Q -> nwp (nbind (nget f) k) s Q.
Proof. intros Hq. apply nwp_bind. exact Hq. Qed.

(** A check: nothing is thrown where it passes; where it does not and the function throws,
    something is. *)
Definition checked {S} (isThrow : bool) (P F : S -> Prop) (ok : bool) (s : S) (t : list Thrown) : Prop :=
  if ok then t = [] /\ P s else (isThrow = true -> t <> []) /\ F s.

(** The rest of a sequence of checks, after one. *)
Lemma checked_then {S A} (isThrow : bool) (m : NM S bool) (k : bool -> NM S A) s (P F : S -> Prop)
    (Q : A -> S -> list Thrown -> Prop) :
  nwp m s (checked isThrow P F) ->
  (forall s', P s' -> nwp (k true) s' Q) ->
  (forall s' t, (isThrow = true -> t <> []) -> F s' -> nwp (k false) s' (fun a s2 t' => Q a s2 (t ++ t'))) ->
  nwp (nbind m k) s Q.
Proof.
  intros Hm Hk Hf. apply nwp_bind. eapply nwp_mono; [exact Hm|]. intros [] s' t Hc; cbn in Hc.
  - destruct Hc as [-> Hp]. by apply Hk.
  - destruct Hc as [Ht Hp]. by apply Hf.
Qed.

(** Codes with a text among those of parameters. *)
Definition param_code (c : Z) : bool :=
  negb (c =? ERR_OK) && bool_decide (BusinessErrorMap.GetParamErrMsg c <> "")%string.

Lemma HandleParamErr_run {S} c isThrow (s : S) : param_code c = true ->
  HandleParamErr c isThrow s =
    (isThrow, s, if isThrow then [ThrowError "401" ("BussinessError 401: Parameter error. " +:+ BusinessErrorMap.GetParamErrMsg c)]
                 else []).
Proof.
  unfold param_code, HandleParamErr. intros [H1 H2]%andb_prop. apply negb_true_iff in H1. rewrite H1.
  destruct isThrow; [|done]. cbn [negb orb]. rewrite H2. done.
Qed.

Lemma FindErrMsg_nonempty c : c <> ERR_OK -> ErrorReport.FindErrMsg c <> ""%string.
Proof.
  intros Hc. unfold ErrorReport.FindErrMsg. rewrite (proj2 (Z.eqb_neq _ _) Hc).
  case_bool_decide; [done|]. case_bool_decide; done.
Qed.

Lemma HandleErrCode_run {S} c (s : S) : c <> ERR_OK ->
  HandleErrCode c true s = (tt, s, [ThrowError (pretty (ErrorReport.FindErrCode c)) (ErrorReport.FindErrMsg c)]).
Proof.
  intros Hc. unfold HandleErrCode. rewrite (proj2 (Z.eqb_neq _ _) Hc). cbn [negb orb].
  rewrite bool_decide_true by by apply FindErrMsg_nonempty. done.
Qed.

Lemma refuse_nwp c isThrow i (P : AsyncCallbackInfo -> Prop) :
  param_code c = true -> nwp (refuse c isThrow) i (checked isThrow P (fun i => as_errCode i <> ERR_OK)).
Proof.
  intros Hc. unfold refuse, nwp, nbind. rewrite HandleParamErr_run by done. cbn.
  split; [by intros ->|]. unfold param_code in Hc. apply andb_prop in Hc as [Hc _].
  by apply negb_true_iff, Z.eqb_neq in Hc.
Qed.

Lemma refuse_code_nwp c isThrow i (P : AsyncCallbackInfo -> Prop) :
  c <> ERR_OK -> nwp (refuse_code c) i (checked isThrow P (fun i => as_errCode i <> ERR_OK)).
Proof. intros Hc. unfold refuse_code, nwp, nbind. rewrite HandleErrCode_run by done. done. Qed.

(** A refusal, before which more may have been thrown. *)
Lemma refused_app {S} isThrow (P F : S -> Prop) (m : NM S bool) s t :
  nwp m s (checked isThrow P F) -> (forall s', ~ P s') ->
  nwp m s (fun ok s' t' => checked isThrow P F ok s' (t ++ t')).
Proof.
  intros Hm Hn. eapply nwp_mono; [exact Hm|]. intros [] s' t' Hc; cbn in *; [exfalso; apply (Hn s'), Hc|].
  destruct Hc as [Ht Hf]. split; [|done]. intros E [-> H2]%app_eq_nil. by apply Ht.
Qed.

(** ** The checks of the arguments *)
Section Script.
Context `{NodeApi V}.
Implicit Types (i : AsyncCallbackInfo) (value : V) (argv : list V).

(** What reading arguments leaves alone. *)
Definition same_call i i' : Prop := as_errCode i' = as_errCode i /\ as_abilityContext i' = as_abilityContext i.
Abbreviation anything := (fun _ => True).
Abbreviation failed := (fun i => as_errCode i <> ERR_OK).

(** A failed read that throws in any case. *)
Lemma throws_nwp {S} c isThrow (s : S) (P : S -> Prop) : param_code c = true ->
  nwp (HandleParamErr c true ;>> nret false) s (checked isThrow P anything).
Proof. intros Hc. unfold nwp, nbind. by rewrite HandleParamErr_run. Qed.

Lemma typeof_or_throw_nwp {S} value (k : napi_valuetype -> NM S bool) isThrow s (P : S -> Prop) :
  (forall t, nwp (k t) s (checked isThrow P anything)) ->
  nwp (typeof_or_throw value false k) s (checked isThrow P anything).
Proof. intros Hk. unfold typeof_or_throw. by destruct (napi_typeof value). Qed.

Lemma GetMode_nwp value isThrow i : nwp (GetMode value) i (checked isThrow (same_call i) anything).
Proof.
  apply typeof_or_throw_nwp. intros t. case_bool_decide; [by apply throws_nwp|]. by apply nwp_nset.
Qed.

Lemma GetModes_loop_nwp value l isThrow i : nwp (GetModes_loop value l) i (checked isThrow (same_call i) anything).
Proof.
  revert i. induction l as [|n l IH]; intros i; [done|]. cbn [GetModes_loop].
  destruct (napi_get_element value n ≫= _) as [mode|]; [|by apply throws_nwp].
  apply nwp_nset. case_bool_decide; [apply IH|]. eapply nwp_mono; [apply IH|]. done.
Qed.

Lemma GetBackgroundMode_nwp value isThrow i :
  nwp (GetBackgroundMode value) i (checked isThrow (same_call i) anything).
Proof.
  unfold GetBackgroundMode. destruct (default false (napi_is_array value)); [|apply GetMode_nwp].
  unfold GetModes. case_test; [by apply throws_nwp|]. apply nwp_nset.
  eapply nwp_mono; [apply GetModes_loop_nwp|]. done.
Qed.

Lemma GetWantAgent_nwp value i :
  nwp (GetWantAgent value) i (fun a i' t => i' = i /\ (a <> None -> t = [])).
Proof.
  unfold GetWantAgent, typeof_or_throw. destruct (napi_typeof value) as [t|]; [|done].
  case_bool_decide; [|done]. unfold nwp, nbind. by rewrite HandleParamErr_run.
Qed.

Lemma with_context_nwp value isThrow k i P :
  (forall c, nwp k (as_set_abilityContext (Some c) i) (checked isThrow P failed)) ->
  nwp (with_context value isThrow k) i (checked isThrow P failed).
Proof.
  intros Hk. unfold with_context, ntry. destruct (GetAbilityContext value) as [c|]; [|by apply refuse_nwp].
  apply nwp_nset, Hk.
Qed.

(** A refusal after more may have been thrown. *)
Lemma refuse_after c isThrow i t (P : AsyncCallbackInfo -> Prop) : param_code c = true ->
  nwp (refuse c isThrow) i (fun ok s' t' => checked isThrow P failed ok s' (t ++ t')).
Proof.
  intros Hc. eapply nwp_mono; [by apply (refuse_nwp c isThrow i (fun _ => False))|].
  intros [] s' t' Hr; cbn in *; [tauto|]. destruct Hr as [Ht Hf]. split; [|done].
  intros E [-> H2]%app_eq_nil. by apply Ht.
Qed.

(** Accepted: a context is there, and nothing went wrong so far. *)
Definition has_context i : Prop := as_abilityContext i <> None /\ as_errCode i = ERR_OK.

Lemma StartBackgroundRunningCheckParamBeforeSubmit_nwp argv isThrow i : as_errCode i = ERR_OK ->
  nwp (StartBackgroundRunningCheckParamBeforeSubmit argv isThrow) i (checked isThrow has_context failed).
Proof.
  intros He. apply with_context_nwp. intros c. eapply (checked_then isThrow); [apply GetBackgroundMode_nwp| |].
  - intros i1 [E1 E2]. cbn [negb]. apply nwp_bind. eapply nwp_mono; [apply GetWantAgent_nwp|].
    intros [agent|] i2 t [-> Ht]; cbn [ntry].
    + rewrite Ht by done. apply nwp_nset. cbn. unfold has_context. cbn. rewrite E1, E2. done.
    + by apply refuse_after.
  - intros i1 t Ht _. cbn [negb]. by apply refuse_after.
Qed.

Lemma UpdateBackgroundRunningCheckParam_nwp argv isThrow i : as_errCode i = ERR_OK ->
  nwp (UpdateBackgroundRunningCheckParam argv isThrow) i (checked isThrow has_context failed).
Proof.
  intros He. unfold UpdateBackgroundRunningCheckParam. case_test; [by apply refuse_nwp|]. apply with_context_nwp.
  intros c. eapply (checked_then isThrow); [apply GetBackgroundMode_nwp| |].
  - intros i1 [E1 E2]. cbn. unfold has_context. rewrite E1, E2. done.
  - intros i1 t Ht _. cbn [negb]. by apply refuse_after.
Qed.

Lemma GetAllContinuousTasksCheckParamBeforeSubmit_nwp argv isThrow i : as_errCode i = ERR_OK ->
  nwp (GetAllContinuousTasksCheckParamBeforeSubmit argv isThrow) i (checked isThrow has_context failed).
Proof.
  intros He. unfold GetAllContinuousTasksCheckParamBeforeSubmit. case_test; [by apply refuse_nwp|].
  apply with_context_nwp. intros c. case_test; [|done]. apply nwp_bind.
  unfold GetIncludeSuspended, typeof_or_throw. destruct (napi_typeof _) as [t|]; [|by apply (refuse_after _ _ _ [ThrowLastError])].
  case_bool_decide; [|done]. unfold nwp at 1, nbind at 1. rewrite HandleParamErr_run by done. by apply refuse_after.
Qed.

Lemma CheckBackgroundMode_nwp isThrow i (P : AsyncCallbackInfo -> Prop) : P i ->
  nwp (CheckBackgroundMode isThrow) i (checked isThrow P failed).
Proof. intros Hp. apply nwp_nget. destruct (existsb _ _); [by apply refuse_nwp|done]. Qed.

(** An ability whose info can be read. *)
Definition has_ability i : Prop := exists c info, as_abilityContext i = Some c /\ ac_GetAbilityInfo c = Some info.

Lemma StartBackgroundRunningCheckParam_nwp isThrow i : as_errCode i = ERR_OK ->
  nwp (StartBackgroundRunningCheckParam isThrow) i (checked isThrow has_ability failed).
Proof.
  intros He. apply nwp_nget. unfold id. rewrite He. cbn [negb Z.eqb ERR_OK].
  destruct (as_abilityContext i) as [c|] eqn:Ec; [|by apply refuse_nwp].
  case_bool_decide; [by apply refuse_nwp|]. case_bool_decide; [by apply refuse_nwp|].
  case_test; [by apply refuse_nwp|]. apply CheckBackgroundMode_nwp. unfold has_ability.
  destruct (ac_GetAbilityInfo c) as [info|] eqn:Ei; [by eauto|done].
Qed.

Lemma StopBackgroundRunningCheckParam_nwp isThrow i :
  nwp (StopBackgroundRunningCheckParam isThrow) i (checked isThrow has_ability failed).
Proof.
  apply nwp_nget. unfold id. destruct (as_abilityContext i) as [c|] eqn:Ec; [|by apply refuse_nwp].
  case_bool_decide; [by apply refuse_nwp|]. case_test; [by apply refuse_nwp|].
  destruct (ac_GetAbilityInfo c) as [info|] eqn:Ei; [|done]. cbn. unfold has_ability. by eauto.
Qed.

(** *** Request objects *)
Definition silent {S} (ok : bool) (_ : S) (t : list Thrown) : Prop := ok = true -> t = [].

Lemma silent_then {S} (m : NM S bool) (k : NM S bool) s :
  nwp m s silent -> (forall s', nwp k s' silent) -> nwp (nbind m (fun ok => if negb ok then nret false else k)) s silent.
Proof.
  intros Hm Hk. apply nwp_bind. eapply nwp_mono; [exact Hm|]. intros [] s' t Ht; cbn [negb].
  - rewrite Ht by done. apply Hk.
  - done.
Qed.

Lemma GetprogressInfo_silent value p : nwp (GetprogressInfo value) p silent.
Proof.
  unfold GetprogressInfo, ntry. destruct (getNamedProperty value _) as [v|]; [|done].
  case_bool_decide; [|done]. unfold GetprogressInfoParam, ntry. destruct (getNamedProperty v "title") as [t|]; [|done].
  destruct (GetStringValue t); [|done]. apply nwp_nset. destruct (getNamedProperty v "fileName") as [f|]; [|done].
  destruct (GetStringValue f); [|done]. apply nwp_nset. apply nwp_bind.
  destruct (getNamedProperty v "progressValue" ≫= _) as [n|]; [|done].
  case_test; [|done]. unfold nwp, nbind at 1. rewrite HandleErrCode_run by done. done.
Qed.

Lemma GetContinuousTaskRequest_silent value r : nwp (GetContinuousTaskRequest value) r silent.
Proof.
  assert (forall v, nwp (GetBackgroundTaskModesFromArray v) r silent) as Hm.
  { intros v. unfold GetBackgroundTaskModesFromArray, ntry. case_test; [done|]. by destruct (read_modes v _). }
  unfold GetContinuousTaskRequest. apply silent_then.
  { unfold GetBackgroundTaskModesProperty, ntry. by destruct (napi_get_named_property _ _). }
  intros r1. apply silent_then.
  { unfold GetBackgroundTaskSubmodesProperty, GetBackgroundTaskSubmodesFromArray, ntry.
    destruct (napi_get_named_property _ _) as [v|]; [|done]. case_test; [done|]. by destruct (read_modes v _). }
  intros r2. apply silent_then.
  { unfold GetWantAgentProperty, ntry. destruct (napi_get_named_property _ _) as [v|]; [|done].
    case_bool_decide; [done|]. by destruct (napi_unwrap v). }
  intros r3. case_test; [done|]. apply nwp_nset, nwp_bind.
  assert (forall s, nwp (if negb (default false (napi_has_named_property value "progressInfo")) then nret true else
     nlet (ok, progressInfo) := nlocal new_ProgressInfo (GetprogressInfo value) in
     if ok : bool then nset (SetProgressInfo (Some progressInfo)) ;>> nret true else nret false) s silent) as Hp.
  { intros s. case_test; [done|]. apply nwp_bind. unfold nlocal, nwp at 1.
    pose proof (GetprogressInfo_silent value new_ProgressInfo) as Hg. unfold nwp in Hg.
    destruct (GetprogressInfo value new_ProgressInfo) as [[[] p] t]; [|done]. rewrite Hg by done. done. }
  destruct (GetBoolProperty value _); apply Hp.
Qed.

(** The modes and submodes the checks let through. *)
Definition allowed_pairs : list (Z * Z) := [
  (MODE_AUDIO_PLAYBACK, SUBMODE_NORMAL_NOTIFICATION); (MODE_AUDIO_RECORDING, SUBMODE_NORMAL_NOTIFICATION);
  (MODE_LOCATION, SUBMODE_NORMAL_NOTIFICATION); (MODE_BLUETOOTH_INTERACTION, SUBMODE_NORMAL_NOTIFICATION);
  (MODE_MULTI_DEVICE_CONNECTION, SUBMODE_NORMAL_NOTIFICATION); (MODE_ALLOW_WIFI_AWARE, SUBMODE_NORMAL_NOTIFICATION);
  (MODE_VOIP, SUBMODE_NORMAL_NOTIFICATION); (MODE_TASK_KEEPING, SUBMODE_NORMAL_NOTIFICATION);
  (MODE_NEARLINK, SUBMODE_NORMAL_NOTIFICATION);
  (MODE_BLUETOOTH_INTERACTION, SUBMODE_CAR_KEY_NORMAL_NOTIFICATION);
  (MODE_DATA_TRANSFER, SUBMODE_LIVE_VIEW_NOTIFICATION);
  (MODE_AV_PLAYBACK_AND_RECORD, SUBMODE_AUDIO_PLAYBACK_NORMAL_NOTIFICATION);
  (MODE_AV_PLAYBACK_AND_RECORD, SUBMODE_AVSESSION_AUDIO_PLAYBACK);
  (MODE_AV_PLAYBACK_AND_RECORD, SUBMODE_AUDIO_RECORD_NORMAL_NOTIFICATION);
  (MODE_AV_PLAYBACK_AND_RECORD, SUBMODE_SCREEN_RECORD_NORMAL_NOTIFICATION);
  (MODE_AV_PLAYBACK_AND_RECORD, SUBMODE_VOICE_CHAT_NORMAL_NOTIFICATION);
  (MODE_SPECIAL_SCENARIO_PROCESSING, SUBMODE_MEDIA_PROCESS_NORMAL_NOTIFICATION);
  (MODE_SPECIAL_SCENARIO_PROCESSING, SUBMODE_VIDEO_BROADCAST_NORMAL_NOTIFICATION);
  (MODE_SPECIAL_SCENARIO_PROCESSING, SUBMODE_WORK_OUT_NORMAL_NOTIFICATION)].

Lemma submode_cases subMode : check_submode 0 subMode <> ERR_BGTASK_CONTINUOUS_MODE_OR_SUBMODE_CROSS_BORDER ->
  subMode ∈ [1; 2; 3; 4; 5; 6; 7; 8; 9; 10; 11].
Proof.
  unfold check_submode, BackgroundTaskSubmode_END, SUBMODE_CAR_KEY_NORMAL_NOTIFICATION. intros Hc.
  destruct ((subMode >=? 12) || (subMode <? 1)) eqn:E; [done|]. apply orb_false_iff in E as [E1 E2].
  assert (1 <= subMode <= 11) as Hr by lia. clear Hc E1 E2.
  assert (subMode = 1 \/ subMode = 2 \/ subMode = 3 \/ subMode = 4 \/ subMode = 5 \/ subMode = 6 \/ subMode = 7 \/
    subMode = 8 \/ subMode = 9 \/ subMode = 10 \/ subMode = 11) as Hd by lia.
  rewrite !elem_of_cons. tauto.
Qed.

Lemma check_submode_spec mode subMode : check_submode mode subMode = ERR_OK <-> (mode, subMode) ∈ allowed_pairs.
Proof.
  split.
  - intros Hc. assert (subMode ∈ [1; 2; 3; 4; 5; 6; 7; 8; 9; 10; 11]) as Hs.
    { apply submode_cases. intros E. unfold check_submode in *.
      destruct ((subMode >=? BackgroundTaskSubmode_END) || _); [done|].
      destruct (subMode =? SUBMODE_NORMAL_NOTIFICATION); [by destruct (IsModeTypeMatching 0)|].
      by destruct (GetSubModeTypeMatching subMode =? 0). }
    rewrite !elem_of_cons in Hs.
    assert (forall s m, check_submode m s = ERR_OK -> s <> 2 -> m = GetSubModeTypeMatching s) as Hne.
    { intros s m. unfold check_submode. destruct (_ || _); [done|]. intros Hx Hs2.
      rewrite (proj2 (Z.eqb_neq s SUBMODE_NORMAL_NOTIFICATION)) in Hx by done.
      destruct (GetSubModeTypeMatching s =? m) eqn:E; [|done]. by apply Z.eqb_eq in E. }
    destruct (decide (subMode = 2)) as [->|Hn].
    + unfold check_submode in Hc. cbn in Hc. destruct (IsModeTypeMatching mode) eqn:E; [|done].
      unfold IsModeTypeMatching in E. apply bool_decide_eq_true in E as [s Et].
      apply table_find_elem in Et. unfold PARAM_BACKGROUND_TASK_SUBMODE_CORRESPONDENCE_MODE in Et.
      rewrite !elem_of_cons in Et. rewrite elem_of_nil in Et.
      repeat (destruct Et as [[= -> ->]|Et]; [by apply (bool_decide_unpack _); vm_compute|]). done.
    + rewrite (Hne _ _ Hc Hn). clear Hc Hne.
      rewrite elem_of_nil in Hs.
      repeat (destruct Hs as [->|Hs]; [first [done|by apply (bool_decide_unpack _); vm_compute]|]). done.
  - intros Hp. assert (Forall (fun p => check_submode p.1 p.2 = ERR_OK) allowed_pairs) as Ha.
    { by apply (bool_decide_unpack _); vm_compute. }
    rewrite Forall_forall in Ha. by apply (Ha (mode, subMode)).
Qed.

(** What a request may ask for: as many submodes as modes and one at least, each pair one of
    the table, the special scenario only by itself, and neither it nor data transfer with a
    notification of another task. *)
Definition request_allowed (r : ContinuousTaskRequest) : Prop :=
  let modes := cr_backgroundTaskModes_ r in
  modes <> [] /\ length modes = length (cr_backgroundTaskSubmodes_ r) /\
  Forall (fun p => p ∈ allowed_pairs) (combine modes (cr_backgroundTaskSubmodes_ r)) /\
  (MODE_SPECIAL_SCENARIO_PROCESSING ∈ modes -> modes = [MODE_SPECIAL_SCENARIO_PROCESSING]) /\
  (cr_combinedTaskNotification_ r = true -> (MODE_SPECIAL_SCENARIO_PROCESSING ∉ modes) /\ (MODE_DATA_TRANSFER ∉ modes)).

Lemma count_none (l : list Z) x : Z.gtb (Z.of_nat (count_occ Z.eq_dec l x)) 0 = false -> x ∉ l.
Proof. rewrite list_elem_of_In, (count_occ_not_In Z.eq_dec). lia. Qed.

Lemma special_alone (l : list Z) x (n := Z.of_nat (count_occ Z.eq_dec l x)) :
  Z.gtb n MAX_TASK_NUMS = false -> (n =? MAX_TASK_NUMS) && Z.gtb (Z.of_nat (length l)) MAX_TASK_NUMS = false ->
  x ∈ l -> l = [x].
Proof.
  unfold MAX_TASK_NUMS. intros H1 H2 Hx. apply list_elem_of_In, (count_occ_In Z.eq_dec) in Hx.
  assert (count_occ Z.eq_dec l x = 1)%nat as E by lia. subst n. rewrite E in H2. apply andb_false_iff in H2 as [H2|H2]; [done|].
  destruct l as [|y [|z l]]; [done| |exfalso; rewrite Z.gtb_ltb in H2; apply Z.ltb_ge in H2; cbn [length] in H2; lia]. cbn in E. by destruct (Z.eq_dec y x) as [->|].
Qed.

Lemma check_submodes_nwp l isThrow i :
  nwp (check_submodes l) i (checked isThrow (fun i' => i' = i /\ Forall (fun p => p ∈ allowed_pairs) l) failed).
Proof.
  induction l as [|[m s] l IH]; [done|]. cbn [check_submodes]. case_test.
  - apply Z.eqb_eq, check_submode_spec in Hc. eapply nwp_mono; [exact IH|]. intros [] i' t Ht; cbn in *; [|done].
    destruct Ht as (-> & -> & Hl). split; [done|]. split; [done|]. by constructor.
  - apply Z.eqb_neq in Hc. by apply refuse_code_nwp.
Qed.

Lemma CheckSpecialModeParma_nwp isThrow i :
  nwp CheckSpecialModeParma i (checked isThrow (fun i' => i' = i /\
      let modes := cr_backgroundTaskModes_ (as_request i) in
      (MODE_SPECIAL_SCENARIO_PROCESSING ∈ modes -> modes = [MODE_SPECIAL_SCENARIO_PROCESSING]) /\
      (cr_combinedTaskNotification_ (as_request i) = true ->
       (MODE_SPECIAL_SCENARIO_PROCESSING ∉ modes) /\ (MODE_DATA_TRANSFER ∉ modes))) failed).
Proof.
  apply nwp_nget. cbv beta zeta. case_test; [by apply refuse_code_nwp|]. rename Hc into H1.
  case_test; [by apply refuse_code_nwp|]. rename Hc into H2. case_test; [by apply refuse_code_nwp|]. rename Hc into H3.
  case_test; [by apply refuse_code_nwp|]. rename Hc into H4. split; [done|]. split; [done|]. split.
  - by apply special_alone.
  - intros Hcomb. rewrite Hcomb in H1, H2. split; by apply count_none.
Qed.

Lemma StartBackgroundRunningCheckModes_nwp isThrow i :
  nwp StartBackgroundRunningCheckModes i
    (checked isThrow (fun i' => i' = i /\ request_allowed (as_request i)) failed).
Proof.
  apply nwp_nget. cbv beta zeta. case_test; [by apply refuse_code_nwp|]. rename Hc into H1.
  case_test; [by apply refuse_code_nwp|]. rename Hc into H2. apply orb_false_iff in H1 as [H1 _].
  apply negb_false_iff, Nat.eqb_eq in H2. apply Nat.eqb_neq in H1.
  eapply (checked_then isThrow); [apply CheckSpecialModeParma_nwp| |by intros i' t Ht Hf; cbn; rewrite app_nil_r].
  intros i' [-> [Hs Hm]]. cbn [negb]. eapply nwp_mono; [apply check_submodes_nwp|].
  intros [] i' t Ht; cbn in *; [|done]. destruct Ht as (-> & -> & Hl). split; [done|]. split; [done|].
  split; [|done]. intros E. by rewrite E in H1.
Qed.

(** *** What the modes are sent as *)
Definition v9_mode (p : Z * Z) : Z :=
  if p.2 =? SUBMODE_NORMAL_NOTIFICATION then GetV9BackgroundModeByMode p.1 else GetV9BackgroundModeBySubMode p.2.

Lemma allowed_pairs_known : Forall (fun p => v9_mode p ∈ [1; 2; 3; 4; 5; 6; 7; 8; 9; 13; 14]) allowed_pairs.
Proof. by apply (bool_decide_unpack _); vm_compute. Qed.

Lemma convert_modes_run (subs modes : list Z) (done_ : list Z) : length modes = length subs ->
  convert_modes (done_ ++ modes) subs (length done_) = Some (map v9_mode (combine modes subs)).
Proof.
  revert modes done_. induction subs as [|s subs IH]; intros [|m modes] d E; try done. cbn [convert_modes combine map].
  rewrite (list_lookup_middle d modes m (length d)) by done.
  specialize (IH modes (d ++ [m])). rewrite length_app, <- app_assoc in IH. cbn in IH.
  rewrite Nat.add_1_r in IH. rewrite IH by (cbn in E; lia). unfold v9_mode at 2. cbn.
  by destruct (s =? SUBMODE_NORMAL_NOTIFICATION).
Qed.

Definition converted (r : ContinuousTaskRequest) : ContinuousTaskRequest :=
  SetBackgroundTaskMode (map v9_mode (combine (cr_backgroundTaskModes_ r) (cr_backgroundTaskSubmodes_ r))) r.

Lemma TaskModeTypeConversion_run r : request_allowed r -> TaskModeTypeConversion r = Some (converted r).
Proof.
  intros (_ & E & _). unfold TaskModeTypeConversion.
  pose proof (convert_modes_run _ _ [] E) as Hc. cbn [app length] in Hc. rewrite Hc. by destruct r.
Qed.

Lemma converted_head r : request_allowed r -> exists mode, head (cr_backgroundTaskModes_ (converted r)) = Some mode.
Proof.
  intros (Hn & E & _). destruct r as [[|m modes] [|s subs] a b c d e]; cbn in *; try done. by eexists.
Qed.

Lemma StartBackgroundRunningCheckRequest_accepts argv isThrow i : as_errCode i = ERR_OK ->
  nwp (StartBackgroundRunningCheckRequest argv isThrow) i
    (checked isThrow (fun i' => as_errCode i' = ERR_OK /\ has_ability i' /\ request_allowed (as_request i') /\
       as_abilityContext i' = GetAbilityContext (arg argv 0) /\
       as_request i' = (GetContinuousTaskRequest (arg argv 1) (as_request i)).1.2) failed).
Proof.
  intros He. unfold StartBackgroundRunningCheckRequest. case_test; [by apply refuse_nwp|].
  unfold with_context, ntry. destruct (GetAbilityContext (arg argv 0)) as [c|] eqn:Ectx; [|by apply refuse_nwp].
  apply nwp_nset, nwp_nget. cbn [as_abilityContext mbind option_bind as_set_abilityContext].
  case_bool_decide as Hinfo; [by apply refuse_nwp|]. apply nwp_bind. unfold nzoom, nwp at 1.
  pose proof (GetContinuousTaskRequest_silent (arg argv 1)
    (as_request (as_set_abilityContext (Some c) i))) as Hs. unfold nwp in Hs.
  change (as_request (as_set_abilityContext (Some c) i)) with (as_request i) in *.
  destruct (GetContinuousTaskRequest _ _) as [[[] r] t] eqn:Ereq; cbn [negb].
  - rewrite Hs by done. eapply nwp_mono; [apply (StartBackgroundRunningCheckModes_nwp isThrow)|].
    intros [] i' t' Ht; cbn in *; [|done]. destruct Ht as (-> & -> & Hr). split; [done|]. split; [done|]. split; [|done].
    destruct (ac_GetAbilityInfo c) as [info|] eqn:Ei; [|done]. exists c, info. done.
  - eapply nwp_mono; [by apply (refuse_code_nwp _ isThrow _ (fun _ => False))|].
    intros [] i' t' Ht; cbn in *; [tauto|]. destruct Ht as [Ht Hf]. split; [|done].
    intros E [-> H2]%app_eq_nil. by apply Ht.
Qed.

Lemma StartBackgroundRunningCheckRequest_nwp argv isThrow i : as_errCode i = ERR_OK ->
  nwp (StartBackgroundRunningCheckRequest argv isThrow) i
    (checked isThrow (fun i' => has_ability i' /\ request_allowed (as_request i')) failed).
Proof.
  intros He. eapply nwp_mono; [by apply (StartBackgroundRunningCheckRequest_accepts _ isThrow)|].
  intros [] i' t Ht; [|done]. destruct Ht as (Ht & _ & Ha & Hr & _). by split.
Qed.

(** ** The functions of the script

    [ready x i]: what the work [x] goes by is there, unless it is skipped. *)
Definition by_request (x : ExecuteCB) : bool :=
  match x with XStartBackgroundRunningByRequest | XUpdateBackgroundRunningByRequest => true | _ => false end.
Definition needs_ability (x : ExecuteCB) : bool :=
  match x with
  | XGetAllContinuousTasks | XGetAllContinuousTasksIncludeSuspended | XObtainAllContinuousTasks => false
  | _ => true
  end.
Definition ready (x : ExecuteCB) i : Prop :=
  (as_errCode i <> ERR_OK /\ x <> XCheckSpecialScenarioAuth) \/
  ((needs_ability x = true -> has_ability i) /\ (by_request x = true -> request_allowed (as_request i))).

Lemma execute_ready `{IBackgroundTaskMgr W} x i n st (w : W) : ready x i -> is_Some (execute x i n st w).1.1.
Proof.
  assert (forall A B (f : A -> B) (m : CL (W := W) A), (cl_map f m n st w).1.1 = f (m n st w).1.1) as Hm.
  { intros A B f m. unfold cl_map. by destruct (m n st w) as [[a st'] w']. }
  assert (forall k, (as_errCode i = ERR_OK -> is_Some (k n st w).1.1) ->
    is_Some (unless_refused i k n st w).1.1) as Hu.
  { intros k Hk. unfold unless_refused. case_test; [done|]. apply negb_false_iff, Z.eqb_eq in Hc. auto. }
  assert (forall k, has_ability i -> is_Some (with_ability i k n st w).1.1) as Ha.
  { intros k (c & info & E1 & E2). unfold with_ability. rewrite E1, E2, Hm. done. }
  assert (forall k, request_allowed (as_request i) -> (forall r mode, is_Some (k r mode n st w).1.1) ->
    is_Some (with_request i k n st w).1.1) as Hr.
  { intros k Hr Hk. unfold with_request. rewrite (TaskModeTypeConversion_run _ Hr).
    destruct (converted_head _ Hr) as [mode E]. cbn [mbind option_bind]. rewrite E. apply Hk. }
  intros [[He Hx]|[Hab Hreq]].
  - destruct x; try done; cbn [execute]; try (by apply Hu; intros; done).
    unfold ObtainAllContinuousTasksExecuteCB. by rewrite Hm.
  - destruct x; cbn [execute]; first [apply Hu; intros _|idtac];
      try (by unfold ObtainAllContinuousTasksExecuteCB; rewrite Hm); try (apply Hr; [by apply Hreq|intros r mode]); by apply Ha, Hab.
Qed.

(** A step's answer: work that is ready and no error, or an error where the function throws. *)
Definition replies (isThrow : bool) (r : Reply) i (t : list Thrown) : Prop :=
  match r with
  | Queued _ x _ => (isThrow = true -> t = []) /\ ready x i
  | Nullptr | Void => isThrow = true -> t <> []
  end.

Lemma nret_replies isThrow promise x c i : ready x i -> nwp (nret (Queued promise x c)) i (replies isThrow).
Proof. done. Qed.

(** A step that goes on only where a check passes. *)
Lemma gate_replies isThrow (m : NM AsyncCallbackInfo bool) (k : NM AsyncCallbackInfo Reply) r i P :
  nwp m i (checked isThrow P failed) -> (r = Nullptr \/ r = Void) ->
  (forall i', P i' -> nwp k i' (replies isThrow)) ->
  nwp (nbind m (fun ok => if negb ok then nret r else k)) i (replies isThrow).
Proof.
  intros Hm Hr Hk. eapply (checked_then isThrow); [exact Hm|exact Hk|].
  intros i' t Ht _. cbn. rewrite app_nil_r. by destruct Hr as [-> | ->].
Qed.

Lemma throw_replies isThrow c r i : param_code c = true -> (r = Nullptr \/ r = Void) ->
  nwp (HandleParamErr c isThrow ;>> nret r) i (replies isThrow).
Proof.
  intros Hc Hr. unfold nwp, nbind. rewrite HandleParamErr_run by done. by destruct Hr as [-> | ->]; cbn; intros ->.
Qed.

Lemma refuse_replies isThrow c i : c <> ERR_OK -> nwp (refuse_code c ;>> nret Nullptr) i (replies isThrow).
Proof. intros Hc. unfold refuse_code, nwp, nbind. by rewrite HandleErrCode_run. Qed.

(** The callback variants queue what the check left, where the function does not throw. *)
Lemma callback_replies isThrow check x c value i P :
  x <> XCheckSpecialScenarioAuth -> (forall i', as_errCode i' = ERR_OK -> nwp check i' (checked isThrow P failed)) ->
  (forall i', P i' -> ready x i') -> as_errCode i = ERR_OK ->
  nwp (typeof_or_throw value Nullptr (fun valuetype =>
    if bool_decide (valuetype <> napi_function)
    then HandleParamErr ERR_CALLBACK_NULL_OR_TYPE_ERR isThrow ;>> nret Nullptr else
    nset (as_set_callback true) ;>>
    ok <<- check ;; if negb ok && isThrow then nret Nullptr else nret (Queued false x c))) i (replies isThrow).
Proof.
  intros Hx Hc Hp He. unfold typeof_or_throw. destruct (napi_typeof value) as [t|]; [|by cbn].
  case_bool_decide; [apply throw_replies; [done|by left]|]. apply nwp_nset, nwp_bind.
  eapply nwp_mono; [by apply Hc|]. intros [] i' t' Ht; cbn [checked negb andb] in *.
  - destruct Ht as [-> Hi]. cbn. split; [done|]. by apply Hp.
  - destruct Ht as [Ht Hf]. destruct isThrow; cbn; rewrite app_nil_r; [done|]. split; [done|]. by left.
Qed.

Lemma ability_ready x i : by_request x = false -> has_ability i -> ready x i.
Proof. intros Hx Ha. right. split; [done|]. by rewrite Hx. Qed.

Definition well_behaved `{IBackgroundTaskMgr W} (isThrow : bool) (call : NapiCall) : Prop :=
  match nc_work call with
  | Some work =>
      (isThrow = true -> nc_thrown call = []) /\
      forall n st (w : W), is_Some (run_work work n st w).1.1
  | None => isThrow = true -> nc_thrown call <> []
  end.

Lemma finish_well_behaved `{IBackgroundTaskMgr W} isThrow i m :
  nwp m i (replies isThrow) -> well_behaved (W := W) isThrow (finish i m).
Proof.
  unfold nwp, finish, well_behaved. destruct (m i) as [[r i'] t]. intros Hr.
  destruct r as [| |promise x c]; cbn in *; [done..|]. destruct Hr as [Ht Hi]. split; [done|]. intros n st w.
  unfold cl_map. pose proof (execute_ready x i' n st w Hi) as He. destruct (execute x i' n st w) as [[o st'] w'].
  cbn in *. destruct He as [y ->]. by eexists.
Qed.

Lemma StartBackgroundRunning_replies `{IBackgroundTaskMgr W} argv isThrow :
  well_behaved (W := W) isThrow (StartBackgroundRunning argv isThrow).
Proof.
  apply finish_well_behaved. case_test; [apply throw_replies; [done|by right]|]. clear Hc.
  case_test; clear Hc.
  - unfold StartBackgroundRunningSubmit.
    eapply gate_replies; [by apply StartBackgroundRunningCheckRequest_nwp|by right|].
    intros i' [Ha Hr]. apply nret_replies. by right.
  - eapply gate_replies; [by apply StartBackgroundRunningCheckParamBeforeSubmit_nwp|by right|]. intros i' [Hc He].
    case_test.
    + unfold StartBackgroundRunningAsync. apply nwp_nget. rewrite He. cbn [Z.eqb ERR_OK negb]. rewrite andb_false_r.
      eapply (callback_replies isThrow (StartBackgroundRunningCheckParam isThrow)); [done| | |done].
      * intros i2 He2. by apply StartBackgroundRunningCheckParam_nwp.
      * intros i2. by apply ability_ready.
    + eapply gate_replies; [by apply StartBackgroundRunningCheckParam_nwp|by left|].
      intros i2 Ha. apply nret_replies. by apply ability_ready.
Qed.

Lemma StopBackgroundRunning_replies `{IBackgroundTaskMgr W} argv isThrow :
  well_behaved (W := W) isThrow (StopBackgroundRunning argv isThrow).
Proof.
  assert (forall c, param_code c = true ->
    well_behaved (W := W) isThrow (mkCall (RValue JsUndefined) (HandleParamErr c isThrow new_AsyncCallbackInfo).2 None)) as Hc0.
  { intros c Hc. unfold well_behaved. cbn [nc_work nc_thrown]. rewrite HandleParamErr_run by done. by intros ->. }
  unfold StopBackgroundRunning. case_test; [by apply Hc0|]. clear Hc.
  destruct (GetAbilityContext (arg argv 0)) as [c|]; [|by apply Hc0]. apply finish_well_behaved.
  assert (forall x i, by_request x = false -> nwp (ok <<- StopBackgroundRunningCheckParam isThrow ;;
     if negb ok then nret Nullptr else nret (Queued true x CPromise)) i (replies isThrow)) as Hp.
  { intros x i Hx. eapply gate_replies; [apply StopBackgroundRunningCheckParam_nwp|by left|].
    intros i2 Ha. apply nret_replies. by apply ability_ready. }
  case_test; [|by apply Hp]. apply Z.eqb_eq in Hc. unfold StopBackgroundRunningBySubmit.
  rewrite Hc. change (MAX_STOP_BG_RUNNING_PARAMS >? MAX_STOP_BG_RUNNING_PARAMS) with false. cbv iota zeta. case_bool_decide.
  - cbv zeta. case_test; [by apply refuse_replies|]. apply nwp_nset. by apply Hp.
  - unfold StopBackgroundRunningAsync. apply nwp_nget. cbn [Z.eqb ERR_OK negb as_errCode as_set_abilityContext]. rewrite andb_false_r.
    eapply (callback_replies isThrow (StopBackgroundRunningCheckParam isThrow)); [done| | |done].
    + intros i2 _. apply StopBackgroundRunningCheckParam_nwp.
    + intros i2. by apply ability_ready.
Qed.

Lemma UpdateBackgroundRunning_replies `{IBackgroundTaskMgr W} argv isThrow :
  napi_is_array (arg argv 1) <> Some true -> well_behaved (W := W) isThrow (UpdateBackgroundRunning argv isThrow).
Proof.
  intros Ha. apply finish_well_behaved. case_test; [apply throw_replies; [done|by right]|]. clear Hc.
  assert (default false (napi_is_array (arg argv 1)) = false) as -> by (destruct (napi_is_array _) as [[]|]; done).
  eapply (checked_then isThrow); [by apply StartBackgroundRunningCheckRequest_nwp| |].
  - intros i' [Hi Hr]. apply nwp_nget. cbv beta. case_test; [by apply refuse_replies|]. apply nret_replies. by right.
  - intros i' t Ht _. cbn. by rewrite app_nil_r.
Qed.

Lemma GetAllContinuousTasks_replies `{IBackgroundTaskMgr W} argv isThrow :
  well_behaved (W := W) isThrow (GetAllContinuousTasks argv isThrow).
Proof.
  apply finish_well_behaved. eapply gate_replies; [by apply GetAllContinuousTasksCheckParamBeforeSubmit_nwp|by right|].
  intros i' Hi. case_test; apply nret_replies; by right.
Qed.

Lemma CheckSpecialScenarioUserAuth_replies `{IBackgroundTaskMgr W} argv apiVersion :
  well_behaved (W := W) true (CheckSpecialScenarioUserAuth argv apiVersion).
Proof.
  apply finish_well_behaved. case_test; [apply throw_replies; [done|by right]|].
  destruct (GetAbilityContext (arg argv 0)) as [c|]; [|apply throw_replies; [done|by right]]. apply nwp_nset.
  case_bool_decide; [apply throw_replies; [done|by right]|]. apply nret_replies, ability_ready; [done|].
  destruct (ac_GetAbilityInfo c) as [info|] eqn:Ei; [|done]. by exists c, info.
Qed.

Lemma CheckModes_accepts i : request_allowed (as_request i) -> StartBackgroundRunningCheckModes i = (true, i, []).
Proof.
  intros (Hn & El & Hp & Hs & Hc). set (modes := cr_backgroundTaskModes_ (as_request i)) in *.
  assert (forall l, Forall (fun p => p ∈ allowed_pairs) l -> check_submodes l i = (true, i, [])) as Hl.
  { induction 1 as [|[m s] l Hx _ IH]; [done|]. cbn [check_submodes]. apply check_submode_spec in Hx. by rewrite Hx. }
  assert (CheckSpecialModeParma i = (true, i, [])) as Hsp.
  { unfold CheckSpecialModeParma, nget, nbind. cbv beta zeta iota. fold modes.
    destruct (decide (MODE_SPECIAL_SCENARIO_PROCESSING ∈ modes)) as [Hin|Hin].
    - rewrite (Hs Hin) in *. destruct (cr_combinedTaskNotification_ (as_request i)); [|done].
      destruct (Hc eq_refl) as [Hx _].
      exfalso. apply Hx, list_elem_of_In. by left.
    - rewrite list_elem_of_In in Hin. rewrite (proj1 (count_occ_not_In Z.eq_dec _ _) Hin). cbn.
      destruct (cr_combinedTaskNotification_ (as_request i)) eqn:Ec; [|done]. cbn.
      destruct (Hc eq_refl) as [_ Hd]. rewrite list_elem_of_In in Hd.
      by rewrite (proj1 (count_occ_not_In Z.eq_dec _ _) Hd). }
  unfold StartBackgroundRunningCheckModes, nget, nbind at 1. cbv beta zeta iota. fold modes.
  rewrite <- El, Nat.eqb_refl. rewrite (proj2 (Nat.eqb_neq (length modes) 0)) by by destruct modes.
  cbn [orb negb]. unfold nbind. rewrite Hsp. cbn [negb]. by rewrite Hl.
Qed.

(** C8. A script's call for continuous tasks is answered one way or the other.  It queues work or
    it does not, and only the work calls the library.  The work runs to an end whatever the
    library answers: it does not go by a null pointer or an index out of range.  And where the
    function is one that throws, an error is thrown exactly where no work is queued.  (Of the
    errors of the functions that do not throw nothing is said: they drop most of them, but
    those of a request object are thrown all the same.)  Updating by a list of modes is left
    out: it does not look at the ability's info. *)
Theorem script_calls_are_answered `{IBackgroundTaskMgr W} argv isThrow :
  well_behaved (W := W) isThrow (StartBackgroundRunning argv isThrow) /\
  well_behaved (W := W) isThrow (StopBackgroundRunning argv isThrow) /\
  (napi_is_array (arg argv 1) = Some true \/ well_behaved (W := W) isThrow (UpdateBackgroundRunning argv isThrow)) /\
  well_behaved (W := W) isThrow (GetAllContinuousTasks argv isThrow) /\
  well_behaved (W := W) true (CheckSpecialScenarioAuth argv) /\
  well_behaved (W := W) true (CheckSpecialScenarioAuthResult argv) /\
  well_behaved (W := W) isThrow ObtainAllContinuousTasks.
Proof.
  split; [apply StartBackgroundRunning_replies|]. split; [apply StopBackgroundRunning_replies|]. split.
  { destruct (decide (napi_is_array (arg argv 1) = Some true)) as [E|E]; [by left|right].
    by apply UpdateBackgroundRunning_replies. }
  split; [apply GetAllContinuousTasks_replies|]. split; [apply CheckSpecialScenarioUserAuth_replies|].
  split; [apply CheckSpecialScenarioUserAuth_replies|]. apply finish_well_behaved, nret_replies. by right.
Qed.

(** A request object is let through exactly where it asks for modes with submodes that go
    together, of one another's number, the special scenario only by itself, and neither it nor
    data transfer under another task's notification.  Each pair is then sent as the mode the
    service counts it under, which is one it knows. *)
Theorem request_objects_are_checked i :
  ((StartBackgroundRunningCheckModes i).1.1 = true <-> request_allowed (as_request i)) /\
  (request_allowed (as_request i) ->
   TaskModeTypeConversion (as_request i) = Some (converted (as_request i)) /\
   Forall (fun mode => mode ∈ [1; 2; 3; 4; 5; 6; 7; 8; 9; 13; 14]) (cr_backgroundTaskModes_ (converted (as_request i)))).
Proof.
  split; [split|].
  - pose proof (StartBackgroundRunningCheckModes_nwp true i) as Hw. unfold nwp in Hw.
    destruct (StartBackgroundRunningCheckModes i) as [[[] i'] t]; [|done]. intros _. apply Hw.
  - intros Hr. by rewrite CheckModes_accepts.
  - intros Hr. split; [by apply TaskModeTypeConversion_run|]. destruct Hr as (_ & _ & Hp & _). cbn.
    apply Forall_map. eapply Forall_impl; [exact Hp|]. intros p Hx.
    exact (proj1 (Forall_forall _ _) allowed_pairs_known p Hx).
Qed.
End Script.

From S2P Require Import Interfaces.
From S2P Require Import DeviceInfo.
From S2P Require Import DecisionMaker.
From S2P Require Import TransientTaskMgr.
From S2P Require Import ResourceTypes.
From S2P Require Import EfficiencyResources.
From S2P Require Import Json.
From S2P Require Import BgtaskConfig.
From S2P Require Import ContinuousTaskMgr.
From S2P Require Import ContinuousTaskStart.
From S2P Require Import ContinuousStartProps.
From S2P Require Import BackgroundTaskMgrService.
From S2P Require Import BackgroundTaskMgrSystem.
From S2P Require Import BackgroundTaskMgrRun.
From S2P Require Import Parcel.
From S2P Require Import ParcelableProps.
From S2P Require Import RequestArrival.
From S2P Require Import ClientProps.
From S2P Require Import BackgroundTaskManager.
From S2P Require Import NapiCommon.
From S2P Require Import NapiContinuousTask.

(** * A script's start, at the service

    The work a script's start by a request object queues, over the client library and the
    service behind it. *)

Import Common.

Section Start.
Context {sp : SystemParams} {actions : CommonEventActions} {sa : SystemAbilityIds} {store : RecordStore}
  {abilities : EffAbilityIds} `{ContinuousPlatform} `{Json J} `{EventHandler Q}.
Variable CheckSignature : string -> bool.
Context `{!IBackgroundTaskMgr W} `{!ServiceBehind CheckSignature W}.
Context `{NodeApi V}.

(** The request object of a script's call, as it is read. *)
Definition script_request (argv : list V) : ContinuousTaskRequest :=
  (GetContinuousTaskRequest (arg argv 1) new_ContinuousTaskRequest).1.2.

(** The work of an accepted start: the ability and the request it goes by. *)
Lemma start_by_request_work (argv : list V) work :
  argc argv = 2 -> nc_work (StartBackgroundRunning argv true) = Some work ->
  exists i, work = (XStartBackgroundRunningByRequest, CPromise, i) /\ as_errCode i = ERR_OK /\
    has_ability i /\ request_allowed (as_request i) /\ as_abilityContext i = GetAbilityContext (arg argv 0) /\
    as_request i = script_request argv.
Proof.
  intros Ha. unfold StartBackgroundRunning, finish. rewrite Ha.
  change (2 >? MAX_START_BG_RUNNING_PARAMS) with false. change (2 =? MAX_START_BG_RUNNING_BY_RQUEST_PARAMS) with true.
  cbv iota. unfold StartBackgroundRunningSubmit, nbind. cbv beta.
  pose proof (StartBackgroundRunningCheckRequest_accepts argv true new_AsyncCallbackInfo eq_refl) as Hw. unfold nwp in Hw.
  destruct (StartBackgroundRunningCheckRequest argv true new_AsyncCallbackInfo) as [[[] i] t]; cbn in *; [|done].
  intros [= <-]. exists i. by destruct Hw as (_ & Hw).
Qed.

(** What the library is asked for: [mode] is the first of the converted modes. *)
Definition start_request (request : ContinuousTaskRequest) (mode : Z) (c : AbilityContext) (info : string * Z) :
    ContinuousTaskParam :=
  let r := converted request in
  request_param r mode info.1 (ac_GetAbilityRecordId c) (cr_continuousTaskId_ r) (-1) info.2.

Lemma by_request_terms request mode c info e r : requested (start_request request mode c info) e r ->
  ct_abilityName_ r = info.1 /\ ct_abilityId_ r = ac_GetAbilityRecordId c /\ ct_isByRequestObject_ r = true /\
  ct_bgModeIds_ r = map v9_mode (combine (cr_backgroundTaskModes_ request) (cr_backgroundTaskSubmodes_ request)) /\
  ct_bgSubModeIds_ r = cr_backgroundTaskSubmodes_ request /\ ct_wantAgent_ r = cr_wantAgent_ request /\
  ct_progressInfo_ r = cr_progressInfo_ request /\
  ct_isCombinedTaskNotification_ r = cr_combinedTaskNotification_ request /\
  ct_combinedNotificationTaskId_ r = cr_continuousTaskId_ request.
Proof.
  unfold requested, requested_as, asked_submodes, asked_modes, start_request, request_param.
  cbn -[want_of]. intros Hq. decompose [and] Hq. split_and!; try congruence.
  destruct (want_of _) as [want|]; [destruct (w_subMode want)|]; rewrite app_nil_r in *; congruence.
Qed.

(** C10. A script that starts a task by a request object: its promise is rejected and the
    service has no new key, or the service has a new task of the caller and of the ability of
    the context given — with the modes of the request object, each converted with its submode
    to the mode the service counts, its submodes, its want agent, its progress and the
    notification it is to join — and once that is written the promise gives the ids of this
    task and of its notification. *)
Theorem script_start_outcome (argv : list V) work n st w :
  argc argv = 2 -> nc_work (StartBackgroundRunning argv true) = Some work ->
  let e := (at_service CheckSignature w).1 in
  let s := (at_service CheckSignature w).2 in
  let request := script_request argv in
  exists i settled st' w', work = (XStartBackgroundRunningByRequest, CPromise, i) /\
    run_work work n st w = (Some settled, st', w') /\
    let c := sv_continuous s in
    let c' := sv_continuous (at_service CheckSignature w').2 in
    ((exists error, settled = Reject error) /\ dom (tasks c') ⊆ dom (tasks c)) \/
    (exists mode context info r, GetAbilityContext (arg argv 0) = Some context /\ ac_GetAbilityInfo context = Some info /\
       start_succeeds (start_request request mode context info) r (cont_env CheckSignature (sv_config s) e) c c' /\
       ct_abilityName_ r = info.1 /\ ct_abilityId_ r = ac_GetAbilityRecordId context /\ ct_isByRequestObject_ r = true /\
       ct_bgModeIds_ r = map v9_mode (combine (cr_backgroundTaskModes_ request) (cr_backgroundTaskSubmodes_ request)) /\
       ct_bgSubModeIds_ r = cr_backgroundTaskSubmodes_ request /\ ct_wantAgent_ r = cr_wantAgent_ request /\
       ct_progressInfo_ r = cr_progressInfo_ request /\
       ct_isCombinedTaskNotification_ r = cr_combinedTaskNotification_ request /\
       ct_combinedNotificationTaskId_ r = cr_continuousTaskId_ request /\
       settled =
         (if ce_SaveTaskRecord (se_cont e) =? ERR_OK then
            Resolve (Some (JsObject
              [("slotType", JsInt32 SLOT_TYPE); ("contentType", JsInt32 SYSTEM_LIVE_CONTENT_TYPE);
               ("notificationId", JsInt32 (ct_notificationId_ r));
               ("continuousTaskId", JsInt32 (ct_continuousTaskId_ r))]%string))
          else reject (ce_SaveTaskRecord (se_cont e)))).
Proof.
  intros Ha Hwork. cbv zeta.
  destruct (start_by_request_work _ _ Ha Hwork) as (i & -> & He & (c & info & Ec & Ei) & Hr & Ectx & Ereq).
  rewrite Ectx in Ec. rewrite Ereq in Hr. exists i. unfold run_work, cl_map at 1. cbn [execute].
  unfold StartBackgroundRunningByRequestExecuteCB, unless_refused.
  rewrite He. cbn [Z.eqb ERR_OK negb]. unfold with_request. rewrite Ereq, (TaskModeTypeConversion_run _ Hr).
  set (request := script_request argv) in *.
  destruct (converted_head _ Hr) as [mode Em]. cbn [mbind option_bind]. rewrite Em. cbn [mbind option_bind]. unfold with_ability.
  rewrite Ectx, Ec, Ei. unfold BackgroundTaskMgrHelper.RequestStartBackgroundRunning. fold (start_request request mode c info).
  assert (cr_backgroundTaskModes_ (converted request) <> []) as Hne by (intros E; by rewrite E in Em).
  assert ((0 <? length (cr_backgroundTaskModes_ (converted request)))%nat = true) as Hl.
  { apply Nat.ltb_lt. destruct (cr_backgroundTaskModes_ _); [done|]. cbn. lia. }
  destruct (GetBackgroundTaskManagerProxy n st) as [[] st1] eqn:Hp.
  - assert (modes_sent (start_request request mode c info)) as Hm by by left.
    pose proof (library_start_ends CheckSignature (start_request request mode c info) n st w Hm) as Hend.
    rewrite Hp in Hend. destruct (Hend eq_refl) as (err & p' & st' & w' & Hrun & Hcases). unfold cl_map. cbv beta.
    rewrite Hrun. do 3 eexists. split; [done|]. split; [done|].
    destruct Hcases as [[Herr Hd]|(r & Hs & -> & Hids)].
    + left. split; [|done]. unfold complete, PromiseCompletedCB. cbn. rewrite (proj2 (Z.eqb_neq _ _) Herr). by eexists.
    + right. exists mode, c, info, r. split; [done|]. split; [done|]. split; [done|].
      assert (requested (start_request request mode c info) (cont_env CheckSignature (sv_config (at_service CheckSignature w).2)
        (at_service CheckSignature w).1) r) as Hq by apply Hs.
      apply by_request_terms in Hq as (? & ? & ? & ? & ? & ? & ? & ? & ?). repeat (split; [done|]).
      unfold complete, PromiseCompletedCB. cbn [as_errCode with_request_ids with_ids as_set_continuousTaskId
        as_set_notificationId as_set_errCode as_set_bgModes as_set_request as_bgModes fst snd].
      case_test; [|done]. apply Z.eqb_eq in Hc. rewrite Hl, (Hids Hc). done.
  - unfold cl_map, cl_RequestStartBackgroundRunning. rewrite with_proxy_run, Hp. do 3 eexists.
    split; [done|]. split; [done|]. left. split; [|done]. by eexists.
Qed.
End Start.
