(* ===== verification/JsBackgroundTaskSubscriber.v ===== *)
(** * Scripts told about continuous tasks

    js_backgroundtask_subscriber.cpp: the one subscriber of the process, with the callbacks
    scripts register by type, and the functions of bg_continuous_task_napi_module.cpp that
    register and remove them: on, off, subscribeContinuousTaskState and
    unsubscribeContinuousTaskState.

    A set of references is ordered by address; the model keeps the order of registration,
    which no statement uses. *)

From S2P Require Import Prelude.
From S2P Require Import Errors.
From S2P Require Import Interfaces.
From S2P Require Import ContinuousTypes.
From S2P Require Import BackgroundModes.
From S2P Require Import BackgroundTaskManager.
From S2P Require Import NapiCommon.
From S2P Require Import NapiContinuousTask.
From S2P Require Import NapiProps.
Import Common ContinuousTaskSuspendReason.
Local Open Scope Z_scope.

(** ** continuous_task_suspend_reason.cpp *)
Definition SUSPEND_REASON_TO_MESSAGE : list (Z * string) := [
  (SYSTEM_SUSPEND_DATA_TRANSFER_LOW_SPEED,
    "For a period of time, the application did not use data transfer or the data transfer rate was too low."%string);
  (SYSTEM_SUSPEND_AUDIO_PLAYBACK_NOT_USE_AVSESSION, "The application did use avsession when request audio playback mode."%string);
  (SYSTEM_SUSPEND_AUDIO_PLAYBACK_NOT_RUNNING, "Audio is not running when request audio playback mode."%string);
  (SYSTEM_SUSPEND_AUDIO_RECORDING_NOT_RUNNING, "No recording stream detected when applying for audio recording mode"%string);
  (SYSTEM_SUSPEND_LOCATION_NOT_USED, "Not use location when request location mode."%string);
  (SYSTEM_SUSPEND_BLUETOOTH_NOT_USED, "Bluetooth connection not detected when request bluetooth interaction mode."%string);
  (SYSTEM_SUSPEND_MULTI_DEVICE_NOT_USED, "Not use multi device when request multi-device connection mode."%string);
  (SYSTEM_SUSPEND_USED_ILLEGALLY, "Detected that the application is using an unapproved mode"%string);
  (SYSTEM_SUSPEND_SYSTEM_LOAD_WARNING, "System load warning."%string);
  (SYSTEM_SUSPEND_VOIP_NOT_USED, "No audio stream or recording stream detected when applying for voip mode"%string);
  (SYSTEM_SUSPEND_BLUETOOTH_DATA_NOT_EXIST,
    "Not bluetooth data for a period of time when request bluetooth interaction mode."%string);
  (SYSTEM_SUSPEND_POSITION_NOT_MOVED, "The location has not moved for a period of time when request location mode."%string);
  (SYSTEM_SUSPEND_AUDIO_PLAYBACK_MUTE, "The system muted for a period of time when request audio playback mode."%string);
  (SYSTEM_SUSPEND_NEARLINK_NOT_USED, "No nearlink connection for a period of time when request nearlink mode."%string);
  (SYSTEM_SUSPEND_NEARLINK_DATA_NOT_EXIST, "No nearlink data for a period of time when request nearlink mode."%string);
  (SYSTEM_SUSPEND_USER_UNAUTHORIZED, "User not authorized when request MODE_SPECIAL_SCENARIO_PROCESSING."%string)].
Definition GetSuspendReasonMessage (suspendReason : Z) : string :=
  default "unknown suspendReason"%string (table_find suspendReason SUSPEND_REASON_TO_MESSAGE).

(** ** Types of callbacks *)
Definition CONTINUOUS_TASK_CANCEL : Z := 1.
Definition CONTINUOUS_TASK_SUSPEND : Z := 2.
Definition CONTINUOUS_TASK_ACTIVE : Z := 4.
Definition SUBSCRIBER_BACKGROUND_TASK_STATE : Z := 8.
Definition SUBSCRIBER_BACKGROUND_TASK_STATE_TYPE : string := "subscribeContinuousTaskState".
Definition g_callbackTypes : list string := ["continuousTaskCancel"; "continuousTaskSuspend"; "continuousTaskActive"]%string.

(** The flag of a type of [on] and [off]; zero for any other. *)
Definition type_flag (typeString : string) : Z :=
  if bool_decide (typeString = "continuousTaskCancel")%string then CONTINUOUS_TASK_CANCEL else
  if bool_decide (typeString = "continuousTaskSuspend")%string then CONTINUOUS_TASK_SUSPEND else
  if bool_decide (typeString = "continuousTaskActive")%string then CONTINUOUS_TASK_ACTIVE else 0.

(** ** The subscriber

    [js_impl_]: the object the service holds.  [js_jsSaListner_]: the listener for the
    service's coming and going is registered. *)
Record JsSubscriber (V : Type) := mkJs {
  js_impl_ : option RemoteProxy;
  js_jsObserverObjectMap_ : gmap string (list V);
  js_jsSaListner_ : bool;
  js_needRestoreSubscribeStatus_ : bool;
  js_allCallBackTypes_ : Z;
  js_currentCallBackType_ : Z;
}.
Arguments mkJs {V}.
Arguments js_impl_ {V}.
Arguments js_jsObserverObjectMap_ {V}.
Arguments js_jsSaListner_ {V}.
Arguments js_needRestoreSubscribeStatus_ {V}.
Arguments js_allCallBackTypes_ {V}.
Arguments js_currentCallBackType_ {V}.

(** The registry of services: present, and the result of registering a listener. *)
Record SaManager := mkSa { sa_present : bool; sa_SubscribeSystemAbility : Z }.

Section Subscriber.
Context {V : Type} `{NodeApi V}.
Implicit Types s : JsSubscriber V.

Definition new_JsBackgroundTaskSubscriber (impl : option RemoteProxy) : JsSubscriber V := mkJs impl ∅ false false 0 0.
Definition js_set_map (m : gmap string (list V)) s : JsSubscriber V :=
  mkJs (js_impl_ s) m (js_jsSaListner_ s) (js_needRestoreSubscribeStatus_ s) (js_allCallBackTypes_ s) (js_currentCallBackType_ s).
Definition js_set_listener (b : bool) s : JsSubscriber V :=
  mkJs (js_impl_ s) (js_jsObserverObjectMap_ s) b (js_needRestoreSubscribeStatus_ s) (js_allCallBackTypes_ s) (js_currentCallBackType_ s).
Definition js_set_restore (b : bool) s : JsSubscriber V :=
  mkJs (js_impl_ s) (js_jsObserverObjectMap_ s) (js_jsSaListner_ s) b (js_allCallBackTypes_ s) (js_currentCallBackType_ s).
Definition js_set_flags (all current : Z) s : JsSubscriber V :=
  mkJs (js_impl_ s) (js_jsObserverObjectMap_ s) (js_jsSaListner_ s) (js_needRestoreSubscribeStatus_ s) all current.

Definition observers (cbType : string) s : list V := default [] (js_jsObserverObjectMap_ s !! cbType).

(** The registered value equal to one given. *)
Definition GetObserverObject (cbType : string) (jsObserverObject : V) s : option V :=
  snd <$> list_find (fun value => napi_strict_equals value jsObserverObject = true) (observers cbType s).

Definition AddJsObserverObject (cbType : string) (jsObserverObject : V) s : JsSubscriber V :=
  match GetObserverObject cbType jsObserverObject s with
  | None => js_set_map (<[cbType := observers cbType s ++ [jsObserverObject]]> (js_jsObserverObjectMap_ s)) s
  | Some _ => s
  end.

Definition IsEmpty s : bool := bool_decide (js_jsObserverObjectMap_ s = ∅).
Definition IsTypeEmpty (cbType : string) s : bool := bool_decide (js_jsObserverObjectMap_ s !! cbType = None).

Definition RemoveJsObserverObjects (cbType : string) s : JsSubscriber V :=
  js_set_map (delete cbType (js_jsObserverObjectMap_ s)) s.

(** The reference found is erased; the last of a type takes the type with it. *)
Definition RemoveJsObserverObject (cbType : string) (jsObserverObject : V) s : JsSubscriber V :=
  match list_find (fun value => napi_strict_equals value jsObserverObject = true) (observers cbType s) with
  | None => s
  | Some (n, _) =>
      if (length (observers cbType s) =? 1)%nat then RemoveJsObserverObjects cbType s
      else js_set_map (<[cbType := delete n (observers cbType s)]> (js_jsObserverObjectMap_ s)) s
  end.

Definition SetFlag (flag : Z) (isSubscriber : bool) s : JsSubscriber V :=
  js_set_flags (if isSubscriber then Z.lor (js_allCallBackTypes_ s) flag else Z.ldiff (js_allCallBackTypes_ s) flag) flag s.
Definition GetFlag s : Z := int32 (js_allCallBackTypes_ s).

Definition SubscriberBgtaskSaStatusChange (sa : SaManager) s : JsSubscriber V :=
  if js_jsSaListner_ s then s else
  if negb (sa_present sa) then s else js_set_listener (sa_SubscribeSystemAbility sa =? ERR_OK) s.

(** *** What is called

    A call of a registered value: itself, or the method of it named, on one value. *)
Definition JsCall : Type := V * option string * JsValue.

Definition call_methods (methodName : string) (info : ContinuousTaskCallbackInfo) s : list JsCall :=
  map (fun item => (item, Some methodName, GetNapiCallBackInfo info)) (observers "subscribeContinuousTaskState" s).
Definition HandleOnContinuousTaskStart (info : ContinuousTaskCallbackInfo) s : list JsCall :=
  call_methods "onContinuousTaskStart" info s.
Definition HandleOnContinuousTaskUpdate (info : ContinuousTaskCallbackInfo) s : list JsCall :=
  call_methods "onContinuousTaskUpdate" info s.
Definition HandleSubscribeOnContinuousTaskStop (info : ContinuousTaskCallbackInfo) s : list JsCall :=
  call_methods "onContinuousTaskStop" info s.
Definition HandleOnContinuousTaskStop (info : ContinuousTaskCallbackInfo) s : list JsCall :=
  HandleSubscribeOnContinuousTaskStop info s ++
  map (fun item => (item, None,
      JsObject [("reason", JsInt32 (ci_cancelReason_ info)); ("id", JsInt32 (ci_continuousTaskId_ info));
                ("detailedReason", JsInt32 (ci_detailedCancelReason_ info))]%string))
    (observers "continuousTaskCancel" s).
Definition HandleOnContinuousTaskSuspend (info : ContinuousTaskCallbackInfo) s : list JsCall :=
  map (fun item => (item, None,
      JsObject [("continuousTaskId", JsInt32 (ci_continuousTaskId_ info));
                ("suspendState", JsBool (ci_suspendState_ info));
                ("suspendReason", JsInt32 (-1));
                ("suspendMessage",
                  JsObject [("reason", JsInt32 (ci_suspendReason_ info));
                            ("message", JsString (GetSuspendReasonMessage (uint32 (ci_suspendReason_ info))))])]%string))
    (observers "continuousTaskSuspend" s).
Definition HandleOnContinuousTaskActive (info : ContinuousTaskCallbackInfo) s : list JsCall :=
  map (fun item => (item, None, JsObject [("id", JsInt32 (ci_continuousTaskId_ info))]%string))
    (observers "continuousTaskActive" s).

(** The tasks [OnContinuousTaskStart] and the others schedule, run on the script's thread:
    nothing where the subscriber is gone by then. *)
Definition deliver (kind : CallbackKind) (info : ContinuousTaskCallbackInfo) (self : option (JsSubscriber V)) : list JsCall :=
  match self with
  | None => []
  | Some s =>
      match kind with
      | OnContinuousTaskStart => HandleOnContinuousTaskStart info s
      | OnContinuousTaskUpdate => HandleOnContinuousTaskUpdate info s
      | OnContinuousTaskStop => HandleOnContinuousTaskStop info s
      | OnContinuousTaskSuspend => HandleOnContinuousTaskSuspend info s
      | OnContinuousTaskActive => HandleOnContinuousTaskActive info s
      end
  end.
End Subscriber.

(** ** The module's subscriber

    [backgroundTaskSubscriber_], null at first.  The functions give the errors thrown and
    the subscriber as it is then; all of them return undefined or null. *)
Section Module.
Context {V : Type} `{NodeApi V} `{IBackgroundTaskMgr W}.
Abbreviation CL := (CL (W := W)).
Abbreviation Global := (option (JsSubscriber V)).
Implicit Types (sub : Global) (argv : list V).

(** The service came back; [needRestoreSubscribeStatus_] is set where it went away. *)
Definition OnAddSystemAbility (isBgtask : bool) sub : CL Global :=
  match sub with
  | Some s =>
      if isBgtask && js_needRestoreSubscribeStatus_ s then
        let s := js_set_flags (js_allCallBackTypes_ s) (js_allCallBackTypes_ s) s in
        cl_map (fun _ => Some (js_set_restore false s))
          (BackgroundTaskMgrHelper.SubscribeBackgroundTask (js_impl_ s) (js_currentCallBackType_ s))
      else cl_ret sub
  | None => cl_ret sub
  end.
Definition OnRemoveSystemAbility (isBgtask : bool) sub : Global :=
  if isBgtask then (fun s => if IsEmpty s then s else js_set_restore true s) <$> sub else sub.

(** [fresh]: the object of a subscriber that is made now. *)
Definition SubscribeBackgroundTask (fresh : option RemoteProxy) (flag : Z) sub : CL (bool * list Thrown * Global) :=
  let s := SetFlag flag true (default (new_JsBackgroundTaskSubscriber fresh) sub) in
  cl_map (fun errCode => (errCode =? ERR_OK, thrown_code errCode, Some s))
    (BackgroundTaskMgrHelper.SubscribeBackgroundTask (js_impl_ s) (js_currentCallBackType_ s)).

(** The last type gone, the listener is removed and the subscriber deleted. *)
Definition UnSubscribeBackgroundTask (flag : Z) (cbType : string) (s : JsSubscriber V) :
    CL (list Thrown * Global) :=
  if negb (IsTypeEmpty cbType s) then cl_ret ([], Some s) else
  let s := SetFlag flag false s in
  cl_map (fun errCode =>
      if negb (errCode =? ERR_OK) then (thrown_code errCode, Some s) else
      if IsEmpty s then ([], None) else ([], Some s))
    (BackgroundTaskMgrHelper.UnsubscribeBackgroundTask (js_impl_ s) (js_currentCallBackType_ s)).

Definition CheckOnParam argv : option string :=
  if argc argv <? ARGC_TWO then None else
  typeString ← ConvertFromJsValue (arg argv 0);
  if bool_decide (typeString ∉ g_callbackTypes) then None else
  if negb (has_type napi_function (arg argv 1)) then None else Some typeString.
Definition CheckOffParam argv : option string :=
  if argc argv <? ARGC_ONE then None else
  typeString ← ConvertFromJsValue (arg argv 0);
  if bool_decide (typeString ∉ g_callbackTypes) then None else
  if (argc argv =? ARGC_TWO) && negb (has_type napi_function (arg argv 1)) then None else Some typeString.

(** Subscribes with the flag and adds the value; nothing is added where that fails. *)
Definition subscribe_and_add (sa : SaManager) (fresh : option RemoteProxy) (flag : Z) (cbType : string) (value : V) sub :
    CL (list Thrown * Global) :=
  cl_map (fun '(ok, thrown, sub) =>
      if negb ok then (thrown, sub)
      else (thrown, SubscriberBgtaskSaStatusChange sa ∘ AddJsObserverObject cbType value <$> sub))
    (SubscribeBackgroundTask fresh flag sub).

Definition OnOnContinuousTaskCallback (sa : SaManager) (fresh : option RemoteProxy) argv sub : CL (list Thrown * Global) :=
  match CheckOnParam argv with
  | None => cl_ret (thrown_param ERR_BGTASK_INVALID_PARAM, sub)
  | Some typeString => subscribe_and_add sa fresh (type_flag typeString) typeString (arg argv 1) sub
  end.

Definition OffOnContinuousTaskCallback argv sub : CL (list Thrown * Global) :=
  match CheckOffParam argv with
  | None => cl_ret (thrown_param ERR_BGTASK_INVALID_PARAM, sub)
  | Some typeString =>
      match sub with
      | None => cl_ret ([], sub)
      | Some s =>
          let s := if argc argv =? ARGC_ONE then RemoveJsObserverObjects typeString s else
                   if argc argv =? ARGC_TWO then RemoveJsObserverObject typeString (arg argv 1) s else s in
          let type := if IsTypeEmpty typeString s then type_flag typeString else 0 in
          UnSubscribeBackgroundTask type typeString s
      end
  end.

Definition SubscribeContinuousTaskState (sa : SaManager) (fresh : option RemoteProxy) argv sub : CL (list Thrown * Global) :=
  if negb (argc argv =? 1) then cl_ret (thrown_param ERR_PARAM_NUMBER_ERR, sub) else
  if negb (CheckSubscriberParam (arg argv 0))
  then cl_ret (thrown_code ERR_BGTASK_CONTINUOUS_CALLBACK_NULL_OR_TYPE_ERR, sub) else
  subscribe_and_add sa fresh SUBSCRIBER_BACKGROUND_TASK_STATE SUBSCRIBER_BACKGROUND_TASK_STATE_TYPE (arg argv 0) sub.

Definition UnSubscribeContinuousTaskState argv sub : CL (list Thrown * Global) :=
  if negb (argc argv =? 1) then cl_ret (thrown_param ERR_PARAM_NUMBER_ERR, sub) else
  if negb (CheckSubscriberParam (arg argv 0))
  then cl_ret (thrown_code ERR_BGTASK_CONTINUOUS_CALLBACK_NULL_OR_TYPE_ERR, sub) else
  match sub with
  | None => cl_ret ([], sub)
  | Some s =>
      UnSubscribeBackgroundTask SUBSCRIBER_BACKGROUND_TASK_STATE SUBSCRIBER_BACKGROUND_TASK_STATE_TYPE
        (RemoveJsObserverObject SUBSCRIBER_BACKGROUND_TASK_STATE_TYPE (arg argv 0) s)
  end.
End Module.

(** * Scripts told about continuous tasks: properties

    The states the module's subscriber goes through, whatever scripts register and remove
    and whatever the library answers: the flags it gives the service cover the types with
    callbacks, and a callback hears exactly the events it is registered for. *)

Import Common.

(** Strict equality of script values ([===]) on the values that can be registered. *)
Class StrictEquality (V : Type) `{NodeApi V} := {
  strict_sym (a b : V) : napi_strict_equals a b = true -> napi_strict_equals b a = true;
  strict_trans (a b c : V) : napi_strict_equals a b = true -> napi_strict_equals b c = true -> napi_strict_equals a c = true;
  strict_function (a : V) : has_type napi_function a = true -> napi_strict_equals a a = true;
}.

(** ** Flags *)
Definition flag_of (cbType : string) : Z :=
  if bool_decide (cbType = SUBSCRIBER_BACKGROUND_TASK_STATE_TYPE) then SUBSCRIBER_BACKGROUND_TASK_STATE else type_flag cbType.
Definition all_types : list string := SUBSCRIBER_BACKGROUND_TASK_STATE_TYPE :: g_callbackTypes.
Definition flagged (all : Z) (cbType : string) : Prop := Z.land all (flag_of cbType) = flag_of cbType.

Lemma flagged_lor all t f : flagged all t -> flagged (Z.lor all f) t.
Proof.
  unfold flagged. intros E. rewrite Z.land_lor_distr_l, E.
  apply Z.bits_inj'. intros n _. rewrite Z.lor_spec, Z.land_spec. by destruct (Z.testbit f n), (Z.testbit (flag_of t) n).
Qed.

Lemma flagged_new all t : flagged (Z.lor all (flag_of t)) t.
Proof.
  unfold flagged. apply Z.bits_inj'. intros n _. rewrite Z.land_spec, Z.lor_spec.
  by destruct (Z.testbit all n), (Z.testbit (flag_of t) n).
Qed.

Lemma flagged_ldiff all t f : Z.ldiff (flag_of t) f = flag_of t -> flagged all t -> flagged (Z.ldiff all f) t.
Proof.
  unfold flagged. intros Ed E. rewrite <- E at 2. rewrite <- Ed at 2. apply Z.bits_inj'. intros n _.
  rewrite !Z.land_spec, !Z.ldiff_spec. by destruct (Z.testbit all n), (Z.testbit f n), (Z.testbit (flag_of t) n).
Qed.

Lemma types_disjoint : Forall (fun t => Forall (fun t' => t = t' \/ Z.ldiff (flag_of t) (flag_of t') = flag_of t) all_types) all_types.
Proof. by apply (bool_decide_unpack _); vm_compute. Qed.

Lemma other_flag t t' : t ∈ all_types -> t' ∈ all_types -> t <> t' -> Z.ldiff (flag_of t) (flag_of t') = flag_of t.
Proof.
  intros Ht Ht' Hne. pose proof types_disjoint as Hd. rewrite Forall_forall in Hd. specialize (Hd t Ht).
  rewrite Forall_forall in Hd. by destruct (Hd t' Ht').
Qed.

Section Props.
Context {V : Type} `{StrictEquality V} `{IBackgroundTaskMgr W}.
Implicit Types (s : JsSubscriber V) (sub : option (JsSubscriber V)) (cb : V) (l : list V) (argv : list V).

(** ** Callbacks of one type *)
Abbreviation same cb := (fun v : V => napi_strict_equals v cb = true).
Definition times cb l : nat := length (filter (same cb) l).

Lemma times_app cb l l' : times cb (l ++ l') = (times cb l + times cb l')%nat.
Proof. unfold times. by rewrite filter_app, length_app. Qed.

Lemma times_zero cb l : list_find (same cb) l = None -> times cb l = 0%nat.
Proof.
  intros Hf. apply list_find_None in Hf. unfold times. induction Hf as [|v l Hv _ IH]; [done|].
  by rewrite filter_cons_False.
Qed.

Lemma times_cons cb v l : times cb (v :: l) = ((if napi_strict_equals v cb then 1 else 0) + times cb l)%nat.
Proof. unfold times. rewrite filter_cons. by destruct (napi_strict_equals v cb). Qed.

Lemma times_delete cb l n : (times cb (delete n l) <= times cb l)%nat.
Proof.
  revert n. induction l as [|v l IH]; intros [|n]; [done..| |].
  - rewrite times_cons. cbn [delete list_delete]. lia.
  - specialize (IH n). change (delete (S n) (v :: l)) with (v :: delete n l). rewrite !times_cons. lia.
Qed.

Lemma times_found cb l n v : l !! n = Some v -> napi_strict_equals v cb = true ->
  times cb l = S (times cb (delete n l)).
Proof.
  revert n. induction l as [|x l IH]; intros [|n] Hl Hv; [done..| |].
  - injection Hl as ->. rewrite times_cons, Hv. done.
  - specialize (IH n Hl Hv). change (delete (S n) (x :: l)) with (x :: delete n l). rewrite !times_cons. lia.
Qed.

Lemma times_once cb x l : (forall cb', (times cb' l <= 1)%nat) -> list_find (same x) l = None ->
  (times cb (l ++ [x]) <= 1)%nat.
Proof.
  intros Hl Hx. rewrite times_app, times_cons. destruct (napi_strict_equals x cb) eqn:E.
  - assert (times cb l = 0%nat) as ->; [|done]. apply times_zero. apply list_find_None in Hx. apply list_find_None.
    eapply Forall_impl; [exact Hx|]. intros v Hv Hcb. apply Hv.
    eapply strict_trans; [exact Hcb|]. by apply strict_sym.
  - specialize (Hl cb). cbn. lia.
Qed.

(** ** States

    Every type with callbacks is one of the four, has a callback, has its flag, and no
    callback twice. *)
Definition sound s : Prop :=
  forall t l, js_jsObserverObjectMap_ s !! t = Some l ->
    t ∈ all_types /\ l <> [] /\ flagged (js_allCallBackTypes_ s) t /\ forall cb, (times cb l <= 1)%nat.
Definition sound_sub sub : Prop := match sub with Some s => sound s | None => True end.

Inductive js_step : option (JsSubscriber V) -> option (JsSubscriber V) -> Prop :=
| step_on sa fresh argv sub n st (w : W) : js_step sub (OnOnContinuousTaskCallback sa fresh argv sub n st w).1.1.2
| step_off argv sub n st (w : W) : js_step sub (OffOnContinuousTaskCallback argv sub n st w).1.1.2
| step_subscribe sa fresh argv sub n st (w : W) : js_step sub (SubscribeContinuousTaskState sa fresh argv sub n st w).1.1.2
| step_unsubscribe argv sub n st (w : W) : js_step sub (UnSubscribeContinuousTaskState argv sub n st w).1.1.2
| step_added isBgtask sub n st (w : W) : js_step sub (OnAddSystemAbility isBgtask sub n st w).1.1
| step_removed isBgtask sub : js_step sub (OnRemoveSystemAbility isBgtask sub).

Inductive js_reachable : option (JsSubscriber V) -> Prop :=
| js_start : js_reachable None
| js_next sub sub' : js_reachable sub -> js_step sub sub' -> js_reachable sub'.

(** *** Operations *)
Lemma sound_flag t s : sound s -> sound (SetFlag (flag_of t) true s).
Proof.
  intros Hs t' l Hl. destruct (Hs t' l Hl) as (Ha1 & Ha2 & Ha3 & Ha4). repeat split; [done..| |done].
  by apply flagged_lor.
Qed.

Lemma sound_add t cb s : t ∈ all_types -> flagged (js_allCallBackTypes_ s) t -> sound s -> sound (AddJsObserverObject t cb s).
Proof.
  intros Ht Hf Hs. unfold AddJsObserverObject, GetObserverObject.
  destruct (list_find _ (observers t s)) as [[n v]|] eqn:Efind; [done|]. cbn. intros t' l. cbn.
  rewrite lookup_insert. case_decide as Et; [|apply Hs]. intros [= <-]. subst t'.
  split; [done|]. split; [by destruct (observers t s)|]. split; [done|]. intros cb'. apply times_once; [|done].
  intros c. unfold observers. destruct (js_jsObserverObjectMap_ s !! t) as [l|] eqn:El; [|cbn; unfold times; cbn; lia].
  by apply (Hs t l El).
Qed.

Lemma sound_remove_all t s : sound s -> sound (RemoveJsObserverObjects t s).
Proof. intros Hs t' l. cbn. rewrite lookup_delete. case_decide; [done|]. apply Hs. Qed.

Lemma sound_remove t cb s : sound s -> sound (RemoveJsObserverObject t cb s).
Proof.
  intros Hs. unfold RemoveJsObserverObject. destruct (list_find _ (observers t s)) as [[n v]|] eqn:Efind; [|done].
  case_test; [by apply sound_remove_all|]. intros t' l. cbn. rewrite lookup_insert. case_decide as Et; [|apply Hs].
  intros [= <-]. subst t'. apply list_find_Some in Efind as (Hn & _ & _). unfold observers in *.
  destruct (js_jsObserverObjectMap_ s !! t) as [l|] eqn:El; [|done]. cbn in *.
  destruct (Hs t l El) as (Ha1 & Ha2 & Ha3 & Ha4). split; [done|]. split.
  { intros E. apply (f_equal length) in E. rewrite length_delete in E by by eexists. apply Nat.eqb_neq in Hc. cbn in E.
    apply lookup_lt_Some in Hn. lia. }
  split; [done|]. intros c. pose proof (times_delete c l n). specialize (Ha4 c). lia.
Qed.

(** The flag of a type is dropped only where the type has no callbacks. *)
Lemma sound_unsubscribe t flag s n st (w : W) : t ∈ all_types -> flag = flag_of t \/ js_jsObserverObjectMap_ s !! t <> None ->
  sound s -> sound_sub (UnSubscribeBackgroundTask flag t s n st w).1.1.2.
Proof.
  intros Ht Hflag Hs. unfold UnSubscribeBackgroundTask, IsTypeEmpty. case_bool_decide as Hempty; [|done]. cbn [negb].
  destruct Hflag as [->|Hne]; [|done]. assert (sound (SetFlag (flag_of t) false s)) as Hs'.
  { intros t' l Hl. destruct (Hs t' l Hl) as (Ha1 & Ha2 & Ha3 & Ha4). repeat split; [done..| |done].
    apply flagged_ldiff; [|done]. apply other_flag; [done..|]. intros ->. cbn in Hl. by rewrite Hempty in Hl. }
  unfold cl_map. destruct (BackgroundTaskMgrHelper.UnsubscribeBackgroundTask _ _ n st w) as [[errCode st'] w'].
  destruct (negb (errCode =? ERR_OK)); [done|]. by destruct (IsEmpty _).
Qed.

Lemma sound_subscribe t sa fresh value sub n st (w : W) : t ∈ all_types -> sound_sub sub ->
  sound_sub (subscribe_and_add sa fresh (flag_of t) t value sub n st w).1.1.2.
Proof.
  intros Ht Hs. assert (sound (SetFlag (flag_of t) true (default (new_JsBackgroundTaskSubscriber fresh) sub))) as Hs'.
  { apply sound_flag. by destruct sub as [s|]. }
  unfold subscribe_and_add, SubscribeBackgroundTask, cl_map.
  destruct (BackgroundTaskMgrHelper.SubscribeBackgroundTask _ _ n st w) as [[errCode st'] w']. cbn.
  destruct (negb (errCode =? ERR_OK)); [done|]. cbn.
  assert (forall s, sound s -> sound (SubscriberBgtaskSaStatusChange sa s)) as Hl.
  { intros s Hsd. unfold SubscriberBgtaskSaStatusChange. repeat case_test; done. }
  apply Hl, sound_add; [done| |done]. apply flagged_new.
Qed.

Lemma on_type argv t : CheckOnParam argv = Some t -> t ∈ g_callbackTypes /\ has_type napi_function (arg argv 1) = true.
Proof.
  unfold CheckOnParam. case_test; [done|]. destruct (ConvertFromJsValue _) as [s|]; [|done]. cbn.
  case_bool_decide as Hin; [done|]. case_test; [done|]. bool_prop. by intros [= <-].
Qed.
Lemma off_type argv t : CheckOffParam argv = Some t -> t ∈ g_callbackTypes.
Proof.
  unfold CheckOffParam. case_test; [done|]. destruct (ConvertFromJsValue _) as [s|]; [|done]. cbn.
  case_bool_decide as Hin; [done|]. case_test; [done|]. by intros [= <-].
Qed.
Lemma listed_flag t : t ∈ g_callbackTypes -> t ∈ all_types /\ type_flag t = flag_of t.
Proof.
  intros Ht. split; [by apply list_elem_of_further|].
  assert (Forall (fun t => type_flag t = flag_of t) g_callbackTypes) as Hf by by apply (bool_decide_unpack _); vm_compute.
  by rewrite Forall_forall in Hf; apply Hf.
Qed.

Lemma step_sound sub sub' : js_step sub sub' -> sound_sub sub -> sound_sub sub'.
Proof.
  intros Hstep Hs. destruct Hstep.
  - unfold OnOnContinuousTaskCallback. destruct (CheckOnParam argv) as [t|] eqn:E; [|done].
    apply on_type in E as [E _]. destruct (listed_flag t E) as [Ht ->]. by apply sound_subscribe.
  - unfold OffOnContinuousTaskCallback. destruct (CheckOffParam argv) as [t|] eqn:E; [|done].
    apply off_type in E. destruct (listed_flag t E) as [Ht ->]. destruct sub as [s|]; [|done]. cbv zeta.
    match goal with |- context [UnSubscribeBackgroundTask _ _ ?x] => set (s' := x) end.
    assert (sound s') as Hs'. { unfold s'. repeat case_test; [by apply sound_remove_all|by apply sound_remove|done]. }
    apply sound_unsubscribe; [done| |done]. unfold IsTypeEmpty. case_bool_decide; [by left|by right].
  - unfold SubscribeContinuousTaskState. case_test; [done|]. case_test; [done|].
    change SUBSCRIBER_BACKGROUND_TASK_STATE with (flag_of SUBSCRIBER_BACKGROUND_TASK_STATE_TYPE).
    apply sound_subscribe; [|done]. by left.
  - unfold UnSubscribeContinuousTaskState. case_test; [done|]. case_test; [done|]. destruct sub as [s|]; [|done].
    apply sound_unsubscribe; [by left|by left|]. by apply sound_remove.
  - unfold OnAddSystemAbility. destruct sub as [s|]; [|done]. case_test; [|done]. unfold cl_map. cbv zeta.
    by destruct (BackgroundTaskMgrHelper.SubscribeBackgroundTask _ _ n st w) as [[errCode st'] w'].
  - unfold OnRemoveSystemAbility. case_test; [|done]. destruct sub as [s|]; [|done]. cbn. by destruct (IsEmpty s).
Qed.

Lemma reachable_sound sub : js_reachable sub -> sound_sub sub.
Proof. induction 1 as [|sub sub' _ IH Hstep]; [done|]. by apply (step_sound sub). Qed.

(** C20. Whatever scripts register and remove, and whatever the service answers, the flags of
    the subscriber cover every type that has a callback; and after the service died and came
    back, the library is asked to subscribe for all of them. *)
Theorem registered_types_are_flagged sub s :
  js_reachable sub -> sub = Some s ->
  (forall t, js_jsObserverObjectMap_ s !! t <> None -> flagged (js_allCallBackTypes_ s) t) /\
  (js_jsObserverObjectMap_ s <> ∅ -> forall n st (w : W), exists s',
     let subscribed := BackgroundTaskMgrHelper.SubscribeBackgroundTask (js_impl_ s) (js_allCallBackTypes_ s) n st w in
     OnAddSystemAbility true (OnRemoveSystemAbility true sub) n st w = (Some s', subscribed.1.2, subscribed.2) /\
     js_jsObserverObjectMap_ s' = js_jsObserverObjectMap_ s /\ js_allCallBackTypes_ s' = js_allCallBackTypes_ s).
Proof.
  intros Hr ->. apply reachable_sound in Hr. split.
  - intros t Ht. destruct (js_jsObserverObjectMap_ s !! t) as [l|] eqn:El; [|done]. by apply (Hr t l).
  - intros Hne n st w. cbn [OnRemoveSystemAbility fmap option_fmap option_map]. unfold IsEmpty.
    rewrite bool_decide_false by done. cbn [OnAddSystemAbility js_needRestoreSubscribeStatus_ js_set_restore andb].
    unfold cl_map. cbn. destruct (BackgroundTaskMgrHelper.SubscribeBackgroundTask _ _ n st w) as [[errCode st'] w'].
    eexists. split; [done|]. done.
Qed.

(** The calls of a callback itself among those an event makes, and the event of a type. *)
Definition heard cb (calls : list JsCall) : nat :=
  times cb (omap (fun c => match c with (v, None, _) => Some v | _ => None end) calls).
Definition event_of (cbType : string) : CallbackKind :=
  if bool_decide (cbType = "continuousTaskCancel")%string then OnContinuousTaskStop else
  if bool_decide (cbType = "continuousTaskSuspend")%string then OnContinuousTaskSuspend else OnContinuousTaskActive.

Lemma omap_itself (f : V -> JsValue) l :
  omap (fun c : JsCall => match c with (v, None, _) => Some v | _ => None end) (map (fun item => (item, None, f item)) l) = l.
Proof. induction l as [|v l IH]; [done|]. cbn. by rewrite IH. Qed.
Lemma omap_methods m (f : V -> JsValue) l :
  omap (fun c : JsCall => match c with (v, None, _) => Some v | _ => None end) (map (fun item => (item, Some m, f item)) l) = [].
Proof. by induction l. Qed.

Lemma heard_times cb t info s : t ∈ g_callbackTypes -> heard cb (deliver (event_of t) info (Some s)) = times cb (observers t s).
Proof.
  intros Ht. unfold heard. unfold g_callbackTypes in Ht. rewrite !elem_of_cons, elem_of_nil in Ht. destruct Ht as [->|[->|[->|[]]]]; cbn [event_of].
  - change (event_of "continuousTaskCancel") with OnContinuousTaskStop. cbn [deliver].
    unfold HandleOnContinuousTaskStop, HandleSubscribeOnContinuousTaskStop, call_methods.
    rewrite omap_app, omap_methods, (omap_itself (fun _ => _)). done.
  - change (event_of "continuousTaskSuspend") with OnContinuousTaskSuspend. cbn [deliver].
    unfold HandleOnContinuousTaskSuspend. by rewrite (omap_itself (fun _ => _)).
  - change (event_of "continuousTaskActive") with OnContinuousTaskActive. cbn [deliver].
    unfold HandleOnContinuousTaskActive. by rewrite (omap_itself (fun _ => _)).
Qed.

Lemma observers_set t m s : observers t (js_set_map m s) = default [] (m !! t).
Proof. done. Qed.

Lemma added_once t cb s : sound s -> napi_strict_equals cb cb = true -> times cb (observers t (AddJsObserverObject t cb s)) = 1%nat.
Proof.
  intros Hs Hcb. unfold AddJsObserverObject, GetObserverObject.
  destruct (list_find _ (observers t s)) as [[n v]|] eqn:Efind; cbn [fmap option_fmap option_map].
  - apply list_find_Some in Efind as (Hn & Hv & _). unfold observers in *.
    destruct (js_jsObserverObjectMap_ s !! t) as [l|] eqn:El; [|done]. change (default [] (Some l)) with l in *.
    pose proof (times_found cb l n v Hn Hv). destruct (Hs t l El) as (_ & _ & _ & Hle). specialize (Hle cb). lia.
  - rewrite observers_set, lookup_insert. case_decide; [|done].
    change (times cb (observers t s ++ [cb]) = 1%nat). rewrite times_app, times_cons, Hcb. by rewrite (times_zero _ _ Efind).
Qed.

Lemma removed_never t cb s : sound s -> times cb (observers t (RemoveJsObserverObject t cb s)) = 0%nat.
Proof.
  intros Hs. unfold RemoveJsObserverObject. destruct (list_find _ (observers t s)) as [[n v]|] eqn:Efind.
  - apply list_find_Some in Efind as (Hn & Hv & _). case_test.
    + unfold RemoveJsObserverObjects. rewrite observers_set, lookup_delete. case_decide; done.
    + rewrite observers_set, lookup_insert. case_decide; [|done].
      change (times cb (delete n (observers t s)) = 0%nat). unfold observers in *.
      destruct (js_jsObserverObjectMap_ s !! t) as [l|] eqn:El; [|done]. change (default [] (Some l)) with l in *.
      pose proof (times_found cb l n v Hn Hv). destruct (Hs t l El) as (_ & _ & _ & Hle). specialize (Hle cb). lia.
  - by apply times_zero.
Qed.

(** C19. A callback that [on] accepts is called once by each event of its type, and one that
    [off] is given, or each of the type where it is given none, is not called any more. *)
Theorem callbacks_hear_their_events sub argv t info n st (w : W) :
  js_reachable sub ->
  (forall sa fresh, CheckOnParam argv = Some t ->
     let r := OnOnContinuousTaskCallback sa fresh argv sub n st w in
     r.1.1.1 = [] -> heard (arg argv 1) (deliver (event_of t) info r.1.1.2) = 1%nat) /\
  (CheckOffParam argv = Some t ->
     let r := OffOnContinuousTaskCallback argv sub n st w in
     (argc argv = 2 -> heard (arg argv 1) (deliver (event_of t) info r.1.1.2) = 0%nat) /\
     (argc argv = 1 -> forall cb, heard cb (deliver (event_of t) info r.1.1.2) = 0%nat)).
Proof.
  intros Hr. apply reachable_sound in Hr. split.
  - intros sa fresh Hc. cbv zeta. unfold OnOnContinuousTaskCallback. rewrite Hc. apply on_type in Hc as [Ht Hfun].
    destruct (listed_flag t Ht) as [Hin ->].
    assert (sound (SetFlag (flag_of t) true (default (new_JsBackgroundTaskSubscriber fresh) sub))) as Hs.
    { apply sound_flag. by destruct sub as [s|]. }
    unfold subscribe_and_add, SubscribeBackgroundTask, cl_map.
    destruct (BackgroundTaskMgrHelper.SubscribeBackgroundTask _ _ n st w) as [[errCode st'] w']. cbn [fst snd].
    destruct (errCode =? ERR_OK) eqn:E; cbn [negb].
    + intros _. cbn [fst snd fmap option_fmap option_map]. rewrite heard_times by done.
      transitivity (times (arg argv 1) (observers t (AddJsObserverObject t (arg argv 1)
        (SetFlag (flag_of t) true (default (new_JsBackgroundTaskSubscriber fresh) sub))))).
      { unfold compose, SubscriberBgtaskSaStatusChange. repeat case_test; done. }
      apply added_once; [done|]. by apply strict_function.
    + apply Z.eqb_neq in E. unfold thrown_code. by rewrite HandleErrCode_run.
  - intros Hc. cbv zeta. unfold OffOnContinuousTaskCallback. rewrite Hc. apply off_type in Hc.
    assert (forall flag s cb, times cb (observers t s) = 0%nat ->
      heard cb (deliver (event_of t) info (UnSubscribeBackgroundTask flag t s n st w).1.1.2) = 0%nat) as Hu.
    { intros flag s cb Hs. assert (heard cb (deliver (event_of t) info (Some s)) = 0%nat) as Hh by by rewrite heard_times.
      unfold UnSubscribeBackgroundTask. case_test; [done|]. unfold cl_map.
      assert (heard cb (deliver (event_of t) info (Some (SetFlag flag false s))) = 0%nat) as Hh' by by rewrite heard_times.
      destruct (BackgroundTaskMgrHelper.UnsubscribeBackgroundTask _ _ n st w) as [[errCode st'] w'].
      destruct (negb (errCode =? ERR_OK)); [done|]. by destruct (IsEmpty _). }
    destruct sub as [s|]; [|done]. split; intros Ha; rewrite Ha.
    + apply Hu. by apply removed_never.
    + intros cb. apply Hu. unfold RemoveJsObserverObjects. cbn [Z.eqb ARGC_ONE Pos.eqb].
      change (1 =? ARGC_ONE) with true. cbv iota. rewrite observers_set, lookup_delete. case_decide; done.
Qed.
End Props.
