(* ===== verification/NapiTransientTask.v ===== *)
(** * Transient tasks and efficiency resources from a script

    request_suspend_delay.cpp, cancel_suspend_delay.cpp, get_remaining_delay_time.cpp,
    get_all_transient_tasks.cpp and efficiency_resources_operation.cpp of
    interfaces/kits/napi/src.

    [callbackInstances_], from request ids to the callbacks scripts gave, is kept in the
    order of its keys.  A callback instance is an object with an identity, which the service
    tells of the end of its request. *)

From S2P Require Import Prelude.
From S2P Require Import Errors.
From S2P Require Import Interfaces.
From S2P Require Import ResourceTypes.
From S2P Require Import Parcelables.
From S2P Require Import BackgroundTaskManager.
From S2P Require Import NapiCommon.
From S2P Require Import NapiContinuousTask.
Import Common.
Local Open Scope Z_scope.

Definition REQUEST_SUSPEND_DELAY_PARAMS : Z := 2.
Definition CANCEL_SUSPEND_DELAY_PARAMS : Z := 1.
Definition GET_REMAINING_DELAY_TIME_MIN_PARAMS : Z := 1.
Definition GET_REMAINING_DELAY_TIME_PARAMS : Z := 2.
Definition APPLY_EFFICIENCY_RESOURCES_PARAMS : Z := 1.

(** ** Callbacks of requests *)

(** The object, and the function it calls. *)
Record CallbackInstance (V : Type) := mkInstance { in_object : Z; in_ref : V }.
Arguments mkInstance {V}.
Arguments in_object {V}.
Arguments in_ref {V}.

Section Instances.
Context {V : Type}.
Abbreviation Instances := (list (Z * CallbackInstance V)).
Implicit Types m : Instances.

(** [callbackInstances_[requestId] = callback] *)
Fixpoint set_instance (requestId : Z) (callback : CallbackInstance V) m : Instances :=
  match m with
  | [] => [(requestId, callback)]
  | (k, c) :: m =>
      if requestId <? k then (requestId, callback) :: (k, c) :: m else
      if requestId =? k then (requestId, callback) :: m
      else (k, c) :: set_instance requestId callback m
  end.
(** [find] by id, and [erase]. *)
Definition erase_request (requestId : Z) m : Instances := filter (fun p => p.1 <> requestId) m.
(** [find_if] by the object. *)
Definition find_object (object : Z) m : option (CallbackInstance V) :=
  snd <$> (snd <$> list_find (fun p => in_object p.2 = object) m).
Fixpoint erase_object (object : Z) m : Instances :=
  match m with
  | [] => []
  | (k, c) :: m => if in_object c =? object then m else (k, c) :: erase_object object m
  end.

(** [sent]: the event for the script's thread could be sent.  The task it runs there, and
    the map. *)
Definition OnExpired (sent : bool) (object : Z) m : option (CallbackInstance V) * Instances :=
  match find_object object m with
  | None => (None, m)
  | Some instance => if sent then (Some instance, m) else (None, erase_object object m)
  end.
(** The task: the callback is called, and forgotten. *)
Definition expired_task (callback : CallbackInstance V) m : (V * Settled) * Instances :=
  ((in_ref callback, SetCallbackValue JsNull), erase_object (in_object callback) m).
End Instances.

Section Transient.
Context {V : Type} `{NodeApi V} `{IBackgroundTaskMgr W}.
Abbreviation CL := (CL (W := W)).
Abbreviation Instances := (list (Z * CallbackInstance V)).
Implicit Types (argv : list V) (m : Instances).

(** *** request_suspend_delay.cpp *)
Definition request_ParseParameters argv (isThrow : bool) : NM unit (option (string * V)) :=
  if negb (argc argv =? REQUEST_SUSPEND_DELAY_PARAMS) then HandleParamErr ERR_PARAM_NUMBER_ERR isThrow ;>> nret None else
  reason <<- GetU16StringValue (arg argv 0) ;;
  ntry reason (HandleParamErr ERR_REASON_NULL_OR_TYPE_ERR isThrow ;>> nret None) (fun reason =>
  typeof_or_throw (arg argv 1) None (fun valuetype =>
    if bool_decide (valuetype <> napi_function)
    then HandleParamErr ERR_CALLBACK_NULL_OR_TYPE_ERR isThrow ;>> nret None
    else nret (Some (reason, arg argv 1)))).

(** [object] and [impl]: the callback made, and the remote object in it.  The reason is not
    sent on.  What is returned, and the callbacks kept. *)
Definition RequestSuspendDelay argv (isThrow : bool) (object : Z) (impl : option RemoteProxy) m : CL (NapiCall * Instances) :=
  let '(parsed, _, thrown) := request_ParseParameters argv isThrow tt in
  match parsed with
  | None => cl_ret (null_call thrown, m)
  | Some (_, callback) =>
      cl_map (fun '(errCode, delaySuspendInfo) =>
          let thrown := (HandleErrCode (S := unit) errCode isThrow tt).2 in
          match delaySuspendInfo with
          | None => (null_call thrown, m)
          | Some i =>
              (mkCall (RValue (SetDelaySuspendInfo (Some i)).2) thrown None,
               set_instance (di_requestId_ i) (mkInstance object callback) m)
          end)
        (cl_RequestSuspendDelay impl None)
  end.

(** *** cancel_suspend_delay.cpp *)
Definition parse_requestId (requestId : Z) (isThrow : bool) : NM unit (option Z) :=
  if requestId <=? 0 then HandleParamErr ERR_REQUESTID_ILLEGAL isThrow ;>> nret None else nret (Some requestId).

Definition cancel_ParseParameters argv (isThrow : bool) : NM unit (option Z) :=
  if negb (argc argv =? CANCEL_SUSPEND_DELAY_PARAMS) then HandleParamErr ERR_PARAM_NUMBER_ERR isThrow ;>> nret None else
  ntry (GetInt32NumberValue (arg argv 0)) (HandleParamErr ERR_REQUESTID_NULL_OR_ID_TYPE_ERR isThrow ;>> nret None)
    (fun requestId => parse_requestId requestId isThrow).

Definition CancelSuspendDelay argv (isThrow : bool) m : CL (NapiCall * Instances) :=
  let '(parsed, _, thrown) := cancel_ParseParameters argv isThrow tt in
  match parsed with
  | None => cl_ret (null_call thrown, m)
  | Some requestId =>
      cl_map (fun errCode => (null_call (HandleErrCode (S := unit) errCode isThrow tt).2, erase_request requestId m))
        (cl_CancelSuspendDelay requestId)
  end.

(** *** get_remaining_delay_time.cpp *)
(** The id, and whether there is a callback. *)
Definition remaining_ParseParameters argv (isThrow : bool) : NM unit (option (Z * bool)) :=
  if negb ((argc argv =? GET_REMAINING_DELAY_TIME_MIN_PARAMS) || (argc argv =? GET_REMAINING_DELAY_TIME_PARAMS))
  then HandleParamErr ERR_PARAM_NUMBER_ERR isThrow ;>> nret None else
  ntry (GetInt32NumberValue (arg argv 0)) (HandleParamErr ERR_REQUESTID_NULL_OR_ID_TYPE_ERR isThrow ;>> nret None)
    (fun requestId =>
  let checked callback :=
    ntry (if requestId <=? 0 then None else Some tt) (HandleParamErr ERR_REQUESTID_ILLEGAL isThrow ;>> nret None)
      (fun _ => nret (Some (requestId, callback))) in
  if argc argv =? GET_REMAINING_DELAY_TIME_PARAMS then
    typeof_or_throw (arg argv 1) None (fun valuetype =>
      if bool_decide (valuetype <> napi_function)
      then HandleParamErr ERR_CALLBACK_NULL_OR_TYPE_ERR isThrow ;>> nret None else checked true)
  else checked false).

(** What is returned and thrown, and the work queued: the id, and [isCallback]. *)
Definition GetRemainingDelayTime argv (isThrow : bool) : Returned * list Thrown * option (Z * bool) :=
  let '(parsed, _, thrown) := remaining_ParseParameters argv isThrow tt in
  match parsed with
  | None => (RValue JsUndefined, thrown, None)
  | Some (requestId, isCallback) => (if isCallback then RValue JsNull else RPromise, thrown, Some (requestId, isCallback))
  end.
Definition GetRemainingDelayTime_work (work : Z * bool) : CL Settled :=
  cl_map (fun '(errCode, delayTime) => ReturnCallbackPromise work.2 errCode (Some (JsInt32 delayTime)))
    (cl_GetRemainingDelayTime work.1 0).

(** *** get_all_transient_tasks.cpp: the promise's outcome *)
Definition GetAllTransientTasksPromiseCompletedCB (errCode remainingQuota : Z) (list : list DelaySuspendInfo) : Settled :=
  if errCode =? ERR_OK then
    Resolve (Some (JsObject [("remainingQuota", JsInt32 remainingQuota);
                             ("transientTasks", JsArray (map GetNapiDelaySuspendInfo list))]%string))
  else reject errCode.
Definition GetAllTransientTasks : CL Settled :=
  cl_map (fun '(errCode, (remainingQuota, list)) => GetAllTransientTasksPromiseCompletedCB errCode remainingQuota list)
    (cl_GetAllTransientTasks 0 []).

(** ** efficiency_resources_operation.cpp *)

(** A property that is left out keeps its default where it is not necessary; no result where
    it is refused. *)
Definition GetNamedBoolValue (object : V) (utf8name : string) (result : bool) (isNecessary : bool) : option bool :=
  if negb (default false (napi_has_named_property object utf8name)) then (if isNecessary then None else Some result) else
  boolValue ← napi_get_named_property object utf8name; GetBooleanValue boolValue.
Definition GetNamedInt32Value (object : V) (utf8name : string) (result : Z) (isNecessary : bool) : option Z :=
  if negb (default false (napi_has_named_property object utf8name)) then (if isNecessary then None else Some result) else
  intValue ← napi_get_named_property object utf8name;
  result ← GetInt32NumberValue intValue;
  if result <? 0 then None else Some result.
Definition GetNamedStringValue (object : V) : option string :=
  if negb (default false (napi_has_named_property object "reason")) then None else
  stringValue ← napi_get_named_property object "reason"; GetStringValue stringValue.

Definition efficiency_ParseParameters argv (isThrow : bool) : NM unit (option EfficiencyResourceInfo) :=
  let failed c := HandleParamErr c isThrow ;>> nret None in
  if negb (argc argv =? APPLY_EFFICIENCY_RESOURCES_PARAMS) then failed ERR_PARAM_NUMBER_ERR else
  let object := arg argv 0 in
  ntry (GetNamedInt32Value object "resourceTypes" 0 true) (failed ERR_RESOURCE_TYPES_INVALID) (fun resourceNumber =>
  ntry (GetNamedBoolValue object "isApply" false true) (failed ERR_ISAPPLY_NULL_OR_TYPE_ERR) (fun isApply =>
  ntry (GetNamedInt32Value object "timeOut" 0 true) (failed ERR_TIMEOUT_INVALID) (fun timeOut =>
  ntry (GetNamedStringValue object) (failed ERR_REASON_NULL_OR_TYPE_ERR) (fun reason =>
  ntry (GetNamedBoolValue object "isPersist" false false) (failed ERR_ISPERSIST_NULL_OR_TYPE_ERR) (fun isPersist =>
  ntry (GetNamedBoolValue object "isProcess" false false) (failed ERR_ISPROCESS_NULL_OR_TYPE_ERR) (fun isProcess =>
  ntry (GetNamedInt32Value object "cpuLevel" CPU_LEVEL_DEFAULT false)
    (failed ERR_BGTASK_EFFICIENCY_RESOURCES_CPU_LEVEL_INVALID) (fun cpuLevel =>
  nret (Some (inf_SetCpuLevel cpuLevel
    (new_EfficiencyResourceInfo resourceNumber isApply timeOut reason isPersist isProcess)))))))))).

Definition CheckValidInfo (params : EfficiencyResourceInfo) (isThrow : bool) : NM unit bool :=
  if inf_resourceNumber_ params =? 0 then HandleParamErr ERR_RESOURCE_TYPES_INVALID isThrow ;>> nret false else
  if inf_isApply_ params && negb (inf_isPersist_ params) && (inf_timeOut_ params =? 0)
  then HandleParamErr ERR_TIMEOUT_INVALID isThrow ;>> nret false
  else nret true.

Definition ApplyEfficiencyResources argv : CL NapiCall :=
  let '(params, _, thrown) :=
    nbind (efficiency_ParseParameters argv true) (fun params =>
      ntry params (nret None) (fun params =>
        nbind (CheckValidInfo params true) (fun ok => nret (if ok : bool then Some params else None)))) tt in
  match params with
  | None => cl_ret (null_call thrown)
  | Some params => cl_map (fun errCode => null_call (thrown ++ thrown_code errCode)) (cl_ApplyEfficiencyResources params)
  end.

Definition ResetAllEfficiencyResources : CL NapiCall :=
  cl_map (fun errCode => null_call (thrown_code errCode)) cl_ResetAllEfficiencyResources.

Definition GetAllEfficiencyResourcesCompletedCB (errCode : Z) (list : list EfficiencyResourceInfo) : Settled :=
  if errCode =? ERR_OK then Resolve (Some (JsArray (map GetNapiEfficiencyResourcesInfo list))) else reject errCode.
Definition GetAllEfficiencyResources : CL Settled :=
  cl_map (fun '(errCode, list) => GetAllEfficiencyResourcesCompletedCB errCode list) (cl_GetAllEfficiencyResources []).
End Transient.

(** * Callbacks of transient tasks: properties

    The callbacks the module keeps, whatever scripts request and cancel, whatever the
    service answers and whichever requests expire: each is of another object, and the end of
    a request reaches the callback the script gave for it, once. *)

Import Common.

Section Instances.
Context {V : Type}.
Implicit Types m : list (Z * CallbackInstance V).
Abbreviation objects m := (map (fun p => in_object (snd p)) m).

Definition distinct m : Prop := NoDup (objects m).

Lemma find_object_cons object k c m :
  find_object object ((k, c) :: m) = if in_object c =? object then Some c else find_object object m.
Proof.
  unfold find_object. cbn [list_find]. case_decide as E; cbn in E.
  - by rewrite (proj2 (Z.eqb_eq _ _) E).
  - rewrite (proj2 (Z.eqb_neq _ _) E). by destruct (list_find _ m) as [[n p]|].
Qed.

Lemma find_object_None object m : find_object object m = None <-> object ∉ objects m.
Proof.
  induction m as [|[k c] m IH]; [split; [by intros _ ?%elem_of_nil|done]|].
  rewrite find_object_cons. cbn [map snd]. rewrite not_elem_of_cons.
  destruct (Z.eqb_spec (in_object c) object) as [E|E]; naive_solver.
Qed.

Lemma find_object_Some k object c m : distinct m -> (k, c) ∈ m -> in_object c = object -> find_object object m = Some c.
Proof.
  intros Hnd Hin Ho. induction m as [|[k' c'] m IH]; [by apply elem_of_nil in Hin|].
  rewrite find_object_cons. unfold distinct in Hnd. cbn in Hnd. apply NoDup_cons in Hnd as [Hnew Hnd].
  apply elem_of_cons in Hin as [[= -> ->]|Hin]; [by rewrite Ho, Z.eqb_refl|].
  destruct (Z.eqb_spec (in_object c') object) as [E|E]; [|by apply IH].
  exfalso. apply Hnew. apply list_elem_of_fmap. exists (k, c). cbn. split; [congruence|done].
Qed.

(** *** Storing *)
Lemma set_instance_new requestId callback m : (requestId, callback) ∈ set_instance requestId callback m.
Proof. induction m as [|[k c] m IH]; cbn [set_instance]; repeat case_test; rewrite ?elem_of_cons; auto. Qed.

Lemma set_instance_other requestId callback m k c : k <> requestId -> (k, c) ∈ m -> (k, c) ∈ set_instance requestId callback m.
Proof.
  intros Hk. induction m as [|[k' c'] m IH]; [by intros ?%elem_of_nil|]. cbn [set_instance].
  rewrite elem_of_cons. intros [[= <- <-]|Hin]; repeat case_test; bool_prop; rewrite ?elem_of_cons; auto. lia.
Qed.

Lemma set_instance_objects requestId callback m o :
  o ∈ objects (set_instance requestId callback m) -> o = in_object callback \/ o ∈ objects m.
Proof.
  induction m as [|[k c] m IH]; cbn [set_instance]; repeat case_test; cbn [map snd]; rewrite ?elem_of_cons; naive_solver.
Qed.

Lemma set_instance_distinct requestId callback m :
  in_object callback ∉ objects m -> distinct m -> distinct (set_instance requestId callback m).
Proof.
  unfold distinct. induction m as [|[k c] m IH]; cbn [set_instance map snd].
  { intros _ _. apply NoDup_singleton. }
  rewrite not_elem_of_cons, NoDup_cons. intros [Hc Hn] [Hm Hd].
  repeat case_test; cbn [map snd]; rewrite ?NoDup_cons; rewrite ?elem_of_cons; [naive_solver..|].
  split; [|by apply IH]. intros [E|?]%set_instance_objects; [by apply Hc|done].
Qed.

(** *** Removing *)
Lemma erase_request_elem requestId m p : p ∈ erase_request requestId m <-> p.1 <> requestId /\ p ∈ m.
Proof. unfold erase_request. by rewrite list_elem_of_filter. Qed.

Lemma erase_request_distinct requestId m : distinct m -> distinct (erase_request requestId m).
Proof.
  unfold distinct, erase_request. induction m as [|p m IH]; [done|]. cbn [map]. rewrite NoDup_cons. intros [Hp Hd].
  rewrite filter_cons. case_decide; [|by apply IH]. cbn [map]. rewrite NoDup_cons. split; [|by apply IH].
  intros [q [Hq [_ Hin]%list_elem_of_filter]]%list_elem_of_fmap. apply Hp. apply list_elem_of_fmap. by exists q.
Qed.

Lemma erase_request_gone requestId c m : distinct m -> (requestId, c) ∈ m ->
  find_object (in_object c) (erase_request requestId m) = None.
Proof.
  intros Hd Hin. apply find_object_None. intros [[k c'] [Ho [Hk Hin']%erase_request_elem]]%list_elem_of_fmap.
  cbn in Ho, Hk. apply Hk.
  assert (forall m, distinct m -> (requestId, c) ∈ m -> (k, c') ∈ m -> k = requestId) as Hu; [|by apply (Hu m)].
  clear - Ho. unfold distinct. induction m as [|[k1 c1] m IH]; [by intros _ ?%elem_of_nil|].
  cbn [map snd]. rewrite NoDup_cons, !elem_of_cons. intros [Hn Hd] [[= <- <-]|H1] [[= <- <-]|H2]; [done| | |by apply IH].
  - exfalso. apply Hn. apply list_elem_of_fmap. exists (k, c'). by rewrite Ho.
  - exfalso. apply Hn. apply list_elem_of_fmap. exists (requestId, c). by rewrite <- Ho.
Qed.

Lemma erase_object_objects object m : objects (erase_object object m) `sublist_of` objects m.
Proof. induction m as [|[k c] m IH]; cbn [erase_object]; [done|]. case_test; by constructor. Qed.

Lemma erase_object_distinct object m : distinct m -> distinct (erase_object object m).
Proof. unfold distinct. intros Hd. eapply sublist_NoDup; [exact Hd|]. apply erase_object_objects. Qed.

Lemma erase_object_other object k c m : in_object c <> object -> (k, c) ∈ m -> (k, c) ∈ erase_object object m.
Proof.
  intros Ho. induction m as [|[k' c'] m IH]; [done|]. cbn [erase_object]. rewrite elem_of_cons.
  intros [[= <- <-]|Hin]; case_test; bool_prop; rewrite ?elem_of_cons; auto. done.
Qed.

Lemma erase_object_gone object m : distinct m -> find_object object (erase_object object m) = None.
Proof.
  unfold distinct. intros Hd. apply find_object_None. induction m as [|[k c] m IH]; cbn [erase_object]; [by apply not_elem_of_nil|].
  cbn [map snd] in Hd. apply NoDup_cons in Hd as [Hn Hd]. case_test; bool_prop; [congruence|].
  cbn [map snd]. rewrite not_elem_of_cons. split; [congruence|by apply IH].
Qed.
End Instances.

Section Props.
Context {V : Type} `{NodeApi V} `{IBackgroundTaskMgr W}.
Implicit Types (m : list (Z * CallbackInstance V)) (argv : list V).

(** ** Steps

    What a step is about: a request stored with its object, a request cancelled, an object
    told that its request ended or whose task ran. *)
Inductive Touch := Stored (requestId object : Z) | Forgotten (requestId : Z) | Ended (object : Z) | Nothing.

(** The id a script is given. *)
Definition requestId_of (r : NapiCall) : option Z :=
  match nc_return r with
  | RValue (JsObject (("requestId"%string, JsInt32 requestId) :: _)) => Some requestId
  | _ => None
  end.
Definition stored (r : NapiCall) (object : Z) : Touch :=
  match requestId_of r with Some requestId => Stored requestId object | None => Nothing end.
Definition forgotten argv (isThrow : bool) : Touch :=
  match (cancel_ParseParameters argv isThrow tt).1.1 with Some requestId => Forgotten requestId | None => Nothing end.

(** A new callback is another object than those in use. *)
Inductive tc_step : Touch -> list (Z * CallbackInstance V) -> list (Z * CallbackInstance V) -> Prop :=
| tc_request argv isThrow object impl m n st (w : W) :
    find_object object m = None ->
    let r := RequestSuspendDelay argv isThrow object impl m n st w in tc_step (stored r.1.1.1 object) m r.1.1.2
| tc_cancel argv isThrow m n st (w : W) : tc_step (forgotten argv isThrow) m (CancelSuspendDelay argv isThrow m n st w).1.1.2
| tc_expired sent object m : tc_step (Ended object) m (OnExpired sent object m).2
| tc_task callback m : tc_step (Ended (in_object callback)) m (expired_task callback m).2.

Definition tc_reachable : list (Z * CallbackInstance V) -> Prop := rtc (fun m m' => exists t, tc_step t m m') [].

(** The steps that are not about a request and its object. *)
Definition leaves (requestId object : Z) (t : Touch) : Prop :=
  match t with
  | Stored i _ | Forgotten i => i <> requestId
  | Ended o => o <> object
  | Nothing => True
  end.
Definition tc_others (requestId object : Z) : list (Z * CallbackInstance V) -> list (Z * CallbackInstance V) -> Prop :=
  rtc (fun m m' => exists t, leaves requestId object t /\ tc_step t m m').

(** *** Each operation *)
Lemma then_value {S A B} (x : NM S A) (b : B) s : (nbind x (fun _ => nret b) s).1.1 = b.
Proof. unfold nbind. by destruct (x s) as [[a s'] t]. Qed.

Lemma parsed_callback argv isThrow p : (request_ParseParameters argv isThrow tt).1.1 = Some p -> p.2 = arg argv 1.
Proof.
  unfold request_ParseParameters. case_test; [by rewrite then_value|].
  unfold nbind at 1. destruct (GetU16StringValue _ _) as [[[reason|] s] t]; cbn [ntry].
  - unfold typeof_or_throw. destruct (napi_typeof _) as [ty|]; [|done]. case_test.
    + pose proof (then_value (S := unit) (HandleParamErr ERR_CALLBACK_NULL_OR_TYPE_ERR isThrow) (@None (string * V)) s) as E.
      destruct (nbind _ _ s) as [[o s'] t']. cbn in *. by rewrite E.
    + by intros [= <-].
  - pose proof (then_value (S := unit) (HandleParamErr ERR_REASON_NULL_OR_TYPE_ERR isThrow) (@None (string * V)) s) as E.
    destruct (nbind _ _ s) as [[o s'] t']. cbn in *. by rewrite E.
Qed.

Lemma request_map argv isThrow object impl m n st (w : W) :
  let r := RequestSuspendDelay argv isThrow object impl m n st w in
  match requestId_of r.1.1.1 with
  | Some requestId => r.1.1.2 = set_instance requestId (mkInstance object (arg argv 1)) m
  | None => r.1.1.2 = m
  end.
Proof.
  cbv zeta. unfold RequestSuspendDelay.
  destruct (request_ParseParameters argv isThrow tt) as [[[[reason callback]|] s] thrown] eqn:Ep; [|done].
  apply (f_equal (fun r => r.1.1)) in Ep. cbn in Ep. apply parsed_callback in Ep. cbn in Ep. subst callback.
  unfold cl_map. destruct (cl_RequestSuspendDelay impl None n st w) as [[[errCode [i|]] st'] w']; done.
Qed.

Lemma cancel_map argv isThrow m n st (w : W) :
  (CancelSuspendDelay argv isThrow m n st w).1.1.2 =
  match forgotten argv isThrow with Forgotten requestId => erase_request requestId m | _ => m end.
Proof.
  unfold CancelSuspendDelay, forgotten. destruct (cancel_ParseParameters argv isThrow tt) as [[[requestId|] s] thrown]; [|done].
  unfold cl_map. by destruct (cl_CancelSuspendDelay requestId n st w) as [[errCode st'] w'].
Qed.

Lemma expired_map sent object m : (OnExpired sent object m).2 = m \/ (OnExpired sent object m).2 = erase_object object m.
Proof. unfold OnExpired. destruct (find_object object m); [|by left]. destruct sent; [by left|by right]. Qed.

Lemma step_distinct t m m' : tc_step t m m' -> distinct m -> distinct m'.
Proof.
  intros Hstep Hd. destruct Hstep as [argv isThrow object impl m n st w Hnew r| | |].
  - pose proof (request_map argv isThrow object impl m n st w) as Hr. cbv zeta in Hr. fold r in Hr.
    destruct (requestId_of r.1.1.1); rewrite Hr; [|done]. apply set_instance_distinct; [|done]. by apply find_object_None.
  - rewrite cancel_map. destruct (forgotten argv isThrow); try done. by apply erase_request_distinct.
  - destruct (expired_map sent object m) as [-> | ->]; [done|]. by apply erase_object_distinct.
  - by apply erase_object_distinct.
Qed.

Lemma reachable_distinct m : tc_reachable m -> distinct m.
Proof.
  unfold tc_reachable. assert (distinct (V := V) []) as Hd by apply NoDup_nil_2. intros Hr. revert Hd.
  induction Hr as [|m m' m'' [t Hstep] _ IH]; [done|]. intros Hd. apply IH. by eapply step_distinct.
Qed.

Lemma other_keeps requestId object t m m' c : leaves requestId object t -> tc_step t m m' ->
  in_object c = object -> (requestId, c) ∈ m -> (requestId, c) ∈ m'.
Proof.
  intros Hl Hstep Hc Hin. destruct Hstep as [argv isThrow object' impl m n st w Hnew r| | |].
  - pose proof (request_map argv isThrow object' impl m n st w) as Hr. cbv zeta in Hr. fold r in Hr. unfold stored in Hl.
    destruct (requestId_of r.1.1.1) as [i|]; rewrite Hr; [|done]. apply set_instance_other; [|done]. by apply not_eq_sym.
  - rewrite cancel_map. destruct (forgotten argv isThrow); try done. apply erase_request_elem. cbn in *. by split; [apply not_eq_sym|].
  - destruct (expired_map sent object0 m) as [-> | ->]; [done|]. apply erase_object_other; [|done]. cbn in Hl. congruence.
  - apply erase_object_other; [|done]. cbn in Hl. congruence.
Qed.

Lemma others_keep requestId object m m' c : tc_others requestId object m m' ->
  in_object c = object -> distinct m -> (requestId, c) ∈ m -> distinct m' /\ (requestId, c) ∈ m'.
Proof.
  intros Ho Hc. induction Ho as [|m m' m'' (t & Hl & Hstep) _ IH]; [done|]. intros Hd Hin.
  apply IH; [by eapply step_distinct|by eapply other_keeps].
Qed.

(** C21. The end of the request of a script, with an object of its own, that comes once the
    request has returned and is taken to the script's thread, whatever happened to other
    requests since, calls the callback the script gave with code 0 and no data; then, and
    where the script cancels the request, the object is not known any more and a further end
    calls nothing.  An end that comes before the request has kept its callback finds none: it
    calls nothing and changes nothing. *)
Theorem expiry_calls_its_callback argv isThrow object impl m n st (w : W) requestId m' :
  tc_reachable m -> find_object object m = None ->
  let r := RequestSuspendDelay argv isThrow object impl m n st w in
  requestId_of r.1.1.1 = Some requestId -> tc_others requestId object r.1.1.2 m' ->
  let callback := mkInstance object (arg argv 1) in
  let after := (expired_task callback m').2 in
  (forall sent, OnExpired sent object m = (None, m)) /\
  OnExpired true object m' = (Some callback, m') /\
  (expired_task callback m').1 = (arg argv 1, CallFunction [Some (JsObject [("code", JsInt32 0); ("data", JsNull)])])%string /\
  OnExpired true object after = (None, after) /\
  (forall argv' isThrow' n' st' (w' : W), (cancel_ParseParameters argv' isThrow' tt).1.1 = Some requestId ->
     let cancelled := (CancelSuspendDelay argv' isThrow' m' n' st' w').1.1.2 in
     OnExpired true object cancelled = (None, cancelled)).
Proof.
  intros Hr%reachable_distinct Hnew. cbv zeta. intros Hid Ho.
  pose proof (request_map argv isThrow object impl m n st w) as Hm. cbv zeta in Hm. rewrite Hid in Hm. rewrite Hm in Ho.
  apply (others_keep _ _ _ _ (mkInstance object (arg argv 1))) in Ho as [Hd Hin]; [|done| |by apply set_instance_new].
  2: { apply set_instance_distinct; [|done]. by apply find_object_None. }
  split; [intros sent; unfold OnExpired; by rewrite Hnew|].
  split; [|split; [done|split]].
  - unfold OnExpired. by rewrite (find_object_Some _ _ _ _ Hd Hin).
  - cbn [expired_task snd in_object]. unfold OnExpired. by rewrite erase_object_gone.
  - intros argv' isThrow' n' st' w' Hp. rewrite cancel_map. unfold forgotten. rewrite Hp. unfold OnExpired.
    by rewrite (erase_request_gone requestId (mkInstance object (arg argv 1)) m').
Qed.
End Props.
