(* ===== verification/NapiAuth.v ===== *)
(** * Asking the user for a task of the special mode

    interfaces/kits/napi/src/request_auth_from_user.cpp, and the dialog it shows,
    interfaces/kits/common/src/ui_extension_helper.cpp.

    [authCallbackInstances_] is a set of callback objects; here each object is kept with the
    function it calls. *)

From S2P Require Import Prelude.
From S2P Require Import Errors.
From S2P Require Import Interfaces.
From S2P Require Import ContinuousTaskRecord.
From S2P Require Import ContinuousTypes.
From S2P Require Import ContinuousAuth.
From S2P Require Import BackgroundModes.
From S2P Require Import Parcelables.
From S2P Require Import BackgroundTaskManager.
From S2P Require Import NapiCommon.
From S2P Require Import NapiContinuousTask.
From S2P Require Import NapiTransientTask.
From S2P Require Import NapiProps.
Import Common BackgroundTaskMode.
Local Open Scope Z_scope.

Definition REQUEST_AUTH_FORM_USER_PARAMS : Z := 2.

(** ** ui_extension_helper.cpp *)
Definition BUNDLE_NAME_CONTINUOUS_TASK_RESOURCE : string := "com.ohos.backgroundtaskmgr.resources".
Definition EXTENSION_ABILITY_NAME_SPECIAL_MODE_PERMISSION_DIALOG : string := "EnableBgTaskAuthDialog".
Definition TYPE_KEY_START_UIEXTENSION : string := "ability.want.params.uiExtensionType".
Definition PERMISSION_DIALOG_PARAM_APP_INDEX : string := "appIndex".
Definition PERMISSION_DIALOG_PARAM_SPECIAL_SUB_MODE : string := "taskMode".

Inductive DialogParam := PString (s : string) | PInt (n : Z).
(** What the dialog is started with: its element, and the parameters set. *)
Record DialogWant := mkDialogWant {
  dw_bundle : string;
  dw_ability : string;
  dw_params : list (string * DialogParam);
}.

(** The page of the ability shows the dialog, and gives its session, 0 where it does not. *)
Class UIContent := CreateModalUIExtension : DialogWant -> Z.

(** The context and the session of a dialog that is shown. *)
Record ModalExtensionCallback := mkModal {
  mx_sessionId_ : Z;
  mx_abilityContext_ : option AbilityContext;
}.
Definition new_ModalExtensionCallback : ModalExtensionCallback := mkModal 0 None.

(** No result where there is no dialog. *)
Definition CreateUIExtension `{UIContent} (abilityContext : option AbilityContext) (taskParam : ContinuousTaskParam) :
    option ModalExtensionCallback :=
  context ← abilityContext;
  info ← ac_GetAbilityInfo context;
  if negb (ac_GetUIContent context) then None else
  bgSubModeId ← head (tp_bgSubModeIds_ taskParam);
  let want := mkDialogWant BUNDLE_NAME_CONTINUOUS_TASK_RESOURCE EXTENSION_ABILITY_NAME_SPECIAL_MODE_PERMISSION_DIALOG
    [(TYPE_KEY_START_UIEXTENSION, PString "sysDialog/common"); (PERMISSION_DIALOG_PARAM_APP_INDEX, PInt info.2);
     (PERMISSION_DIALOG_PARAM_SPECIAL_SUB_MODE, PInt (int32 bgSubModeId))] in
  let sessionId := CreateModalUIExtension want in
  if sessionId =? 0 then None else Some (mkModal sessionId abilityContext).

(** The session closed, where the context still has a page. *)
Definition ReleaseOrErrorHandle (callback : ModalExtensionCallback) : option Z :=
  context ← mx_abilityContext_ callback;
  if ac_GetUIContent context then Some (mx_sessionId_ callback) else None.
Definition OnRelease (callback : ModalExtensionCallback) : option Z := ReleaseOrErrorHandle callback.
Definition OnError (callback : ModalExtensionCallback) : option Z := ReleaseOrErrorHandle callback.

(** ** Callbacks *)
Section Callbacks.
Context {V : Type}.
Implicit Types m : gmap Z V.

Definition AddCallback (callback : CallbackInstance V) m : gmap Z V := <[in_object callback := in_ref callback]> m.
Definition RemoveCallback (callback : CallbackInstance V) m : gmap Z V := delete (in_object callback) m.

(** As in [CallbackInstance]: the task to run and the callbacks kept. *)
Definition OnExpiredAuth (sent : bool) (object : Z) m : option (CallbackInstance V) * gmap Z V :=
  match m !! object with
  | None => (None, m)
  | Some ref => if sent then (Some (mkInstance object ref), m) else (None, delete object m)
  end.
Definition expired_auth_task (callback : CallbackInstance V) (authResult : Z) m : (V * Settled) * gmap Z V :=
  ((in_ref callback, SetAuthCallback authResult), RemoveCallback callback m).
End Callbacks.

Section Auth.
Context {V : Type} `{NodeApi V} `{IBackgroundTaskMgr W} `{UIContent}.
Abbreviation CL := (CL (W := W)).
Implicit Types (argv : list V) (jsThis : V) (m : gmap Z V).

(** ** Arguments *)
Definition CheckAbilityContext (value : V) : option AbilityContext :=
  if default false (IsStageContext value) then
    abilityContext ← GetStageModeContext value;
    if bool_decide (ac_GetAbilityInfo abilityContext = None) then None else Some abilityContext
  else None.

(** The callback made, of which there is none for a value that is no function. *)
Definition GetExpiredCallback (value : V) (object : Z) : NM ContinuousTaskRequest (option (option (CallbackInstance V))) :=
  typeof_or_throw value None (fun valuetype =>
    nret (Some (if bool_decide (valuetype <> napi_function) then None else Some (mkInstance object value)))).

Definition refuse_request (errCode : Z) : NM ContinuousTaskRequest bool := HandleErrCode errCode true ;>> nret false.

Definition CheckReqestParam : NM ContinuousTaskRequest bool :=
  nbind (nget (fun request => request)) (fun request =>
  let backgroundTaskModesValue := cr_backgroundTaskModes_ request in
  let backgroundTaskSubModesValue := cr_backgroundTaskSubmodes_ request in
  let specialModeSize := Z.of_nat (length (filter (fun mode => mode = MODE_SPECIAL_SCENARIO_PROCESSING) backgroundTaskModesValue)) in
  return_if bool_decide (backgroundTaskModesValue = []) || bool_decide (backgroundTaskSubModesValue = []),
    refuse_request ERR_BGTASK_CONTINUOUS_MODE_OR_SUBMODE_IS_EMPTY ;;
  return_if specialModeSize =? 0, refuse_request ERR_BGTASK_SPECIAL_SCENARIO_PROCESSING_EMPTY ;;
  return_if specialModeSize >? 1, refuse_request ERR_BGTASK_SPECIAL_SCENARIO_PROCESSING_ONLY_ALLOW_ONE_APPLICATION ;;
  return_if (specialModeSize =? 1) && (Z.of_nat (length backgroundTaskModesValue) >? 1),
    refuse_request ERR_BGTASK_SPECIAL_SCENARIO_PROCESSING_CONFLICTS_WITH_OTHER_TASK ;;
  return_if existsb (fun subMode => negb (GetSubModeTypeMatching subMode =? MODE_SPECIAL_SCENARIO_PROCESSING)) backgroundTaskSubModesValue,
    refuse_request ERR_BGTASK_CONTINUOUS_MODE_OR_SUBMODE_TYPE_MISMATCH ;;
  nret true).

(** The object the script calls the function on. *)
Definition CheckRequestAuthFromUserParam jsThis : NM ContinuousTaskRequest bool :=
  let refused := refuse_request ERR_BGTASK_CONTINUOUS_REQUEST_NULL_OR_TYPE in
  let has name := default false (napi_has_named_property jsThis name) in
  if negb (has "backgroundTaskModes"%string) then refused else
  if negb (has "backgroundTaskSubmodes"%string) then refused else
  nbind (GetBackgroundTaskModesProperty jsThis "backgroundTaskModes") (fun ok =>
  if negb ok then refused else
  nbind (GetBackgroundTaskSubmodesProperty jsThis "backgroundTaskSubmodes") (fun ok =>
  if negb ok then refused else CheckReqestParam)).

(** ** The request *)

(** [callbackUid] is not used.  Whether it was sent, what is thrown, the dialog shown, and
    the callbacks kept. *)
Definition Sent : Type := bool * list Thrown * option ModalExtensionCallback * gmap Z V.
Definition SendRequest (taskParam : ContinuousTaskParam) (callback : CallbackInstance V) (impl : option RemoteProxy)
    (abilityContext : AbilityContext) m : CL Sent :=
  fun n st w =>
  let m := AddCallback callback m in
  let '((errCode, callbackUid), st, w) := cl_RequestAuthFromUser taskParam impl 0 n st w in
  if errCode =? ERR_BGTASK_CONTINUOUS_TRIGGER_CALLBACK then ((true, [], None, m), st, w) else
  if negb (errCode =? ERR_OK) then ((false, thrown_code errCode, None, RemoveCallback callback m), st, w) else
  if tp_requestAuthApiVersion_ taskParam =? API_VERSION_REQUEST_SPECIAL_USER_AUTH_BY_DIALOG then
    match CreateUIExtension (Some abilityContext) taskParam with
    | None =>
        let '(_, st, w) := cl_RemoveAuthRecord taskParam n st w in
        ((false, thrown_code ERR_BGTASK_SYS_NOT_READY, None, RemoveCallback callback m), st, w)
    | Some dialog => ((true, [], Some dialog, m), st, w)
    end
  else ((true, [], None, m), st, w).

Definition auth_param (request : ContinuousTaskRequest) (bgModeId apiVersion appIndex : Z) : ContinuousTaskParam :=
  mkParam true bgModeId None "" "" true (cr_backgroundTaskModes_ request) (-1) (cr_backgroundTaskSubmodes_ request)
    false (-1) (-1) false appIndex apiVersion (-1) (-1) None.

Definition auth_arguments jsThis argv (object : Z) :
    NM ContinuousTaskRequest (option (AbilityContext * option (CallbackInstance V))) :=
  nbind (CheckRequestAuthFromUserParam jsThis) (fun ok =>
  if negb ok then nret None else
  if negb (argc argv =? REQUEST_AUTH_FORM_USER_PARAMS) then HandleParamErr ERR_PARAM_NUMBER_ERR true ;>> nret None else
  ntry (CheckAbilityContext (arg argv 0)) (HandleParamErr ERR_CONTEXT_NULL_OR_TYPE_ERR true ;>> nret None) (fun abilityContext =>
  nbind (GetExpiredCallback (arg argv 1) object) (fun callback =>
  ntry callback (HandleErrCode ERR_BGTASK_CONTINUOUS_CALLBACK_NULL_OR_TYPE_ERR true ;>> nret None) (fun callback =>
  nret (Some (abilityContext, callback)))))).

(** No outcome where a null pointer is dereferenced: there is no callback, or no mode.
    [object] and [impl]: the callback made, and the remote object in it. *)
Definition RequestAuth jsThis argv (apiVersion object : Z) (impl : option RemoteProxy) m :
    CL (option (NapiCall * option ModalExtensionCallback * gmap Z V)) :=
  let '(parsed, request, thrown) := auth_arguments jsThis argv object new_ContinuousTaskRequest in
  match parsed with
  | None => cl_ret (Some (null_call thrown, None, m))
  | Some (abilityContext, callback) =>
      match callback, head (cr_backgroundTaskModes_ request), ac_GetAbilityInfo abilityContext with
      | Some callback, Some bgModeId, Some info =>
          cl_map (fun '(ok, thrown', dialog, m) =>
              Some (if ok : bool then mkCall (RValue (JsInt32 0)) (thrown ++ thrown') None else null_call (thrown ++ thrown'), dialog, m))
            (SendRequest (auth_param request bgModeId apiVersion info.2) callback impl abilityContext m)
      | _, _, _ => cl_ret None
      end
  end.
Definition RequestAuthFromUser jsThis argv := RequestAuth jsThis argv API_VERSION_REQUEST_SPECIAL_USER_AUTH.
Definition RequestAuthFromUserByDialog jsThis argv := RequestAuth jsThis argv API_VERSION_REQUEST_SPECIAL_USER_AUTH_BY_DIALOG.
End Auth.

(** * Asking the user: properties

    What a script may ask for, and that the callback it gives is kept exactly where it is
    told that the request was sent. *)

Import Common BackgroundTaskMode.

Abbreviation anything := (fun _ => True).

(** The special mode alone, with submodes of it. *)
Definition special (request : ContinuousTaskRequest) : Prop :=
  cr_backgroundTaskModes_ request = [MODE_SPECIAL_SCENARIO_PROCESSING] /\ cr_backgroundTaskSubmodes_ request <> [] /\
  Forall (fun subMode => GetSubModeTypeMatching subMode = MODE_SPECIAL_SCENARIO_PROCESSING) (cr_backgroundTaskSubmodes_ request).

(** A check that throws where it does not pass, and knows nothing else then. *)
Abbreviation passes P := (checked true P anything).

Section Auth.
Context {V : Type} `{NodeApi V} `{IBackgroundTaskMgr W} `{UIContent}.
Implicit Types (argv : list V) (jsThis : V) (m : gmap Z V).

Lemma refuse_request_nwp c request P : c <> ERR_OK -> nwp (refuse_request c) request (passes P).
Proof. intros Hc. unfold refuse_request, nwp, nbind. by rewrite HandleErrCode_run. Qed.

Lemma CheckReqestParam_nwp request : nwp CheckReqestParam request (passes special).
Proof.
  apply nwp_nget. cbv zeta.
  repeat (match goal with |- nwp (if ?b then _ else _) _ _ => destruct b eqn:? end; [by apply refuse_request_nwp|]).
  split; [done|]. bool_prop. unfold special.
  destruct (cr_backgroundTaskModes_ request) as [|mode [|mode' modes]] eqn:Em; [done| |].
  - rewrite filter_cons, filter_nil in *. case_decide as E; [|done]. split; [congruence|]. split; [done|].
    rewrite Forall_forall. intros s Hs. destruct (decide (GetSubModeTypeMatching s = MODE_SPECIAL_SCENARIO_PROCESSING)) as [|Hn]; [done|].
    exfalso. match goal with Hx : existsb _ _ = false |- _ => apply not_true_iff_false in Hx; apply Hx end.
    apply existsb_exists. exists s. split; [by apply list_elem_of_In|]. apply negb_true_iff. by apply Z.eqb_neq.
  - exfalso. match goal with Hx : (_ && _)%bool = false |- _ => apply andb_false_iff in Hx end.
    match goal with Hx : _ \/ _ |- _ => destruct Hx end; bool_prop; cbn [length] in *; lia.
Qed.

Lemma CheckRequestAuthFromUserParam_nwp jsThis request :
  nwp (CheckRequestAuthFromUserParam jsThis) request (passes special).
Proof.
  unfold CheckRequestAuthFromUserParam. cbv zeta.
  do 2 (case_test; [by apply refuse_request_nwp|]).
  assert (forall name r, nwp (GetBackgroundTaskModesProperty jsThis name) r silent) as Hm.
  { intros name r. unfold GetBackgroundTaskModesProperty, GetBackgroundTaskModesFromArray, ntry.
    destruct (napi_get_named_property _ _) as [v|]; [|done]. case_test; [done|]. by destruct (read_modes v _). }
  assert (forall name r, nwp (GetBackgroundTaskSubmodesProperty jsThis name) r silent) as Hs.
  { intros name r. unfold GetBackgroundTaskSubmodesProperty, GetBackgroundTaskSubmodesFromArray, ntry.
    destruct (napi_get_named_property _ _) as [v|]; [|done]. case_test; [done|]. by destruct (read_modes v _). }
  assert (forall s t, nwp (refuse_request ERR_BGTASK_CONTINUOUS_REQUEST_NULL_OR_TYPE) s
    (fun ok s' t' => passes special ok s' (t ++ t'))) as Hr.
  { intros s t. unfold refuse_request, nwp, nbind. rewrite HandleErrCode_run by done. cbn. split; [|done]. intros _ E.
    by apply app_eq_nil in E as [_ E]. }
  apply nwp_bind. eapply nwp_mono; [apply Hm|]. intros [] s t Ht; cbn [negb]; [|by apply Hr].
  rewrite Ht by done. apply nwp_bind. eapply nwp_mono; [apply Hs|]. intros [] s' t' Ht'; cbn [negb]; [|by apply Hr].
  rewrite Ht' by done. apply CheckReqestParam_nwp.
Qed.

(** What the arguments give. *)
Definition argued argv (object : Z) (parsed : option (AbilityContext * option (CallbackInstance V)))
    (request : ContinuousTaskRequest) (thrown : list Thrown) : Prop :=
  match parsed with
  | None => thrown <> []
  | Some (context, callback) =>
      thrown = [] /\ special request /\ ac_GetAbilityInfo context <> None /\
      (has_type napi_function (arg argv 1) = true -> callback = Some (mkInstance object (arg argv 1)))
  end.

Lemma auth_arguments_nwp jsThis argv object request :
  nwp (auth_arguments jsThis argv object) request (argued argv object).
Proof.
  unfold auth_arguments. eapply (checked_then true); [apply CheckRequestAuthFromUserParam_nwp| |].
  - intros r Hr. cbn [negb]. case_test; [by unfold nwp, nbind; rewrite HandleParamErr_run|].
    unfold CheckAbilityContext, ntry at 1.
    destruct (if default false _ then _ else None) as [context|] eqn:Ec; [|by unfold nwp, nbind; rewrite HandleParamErr_run].
    assert (ac_GetAbilityInfo context <> None) as Hi.
    { case_test; [|done]. destruct (GetStageModeContext _) as [c|]; [|done]. cbn in Ec. case_bool_decide; [done|]. congruence. }
    unfold GetExpiredCallback, typeof_or_throw, has_type. destruct (napi_typeof (arg argv 1)) as [ty|] eqn:Ety.
    + cbn. split; [done|]. split; [done|]. split; [done|]. intros Hf%bool_decide_eq_true.
      rewrite Hf in Ety. injection Ety as <-. done.
    + unfold nwp, nbind, ntry, nthrow, nret. by rewrite HandleErrCode_run.
  - intros s t Ht _. cbn [negb]. specialize (Ht eq_refl). by destruct t.
Qed.

(** A sent request keeps its callback; a refused one throws, and keeps nothing. *)
Definition sent_or_thrown (callback : CallbackInstance V) m (r : Sent) : Prop :=
  let '(ok, thrown, dialog, m') := r in
  if ok : bool then thrown = [] /\ m' = <[in_object callback := in_ref callback]> m
  else thrown <> [] /\ dialog = None /\ m' = m.

Lemma thrown_code_error c : c <> ERR_OK -> thrown_code c <> [].
Proof. intros Hc. unfold thrown_code. by rewrite HandleErrCode_run. Qed.

Lemma SendRequest_outcome taskParam callback impl context m n st (w : W) :
  m !! in_object callback = None -> sent_or_thrown callback m (SendRequest taskParam callback impl context m n st w).1.1.
Proof.
  intros Hnew. assert (RemoveCallback callback (AddCallback callback m) = m) as Hm by by apply delete_insert_id.
  unfold SendRequest. destruct (cl_RequestAuthFromUser taskParam impl 0 n st w) as [[[errCode uid] st1] w1].
  case_test; [done|]. case_test.
  { cbn. split; [|done]. apply thrown_code_error. intros ->. done. }
  case_test; [|done]. destruct (CreateUIExtension _ _); [done|].
  destruct (cl_RemoveAuthRecord taskParam n st1 w1) as [[? st2] w2]. cbn. split; [|done]. by apply thrown_code_error.
Qed.

Lemma auth_outcome jsThis argv apiVersion object impl m n st (w : W) :
  m !! object = None -> has_type napi_function (arg argv 1) = true ->
  exists r dialog m' st' w',
    RequestAuth jsThis argv apiVersion object impl m n st w = (Some (r, dialog, m'), st', w') /\ nc_work r = None /\
    ((nc_return r = RValue (JsInt32 0) /\ nc_thrown r = [] /\ m' = <[object := arg argv 1]> m) \/
     (nc_return r = RValue JsNull /\ nc_thrown r <> [] /\ dialog = None /\ m' = m)).
Proof.
  intros Hnew Hf.
  pose proof (auth_arguments_nwp jsThis argv object new_ContinuousTaskRequest) as Ha. unfold nwp in Ha. unfold RequestAuth.
  destruct (auth_arguments jsThis argv object new_ContinuousTaskRequest) as [[[[context callback]|] request] thrown].
  2: { unfold cl_ret. repeat eexists. by right. }
  destruct Ha as (-> & (Hmodes & _) & Hinfo & Hc). rewrite (Hc Hf), Hmodes. cbn [head].
  destruct (ac_GetAbilityInfo context) as [info|]; [|done]. unfold cl_map.
  pose proof (SendRequest_outcome (auth_param request MODE_SPECIAL_SCENARIO_PROCESSING apiVersion info.2)
    (mkInstance object (arg argv 1)) impl context m n st w Hnew) as Hs.
  destruct (SendRequest _ _ _ _ _ _ _ _) as [[[[[ok thrown'] dialog] m'] st'] w'].
  do 5 eexists. split; [done|]. cbn in Hs. destruct ok; cbn in Hs; (split; [done|]); [left|right].
  - by destruct Hs as [-> ->].
  - by destruct Hs as (Ht & -> & ->).
Qed.

(** C22. Where a script gives a function for the answer, [requestAuthFromUser] has an outcome.
    Told 0, the script has its callback kept, and the user's answer calls it with the
    answer, once; told null, it has an exception, nothing is kept, no dialog is shown, and an
    answer calls nothing. *)
Theorem auth_callback_is_kept jsThis argv apiVersion object impl m n st (w : W) :
  m !! object = None -> has_type napi_function (arg argv 1) = true ->
  exists r dialog m' st' w',
    RequestAuth jsThis argv apiVersion object impl m n st w = (Some (r, dialog, m'), st', w') /\
    ((nc_return r = RValue (JsInt32 0) /\ nc_thrown r = [] /\
      let callback := mkInstance object (arg argv 1) in
      OnExpiredAuth true object m' = (Some callback, m') /\
      forall authResult,
        expired_auth_task callback authResult m' = ((arg argv 1, CallFunction [Some (JsInt32 authResult)]), m) /\
        OnExpiredAuth true object m = (None, m)) \/
     (nc_return r = RValue JsNull /\ nc_thrown r <> [] /\ dialog = None /\ m' = m /\
      OnExpiredAuth true object m' = (None, m'))).
Proof.
  intros Hnew Hf. assert (OnExpiredAuth true object m = (None, m)) as Hgone by by unfold OnExpiredAuth; rewrite Hnew.
  destruct (auth_outcome jsThis argv apiVersion object impl m n st w Hnew Hf)
    as (r & dialog & m' & st' & w' & E & _ & [(Hr & Ht & ->)|(Hr & Ht & -> & ->)]); do 5 eexists; (split; [exact E|]).
  - left. split; [done|]. split; [done|]. split.
    + unfold OnExpiredAuth. by rewrite lookup_insert_eq.
    + intros authResult. split; [|done]. unfold expired_auth_task, RemoveCallback. cbn. by rewrite delete_insert_id.
  - by right.
Qed.
End Auth.
