(* ===== verification/NapiExports.v ===== *)
(** * The script module

    interfaces/kits/napi/src/init_bgtaskmgr.cpp: what the module exports, and a call of an
    exported function on the state the module's files keep together. *)

From S2P Require Import Prelude.
From S2P Require Import Errors.
From S2P Require Import Interfaces.
From S2P Require Import ResourceTypes.
From S2P Require Import ContinuousTypes.
From S2P Require Import BackgroundModes.
From S2P Require Import BackgroundTaskManager.
From S2P Require Import NapiCommon.
From S2P Require Import NapiContinuousTask.
From S2P Require Import JsBackgroundTaskSubscriber.
From S2P Require Import NapiTransientTask.
From S2P Require Import NapiAuth.
From S2P Require Import NapiProps.
Import Common.
Local Open Scope Z_scope.

(** ** Exports *)
Inductive NativeFunction :=
| F_RequestSuspendDelayThrow
| F_CancelSuspendDelayThrow
| F_GetRemainingDelayTimeThrow
| F_GetAllTransientTasksThrow
| F_StartBackgroundRunningThrow
| F_UpdateBackgroundRunningThrow
| F_StopBackgroundRunningThrow
| F_GetAllContinuousTasksThrow
| F_ApplyEfficiencyResources
| F_ResetAllEfficiencyResources
| F_GetAllEfficiencyResources
| F_SetBackgroundTaskState
| F_GetBackgroundTaskState
| F_ObtainAllContinuousTasks
| F_SubscribeContinuousTaskState
| F_UnSubscribeContinuousTaskState
| F_OnOnContinuousTaskCallback
| F_OffOnContinuousTaskCallback
| F_UpdateDataTransferProgress
| F_IsModeSupported
| F_RequestAuthFromUser
| F_RequestAuthFromUserByDialog
| F_CheckSpecialScenarioAuth
| F_CheckSpecialScenarioAuthResult.

(** A function, a value, or a class with its methods. *)
Inductive Export :=
| EFunction (f : NativeFunction)
| EValue (v : JsValue)
| EClass (methods : list (string * NativeFunction)).

Definition BackgroundTaskMgrInit : list (string * Export) := [
  ("requestSuspendDelay", EFunction F_RequestSuspendDelayThrow);
  ("cancelSuspendDelay", EFunction F_CancelSuspendDelayThrow);
  ("getRemainingDelayTime", EFunction F_GetRemainingDelayTimeThrow);
  ("getTransientTaskInfo", EFunction F_GetAllTransientTasksThrow);
  ("startBackgroundRunning", EFunction F_StartBackgroundRunningThrow);
  ("updateBackgroundRunning", EFunction F_UpdateBackgroundRunningThrow);
  ("stopBackgroundRunning", EFunction F_StopBackgroundRunningThrow);
  ("getAllContinuousTasks", EFunction F_GetAllContinuousTasksThrow);
  ("applyEfficiencyResources", EFunction F_ApplyEfficiencyResources);
  ("resetAllEfficiencyResources", EFunction F_ResetAllEfficiencyResources);
  ("getAllEfficiencyResources", EFunction F_GetAllEfficiencyResources);
  ("setBackgroundTaskState", EFunction F_SetBackgroundTaskState);
  ("getBackgroundTaskState", EFunction F_GetBackgroundTaskState);
  ("obtainAllContinuousTasks", EFunction F_ObtainAllContinuousTasks);
  ("subscribeContinuousTaskState", EFunction F_SubscribeContinuousTaskState);
  ("unsubscribeContinuousTaskState", EFunction F_UnSubscribeContinuousTaskState);
  ("on", EFunction F_OnOnContinuousTaskCallback);
  ("off", EFunction F_OffOnContinuousTaskCallback);
  ("updateDataTransferProgress", EFunction F_UpdateDataTransferProgress)]%string.

Definition ContinuousTaskRequestInit : list (string * Export) :=
  [("ContinuousTaskRequest", EClass [
    ("isModeSupported", F_IsModeSupported);
    ("requestAuthFromUser", F_RequestAuthFromUser);
    ("requestAuthFromUserByDialog", F_RequestAuthFromUserByDialog);
    ("checkSpecialScenarioAuth", F_CheckSpecialScenarioAuth);
    ("checkSpecialScenarioAuthResult", F_CheckSpecialScenarioAuthResult)])]%string.

(** One object under five names. *)
Definition BackgroundModeInit : list (string * Export) :=
  let obj := JsObject [
   ("DATA_TRANSFER", JsInt32 BackgroundMode.DATA_TRANSFER);
   ("AUDIO_PLAYBACK", JsInt32 BackgroundMode.AUDIO_PLAYBACK);
   ("AUDIO_RECORDING", JsInt32 BackgroundMode.AUDIO_RECORDING);
   ("LOCATION", JsInt32 BackgroundMode.LOCATION);
   ("BLUETOOTH_INTERACTION", JsInt32 BackgroundMode.BLUETOOTH_INTERACTION);
   ("MULTI_DEVICE_CONNECTION", JsInt32 BackgroundMode.MULTI_DEVICE_CONNECTION);
   ("WIFI_INTERACTION", JsInt32 BackgroundMode.WIFI_INTERACTION);
   ("VOIP", JsInt32 BackgroundMode.VOIP);
   ("TASK_KEEPING", JsInt32 BackgroundMode.TASK_KEEPING);
   ("CPU", JsInt32 ResourceType.CPU);
   ("COMMON_EVENT", JsInt32 ResourceType.COMMON_EVENT);
   ("TIMER", JsInt32 ResourceType.TIMER);
   ("WORK_SCHEDULER", JsInt32 ResourceType.WORK_SCHEDULER);
   ("BLUETOOTH", JsInt32 ResourceType.BLUETOOTH);
   ("GPS", JsInt32 ResourceType.GPS);
   ("AUDIO", JsInt32 ResourceType.AUDIO);
   ("RUNNING_LOCK", JsInt32 ResourceType.RUNNING_LOCK);
   ("SENSOR", JsInt32 ResourceType.SENSOR);
   ("CAR_KEY", JsInt32 BackgroundSubMode.CAR_KEY);
   ("SUB_MODE", JsString "subMode");
   ("SMALL_CPU", JsInt32 SMALL_CPU);
   ("MEDIUM_CPU", JsInt32 MEDIUM_CPU);
   ("LARGE_CPU", JsInt32 LARGE_CPU)]%string in
  [("BackgroundMode", EValue obj); ("ResourceType", EValue obj); ("BackgroundSubMode", EValue obj);
   ("BackgroundModeType", EValue obj); ("EfficiencyResourcesCpuLevel", EValue obj)]%string.

Definition ContinuousTaskCancelReasonInit : list (string * Export) :=
  [("ContinuousTaskCancelReason", EValue (JsObject [
   ("USER_CANCEL", JsInt32 ContinuousTaskCancelReason.CR_USER_CANCEL);
   ("SYSTEM_CANCEL", JsInt32 ContinuousTaskCancelReason.CR_SYSTEM_CANCEL);
   ("USER_CANCEL_REMOVE_NOTIFICATION", JsInt32 ContinuousTaskCancelReason.USER_CANCEL_REMOVE_NOTIFICATION);
   ("SYSTEM_CANCEL_DATA_TRANSFER_LOW_SPEED", JsInt32 ContinuousTaskCancelReason.SYSTEM_CANCEL_DATA_TRANSFER_LOW_SPEED);
   ("SYSTEM_CANCEL_AUDIO_PLAYBACK_NOT_USE_AVSESSION", JsInt32 ContinuousTaskCancelReason.SYSTEM_CANCEL_AUDIO_PLAYBACK_NOT_USE_AVSESSION);
   ("SYSTEM_CANCEL_AUDIO_PLAYBACK_NOT_RUNNING", JsInt32 ContinuousTaskCancelReason.SYSTEM_CANCEL_AUDIO_PLAYBACK_NOT_RUNNING);
   ("SYSTEM_CANCEL_AUDIO_RECORDING_NOT_RUNNING", JsInt32 ContinuousTaskCancelReason.SYSTEM_CANCEL_AUDIO_RECORDING_NOT_RUNNING);
   ("SYSTEM_CANCEL_NOT_USE_LOCATION", JsInt32 ContinuousTaskCancelReason.SYSTEM_CANCEL_NOT_USE_LOCATION);
   ("SYSTEM_CANCEL_NOT_USE_BLUETOOTH", JsInt32 ContinuousTaskCancelReason.SYSTEM_CANCEL_NOT_USE_BLUETOOTH);
   ("SYSTEM_CANCEL_NOT_USE_MULTI_DEVICE", JsInt32 ContinuousTaskCancelReason.SYSTEM_CANCEL_NOT_USE_MULTI_DEVICE);
   ("SYSTEM_CANCEL_USE_ILLEGALLY", JsInt32 ContinuousTaskCancelReason.SYSTEM_CANCEL_USE_ILLEGALLY)]))]%string.

Definition ContinuousTaskDetailedCancelReasonInit : list (string * Export) :=
  [("ContinuousTaskDetailedCancelReason", EValue (JsObject [
   ("USER_CANCEL_REMOVE_NOTIFICATION", JsInt32 ContinuousTaskCancelReason.USER_CANCEL_REMOVE_NOTIFICATION);
   ("SYSTEM_CANCEL_DATA_TRANSFER_LOW_SPEED", JsInt32 ContinuousTaskCancelReason.SYSTEM_CANCEL_DATA_TRANSFER_LOW_SPEED);
   ("SYSTEM_CANCEL_AUDIO_PLAYBACK_NOT_RUNNING", JsInt32 ContinuousTaskCancelReason.SYSTEM_CANCEL_AUDIO_PLAYBACK_NOT_RUNNING);
   ("SYSTEM_CANCEL_AUDIO_RECORDING_NOT_RUNNING", JsInt32 ContinuousTaskCancelReason.SYSTEM_CANCEL_AUDIO_RECORDING_NOT_RUNNING);
   ("SYSTEM_CANCEL_NOT_USE_LOCATION", JsInt32 ContinuousTaskCancelReason.SYSTEM_CANCEL_NOT_USE_LOCATION);
   ("SYSTEM_CANCEL_NOT_USE_BLUETOOTH", JsInt32 ContinuousTaskCancelReason.SYSTEM_CANCEL_NOT_USE_BLUETOOTH);
   ("SYSTEM_CANCEL_NOT_USE_MULTI_DEVICE", JsInt32 ContinuousTaskCancelReason.SYSTEM_CANCEL_NOT_USE_MULTI_DEVICE);
   ("SYSTEM_CANCEL_USE_ILLEGALLY", JsInt32 ContinuousTaskCancelReason.SYSTEM_CANCEL_USE_ILLEGALLY);
   ("SYSTEM_CANCEL_DATA_TRANSFER_NOT_UPDATE", JsInt32 ContinuousTaskCancelReason.SYSTEM_CANCEL_DATA_TRANSFER_NOT_UPDATE);
   ("SYSTEM_CANCEL_VOIP_NOT_RUNNING", JsInt32 ContinuousTaskCancelReason.SYSTEM_CANCEL_VOIP_NOT_RUNNING);
   ("SYSTEM_CANCEL_USER_UNAUTHORIZED", JsInt32 ContinuousTaskCancelReason.SYSTEM_CANCEL_USER_UNAUTHORIZED)]))]%string.

Definition ContinuousTaskSuspendReasonInit : list (string * Export) :=
  [("ContinuousTaskSuspendReason", EValue (JsObject [
   ("SYSTEM_SUSPEND_DATA_TRANSFER_LOW_SPEED", JsInt32 ContinuousTaskSuspendReason.SYSTEM_SUSPEND_DATA_TRANSFER_LOW_SPEED);
   ("SYSTEM_SUSPEND_AUDIO_PLAYBACK_NOT_USE_AVSESSION", JsInt32 ContinuousTaskSuspendReason.SYSTEM_SUSPEND_AUDIO_PLAYBACK_NOT_USE_AVSESSION);
   ("SYSTEM_SUSPEND_AUDIO_PLAYBACK_NOT_RUNNING", JsInt32 ContinuousTaskSuspendReason.SYSTEM_SUSPEND_AUDIO_PLAYBACK_NOT_RUNNING);
   ("SYSTEM_SUSPEND_AUDIO_RECORDING_NOT_RUNNING", JsInt32 ContinuousTaskSuspendReason.SYSTEM_SUSPEND_AUDIO_RECORDING_NOT_RUNNING);
   ("SYSTEM_SUSPEND_LOCATION_NOT_USED", JsInt32 ContinuousTaskSuspendReason.SYSTEM_SUSPEND_LOCATION_NOT_USED);
   ("SYSTEM_SUSPEND_BLUETOOTH_NOT_USED", JsInt32 ContinuousTaskSuspendReason.SYSTEM_SUSPEND_BLUETOOTH_NOT_USED);
   ("SYSTEM_SUSPEND_MULTI_DEVICE_NOT_USED", JsInt32 ContinuousTaskSuspendReason.SYSTEM_SUSPEND_MULTI_DEVICE_NOT_USED);
   ("SYSTEM_SUSPEND_USED_ILLEGALLY", JsInt32 ContinuousTaskSuspendReason.SYSTEM_SUSPEND_USED_ILLEGALLY);
   ("SYSTEM_SUSPEND_SYSTEM_LOAD_WARNING", JsInt32 ContinuousTaskSuspendReason.SYSTEM_SUSPEND_SYSTEM_LOAD_WARNING);
   ("SYSTEM_SUSPEND_VOIP_NOT_USED", JsInt32 ContinuousTaskSuspendReason.SYSTEM_SUSPEND_VOIP_NOT_USED);
   ("SYSTEM_SUSPEND_BLUETOOTH_DATA_NOT_EXIST", JsInt32 ContinuousTaskSuspendReason.SYSTEM_SUSPEND_BLUETOOTH_DATA_NOT_EXIST);
   ("SYSTEM_SUSPEND_POSITION_NOT_MOVED", JsInt32 ContinuousTaskSuspendReason.SYSTEM_SUSPEND_POSITION_NOT_MOVED);
   ("SYSTEM_SUSPEND_AUDIO_PLAYBACK_MUTE", JsInt32 ContinuousTaskSuspendReason.SYSTEM_SUSPEND_AUDIO_PLAYBACK_MUTE);
   ("SYSTEM_SUSPEND_NEARLINK_NOT_USED", JsInt32 ContinuousTaskSuspendReason.SYSTEM_SUSPEND_NEARLINK_NOT_USED);
   ("SYSTEM_SUSPEND_NEARLINK_DATA_NOT_EXIST", JsInt32 ContinuousTaskSuspendReason.SYSTEM_SUSPEND_NEARLINK_DATA_NOT_EXIST);
   ("SYSTEM_SUSPEND_USER_UNAUTHORIZED", JsInt32 ContinuousTaskSuspendReason.SYSTEM_SUSPEND_USER_UNAUTHORIZED)]))]%string.

Definition BackgroundTaskModeInit : list (string * Export) :=
  [("BackgroundTaskMode", EValue (JsObject [
   ("MODE_DATA_TRANSFER", JsInt32 BackgroundTaskMode.MODE_DATA_TRANSFER);
   ("MODE_AUDIO_PLAYBACK", JsInt32 BackgroundTaskMode.MODE_AUDIO_PLAYBACK);
   ("MODE_AUDIO_RECORDING", JsInt32 BackgroundTaskMode.MODE_AUDIO_RECORDING);
   ("MODE_LOCATION", JsInt32 BackgroundTaskMode.MODE_LOCATION);
   ("MODE_BLUETOOTH_INTERACTION", JsInt32 BackgroundTaskMode.MODE_BLUETOOTH_INTERACTION);
   ("MODE_MULTI_DEVICE_CONNECTION", JsInt32 BackgroundTaskMode.MODE_MULTI_DEVICE_CONNECTION);
   ("MODE_ALLOW_WIFI_AWARE", JsInt32 BackgroundTaskMode.MODE_ALLOW_WIFI_AWARE);
   ("MODE_VOIP", JsInt32 BackgroundTaskMode.MODE_VOIP);
   ("MODE_TASK_KEEPING", JsInt32 BackgroundTaskMode.MODE_TASK_KEEPING);
   ("MODE_AV_PLAYBACK_AND_RECORD", JsInt32 BackgroundTaskMode.MODE_AV_PLAYBACK_AND_RECORD);
   ("MODE_SPECIAL_SCENARIO_PROCESSING", JsInt32 BackgroundTaskMode.MODE_SPECIAL_SCENARIO_PROCESSING);
   ("MODE_NEARLINK", JsInt32 BackgroundTaskMode.MODE_NEARLINK)]))]%string.

Definition BackgroundTaskSubModeInit : list (string * Export) :=
  [("BackgroundTaskSubmode", EValue (JsObject [
   ("SUBMODE_CAR_KEY_NORMAL_NOTIFICATION", JsInt32 BackgroundTaskSubmode.SUBMODE_CAR_KEY_NORMAL_NOTIFICATION);
   ("SUBMODE_NORMAL_NOTIFICATION", JsInt32 BackgroundTaskSubmode.SUBMODE_NORMAL_NOTIFICATION);
   ("SUBMODE_LIVE_VIEW_NOTIFICATION", JsInt32 BackgroundTaskSubmode.SUBMODE_LIVE_VIEW_NOTIFICATION);
   ("SUBMODE_AUDIO_PLAYBACK_NORMAL_NOTIFICATION", JsInt32 BackgroundTaskSubmode.SUBMODE_AUDIO_PLAYBACK_NORMAL_NOTIFICATION);
   ("SUBMODE_AVSESSION_AUDIO_PLAYBACK", JsInt32 BackgroundTaskSubmode.SUBMODE_AVSESSION_AUDIO_PLAYBACK);
   ("SUBMODE_AUDIO_RECORD_NORMAL_NOTIFICATION", JsInt32 BackgroundTaskSubmode.SUBMODE_AUDIO_RECORD_NORMAL_NOTIFICATION);
   ("SUBMODE_SCREEN_RECORD_NORMAL_NOTIFICATION", JsInt32 BackgroundTaskSubmode.SUBMODE_SCREEN_RECORD_NORMAL_NOTIFICATION);
   ("SUBMODE_VOICE_CHAT_NORMAL_NOTIFICATION", JsInt32 BackgroundTaskSubmode.SUBMODE_VOICE_CHAT_NORMAL_NOTIFICATION);
   ("SUBMODE_MEDIA_PROCESS_NORMAL_NOTIFICATION", JsInt32 BackgroundTaskSubmode.SUBMODE_MEDIA_PROCESS_NORMAL_NOTIFICATION);
   ("SUBMODE_VIDEO_BROADCAST_NORMAL_NOTIFICATION", JsInt32 BackgroundTaskSubmode.SUBMODE_VIDEO_BROADCAST_NORMAL_NOTIFICATION);
   ("SUBMODE_WORK_OUT_NORMAL_NOTIFICATION", JsInt32 BackgroundTaskSubmode.SUBMODE_WORK_OUT_NORMAL_NOTIFICATION)]))]%string.

Definition UserAuthResultInit : list (string * Export) :=
  [("UserAuthResult", EValue (JsObject [
   ("NOT_SUPPORTED", JsInt32 UserAuthResult.NOT_SUPPORTED);
   ("NOT_DETERMINED", JsInt32 UserAuthResult.NOT_DETERMINED);
   ("DENIED", JsInt32 UserAuthResult.DENIED);
   ("GRANTED_ONCE", JsInt32 UserAuthResult.GRANTED_ONCE);
   ("GRANTED_ALWAYS", JsInt32 UserAuthResult.GRANTED_ALWAYS)]))]%string.

(** The module, in the order in which its parts are defined. *)
Definition InitApi : list (string * Export) :=
  BackgroundTaskMgrInit ++ BackgroundModeInit ++ ContinuousTaskCancelReasonInit ++
  ContinuousTaskDetailedCancelReasonInit ++ ContinuousTaskSuspendReasonInit ++ BackgroundTaskModeInit ++
  BackgroundTaskSubModeInit ++ ContinuousTaskRequestInit ++ UserAuthResultInit.

(** ** Calls *)

(** What is kept between calls. *)
Record ScriptModule (V : Type) := mkModule {
  sm_callbackInstances_ : list (Z * CallbackInstance V);
  sm_authCallbackInstances_ : gmap Z V;
  sm_backgroundTaskSubscriber_ : option (JsSubscriber V);
}.
Arguments mkModule {V}.
Arguments sm_callbackInstances_ {V}.
Arguments sm_authCallbackInstances_ {V}.
Arguments sm_backgroundTaskSubscriber_ {V}.

(** What a call makes new: the callback object and the remote object in it; what it finds in
    the registry of services. *)
Record Fresh := mkFresh { fr_object : Z; fr_impl : option RemoteProxy; fr_sa : SaManager }.

(** The work queued. *)
Inductive ModuleWork :=
| WContinuous (work : ExecuteCB * CompleteCB * AsyncCallbackInfo)
| WRemainingDelayTime (work : Z * bool)
| WTransientTasks
| WEfficiencyResources.

Record Answer := mkAnswer { an_return : Returned; an_thrown : list Thrown; an_work : option ModuleWork }.
Definition call_answer (c : NapiCall) : Answer := mkAnswer (nc_return c) (nc_thrown c) (WContinuous <$> nc_work c).
Definition null_answer (thrown : list Thrown) : Answer := call_answer (null_call thrown).

Section Invoke.
Context {V : Type} `{NodeApi V} `{IBackgroundTaskMgr W} `{UIContent}.
Abbreviation CL := (CL (W := W)).
Implicit Types (argv : list V) (jsThis : V) (s : ScriptModule V).

Definition set_callbackInstances m s : ScriptModule V :=
  mkModule m (sm_authCallbackInstances_ s) (sm_backgroundTaskSubscriber_ s).
Definition set_authCallbackInstances m s : ScriptModule V :=
  mkModule (sm_callbackInstances_ s) m (sm_backgroundTaskSubscriber_ s).
Definition set_subscriber sub s : ScriptModule V :=
  mkModule (sm_callbackInstances_ s) (sm_authCallbackInstances_ s) sub.

Definition on_instances (f : list (Z * CallbackInstance V) -> CL (NapiCall * list (Z * CallbackInstance V))) s :
    CL (option Answer * ScriptModule V) :=
  cl_map (fun '(c, m) => (Some (call_answer c), set_callbackInstances m s)) (f (sm_callbackInstances_ s)).
Definition on_auth (f : gmap Z V -> CL (option (NapiCall * option ModalExtensionCallback * gmap Z V))) s :
    CL (option Answer * ScriptModule V) :=
  cl_map (fun r => match r with
                   | Some (c, _, m) => (Some (call_answer c), set_authCallbackInstances m s)
                   | None => (None, s)
                   end) (f (sm_authCallbackInstances_ s)).
Definition on_subscriber (f : option (JsSubscriber V) -> CL (list Thrown * option (JsSubscriber V))) s :
    CL (option Answer * ScriptModule V) :=
  cl_map (fun '(thrown, sub) => (Some (null_answer thrown), set_subscriber sub s)) (f (sm_backgroundTaskSubscriber_ s)).
Definition plain (f : CL NapiCall) s : CL (option Answer * ScriptModule V) :=
  cl_map (fun c => (Some (call_answer c), s)) f.
Definition at_once (a : Answer) s : CL (option Answer * ScriptModule V) := cl_ret (Some a, s).

(** A call of an exported function; no answer where it goes by a null pointer. *)
Definition invoke (f : NativeFunction) jsThis argv (fresh : Fresh) s : CL (option Answer * ScriptModule V) :=
  match f with
  | F_RequestSuspendDelayThrow => on_instances (RequestSuspendDelay argv true (fr_object fresh) (fr_impl fresh)) s
  | F_CancelSuspendDelayThrow => on_instances (CancelSuspendDelay argv true) s
  | F_GetRemainingDelayTimeThrow =>
      let '(ret, thrown, work) := GetRemainingDelayTime argv true in
      at_once (mkAnswer ret thrown (WRemainingDelayTime <$> work)) s
  | F_GetAllTransientTasksThrow => at_once (mkAnswer RPromise [] (Some WTransientTasks)) s
  | F_StartBackgroundRunningThrow => at_once (call_answer (StartBackgroundRunningThrow argv)) s
  | F_UpdateBackgroundRunningThrow => at_once (call_answer (UpdateBackgroundRunningThrow argv)) s
  | F_StopBackgroundRunningThrow => at_once (call_answer (StopBackgroundRunningThrow argv)) s
  | F_GetAllContinuousTasksThrow => at_once (call_answer (GetAllContinuousTasksThrow argv)) s
  | F_ApplyEfficiencyResources => plain (ApplyEfficiencyResources argv) s
  | F_ResetAllEfficiencyResources => plain ResetAllEfficiencyResources s
  | F_GetAllEfficiencyResources => at_once (mkAnswer RPromise [] (Some WEfficiencyResources)) s
  | F_SetBackgroundTaskState => plain (SetBackgroundTaskState argv) s
  | F_GetBackgroundTaskState => plain (GetBackgroundTaskState argv) s
  | F_ObtainAllContinuousTasks => at_once (call_answer ObtainAllContinuousTasks) s
  | F_SubscribeContinuousTaskState => on_subscriber (SubscribeContinuousTaskState (fr_sa fresh) (fr_impl fresh) argv) s
  | F_UnSubscribeContinuousTaskState => on_subscriber (UnSubscribeContinuousTaskState argv) s
  | F_OnOnContinuousTaskCallback => on_subscriber (OnOnContinuousTaskCallback (fr_sa fresh) (fr_impl fresh) argv) s
  | F_OffOnContinuousTaskCallback => on_subscriber (OffOnContinuousTaskCallback argv) s
  | F_UpdateDataTransferProgress => plain (UpdateDataTransferProgress argv) s
  | F_IsModeSupported => plain (IsModeSupported jsThis) s
  | F_RequestAuthFromUser => on_auth (RequestAuthFromUser jsThis argv (fr_object fresh) (fr_impl fresh)) s
  | F_RequestAuthFromUserByDialog => on_auth (RequestAuthFromUserByDialog jsThis argv (fr_object fresh) (fr_impl fresh)) s
  | F_CheckSpecialScenarioAuth => at_once (call_answer (CheckSpecialScenarioAuth argv)) s
  | F_CheckSpecialScenarioAuthResult => at_once (call_answer (CheckSpecialScenarioAuthResult argv)) s
  end.

(** The work of a call, run to its end: what the promise or the callback gets. *)
Definition run_module_work (work : ModuleWork) : CL (option Settled) :=
  match work with
  | WContinuous work => run_work work
  | WRemainingDelayTime work => cl_map Some (GetRemainingDelayTime_work work)
  | WTransientTasks => cl_map Some GetAllTransientTasks
  | WEfficiencyResources => cl_map Some GetAllEfficiencyResources
  end.
End Invoke.

(** * The script module: properties

    Every exported function answers, in every state the module gets to; and the modes and
    submodes it exports are those a request object can be started with. *)

Import Common.

(** ** Exported values *)
Definition exported_numbers (exports : list (string * Export)) (name : string) : list Z :=
  match (list_to_map exports : gmap string Export) !! name with
  | Some (EValue (JsObject l)) => omap (fun p => match p.2 with JsInt32 n => Some n | _ => None end) l
  | _ => []
  end.
Definition exported_modes : list Z := exported_numbers InitApi "BackgroundTaskMode".
Definition exported_submodes : list Z := exported_numbers InitApi "BackgroundTaskSubmode".

(** Every mode the module exports goes with a submode it exports, and every submode with a
    mode, in a request the checks let through; and the checks let through nothing else. *)
Theorem exported_modes_are_startable mode subMode :
  (mode ∈ exported_modes <-> exists subMode, subMode ∈ exported_submodes /\ check_submode mode subMode = ERR_OK) /\
  (subMode ∈ exported_submodes <-> exists mode, mode ∈ exported_modes /\ check_submode mode subMode = ERR_OK) /\
  (check_submode mode subMode = ERR_OK -> mode ∈ exported_modes /\ subMode ∈ exported_submodes).
Proof.
  assert (Forall (fun p => p.1 ∈ exported_modes /\ p.2 ∈ exported_submodes) allowed_pairs) as Hp
    by by apply (bool_decide_unpack _); vm_compute.
  assert (Forall (fun m => Exists (fun s => check_submode m s = ERR_OK) exported_submodes) exported_modes) as Hm
    by by apply (bool_decide_unpack _); vm_compute.
  assert (Forall (fun s => Exists (fun m => check_submode m s = ERR_OK) exported_modes) exported_submodes) as Hs
    by by apply (bool_decide_unpack _); vm_compute.
  rewrite Forall_forall in Hp. rewrite Forall_forall in Hm. rewrite Forall_forall in Hs.
  assert (forall m s, check_submode m s = ERR_OK -> m ∈ exported_modes /\ s ∈ exported_submodes) as Hc.
  { intros m s Hc%check_submode_spec. exact (Hp (m, s) Hc). }
  split; [split|split; [split|]].
  - intros Hin. specialize (Hm _ Hin). apply Exists_exists in Hm as (x & Hx & E). by exists x.
  - intros (s & _ & E). by destruct (Hc _ _ E).
  - intros Hin. specialize (Hs _ Hin). apply Exists_exists in Hs as (x & Hx & E). by exists x.
  - intros (m & _ & E). by destruct (Hc _ _ E).
  - apply Hc.
Qed.

(** ** States of the module *)
Section Module.
Context {V : Type} `{StrictEquality V} `{IBackgroundTaskMgr W} `{UIContent}.
Implicit Types (s : ScriptModule V) (argv : list V) (jsThis : V).

(** The new object is not one in use. *)
Definition unused (object : Z) s : Prop :=
  find_object object (sm_callbackInstances_ s) = None /\ sm_authCallbackInstances_ s !! object = None.

(** A script calls an exported function; a request ends, or its task runs; the user answers,
    or the answer's task runs; the service comes back, or goes away. *)
Inductive module_step : ScriptModule V -> ScriptModule V -> Prop :=
| ms_invoke f jsThis argv fresh s n st (w : W) :
    unused (fr_object fresh) s -> module_step s (invoke f jsThis argv fresh s n st w).1.1.2
| ms_expired sent object s :
    module_step s (set_callbackInstances (OnExpired sent object (sm_callbackInstances_ s)).2 s)
| ms_expired_task callback s :
    module_step s (set_callbackInstances (expired_task callback (sm_callbackInstances_ s)).2 s)
| ms_answered sent object s :
    module_step s (set_authCallbackInstances (OnExpiredAuth sent object (sm_authCallbackInstances_ s)).2 s)
| ms_answered_task callback authResult s :
    module_step s (set_authCallbackInstances (expired_auth_task callback authResult (sm_authCallbackInstances_ s)).2 s)
| ms_added isBgtask s n st (w : W) :
    module_step s (set_subscriber (OnAddSystemAbility isBgtask (sm_backgroundTaskSubscriber_ s) n st w).1.1 s)
| ms_removed isBgtask s :
    module_step s (set_subscriber (OnRemoveSystemAbility isBgtask (sm_backgroundTaskSubscriber_ s)) s).

Definition module_start : ScriptModule V := mkModule [] ∅ None.
Definition module_reachable : ScriptModule V -> Prop := rtc module_step module_start.

Definition module_ok s : Prop := distinct (sm_callbackInstances_ s) /\ sound_sub (sm_backgroundTaskSubscriber_ s).

Lemma invoke_ok f jsThis argv fresh s n st (w : W) :
  unused (fr_object fresh) s -> module_ok s -> module_ok (invoke f jsThis argv fresh s n st w).1.1.2.
Proof.
  intros [Hu _] [Hd Hs].
  assert (forall (F : list (Z * CallbackInstance V) -> CL (W := W) (NapiCall * list (Z * CallbackInstance V))),
    distinct (F (sm_callbackInstances_ s) n st w).1.1.2 -> module_ok (on_instances F s n st w).1.1.2) as Hi.
  { intros F HF. unfold on_instances, cl_map. destruct (F _ n st w) as [[[c m] st'] w']. by split. }
  assert (forall (F : option (JsSubscriber V) -> CL (W := W) (list Thrown * option (JsSubscriber V))),
    sound_sub (F (sm_backgroundTaskSubscriber_ s) n st w).1.1.2 -> module_ok (on_subscriber F s n st w).1.1.2) as Hsub.
  { intros F HF. unfold on_subscriber, cl_map. destruct (F _ n st w) as [[[t sub] st'] w']. by split. }
  assert (forall (F : gmap Z V -> CL (W := W) (option (NapiCall * option ModalExtensionCallback * gmap Z V))),
    module_ok (on_auth F s n st w).1.1.2) as Ha.
  { intros F. unfold on_auth, cl_map. destruct (F _ n st w) as [[[[[c dlg] m]|] st'] w']; by split. }
  assert (forall F : CL (W := W) NapiCall, module_ok (plain F s n st w).1.1.2) as Hp.
  { intros F. unfold plain, cl_map. destruct (F n st w) as [[c st'] w']. by split. }
  destruct f; cbn [invoke]; try done; try apply Ha; try apply Hp.
  - apply Hi. eapply step_distinct; [|exact Hd]. by apply (tc_request (W := W)).
  - apply Hi. eapply step_distinct; [|exact Hd]. apply (tc_cancel (W := W)).
  - by destruct (GetRemainingDelayTime argv true) as [[ret thrown] work].
  - apply Hsub. eapply step_sound; [apply step_subscribe|done].
  - apply Hsub. eapply step_sound; [apply step_unsubscribe|done].
  - apply Hsub. eapply step_sound; [apply step_on|done].
  - apply Hsub. eapply step_sound; [apply step_off|done].
Qed.

Lemma module_step_ok s s' : module_step s s' -> module_ok s -> module_ok s'.
Proof.
  intros Hstep [Hd Hs]. destruct Hstep; try (by split).
  - by apply invoke_ok.
  - split; [|done]. eapply step_distinct; [apply (tc_expired (W := W))|done].
  - split; [|done]. eapply step_distinct; [apply (tc_task (W := W))|done].
  - split; [done|]. eapply step_sound; [apply step_added|done].
  - split; [done|]. eapply step_sound; [apply (step_removed (W := W))|done].
Qed.

Lemma reachable_ok s : module_reachable s -> module_ok s.
Proof.
  unfold module_reachable. assert (module_ok module_start) as Hok by by split; [apply NoDup_nil_2|].
  intros Hr. revert Hok. induction Hr as [|s s' s'' Hstep _ IH]; [done|]. intros Hok. apply IH. by eapply module_step_ok.
Qed.

(** *** Answers *)

(** The arguments by which a null pointer is reached: a list of modes to update to, and an
    answer's callback that is no function. *)
Definition guarded (f : NativeFunction) argv : Prop :=
  match f with
  | F_UpdateBackgroundRunningThrow => napi_is_array (arg argv 1) <> Some true
  | F_RequestAuthFromUser | F_RequestAuthFromUserByDialog => has_type napi_function (arg argv 1) = true
  | _ => True
  end.

(** An answer, and an end to the work queued. *)
Definition answered (a : option Answer) : Prop :=
  match a with
  | Some a => forall work, an_work a = Some work -> forall n st (w : W), is_Some (run_module_work work n st w).1.1
  | None => False
  end.

Lemma call_answered c : well_behaved (W := W) true c -> answered (Some (call_answer c)).
Proof.
  unfold well_behaved, answered, call_answer. cbn. destruct (nc_work c) as [work|]; [|done].
  intros [_ Hw] work' [= <-]. apply Hw.
Qed.
Lemma settled_answered c : nc_work c = None -> answered (Some (call_answer c)).
Proof. intros E. unfold answered, call_answer. cbn. by rewrite E. Qed.

Lemma plain_answered (F : CL (W := W) NapiCall) s n st (w : W) :
  nc_work (F n st w).1.1 = None -> answered (plain F s n st w).1.1.1.
Proof. unfold plain, cl_map. destruct (F n st w) as [[c st'] w']. apply settled_answered. Qed.

Lemma on_instances_answered F s n st (w : W) :
  nc_work (F (sm_callbackInstances_ s) n st w).1.1.1 = None -> answered (on_instances F s n st w).1.1.1.
Proof. unfold on_instances, cl_map. destruct (F _ n st w) as [[[c m] st'] w']. apply settled_answered. Qed.

Lemma on_subscriber_answered (F : option (JsSubscriber V) -> CL (W := W) (list Thrown * option (JsSubscriber V))) s n st (w : W) :
  answered (on_subscriber F s n st w).1.1.1.
Proof.
  unfold on_subscriber, cl_map. destruct (F _ n st w) as [[[t sub] st'] w']. by apply settled_answered.
Qed.

Lemma auth_answered jsThis argv apiVersion object impl s n st (w : W) :
  unused object s -> has_type napi_function (arg argv 1) = true ->
  answered (on_auth (RequestAuth jsThis argv apiVersion object impl) s n st w).1.1.1.
Proof.
  intros [_ Hu] Hf. unfold on_auth, cl_map.
  destruct (auth_outcome jsThis argv apiVersion object impl (sm_authCallbackInstances_ s) n st w Hu Hf)
    as (r & dlg & m' & st' & w' & -> & Hw & _). by apply settled_answered.
Qed.

(** The functions that wait for the library queue nothing. *)
Ltac no_work :=
  repeat first
    [ progress unfold cl_map, cl_ret, with_task_state
    | case_test
    | match goal with
      | |- context [match ?m with _ => _ end] => destruct m
      end ]; try done.
Lemma no_work_plain argv jsThis n st (w : W) :
  nc_work (ApplyEfficiencyResources argv n st w).1.1 = None /\ nc_work (ResetAllEfficiencyResources n st w).1.1 = None /\
  nc_work (SetBackgroundTaskState argv n st w).1.1 = None /\ nc_work (GetBackgroundTaskState argv n st w).1.1 = None /\
  nc_work (UpdateDataTransferProgress argv n st w).1.1 = None /\ nc_work (IsModeSupported jsThis n st w).1.1 = None.
Proof.
  split; [unfold ApplyEfficiencyResources; no_work|]. split; [unfold ResetAllEfficiencyResources; no_work|].
  split; [unfold SetBackgroundTaskState; no_work|]. split; [unfold GetBackgroundTaskState; no_work|].
  split; [unfold UpdateDataTransferProgress; no_work|]. unfold IsModeSupported; no_work.
Qed.

Lemma no_work_instances argv isThrow object impl m n st (w : W) :
  nc_work (RequestSuspendDelay argv isThrow object impl m n st w).1.1.1 = None /\
  nc_work (CancelSuspendDelay argv isThrow m n st w).1.1.1 = None.
Proof. split; [unfold RequestSuspendDelay; no_work|]. unfold CancelSuspendDelay; no_work. Qed.

(** C11. Whatever scripts called before, whatever the service answered and told: a call of an
    exported function has an answer, and the work it queues runs to an end that settles the
    promise or the callback, unless its arguments are those by which a null pointer is reached;
    the callbacks kept stay of different objects, and the types with callbacks flagged. *)
Theorem module_calls_are_answered f jsThis argv fresh s n st (w : W) :
  module_reachable s -> unused (fr_object fresh) s -> guarded f argv ->
  let r := (invoke f jsThis argv fresh s n st w).1.1 in
  answered r.1 /\ module_ok r.2.
Proof.
  intros Hr Hu Hg. cbv zeta. split; [|by apply invoke_ok; [|apply reachable_ok]].
  pose proof (no_work_plain argv jsThis n st w) as (N1 & N2 & N3 & N4 & N5 & N6).
  destruct f; cbn [invoke guarded] in *; try by apply plain_answered.
  11-14: apply (on_subscriber_answered _ s n st w).
  - apply on_instances_answered. apply no_work_instances.
  - apply on_instances_answered. apply (no_work_instances argv true 0 None).
  - destruct (GetRemainingDelayTime argv true) as [[ret thrown] work]. intros x Hx n' st' w'. cbn in Hx.
    destruct work as [p|]; [|done]. injection Hx as <-. cbn [run_module_work]. unfold cl_map at 1.
    by destruct (GetRemainingDelayTime_work p n' st' w') as [[? ?] ?].
  - intros x [= <-] n' st' w'. cbn [run_module_work]. unfold cl_map at 1. by destruct (GetAllTransientTasks n' st' w') as [[? ?] ?].
  - by apply call_answered, StartBackgroundRunning_replies.
  - by apply call_answered, UpdateBackgroundRunning_replies.
  - by apply call_answered, StopBackgroundRunning_replies.
  - by apply call_answered, GetAllContinuousTasks_replies.
  - intros x [= <-] n' st' w'. cbn [run_module_work]. unfold cl_map at 1. by destruct (GetAllEfficiencyResources n' st' w') as [[? ?] ?].
  - apply call_answered. apply finish_well_behaved, nret_replies. by right.
  - by apply auth_answered.
  - by apply auth_answered.
  - by apply call_answered, CheckSpecialScenarioUserAuth_replies.
  - by apply call_answered, CheckSpecialScenarioUserAuth_replies.
Qed.
End Module.
