(* ===== verification/EtsBinding.v ===== *)
(** * The ArkTS bindings

    interfaces/kits/ets/taihe/src: ohos.resourceschedule.backgroundTaskManager.impl.cpp,
    callback_instance.cpp and common.cpp.  The functions of a script are given typed values
    and run to their end at once; errors are set with [set_business_error], and listed here
    in order.

    A structure that is returned without its fields being set is no result here. *)

From S2P Require Import Prelude.
From S2P Require Import Errors.
From S2P Require Import Interfaces.
From S2P Require Import ResourceTypes.
From S2P Require Import ContinuousTaskRecord.
From S2P Require Import ContinuousTypes.
From S2P Require Import ContinuousAuth.
From S2P Require Import ContinuousQueries.
From S2P Require Import BackgroundModes.
From S2P Require Import Parcelables.
From S2P Require Import BackgroundTaskManager.
From S2P Require Import NapiCommon.
From S2P Require Import NapiContinuousTask.
From S2P Require Import NapiTransientTask.
From S2P Require Import NapiAuth.
From S2P Require Import JsBackgroundTaskSubscriber.
From S2P Require Import NapiProps.
Import Common BackgroundTaskMode BackgroundTaskSubmode.
Local Open Scope Z_scope.

(** ** The engine

    [UnwrapWantAgent]: null where the value wraps none.  [FindEnumItem]: an item of an
    enumeration of another module, by their names.  [callback_eq]: [==] of two callbacks. *)
Class AniApi (V : Type) := {
  ani_IsStageContext : V -> option bool;
  ani_GetStageModeContext : V -> option AbilityContext;
  UnwrapWantAgent : V -> option WantAgent;
  FindEnumItem : string -> string -> option Z;
  callback_eq : V -> V -> bool;
}.

(** ** common.cpp *)
Module EtsCommon.
Definition FindErrCode (errCodeIn : Z) : Z :=
  if bool_decide (BusinessErrorMap.GetParamErrMsg errCodeIn <> "")%string then ERR_BGTASK_INVALID_PARAM else
  if errCodeIn >? ErrorReport.THRESHOLD then Z.quot errCodeIn ErrorReport.OFFSET else errCodeIn.
Definition FindErrMsg (errCode : Z) : string :=
  return_if errCode =? ERR_OK, ""%string ;;
  let errMsg := BusinessErrorMap.GetSaErrMsg errCode in
  return_if bool_decide (errMsg <> ""%string),
    ("BusinessError " +:+ pretty (FindErrCode errCode) +:+ ": " +:+ errMsg)%string ;;
  let errMsg := BusinessErrorMap.GetParamErrMsg errCode in
  return_if bool_decide (errMsg <> ""%string), ("BusinessError 401: Parameter error. " +:+ errMsg)%string ;;
  "Inner error."%string.
End EtsCommon.

Definition BusinessError : Type := Z * string.
Definition set_business_error (errCode : Z) : list BusinessError := [(EtsCommon.FindErrCode errCode, EtsCommon.FindErrMsg errCode)].
(** [if (errCode) set_business_error(...)] *)
Definition report (errCode : Z) : list BusinessError := if errCode =? ERR_OK then [] else set_business_error errCode.

(** ** Constants and structures *)
Definition MAX_SPECIAL_TASK_NUMS : Z := 1.

(** The options left out by a script are not set. *)
Record TaiheProgressInfo := mkTaiheProgress {
  tpi_title : string;
  tpi_fileName : string;
  tpi_progressValue : option Z;
  tpi_isMute : option bool;
}.
Record TaiheTransferProgress (V : Type) := mkTaiheTransfer {
  ttp_continuousTaskId : Z;
  ttp_wantAgent : option V;
  ttp_progressInfo : TaiheProgressInfo;
}.
Arguments mkTaiheTransfer {V}.
Arguments ttp_continuousTaskId {V}.
Arguments ttp_wantAgent {V}.
Arguments ttp_progressInfo {V}.
Record TaiheStateInfo := mkTaiheState {
  tsi_userId : Z;
  tsi_bundleName : string;
  tsi_appIndex : Z;
  tsi_authResult : option Z;
}.
Record TaiheEfficiencyRequest := mkTaiheEfficiency {
  ter_resourceTypes : Z;
  ter_isApply : bool;
  ter_timeOut : Z;
  ter_reason : string;
  ter_isPersist : option bool;
  ter_isProcess : option bool;
  ter_cpuLevel : option Z;
}.
Record ContinuousTaskNotification := mkNotification {
  cn_slotType : Z;
  cn_contentType : Z;
  cn_notificationId : Z;
  cn_continuousTaskId : option Z;
}.
Record TaiheTaskInfo := mkTaiheTask {
  tti_abilityName : string;
  tti_uid : Z;
  tti_pid : Z;
  tti_isFromWebView : bool;
  tti_backgroundModes : list string;
  tti_backgroundSubModes : list string;
  tti_notificationId : Z;
  tti_continuousTaskId : Z;
  tti_abilityId : Z;
  tti_wantAgentBundleName : string;
  tti_wantAgentAbilityName : string;
  tti_suspendState : bool;
  tti_bundleName : option string;
  tti_appIndex : option Z;
}.
Record TaiheEfficiencyInfo := mkTaiheEfficiencyInfo {
  tei_resourceTypes : Z;
  tei_timeout : Z;
  tei_isPersistent : bool;
  tei_isForProcess : bool;
  tei_reason : string;
  tei_uid : Z;
  tei_pid : Z;
  tei_cpuLevel : option Z;
}.

(** ** callback_instance.cpp

    [cb_callbackInstances_] is the object's own, from ids to objects. *)
Record Callback (V : Type) := mkCallback {
  cb_object : Z;
  cb_callback_ : option V;
  cb_authCallback_ : option V;
  cb_callbackInstances_ : list (Z * Z);
}.
Arguments mkCallback {V}.
Arguments cb_object {V}.
Arguments cb_callback_ {V}.
Arguments cb_authCallback_ {V}.
Arguments cb_callbackInstances_ {V}.

Definition UserAuthResult_key (authResult : Z) : Z :=
  if bool_decide (authResult ∈ [UserAuthResult.NOT_SUPPORTED; UserAuthResult.NOT_DETERMINED; UserAuthResult.DENIED;
                                UserAuthResult.GRANTED_ONCE; UserAuthResult.GRANTED_ALWAYS])
  then authResult else UserAuthResult.NOT_DETERMINED.

Section Callbacks.
Context {V : Type}.
Implicit Types self : Callback V.

Definition new_Callback (object : Z) : Callback V := mkCallback object None None [].
Definition SetCallbackInfo (callback : V) self : Callback V :=
  mkCallback (cb_object self) (Some callback) (cb_authCallback_ self) (cb_callbackInstances_ self).
Definition SetAuthCallbackInfo (authCallback : V) self : Callback V :=
  mkCallback (cb_object self) (cb_callback_ self) (Some authCallback) (cb_callbackInstances_ self).

(** The functions called, and the object. *)
Definition Callback_OnExpired self : list V * Callback V :=
  match list_find (fun p => p.2 = cb_object self) (cb_callbackInstances_ self) with
  | None => ([], self)
  | Some (n, _) =>
      (option_list (cb_callback_ self),
       mkCallback (cb_object self) (cb_callback_ self) (cb_authCallback_ self) (delete n (cb_callbackInstances_ self)))
  end.
Definition Callback_OnExpiredAuth (authResult : Z) self : list (V * Z) :=
  match cb_authCallback_ self with
  | None => []
  | Some authCallback => [(authCallback, UserAuthResult_key authResult)]
  end.
End Callbacks.

Section Ets.
Context {V : Type} `{AniApi V} `{IBackgroundTaskMgr W} `{UIContent}.
Abbreviation CL := (CL (W := W)).
(** The callbacks of the module, by request or notification id. *)
Abbreviation Global := (gmap Z (Callback V)).
Implicit Types m : Global.

(** ** Arguments

    A check gives what it found, or the code of the error it sets. *)
Definition GetAbilityContext (value : V) : option AbilityContext :=
  if default false (ani_IsStageContext value) then ani_GetStageModeContext value else None.
Definition GetWantAgent (value : V) : option WantAgent := UnwrapWantAgent value.

Definition CheckParam (context : V) : (AbilityContext * (string * Z)) + Z :=
  match GetAbilityContext context with
  | None => inr ERR_CONTEXT_NULL_OR_TYPE_ERR
  | Some abilityContext =>
      match ac_GetAbilityInfo abilityContext with
      | None => inr ERR_ABILITY_INFO_EMPTY
      | Some info => if negb (ac_GetToken abilityContext) then inr ERR_GET_TOKEN_ERR else inl (abilityContext, info)
      end
  end.

Fixpoint GetModes_loop (bgModesVector : list string) (bgModes : list Z) : list Z + Z :=
  match bgModesVector with
  | [] => inl bgModes
  | iter :: bgModesVector =>
      match list_find (eq iter) g_backgroundModes with
      | None => inr ERR_BGMODE_NULL_OR_TYPE_ERR
      | Some (index, _) =>
          let mode := Z.of_nat index + 1 in
          GetModes_loop bgModesVector (if bool_decide (mode ∈ bgModes) then bgModes else bgModes ++ [mode])
      end
  end.
Definition GetModes (bgModes : list string) : list Z + Z :=
  if bool_decide (bgModes = []) then inr ERR_BGMODE_NULL_OR_TYPE_ERR else GetModes_loop bgModes [].

Definition in_mode_range (mode : Z) : bool := (BG_MODE_ID_BEGIN <=? mode) && (mode <=? BG_MODE_ID_END).
Definition CheckBackgroundMode (isBatchApi : bool) (bgMode : Z) (bgModes : list Z) : bool :=
  if isBatchApi then forallb in_mode_range bgModes else in_mode_range bgMode.

(** ** The request object *)
Record ContinuousTaskRequestImpl := mkRequestImpl {
  ri_continuousTaskId_ : Z;
  ri_combinedTaskNotification_ : bool;
  ri_wantAgent_ : option WantAgent;
  ri_backgroundTaskSubmodes_ : list Z;
  ri_backgroundTaskModes_ : list Z;
  ri_progressInfo_ : option TaiheProgressInfo;
}.
Implicit Types r : ContinuousTaskRequestImpl.
Definition CreateContinuousTaskRequest : ContinuousTaskRequestImpl := mkRequestImpl (-1) false None [] [] None.

(** Empty arrays, values left out and wrong want agents leave the object as it is. *)
Definition setBackgroundTaskModes (backgroundTaskModes : list Z) r : ContinuousTaskRequestImpl :=
  if bool_decide (backgroundTaskModes = []) then r else
  mkRequestImpl (ri_continuousTaskId_ r) (ri_combinedTaskNotification_ r) (ri_wantAgent_ r) (ri_backgroundTaskSubmodes_ r)
    backgroundTaskModes (ri_progressInfo_ r).
Definition setBackgroundTaskSubmodes (backgroundTaskSubmodes : list Z) r : ContinuousTaskRequestImpl :=
  if bool_decide (backgroundTaskSubmodes = []) then r else
  mkRequestImpl (ri_continuousTaskId_ r) (ri_combinedTaskNotification_ r) (ri_wantAgent_ r) backgroundTaskSubmodes
    (ri_backgroundTaskModes_ r) (ri_progressInfo_ r).
Definition setWantAgent (wantAgent : V) r : ContinuousTaskRequestImpl :=
  match UnwrapWantAgent wantAgent with
  | None => r
  | Some agent =>
      mkRequestImpl (ri_continuousTaskId_ r) (ri_combinedTaskNotification_ r) (Some agent) (ri_backgroundTaskSubmodes_ r)
        (ri_backgroundTaskModes_ r) (ri_progressInfo_ r)
  end.
Definition setCombinedTaskNotification (combinedTaskNotification : option bool) r : ContinuousTaskRequestImpl :=
  mkRequestImpl (ri_continuousTaskId_ r) (default (ri_combinedTaskNotification_ r) combinedTaskNotification) (ri_wantAgent_ r)
    (ri_backgroundTaskSubmodes_ r) (ri_backgroundTaskModes_ r) (ri_progressInfo_ r).
Definition setContinuousTaskId (continuousTaskId : option Z) r : ContinuousTaskRequestImpl :=
  mkRequestImpl (default (ri_continuousTaskId_ r) continuousTaskId) (ri_combinedTaskNotification_ r) (ri_wantAgent_ r)
    (ri_backgroundTaskSubmodes_ r) (ri_backgroundTaskModes_ r) (ri_progressInfo_ r).
Definition setProgressInfo (progressInfo : option TaiheProgressInfo) r : ContinuousTaskRequestImpl :=
  mkRequestImpl (ri_continuousTaskId_ r) (ri_combinedTaskNotification_ r) (ri_wantAgent_ r) (ri_backgroundTaskSubmodes_ r)
    (ri_backgroundTaskModes_ r) match progressInfo with Some _ => progressInfo | None => ri_progressInfo_ r end.

(** *** Its modes *)
Definition special_modes (modes : list Z) : Z := Z.of_nat (count_occ Z.eq_dec modes MODE_SPECIAL_SCENARIO_PROCESSING).
(** The special mode once, and then alone. *)
Definition check_special (modes : list Z) : option Z :=
  if special_modes modes >? MAX_SPECIAL_TASK_NUMS then Some ERR_BGTASK_SPECIAL_SCENARIO_PROCESSING_ONLY_ALLOW_ONE_APPLICATION else
  if (special_modes modes =? MAX_SPECIAL_TASK_NUMS) && (Z.of_nat (length modes) >? MAX_SPECIAL_TASK_NUMS)
  then Some ERR_BGTASK_SPECIAL_SCENARIO_PROCESSING_CONFLICTS_WITH_OTHER_TASK else None.
(** The loop over submodes and the modes at their indices. *)
Fixpoint check_pairs (l : list (Z * Z)) : option Z :=
  match l with
  | [] => None
  | (mode, subMode) :: l =>
      if (subMode >=? BackgroundTaskSubmode_END) || (subMode <? SUBMODE_CAR_KEY_NORMAL_NOTIFICATION)
      then Some ERR_BGTASK_CONTINUOUS_MODE_OR_SUBMODE_CROSS_BORDER else
      if subMode =? SUBMODE_NORMAL_NOTIFICATION then
        if negb (IsModeTypeMatching mode) then Some ERR_BGTASK_CONTINUOUS_MODE_OR_SUBMODE_TYPE_MISMATCH else check_pairs l
      else
        if negb (GetSubModeTypeMatching subMode =? mode) then Some ERR_BGTASK_CONTINUOUS_MODE_OR_SUBMODE_TYPE_MISMATCH
        else check_pairs l
  end.
(** The code of the error, or none where the modes pass; the method [CheckModesInner] of the
    object and the function [CheckModeAndSubMode] on it are the same code twice. *)
Definition CheckModesInner r : option Z :=
  let modes := ri_backgroundTaskModes_ r in
  let subModes := ri_backgroundTaskSubmodes_ r in
  if bool_decide (modes = []) || bool_decide (subModes = []) then Some ERR_BGTASK_CONTINUOUS_MODE_OR_SUBMODE_IS_EMPTY else
  if negb (length modes =? length subModes)%nat then Some ERR_BGTASK_CONTINUOUS_MODE_OR_SUBMODE_LENGTH_MISMATCH else
  match check_special modes with
  | Some e => Some e
  | None => check_pairs (combine modes subModes)
  end.
Definition CheckModeAndSubMode r : option Z := CheckModesInner r.

(** The modes the service counts; no result where an index is out of range. *)
Definition TaskModeTypeConversion r : option (Z * list Z) :=
  modes ← convert_modes (ri_backgroundTaskModes_ r) (ri_backgroundTaskSubmodes_ r) 0;
  bgMode ← head modes;
  Some (bgMode, modes).

Definition GetProgressInfoParam (progressInfoData : TaiheProgressInfo) : ProgressInfo + Z :=
  let i := SetFileName (tpi_fileName progressInfoData) (SetTitle (tpi_title progressInfoData) new_ProgressInfo) in
  let muted i := match tpi_isMute progressInfoData with Some b => SetIsMute b i | None => i end in
  match tpi_progressValue progressInfoData with
  | Some progressValue =>
      if (progressValue <? MIN_PROGRESS_VALUE) || (progressValue >? MAX_PROGRESS_VALUE)
      then inr ERR_BGTASK_CONTINUOUS_PROGRESS_INFO_INVALID else inl (muted (SetProgressValue progressValue i))
  | None => inl (muted i)
  end.

(** The context and what the request is sent as. *)
Definition CheckRequestParams (context : V) r : (AbilityContext * (string * Z)) + Z :=
  match CheckParam context with
  | inr e => inr e
  | inl ability => match CheckModeAndSubMode r with Some e => inr e | None => inl ability end
  end.

Definition isModeSupported r : CL (bool * list BusinessError) :=
  let modes := ri_backgroundTaskModes_ r in
  if bool_decide (modes = []) then cl_ret (false, set_business_error ERR_BGTASK_CONTINUOUS_MODE_OR_SUBMODE_IS_EMPTY) else
  match check_special modes with
  | Some e => cl_ret (false, set_business_error e)
  | None => cl_map (fun errCode => (errCode =? ERR_OK, report errCode)) (BackgroundTaskMgrHelper.IsModeSupported (mode_param modes))
  end.

(** *** Asking the user *)
Definition ets_auth_param r (apiVersion appIndex : Z) : option ContinuousTaskParam :=
  bgMode ← head (ri_backgroundTaskModes_ r);
  Some (mkParam true bgMode None "" "" true (ri_backgroundTaskModes_ r) (-1) (ri_backgroundTaskSubmodes_ r)
    false (-1) (-1) false appIndex apiVersion (-1) (-1) None).

(** The checks, then [k] on the ability and the parameters; [object] is the callback made. *)
Definition with_auth_param (context callback : V) (object apiVersion : Z) r m
    (k : AbilityContext -> ContinuousTaskParam -> Callback V -> CL (list BusinessError * option ModalExtensionCallback * Global)) :
    CL (list BusinessError * option ModalExtensionCallback * Global) :=
  match CheckModesInner r with
  | Some e => cl_ret (set_business_error e, None, m)
  | None =>
      match CheckParam context with
      | inr e => cl_ret (set_business_error e, None, m)
      | inl (abilityContext, info) =>
          match ets_auth_param r apiVersion info.2 with
          | None => cl_ret ([], None, m)
          | Some taskParam => k abilityContext taskParam (SetAuthCallbackInfo callback (new_Callback object))
          end
      end
  end.
Definition keep_callback (notificationId : Z) (callback : Callback V) m : Global :=
  if notificationId >=? 0 then <[notificationId := callback]> m else m.

Definition requestAuthFromUser (context callback : V) (object : Z) (impl : option RemoteProxy) r m :
    CL (list BusinessError * option ModalExtensionCallback * Global) :=
  with_auth_param context callback object API_VERSION_REQUEST_SPECIAL_USER_AUTH r m (fun _ taskParam callbackPtr =>
    cl_map (fun '(errCode, notificationId) =>
        if errCode =? ERR_BGTASK_CONTINUOUS_TRIGGER_CALLBACK then ([], None, m) else
        if negb (errCode =? ERR_OK) then (set_business_error errCode, None, m)
        else ([], None, keep_callback notificationId callbackPtr m))
      (cl_RequestAuthFromUser taskParam impl (-1))).

Definition requestAuthFromUserByDialog (context callback : V) (object : Z) (impl : option RemoteProxy) r m :
    CL (list BusinessError * option ModalExtensionCallback * Global) :=
  with_auth_param context callback object API_VERSION_REQUEST_SPECIAL_USER_AUTH_BY_DIALOG r m
    (fun abilityContext taskParam callbackPtr n st w =>
    let '((errCode, notificationId), st, w) := cl_RequestAuthFromUser taskParam impl (-1) n st w in
    if errCode =? ERR_BGTASK_CONTINUOUS_TRIGGER_CALLBACK then (([], None, m), st, w) else
    if negb (errCode =? ERR_OK) then ((set_business_error errCode, None, m), st, w) else
    match CreateUIExtension (Some abilityContext) taskParam with
    | None =>
        let '(_, st, w) := cl_RemoveAuthRecord taskParam n st w in
        ((set_business_error ERR_BGTASK_SYS_NOT_READY, None, m), st, w)
    | Some dialog => (([], Some dialog, keep_callback notificationId callbackPtr m), st, w)
    end).

Definition GetUserAuth (context : V) (apiVersion : Z) : CL (Z * list BusinessError) :=
  match CheckParam context with
  | inr e => cl_ret (UserAuthResult.NOT_DETERMINED, set_business_error e)
  | inl (_, info) =>
      cl_map (fun '(errCode, authResult) =>
          if errCode =? ERR_OK then (UserAuthResult_key authResult, [])
          else (UserAuthResult.NOT_DETERMINED, set_business_error errCode))
        (BackgroundTaskMgrHelper.CheckSpecialScenarioAuth info.2 0 apiVersion)
  end.
Definition checkSpecialScenarioAuthSync (context : V) := GetUserAuth context API_VERSION_CHECK_SPECIAL_USER_AUTH.
Definition checkSpecialScenarioAuthSync2 (context : V) := GetUserAuth context API_VERSION_CHECK_SPECIAL_USER_AUTH_RESULT.

(** ** Transient tasks *)
Definition ets_CancelSuspendDelay (requestId : Z) m : CL (list BusinessError * Global) :=
  cl_map (fun errCode => (report errCode, delete requestId m)) (cl_CancelSuspendDelay requestId).
Definition GetRemainingDelayTimeSync (requestId : Z) : CL (Z * list BusinessError) :=
  cl_map (fun '(errCode, delayTime) => (delayTime, report errCode)) (cl_GetRemainingDelayTime requestId 0).
Definition ets_RequestSuspendDelay (callback : V) (object : Z) (impl : option RemoteProxy) m :
    CL (option DelaySuspendInfo * list BusinessError * Global) :=
  cl_map (fun '(errCode, delaySuspendInfo) =>
      (delaySuspendInfo, report errCode,
       match delaySuspendInfo with
       | Some i => <[di_requestId_ i := SetCallbackInfo callback (new_Callback object)]> m
       | None => m
       end))
    (cl_RequestSuspendDelay impl None).
Definition GetTransientTaskInfoSync : CL ((Z * list DelaySuspendInfo) * list BusinessError) :=
  cl_map (fun '(errCode, info) => (info, report errCode)) (cl_GetAllTransientTasks 0 []).

(** ** Efficiency resources *)
Definition efficiency_request (request : TaiheEfficiencyRequest) : EfficiencyResourceInfo :=
  let resourceInfo :=
    new_EfficiencyResourceInfo (uint32 (ter_resourceTypes request)) (ter_isApply request) (uint32 (ter_timeOut request))
      (ter_reason request) (default false (ter_isPersist request)) (default false (ter_isProcess request)) in
  match ter_cpuLevel request with Some level => inf_SetCpuLevel level resourceInfo | None => resourceInfo end.
Definition ets_ApplyEfficiencyResources (request : TaiheEfficiencyRequest) : CL (list BusinessError) :=
  cl_map report (cl_ApplyEfficiencyResources (efficiency_request request)).
Definition ets_ResetAllEfficiencyResources : CL (list BusinessError) := cl_map report cl_ResetAllEfficiencyResources.
Definition efficiency_info (i : EfficiencyResourceInfo) : TaiheEfficiencyInfo :=
  mkTaiheEfficiencyInfo (int32 (inf_resourceNumber_ i)) (int32 (inf_timeOut_ i)) (inf_isPersist_ i) (inf_isProcess_ i)
    (inf_reason_ i) (inf_uid_ i) (inf_pid_ i) (if inf_cpuLevel_ i =? CPU_LEVEL_DEFAULT then None else Some (inf_cpuLevel_ i)).
Definition GetAllEfficiencyResourcesSync : CL (list TaiheEfficiencyInfo * list BusinessError) :=
  cl_map (fun '(errCode, list) => if errCode =? ERR_OK then (map efficiency_info list, []) else ([], set_business_error errCode))
    (cl_GetAllEfficiencyResources []).

(** ** The user's state of tasks *)
Definition valid_state (stateInfo : TaiheStateInfo) : bool :=
  negb ((tsi_userId stateInfo <? 0) || (tsi_appIndex stateInfo <? 0) || bool_decide (tsi_bundleName stateInfo = ""%string)).
Definition ets_SetBackgroundTaskState (stateInfo : TaiheStateInfo) : CL (list BusinessError) :=
  let invalid := cl_ret (set_business_error ERR_BGTASK_CONTINUOUS_BACKGROUND_TASK_PARAM_INVALID) in
  match tsi_authResult stateInfo with
  | None => invalid
  | Some authValue =>
      if negb (valid_state stateInfo) then invalid else
      cl_map report (BackgroundTaskMgrHelper.SetBackgroundTaskState
        (Some (mkStateInfo (tsi_userId stateInfo) (tsi_bundleName stateInfo) (tsi_appIndex stateInfo) authValue)))
  end.
(** The default of the result asked for is [NOT_SUPPORTED]. *)
Definition ets_GetBackgroundTaskState (stateInfo : TaiheStateInfo) : CL (Z * list BusinessError) :=
  if negb (valid_state stateInfo)
  then cl_ret (UserAuthResult.NOT_DETERMINED, set_business_error ERR_BGTASK_CONTINUOUS_BACKGROUND_TASK_PARAM_INVALID) else
  let taskState := mkStateInfo (tsi_userId stateInfo) (tsi_bundleName stateInfo) (tsi_appIndex stateInfo) UserAuthResult.NOT_SUPPORTED in
  cl_map (fun '(errCode, result) =>
      if errCode =? ERR_OK then (UserAuthResult_key (bs_authResult_ (default taskState result)), [])
      else (UserAuthResult.NOT_DETERMINED, set_business_error errCode))
    (BackgroundTaskMgrHelper.GetBackgroundTaskState (Some taskState)).

(** ** Continuous tasks *)

(** A task's result, where the enumerations of notifications are there. *)
Definition GetSlotType : option Z := FindEnumItem "@ohos.notificationManager.notificationManager.SlotType" "LIVE_VIEW".
Definition GetContentType : option Z :=
  FindEnumItem "@ohos.notificationManager.notificationManager.ContentType" "NOTIFICATION_CONTENT_MULTILINE".
Definition notification (r : Z * ContinuousTaskParam) : option ContinuousTaskNotification * list BusinessError :=
  if negb (r.1 =? ERR_OK) then (None, set_business_error r.1) else
  match GetSlotType, GetContentType with
  | Some slotType, Some contentType =>
      (Some (mkNotification slotType contentType (tp_notificationId_ r.2) (Some (tp_continuousTaskId_ r.2))), [])
  | _, _ => (None, [])
  end.

Definition StopBackgroundRunningSync (context : V) : CL (list BusinessError) :=
  match CheckParam context with
  | inr e => cl_ret (set_business_error e)
  | inl (abilityContext, info) =>
      cl_map report (BackgroundTaskMgrHelper.RequestStopBackgroundRunning info.1 (ac_GetAbilityRecordId abilityContext) (-1))
  end.
Definition StopBackgroundRunningSync2 (context : V) (continuousTaskId : Z) : CL (list BusinessError) :=
  if continuousTaskId <? 0 then cl_ret (set_business_error ERR_BGTASK_CONTINUOUS_TASKID_INVALID) else
  match CheckParam context with
  | inr e => cl_ret (set_business_error e)
  | inl (abilityContext, info) =>
      cl_map report
        (BackgroundTaskMgrHelper.RequestStopBackgroundRunning info.1 (ac_GetAbilityRecordId abilityContext) continuousTaskId)
  end.

Definition StartBackgroundRunningSync (context : V) (bgMode : Z) (wantAgent : V) : CL (list BusinessError) :=
  match CheckParam context with
  | inr e => cl_ret (set_business_error e)
  | inl (abilityContext, info) =>
      match GetWantAgent wantAgent with
      | None => cl_ret (set_business_error ERR_WANTAGENT_NULL_OR_TYPE_ERR)
      | Some agent =>
          if negb (CheckBackgroundMode false bgMode []) then cl_ret (set_business_error ERR_BGMODE_RANGE_ERR) else
          cl_map (fun p => report p.1)
            (BackgroundTaskMgrHelper.RequestStartBackgroundRunning
               (set_appIndex info.2
                  (new_ContinuousTaskParam true bgMode (Some agent) info.1 "" false [] (ac_GetAbilityRecordId abilityContext))))
      end
  end.

(** The mode of a list is left at 0. *)
Definition with_modes (bgModes : list string) (k : list Z -> CL (option ContinuousTaskNotification * list BusinessError)) :
    CL (option ContinuousTaskNotification * list BusinessError) :=
  match GetModes bgModes with
  | inr e => cl_ret (None, set_business_error e)
  | inl modes => if negb (CheckBackgroundMode true 0 modes) then cl_ret (None, set_business_error ERR_BGMODE_RANGE_ERR) else k modes
  end.
Definition StartBackgroundRunningSync2 (context : V) (bgModes : list string) (wantAgent : V) :
    CL (option ContinuousTaskNotification * list BusinessError) :=
  match CheckParam context with
  | inr e => cl_ret (None, set_business_error e)
  | inl (abilityContext, info) =>
      match GetWantAgent wantAgent with
      | None => cl_ret (None, set_business_error ERR_WANTAGENT_NULL_OR_TYPE_ERR)
      | Some agent =>
          with_modes bgModes (fun modes =>
            cl_map notification
              (BackgroundTaskMgrHelper.RequestStartBackgroundRunning
                 (set_appIndex info.2
                    (new_ContinuousTaskParam true 0 (Some agent) info.1 "" true modes (ac_GetAbilityRecordId abilityContext)))))
      end
  end.
Definition UpdateBackgroundRunningSync (context : V) (bgModes : list string) :
    CL (option ContinuousTaskNotification * list BusinessError) :=
  match CheckParam context with
  | inr e => cl_ret (None, set_business_error e)
  | inl (abilityContext, info) =>
      with_modes bgModes (fun modes =>
        cl_map notification
          (BackgroundTaskMgrHelper.RequestUpdateBackgroundRunning
             (new_ContinuousTaskParam true 0 None info.1 "" true modes (ac_GetAbilityRecordId abilityContext))))
  end.

(** What a request object is sent as. *)
Definition ets_request_param r (mode : Z) (modes : list Z) (progressInfo : option ProgressInfo) (name : string)
    (abilityId startId updateId appIndex : Z) : ContinuousTaskParam :=
  mkParam true mode (ri_wantAgent_ r) name "" true modes abilityId (ri_backgroundTaskSubmodes_ r)
    (ri_combinedTaskNotification_ r) startId updateId true appIndex API_VERSION_REQUEST_SPECIAL_USER_AUTH (-1) (-1) progressInfo.
(** The progress of a request that has one. *)
Definition request_progress r : option ProgressInfo + Z :=
  match ri_progressInfo_ r with
  | None => inl None
  | Some progressInfoData => match GetProgressInfoParam progressInfoData with inl i => inl (Some i) | inr e => inr e end
  end.
Definition with_request_param (context : V) r
    (k : AbilityContext -> string * Z -> Z * list Z -> option ProgressInfo -> CL (option ContinuousTaskNotification * list BusinessError)) :
    CL (option ContinuousTaskNotification * list BusinessError) :=
  match CheckRequestParams context r with
  | inr e => cl_ret (None, set_business_error e)
  | inl (abilityContext, info) =>
      match TaskModeTypeConversion r, request_progress r with
      | None, _ => cl_ret (None, [])
      | _, inr e => cl_ret (None, set_business_error e)
      | Some modes, inl progressInfo => k abilityContext info modes progressInfo
      end
  end.
Definition StartBackgroundRunningSync3 (context : V) r : CL (option ContinuousTaskNotification * list BusinessError) :=
  with_request_param context r (fun abilityContext info modes progressInfo =>
    cl_map notification
      (BackgroundTaskMgrHelper.RequestStartBackgroundRunning
         (ets_request_param r modes.1 modes.2 progressInfo info.1 (ac_GetAbilityRecordId abilityContext)
            (ri_continuousTaskId_ r) (-1) info.2))).
Definition UpdateBackgroundRunningSync2 (context : V) r : CL (option ContinuousTaskNotification * list BusinessError) :=
  if ri_continuousTaskId_ r <? 0 then cl_ret (None, set_business_error ERR_BGTASK_CONTINUOUS_TASKID_INVALID) else
  with_request_param context r (fun abilityContext info modes progressInfo =>
    cl_map notification
      (BackgroundTaskMgrHelper.RequestUpdateBackgroundRunning
         (ets_request_param r modes.1 modes.2 progressInfo info.1 (ac_GetAbilityRecordId abilityContext)
            (-1) (ri_continuousTaskId_ r) (-1)))).

(** *** Lists of tasks *)
Definition GetAniBackgroundModes (modes : list Z) : list string :=
  map GetBackgroundModeStr (filter (fun mode => mode < BackgroundMode.BM_END) modes).
Definition GetAniBackgroundSubModes (subModes : list Z) : list string :=
  map GetBackgroundSubModeStr (filter (fun subMode => subMode < BackgroundSubMode_END) subModes).
Definition ani_task_info (suspendState : bool) (i : ContinuousTaskInfo) : TaiheTaskInfo :=
  mkTaiheTask (ti_abilityName_ i) (ti_uid_ i) (ti_pid_ i) (ti_isFromWebView_ i) (GetAniBackgroundModes (ti_backgroundModes_ i))
    (GetAniBackgroundSubModes (ti_backgroundSubModes_ i)) (ti_notificationId_ i) (ti_continuousTaskId_ i) (ti_abilityId_ i)
    (ti_wantAgentBundleName_ i) (ti_wantAgentAbilityName_ i) suspendState (Some (ti_bundleName_ i)) (Some (ti_appIndex_ i)).
Definition task_infos (suspendState : ContinuousTaskInfo -> bool) (r : Z * list ContinuousTaskInfo) :
    list TaiheTaskInfo * list BusinessError :=
  if r.1 =? ERR_OK then (map (fun i => ani_task_info (suspendState i) i) r.2, []) else ([], set_business_error r.1).

Definition GetAllContinuousTasksSync (context : V) : CL (list TaiheTaskInfo * list BusinessError) :=
  match CheckParam context with
  | inr e => cl_ret ([], set_business_error e)
  | inl _ => cl_map (task_infos (fun _ => false)) (BackgroundTaskMgrHelper.RequestGetAllContinuousTasks [])
  end.
Definition GetAllContinuousTasksSync2 (context : V) (includeSuspended : bool) : CL (list TaiheTaskInfo * list BusinessError) :=
  match CheckParam context with
  | inr e => cl_ret ([], set_business_error e)
  | inl _ =>
      cl_map (task_infos ti_suspendState_) (BackgroundTaskMgrHelper.RequestGetAllContinuousTasksSuspended [] includeSuspended)
  end.
Definition ObtainAllContinuousTasksSync : CL (list TaiheTaskInfo * list BusinessError) :=
  cl_map (task_infos (fun _ => false)) (BackgroundTaskMgrHelper.GetAllContinuousTasksBySystem []).

Definition ets_UpdateDataTransferProgress (context : V) (progressInfoData : TaiheTransferProgress V) : CL (list BusinessError) :=
  match GetAbilityContext context with
  | None => cl_ret (set_business_error ERR_CONTEXT_NULL_OR_TYPE_ERR)
  | Some _ =>
      if ttp_continuousTaskId progressInfoData <? 0 then cl_ret (set_business_error ERR_BGTASK_INVALID_PARAM) else
      match GetProgressInfoParam (ttp_progressInfo progressInfoData) with
      | inr e => cl_ret (set_business_error e ++ set_business_error ERR_BGTASK_CONTINUOUS_PROGRESS_INFO_INVALID)
      | inl progressInfoInner =>
          cl_map report (BackgroundTaskMgrHelper.RequestUpdateDataTransferProgress
            (mkProgress (ttp_continuousTaskId progressInfoData) (ttp_wantAgent progressInfoData ≫= GetWantAgent) (Some progressInfoInner)))
      end
  end.
End Ets.

(** * ArkTS callbacks told about continuous tasks

    interfaces/kits/ets/taihe/src/ani_backgroundtask_subscriber.cpp, and the functions of
    ohos.resourceschedule.backgroundTaskManager.impl.cpp that register and remove callbacks.

    The sets of callbacks are ordered by the address of the objects; here they are kept in
    the order in which the callbacks came. *)

Import BackgroundTaskMode BackgroundTaskSubmode.

(** ** What callbacks are given *)
Record ContinuousTaskCancelInfo := mkCancelInfo { xi_reason : Z; xi_id : Z; xi_detailedReason : option Z }.
Record ContinuousTaskSuspendInfo := mkSuspendInfo {
  si_continuousTaskId : Z;
  si_suspendState : bool;
  si_suspendReason : Z;
  si_suspendMessage : option (string * Z);
}.
Record ContinuousTaskActiveInfo := mkActiveInfo { vi_id : Z }.

(** ** The subscriber

    [an_impl_]: the object the service holds. *)
Record AniSubscriber (V : Type) := mkAni {
  an_impl_ : option RemoteProxy;
  an_cancelCallbacks_ : gmap string (list V);
  an_suspendCallbacks_ : gmap string (list V);
  an_activeCallbacks_ : gmap string (list V);
  an_jsSaListner_ : bool;
  an_needRestoreSubscribeStatus_ : bool;
  an_allCallBackTypes_ : Z;
  an_currentCallBackType_ : Z;
}.
Arguments mkAni {V}.
Arguments an_impl_ {V}.
Arguments an_cancelCallbacks_ {V}.
Arguments an_suspendCallbacks_ {V}.
Arguments an_activeCallbacks_ {V}.
Arguments an_jsSaListner_ {V}.
Arguments an_needRestoreSubscribeStatus_ {V}.
Arguments an_allCallBackTypes_ {V}.
Arguments an_currentCallBackType_ {V}.

Section Subscriber.
Context {V : Type} `{AniApi V}.
Implicit Types s : AniSubscriber V.
Abbreviation Callbacks := (gmap string (list V)).
Implicit Types m : Callbacks.

Definition new_AniBackgroundTaskSubscriber (impl : option RemoteProxy) : AniSubscriber V :=
  mkAni impl ∅ ∅ ∅ false false 0 0.
Definition an_set_cancel v s : AniSubscriber V :=
  mkAni (an_impl_ s) v (an_suspendCallbacks_ s) (an_activeCallbacks_ s) (an_jsSaListner_ s)
    (an_needRestoreSubscribeStatus_ s) (an_allCallBackTypes_ s) (an_currentCallBackType_ s).
Definition an_set_suspend v s : AniSubscriber V :=
  mkAni (an_impl_ s) (an_cancelCallbacks_ s) v (an_activeCallbacks_ s) (an_jsSaListner_ s)
    (an_needRestoreSubscribeStatus_ s) (an_allCallBackTypes_ s) (an_currentCallBackType_ s).
Definition an_set_active v s : AniSubscriber V :=
  mkAni (an_impl_ s) (an_cancelCallbacks_ s) (an_suspendCallbacks_ s) v (an_jsSaListner_ s)
    (an_needRestoreSubscribeStatus_ s) (an_allCallBackTypes_ s) (an_currentCallBackType_ s).
Definition an_set_listener v s : AniSubscriber V :=
  mkAni (an_impl_ s) (an_cancelCallbacks_ s) (an_suspendCallbacks_ s) (an_activeCallbacks_ s) v
    (an_needRestoreSubscribeStatus_ s) (an_allCallBackTypes_ s) (an_currentCallBackType_ s).
Definition an_set_restore v s : AniSubscriber V :=
  mkAni (an_impl_ s) (an_cancelCallbacks_ s) (an_suspendCallbacks_ s) (an_activeCallbacks_ s) (an_jsSaListner_ s)
    v (an_allCallBackTypes_ s) (an_currentCallBackType_ s).
Definition an_set_flags all current s : AniSubscriber V :=
  mkAni (an_impl_ s) (an_cancelCallbacks_ s) (an_suspendCallbacks_ s) (an_activeCallbacks_ s) (an_jsSaListner_ s)
    (an_needRestoreSubscribeStatus_ s) all current.

(** *** One map of callbacks: the methods are written out three times, once for each map. *)
Definition callbacks_of (cbType : string) m : list V := default [] (m !! cbType).
Abbreviation same_callback cb := (fun observer => callback_eq observer cb = true).
Definition get_observer (cbType : string) (cb : V) m : option V :=
  snd <$> list_find (same_callback cb) (callbacks_of cbType m).
Definition add_observer (cbType : string) (cb : V) m : Callbacks :=
  match get_observer cbType cb m with
  | None => <[cbType := callbacks_of cbType m ++ [cb]]> m
  | Some _ => m
  end.
(** The observer found is erased, and the type with its last. *)
Definition remove_observer (cbType : string) (cb : V) m : Callbacks :=
  match list_find (same_callback cb) (callbacks_of cbType m) with
  | None => m
  | Some (n, _) =>
      let left := delete n (callbacks_of cbType m) in
      if bool_decide (left = []) then delete cbType m else <[cbType := left]> m
  end.

Definition GetCancelObserverObject (cbType : string) (cb : V) s := get_observer cbType cb (an_cancelCallbacks_ s).
Definition AddCancelObserverObject (cbType : string) (cb : V) s : AniSubscriber V :=
  an_set_cancel (add_observer cbType cb (an_cancelCallbacks_ s)) s.
Definition RemoveCancelObserverObject (cbType : string) (cb : V) s : AniSubscriber V :=
  an_set_cancel (remove_observer cbType cb (an_cancelCallbacks_ s)) s.
Definition GetSuspendObserverObject (cbType : string) (cb : V) s := get_observer cbType cb (an_suspendCallbacks_ s).
Definition AddSuspendObserverObject (cbType : string) (cb : V) s : AniSubscriber V :=
  an_set_suspend (add_observer cbType cb (an_suspendCallbacks_ s)) s.
Definition RemoveSuspendObserverObject (cbType : string) (cb : V) s : AniSubscriber V :=
  an_set_suspend (remove_observer cbType cb (an_suspendCallbacks_ s)) s.
Definition GetActiveObserverObject (cbType : string) (cb : V) s := get_observer cbType cb (an_activeCallbacks_ s).
Definition AddActiveObserverObject (cbType : string) (cb : V) s : AniSubscriber V :=
  an_set_active (add_observer cbType cb (an_activeCallbacks_ s)) s.
Definition RemoveActiveObserverObject (cbType : string) (cb : V) s : AniSubscriber V :=
  an_set_active (remove_observer cbType cb (an_activeCallbacks_ s)) s.

Definition ani_IsEmpty s : bool :=
  bool_decide (an_cancelCallbacks_ s = ∅) && bool_decide (an_suspendCallbacks_ s = ∅) && bool_decide (an_activeCallbacks_ s = ∅).
Definition ani_RemoveJsObserverObjects (cbType : string) s : AniSubscriber V :=
  if bool_decide (cbType = "continuousTaskCancel")%string then an_set_cancel ∅ s else
  if bool_decide (cbType = "continuousTaskSuspend")%string then an_set_suspend ∅ s else
  if bool_decide (cbType = "continuousTaskActive")%string then an_set_active ∅ s else s.

Definition ani_SetFlag (flag : Z) (isSubscriber : bool) s : AniSubscriber V :=
  an_set_flags (if isSubscriber then Z.lor (an_allCallBackTypes_ s) flag else Z.ldiff (an_allCallBackTypes_ s) flag) flag s.
Definition ani_GetFlag s : Z := int32 (an_allCallBackTypes_ s).

Definition ani_SubscriberBgtaskSaStatusChange (sa : SaManager) s : AniSubscriber V :=
  if an_jsSaListner_ s then s else
  if negb (sa_present sa) then s else an_set_listener (sa_SubscribeSystemAbility sa =? ERR_OK) s.
Definition ani_UnSubscriberBgtaskSaStatusChange (sa : SaManager) s : AniSubscriber V :=
  if negb (an_jsSaListner_ s) then s else if negb (sa_present sa) then s else an_set_listener false s.

(** *** What is called *)
Definition ani_HandleOnContinuousTaskStop (info : ContinuousTaskCallbackInfo) s : list (V * ContinuousTaskCancelInfo) :=
  map (fun item => (item, mkCancelInfo (ci_cancelReason_ info) (ci_continuousTaskId_ info) (Some (ci_detailedCancelReason_ info))))
    (callbacks_of "continuousTaskCancel" (an_cancelCallbacks_ s)).
Definition ani_HandleOnContinuousTaskSuspend (info : ContinuousTaskCallbackInfo) s : list (V * ContinuousTaskSuspendInfo) :=
  map (fun item =>
      (item, mkSuspendInfo (ci_continuousTaskId_ info) (ci_suspendState_ info) (ci_suspendReason_ info)
               (Some (GetSuspendReasonMessage (uint32 (ci_suspendReason_ info)), ci_suspendReason_ info))))
    (callbacks_of "continuousTaskSuspend" (an_suspendCallbacks_ s)).
Definition ani_HandleOnContinuousTaskActive (info : ContinuousTaskCallbackInfo) s : list (V * ContinuousTaskActiveInfo) :=
  map (fun item => (item, mkActiveInfo (ci_continuousTaskId_ info)))
    (callbacks_of "continuousTaskActive" (an_activeCallbacks_ s)).

(** *** The main thread (ani_task.cpp)

    Events of the service are tasks of the main handler, which run on the subscriber that is
    there then. *)
Inductive AniEvent :=
  | EvStop (info : ContinuousTaskCallbackInfo)
  | EvSuspend (info : ContinuousTaskCallbackInfo)
  | EvActive (info : ContinuousTaskCallbackInfo).
Inductive AniCall :=
  | CallCancel (callback : V) (info : ContinuousTaskCancelInfo)
  | CallSuspend (callback : V) (info : ContinuousTaskSuspendInfo)
  | CallActive (callback : V) (info : ContinuousTaskActiveInfo).
(** [runner]: whether there is a main runner. *)
Definition AniSendEvent (runner : bool) (task : AniEvent) (queue : list AniEvent) : list AniEvent :=
  if runner then queue ++ [task] else queue.
Definition ani_OnContinuousTaskStop (runner : bool) (info : option ContinuousTaskCallbackInfo) (queue : list AniEvent) : list AniEvent :=
  match info with None => queue | Some info => AniSendEvent runner (EvStop info) queue end.
Definition ani_OnSuspend (runner : bool) (info : option ContinuousTaskCallbackInfo) (queue : list AniEvent) : list AniEvent :=
  match info with None => queue | Some info => AniSendEvent runner (EvSuspend info) queue end.
Definition ani_OnActive (runner : bool) (info : option ContinuousTaskCallbackInfo) (queue : list AniEvent) : list AniEvent :=
  match info with None => queue | Some info => AniSendEvent runner (EvActive info) queue end.
Definition ani_run_task (subscriber : option (AniSubscriber V)) (task : AniEvent) : list AniCall :=
  match subscriber with
  | None => []
  | Some s =>
      match task with
      | EvStop info => map (fun '(cb, i) => CallCancel cb i) (ani_HandleOnContinuousTaskStop info s)
      | EvSuspend info => map (fun '(cb, i) => CallSuspend cb i) (ani_HandleOnContinuousTaskSuspend info s)
      | EvActive info => map (fun '(cb, i) => CallActive cb i) (ani_HandleOnContinuousTaskActive info s)
      end
  end.
End Subscriber.

(** ** The module's subscriber *)
Section Module.
Context {V : Type} `{AniApi V} `{IBackgroundTaskMgr W}.
Abbreviation CL := (CL (W := W)).
Abbreviation Global := (option (AniSubscriber V)).
Implicit Types (sub : Global) (cb : V).

Definition ani_OnAddSystemAbility (isBgtask : bool) sub : CL Global :=
  match sub with
  | Some s =>
      if isBgtask && an_needRestoreSubscribeStatus_ s then
        let s := an_set_flags (an_allCallBackTypes_ s) (an_allCallBackTypes_ s) s in
        cl_map (fun _ => Some (an_set_restore false s))
          (BackgroundTaskMgrHelper.SubscribeBackgroundTask (an_impl_ s) (an_currentCallBackType_ s))
      else cl_ret sub
  | None => cl_ret sub
  end.
Definition ani_OnRemoveSystemAbility (isBgtask : bool) sub : Global :=
  if isBgtask then (fun s => if ani_IsEmpty s then s else an_set_restore true s) <$> sub else sub.

Definition ani_SubscribeBackgroundTask (fresh : option RemoteProxy) (flag : Z) sub : CL (bool * list BusinessError * Global) :=
  let s := ani_SetFlag flag true (default (new_AniBackgroundTaskSubscriber fresh) sub) in
  cl_map (fun errCode => (errCode =? ERR_OK, report errCode, Some s))
    (BackgroundTaskMgrHelper.SubscribeBackgroundTask (an_impl_ s) (an_currentCallBackType_ s)).

(** Nothing is unsubscribed while callbacks of any type are left; then, the type at hand. *)
Definition ani_UnSubscribeBackgroundTask (flag : Z) (s : AniSubscriber V) : CL (list BusinessError * Global) :=
  if negb (ani_IsEmpty s) then cl_ret ([], Some s) else
  let s := ani_SetFlag flag false s in
  cl_map (fun errCode => if negb (errCode =? ERR_OK) then (set_business_error errCode, Some s) else ([], None))
    (BackgroundTaskMgrHelper.UnsubscribeBackgroundTask (an_impl_ s) (an_currentCallBackType_ s)).

(** [on] and [off] of a type. *)
Definition ani_on (flag : Z) (add : AniSubscriber V -> AniSubscriber V) (sa : SaManager) (fresh : option RemoteProxy) sub :
    CL (list BusinessError * Global) :=
  cl_map (fun '(ok, errors, sub) =>
      if negb ok then (errors, sub) else (errors, ani_SubscriberBgtaskSaStatusChange sa ∘ add <$> sub))
    (ani_SubscribeBackgroundTask fresh flag sub).
Definition ani_off (flag : Z) (remove : AniSubscriber V -> AniSubscriber V) sub : CL (list BusinessError * Global) :=
  match sub with
  | None => cl_ret (set_business_error ERR_BGTASK_INVALID_PARAM, sub)
  | Some s => ani_UnSubscribeBackgroundTask flag (remove s)
  end.
Definition OnContinuousTaskCancel cb :=
  ani_on CONTINUOUS_TASK_CANCEL (AddCancelObserverObject "continuousTaskCancel" cb).
Definition OffContinuousTaskCancel (callback : option V) :=
  ani_off CONTINUOUS_TASK_CANCEL
    match callback with
    | None => ani_RemoveJsObserverObjects "continuousTaskCancel"
    | Some cb => RemoveCancelObserverObject "continuousTaskCancel" cb
    end.
Definition ani_OnContinuousTaskSuspend cb :=
  ani_on CONTINUOUS_TASK_SUSPEND (AddSuspendObserverObject "continuousTaskSuspend" cb).
Definition OffContinuousTaskSuspend (callback : option V) :=
  ani_off CONTINUOUS_TASK_SUSPEND
    match callback with
    | None => ani_RemoveJsObserverObjects "continuousTaskSuspend"
    | Some cb => RemoveSuspendObserverObject "continuousTaskSuspend" cb
    end.
Definition ani_OnContinuousTaskActive cb :=
  ani_on CONTINUOUS_TASK_ACTIVE (AddActiveObserverObject "continuousTaskActive" cb).
Definition OffContinuousTaskActive (callback : option V) :=
  ani_off CONTINUOUS_TASK_ACTIVE
    match callback with
    | None => ani_RemoveJsObserverObjects "continuousTaskActive"
    | Some cb => RemoveActiveObserverObject "continuousTaskActive" cb
    end.
End Module.

(** * The two script bindings compared

    What an ArkTS request object is checked for, and that a start by one asks the library for
    what the Node-API binding asks for. *)

Import BackgroundTaskMode BackgroundTaskSubmode.

(** ** Modes *)

(** The loops of the two bindings go by the same test. *)
Lemma check_pairs_none l : check_pairs l = None <-> Forall (fun p => p ∈ allowed_pairs) l.
Proof.
  induction l as [|[mode subMode] l IH]; [done|]. rewrite Forall_cons, <- IH, <- check_submode_spec.
  cbn [check_pairs]. unfold check_submode. repeat case_test; bool_prop; try done.
  all: split; [|by intros []]; try done; try by intros.
Qed.

Definition alone (mode : Z) (modes : list Z) : Prop := mode ∈ modes -> modes = [mode].

Lemma check_special_none modes : check_special modes = None <-> alone MODE_SPECIAL_SCENARIO_PROCESSING modes.
Proof.
  unfold check_special, special_modes. split.
  - case_test; [done|]. rename Hc into H1. case_test; [done|]. intros _ Hin. by apply special_alone.
  - intros Ha. destruct (decide (MODE_SPECIAL_SCENARIO_PROCESSING ∈ modes)) as [Hin|Hn].
    + by rewrite (Ha Hin).
    + rewrite list_elem_of_In in Hn. by rewrite (proj1 (count_occ_not_In Z.eq_dec _ _) Hn).
Qed.

(** What the object checks. *)
Definition modes_allowed (r : ContinuousTaskRequestImpl) : Prop :=
  ri_backgroundTaskModes_ r <> [] /\ length (ri_backgroundTaskModes_ r) = length (ri_backgroundTaskSubmodes_ r) /\
  Forall (fun p => p ∈ allowed_pairs) (combine (ri_backgroundTaskModes_ r) (ri_backgroundTaskSubmodes_ r)) /\
  alone MODE_SPECIAL_SCENARIO_PROCESSING (ri_backgroundTaskModes_ r).

Lemma CheckModesInner_none r : CheckModesInner r = None <-> modes_allowed r.
Proof.
  unfold CheckModesInner, modes_allowed. rewrite <- check_pairs_none, <- check_special_none.
  destruct (decide (ri_backgroundTaskModes_ r = [])) as [E|Hn]; [rewrite bool_decide_true by done; cbn; split; [done|by intros []]|].
  rewrite (bool_decide_false _ Hn). cbn [orb].
  destruct (decide (ri_backgroundTaskSubmodes_ r = [])) as [E|Hs].
  { rewrite bool_decide_true by done. split; [done|]. intros (_ & Hl & _). rewrite E in Hl. by destruct (ri_backgroundTaskModes_ r). }
  rewrite (bool_decide_false _ Hs).
  destruct (Nat.eqb_spec (length (ri_backgroundTaskModes_ r)) (length (ri_backgroundTaskSubmodes_ r))) as [El|El]; cbn [negb].
  - destruct (check_special _); [|tauto]. split; [done|]. intros (_ & _ & _ & [=]).
  - split; [done|]. by intros (_ & Hl & _).
Qed.

(** ** The same request in the two bindings *)
Definition as_napi (r : ContinuousTaskRequestImpl) (progressInfo : option ProgressInfo) : ContinuousTaskRequest :=
  mkTaskRequest (ri_backgroundTaskModes_ r) (ri_backgroundTaskSubmodes_ r) (ri_wantAgent_ r) (ri_combinedTaskNotification_ r)
    (ri_continuousTaskId_ r) false progressInfo.

(** [combined_apart]: what the object does not check. *)
Definition combined_apart (r : ContinuousTaskRequestImpl) : Prop :=
  ri_combinedTaskNotification_ r = true ->
  (MODE_SPECIAL_SCENARIO_PROCESSING ∉ ri_backgroundTaskModes_ r) /\ (MODE_DATA_TRANSFER ∉ ri_backgroundTaskModes_ r).

Lemma allowed_split r progressInfo : request_allowed (as_napi r progressInfo) <-> modes_allowed r /\ combined_apart r.
Proof. unfold request_allowed, modes_allowed, combined_apart, alone. cbn. tauto. Qed.

Section Start.
Context `{NodeApi U} `{AniApi V} `{IBackgroundTaskMgr W}.

Lemma converted_modes r progressInfo : modes_allowed r ->
  EtsBinding.TaskModeTypeConversion r =
  ((fun mode => (mode, cr_backgroundTaskModes_ (converted (as_napi r progressInfo)))) <$>
    head (cr_backgroundTaskModes_ (converted (as_napi r progressInfo)))).
Proof.
  intros (_ & El & _). unfold EtsBinding.TaskModeTypeConversion.
  pose proof (convert_modes_run _ _ [] El) as Hc. cbn [app length] in Hc. rewrite Hc. cbn.
  by destruct (map v9_mode _).
Qed.

(** C9. Two languages, one request.  An ArkTS request object passes its checks exactly where
    its modes and submodes go together and the special scenario is asked for by itself: that
    is what a Node-API object is let through for but for the two rules on a combined
    notification.  Where both let it through, in the same context, the two starts ask the
    library for the same task and so leave it, and the service, in the same state, and what
    the library answers is what each goes on with. *)
Theorem bindings_start_alike (context : V) r progressInfo i c info n st (w : W) :
  CheckParam context = inl (c, info) -> ac_GetAbilityInfo c = Some info ->
  request_progress r = inl progressInfo ->
  as_errCode i = ERR_OK -> as_abilityContext i = Some c -> as_request i = as_napi r progressInfo ->
  (CheckModesInner r = None <-> modes_allowed r) /\
  ((StartBackgroundRunningCheckModes i).1.1 = true <-> CheckModesInner r = None /\ combined_apart r) /\
  ((StartBackgroundRunningCheckModes i).1.1 = true ->
   exists answer st' w',
     StartBackgroundRunningSync3 context r n st w = (notification answer, st', w') /\
     StartBackgroundRunningByRequestExecuteCB i n st w =
       (Some (with_request_ids i (converted (as_request i)) answer), st', w')).
Proof.
  intros Hctx Hinfo Hp He Hc Hr.
  assert ((StartBackgroundRunningCheckModes i).1.1 = true <-> request_allowed (as_request i)) as Hn.
  { split; [|intros Ha; by rewrite CheckModes_accepts].
    pose proof (StartBackgroundRunningCheckModes_nwp true i) as Hw. unfold nwp in Hw.
    destruct (StartBackgroundRunningCheckModes i) as [[[] i'] t]; [|done]. intros _. apply Hw. }
  split; [apply CheckModesInner_none|]. split.
  { by rewrite Hn, Hr, allowed_split, CheckModesInner_none. }
  rewrite Hn. intros Ha. pose proof (TaskModeTypeConversion_run _ Ha) as Hconv. destruct (converted_head _ Ha) as [mode Hm].
  rewrite Hr, allowed_split in Ha. destruct Ha as [Ha _].
  unfold StartBackgroundRunningSync3, with_request_param, CheckRequestParams, CheckModeAndSubMode.
  rewrite Hctx, (proj2 (CheckModesInner_none r) Ha), (converted_modes _ progressInfo Ha), Hp, <- Hr, Hm. cbn [fmap option_fmap option_map].
  unfold StartBackgroundRunningByRequestExecuteCB, unless_refused, with_request, with_ability.
  rewrite He, Hconv. cbn [mbind option_bind negb Z.eqb ERR_OK]. rewrite Hm. cbn [mbind option_bind]. rewrite Hc, Hinfo. unfold cl_map.
  assert (ets_request_param r mode (cr_backgroundTaskModes_ (converted (as_request i))) progressInfo info.1
            (ac_GetAbilityRecordId c) (ri_continuousTaskId_ r) (-1) info.2 =
          request_param (converted (as_request i)) mode info.1 (ac_GetAbilityRecordId c)
            (cr_continuousTaskId_ (converted (as_request i))) (-1) info.2) as Hparam.
  { by rewrite Hr. }
  cbn [fst snd]. rewrite Hparam.
  destruct (BackgroundTaskMgrHelper.RequestStartBackgroundRunning _ n st w) as [[answer st'] w']. by exists answer, st', w'.
Qed.
End Start.

(** ** The ArkTS callback of a request

    [callbackInstances_] is a member of the object, and nothing adds to it: the function a
    script gave is never called. *)
Lemma callback_never_called {V} object (callback authCallback : V) :
  let made := SetCallbackInfo callback (new_Callback object) in
  Callback_OnExpired made = ([], made) /\ Callback_OnExpired (SetAuthCallbackInfo authCallback made) = ([], SetAuthCallbackInfo authCallback made).
Proof. done. Qed.
