(* ===== verification/NativeApi.v ===== *)
(** * The C and Cangjie interfaces

    interfaces/kits/c/src/transient_task_api.cpp and
    interfaces/kits/cj/background_task_mgr/background_task_mgr_ffi.cpp.  Pointers that may be
    null are options; a function has no outcome where it goes by a null pointer or writes
    past an array. *)

From S2P Require Import Prelude.
From S2P Require Import Errors.
From S2P Require Import Interfaces.
From S2P Require Import ResourceTypes.
From S2P Require Import Parcelables.
From S2P Require Import BackgroundTaskManager.
From S2P Require Import NapiCommon.
From S2P Require Import NapiContinuousTask.
From S2P Require Import NapiTransientTask.
From S2P Require Import KeyInfo.
From S2P Require Import PkgDelaySuspendInfo.
From S2P Require Import DeviceInfo.
From S2P Require Import DecisionMaker.
From S2P Require Import DecisionMakerSpec.
From S2P Require Import TransientTaskMgr.
From S2P Require Import TransientTaskMgrSpec.
From S2P Require Import TransientTaskMgrProps.
From S2P Require Import EfficiencyResources.
From S2P Require Import Json.
From S2P Require Import BgtaskConfig.
From S2P Require Import ContinuousTaskRecord.
From S2P Require Import ContinuousTypes.
From S2P Require Import ContinuousTaskMgr.
From S2P Require Import BackgroundTaskMgrService.
From S2P Require Import BackgroundTaskMgrSystem.
From S2P Require Import BackgroundTaskMgrRun.
From S2P Require Import ClientProps.
Local Open Scope Z_scope.

(** ** transient_task_type.h *)
Definition TRANSIENT_TASK_MAX_NUM : Z := 3.
Definition ERR_TRANSIENT_TASK_OK : Z := 0.
Definition ERR_TRANSIENT_TASK_INVALID_PARAM : Z := 401.
Definition TransientTask_ErrorCode : list Z :=
  [ERR_TRANSIENT_TASK_OK; ERR_TRANSIENT_TASK_INVALID_PARAM; 9800002; 9800003; 9800004; 9900001; 9900002; 9900003; 9900004].
Definition INNER_ERROR_SHIFT : Z := 100.

(** The structure a caller passes to be filled in. *)
Record TransientTask_TransientTaskInfo := mkTransientInfo {
  oi_remainingQuota : Z;
  oi_transientTasks : list (Z * Z);
}.

Section Native.
Context {F : Type} `{IBackgroundTaskMgr W}.
Abbreviation CL := (CL (W := W)).
(** The callbacks of the library, by request id. *)
Abbreviation Instances := (list (Z * CallbackInstance F)).
Implicit Types m : Instances.

(** ** transient_task_api.cpp *)

(** The result, what is written to [info], and the callbacks kept. *)
Definition OH_BackgroundTaskManager_RequestSuspendDelay (reason : option string) (callback : option F) (info : bool)
    (object : Z) (impl : option RemoteProxy) m : CL (option (Z * option (Z * Z) * Instances)) :=
  match reason, callback, info with
  | Some _, Some callback, true =>
      cl_map (fun '(errCode, delaySuspendInfo) =>
          if negb (errCode =? 0) then Some (Z.quot errCode INNER_ERROR_SHIFT, None, m) else
          match delaySuspendInfo with
          | None => None
          | Some i =>
              Some (ERR_TRANSIENT_TASK_OK, Some (di_requestId_ i, di_actualDelayTime_ i),
                    set_instance (di_requestId_ i) (mkInstance object callback) m)
          end)
        (cl_RequestSuspendDelay impl None)
  | _, _, _ => cl_ret (Some (ERR_TRANSIENT_TASK_INVALID_PARAM, None, m))
  end.

(** [delayTime]: what it points to. *)
Definition OH_BackgroundTaskManager_GetRemainingDelayTime (requestId : Z) (delayTime : option Z) : CL (Z * option Z) :=
  match delayTime with
  | None => cl_ret (ERR_TRANSIENT_TASK_INVALID_PARAM, None)
  | Some delayTime =>
      cl_map (fun '(errCode, delayTime) => (Z.quot errCode INNER_ERROR_SHIFT, Some delayTime)) (cl_GetRemainingDelayTime requestId delayTime)
  end.

Definition OH_BackgroundTaskManager_CancelSuspendDelay (requestId : Z) m : CL (Z * Instances) :=
  cl_map (fun errCode => (Z.quot errCode INNER_ERROR_SHIFT, erase_request requestId m)) (cl_CancelSuspendDelay requestId).

(** [info->transientTasks[index] = ...] for the records from [index] on. *)
Fixpoint write_transient_tasks (listValue : list DelaySuspendInfo) (index : nat) (transientTasks : list (Z * Z)) : option (list (Z * Z)) :=
  match listValue with
  | [] => Some transientTasks
  | record :: listValue =>
      if (index <? length transientTasks)%nat
      then write_transient_tasks listValue (S index) (<[index := (di_requestId_ record, di_actualDelayTime_ record)]> transientTasks)
      else None
  end.
Definition OH_BackgroundTaskManager_GetTransientTaskInfo (info : option TransientTask_TransientTaskInfo) :
    CL (option (Z * option TransientTask_TransientTaskInfo)) :=
  match info with
  | None => cl_ret (Some (ERR_TRANSIENT_TASK_INVALID_PARAM, None))
  | Some info =>
      cl_map (fun '(errCode, (remainingQuotaValue, listValue)) =>
          if negb (errCode =? 0) then Some (Z.quot errCode INNER_ERROR_SHIFT, Some info) else
          transientTasks ← write_transient_tasks listValue 0 (oi_transientTasks info);
          Some (ERR_TRANSIENT_TASK_OK, Some (mkTransientInfo remainingQuotaValue transientTasks)))
        (cl_GetAllTransientTasks 0 [])
  end.

(** The callback is forgotten, then called. *)
Definition Native_OnExpired (object : Z) m : list F * Instances :=
  match find_object object m with
  | None => ([], m)
  | Some callback => ([in_ref callback], erase_object object m)
  end.

(** ** background_task_mgr_ffi.cpp

    [ret] is not checked; neither is [reason]. *)
Definition CJ_RequestSuspendDelay (callback : F) (reason : option string) (object : Z) (impl : option RemoteProxy) m :
    CL (option (Z * option (Z * Z) * Instances)) :=
  match reason with
  | None => cl_ret None
  | Some _ =>
      cl_map (fun '(errCode, delaySuspendInfo) =>
          if negb (errCode =? ERR_OK) then Some (errCode, None, m) else
          match delaySuspendInfo with
          | None => None
          | Some i =>
              Some (errCode, Some (di_requestId_ i, di_actualDelayTime_ i),
                    set_instance (di_requestId_ i) (mkInstance object callback) m)
          end)
        (cl_RequestSuspendDelay impl None)
  end.
Definition CJ_GetRemainingDelayTime (requestId delayTime : Z) : CL (Z * Z) := cl_GetRemainingDelayTime requestId delayTime.
Definition CJ_CancelSuspendDelay (requestId : Z) m : CL (Z * Instances) :=
  cl_map (fun errCode => (errCode, erase_request requestId m)) (cl_CancelSuspendDelay requestId).
(** The callback is called, then forgotten. *)
Definition CallbackFFI_OnExpired (object : Z) m : list F * Instances :=
  match find_object object m with
  | None => ([], m)
  | Some callback => ([in_ref callback], erase_object object m)
  end.
Definition CJ_StopBackgroundRunning (context : option AbilityContext) : CL (option Z) :=
  match context with
  | None => cl_ret None
  | Some context =>
      match ac_GetAbilityInfo context with
      | None => cl_ret None
      | Some info => cl_map Some (BackgroundTaskMgrHelper.RequestStopBackgroundRunning info.1 (-1) (-1))
      end
  end.
Definition CJ_ApplyEfficiencyResources (resourceTypes : Z) (isApply : bool) (timeOut : Z) (reason : string) (isPersist isProcess : bool) : CL Z :=
  cl_ApplyEfficiencyResources (new_EfficiencyResourceInfo resourceTypes isApply timeOut reason isPersist isProcess).
End Native.

(** * The C interface: the array of a caller

    OH_BackgroundTaskManager_GetTransientTaskInfo writes as many records as the service
    answers with into an array of [TRANSIENT_TASK_MAX_NUM], and does not count them: that they
    fit is an invariant of the manager of transient tasks, kept in the service. *)

(** ** Writing to the array *)
Definition native_info (i : DelaySuspendInfo) : Z * Z := (di_requestId_ i, di_actualDelayTime_ i).

Lemma write_fits l a b rest :
  length l = length b ->
  write_transient_tasks l (length a) (a ++ b ++ rest) = Some (a ++ (native_info <$> l) ++ rest).
Proof.
  revert a b. induction l as [|i l IH]; intros a [|x b] Hl; try discriminate Hl; [done|].
  cbn [write_transient_tasks]. rewrite length_app. cbn [length app].
  assert ((length a <? length a + S (length (b ++ rest)))%nat = true) as -> by (apply Nat.ltb_lt; lia).
  rewrite insert_app_r_alt by lia. rewrite Nat.sub_diag.
  change (di_requestId_ i, di_actualDelayTime_ i) with (native_info i).
  specialize (IH (a ++ [native_info i]) b). rewrite length_app, Nat.add_1_r, <- !app_assoc in IH.
  cbn in IH |- *. apply IH. by injection Hl.
Qed.
Lemma write_all l a :
  (length l <= length a)%nat -> write_transient_tasks l 0 a = Some ((native_info <$> l) ++ drop (length l) a).
Proof.
  intros Hl. rewrite <- (take_drop (length l) a) at 1.
  apply (write_fits l [] (take (length l) a)). rewrite length_take. lia.
Qed.
(** A list longer than the array overruns it. *)
Lemma write_overruns l index a :
  (index <= length a < index + length l)%nat -> write_transient_tasks l index a = None.
Proof.
  revert index a. induction l as [|i l IH]; intros index a Hl; cbn [length] in Hl; [lia|].
  cbn [write_transient_tasks]. destruct (Nat.ltb_spec index (length a)); [|done].
  apply IH. rewrite length_insert. lia.
Qed.

(** ** The tasks of a caller *)
Section Tasks.
Context {sp : SystemParams} {cfg : TransientConfig} {ok : TransientParamsOk sp cfg}.
Context {actions : CommonEventActions} {sa : SystemAbilityIds} `{EventHandler Q}.
Implicit Types t : TransientTaskMgr Q.
(** The configuration at the call. *)
Variable quotas : TransientConfig.
Abbreviation GetAllTransientTasks := (GetAllTransientTasks (cfg := quotas)).

(** The ids the manager answers with. *)
Lemma answered_ids ctx t name :
  ctx_GetNameForUid ctx (ctx_uid ctx) = Some name ->
  let r := GetAllTransientTasks ctx t in
  r.1.1.1 = ERR_OK ->
  r.1.2.*1 = (filter (fun e => KeyInfo_GetPkg e.2 = name /\ KeyInfo_GetUid e.2 = ctx_uid ctx) (sorted_entries (tm_keyInfoMap_ t))).*1.
Proof.
  intros Hn r. unfold r, GetAllTransientTasks. case_test; [done|]. case_test; [done|]. rewrite Hn.
  destruct (dm_GetQuota _ _ _) as [quota d]. intros _. cbn. rewrite <- list_fmap_compose. done.
Qed.

(** No more than an application may have. *)
Lemma answered_few now F ctx t :
  tm_inv now F t -> (length (GetAllTransientTasks ctx t).1.2 <= Z.to_nat MAX_REQUEST_ID)%nat.
Proof.
  intros Ht. destruct (decide ((GetAllTransientTasks ctx t).1.1.1 = ERR_OK)) as [E|E].
  - destruct (ctx_GetNameForUid ctx (ctx_uid ctx)) as [name|] eqn:Hn.
    2:{ revert E. unfold GetAllTransientTasks. do 2 (case_test; [done|]). by rewrite Hn. }
    rewrite <- (length_fmap fst), (answered_ids _ _ _ Hn E).
    set (P := fun e => _). set (l := (filter P _).*1).
    assert (NoDup l) as Hd.
    { unfold l. eapply sublist_NoDup; [|apply fmap_sublist, sublist_filter]. rewrite sorted_entries_perm. apply NoDup_fst_map_to_list. }
    rewrite <- (size_list_to_set (C := gset Z) l Hd).
    destruct (pkg_at_inv now (tm_decisionMaker_ t) (name, ctx_uid ctx) (ti_dm _ _ _ Ht)) as [Hp _].
    pose proof (pkg_len _ _ Hp) as Hl.
    transitivity (size (ids_of (pi_requestList_ (pkg_at (tm_decisionMaker_ t) (name, ctx_uid ctx))))).
    + apply subseteq_size. intros id. rewrite elem_of_list_to_set. unfold l.
      rewrite list_elem_of_fmap. intros ([i k] & -> & He). apply list_elem_of_filter in He as [[Hk1 Hk2] He].
      apply elem_of_sorted_entries in He. rewrite <- live_pkg_at, (live_keys _ _ _ _ _ Ht). exists k.
      split; [done|]. unfold key_of. cbn in Hk1, Hk2. unfold KeyInfo_GetPkg, KeyInfo_GetUid in *. by rewrite Hk1, Hk2.
    + unfold ids_of. unfold pi_GetRequestSize in Hl.
      rewrite size_list_to_set by apply Hp. rewrite length_fmap. lia.
  - revert E. unfold GetAllTransientTasks. do 2 (case_test; [cbn; lia|]). destruct (ctx_GetNameForUid _ _); [|cbn; lia].
    by destruct (dm_GetQuota _ _ _).
Qed.
Lemma tasks_answered ctx t :
  let r := GetAllTransientTasks ctx t in
  r.1.1.1 = ERR_OK ->
  exists name, ctx_GetNameForUid ctx (ctx_uid ctx) = Some name /\
    r.1.1.2 = Some (dm_GetQuota (cfg := quotas) (ctx_now ctx) (Some (mkKeyInfo name (ctx_uid ctx) (ctx_pid ctx))) (tm_decisionMaker_ t)).1 /\
    forall id, id ∈ r.1.2.*1 <-> exists k, tm_keyInfoMap_ t !! id = Some k /\ key_of k = (name, ctx_uid ctx).
Proof.
  intros r E. destruct (ctx_GetNameForUid ctx (ctx_uid ctx)) as [name|] eqn:Hn.
  - exists name. split; [done|]. pose proof (answered_ids ctx t name Hn E) as Hids. fold r in Hids. rewrite Hids.
    split.
    + revert E. unfold r, GetAllTransientTasks. do 2 (case_test; [done|]). rewrite Hn.
      by destruct (dm_GetQuota _ _ _) as [quota d].
    + intros id. rewrite list_elem_of_fmap. split.
      * intros ([i k] & -> & He). apply list_elem_of_filter in He as [[<- <-] He].
        apply elem_of_sorted_entries in He. by exists k.
      * intros (k & Hk & Ek). exists (id, k). split; [done|]. apply list_elem_of_filter. split; [|by apply elem_of_sorted_entries].
        unfold key_of in Ek. by simplify_eq.
  - exfalso. revert E. unfold r, GetAllTransientTasks. do 2 (case_test; [done|]). by rewrite Hn.
Qed.

End Tasks.

(** ** The whole call *)
Section Info.
Context {sp : SystemParams} {cfg : TransientConfig} {ok : TransientParamsOk sp cfg}.
Context {actions : CommonEventActions} {sa : SystemAbilityIds} {store : RecordStore}
  {abilities : EffAbilityIds} `{ContinuousPlatform} `{Json J} `{EventHandler Q}.
Variable CheckSignature : string -> bool.
Context `{IBackgroundTaskMgr W} `{!ServiceBehind (J := J) (Q := Q) CheckSignature W}.
Implicit Types w : W.

(** What the call leaves in the caller's structure, with the code it returns. *)
Definition info_written w (info : TransientTask_TransientTaskInfo) (code : Z) (info' : TransientTask_TransientTaskInfo) : Prop :=
  let ctx := transient_ctx (at_service CheckSignature w).1 in
  let t := sv_transient (at_service CheckSignature w).2 in
  let quotas := config_transient CheckSignature (sv_config (at_service CheckSignature w).2) in
  (exists err, err <> ERR_OK /\ code = Z.quot err INNER_ERROR_SHIFT /\ info' = info) \/
  (exists name told,
     code = ERR_TRANSIENT_TASK_OK /\ ctx_GetNameForUid ctx (ctx_uid ctx) = Some name /\
     oi_remainingQuota info' = (dm_GetQuota (cfg := quotas) (ctx_now ctx) (Some (mkKeyInfo name (ctx_uid ctx) (ctx_pid ctx))) (tm_decisionMaker_ t)).1 /\
     oi_transientTasks info' = told ++ drop (length told) (oi_transientTasks info) /\
     forall id, id ∈ told.*1 <-> exists k, tm_keyInfoMap_ t !! id = Some k /\ key_of k = (name, ctx_uid ctx)).

(** C23. A C application that asks for its transient tasks with the structure of the interface
    never has its memory written past the array of three, though the loop that writes it does
    not look at the length: with the service behind the library, in any state its manager of
    transient tasks can reach, the call returns; on an error the structure is as it was, and
    otherwise it holds the quota left, and first in the array the ids of exactly the requests
    of this application, the rest of the array untouched. *)
Theorem transient_info_fits now S info n st w :
  tm_reachable now S -> sys_tm S = sv_transient (at_service CheckSignature w).2 ->
  length (oi_transientTasks info) = Z.to_nat TRANSIENT_TASK_MAX_NUM ->
  exists code info' st' w',
    OH_BackgroundTaskManager_GetTransientTaskInfo (Some info) n st w = (Some (code, Some info'), st', w') /\
    length (oi_transientTasks info') = Z.to_nat TRANSIENT_TASK_MAX_NUM /\ info_written w info code info'.
Proof.
  intros Hr Hs Hl. destruct (tm_reachable_inv _ _ Hr) as [_ Ht]. red in Ht. rewrite Hs in Ht.
  unfold OH_BackgroundTaskManager_GetTransientTaskInfo, cl_map, cl_GetAllTransientTasks, with_proxy.
  destruct (GetBackgroundTaskManagerProxy n st) as [[] st'].
  2:{ cbn. do 4 eexists. split; [done|]. split; [done|]. left. by exists ERR_BGTASK_TRANSIENT_SERVICE_NOT_CONNECTED. }
  unfold call. set (ctx := transient_ctx (at_service CheckSignature w).1). set (t := sv_transient (at_service CheckSignature w).2) in *.
  set (quotas := config_transient CheckSignature (sv_config (at_service CheckSignature w).2)).
  pose (r := GetAllTransientTasks (cfg := quotas) ctx t).
  assert (answer CheckSignature RqGetAllTransientTasks (at_service CheckSignature w).1 (at_service CheckSignature w).2 =
    Some ((r.1.1.1, (default 0 r.1.1.2, (fun d => mkDelayInfo d.1 d.2) <$> r.1.2)),
          sv_set_transient r.2 (at_service CheckSignature w).2)) as Ha.
  { cbn [answer]. unfold sv_GetAllTransientTasks. by checks. }
  destruct (transact_answers CheckSignature RqGetAllTransientTasks w _ _ _ Ha) as (Hx & Ho & Hw).
  destruct (transact RqGetAllTransientTasks w) as [[x o] w'] eqn:Et. cbn in Hx, Ho. subst x.
  destruct (Z.eqb_spec r.1.1.1 0) as [E|E].
  2:{ destruct o as [[??]|]; cbn;
      do 4 eexists; (split; [done|]; split; [done|]); left; by exists r.1.1.1. }
  rewrite (Ho E). cbn.
  pose proof (answered_few quotas _ _ ctx t Ht) as Hfew. fold r in Hfew.
  rewrite write_all by (rewrite length_fmap, Hl; exact Hfew). cbn.
  destruct (tasks_answered quotas ctx t E) as (name & Hn & Hq & Hids). fold r in Hq, Hids. rewrite Hq. cbn.
  do 4 eexists. split; [done|]. cbn. rewrite <- list_fmap_compose, !length_fmap.
  split; [rewrite length_app, length_fmap, length_drop; unfold TRANSIENT_TASK_MAX_NUM, MAX_REQUEST_ID in *; lia|].
  right. exists name, ((native_info ∘ (fun d => mkDelayInfo d.1 d.2)) <$> r.1.2). cbn.
  rewrite length_fmap. repeat (split; [done|]). intros id. rewrite <- list_fmap_compose. exact (Hids id).
Qed.
End Info.
