(* ===== verification/BindingsWitness.v ===== *)
(** * Scripts on concrete inputs

    A small script engine: values as data, objects and functions with an identity.  The
    theorems about the bindings are applied to it. *)

From Stdlib Require Import String.
From S2P Require Import Prelude.
From S2P Require Import Errors.
From S2P Require Import Interfaces.
From S2P Require Import Parcelables.
From S2P Require Import TransientTaskMgr.
From S2P Require Import TransientTaskMgrWitness.
From S2P Require Import EfficiencyResourcesWitness.
From S2P Require Import BackgroundModes.
From S2P Require Import ContinuousTaskRecord.
From S2P Require Import ContinuousTypes.
From S2P Require Import ContinuousTaskMgrSpec.
From S2P Require Import ContinuousSystem.
From S2P Require Import ContinuousWitness.
From S2P Require Import ContinuousStartProps.
From S2P Require Import EfficiencyResources.
From S2P Require Import Json.
From S2P Require Import BgtaskConfig.
From S2P Require Import BackgroundTaskMgrService.
From S2P Require Import BackgroundTaskMgrSystem.
From S2P Require Import ServiceWitness.
From S2P Require Import BackgroundTaskManager.
From S2P Require Import ClientProps.
From S2P Require Import NapiCommon.
From S2P Require Import NapiContinuousTask.
From S2P Require Import NapiProps.
From S2P Require Import JsBackgroundTaskSubscriber.
From S2P Require Import NapiTransientTask.
From S2P Require Import NapiAuth.
From S2P Require Import NapiExports.
Import Common BackgroundMode.
Local Open Scope Z_scope.

#[local] Existing Instance default_params.
#[local] Existing Instance ListQueue.list_queue.
#[local] Existing Instance demo_actions.
#[local] Existing Instance demo_abilities.
#[local] Existing Instance ability_ids.
#[local] Existing Instance phone.
#[local] Existing Instance ContinuousWitness.tree.
#[local] Existing Instance no_records.
#[local] Existing Instance direct.
#[local] Existing Instance directly.

(** ** The engine *)
Inductive Script :=
| SUndefined
| SNull
| SBool (b : bool)
| SNumber (n : Z)
| SString (s : string)
| SArray (l : list Script)
| SObject (id : Z) (l : list (string * Script))
| SFunction (id : Z)
| SAgent (agent : WantAgent)
| SContext (c : AbilityContext).

Definition script_typeof (v : Script) : napi_valuetype :=
  match v with
  | SUndefined => napi_undefined
  | SNull => napi_null
  | SBool _ => napi_boolean
  | SNumber _ => napi_number
  | SString _ => napi_string
  | SFunction _ => napi_function
  | _ => napi_object
  end.

Fixpoint script_property (l : list (string * Script)) (name : string) : option Script :=
  match l with
  | [] => None
  | (x, v) :: l => if String.eqb x name then Some v else script_property l name
  end.

Definition script_equal (a b : Script) : bool :=
  match a, b with
  | SUndefined, SUndefined | SNull, SNull => true
  | SBool x, SBool y => Bool.eqb x y
  | SNumber x, SNumber y | SFunction x, SFunction y => x =? y
  | SObject x _, SObject y _ => x =? y
  | SString x, SString y => String.eqb x y
  | _, _ => false
  end.

#[local] Instance engine : NodeApi Script := {|
  napi_get_undefined := SUndefined;
  napi_typeof v := Some (script_typeof v);
  napi_get_value_int32 v := match v with SNumber n => Some (int32 n) | _ => None end;
  napi_get_value_uint32 v := match v with SNumber n => Some (uint32 n) | _ => None end;
  napi_get_value_bool v := match v with SBool b => Some b | _ => None end;
  napi_get_value_string_utf8 v n := match v with SString s => Some (String.substring 0 (Z.to_nat (n - 1)) s) | _ => None end;
  napi_is_array v := Some match v with SArray _ => true | _ => false end;
  napi_get_array_length v := match v with SArray l => Some (Z.of_nat (length l)) | _ => None end;
  napi_get_element v i := match v with SArray l => Some (nth (Z.to_nat i) l SUndefined) | _ => None end;
  napi_has_named_property v name := match v with SObject _ l => Some (bool_decide (is_Some (script_property l name))) | _ => None end;
  napi_get_named_property v name := match v with SObject _ l => Some (default SUndefined (script_property l name)) | _ => None end;
  napi_strict_equals := script_equal;
  napi_unwrap v := match v with SAgent agent => Some agent | _ => None end;
  ConvertFromJsValue v := match v with SString s => Some s | _ => None end;
  IsStageContext v := match v with SContext _ => Some true | SObject _ _ => Some false | _ => None end;
  GetStageModeContext v := match v with SContext c => Some c | _ => None end;
  GetCurrentAbility := None;
|}.

#[local] Instance engine_equality : StrictEquality Script.
Proof.
  split.
  - intros [] []; cbn; try done; intros E; rewrite ?Z.eqb_eq, ?String.eqb_eq, ?Bool.eqb_true_iff in *; done.
  - intros [] [] []; cbn; try done; intros E1 E2; rewrite ?Z.eqb_eq, ?String.eqb_eq, ?Bool.eqb_true_iff in *; congruence.
  - intros []; cbn; try done. intros _. apply Z.eqb_refl.
Qed.

(** ** A start *)
Definition page : AbilityContext := mkContext (Some ("main"%string, 0)) true 7 true.
Definition walking : Script :=
  SObject 1 [("backgroundTaskModes", SArray [SNumber 4]); ("backgroundTaskSubmodes", SArray [SNumber 2]);
             ("wantAgent", SAgent (mkWantAgent (Some (Some (mkWant "com.demo" "main" None)))))]%string.

Definition started : NapiCall := StartBackgroundRunning [SContext page; walking] true.

(** The application of the script is in the foreground. *)
Definition foreground : Behind :=
  (an_app, mkService false 0 new_TransientTaskMgr new_EffMgr (cm_set_appOnForeground_ {[20000]} ContinuousWitness.ready) new_BgtaskConfig 0 0).

(** The script's promise is settled with the ids of the new task. *)
Example start_settles :
  match nc_work started with
  | Some work => (run_work work all_up new_client foreground).1.1
  | None => None
  end = Some (Resolve (Some (JsObject
          [("slotType", JsInt32 4); ("contentType", JsInt32 8); ("notificationId", JsInt32 0);
           ("continuousTaskId", JsInt32 1)]%string))).
Proof. vm_compute. reflexivity. Qed.

Definition the_work : ExecuteCB * CompleteCB * AsyncCallbackInfo :=
  default (XObtainAllContinuousTasks, CPromise, new_AsyncCallbackInfo) (nc_work started).

Lemma script_start_outcome_witness :
  let request := script_request [SContext page; walking] in
  exists i settled st' w', the_work = (XStartBackgroundRunningByRequest, CPromise, i) /\
    run_work the_work all_up new_client foreground = (Some settled, st', w') /\
    (((exists error, settled = Reject error) /\
      dom (tasks (sv_continuous (at_service signed w').2)) ⊆ dom (tasks (sv_continuous foreground.2))) \/
     (exists mode context info r, GetAbilityContext (SContext page) = Some context /\ ac_GetAbilityInfo context = Some info /\
       start_succeeds (start_request request mode context info) r (cont_env signed (sv_config foreground.2) an_app)
         (sv_continuous foreground.2) (sv_continuous (at_service signed w').2) /\
       ct_abilityName_ r = info.1 /\ ct_abilityId_ r = ac_GetAbilityRecordId context /\ ct_isByRequestObject_ r = true /\
       ct_bgModeIds_ r = map v9_mode (combine (cr_backgroundTaskModes_ request) (cr_backgroundTaskSubmodes_ request)) /\
       ct_bgSubModeIds_ r = cr_backgroundTaskSubmodes_ request /\ ct_wantAgent_ r = cr_wantAgent_ request /\
       ct_progressInfo_ r = cr_progressInfo_ request /\
       ct_isCombinedTaskNotification_ r = cr_combinedTaskNotification_ request /\
       ct_combinedNotificationTaskId_ r = cr_continuousTaskId_ request /\
       settled =
         (if ce_SaveTaskRecord (se_cont an_app) =? ERR_OK then
            Resolve (Some (JsObject
              [("slotType", JsInt32 SLOT_TYPE); ("contentType", JsInt32 SYSTEM_LIVE_CONTENT_TYPE);
               ("notificationId", JsInt32 (ct_notificationId_ r));
               ("continuousTaskId", JsInt32 (ct_continuousTaskId_ r))]%string))
          else reject (ce_SaveTaskRecord (se_cont an_app))))).
Proof.
  refine (script_start_outcome signed [SContext page; walking] the_work all_up new_client foreground eq_refl _).
  vm_compute. reflexivity.
Defined.

(** Updating by modes goes by the ability's info without a look: with none there is no
    outcome. *)
Definition no_info : AbilityContext := mkContext None true 7 true.
Example update_by_modes_faults :
  match nc_work (UpdateBackgroundRunning [SContext no_info; SArray [SString "location"]] true) with
  | Some work => (run_work work all_up new_client foreground).1.1
  | None => Some (Resolve None)
  end = None.
Proof. vm_compute. reflexivity. Qed.

(** ** Callbacks *)
#[local] Instance agrees : IBackgroundTaskMgr unit := fun r w => (ERR_OK, None, w).
Definition present : SaManager := mkSa true ERR_OK.
Definition its_impl : option RemoteProxy := Some (mkProxy None).
Definition on_cancel : list Script := [SString "continuousTaskCancel"; SFunction 5].

Definition one_callback : option (JsSubscriber Script) :=
  (OnOnContinuousTaskCallback present its_impl on_cancel None all_up new_client tt).1.1.2.

Lemma one_reachable : js_reachable (W := unit) one_callback.
Proof. eapply js_next; [apply js_start|]. apply step_on. Qed.

Definition the_subscriber : JsSubscriber Script := default (new_JsBackgroundTaskSubscriber None) one_callback.

Lemma registered_types_are_flagged_witness :
  (forall t, js_jsObserverObjectMap_ the_subscriber !! t <> None -> flagged (js_allCallBackTypes_ the_subscriber) t) /\
  (js_jsObserverObjectMap_ the_subscriber <> ∅ -> forall n st (w : unit), exists s',
     let subscribed := BackgroundTaskMgrHelper.SubscribeBackgroundTask (js_impl_ the_subscriber)
                         (js_allCallBackTypes_ the_subscriber) n st w in
     OnAddSystemAbility true (OnRemoveSystemAbility true one_callback) n st w = (Some s', subscribed.1.2, subscribed.2) /\
     js_jsObserverObjectMap_ s' = js_jsObserverObjectMap_ the_subscriber /\
     js_allCallBackTypes_ s' = js_allCallBackTypes_ the_subscriber).
Proof. exact (registered_types_are_flagged one_callback the_subscriber one_reachable eq_refl). Defined.

Definition stop_info : ContinuousTaskCallbackInfo :=
  mkCallbackInfo LOCATION 20000 30 "main" false true [LOCATION] 7 5 1 1 8 false 0 true "app" 100 0 [2] 0 "" "" false false false.

Lemma callbacks_hear_their_events_witness :
  let info := stop_info in let n := all_up in let st := new_client in
  (forall sa fresh, CheckOnParam on_cancel = Some "continuousTaskCancel"%string ->
     let r := OnOnContinuousTaskCallback sa fresh on_cancel one_callback n st tt in
     r.1.1.1 = [] -> heard (arg on_cancel 1) (deliver (event_of "continuousTaskCancel") info r.1.1.2) = 1%nat) /\
  (CheckOffParam on_cancel = Some "continuousTaskCancel"%string ->
     let r := OffOnContinuousTaskCallback on_cancel one_callback n st tt in
     (argc on_cancel = 2 -> heard (arg on_cancel 1) (deliver (event_of "continuousTaskCancel") info r.1.1.2) = 0%nat) /\
     (argc on_cancel = 1 -> forall cb, heard cb (deliver (event_of "continuousTaskCancel") info r.1.1.2) = 0%nat)).
Proof. exact (callbacks_hear_their_events one_callback on_cancel "continuousTaskCancel" stop_info all_up new_client tt one_reachable). Defined.

(** ** The end of a request *)
Definition grants : IBackgroundTaskMgr unit :=
  fun r w => (ERR_OK, match r return option (Out r) with RqRequestSuspendDelay _ => Some (mkDelayInfo 7 180000) | _ => None end, w).

Definition go_on : list Script := [SString "upload"; SFunction 5].
Definition requested := RequestSuspendDelay (H0 := grants) go_on true 100 its_impl [] all_up new_client tt.
(** Another request is cancelled meanwhile. *)
Definition later := (CancelSuspendDelay (H0 := grants) [SNumber 8] true requested.1.1.2 all_up new_client tt).1.1.2.

Lemma expiry_calls_its_callback_witness :
  let callback := mkInstance 100 (SFunction 5) in
  let after := (expired_task callback later).2 in
  (forall sent, OnExpired (V := Script) sent 100 [] = (None, [])) /\
  OnExpired true 100 later = (Some callback, later) /\
  (expired_task callback later).1 = (SFunction 5, CallFunction [Some (JsObject [("code", JsInt32 0); ("data", JsNull)])])%string /\
  OnExpired true 100 after = (None, after) /\
  (forall argv' isThrow' n' st' (w' : unit), (cancel_ParseParameters argv' isThrow' tt).1.1 = Some 7 ->
     let cancelled := (CancelSuspendDelay (H0 := grants) argv' isThrow' later n' st' w').1.1.2 in
     OnExpired true 100 cancelled = (None, cancelled)).
Proof.
  refine (expiry_calls_its_callback (H0 := grants) go_on true 100 its_impl [] all_up new_client tt 7 later _ _ _ _).
  - apply rtc_refl.
  - reflexivity.
  - reflexivity.
  - eapply rtc_once. eexists. split; [|apply (tc_cancel (H0 := grants) [SNumber 8] true)]. vm_compute. discriminate.
Defined.

(** ** Asking the user *)
#[local] Instance shows : UIContent := fun _ => 3.
Definition work_out : Script :=
  SObject 1 [("backgroundTaskModes", SArray [SNumber BackgroundTaskMode.MODE_SPECIAL_SCENARIO_PROCESSING]);
             ("backgroundTaskSubmodes", SArray [SNumber BackgroundTaskSubmode.SUBMODE_WORK_OUT_NORMAL_NOTIFICATION])]%string.

(** The dialog is shown, and the callback kept. *)
Example dialog_is_shown :
  (RequestAuthFromUserByDialog (H0 := grants) work_out [SContext page; SFunction 5] 100 its_impl ∅ all_up new_client tt).1.1 =
  Some (mkCall (RValue (JsInt32 0)) [] None, Some (mkModal 3 (Some page)), {[100 := SFunction 5]}).
Proof. vm_compute. reflexivity. Qed.

(** A callback that is no function is dereferenced as a null pointer. *)
Example auth_callback_faults :
  (RequestAuthFromUser (H0 := grants) work_out [SContext page; SNumber 5] 100 its_impl ∅ all_up new_client tt).1.1 = None.
Proof. vm_compute. reflexivity. Qed.

Lemma auth_callback_is_kept_witness :
  let m := ∅ : gmap Z Script in let argv := [SContext page; SFunction 5] in
  exists r dialog m' st' w',
    RequestAuth (H0 := grants) work_out argv 26 100 its_impl m all_up new_client tt = (Some (r, dialog, m'), st', w') /\
    ((nc_return r = RValue (JsInt32 0) /\ nc_thrown r = [] /\
      let callback := mkInstance 100 (arg argv 1) in
      OnExpiredAuth true 100 m' = (Some callback, m') /\
      forall authResult,
        expired_auth_task callback authResult m' = ((arg argv 1, CallFunction [Some (JsInt32 authResult)]), m) /\
        OnExpiredAuth true 100 m = (None, m)) \/
     (nc_return r = RValue JsNull /\ nc_thrown r <> [] /\ dialog = None /\ m' = m /\
      OnExpiredAuth true 100 m' = (None, m'))).
Proof. exact (auth_callback_is_kept (H0 := grants) work_out [SContext page; SFunction 5] 26 100 its_impl ∅ all_up new_client tt eq_refl eq_refl). Defined.

(** ** The module

    A request is made, then the user is asked for another. *)
Definition fresh (object : Z) : Fresh := mkFresh object its_impl present.
Definition with_request_made : ScriptModule Script :=
  (invoke (H0 := grants) F_RequestSuspendDelayThrow SUndefined go_on (fresh 100) module_start all_up new_client tt).1.1.2.

Lemma with_request_reachable : module_reachable (H1 := grants) with_request_made.
Proof. apply rtc_once. apply (ms_invoke (H1 := grants)). done. Qed.

Lemma module_calls_are_answered_witness :
  let argv := [SContext page; SFunction 6] in
  let r := (invoke (H0 := grants) F_RequestAuthFromUserByDialog work_out argv (fresh 101) with_request_made all_up new_client tt).1.1 in
  answered (H1 := grants) r.1 /\ module_ok r.2.
Proof.
  refine (module_calls_are_answered (H1 := grants) F_RequestAuthFromUserByDialog work_out [SContext page; SFunction 6] (fresh 101)
    with_request_made all_up new_client tt with_request_reachable _ _).
  - split; reflexivity.
  - reflexivity.
Defined.

Lemma exported_modes_are_startable_witness :
  (BackgroundTaskMode.MODE_LOCATION ∈ exported_modes <->
     exists subMode, subMode ∈ exported_submodes /\ check_submode BackgroundTaskMode.MODE_LOCATION subMode = ERR_OK) /\
  (BackgroundTaskSubmode.SUBMODE_NORMAL_NOTIFICATION ∈ exported_submodes <->
     exists mode, mode ∈ exported_modes /\ check_submode mode BackgroundTaskSubmode.SUBMODE_NORMAL_NOTIFICATION = ERR_OK) /\
  (check_submode BackgroundTaskMode.MODE_LOCATION BackgroundTaskSubmode.SUBMODE_NORMAL_NOTIFICATION = ERR_OK ->
     BackgroundTaskMode.MODE_LOCATION ∈ exported_modes /\ BackgroundTaskSubmode.SUBMODE_NORMAL_NOTIFICATION ∈ exported_submodes).
Proof. exact (exported_modes_are_startable BackgroundTaskMode.MODE_LOCATION BackgroundTaskSubmode.SUBMODE_NORMAL_NOTIFICATION). Defined.

From S2P Require Import ContinuousTaskMgr.
From S2P Require Import EtsBinding.

(** * The ArkTS binding on concrete inputs *)

Import BackgroundTaskMode BackgroundTaskSubmode.

#[local] Existing Instance default_params.
#[local] Existing Instance ListQueue.list_queue.
#[local] Existing Instance demo_actions.
#[local] Existing Instance demo_abilities.
#[local] Existing Instance ability_ids.
#[local] Existing Instance phone.
#[local] Existing Instance ContinuousWitness.tree.
#[local] Existing Instance no_records.
#[local] Existing Instance direct.
#[local] Existing Instance directly.
#[local] Existing Instance engine.

(** The values of the scripts of the other binding. *)
#[local] Instance runtime : AniApi Script := {|
  ani_IsStageContext := IsStageContext;
  ani_GetStageModeContext := GetStageModeContext;
  UnwrapWantAgent := napi_unwrap;
  FindEnumItem enum item := Some 1;
  callback_eq := script_equal;
|}.

Definition walk : ContinuousTaskRequestImpl :=
  setWantAgent (SAgent (mkWantAgent (Some (Some (mkWant "com.demo" "main" None)))))
    (setBackgroundTaskSubmodes [SUBMODE_NORMAL_NOTIFICATION] (setBackgroundTaskModes [MODE_LOCATION] CreateContinuousTaskRequest)).
Definition walk_call : AsyncCallbackInfo := as_set_request (as_napi walk None) (as_set_abilityContext (Some page) new_AsyncCallbackInfo).

Lemma bindings_start_alike_witness :
  (StartBackgroundRunningCheckModes walk_call).1.1 = true /\
  exists answer st' w',
    StartBackgroundRunningSync3 (SContext page) walk all_up new_client foreground = (notification answer, st', w') /\
    StartBackgroundRunningByRequestExecuteCB walk_call all_up new_client foreground =
      (Some (with_request_ids walk_call (converted (as_request walk_call)) answer), st', w').
Proof.
  split; [reflexivity|].
  edestruct (bindings_start_alike (SContext page) walk None walk_call page ("main"%string, 0) all_up new_client foreground)
    as (_ & _ & Halike); try reflexivity. by apply Halike.
Defined.

(** The script is given the ids of its task. *)
Example ets_start_answers :
  (StartBackgroundRunningSync3 (SContext page) walk all_up new_client foreground).1.1 =
  (Some (mkNotification 1 1 0 (Some 1)), []).
Proof. vm_compute. reflexivity. Qed.

(** A combined notification with the special scenario: sent from the one binding only. *)
Example combined_special :
  let r := setCombinedTaskNotification (Some true)
    (setBackgroundTaskSubmodes [SUBMODE_WORK_OUT_NORMAL_NOTIFICATION]
       (setBackgroundTaskModes [MODE_SPECIAL_SCENARIO_PROCESSING] CreateContinuousTaskRequest)) in
  CheckModesInner r = None /\
  (StartBackgroundRunningCheckModes (as_set_request (as_napi r None) new_AsyncCallbackInfo)).1.1 = false.
Proof. split; reflexivity. Qed.

(** Two types are listened to, and left one after the other: the service is still subscribed
    to the first. *)
Definition ani_up : SaManager := mkSa true 0.
Definition listener : Script := SFunction 1.
Example first_type_stays_subscribed :
  let remote := Some (mkProxy (Some 9)) in
  let '(_, sub, st, w) := OnContinuousTaskCancel listener ani_up remote None all_up new_client foreground in
  let '(_, sub, st, w) := ani_OnContinuousTaskSuspend listener ani_up remote sub all_up st w in
  let '(_, sub, st, w) := OffContinuousTaskCancel None sub all_up st w in
  an_allCallBackTypes_ <$> sub = Some 3.
Proof. vm_compute. reflexivity. Qed.

From S2P Require Import KeyInfo.
From S2P Require Import PkgDelaySuspendInfo.
From S2P Require Import DeviceInfo.
From S2P Require Import DecisionMaker.
From S2P Require Import TransientTaskMgrProps.
From S2P Require Import EfficiencyResourcesSpec.
From S2P Require Import NativeApi.

(** * The C interface on concrete inputs

    An application with one request, and the array of the interface. *)

#[local] Existing Instance default_params.
#[local] Existing Instance plain_config.
#[local] Existing Instance default_params_ok.
#[local] Existing Instance ListQueue.list_queue.
#[local] Existing Instance demo_actions.
#[local] Existing Instance demo_abilities.
#[local] Existing Instance ability_ids.
#[local] Existing Instance phone.
#[local] Existing Instance ContinuousWitness.tree.
#[local] Existing Instance no_records.
#[local] Existing Instance direct.
#[local] Existing Instance directly.

Definition with_one_request : Behind := (caller TOKEN_HAP 100, sv_set_transient demo_tm1 idle).
Definition empty_info : TransientTask_TransientTaskInfo := mkTransientInfo 0 [(0, 0); (0, 0); (0, 0)].

Example info_of_caller :
  exists st' w',
    OH_BackgroundTaskManager_GetTransientTaskInfo (Some empty_info) all_up new_client with_one_request =
    (Some (0, Some (mkTransientInfo 600000 [(1, 180000); (0, 0); (0, 0)])), st', w').
Proof. do 2 eexists. vm_compute. reflexivity. Qed.

Lemma transient_info_fits_witness :
  exists code info' st' w',
    OH_BackgroundTaskManager_GetTransientTaskInfo (Some empty_info) all_up new_client with_one_request =
      (Some (code, Some info'), st', w') /\
    length (oi_transientTasks info') = Z.to_nat TRANSIENT_TASK_MAX_NUM /\
    info_written signed with_one_request empty_info code info'.
Proof. exact (transient_info_fits signed 1000 demo_sys1 empty_info all_up new_client with_one_request demo_sys1_reachable eq_refl eq_refl). Defined.
